(* ===== verification/_CoqProject ===== *)
-Q . S2P
Prelude.v
SafeC.v
Base64.v
Jsmn.v
JsmnProps.v
JsmnRoundtrip.v
EstTypes.v
EstState.v
EstUtil.v
HttpParse.v
HttpIO.v
EnhCertAuth.v
HttpAuth.v
ServerAuth.v
ServerCsr.v
ServerEnroll.v
ServerDispatch.v
HttpConn.v
ServerConfig.v
MultipartParser.v
ClientHost.v
ClientHttp.v
ClientRequest.v
ClientCert.v
Client.v
Calendar.v
ClientBrski.v
EstLogic.v
EstUtilFacts.v
BrskiJson.v
ClientConfig.v
Search.v
Table.v
ProxyCtx.v
Proxy.v
ProxyConfig.v
CoapReq.v
CoapServer.v
ParseDate.v
ClientHostProps.v
HttpParseProps.v
HttpIOFacts.v
ServerAuthProps.v
HttpAuthProps.v
ServerCsrProps.v
ServerDispatchProps.v
ServerResponseProps.v
ServerConfigProps.v
ServerSafety.v
HttpConnProps.v
HttpStreamProps.v
ClientFacts.v
ClientProps.v
ClientBrskiProps.v
ClientProxy.v
ClientHttpProps.v
CredentialProps.v
AttrHelpers.v
ClientExchangeProps.v
Listener.v
ProxyFacts.v
ProxyCtxProps.v
ProxyProps.v
ProxyExchangeProps.v
CoapReqProps.v
CoapProps.v
CoapUploadProps.v
CoapReplyProps.v
Timers.v
CoapSafety.v
Tenants.v
TenantsProps.v
ServerApp.v
ServerAppProps.v
Toy.v
Witnesses.v
ClientWitnesses.v
ProxyWitnesses.v
CoapWitnesses.v
AppWitnesses.v
