(* ===== verification/Prelude.v ===== *)
(** * A verification of libEST

    libEST implements Enrollment over Secure Transport (RFC 7030): a client asks a
    server, over HTTP on a TLS session, for the CA certificates, for the attributes
    a CSR must have, and for a certificate.  The library is one C context, [EST_CTX],
    that an application configures and then hands to the server (src/src/est/
    est_server.c, with an embedded web server, est_server_http.c), to the client
    (est_client.c, est_client_http.c), or to the proxy (est_proxy.c), which is a server
    that serves its clients by being a client of another server.  Server and proxy also
    speak CoAP on a DTLS session (est_server_coap.c).  The repository adds a server
    application for several tenants (src/example/server).  This development models all
    of them, proves what each promises, and that they understand each other.

    ** How the model reads

    The code is embedded shallowly, function by function, under its own names.  Bytes
    are integers of type [Z], a C string is a list of them without its NUL, a buffer
    that a parser cuts in place is a list with offsets into it ([cstr_at]).  Pure
    functions are functions.  Code that changes state runs in the monad [M] of
    EstState: a function from a [world] to an optional result and world.  A world has
    the context ([w_ctx]), the connection of the web server ([w_conn]), the trace of
    what reached the outside ([w_trace]: bytes written, callbacks of the application,
    notifications, connections), and scripts for what the environment does: outcomes
    of allocations ([w_alloc], success when it is exhausted), of TLS writes
    ([w_ssl_write]), and the network ([w_net]: connection attempts, reads, random
    bytes).  [None] is undefined behaviour of the code, such as a NULL dereference;
    errors are values of [EST_ERROR].

    Most readers of text are total here: [rd] gives NUL outside its buffer, and [store]
    changes nothing there.  Where the bounds are what a theorem is about the access is
    checked and fails with [None]: the characters of a JSON text ([peek]), what lies in
    front of a base64 text ([last_non_whitespace]), the value of a challengePassword, the
    buffers of the CoAP requests and the byte behind [src_ipstr] ([clear_src_ipstr]), a
    truststore handed in by the application ([mem_buf]).  Theorems that say that a run
    completes say that none of the checked accesses fails; about the unchecked ones they
    say nothing, and the overruns that were found there are reported as findings.

    The TLS and X.509 library is the class [OpenSSL] of EstState, callbacks of the
    application are fields of the context, uriparser and libcurl are parameters, libcoap
    is the class [CoapLib]: of these the model assumes only what a theorem states.  Toy
    and CoapWitnesses have instances of the classes with which witnesses compute.  The
    handlers of CoAP run in a monad of their own, [CM], that adds their state and the
    jumps to [error_exit] to [M]; the pipeline of the server application runs in [A], over
    a map of files and a shell, and the performance timers in [TM], over a clock.

    ** The files

    - Prelude: bytes, integers, tactics and list lemmas.  SafeC: the bounded string
      and memory routines (safe_c_stub/src).  Base64: the encoding of RFC 4648.
    - EstTypes, EstState: the enumerations and limits (est.h, est_locl.h), the context,
      the monad.  EstUtil: URIs, operations, base64, hexadecimal printing, the
      channel binding, and the tokenizers (est.c).
    - The embedded web server (est_server_http.c): HttpParse reads a request, HttpIO
      writes an answer, HttpAuth reads the credentials, HttpConn is the loop over a
      connection.  HttpStreamProps has its abstract specification, a function of the
      bytes a client sends.  Listener starts and stops a server and takes its connections
      from their acceptance to their end.
    - The server (est_server.c): EnhCertAuth (est_enhcd_cert_auth.c), ServerAuth,
      ServerCsr, ServerEnroll with the handlers, ServerDispatch with
      [est_http_request], ServerConfig with the configuration calls.
    - The client: ClientHost (does the certificate name the server?), ClientHttp and
      MultipartParser (reading an answer: est_client_http.c, multipart_parser.c),
      ClientRequest (headers, credentials, sending), ClientCert (CSRs, PKCS7), Client
      (the operations), ClientConfig (the configuration calls), ClientProxy (sockets and
      HTTP and SOCKS proxies: est_client_proxy.c), ParseDate (the dates of Retry-After) over
      the days of Calendar.
    - BRSKI: ClientBrski (the voucher, its checks and the reports of a pledge) and Jsmn
      (the JSON parser, jsmn.c); JsmnRoundtrip has the grammar it is proved against.
    - For applications: AttrHelpers (the attributes of a CSR), Timers (the performance
      timers), both of est.c.
    - The server application: Tenants (multi_tenant_enrollment.c) with a reader of the
      shell's simple commands, ServerApp (the callbacks of estserver.c).
    - The proxy (est_proxy.c): ProxyCtx (the array of client contexts, one for each
      thread), Proxy (the requests it passes on), ProxyConfig (its creation and
      configuration).  It runs the functions of the server on its own context
      ([w_ctx]) and those of the client on the context of the thread ([with_client]).
    - Search has bsearch and qsort of the C library, Table what a sorted array of keyed
      nodes stands for: a finite map.  CoapReq is the array of CoAP requests in progress,
      CoapServer the handlers of the resources with their block-wise transfer and CBOR,
      the configuration and the start (est_server_coap.c).
    - EstLogic has the program logic: [sat R m] (every completed run relates its worlds
      by the preorder [R]), [safe I m] (every run from [I] completes), [head_if],
      [run_inv] and their automation.  The files named Facts hold the lemmas of a
      component, those named Props its theorems, ServerSafety the absence of undefined
      behaviour of the server, BrskiJson what a pledge reads in a voucher, CoapSafety the
      authorisation over CoAP, and the files named Witnesses closed instances over the
      library of Toy.  A small component has its theorems in its own file.

    A connection of the server runs through HttpConn, HttpParse, ServerDispatch,
    ServerEnroll, ServerAuth (with HttpAuth and EnhCertAuth) and HttpIO; an operation
    of the client through Client, ClientHost, ClientRequest, ClientHttp and back.  A
    request to the proxy runs through Proxy, ServerAuth and ServerCsr on the side of its
    client, ProxyCtx, and Client on the side of the upstream server.  A message over CoAP
    runs through CoapServer and CoapReq, and then the handlers of ServerEnroll or Proxy.

    ** What is proved

    - Authorisation: a service callback is made only for an authorised client and a
      checked CSR ([est_http_request_guarded], [est_enroll_auth_sound],
      [est_auth_cert_refused], [pop_check_iff], [mg_parse_auth_header_good] and the
      theorems on CSR attributes and enhanced certificate authentication).
    - Requests and connections run to completion ([est_http_request_total],
      [process_new_connection_total], [est_server_all_csrattrs_present_total]), in a build
      without uriparser, with memory, a DER reader that advances, configured attributes
      that are not blank ([attrs_text]) and an attribute callback that keeps its contract
      ([csr_cb_contract]), for bodies whose CSR can be checked ([readable_body]).  The last
      condition excludes what the code does not survive: a client that sends a CSR whose
      challengePassword has no value crashes the server ([empty_password_crashes]), and a
      blank text is decoded from in front of its buffer ([est_base64_decode_blank]).
    - The connection loop refines its specification, and the framing of the channel is
      invisible ([connection_refines_stream], [connection_framing]).
    - The life of a server: the settings of its TLS connections, every connection served
      or refused, and what a stop leaves behind ([server_lifecycle]).
    - The two endpoints: what the client writes is served as the operation with its
      CSR ([enroll_request_served]), with credentials too, which the server parses into
      what the client has ([login_served]); what the server answers is what the client's
      caller gets ([server_response_received]).
    - The client: the peer of a connection is the configured server
      ([est_client_connect_verified], [est_client_hostmatch_iff] against a declarative
      reading of the wildcard rules); credentials are sent only after a 401 and only
      in the mode it named ([enrollment_credentials]); a connection attempt leaves one
      open socket or none ([tcw_connect_owns_one]).
    - BRSKI: a pledge accepts a voucher only when its signature, serial number, nonce and
      pinned certificate are right ([voucher_accepted]), and its patience is bounded
      ([registrar_patience]); what it reads under a name is what follows the name in the
      document ([retrieve_token_reads]), since the JSON parser reads exactly the trees that
      are printed ([jsmn_parse_reads]), and ends without a look outside its text
      ([jsmn_parse_total]).
    - Dates of HTTP are read as the times they were written for, but for RFC 850 dates of
      1970 ([parsedate_reads_http_dates]).
    - The helpers of applications: the attributes of a CSR are read in their order
      ([attributes_read]); what the timers of a CoAP session log, and that no more time is
      logged than has passed ([session_log], [session_time_bound]).
    - The server application: an enrollment keeps to its tenant's directory and returns
      what the commands made ([tenant_enroll_isolated]); a path segment of a request stays
      one word of the command for the CA certificates ([tenant_cacerts_confined]); exactly
      the built-in or configured credentials are accepted ([app_checks_credentials]);
      every second request for a key is approved, through whichever callback and tenant
      it comes ([manual_enroll_alternates]).
    - The proxy: the upstream server is involved only for a client that is authorised
      and a CSR that is checked ([est_proxy_http_request_guarded]); a certificate reaches
      the client as the upstream server sent it ([proxy_enroll_transparent]); the array
      of contexts is a map from threads to contexts ([get_client_ctx_refines],
      [reachable_well_formed]), a request touches its own thread's only
      ([est_proxy_http_request_isolated]); the retry ends ([try_again_two_rounds]);
      the status of every error, and of the result the exchange with the upstream server
      had in the run ([est_proxy_http_request_status]); the length of a key generation
      answer is announced too small ([proxy_keygen_length]).
    - CoAP: a callback is made under the same conditions as over HTTP, and only for a
      client certificate ([coap_callbacks_guarded]); a request in blocks is handled as
      one in a single message ([coap_upload_blockwise]), unless it is longer than the
      buffer ([coap_block_overflow]); the array of requests is a map from keys to
      requests ([coap_requests_refine]), well-formed in every state of a server that was
      not started on port 0 ([coap_reachable_wf]), and a message touches the request under
      its own client's key only ([coap_handler_isolated]), which clients with ports of the
      same number of digits do not share, others may ([search_key_collision]); the CBOR of a generated key is what RFC 8949 reads
      ([skg_response_decodes]), and is sent again to whoever has the client's address
      and port ([skg_response_resumed]); the DTLS timeouts double up to a minute.
    - Configuration: an invariant of every sequence of calls, which return for the
      arguments a caller may pass, and what a refused call leaves ([config_invariant],
      [refused_call_atomic]).
    - Parsers and printers: HTTP requests, percent-encoding, hexadecimal text, base64,
      header lookup, URIs and operations; the responses byte for byte.

    ** Fuel

    Loops of the code are structural where their data allow it.  The others carry
    fuel, chosen where they are entered so that it cannot run out: a scanner gets the
    length of its buffer, the readers of a channel the number of entries and bytes of
    the script ([script_size]), the connection loop the bytes still to come (every
    round that goes on consumes one), the multipart parser two rounds for each byte,
    the ASN.1 walk the number of bytes of the data, a write the results still scripted
    and the bytes to send, a binary search the size of the array, the retry of the proxy
    two rounds, the JSON parser the length of its text, the reader of
    attributes the length of its data, the search for a year the 400 years of the calendar's
    period.  That fuel is enough is part of the theorems on termination and
    refinement.

    ** What is not modelled

    - What is inside the operating system, OpenSSL, libcurl and libcoap: the TLS
      handshake, the polling of sockets and the transfers through a proxy are inputs of
      the model, as are the outcomes of the shell's commands.
    - Logging and backtraces; the release of memory (est_destroy, proxy_cleanup); the
      helpers that are one call of OpenSSL (est_read_x509_request, est_load_key) and the
      accessors of the application's data; code for Windows.  A NULL context, which every
      call refuses at once, outside the configuration calls.
    - Two threads inside the array of the proxy's contexts at the same time, which the
      code does not synchronise, and an array of 2^30 nodes and more.
    - Of CoAP: what only calls libcoap (the opening and polling of its socket, its log,
      the hand-over of the server's credentials).
    - ClientHttp is the client of a build without RETRY_AFTER_DELAY_TIME_SUPPORT;
      ParseDate is the parser of a build with it, on its own.
    - Of the server application: its BRSKI callbacks, main, and ossl_srv.c, the ca command
      of OpenSSL made into a function.  The Java bindings, the other example programs and
      the unit tests.

    What is left is glue around other software or releases what was allocated: nothing of
    it takes part in the protocol. *)

From stdpp Require Export base list strings numbers.
From Stdlib Require Export ZArith Lia.

(** ** Bytes and C strings *)

(** A [char] of the source is an integer kept in [0 .. 255] (the value of its
    [unsigned char] conversion); a buffer is a list of them. *)
Abbreviation bytes := (list Z).

Declare Scope est_scope.
Delimit Scope est_scope with est.

(** The bytes of a C string literal, without its terminating NUL. *)
Fixpoint lit (s : string) : bytes :=
  match s with
  | EmptyString => []
  | String c s' => Z.of_N (Ascii.N_of_ascii c) :: lit s'
  end.

Arguments lit _%_string.
Open Scope est_scope.
Open Scope Z_scope.

#[global] Arguments Z.add : simpl never.
#[global] Arguments Z.sub : simpl never.
#[global] Arguments Z.mul : simpl never.
#[global] Arguments Z.opp : simpl never.
#[global] Arguments Z.div : simpl never.
#[global] Arguments Z.modulo : simpl never.
#[global] Arguments Z.eqb : simpl nomatch.
#[global] Arguments Z.ltb : simpl nomatch.
#[global] Arguments Z.leb : simpl nomatch.

Definition chr_nul : Z := 0.
Definition chr_tab : Z := 9.
Definition chr_lf : Z := 10.
Definition chr_cr : Z := 13.
Definition chr_space : Z := 32.
Definition chr_dquote : Z := 34.
Definition chr_percent : Z := 37.
Definition chr_plus : Z := 43.
Definition chr_comma : Z := 44.
Definition chr_dash : Z := 45.
Definition chr_dot : Z := 46.
Definition chr_slash : Z := 47.
Definition chr_zero : Z := 48.
Definition chr_nine : Z := 57.
Definition chr_colon : Z := 58.
Definition chr_equal : Z := 61.
Definition chr_question : Z := 63.
Definition chr_star : Z := 42.
Definition chr_backslash : Z := 92.

(** The two bytes of EST_HTTP_HDR_EOL. *)
Definition crlf : bytes := [13; 10].

Definition is_byte (c : Z) : Prop := 0 <= c < 256.
Definition are_bytes (s : bytes) : Prop := Forall is_byte s.

#[global] Instance is_byte_dec c : Decision (is_byte c).
Proof. unfold is_byte. apply _. Defined.

(** A C string: bytes none of which is NUL. *)
Definition no_nul (s : bytes) : Prop := Forall (fun c => c <> 0) s.

#[global] Instance no_nul_dec s : Decision (no_nul s).
Proof. unfold no_nul. apply _. Defined.

(** ** <ctype.h> in the C locale, on [unsigned char] values *)

Definition isspace (c : Z) : bool := ((9 <=? c) && (c <=? 13)) || (c =? 32).
Definition isdigit (c : Z) : bool := (48 <=? c) && (c <=? 57).
Definition isupper (c : Z) : bool := (65 <=? c) && (c <=? 90).
Definition islower (c : Z) : bool := (97 <=? c) && (c <=? 122).
Definition isprint (c : Z) : bool := (32 <=? c) && (c <=? 126).
Definition isxdigit (c : Z) : bool :=
  isdigit c || ((65 <=? c) && (c <=? 70)) || ((97 <=? c) && (c <=? 102)).
Definition tolower (c : Z) : Z := if isupper c then c + 32 else c.
Definition toupper (c : Z) : Z := if islower c then c - 32 else c.

(** ** Reading a buffer through a pointer *)

(** [rd buf i] is [buf[i]]; a read past the end of the list is a NUL, so a list
    that does not spell out its terminator is read as the C string it denotes. *)
Definition rd (buf : bytes) (i : nat) : Z := nth i buf 0.

(** The C string that starts a buffer: its bytes up to the first NUL. *)
Fixpoint cstr (buf : bytes) : bytes :=
  match buf with
  | [] => []
  | c :: r => if c =? 0 then [] else c :: cstr r
  end.

(** The C string at offset [i] of a buffer. *)
Definition cstr_at (buf : bytes) (i : nat) : bytes := cstr (drop i buf).

(** Set [n] bytes to NUL from offset [i] on (the loop [*p = 0] of the source). *)
Fixpoint zero_range (buf : bytes) (i n : nat) : bytes :=
  match n with
  | O => buf
  | S n' => zero_range (<[i := 0]> buf) (S i) n'
  end.

(** Store the bytes [src] from offset [i] on, as [memcpy] does. *)
Fixpoint store (buf : bytes) (i : nat) (src : bytes) : bytes :=
  match src with
  | [] => buf
  | c :: r => store (<[i := c]> buf) (S i) r
  end.

(** Does [s] start with [p]? *)
Fixpoint starts_with (p s : bytes) : bool :=
  match p, s with
  | [], _ => true
  | c :: p', d :: s' => (c =? d) && starts_with p' s'
  | _ :: _, [] => false
  end.

(** Membership of a byte in a list of bytes. *)
Definition mem (c : Z) (l : bytes) : bool := existsb (Z.eqb c) l.

(** ** Machine integers *)

Definition INT_MAX : Z := 2147483647.
Definition INT_MIN : Z := -2147483648.
Definition in_int (z : Z) : Prop := INT_MIN <= z <= INT_MAX.

(** Two's complement reduction to [w] bits, unsigned and signed. *)
Definition wrap_u (w z : Z) : Z := z mod 2 ^ w.
Definition wrap_s (w z : Z) : Z :=
  let u := z mod 2 ^ w in if u <? 2 ^ (w - 1) then u else u - 2 ^ w.

(** ** Decimal printing (the [%d] conversion) *)

Fixpoint dec_digits (fuel : nat) (n : Z) (acc : bytes) : bytes :=
  match fuel with
  | O => acc
  | S f => let acc' := (48 + n mod 10) :: acc in
           if n <? 10 then acc' else dec_digits f (n / 10) acc'
  end.

(** An [int] has at most ten digits, a 64-bit one at most twenty. *)
Definition fmt_d (n : Z) : bytes :=
  if n <? 0 then chr_dash :: dec_digits 20 (- n) [] else dec_digits 20 n [].

(** The number of digits. *)
Lemma dec_digits_bound k f n acc : 0 <= n < 10 ^ Z.of_nat (S k) ->
  (length (dec_digits f n acc) <= S k + length acc)%nat.
Proof.
  revert f n acc. induction k as [|k IH]; intros [|f] n acc Hn; cbn [dec_digits]; try lia.
  - rewrite (proj2 (Z.ltb_lt n 10)) by (cbn in Hn; lia). cbn. lia.
  - destruct (n <? 10) eqn:E; [cbn; lia|]. etrans; [apply IH|cbn; lia].
    rewrite Nat2Z.inj_succ, Z.pow_succ_r in Hn by lia.
    split; [apply Z.div_pos; lia|apply Z.div_lt_upper_bound; lia].
Qed.

Lemma fmt_d_short k n : 0 <= n < 10 ^ Z.of_nat (S k) -> (length (fmt_d n) <= S k)%nat.
Proof.
  intros Hn. unfold fmt_d. rewrite (proj2 (Z.ltb_ge n 0)) by lia.
  etrans; [by apply dec_digits_bound|cbn; lia].
Qed.

(** ** Record updates *)

(** The value of [c] with field [proj] set to [v], given the function [eta] that
    rebuilds a record from its fields. *)
Ltac update_field eta proj v c :=
  let e := eval cbv beta delta [eta] in (eta c) in
  let t := eval pattern (proj c) in e in
  lazymatch t with ?f _ => let r := eval cbv beta in (f v) in exact r end.

(** ** Automation *)

Create HintDb est discriminated.
Create Rewrite HintDb est_rw.

Ltac destr_if :=
  match goal with
  | |- context [if ?c then _ else _] => let E := fresh "E" in destruct c eqn:E
  | H : context [if ?c then _ else _] |- _ => let E := fresh "E" in destruct c eqn:E
  end.

Ltac destr_match :=
  match goal with
  | |- context [match ?c with _ => _ end] => let E := fresh "E" in destruct c eqn:E
  end.

Ltac destr_match_in H :=
  match type of H with
  | context [match ?c with _ => _ end] => let E := fresh "E" in destruct c eqn:E
  end.

(** Turn boolean comparisons of the context into the propositions they decide. *)
Ltac b2p :=
  repeat match goal with
  | H : (_ && _)%bool = true |- _ => apply andb_true_iff in H; destruct H
  | H : (_ || _)%bool = false |- _ => apply orb_false_iff in H; destruct H
  | H : (_ && _)%bool = false |- _ => apply andb_false_iff in H
  | H : (_ || _)%bool = true |- _ => apply orb_true_iff in H
  | H : negb _ = true |- _ => apply negb_true_iff in H
  | H : negb _ = false |- _ => apply negb_false_iff in H
  | H : (_ =? _) = true |- _ => apply Z.eqb_eq in H
  | H : (_ =? _) = false |- _ => apply Z.eqb_neq in H
  | H : (_ <? _) = true |- _ => apply Z.ltb_lt in H
  | H : (_ <? _) = false |- _ => apply Z.ltb_ge in H
  | H : (_ <=? _) = true |- _ => apply Z.leb_le in H
  | H : (_ <=? _) = false |- _ => apply Z.leb_gt in H
  | H : (_ =? _)%nat = true |- _ => apply Nat.eqb_eq in H
  | H : (_ =? _)%nat = false |- _ => apply Nat.eqb_neq in H
  | H : (_ <? _)%nat = true |- _ => apply Nat.ltb_lt in H
  | H : (_ <? _)%nat = false |- _ => apply Nat.ltb_ge in H
  | H : (_ <=? _)%nat = true |- _ => apply Nat.leb_le in H
  | H : (_ <=? _)%nat = false |- _ => apply Nat.leb_gt in H
  | H : bool_decide _ = true |- _ => apply bool_decide_eq_true_1 in H
  | H : bool_decide _ = false |- _ => apply bool_decide_eq_false_1 in H
  end.

(** ** Lemmas on buffers *)

Lemma mem_true c l : mem c l = true <-> In c l.
Proof.
  unfold mem. rewrite existsb_exists. split.
  - intros (x & Hin & Heq). b2p. by subst.
  - intros Hin. exists c. by rewrite Z.eqb_refl.
Qed.

Lemma mem_false c l : mem c l = false <-> ~ In c l.
Proof. rewrite <- mem_true. by destruct (mem c l). Qed.

Lemma cstr_no_nul buf : no_nul (cstr buf).
Proof.
  induction buf as [|c r IH]; simpl; [constructor|].
  destr_if; [constructor|]. b2p. by constructor.
Qed.

Lemma cstr_id s : no_nul s -> cstr s = s.
Proof.
  induction 1 as [|c r Hc Hr IH]; simpl; [done|].
  apply Z.eqb_neq in Hc. by rewrite Hc, IH.
Qed.

Lemma cstr_app s r : no_nul s -> cstr (s ++ 0 :: r) = s.
Proof.
  induction 1 as [|c l Hc Hl IH]; simpl; [done|].
  apply Z.eqb_neq in Hc. by rewrite Hc, IH.
Qed.

Lemma cstr_length buf : (length (cstr buf) <= length buf)%nat.
Proof. induction buf; simpl; [lia|]. destr_if; simpl; lia. Qed.

Lemma cstr_prefix buf : cstr buf = take (length (cstr buf)) buf.
Proof. induction buf; simpl; [done|]. destr_if; simpl; congruence. Qed.

Lemma rd_cstr_end buf : rd buf (length (cstr buf)) = 0.
Proof.
  unfold rd. induction buf as [|c r IH]; simpl; [done|].
  destruct (c =? 0) eqn:E; simpl; [by b2p|exact IH].
Qed.

Lemma rd_drop buf i j : rd (drop i buf) j = rd buf (i + j).
Proof.
  unfold rd. revert i; induction buf as [|c r IH]; intros [|i]; simpl; try done.
  by destruct j.
Qed.

Lemma rd_app_l s r i : (i < length s)%nat -> rd (s ++ r) i = rd s i.
Proof. intros. unfold rd. by rewrite app_nth1. Qed.

Lemma rd_app_r s r i : rd (s ++ r) (length s + i) = rd r i.
Proof. unfold rd. rewrite app_nth2 by lia. f_equal. lia. Qed.

Lemma length_zero_range n buf i : length (zero_range buf i n) = length buf.
Proof. revert buf i; induction n; intros; simpl; [done|]. by rewrite IHn, length_insert. Qed.

Lemma length_store src buf i : length (store buf i src) = length buf.
Proof. revert buf i; induction src; intros; simpl; [done|]. by rewrite IHsrc, length_insert. Qed.

Lemma zero_range_app pre mid post :
  zero_range (pre ++ mid ++ post) (length pre) (length mid)
  = pre ++ replicate (length mid) 0 ++ post.
Proof.
  revert pre; induction mid as [|c m IH]; intros pre; simpl; [done|].
  rewrite insert_app_r_alt by lia. rewrite Nat.sub_diag. simpl.
  replace (pre ++ 0 :: m ++ post) with ((pre ++ [0]) ++ m ++ post)
    by (by rewrite <- app_assoc).
  replace (S (length pre)) with (length (pre ++ [0])) by (rewrite length_app; simpl; lia).
  rewrite IH. by rewrite <- app_assoc.
Qed.

Lemma starts_with_spec p s : starts_with p s = true <-> exists r, s = p ++ r.
Proof.
  revert s; induction p as [|c p IH]; intros [|d s]; simpl.
  - split; [by exists []|done].
  - split; [by exists (d :: s)|done].
  - split; [done|intros [r H]; discriminate].
  - rewrite andb_true_iff, IH, Z.eqb_eq. split.
    + intros [-> [r ->]]. by exists r.
    + intros [r H]. injection H as -> ->. by eauto.
Qed.

Lemma starts_with_app p r : starts_with p (p ++ r) = true.
Proof. apply starts_with_spec. by exists r. Qed.

#[export] Hint Resolve cstr_no_nul : est.
#[export] Hint Rewrite length_zero_range length_store : est_rw.

(** ** Copies of C strings *)

Lemma store_all_aux src pre buf :
  length src = length buf -> store (pre ++ buf) (length pre) src = pre ++ src.
Proof.
  revert pre buf; induction src as [|c r IH]; intros pre [|b buf] Hl; simpl in *; try lia.
  - by rewrite !app_nil_r.
  - rewrite insert_app_r_alt by lia. rewrite Nat.sub_diag. simpl.
    replace (pre ++ c :: buf) with ((pre ++ [c]) ++ buf) by (by rewrite <- app_assoc).
    replace (S (length pre)) with (length (pre ++ [c])) by (rewrite length_app; simpl; lia).
    rewrite IH by lia. by rewrite <- app_assoc.
Qed.

Lemma store_all src buf : length src = length buf -> store buf 0 src = src.
Proof. intros H. exact (store_all_aux src [] buf H). Qed.

Lemma no_nul_take n s : no_nul s -> no_nul (take n s).
Proof. intros H. by apply Forall_take. Qed.

Lemma no_nul_app s r : no_nul s -> no_nul r -> no_nul (s ++ r).
Proof. intros. by apply Forall_app. Qed.

Lemma cstr_zeros n : cstr (replicate n 0) = [].
Proof. by destruct n. Qed.

#[export] Hint Resolve no_nul_take no_nul_app : est.
