(* ===== verification/SafeC.v ===== *)
(** * SafeC: the bounded string and memory routines of safe_c_stub

    The functions of safe_c_stub/src/safe_str_stub.c and safe_mem_stub.c that
    libEST calls, with their NULL, zero-length and RSIZE_MAX checks, the result
    being the [errno_t] and the value of each output parameter.  A source string
    is the list of its bytes ([rd] past the end is the terminating NUL); a
    destination buffer is a list the routine updates in place.  [None] for a
    pointer argument is a NULL pointer.  Sizes are [Z] ([rsize_t]). *)

From S2P Require Import Prelude.

(** ** Error numbers (safe_lib_errno.h) *)

Definition errno_t := Z.
Definition EOK : errno_t := 0.
Definition ESNULLP : errno_t := 400.
Definition ESZEROL : errno_t := 401.
Definition ESLEMAX : errno_t := 403.
Definition ESOVRLP : errno_t := 404.
Definition ESNOSPC : errno_t := 406.
(** [ESRCH] of <errno.h>, the result of an unsuccessful [strstr_s]. *)
Definition ESRCH : errno_t := 3.

(** RSIZE_MAX is SIZE_MAX/2 with a 64-bit [size_t], and the string and memory
    limits are RSIZE_MAX. *)
Definition RSIZE_MAX : Z := (2 ^ 64 - 1) / 2.
Definition RSIZE_MAX_STR : Z := RSIZE_MAX.
Definition RSIZE_MAX_MEM : Z := RSIZE_MAX.

(** ** The C library routines the stubs wrap *)

(** [strncmp]: the difference of the first bytes that differ among the first
    [n], stopping at a NUL. *)
Fixpoint strncmp_fuel (s1 s2 : bytes) (n : nat) : Z :=
  match n with
  | O => 0
  | S n' =>
      let c := hd 0 s1 in
      let d := hd 0 s2 in
      if negb (c =? d) then c - d
      else if c =? 0 then 0
      else strncmp_fuel (tail s1) (tail s2) n'
  end.

(** No more than the shorter string and its NUL is ever compared, so the count
    is cut there (the bound [n] may be as large as RSIZE_MAX). *)
Definition strncmp (s1 s2 : bytes) (n : Z) : Z :=
  strncmp_fuel s1 s2 (Z.to_nat (Z.min n (Z.of_nat (length s1) + 1))).

Definition strnlen (s : bytes) (smax : Z) : Z :=
  Z.min (Z.of_nat (length (cstr s))) smax.

(** [strncpy]: [n] bytes are written, the source up to its NUL and NULs after. *)
Definition strncpy (dest src : bytes) (n : Z) : bytes :=
  let k := Z.to_nat n in
  let s := take k (cstr src) in
  store dest 0 (s ++ replicate (k - length s) 0).

(** [strstr] for the first occurrence of [pat] in the C string [s]. *)
Fixpoint strstr_from (s pat : bytes) (i : nat) : option nat :=
  if starts_with pat s then Some i
  else match s with
       | [] => None
       | _ :: r => strstr_from r pat (S i)
       end.
Definition strstr (s pat : bytes) : option nat := strstr_from (cstr s) (cstr pat) 0.

(** [memcmp] on the first [n] bytes. *)
Fixpoint memcmp_fuel (s1 s2 : bytes) (n : nat) : Z :=
  match n with
  | O => 0
  | S n' => let c := hd 0 s1 in
            let d := hd 0 s2 in
            if c =? d then memcmp_fuel (tail s1) (tail s2) n' else c - d
  end.
Definition memcmp (s1 s2 : bytes) (n : Z) : Z := memcmp_fuel s1 s2 (Z.to_nat n).

Definition memset (dest : bytes) (c n : Z) : bytes :=
  store dest 0 (replicate (Z.to_nat n) (wrap_u 8 c)).

(** ** safe_str_stub.c *)

Definition strcmp_s (dest : option bytes) (dmax : Z) (src : option bytes)
    (indicator : Z) : errno_t * Z :=
  match src, dest with
  | Some s, Some d =>
      if dmax =? 0 then (ESZEROL, indicator)
      else (EOK, strncmp d s dmax)
  | _, _ => (ESNULLP, indicator)
  end.

Fixpoint strcasecmp_loop (udest usrc : bytes) (dmax : Z) : Z :=
  match udest, usrc with
  | c :: d, e :: s =>
      if (c =? 0) || (e =? 0) || (dmax =? 0) then toupper c - toupper e
      else if negb (toupper c =? toupper e) then toupper c - toupper e
      else strcasecmp_loop d s (dmax - 1)
  | _, _ => toupper (hd 0 udest) - toupper (hd 0 usrc)
  end.

Definition strcasecmp_s (dest : option bytes) (dmax : Z) (src : option bytes)
    : errno_t * Z :=
  match dest with
  | None => (ESNULLP, 0)
  | Some d =>
    match src with
    | None => (ESNULLP, 0)
    | Some s =>
      if dmax =? 0 then (ESZEROL, 0)
      else if dmax >? RSIZE_MAX_STR then (ESLEMAX, 0)
      else (EOK, strcasecmp_loop d s dmax)
    end
  end.

(** [strisdigit_s]: 1 exactly for a non-empty string of decimal digits. *)
Definition strisdigit_s (dest : option bytes) (dmax : Z) : bool :=
  match dest with
  | None => false
  | Some d =>
      if dmax =? 0 then false
      else if dmax >? RSIZE_MAX_STR then false
      else if rd d 0 =? 0 then false
      else forallb isdigit (cstr d)
  end.

(** The inner loop of [strcspn_s] and [strspn_s]: is [c] among the first [smax]
    bytes of [src]? *)
Fixpoint scan2 (c : Z) (src : bytes) (smax : Z) : bool :=
  match src with
  | [] => false
  | s :: r => if (s =? 0) || (smax =? 0) then false
              else if c =? s then true else scan2 c r (smax - 1)
  end.

Fixpoint strcspn_loop (dest : bytes) (dmax : Z) (src : bytes) (slen count : Z) : Z :=
  match dest with
  | [] => count
  | c :: d => if (c =? 0) || (dmax =? 0) then count
              else if scan2 c src slen then count
              else strcspn_loop d (dmax - 1) src slen (count + 1)
  end.

Fixpoint strspn_loop (dest : bytes) (dmax : Z) (src : bytes) (slen count : Z) : Z :=
  match dest with
  | [] => count
  | c :: d => if (c =? 0) || (dmax =? 0) then count
              else if scan2 c src slen
                   then strspn_loop d (dmax - 1) src slen (count + 1)
                   else count
  end.

(** The argument checks the two routines share. *)
Definition span_check (dest src : option bytes) (dmax slen : Z)
    (body : bytes -> bytes -> Z) : errno_t * Z :=
  match dest with
  | None => (ESNULLP, 0)
  | Some d =>
    match src with
    | None => (ESNULLP, 0)
    | Some s =>
      if dmax =? 0 then (ESZEROL, 0)
      else if dmax >? RSIZE_MAX_STR then (ESLEMAX, 0)
      else if slen =? 0 then (ESZEROL, 0)
      else if slen >? RSIZE_MAX_STR then (ESLEMAX, 0)
      else (EOK, body d s)
    end
  end.

Definition strcspn_s (dest : option bytes) (dmax : Z) (src : option bytes) (slen : Z)
    : errno_t * Z :=
  span_check dest src dmax slen (fun d s => strcspn_loop d dmax s slen 0).

Definition strspn_s (dest : option bytes) (dmax : Z) (src : option bytes) (slen : Z)
    : errno_t * Z :=
  span_check dest src dmax slen (fun d s => strspn_loop d dmax s slen 0).

Definition strcpy_s (dest : bytes) (dmax : Z) (src : option bytes) : errno_t * bytes :=
  match src with
  | None => (ESNULLP, dest)
  | Some s => if dmax =? 0 then (ESZEROL, dest) else (EOK, strncpy dest s dmax)
  end.

(** The string at [dest] with at most [dmax] characters of [src] behind it. *)
Definition strcat_s (dest : option bytes) (dmax : Z) (src : option bytes) : errno_t * option bytes :=
  match src, dest with
  | Some s, Some d =>
      if dmax =? 0 then (ESZEROL, Some d)
      else (EOK, Some (cstr d ++ take (Z.to_nat dmax) (cstr s)))
  | _, _ => (ESNULLP, dest)
  end.

(** The copy loop of [strncpy_s].  [gap] is the number of bytes the moving
    pointer is away from the other buffer's start ([None]: it never meets it). *)
Fixpoint strncpy_loop (dmax : nat) (dest : bytes) (i : nat) (src : bytes) (slen : Z)
    (gap : option Z) : errno_t * bytes :=
  match dmax with
  | O => (ESNOSPC, <[0%nat := 0]> dest)
  | S dmax' =>
      match gap with
      | Some 0 => (ESOVRLP, <[0%nat := 0]> dest)
      | _ =>
        if slen =? 0 then (EOK, <[i := 0]> dest)
        else let c := hd 0 src in
             if c =? 0 then (EOK, <[i := 0]> dest)
             else strncpy_loop dmax' (<[i := c]> dest) (S i) (tail src) (slen - 1)
                    (match gap with Some g => Some (g - 1) | None => None end)
      end
  end.

Definition strncpy_s (dest : option bytes) (dmax : Z) (src : option bytes) (slen : Z)
    (gap : option Z) : errno_t * option bytes :=
  match dest with
  | None => (ESNULLP, None)
  | Some d =>
      if dmax =? 0 then (ESZEROL, Some d)
      else if dmax >? RSIZE_MAX_STR then (ESLEMAX, Some d)
      else match src with
           | None => (ESNULLP, Some (<[0%nat := 0]> d))
           | Some s =>
               let d' := if slen >? RSIZE_MAX_STR then <[0%nat := 0]> d else d in
               let '(e, r) := strncpy_loop (Z.to_nat dmax) d' 0 s slen gap in
               (e, Some r)
           end
  end.

Definition strnlen_s (s : option bytes) (smax : Z) : Z :=
  match s with None => 0 | Some x => strnlen x smax end.

Definition strstr_s (dest : bytes) (dmax : Z) (src : bytes) (slen : Z)
    : errno_t * option nat :=
  match strstr dest src with
  | Some i => (EOK, Some i)
  | None => (ESRCH, None)
  end.

(** What [snprintf] of the C library leaves in a buffer of [size] bytes. *)
Definition snprintf (size : Z) (text : bytes) : bytes := take (Z.to_nat (size - 1)) text.

Lemma snprintf_fits size text : Z.of_nat (length text) < size -> snprintf size text = text.
Proof. intros H. unfold snprintf. apply take_ge. lia. Qed.

Definition STRTOK_DELIM_MAX_LEN : Z := 16.

(** The scan of the delimiter list for one byte: the list was longer than the
    limit, the byte is a delimiter, or it is not. *)
Inductive delim_scan := TooLong | Delim | NotDelim.

Fixpoint tok_scan (c : Z) (pt : bytes) (slen : Z) : delim_scan :=
  match pt with
  | [] => NotDelim
  | p :: r => if p =? 0 then NotDelim
              else if slen =? 0 then TooLong
              else if c =? p then Delim else tok_scan c r (slen - 1)
  end.

(** What [strtok_s] leaves behind: the token, the buffer, [*dmax] and [*ptr]. *)
Record strtok_res := {
  tk_token : option nat;
  tk_buf : bytes;
  tk_dmax : Z;
  tk_ptr : option nat
}.

(** The second loop: find the end of the token that starts at [ptoken]. *)
Fixpoint strtok_end (fuel : nat) (buf : bytes) (dest : nat) (dlen dmax : Z) (src : bytes)
    (ptoken : nat) (ptr : option nat) : strtok_res :=
  match fuel with
  | O => Build_strtok_res (Some ptoken) buf dlen ptr
  | S f =>
    if rd buf dest =? 0 then Build_strtok_res (Some ptoken) buf dlen ptr
    else if dlen =? 0 then Build_strtok_res None buf dmax None
    else match tok_scan (rd buf dest) src STRTOK_DELIM_MAX_LEN with
         | TooLong => Build_strtok_res None buf dmax None
         | Delim => Build_strtok_res (Some ptoken) (<[dest := 0]> buf) (dlen - 1)
                      (Some (dest + 1)%nat)
         | NotDelim => strtok_end f buf (S dest) (dlen - 1) dmax src ptoken ptr
         end
  end.

(** The first loop: skip delimiters up to the start of a token.  With no
    delimiters at all no byte starts a token. *)
Fixpoint strtok_start (fuel : nat) (buf : bytes) (dest : nat) (dlen dmax : Z) (src : bytes)
    (ptr : option nat) : strtok_res :=
  match fuel with
  | O => Build_strtok_res None buf dlen ptr
  | S f =>
    if rd buf dest =? 0 then Build_strtok_res None buf dlen ptr
    else if dlen =? 0 then Build_strtok_res None buf dmax None
    else match tok_scan (rd buf dest) src STRTOK_DELIM_MAX_LEN with
         | TooLong => Build_strtok_res None buf dmax None
         | Delim => strtok_start f buf (S dest) (dlen - 1) dmax src ptr
         | NotDelim =>
             if rd src 0 =? 0 then strtok_start f buf (S dest) (dlen - 1) dmax src ptr
             else strtok_end f buf (S dest) (dlen - 1) dmax src dest ptr
         end
  end.

(** [strtok_s] on the buffer [buf]; the pointers are offsets into it.  The fuel
    covers every byte up to the buffer's end. *)
Definition strtok_s (buf : bytes) (dest : option nat) (dmax : option Z)
    (src : option bytes) (ptr : option nat) : strtok_res :=
  match dmax, src with
  | Some dm, Some s =>
      if dm =? 0 then Build_strtok_res None buf dm ptr
      else if dm >? RSIZE_MAX_STR then Build_strtok_res None buf dm ptr
      else match (match dest with Some d => Some d | None => ptr end) with
           | None => Build_strtok_res None buf dm ptr
           | Some d => strtok_start (S (length buf)) buf d dm dm s ptr
           end
  | dm, _ => Build_strtok_res None buf (default 0 dm) ptr
  end.

(** ** safe_mem_stub.c *)

Definition memzero_s (dest : option bytes) (dmax : Z) : errno_t * option bytes :=
  match dest with
  | None => (ESNULLP, None)
  | Some d => (EOK, Some (memset d 0 dmax))
  end.

Definition memcpy_s (dest : option bytes) (dmax : Z) (src : option bytes) (slen : Z)
    : errno_t * option bytes :=
  match src, dest with
  | Some s, Some d => if slen >? dmax then (ESLEMAX, Some d)
                      else (EOK, Some (store d 0 (take (Z.to_nat slen) s)))
  | _, _ => (ESNULLP, dest)
  end.

Definition memcmp_s (dest : option bytes) (dmax : Z) (src : option bytes) (slen diff : Z)
    : errno_t * Z :=
  match src, dest with
  | Some s, Some d =>
      if dmax =? 0 then (ESZEROL, diff)
      else if slen =? 0 then (ESZEROL, diff)
      else if slen >? dmax then (ESLEMAX, diff)
      else (EOK, memcmp d s slen)
  | _, _ => (ESNULLP, diff)
  end.

(** [memmove_s] inside one buffer, from offset [sp] to offset [dp]. *)
Definition memmove_s (buf : bytes) (dp : nat) (dmax : Z) (sp : nat) (smax : Z)
    : errno_t * bytes :=
  let fill := store buf dp (replicate (Z.to_nat dmax) 0) in
  if dmax =? 0 then (ESZEROL, buf)
  else if dmax >? RSIZE_MAX_MEM then (ESLEMAX, buf)
  else if smax =? 0 then (ESZEROL, fill)
  else if smax >? dmax then (ESLEMAX, fill)
  else (EOK, store buf dp (take (Z.to_nat smax) (drop sp buf))).

Definition memset_s (s : option bytes) (smax c n : Z) : errno_t * option bytes :=
  match s with
  | None => (ESNULLP, None)
  | Some d =>
      if smax >? RSIZE_MAX_MEM then (ESLEMAX, Some d)
      else if n >? RSIZE_MAX_MEM then (ESLEMAX, Some (memset d c smax))
      else if n >? smax then (ESLEMAX, Some (memset d c smax))
      else (EOK, Some (memset d c n))
  end.

(** ** What the scanning routines compute *)

(** The longest prefix free of the bytes of [d], and the longest made of them. *)
Fixpoint prefix_out (s d : bytes) : bytes :=
  match s with
  | [] => []
  | c :: r => if mem c d then [] else c :: prefix_out r d
  end.

Fixpoint prefix_in (s d : bytes) : bytes :=
  match s with
  | [] => []
  | c :: r => if mem c d then c :: prefix_in r d else []
  end.

Lemma scan2_mem c src smax :
  Z.of_nat (length (cstr src)) <= smax -> scan2 c src smax = mem c (cstr src).
Proof.
  revert smax; induction src as [|s r IH]; intros smax Hl; simpl in *; [done|].
  destruct (s =? 0) eqn:E0; simpl in *; [done|].
  destruct (smax =? 0) eqn:E1; b2p; [lia|].
  destruct (c =? s); simpl; [done|]. apply IH. lia.
Qed.

Lemma strcspn_loop_spec dest dmax src slen count :
  Z.of_nat (length (cstr dest)) <= dmax ->
  Z.of_nat (length (cstr src)) <= slen ->
  strcspn_loop dest dmax src slen count
  = count + Z.of_nat (length (prefix_out (cstr dest) (cstr src))).
Proof.
  intros Hd Hs. revert dmax count Hd.
  induction dest as [|c d IH]; intros dmax count Hd; simpl in *; [lia|].
  destruct (c =? 0) eqn:E0; simpl in *; [lia|].
  destruct (dmax =? 0) eqn:E1; b2p; [lia|].
  rewrite scan2_mem by done. destruct (mem c (cstr src)); simpl; [lia|].
  rewrite IH by lia. lia.
Qed.

Lemma strspn_loop_spec dest dmax src slen count :
  Z.of_nat (length (cstr dest)) <= dmax ->
  Z.of_nat (length (cstr src)) <= slen ->
  strspn_loop dest dmax src slen count
  = count + Z.of_nat (length (prefix_in (cstr dest) (cstr src))).
Proof.
  intros Hd Hs. revert dmax count Hd.
  induction dest as [|c d IH]; intros dmax count Hd; simpl in *; [lia|].
  destruct (c =? 0) eqn:E0; simpl in *; [lia|].
  destruct (dmax =? 0) eqn:E1; b2p; [lia|].
  rewrite scan2_mem by done. destruct (mem c (cstr src)); simpl; [|lia].
  rewrite IH by lia. lia.
Qed.

Lemma prefix_out_length s d : (length (prefix_out s d) <= length s)%nat.
Proof. induction s; simpl; [lia|]. destr_if; simpl; lia. Qed.

Lemma prefix_in_length s d : (length (prefix_in s d) <= length s)%nat.
Proof. induction s; simpl; [lia|]. destr_if; simpl; lia. Qed.

Lemma prefix_out_app w d c r :
  Forall (fun x => ~ In x d) w -> In c d -> prefix_out (w ++ c :: r) d = w.
Proof.
  intros Hw Hc. induction Hw as [|x w Hx Hw IH]; simpl.
  - apply mem_true in Hc. by rewrite Hc.
  - apply mem_false in Hx. by rewrite Hx, IH.
Qed.

Lemma prefix_out_all w d : Forall (fun x => ~ In x d) w -> prefix_out w d = w.
Proof.
  induction 1 as [|x w Hx Hw IH]; simpl; [done|].
  apply mem_false in Hx. by rewrite Hx, IH.
Qed.

Lemma prefix_in_app w d c r :
  Forall (fun x => In x d) w -> ~ In c d -> prefix_in (w ++ c :: r) d = w.
Proof.
  intros Hw Hc. induction Hw as [|x w Hx Hw IH]; simpl.
  - apply mem_false in Hc. by rewrite Hc.
  - apply mem_true in Hx. by rewrite Hx, IH.
Qed.

Lemma prefix_in_all w d : Forall (fun x => In x d) w -> prefix_in w d = w.
Proof.
  induction 1 as [|x w Hx Hw IH]; simpl; [done|].
  apply mem_true in Hx. by rewrite Hx, IH.
Qed.

(** [strcasecmp_s] reports 0 exactly for strings equal up to case. *)
Lemma strcasecmp_loop_zero d s dmax :
  no_nul d -> no_nul s -> are_bytes d -> are_bytes s ->
  Z.of_nat (length d) <= dmax ->
  strcasecmp_loop d s dmax = 0 <-> map toupper d = map toupper s.
Proof.
  assert (Hz : forall c, is_byte c -> c <> 0 -> toupper c <> 0).
  { intros c Hb Hc. unfold is_byte, toupper, islower in *. destr_if; b2p; lia. }
  intros Nd. revert s dmax.
  induction Nd as [|c d Hc Hd IH]; intros [|e s] dmax Ns Bd Bs Hl; simpl in *.
  - done.
  - inversion Ns; inversion Bs; subst. specialize (Hz e). split; [|done].
    change (toupper 0) with 0. intros. exfalso. apply Hz; (done || lia).
  - inversion Bd; subst. specialize (Hz c). split; [|done].
    change (toupper 0) with 0. intros. exfalso. apply Hz; (done || lia).
  - inversion Ns; inversion Bd; inversion Bs; subst.
    rewrite (proj2 (Z.eqb_neq c 0)), (proj2 (Z.eqb_neq e 0)),
      (proj2 (Z.eqb_neq dmax 0)) by lia. simpl.
    destruct (toupper c =? toupper e) eqn:E; b2p; simpl.
    + rewrite E, IH by (done || lia). split; [congruence|intros H; by inversion H].
    + split; [intros; lia|congruence].
Qed.

Lemma strnlen_full s smax :
  Z.of_nat (length (cstr s)) <= smax -> strnlen s smax = Z.of_nat (length (cstr s)).
Proof. unfold strnlen. lia. Qed.

Lemma strncmp_fuel_zero s1 s2 n :
  no_nul s1 -> no_nul s2 -> (length s1 < n \/ length s2 < n)%nat ->
  strncmp_fuel s1 s2 n = 0 <-> s1 = s2.
Proof.
  intros N1. revert s2 n. induction N1 as [|c d Hc Hd IH]; intros [|e s] [|n] N2 Hl;
    simpl in *; try lia; try done.
  - inversion N2; subst. destruct (0 =? e) eqn:E; b2p; simpl; [congruence|].
    split; [intros; lia|done].
  - destruct (c =? 0) eqn:E; b2p; simpl; [congruence|]. split; [intros; lia|done].
  - inversion N2; subst. destruct (c =? e) eqn:E; b2p; simpl.
    + subst. rewrite (proj2 (Z.eqb_neq e 0)) by done. rewrite IH by (done || lia).
      split; congruence.
    + split; [intros; lia|congruence].
Qed.

(** [strncmp] with a bound beyond either string decides equality. *)
Lemma strncmp_zero s1 s2 n :
  no_nul s1 -> no_nul s2 -> Z.of_nat (length s1) < n \/ Z.of_nat (length s2) < n ->
  strncmp s1 s2 n = 0 <-> s1 = s2.
Proof. intros. unfold strncmp. apply strncmp_fuel_zero; [done..|lia]. Qed.

(** [strncmp] with a literal's length as its bound is a prefix test. *)
Lemma strncmp_prefix s p :
  no_nul p -> strncmp s p (Z.of_nat (length p)) = 0 <-> starts_with p s = true.
Proof.
  intros Np. unfold strncmp.
  assert (H : forall n, Z.to_nat (Z.min (Z.of_nat (length p)) (Z.of_nat n + 1))
                 = Nat.min (length p) (n + 1)) by lia.
  rewrite H. clear H. revert s; induction Np as [|c p Hc Hp IH]; intros [|d s]; simpl.
  - done.
  - done.
  - rewrite (proj2 (Z.eqb_neq 0 c)) by done. simpl. split; [intros; lia|done].
  - rewrite Z.eqb_sym. destruct (c =? d) eqn:E; b2p; simpl; [|split; [intros; lia|done]].
    subst. rewrite (proj2 (Z.eqb_neq d 0)) by done. apply IH.
Qed.

(** Strings that agree up to a bound agree up to every smaller bound. *)
Lemma strncmp_fuel_weaken s1 s2 m n :
  (m <= n)%nat -> strncmp_fuel s1 s2 n = 0 -> strncmp_fuel s1 s2 m = 0.
Proof.
  revert s1 s2 n; induction m as [|m IH]; intros s1 s2 [|n] Hm; simpl; try done; [lia|].
  destruct (_ =? _) eqn:E1; b2p; simpl; [|intros; lia].
  destruct (_ =? 0); [done|]. intros H. eapply IH; [|exact H]. lia.
Qed.

(** A bound beyond a literal's length still implies the prefix. *)
Lemma strncmp_prefix_ge s p n :
  no_nul p -> Z.of_nat (length p) <= n -> strncmp s p n = 0 -> starts_with p s = true.
Proof.
  intros Np Hn H. apply strncmp_prefix; [done|]. unfold strncmp in *.
  eapply strncmp_fuel_weaken; [|exact H]. lia.
Qed.

Lemma memcmp_zero s1 s2 n :
  (n <= length s1)%nat -> (n <= length s2)%nat ->
  memcmp s1 s2 (Z.of_nat n) = 0 <-> take n s1 = take n s2.
Proof.
  unfold memcmp. rewrite Nat2Z.id. revert s1 s2; induction n; intros s1 s2 H1 H2; simpl; [done|].
  destruct s1 as [|c s1], s2 as [|d s2]; simpl in *; try lia.
  destruct (c =? d) eqn:E; b2p.
  - subst. rewrite IHn by lia. split; congruence.
  - split; [intros; lia|congruence].
Qed.

(** ** Copies *)

(** [strncpy] into a zeroed or dirty buffer of its own size keeps the part of
    the string that fits. *)
Lemma cstr_strncpy dest src n :
  Z.of_nat (length dest) = n -> cstr (strncpy dest src n) = take (Z.to_nat n) (cstr src).
Proof.
  intros Hn. unfold strncpy. set (s := take (Z.to_nat n) (cstr src)).
  assert (Hs : (length s <= Z.to_nat n)%nat) by (unfold s; rewrite length_take; lia).
  rewrite store_all by (rewrite length_app, length_replicate; lia).
  assert (Ns : no_nul s) by (unfold s; auto with est).
  destruct (Z.to_nat n - length s)%nat; simpl.
  - rewrite app_nil_r. by apply cstr_id.
  - by apply cstr_app.
Qed.

(** [strcpy_s] of a string that fits, read back. *)
Lemma strcpy_s_cstr dest src n :
  Z.of_nat (length dest) = n -> 0 < n -> Z.of_nat (length (cstr src)) < n ->
  exists d, strcpy_s dest n (Some src) = (EOK, d) /\ cstr d = cstr src.
Proof.
  intros Hd Hn Hs. unfold strcpy_s. rewrite (proj2 (Z.eqb_neq n 0)) by lia.
  eexists. split; [reflexivity|]. rewrite cstr_strncpy by done. apply take_ge. lia.
Qed.

Lemma STRNDUP_no_nul_len (s : bytes) (n : Z) :
  no_nul (take (Z.to_nat n) (cstr s)) /\ (length (take (Z.to_nat n) (cstr s)) <= Z.to_nat n)%nat.
Proof. split; [auto with est|]. rewrite length_take. lia. Qed.
