(* ===== verification/Base64.v ===== *)
(** * Base64: the base64 encoding of RFC 4648

    The encoding that the base64 BIO of the TLS library reads and writes, as a
    function on bytes, with its inverse.  Texts have no line breaks unless they are
    added behind them. *)

From S2P Require Import Prelude.
From S2P Require Import SafeC.

(** Division and remainder by constants. *)
Ltac dlia := Z.div_mod_to_equations; lia.

(** ** Encoding and decoding *)

(** The digit of six bits. *)
Definition b64_char (n : Z) : Z :=
  let d := n mod 64 in
  if d <? 26 then 65 + d else if d <? 52 then 71 + d else if d <? 62 then d - 4
  else if d =? 62 then 43 else 47.

Fixpoint b64_enc (s : bytes) : bytes :=
  match s with
  | a :: b :: c :: r =>
      let n := a * 65536 + b * 256 + c in
      b64_char (n / 262144) :: b64_char (n / 4096) :: b64_char (n / 64) :: b64_char n :: b64_enc r
  | [a; b] => let n := a * 65536 + b * 256 in
              [b64_char (n / 262144); b64_char (n / 4096); b64_char (n / 64); chr_equal]
  | [a] => [b64_char (a / 4); b64_char (a * 16); chr_equal; chr_equal]
  | [] => []
  end.

(** With a newline at the end. *)
Definition b64_text (s : bytes) : bytes := b64_enc s ++ [chr_lf].

Definition b64_val (c : Z) : Z :=
  if isupper c then c - 65 else if islower c then c - 71 else if isdigit c then c + 4
  else if c =? 43 then 62 else 63.

(** Whole groups only. *)
Fixpoint b64_bytes (s : bytes) : bytes :=
  match s with
  | a :: b :: c :: d :: r =>
      let n := b64_val a * 262144 + b64_val b * 4096 + b64_val c * 64 + b64_val d in
      if c =? chr_equal then [n / 65536]
      else if d =? chr_equal then [n / 65536; n / 256 mod 256]
      else n / 65536 :: n / 256 mod 256 :: n mod 256 :: b64_bytes r
  | _ => []
  end.

(** ** Digits *)

Definition b64_digit (c : Z) : Prop := 33 <= c < 127 /\ c <> chr_equal.

Lemma b64_char_digit n : b64_digit (b64_char n).
Proof.
  unfold b64_char, b64_digit, chr_equal. pose proof (Z.mod_pos_bound n 64). cbv zeta. repeat destr_if; b2p; lia.
Qed.

Lemma b64_val_char n : b64_val (b64_char n) = n mod 64.
Proof.
  unfold b64_char, b64_val, isupper, islower, isdigit. pose proof (Z.mod_pos_bound n 64 eq_refl). cbv zeta.
  repeat destr_if; b2p; lia.
Qed.

Lemma b64_char_not_equal n : (b64_char n =? chr_equal) = false.
Proof. apply Z.eqb_neq, b64_char_digit. Qed.

(** ** Induction by groups *)

Lemma groups_ind (P : bytes -> Prop) :
  P [] -> (forall a, P [a]) -> (forall a b, P [a; b]) -> (forall a b c r, P r -> P (a :: b :: c :: r)) ->
  forall s, P s.
Proof.
  intros H0 H1 H2 H3 s. assert (Hn : forall n s, (length s <= n)%nat -> P s).
  { induction n as [|n IH]; intros [|a [|b [|c r]]] Hl; cbn [length] in Hl; auto; try lia. apply H3, IH. lia. }
  by apply (Hn (length s)).
Qed.

(** Four digits are 24 bits. *)
Lemma four_digits n : 0 <= n < 16777216 ->
  n / 262144 mod 64 * 262144 + n / 4096 mod 64 * 4096 + n / 64 mod 64 * 64 + n mod 64 = n.
Proof.
  intros H. replace (n / 262144) with (n / 64 / 64 / 64) by (rewrite !Z.div_div by lia; done).
  replace (n / 4096) with (n / 64 / 64) by (rewrite Z.div_div by lia; done).
  assert (E0 := Z.div_mod n 64 ltac:(done)). assert (B0 : 0 <= n / 64 < 262144) by dlia.
  set (x := n / 64) in *. clearbody x.
  assert (E1 := Z.div_mod x 64 ltac:(done)). assert (B1 : 0 <= x / 64 < 4096) by dlia.
  set (y := x / 64) in *. clearbody y.
  assert (E2 := Z.div_mod y 64 ltac:(done)). rewrite (Z.mod_small (y / 64)) by dlia. lia.
Qed.

Lemma b64_decode_encode s : Forall (fun c => 0 <= c < 256) s -> b64_bytes (b64_enc s) = s.
Proof.
  induction s as [|a|a b|a b c r IH] using groups_ind; intros H; [done|..];
    repeat (apply Forall_cons_1 in H as [? H]); cbn [b64_enc b64_bytes];
    rewrite ?b64_char_not_equal, ?b64_val_char; change (chr_equal =? chr_equal) with true; cbn match.
  - change (b64_val chr_equal) with 63. pose proof (four_digits (a * 65536) ltac:(lia)) as E.
    replace (a * 65536 / 262144) with (a / 4) in E by dlia. replace (a * 65536 / 4096) with (a * 16) in E by dlia.
    replace (a * 65536 / 64 mod 64) with 0 in E by dlia. replace (a * 65536 mod 64) with 0 in E by dlia.
    set (x := _ * 262144 + _ * 4096) in *. replace x with (a * 65536) by lia. clear. f_equal. dlia.
  - change (b64_val chr_equal) with 63. pose proof (four_digits (a * 65536 + b * 256) ltac:(lia)) as E.
    replace ((a * 65536 + b * 256) mod 64) with 0 in E by dlia.
    set (x := _ * 262144 + _ * 4096 + _ * 64) in *. replace (x + 63) with (a * 65536 + b * 256 + 63) by lia.
    clear E; clearbody x; clear x. f_equal; [dlia|f_equal; dlia].
  - rewrite IH, four_digits by (done || lia). f_equal; [dlia|]. f_equal; [dlia|]. f_equal. dlia.
Qed.

Lemma b64_enc_length s : Z.of_nat (length (b64_enc s)) = (Z.of_nat (length s) + 2) / 3 * 4.
Proof.
  induction s as [|a|a b|a b c r IH] using groups_ind; cbn [b64_enc length] in *; try done. dlia.
Qed.

Lemma b64_enc_printable s : Forall (fun c => 33 <= c < 127) (b64_enc s).
Proof.
  assert (Hd : forall n, 33 <= b64_char n < 127) by (intros n; apply b64_char_digit).
  induction s as [|a|a b|a b c r IH] using groups_ind; cbn [b64_enc];
    repeat (apply Forall_cons_2; [first [apply Hd|done]|]); first [done|apply Forall_nil_2].
Qed.

(** The last group shows how many bytes it holds. *)
Lemma b64_enc_last s : s <> [] ->
  exists front a b c d, b64_enc s = front ++ [a; b; c; d] /\
    ((d <> chr_equal /\ length s mod 3 = 0)%nat \/
     (d = chr_equal /\ c <> chr_equal /\ length s mod 3 = 2)%nat \/
     (d = chr_equal /\ c = chr_equal /\ length s mod 3 = 1)%nat).
Proof.
  assert (Hd : forall n, b64_char n <> chr_equal) by (intros n; apply b64_char_digit).
  induction s as [|a|a b|a b c r IH] using groups_ind; intros Hne; [done|..]; cbn [b64_enc].
  - exists []. do 4 eexists. split; [reflexivity|]. auto.
  - exists []. do 4 eexists. split; [reflexivity|]. right. left. auto.
  - destruct r as [|x r].
    + exists []. do 4 eexists. split; [reflexivity|]. left. auto.
    + destruct IH as (front & p & q & u & v & -> & IH); [done|].
      eexists (_ :: _ :: _ :: _ :: front), p, q, u, v. split; [reflexivity|].
      replace (length (a :: b :: c :: x :: r) mod 3)%nat with (length (x :: r) mod 3)%nat; [done|].
      rewrite <- (Nat.Div0.mod_add (length (x :: r)) 1 3). f_equal. simpl. lia.
Qed.

Lemma b64_enc_no_nul s : no_nul (b64_enc s).
Proof. eapply Forall_impl; [|exact (b64_enc_printable s)]. cbn. lia. Qed.
