(* ===== verification/Jsmn.v ===== *)
(** The JSON parser jsmn (jsmn.c, jsmn.h; built without JSMN_STRICT and without
    JSMN_PARENT_LINKS) with which the client reads a BRSKI voucher.

    It does not build a tree: it fills an array of tokens that the caller owns, each
    with its kind, its offsets into the text and its number of children, in the order
    in which they begin.  The array is the list [tokens] here ([None] where the caller
    passes NULL, to count only); [num_tokens] is its size.  A function returns its
    result with the parser and the array after it, and [None] where it would read or
    write outside the array, or read outside the memory [js] of the text: every
    [js[parser->pos]] is a lookup that can fail.

    [pos] and [toknext] are counters of type [unsigned int], [start], [end] and [size]
    are [int]s.  They are numbers without a width here, which is what the program
    computes as long as none of them leaves its type: [jsmn_parse_total] (JsmnProps)
    shows that no counter passes the length of the text or of the array, and so none
    wraps on a text of less than 2^31 bytes, as the [int] length of a voucher is. *)

From S2P Require Import Prelude.

Inductive jsmntype_t :=
  | JSMN_UNDEFINED | JSMN_OBJECT | JSMN_ARRAY | JSMN_STRING | JSMN_PRIMITIVE.

#[global] Instance jsmntype_t_eq_dec : EqDecision jsmntype_t.
Proof. solve_decision. Defined.

Definition JSMN_ERROR_NOMEM : Z := -1.
Definition JSMN_ERROR_INVAL : Z := -2.
Definition JSMN_ERROR_PART : Z := -3.

Record jsmntok_t := Tok {
  t_type : jsmntype_t;
  t_start : Z;
  t_end : Z;
  t_size : Z;
}.

Record jsmn_parser := Parser {
  pos : nat;
  toknext : nat;
  toksuper : Z;
}.

Definition set_pos (p : nat) (parser : jsmn_parser) : jsmn_parser :=
  Parser p (toknext parser) (toksuper parser).
Definition set_toknext (n : nat) (parser : jsmn_parser) : jsmn_parser :=
  Parser (pos parser) n (toksuper parser).
Definition set_toksuper (s : Z) (parser : jsmn_parser) : jsmn_parser :=
  Parser (pos parser) (toknext parser) s.

Definition jsmn_init : jsmn_parser := Parser 0 0 (-1).

(** [tokens[i]] as a value and as a place. *)
Definition tok_at (i : Z) (tokens : list jsmntok_t) : option jsmntok_t :=
  if i <? 0 then None else tokens !! Z.to_nat i.
Definition tok_set (i : Z) (t : jsmntok_t) (tokens : list jsmntok_t) : option (list jsmntok_t) :=
  if (i <? 0) || (length tokens <=? Z.to_nat i)%nat then None
  else Some (<[Z.to_nat i := t]> tokens).

(** [Some (i, ...)] is the pointer to entry [i], NULL is [Some (None, ...)]. *)
Definition jsmn_alloc_token (parser : jsmn_parser) (tokens : list jsmntok_t) (num_tokens : nat)
  : option (option Z * jsmn_parser * list jsmntok_t) :=
  if (num_tokens <=? toknext parser)%nat then Some (None, parser, tokens)
  else
    let i := Z.of_nat (toknext parser) in
    tok ← tok_at i tokens;
    tokens' ← tok_set i (Tok (t_type tok) (-1) (-1) 0) tokens;
    Some (Some i, set_toknext (S (toknext parser)) parser, tokens').

Definition jsmn_fill_token (type : jsmntype_t) (start end_ : Z) : jsmntok_t :=
  Tok type start end_ 0.

(** The result of a function that returns an [int]. *)
Definition outcome : Type := Z * jsmn_parser * option (list jsmntok_t).

(** The common end of the two token functions: store the token and set [pos], or give
    the text back when the array is full. *)
Definition jsmn_store_token (parser : jsmn_parser) (tokens : option (list jsmntok_t))
    (num_tokens start : nat) (token : jsmntok_t) (final : nat) : option outcome :=
  match tokens with
  | None => Some (0, set_pos final parser, None)
  | Some toks =>
      '(slot, parser1, toks1) ← jsmn_alloc_token parser toks num_tokens;
      match slot with
      | None => Some (JSMN_ERROR_NOMEM, set_pos start parser1, Some toks1)
      | Some i =>
          toks2 ← tok_set i token toks1;
          Some (0, set_pos final parser1, Some toks2)
      end
  end.

(** The characters that end a primitive. *)
Definition ends_primitive (c : Z) : bool := mem c [58; 9; 13; 10; 32; 44; 93; 125].

(** The loop of [jsmn_parse_primitive], [n] characters before the end: the offset at
    [found], or [Some None] for a character that no primitive has. *)
Fixpoint primitive_end (n : nat) (js : bytes) (p : nat) : option (option nat) :=
  match n with
  | O => Some (Some p)
  | S n' =>
      c ← js !! p;
      if c =? 0 then Some (Some p)
      else if ends_primitive c then Some (Some p)
      else if (c <? 32) || (127 <=? c) then Some None
      else primitive_end n' js (S p)
  end.

Definition jsmn_parse_primitive (parser : jsmn_parser) (js : bytes) (len : nat)
    (tokens : option (list jsmntok_t)) (num_tokens : nat) : option outcome :=
  let start := pos parser in
  found ← primitive_end (len - start) js start;
  match found with
  | None => Some (JSMN_ERROR_INVAL, set_pos start parser, tokens)
  | Some p =>
      jsmn_store_token (set_pos p parser) tokens num_tokens start
        (jsmn_fill_token JSMN_PRIMITIVE (Z.of_nat start) (Z.of_nat p)) (p - 1)
  end.

Definition is_simple_escape (c : Z) : bool := mem c [34; 47; 92; 98; 102; 114; 110; 116].

(** [parser->pos < len && js[parser->pos] != '\0'], which reads the text only where
    the length allows it: the character, or [Some None] at the end of the text. *)
Definition peek (js : bytes) (len p : nat) : option (option Z) :=
  if (p <? len)%nat then c ← js !! p; Some (if c =? 0 then None else Some c)
  else Some None.

(** The four digits of an escape [\uXXXX]: the offset after those that are there, or
    [Some None] for another character. *)
Fixpoint hex_digits (n : nat) (js : bytes) (len p : nat) : option (option nat) :=
  match n with
  | O => Some (Some p)
  | S n' =>
      next ← peek js len p;
      match next with
      | Some c => if isxdigit c then hex_digits n' js len (S p) else Some None
      | None => Some (Some p)
      end
  end.

Inductive string_result :=
  | StrEnd (p : nat)      (* the closing quote is at [p] *)
  | StrInval
  | StrPart.

(** The loop of [jsmn_parse_string].  Every round moves the offset forward: fuel of
    the length of the text is enough. *)
Fixpoint string_end (fuel : nat) (js : bytes) (len p : nat) : option string_result :=
  match fuel with
  | O => Some StrPart
  | S fuel' =>
      next ← peek js len p;
      match next with
      | None => Some StrPart
      | Some c =>
          if c =? 34 then Some (StrEnd p)
          else if (c =? chr_backslash) && (p + 1 <? len)%nat then
            let p := S p in
            e ← js !! p;
            if is_simple_escape e then string_end fuel' js len (S p)
            else if e =? 117 then
              digits ← hex_digits 4 js len (S p);
              match digits with
              | None => Some StrInval
              | Some q => string_end fuel' js len (S (q - 1))
              end
            else Some StrInval
          else string_end fuel' js len (S p)
      end
  end.

Definition jsmn_parse_string (parser : jsmn_parser) (js : bytes) (len : nat)
    (tokens : option (list jsmntok_t)) (num_tokens : nat) : option outcome :=
  let start := pos parser in
  found ← string_end (len - start) js len (S start);
  match found with
  | StrInval => Some (JSMN_ERROR_INVAL, set_pos start parser, tokens)
  | StrPart => Some (JSMN_ERROR_PART, set_pos start parser, tokens)
  | StrEnd p =>
      jsmn_store_token (set_pos p parser) tokens num_tokens start
        (jsmn_fill_token JSMN_STRING (Z.of_nat start + 1) (Z.of_nat p)) p
  end.

(** [token->start != -1 && token->end == -1]. *)
Definition tok_open (t : jsmntok_t) : bool := negb (t_start t =? -1) && (t_end t =? -1).

(** The loops [for (i = n - 1; i >= 0; i--)] over the tokens: the last index below [n]
    whose token satisfies [f], -1 if there is none. *)
Fixpoint last_token (f : jsmntok_t -> bool) (n : nat) (tokens : list jsmntok_t) : option Z :=
  match n with
  | O => Some (-1)
  | S i =>
      tok ← tokens !! i;
      if f tok then Some (Z.of_nat i) else last_token f i tokens
  end.

Definition tok_container (t : jsmntok_t) : bool :=
  match t_type t with JSMN_OBJECT | JSMN_ARRAY => true | _ => false end.

(** [tokens[parser->toksuper].size++] where there is a parent. *)
Definition bump (super : Z) (tokens : list jsmntok_t) : option (list jsmntok_t) :=
  if super =? -1 then Some tokens
  else
    t ← tok_at super tokens;
    tok_set super (Tok (t_type t) (t_start t) (t_end t) (t_size t + 1)) tokens.

Definition bump_opt (super : Z) (tokens : option (list jsmntok_t))
  : option (option (list jsmntok_t)) :=
  match tokens with
  | None => Some None
  | Some toks => toks' ← bump super toks; Some (Some toks')
  end.

(** The case of an opening bracket. *)
Definition jsmn_open (c : Z) (parser : jsmn_parser) (tokens : option (list jsmntok_t))
    (num_tokens : nat) : option outcome :=
  match tokens with
  | None => Some (0, parser, None)
  | Some toks =>
      '(slot, parser1, toks1) ← jsmn_alloc_token parser toks num_tokens;
      match slot with
      | None => Some (JSMN_ERROR_NOMEM, parser1, Some toks1)
      | Some i =>
          toks2 ← bump (toksuper parser1) toks1;
          t ← tok_at i toks2;
          toks3 ← tok_set i (Tok (if c =? 123 then JSMN_OBJECT else JSMN_ARRAY)
                                 (Z.of_nat (pos parser1)) (t_end t) (t_size t)) toks2;
          Some (0, set_toksuper (Z.of_nat (toknext parser1) - 1) parser1, Some toks3)
      end
  end.

(** The case of a closing bracket. *)
Definition jsmn_close (c : Z) (parser : jsmn_parser) (tokens : option (list jsmntok_t))
  : option outcome :=
  match tokens with
  | None => Some (0, parser, None)
  | Some toks =>
      let type := if c =? 125 then JSMN_OBJECT else JSMN_ARRAY in
      i ← last_token tok_open (toknext parser) toks;
      if i =? -1 then Some (JSMN_ERROR_INVAL, parser, tokens)
      else
        t ← tok_at i toks;
        if bool_decide (t_type t = type) then
          toks1 ← tok_set i (Tok (t_type t) (t_start t) (Z.of_nat (pos parser) + 1) (t_size t)) toks;
          super ← last_token tok_open (S (Z.to_nat i)) toks1;
          Some (0, set_toksuper super parser, Some toks1)
        else Some (JSMN_ERROR_INVAL, parser, tokens)
  end.

(** The case of a comma. *)
Definition jsmn_comma (parser : jsmn_parser) (tokens : option (list jsmntok_t)) : option outcome :=
  match tokens with
  | None => Some (0, parser, None)
  | Some toks =>
      if toksuper parser =? -1 then Some (0, parser, tokens)
      else
        t ← tok_at (toksuper parser) toks;
        if tok_container t then Some (0, parser, tokens)
        else
          i ← last_token (fun t => tok_container t && tok_open t) (toknext parser) toks;
          Some (0, if i =? -1 then parser else set_toksuper i parser, tokens)
  end.

(** One round of the loop of [jsmn_parse]: its result, the parser and the tokens, and
    what it adds to [count]. *)
Definition jsmn_step (js : bytes) (len : nat) (parser : jsmn_parser)
    (tokens : option (list jsmntok_t)) (num_tokens : nat) : option (outcome * Z) :=
  c ← js !! pos parser;
  if (c =? 123) || (c =? 91) then
    o ← jsmn_open c parser tokens num_tokens; Some (o, 1)
  else if (c =? 125) || (c =? 93) then
    o ← jsmn_close c parser tokens; Some (o, 0)
  else if mem c [9; 13; 10; 32] then Some (0, parser, tokens, 0)
  else if c =? chr_colon then
    Some (0, set_toksuper (Z.of_nat (toknext parser) - 1) parser, tokens, 0)
  else if c =? chr_comma then
    o ← jsmn_comma parser tokens; Some (o, 0)
  else
    '(r, parser1, tokens1) ←
      (if c =? 34 then jsmn_parse_string parser js len tokens num_tokens
       else jsmn_parse_primitive parser js len tokens num_tokens);
    if r <? 0 then Some (r, parser1, tokens1, 0)
    else
      tokens2 ← bump_opt (toksuper parser1) tokens1;
      Some (0, parser1, tokens2, 1).

(** The end of [jsmn_parse]: no bracket may be left open. *)
Definition jsmn_finish (parser : jsmn_parser) (tokens : option (list jsmntok_t)) (count : Z)
  : option outcome :=
  match tokens with
  | None => Some (count, parser, None)
  | Some toks =>
      i ← last_token tok_open (toknext parser) toks;
      Some (if i =? -1 then count else JSMN_ERROR_PART, parser, tokens)
  end.

Fixpoint jsmn_loop (fuel : nat) (js : bytes) (len : nat) (parser : jsmn_parser)
    (tokens : option (list jsmntok_t)) (num_tokens : nat) (count : Z) : option outcome :=
  next ← peek js len (pos parser);
  match next with
  | None => jsmn_finish parser tokens count
  | Some _ =>
      match fuel with
      | O => None
      | S fuel' =>
          '(r, parser1, tokens1, n) ← jsmn_step js len parser tokens num_tokens;
          if r <? 0 then Some (r, parser1, tokens1)
          else jsmn_loop fuel' js len (set_pos (S (pos parser1)) parser1) tokens1 num_tokens
                 (count + n)
      end
  end.

(** Every round moves the offset forward, so that the characters left are fuel
    enough. *)
Definition jsmn_parse (parser : jsmn_parser) (js : bytes) (len : nat)
    (tokens : option (list jsmntok_t)) (num_tokens : nat) : option outcome :=
  jsmn_loop (len - pos parser) js len parser tokens num_tokens (Z.of_nat (toknext parser)).

(** The array of [n] tokens that [calloc] returns. *)
Definition fresh_tokens (n : nat) : list jsmntok_t := repeat (Tok JSMN_UNDEFINED 0 0 0) n.

Example jsmn_parse_example :
  jsmn_parse jsmn_init (lit "{a:[1,2]} ") 10 (Some (fresh_tokens 5)) 5 =
    Some (5, Parser 10 5 (-1),
          Some [Tok JSMN_OBJECT 0 9 1; Tok JSMN_PRIMITIVE 1 2 1; Tok JSMN_ARRAY 3 8 2;
                Tok JSMN_PRIMITIVE 4 5 0; Tok JSMN_PRIMITIVE 6 7 0]).
Proof. vm_compute. reflexivity. Qed.
