(* ===== verification/JsmnProps.v ===== *)
(** What the JSON parser promises (Jsmn): it stops, stays inside the array and the
    text, and on the text of a JSON value it fills in that value's token table. *)

From S2P Require Import Prelude.
From S2P Require Import Jsmn.

(** * Memory and termination *)

(** A token that was handed out before [pos]: an open bracket, or a closed range of
    the text. *)
Definition tok_ok (len pos : nat) (t : jsmntok_t) : Prop :=
  0 <= t_start t /\
  ((tok_container t = true /\ t_end t = -1 /\ t_start t <= Z.of_nat pos) \/
   t_start t <= t_end t <= Z.of_nat len).

Record parser_ok (len num_tokens : nat) (p : jsmn_parser) (toks : list jsmntok_t) : Prop := {
  ok_room : length toks = num_tokens;
  ok_next : (toknext p <= num_tokens)%nat;
  ok_super : -1 <= toksuper p < Z.of_nat (toknext p);
  ok_toks : forall i t, (i < toknext p)%nat -> toks !! i = Some t -> tok_ok len (pos p) t;
}.

Lemma last_token_spec f n toks : (n <= length toks)%nat ->
  exists i, last_token f n toks = Some i /\ -1 <= i < Z.of_nat n /\
    (i <> -1 -> exists t, tok_at i toks = Some t /\ f t = true) /\
    (forall j t, i < Z.of_nat j < Z.of_nat n -> toks !! j = Some t -> f t = false).
Proof.
  induction n as [|n IH]; intros Hn; cbn [last_token].
  - exists (-1). split_and!; [done|lia|lia|done|lia].
  - destruct (lookup_lt_is_Some_2 toks n) as [t Ht]; [lia|]. rewrite Ht. cbn.
    destruct (f t) eqn:Ef.
    + exists (Z.of_nat n). split_and!; [done|lia|lia| |intros; lia].
      intros _. exists t. unfold tok_at. rewrite (proj2 (Z.ltb_ge _ _)) by lia.
      by rewrite Nat2Z.id.
    + destruct IH as (i & -> & Hi & Hf & Hlast); [lia|]. exists i.
      split_and!; [done|lia|lia|done|]. intros j u Hj Hu.
      destruct (decide (j = n)) as [->|]; [congruence|]. apply (Hlast j u); [lia|done].
Qed.

Lemma tok_at_lt i toks : 0 <= i < Z.of_nat (length toks) -> exists t,
  tok_at i toks = Some t /\ toks !! Z.to_nat i = Some t.
Proof.
  intros Hi. destruct (lookup_lt_is_Some_2 toks (Z.to_nat i)) as [t Ht]; [lia|].
  exists t. unfold tok_at. rewrite (proj2 (Z.ltb_ge _ _)) by lia. done.
Qed.

Lemma tok_at_inv i toks t : tok_at i toks = Some t ->
  0 <= i < Z.of_nat (length toks) /\ toks !! Z.to_nat i = Some t.
Proof.
  unfold tok_at. destr_if; [done|]. intros Ht. b2p.
  apply lookup_lt_Some in Ht as ?. split; [lia|done].
Qed.

Lemma tok_set_lt i t toks : 0 <= i < Z.of_nat (length toks) ->
  tok_set i t toks = Some (<[Z.to_nat i := t]> toks).
Proof.
  intros Hi. unfold tok_set. rewrite (proj2 (Z.ltb_ge _ _)) by lia.
  by rewrite (proj2 (Nat.leb_gt _ _)) by lia.
Qed.

(** An update of a handed-out token that keeps it well-formed. *)
Lemma parser_ok_set len num p toks i t : parser_ok len num p toks -> tok_ok len (pos p) t ->
  parser_ok len num p (<[i := t]> toks).
Proof.
  intros [Hr Hn Hs Ht] Hok. split; [by rewrite length_insert|done|done|].
  intros j u Hj Hu. apply list_lookup_insert_Some in Hu as [(-> & <- & _)|[_ Hu]]; eauto.
Qed.

Lemma parser_ok_pos len num p toks q : (pos p <= q)%nat ->
  parser_ok len num p toks -> parser_ok len num (set_pos q p) toks.
Proof.
  intros Hq []. split; cbn [set_pos toknext toksuper pos]; [done..|]. intros i t Hi Ht.
  destruct (ok_toks0 i t Hi Ht) as [H0 [?|?]]; split; auto. left. intuition lia.
Qed.

Lemma parser_ok_super len num p toks s : -1 <= s < Z.of_nat (toknext p) ->
  parser_ok len num p toks -> parser_ok len num (set_toksuper s p) toks.
Proof. intros ? []. by split. Qed.

(** What a step may do to a parser whose invariant holds: the array keeps its size and
    the invariant holds again, or one of the three errors is returned. *)
Definition step_ok (len num : nat) (p : jsmn_parser) (r : Z) (p' : jsmn_parser)
    (toks' : list jsmntok_t) (n : Z) : Prop :=
  length toks' = num /\ (pos p' <= len)%nat /\ (toknext p' <= num)%nat /\ (r < 0 -> -3 <= r) /\
  (0 <= r -> r = 0 /\ parser_ok len num p' toks' /\ (pos p <= pos p' < len)%nat /\
             Z.of_nat (toknext p') = Z.of_nat (toknext p) + n).

(** The outcome is one of the errors, with the counters where they were. *)
Ltac step_error := do 3 eexists; split; [done|]; split_and!;
  try (cbn; lia); unfold JSMN_ERROR_NOMEM, JSMN_ERROR_INVAL, JSMN_ERROR_PART; try done; intros; lia.

(** Allocating a token and filling it at once. *)
Lemma store_token_ok len num p toks q t final :
  parser_ok len num p toks -> tok_ok len final t -> (pos p <= final < len)%nat ->
  exists r p' toks',
    jsmn_store_token (set_pos q p) (Some toks) num (pos p) t final = Some (r, p', Some toks') /\
    step_ok len num p r p' toks' 1.
Proof.
  intros [Hr Hn Hs Ht] Hok Hf. unfold jsmn_store_token, jsmn_alloc_token, step_ok.
  cbn [set_pos set_toknext toknext toksuper pos].
  destruct (Nat.leb_spec num (toknext p)).
  { cbn. step_error. }
  destruct (tok_at_lt (Z.of_nat (toknext p)) toks) as (u & Hu & _); [lia|].
  rewrite Hu. cbn [option_bind mbind]. rewrite tok_set_lt by lia. cbn [option_bind mbind].
  rewrite tok_set_lt by (rewrite length_insert; lia). cbn [option_bind mbind]. rewrite Nat2Z.id, list_insert_insert_eq.
  do 3 eexists. split; [done|]. rewrite length_insert. cbn [toknext pos set_pos set_toknext].
  split_and!; [done|lia|lia|lia|].
  intros _. split; [done|]. split; [|lia].
  split; cbn [set_pos set_toknext toknext toksuper pos];
    [by rewrite length_insert|lia|lia|].
  intros j v Hj Hv. apply list_lookup_insert_Some in Hv as [(_ & <- & _)|[Hne Hv]]; [done|].
  destruct (Ht j v) as [H0 [?|?]]; [lia|done|split; [done|left; intuition lia]|split; auto].
Qed.

(** ** Reads stay inside the text *)

Section Text.
Context (js : bytes) (len : nat) (Hjs : (len <= length js)%nat).

Lemma text_lookup p : (p < len)%nat -> exists c, js !! p = Some c.
Proof. intros Hp. apply lookup_lt_is_Some_2. lia. Qed.

(** A look at the text succeeds, and shows a character of the text or its end. *)
Lemma peek_total p : exists r, peek js len p = Some r /\
  forall c, r = Some c -> (p < len)%nat /\ js !! p = Some c /\ c <> 0.
Proof.
  unfold peek. destruct (Nat.ltb_spec p len) as [Hp|Hp]; [|by eexists].
  destruct (text_lookup p Hp) as [c Hc]. rewrite Hc. cbn [mbind option_bind]. eexists. split; [done|].
  destruct (Z.eqb_spec c 0); [done|]. by intros ? [= <-].
Qed.

Lemma primitive_end_total n p : (p + n <= len)%nat -> exists r,
  primitive_end n js p = Some r /\ forall q, r = Some q -> (p <= q <= p + n)%nat.
Proof.
  revert p; induction n as [|n IH]; intros p Hp; cbn [primitive_end].
  { eexists. split; [done|]. intros ? [= <-]. lia. }
  destruct (text_lookup p) as [c ->]; [lia|]. cbn [mbind option_bind].
  repeat (destr_if; [eexists; split; [done|]; by first [done | intros ? [= <-]; lia]|]).
  destruct (IH (S p)) as (r & -> & Hr); [lia|]. exists r. split; [done|].
  intros q Hq. specialize (Hr q Hq). lia.
Qed.

(** A primitive that starts at a character of its own goes at least one forward. *)
Lemma primitive_end_progress n c p q : (0 < n)%nat -> (p + n <= len)%nat -> js !! p = Some c ->
  c <> 0 -> ends_primitive c = false -> primitive_end n js p = Some (Some q) -> (p < q)%nat.
Proof.
  destruct n as [|n]; [lia|]. intros _ Hp Hc H0 He. cbn [primitive_end]. rewrite Hc. cbn [mbind option_bind].
  apply Z.eqb_neq in H0. rewrite H0, He. destr_if; [done|].
  destruct (primitive_end_total n (S p)) as (r & -> & Hr); [lia|]. intros [= ->].
  specialize (Hr q eq_refl). lia.
Qed.

Lemma hex_digits_total n p : (p <= len)%nat -> exists r,
  hex_digits n js len p = Some r /\ forall q, r = Some q -> (p <= q <= len)%nat.
Proof.
  revert p; induction n as [|n IH]; intros p Hp; cbn [hex_digits].
  { eexists. split; [done|]. intros ? [= <-]. lia. }
  destruct (peek_total p) as ([c|] & -> & Hc); cbn [mbind option_bind].
  2:{ eexists. split; [done|]. intros ? [= <-]. lia. }
  destruct (Hc c eq_refl) as (Hlt & _). destr_if; [|by eexists].
  destruct (IH (S p)) as (r & -> & Hr); [lia|]. exists r. split; [done|].
  intros q Hq. specialize (Hr q Hq). lia.
Qed.

Lemma string_end_total fuel p : exists r,
  string_end fuel js len p = Some r /\ forall q, r = StrEnd q -> (p <= q < len)%nat.
Proof.
  revert p; induction fuel as [|fuel IH]; intros p; cbn [string_end]; [by eexists|].
  assert (forall p', (p <= p')%nat -> exists r, string_end fuel js len p' = Some r /\
            forall q, r = StrEnd q -> (p <= q < len)%nat) as Hnext.
  { intros p' Hp. destruct (IH p') as (r & Hr & Hq). exists r. split; [done|].
    intros q E. specialize (Hq q E). lia. }
  destruct (peek_total p) as ([c|] & -> & Hc); cbn [mbind option_bind]; [|by eexists].
  destruct (Hc c eq_refl) as (Hlt & _).
  destr_if; [eexists; split; [done|]; intros ? [= <-]; lia|].
  destr_if; [|apply Hnext; lia]. apply andb_true_iff in E0 as [_ E0]. b2p.
  destruct (text_lookup (S p)) as [e ->]; [lia|]. cbn [mbind option_bind].
  destr_if; [apply Hnext; lia|]. destr_if; [|by eexists].
  destruct (hex_digits_total 4 (S (S p))) as ([r|] & Ed & Hr); [lia| |]; setoid_rewrite Ed; [|by eexists].
  specialize (Hr r eq_refl). apply Hnext. lia.
Qed.
End Text.

Lemma bump_ok len num p toks : parser_ok len num p toks ->
  exists toks', bump (toksuper p) toks = Some toks' /\ parser_ok len num p toks'.
Proof.
  intros Hok. pose proof Hok as [Hr Hn Hs Ht]. unfold bump.
  destruct (Z.eqb_spec (toksuper p) (-1)); [by eexists|].
  destruct (tok_at_lt (toksuper p) toks) as (t & E & Hl); [lia|]. rewrite E. cbn.
  rewrite tok_set_lt by lia. eexists. split; [done|]. apply parser_ok_set; [done|].
  apply Ht in Hl; [|lia]. done.
Qed.

(** The array with the new, still empty token, and its parent's size increased. *)
Lemma bump_fresh len num p toks t0 : parser_ok len num p toks -> (toknext p < num)%nat ->
  exists toks2, bump (toksuper p) (<[toknext p := t0]> toks) = Some toks2 /\
    length toks2 = num /\ toks2 !! toknext p = Some t0 /\
    forall i t, (i < toknext p)%nat -> toks2 !! i = Some t -> tok_ok len (pos p) t.
Proof.
  intros [Hr Hn Hs Ht] Hlt. unfold bump. set (toks1 := <[toknext p := t0]> toks).
  assert (length toks1 = num) as Hl1 by (unfold toks1; by rewrite length_insert).
  assert (toks1 !! toknext p = Some t0) as H0.
  { unfold toks1. apply list_lookup_insert_eq. lia. }
  assert (forall i, (i < toknext p)%nat -> toks1 !! i = toks !! i) as Hold.
  { intros i Hi. unfold toks1. by rewrite list_lookup_insert_ne by lia. }
  destruct (Z.eqb_spec (toksuper p) (-1)).
  { exists toks1. split_and!; [done..|]. intros i t Hi. rewrite Hold by done. by apply Ht. }
  destruct (tok_at_lt (toksuper p) toks1) as (t & E & Hlk); [lia|]. rewrite E. cbn.
  rewrite tok_set_lt by lia. eexists. split; [done|]. rewrite length_insert. split; [done|].
  rewrite list_lookup_insert_ne by lia. split; [done|].
  intros i v Hi Hv. apply list_lookup_insert_Some in Hv as [(_ & <- & _)|[Hne Hv]].
  - rewrite Hold in Hlk by lia. apply Ht in Hlk; [done|lia].
  - rewrite Hold in Hv by lia. eauto.
Qed.

Lemma jsmn_open_ok len num c p toks : parser_ok len num p toks -> (pos p < len)%nat ->
  exists r p' toks', jsmn_open c p (Some toks) num = Some (r, p', Some toks') /\
    step_ok len num p r p' toks' 1.
Proof.
  intros Hok Hpos. pose proof Hok as [Hr Hn Hs Ht]. unfold jsmn_open, jsmn_alloc_token, step_ok.
  destruct (Nat.leb_spec num (toknext p)).
  { cbn. step_error. }
  destruct (tok_at_lt (Z.of_nat (toknext p)) toks) as (u & Hu & _); [lia|].
  rewrite Hu. cbn. rewrite tok_set_lt by lia. cbn. rewrite Nat2Z.id.
  destruct (bump_fresh len num p toks (Tok (t_type u) (-1) (-1) 0) Hok) as (toks2 & -> & Hl & H0 & Hok2);
    [done|].
  cbn. unfold tok_at. rewrite (proj2 (Z.ltb_ge _ _)), Nat2Z.id, H0 by lia. cbn.
  rewrite tok_set_lt by lia. cbn. rewrite Nat2Z.id. do 3 eexists. split; [done|].
  rewrite length_insert. cbn [set_toksuper set_toknext toknext toksuper pos].
  split_and!; [done|lia|lia|lia|]. intros _. split; [done|]. split; [|lia].
  split; cbn [set_toksuper set_toknext toknext toksuper pos]; [by rewrite length_insert|lia|lia|].
  intros i v Hi Hv. apply list_lookup_insert_Some in Hv as [(_ & <- & _)|[Hne Hv]].
  - split; cbn; [lia|]. left. unfold tok_container. cbn. by destruct (c =? 123).
  - apply (Hok2 i); [lia|done].
Qed.

Lemma jsmn_close_ok len num c p toks : parser_ok len num p toks -> (pos p < len)%nat ->
  exists r p' toks', jsmn_close c p (Some toks) = Some (r, p', Some toks') /\
    step_ok len num p r p' toks' 0.
Proof.
  intros Hok Hpos. pose proof Hok as [Hr Hn Hs Ht]. unfold jsmn_close, step_ok.
  destruct (last_token_spec tok_open (toknext p) toks) as (i & -> & Hi & Hf & _); [lia|]. cbn [mbind option_bind].
  destruct (Z.eqb_spec i (-1)).
  { step_error. }
  destruct (Hf n) as (t & Et & Hop). rewrite Et. cbn [mbind option_bind]. apply tok_at_inv in Et as [Hlt Et].
  case_bool_decide as Hty.
  2:{ step_error. }
  rewrite tok_set_lt by done. cbn [mbind option_bind].
  set (toks1 := <[Z.to_nat i := _]> toks).
  assert (length toks1 = num) as Hl1 by (unfold toks1; by rewrite length_insert).
  destruct (last_token_spec tok_open (S (Z.to_nat i)) toks1) as (j & -> & Hj & _); [lia|]. cbn.
  do 3 eexists. split; [done|]. cbn [set_toksuper toknext pos].
  split_and!; [done|lia|lia|lia|]. intros _. split; [done|]. split; [|lia].
  apply parser_ok_super; [lia|]. apply parser_ok_set; [done|].
  apply Ht in Et; [|lia]. destruct Et as [Hst Hor]. split; cbn; [done|].
  right. unfold tok_open in Hop. b2p. lia.
Qed.

Lemma jsmn_comma_ok len num p toks : parser_ok len num p toks -> (pos p < len)%nat ->
  exists p', jsmn_comma p (Some toks) = Some (0, p', Some toks) /\
    step_ok len num p 0 p' toks 0.
Proof.
  intros Hok Hpos. pose proof Hok as [Hr Hn Hs Ht]. unfold jsmn_comma, step_ok.
  destruct (Z.eqb_spec (toksuper p) (-1)).
  { eexists. split; [done|]. split_and!; [done|lia..|]. intros _. split_and!; [done..|lia]. }
  destruct (tok_at_lt (toksuper p) toks) as (t & -> & _); [lia|]. cbn.
  destr_if.
  { eexists. split; [done|]. split_and!; [done|lia..|]. intros _. split_and!; [done..|lia]. }
  destruct (last_token_spec (fun t => tok_container t && tok_open t) (toknext p) toks)
    as (i & -> & Hi & _); [lia|]. cbn.
  eexists. split; [done|]. destruct (i =? -1); cbn [set_toksuper toknext pos].
  - split_and!; [done|lia..|]. intros _. split_and!; [done..|lia].
  - split_and!; [done|lia..|]. intros _. split_and!; [done|by apply parser_ok_super|done..|lia].
Qed.

(** Every round of the loop is a step, whatever the character. *)
Lemma jsmn_step_ok js len num p toks ch : (len <= length js)%nat ->
  parser_ok len num p toks -> (pos p < len)%nat -> js !! pos p = Some ch -> ch <> 0 ->
  exists r p' toks' n, jsmn_step js len p (Some toks) num = Some (r, p', Some toks', n) /\
    step_ok len num p r p' toks' n.
Proof.
  intros Hjs Hok Hpos Hch Hc. pose proof Hok as [Hr Hn Hs Ht]. unfold jsmn_step.
  rewrite Hch. cbn [mbind option_bind].
  destruct ((ch =? 123) || (ch =? 91)) eqn:Eopen.
  { destruct (jsmn_open_ok len num ch p toks Hok Hpos) as (r & p' & toks' & -> & H).
    by eexists r, p', toks', 1. }
  destruct ((ch =? 125) || (ch =? 93)) eqn:Eclose.
  { destruct (jsmn_close_ok len num ch p toks Hok Hpos) as (r & p' & toks' & -> & H).
    by eexists r, p', toks', 0. }
  destruct (mem ch [9; 13; 10; 32]) eqn:Ews.
  { do 4 eexists. split; [done|]. split_and!; [done|lia..|]. intros _. split_and!; [done..|lia]. }
  destruct (ch =? chr_colon) eqn:Ecol.
  { do 4 eexists. split; [done|]. unfold step_ok. cbn [set_toksuper toknext pos]. split_and!; [done|lia..|]. intros _.
    split_and!; [done|apply parser_ok_super; [lia|done]|done..|lia]. }
  destruct (ch =? chr_comma) eqn:Ecom.
  { destruct (jsmn_comma_ok len num p toks Hok Hpos) as (p' & -> & H).
    by eexists 0, p', toks, 0. }
  assert (exists r p' toks',
    (if ch =? 34 then jsmn_parse_string p js len (Some toks) num
     else jsmn_parse_primitive p js len (Some toks) num) = Some (r, p', Some toks') /\
    step_ok len num p r p' toks' 1) as (r & p1 & toks1 & Eo & Hl & Hple & Hnle & Hneg & Hpos1).
  { destruct (ch =? 34) eqn:Eq.
    - unfold jsmn_parse_string.
      destruct (string_end_total js len Hjs (len - pos p) (S (pos p))) as (r & -> & Hq). cbn [mbind option_bind].
      destruct r as [q| |];
        [|by step_error..].
      specialize (Hq q eq_refl). apply store_token_ok; [done| |lia].
      split; cbn; [lia|]. right. lia.
    - unfold jsmn_parse_primitive.
      destruct (primitive_end_total js len Hjs (len - pos p) (pos p)) as (r & Ep & Hq); [lia|].
      rewrite Ep. cbn [mbind option_bind].
      destruct r as [q|];
        [|by step_error].
      assert (ends_primitive ch = false) as Hend.
      { b2p. unfold ends_primitive, mem, chr_colon, chr_comma in *. cbn [existsb] in *. b2p.
        repeat (apply orb_false_iff; split); try done; by apply Z.eqb_neq. }
      pose proof (primitive_end_progress js len Hjs (len - pos p) ch (pos p) q ltac:(lia) ltac:(lia) Hch Hc Hend Ep).
      specialize (Hq q eq_refl). apply store_token_ok; [done| |lia].
      split; cbn; [lia|]. right. lia. }
  setoid_rewrite Eo. cbn. destruct (Z.ltb_spec r 0).
  { do 4 eexists. split; [done|]. split_and!; [done..|intros; lia]. }
  destruct (Hpos1 ltac:(done)) as (-> & Hok1 & Hp1 & Hn1).
  destruct (bump_ok _ _ _ _ Hok1) as (toks2 & Eb & Hok2). rewrite Eb. cbn.
  do 4 eexists. split; [done|]. split_and!; [apply Hok2|lia..|]. intros _. split_and!; [done|done|lia..].
Qed.

(** The result of a parse: the counters within the text and the array; one of the
    errors, or the number of tokens, all of which are then ranges of the text. *)
Definition parse_ok (len num : nat) (o : outcome) : Prop :=
  exists r p toks, o = (r, p, Some toks) /\ length toks = num /\
    (pos p <= len)%nat /\ (toknext p <= num)%nat /\ -3 <= r /\
    (0 <= r -> parser_ok len num p toks /\ r = Z.of_nat (toknext p) /\
       forall i t, (i < toknext p)%nat -> toks !! i = Some t ->
         0 <= t_start t <= t_end t /\ t_end t <= Z.of_nat len).

(** An allocated token is open or a range; with no token open, all are ranges. *)
Lemma tok_ok_closed len pos t : tok_ok len pos t -> tok_open t = false ->
  0 <= t_start t <= t_end t /\ t_end t <= Z.of_nat len.
Proof.
  unfold tok_open. intros [H0 [(_ & He & _)|?]] Ho; [|lia].
  rewrite He in Ho. destruct (Z.eqb_spec (t_start t) (-1)); [lia|done].
Qed.

Lemma jsmn_finish_ok len num p toks : parser_ok len num p toks -> (pos p <= len)%nat ->
  exists o, jsmn_finish p (Some toks) (Z.of_nat (toknext p)) = Some o /\ parse_ok len num o.
Proof.
  intros Hok Hle. pose proof Hok as [Hr Hn Hs Ht]. unfold jsmn_finish.
  destruct (last_token_spec tok_open (toknext p) toks) as (i & -> & Hi & _ & Hlast); [lia|]. cbn.
  eexists; split; [done|]. do 3 eexists; split; [done|]. split_and!; [done..| |].
  all: destruct (Z.eqb_spec i (-1)) as [->|]; unfold JSMN_ERROR_PART; try lia.
  intros _. split_and!; [done|done|]. intros j t Hj Hlk.
  apply (tok_ok_closed len (pos p)); [by eapply Ht|]. apply (Hlast j); [lia|done].
Qed.

Lemma jsmn_loop_ok fuel js len num p toks : (len <= length js)%nat ->
  parser_ok len num p toks -> (pos p <= len <= pos p + fuel)%nat ->
  exists o, jsmn_loop fuel js len p (Some toks) num (Z.of_nat (toknext p)) = Some o /\
    parse_ok len num o.
Proof.
  intros Hjs. revert p toks; induction fuel as [|fuel IH]; intros p toks Hok Hfuel; cbn [jsmn_loop];
    destruct (peek_total js len Hjs (pos p)) as ([c|] & -> & Hc); cbn [mbind option_bind].
  2, 4: apply jsmn_finish_ok; [done|lia].
  - destruct (Hc c eq_refl). lia.
  - destruct (Hc c eq_refl) as (Hlt & Hch & Hc0).
    destruct (jsmn_step_ok js len num p toks c Hjs Hok Hlt Hch Hc0)
      as (r & p1 & toks1 & n & -> & Hl & Hple & Hnle & Hneg & Hstep).
    cbn [mbind option_bind]. destruct (Z.ltb_spec r 0).
    { eexists. split; [done|]. do 3 eexists. split; [done|]. split_and!; [done|lia..|intros; lia]. }
    destruct (Hstep ltac:(done)) as (-> & Hok1 & Hp1 & Hn1).
    destruct (IH (set_pos (S (pos p1)) p1) toks1) as (o & Ho & Hpo);
      [by apply parser_ok_pos; [lia|]|cbn [set_pos pos]; lia|].
    exists o. cbn [set_pos toknext] in Ho. split; [|done]. by rewrite <- Hn1.
Qed.

Lemma jsmn_init_ok len num toks : length toks = num -> parser_ok len num jsmn_init toks.
Proof. intros. split; cbn; [done|lia|lia|lia]. Qed.

(** C21. The JSON parser always returns.  On every text of less than 2^31 bytes that lies
    in memory ([len] is at most the size of [js]) and an array of any number of tokens
    below 2^31, it stops, and every character it looked at lay inside the text and every
    token inside the array.  It returns one of its three errors or the number of tokens;
    these are then ranges of the text, none of them left open, so that what a caller
    reads through them is the text.  The counters have not passed the length of the text
    and of the array: no [unsigned int] and no [int] has wrapped. *)
Theorem jsmn_parse_total js len toks :
  (len <= length js)%nat -> Z.of_nat len < 2 ^ 31 -> Z.of_nat (length toks) < 2 ^ 31 ->
  exists o, jsmn_parse jsmn_init js len (Some toks) (length toks) = Some o /\
    parse_ok len (length toks) o /\
    Z.of_nat (pos o.1.2) < 2 ^ 31 /\ Z.of_nat (toknext o.1.2) < 2 ^ 31 /\ o.1.1 < 2 ^ 31.
Proof.
  intros Hjs Hlen Hn.
  destruct (jsmn_loop_ok (len - 0) js len (length toks) jsmn_init toks Hjs) as (o & Ho & Hp);
    [by apply jsmn_init_ok|cbn; lia|].
  exists o. split; [exact Ho|]. split; [exact Hp|].
  destruct Hp as (r & p & toks' & -> & _ & Hpos & Hnext & _ & Hr). cbn. split_and!; [lia|lia|].
  destruct (Z.leb_spec 0 r); [|lia]. destruct (Hr ltac:(done)) as (_ & -> & _). lia.
Qed.
