(* ===== verification/JsmnRoundtrip.v ===== *)
(** The texts that the JSON parser reads (Jsmn), as concrete syntax trees, and the token
    table that it makes of each of them.

    The JSON parser on the text of a tree: the loop, character by character, builds the
    token table of that tree.

    The JSON parser reads every text of a tree: the brackets, the items, and the
    theorem. *)

From S2P Require Import Prelude.
From S2P Require Import Jsmn.
From S2P Require Import JsmnProps.

(** * Concrete syntax *)

(** A text is a primitive, a string, or a bracket with its items: each item may have a
    key, and keeps the white space around its parts, so that a tree has one text. *)
Inductive json :=
  | JPrim (s : bytes)
  | JStr (s : bytes)
  | JNode (obj : bool) (w : bytes) (its : items)
with items :=
  | INil
  | ICons (w : bytes) (key : option (bytes * bytes * bytes)) (v : json) (w' : bytes) (rest : items).

Definition in_quotes (s : bytes) : bytes := 34 :: s ++ [34].

Definition key_text (key : option (bytes * bytes * bytes)) : bytes :=
  match key with
  | None => []
  | Some (k, w1, w2) => in_quotes k ++ w1 ++ 58 :: w2
  end.

Fixpoint json_text (v : json) : bytes :=
  match v with
  | JPrim s => s
  | JStr s => in_quotes s
  | JNode obj w its =>
      (if obj then 123 else 91) :: w ++ items_text true its ++ [if obj then 125 else 93]
  end
with items_text (first : bool) (its : items) : bytes :=
  match its with
  | INil => []
  | ICons w key v w' rest =>
      (if first then [] else [44]) ++ w ++ key_text key ++ json_text v ++ w' ++ items_text false rest
  end.

Fixpoint items_count (its : items) : Z :=
  match its with INil => 0 | ICons _ _ _ _ rest => 1 + items_count rest end.

(** The token table of a tree whose text is at offset [o]. *)
Definition key_toks (o : nat) (key : option (bytes * bytes * bytes)) : list jsmntok_t :=
  match key with
  | None => []
  | Some (k, _, _) =>
      [Tok JSMN_STRING (Z.of_nat o + 1) (Z.of_nat (o + 1 + length k)) 1]
  end.

Fixpoint json_toks (o : nat) (v : json) : list jsmntok_t :=
  match v with
  | JPrim s => [Tok JSMN_PRIMITIVE (Z.of_nat o) (Z.of_nat (o + length s)) 0]
  | JStr s => [Tok JSMN_STRING (Z.of_nat o + 1) (Z.of_nat (o + 1 + length s)) 0]
  | JNode obj w its =>
      Tok (if obj then JSMN_OBJECT else JSMN_ARRAY) (Z.of_nat o)
          (Z.of_nat (o + length (json_text v))) (items_count its)
      :: items_toks true (o + 1 + length w) its
  end
with items_toks (first : bool) (o : nat) (its : items) : list jsmntok_t :=
  match its with
  | INil => []
  | ICons w key v w' rest =>
      let sep := (if first then [] else [44]) ++ w in
      let o1 := (o + length sep)%nat in
      let o2 := (o1 + length (key_text key))%nat in
      key_toks o1 key ++ json_toks o2 v ++
      items_toks false (o2 + length (json_text v) + length w') rest
  end.

(** Which trees are texts of JSON. *)
Definition is_ws (c : Z) : bool := mem c [9; 13; 10; 32].
Definition ws (s : bytes) : Prop := Forall (fun c => is_ws c = true) s.

Definition prim_char (c : Z) : bool := (32 <? c) && (c <? 127) && negb (ends_primitive c).

Definition prim_ok (s : bytes) : Prop :=
  match s with
  | [] => False
  | c :: _ => mem c [123; 91; 34] = false /\ Forall (fun c => prim_char c = true) s
  end.

Inductive str_body : bytes -> Prop :=
  | body_nil : str_body []
  | body_char c s : mem c [0; 34; 92] = false -> str_body s -> str_body (c :: s)
  | body_escape e s : is_simple_escape e = true -> str_body s -> str_body (92 :: e :: s)
  | body_hex a b c d s : Forall (fun h => isxdigit h = true) [a; b; c; d] -> str_body s ->
      str_body (92 :: 117 :: a :: b :: c :: d :: s).

Definition key_ok (key : option (bytes * bytes * bytes)) : Prop :=
  match key with
  | None => True
  | Some (k, w1, w2) => str_body k /\ ws w1 /\ ws w2
  end.

Fixpoint json_ok (v : json) : Prop :=
  match v with
  | JPrim s => prim_ok s
  | JStr s => str_body s
  | JNode _ w its => ws w /\ items_ok its
  end
with items_ok (its : items) : Prop :=
  match its with
  | INil => True
  | ICons w key v w' rest => ws w /\ key_ok key /\ json_ok v /\ ws w' /\ items_ok rest
  end.

Scheme json_mind := Induction for json Sort Prop
  with items_mind := Induction for items Sort Prop.
Combined Scheme json_items_ind from json_mind, items_mind.

(** * The scanners on such texts *)

Section Scan.
Context (js : bytes).

Lemma at_cons o c s : drop o js = c :: s ->
    js !! o = Some c /\ (o < length js)%nat /\ drop (S o) js = s.
Proof.
    intros H. split; [|split].
    - replace o with (o + 0)%nat by lia. rewrite <- lookup_drop, H. done.
    - assert (length (drop o js) = length (c :: s)) as Hl by (by rewrite H).
      rewrite length_drop in Hl. cbn in Hl. lia.
    - replace (S o) with (o + 1)%nat by lia. by rewrite <- drop_drop, H.
Qed.

Lemma at_app o x s : drop o js = x ++ s -> drop (o + length x) js = s.
Proof. intros H. by rewrite <- drop_drop, H, drop_app_length. Qed.

Lemma at_len o x s : drop o js = x ++ s -> (0 < length x)%nat -> (o + length x <= length js)%nat.
Proof.
    intros H Hx. assert (length (drop o js) = length (x ++ s)) as Hl by (by rewrite H).
    rewrite length_drop, length_app in Hl. lia.
Qed.

(** A character of the text is there for the scanners. *)
Lemma peek_char p c : js !! p = Some c -> c <> 0 -> peek js (length js) p = Some (Some c).
Proof.
    intros Hc H0. apply lookup_lt_Some in Hc as Hl. unfold peek.
    rewrite (proj2 (Nat.ltb_lt _ _)), Hc by done. cbn. by rewrite (proj2 (Z.eqb_neq _ _)).
Qed.

Lemma hex_digits_read a b c d o s : drop o js = a :: b :: c :: d :: s ->
    Forall (fun h => isxdigit h = true) [a; b; c; d] ->
    hex_digits 4 js (length js) o = Some (Some (o + 4)%nat).
Proof.
    intros Ha Hh. apply Forall_cons_1 in Hh as [Xa Hh]. apply Forall_cons_1 in Hh as [Xb Hh].
    apply Forall_cons_1 in Hh as [Xc Hh]. apply Forall_cons_1 in Hh as [Xd _].
    assert (forall h, isxdigit h = true -> h <> 0) as Hnz.
    { intros h Hx ->. by vm_compute in Hx. }
    apply at_cons in Ha as (Ra & La & Hb). apply at_cons in Hb as (Rb & Lb & Hc).
    apply at_cons in Hc as (Rc & Lc & Hd). apply at_cons in Hd as (Rd & Ld & _).
    cbn [hex_digits].
    rewrite (peek_char o a), (peek_char (S o) b), (peek_char (S (S o)) c), (peek_char (S (S (S o))) d) by auto.
    cbn [mbind option_bind]. rewrite Xa, Xb, Xc, Xd. do 2 f_equal. lia.
Qed.

Lemma string_end_read s : str_body s -> forall fuel o suf, drop o js = s ++ 34 :: suf ->
    (length s < fuel)%nat -> string_end fuel js (length js) o = Some (StrEnd (o + length s)).
Proof.
    induction 1 as [|c s Hc _ IH|e s He _ IH|a b c d s Hh _ IH]; intros fuel o suf Hat Hf;
      (destruct fuel as [|fuel]; [cbn [length] in Hf; lia|]); cbn [string_end];
      apply at_cons in Hat as (Hr & Hl & Hat).
    - rewrite (peek_char o 34) by done. cbn. by rewrite Nat.add_0_r.
    - cbn [length] in *. unfold mem in Hc. cbn [existsb] in Hc. b2p.
      rewrite (peek_char o c) by done. cbn [mbind option_bind].
      rewrite (proj2 (Z.eqb_neq c 34)) by done.
      unfold chr_backslash. rewrite (proj2 (Z.eqb_neq c 92)) by done. cbn [andb].
      rewrite (IH fuel (S o) suf) by (done || lia). do 2 f_equal. lia.
    - cbn [length app] in *. apply at_cons in Hat as (Hr' & Hl' & Hat).
      rewrite (peek_char o 92) by done. cbn [mbind option_bind].
      change (92 =? 34) with false. change (92 =? chr_backslash) with true.
      cbn [andb]. rewrite (proj2 (Nat.ltb_lt _ _)) by lia. rewrite Hr'. cbn [mbind option_bind]. rewrite He.
      rewrite (IH fuel (S (S o)) suf) by (done || lia). do 2 f_equal. lia.
    - cbn [length app] in *. apply at_cons in Hat as (Hr' & Hl' & Hat).
      rewrite (peek_char o 92) by done. cbn [mbind option_bind].
      change (92 =? 34) with false. change (92 =? chr_backslash) with true.
      cbn [andb]. rewrite (proj2 (Nat.ltb_lt _ _)) by lia. rewrite Hr'. cbn [mbind option_bind].
      change (is_simple_escape 117) with false. change (117 =? 117) with true. cbn [andb].
      rewrite (hex_digits_read a b c d (S (S o)) (s ++ 34 :: suf)) by done. cbn [mbind option_bind].
      replace (S (S (S o) + 4 - 1)) with (o + 6)%nat by lia.
      rewrite (IH fuel (o + 6)%nat suf); [do 2 f_equal; lia| |lia].
      apply (at_app (S (S o)) [a; b; c; d]) in Hat. cbn [length] in Hat.
      replace (o + 6)%nat with (S (S o) + 4)%nat by lia. done.
Qed.

  (** What may follow a primitive: the end of the text or one of its delimiters. *)
Definition delimited (suf : bytes) : Prop :=
    match suf with [] => True | c :: _ => ends_primitive c = true end.

Lemma ends_primitive_nz c : ends_primitive c = true -> (c =? 0) = false.
Proof. intros H. destruct (Z.eqb_spec c 0) as [->|]; [by vm_compute in H|done]. Qed.

Lemma primitive_end_read s : Forall (fun c => prim_char c = true) s -> forall n o suf,
    drop o js = s ++ suf -> delimited suf -> n = length (s ++ suf) ->
    primitive_end n js o = Some (Some (o + length s)%nat).
Proof.
    induction 1 as [|c s Hc _ IH]; intros n o suf Hat Hd ->.
    - destruct suf as [|d suf]; cbn [app length primitive_end]; [by rewrite Nat.add_0_r|].
      apply at_cons in Hat as (-> & _). change (ends_primitive d = true) in Hd.
      cbn [mbind option_bind]. rewrite (ends_primitive_nz d Hd), Hd.
      by rewrite Nat.add_0_r.
    - cbn [app length primitive_end]. apply at_cons in Hat as (-> & _ & Hat). cbn [mbind option_bind].
      unfold prim_char in Hc. b2p.
      rewrite (proj2 (Z.eqb_neq c 0)) by lia.
      replace (ends_primitive c) with false.
      rewrite (proj2 (Z.ltb_ge c 32)), (proj2 (Z.leb_gt 127 c)) by lia. cbn [orb].
      rewrite (IH _ (S o) suf) by done. do 2 f_equal. lia.
Qed.
End Scan.

(** * Lists of tokens *)

Definition tok_add (k : Z) (t : jsmntok_t) : jsmntok_t :=
  Tok (t_type t) (t_start t) (t_end t) (t_size t + k).

(** The tokens [dn] after [k] children of token [sup], or of none. *)
Definition bumped (k sup : Z) (dn : list jsmntok_t) : list jsmntok_t :=
  if sup =? -1 then dn else alter (tok_add k) (Z.to_nat sup) dn.

(** The innermost bracket that is open after the tokens [dn]. *)
Definition enclosing (dn : list jsmntok_t) : Z := default (-1) (last_token tok_open (length dn) dn).

Definition all_closed (l : list jsmntok_t) : Prop := Forall (fun t => tok_open t = false) l.

Definition opens_ok (dn : list jsmntok_t) : Prop :=
  Forall (fun t => tok_open t = true -> tok_container t = true) dn.

(** Where [toksuper] may point between the items of bracket [c]. *)
Definition super_in (c : Z) (dn : list jsmntok_t) (sup : Z) : Prop :=
  0 <= sup < Z.of_nat (length dn) /\
  (sup = c \/ exists t, dn !! Z.to_nat sup = Some t /\ tok_container t = false).

Lemma length_bumped k sup dn : length (bumped k sup dn) = length dn.
Proof. unfold bumped. destr_if; [done|]. apply length_alter. Qed.

Lemma bumped_app k sup dn r : -1 <= sup < Z.of_nat (length dn) ->
  bumped k sup (dn ++ r) = bumped k sup dn ++ r.
Proof.
  intros H. unfold bumped. destr_if; [done|]. b2p. apply alter_app_l. lia.
Qed.

Lemma bumped_bumped j k sup dn : bumped k sup (bumped j sup dn) = bumped (j + k) sup dn.
Proof.
  unfold bumped. destr_if; [done|]. rewrite list_alter_alter_eq.
  apply list_alter_ext; [|done]. intros t _. unfold tok_add, compose. cbn. f_equal. lia.
Qed.

Lemma bumped_0 sup dn : bumped 0 sup dn = dn.
Proof.
  unfold bumped. destr_if; [done|]. apply list_alter_id. intros [? ? ? ?]. unfold tok_add.
  cbn. f_equal. lia.
Qed.

Lemma bumped_last k dn t : bumped k (Z.of_nat (length dn)) (dn ++ [t]) = dn ++ [tok_add k t].
Proof.
  unfold bumped. rewrite (proj2 (Z.eqb_neq _ _)) by lia. rewrite Nat2Z.id.
  rewrite alter_app_r_alt by lia. by rewrite Nat.sub_diag.
Qed.

Lemma bump_bumped sup dn fr : -1 <= sup < Z.of_nat (length dn) ->
  bump sup (dn ++ fr) = Some (bumped 1 sup dn ++ fr).
Proof.
  intros H. unfold bump, bumped. destruct (Z.eqb_spec sup (-1)); [done|].
  unfold tok_at, tok_set. rewrite (proj2 (Z.ltb_ge _ _)) by lia.
  destruct (lookup_lt_is_Some_2 dn (Z.to_nat sup)) as [t Ht]; [lia|].
  rewrite lookup_app_l, Ht by lia. cbn.
  rewrite (proj2 (Nat.leb_gt _ _)) by (rewrite length_app; lia). f_equal.
  rewrite insert_app_l by lia. f_equal. rewrite list_insert_alter.
  apply list_alter_ext; [|done]. intros u Hu. by rewrite Ht in Hu; injection Hu as ->.
Qed.

Lemma last_token_ext f g n l l' : (n <= length l)%nat -> length l = length l' ->
  (forall i t u, l !! i = Some t -> l' !! i = Some u -> f t = g u) ->
  last_token f n l = last_token g n l'.
Proof.
  intros Hn Hl H. induction n as [|n IH]; cbn [last_token]; [done|].
  destruct (lookup_lt_is_Some_2 l n) as [t Ht]; [lia|].
  destruct (lookup_lt_is_Some_2 l' n) as [u Hu]; [lia|].
  rewrite Ht, Hu. cbn. rewrite (H _ _ _ Ht Hu), IH by lia. done.
Qed.

Lemma last_token_app f n l r : (n <= length l)%nat -> last_token f n (l ++ r) = last_token f n l.
Proof.
  induction n as [|n IH]; intros Hn; cbn [last_token]; [done|].
  rewrite lookup_app_l by lia. by rewrite IH by lia.
Qed.

Lemma last_token_snoc f l t : last_token f (S (length l)) (l ++ [t]) =
  if f t then Some (Z.of_nat (length l)) else last_token f (length l) l.
Proof.
  cbn [last_token]. rewrite lookup_app_r, Nat.sub_diag by lia. cbn.
  by rewrite last_token_app by lia.
Qed.

Lemma last_token_closed l r : all_closed r ->
  last_token tok_open (length (l ++ r)) (l ++ r) = last_token tok_open (length l) l.
Proof.
  intros H. induction r as [|t r IH] using rev_ind; [by rewrite app_nil_r|].
  apply Forall_app in H as [Hr Ht]. apply Forall_cons_1 in Ht as [Ht _].
  rewrite app_assoc, length_app. replace (length (l ++ r) + length [t])%nat with (S (length (l ++ r)))
    by (cbn; lia). rewrite last_token_snoc, Ht. by apply IH.
Qed.

Lemma last_token_def f l : exists i, last_token f (length l) l = Some i /\ -1 <= i < Z.of_nat (length l).
Proof.
  induction l as [|t l (i & IH & Hi)] using rev_ind; [exists (-1); cbn; split; [done|lia]|].
  rewrite length_app, Nat.add_comm. cbn [Nat.add length]. rewrite last_token_snoc.
  destr_if; [exists (Z.of_nat (length l))|exists i]; (split; [done|lia]).
Qed.

Lemma enclosing_def dn : last_token tok_open (length dn) dn = Some (enclosing dn) /\
  -1 <= enclosing dn < Z.of_nat (length dn).
Proof. unfold enclosing. destruct (last_token_def tok_open dn) as (i & -> & H). done. Qed.

Lemma enclosing_closed dn r : all_closed r -> enclosing (dn ++ r) = enclosing dn.
Proof. intros H. unfold enclosing. by rewrite last_token_closed. Qed.

Lemma enclosing_open dn t : tok_open t = true -> enclosing (dn ++ [t]) = Z.of_nat (length dn).
Proof.
  intros H. unfold enclosing. rewrite length_app, Nat.add_comm. cbn [Nat.add length].
  by rewrite last_token_snoc, H.
Qed.

(** What only depends on the kinds and ends of the tokens is the same after a bump. *)
Lemma bumped_lookup k sup dn i u : bumped k sup dn !! i = Some u ->
  exists t, dn !! i = Some t /\ tok_open u = tok_open t /\ tok_container u = tok_container t.
Proof.
  unfold bumped. destr_if; [by exists u|]. intros H.
  rewrite list_lookup_alter in H. case_decide as Hi; [subst i|by exists u].
  apply fmap_Some in H as (t & Ht & ->). exists t. split_and!; [exact Ht|reflexivity..].
Qed.

Lemma enclosing_bumped k sup dn : enclosing (bumped k sup dn) = enclosing dn.
Proof.
  unfold enclosing. f_equal. rewrite length_bumped. apply last_token_ext; rewrite ?length_bumped; [done..|].
  intros i t u Ht Hu. apply bumped_lookup in Ht as (v & Hv & -> & _). congruence.
Qed.

Lemma opens_ok_bumped k sup dn : opens_ok dn -> opens_ok (bumped k sup dn).
Proof.
  unfold opens_ok. rewrite !list_relations.list.Forall_lookup. intros H i u Hu.
  apply bumped_lookup in Hu as (t & Ht & -> & ->). by eapply H.
Qed.

Lemma closed_opens_ok l : all_closed l -> opens_ok l.
Proof. intros H. eapply Forall_impl; [|exact H]. cbn. intros t ->. done. Qed.

Lemma super_in_bumped k s c dn sup : super_in c dn sup -> super_in c (bumped k s dn) sup.
Proof.
  intros [H H']. split; [by rewrite length_bumped|]. destruct H' as [|(t & Ht & Hc)]; [by left|right].
  destruct (lookup_lt_is_Some_2 (bumped k s dn) (Z.to_nat sup)) as [u Hu]; [rewrite length_bumped; lia|].
  exists u. split; [done|]. apply bumped_lookup in Hu as (v & Hv & _ & ->). congruence.
Qed.

Lemma super_in_app c dn r sup : super_in c dn sup -> super_in c (dn ++ r) sup.
Proof.
  intros [H H']. split; [rewrite length_app; lia|]. destruct H' as [|(t & Ht & Hc)]; [by left|right].
  exists t. split; [|done]. by apply lookup_app_l_Some.
Qed.

(** The tokens of a text are closed. *)
Lemma tok_closed ty s n k : tok_open (Tok ty s (Z.of_nat n) k) = false.
Proof. unfold tok_open. cbn. apply andb_false_iff. right. apply Z.eqb_neq. lia. Qed.

Lemma key_toks_closed o key : all_closed (key_toks o key).
Proof. destruct key as [[[k w1] w2]|]; repeat constructor. apply tok_closed. Qed.

Lemma toks_closed :
  (forall v o, all_closed (json_toks o v)) /\ (forall its first o, all_closed (items_toks first o its)).
Proof.
  apply json_items_ind; intros; cbn [json_toks items_toks]; unfold all_closed in *.
  - repeat constructor. apply tok_closed.
  - repeat constructor. apply tok_closed.
  - constructor; [apply tok_closed|auto].
  - constructor.
  - apply Forall_app. split; [apply key_toks_closed|]. apply Forall_app. auto.
Qed.

(** * The loop on a text *)

Section Reads.
Context (js : bytes) (num : nat).

  (** The parser at offset [o] with the tokens [dn] handed out and [fr] still free; so
      far [count] is their number. *)
Definition conf : Type := jsmn_parser * list jsmntok_t * Z.
Definition St (o : nat) (sup : Z) (dn fr : list jsmntok_t) : conf :=
    (Parser o (length dn) sup, dn ++ fr, Z.of_nat (length dn)).

Definition run (fuel : nat) (c : conf) : option outcome :=
    let '(p, toks, count) := c in jsmn_loop fuel js (length js) p (Some toks) num count.

Definition conf_pos (c : conf) : nat := pos c.1.1.

  (** The loop comes from [c] to [c'], with at least a character for each round. *)
Definition reaches (c c' : conf) : Prop :=
    exists k, (conf_pos c + k <= conf_pos c')%nat /\ forall fuel, run (k + fuel) c = run fuel c'.

Lemma reaches_refl c : reaches c c.
Proof. exists 0%nat. split; [lia|done]. Qed.

Lemma reaches_trans c1 c2 c3 : reaches c1 c2 -> reaches c2 c3 -> reaches c1 c3.
Proof.
    intros (k & Hk & H1) (l & Hl & H2). exists (k + l)%nat. split; [lia|].
    intros fuel. by rewrite <- Nat.add_assoc, H1, H2.
Qed.

Lemma reaches_step p toks count p' toks' n ch s : drop (pos p) js = ch :: s -> ch <> 0 ->
    jsmn_step js (length js) p (Some toks) num = Some (0, p', Some toks', n) ->
    (pos p <= pos p')%nat ->
    reaches (p, toks, count) (set_pos (S (pos p')) p', toks', count + n).
Proof.
    intros Hat Hc Hs Hp. apply at_cons in Hat as (Hr & Hl & _). exists 1%nat.
    unfold conf_pos. cbn [fst set_pos pos]. split; [lia|]. intros fuel.
    unfold run. change (1 + fuel)%nat with (S fuel). cbn [jsmn_loop].
    rewrite (peek_char js (pos p) ch) by done. cbn [mbind option_bind]. by rewrite Hs.
Qed.

  (** A step that changes the parent or the tokens, at the offset [o]. *)
Lemma reaches_char o sup dn fr sup' dn' fr' ch s : drop o js = ch :: s -> ch <> 0 ->
    jsmn_step js (length js) (Parser o (length dn) sup) (Some (dn ++ fr)) num =
      Some (0, Parser o (length dn') sup', Some (dn' ++ fr'), Z.of_nat (length dn') - Z.of_nat (length dn)) ->
    reaches (St o sup dn fr) (St (S o) sup' dn' fr').
Proof.
    intros Hat Hc Hs. eapply reaches_step in Hs; [|cbn [pos]; done|done|cbn [pos]; lia].
    unfold St. cbn [set_pos pos toknext toksuper] in Hs.
    replace (Z.of_nat (length dn) + (Z.of_nat (length dn') - Z.of_nat (length dn)))
      with (Z.of_nat (length dn')) in Hs by lia. exact Hs.
Qed.

Lemma is_ws_char c : is_ws c = true -> c = 9 \/ c = 13 \/ c = 10 \/ c = 32.
Proof. unfold is_ws. rewrite mem_true. cbn. intuition auto. Qed.

Lemma reads_ws w : ws w -> forall o s sup dn fr, drop o js = w ++ s ->
    reaches (St o sup dn fr) (St (o + length w) sup dn fr).
Proof.
    induction 1 as [|c w Hc _ IH]; intros o s sup dn fr Hat.
    { rewrite Nat.add_0_r. apply reaches_refl. }
    pose proof (at_cons _ _ _ _ Hat) as (Hr & _ & Hat').
    eapply reaches_trans; [|replace (o + length (c :: w))%nat with (S o + length w)%nat by (cbn; lia);
      by eapply IH].
    eapply reaches_char; [done|by destruct (is_ws_char c Hc) as [->|[->|[->| ->]]]|].
    unfold jsmn_step. cbn [pos]. rewrite Hr, Z.sub_diag. cbn [mbind option_bind].
    by destruct (is_ws_char c Hc) as [->|[->|[->| ->]]].
Qed.

  (** Storing a token of a string or a primitive. *)
Lemma store_token_free q sup dn t0 fr start t final : (length dn < num)%nat ->
    jsmn_store_token (Parser q (length dn) sup) (Some (dn ++ t0 :: fr)) num start t final =
      Some (0, Parser final (length (dn ++ [t])) sup, Some ((dn ++ [t]) ++ fr)).
Proof.
    intros Hn. unfold jsmn_store_token, jsmn_alloc_token. cbn [toknext pos].
    rewrite (proj2 (Nat.leb_gt _ _)) by done. unfold tok_at, tok_set.
    rewrite (proj2 (Z.ltb_ge _ _)), Nat2Z.id by lia.
    rewrite lookup_app_r, Nat.sub_diag by lia. cbn [lookup list_lookup mbind option_bind].
    rewrite (proj2 (Nat.leb_gt _ _)) by (rewrite length_app; cbn; lia). cbn [orb mbind option_bind].
    rewrite (proj2 (Z.ltb_ge _ _)), Nat2Z.id by lia.
    rewrite (proj2 (Nat.leb_gt _ _)) by (rewrite length_insert, length_app; cbn; lia).
    cbn [orb mbind option_bind]. rewrite list_insert_insert_eq.
    rewrite insert_app_r_alt, Nat.sub_diag by lia. cbn.
    unfold set_pos, set_toknext. cbn. rewrite length_app, <- app_assoc. cbn.
    by rewrite Nat.add_comm.
Qed.

Lemma bumped_new sup dn t r : -1 <= sup < Z.of_nat (length dn) ->
    bump sup ((dn ++ [t]) ++ r) = Some ((bumped 1 sup dn ++ [t]) ++ r).
Proof.
    intros H. rewrite <- !app_assoc, bump_bumped by done. done.
Qed.

Lemma length_new k sup dn (t : jsmntok_t) :
    length (bumped k sup dn ++ [t]) = length (dn ++ [t]).
Proof. by rewrite !length_app, length_bumped. Qed.

Lemma reads_string s : str_body s -> forall o suf sup dn t0 fr, drop o js = in_quotes s ++ suf ->
    (length dn < num)%nat -> -1 <= sup < Z.of_nat (length dn) ->
    reaches (St o sup dn (t0 :: fr))
      (St (o + length (in_quotes s)) sup
         (bumped 1 sup dn ++
            [Tok JSMN_STRING (Z.of_nat o + 1) (Z.of_nat (o + 1 + length s)) 0]) fr).
Proof.
    intros Hs o suf sup dn t0 fr Hat Hn Hsup. unfold in_quotes in Hat. cbn [app] in Hat.
    rewrite <- app_assoc in Hat. pose proof (at_cons _ _ _ _ Hat) as (Hr & Hl & Hat').
    pose proof (at_len js (S o) (s ++ [34]) suf) as Hlen. rewrite <- app_assoc, length_app in Hlen.
    specialize (Hlen Hat' ltac:(cbn; lia)). cbn [length] in Hlen.
    set (t := Tok JSMN_STRING _ _ 0).
    assert (jsmn_step js (length js) (Parser o (length dn) sup) (Some (dn ++ t0 :: fr)) num =
      Some (0, Parser (o + 1 + length s) (length (dn ++ [t])) sup,
            Some ((bumped 1 sup dn ++ [t]) ++ fr), 1)) as Hstep.
    { unfold jsmn_step. cbn [pos]. rewrite Hr. cbn [mbind option_bind Z.eqb Pos.eqb orb mem existsb].
      change (34 =? chr_colon) with false. change (34 =? chr_comma) with false.
      unfold jsmn_parse_string. cbn [pos].
      rewrite (string_end_read js s Hs _ (S o) suf Hat') by lia. cbn [mbind option_bind]. unfold set_pos. cbn [pos toknext toksuper].
      replace (S o + length s)%nat with (o + 1 + length s)%nat by lia.
      change (jsmn_fill_token _ _ _) with t. rewrite store_token_free by done.
      cbn [mbind option_bind]. change (0 <? 0) with false. cbn [toksuper bump_opt].
      by rewrite bumped_new. }
    pose proof (reaches_step (Parser o (length dn) sup) _ (Z.of_nat (length dn)) _ _ _ _ _ Hat ltac:(done) Hstep) as H.
    unfold St. rewrite length_new. cbn [pos set_pos toknext toksuper] in H.
    replace (o + length (in_quotes s))%nat with (S (o + 1 + length s)) by
      (unfold in_quotes; cbn [length]; rewrite length_app; cbn; lia).
    replace (Z.of_nat (length (dn ++ [t]))) with (Z.of_nat (length dn) + 1) by
      (rewrite length_app; cbn [length]; lia).
    apply H. lia.
Qed.

Lemma prim_first c s : prim_ok (c :: s) ->
    mem c [123; 91; 125; 93; 9; 13; 10; 32; 58; 44; 34; 0] = false.
Proof.
    intros [Hf Hall]. apply Forall_cons_1 in Hall as [Hc _]. unfold prim_char, ends_primitive in Hc.
    unfold mem in *. cbn [existsb] in *. b2p. b2p.
    repeat (apply orb_false_iff; split); try done; apply Z.eqb_neq; lia.
Qed.

Lemma reads_prim s : prim_ok s -> forall o suf sup dn t0 fr, drop o js = s ++ suf ->
    delimited suf -> (length dn < num)%nat -> -1 <= sup < Z.of_nat (length dn) ->
    reaches (St o sup dn (t0 :: fr))
      (St (o + length s) sup
         (bumped 1 sup dn ++ [Tok JSMN_PRIMITIVE (Z.of_nat o) (Z.of_nat (o + length s)) 0]) fr).
Proof.
    destruct s as [|c s]; [done|]. intros Hs o suf sup dn t0 fr Hat Hd Hn Hsup.
    pose proof (at_cons _ _ _ _ Hat) as (Hr & Hl & _).
    assert (length (drop o js) = length ((c :: s) ++ suf)) as Hlen by (by rewrite Hat).
    rewrite length_drop in Hlen.
    set (t := Tok JSMN_PRIMITIVE _ _ 0).
    pose proof (prim_first c s Hs) as Hc. unfold mem in Hc. cbn [existsb] in Hc. b2p.
    assert (jsmn_step js (length js) (Parser o (length dn) sup) (Some (dn ++ t0 :: fr)) num =
      Some (0, Parser (o + length (c :: s) - 1) (length (dn ++ [t])) sup,
            Some ((bumped 1 sup dn ++ [t]) ++ fr), 1)) as Hstep.
    { unfold jsmn_step. cbn [pos]. rewrite Hr. cbn [mbind option_bind]. unfold mem, chr_colon, chr_comma. cbn [existsb].
      rewrite !(proj2 (Z.eqb_neq _ _)) by done. cbn [orb].
      unfold jsmn_parse_primitive. cbn [pos].
      rewrite (primitive_end_read js (c :: s) (proj2 Hs) _ o suf Hat Hd) by lia. cbn [mbind option_bind].
      unfold set_pos. cbn [pos toknext toksuper].
      change (jsmn_fill_token _ _ _) with t. rewrite store_token_free by done.
      cbn [mbind option_bind]. change (0 <? 0) with false. cbn [toksuper bump_opt].
      by rewrite bumped_new. }
    assert (c <> 0) as Hc0 by done.
    pose proof (reaches_step (Parser o (length dn) sup) _ (Z.of_nat (length dn)) _ _ _ _ _ Hat Hc0 Hstep) as Hreach.
    unfold St. rewrite length_new. cbn [pos set_pos toknext toksuper] in Hreach.
    replace (S (o + length (c :: s) - 1)) with (o + length (c :: s))%nat in Hreach by (cbn; lia).
    replace (Z.of_nat (length (dn ++ [t]))) with (Z.of_nat (length dn) + 1) by
      (rewrite length_app; cbn [length]; lia).
    apply Hreach. cbn. lia.
Qed.
End Reads.

Section Trees.
Context (js : bytes) (num : nat).

Lemma reads_open (obj : bool) o s sup dn t0 fr :
    drop o js = (if obj then 123 else 91) :: s ->
    (length dn < num)%nat -> -1 <= sup < Z.of_nat (length dn) ->
    reaches js num (St o sup dn (t0 :: fr))
      (St (S o) (Z.of_nat (length dn))
         (bumped 1 sup dn ++
            [Tok (if obj then JSMN_OBJECT else JSMN_ARRAY) (Z.of_nat o) (-1) 0]) fr).
Proof.
    intros Hat Hn Hsup. pose proof (at_cons _ _ _ _ Hat) as (Hr & Hl & _).
    eapply reaches_char; [exact Hat|by destruct obj|].
    unfold jsmn_step. cbn [pos]. rewrite Hr. cbn [mbind option_bind].
    replace ((_ =? 123) || _) with true by (by destruct obj).
    unfold jsmn_open, jsmn_alloc_token. cbn [toknext].
    rewrite (proj2 (Nat.leb_gt _ _)) by done. unfold tok_at, tok_set.
    rewrite (proj2 (Z.ltb_ge _ _)), Nat2Z.id by lia.
    rewrite lookup_app_r, Nat.sub_diag by lia. cbn [lookup list_lookup mbind option_bind].
    rewrite (proj2 (Nat.leb_gt _ _)) by (rewrite length_app; cbn; lia). cbn [orb mbind option_bind].
    rewrite insert_app_r_alt, Nat.sub_diag by lia. cbn [insert list_insert set_toknext toksuper pos].
    rewrite bump_bumped by done. cbn [mbind option_bind].
    rewrite (proj2 (Z.ltb_ge _ _)), Nat2Z.id by lia.
    rewrite lookup_app_r, length_bumped, Nat.sub_diag by (rewrite length_bumped; lia).
    cbn [lookup list_lookup mbind option_bind].
    rewrite (proj2 (Nat.leb_gt _ _)) by (rewrite length_app, length_bumped; cbn; lia).
    cbn [orb mbind option_bind].
    rewrite insert_app_r_alt, length_bumped, Nat.sub_diag by (rewrite length_bumped; lia).
    cbn [insert list_insert t_end t_size]. unfold set_toksuper, set_toknext. cbn [pos toknext].
    rewrite length_app, length_bumped, <- app_assoc. cbn [length app].
    replace (length dn + 1)%nat with (S (length dn)) by lia.
    destruct obj; cbn [Z.eqb Pos.eqb]; repeat f_equal; lia.
Qed.

Lemma reads_colon o s sup dn fr : drop o js = 58 :: s ->
    reaches js num (St o sup dn fr) (St (S o) (Z.of_nat (length dn) - 1) dn fr).
Proof.
    intros Hat. pose proof (at_cons _ _ _ _ Hat) as (Hr & Hl & _).
    eapply reaches_char; [exact Hat|done|]. unfold jsmn_step. cbn [pos]. rewrite Hr. cbn [mbind option_bind].
    cbn. by rewrite Z.sub_diag.
Qed.

Lemma reads_comma o s sup c dn fr : drop o js = 44 :: s -> c = enclosing dn -> 0 <= c ->
    opens_ok dn -> super_in c dn sup ->
    reaches js num (St o sup dn fr) (St (S o) c dn fr).
Proof.
    intros Hat -> Hc Hok [Hsup Hin]. pose proof (at_cons _ _ _ _ Hat) as (Hr & Hl & _).
    pose proof (enclosing_def dn) as [He Hb].
    assert (last_token (fun t => tok_container t && tok_open t) (length dn) (dn ++ fr) =
            Some (enclosing dn)) as Hlast.
    { rewrite last_token_app, <- He by lia. apply last_token_ext; [done..|].
      intros i t u Ht Hu. assert (t = u) as -> by congruence.
      pose proof (proj1 (list_relations.list.Forall_lookup _ _) Hok i u Hu) as Ho. cbn in Ho.
      destruct (tok_open u); [by rewrite Ho|apply andb_false_r]. }
    eapply reaches_char; [exact Hat|done|]. unfold jsmn_step. cbn [pos]. rewrite Hr, Z.sub_diag. cbn [mbind option_bind].
    cbn [Z.eqb Pos.eqb orb mem existsb]. change (44 =? chr_colon) with false.
    change (44 =? chr_comma) with true. cbn iota. unfold jsmn_comma. cbn [toksuper toknext].
    rewrite (proj2 (Z.eqb_neq _ _)) by lia. unfold tok_at. rewrite (proj2 (Z.ltb_ge _ _)) by lia.
    destruct (lookup_lt_is_Some_2 dn (Z.to_nat sup)) as [t Ht]; [lia|].
    rewrite lookup_app_l, Ht by lia. cbn [mbind option_bind]. rewrite Hlast. cbn [mbind option_bind].
    rewrite (proj2 (Z.eqb_neq _ _)) by lia. unfold set_toksuper. cbn [pos toknext].
    destruct (tok_container t) eqn:Et; [|done].
    destruct Hin as [->|(t' & Ht' & Et')]; [done|]. congruence.
Qed.

Lemma reads_close (obj : bool) o s sup d1 o0 n d2 fr :
    drop o js = (if obj then 125 else 93) :: s -> all_closed d2 ->
    let ty := if obj then JSMN_OBJECT else JSMN_ARRAY in
    reaches js num (St o sup (d1 ++ Tok ty (Z.of_nat o0) (-1) n :: d2) fr)
      (St (S o) (enclosing d1) (d1 ++ Tok ty (Z.of_nat o0) (Z.of_nat (S o)) n :: d2) fr).
Proof.
    intros Hat Hcl ty. pose proof (at_cons _ _ _ _ Hat) as (Hr & Hl & _).
    set (t := Tok ty (Z.of_nat o0) (-1) n). set (t' := Tok ty _ (Z.of_nat (S o)) n).
    assert (tok_open t = true) as Ht.
    { unfold tok_open. cbn. apply andb_true_iff. split; [|done]. apply negb_true_iff, Z.eqb_neq. lia. }
    assert (last_token tok_open (length (d1 ++ t :: d2)) ((d1 ++ t :: d2) ++ fr) =
            Some (Z.of_nat (length d1))) as Hlast.
    { rewrite last_token_app by lia. rewrite cons_middle, app_assoc.
      destruct (enclosing_def ((d1 ++ [t]) ++ d2)) as [-> _].
      by rewrite enclosing_closed, enclosing_open by done. }
    eapply reaches_char; [exact Hat|by destruct obj|]. unfold jsmn_step. cbn [pos]. rewrite Hr. cbn [mbind option_bind].
    replace ((_ =? 123) || _) with false by (by destruct obj).
    replace ((_ =? 125) || _) with true by (by destruct obj). unfold jsmn_close. cbn [toknext pos].
    rewrite Hlast. cbn [mbind option_bind]. rewrite (proj2 (Z.eqb_neq _ _)) by lia.
    unfold tok_at, tok_set. rewrite (proj2 (Z.ltb_ge _ _)), Nat2Z.id by lia.
    assert (((d1 ++ t :: d2) ++ fr) !! length d1 = Some t) as ->.
    { rewrite <- app_assoc, lookup_app_r, Nat.sub_diag by lia. done. }
    cbn [mbind option_bind]. rewrite bool_decide_eq_true_2 by (by destruct obj).
    rewrite (proj2 (Nat.leb_gt _ _)) by (rewrite !length_app; cbn; lia). cbn [orb mbind option_bind].
    assert (<[length d1 := Tok (t_type t) (t_start t) (Z.of_nat o + 1) (t_size t)]> ((d1 ++ t :: d2) ++ fr)
            = (d1 ++ [t']) ++ d2 ++ fr) as ->.
    { rewrite <- !app_assoc, insert_app_r_alt, Nat.sub_diag by lia. cbn. unfold t', t. cbn.
      repeat f_equal. lia. }
    replace (S (length d1)) with (length (d1 ++ [t'])) by (rewrite length_app; cbn; lia).
    rewrite last_token_app by lia.
    assert (all_closed [t']) as Hc' by (repeat constructor; apply tok_closed).
    rewrite last_token_closed by done. destruct (enclosing_def d1) as [-> _]. cbn [mbind option_bind].
    unfold set_toksuper. cbn [pos toknext]. rewrite !length_app. cbn [length].
    rewrite Z.sub_diag, <- !app_assoc. done.
Qed.

Lemma delimited_app w s : ws w -> delimited s -> delimited (w ++ s).
Proof.
    destruct 1 as [|c w Hc _]; [done|]. intros _. cbn.
    by destruct (is_ws_char c Hc) as [->|[->|[->| ->]]].
Qed.

Lemma items_delimited its s : delimited s -> delimited (items_text false its ++ s).
Proof. by destruct its. Qed.

  (** A value read at [o] under the parent [sup]. *)
Definition value_reads (v : json) : Prop := json_ok v ->
    forall o suf sup dn fr, drop o js = json_text v ++ suf -> delimited suf ->
    (length dn + length fr)%nat = num -> (length (json_toks o v) <= length fr)%nat ->
    -1 <= sup < Z.of_nat (length dn) -> opens_ok dn ->
    exists sup', (sup' = sup \/ sup' = enclosing dn) /\
      reaches js num (St o sup dn fr)
        (St (o + length (json_text v)) sup' (bumped 1 sup dn ++ json_toks o v)
            (drop (length (json_toks o v)) fr)).

  (** The items of the bracket [c], read at [o]. *)
Definition items_read (its : items) : Prop := items_ok its ->
    forall first o suf sup c dn fr, drop o js = items_text first its ++ suf -> delimited suf ->
    (length dn + length fr)%nat = num -> (length (items_toks first o its) <= length fr)%nat ->
    c = enclosing dn -> 0 <= c -> opens_ok dn ->
    (if first : bool then sup = c else super_in c dn sup) ->
    exists sup',
      super_in c (bumped (items_count its) c dn ++ items_toks first o its) sup' /\
      reaches js num (St o sup dn fr)
        (St (o + length (items_text first its)) sup'
            (bumped (items_count its) c dn ++ items_toks first o its)
            (drop (length (items_toks first o its)) fr)).

Lemma free_cons (fr : list jsmntok_t) n : (S n <= length fr)%nat -> exists t0 fr',
    fr = t0 :: fr' /\ (n <= length fr')%nat.
Proof. destruct fr as [|t0 fr']; cbn; [lia|]. intros. exists t0, fr'. split; [done|lia]. Qed.

Lemma value_node obj w its : items_read its -> value_reads (JNode obj w its).
Proof.
    intros IH [Hw Hits] o suf sup dn fr Hat Hd Hnum Hroom Hsup Hok.
    cbn [json_text json_toks] in *. cbn [length app] in Hat, Hroom.
    destruct (free_cons _ _ Hroom) as (t0 & fr' & -> & Hroom'). cbn [length] in Hnum.
    set (t := Tok (if obj then JSMN_OBJECT else JSMN_ARRAY) (Z.of_nat o) (-1) 0).
    set (c := Z.of_nat (length dn)). set (dn1 := bumped 1 sup dn ++ [t]).
    set (its_t := items_toks true (o + 1 + length w) its) in *.
    pose proof (reads_open obj o _ sup dn t0 fr' Hat ltac:(lia) Hsup) as Hopen. fold t dn1 c in Hopen.
    pose proof (at_cons _ _ _ _ Hat) as (_ & _ & Hat1). rewrite <- app_assoc in Hat1.
    pose proof (reads_ws js num w Hw (S o) _ c dn1 fr' Hat1) as Hws.
    apply at_app in Hat1 as Hat2. rewrite <- app_assoc in Hat2.
    assert (tok_open t = true) as Ht.
    { unfold tok_open. cbn. apply andb_true_iff. split; [|done]. apply negb_true_iff, Z.eqb_neq. lia. }
    assert (length dn1 = S (length dn)) as Hl1.
    { unfold dn1. rewrite length_app, length_bumped. cbn. lia. }
    assert (c = enclosing dn1) as Hc.
    { unfold dn1. rewrite enclosing_open by done. by rewrite length_bumped. }
    assert (bumped (items_count its) c dn1 = bumped 1 sup dn ++ [tok_add (items_count its) t]) as Hbump.
    { unfold dn1, c. rewrite <- (length_bumped 1 sup dn). apply bumped_last. }
    replace (S o + length w)%nat with (o + 1 + length w)%nat in * by lia.
    edestruct (IH Hits true (o + 1 + length w)%nat _ c c dn1 fr' Hat2) as (sup1 & _ & Hrun);
      [by destruct obj|lia|exact Hroom'|done|lia| |done|].
    { unfold dn1. apply Forall_app. split; [by apply opens_ok_bumped|]. repeat constructor. cbn.
      intros _. by destruct obj. }
    apply at_app in Hat2 as Hat3. rewrite Hbump, <- app_assoc in Hrun. cbn [app] in Hrun.
    pose proof (reads_close obj _ _ sup1 (bumped 1 sup dn) o (0 + items_count its) its_t
      (drop (length its_t) fr') Hat3 (proj2 toks_closed its true _)) as Hclose.
    exists (enclosing dn). split; [by right|].
    eapply reaches_trans; [exact Hopen|]. eapply reaches_trans; [exact Hws|].
    eapply reaches_trans; [exact Hrun|]. rewrite enclosing_bumped in Hclose.
    cbn [length]. rewrite !length_app. cbn [length drop].
    replace (o + S (length w + (length (items_text true its) + 1)))%nat with
      (S (o + 1 + length w + length (items_text true its))) by lia.
    exact Hclose.
Qed.

  (** A key and its colon: the value that follows is a child of the key. *)
Lemma reads_key k w1 w2 : str_body k -> ws w1 -> ws w2 -> forall o suf c dn t0 fr,
    drop o js = key_text (Some (k, w1, w2)) ++ suf -> (length dn < num)%nat ->
    -1 <= c < Z.of_nat (length dn) ->
    reaches js num (St o c dn (t0 :: fr))
      (St (o + length (key_text (Some (k, w1, w2)))) (Z.of_nat (length dn))
         (bumped 1 c dn ++
            [Tok JSMN_STRING (Z.of_nat o + 1) (Z.of_nat (o + 1 + length k)) 0]) fr).
Proof.
    intros Hk H1 H2 o suf c dn t0 fr Hat Hn Hc. cbn [key_text] in *.
    rewrite <- app_assoc in Hat. set (t := Tok JSMN_STRING _ _ 0).
    pose proof (reads_string js num k Hk o _ c dn t0 fr Hat Hn Hc) as Hstr. fold t in Hstr.
    apply at_app in Hat as Hat1. rewrite <- app_assoc in Hat1.
    pose proof (reads_ws js num w1 H1 _ _ c (bumped 1 c dn ++ [t]) fr Hat1) as Hw1.
    apply at_app in Hat1 as Hat2. cbn [app] in Hat2.
    pose proof (reads_colon _ _ c (bumped 1 c dn ++ [t]) fr Hat2) as Hcol.
    apply at_cons in Hat2 as (_ & _ & Hat3).
    pose proof (reads_ws js num w2 H2 _ _ (Z.of_nat (length dn)) (bumped 1 c dn ++ [t]) fr Hat3) as Hw2.
    eapply reaches_trans; [exact Hstr|]. eapply reaches_trans; [exact Hw1|].
    rewrite !length_app. cbn [length].
    replace (o + (length (in_quotes k) + (length w1 + S (length w2))))%nat
      with (S (o + length (in_quotes k) + length w1) + length w2)%nat by lia.
    eapply reaches_trans; [exact Hcol|].
    replace (Z.of_nat (length (bumped 1 c dn ++ [t])) - 1) with (Z.of_nat (length dn))
      by (rewrite length_new, length_app; cbn; lia).
    exact Hw2.
Qed.

Lemma item_reads key v : value_reads v -> key_ok key -> json_ok v ->
    forall o suf c dn fr, drop o js = key_text key ++ json_text v ++ suf -> delimited suf ->
    (length dn + length fr)%nat = num ->
    let new := key_toks o key ++ json_toks (o + length (key_text key)) v in
    (length new <= length fr)%nat -> c = enclosing dn -> 0 <= c -> opens_ok dn ->
    exists sup', super_in c (bumped 1 c dn ++ new) sup' /\
      reaches js num (St o c dn fr)
        (St (o + length (key_text key) + length (json_text v)) sup' (bumped 1 c dn ++ new)
            (drop (length new) fr)).
Proof.
    intros IH Hkey Hv o suf c dn fr Hat Hd Hnum new Hroom Hc Hc0 Hok.
    pose proof (enclosing_def dn) as [_ Hb].
    assert (super_in c (bumped 1 c dn ++ new) c) as Hin.
    { apply super_in_app, super_in_bumped. split; [lia|by left]. }
    destruct key as [[[k w1] w2]|].
    - destruct Hkey as (Hk & H1 & H2). unfold new in *. cbn [key_toks app length] in *.
      set (t := Tok JSMN_STRING (Z.of_nat o + 1) (Z.of_nat (o + 1 + length k)) 0).
      destruct (free_cons _ _ Hroom) as (t0 & fr' & -> & Hroom'). cbn [length] in Hnum.
      pose proof (reads_key k w1 w2 Hk H1 H2 o _ c dn t0 fr' Hat ltac:(lia) ltac:(lia)) as Hread.
      fold t in Hread. set (dn1 := bumped 1 c dn ++ [t]) in *.
      assert (length dn1 = S (length dn)) as Hl1.
      { unfold dn1. rewrite length_app, length_bumped. cbn. lia. }
      assert (all_closed [t]) as Hct by (repeat constructor; apply tok_closed).
      apply at_app in Hat.
      destruct (IH Hv _ _ (Z.of_nat (length dn)) dn1 fr' Hat Hd) as (sup' & Hsup' & Hrun);
        [lia|exact Hroom'|lia| |].
      { unfold dn1. apply Forall_app. split; [by apply opens_ok_bumped|by apply closed_opens_ok]. }
      replace (bumped 1 (Z.of_nat (length dn)) dn1) with (bumped 1 c dn ++ [tok_add 1 t]) in Hrun
        by (unfold dn1; rewrite <- (length_bumped 1 c dn); symmetry; apply bumped_last).
      rewrite <- app_assoc in Hrun. cbn [app] in Hrun.
      exists sup'. split; [|eapply reaches_trans; [exact Hread|exact Hrun]].
      destruct Hsup' as [->| ->].
      + split; [rewrite length_app, length_bumped; cbn; lia|]. right. exists (tok_add 1 t).
        split; [|done]. rewrite Nat2Z.id, lookup_app_r by (rewrite length_bumped; lia).
        by rewrite length_bumped, Nat.sub_diag.
      + unfold dn1. rewrite enclosing_closed, enclosing_bumped by done. by rewrite <- Hc.
    - unfold new in *. cbn [key_toks key_text app length] in *. rewrite Nat.add_0_r in *.
      destruct (IH Hv o suf c dn fr Hat Hd Hnum Hroom) as (sup' & Hsup' & Hrun); [lia|done|].
      exists sup'. split; [|exact Hrun]. by destruct Hsup' as [->| ->]; [|rewrite <- Hc].
Qed.

Lemma items_cons w key v w' rest : value_reads v -> items_read rest ->
    items_read (ICons w key v w' rest).
Proof.
    intros IHv IHr (Hw & Hkey & Hv & Hw' & Hrest) first o suf sup c dn fr Hat Hd Hnum Hroom Hc Hc0 Hok Hsup.
    pose proof (enclosing_def dn) as [_ Hb].
    cbn [items_text items_toks items_count] in *.
    set (sep := if first then [] else [44]) in *. set (o1 := (o + length (sep ++ w))%nat) in *.
    set (o2 := (o1 + length (key_text key))%nat) in *.
    set (o3 := (o2 + length (json_text v) + length w')%nat) in *.
    set (new := key_toks o1 key ++ json_toks o2 v).
    replace (key_toks o1 key ++ json_toks o2 v ++ items_toks false o3 rest)
      with (new ++ items_toks false o3 rest) in * by (unfold new; by rewrite app_assoc).
    assert (reaches js num (St o sup dn fr) (St o1 c dn fr)) as Hsep.
    { clear Hroom. rewrite <- !app_assoc in Hat. unfold o1. destruct first; cbn [sep app length] in *; subst sep.
      - subst sup. by eapply reads_ws.
      - cbn [app length] in Hat |- *. pose proof (at_cons _ _ _ _ Hat) as (_ & _ & Hat1).
        eapply reaches_trans; [by eapply reads_comma|].
        replace (o + S (length w))%nat with (S o + length w)%nat by lia. by eapply reads_ws. }
    rewrite app_assoc, <- (app_assoc (sep ++ w)) in Hat. apply at_app in Hat as Hat1. fold o1 in Hat1.
    rewrite <- !app_assoc in Hat1.
    rewrite length_app in Hroom.
    destruct (item_reads key v IHv Hkey Hv o1 _ c dn fr Hat1) as (sup1 & Hin1 & Hitem);
      [apply delimited_app; [done|by apply items_delimited]|done|fold o2 new; lia|done..|].
    fold o2 new in Hin1, Hitem. set (dn1 := bumped 1 c dn ++ new) in *.
    set (fr1 := drop (length new) fr) in *.
    assert (all_closed new) as Hcn.
    { apply Forall_app. split; [apply key_toks_closed|apply toks_closed]. }
    assert (length dn1 + length fr1 = num)%nat as Hnum1.
    { unfold dn1, fr1. rewrite length_app, length_bumped, length_drop. lia. }
    apply at_app in Hat1 as Hat2. fold o2 in Hat2. apply at_app in Hat2 as Hat3.
    pose proof (reads_ws js num w' Hw' _ _ sup1 dn1 fr1 Hat3) as Hws.
    apply at_app in Hat3 as Hat4. fold o3 in Hat4, Hws.
    destruct (IHr Hrest false o3 suf sup1 c dn1 fr1 Hat4 Hd Hnum1) as (sup2 & Hin2 & Hrun);
      [unfold fr1; rewrite length_drop; lia| |done| |done|].
    { unfold dn1. by rewrite enclosing_closed, enclosing_bumped. }
    { unfold dn1. apply Forall_app. split; [by apply opens_ok_bumped|by apply closed_opens_ok]. }
    assert (bumped (items_count rest) c dn1 = bumped (1 + items_count rest) c dn ++ new) as Hb1.
    { unfold dn1. rewrite bumped_app by (rewrite length_bumped; lia). by rewrite bumped_bumped. }
    rewrite Hb1, <- app_assoc in Hin2, Hrun. exists sup2. split; [done|].
    eapply reaches_trans; [exact Hsep|]. eapply reaches_trans; [exact Hitem|].
    eapply reaches_trans; [exact Hws|].
    unfold fr1 in Hrun. rewrite drop_drop in Hrun. rewrite !length_app in *.
    replace (o + (length sep + (length w + (length (key_text key) + (length (json_text v) +
      (length w' + length (items_text false rest)))))))%nat
      with (o3 + length (items_text false rest))%nat by (unfold o3, o2, o1; rewrite length_app; lia).
    exact Hrun.
Qed.

Lemma trees_read : (forall v, value_reads v) /\ (forall its, items_read its).
Proof.
    apply json_items_ind.
    - intros s Hs o suf sup dn fr Hat Hd Hnum Hroom Hsup _. cbn [json_text json_toks length] in *.
      destruct (free_cons _ _ Hroom) as (t0 & fr' & -> & _). cbn [length] in Hnum.
      exists sup. split; [by left|]. eapply reads_prim; [done..|lia|done].
    - intros s Hs o suf sup dn fr Hat Hd Hnum Hroom Hsup _. cbn [json_text json_toks length] in *.
      destruct (free_cons _ _ Hroom) as (t0 & fr' & -> & _). cbn [length] in Hnum.
      exists sup. split; [by left|]. eapply reads_string; [done..|lia|done].
    - intros obj w its. apply value_node.
    - intros _ first o suf sup c dn fr _ _ _ _ -> Hc0 _ Hsup. exists sup.
      cbn [items_text items_toks items_count length drop].
      rewrite bumped_0, app_nil_r, Nat.add_0_r. split; [|apply reaches_refl].
      destruct first; [|done]. subst sup. pose proof (enclosing_def dn). split; [lia|by left].
    - intros w key v IHv w' rest. by apply items_cons.
Qed.
End Trees.

(** The run on the text of a tree, with white space around it. *)
Lemma reads_tree w v w' toks :
  ws w -> ws w' -> json_ok v ->
  let js := w ++ json_text v ++ w' in
  let table := json_toks (length w) v in
  (length table <= length toks)%nat ->
  exists sup,
    jsmn_parse jsmn_init js (length js) (Some toks) (length toks) =
      Some (Z.of_nat (length table), Parser (length js) (length table) sup,
            Some (table ++ drop (length table) toks)).
Proof.
  intros Hw Hw' Hv js table Hroom.
  assert (drop 0 js = w ++ json_text v ++ w') as Hat by done.
  pose proof (reads_ws js (length toks) w Hw 0 _ (-1) [] toks Hat) as Hstart.
  apply at_app in Hat as Hat1.
  assert (delimited w') as Hd.
  { rewrite <- (app_nil_r w'). by apply delimited_app. }
  destruct (proj1 (trees_read js (length toks)) v Hv _ w' (-1) [] toks Hat1 Hd)
    as (sup & _ & Hrun); [done|exact Hroom|cbn; lia|constructor|].
  assert (drop (0 + length w + length (json_text v)) js = w' ++ []) as Hat2.
  { rewrite app_nil_r. by apply at_app in Hat1. }
  pose proof (reads_ws js (length toks) w' Hw' _ _ sup table (drop (length table) toks) Hat2) as Hend.
  cbn [Nat.add] in Hstart, Hrun, Hend. change (bumped 1 (-1) []) with (@nil jsmntok_t) in Hrun.
  cbn [app] in Hrun. fold table in Hrun.
  destruct (reaches_trans _ _ _ _ _ Hstart (reaches_trans _ _ _ _ _ Hrun Hend)) as (k & Hk & Hreach).
  clear Hstart Hrun Hend. unfold conf_pos, St in Hk. cbn [fst pos] in Hk.
  assert (length w + length (json_text v) + length w' = length js)%nat as Hlen.
  { unfold js. rewrite !length_app. lia. }
  rewrite Hlen in Hk, Hreach. exists sup. unfold jsmn_parse. cbn [pos jsmn_init toknext].
  specialize (Hreach (length js - k)%nat). replace (k + (length js - k))%nat with (length js) in Hreach by lia.
  rewrite Nat.sub_0_r. unfold run, St in Hreach. cbn [length app] in Hreach.
  setoid_rewrite Hreach. clear Hreach.
  assert (forall f p t n c, pos p = length js ->
    jsmn_loop f js (length js) p t n c = jsmn_finish p t c) as Hfin.
  { intros f p t n c Hp. destruct f; cbn [jsmn_loop]; unfold peek;
      by rewrite Hp, (proj2 (Nat.ltb_ge _ _)) by lia. }
  rewrite Hfin by done. unfold jsmn_finish. cbn [toknext].
  assert (all_closed table) as Hcl by apply toks_closed.
  rewrite last_token_app by lia. pose proof (last_token_closed [] table Hcl) as Hlast. cbn [app length] in Hlast.
  rewrite Hlast. done.
Qed.

(** C20. The JSON parser reads JSON: on the text of any tree, with white space around it
    and an array that has room, it returns the number of tokens of the tree, and the
    array starts with the tree's token table (kind, range of the text and number of
    children of every value and key, in the order of the text); the rest of the array is
    as it was. *)
Theorem jsmn_parse_reads w v w' toks :
  ws w -> ws w' -> json_ok v ->
  let js := w ++ json_text v ++ w' in
  let table := json_toks (length w) v in
  (length table <= length toks)%nat ->
  exists sup,
    jsmn_parse jsmn_init js (length js) (Some toks) (length toks) =
      Some (Z.of_nat (length table), Parser (length js) (length table) sup,
            Some (table ++ drop (length table) toks)).
Proof. apply reads_tree. Qed.
