(* ===== verification/EstTypes.v ===== *)
(** * EstTypes: the data model of libEST

    The enumerations of est.h and est_locl.h with their numeric values, the
    HTTP authentication header, and the limits and texts the headers define. *)

From S2P Require Import Prelude.
From S2P Require Import SafeC.

(** ** EST_ERROR (est.h) *)

Inductive EST_ERROR : Set :=
| EST_ERR_NONE
| EST_ERR_NO_CTX
| EST_ERR_NO_CSR
| EST_ERR_NO_CERT
| EST_ERR_NO_KEY
| EST_ERR_INVALID_PARAMETERS
| EST_ERR_LOAD_CACERTS
| EST_ERR_LOAD_TRUST_CERTS
| EST_ERR_BAD_MODE
| EST_ERR_BAD_PKCS10
| EST_ERR_HTTP_WRITE
| EST_ERR_HTTP_UNSUPPORTED
| EST_ERR_HTTP_CANNOT_BUILD_HEADER
| EST_ERR_HTTP_BAD_REQ
| EST_ERR_HTTP_NOT_FOUND
| EST_ERR_HTTP_NO_CONTENT
| EST_ERR_HTTP_LOCKED
| EST_ERR_HTTP_INVALID_PATH_SEGMENT
| EST_ERR_HTTP_PATH_SEGMENT_NOT_SUPPORTED
| EST_ERR_BAD_CONTENT_TYPE
| EST_ERR_BAD_CONTENT_LEN
| EST_ERR_NO_SSL_CTX
| EST_ERR_AUTH_FAIL
| EST_ERR_AUTH_FAIL_TLSUID
| EST_ERR_AUTH_PENDING
| EST_ERR_CA_ENROLL_FAIL
| EST_ERR_CA_ENROLL_RETRY
| EST_ERR_WRONG_METHOD
| EST_ERR_X509_SIGN
| EST_ERR_X509_VER
| EST_ERR_X509_CN
| EST_ERR_X509_ATTR
| EST_ERR_X509_PUBKEY
| EST_ERR_MALLOC
| EST_ERR_SSL_WRITE
| EST_ERR_SSL_READ
| EST_ERR_SSL_NEW
| EST_ERR_SSL_CTX_NEW
| EST_ERR_SSL_CONNECT
| EST_ERR_SSL_CIPHER_LIST
| EST_ERR_PEM_READ
| EST_ERR_NULL_CALLBACK
| EST_ERR_IP_GETADDR
| EST_ERR_IP_CONNECT
| EST_ERR_INVALID_SERVER_NAME
| EST_ERR_INVALID_PORT_NUM
| EST_ERR_CLIENT_INVALID_KEY
| EST_ERR_CLIENT_NOT_INITIALIZED
| EST_ERR_ZERO_LENGTH_BUF
| EST_ERR_READ_BUFFER_TOO_SMALL
| EST_ERR_BUF_EXCEEDS_MAX_LEN
| EST_ERR_NO_CERTIFICATE
| EST_ERR_NO_CERTS_FOUND
| EST_ERR_FQDN_MISMATCH
| EST_ERR_SYSCALL
| EST_ERR_ALREADY_ENABLED
| EST_ERR_ALREADY_DISABLED
| EST_ERR_CSR_ALREADY_SIGNED
| EST_ERR_CSR_ATTR_MISSING
| EST_ERR_INVALID_DIGEST
| EST_ERR_CACERT_VERIFICATION
| EST_ERR_INVALID_TOKEN
| EST_ERR_INVALID_RETRY_VALUE
| EST_ERR_BAD_X509
| EST_ERR_BAD_BASE64
| EST_ERR_BAD_ASN1_HEX
| EST_ERR_BAD_ASN1_HEX_TOO_SHORT
| EST_ERR_BAD_ASN1_HEX_TOO_LONG
| EST_ERR_SRP_STRENGTH_LOW
| EST_ERR_SRP_USERID_BAD
| EST_ERR_SRP_PWD_BAD
| EST_ERR_CB_FAILED
| EST_ERR_CLIENT_PROXY_MODE_NOT_SUPPORTED
| EST_ERR_INVALID_CLIENT_PROXY_PROTOCOL
| EST_ERR_INVALID_CLIENT_PROXY_AUTH
| EST_ERR_CLIENT_BRSKI_MODE_NOT_SUPPORTED
| EST_ERR_CLIENT_COAP_MODE_NOT_SUPPORTED
| EST_ERR_CLIENT_BRSKI_NO_VOUCHER
| EST_ERR_CLIENT_BRSKI_NONCE_MISSING
| EST_ERR_CLIENT_BRSKI_NONCE_MISMATCH
| EST_ERR_CLIENT_BRSKI_NONCE_TOO_LARGE
| EST_ERR_CLIENT_BRSKI_SERIAL_NUM_MISSING
| EST_ERR_CLIENT_BRSKI_SERIAL_NUM_MISMATCH
| EST_ERR_CLIENT_BRSKI_SERIAL_NUM_TOO_LARGE
| EST_ERR_CLIENT_BRSKI_VOUCHER_VERIFY_FAILED
| EST_ERR_BAD_KEY
| EST_ERR_MULTIPART_PARSE
| EST_ERR_ENC_PRIV_KEY_CMS
| EST_ERR_CMS_TYPE_CONVERSION
| EST_ERR_EXPORT_KEY_MATERIAL
| EST_ERR_VALIDATION
| EST_ERR_COAP_INIT_FAIL
| EST_ERR_COAP_PROCESSING_ERROR
| EST_ERR_SERVER_ALREADY_OPERATIONAL
| EST_ERR_UNKNOWN
| EST_ERR_LAST.

Definition est_err_num (e : EST_ERROR) : Z :=
  match e with
  | EST_ERR_NONE => 0
  | EST_ERR_NO_CTX => 1
  | EST_ERR_NO_CSR => 2
  | EST_ERR_NO_CERT => 3
  | EST_ERR_NO_KEY => 4
  | EST_ERR_INVALID_PARAMETERS => 5
  | EST_ERR_LOAD_CACERTS => 6
  | EST_ERR_LOAD_TRUST_CERTS => 7
  | EST_ERR_BAD_MODE => 8
  | EST_ERR_BAD_PKCS10 => 9
  | EST_ERR_HTTP_WRITE => 10
  | EST_ERR_HTTP_UNSUPPORTED => 11
  | EST_ERR_HTTP_CANNOT_BUILD_HEADER => 12
  | EST_ERR_HTTP_BAD_REQ => 13
  | EST_ERR_HTTP_NOT_FOUND => 14
  | EST_ERR_HTTP_NO_CONTENT => 15
  | EST_ERR_HTTP_LOCKED => 16
  | EST_ERR_HTTP_INVALID_PATH_SEGMENT => 17
  | EST_ERR_HTTP_PATH_SEGMENT_NOT_SUPPORTED => 18
  | EST_ERR_BAD_CONTENT_TYPE => 19
  | EST_ERR_BAD_CONTENT_LEN => 20
  | EST_ERR_NO_SSL_CTX => 21
  | EST_ERR_AUTH_FAIL => 22
  | EST_ERR_AUTH_FAIL_TLSUID => 23
  | EST_ERR_AUTH_PENDING => 24
  | EST_ERR_CA_ENROLL_FAIL => 25
  | EST_ERR_CA_ENROLL_RETRY => 26
  | EST_ERR_WRONG_METHOD => 27
  | EST_ERR_X509_SIGN => 28
  | EST_ERR_X509_VER => 29
  | EST_ERR_X509_CN => 30
  | EST_ERR_X509_ATTR => 31
  | EST_ERR_X509_PUBKEY => 32
  | EST_ERR_MALLOC => 33
  | EST_ERR_SSL_WRITE => 34
  | EST_ERR_SSL_READ => 35
  | EST_ERR_SSL_NEW => 36
  | EST_ERR_SSL_CTX_NEW => 37
  | EST_ERR_SSL_CONNECT => 38
  | EST_ERR_SSL_CIPHER_LIST => 39
  | EST_ERR_PEM_READ => 40
  | EST_ERR_NULL_CALLBACK => 41
  | EST_ERR_IP_GETADDR => 42
  | EST_ERR_IP_CONNECT => 43
  | EST_ERR_INVALID_SERVER_NAME => 44
  | EST_ERR_INVALID_PORT_NUM => 45
  | EST_ERR_CLIENT_INVALID_KEY => 46
  | EST_ERR_CLIENT_NOT_INITIALIZED => 47
  | EST_ERR_ZERO_LENGTH_BUF => 48
  | EST_ERR_READ_BUFFER_TOO_SMALL => 49
  | EST_ERR_BUF_EXCEEDS_MAX_LEN => 50
  | EST_ERR_NO_CERTIFICATE => 51
  | EST_ERR_NO_CERTS_FOUND => 52
  | EST_ERR_FQDN_MISMATCH => 53
  | EST_ERR_SYSCALL => 54
  | EST_ERR_ALREADY_ENABLED => 55
  | EST_ERR_ALREADY_DISABLED => 56
  | EST_ERR_CSR_ALREADY_SIGNED => 57
  | EST_ERR_CSR_ATTR_MISSING => 58
  | EST_ERR_INVALID_DIGEST => 59
  | EST_ERR_CACERT_VERIFICATION => 60
  | EST_ERR_INVALID_TOKEN => 61
  | EST_ERR_INVALID_RETRY_VALUE => 62
  | EST_ERR_BAD_X509 => 63
  | EST_ERR_BAD_BASE64 => 64
  | EST_ERR_BAD_ASN1_HEX => 65
  | EST_ERR_BAD_ASN1_HEX_TOO_SHORT => 66
  | EST_ERR_BAD_ASN1_HEX_TOO_LONG => 67
  | EST_ERR_SRP_STRENGTH_LOW => 68
  | EST_ERR_SRP_USERID_BAD => 69
  | EST_ERR_SRP_PWD_BAD => 70
  | EST_ERR_CB_FAILED => 71
  | EST_ERR_CLIENT_PROXY_MODE_NOT_SUPPORTED => 72
  | EST_ERR_INVALID_CLIENT_PROXY_PROTOCOL => 73
  | EST_ERR_INVALID_CLIENT_PROXY_AUTH => 74
  | EST_ERR_CLIENT_BRSKI_MODE_NOT_SUPPORTED => 75
  | EST_ERR_CLIENT_COAP_MODE_NOT_SUPPORTED => 76
  | EST_ERR_CLIENT_BRSKI_NO_VOUCHER => 77
  | EST_ERR_CLIENT_BRSKI_NONCE_MISSING => 78
  | EST_ERR_CLIENT_BRSKI_NONCE_MISMATCH => 79
  | EST_ERR_CLIENT_BRSKI_NONCE_TOO_LARGE => 80
  | EST_ERR_CLIENT_BRSKI_SERIAL_NUM_MISSING => 81
  | EST_ERR_CLIENT_BRSKI_SERIAL_NUM_MISMATCH => 82
  | EST_ERR_CLIENT_BRSKI_SERIAL_NUM_TOO_LARGE => 83
  | EST_ERR_CLIENT_BRSKI_VOUCHER_VERIFY_FAILED => 84
  | EST_ERR_BAD_KEY => 85
  | EST_ERR_MULTIPART_PARSE => 86
  | EST_ERR_ENC_PRIV_KEY_CMS => 87
  | EST_ERR_CMS_TYPE_CONVERSION => 88
  | EST_ERR_EXPORT_KEY_MATERIAL => 89
  | EST_ERR_VALIDATION => 90
  | EST_ERR_COAP_INIT_FAIL => 91
  | EST_ERR_COAP_PROCESSING_ERROR => 92
  | EST_ERR_SERVER_ALREADY_OPERATIONAL => 93
  | EST_ERR_UNKNOWN => 94
  | EST_ERR_LAST => 95
  end.

Definition est_err_of (n : Z) : option EST_ERROR :=
  match n with
  | 0 => Some EST_ERR_NONE
  | 1 => Some EST_ERR_NO_CTX
  | 2 => Some EST_ERR_NO_CSR
  | 3 => Some EST_ERR_NO_CERT
  | 4 => Some EST_ERR_NO_KEY
  | 5 => Some EST_ERR_INVALID_PARAMETERS
  | 6 => Some EST_ERR_LOAD_CACERTS
  | 7 => Some EST_ERR_LOAD_TRUST_CERTS
  | 8 => Some EST_ERR_BAD_MODE
  | 9 => Some EST_ERR_BAD_PKCS10
  | 10 => Some EST_ERR_HTTP_WRITE
  | 11 => Some EST_ERR_HTTP_UNSUPPORTED
  | 12 => Some EST_ERR_HTTP_CANNOT_BUILD_HEADER
  | 13 => Some EST_ERR_HTTP_BAD_REQ
  | 14 => Some EST_ERR_HTTP_NOT_FOUND
  | 15 => Some EST_ERR_HTTP_NO_CONTENT
  | 16 => Some EST_ERR_HTTP_LOCKED
  | 17 => Some EST_ERR_HTTP_INVALID_PATH_SEGMENT
  | 18 => Some EST_ERR_HTTP_PATH_SEGMENT_NOT_SUPPORTED
  | 19 => Some EST_ERR_BAD_CONTENT_TYPE
  | 20 => Some EST_ERR_BAD_CONTENT_LEN
  | 21 => Some EST_ERR_NO_SSL_CTX
  | 22 => Some EST_ERR_AUTH_FAIL
  | 23 => Some EST_ERR_AUTH_FAIL_TLSUID
  | 24 => Some EST_ERR_AUTH_PENDING
  | 25 => Some EST_ERR_CA_ENROLL_FAIL
  | 26 => Some EST_ERR_CA_ENROLL_RETRY
  | 27 => Some EST_ERR_WRONG_METHOD
  | 28 => Some EST_ERR_X509_SIGN
  | 29 => Some EST_ERR_X509_VER
  | 30 => Some EST_ERR_X509_CN
  | 31 => Some EST_ERR_X509_ATTR
  | 32 => Some EST_ERR_X509_PUBKEY
  | 33 => Some EST_ERR_MALLOC
  | 34 => Some EST_ERR_SSL_WRITE
  | 35 => Some EST_ERR_SSL_READ
  | 36 => Some EST_ERR_SSL_NEW
  | 37 => Some EST_ERR_SSL_CTX_NEW
  | 38 => Some EST_ERR_SSL_CONNECT
  | 39 => Some EST_ERR_SSL_CIPHER_LIST
  | 40 => Some EST_ERR_PEM_READ
  | 41 => Some EST_ERR_NULL_CALLBACK
  | 42 => Some EST_ERR_IP_GETADDR
  | 43 => Some EST_ERR_IP_CONNECT
  | 44 => Some EST_ERR_INVALID_SERVER_NAME
  | 45 => Some EST_ERR_INVALID_PORT_NUM
  | 46 => Some EST_ERR_CLIENT_INVALID_KEY
  | 47 => Some EST_ERR_CLIENT_NOT_INITIALIZED
  | 48 => Some EST_ERR_ZERO_LENGTH_BUF
  | 49 => Some EST_ERR_READ_BUFFER_TOO_SMALL
  | 50 => Some EST_ERR_BUF_EXCEEDS_MAX_LEN
  | 51 => Some EST_ERR_NO_CERTIFICATE
  | 52 => Some EST_ERR_NO_CERTS_FOUND
  | 53 => Some EST_ERR_FQDN_MISMATCH
  | 54 => Some EST_ERR_SYSCALL
  | 55 => Some EST_ERR_ALREADY_ENABLED
  | 56 => Some EST_ERR_ALREADY_DISABLED
  | 57 => Some EST_ERR_CSR_ALREADY_SIGNED
  | 58 => Some EST_ERR_CSR_ATTR_MISSING
  | 59 => Some EST_ERR_INVALID_DIGEST
  | 60 => Some EST_ERR_CACERT_VERIFICATION
  | 61 => Some EST_ERR_INVALID_TOKEN
  | 62 => Some EST_ERR_INVALID_RETRY_VALUE
  | 63 => Some EST_ERR_BAD_X509
  | 64 => Some EST_ERR_BAD_BASE64
  | 65 => Some EST_ERR_BAD_ASN1_HEX
  | 66 => Some EST_ERR_BAD_ASN1_HEX_TOO_SHORT
  | 67 => Some EST_ERR_BAD_ASN1_HEX_TOO_LONG
  | 68 => Some EST_ERR_SRP_STRENGTH_LOW
  | 69 => Some EST_ERR_SRP_USERID_BAD
  | 70 => Some EST_ERR_SRP_PWD_BAD
  | 71 => Some EST_ERR_CB_FAILED
  | 72 => Some EST_ERR_CLIENT_PROXY_MODE_NOT_SUPPORTED
  | 73 => Some EST_ERR_INVALID_CLIENT_PROXY_PROTOCOL
  | 74 => Some EST_ERR_INVALID_CLIENT_PROXY_AUTH
  | 75 => Some EST_ERR_CLIENT_BRSKI_MODE_NOT_SUPPORTED
  | 76 => Some EST_ERR_CLIENT_COAP_MODE_NOT_SUPPORTED
  | 77 => Some EST_ERR_CLIENT_BRSKI_NO_VOUCHER
  | 78 => Some EST_ERR_CLIENT_BRSKI_NONCE_MISSING
  | 79 => Some EST_ERR_CLIENT_BRSKI_NONCE_MISMATCH
  | 80 => Some EST_ERR_CLIENT_BRSKI_NONCE_TOO_LARGE
  | 81 => Some EST_ERR_CLIENT_BRSKI_SERIAL_NUM_MISSING
  | 82 => Some EST_ERR_CLIENT_BRSKI_SERIAL_NUM_MISMATCH
  | 83 => Some EST_ERR_CLIENT_BRSKI_SERIAL_NUM_TOO_LARGE
  | 84 => Some EST_ERR_CLIENT_BRSKI_VOUCHER_VERIFY_FAILED
  | 85 => Some EST_ERR_BAD_KEY
  | 86 => Some EST_ERR_MULTIPART_PARSE
  | 87 => Some EST_ERR_ENC_PRIV_KEY_CMS
  | 88 => Some EST_ERR_CMS_TYPE_CONVERSION
  | 89 => Some EST_ERR_EXPORT_KEY_MATERIAL
  | 90 => Some EST_ERR_VALIDATION
  | 91 => Some EST_ERR_COAP_INIT_FAIL
  | 92 => Some EST_ERR_COAP_PROCESSING_ERROR
  | 93 => Some EST_ERR_SERVER_ALREADY_OPERATIONAL
  | 94 => Some EST_ERR_UNKNOWN
  | 95 => Some EST_ERR_LAST
  | _ => None
  end.

#[global] Instance EST_ERROR_eq_dec : EqDecision EST_ERROR.
Proof.
  refine (inj_eq_dec est_err_num). intros x y H.
  assert (Hd : forall e, est_err_of (est_err_num e) = Some e) by (by intros []).
  apply (f_equal est_err_of) in H. rewrite !Hd in H. congruence.
Defined.

(** ** The other enumerations *)

Inductive EST_MODE : Set := EST_SERVER | EST_CLIENT | EST_PROXY.

(** The last constructor stands for a value outside the enumeration, which the
    handlers test for. *)
Inductive EST_TRANSPORT_MODE : Set := EST_HTTP | EST_COAP | EST_TRANSPORT_OTHER.

Inductive EST_OPERATION : Set :=
| EST_OP_SIMPLE_ENROLL
| EST_OP_SIMPLE_REENROLL
| EST_OP_CACERTS
| EST_OP_CSRATTRS
| EST_OP_SERVER_KEYGEN
| EST_DUMMY_KEYGEN_MAP
| EST_OP_BRSKI_REQ_VOUCHER
| EST_OP_BRSKI_VOUCHER_STATUS
| EST_OP_BRSKI_ENROLL_STATUS
| EST_OP_MAX.

Inductive EST_HTTP_AUTH_MODE : Set :=
| AUTH_NONE | AUTH_BASIC | AUTH_DIGEST | AUTH_TOKEN | AUTH_FAIL.

Inductive EST_HTTP_AUTH_HDR_RESULT : Set :=
| EST_AUTH_HDR_GOOD
| EST_AUTH_HDR_MISSING
| EST_AUTH_HDR_BAD
| EST_AUTH_ECA_CSR_CHECK_FAIL
| EST_AUTH_ECA_CSR_PARSE_FAIL
| EST_AUTH_ECA_ERR.

Inductive EST_AUTH_STATE : Set :=
| EST_UNAUTHORIZED
| EST_CSR_PARSE_FAIL
| EST_HTTP_AUTH
| EST_HTTP_AUTH_PENDING
| EST_CERT_AUTH
| EST_SRP_AUTH.

Inductive EST_ENROLL_REQ_TYPE : Set := SIMPLE_ENROLL_REQ | REENROLL_REQ | SERVERKEYGEN_REQ.

Inductive EST_HTTP_AUTH_REQUIRED : Set := HTTP_AUTH_NOT_REQUIRED | HTTP_AUTH_REQUIRED.

Inductive EST_ECA_CSR_CHECK_FLAG : Set := ECA_CSR_CHECK_OFF | ECA_CSR_CHECK_ON.

Inductive EST_BRSKI_CALLBACK_RC : Set :=
| EST_BRSKI_CB_SUCCESS
| EST_BRSKI_CB_RETRY
| EST_BRSKI_CB_INVALID_PARAMETER
| EST_BRSKI_CB_FAILURE.

Inductive EST_CSR_BASE64_DECODE : Set := EST_CSR_DECODE | EST_CSR_DECODE_BYPASS.

Inductive EST_ENDPOINT_EVENT_TYPE : Set := EST_ENDPOINT_REQ_START | EST_ENDPOINT_REQ_END.

Inductive EST_ENHANCED_AUTH_TS_AUTH_STATE : Set :=
| EST_ENHANCED_AUTH_TS_NOT_VALIDATED
| EST_ENHANCED_AUTH_TS_VALIDATED.

Inductive EST_HTTP_AUTH_CRED_RC : Set :=
| EST_HTTP_AUTH_CRED_SUCCESS
| EST_HTTP_AUTH_CRED_NOT_AVAILABLE.

(** The results of [tcw_connect] (est_client_proxy.h). *)
Inductive tcw_err_t : Set :=
| TCW_OK | TCW_ERR_ARG | TCW_ERR_ALLOC | TCW_ERR_RESOLV | TCW_ERR_SOCKET | TCW_ERR_CONNECT
| TCW_ERR_FCNTL | TCW_ERR_CLOSE | TCW_ERR_OTHER.

(** The options of [tcw_connect]; a proxy user goes with a password. *)
Record tcw_opts_t : Set := {
  opt_proxy_proto : Z;
  opt_proxy_host : bytes;
  opt_proxy_port : Z;
  opt_proxy_user : option (bytes * bytes);
  opt_proxy_auth : Z
}.

Definition EST_CLIENT_PROXY_NONE : Z := -1.
Definition EST_CLIENT_PROXY_HTTP_NOTUNNEL : Z := 0.
Definition EST_CLIENT_PROXY_SOCKS5_HOSTNAME : Z := 7.
Definition EST_CLIENT_PROXY_AUTH_NONE : Z := 0.
Definition EST_CLIENT_PROXY_AUTH_BASIC : Z := 1.
Definition EST_CLIENT_PROXY_AUTH_NTLM : Z := 8.

(** The truth value of an [EST_ENROLL_REQ_TYPE] used as a C condition:
    SIMPLE_ENROLL_REQ is 0. *)
Definition enroll_req_true (r : EST_ENROLL_REQ_TYPE) : bool :=
  match r with SIMPLE_ENROLL_REQ => false | _ => true end.

#[global] Instance EST_MODE_eq_dec : EqDecision EST_MODE.
Proof. solve_decision. Defined.
#[global] Instance EST_TRANSPORT_MODE_eq_dec : EqDecision EST_TRANSPORT_MODE.
Proof. solve_decision. Defined.
#[global] Instance tcw_err_t_eq_dec : EqDecision tcw_err_t.
Proof. solve_decision. Defined.
#[global] Instance EST_OPERATION_eq_dec : EqDecision EST_OPERATION.
Proof. solve_decision. Defined.
#[global] Instance EST_HTTP_AUTH_MODE_eq_dec : EqDecision EST_HTTP_AUTH_MODE.
Proof. solve_decision. Defined.
#[global] Instance EST_HTTP_AUTH_HDR_RESULT_eq_dec : EqDecision EST_HTTP_AUTH_HDR_RESULT.
Proof. solve_decision. Defined.
#[global] Instance EST_AUTH_STATE_eq_dec : EqDecision EST_AUTH_STATE.
Proof. solve_decision. Defined.
#[global] Instance EST_ENROLL_REQ_TYPE_eq_dec : EqDecision EST_ENROLL_REQ_TYPE.
Proof. solve_decision. Defined.
#[global] Instance EST_HTTP_AUTH_REQUIRED_eq_dec : EqDecision EST_HTTP_AUTH_REQUIRED.
Proof. solve_decision. Defined.
#[global] Instance EST_ECA_CSR_CHECK_FLAG_eq_dec : EqDecision EST_ECA_CSR_CHECK_FLAG.
Proof. solve_decision. Defined.
#[global] Instance EST_BRSKI_CALLBACK_RC_eq_dec : EqDecision EST_BRSKI_CALLBACK_RC.
Proof. solve_decision. Defined.

(** ** Sizes and limits (est.h, est_locl.h, est_server_http.h) *)

Definition EST_CA_MAX : Z := 2000000.
Definition EST_MAX_SERVERNAME_LEN : Z := 255.
Definition EST_MIN_CLIENT_CERT_LEN : Z := 128.
Definition EST_MIN_CLIENT_PKEY_LEN : Z := 256.
Definition EST_MAX_CLIENT_CERT_LEN : Z := 4096.
Definition EST_MAX_CLIENT_PKEY_LEN : Z := 8192.
Definition MAX_HTTP_METHOD_LEN : Z := 5.
Definition MAX_TOKEN_ERROR : Z := 255.
Definition MAX_TOKEN_ERROR_DESC : Z := 255.
Definition EST_HTTP_MAX_REASON_PHRASE : Z := 256.
Definition EST_HTTP_HDR_MAX : Z := 1024.
Definition EST_HTTP_REQ_DATA_MAX : Z := 4096.
Definition EST_HTTP_REQ_TERMINATOR_LEN : Z := 5.
Definition EST_HTTP_REQ_TOTAL_LEN : Z :=
  EST_HTTP_HDR_MAX + EST_HTTP_REQ_DATA_MAX + EST_HTTP_REQ_TERMINATOR_LEN.
Definition EST_MAX_MD5_DIGEST_STR_LEN : Z := 33.
Definition MULTIPART_PARSE_DATA_MAX : Z := 8192.
Definition MAX_REALM : Z := 255.
Definition MAX_NONCE : Z := 64.
Definition MAX_UIDPWD : Z := 255.
Definition MAX_NC : Z := 9.
Definition MAX_QOP : Z := 10.
Definition MAX_RESPONSE : Z := 64.
Definition MAX_AUTH_TOKEN_LEN : Z := 512.
Definition MIN_CSRATTRS : Z := 4.
Definition MAX_CSRATTRS : Z := 1024.
Definition MIN_ASN1_CSRATTRS : Z := 2.
Definition MAX_CSRATTRS_WITHPOP : Z := 1035.
Definition EST_MAX_ATTR_LEN : Z := 128.
Definition MFG_NAME_MAX_LEN : Z := 255.
Definition NUM_SUPPORTED_MFG : nat := 4.
Definition EST_MAX_PATH_SEGMENT_LEN : Z := 128.
Definition EST_URI_PATH_PREFIX_MAX_LEN : Z := 16.
Definition EST_URI_MAX_LEN : Z :=
  EST_URI_PATH_PREFIX_MAX_LEN + EST_MAX_PATH_SEGMENT_LEN + EST_MAX_PATH_SEGMENT_LEN.
Definition EST_TLS_UID_LEN : Z := 17.
Definition EST_MAX_CONTENT_LEN : Z := 8192.
Definition EST_MAX_CERT_SUBJ_LEN : Z := 255.
Definition MG_UID_MAX : Z := 256.
Definition MG_BUF_LEN : Z := 8192.
Definition MAX_REQUEST_SIZE : Z := 16384.

Definition EST_RETRY_PERIOD_DEF : Z := 3600.
Definition EST_RETRY_PERIOD_MIN : Z := 60.
Definition EST_RETRY_PERIOD_MAX : Z := 3600 * 48.
Definition EST_BRSKI_RETRY_PERIOD_DEF : Z := 30.
Definition EST_BRSKI_RETRY_PERIOD_MIN : Z := 1.
Definition EST_BRSKI_RETRY_PERIOD_MAX : Z := 70.
Definition EST_SSL_READ_TIMEOUT_MIN : Z := 1.
Definition EST_SSL_READ_TIMEOUT_MAX : Z := 3600.
Definition EST_SSL_READ_TIMEOUT_DEF : Z := 10.

(** Constants of the TLS library's headers. *)
Definition X509_V_OK : Z := 0.
Definition X509_V_ERR_UNABLE_TO_GET_CRL : Z := 3.
Definition NID_pkcs9_challengePassword : Z := 54.
Definition V_ASN1_EOC : Z := 0.
Definition V_ASN1_OBJECT : Z := 6.
Definition V_ASN1_SEQUENCE : Z := 16.
Definition V_ASN1_SET : Z := 17.
Definition V_ASN1_CONSTRUCTED : Z := 32.
Definition TLS1_2_VERSION : Z := 771.
Definition EVP_MAX_MD_SIZE : Z := 64.

(** ** EST_HTTP_AUTH_HDR (est.h) *)

Record EST_HTTP_AUTH_HDR : Set := {
  ah_mode : EST_HTTP_AUTH_MODE;
  ah_user : option bytes;
  ah_pwd : option bytes;
  ah_uri : option bytes;
  ah_cnonce : option bytes;
  ah_qop : option bytes;
  ah_nc : option bytes;
  ah_nonce : option bytes;
  ah_response : option bytes;
  ah_auth_token : option bytes
}.

Definition set_ah_mode (a : EST_HTTP_AUTH_HDR) m :=
  Build_EST_HTTP_AUTH_HDR m (ah_user a) (ah_pwd a) (ah_uri a) (ah_cnonce a) (ah_qop a)
    (ah_nc a) (ah_nonce a) (ah_response a) (ah_auth_token a).
Definition set_ah_user (a : EST_HTTP_AUTH_HDR) v :=
  Build_EST_HTTP_AUTH_HDR (ah_mode a) v (ah_pwd a) (ah_uri a) (ah_cnonce a) (ah_qop a)
    (ah_nc a) (ah_nonce a) (ah_response a) (ah_auth_token a).
Definition set_ah_pwd (a : EST_HTTP_AUTH_HDR) v :=
  Build_EST_HTTP_AUTH_HDR (ah_mode a) (ah_user a) v (ah_uri a) (ah_cnonce a) (ah_qop a)
    (ah_nc a) (ah_nonce a) (ah_response a) (ah_auth_token a).
Definition set_ah_uri (a : EST_HTTP_AUTH_HDR) v :=
  Build_EST_HTTP_AUTH_HDR (ah_mode a) (ah_user a) (ah_pwd a) v (ah_cnonce a) (ah_qop a)
    (ah_nc a) (ah_nonce a) (ah_response a) (ah_auth_token a).
Definition set_ah_cnonce (a : EST_HTTP_AUTH_HDR) v :=
  Build_EST_HTTP_AUTH_HDR (ah_mode a) (ah_user a) (ah_pwd a) (ah_uri a) v (ah_qop a)
    (ah_nc a) (ah_nonce a) (ah_response a) (ah_auth_token a).
Definition set_ah_qop (a : EST_HTTP_AUTH_HDR) v :=
  Build_EST_HTTP_AUTH_HDR (ah_mode a) (ah_user a) (ah_pwd a) (ah_uri a) (ah_cnonce a) v
    (ah_nc a) (ah_nonce a) (ah_response a) (ah_auth_token a).
Definition set_ah_nc (a : EST_HTTP_AUTH_HDR) v :=
  Build_EST_HTTP_AUTH_HDR (ah_mode a) (ah_user a) (ah_pwd a) (ah_uri a) (ah_cnonce a)
    (ah_qop a) v (ah_nonce a) (ah_response a) (ah_auth_token a).
Definition set_ah_nonce (a : EST_HTTP_AUTH_HDR) v :=
  Build_EST_HTTP_AUTH_HDR (ah_mode a) (ah_user a) (ah_pwd a) (ah_uri a) (ah_cnonce a)
    (ah_qop a) (ah_nc a) v (ah_response a) (ah_auth_token a).
Definition set_ah_response (a : EST_HTTP_AUTH_HDR) v :=
  Build_EST_HTTP_AUTH_HDR (ah_mode a) (ah_user a) (ah_pwd a) (ah_uri a) (ah_cnonce a)
    (ah_qop a) (ah_nc a) (ah_nonce a) v (ah_auth_token a).
Definition set_ah_token (a : EST_HTTP_AUTH_HDR) v :=
  Build_EST_HTTP_AUTH_HDR (ah_mode a) (ah_user a) (ah_pwd a) (ah_uri a) (ah_cnonce a)
    (ah_qop a) (ah_nc a) (ah_nonce a) (ah_response a) v.

(** [strndup(s, n)]: a fresh copy of at most [n] bytes of the C string [s]. *)
Definition STRNDUP (s : bytes) (n : Z) : bytes := take (Z.to_nat n) (cstr s).
