(* ===== verification/EstState.v ===== *)
(** * EstState: the TLS library interface, the contexts and the server monad

    [OpenSSL] collects the entry points of the TLS/X.509 library the code calls.
    [EST_CTX] is the part of [struct est_ctx] (est_locl.h) that the server and both
    modes use, with the application's callbacks as optional functions; its field
    [client] is an [EST_CLIENT_CTX], the part of the client.  [mg_connection] is the
    part of [struct mg_connection] (est_server_http.h) the handlers touch.  Stateful
    code runs in the monad [M]: it reads and writes a [world], it appends to a trace
    the calls that leave the library (writes on the TLS channel, connections,
    application callbacks, event notifications), and [None] is undefined behaviour,
    which ends the run.

    An application callback is a function of the trace so far and of its
    arguments, so a callback may answer differently on every call. *)

From S2P Require Import Prelude.
From S2P Require Import SafeC.
From S2P Require Import EstTypes.

(** ** The TLS/X.509 library *)

(** An alternative name of a certificate: the contents of its string. *)
Inductive GENERAL_NAME :=
| GEN_DNS (data : bytes)
| GEN_IPADD (data : bytes)
| GEN_OTHER (data : bytes).

(** [ASN1_TYPE], by what [value.asn1_string] is.  A string of any type is behind a
    pointer to an [ASN1_STRING], whose [data] may be NULL; of a NULL value the pointer
    is NULL, and of a boolean or an object it does not point to an [ASN1_STRING]. *)
Inductive ASN1_TYPE :=
| ASN1_TYPE_string (data : option bytes)
| ASN1_TYPE_no_string.

Class OpenSSL := {
  X509 : Type;
  X509_REQ : Type;
  X509_NAME : Type;
  X509_CRL : Type;
  X509_STORE : Type;
  X509_ATTRIBUTE : Type;
  EVP_PKEY : Type;
  EVP_MD : Type;
  ASN1_OBJECT : Type;
  SSL : Type;
  SSL_SESSION : Type;
  PKCS7 : Type;

  (* TLS session *)
  SSL_get_peer_certificate : SSL -> option X509;
  SSL_get_verify_result : SSL -> Z;
  SSL_get_srp_username : SSL -> option bytes;
  SSL_get_peer_cert_chain : SSL -> option (list X509);
  SSL_session_reused : SSL -> bool;
  SSL_get_finished : SSL -> Z -> bytes;
  SSL_get_peer_finished : SSL -> Z -> bytes;
  SSL_version : SSL -> Z;

  (* certificate requests; the flag of the reader says whether the buffer
     passes through a base64 BIO first *)
  d2i_X509_REQ_bio : bool -> bytes -> option X509_REQ;
  i2d_X509_REQ_b64 : X509_REQ -> bytes;
  X509_REQ_get_pubkey : X509_REQ -> option EVP_PKEY;
  X509_REQ_verify : X509_REQ -> EVP_PKEY -> Z;
  X509_REQ_set_pubkey : X509_REQ -> EVP_PKEY -> option X509_REQ;
  EVP_DigestSignInit : option EVP_MD -> EVP_PKEY -> bool;
  X509_REQ_sign_ctx : X509_REQ -> EVP_PKEY -> option EVP_MD -> Z * X509_REQ;
  X509_REQ_get_attr_by_NID : X509_REQ -> Z -> Z -> Z;
  X509_REQ_get_attr : X509_REQ -> Z -> option X509_ATTRIBUTE;
  (* NULL when the set of values has no such entry *)
  X509_ATTRIBUTE_get0_type : X509_ATTRIBUTE -> Z -> option ASN1_TYPE;
  i2d_PrivateKey : EVP_PKEY -> bytes;
  (* the certs-only PKCS7 of a list of certificates, through a base64 BIO *)
  i2d_PKCS7_certs_b64 : list X509 -> option bytes;
  FIPS_mode : bool;

  (* certificates, names and stores *)
  X509_get_subject_name : X509 -> X509_NAME;
  X509_REQ_get_subject_name : X509_REQ -> X509_NAME;
  X509_NAME_get_index_by_NID : X509_NAME -> Z -> Z -> Z;
  X509_NAME_get_entry_data : X509_NAME -> Z -> bytes;
  (* the data pointer of the memory BIO the name is printed to *)
  X509_NAME_print : X509_NAME -> option bytes;
  X509_get_ext_key_usage : X509 -> option (list ASN1_OBJECT);
  PEM_X509_INFO_read_bio : bytes -> option (list (option X509 * option X509_CRL));
  X509_STORE_new : option X509_STORE;
  X509_STORE_add_cert : X509_STORE -> X509 -> X509_STORE;
  X509_STORE_add_crl : X509_STORE -> X509_CRL -> X509_STORE;
  X509_STORE_CTX_new : bool;
  X509_STORE_CTX_init : X509_STORE -> X509 -> list X509 -> bool;
  X509_verify_cert : X509_STORE -> X509 -> list X509 -> Z;

  (* ASN.1; [ASN1_get_object p omax] is the flag byte, the header length, the
     contents length, the tag and the class *)
  ASN1_get_object : bytes -> Z -> Z * Z * Z * Z * Z;
  d2i_ASN1_OBJECT : bytes -> Z -> option (ASN1_OBJECT * Z);
  OBJ_obj2nid : ASN1_OBJECT -> Z;
  i2t_ASN1_OBJECT : ASN1_OBJECT -> bytes;
  OBJ_cmp : ASN1_OBJECT -> ASN1_OBJECT -> Z;
  o_cmcRA : ASN1_OBJECT;

  (* digests and base64 BIOs: [b64_bio_read no_nl src max] is the result of
     [BIO_read] and the bytes delivered, [b64_bio_write nl src] the result of
     [BIO_write] and the contents of the memory BIO after the flush *)
  EVP_md5 : bytes -> bytes;
  b64_bio_read : bool -> bytes -> Z -> Z * bytes;
  b64_bio_write : bool -> bytes -> Z * bytes;

  (* the client: sessions, names of hosts, and the identity of the client *)
  SSL_get1_session : SSL -> SSL_SESSION;
  inet_pton4 : bytes -> option bytes;
  inet_pton6 : bytes -> option bytes;
  X509_get_subject_alt_names : X509 -> option (list GENERAL_NAME);
  (* the type and the contents of an entry of a name *)
  X509_NAME_entry_count : X509_NAME -> nat;
  X509_NAME_get_entry : X509_NAME -> Z -> option (Z * bytes);
  ASN1_STRING_to_UTF8 : Z -> bytes -> option bytes;
  SSL_CTX_use_certificate : X509 -> Z;
  SSL_CTX_use_PrivateKey : EVP_PKEY -> Z;
  SSL_CTX_check_private_key : X509 -> EVP_PKEY -> bool;
  SSL_CTX_set_cipher_list : bytes -> bool;
  SSL_CTX_set_srp_username : bytes -> bool;
  SSL_CTX_set_srp_password : bytes -> bool;
  X509_STORE_object_count : X509_STORE -> nat;
  EVP_DigestInit_md5 : bool;
  EVP_by_nid : Z -> EVP_MD;

  (* the client: certificate requests *)
  X509_REQ_new : X509_REQ;
  X509_REQ_set_version : X509_REQ -> Z -> option X509_REQ;
  X509_REQ_add_CN : X509_REQ -> bytes -> option X509_REQ;
  X509_REQ_add1_attr_by_NID : X509_REQ -> Z -> bytes -> option X509_REQ;
  X509_REQ_get_attr_count : X509_REQ -> nat;
  X509_REQ_delete_attr : X509_REQ -> Z -> X509_REQ;
  X509_to_X509_REQ : X509 -> option X509_REQ;
  X509v3_get_ext_count : X509 -> Z;
  X509_REQ_add_extensions : X509_REQ -> X509 -> option X509_REQ;
  X509_get0_signature : X509 -> bool;
  X509_check_private_key : X509 -> EVP_PKEY -> Z;
  d2i_PrivateKey : bytes -> option EVP_PKEY;

  (* the client: PKCS7 structures and chains; the first component of [i2d_PKCS7_b64]
     is the result of the writer *)
  X509_check_issued : X509 -> X509 -> Z;
  d2i_PKCS7 : bytes -> option PKCS7;
  PKCS7_type : PKCS7 -> Z;
  PKCS7_certs : PKCS7 -> option (list X509);
  PKCS7_has_crls : PKCS7 -> bool;
  PKCS7_remove_crls : PKCS7 -> PKCS7;
  i2d_PKCS7_b64 : PKCS7 -> Z * bytes;
  (* the signature of a PKCS7 against a trust store, and the data it signs *)
  PKCS7_verify : PKCS7 -> X509_STORE -> Z;
  PKCS7_signed_data : PKCS7 -> option bytes;
  PEM_write_certs : list X509 -> bytes
}.

Section State.
Context {L : OpenSSL}.

(** ** ENCHD_CERT_MFG_INFO (est.h) *)

Record ENCHD_CERT_MFG_INFO := {
  mfg_name : bytes;
  mfg_nid : Z;
  mfg_truststore : option X509_STORE;
  mfg_store_ctx : bool
}.

(** ** What leaves the library *)

Inductive event :=
| EvWrite (data : bytes)
| EvHttpAuthCb (ah : EST_HTTP_AUTH_HDR) (peer : option X509) (path_seg : option bytes)
| EvEnrollCb (pkcs10 : bytes) (user_id : option bytes) (peer : option X509)
    (path_seg : option bytes)
| EvReenrollCb (pkcs10 : bytes) (user_id : option bytes) (peer : option X509)
    (path_seg : option bytes)
| EvKeygenCb
| EvServerKeygenCb (pkcs10 : bytes) (pkcs8 : bytes) (user_id : option bytes)
    (peer : option X509) (path_seg : option bytes)
| EvCacertsCb (path_seg : option bytes)
| EvCsrCb (path_seg : option bytes) (peer : option X509)
| EvVoucherReqCb (body : option bytes) (peer : option X509)
| EvVoucherStatusCb (body : option bytes) (peer : option X509)
| EvEnrollStatusCb (body : option bytes) (peer : option X509)
| EvAuthResult (peer : option X509) (path_seg : option bytes)
    (req : EST_ENROLL_REQ_TYPE) (ts : EST_ENHANCED_AUTH_TS_AUTH_STATE) (rv : EST_AUTH_STATE)
| EvEnrollReqEvent (id_cert_subj : bytes) (peer : option X509) (csr_subj : bytes)
    (path_seg : option bytes) (req : EST_ENROLL_REQ_TYPE)
| EvEnrollRspEvent (id_cert_subj : bytes) (peer : option X509) (csr_subj : bytes)
    (cert : option bytes) (path_seg : option bytes) (req : EST_ENROLL_REQ_TYPE) (rc : Z)
| EvEndpoint (id_cert_subj : bytes) (peer : option X509) (uri : bytes)
    (ty : EST_ENDPOINT_EVENT_TYPE)
| EvConnect (opts : tcw_opts_t) (server : bytes) (port : Z)
| EvClientWrite (data : bytes)
| EvDisconnect
| EvCredentialsCb (mode : EST_HTTP_AUTH_MODE)
| EvManualVerifyCb (cert : option X509) (openssl_cert_error : Z)
| EvSleep (seconds : Z).

Abbreviation trace := (list event).

(** The application's enrollment callback: the trace so far, the PKCS10, the
    user id, the peer certificate and the path segment; it returns an [int] and
    the certificate buffer. *)
Definition enroll_cb :=
  trace -> bytes -> option bytes -> option X509 -> option bytes -> Z * bytes.

(** ** The client role of struct est_ctx (est_locl.h) *)

(** The settings of an [SSL_CTX] the client makes: the trust store, the client's
    certificate and key, the cipher suites, and the SRP user and password. *)
Record SSL_CTX := {
  sc_cert_store : option X509_STORE;
  sc_identity : option (X509 * EVP_PKEY);
  sc_cipher_list : bytes;
  sc_srp : option (bytes * bytes);
  sc_srp_strength : Z;
  sc_verify : Z
}.

(** The proxy of a client, as [est_client_set_proxy] stores it. *)
Record CLIENT_PROXY := {
  proxy_proto : Z;
  proxy_server : bytes;
  proxy_port : Z;
  proxy_auth : Z;
  proxy_username : bytes;
  proxy_password : bytes
}.

(** The application's source of credentials: the requested mode arrives in the
    header the callback fills in. *)
Definition cred_cb := trace -> EST_HTTP_AUTH_HDR -> EST_HTTP_AUTH_CRED_RC * EST_HTTP_AUTH_HDR.

Record EST_CLIENT_CTX := {
  est_server : bytes;
  est_port_num : Z;
  uri_path_segment : option bytes;
  client_cert : option X509;
  client_key : option EVP_PKEY;
  auth_credentials_cb : option cred_cb;
  userid : bytes;
  password : bytes;
  s_nonce : bytes;
  c_nonce : bytes;
  sess : option SSL_SESSION;
  read_timeout : Z;
  manual_cert_verify_cb : option (trace -> option X509 -> Z -> Z);
  retry_after_date : Z;
  use_proxy : bool;
  client_proxy : CLIENT_PROXY;
  tcw_sock_connected : bool;
  est_client_initialized : bool;
  brski_mode : bool;
  brski_retrieved_voucher : option bytes;
  brski_retrieved_cacert : option bytes;
  client_cert_ser_num : option bytes;
  client_force_pop : bool;
  csr_pop_required : bool;
  retrieved_ca_certs : option bytes;
  enrolled_client_cert : option bytes;
  retrieved_csrattrs : option bytes;
  server_gen_client_priv_key : option bytes;
  token_error : bytes;
  token_error_desc : bytes;
  last_http_status : Z;
  trusted_certs_store : option X509_STORE;
  ssl_ctx : option SSL_CTX
}.

Definition eta_EST_CLIENT_CTX (c : EST_CLIENT_CTX) : EST_CLIENT_CTX :=
  Build_EST_CLIENT_CTX (est_server c) (est_port_num c) (uri_path_segment c) (client_cert c)
    (client_key c) (auth_credentials_cb c) (userid c) (password c) (s_nonce c) (c_nonce c)
    (sess c) (read_timeout c) (manual_cert_verify_cb c) (retry_after_date c) (use_proxy c)
    (client_proxy c) (tcw_sock_connected c) (est_client_initialized c) (brski_mode c)
    (brski_retrieved_voucher c) (brski_retrieved_cacert c) (client_cert_ser_num c)
    (client_force_pop c)
    (csr_pop_required c) (retrieved_ca_certs c) (enrolled_client_cert c)
    (retrieved_csrattrs c) (server_gen_client_priv_key c) (token_error c)
    (token_error_desc c) (last_http_status c) (trusted_certs_store c) (ssl_ctx c).

Definition set_est_server (v : bytes) (c : EST_CLIENT_CTX) : EST_CLIENT_CTX :=
  ltac:(update_field eta_EST_CLIENT_CTX est_server v c).
Definition set_est_port_num (v : Z) (c : EST_CLIENT_CTX) : EST_CLIENT_CTX :=
  ltac:(update_field eta_EST_CLIENT_CTX est_port_num v c).
Definition set_uri_path_segment (v : option bytes) (c : EST_CLIENT_CTX) : EST_CLIENT_CTX :=
  ltac:(update_field eta_EST_CLIENT_CTX uri_path_segment v c).
Definition set_client_cert (v : option X509) (c : EST_CLIENT_CTX) : EST_CLIENT_CTX :=
  ltac:(update_field eta_EST_CLIENT_CTX client_cert v c).
Definition set_client_key (v : option EVP_PKEY) (c : EST_CLIENT_CTX) : EST_CLIENT_CTX :=
  ltac:(update_field eta_EST_CLIENT_CTX client_key v c).
Definition set_auth_credentials_cb (v : option cred_cb) (c : EST_CLIENT_CTX) : EST_CLIENT_CTX :=
  ltac:(update_field eta_EST_CLIENT_CTX auth_credentials_cb v c).
Definition set_userid (v : bytes) (c : EST_CLIENT_CTX) : EST_CLIENT_CTX :=
  ltac:(update_field eta_EST_CLIENT_CTX userid v c).
Definition set_password (v : bytes) (c : EST_CLIENT_CTX) : EST_CLIENT_CTX :=
  ltac:(update_field eta_EST_CLIENT_CTX password v c).
Definition set_s_nonce (v : bytes) (c : EST_CLIENT_CTX) : EST_CLIENT_CTX :=
  ltac:(update_field eta_EST_CLIENT_CTX s_nonce v c).
Definition set_c_nonce (v : bytes) (c : EST_CLIENT_CTX) : EST_CLIENT_CTX :=
  ltac:(update_field eta_EST_CLIENT_CTX c_nonce v c).
Definition set_sess (v : option SSL_SESSION) (c : EST_CLIENT_CTX) : EST_CLIENT_CTX :=
  ltac:(update_field eta_EST_CLIENT_CTX sess v c).
Definition set_read_timeout (v : Z) (c : EST_CLIENT_CTX) : EST_CLIENT_CTX :=
  ltac:(update_field eta_EST_CLIENT_CTX read_timeout v c).
Definition set_manual_cert_verify_cb (v : option (trace -> option X509 -> Z -> Z)) (c : EST_CLIENT_CTX) : EST_CLIENT_CTX :=
  ltac:(update_field eta_EST_CLIENT_CTX manual_cert_verify_cb v c).
Definition set_retry_after_date (v : Z) (c : EST_CLIENT_CTX) : EST_CLIENT_CTX :=
  ltac:(update_field eta_EST_CLIENT_CTX retry_after_date v c).
Definition set_use_proxy (v : bool) (c : EST_CLIENT_CTX) : EST_CLIENT_CTX :=
  ltac:(update_field eta_EST_CLIENT_CTX use_proxy v c).
Definition set_client_proxy (v : CLIENT_PROXY) (c : EST_CLIENT_CTX) : EST_CLIENT_CTX :=
  ltac:(update_field eta_EST_CLIENT_CTX client_proxy v c).
Definition set_tcw_sock_connected (v : bool) (c : EST_CLIENT_CTX) : EST_CLIENT_CTX :=
  ltac:(update_field eta_EST_CLIENT_CTX tcw_sock_connected v c).
Definition set_est_client_initialized (v : bool) (c : EST_CLIENT_CTX) : EST_CLIENT_CTX :=
  ltac:(update_field eta_EST_CLIENT_CTX est_client_initialized v c).
Definition set_brski_mode (v : bool) (c : EST_CLIENT_CTX) : EST_CLIENT_CTX :=
  ltac:(update_field eta_EST_CLIENT_CTX brski_mode v c).
Definition set_brski_retrieved_voucher (v : option bytes) (c : EST_CLIENT_CTX) : EST_CLIENT_CTX :=
  ltac:(update_field eta_EST_CLIENT_CTX brski_retrieved_voucher v c).
Definition set_brski_retrieved_cacert (v : option bytes) (c : EST_CLIENT_CTX) : EST_CLIENT_CTX :=
  ltac:(update_field eta_EST_CLIENT_CTX brski_retrieved_cacert v c).
Definition set_client_cert_ser_num (v : option bytes) (c : EST_CLIENT_CTX) : EST_CLIENT_CTX :=
  ltac:(update_field eta_EST_CLIENT_CTX client_cert_ser_num v c).
Definition set_client_force_pop (v : bool) (c : EST_CLIENT_CTX) : EST_CLIENT_CTX :=
  ltac:(update_field eta_EST_CLIENT_CTX client_force_pop v c).
Definition set_csr_pop_required (v : bool) (c : EST_CLIENT_CTX) : EST_CLIENT_CTX :=
  ltac:(update_field eta_EST_CLIENT_CTX csr_pop_required v c).
Definition set_retrieved_ca_certs (v : option bytes) (c : EST_CLIENT_CTX) : EST_CLIENT_CTX :=
  ltac:(update_field eta_EST_CLIENT_CTX retrieved_ca_certs v c).
Definition set_enrolled_client_cert (v : option bytes) (c : EST_CLIENT_CTX) : EST_CLIENT_CTX :=
  ltac:(update_field eta_EST_CLIENT_CTX enrolled_client_cert v c).
Definition set_retrieved_csrattrs (v : option bytes) (c : EST_CLIENT_CTX) : EST_CLIENT_CTX :=
  ltac:(update_field eta_EST_CLIENT_CTX retrieved_csrattrs v c).
Definition set_server_gen_client_priv_key (v : option bytes) (c : EST_CLIENT_CTX) : EST_CLIENT_CTX :=
  ltac:(update_field eta_EST_CLIENT_CTX server_gen_client_priv_key v c).
Definition set_token_error (v : bytes) (c : EST_CLIENT_CTX) : EST_CLIENT_CTX :=
  ltac:(update_field eta_EST_CLIENT_CTX token_error v c).
Definition set_token_error_desc (v : bytes) (c : EST_CLIENT_CTX) : EST_CLIENT_CTX :=
  ltac:(update_field eta_EST_CLIENT_CTX token_error_desc v c).
Definition set_last_http_status (v : Z) (c : EST_CLIENT_CTX) : EST_CLIENT_CTX :=
  ltac:(update_field eta_EST_CLIENT_CTX last_http_status v c).
Definition set_trusted_certs_store (v : option X509_STORE) (c : EST_CLIENT_CTX) : EST_CLIENT_CTX :=
  ltac:(update_field eta_EST_CLIENT_CTX trusted_certs_store v c).
Definition set_ssl_ctx (v : option SSL_CTX) (c : EST_CLIENT_CTX) : EST_CLIENT_CTX :=
  ltac:(update_field eta_EST_CLIENT_CTX ssl_ctx v c).

Definition zero_proxy : CLIENT_PROXY := Build_CLIENT_PROXY 0 [] 0 0 [] [].

(** The client role of a zeroed context. *)
Definition zero_client : EST_CLIENT_CTX :=
  Build_EST_CLIENT_CTX [] 0 None None None None [] [] [] [] None 0 None 0 false zero_proxy false
    false false None None None false false None None None None [] [] 0 None None.

Definition eta_SSL_CTX (c : SSL_CTX) : SSL_CTX :=
  Build_SSL_CTX (sc_cert_store c) (sc_identity c) (sc_cipher_list c) (sc_srp c)
    (sc_srp_strength c) (sc_verify c).

Definition set_sc_cert_store (v : option X509_STORE) (c : SSL_CTX) : SSL_CTX :=
  ltac:(update_field eta_SSL_CTX sc_cert_store v c).
Definition set_sc_identity (v : option (X509 * EVP_PKEY)) (c : SSL_CTX) : SSL_CTX :=
  ltac:(update_field eta_SSL_CTX sc_identity v c).
Definition set_sc_cipher_list (v : bytes) (c : SSL_CTX) : SSL_CTX :=
  ltac:(update_field eta_SSL_CTX sc_cipher_list v c).
Definition set_sc_srp (v : option (bytes * bytes)) (c : SSL_CTX) : SSL_CTX :=
  ltac:(update_field eta_SSL_CTX sc_srp v c).
Definition set_sc_srp_strength (v : Z) (c : SSL_CTX) : SSL_CTX :=
  ltac:(update_field eta_SSL_CTX sc_srp_strength v c).
Definition set_sc_verify (v : Z) (c : SSL_CTX) : SSL_CTX :=
  ltac:(update_field eta_SSL_CTX sc_verify v c).

(** ** struct est_ctx (est_locl.h): the fields of the server role, and the client *)

Record EST_CTX := {
  est_mode : EST_MODE;
  ca_certs : option bytes;
  server_csrattrs : option bytes;
  realm : bytes;
  est_enroll_pkcs10_cb : option enroll_cb;
  est_reenroll_pkcs10_cb : option enroll_cb;
  est_get_cacerts_cb : option (trace -> option bytes -> option bytes);
  est_get_csr_cb : option (trace -> option bytes -> option X509 -> option bytes * Z);
  est_http_auth_cb : option (trace -> EST_HTTP_AUTH_HDR -> option X509 -> option bytes -> bool);
  enroll_req_event_cb : bool;
  enroll_rsp_event_cb : bool;
  enroll_auth_result_event_cb : bool;
  endpoint_req_event_cb : bool;
  est_server_keygen_pkcs10_cb : option (trace -> bytes -> bytes -> option bytes -> option X509 -> option bytes -> Z * bytes * bytes);
  keygen_cb : option (trace -> Z * option EVP_PKEY);
  est_brski_voucher_req_cb : option (trace -> option bytes -> option X509 -> EST_BRSKI_CALLBACK_RC * option bytes);
  est_brski_voucher_status_cb : option (trace -> option bytes -> option X509 -> EST_BRSKI_CALLBACK_RC);
  est_brski_enroll_status_cb : option (trace -> option bytes -> option X509 -> EST_BRSKI_CALLBACK_RC);
  auth_mode : EST_HTTP_AUTH_MODE;
  signing_digest : option EVP_MD;
  retry_after_delay : Z;
  brski_retry_period : Z;
  server_read_timeout : Z;
  server_enable_pop : bool;
  require_http_auth : EST_HTTP_AUTH_REQUIRED;
  enhanced_cert_auth_enabled : bool;
  enhanced_cert_auth_csr_check : EST_ECA_CSR_CHECK_FLAG;
  enchd_cert_mfgs_info_list : option (list ENCHD_CERT_MFG_INFO);
  enhcd_cert_local_pki_nid : Z;
  enhcd_cert_auth_pwd : bytes;
  csr_pop_present : bool;
  retry_period : Z;
  ecdhe_nid : Z;
  enable_srp : bool;
  enforce_csrattrs : bool;
  transport_mode : EST_TRANSPORT_MODE;
  perf_timers_enabled : bool;
  client : EST_CLIENT_CTX
}.

Definition eta_EST_CTX (c : EST_CTX) : EST_CTX :=
  Build_EST_CTX (est_mode c) (ca_certs c) (server_csrattrs c) (realm c)
    (est_enroll_pkcs10_cb c) (est_reenroll_pkcs10_cb c) (est_get_cacerts_cb c)
    (est_get_csr_cb c) (est_http_auth_cb c) (enroll_req_event_cb c)
    (enroll_rsp_event_cb c) (enroll_auth_result_event_cb c) (endpoint_req_event_cb c)
    (est_server_keygen_pkcs10_cb c) (keygen_cb c) (est_brski_voucher_req_cb c)
    (est_brski_voucher_status_cb c) (est_brski_enroll_status_cb c) (auth_mode c)
    (signing_digest c) (retry_after_delay c) (brski_retry_period c)
    (server_read_timeout c) (server_enable_pop c) (require_http_auth c)
    (enhanced_cert_auth_enabled c) (enhanced_cert_auth_csr_check c)
    (enchd_cert_mfgs_info_list c) (enhcd_cert_local_pki_nid c) (enhcd_cert_auth_pwd c)
    (csr_pop_present c) (retry_period c) (ecdhe_nid c) (enable_srp c) (enforce_csrattrs c)
    (transport_mode c) (perf_timers_enabled c) (client c).

Definition set_est_mode (v : EST_MODE) (c : EST_CTX) : EST_CTX :=
  ltac:(update_field eta_EST_CTX est_mode v c).
Definition set_ca_certs (v : option bytes) (c : EST_CTX) : EST_CTX :=
  ltac:(update_field eta_EST_CTX ca_certs v c).
Definition set_server_csrattrs (v : option bytes) (c : EST_CTX) : EST_CTX :=
  ltac:(update_field eta_EST_CTX server_csrattrs v c).
Definition set_realm (v : bytes) (c : EST_CTX) : EST_CTX :=
  ltac:(update_field eta_EST_CTX realm v c).
Definition set_est_enroll_pkcs10_cb (v : option enroll_cb) (c : EST_CTX) : EST_CTX :=
  ltac:(update_field eta_EST_CTX est_enroll_pkcs10_cb v c).
Definition set_est_reenroll_pkcs10_cb (v : option enroll_cb) (c : EST_CTX) : EST_CTX :=
  ltac:(update_field eta_EST_CTX est_reenroll_pkcs10_cb v c).
Definition set_est_get_cacerts_cb (v : option (trace -> option bytes -> option bytes)) (c : EST_CTX) : EST_CTX :=
  ltac:(update_field eta_EST_CTX est_get_cacerts_cb v c).
Definition set_est_get_csr_cb (v : option (trace -> option bytes -> option X509 -> option bytes * Z)) (c : EST_CTX) : EST_CTX :=
  ltac:(update_field eta_EST_CTX est_get_csr_cb v c).
Definition set_est_http_auth_cb (v : option (trace -> EST_HTTP_AUTH_HDR -> option X509 -> option bytes -> bool)) (c : EST_CTX) : EST_CTX :=
  ltac:(update_field eta_EST_CTX est_http_auth_cb v c).
Definition set_enroll_req_event_cb (v : bool) (c : EST_CTX) : EST_CTX :=
  ltac:(update_field eta_EST_CTX enroll_req_event_cb v c).
Definition set_enroll_rsp_event_cb (v : bool) (c : EST_CTX) : EST_CTX :=
  ltac:(update_field eta_EST_CTX enroll_rsp_event_cb v c).
Definition set_enroll_auth_result_event_cb (v : bool) (c : EST_CTX) : EST_CTX :=
  ltac:(update_field eta_EST_CTX enroll_auth_result_event_cb v c).
Definition set_endpoint_req_event_cb (v : bool) (c : EST_CTX) : EST_CTX :=
  ltac:(update_field eta_EST_CTX endpoint_req_event_cb v c).
Definition set_est_server_keygen_pkcs10_cb (v : option (trace -> bytes -> bytes -> option bytes -> option X509 -> option bytes -> Z * bytes * bytes)) (c : EST_CTX) : EST_CTX :=
  ltac:(update_field eta_EST_CTX est_server_keygen_pkcs10_cb v c).
Definition set_keygen_cb (v : option (trace -> Z * option EVP_PKEY)) (c : EST_CTX) : EST_CTX :=
  ltac:(update_field eta_EST_CTX keygen_cb v c).
Definition set_est_brski_voucher_req_cb (v : option (trace -> option bytes -> option X509 -> EST_BRSKI_CALLBACK_RC * option bytes)) (c : EST_CTX) : EST_CTX :=
  ltac:(update_field eta_EST_CTX est_brski_voucher_req_cb v c).
Definition set_est_brski_voucher_status_cb (v : option (trace -> option bytes -> option X509 -> EST_BRSKI_CALLBACK_RC)) (c : EST_CTX) : EST_CTX :=
  ltac:(update_field eta_EST_CTX est_brski_voucher_status_cb v c).
Definition set_est_brski_enroll_status_cb (v : option (trace -> option bytes -> option X509 -> EST_BRSKI_CALLBACK_RC)) (c : EST_CTX) : EST_CTX :=
  ltac:(update_field eta_EST_CTX est_brski_enroll_status_cb v c).
Definition set_auth_mode (v : EST_HTTP_AUTH_MODE) (c : EST_CTX) : EST_CTX :=
  ltac:(update_field eta_EST_CTX auth_mode v c).
Definition set_signing_digest (v : option EVP_MD) (c : EST_CTX) : EST_CTX :=
  ltac:(update_field eta_EST_CTX signing_digest v c).
Definition set_retry_after_delay (v : Z) (c : EST_CTX) : EST_CTX :=
  ltac:(update_field eta_EST_CTX retry_after_delay v c).
Definition set_brski_retry_period (v : Z) (c : EST_CTX) : EST_CTX :=
  ltac:(update_field eta_EST_CTX brski_retry_period v c).
Definition set_server_read_timeout (v : Z) (c : EST_CTX) : EST_CTX :=
  ltac:(update_field eta_EST_CTX server_read_timeout v c).
Definition set_server_enable_pop (v : bool) (c : EST_CTX) : EST_CTX :=
  ltac:(update_field eta_EST_CTX server_enable_pop v c).
Definition set_require_http_auth (v : EST_HTTP_AUTH_REQUIRED) (c : EST_CTX) : EST_CTX :=
  ltac:(update_field eta_EST_CTX require_http_auth v c).
Definition set_enhanced_cert_auth_enabled (v : bool) (c : EST_CTX) : EST_CTX :=
  ltac:(update_field eta_EST_CTX enhanced_cert_auth_enabled v c).
Definition set_enhanced_cert_auth_csr_check (v : EST_ECA_CSR_CHECK_FLAG) (c : EST_CTX) : EST_CTX :=
  ltac:(update_field eta_EST_CTX enhanced_cert_auth_csr_check v c).
Definition set_enchd_cert_mfgs_info_list (v : option (list ENCHD_CERT_MFG_INFO)) (c : EST_CTX) : EST_CTX :=
  ltac:(update_field eta_EST_CTX enchd_cert_mfgs_info_list v c).
Definition set_enhcd_cert_local_pki_nid (v : Z) (c : EST_CTX) : EST_CTX :=
  ltac:(update_field eta_EST_CTX enhcd_cert_local_pki_nid v c).
Definition set_enhcd_cert_auth_pwd (v : bytes) (c : EST_CTX) : EST_CTX :=
  ltac:(update_field eta_EST_CTX enhcd_cert_auth_pwd v c).
Definition set_csr_pop_present (v : bool) (c : EST_CTX) : EST_CTX :=
  ltac:(update_field eta_EST_CTX csr_pop_present v c).
Definition set_retry_period (v : Z) (c : EST_CTX) : EST_CTX :=
  ltac:(update_field eta_EST_CTX retry_period v c).
Definition set_ecdhe_nid (v : Z) (c : EST_CTX) : EST_CTX :=
  ltac:(update_field eta_EST_CTX ecdhe_nid v c).
Definition set_enable_srp (v : bool) (c : EST_CTX) : EST_CTX :=
  ltac:(update_field eta_EST_CTX enable_srp v c).
Definition set_enforce_csrattrs (v : bool) (c : EST_CTX) : EST_CTX :=
  ltac:(update_field eta_EST_CTX enforce_csrattrs v c).
Definition set_transport_mode (v : EST_TRANSPORT_MODE) (c : EST_CTX) : EST_CTX :=
  ltac:(update_field eta_EST_CTX transport_mode v c).
Definition set_perf_timers_enabled (v : bool) (c : EST_CTX) : EST_CTX :=
  ltac:(update_field eta_EST_CTX perf_timers_enabled v c).
Definition set_client (v : EST_CLIENT_CTX) (c : EST_CTX) : EST_CTX :=
  ltac:(update_field eta_EST_CTX client v c).

(** ** struct mg_connection (est_server_http.h) *)

Record mg_connection := {
  request_method : option bytes;
  uri : option bytes;
  http_version : option bytes;
  http_headers : list (bytes * bytes);
  conn_ssl : option SSL;
  status_code : Z;
  user_id : bytes;
  must_close : bool;
  enable_keepalives : bool;
  num_bytes_sent : Z
}.

Definition eta_mg_connection (c : mg_connection) : mg_connection :=
  Build_mg_connection (request_method c) (uri c) (http_version c) (http_headers c)
    (conn_ssl c) (status_code c) (user_id c) (must_close c) (enable_keepalives c)
    (num_bytes_sent c).

Definition set_c_request_method (v : option bytes) (c : mg_connection) : mg_connection :=
  ltac:(update_field eta_mg_connection request_method v c).
Definition set_c_uri (v : option bytes) (c : mg_connection) : mg_connection :=
  ltac:(update_field eta_mg_connection uri v c).
Definition set_c_http_version (v : option bytes) (c : mg_connection) : mg_connection :=
  ltac:(update_field eta_mg_connection http_version v c).
Definition set_c_http_headers (v : list (bytes * bytes)) (c : mg_connection) : mg_connection :=
  ltac:(update_field eta_mg_connection http_headers v c).
Definition set_c_conn_ssl (v : option SSL) (c : mg_connection) : mg_connection :=
  ltac:(update_field eta_mg_connection conn_ssl v c).
Definition set_c_status_code (v : Z) (c : mg_connection) : mg_connection :=
  ltac:(update_field eta_mg_connection status_code v c).
Definition set_c_user_id (v : bytes) (c : mg_connection) : mg_connection :=
  ltac:(update_field eta_mg_connection user_id v c).
Definition set_c_must_close (v : bool) (c : mg_connection) : mg_connection :=
  ltac:(update_field eta_mg_connection must_close v c).
Definition set_c_enable_keepalives (v : bool) (c : mg_connection) : mg_connection :=
  ltac:(update_field eta_mg_connection enable_keepalives v c).
Definition set_c_num_bytes_sent (v : Z) (c : mg_connection) : mg_connection :=
  ltac:(update_field eta_mg_connection num_bytes_sent v c).

(** ** The proxy role of struct est_ctx (est_locl.h) *)

(** A node of the array of client contexts; the pointer is an index of the heap of
    client contexts below, [None] is NULL. *)
Record CLIENT_CTX_LU_NODE_T := {
  threadid : Z;
  client_ctx : option nat
}.

(** The part of the context that only a proxy has, with the static variable
    [cur_max_ctx_array] of est_proxy.c, the client contexts the proxy has made, in
    the order it made them, and the identity of the running thread. *)
Record EST_PROXY_CTX := {
  server_cert : option X509;
  server_priv_key : option EVP_PKEY;
  ca_chain_raw : option bytes;
  ca_chain_raw_len : Z;
  client_ctx_array : option (list CLIENT_CTX_LU_NODE_T);
  cur_max_ctx_array : nat;
  client_ctxs : list EST_CTX;
  cur_threadid : Z
}.

Definition eta_EST_PROXY_CTX (c : EST_PROXY_CTX) : EST_PROXY_CTX :=
  Build_EST_PROXY_CTX (server_cert c) (server_priv_key c) (ca_chain_raw c) (ca_chain_raw_len c)
    (client_ctx_array c) (cur_max_ctx_array c) (client_ctxs c) (cur_threadid c).

Definition set_server_cert (v : option X509) (c : EST_PROXY_CTX) : EST_PROXY_CTX :=
  ltac:(update_field eta_EST_PROXY_CTX server_cert v c).
Definition set_server_priv_key (v : option EVP_PKEY) (c : EST_PROXY_CTX) : EST_PROXY_CTX :=
  ltac:(update_field eta_EST_PROXY_CTX server_priv_key v c).
Definition set_ca_chain_raw (v : option bytes) (c : EST_PROXY_CTX) : EST_PROXY_CTX :=
  ltac:(update_field eta_EST_PROXY_CTX ca_chain_raw v c).
Definition set_ca_chain_raw_len (v : Z) (c : EST_PROXY_CTX) : EST_PROXY_CTX :=
  ltac:(update_field eta_EST_PROXY_CTX ca_chain_raw_len v c).
Definition set_client_ctx_array (v : option (list CLIENT_CTX_LU_NODE_T)) (c : EST_PROXY_CTX)
    : EST_PROXY_CTX :=
  ltac:(update_field eta_EST_PROXY_CTX client_ctx_array v c).
Definition set_cur_max_ctx_array (v : nat) (c : EST_PROXY_CTX) : EST_PROXY_CTX :=
  ltac:(update_field eta_EST_PROXY_CTX cur_max_ctx_array v c).
Definition set_client_ctxs (v : list EST_CTX) (c : EST_PROXY_CTX) : EST_PROXY_CTX :=
  ltac:(update_field eta_EST_PROXY_CTX client_ctxs v c).
Definition set_cur_threadid (v : Z) (c : EST_PROXY_CTX) : EST_PROXY_CTX :=
  ltac:(update_field eta_EST_PROXY_CTX cur_threadid v c).

(** ** The network *)

(** The result of one read of a TLS channel. *)
Inductive read_result :=
| R_data (d : bytes)
| R_none
| R_error
| R_timeout.

(** The bytes still to come. *)
Fixpoint script_bytes (l : list read_result) : bytes :=
  match l with
  | [] => []
  | R_data d :: r => d ++ script_bytes r
  | _ :: r => script_bytes r
  end.

(** The number of reads that can take anything from a script. *)
Definition script_size (l : list read_result) : nat := length l + length (script_bytes l).

(** What the network does to a connection attempt of the client: the result of
    [tcw_connect], whether the socket, the BIO and the [SSL] could be set up, the
    TLS session of a completed handshake, the result of the client's [SSL_write]
    and the results of its reads, in order, and whether [SSL_peek] finds more
    after a full buffer. *)
Record connection := {
  cn_tcw : tcw_err_t;
  cn_keepalive : bool;
  cn_bio : bool;
  cn_ssl_new : bool;
  cn_ssl : option SSL;
  cn_write : option Z;
  cn_reads : list read_result;
  cn_peek : bool
}.

(** [net_conns] scripts the next connection attempts, [net_rand] the next results
    of the random number generator; [net_reads] is what is left to read on the
    open connection. *)
Record network := {
  net_conns : list connection;
  net_rand : list (option bytes);
  net_write : option Z;
  net_reads : list read_result;
  net_peek : bool
}.

Definition eta_network (c : network) : network :=
  Build_network (net_conns c) (net_rand c) (net_write c) (net_reads c) (net_peek c).

Definition set_net_conns (v : list connection) (c : network) : network :=
  ltac:(update_field eta_network net_conns v c).
Definition set_net_rand (v : list (option bytes)) (c : network) : network :=
  ltac:(update_field eta_network net_rand v c).
Definition set_net_write (v : option Z) (c : network) : network :=
  ltac:(update_field eta_network net_write v c).
Definition set_net_reads (v : list read_result) (c : network) : network :=
  ltac:(update_field eta_network net_reads v c).
Definition set_net_peek (v : bool) (c : network) : network :=
  ltac:(update_field eta_network net_peek v c).

(** ** The world a handler runs in

    [w_ssl_write] scripts the results of the next [SSL_write] calls and
    [w_alloc] the outcomes of the next allocations; past the end of either
    script the call succeeds. *)

Record world := {
  w_ctx : EST_CTX;
  w_conn : mg_connection;
  w_ssl_write : list Z;
  w_alloc : list bool;
  w_time : Z;
  w_trace : trace;
  w_net : network;
  w_proxy : EST_PROXY_CTX
}.

Definition eta_world (c : world) : world :=
  Build_world (w_ctx c) (w_conn c) (w_ssl_write c) (w_alloc c) (w_time c) (w_trace c)
    (w_net c) (w_proxy c).

Definition set_w_ctx (v : EST_CTX) (c : world) : world :=
  ltac:(update_field eta_world w_ctx v c).
Definition set_w_conn (v : mg_connection) (c : world) : world :=
  ltac:(update_field eta_world w_conn v c).
Definition set_w_ssl_write (v : list Z) (c : world) : world :=
  ltac:(update_field eta_world w_ssl_write v c).
Definition set_w_alloc (v : list bool) (c : world) : world :=
  ltac:(update_field eta_world w_alloc v c).
Definition set_w_time (v : Z) (c : world) : world :=
  ltac:(update_field eta_world w_time v c).
Definition set_w_trace (v : trace) (c : world) : world :=
  ltac:(update_field eta_world w_trace v c).
Definition set_w_net (v : network) (c : world) : world :=
  ltac:(update_field eta_world w_net v c).
Definition set_w_proxy (v : EST_PROXY_CTX) (c : world) : world :=
  ltac:(update_field eta_world w_proxy v c).

(** ** The monad *)

Definition M (A : Type) : Type := world -> option (A * world).

#[global] Instance M_ret : MRet M := fun A x w => Some (x, w).
#[global] Instance M_bind : MBind M :=
  fun A B f m w => match m w with
                   | None => None
                   | Some (x, w') => f x w'
                   end.

(** Undefined behaviour: a NULL pointer is called or dereferenced. *)
Definition null_deref {A} : M A := fun _ => None.

Definition get_ctx : M EST_CTX := fun w => Some (w_ctx w, w).
Definition put_ctx (c : EST_CTX) : M unit := fun w => Some (tt, set_w_ctx c w).
Definition get_conn : M mg_connection := fun w => Some (w_conn w, w).
Definition put_conn (c : mg_connection) : M unit := fun w => Some (tt, set_w_conn c w).
Definition get_trace : M trace := fun w => Some (w_trace w, w).
Definition emit (e : event) : M unit := fun w => Some (tt, set_w_trace (w_trace w ++ [e]) w).
Definition get_time : M Z := fun w => Some (w_time w, w).

Definition get_net : M network := fun w => Some (w_net w, w).
Definition put_net (n : network) : M unit := fun w => Some (tt, set_w_net n w).

(** The proxy's part of the context. *)
Definition get_proxy : M EST_PROXY_CTX := fun w => Some (w_proxy w, w).
Definition upd_proxy_ctx (f : EST_PROXY_CTX -> EST_PROXY_CTX) : M unit :=
  fun w => Some (tt, set_w_proxy (f (w_proxy w)) w).

(** The client's part of the context. *)
Definition get_client : M EST_CLIENT_CTX := fun w => Some (client (w_ctx w), w).
Definition upd_client (f : EST_CLIENT_CTX -> EST_CLIENT_CTX) : M unit :=
  fun w => Some (tt, set_w_ctx (set_client (f (client (w_ctx w))) (w_ctx w)) w).
Definition upd_ctx (f : EST_CTX -> EST_CTX) : M unit :=
  fun w => Some (tt, set_w_ctx (f (w_ctx w)) w).

(** An allocation ([malloc], [BIO_new]): does it succeed? *)
Definition alloc : M bool :=
  fun w => match w_alloc w with
           | [] => Some (true, w)
           | a :: r => Some (a, set_w_alloc r w)
           end.

(** One [SSL_write] of [k] bytes: the scripted result, cut to [k]. *)
Definition ssl_write (data : bytes) : M Z :=
  fun w =>
    let k := Z.of_nat (length data) in
    let '(n, w') := match w_ssl_write w with
                    | [] => (k, w)
                    | n :: r => (Z.min n k, set_w_ssl_write r w)
                    end in
    if n <? 0 then Some (n, w')
    else Some (n, set_w_trace (w_trace w' ++ [EvWrite (take (Z.to_nat n) data)]) w').

End State.

#[global] Arguments M {L} A.

