(* ===== verification/EstUtil.v ===== *)
(** * EstUtil: the string, base64 and URI utilities of est.c

    [est_strcspn], [est_strspn], [est_strcasecmp_s], the in-place tokenizers
    [skip_quoted] and [skip], the hex printer, the base64 wrappers around the
    TLS library's BIOs, the operation and URI parsers (with and without the
    uriparser library) and [est_get_tls_uid].

    The tokenizers cut words out of a shared buffer by writing NULs into it:
    the model keeps the whole buffer and represents each [char *] into it as an
    offset. *)

From S2P Require Import Prelude.
From S2P Require Import SafeC.
From S2P Require Import EstTypes.
From S2P Require Import EstState.

(** ** Scanning *)

Definition est_strcasecmp_s (s1 s2 : bytes) : Z :=
  snd (strcasecmp_s (Some s1) (strnlen_s (Some s1) RSIZE_MAX_STR) (Some s2)).

Definition est_strcspn (str1 str2 : option bytes) : nat :=
  match str1 with
  | Some s => if rd s 0 =? 0 then 0%nat
              else let '(rc, count) := strcspn_s str1 (strnlen_s str1 RSIZE_MAX_STR)
                                         str2 RSIZE_MAX_STR in
                   if rc =? EOK then Z.to_nat count else 0%nat
  | None => 0%nat
  end.

Definition est_strspn (str1 str2 : option bytes) : nat :=
  match str1 with
  | Some s => if rd s 0 =? 0 then 0%nat
              else let '(rc, count) := strspn_s str1 (strnlen_s str1 RSIZE_MAX_STR)
                                         str2 RSIZE_MAX_STR in
                   if rc =? EOK then Z.to_nat count else 0%nat
  | None => 0%nat
  end.

(** ** skip_quoted and skip *)

(** The loop on escaped delimiters.  [p] is [end_word - 1] on entry; the result
    is the buffer, [p] and [end_word] after the loop.  Every round moves
    [end_word] forward in the buffer, so its length bounds the rounds. *)
Fixpoint quote_loop (fuel : nat) (buf : bytes) (p end_word : nat) (delimiters : bytes)
    (quotechar : Z) : bytes * nat * nat :=
  match fuel with
  | O => (buf, p, end_word)
  | S f =>
    if rd buf p =? quotechar then
      if rd buf end_word =? 0 then (<[p := 0]> buf, p, end_word)
      else
        let end_off := est_strcspn (Some (drop (end_word + 1) buf)) (Some delimiters) in
        let n := Z.of_nat (end_off + 1) in
        let buf' := snd (memmove_s buf p n end_word n) in
        quote_loop f buf' (p + end_off) (end_word + end_off + 1) delimiters quotechar
    else (buf, p, end_word)
  end.

(** The result is the buffer, the new value of [*buf] and the word's start. *)
Definition skip_quoted (buf : bytes) (begin_word : nat) (delimiters whitespace : bytes)
    (quotechar : Z) : bytes * nat * nat :=
  let end_word := (begin_word + est_strcspn (Some (drop begin_word buf)) (Some delimiters))%nat in
  let '(buf1, end_word1) :=
    if (begin_word <? end_word)%nat then
      let '(b, p, e) := quote_loop (S (length buf)) buf (end_word - 1) end_word
                          delimiters quotechar in
      (zero_range b (p + 1) (e - (p + 1)), e)
    else (buf, end_word) in
  if rd buf1 end_word1 =? 0 then (buf1, end_word1, begin_word)
  else
    let end_whitespace :=
      (end_word1 + 1 + est_strspn (Some (drop (end_word1 + 1) buf1)) (Some whitespace))%nat in
    (zero_range buf1 end_word1 (end_whitespace - end_word1), end_whitespace, begin_word).

Definition skip (buf : bytes) (p : nat) (delimiters : bytes) : bytes * nat * nat :=
  skip_quoted buf p delimiters delimiters 0.

(** ** est_hex_to_str *)

Definition hex_table : bytes := lit "0123456789abcdef".

(** The characters stored at [dst], without the final NUL. *)
Definition est_hex_to_str (src : bytes) : bytes :=
  flat_map (fun c => [rd hex_table (Z.to_nat (Z.shiftr c 4));
                      rd hex_table (Z.to_nat (Z.land c 15))]) src.

(** ** Base64 *)

(** [est_base64_str_analyze]: the number of non-blank characters, the length,
    and whether a newline occurs before the last character. *)
Fixpoint b64_analyze_loop (src : bytes) (i : Z) (nws temp : Z) : Z * Z * Z :=
  match src with
  | [] => (nws, i, temp)
  | c :: r =>
      if c =? 0 then (nws, i, temp)
      else if negb (isspace c) then b64_analyze_loop r (i + 1) (nws + 1) temp
      else if (c =? chr_lf) && (temp =? -1) then b64_analyze_loop r (i + 1) nws i
      else b64_analyze_loop r (i + 1) nws temp
  end.

Definition est_base64_str_analyze (src : bytes) : Z * Z * bool :=
  let '(nws, len, temp) := b64_analyze_loop src 0 0 (-1) in
  (nws, len, negb (temp =? -1) && negb (temp =? len - 1)).

(** [while (isspace(src[i]) && i >= 0) i--], from the index [k - 1]: the index of the
    last non-blank character below [k].  The character is looked at before the index is
    tested, so that a text of blanks makes the loop read [src[-1]].  That is the last of
    the bytes [front] that lie in front of [src] in its buffer, after which the index -1
    ends the loop; it is undefined, [None], where [src] is the start of its buffer. *)
Fixpoint last_non_whitespace (front src : bytes) (k : nat) : option Z :=
  match k with
  | O => match front with [] => None | _ => Some (-1) end
  | S k' => if isspace (rd src k') then last_non_whitespace front src k' else Some (Z.of_nat k')
  end.

Definition b64_max_in (dst_size : Z) : Z :=
  if negb (dst_size mod 3 =? 0) then (dst_size / 3 + 1) * 4 else dst_size / 3 * 4.

Section Base64.
Context {L : OpenSSL}.

(** The return value and the bytes stored at [dst]; [front] is what lies in front of
    [src] in its buffer. *)
Definition est_base64_decode_at (front src : bytes) (dst_size : Z) : M (Z * bytes) :=
  let '(len_no_whitespace, len, contains_newline) := est_base64_str_analyze src in
  if len_no_whitespace >? b64_max_in dst_size then mret (0, []) else
  b64 ← alloc;
  if negb b64 then mret (0, []) else
  b64in ← alloc;
  if negb b64in then mret (0, []) else
  if negb (len_no_whitespace mod 4 =? 0) then mret (0, []) else
  match last_non_whitespace front src (Z.to_nat len) with
  | None => null_deref
  | Some idx =>
  if idx <? 2 then mret (0, []) else
  let pad := if rd src (Z.to_nat idx) =? chr_equal
             then if rd src (Z.to_nat (idx - 1)) =? chr_equal then 2 else 1
             else 0 in
  let expected_decode_len := 3 * len_no_whitespace / 4 - pad in
  let '(n, out) := b64_bio_read (negb contains_newline) (cstr src) dst_size in
  if negb (n =? expected_decode_len) then mret (0, []) else mret (n, out)
  end.

(** The call on a text at the start of its buffer. *)
Definition est_base64_decode (src : bytes) (dst_size : Z) : M (Z * bytes) :=
  est_base64_decode_at [] src dst_size.

(** What [est_base64_encode] does to its caller: the return value, the bytes
    [memcpy_s] stores at [dst] (none when it refuses the copy) and the index of
    [dst] that receives the terminating NUL, if one is stored. *)
Record b64_encoded := {
  enc_ret : Z;
  enc_dst : bytes;
  enc_nul : option Z
}.

Definition est_base64_encode (src : bytes) (max_dst_len : Z) (nl : bool) : M b64_encoded :=
  let fail := Build_b64_encoded 0 [] None in
  let max_src_len := max_dst_len * 3 / 4 + 1 in
  if Z.of_nat (length src) >? max_src_len then mret fail else
  b64 ← alloc;
  if negb b64 then mret fail else
  out ← alloc;
  if negb out then mret fail else
  let '(write_cnt, bptr) := b64_bio_write nl src in
  if write_cnt <=? 0 then mret fail
  else
    let n := Z.of_nat (length bptr) in
    mret (Build_b64_encoded n (if n >? max_dst_len then [] else bptr) (Some n)).

(** ** est_get_tls_uid: the channel binding value of a TLS session *)

Definition MAX_FINISHED : Z := 100.

Definition est_get_tls_uid (ssl : SSL) (is_client : bool) : M (option bytes) :=
  let finished :=
    if (is_client && negb (SSL_session_reused ssl))
       || (negb is_client && SSL_session_reused ssl)
    then SSL_get_finished ssl MAX_FINISHED
    else SSL_get_peer_finished ssl MAX_FINISHED in
  b64 ← alloc;
  if negb b64 then mret None else
  bio ← alloc;
  if negb bio then mret None else
  let '(_, bptr) := b64_bio_write true finished in
  let version := SSL_version ssl in
  let max_len := if version >? TLS1_2_VERSION
                 then EVP_MAX_MD_SIZE * (4 / 3) + 1
                 else EST_TLS_UID_LEN in
  if Z.of_nat (length bptr) >? max_len then mret None else
  rv ← alloc;
  if negb rv then mret None else
  let uid_len := if rd bptr (length bptr - 1) =? chr_lf
                 then (length bptr - 1)%nat else length bptr in
  mret (Some (take uid_len bptr)).

(** ** est_X509_REQ_sign *)

(** The CSR with the new signature, or NULL. *)
Definition est_X509_REQ_sign (csr : X509_REQ) (pkey : EVP_PKEY) (md : option EVP_MD)
    : M (option X509_REQ) :=
  mctx ← alloc;
  if negb mctx then mret None
  else if negb (EVP_DigestSignInit md pkey) then mret None
  else let '(rv, csr') := X509_REQ_sign_ctx csr pkey md in
       mret (if rv =? 0 then None else Some csr').

End Base64.

(** ** Operations and URIs *)

Definition EST_GET_CACERTS : bytes := lit "cacerts".
Definition EST_GET_CSRATTRS : bytes := lit "csrattrs".
Definition EST_SIMPLE_ENROLL : bytes := lit "simpleenroll".
Definition EST_SIMPLE_REENROLL : bytes := lit "simplereenroll".
Definition EST_SERVER_KEYGEN : bytes := lit "serverkeygen".
Definition EST_BRSKI_GET_VOUCHER : bytes := lit "requestvoucher".
Definition EST_BRSKI_VOUCHER_STATUS : bytes := lit "voucher_status".
Definition EST_BRSKI_ENROLL_STATUS : bytes := lit "enrollstatus".

Definition EST_PATH_PREFIX : bytes := lit "/.well-known/est".
Definition EST_CACERTS_URI : bytes := lit "/.well-known/est/cacerts".
Definition EST_SIMPLE_ENROLL_URI : bytes := lit "/.well-known/est/simpleenroll".
Definition EST_RE_ENROLL_URI : bytes := lit "/.well-known/est/simplereenroll".
Definition EST_CSR_ATTRS_URI : bytes := lit "/.well-known/est/csrattrs".
Definition EST_KEYGEN_URI : bytes := lit "/.well-known/est/serverkeygen".
Definition EST_BRSKI_GET_VOUCHER_URI : bytes := lit "/.well-known/est/requestvoucher".
Definition EST_BRSKI_VOUCHER_STATUS_URI : bytes := lit "/.well-known/est/voucher_status".
Definition EST_BRSKI_ENROLL_STATUS_URI : bytes := lit "/.well-known/est/enrollstatus".

(** [ENABLE_BRSKI] is the build flag of the voucher operations. *)
Definition est_parse_operation (ENABLE_BRSKI : bool) (op_path : bytes) : EST_OPERATION :=
  if est_strcasecmp_s op_path EST_GET_CACERTS =? 0 then EST_OP_CACERTS
  else if est_strcasecmp_s op_path EST_GET_CSRATTRS =? 0 then EST_OP_CSRATTRS
  else if est_strcasecmp_s op_path EST_SIMPLE_ENROLL =? 0 then EST_OP_SIMPLE_ENROLL
  else if est_strcasecmp_s op_path EST_SIMPLE_REENROLL =? 0 then EST_OP_SIMPLE_REENROLL
  else if est_strcasecmp_s op_path EST_SERVER_KEYGEN =? 0 then EST_OP_SERVER_KEYGEN
  else if ENABLE_BRSKI && (est_strcasecmp_s op_path EST_BRSKI_GET_VOUCHER =? 0)
       then EST_OP_BRSKI_REQ_VOUCHER
  else if ENABLE_BRSKI && (est_strcasecmp_s op_path EST_BRSKI_VOUCHER_STATUS =? 0)
       then EST_OP_BRSKI_VOUCHER_STATUS
  else if ENABLE_BRSKI && (est_strcasecmp_s op_path EST_BRSKI_ENROLL_STATUS =? 0)
       then EST_OP_BRSKI_ENROLL_STATUS
  else EST_OP_MAX.

(** The URI parser of a build without uriparser: the error, [*operation] and
    [*path_seg]. *)
Definition est_parse_uri (ENABLE_BRSKI : bool) (uri : bytes)
    : EST_ERROR * EST_OPERATION * option bytes :=
  if strncmp uri EST_CACERTS_URI EST_URI_MAX_LEN =? 0
  then (EST_ERR_NONE, EST_OP_CACERTS, None)
  else if strncmp uri EST_SIMPLE_ENROLL_URI EST_URI_MAX_LEN =? 0
  then (EST_ERR_NONE, EST_OP_SIMPLE_ENROLL, None)
  else if strncmp uri EST_RE_ENROLL_URI EST_URI_MAX_LEN =? 0
  then (EST_ERR_NONE, EST_OP_SIMPLE_REENROLL, None)
  else if strncmp uri EST_CSR_ATTRS_URI EST_URI_MAX_LEN =? 0
  then (EST_ERR_NONE, EST_OP_CSRATTRS, None)
  else if strncmp uri EST_KEYGEN_URI EST_URI_MAX_LEN =? 0
  then (EST_ERR_NONE, EST_OP_SERVER_KEYGEN, None)
  else if ENABLE_BRSKI && (strncmp uri EST_BRSKI_GET_VOUCHER_URI EST_URI_MAX_LEN =? 0)
  then (EST_ERR_NONE, EST_OP_BRSKI_REQ_VOUCHER, None)
  else if ENABLE_BRSKI && (strncmp uri EST_BRSKI_VOUCHER_STATUS_URI EST_URI_MAX_LEN =? 0)
  then (EST_ERR_NONE, EST_OP_BRSKI_VOUCHER_STATUS, None)
  else if ENABLE_BRSKI && (strncmp uri EST_BRSKI_ENROLL_STATUS_URI EST_URI_MAX_LEN =? 0)
  then (EST_ERR_NONE, EST_OP_BRSKI_ENROLL_STATUS, None)
  else (EST_ERR_HTTP_INVALID_PATH_SEGMENT, EST_OP_MAX, None).

(** A path segment of the uriparser library: the offsets [text.first] and
    [text.afterLast] into the parsed string, the latter possibly NULL. *)
Record UriPathSegment := {
  text_first : nat;
  text_afterLast : option nat
}.

(** Does the segment end before the string does? *)
Definition seg_continues (uri : bytes) (seg : UriPathSegment) : bool :=
  match text_afterLast seg with
  | Some a => negb (rd uri a =? 0)
  | None => false
  end.

(** What follows the second segment of [est_parse_uri] with uriparser: the
    segment is an operation, or a path segment that an operation must follow. *)
Definition est_parse_uri_tail (ENABLE_BRSKI malloc_ok : bool) (uri : bytes)
    (cur_seg : UriPathSegment) : EST_ERROR * option EST_OPERATION * option bytes :=
  let cur_seg_str := text_first cur_seg in
  let cur_seg_len :=
    match text_afterLast cur_seg with
    | Some a => Z.of_nat a - Z.of_nat cur_seg_str
    | None => strnlen (drop cur_seg_str uri) (EST_MAX_PATH_SEGMENT_LEN + 1)
    end in
  if cur_seg_len >? EST_MAX_PATH_SEGMENT_LEN
  then (EST_ERR_HTTP_INVALID_PATH_SEGMENT, None, None) else
  let segment :=
    if seg_continues uri cur_seg
    then STRNDUP (drop cur_seg_str uri) cur_seg_len
    else STRNDUP (drop cur_seg_str uri) EST_MAX_PATH_SEGMENT_LEN in
  let operation := est_parse_operation ENABLE_BRSKI segment in
  if bool_decide (operation = EST_OP_MAX) then
    if negb malloc_ok then (EST_ERR_MALLOC, Some EST_OP_MAX, None) else
    let path_seg := take (Z.to_nat cur_seg_len) segment in
    let op2 := est_parse_operation ENABLE_BRSKI
                 (cstr_at uri (cur_seg_str + Z.to_nat cur_seg_len + 1)) in
    if bool_decide (op2 = EST_OP_MAX)
    then (EST_ERR_HTTP_BAD_REQ, Some EST_OP_MAX, None)
    else (EST_ERR_NONE, Some op2, Some path_seg)
  else if seg_continues uri cur_seg
  then (EST_ERR_HTTP_INVALID_PATH_SEGMENT, Some EST_OP_MAX, None)
  else (EST_ERR_NONE, Some operation, None).

(** The URI parser of a build with uriparser.  [uriParseUriA] is that library's
    parser: the path segments of the C string, or an error.  [uri] is the whole
    memory behind the pointer, its bytes past the NUL included, because the
    code may read there.  [None] is a NULL dereference of [cur_seg->next]; the
    operation is [None] where [*operation] is left as it was. *)
Definition est_parse_uri_uriparser (uriParseUriA : bytes -> option (list UriPathSegment))
    (ENABLE_BRSKI malloc_ok : bool) (uri : bytes)
    : option (EST_ERROR * option EST_OPERATION * option bytes) :=
  match uriParseUriA (cstr uri) with
  | None => Some (EST_ERR_HTTP_INVALID_PATH_SEGMENT, None, None)
  | Some [] => Some (EST_ERR_NONE, None, None)
  | Some (seg0 :: rest) =>
    let '(rc, diff) := memcmp_s (Some (drop (text_first seg0) uri)) 11
                         (Some (lit ".well-known")) 11 0 in
    if negb (diff =? 0) || negb (rc =? EOK)
    then Some (EST_ERR_HTTP_INVALID_PATH_SEGMENT, None, None) else
    match rest with
    | [] => None
    | seg1 :: rest1 =>
      let '(rc, diff) := memcmp_s (Some (drop (text_first seg1) uri)) 3 (Some (lit "est")) 3 0 in
      if negb (diff =? 0) || negb (rc =? EOK)
      then Some (EST_ERR_HTTP_INVALID_PATH_SEGMENT, None, None) else
      match rest1 with
      | [] => None
      | cur_seg :: _ => Some (est_parse_uri_tail ENABLE_BRSKI malloc_ok uri cur_seg)
      end
    end
  end.

(** [est_parse_path_seg] of a build with uriparser: the path segment is placed in
    a canned URI of [EST_URI_MAX_LEN] bytes and must be its only third segment.
    [None] is a NULL dereference. *)
Definition est_parse_path_seg (uriParseUriA : bytes -> option (list UriPathSegment))
    (ENABLE_BRSKI : bool) (path_seg : bytes) : option EST_ERROR :=
  let canned_uri := lit "/.well-known/est/" ++ take (Z.to_nat EST_URI_MAX_LEN) (cstr path_seg) in
  match uriParseUriA canned_uri with
  | None => Some EST_ERR_HTTP_INVALID_PATH_SEGMENT
  | Some [] => Some EST_ERR_HTTP_INVALID_PATH_SEGMENT
  | Some (_ :: _ :: cur_seg :: more) =>
      let operation := est_parse_operation ENABLE_BRSKI
                         (cstr_at canned_uri (text_first cur_seg)) in
      if negb (bool_decide (operation = EST_OP_MAX))
      then Some EST_ERR_HTTP_INVALID_PATH_SEGMENT
      else match text_afterLast cur_seg, more with
           | Some a, [] => if negb (rd canned_uri a =? 0)
                           then Some EST_ERR_HTTP_INVALID_PATH_SEGMENT
                           else Some EST_ERR_NONE
           | None, [] => None
           | _, _ :: _ => Some EST_ERR_HTTP_INVALID_PATH_SEGMENT
           end
  | Some _ => None
  end.
