(* ===== verification/HttpParse.v ===== *)
(** * HttpParse: the HTTP request parser of est_server_http.c

    The pure part of the embedded web server: case-insensitive comparison,
    header lookup, [url_decode], [get_request_len], the removal of double dots
    and slashes, and the parsing of a buffered request.  As in the source the
    request is cut into strings inside its own buffer; a [char *] of
    [mg_request_info] is an offset into it. *)

From S2P Require Import Prelude.
From S2P Require Import SafeC.
From S2P Require Import EstTypes.
From S2P Require Import EstState.
From S2P Require Import EstUtil.

(** ** Comparison *)

Definition lowercase (c : Z) : Z := tolower c.

Fixpoint mg_strncasecmp (s1 s2 : bytes) (len : nat) : Z :=
  match len with
  | O => 0
  | S len' =>
      let diff := lowercase (hd 0 s1) - lowercase (hd 0 s2) in
      if (diff =? 0) && negb (hd 0 s1 =? 0)
      then mg_strncasecmp (tail s1) (tail s2) len' else diff
  end.

Fixpoint mg_strcasecmp (s1 s2 : bytes) : Z :=
  let diff := lowercase (hd 0 s1) - lowercase (hd 0 s2) in
  match s1 with
  | [] => diff
  | c :: r => if (diff =? 0) && negb (c =? 0) then mg_strcasecmp r (tail s2) else diff
  end.

(** [get_header]: the value of the first header whose name matches. *)
Fixpoint get_header (http_headers : list (bytes * bytes)) (name : bytes) : option bytes :=
  match http_headers with
  | [] => None
  | (n, v) :: r => if mg_strcasecmp name n =? 0 then Some v else get_header r name
  end.

(** ** url_decode *)

Definition HEXTOI (x : Z) : Z := if isdigit x then x - 48 else x - 87.

(** The loop, on the rest [s] of the source at index [i]: the final [i] and the
    bytes stored from index [j] on. *)
Fixpoint url_decode_loop (fuel : nat) (s : bytes) (i src_len j dst_len : Z)
    (is_form_url_encoded : bool) : Z * bytes :=
  match fuel with
  | O => (i, [])
  | S f =>
    if (i <? src_len) && (j <? dst_len - 1) then
      if (rd s 0 =? chr_percent) && isxdigit (rd s 1) && isxdigit (rd s 2) then
        let a := tolower (rd s 1) in
        let b := tolower (rd s 2) in
        let c := wrap_u 8 (Z.lor (Z.shiftl (HEXTOI a) 4) (HEXTOI b)) in
        let '(i', out) := url_decode_loop f (drop 3 s) (i + 3) src_len (j + 1) dst_len
                            is_form_url_encoded in (i', c :: out)
      else
        let c := if is_form_url_encoded && (rd s 0 =? chr_plus) then chr_space else rd s 0 in
        let '(i', out) := url_decode_loop f (drop 1 s) (i + 1) src_len (j + 1) dst_len
                            is_form_url_encoded in (i', c :: out)
    else (i, [])
  end.

(** The return value and the bytes stored before the terminating NUL.  The
    source index grows in every round, so [src_len] rounds are enough. *)
Definition url_decode (src : bytes) (src_len dst_len : Z) (is_form_url_encoded : bool)
    : Z * bytes :=
  let '(i, out) := url_decode_loop (Z.to_nat src_len) src 0 src_len 0 dst_len
                     is_form_url_encoded in
  (if i >=? src_len then Z.of_nat (length out) else -1, out).

(** ** get_request_len *)

(** Is the byte a control character a request may not contain? *)
Definition bad_char (c : Z) : bool :=
  negb (isprint c) && negb (c =? chr_cr) && negb (c =? chr_lf) && (c <? 128).

(** The scan from index [s] to [e = buflen - 1]; the fuel is [e - s]. *)
Fixpoint request_len_loop (fuel : nat) (buf : bytes) (s e : nat) : Z :=
  match fuel with
  | O => 0
  | S f =>
    if bad_char (rd buf s) then -1
    else if (rd buf s =? chr_lf) && (rd buf (s + 1) =? chr_lf) then Z.of_nat s + 2
    else if (rd buf s =? chr_lf) && (s + 1 <? e)%nat && (rd buf (s + 1) =? chr_cr)
            && (rd buf (s + 2) =? chr_lf) then Z.of_nat s + 3
    else request_len_loop f buf (S s) e
  end.

Definition get_request_len (buf : bytes) (buflen : nat) : Z :=
  request_len_loop (buflen - 1) buf 0 (buflen - 1).

(** ** remove_double_dots_and_double_slashes *)

Definition is_sep (c : Z) : bool := (c =? chr_slash) || (c =? chr_backslash).

(** The inner loop: drop separators and double dots. *)
Fixpoint skip_seps (fuel : nat) (s : bytes) : bytes :=
  match fuel with
  | O => s
  | S f =>
    match s with
    | [] => []
    | c :: r =>
        if c =? 0 then s
        else if is_sep c then skip_seps f r
        else if (c =? chr_dot) && (rd r 0 =? chr_dot) then skip_seps f (tail r)
        else s
    end
  end.

Fixpoint remove_dd_loop (fuel : nat) (s : bytes) : bytes :=
  match fuel with
  | O => []
  | S f =>
    match s with
    | [] => []
    | c :: r =>
        if c =? 0 then []
        else c :: remove_dd_loop f (if is_sep c then skip_seps (length r) r else r)
    end
  end.

Definition remove_double_dots_and_double_slashes (s : bytes) : bytes :=
  remove_dd_loop (length s) s.

(** ** Requests *)

Record mg_request_info := {
  ri_method : option nat;
  ri_uri : option nat;
  ri_http_version : option nat;
  ri_headers : list (nat * nat)
}.

(** The number of headers [http_headers] has room for. *)
Definition MAX_HTTP_HEADERS : nat := 64.

Fixpoint parse_headers_loop (n : nat) (buf : bytes) (p : nat) : bytes * nat * list (nat * nat) :=
  match n with
  | O => (buf, p, [])
  | S n' =>
    let '(buf1, p1, name) := skip_quoted buf p (lit ":") (lit " ") 0 in
    let '(buf2, p2, value) := skip buf1 p1 crlf in
    if rd buf2 name =? 0 then (buf2, p2, [])
    else let '(buf3, p3, hs) := parse_headers_loop n' buf2 p2 in
         (buf3, p3, (name, value) :: hs)
  end.

(** The buffer, the place parsing stopped, and the headers in order. *)
Definition parse_http_headers (buf : bytes) (p : nat) : bytes * nat * list (nat * nat) :=
  parse_headers_loop MAX_HTTP_HEADERS buf p.

(** EST only allows GET & POST. *)
Definition is_valid_http_method (method : bytes) : bool :=
  (strncmp method (lit "GET") 3 =? 0) || (strncmp method (lit "POST") 4 =? 0).

Fixpoint skip_spaces (fuel : nat) (buf : bytes) (p : nat) : nat :=
  match fuel with
  | O => p
  | S f => if negb (rd buf p =? 0) && isspace (rd buf p) then skip_spaces f buf (S p) else p
  end.

(** The request length, the buffer and the request, [ri] being what it held. *)
Definition parse_http_message (buf : bytes) (len : nat) (ri : mg_request_info)
    : Z * bytes * mg_request_info :=
  let request_length := get_request_len buf len in
  if request_length >? 0 then
    let buf0 := <[Z.to_nat (request_length - 1) := 0]> buf in
    let p0 := skip_spaces (length buf0) buf0 0 in
    let '(buf1, p1, method) := skip buf0 p0 (lit " ") in
    let '(buf2, p2, uri) := skip buf1 p1 (lit " ") in
    let '(buf3, p3, version) := skip buf2 p2 crlf in
    let '(buf4, p4, hs) := parse_http_headers buf3 p3 in
    (request_length, buf4,
     Build_mg_request_info (Some method) (Some uri) (Some version) hs)
  else (request_length, buf, ri).

Definition parse_http_request (buf : bytes) (len : nat) (ri : mg_request_info)
    : Z * bytes * mg_request_info :=
  let '(result, buf', ri') := parse_http_message buf len ri in
  let str o := match o with Some p => cstr_at buf' p | None => [] end in
  if (result >? 0) && is_valid_http_method (str (ri_method ri'))
     && (strncmp (str (ri_http_version ri')) (lit "HTTP/") 5 =? 0)
  then (result, buf',
        Build_mg_request_info (ri_method ri') (ri_uri ri')
          (match ri_http_version ri' with Some p => Some (p + 5)%nat | None => None end)
          (ri_headers ri'))
  else (-1, buf', ri').

(** A URI is an asterisk or starts with a slash. *)
Definition is_valid_uri (uri : bytes) : bool :=
  (rd uri 0 =? chr_slash) || ((rd uri 0 =? chr_star) && (rd uri 1 =? 0)).

(** The strings a parsed request denotes in its buffer. *)
Definition ri_strings (buf : bytes) (ri : mg_request_info)
    : option bytes * option bytes * option bytes * list (bytes * bytes) :=
  (cstr_at buf <$> ri_method ri, cstr_at buf <$> ri_uri ri, cstr_at buf <$> ri_http_version ri,
   map (fun h => (cstr_at buf (fst h), cstr_at buf (snd h))) (ri_headers ri)).

(** The URI preparation of [handle_request]: the query string is cut off at the
    first '?', the rest is URL-decoded in place and cleaned up. *)
Definition handle_request_uri (uri : bytes) : bytes * option bytes :=
  let u := cstr uri in
  let path := prefix_out u [chr_question] in
  let query := if (length path <? length u)%nat then Some (drop (S (length path)) u) else None in
  let uri_len := strnlen path EST_URI_MAX_LEN in
  let '(_, decoded) := url_decode path uri_len (uri_len + 1) false in
  (remove_double_dots_and_double_slashes (cstr decoded), query).

(** ** Numbers in headers *)

Fixpoint strtoll_digits (s : bytes) (n : Z) : Z :=
  match s with
  | [] => n
  | c :: r => if isdigit c then strtoll_digits r (n * 10 + (c - 48)) else n
  end.

(** [strtoll] in base 10: the value is clamped to 64 bits. *)
Definition strtoll (s : bytes) : Z :=
  let t := drop (skip_spaces (length s) s 0) s in
  let clamp n := Z.max (- 2 ^ 63) (Z.min (2 ^ 63 - 1) n) in
  match t with
  | c :: r => if c =? chr_dash then clamp (- strtoll_digits r 0)
              else if c =? chr_plus then clamp (strtoll_digits r 0)
              else clamp (strtoll_digits t 0)
  | [] => 0
  end.

Definition atoi (s : bytes) : Z := wrap_s 32 (strtoll s).
