(* ===== verification/HttpIO.v ===== *)
(** * HttpIO: what the server writes on the TLS channel

    [push], [mg_write], [mg_printf] and [mg_send_http_error] of
    est_server_http.c, the keep-alive decision, the authorization request, and
    the response writers of est_server.c that only format a header: the error
    responses, the retry-after response and the CSR attributes response.

    [push] retries while [SSL_write] returns 0; its loop consumes one scripted
    result per round, so the length of the script bounds the rounds.  A response
    header is a C string in a buffer of EST_HTTP_HDR_MAX bytes. *)

From S2P Require Import Prelude.
From S2P Require Import SafeC.
From S2P Require Import EstTypes.
From S2P Require Import EstState.
From S2P Require Import EstUtil.
From S2P Require Import HttpParse.

(** ** Response constants (est_locl.h) *)

Definition EST_HTTP_STAT_202 : Z := 202.
Definition EST_HTTP_STAT_204 : Z := 204.
Definition EST_HTTP_STAT_400 : Z := 400.
Definition EST_HTTP_STAT_401 : Z := 401.
Definition EST_HTTP_STAT_404 : Z := 404.
Definition EST_HTTP_STAT_423 : Z := 423.
Definition EST_HTTP_STAT_500 : Z := 500.
Definition EST_HTTP_STAT_502 : Z := 502.
Definition EST_HTTP_STAT_504 : Z := 504.

Definition EST_HTTP_STAT_204_TXT : bytes := lit "No Content".
Definition EST_HTTP_STAT_400_TXT : bytes := lit "Bad Request".
Definition EST_HTTP_STAT_401_TXT : bytes := lit "Unauthorized".
Definition EST_HTTP_STAT_404_TXT : bytes := lit "Not Found".
Definition EST_HTTP_STAT_423_TXT : bytes := lit "Locked".
Definition EST_HTTP_STAT_500_TXT : bytes := lit "Internal Server Error".
Definition EST_HTTP_STAT_502_TXT : bytes := lit "Bad Gateway".
Definition EST_HTTP_STAT_504_TXT : bytes := lit "Gateway Time-out".

Definition EST_HTTP_HDR_200_RESP : bytes := lit "HTTP/1.1 200 OK".
Definition EST_HTTP_HDR_STAT_200 : bytes := lit "Status: 200 OK".
Definition EST_HTTP_HDR_202_RESP : bytes := lit "HTTP/1.1 202 Accepted".
Definition EST_HTTP_HDR_STAT_202 : bytes := lit "Status: 202 Accepted".
Definition EST_HTTP_HDR_401_RESP : bytes := lit "HTTP/1.1 401 Unauthorized".
Definition EST_HTTP_HDR_CT : bytes := lit "Content-Type".
Definition EST_HTTP_HDR_CE : bytes := lit "Content-Transfer-Encoding".
Definition EST_HTTP_HDR_CL : bytes := lit "Content-Length".
Definition EST_HTTP_HDR_AUTH : bytes := lit "WWW-Authenticate".
Definition EST_HTTP_HDR_RETRY_AFTER : bytes := lit "Retry-After".
Definition EST_HTTP_CT_PKCS7 : bytes := lit "application/pkcs7-mime".
Definition EST_HTTP_CT_PKCS7_CO : bytes :=
  lit "application/pkcs7-mime; smime-type=certs-only".
Definition EST_HTTP_CT_CSRATTRS : bytes := lit "application/csrattrs".
Definition EST_HTTP_CE_BASE64 : bytes := lit "base64".
Definition EST_HTTP_CT_MULTI_MIXED : bytes := lit "multipart/mixed".
Definition EST_HTTP_CT_PKCS8 : bytes := lit "application/pkcs8".
Definition EST_HTTP_BOUNDARY : bytes := lit "est-server-boundary".
Definition EST_BRSKI_CT_VREQ_SIGNED : bytes :=
  lit "application/pkcs7-mime; smime-type=voucher-request".
Definition EST_BRSKI_CT_VREQ : bytes := lit "application/json".
Definition EST_BRSKI_CT_VRSP : bytes := lit "application/voucher+cms".
Definition EST_BRSKI_CT_STATUS : bytes := lit "application/json".

(** The bodies of the error responses; each ends in a newline. *)
Definition body_text (s : string) : bytes := lit s ++ [chr_lf].
Arguments body_text _%_string.
Definition EST_BODY_BAD_PKCS10 : bytes := body_text "Invalid or corrupted pkcs10 request.".
Definition EST_BODY_BAD_ASN1 : bytes := body_text "Invalid or corrupted ASN1 data in request.".
Definition EST_BODY_MISSING_CSR_ATTR : bytes := body_text "CSR Attributes missing in request.".
Definition EST_BODY_BAD_CONTENT_TYPE : bytes := body_text "Invalid content type used.".
Definition EST_BODY_UNAUTHORIZED : bytes :=
  body_text "The server was unable to authorize the request.".
Definition EST_BODY_POP_MISMATCH : bytes := body_text "Proof of Possession Mismatch.".
Definition EST_BODY_BAD_METH : bytes :=
  body_text "Invalid HTTP method used.  Either GET or POST required depending on the request type.".
Definition EST_BODY_BAD_SSL : bytes := body_text "An unknown TLS error has occured.".
Definition EST_BODY_LOCKED : bytes :=
  body_text "The content attempted to be accessed is locked.".
Definition EST_BODY_ENROLL_FAIL : bytes := body_text "An error has occured during enrollment.".
Definition EST_BODY_UNKNOWN_ERR : bytes := body_text "An unknown error has occured.".
Definition EST_BODY_INVALID_PATH_SEGMENT : bytes :=
  body_text "The path specified is not recognized.".
Definition EST_BODY_NOT_FOUND : bytes :=
  body_text "Requested content is currently not available on the server.".
Definition EST_BODY_BAD_GATEWAY : bytes :=
  body_text "An error occurred while communicating to the upstream server.".
Definition EST_BODY_GATEWAY_TIMEOUT : bytes :=
  body_text "There was an issue connecting to the upstream server.".

(** ** Formatting *)

(** [snprintf(hdr + strlen(hdr), size, ...)]: the text is cut to [size - 1] bytes. *)
Definition snprintf_at (hdr : bytes) (size : Z) (text : bytes) : bytes :=
  hdr ++ take (Z.to_nat (size - 1)) text.

(** The bytes [mg_vsnprintf] leaves in a buffer of [buflen] bytes. *)
Definition mg_vsnprintf (buflen : Z) (text : bytes) : bytes :=
  if buflen =? 0 then [] else take (Z.to_nat (buflen - 1)) text.

(** [snprintf(hdr + hdrlen, EST_HTTP_HDR_MAX - hdrlen, ...)]. *)
Definition hdr_add (hdr text : bytes) : bytes :=
  snprintf_at hdr (EST_HTTP_HDR_MAX - Z.of_nat (length hdr)) text.

(** The common start of the 200 responses, up to the content length. *)
Definition hdr_status_200 : bytes :=
  hdr_add [] (EST_HTTP_HDR_200_RESP ++ crlf ++ EST_HTTP_HDR_STAT_200 ++ crlf).

Definition hdr_200 (content_type : bytes) (content_len : Z) : bytes :=
  let h1 := hdr_status_200 in
  let h2 := hdr_add h1 (EST_HTTP_HDR_CT ++ lit ": " ++ content_type ++ crlf) in
  let h3 := hdr_add h2 (EST_HTTP_HDR_CE ++ lit ": " ++ EST_HTTP_CE_BASE64 ++ crlf) in
  hdr_add h3 (EST_HTTP_HDR_CL ++ lit ": " ++ fmt_d content_len ++ crlf ++ crlf).

Section IO.
Context {L : OpenSSL}.

(** ** push, mg_write, mg_printf *)

Fixpoint push_loop (fuel : nat) (buf : bytes) (sent : Z) : M Z :=
  match fuel with
  | O => mret sent
  | S f =>
    let len := Z.of_nat (length buf) in
    if sent <? len then
      let k := if len - sent >? INT_MAX then INT_MAX else len - sent in
      n ← ssl_write (take (Z.to_nat k) (drop (Z.to_nat sent) buf));
      if n <? 0 then mret sent else push_loop f buf (sent + n)
    else mret sent
  end.

Definition push (buf : bytes) : M Z :=
  fun w => push_loop (S (length (w_ssl_write w)) + length buf) buf 0 w.

Definition mg_write (buf : bytes) : M Z :=
  total ← push buf; mret (wrap_s 32 total).

(** [mem] has MG_BUF_LEN bytes: a text of exactly that length loses its last
    byte to the terminator but is written with it. *)
Definition mg_printf (text : bytes) : M Z :=
  let len := Z.of_nat (length text) in
  if len =? 0 then mret 0
  else if len >? MG_BUF_LEN then
    ok ← alloc;
    if ok : bool then mg_write text else mret (-1)
  else if len =? MG_BUF_LEN then mg_write (take (length text - 1) text ++ [0])
  else mg_write text.

(** ** Headers of the request and keep-alive *)

Definition mg_get_header (name : bytes) : M (option bytes) :=
  conn ← get_conn; mret (get_header (http_headers conn) name).

Definition should_keep_alive : M bool :=
  conn ← get_conn;
  header ← mg_get_header (lit "Connection");
  mret (negb (must_close conn
              || (status_code conn =? EST_HTTP_STAT_202)
              || (400 <=? status_code conn)
              || negb (enable_keepalives conn)
              || match header, http_version conn with
                 | Some h, _ => negb (mg_strcasecmp h (lit "keep-alive") =? 0)
                 | None, Some v => negb (strncmp v (lit "1.1") 3 =? 0)
                 | None, None => false
                 end)).

Definition suggest_connection_header : M bytes :=
  ka ← should_keep_alive;
  mret (if ka : bool then lit "keep-alive" else lit "close").

(** ** mg_send_http_error *)

Definition mg_error_body (status : Z) (reason text : bytes) : bytes :=
  if (status >? 199) && negb (status =? 204) && negb (status =? 304) then
    let first := mg_vsnprintf MG_BUF_LEN
                   (lit "Error " ++ fmt_d status ++ lit ": " ++ reason) in
    let line := first ++ [chr_lf] in
    line ++ mg_vsnprintf (MG_BUF_LEN - Z.of_nat (length line)) text
  else [].

Definition mg_send_http_error (status : Z) (reason text : bytes) : M unit :=
  conn ← get_conn;
  _ ← put_conn (set_c_status_code status conn);
  let buf := mg_error_body status reason text in
  connection ← suggest_connection_header;
  _ ← mg_printf (lit "HTTP/1.1 " ++ fmt_d status ++ lit " " ++ reason ++ crlf
                 ++ lit "Content-Length: " ++ fmt_d (Z.of_nat (length buf)) ++ crlf
                 ++ lit "Connection: " ++ connection ++ crlf ++ crlf);
  n ← mg_printf buf;
  conn ← get_conn;
  put_conn (set_c_num_bytes_sent (num_bytes_sent conn + n) conn).

(** ** mg_send_authorization_request *)

Definition quoted (s : bytes) : bytes := [chr_dquote] ++ s ++ [chr_dquote].

Definition mg_send_authorization_request : M unit :=
  conn ← get_conn;
  _ ← put_conn (set_c_status_code 401 conn);
  ctx ← get_ctx;
  let start := EST_HTTP_HDR_401_RESP ++ crlf ++ EST_HTTP_HDR_CL ++ lit ": 0" ++ crlf
               ++ EST_HTTP_HDR_AUTH ++ lit ": " in
  match auth_mode ctx with
  | AUTH_BASIC =>
      _ ← mg_printf (start ++ lit "Basic realm=" ++ quoted (realm ctx) ++ crlf ++ crlf);
      mret tt
  | AUTH_DIGEST =>
      now ← get_time;
      _ ← mg_printf (start ++ lit "Digest qop=" ++ quoted (lit "auth") ++ lit ", realm="
                     ++ quoted (realm ctx) ++ lit ", nonce=" ++ quoted (fmt_d now)
                     ++ crlf ++ crlf);
      mret tt
  | AUTH_TOKEN =>
      _ ← mg_printf (start ++ lit "Bearer realm=" ++ quoted (realm ctx) ++ crlf ++ crlf);
      mret tt
  | AUTH_FAIL | AUTH_NONE => mret tt
  end.

(** ** est_server_send_http_retry_after and est_send_http_error *)

Definition est_server_send_http_retry_after (delay : Z) : M EST_ERROR :=
  let http_hdr := hdr_add [] (EST_HTTP_HDR_202_RESP ++ crlf ++ EST_HTTP_HDR_STAT_202 ++ crlf
                              ++ EST_HTTP_HDR_RETRY_AFTER ++ lit ": " ++ fmt_d delay
                              ++ crlf ++ crlf) in
  conn ← get_conn;
  _ ← put_conn (set_c_status_code EST_HTTP_STAT_202 conn);
  n ← mg_write http_hdr;
  mret (if n =? 0 then EST_ERR_HTTP_WRITE else EST_ERR_NONE).

Definition send_500 (body : bytes) : M unit :=
  mg_send_http_error EST_HTTP_STAT_500 EST_HTTP_STAT_500_TXT body.
Definition send_400 (body : bytes) : M unit :=
  mg_send_http_error EST_HTTP_STAT_400 EST_HTTP_STAT_400_TXT body.
Definition send_401 (body : bytes) : M unit :=
  mg_send_http_error EST_HTTP_STAT_401 EST_HTTP_STAT_401_TXT body.

(** The [goto error] of the retry case takes the default case of the switch. *)
Definition est_send_http_error (fail_code : Z) : M unit :=
  match est_err_of fail_code with
  | Some EST_ERR_CA_ENROLL_RETRY =>
      ctx ← get_ctx;
      match est_mode ctx with
      | EST_SERVER | EST_PROXY =>
          let retry_delay := match est_mode ctx with
                             | EST_SERVER => retry_period ctx
                             | _ => retry_after_delay ctx
                             end in
          rv ← est_server_send_http_retry_after retry_delay;
          if bool_decide (rv = EST_ERR_NONE) then mret tt else send_500 EST_BODY_UNKNOWN_ERR
      | EST_CLIENT => send_500 EST_BODY_UNKNOWN_ERR
      end
  | Some EST_ERR_HTTP_NO_CONTENT =>
      mg_send_http_error EST_HTTP_STAT_204 EST_HTTP_STAT_204_TXT []
  | Some EST_ERR_HTTP_BAD_REQ => send_400 []
  | Some EST_ERR_CSR_ATTR_MISSING => send_400 EST_BODY_MISSING_CSR_ATTR
  | Some EST_ERR_BAD_ASN1_HEX => send_400 EST_BODY_BAD_ASN1
  | Some EST_ERR_BAD_PKCS10 => send_400 EST_BODY_BAD_PKCS10
  | Some EST_ERR_BAD_CONTENT_TYPE => send_400 EST_BODY_BAD_CONTENT_TYPE
  | Some EST_ERR_WRONG_METHOD => send_400 EST_BODY_BAD_METH
  | Some EST_ERR_NO_SSL_CTX => send_400 EST_BODY_BAD_SSL
  | Some EST_ERR_AUTH_FAIL => send_401 EST_BODY_UNAUTHORIZED
  | Some EST_ERR_AUTH_FAIL_TLSUID => send_401 EST_BODY_POP_MISMATCH
  | Some EST_ERR_HTTP_NOT_FOUND =>
      mg_send_http_error EST_HTTP_STAT_404 EST_HTTP_STAT_404_TXT EST_BODY_NOT_FOUND
  | Some EST_ERR_HTTP_INVALID_PATH_SEGMENT =>
      mg_send_http_error EST_HTTP_STAT_404 EST_HTTP_STAT_404_TXT EST_BODY_INVALID_PATH_SEGMENT
  | Some EST_ERR_HTTP_LOCKED =>
      mg_send_http_error EST_HTTP_STAT_423 EST_HTTP_STAT_423_TXT EST_BODY_LOCKED
  | Some EST_ERR_HTTP_UNSUPPORTED =>
      mg_send_http_error EST_HTTP_STAT_502 EST_HTTP_STAT_502_TXT EST_BODY_BAD_GATEWAY
  | Some EST_ERR_IP_CONNECT =>
      mg_send_http_error EST_HTTP_STAT_504 EST_HTTP_STAT_504_TXT EST_BODY_GATEWAY_TIMEOUT
  | Some EST_ERR_CA_ENROLL_FAIL => send_500 EST_BODY_ENROLL_FAIL
  | _ => send_500 EST_BODY_UNKNOWN_ERR
  end.

(** ** est_send_csrattr_data *)

Definition est_send_csrattr_data (csr_data : option bytes) (csr_len : Z) : M EST_ERROR :=
  match csr_data with
  | Some d =>
      if csr_len >? 0 then
        n ← mg_write (hdr_200 EST_HTTP_CT_CSRATTRS csr_len);
        if n =? 0 then mret EST_ERR_HTTP_WRITE else
        n ← mg_write (take (Z.to_nat csr_len) d);
        if n =? 0 then mret EST_ERR_HTTP_WRITE else mret EST_ERR_NONE
      else
        _ ← est_send_http_error (est_err_num EST_ERR_HTTP_NO_CONTENT); mret EST_ERR_NONE
  | None =>
      _ ← est_send_http_error (est_err_num EST_ERR_HTTP_NO_CONTENT); mret EST_ERR_NONE
  end.

End IO.
