(* ===== verification/EnhCertAuth.v ===== *)
(** * EnhCertAuth: Enhanced Certificate Authentication (est_enhcd_cert_auth.c)

    The manufacturer list of the context, the search for the manufacturer whose
    trust store verifies the peer certificate, the comparison of the subject
    fields of the certificate and of the CSR, and the construction of the
    credentials handed to the application; with the trust store loader of
    est_ossl_util.c and the subject printer. *)

From S2P Require Import Prelude.
From S2P Require Import SafeC.
From S2P Require Import EstTypes.
From S2P Require Import EstState.
From S2P Require Import EstUtil.

Section EnhCertAuth.
Context {L : OpenSSL}.

(** [STRNDUP]: NULL when the allocation fails. *)
Definition strndup_m (s : bytes) (n : Z) : M (option bytes) :=
  ok ← alloc; mret (if ok : bool then Some (STRNDUP s n) else None).

(** ** est_ossl_util.c *)

(** The return value and the C string left in [name]. *)
Definition est_get_subj_fld_from_cert (subject_nm : X509_NAME) (name : bytes) (len : Z)
    : M (EST_ERROR * bytes) :=
  out ← alloc;
  if negb out then mret (EST_ERR_MALLOC, name) else
  let bm := X509_NAME_print subject_nm in
  match bm with
  | None => mret (EST_ERR_SYSCALL, name)
  | Some d => mret (EST_ERR_NONE, cstr (take (Z.to_nat len) d))
  end.

(** The loop over the objects of the PEM buffer: the store and the number of
    certificates. *)
Fixpoint add_infos (store : X509_STORE) (sk : list (option X509 * option X509_CRL)) (cert_cnt : Z)
    : X509_STORE * Z :=
  match sk with
  | [] => (store, cert_cnt)
  | (x509, crl) :: r =>
      let '(store1, cnt) := match x509 with
                            | Some x => (X509_STORE_add_cert store x, cert_cnt + 1)
                            | None => (store, cert_cnt)
                            end in
      let store2 := match crl with
                    | Some c => X509_STORE_add_crl store1 c
                    | None => store1
                    end in
      add_infos store2 r cnt
  end.

Definition ossl_init_cert_store_from_raw (store : X509_STORE) (raw : bytes)
    : M (X509_STORE * Z) :=
  bio ← alloc;
  if negb bio then mret (store, 0) else
  match PEM_X509_INFO_read_bio raw with
  | None => mret (store, 0)
  | Some sk => mret (add_infos store sk 0)
  end.

Definition ossl_init_cert_store (store : X509_STORE) (raw1 : option bytes)
    : M (X509_STORE * EST_ERROR) :=
  match raw1 with
  | Some raw =>
      '(store', cnt) ← ossl_init_cert_store_from_raw store raw;
      mret (store', if cnt =? 0 then EST_ERR_NO_CERTS_FOUND else EST_ERR_NONE)
  | None => mret (store, EST_ERR_NONE)
  end.

(** The verification callback: the verdict [ok] on one certificate of a chain
    may be turned into success for a missing CRL only. *)
Definition ossl_verify_cb (ok cert_error : Z) : Z :=
  if ok =? 0 then if cert_error =? X509_V_ERR_UNABLE_TO_GET_CRL then 1 else ok else ok.

(** ** The manufacturer list *)

Definition empty_mfg : ENCHD_CERT_MFG_INFO := Build_ENCHD_CERT_MFG_INFO [] 0 None false.

Definition est_enhcd_cert_auth_mfg_info_list_create : M EST_ERROR :=
  ok ← alloc;
  ctx ← get_ctx;
  if ok : bool then
    _ ← put_ctx (set_enchd_cert_mfgs_info_list (Some (replicate NUM_SUPPORTED_MFG empty_mfg)) ctx);
    mret EST_ERR_NONE
  else
    _ ← put_ctx (set_enchd_cert_mfgs_info_list None ctx);
    mret EST_ERR_MALLOC.

(** The first entry without a trust store, from index [i] on. *)
Fixpoint next_free (l : list ENCHD_CERT_MFG_INFO) (i : Z) : Z :=
  match l with
  | [] => -1
  | m :: r => match mfg_truststore m with None => i | Some _ => next_free r (i + 1) end
  end.

Definition est_enhcd_cert_get_next_mfg_info_ind (index : Z) : M (EST_ERROR * Z) :=
  ctx ← get_ctx;
  match enchd_cert_mfgs_info_list ctx with
  | None => mret (EST_ERR_INVALID_PARAMETERS, index)
  | Some l => mret (EST_ERR_NONE, next_free l 0)
  end.

Definition set_mfg (i : nat) (m : ENCHD_CERT_MFG_INFO) : M unit :=
  ctx ← get_ctx;
  match enchd_cert_mfgs_info_list ctx with
  | None => null_deref
  | Some l => put_ctx (set_enchd_cert_mfgs_info_list (Some (<[i := m]> l)) ctx)
  end.

Definition est_load_enhcd_cert_auth_manufacturer (name : bytes) (subject_field_nid : Z)
    (certs : option bytes) : M EST_ERROR :=
  ctx ← get_ctx;
  match enchd_cert_mfgs_info_list ctx with
  | None => mret EST_ERR_INVALID_PARAMETERS
  | Some l =>
    '(rv, i) ← est_enhcd_cert_get_next_mfg_info_ind (-1);
    if negb (bool_decide (rv = EST_ERR_NONE)) || (i <? 0) then mret rv else
    let k := Z.to_nat i in
    match l !! k with
    | None => null_deref
    | Some m0 =>
      let '(rc, name') := strncpy_s (Some (replicate (Z.to_nat (MFG_NAME_MAX_LEN + 1)) 0))
                            (MFG_NAME_MAX_LEN + 1) (Some name) MFG_NAME_MAX_LEN None in
      if negb (rc =? EOK) then mret EST_ERR_UNKNOWN else
      let nm := cstr (default [] name') in
      let m1 := Build_ENCHD_CERT_MFG_INFO nm subject_field_nid X509_STORE_new (mfg_store_ctx m0) in
      _ ← set_mfg k m1;
      match X509_STORE_new with
      | None => mret EST_ERR_MALLOC
      | Some store =>
        '(store', rv) ← ossl_init_cert_store store certs;
        if negb (bool_decide (rv = EST_ERR_NONE)) then
          _ ← set_mfg k (Build_ENCHD_CERT_MFG_INFO nm subject_field_nid None (mfg_store_ctx m0));
          mret rv
        else if negb X509_STORE_CTX_new then
          _ ← set_mfg k (Build_ENCHD_CERT_MFG_INFO nm subject_field_nid None false);
          mret EST_ERR_MALLOC
        else
          _ ← set_mfg k (Build_ENCHD_CERT_MFG_INFO nm subject_field_nid (Some store') true);
          mret EST_ERR_NONE
      end
    end
  end.

Definition mfg_info_list_destroy : M unit :=
  ctx ← get_ctx;
  match enchd_cert_mfgs_info_list ctx with
  | None => mret tt
  | Some _ => put_ctx (set_enchd_cert_mfgs_info_list None ctx)
  end.

(** ** Which manufacturer signed the peer certificate? *)

(** The loop from index [i], with the verdict [rv] so far. *)
Fixpoint get_mfg_loop (l : list ENCHD_CERT_MFG_INFO) (peer : X509) (peer_chain : list X509)
    (i rv : Z) : Z * Z :=
  match l with
  | [] => (rv, -1)
  | m :: r =>
    match mfg_truststore m, mfg_store_ctx m with
    | Some ts, true =>
        if negb (X509_STORE_CTX_init ts peer peer_chain) then (est_err_num EST_ERR_MALLOC, -1) else
        let rv' := X509_verify_cert ts peer peer_chain in
        if rv' =? 0 then get_mfg_loop r peer peer_chain (i + 1) rv'
        else (est_err_num EST_ERR_NONE, i)
    | _, _ => get_mfg_loop r peer peer_chain (i + 1) rv
    end
  end.

Definition est_enhcd_cert_auth_get_mfg (ctx : EST_CTX) (peer : X509) (peer_chain : list X509)
    : Z * Z :=
  match enchd_cert_mfgs_info_list ctx with
  | None => (est_err_num EST_ERR_NONE, -1)
  | Some l => get_mfg_loop l peer peer_chain 0 (est_err_num EST_ERR_VALIDATION)
  end.

(** ** Subject fields *)

Definition find_subject_field_from_x509_name (name : X509_NAME) (nid : Z) : option bytes :=
  let subj_field_name_index := X509_NAME_get_index_by_NID name nid (-1) in
  if subj_field_name_index <? 0 then None
  else Some (X509_NAME_get_entry_data name subj_field_name_index).

Definition get_cert_subject_line_field (cert : X509) (nid : Z)
    : EST_HTTP_AUTH_HDR_RESULT * option bytes :=
  match find_subject_field_from_x509_name (X509_get_subject_name cert) nid with
  | None => (EST_AUTH_ECA_ERR, None)
  | Some f => (EST_AUTH_HDR_GOOD, Some f)
  end.

Definition get_csr_subject_line_field (csr : X509_REQ) (nid : Z)
    : EST_HTTP_AUTH_HDR_RESULT * option bytes :=
  match find_subject_field_from_x509_name (X509_REQ_get_subject_name csr) nid with
  | None => (EST_AUTH_ECA_ERR, None)
  | Some f => (EST_AUTH_HDR_GOOD, Some f)
  end.

(** ** The CSR check *)

(** One comparison: [None] is a failed lookup or a length mismatch, otherwise
    the result of [strcmp_s] with [cmp_ind] as it was. *)
Definition compare_subject_fields (peer : X509) (csr : X509_REQ) (nid cmp_ind : Z)
    : option (Z * Z) :=
  match get_cert_subject_line_field peer nid with
  | (EST_AUTH_HDR_GOOD, Some cert_subj_field) =>
    match get_csr_subject_line_field csr nid with
    | (EST_AUTH_HDR_GOOD, Some csr_subj_field) =>
      let cert_subj_field_len := strnlen_s (Some cert_subj_field) (MAX_UIDPWD + 1) in
      let csr_subj_field_len := strnlen_s (Some csr_subj_field) (MAX_UIDPWD + 1) in
      if negb (cert_subj_field_len =? csr_subj_field_len) then None
      else Some (strcmp_s (Some cert_subj_field) cert_subj_field_len (Some csr_subj_field) cmp_ind)
    | _ => None
    end
  | _ => None
  end.

(** The loop over the registered manufacturers: the final [cmp_ind]. *)
Fixpoint csr_check_loop (l : list ENCHD_CERT_MFG_INFO) (peer : X509) (csr : X509_REQ)
    (cmp_ind : Z) : Z :=
  match l with
  | [] => cmp_ind
  | m :: r =>
    match mfg_truststore m, mfg_store_ctx m with
    | Some _, true =>
        match compare_subject_fields peer csr (mfg_nid m) cmp_ind with
        | None => csr_check_loop r peer csr 1
        | Some (_, ind) => if ind =? 0 then ind else csr_check_loop r peer csr ind
        end
    | _, _ => csr_check_loop r peer csr cmp_ind
    end
  end.

(** [None] is an index outside the manufacturer list. *)
Definition perform_enhanced_cert_auth_csr_check (ctx : EST_CTX) (peer : X509) (csr : X509_REQ)
    (mfg_index : Z) : option EST_HTTP_AUTH_HDR_RESULT :=
  let verdict cmp_ind := if cmp_ind =? 0 then EST_AUTH_HDR_GOOD else EST_AUTH_ECA_CSR_CHECK_FAIL in
  match enchd_cert_mfgs_info_list ctx with
  | None => Some EST_AUTH_ECA_CSR_CHECK_FAIL
  | Some l =>
    if 0 <=? mfg_index then
      m ← l !! Z.to_nat mfg_index;
      match compare_subject_fields peer csr (mfg_nid m) 0 with
      | None => Some EST_AUTH_ECA_CSR_CHECK_FAIL
      | Some (rc, cmp_ind) => if negb (rc =? EOK) then Some EST_AUTH_ECA_ERR
                              else Some (verdict cmp_ind)
      end
    else Some (verdict (csr_check_loop l peer csr 0))
  end.

(** ** The credentials *)

(** [ah] is NULL when its allocation failed. *)
Definition build_enhanced_cert_auth_header (ah : option EST_HTTP_AUTH_HDR) (peer : X509) (nid : Z)
    : M (EST_HTTP_AUTH_HDR_RESULT * option EST_HTTP_AUTH_HDR) :=
  match ah with
  | None => mret (EST_AUTH_ECA_ERR, None)
  | Some ah0 =>
    ctx ← get_ctx;
    let ah1 := set_ah_mode ah0 AUTH_BASIC in
    match get_cert_subject_line_field peer nid with
    | (EST_AUTH_HDR_GOOD, Some subj_field) =>
        user ← strndup_m subj_field (MAX_UIDPWD + 1);
        let ah2 := set_ah_user ah1 user in
        match user with
        | None => mret (EST_AUTH_ECA_ERR, Some ah2)
        | Some _ =>
            pwd ← strndup_m (enhcd_cert_auth_pwd ctx) (MAX_UIDPWD + 1);
            let ah3 := set_ah_pwd ah2 pwd in
            match pwd with
            | None => mret (EST_AUTH_ECA_ERR, Some ah3)
            | Some _ => mret (EST_AUTH_HDR_GOOD, Some ah3)
            end
        end
    | _ => mret (EST_AUTH_ECA_ERR, Some ah1)
    end
  end.

End EnhCertAuth.
