(* ===== verification/HttpAuth.v ===== *)
(** * HttpAuth: the HTTP Authorization header (est_server_http.c)

    The parsers of the Basic, Digest and Bearer credentials and
    [mg_parse_auth_header], which accepts the mode the context is configured for
    and stores the user name on the connection.

    [mg_parse_auth_hdr_digest] works on a copy of MAX_AUTH_HDR_LEN bytes.  When
    the header is longer the copy is not terminated and the code reads the stack
    behind it; the model reads a NUL there. *)

From S2P Require Import Prelude.
From S2P Require Import SafeC.
From S2P Require Import EstTypes.
From S2P Require Import EstState.
From S2P Require Import EstUtil.
From S2P Require Import HttpParse.
From S2P Require Import HttpIO.
From S2P Require Import EnhCertAuth.

Definition EST_BEARER_TOKEN_STR : bytes := lit "Bearer ".

(** The zeroed header of [est_create_ah]. *)
Definition empty_ah : EST_HTTP_AUTH_HDR :=
  Build_EST_HTTP_AUTH_HDR AUTH_NONE None None None None None None None None None.

Definition MAX_AUTH_HDR_LEN : Z := 256 + EST_MAX_PATH_SEGMENT_LEN.

(** Gobble initial spaces. *)
Definition gobble (s : bytes) : bytes := drop (skip_spaces (length s) s 0) s.

(** Does the text at [name] start with [word]?  [memcmp_s(name, n, word, n, &i)]. *)
Definition name_is (buf : bytes) (name : nat) (word : bytes) : bool :=
  let n := Z.of_nat (length word) in
  snd (memcmp_s (Some (drop name buf)) n (Some word) n 0) =? 0.

(** The characters of a string that are hashed: [strnlen_s] of them. *)
Definition bounded (max : Z) (s : bytes) : bytes := take (Z.to_nat max) (cstr s).

Section HttpAuth.
Context {L : OpenSSL}.

(** The MD5 of the parts of a digest, in hexadecimal. *)
Definition md5_hex (parts : list bytes) : bytes := est_hex_to_str (EVP_md5 (concat parts)).

(** ** est_server_generate_auth_digest (est_server.c)

    The help for an application that checks Digest credentials.  The parts that were
    not sent count as empty; 32 bytes are read at [HA1].  Neither the start of the
    digest nor the allocation of the result is checked. *)
Definition est_server_generate_auth_digest (ah : option EST_HTTP_AUTH_HDR) (HA1 : option bytes)
    : M (option bytes) :=
  match ah, HA1 with
  | None, _ | _, None => mret None
  | Some ah, Some ha1 =>
      let colon := lit ":" in
      let part max v := bounded max (default [] v) in
      if negb EVP_DigestInit_md5 || (length ha1 <? 32)%nat then null_deref else
      let ha2 := md5_hex [lit "POST"; colon; part MAX_REALM (ah_uri ah)] in
      let digest := md5_hex [take 32 ha1; colon; part MAX_NONCE (ah_nonce ah); colon;
                             part MAX_NC (ah_nc ah); colon; part MAX_NONCE (ah_cnonce ah); colon;
                             lit "auth"; colon; ha2] in
      rv ← alloc;
      if negb rv then null_deref else mret (Some digest)
  end.

Definition est_create_ah : M (option EST_HTTP_AUTH_HDR) :=
  ok ← alloc; mret (if ok : bool then Some empty_ah else None).

(** ** Basic *)

Definition mg_parse_auth_hdr_basic (auth_header : bytes) (ah : EST_HTTP_AUTH_HDR)
    : M EST_HTTP_AUTH_HDR :=
  let value := gobble (drop 6 (cstr auth_header)) in
  '(len, both) ← est_base64_decode_at (take 6 (cstr auth_header)) value (MAX_UIDPWD * 2 + 2);
  if (len <=? 0) || (MAX_UIDPWD * 2 + 2 <=? len) then mret ah else
  match strstr_s both len (lit ":") 1 with
  | (_, None) => mret ah
  | (_, Some possible_pw) =>
    if rd both 0 =? chr_colon then
      if len >? 1 then
        pwd ← strndup_m (drop (possible_pw + 1) both) MAX_UIDPWD;
        mret (set_ah_mode (set_ah_pwd ah pwd) AUTH_BASIC)
      else mret ah
    else
      let tk := strtok_s both (Some 0%nat) (Some len) (Some (lit ":")) None in
      match tk_token tk with
      | None => mret (set_ah_mode ah AUTH_BASIC)
      | Some value =>
          user ← strndup_m (drop value (tk_buf tk)) MAX_UIDPWD;
          match tk_ptr tk with
          | None => null_deref
          | Some save_ptr =>
              pwd ← strndup_m (drop save_ptr (tk_buf tk)) MAX_UIDPWD;
              mret (set_ah_mode (set_ah_pwd (set_ah_user ah user) pwd) AUTH_BASIC)
          end
      end
  end.

(** ** Digest *)

(** One name and value: the buffer, the rest, the name and the value. *)
Definition digest_item (buf : bytes) (s : nat) : bytes * nat * nat * nat :=
  let s0 := skip_spaces (length buf) buf s in
  let '(buf1, s1, name) := skip_quoted buf s0 (lit "=") (lit " ") 0 in
  if rd buf1 s1 =? chr_dquote then
    let '(buf2, s2, value) := skip_quoted buf1 (S s1) [chr_dquote] (lit " ") chr_backslash in
    (buf2, if rd buf2 s2 =? chr_comma then S s2 else s2, name, value)
  else
    let '(buf2, s2, value) := skip_quoted buf1 s1 (lit ", ") (lit " ") 0 in
    (buf2, s2, name, value).

(** The assignment a name selects. *)
Definition digest_assign (buf : bytes) (name value : nat) (ah : EST_HTTP_AUTH_HDR)
    : M EST_HTTP_AUTH_HDR :=
  let dup n := strndup_m (drop value buf) n in
  if name_is buf name (lit "username") then v ← dup MAX_UIDPWD; mret (set_ah_user ah v)
  else if name_is buf name (lit "cnonce") then v ← dup MAX_NONCE; mret (set_ah_cnonce ah v)
  else if name_is buf name (lit "response") then v ← dup MAX_RESPONSE; mret (set_ah_response ah v)
  else if name_is buf name (lit "uri") then v ← dup MAX_REALM; mret (set_ah_uri ah v)
  else if name_is buf name (lit "qop") then v ← dup MAX_QOP; mret (set_ah_qop ah v)
  else if name_is buf name (lit "nc") then v ← dup MAX_NC; mret (set_ah_nc ah v)
  else if name_is buf name (lit "nonce") then v ← dup MAX_NONCE; mret (set_ah_nonce ah v)
  else mret ah.

(** Every round consumes a nonempty name, so the buffer's length bounds them. *)
Fixpoint digest_loop (fuel : nat) (buf : bytes) (s : nat) (ah : EST_HTTP_AUTH_HDR)
    : M EST_HTTP_AUTH_HDR :=
  match fuel with
  | O => mret ah
  | S f =>
    let '(buf', s', name, value) := digest_item buf s in
    if rd buf' name =? 0 then mret ah
    else ah' ← digest_assign buf' name value ah; digest_loop f buf' s' ah'
  end.

Definition mg_parse_auth_hdr_digest (auth_header : bytes) (ah : EST_HTTP_AUTH_HDR)
    : M EST_HTTP_AUTH_HDR :=
  let '(_, buf) := strcpy_s (replicate (Z.to_nat MAX_AUTH_HDR_LEN) 0) MAX_AUTH_HDR_LEN
                     (Some (drop 7 (cstr auth_header))) in
  digest_loop (S (length buf)) buf 0 (set_ah_mode ah AUTH_DIGEST).

(** ** Bearer token *)

Definition mg_parse_auth_hdr_token (auth_header : bytes) (ah : EST_HTTP_AUTH_HDR)
    : M EST_HTTP_AUTH_HDR :=
  let s := gobble (drop (length EST_BEARER_TOKEN_STR - 1) (cstr auth_header)) in
  '(len, value_decoded) ← est_base64_decode_at (take 6 (cstr auth_header)) s (MAX_AUTH_TOKEN_LEN * 2);
  if (len <=? 0) || (MAX_AUTH_TOKEN_LEN * 2 <=? len) then mret ah
  else if negb (rd s 0 =? 0) then
    token ← strndup_m value_decoded MAX_AUTH_TOKEN_LEN;
    mret (set_ah_mode (set_ah_token ah token) AUTH_TOKEN)
  else mret ah.

(** ** mg_parse_auth_header *)

(** The checks on the parsed credentials. *)
Definition mg_check_auth (ah : EST_HTTP_AUTH_HDR) : M EST_HTTP_AUTH_HDR_RESULT :=
  if bool_decide (ah_mode ah = AUTH_DIGEST)
     && (negb (bool_decide (is_Some (ah_uri ah))) || negb (bool_decide (is_Some (ah_nonce ah)))
         || negb (bool_decide (is_Some (ah_nc ah))) || negb (bool_decide (is_Some (ah_cnonce ah))))
  then mret EST_AUTH_HDR_BAD
  else match ah_user ah with
       | None => if bool_decide (ah_mode ah = AUTH_TOKEN) then mret EST_AUTH_HDR_GOOD
                 else mret EST_AUTH_HDR_BAD
       | Some user =>
           if bool_decide (ah_mode ah = AUTH_TOKEN) then mret EST_AUTH_HDR_GOOD
           else
             conn ← get_conn;
             let '(_, uid) := strcpy_s (replicate (Z.to_nat MG_UID_MAX) 0) MG_UID_MAX
                                (Some user) in
             _ ← put_conn (set_c_user_id (cstr uid) conn);
             mret EST_AUTH_HDR_GOOD
       end.

(** Parse with one of the parsers above; a NULL [ah] is dereferenced. *)
Definition mg_parse_with (parse : bytes -> EST_HTTP_AUTH_HDR -> M EST_HTTP_AUTH_HDR)
    (auth_header : bytes) (ah : option EST_HTTP_AUTH_HDR)
    : M (EST_HTTP_AUTH_HDR_RESULT * option EST_HTTP_AUTH_HDR) :=
  match ah with
  | None => null_deref
  | Some a => a' ← parse auth_header a; pr ← mg_check_auth a'; mret (pr, Some a')
  end.

Definition mg_parse_auth_header (ah : option EST_HTTP_AUTH_HDR)
    : M (EST_HTTP_AUTH_HDR_RESULT * option EST_HTTP_AUTH_HDR) :=
  ctx ← get_ctx;
  hdr ← mg_get_header (lit "Authorization");
  match hdr with
  | None => mret (EST_AUTH_HDR_MISSING, ah)
  | Some auth_header =>
    if mg_strncasecmp auth_header (lit "Digest ") 7 =? 0 then
      if negb (bool_decide (auth_mode ctx = AUTH_DIGEST)) then mret (EST_AUTH_HDR_BAD, ah)
      else mg_parse_with mg_parse_auth_hdr_digest auth_header ah
    else if mg_strncasecmp auth_header (lit "Basic ") 6 =? 0 then
      if negb (bool_decide (auth_mode ctx = AUTH_BASIC)) then mret (EST_AUTH_HDR_BAD, ah)
      else mg_parse_with mg_parse_auth_hdr_basic auth_header ah
    else if mg_strncasecmp auth_header EST_BEARER_TOKEN_STR (length EST_BEARER_TOKEN_STR) =? 0 then
      if negb (bool_decide (auth_mode ctx = AUTH_TOKEN)) then mret (EST_AUTH_HDR_BAD, ah)
      else mg_parse_with mg_parse_auth_hdr_token auth_header ah
    else match ah with
         | None => null_deref
         | Some a => mret (EST_AUTH_HDR_BAD, Some (set_ah_mode a AUTH_FAIL))
         end
  end.

End HttpAuth.
