(* ===== verification/ServerAuth.v ===== *)
(** * ServerAuth: client authentication and CSR checks (est_server.c)

    [check_for_TLS_cert_auth], [handle_enhanced_cert_auth], [est_enroll_auth]
    and [est_brski_auth]; the CSR parser, the signature check
    [est_server_check_csr], the proof of possession [est_tls_uid_auth] and the
    RA test [est_check_cmcRA]; and the event notifications of the server. *)

From S2P Require Import Prelude.
From S2P Require Import SafeC.
From S2P Require Import EstTypes.
From S2P Require Import EstState.
From S2P Require Import EstUtil.
From S2P Require Import HttpParse.
From S2P Require Import HttpIO.
From S2P Require Import EnhCertAuth.
From S2P Require Import HttpAuth.

Section ServerAuth.
Context {L : OpenSSL}.

(** ** Event notifications *)

Definition est_invoke_enroll_auth_result_event_cb (peer_cert : option X509)
    (path_seg : option bytes) (enroll_req : EST_ENROLL_REQ_TYPE)
    (enh_auth_result : EST_HTTP_AUTH_HDR_RESULT) (rv : EST_AUTH_STATE) : M unit :=
  ctx ← get_ctx;
  if enroll_auth_result_event_cb ctx then
    let enh_auth_ts_state := match enh_auth_result with
                             | EST_AUTH_HDR_GOOD => EST_ENHANCED_AUTH_TS_VALIDATED
                             | _ => EST_ENHANCED_AUTH_TS_NOT_VALIDATED
                             end in
    emit (EvAuthResult peer_cert path_seg enroll_req enh_auth_ts_state rv)
  else mret tt.

(** ** est_server_parse_csr, est_server_check_csr *)

(** [pkcs10] is NULL when the request has no body. *)
Definition est_server_parse_csr (pkcs10 : option bytes) (base64_decode : EST_CSR_BASE64_DECODE)
    : M (option X509_REQ) :=
  match pkcs10 with
  | None => mret None
  | Some buf =>
    bio ← alloc;
    if negb bio then mret None else
    match base64_decode with
    | EST_CSR_DECODE =>
        b64 ← alloc;
        if negb b64 then mret None else mret (d2i_X509_REQ_bio true buf)
    | EST_CSR_DECODE_BYPASS => mret (d2i_X509_REQ_bio false buf)
    end
  end.

(** 0 for success. *)
Definition est_server_check_csr (req : X509_REQ) : Z :=
  match X509_REQ_get_pubkey req with
  | None => 1
  | Some pub_key =>
      let rc := X509_REQ_verify req pub_key in
      if rc <? 0 then 1 else if rc =? 0 then 1 else 0
  end.

(** The subject fields handed to the event callbacks. *)
Definition est_invoke_enroll_get_subjs (peer_cert : option X509) (csr_x509 : X509_REQ)
    : M (EST_ERROR * bytes * bytes) :=
  '(rc1, id_cert_subj) ←
    match peer_cert with
    | Some peer => est_get_subj_fld_from_cert (X509_get_subject_name peer) [] EST_MAX_CERT_SUBJ_LEN
    | None => mret (EST_ERR_NONE, [])
    end;
  if negb (bool_decide (rc1 = EST_ERR_NONE)) then mret (rc1, id_cert_subj, []) else
  '(rc2, csr_subj) ← est_get_subj_fld_from_cert (X509_REQ_get_subject_name csr_x509) []
                       EST_MAX_CERT_SUBJ_LEN;
  if negb (bool_decide (rc2 = EST_ERR_NONE)) then mret (rc2, id_cert_subj, csr_subj) else
  if (bool_decide (is_Some peer_cert) && bool_decide (id_cert_subj = []))
     || bool_decide (csr_subj = [])
  then mret (EST_ERR_UNKNOWN, id_cert_subj, csr_subj)
  else mret (EST_ERR_NONE, id_cert_subj, csr_subj).

Definition event_decode_mode (ctx : EST_CTX) : EST_CSR_BASE64_DECODE :=
  match transport_mode ctx with EST_HTTP => EST_CSR_DECODE | _ => EST_CSR_DECODE_BYPASS end.

(** The address and port of the peer, which [getpeername] reports, are not part
    of the events of the model. *)
Definition est_invoke_enroll_req_event_cb (peer_cert : option X509) (csr_buf : option bytes)
    (path_seg : option bytes) (enroll_req : EST_ENROLL_REQ_TYPE) : M EST_ERROR :=
  ctx ← get_ctx;
  if enroll_req_event_cb ctx then
    csr_x509 ← est_server_parse_csr csr_buf (event_decode_mode ctx);
    match csr_x509 with
    | None => mret EST_ERR_UNKNOWN
    | Some csr =>
        '(_, id_cert_subj, csr_subj) ← est_invoke_enroll_get_subjs peer_cert csr;
        _ ← emit (EvEnrollReqEvent id_cert_subj peer_cert csr_subj path_seg enroll_req);
        mret EST_ERR_NONE
    end
  else mret EST_ERR_NONE.

Definition est_invoke_enroll_rsp_event_cb (peer_cert : option X509) (csr_buf : option bytes)
    (path_seg : option bytes) (enroll_req : EST_ENROLL_REQ_TYPE) (returned_cert : option bytes)
    (rc : Z) : M EST_ERROR :=
  ctx ← get_ctx;
  if enroll_rsp_event_cb ctx then
    csr_x509 ← est_server_parse_csr csr_buf (event_decode_mode ctx);
    match csr_x509 with
    | None => mret EST_ERR_UNKNOWN
    | Some csr =>
        '(_, id_cert_subj, csr_subj) ← est_invoke_enroll_get_subjs peer_cert csr;
        _ ← emit (EvEnrollRspEvent id_cert_subj peer_cert csr_subj returned_cert path_seg
                    enroll_req rc);
        mret EST_ERR_NONE
    end
  else mret EST_ERR_NONE.

Definition est_invoke_endpoint_req_event_cb (peer_cert : option X509) (uri : bytes)
    (event_type : EST_ENDPOINT_EVENT_TYPE) : M unit :=
  ctx ← get_ctx;
  if endpoint_req_event_cb ctx then
    id_cert_subj ←
      match peer_cert with
      | Some peer =>
          '(_, subj) ← est_get_subj_fld_from_cert (X509_get_subject_name peer) []
                         EST_MAX_CERT_SUBJ_LEN;
          mret subj
      | None => mret []
      end;
    emit (EvEndpoint id_cert_subj peer_cert uri event_type)
  else mret tt.

(** ** TLS client authentication *)

(** [None] stops the authentication: the client presented a bad certificate. *)
Definition check_for_TLS_cert_auth (ssl : SSL) : bool * option X509 * EST_AUTH_STATE :=
  match SSL_get_peer_certificate ssl with
  | Some peer =>
      let v_result := wrap_s 32 (SSL_get_verify_result ssl) in
      if X509_V_OK =? v_result then (true, Some peer, EST_CERT_AUTH)
      else if X509_V_ERR_UNABLE_TO_GET_CRL =? v_result then (true, Some peer, EST_CERT_AUTH)
      else (false, None, EST_UNAUTHORIZED)
  | None => (true, None, EST_UNAUTHORIZED)
  end.

(** The state after the test for SRP. *)
Definition srp_auth (ssl : SSL) (rv : EST_AUTH_STATE) : EST_AUTH_STATE :=
  if negb (bool_decide (rv = EST_CERT_AUTH)) && bool_decide (is_Some (SSL_get_srp_username ssl))
  then EST_SRP_AUTH else rv.

(** ** Enhanced certificate authentication *)

(** The result, [*csr_p] and the header. *)
Definition handle_enhanced_cert_auth (ssl : SSL) (peer : X509) (csr_buf : option bytes)
    (csr_p : option X509_REQ) (ah : option EST_HTTP_AUTH_HDR)
    (csr_check_flag : EST_ECA_CSR_CHECK_FLAG)
    : M (EST_HTTP_AUTH_HDR_RESULT * option X509_REQ * option EST_HTTP_AUTH_HDR) :=
  ctx ← get_ctx;
  match SSL_get_peer_cert_chain ssl with
  | None => mret (EST_AUTH_ECA_ERR, csr_p, ah)
  | Some peer_chain =>
    let '(err_code, mfg_index) := est_enhcd_cert_auth_get_mfg ctx peer peer_chain in
    if (err_code =? est_err_num EST_ERR_NONE) || (err_code =? est_err_num EST_ERR_VALIDATION) then
      '(auth_hdr_res, csr_p') ←
        match csr_check_flag with
        | ECA_CSR_CHECK_ON =>
            csr ← est_server_parse_csr csr_buf EST_CSR_DECODE;
            match csr with
            | None => mret (EST_AUTH_ECA_CSR_PARSE_FAIL, None)
            | Some c =>
                match perform_enhanced_cert_auth_csr_check ctx peer c mfg_index with
                | None => null_deref
                | Some r => mret (r, Some c)
                end
            end
        | ECA_CSR_CHECK_OFF => mret (EST_AUTH_HDR_GOOD, csr_p)
        end;
      if bool_decide (auth_hdr_res = EST_AUTH_HDR_GOOD) then
        if 0 <=? mfg_index then
          match enchd_cert_mfgs_info_list ctx with
          | Some l =>
              match l !! Z.to_nat mfg_index with
              | Some mfg_info =>
                  '(r, ah') ← build_enhanced_cert_auth_header ah peer (mfg_nid mfg_info);
                  mret (r, csr_p', ah')
              | None => null_deref
              end
          | None => null_deref
          end
        else
          '(r, ah') ← build_enhanced_cert_auth_header ah peer (enhcd_cert_local_pki_nid ctx);
          mret (r, csr_p', ah')
      else mret (auth_hdr_res, csr_p', ah)
    else mret (EST_AUTH_HDR_BAD, csr_p, ah)
  end.

(** The application's decision on the credentials; a NULL header reaches the
    callback only when no header was built, which the callers exclude. *)
Definition call_http_auth_cb (ah : option EST_HTTP_AUTH_HDR) (peer : option X509)
    (path_seg : option bytes) : M bool :=
  ctx ← get_ctx;
  match est_http_auth_cb ctx, ah with
  | Some cb, Some a =>
      tr ← get_trace;
      _ ← emit (EvHttpAuthCb a peer path_seg);
      mret (cb tr a peer path_seg)
  | _, _ => null_deref
  end.

(** ** est_enroll_auth *)

(** The credentials: enhanced certificate authentication when it is enabled and
    the client has a certificate, the Authorization header otherwise. *)
Definition enroll_auth_header (ctx : EST_CTX) (ssl : SSL) (peer : option X509)
    (csr_buf : option bytes) (csr_p : option X509_REQ) (ah : option EST_HTTP_AUTH_HDR)
    (csr_check : EST_ECA_CSR_CHECK_FLAG) (rv : EST_AUTH_STATE)
    : M (EST_HTTP_AUTH_HDR_RESULT * option X509_REQ * option EST_HTTP_AUTH_HDR) :=
  if enhanced_cert_auth_enabled ctx && bool_decide (rv = EST_CERT_AUTH) then
    match peer with
    | None => null_deref
    | Some p => handle_enhanced_cert_auth ssl p csr_buf csr_p ah csr_check
    end
  else '(pr, ah') ← mg_parse_auth_header ah; mret (pr, csr_p, ah').

(** The HTTP part: the new state, the header result and the cached CSR. *)
Definition enroll_auth_http (ssl : SSL) (peer : option X509) (path_seg : option bytes)
    (enroll_req : EST_ENROLL_REQ_TYPE) (csr_buf : option bytes) (rv : EST_AUTH_STATE)
    : M (EST_AUTH_STATE * EST_HTTP_AUTH_HDR_RESULT * option X509_REQ) :=
  ctx ← get_ctx;
  ah ← est_create_ah;
  '(pr, csr, ah') ← enroll_auth_header ctx ssl peer csr_buf None ah
                      (enhanced_cert_auth_csr_check ctx) rv;
  match pr with
  | EST_AUTH_HDR_GOOD =>
      ok ← call_http_auth_cb ah' peer path_seg;
      mret (if ok : bool then EST_HTTP_AUTH else EST_UNAUTHORIZED, pr, csr)
  | EST_AUTH_HDR_MISSING =>
      _ ← mg_send_authorization_request; mret (EST_HTTP_AUTH_PENDING, pr, csr)
  | EST_AUTH_ECA_CSR_CHECK_FAIL => mret (EST_UNAUTHORIZED, pr, csr)
  | EST_AUTH_ECA_CSR_PARSE_FAIL => mret (EST_CSR_PARSE_FAIL, pr, csr)
  | EST_AUTH_ECA_ERR => mret (EST_UNAUTHORIZED, pr, csr)
  | EST_AUTH_HDR_BAD =>
      if enroll_req_true enroll_req && bool_decide (rv = EST_CERT_AUTH)
      then mret (rv, pr, csr) else mret (EST_UNAUTHORIZED, pr, csr)
  end.

(** The CoAP part. *)
Definition enroll_auth_coap (ssl : SSL) (peer : option X509) (path_seg : option bytes)
    (csr_buf : option bytes) (rv : EST_AUTH_STATE)
    : M (EST_AUTH_STATE * EST_HTTP_AUTH_HDR_RESULT * option X509_REQ) :=
  ctx ← get_ctx;
  if negb (bool_decide (rv = EST_CERT_AUTH)) then mret (EST_UNAUTHORIZED, EST_AUTH_ECA_ERR, None)
  else if enhanced_cert_auth_enabled ctx then
    if bool_decide (default [] csr_buf = []) then mret (EST_CSR_PARSE_FAIL, EST_AUTH_ECA_ERR, None)
    else
      ah ← est_create_ah;
      '(pr, csr, ah') ← match peer with
                        | None => null_deref
                        | Some p => handle_enhanced_cert_auth ssl p csr_buf None ah
                                      (enhanced_cert_auth_csr_check ctx)
                        end;
      match pr with
      | EST_AUTH_HDR_GOOD =>
          ok ← call_http_auth_cb ah' peer path_seg;
          mret (if ok : bool then EST_HTTP_AUTH else EST_UNAUTHORIZED, pr, csr)
      | EST_AUTH_ECA_CSR_PARSE_FAIL => mret (EST_CSR_PARSE_FAIL, pr, csr)
      | _ => mret (EST_UNAUTHORIZED, pr, csr)
      end
  else mret (rv, EST_AUTH_ECA_ERR, None).

(** The result and the CSR parsed on the way, if it was. *)
Definition est_enroll_auth (ssl : SSL) (path_seg : option bytes)
    (enroll_req : EST_ENROLL_REQ_TYPE) (csr_buf : option bytes)
    : M (EST_AUTH_STATE * option X509_REQ) :=
  ctx ← get_ctx;
  let '(continue, peer, rv0) := check_for_TLS_cert_auth ssl in
  '(rv, pr, csr) ←
    (if negb continue then mret (rv0, EST_AUTH_ECA_ERR, None)
     else
       let rv1 := srp_auth ssl rv0 in
       if bool_decide (transport_mode ctx = EST_HTTP)
          && bool_decide (is_Some (est_http_auth_cb ctx))
          && (bool_decide (rv1 = EST_UNAUTHORIZED)
              || bool_decide (HTTP_AUTH_REQUIRED = require_http_auth ctx))
       then enroll_auth_http ssl peer path_seg enroll_req csr_buf rv1
       else if bool_decide (transport_mode ctx = EST_COAP)
       then enroll_auth_coap ssl peer path_seg csr_buf rv1
       else mret (rv1, EST_AUTH_ECA_ERR, None));
  _ ← est_invoke_enroll_auth_result_event_cb peer path_seg enroll_req pr rv;
  mret (rv, csr).

(** ** est_brski_auth *)

Definition brski_auth_http (ssl : SSL) (peer : option X509) (path_seg : option bytes)
    (rv : EST_AUTH_STATE) : M (EST_AUTH_STATE * EST_HTTP_AUTH_HDR_RESULT) :=
  ctx ← get_ctx;
  ah ← est_create_ah;
  '(pr, _, ah') ← enroll_auth_header ctx ssl peer None None ah ECA_CSR_CHECK_OFF rv;
  match pr with
  | EST_AUTH_HDR_GOOD =>
      ok ← call_http_auth_cb ah' peer path_seg;
      mret (if ok : bool then EST_HTTP_AUTH else EST_UNAUTHORIZED, pr)
  | EST_AUTH_HDR_MISSING =>
      _ ← mg_send_authorization_request; mret (EST_HTTP_AUTH_PENDING, pr)
  | _ => mret (EST_UNAUTHORIZED, pr)
  end.

Definition brski_auth_coap (ssl : SSL) (peer : option X509) (path_seg : option bytes)
    (rv : EST_AUTH_STATE) : M (EST_AUTH_STATE * EST_HTTP_AUTH_HDR_RESULT) :=
  ctx ← get_ctx;
  if negb (bool_decide (rv = EST_CERT_AUTH)) then mret (EST_UNAUTHORIZED, EST_AUTH_ECA_ERR)
  else if enhanced_cert_auth_enabled ctx then
    ah ← est_create_ah;
    '(pr, _, ah') ← match peer with
                    | None => null_deref
                    | Some p => handle_enhanced_cert_auth ssl p None None ah ECA_CSR_CHECK_OFF
                    end;
    match pr with
    | EST_AUTH_HDR_GOOD =>
        ok ← call_http_auth_cb ah' peer path_seg;
        mret (if ok : bool then rv else EST_UNAUTHORIZED, pr)
    | _ => mret (EST_UNAUTHORIZED, pr)
    end
  else mret (rv, EST_AUTH_ECA_ERR).

Definition est_brski_auth (ssl : SSL) (path_seg : option bytes) : M EST_AUTH_STATE :=
  ctx ← get_ctx;
  let '(continue, peer, rv0) := check_for_TLS_cert_auth ssl in
  '(rv, pr) ←
    (if negb continue then mret (rv0, EST_AUTH_ECA_ERR)
     else
       let rv1 := srp_auth ssl rv0 in
       if bool_decide (transport_mode ctx = EST_HTTP)
          && bool_decide (is_Some (est_http_auth_cb ctx))
          && (bool_decide (rv1 = EST_UNAUTHORIZED)
              || bool_decide (HTTP_AUTH_REQUIRED = require_http_auth ctx))
       then brski_auth_http ssl peer path_seg rv1
       else if bool_decide (transport_mode ctx = EST_COAP)
       then brski_auth_coap ssl peer path_seg rv1
       else mret (rv1, EST_AUTH_ECA_ERR));
  _ ← est_invoke_enroll_auth_result_event_cb peer path_seg SIMPLE_ENROLL_REQ pr rv;
  mret rv.

(** ** Proof of possession *)

Definition est_check_cmcRA (cert : X509) : bool :=
  match X509_get_ext_key_usage cert with
  | None => false
  | Some extusage => existsb (fun obj => OBJ_cmp obj o_cmcRA =? 0) extusage
  end.

(** The value of the challengePassword is looked at without a check: a set without a
    value is a NULL dereference at [at->value], and a value that is no string one at
    [bs->data].  (The comparison is over the length of the channel binding, not of the
    value; a shorter value is read up to the NUL the library stores behind it, and a
    channel binding has no NUL.) *)
Definition est_tls_uid_auth (ssl : SSL) (req : X509_REQ) : M EST_ERROR :=
  ctx ← get_ctx;
  let i := X509_REQ_get_attr_by_NID req NID_pkcs9_challengePassword (-1) in
  if i <? 0 then
    if server_enable_pop ctx then mret EST_ERR_AUTH_FAIL_TLSUID else mret EST_ERR_NONE
  else
    match X509_REQ_get_attr req i with
    | None => mret EST_ERR_AUTH_FAIL_TLSUID
    | Some attr =>
        match X509_ATTRIBUTE_get0_type attr 0 with
        | None => null_deref
        | Some bs =>
            tls_uid ← est_get_tls_uid ssl false;
            match tls_uid, bs with
            | None, _ => mret EST_ERR_AUTH_FAIL_TLSUID
            | Some _, ASN1_TYPE_no_string => null_deref
            | Some uid, ASN1_TYPE_string data =>
                let uid_len := Z.of_nat (length uid) in
                let '(rc, diff) := memcmp_s (Some uid) uid_len data uid_len 1 in
                if (rc =? EOK) && (diff =? 0) then mret EST_ERR_NONE
                else mret EST_ERR_AUTH_FAIL_TLSUID
            end
        end
    end.

End ServerAuth.
