(* ===== verification/ServerCsr.v ===== *)
(** * ServerCsr: CSR attributes (est.c, est_server.c)

    The sanity test of the configured attributes, the search for and addition of
    the challengePassword attribute (est.c), and the check that a CSR carries
    every attribute the server requires, with the recursive walk over the CSR's
    ASN.1 (est_server.c).

    The ASN.1 reader of the TLS library is the parameter [ASN1_get_object].  The
    loops of this file run with fuel; [EST_ERR_LAST] and a return value of -1,
    which the code never returns, mark a loop that ran out of it. *)

From S2P Require Import Prelude.
From S2P Require Import SafeC.
From S2P Require Import EstTypes.
From S2P Require Import EstState.
From S2P Require Import EstUtil.

(** The DER encoding of the challengePassword OID. *)
Definition hex_chpw : bytes := [6; 9; 42; 134; 72; 134; 247; 13; 1; 9; 7].

Definition EST_CSRATTRS_POP : bytes := lit "MAsGCSqGSIb3DQEJBw==".
Definition EST_CSRATTRS_POP_LEN : Z := 20.

(** What ASN1_get_object sets in its result for a malformed header. *)
Definition asn1_error (j : Z) : bool := negb (Z.land j 128 =? 0).
Definition asn1_constructed (j : Z) : bool := negb (Z.land j V_ASN1_CONSTRUCTED =? 0).

Section ServerCsr.
Context {L : OpenSSL}.

(** ** est_asn1_sanity_test *)

(** The loop at offset [string]: the error, [*pop_present] and [max_len]. *)
Fixpoint sanity_loop (fuel : nat) (data : bytes) (string out_len_save : Z) (pop : bool)
    (max_len : Z) : EST_ERROR * bool * Z :=
  match fuel with
  | O => (EST_ERR_LAST, pop, max_len)
  | S f =>
    let out_len := out_len_save - string in
    if out_len >? 0 then
      let cur := drop (Z.to_nat string) data in
      let '(j, hl, len, tag, _) := ASN1_get_object cur out_len in
      if asn1_error j then (EST_ERR_BAD_ASN1_HEX, pop, max_len)
      else if tag =? V_ASN1_OBJECT then
        match d2i_ASN1_OBJECT cur out_len with
        | Some (a_object, used) =>
            if OBJ_obj2nid a_object =? NID_pkcs9_challengePassword
            then sanity_loop f data (string + used) out_len_save true MAX_CSRATTRS_WITHPOP
            else sanity_loop f data (string + used) out_len_save pop max_len
        | None => sanity_loop f data (string + hl) out_len_save pop max_len
        end
      else if (tag =? V_ASN1_SET) || (tag =? V_ASN1_SEQUENCE)
      then sanity_loop f data (string + hl) out_len_save pop max_len
      else sanity_loop f data (string + hl + len) out_len_save pop max_len
    else if negb (out_len =? 0) then (EST_ERR_BAD_ASN1_HEX, pop, max_len)
    else (EST_ERR_NONE, pop, max_len)
  end.

Definition est_asn1_sanity_test (string : bytes) (out_len : Z) : EST_ERROR * bool :=
  if out_len <? MIN_ASN1_CSRATTRS then (EST_ERR_BAD_ASN1_HEX_TOO_SHORT, false)
  else
    let '(rv, pop, max_len) := sanity_loop (S (Z.to_nat out_len)) string 0 out_len false
                                 MAX_CSRATTRS in
    if negb (bool_decide (rv = EST_ERR_NONE)) then (rv, pop)
    else if out_len >? max_len then (EST_ERR_BAD_ASN1_HEX_TOO_LONG, pop)
    else (EST_ERR_NONE, pop).

(** ** est_asn1_parse_attributes, est_is_challengePassword_present *)

(** The error and [*pop_present], which is left as it was ([pop]) when the
    attributes cannot be decoded. *)
Definition est_asn1_parse_attributes (p : option bytes) (len : Z) (pop : bool)
    : M (EST_ERROR * bool) :=
  if len <? MIN_CSRATTRS then mret (EST_ERR_INVALID_PARAMETERS, pop) else
  der_ptr ← alloc;
  if negb der_ptr then mret (EST_ERR_MALLOC, pop) else
  match p with
  | None => null_deref
  | Some d =>
      '(der_len, der) ← est_base64_decode d (len * 2);
      if der_len <=? 0 then mret (EST_ERR_BAD_BASE64, pop)
      else mret (est_asn1_sanity_test der der_len)
  end.

Definition est_is_challengePassword_present (base64_ptr : option bytes) (b64_len : Z)
    : M (EST_ERROR * bool) :=
  match base64_ptr with
  | None => mret (EST_ERR_NONE, false)
  | Some _ => if b64_len =? 0 then mret (EST_ERR_NONE, false)
              else est_asn1_parse_attributes base64_ptr b64_len false
  end.

(** ** est_add_challengePassword *)

(** The new DER: the contents [rest] of the old sequence and the
    challengePassword OID behind a sequence header of two, three or four bytes. *)
Definition add_chpw (rest : bytes) : bytes :=
  let content := Z.of_nat (length rest) + Z.of_nat (length hex_chpw) in
  let header :=
    if content >=? 256 then
      let new_len := content + 4 in
      [48; 130; wrap_u 8 (Z.shiftr (new_len - 4) 8); wrap_u 8 (Z.land (new_len - 4) 255)]
    else if content >=? 128 then
      let new_len := content + 3 in [48; 129; wrap_u 8 (new_len - 3)]
    else
      let new_len := content + 2 in [48; wrap_u 8 (new_len - 2)] in
  header ++ rest ++ hex_chpw.

(** The error and the new base64 text. *)
Definition est_add_challengePassword (base64_ptr : bytes) (b64_len : Z)
    : M (EST_ERROR * bytes) :=
  der_ptr ← alloc;
  if negb der_ptr then mret (EST_ERR_MALLOC, []) else
  '(der_len, der) ← est_base64_decode base64_ptr (b64_len * 2);
  if der_len <=? 0 then mret (EST_ERR_MALLOC, []) else
  let '(_, hl, _, tag, _) := ASN1_get_object der der_len in
  if negb (tag =? V_ASN1_SEQUENCE) then mret (EST_ERR_BAD_ASN1_HEX, []) else
  let rest := take (Z.to_nat (der_len - hl)) (drop (Z.to_nat hl) der) in
  let new_der := add_chpw rest in
  let new_len := Z.of_nat (length new_der) in
  ok ← alloc;
  if negb ok then mret (EST_ERR_MALLOC, []) else
  csrattrs ← alloc;
  if negb csrattrs then mret (EST_ERR_MALLOC, []) else
  enc ← est_base64_encode new_der (new_len * 2) false;
  if enc_ret enc <=? 0 then mret (EST_ERR_BAD_BASE64, [])
  else mret (EST_ERR_NONE, cstr (enc_dst enc)).

(** ** est_server_csr_asn1_parse *)

(** The attribute list of a CSR: [None] when it was freed while the caller still
    holds its head. *)
Abbreviation oid_list := (option (list bytes)).

(** The result of a walk: the return value, [*blob] and the list. *)
Abbreviation walk := (Z -> Z -> oid_list -> M (Z * Z * oid_list)).

Definition est_server_add_oid_to_list (l : oid_list) (new_entry : bytes) : oid_list :=
  match l with Some x => Some (x ++ [new_entry]) | None => None end.

Definition oid_text (a_object : ASN1_OBJECT) : bytes :=
  cstr (take (Z.to_nat (EST_MAX_ATTR_LEN - 1)) (i2t_ASN1_OBJECT a_object)).

(** The contents of a constructed element, up to [ep]. *)
Fixpoint asn1_contents (n : nat) (parse : walk) (ptr ep len : Z) (l : oid_list)
    : M (Z * Z * oid_list) :=
  match n with
  | O => mret (-1, ptr, l)
  | S n' =>
    if ptr <? ep then
      '(r, ptr', l') ← parse ptr len l;
      if r <=? 0 then mret (r, ptr', l') else asn1_contents n' parse ptr' ep len l'
    else mret (1, ptr, l)
  end.

(** The outer loop.  [op] is the start of the previous element. *)
Fixpoint asn1_elements (n : nat) (parse : walk) (data : bytes) (ptr op tot length : Z)
    (l : oid_list) : M (Z * Z * oid_list) :=
  match n with
  | O => mret (-1, ptr, l)
  | S n' =>
    if (ptr <? tot) && (op <? ptr) then
      let op := ptr in
      let cur := drop (Z.to_nat op) data in
      let '(j, hl, len, tag, xclass) := ASN1_get_object cur length in
      if asn1_error j then mret (0, op + hl, l) else
      let ptr := op + hl in
      let length := length - hl in
      if asn1_constructed j then
        let ep := ptr + len in
        if len >? length then mret (0, ptr, l)
        else if (j =? 33) && (len =? 0) then
          '(r, ptr', l') ← parse ptr (tot - ptr) l;
          if r <=? 0 then mret (r, ptr', l')
          else if (r =? 2) || (tot <=? ptr') then mret (1, ptr', l')
          else asn1_elements n' parse data ptr' op tot (length - len) l'
        else
          '(r, ptr', l') ← asn1_contents (S (Z.to_nat len)) parse ptr ep len l;
          if r <=? 0 then mret (r, ptr', l')
          else asn1_elements n' parse data ptr' op tot (length - len) l'
      else if negb (xclass =? 0) then
        asn1_elements n' parse data (ptr + len) op tot (length - len) l
      else
        let next l :=
          if tag =? V_ASN1_EOC then mret (2, ptr + len, l)
          else asn1_elements n' parse data (ptr + len) op tot (length - len) l in
        if tag =? V_ASN1_OBJECT then
          match d2i_ASN1_OBJECT cur (len + hl) with
          | Some (a_object, _) =>
              new_entry ← alloc;
              if negb new_entry then
                mret (0, ptr, match l with Some (_ :: _) => None | _ => l end)
              else next (est_server_add_oid_to_list l (oid_text a_object))
          | None => mret (0, ptr, l)
          end
        else next l
    else mret (1, ptr, l)
  end.

Fixpoint est_server_csr_asn1_parse (fuel : nat) (data : bytes) (blob length : Z) (l : oid_list)
    : M (Z * Z * oid_list) :=
  match fuel with
  | O => mret (-1, blob, l)
  | S f => asn1_elements (S (Z.to_nat length)) (est_server_csr_asn1_parse f data) data
             blob (blob - 1) (blob + length) length l
  end.

(** The error and the list.  On failure the list is freed; freeing it a second
    time is undefined. *)
Definition est_server_build_csr_oid_list (body : bytes) (body_len : Z)
    : M (EST_ERROR * list bytes) :=
  ok ← alloc;
  if negb ok then mret (EST_ERR_MALLOC, []) else
  '(der_len, der_data) ← est_base64_decode body (body_len * 2);
  if der_len <=? 0 then mret (EST_ERR_BAD_BASE64, []) else
  '(rv, _, l) ← est_server_csr_asn1_parse (S (Z.to_nat der_len)) der_data 0 der_len (Some []);
  match l with
  | None => null_deref
  | Some x => if rv =? -1 then mret (EST_ERR_LAST, [])
              else if rv =? 0 then mret (EST_ERR_UNKNOWN, []) else mret (EST_ERR_NONE, x)
  end.

(** ** est_server_all_csrattrs_present *)

(** The search for one attribute in the CSR's list. *)
Fixpoint oid_search (tbuf : bytes) (oids : list bytes) : EST_ERROR * bool :=
  match oids with
  | [] => (EST_ERR_NONE, false)
  | oid :: r =>
      let '(rc, comparator) := strcmp_s (Some oid) EST_MAX_ATTR_LEN (Some tbuf) 1 in
      if negb (rc =? EOK) then (EST_ERR_UNKNOWN, false)
      else if comparator =? 0 then (EST_ERR_NONE, true) else oid_search tbuf r
  end.

(** The loop over the server's attributes at offset [der_ptr]. *)
Fixpoint csrattrs_loop (fuel : nat) (data : bytes) (der_ptr out_len_save : Z)
    (csr_attr_oids : list bytes) : EST_ERROR :=
  match fuel with
  | O => EST_ERR_LAST
  | S f =>
    let out_len := out_len_save - der_ptr in
    if out_len >? 0 then
      let cur := drop (Z.to_nat der_ptr) data in
      let '(j, hl, len, tag, _) := ASN1_get_object cur out_len in
      if asn1_error j then EST_ERR_BAD_ASN1_HEX
      else if tag =? V_ASN1_OBJECT then
        match d2i_ASN1_OBJECT cur out_len with
        | None => EST_ERR_UNKNOWN
        | Some (a_object, used) =>
            if OBJ_obj2nid a_object =? NID_pkcs9_challengePassword
            then csrattrs_loop f data (der_ptr + used) out_len_save csr_attr_oids
            else if bool_decide (csr_attr_oids = []) then EST_ERR_CSR_ATTR_MISSING
            else match oid_search (oid_text a_object) csr_attr_oids with
                 | (EST_ERR_NONE, true) =>
                     csrattrs_loop f data (der_ptr + used) out_len_save csr_attr_oids
                 | (EST_ERR_NONE, false) => EST_ERR_CSR_ATTR_MISSING
                 | (e, _) => e
                 end
        end
      else if (tag =? V_ASN1_SET) || (tag =? V_ASN1_SEQUENCE)
      then csrattrs_loop f data (der_ptr + hl) out_len_save csr_attr_oids
      else csrattrs_loop f data (der_ptr + hl + len) out_len_save csr_attr_oids
    else if negb (out_len =? 0) then EST_ERR_BAD_ASN1_HEX
    else EST_ERR_NONE
  end.

(** The server's attributes: the application's, or a copy of the local ones. *)
Definition configured_csrattrs (peer_cert : option X509) : M (EST_ERROR * bytes * Z) :=
  ctx ← get_ctx;
  match est_get_csr_cb ctx with
  | Some cb =>
      tr ← get_trace;
      _ ← emit (EvCsrCb None peer_cert);
      let '(csr_data, csr_len) := cb tr None peer_cert in
      match csr_data with
      | None => mret (EST_ERR_CB_FAILED, [], csr_len)
      | Some d => mret (EST_ERR_NONE, d, csr_len)
      end
  | None =>
      let attrs := default [] (server_csrattrs ctx) in
      ok ← alloc;
      if negb ok then mret (EST_ERR_MALLOC, [], 0) else
      let server_csrattrs_len := Z.of_nat (length attrs) in
      let '(rc, csr_data) := strcpy_s (replicate (S (length attrs)) 0) (server_csrattrs_len + 1)
                               (Some attrs) in
      if negb (rc =? EOK) then mret (EST_ERR_UNKNOWN, [], 0)
      else mret (EST_ERR_NONE, <[length attrs := 0]> csr_data, server_csrattrs_len)
  end.

Definition est_server_all_csrattrs_present (body : bytes) (body_len : Z)
    (peer_cert : option X509) : M EST_ERROR :=
  ctx ← get_ctx;
  if bool_decide (server_csrattrs ctx = None) && negb (bool_decide (is_Some (est_get_csr_cb ctx)))
  then mret EST_ERR_NONE else
  '(rv, csr_attr_oids) ← est_server_build_csr_oid_list body body_len;
  if negb (bool_decide (rv = EST_ERR_NONE)) then mret rv else
  '(rv, csr_data, csr_len) ← configured_csrattrs peer_cert;
  if negb (bool_decide (rv = EST_ERR_NONE)) then mret rv else
  if csr_len <? MIN_CSRATTRS then mret EST_ERR_INVALID_PARAMETERS else
  ok ← alloc;
  if negb ok then mret EST_ERR_MALLOC else
  '(der_len, der_data) ← est_base64_decode csr_data (csr_len * 2);
  if der_len <=? 0 then mret EST_ERR_BAD_BASE64 else
  if der_len >? MAX_CSRATTRS then mret EST_ERR_INVALID_PARAMETERS else
  if der_len <? MIN_ASN1_CSRATTRS then mret EST_ERR_INVALID_PARAMETERS else
  mret (csrattrs_loop (S (Z.to_nat der_len)) der_data 0 der_len csr_attr_oids).

End ServerCsr.
