(* ===== verification/ServerEnroll.v ===== *)
(** * ServerEnroll: the request handlers of the server (est_server.c)

    CA certificates, simple enrollment and re-enrollment, server-side key
    generation, CSR attributes, and the BRSKI voucher and status requests.  A
    handler authenticates the client, checks the CSR, calls the application and
    writes the response; it returns an EST_ERROR, which the dispatcher turns into
    an error response.

    A callback's certificate and length are one list of bytes.  [body] is NULL
    when the request has none. *)

From S2P Require Import Prelude.
From S2P Require Import SafeC.
From S2P Require Import EstTypes.
From S2P Require Import EstState.
From S2P Require Import EstUtil.
From S2P Require Import HttpParse.
From S2P Require Import HttpIO.
From S2P Require Import EnhCertAuth.
From S2P Require Import HttpAuth.
From S2P Require Import ServerAuth.
From S2P Require Import ServerCsr.

Definition CT_PKCS10 : bytes := lit "application/pkcs10".

(** [sizeof] of a string literal counts its NUL. *)
Definition sizeof_lit (s : bytes) : Z := Z.of_nat (length s) + 1.

(** The error an authentication state stands for, if the client is refused. *)
Definition auth_error (st : EST_AUTH_STATE) : option EST_ERROR :=
  match st with
  | EST_HTTP_AUTH | EST_SRP_AUTH | EST_CERT_AUTH => None
  | EST_HTTP_AUTH_PENDING => Some EST_ERR_AUTH_PENDING
  | EST_CSR_PARSE_FAIL => Some EST_ERR_BAD_PKCS10
  | EST_UNAUTHORIZED => Some EST_ERR_AUTH_FAIL
  end.

(** The same for the BRSKI handlers, where a CSR parse failure is a default. *)
Definition brski_auth_error (st : EST_AUTH_STATE) : option EST_ERROR :=
  match st with
  | EST_HTTP_AUTH | EST_SRP_AUTH | EST_CERT_AUTH => None
  | EST_HTTP_AUTH_PENDING => Some EST_ERR_AUTH_PENDING
  | _ => Some EST_ERR_AUTH_FAIL
  end.

Section ServerEnroll.
Context {L : OpenSSL}.

(** Header, then body; the error when nothing could be written. *)
Definition send_200 (http_hdr data : bytes) : M EST_ERROR :=
  n ← mg_write http_hdr;
  if n =? 0 then mret EST_ERR_HTTP_WRITE else
  n ← mg_write data;
  if n =? 0 then mret EST_ERR_HTTP_WRITE else mret EST_ERR_NONE.

(** ** CA certificates *)

Definition est_handle_cacerts (ca_certs : option bytes) : M EST_ERROR :=
  match ca_certs with
  | None => mret EST_ERR_HTTP_NOT_FOUND
  | Some certs => send_200 (hdr_200 EST_HTTP_CT_PKCS7 (Z.of_nat (length certs))) certs
  end.

Definition est_server_handle_cacerts (path_seg : option bytes) : M EST_ERROR :=
  ctx ← get_ctx;
  match est_get_cacerts_cb ctx with
  | Some cb =>
      tr ← get_trace;
      _ ← emit (EvCacertsCb path_seg);
      match cb tr path_seg with
      | Some certs =>
          match transport_mode ctx with
          | EST_HTTP => est_handle_cacerts (Some certs)
          | EST_COAP => _ ← put_ctx (set_ca_certs (Some certs) ctx); mret EST_ERR_NONE
          | EST_TRANSPORT_OTHER => mret EST_ERR_BAD_MODE
          end
      | None => mret EST_ERR_HTTP_NO_CONTENT
      end
  | None =>
      match ca_certs ctx with
      | Some _ =>
          match transport_mode ctx with
          | EST_HTTP => est_handle_cacerts (ca_certs ctx)
          | EST_COAP => mret EST_ERR_NONE
          | EST_TRANSPORT_OTHER => mret EST_ERR_BAD_MODE
          end
      | None => mret EST_ERR_HTTP_NO_CONTENT
      end
  end.

(** ** The checks shared by enrollment and key generation *)

(** Does the client's certificate mark it as a registration authority? *)
Definition client_is_ra (peer_cert : option X509) : bool :=
  match peer_cert with Some c => est_check_cmcRA c | None => false end.

(** The proof of possession, which an RA is exempt from. *)
Definition pop_check (ssl : SSL) (peer_cert : option X509) (csr : X509_REQ) : M EST_ERROR :=
  if client_is_ra peer_cert then mret EST_ERR_NONE else est_tls_uid_auth ssl csr.

(** The required attributes. *)
Definition attrs_check (body : bytes) (peer_cert : option X509) : M EST_ERROR :=
  ctx ← get_ctx;
  if enforce_csrattrs ctx
  then est_server_all_csrattrs_present body (Z.of_nat (length body)) peer_cert
  else mret EST_ERR_NONE.

Definition http_user_id : M (option bytes) :=
  ctx ← get_ctx;
  match transport_mode ctx with
  | EST_HTTP => conn ← get_conn; mret (Some (user_id conn))
  | _ => mret None
  end.

(** The content type check, for HTTP only; [ct] may not be NULL there. *)
Definition bad_pkcs10_ct (ct : option bytes) : M bool :=
  ctx ← get_ctx;
  match transport_mode ctx with
  | EST_HTTP => match ct with
                | None => null_deref
                | Some c => mret (negb (strncmp c CT_PKCS10 18 =? 0))
                end
  | _ => mret false
  end.

(** The CSR: the one the authentication parsed, or the body. *)
Definition get_csr (cached : option X509_REQ) (body : option bytes) : M (option X509_REQ) :=
  match cached with
  | Some c => mret (Some c)
  | None => est_server_parse_csr body EST_CSR_DECODE
  end.

(** ** Simple enrollment *)

(** The application's verdict and the response: the error, [*returned_cert]. *)
Definition enroll_response (rv : Z) (cert : bytes) (want_cert : bool)
    : M (EST_ERROR * option bytes) :=
  ctx ← get_ctx;
  if (rv =? est_err_num EST_ERR_NONE) && (0 <? Z.of_nat (length cert)) then
    if negb want_cert then mret (EST_ERR_INVALID_PARAMETERS, None) else
    match transport_mode ctx with
    | EST_HTTP => rc ← send_200 (hdr_200 EST_HTTP_CT_PKCS7_CO (Z.of_nat (length cert))) cert;
                  mret (rc, Some cert)
    | _ => mret (EST_ERR_NONE, Some cert)
    end
  else if rv =? est_err_num EST_ERR_CA_ENROLL_RETRY then mret (EST_ERR_CA_ENROLL_RETRY, None)
  else mret (EST_ERR_CA_ENROLL_FAIL, None).

(** The call of the enrollment callback. *)
Definition call_enroll_cb (reenroll : bool) (body : bytes) (peer_cert : option X509)
    (path_seg : option bytes) : M (Z * bytes) :=
  ctx ← get_ctx;
  user_id ← http_user_id;
  tr ← get_trace;
  if reenroll then
    match est_reenroll_pkcs10_cb ctx with
    | None => null_deref
    | Some cb => _ ← emit (EvReenrollCb body user_id peer_cert path_seg);
                 mret (cb tr body user_id peer_cert path_seg)
    end
  else
    match est_enroll_pkcs10_cb ctx with
    | None => null_deref
    | Some cb => _ ← emit (EvEnrollCb body user_id peer_cert path_seg);
                 mret (cb tr body user_id peer_cert path_seg)
    end.

(** What follows the authentication. *)
Definition simple_enroll_csr (ssl : SSL) (peer_cert : option X509) (body : option bytes)
    (path_seg : option bytes) (reenroll want_cert : bool) (cached : option X509_REQ)
    : M (EST_ERROR * option bytes) :=
  csr ← get_csr cached body;
  match csr with
  | None => mret (EST_ERR_BAD_PKCS10, None)
  | Some csr =>
    if negb (est_server_check_csr csr =? 0) then mret (EST_ERR_BAD_PKCS10, None) else
    rv ← pop_check ssl peer_cert csr;
    if negb (bool_decide (rv = EST_ERR_NONE)) then mret (EST_ERR_AUTH_FAIL_TLSUID, None) else
    let pkcs10 := default [] body in
    rv ← attrs_check pkcs10 peer_cert;
    if negb (bool_decide (rv = EST_ERR_NONE)) then mret (EST_ERR_CSR_ATTR_MISSING, None) else
    '(rv, cert) ← call_enroll_cb reenroll pkcs10 peer_cert path_seg;
    enroll_response rv cert want_cert
  end.

Definition est_handle_simple_enroll (ssl : SSL) (peer_cert : option X509) (ct : option bytes)
    (body : option bytes) (path_seg : option bytes) (enroll_req : EST_ENROLL_REQ_TYPE)
    (want_cert : bool) : M (EST_ERROR * option bytes) :=
  ctx ← get_ctx;
  match enroll_req with
  | SERVERKEYGEN_REQ => mret (EST_ERR_INVALID_PARAMETERS, None)
  | _ =>
    let reenroll := bool_decide (enroll_req = REENROLL_REQ) in
    if negb reenroll && negb (bool_decide (is_Some (est_enroll_pkcs10_cb ctx)))
    then mret (EST_ERR_NULL_CALLBACK, None)
    else if reenroll && negb (bool_decide (is_Some (est_reenroll_pkcs10_cb ctx)))
    then mret (EST_ERR_NULL_CALLBACK, None) else
    bad_ct ← bad_pkcs10_ct ct;
    if bad_ct : bool then mret (EST_ERR_BAD_CONTENT_TYPE, None) else
    '(st, cached) ← est_enroll_auth ssl path_seg enroll_req body;
    match auth_error st with
    | Some e => mret (e, None)
    | None => simple_enroll_csr ssl peer_cert body path_seg reenroll want_cert cached
    end
  end.

(** ** Server-side key generation *)

(** The key pair, its DER in base64 and the CSR signed with it. *)
Definition keygen_csr (csr : X509_REQ) : M (sum EST_ERROR (X509_REQ * bytes)) :=
  ctx ← get_ctx;
  match keygen_cb ctx with
  | None => null_deref
  | Some cb =>
    tr ← get_trace;
    _ ← emit EvKeygenCb;
    let '(rv, priv_key) := cb tr in
    match priv_key with
    | None => mret (inl EST_ERR_NO_KEY)
    | Some key =>
      if negb (rv =? est_err_num EST_ERR_NONE) then mret (inl EST_ERR_NO_KEY) else
      let der_key := i2d_PrivateKey key in
      let der_len := Z.of_nat (length der_key) in
      b64der ← alloc;
      if negb b64der then mret (inl EST_ERR_MALLOC) else
      enc ← est_base64_encode der_key (der_len * 2) true;
      match X509_REQ_set_pubkey csr key with
      | None => mret (inl EST_ERR_BAD_PKCS10)
      | Some csr1 =>
        signed ← est_X509_REQ_sign csr1 key (signing_digest ctx);
        match signed with
        | None => mret (inl EST_ERR_X509_SIGN)
        | Some csr2 =>
          if negb (est_server_check_csr csr2 =? 0) then mret (inl EST_ERR_BAD_PKCS10)
          else mret (inr (csr2, enc_dst enc))
        end
      end
    end
  end.

(** The part headers of the multipart response. *)
Definition boundary_line : bytes := lit "--" ++ EST_HTTP_BOUNDARY.

Definition part_hdr (start : bytes) (content_type : bytes) : bytes :=
  let h1 := snprintf_at [] EST_HTTP_HDR_MAX (start ++ boundary_line ++ crlf) in
  let h2 := snprintf_at h1 EST_HTTP_HDR_MAX (EST_HTTP_HDR_CT ++ lit ": " ++ content_type ++ crlf) in
  snprintf_at h2 EST_HTTP_HDR_MAX
    (EST_HTTP_HDR_CE ++ lit ": " ++ EST_HTTP_CE_BASE64 ++ crlf ++ crlf).

Definition pvt_key_hdr : bytes := part_hdr [] EST_HTTP_CT_PKCS8.
Definition cert_hdr : bytes := part_hdr crlf EST_HTTP_CT_PKCS7_CO.
Definition final_bndry_hdr : bytes :=
  snprintf_at [] EST_HTTP_HDR_MAX (crlf ++ boundary_line ++ lit "--" ++ crlf ++ crlf).

Definition multipart_hdr (b64der_len cert_len : Z) : bytes :=
  let h1 := hdr_status_200 in
  let h2 := snprintf_at h1 EST_HTTP_HDR_MAX
              (EST_HTTP_HDR_CT ++ lit ": " ++ EST_HTTP_CT_MULTI_MIXED ++ lit "; boundary="
               ++ EST_HTTP_BOUNDARY ++ crlf) in
  let total := Z.of_nat (length pvt_key_hdr) + b64der_len + Z.of_nat (length cert_hdr)
               + cert_len + Z.of_nat (length final_bndry_hdr) in
  snprintf_at h2 EST_HTTP_HDR_MAX
    (EST_HTTP_HDR_CL ++ lit ": " ++ fmt_d total ++ crlf ++ crlf).

(** Write the parts in order, stopping at the first write that sends nothing. *)
Fixpoint write_parts (parts : list bytes) : M EST_ERROR :=
  match parts with
  | [] => mret EST_ERR_NONE
  | p :: r => n ← mg_write p;
              if n =? 0 then mret EST_ERR_HTTP_WRITE else write_parts r
  end.

(** The parts of the response, headers first. *)
Definition keygen_parts (cert b64der : bytes) : list bytes :=
  [multipart_hdr (Z.of_nat (length b64der)) (Z.of_nat (length cert)); pvt_key_hdr; b64der;
   cert_hdr; cert; final_bndry_hdr].

(** The response: the error, the certificate and the key handed to the caller. *)
Definition keygen_response (rv : Z) (cert b64der : bytes)
    : M (EST_ERROR * option bytes * option bytes) :=
  ctx ← get_ctx;
  if (rv =? est_err_num EST_ERR_NONE) && (0 <? Z.of_nat (length cert)) then
    match transport_mode ctx with
    | EST_HTTP =>
        rc ← write_parts (keygen_parts cert b64der);
        if bool_decide (rc = EST_ERR_NONE) then mret (EST_ERR_NONE, Some cert, Some b64der)
        else mret (rc, None, None)
    | EST_COAP => mret (EST_ERR_NONE, Some cert, Some b64der)
    | EST_TRANSPORT_OTHER => mret (EST_ERR_BAD_MODE, None, None)
    end
  else if rv =? est_err_num EST_ERR_CA_ENROLL_RETRY
  then mret (EST_ERR_CA_ENROLL_RETRY, None, None)
  else mret (EST_ERR_CA_ENROLL_FAIL, None, None).

Definition call_server_keygen_cb (body b64der : bytes) (peer_cert : option X509)
    (path_seg : option bytes) : M (Z * bytes * bytes) :=
  ctx ← get_ctx;
  user_id ← http_user_id;
  tr ← get_trace;
  match est_server_keygen_pkcs10_cb ctx with
  | None => null_deref
  | Some cb => _ ← emit (EvServerKeygenCb body b64der user_id peer_cert path_seg);
               mret (cb tr body b64der user_id peer_cert path_seg)
  end.

(** What follows the authentication. *)
Definition server_keygen_csr (ssl : SSL) (peer_cert : option X509) (body : option bytes)
    (path_seg : option bytes) (cached : option X509_REQ)
    : M (EST_ERROR * option bytes * option bytes) :=
  let fail (e : EST_ERROR) : M (EST_ERROR * option bytes * option bytes) :=
    mret (e, None, None) in
  csr ← get_csr cached body;
  match csr with
  | None => fail EST_ERR_BAD_PKCS10
  | Some csr =>
    gen ← keygen_csr csr;
    match gen with
    | inl e => fail e
    | inr (csr2, b64der) =>
      b64 ← alloc;
      if negb b64 then fail EST_ERR_MALLOC else
      p10out ← alloc;
      if negb p10out then fail EST_ERR_MALLOC else
      let new_body := i2d_X509_REQ_b64 csr2 in
      rv ← pop_check ssl peer_cert csr2;
      if negb (bool_decide (rv = EST_ERR_NONE)) then fail EST_ERR_AUTH_FAIL_TLSUID else
      rv ← attrs_check new_body peer_cert;
      if negb (bool_decide (rv = EST_ERR_NONE)) then fail EST_ERR_CSR_ATTR_MISSING else
      '(rv, cert, key) ← call_server_keygen_cb new_body b64der peer_cert path_seg;
      keygen_response rv cert key
    end
  end.

Definition est_handle_server_keygen (ssl : SSL) (peer_cert : option X509) (ct : option bytes)
    (body : option bytes) (path_seg : option bytes)
    : M (EST_ERROR * option bytes * option bytes) :=
  ctx ← get_ctx;
  let fail (e : EST_ERROR) : M (EST_ERROR * option bytes * option bytes) :=
    mret (e, None, None) in
  if Z.of_nat (length EST_HTTP_BOUNDARY) >? 70 then fail EST_ERR_BAD_CONTENT_LEN else
  if negb (bool_decide (is_Some (est_server_keygen_pkcs10_cb ctx))) then fail EST_ERR_NULL_CALLBACK
  else if negb (bool_decide (is_Some (keygen_cb ctx))) then fail EST_ERR_NULL_CALLBACK else
  bad_ct ← bad_pkcs10_ct ct;
  if bad_ct : bool then fail EST_ERR_BAD_CONTENT_TYPE else
  '(st, cached) ← est_enroll_auth ssl path_seg SERVERKEYGEN_REQ body;
  match auth_error st with
  | Some e => fail e
  | None => server_keygen_csr ssl peer_cert body path_seg cached
  end.

(** ** CSR attributes *)

(** Send the attributes: the error and [*returned_attrs]. *)
Definition return_csrattrs (csr_data : option bytes) (csr_len : Z)
    : M (EST_ERROR * option (option bytes * Z)) :=
  ctx ← get_ctx;
  match transport_mode ctx with
  | EST_HTTP => rc ← est_send_csrattr_data csr_data csr_len; mret (rc, None)
  | EST_COAP => mret (EST_ERR_NONE, Some (csr_data, csr_len))
  | EST_TRANSPORT_OTHER => mret (EST_ERR_BAD_MODE, None)
  end.

(** A copy of the attributes that ask for a challengePassword only. *)
Definition return_pop_csrattrs : M (EST_ERROR * option (option bytes * Z)) :=
  ok ← alloc;
  if negb ok then mret (EST_ERR_MALLOC, None) else
  let '(_, csr_data) := strcpy_s (replicate (Z.to_nat (EST_CSRATTRS_POP_LEN + 1)) 0)
                          (EST_CSRATTRS_POP_LEN + 1) (Some EST_CSRATTRS_POP) in
  return_csrattrs (Some (<[Z.to_nat EST_CSRATTRS_POP_LEN := 0]> csr_data)) EST_CSRATTRS_POP_LEN.

(** The application's attributes, completed with the challengePassword. *)
Definition csr_attrs_cb (path_seg : option bytes) (peer_cert : option X509)
    (csr_data : option bytes) (csr_len : Z) : M (EST_ERROR * option (option bytes * Z)) :=
  '(rv, _) ← est_asn1_parse_attributes csr_data csr_len false;
  if negb (csr_len =? 0) && negb (bool_decide (rv = EST_ERR_NONE)) then mret (rv, None) else
  ctx ← get_ctx;
  _ ← put_ctx (set_csr_pop_present false ctx);
  if server_enable_pop ctx then
    '(rv, pop_present) ← est_is_challengePassword_present csr_data csr_len;
    if negb (bool_decide (rv = EST_ERR_NONE)) then mret (rv, None) else
    ctx ← get_ctx;
    _ ← put_ctx (set_csr_pop_present pop_present ctx);
    if (pop_present : bool) then return_csrattrs csr_data csr_len
    else if csr_len =? 0 then return_pop_csrattrs
    else
      match csr_data with
      | None => @null_deref L (EST_ERROR * option (option bytes * Z))
      | Some d =>
          '(rv, csr_data_pop) ← est_add_challengePassword d csr_len;
          if negb (bool_decide (rv = EST_ERR_NONE)) then mret (rv, None)
          else return_csrattrs (Some csr_data_pop) (Z.of_nat (length csr_data_pop))
      end
  else return_csrattrs csr_data csr_len.

(** The error and, for CoAP, the attributes handed to the caller. *)
Definition est_handle_csr_attrs (peer_cert : option X509) (path_seg : option bytes)
    : M (EST_ERROR * option (option bytes * Z)) :=
  ctx ← get_ctx;
  match server_csrattrs ctx, est_get_csr_cb ctx with
  | None, None =>
      if negb (server_enable_pop ctx) then mret (EST_ERR_HTTP_NO_CONTENT, None)
      else return_pop_csrattrs
  | _, Some cb =>
      tr ← get_trace;
      _ ← emit (EvCsrCb path_seg peer_cert);
      let '(csr_data, csr_len) := cb tr path_seg peer_cert in
      csr_attrs_cb path_seg peer_cert csr_data csr_len
  | Some attrs, None =>
      ok ← alloc;
      if negb ok then mret (EST_ERR_MALLOC, None) else
      let server_csrattrs_len := Z.of_nat (length attrs) in
      let '(_, csr_data) := strcpy_s (replicate (S (length attrs)) 0) (server_csrattrs_len + 1)
                              (Some attrs) in
      return_csrattrs (Some (<[length attrs := 0]> csr_data)) server_csrattrs_len
  end.

(** ** BRSKI *)

Definition est_brski_handle_voucher_req (ssl : SSL) (ct : bytes) (body : option bytes)
    (path_seg : option bytes) : M EST_ERROR :=
  ctx ← get_ctx;
  match est_brski_voucher_req_cb ctx with
  | None => mret EST_ERR_NULL_CALLBACK
  | Some cb =>
    if negb (strncmp ct EST_BRSKI_CT_VREQ_SIGNED (sizeof_lit EST_BRSKI_CT_VREQ_SIGNED) =? 0)
       && negb (strncmp ct EST_BRSKI_CT_VREQ (sizeof_lit EST_BRSKI_CT_VREQ) =? 0)
    then mret EST_ERR_BAD_CONTENT_TYPE else
    st ← est_brski_auth ssl path_seg;
    match brski_auth_error st with
    | Some e => mret e
    | None =>
      let peer_cert := SSL_get_peer_certificate ssl in
      tr ← get_trace;
      _ ← emit (EvVoucherReqCb body peer_cert);
      let '(rv, voucher) := cb tr body peer_cert in
      let v := default [] voucher in
      match rv with
      | EST_BRSKI_CB_SUCCESS =>
          if 0 <? Z.of_nat (length v)
          then send_200 (hdr_200 EST_BRSKI_CT_VRSP (Z.of_nat (length v))) v
          else mret EST_ERR_CA_ENROLL_FAIL
      | EST_BRSKI_CB_RETRY =>
          rc ← est_server_send_http_retry_after (brski_retry_period ctx);
          if bool_decide (rc = EST_ERR_NONE) then mret EST_ERR_NONE else mret EST_ERR_HTTP_WRITE
      | _ => mret EST_ERR_CA_ENROLL_FAIL
      end
    end
  end.

(** The two status handlers differ in the callback. *)
Definition brski_status (ssl : SSL) (ct : bytes) (body : option bytes) (path_seg : option bytes)
    (cb : list event -> option bytes -> option X509 -> EST_BRSKI_CALLBACK_RC)
    (ev : option bytes -> option X509 -> event) : M EST_ERROR :=
  if negb (strncmp ct EST_BRSKI_CT_STATUS (sizeof_lit EST_BRSKI_CT_STATUS) =? 0)
  then mret EST_ERR_BAD_CONTENT_TYPE else
  st ← est_brski_auth ssl path_seg;
  match brski_auth_error st with
  | Some e => mret e
  | None =>
    let peer_cert := SSL_get_peer_certificate ssl in
    tr ← get_trace;
    _ ← emit (ev body peer_cert);
    match cb tr body peer_cert with
    | EST_BRSKI_CB_SUCCESS =>
        n ← mg_write hdr_status_200;
        if n =? 0 then mret EST_ERR_HTTP_WRITE else mret EST_ERR_NONE
    | _ => mret EST_ERR_CA_ENROLL_FAIL
    end
  end.

Definition est_brski_handle_voucher_status (ssl : SSL) (ct : bytes) (body : option bytes)
    (path_seg : option bytes) : M EST_ERROR :=
  ctx ← get_ctx;
  match est_brski_voucher_status_cb ctx with
  | None => mret EST_ERR_NULL_CALLBACK
  | Some cb => brski_status ssl ct body path_seg cb EvVoucherStatusCb
  end.

Definition est_brski_handle_enroll_status (ssl : SSL) (ct : bytes) (body : option bytes)
    (path_seg : option bytes) : M EST_ERROR :=
  ctx ← get_ctx;
  match est_brski_enroll_status_cb ctx with
  | None => mret EST_ERR_NULL_CALLBACK
  | Some cb => brski_status ssl ct body path_seg cb EvEnrollStatusCb
  end.

End ServerEnroll.
