(* ===== verification/ServerDispatch.v ===== *)
(** * ServerDispatch: est_http_request (est_server.c)

    The entry point of the server for one HTTP request: the context checks, the
    notification of the request, the URI parser, the dispatch on the operation
    with its method and content-type checks, and the error response.

    [ENABLE_BRSKI] and [uriparser] are the build's options: [uriparser] is the
    path parser of the uriparser library in a build with it. *)

From S2P Require Import Prelude.
From S2P Require Import SafeC.
From S2P Require Import EstTypes.
From S2P Require Import EstState.
From S2P Require Import EstUtil.
From S2P Require Import HttpParse.
From S2P Require Import HttpIO.
From S2P Require Import EnhCertAuth.
From S2P Require Import HttpAuth.
From S2P Require Import ServerAuth.
From S2P Require Import ServerCsr.
From S2P Require Import ServerEnroll.

Section ServerDispatch.
Context {L : OpenSSL}.
Variable ENABLE_BRSKI : bool.
Variable uriparser : option (bytes -> option (list UriPathSegment)).

(** The outcome of an operation's branch: an early return, or the common end. *)
Inductive flow := Return (rc : EST_ERROR) | Continue.

(** Send the error response and return the code. *)
Definition fail_with (rc : EST_ERROR) : M flow :=
  _ ← est_send_http_error (est_err_num rc); mret (Return rc).

(** The build's [est_parse_uri].  With uriparser one allocation outcome is drawn
    for the copy of the path segment, and an operation the parser left unset is
    read uninitialised. *)
Definition request_uri (uri : bytes) : M (EST_ERROR * EST_OPERATION * option bytes) :=
  match uriparser with
  | None => mret (est_parse_uri ENABLE_BRSKI uri)
  | Some uriParseUriA =>
      malloc_ok ← alloc;
      match est_parse_uri_uriparser uriParseUriA ENABLE_BRSKI malloc_ok uri with
      | None => null_deref
      | Some (rv, Some operation, path_seg) => mret (rv, operation, path_seg)
      | Some (rv, None, path_seg) =>
          if bool_decide (rv = EST_ERR_NONE) then null_deref else mret (rv, EST_OP_MAX, path_seg)
      end
  end.

Definition http_cacerts (method : bytes) (path_seg : option bytes) : M flow :=
  if negb (strncmp method (lit "GET") 3 =? 0) then fail_with EST_ERR_WRONG_METHOD else
  rc ← est_server_handle_cacerts path_seg;
  if negb (bool_decide (rc = EST_ERR_NONE)) then fail_with rc else mret Continue.

(** The request event, the handler, the response event; for all three
    enrollment operations. *)
Definition http_enroll_handler (ssl : SSL) (peer_cert : option X509) (operation : EST_OPERATION)
    (body ct path_seg : option bytes) : M EST_ERROR :=
  if bool_decide (operation = EST_OP_SERVER_KEYGEN) then
    _ ← est_invoke_enroll_req_event_cb peer_cert body path_seg SERVERKEYGEN_REQ;
    '(rc, returned_cert, _) ← est_handle_server_keygen ssl peer_cert ct body path_seg;
    _ ← est_invoke_enroll_rsp_event_cb peer_cert body path_seg SERVERKEYGEN_REQ returned_cert
          (est_err_num rc);
    mret rc
  else
    let enroll_req := if bool_decide (operation = EST_OP_SIMPLE_REENROLL)
                      then REENROLL_REQ else SIMPLE_ENROLL_REQ in
    _ ← est_invoke_enroll_req_event_cb peer_cert body path_seg enroll_req;
    '(rc, returned_cert) ← est_handle_simple_enroll ssl peer_cert ct body path_seg enroll_req true;
    _ ← est_invoke_enroll_rsp_event_cb peer_cert body path_seg enroll_req returned_cert
          (est_err_num rc);
    mret rc.

Definition http_enroll (ssl : SSL) (peer_cert : option X509) (operation : EST_OPERATION)
    (method : bytes) (body ct path_seg : option bytes) : M flow :=
  if negb (strncmp method (lit "POST") 4 =? 0) then fail_with EST_ERR_WRONG_METHOD
  else if negb (bool_decide (is_Some ct)) then fail_with EST_ERR_BAD_CONTENT_TYPE else
  rc ← http_enroll_handler ssl peer_cert operation body ct path_seg;
  if negb (bool_decide (rc = EST_ERR_NONE)) && negb (bool_decide (rc = EST_ERR_AUTH_PENDING))
  then fail_with rc else mret Continue.

Definition http_csrattrs (peer_cert : option X509) (method : bytes) (path_seg : option bytes)
    : M flow :=
  if negb (strncmp method (lit "GET") 4 =? 0) then fail_with EST_ERR_WRONG_METHOD else
  '(rc, _) ← est_handle_csr_attrs peer_cert path_seg;
  if negb (bool_decide (rc = EST_ERR_NONE)) then fail_with rc else mret Continue.

Definition http_brski (ssl : SSL) (operation : EST_OPERATION) (method : bytes)
    (body ct path_seg : option bytes) : M flow :=
  if negb (strncmp method (lit "POST") 4 =? 0) then fail_with EST_ERR_WRONG_METHOD else
  match ct with
  | None => fail_with EST_ERR_BAD_CONTENT_TYPE
  | Some ct =>
    rc ← match operation with
         | EST_OP_BRSKI_REQ_VOUCHER => est_brski_handle_voucher_req ssl ct body path_seg
         | EST_OP_BRSKI_VOUCHER_STATUS => est_brski_handle_voucher_status ssl ct body path_seg
         | EST_OP_BRSKI_ENROLL_STATUS => est_brski_handle_enroll_status ssl ct body path_seg
         | _ => mret EST_ERR_HTTP_NOT_FOUND
         end;
    if negb (bool_decide (rc = EST_ERR_NONE)) && negb (bool_decide (rc = EST_ERR_AUTH_PENDING))
    then
      _ ← est_send_http_error (est_err_num (if bool_decide (rc = EST_ERR_AUTH_FAIL)
                                            then EST_ERR_AUTH_FAIL else EST_ERR_BAD_PKCS10));
      mret (Return rc)
    else mret Continue
  end.

Definition http_dispatch (ssl : SSL) (peer_cert : option X509) (operation : EST_OPERATION)
    (method : bytes) (body ct path_seg : option bytes) : M flow :=
  match operation with
  | EST_OP_CACERTS => http_cacerts method path_seg
  | EST_OP_SIMPLE_ENROLL | EST_OP_SIMPLE_REENROLL | EST_OP_SERVER_KEYGEN =>
      http_enroll ssl peer_cert operation method body ct path_seg
  | EST_OP_CSRATTRS => http_csrattrs peer_cert method path_seg
  | EST_OP_BRSKI_REQ_VOUCHER | EST_OP_BRSKI_VOUCHER_STATUS | EST_OP_BRSKI_ENROLL_STATUS =>
      if ENABLE_BRSKI then http_brski ssl operation method body ct path_seg
      else _ ← est_send_http_error (est_err_num EST_ERR_UNKNOWN); mret Continue
  | _ => _ ← est_send_http_error (est_err_num EST_ERR_UNKNOWN); mret Continue
  end.

Definition est_http_request (method uri : bytes) (body ct : option bytes) : M EST_ERROR :=
  ctx ← get_ctx;
  if negb (bool_decide (est_mode ctx = EST_SERVER)) then mret EST_ERR_BAD_MODE else
  conn ← get_conn;
  match conn_ssl conn with
  | None =>
      _ ← est_send_http_error (est_err_num EST_ERR_NO_SSL_CTX); mret EST_ERR_NO_SSL_CTX
  | Some ssl =>
      let peer_cert := SSL_get_peer_certificate ssl in
      _ ← est_invoke_endpoint_req_event_cb peer_cert uri EST_ENDPOINT_REQ_START;
      '(rv, operation, path_seg) ← request_uri uri;
      if negb (bool_decide (rv = EST_ERR_NONE)) then
        _ ← est_send_http_error (est_err_num rv); mret rv
      else
        fl ← http_dispatch ssl peer_cert operation method body ct path_seg;
        match fl with
        | Return rc => mret rc
        | Continue =>
            _ ← est_invoke_endpoint_req_event_cb peer_cert uri EST_ENDPOINT_REQ_END;
            mret EST_ERR_NONE
        end
  end.

End ServerDispatch.
