(* ===== verification/HttpConn.v ===== *)
(** * HttpConn: the connection loop of est_server_http.c

    Reading from the TLS channel ([pull], [read_request], [mg_read]), the
    handling of one request ([handle_request], [est_mg_handler]) and the loop
    over the requests of a keep-alive connection ([process_new_connection]).

    What the channel will deliver is a script of read results; one [SSL_read]
    takes at most one entry of it.  When the script is over the peer is silent
    and the wait for input times out.  The server is not being stopped
    ([stop_flag] is 0).

    The receive buffer is the list of its first [data_len] bytes.  The parser is
    handed the size of the whole buffer, but a request is parsed only when its
    end lies within those bytes, and nothing behind the end is looked at; so the
    parser always fills in the request.  An [assert] that fails is undefined. *)

From S2P Require Import Prelude.
From S2P Require Import SafeC.
From S2P Require Import EstTypes.
From S2P Require Import EstState.
From S2P Require Import EstUtil.
From S2P Require Import HttpParse.
From S2P Require Import HttpIO.
From S2P Require Import EnhCertAuth.
From S2P Require Import HttpAuth.
From S2P Require Import ServerAuth.
From S2P Require Import ServerCsr.
From S2P Require Import ServerEnroll.
From S2P Require Import ServerDispatch.

(** ** The channel *)

(** The fields of [struct mg_connection] the loop works on, and the script. *)
Record mg_input := {
  in_buf : bytes;
  request_len : Z;
  content_len : Z;
  consumed_content : Z;
  in_reads : list read_result
}.

Section HttpConn.
Context {L : OpenSSL}.
Variable ENABLE_BRSKI : bool.
Variable uriparser : option (bytes -> option (list UriPathSegment)).
(** The proxy's handler of a request, for a context in proxy mode. *)
Variable est_proxy_http_request : bytes -> bytes -> option bytes -> option bytes -> M EST_ERROR.
(** What a freshly allocated body buffer holds. *)
Variable malloc_junk : nat -> bytes.

(** [pull]: [None] is a negative result. *)
Definition pull (len : nat) (reads : list read_result) : M (option bytes * list read_result) :=
  let times_up := conn ← get_conn; _ ← put_conn (set_c_must_close true conn); mret tt in
  match reads with
  | R_data d :: r =>
      mret (Some (take len d), if (len <? length d)%nat then R_data (drop len d) :: r else r)
  | R_none :: r => mret (Some [], r)
  | R_error :: r => mret (None, r)
  | R_timeout :: r => _ ← times_up; mret (None, r)
  | [] => _ ← times_up; mret (None, [])
  end.

(** The loop of [read_request]: the request length, the buffer and the script.
    Every round takes an entry or a byte from the script. *)
Fixpoint read_request_loop (fuel : nat) (buf : bytes) (reads : list read_result) (len : Z)
    : M (Z * bytes * list read_result) :=
  match fuel with
  | O => mret (len, buf, reads)
  | S f =>
    if (Z.of_nat (length buf) <? MAX_REQUEST_SIZE) && (len =? 0) then
      '(d, reads') ← pull (Z.to_nat MAX_REQUEST_SIZE - length buf) reads;
      match d with
      | None => mret (-1, buf, reads')
      | Some [] => read_request_loop f buf reads' len
      | Some d => let buf' := buf ++ d in
                  read_request_loop f buf' reads' (get_request_len buf' (length buf'))
      end
    else mret (len, buf, reads)
  end.

Definition read_request (buf : bytes) (reads : list read_result) : M (Z * bytes * list read_result) :=
  read_request_loop (S (script_size reads)) buf reads (get_request_len buf (length buf)).

(** The loop of [mg_read] on the channel: the bytes read so far and the script;
    [None] is a read error. *)
Fixpoint mg_read_loop (fuel : nat) (len : nat) (got : bytes) (reads : list read_result)
    : M (bytes * bool * list read_result) :=
  match fuel with
  | O => mret (got, true, reads)
  | S f =>
    if (0 <? len)%nat then
      '(d, reads') ← pull len reads;
      match d with
      | None => mret (got, false, reads')
      | Some d => mg_read_loop f (len - length d) (got ++ d) reads'
      end
    else mret (got, true, reads)
  end.

(** [mg_read]: the bytes stored at [buf], and the input after it.  Whether the
    read failed is returned by the code but not used by its caller. *)
Definition mg_read (len : nat) (i : mg_input) : M (bytes * mg_input) :=
  if consumed_content i <? content_len i then
    let to_read := content_len i - consumed_content i in
    let len := if to_read <? Z.of_nat len then Z.to_nat to_read else len in
    let body := drop (Z.to_nat (request_len i + consumed_content i)) (in_buf i) in
    let buffered := take len body in
    '(got, _, reads) ← mg_read_loop (S (script_size (in_reads i))) (len - length buffered)
                         buffered (in_reads i);
    mret (got, Build_mg_input (in_buf i) (request_len i) (content_len i)
                 (consumed_content i + Z.of_nat (length got)) reads)
  else mret ([], i).

(** ** One request *)

(** [est_mg_handler].  The allocation of the body is not checked, and neither is
    the result of [mg_read]: the part of the body that was not read is what the
    allocation left there. *)
Definition est_mg_handler (uri : bytes) (i : mg_input) : M (EST_ERROR * mg_input) :=
  ctx ← get_ctx;
  conn ← get_conn;
  cl_hdr ← mg_get_header (lit "Content-Length");
  '(body, i') ← match cl_hdr with
                | Some h =>
                    let cl := atoi h in
                    ok ← alloc;
                    if negb ok then null_deref else
                    '(got, i') ← mg_read (Z.to_nat cl) i;
                    mret (Some (got ++ drop (length got) (take (Z.to_nat cl) (malloc_junk (Z.to_nat cl)))), i')
                | None => mret (None, i)
                end;
  ct_hdr ← mg_get_header (lit "Content-Type");
  let method := default [] (request_method conn) in
  rv ← match est_mode ctx with
       | EST_SERVER => est_http_request ENABLE_BRSKI uriparser method uri body ct_hdr
       | EST_PROXY => est_proxy_http_request method uri body ct_hdr
       | _ => mret EST_ERR_NONE
       end;
  mret (rv, i').

(** The path replaces the URI of the request. *)
Definition handle_request (i : mg_input) : M mg_input :=
  conn ← get_conn;
  let '(path, _) := handle_request_uri (default [] (EstState.uri conn)) in
  _ ← put_conn (set_c_uri (Some path) conn);
  '(_, i') ← est_mg_handler path i;
  mret i'.

(** The content length of the request: its header, or none for a GET. *)
Definition request_content_len (conn : mg_connection) : Z :=
  match get_header (http_headers conn) (lit "Content-Length") with
  | Some cl => strtoll cl
  | None =>
      let m := default [] (request_method conn) in
      if (mg_strcasecmp m (lit "POST") =? 0) || (mg_strcasecmp m (lit "PUT") =? 0) then -1 else 0
  end.

(** What the loop does with a parsed request. *)
Definition serve_request (i : mg_input) : M mg_input :=
  conn ← get_conn;
  let version := default [] (http_version conn) in
  if negb (strncmp version (lit "1.0") 3 =? 0) && negb (strncmp version (lit "1.1") 3 =? 0) then
    _ ← mg_send_http_error 505 (lit "HTTP version not supported") [];
    mret i
  else
    let cl := request_content_len conn in
    let i := Build_mg_input (in_buf i) (request_len i) cl (consumed_content i) (in_reads i) in
    if cl >? EST_MAX_CONTENT_LEN then
      _ ← mg_send_http_error 413 (lit "Content-Length too large") [];
      mret i
    else if cl <? 0 then
      _ ← mg_send_http_error 400 (lit "Bad Request") (lit "Content-Length is negative");
      mret i
    else handle_request i.

(** ** The connection *)

(** [reset_per_request_attributes]; the length of the content is kept. *)
Definition reset_per_request_attributes (i : mg_input) : M mg_input :=
  conn ← get_conn;
  _ ← put_conn (set_c_must_close false (set_c_status_code (-1) (set_c_num_bytes_sent 0 conn)));
  mret (Build_mg_input (in_buf i) 0 (content_len i) 0 (in_reads i)).

(** The strings of a parsed request become those of the connection. *)
Definition set_request_info (buf : bytes) (ri : mg_request_info) : M unit :=
  conn ← get_conn;
  let '(method, uri, version, headers) := ri_strings buf ri in
  put_conn (set_c_http_headers headers (set_c_http_version version
             (set_c_uri uri (set_c_request_method method conn)))).

Definition bad_request_text (buf : bytes) : bytes :=
  lit "Cannot parse HTTP request: [" ++ cstr buf ++ lit "]".

(** Drop the bytes of the request that was served. *)
Definition discard_request (i : mg_input) : mg_input :=
  let data_len := Z.of_nat (length (in_buf i)) in
  let discard_len :=
    if (content_len i >=? 0) && (request_len i + content_len i <? data_len)
    then request_len i + content_len i else data_len in
  Build_mg_input (drop (Z.to_nat discard_len) (in_buf i)) (request_len i) (content_len i)
    (consumed_content i) (in_reads i).

(** The round once a complete head is in the buffer: parse it, serve the request
    and decide whether the connection goes on. *)
Definition serve_parsed (i : mg_input) : M (bool * mg_input) :=
  let '(result, buf, ri) :=
    parse_http_request (in_buf i) (Z.to_nat MAX_REQUEST_SIZE) (Build_mg_request_info None None None []) in
  _ ← set_request_info buf ri;
  let i := Build_mg_input buf (request_len i) (content_len i) (consumed_content i) (in_reads i) in
  conn ← get_conn;
  i ← (if (result <=? 0) || negb (is_valid_uri (default [] (EstState.uri conn))) then
         _ ← mg_send_http_error 400 (lit "Bad Request") (bad_request_text buf);
         conn ← get_conn;
         _ ← put_conn (set_c_must_close true conn);
         mret i
       else serve_request i);
  keep_alive ← should_keep_alive;
  conn ← get_conn;
  let go_on := enable_keepalives conn && (content_len i >=? 0) && keep_alive in
  mret (go_on, discard_request i).

(** One round of the loop: whether the connection goes on, and the input. *)
Definition serve_one (i0 : mg_input) : M (bool * mg_input) :=
  i ← reset_per_request_attributes i0;
  '(len, buf, reads) ← read_request (in_buf i) (in_reads i);
  let i := Build_mg_input buf len (content_len i) (consumed_content i) reads in
  if negb ((len <? 0) || (len <=? Z.of_nat (length buf))) then null_deref
  else if (len =? 0) && (Z.of_nat (length buf) =? MAX_REQUEST_SIZE) then
    _ ← mg_send_http_error 413 (lit "Request Too Large") [];
    mret (false, i)
  else if len <=? 0 then mret (false, i)
  else serve_parsed i.

(** Every round that goes on removes at least one byte from the input. *)
Fixpoint connection_loop (fuel : nat) (i : mg_input) : M mg_input :=
  match fuel with
  | O => mret i
  | S f =>
    '(go_on, i') ← serve_one i;
    if go_on : bool then connection_loop f i' else mret i'
  end.

(** [process_new_connection] on a connection whose channel delivers [reads]. *)
Definition process_new_connection (reads : list read_result) : M mg_input :=
  connection_loop (S (length (script_bytes reads))) (Build_mg_input [] 0 0 0 reads).

End HttpConn.
