(* ===== verification/ServerConfig.v ===== *)
(** * ServerConfig: creating and configuring a server context

    [est_server_init] and the configuration API of est_server.c, with the loader
    of the /cacerts response (est.c), for a build without libcoap.  Every call
    takes a flag that says whether the application passed a context.  The
    inductive type [api] lists the calls, and [run_api] is the call a value
    stands for: a configuration history is a list of them. *)

From S2P Require Import Prelude.
From S2P Require Import SafeC.
From S2P Require Import EstTypes.
From S2P Require Import EstState.
From S2P Require Import EstUtil.
From S2P Require Import EnhCertAuth.
From S2P Require Import ServerCsr.

Definition EST_SERVER_DEFAULT_ENHCD_CERT_PWD : bytes := lit "cisco".

Section ServerConfig.
Context {L : OpenSSL}.

(** A call needs a context. *)
Definition with_ctx (ctx_given : bool) (f : M EST_ERROR) : M EST_ERROR :=
  if ctx_given then f else mret EST_ERR_NO_CTX.

(** Update the context and succeed. *)
Definition set_ctx (f : EST_CTX -> EST_CTX) : M EST_ERROR :=
  ctx ← get_ctx; _ ← put_ctx (f ctx); mret EST_ERR_NONE.

(** ** Callbacks *)

Definition est_set_ca_enroll_cb (g : bool) (cb : option enroll_cb) : M EST_ERROR :=
  with_ctx g (set_ctx (set_est_enroll_pkcs10_cb cb)).
Definition est_set_ca_reenroll_cb (g : bool) (cb : option enroll_cb) : M EST_ERROR :=
  with_ctx g (set_ctx (set_est_reenroll_pkcs10_cb cb)).
Definition est_set_server_side_keygen_enroll_cb (g : bool) cb : M EST_ERROR :=
  with_ctx g (set_ctx (set_est_server_keygen_pkcs10_cb cb)).
Definition est_server_set_key_generation_cb (g : bool) cb : M EST_ERROR :=
  with_ctx g (set_ctx (set_keygen_cb cb)).
Definition est_set_http_auth_cb (g : bool) cb : M EST_ERROR :=
  with_ctx g (set_ctx (set_est_http_auth_cb cb)).

(** These two are for the server mode only. *)
Definition server_mode_only (f : M EST_ERROR) : M EST_ERROR :=
  ctx ← get_ctx;
  if negb (bool_decide (est_mode ctx = EST_SERVER)) then mret EST_ERR_BAD_MODE else f.
Definition est_set_csr_cb (g : bool) cb : M EST_ERROR :=
  with_ctx g (server_mode_only (set_ctx (set_est_get_csr_cb cb))).
Definition est_set_cacerts_cb (g : bool) cb : M EST_ERROR :=
  with_ctx g (server_mode_only (set_ctx (set_est_get_cacerts_cb cb))).

(** The BRSKI callbacks may not be removed. *)
Definition not_null {A} (cb : option A) (f : M EST_ERROR) : M EST_ERROR :=
  match cb with None => mret EST_ERR_INVALID_PARAMETERS | Some _ => f end.
Definition est_set_brski_voucher_req_cb (g : bool) cb : M EST_ERROR :=
  with_ctx g (not_null cb (set_ctx (set_est_brski_voucher_req_cb cb))).
Definition est_set_brski_voucher_status_cb (g : bool) cb : M EST_ERROR :=
  with_ctx g (not_null cb (set_ctx (set_est_brski_voucher_status_cb cb))).
Definition est_set_brski_enroll_status_cb (g : bool) cb : M EST_ERROR :=
  with_ctx g (not_null cb (set_ctx (set_est_brski_enroll_status_cb cb))).

(** The event callbacks return nothing; of a callback the model keeps whether
    there is one. *)
Definition est_set_enroll_req_event_cb (g cb : bool) : M EST_ERROR :=
  if g then set_ctx (set_enroll_req_event_cb cb) else mret EST_ERR_NONE.
Definition est_set_enroll_rsp_event_cb (g cb : bool) : M EST_ERROR :=
  if g then set_ctx (set_enroll_rsp_event_cb cb) else mret EST_ERR_NONE.
Definition est_set_enroll_auth_result_event_cb (g cb : bool) : M EST_ERROR :=
  if g then set_ctx (set_enroll_auth_result_event_cb cb) else mret EST_ERR_NONE.
Definition est_set_endpoint_req_event_cb (g cb : bool) : M EST_ERROR :=
  if g then set_ctx (set_endpoint_req_event_cb cb) else mret EST_ERR_NONE.

(** ** Flags and limits *)

Definition est_server_set_auth_mode (g : bool) (amode : EST_HTTP_AUTH_MODE) : M EST_ERROR :=
  with_ctx g
    match amode with
    | AUTH_DIGEST => if FIPS_mode then mret EST_ERR_BAD_MODE else set_ctx (set_auth_mode amode)
    | AUTH_BASIC | AUTH_TOKEN => set_ctx (set_auth_mode amode)
    | AUTH_NONE | AUTH_FAIL => mret EST_ERR_BAD_MODE
    end.

Definition est_set_http_auth_required (g : bool) (required : EST_HTTP_AUTH_REQUIRED)
    : M EST_ERROR := with_ctx g (set_ctx (set_require_http_auth required)).

Definition est_server_enable_srp (g has_cb : bool) : M EST_ERROR :=
  with_ctx g (if has_cb then set_ctx (set_enable_srp true) else mret EST_ERR_INVALID_PARAMETERS).

Definition est_server_enable_pop (g : bool) : M EST_ERROR :=
  with_ctx g (set_ctx (set_server_enable_pop true)).
Definition est_server_disable_pop (g : bool) : M EST_ERROR :=
  with_ctx g (set_ctx (set_server_enable_pop false)).
Definition est_server_enforce_csrattr (g : bool) : M EST_ERROR :=
  with_ctx g (set_ctx (set_enforce_csrattrs true)).

Definition est_server_set_retry_period (g : bool) (seconds : Z) : M EST_ERROR :=
  with_ctx g
    (if seconds >? EST_RETRY_PERIOD_MAX then mret EST_ERR_INVALID_PARAMETERS
     else if seconds <? EST_RETRY_PERIOD_MIN then mret EST_ERR_INVALID_PARAMETERS
     else set_ctx (set_retry_period seconds)).

Definition est_server_set_brski_retry_period (g : bool) (seconds : Z) : M EST_ERROR :=
  with_ctx g
    (if seconds >? EST_BRSKI_RETRY_PERIOD_MAX then mret EST_ERR_INVALID_PARAMETERS
     else if seconds <? EST_BRSKI_RETRY_PERIOD_MIN then mret EST_ERR_INVALID_PARAMETERS
     else set_ctx (set_brski_retry_period seconds)).

Definition est_server_set_read_timeout (g : bool) (timeout : Z) : M EST_ERROR :=
  with_ctx g
    (if (timeout <? EST_SSL_READ_TIMEOUT_MIN) || (timeout >? EST_SSL_READ_TIMEOUT_MAX)
     then mret EST_ERR_INVALID_PARAMETERS
     else set_ctx (set_server_read_timeout timeout)).

Definition est_server_set_ecdhe_curve (g : bool) (nid : Z) : M EST_ERROR :=
  with_ctx g (if nid <=? 0 then mret EST_ERR_INVALID_PARAMETERS else set_ctx (set_ecdhe_nid nid)).

(** ** Enhanced certificate authentication *)

Definition est_server_set_enhcd_cert_auth_pwd (pwd : bytes) : M EST_ERROR :=
  if strnlen_s (Some pwd) (MAX_UIDPWD + 1) >? MAX_UIDPWD then mret EST_ERR_INVALID_PARAMETERS
  else
    let '(rc, p) := strcpy_s (replicate (Z.to_nat (MAX_UIDPWD + 1)) 0) (MAX_UIDPWD + 1)
                      (Some pwd) in
    if negb (rc =? EOK) then mret EST_ERR_INVALID_PARAMETERS
    else set_ctx (set_enhcd_cert_auth_pwd (cstr p)).

Definition est_server_set_enhcd_cert_auth_local_pki_nid (nid : Z) : M EST_ERROR :=
  set_ctx (set_enhcd_cert_local_pki_nid nid).

(** [csr_check_enabled] is [None] for a value outside the enumeration. *)
Definition est_server_enable_enhanced_cert_auth (g : bool) (local_pki_subj_field_nid : Z)
    (ah_pwd : option bytes) (csr_check_enabled : option EST_ECA_CSR_CHECK_FLAG) : M EST_ERROR :=
  with_ctx g
    (ctx ← get_ctx;
     if enhanced_cert_auth_enabled ctx then mret EST_ERR_ALREADY_ENABLED else
     _ ← est_server_set_enhcd_cert_auth_local_pki_nid local_pki_subj_field_nid;
     rv ← est_server_set_enhcd_cert_auth_pwd (default EST_SERVER_DEFAULT_ENHCD_CERT_PWD ah_pwd);
     if negb (bool_decide (rv = EST_ERR_NONE)) then mret rv else
     match csr_check_enabled with
     | None => mret EST_ERR_INVALID_PARAMETERS
     | Some flag =>
         _ ← set_ctx (set_enhanced_cert_auth_csr_check flag);
         set_ctx (set_enhanced_cert_auth_enabled true)
     end).

(** What [BIO_new_mem_buf] reads of a buffer: [len] bytes, which must be there, or,
    for a negative length, the text up to the first NUL, which must be there.  A
    length that reads past the buffer is undefined behaviour of the call below, also
    where the list of manufacturers turns out to be full before the buffer is read. *)
Definition mem_buf (buf : bytes) (len : Z) : option bytes :=
  if len <? 0 then if decide (0 ∈ buf) then Some (cstr buf) else None
  else if len <=? Z.of_nat (length buf) then Some (take (Z.to_nat len) buf) else None.

Definition est_server_enhanced_cert_auth_add_mfg_info (g : bool) (mfg_name : option bytes)
    (mfg_subj_field_nid : Z) (truststore_buf : option bytes) (truststore_buf_len : Z)
    : M EST_ERROR :=
  match g, mfg_name, truststore_buf with
  | true, Some name, Some buf =>
      if truststore_buf_len =? 0 then mret EST_ERR_INVALID_PARAMETERS else
      ctx ← get_ctx;
      if negb (enhanced_cert_auth_enabled ctx) then mret EST_ERR_INVALID_PARAMETERS else
      err ← match enchd_cert_mfgs_info_list ctx with
            | None => est_enhcd_cert_auth_mfg_info_list_create
            | Some _ => mret EST_ERR_NONE
            end;
      if negb (bool_decide (err = EST_ERR_NONE)) then mret err
      else match mem_buf buf truststore_buf_len with
           | Some certs => est_load_enhcd_cert_auth_manufacturer name mfg_subj_field_nid (Some certs)
           | None => null_deref
           end
  | _, _, _ => mret EST_ERR_INVALID_PARAMETERS
  end.

Definition est_server_disable_enhanced_cert_auth (g : bool) : M EST_ERROR :=
  with_ctx g
    (ctx ← get_ctx;
     if negb (enhanced_cert_auth_enabled ctx) then mret EST_ERR_ALREADY_DISABLED else
     _ ← mfg_info_list_destroy;
     set_ctx (set_enhanced_cert_auth_enabled false)).

(** ** est_server_init_csrattrs *)

(** The attributes to store: the caller's, completed with the challengePassword
    when the proof of possession is enabled. *)
Definition csrattrs_to_store (csrattrs : bytes) (csrattrs_len : Z) : M (EST_ERROR * bytes * Z) :=
  ctx ← get_ctx;
  if server_enable_pop ctx then
    '(rv, pop_present) ← est_is_challengePassword_present (Some csrattrs) csrattrs_len;
    if negb (bool_decide (rv = EST_ERR_NONE)) then mret (EST_ERR_INVALID_PARAMETERS, [], 0) else
    _ ← put_ctx (set_csr_pop_present pop_present ctx);
    if (pop_present : bool) then mret (EST_ERR_NONE, csrattrs, csrattrs_len) else
    '(rv, csrattrs_data_pop) ← est_add_challengePassword csrattrs csrattrs_len;
    if negb (bool_decide (rv = EST_ERR_NONE)) then mret (EST_ERR_INVALID_PARAMETERS, [], 0)
    else mret (EST_ERR_NONE, csrattrs_data_pop, Z.of_nat (length csrattrs_data_pop))
  else
    '(rv, _) ← est_asn1_parse_attributes (Some csrattrs) csrattrs_len false;
    if negb (bool_decide (rv = EST_ERR_NONE)) then mret (EST_ERR_INVALID_PARAMETERS, [], 0)
    else mret (EST_ERR_NONE, csrattrs, csrattrs_len).

Definition est_server_init_csrattrs (g : bool) (csrattrs : option bytes) (csrattrs_len : Z)
    : M EST_ERROR :=
  with_ctx g
    (server_mode_only
       (_ ← set_ctx (set_server_csrattrs None);
        match csrattrs with
        | None => mret EST_ERR_NONE
        | Some attrs =>
            if csrattrs_len <? MIN_CSRATTRS then mret EST_ERR_INVALID_PARAMETERS else
            _ ← set_ctx (set_csr_pop_present false);
            '(rv, attrs', len') ← csrattrs_to_store attrs csrattrs_len;
            if negb (bool_decide (rv = EST_ERR_NONE)) then mret rv else
            ok ← alloc;
            if negb ok then mret EST_ERR_MALLOC else
            let '(_, copy) := strcpy_s (replicate (S (Z.to_nat len')) 0) (len' + 1)
                                (Some attrs') in
            set_ctx (set_server_csrattrs (Some (take (Z.to_nat len') copy)))
        end)).

(** ** est_server_init *)

(** The certificates of a PEM buffer. *)
Definition est_add_certs_from_BIO (raw : bytes) : option (list X509) :=
  match PEM_X509_INFO_read_bio raw with
  | None => None
  | Some sk => Some (omap fst sk)
  end.

Definition est_get_certs_pkcs7 (raw : bytes) : M (option bytes) :=
  p7 ← alloc; if negb p7 then mret None else
  p7s ← alloc; if negb p7s then mret None else
  version ← alloc; if negb version then mret None else
  stack ← alloc; if negb stack then mret None else
  match est_add_certs_from_BIO raw with
  | None => mret None
  | Some certs =>
      out ← alloc; if negb out then mret None else
      b64 ← alloc; if negb b64 then mret (Some []) else
      mret (i2d_PKCS7_certs_b64 certs)
  end.

Definition est_load_ca_certs (raw : bytes) : M EST_ERROR :=
  ctx ← get_ctx;
  if bool_decide (est_mode ctx = EST_CLIENT) then mret EST_ERR_BAD_MODE else
  bio ← alloc;
  if negb bio then mret EST_ERR_LOAD_CACERTS else
  cacerts ← est_get_certs_pkcs7 raw;
  match cacerts with
  | None => mret EST_ERR_LOAD_CACERTS
  | Some retval =>
      if Z.of_nat (length retval) <=? 0 then mret EST_ERR_LOAD_CACERTS else
      ok ← alloc;
      if negb ok then
        _ ← put_ctx (set_ca_certs None ctx); mret EST_ERR_LOAD_CACERTS
      else
        let '(_, dst) := memcpy_s (Some (replicate (length retval) 0)) (Z.of_nat (length retval))
                           (Some retval) (Z.of_nat (length retval)) in
        _ ← put_ctx (set_ca_certs dst ctx); mret EST_ERR_NONE
  end.

Definition est_load_trusted_certs (certs : option bytes) : M EST_ERROR :=
  match X509_STORE_new with
  | None => _ ← upd_client (set_trusted_certs_store None); mret EST_ERR_LOAD_TRUST_CERTS
  | Some store =>
      '(store', rv) ← ossl_init_cert_store store certs;
      _ ← upd_client (set_trusted_certs_store (Some store'));
      mret rv
  end.

(** The zeroed context with the server's defaults. *)
Definition zero_ctx : EST_CTX :=
  Build_EST_CTX EST_SERVER None None [] None None None None None false false false false
    None None None None None AUTH_NONE None 0 EST_BRSKI_RETRY_PERIOD_DEF
    EST_SSL_READ_TIMEOUT_DEF false HTTP_AUTH_REQUIRED false ECA_CSR_CHECK_OFF None 0 [] false
    EST_RETRY_PERIOD_DEF 0 false false EST_HTTP false zero_client.

(** The arguments of [est_server_init] that are pointers are options; the world
    it leaves holds the new context.  The result says whether one was created. *)
Definition est_server_init (ca_chain : option bytes) (ca_chain_len : Z)
    (cacerts_resp_chain : option bytes) (cacerts_resp_chain_len : Z) (cert_format_is_pem : bool)
    (http_realm : option bytes) (tls_id_cert tls_id_key : bool) : M bool :=
  match ca_chain with
  | None => mret false
  | Some chain =>
    if negb cert_format_is_pem then mret false
    else if negb (strnlen_s (Some chain) EST_CA_MAX =? ca_chain_len) then mret false
    else if match cacerts_resp_chain with
            | Some resp => negb (strnlen_s (Some resp) EST_CA_MAX =? cacerts_resp_chain_len)
            | None => false
            end then mret false
    else if negb tls_id_cert then mret false
    else if negb tls_id_key then mret false
    else match http_realm with
    | None => mret false
    | Some rlm =>
      ok ← alloc;
      if negb ok then mret false else
      _ ← put_ctx zero_ctx;
      rv ← match cacerts_resp_chain with
           | Some resp => est_load_ca_certs (cstr resp)
           | None => mret EST_ERR_NONE
           end;
      if negb (bool_decide (rv = EST_ERR_NONE)) then mret false else
      rv ← est_load_trusted_certs (Some (cstr chain));
      if negb (bool_decide (rv = EST_ERR_NONE)) then mret false else
      ctx ← get_ctx;
      let '(_, r) := strcpy_s (replicate (Z.to_nat (MAX_REALM + 1)) 0) MAX_REALM (Some rlm) in
      _ ← put_ctx (set_server_enable_pop true (set_auth_mode AUTH_BASIC
                     (set_realm (cstr r) ctx)));
      mret true
    end
  end.

(** ** The calls an application makes *)

Inductive api :=
| Api_set_ca_enroll_cb (g : bool) (cb : option enroll_cb)
| Api_set_ca_reenroll_cb (g : bool) (cb : option enroll_cb)
| Api_set_csr_cb (g : bool)
    (cb : option (list event -> option bytes -> option X509 -> option bytes * Z))
| Api_set_cacerts_cb (g : bool) (cb : option (list event -> option bytes -> option bytes))
| Api_set_http_auth_cb (g : bool)
    (cb : option (list event -> EST_HTTP_AUTH_HDR -> option X509 -> option bytes -> bool))
| Api_set_keygen_enroll_cb (g : bool)
    (cb : option (list event -> bytes -> bytes -> option bytes -> option X509 -> option bytes
                  -> Z * bytes * bytes))
| Api_set_key_generation_cb (g : bool) (cb : option (list event -> Z * option EVP_PKEY))
| Api_set_voucher_req_cb (g : bool)
    (cb : option (list event -> option bytes -> option X509
                  -> EST_BRSKI_CALLBACK_RC * option bytes))
| Api_set_voucher_status_cb (g : bool)
    (cb : option (list event -> option bytes -> option X509 -> EST_BRSKI_CALLBACK_RC))
| Api_set_enroll_status_cb (g : bool)
    (cb : option (list event -> option bytes -> option X509 -> EST_BRSKI_CALLBACK_RC))
| Api_set_enroll_req_event_cb (g cb : bool)
| Api_set_enroll_rsp_event_cb (g cb : bool)
| Api_set_auth_result_event_cb (g cb : bool)
| Api_set_endpoint_req_event_cb (g cb : bool)
| Api_set_auth_mode (g : bool) (amode : EST_HTTP_AUTH_MODE)
| Api_set_http_auth_required (g : bool) (required : EST_HTTP_AUTH_REQUIRED)
| Api_enable_srp (g has_cb : bool)
| Api_enable_pop (g : bool)
| Api_disable_pop (g : bool)
| Api_enforce_csrattr (g : bool)
| Api_set_retry_period (g : bool) (seconds : Z)
| Api_set_brski_retry_period (g : bool) (seconds : Z)
| Api_set_read_timeout (g : bool) (timeout : Z)
| Api_set_ecdhe_curve (g : bool) (nid : Z)
| Api_enable_eca (g : bool) (nid : Z) (ah_pwd : option bytes)
    (flag : option EST_ECA_CSR_CHECK_FLAG)
| Api_add_mfg (g : bool) (name : option bytes) (nid : Z) (buf : option bytes) (len : Z)
| Api_disable_eca (g : bool)
| Api_init_csrattrs (g : bool) (csrattrs : option bytes) (len : Z).

Definition run_api (a : api) : M EST_ERROR :=
  match a with
  | Api_set_ca_enroll_cb g cb => est_set_ca_enroll_cb g cb
  | Api_set_ca_reenroll_cb g cb => est_set_ca_reenroll_cb g cb
  | Api_set_csr_cb g cb => est_set_csr_cb g cb
  | Api_set_cacerts_cb g cb => est_set_cacerts_cb g cb
  | Api_set_http_auth_cb g cb => est_set_http_auth_cb g cb
  | Api_set_keygen_enroll_cb g cb => est_set_server_side_keygen_enroll_cb g cb
  | Api_set_key_generation_cb g cb => est_server_set_key_generation_cb g cb
  | Api_set_voucher_req_cb g cb => est_set_brski_voucher_req_cb g cb
  | Api_set_voucher_status_cb g cb => est_set_brski_voucher_status_cb g cb
  | Api_set_enroll_status_cb g cb => est_set_brski_enroll_status_cb g cb
  | Api_set_enroll_req_event_cb g cb => est_set_enroll_req_event_cb g cb
  | Api_set_enroll_rsp_event_cb g cb => est_set_enroll_rsp_event_cb g cb
  | Api_set_auth_result_event_cb g cb => est_set_enroll_auth_result_event_cb g cb
  | Api_set_endpoint_req_event_cb g cb => est_set_endpoint_req_event_cb g cb
  | Api_set_auth_mode g m => est_server_set_auth_mode g m
  | Api_set_http_auth_required g r => est_set_http_auth_required g r
  | Api_enable_srp g cb => est_server_enable_srp g cb
  | Api_enable_pop g => est_server_enable_pop g
  | Api_disable_pop g => est_server_disable_pop g
  | Api_enforce_csrattr g => est_server_enforce_csrattr g
  | Api_set_retry_period g s => est_server_set_retry_period g s
  | Api_set_brski_retry_period g s => est_server_set_brski_retry_period g s
  | Api_set_read_timeout g t => est_server_set_read_timeout g t
  | Api_set_ecdhe_curve g nid => est_server_set_ecdhe_curve g nid
  | Api_enable_eca g nid pwd flag => est_server_enable_enhanced_cert_auth g nid pwd flag
  | Api_add_mfg g name nid buf len => est_server_enhanced_cert_auth_add_mfg_info g name nid buf len
  | Api_disable_eca g => est_server_disable_enhanced_cert_auth g
  | Api_init_csrattrs g a len => est_server_init_csrattrs g a len
  end.

(** A configuration history. *)
Fixpoint run_apis (l : list api) : M unit :=
  match l with
  | [] => mret tt
  | a :: r => _ ← run_api a; run_apis r
  end.

End ServerConfig.
