(* ===== verification/MultipartParser.v ===== *)
(** * MultipartParser: the multipart parser of multipart_parser.c

    The state machine that cuts the multipart answer of a server-side key
    generation into the key and the certificate, with the callbacks that
    est_client_http.c gives it ([read_header_name], [read_header_value],
    [part_data_cb]).  It runs over the receive buffer from an offset on, and
    looks one or two bytes ahead of the position it is at.

    A header value is copied without a terminating NUL: what follows it is what
    the allocation left there ([malloc_junk]).  A failed allocation, which the
    parser does not check, and a header beyond the room of the parser are
    undefined. *)

From S2P Require Import Prelude.
From S2P Require Import SafeC.
From S2P Require Import EstTypes.
From S2P Require Import EstState.
From S2P Require Import HttpIO.

(** ** The parser *)

Inductive mp_state :=
| s_start
| s_start_boundary
| s_header_field_start
| s_header_field
| s_headers_almost_done
| s_header_value_start
| s_header_value
| s_header_value_almost_done
| s_part_data_start
| s_part_data
| s_part_data_almost_boundary
| s_part_data_boundary
| s_part_data_almost_end
| s_part_data_end
| s_part_data_final_hyphen
| s_end.

(** [mp_hdrs] are the complete headers, [mp_name] the name of the one being read. *)
Record multipart_parser := {
  mp_index : nat;
  mp_boundary : bytes;
  mp_st : mp_state;
  mp_hdrs : list (bytes * bytes);
  mp_name : bytes;
  mp_lookbehind : bytes;
  mp_key_data : bytes;
  mp_cert_data : bytes
}.

Definition eta_mp (p : multipart_parser) : multipart_parser :=
  Build_multipart_parser (mp_index p) (mp_boundary p) (mp_st p) (mp_hdrs p) (mp_name p)
    (mp_lookbehind p) (mp_key_data p) (mp_cert_data p).

Definition set_mp_index (v : nat) (c : multipart_parser) : multipart_parser :=
  ltac:(update_field eta_mp mp_index v c).
Definition set_mp_st (v : mp_state) (c : multipart_parser) : multipart_parser :=
  ltac:(update_field eta_mp mp_st v c).
Definition set_mp_hdrs (v : list (bytes * bytes)) (c : multipart_parser) : multipart_parser :=
  ltac:(update_field eta_mp mp_hdrs v c).
Definition set_mp_name (v : bytes) (c : multipart_parser) : multipart_parser :=
  ltac:(update_field eta_mp mp_name v c).
Definition set_mp_lookbehind (v : bytes) (c : multipart_parser) : multipart_parser :=
  ltac:(update_field eta_mp mp_lookbehind v c).
Definition set_mp_key_data (v : bytes) (c : multipart_parser) : multipart_parser :=
  ltac:(update_field eta_mp mp_key_data v c).
Definition set_mp_cert_data (v : bytes) (c : multipart_parser) : multipart_parser :=
  ltac:(update_field eta_mp mp_cert_data v c).

(** The room for headers, and the number of payloads an answer has. *)
Definition MAX_HEADERS : nat := 16.
Definition expected_payloads : nat := 2.

Definition multipart_parser_init (boundary : bytes) : multipart_parser :=
  Build_multipart_parser 0 boundary s_start [] [] (replicate 70 0) [] [].

(** The last header whose name starts with [name]. *)
Definition mp_header (name : bytes) (p : multipart_parser) : option bytes :=
  snd <$> List.find (fun h => strncmp (fst h) name (Z.of_nat (length name)) =? 0)
            (rev (mp_hdrs p)).

Definition multipart_get_data_ct (p : multipart_parser) : option bytes :=
  mp_header EST_HTTP_HDR_CT p.

Definition multipart_get_data_cte (p : multipart_parser) : option bytes :=
  mp_header EST_HTTP_HDR_CE p.

Definition multipart_reset_hdrs (p : multipart_parser) : multipart_parser := set_mp_hdrs [] p.

Definition multipart_parser_both_key_and_cert_populated (p : multipart_parser) : bool :=
  negb (length (mp_cert_data p) =? 0)%nat && negb (length (mp_key_data p) =? 0)%nat.

(** The values of the two headers a part may have. *)
Definition is_pkcs8 (value : bytes) : bool := strncmp value EST_HTTP_CT_PKCS8 17 =? 0.
Definition is_pkcs7_co (value : bytes) : bool := strncmp value EST_HTTP_CT_PKCS7_CO 45 =? 0.
Definition is_base64 (value : bytes) : bool := strncmp value EST_HTTP_CE_BASE64 6 =? 0.

Section Multipart.
Context {L : OpenSSL}.
Variable malloc_junk : nat -> bytes.

Definition multipart_parser_set_hdr_value (p : multipart_parser) (value : bytes)
    : M multipart_parser :=
  let store := if (length (mp_hdrs p) <? MAX_HEADERS)%nat
               then mret (set_mp_hdrs (mp_hdrs p ++ [(mp_name p, value)]) p) else null_deref in
  if strncmp (mp_name p) EST_HTTP_HDR_CT 12 =? 0 then
    if is_pkcs8 value || is_pkcs7_co value then store else mret p
  else if strncmp (mp_name p) EST_HTTP_HDR_CE 25 =? 0 then
    if is_base64 value then store else mret p
  else mret p.

(** ** The callbacks of est_client_http.c *)

Definition read_header_name (p : multipart_parser) (at_ : bytes) : M multipart_parser :=
  ok ← alloc;
  if negb ok then null_deref
  else if (length (mp_hdrs p) <? MAX_HEADERS)%nat then mret (set_mp_name at_ p) else null_deref.

Definition read_header_value (p : multipart_parser) (at_ : bytes) : M multipart_parser :=
  ok ← alloc;
  if negb ok then null_deref
  else multipart_parser_set_hdr_value p
         (at_ ++ drop (length at_) (malloc_junk (S (length at_)))).

Definition only_whitespace (s : bytes) : bool :=
  forallb (fun c => (c =? chr_space) || (c =? chr_cr) || (c =? chr_lf)) s.

(** The result of the callback, 0 to go on, and the parser. *)
Definition part_data_cb (p : multipart_parser) (at_ : bytes) : Z * multipart_parser :=
  match multipart_get_data_ct p, multipart_get_data_cte p with
  | Some ct, Some cte =>
      let finish p := if multipart_parser_both_key_and_cert_populated p then (1, p)
                      else (0, multipart_reset_hdrs p) in
      if negb (is_base64 cte) then (0, p)
      else if Z.of_nat (length at_) >? MULTIPART_PARSE_DATA_MAX then (-1, p)
      else if is_pkcs8 ct then
        if only_whitespace at_ then (-1, p) else finish (set_mp_key_data at_ p)
      else if is_pkcs7_co ct then
        if only_whitespace at_ then (-1, p) else finish (set_mp_cert_data at_ p)
      else finish p
  | _, _ => (0, p)
  end.

(** ** multipart_parser_execute *)

(** The variables of the loop. *)
Record mp_loop := {
  l_i : nat;
  l_mark : nat;
  l_seen_headers : bool;
  l_seen_hdr_delimiter : bool;
  l_num_payloads : nat;
  l_p : multipart_parser
}.

Inductive mp_next :=
| mp_go (l : mp_loop)
| mp_stop (i : nat) (p : multipart_parser).

Section Run.
(** The buffer, the offset the parser starts at, and the length it is given. *)
Variable raw : bytes.
Variable base : nat.
Variable len : nat.

Definition mp_at (i : nat) : Z := rd raw (base + i).
Definition mp_slice (i n : nat) : bytes := take n (drop (base + i) raw).

(** The next byte, in state [st]. *)
Definition mp_move (l : mp_loop) (st : mp_state) : mp_next :=
  mp_go (Build_mp_loop (S (l_i l)) (l_mark l) (l_seen_headers l) (l_seen_hdr_delimiter l)
           (l_num_payloads l) (set_mp_st st (l_p l))).

Definition with_p (p : multipart_parser) (l : mp_loop) : mp_loop :=
  Build_mp_loop (l_i l) (l_mark l) (l_seen_headers l) (l_seen_hdr_delimiter l)
    (l_num_payloads l) p.
Definition with_mark (m : nat) (l : mp_loop) : mp_loop :=
  Build_mp_loop (l_i l) m (l_seen_headers l) (l_seen_hdr_delimiter l) (l_num_payloads l) (l_p l).
Definition with_i (i : nat) (l : mp_loop) : mp_loop :=
  Build_mp_loop i (l_mark l) (l_seen_headers l) (l_seen_hdr_delimiter l) (l_num_payloads l) (l_p l).
Definition with_seen (h d : bool) (l : mp_loop) : mp_loop :=
  Build_mp_loop (l_i l) (l_mark l) h d (l_num_payloads l) (l_p l).
Definition with_payloads (n : nat) (l : mp_loop) : mp_loop :=
  Build_mp_loop (l_i l) (l_mark l) (l_seen_headers l) (l_seen_hdr_delimiter l) n (l_p l).

(** [EMIT_DATA_CB(part_data, ...)], and what follows it. *)
Definition emit_part (l : mp_loop) (data : bytes) (k : mp_loop -> mp_next) : mp_next :=
  let '(rc, p) := part_data_cb (l_p l) data in
  if rc =? 0 then k (with_p p l) else mp_stop (l_i l) p.

Definition is_last (l : mp_loop) : bool := (l_i l =? len - 1)%nat.

Definition step_start_boundary (l : mp_loop) (c : Z) : mp_next :=
  let p := l_p l in
  let blen := length (mp_boundary p) in
  let next st := mp_move (with_p (set_mp_index (S (mp_index p)) p) l) st in
  if (mp_index p =? blen)%nat then
    if negb (c =? chr_cr) then
      if c =? chr_dash then next s_part_data_final_hyphen else mp_stop (l_i l) p
    else next s_start_boundary
  else if (mp_index p =? blen + 1)%nat then
    if negb (c =? chr_lf) then mp_stop (l_i l) p
    else mp_move (with_seen false (l_seen_hdr_delimiter l) (with_p (set_mp_index 0 p) l))
           s_header_field_start
  else next s_start_boundary.

Definition step_header_field (l : mp_loop) (c : Z) : M mp_next :=
  let i := l_i l in
  let cl := tolower c in
  if c =? chr_cr then mret (mp_move l s_headers_almost_done)
  else if c =? chr_colon then
    p ← read_header_name (l_p l) (mp_slice (l_mark l) (i - l_mark l));
    mret (mp_move (with_seen true true (with_p p l)) s_header_value_start)
  else if (63 <? i - l_mark l)%nat && negb (l_seen_hdr_delimiter l) then
    mret (mp_stop 0 (l_p l))
  else if negb (c =? chr_dash) && ((cl <? 97) || (cl >? 122)) then mret (mp_stop i (l_p l))
  else if is_last l then
    p ← read_header_name (l_p l) (mp_slice (l_mark l) (i - l_mark l + 1));
    mret (mp_move (with_p p l) s_header_field)
  else mret (mp_move l s_header_field).

Definition step_header_value (l0 : mp_loop) (c : Z) : M mp_next :=
  let l := with_seen (l_seen_headers l0) false l0 in
  if c =? chr_cr then
    p ← read_header_value (l_p l) (mp_slice (l_mark l) (l_i l - l_mark l));
    mret (mp_move (with_p p l) s_header_value_almost_done)
  else if is_last l then
    p ← read_header_value (l_p l) (mp_slice (l_mark l) (l_i l - l_mark l + 1));
    mret (mp_move (with_p p l) s_header_value)
  else mret (mp_move l s_header_value).

Definition step_part_data (l : mp_loop) (c : Z) : mp_next :=
  let i := l_i l in
  if (c =? chr_cr) && ((mp_at (i + 1) =? chr_dash) || (mp_at (i + 2) =? chr_dash)) then
    emit_part (with_payloads (S (l_num_payloads l)) l) (mp_slice (l_mark l) (i - l_mark l))
      (fun l => mp_move (with_mark i (with_p (set_mp_lookbehind
                  (<[0%nat := chr_cr]> (mp_lookbehind (l_p l))) (l_p l)) l))
                  s_part_data_almost_boundary)
  else if is_last l then
    emit_part l (mp_slice (l_mark l) (i - l_mark l + 1)) (fun l => mp_move l s_part_data)
  else mp_move l s_part_data.

Definition step_part_data_almost_boundary (l : mp_loop) (c : Z) : mp_next :=
  let p := l_p l in
  if c =? chr_lf then
    let st := if (l_num_payloads l =? expected_payloads)%nat
              then s_part_data_boundary else s_start_boundary in
    mp_move (with_i (l_i l + 2)
               (with_p (set_mp_index 0 (set_mp_lookbehind (<[1%nat := chr_lf]> (mp_lookbehind p)) p)) l)) st
  else
    emit_part l (take 1 (mp_lookbehind p))
      (fun l => mp_go (with_mark (l_i l) (with_p (set_mp_st s_part_data (l_p l)) l))).

Definition step_part_data_boundary (l : mp_loop) (c : Z) : mp_next :=
  let p := l_p l in
  if negb (rd (mp_boundary p) (mp_index p) =? c) then
    emit_part l (take (2 + mp_index p) (mp_lookbehind p))
      (fun l => mp_go (with_mark (l_i l) (with_p (set_mp_st s_header_field_start (l_p l)) l)))
  else
    let p := set_mp_index (S (mp_index p))
               (set_mp_lookbehind (<[(2 + mp_index p)%nat := c]> (mp_lookbehind p)) p) in
    mp_move (with_p p l)
      (if (mp_index p =? length (mp_boundary p))%nat
       then s_part_data_almost_end else s_part_data_boundary).

(** One round of the loop on byte [c]. *)
Definition mp_step (l : mp_loop) : M mp_next :=
  let i := l_i l in
  let c := mp_at i in
  let p := l_p l in
  let halt := mret (mp_stop i p) in
  match mp_st p with
  | s_start => mret (step_start_boundary (with_p (set_mp_index 0 p) l) c)
  | s_start_boundary => mret (step_start_boundary l c)
  | s_header_field_start => step_header_field (with_mark i l) c
  | s_header_field => step_header_field l c
  | s_headers_almost_done =>
      if negb (c =? chr_lf) then halt
      else mret (mp_move l (if l_seen_headers l then s_part_data_start else s_header_field_start))
  | s_header_value_start =>
      if c =? chr_space then mret (mp_move l s_header_value_start)
      else step_header_value (with_mark i l) c
  | s_header_value => step_header_value l c
  | s_header_value_almost_done =>
      if negb (c =? chr_lf) then halt
      else if mp_at (i + 1) =? chr_dash then mret (mp_move (with_i (i + 2) l) s_start_boundary)
      else mret (mp_move l s_header_field_start)
  | s_part_data_start => mret (step_part_data (with_mark i l) c)
  | s_part_data => mret (step_part_data l c)
  | s_part_data_almost_boundary => mret (step_part_data_almost_boundary l c)
  | s_part_data_boundary => mret (step_part_data_boundary l c)
  | s_part_data_almost_end =>
      if c =? chr_dash then mret (mp_move l s_part_data_final_hyphen)
      else if c =? chr_cr then mret (mp_move l s_part_data_end)
      else halt
  | s_part_data_final_hyphen => if c =? chr_dash then mret (mp_move l s_end) else halt
  | s_part_data_end => if c =? chr_lf then mret (mp_move l s_header_field_start) else halt
  | s_end => mret (mp_move l s_end)
  end.

(** The loop: a round moves forward, or back to a state that does in the next
    round, so two rounds a byte are enough. *)
Fixpoint mp_run (fuel : nat) (l : mp_loop) : M (nat * multipart_parser) :=
  match fuel with
  | O => mret (len, l_p l)
  | S f =>
    if (l_i l <? len)%nat then
      n ← mp_step l;
      match n with
      | mp_go l' => mp_run f l'
      | mp_stop i p => mret (i, p)
      end
    else mret (len, l_p l)
  end.

End Run.

(** The hyphens the parser skips at the start of its buffer. *)
Fixpoint skip_hyphens (fuel : nat) (raw : bytes) (p : nat) : nat :=
  match fuel with
  | O => p
  | S f => if rd raw p =? chr_dash then skip_hyphens f raw (S p) else p
  end.

(** The number of bytes parsed and the parser.  The length is not adjusted for
    the hyphens, so the parser may look at bytes behind the end it was given. *)
Definition multipart_parser_execute (p : multipart_parser) (raw : bytes) (buf len : nat)
    : M (nat * multipart_parser) :=
  mp_run raw (skip_hyphens (length raw) raw buf) len (2 * len + 2)
    (Build_mp_loop 0 0 false false 0 p).

(** ** parse_remaining_multipart_payload (est_client_http.c) *)

(** The error, the key and the certificate, each with its length.  The buffers are
    [calloc]ed even when they are empty, and the lengths do not depend on whether
    that succeeds. *)
Definition parse_remaining_multipart_payload (raw : bytes) (buf : nat) (boundary : bytes)
    : M (EST_ERROR * (option bytes * Z) * (option bytes * Z)) :=
  ok ← alloc;
  if negb ok then null_deref else
  let length_ := length (cstr_at raw buf) in
  '(parsed, p) ← multipart_parser_execute (multipart_parser_init boundary) raw buf length_;
  let rv := if multipart_parser_both_key_and_cert_populated p then EST_ERR_NONE
            else if (parsed <? length_)%nat then EST_ERR_MULTIPART_PARSE
            else EST_ERR_ZERO_LENGTH_BUF in
  ok1 ← alloc;
  let key := if ok1 : bool then Some (mp_key_data p) else None in
  ok2 ← alloc;
  let cert := if ok2 : bool then Some (mp_cert_data p) else None in
  mret (rv, (key, Z.of_nat (length (mp_key_data p))), (cert, Z.of_nat (length (mp_cert_data p)))).

End Multipart.
