(* ===== verification/ClientHost.v ===== *)
(** * ClientHost: is this the server that was configured? (est_client.c)

    The comparison of host names with the patterns of certificates
    ([est_client_hostmatch] and its helpers, taken from cURL by the source) and
    the check of the server's certificate against the configured server name
    ([est_client_verifyhost], [est_client_check_fqdn]).  The conversion of a host
    name to an address is a function of the operating system. *)

From S2P Require Import Prelude.
From S2P Require Import SafeC.
From S2P Require Import EstTypes.
From S2P Require Import EstState.

(** ** Comparison of C strings without regard to case *)

Definition est_client_Curl_raw_toupper (c : Z) : Z := if islower c then c - 32 else c.

Abbreviation up := est_client_Curl_raw_toupper.

(** The strings are given without their NUL. *)
Fixpoint est_client_Curl_raw_equal (first second : bytes) : bool :=
  match first, second with
  | c :: f, d :: s => if up c =? up d then est_client_Curl_raw_equal f s else false
  | _, _ => up (hd 0 first) =? up (hd 0 second)
  end.

Fixpoint est_client_Curl_raw_nequal (first second : bytes) (max : nat) : bool :=
  match max with
  | O => true
  | S m =>
    match first, second with
    | c :: f, d :: s => if up c =? up d then est_client_Curl_raw_nequal f s m else false
    | _, _ => up (hd 0 first) =? up (hd 0 second)
    end
  end.

Definition strchr (s : bytes) (c : Z) : option nat :=
  let k := length (prefix_out s [c]) in if (k <? length s)%nat then Some k else None.

Definition NID_commonName : Z := 13.
Definition V_ASN1_UTF8STRING : Z := 12.

Section Host.
Context {L : OpenSSL}.

(** ** Wildcards *)

(** [est_client_hostmatch]: the wildcard needs two more labels behind it, must be
    in the first label, and that label must not be an internationalised one; the
    name must not be an address. *)
Definition est_client_hostmatch (hostname pattern : bytes) : bool :=
  match strchr pattern chr_star with
  | None => est_client_Curl_raw_equal pattern hostname
  | Some wildcard =>
    if bool_decide (is_Some (inet_pton4 hostname)) then false
    else if bool_decide (is_Some (inet_pton6 hostname)) then false
    else
      let label_end := strchr pattern chr_dot in
      let wildcard_enabled :=
        match label_end with
        | None => false
        | Some e =>
            bool_decide (is_Some (strchr (drop (S e) pattern) chr_dot))
            && negb (e <? wildcard)%nat
            && negb (est_client_Curl_raw_nequal pattern (lit "xn--") 4)
        end in
      if negb wildcard_enabled then est_client_Curl_raw_equal pattern hostname
      else
        let e := default 0%nat label_end in
        match strchr hostname chr_dot with
        | None => false
        | Some h =>
          if negb (est_client_Curl_raw_equal (drop e pattern) (drop h hostname)) then false
          else if (h <? e)%nat then false
          else
            let suffixlen := (e - (wildcard + 1))%nat in
            est_client_Curl_raw_nequal pattern hostname wildcard
            && est_client_Curl_raw_nequal (drop (S wildcard) pattern)
                 (drop (h - suffixlen) hostname) suffixlen
        end
  end.

Definition est_client_cert_hostcheck (match_pattern hostname : bytes) : bool :=
  match match_pattern, hostname with
  | [], _ => false
  | _, [] => false
  | _, _ => est_client_Curl_raw_equal hostname match_pattern
            || est_client_hostmatch hostname match_pattern
  end.

(** ** The names of a certificate *)

(** The address a host name denotes: its bytes. *)
Definition host_addr (hostname : bytes) : option bytes :=
  match inet_pton4 hostname with
  | Some a => Some a
  | None => inet_pton6 hostname
  end.

(** Does one alternative name match?  [None] for a type that is not looked at. *)
Definition altname_match (hostname : bytes) (check : GENERAL_NAME) : option bool :=
  match check with
  | GEN_DNS data =>
      Some ((Z.of_nat (length data) =? strnlen_s (Some data) EST_MAX_SERVERNAME_LEN)
            && est_client_cert_hostcheck (cstr data) hostname)
  | GEN_IPADD data =>
      match host_addr hostname with
      | None => Some false
      | Some addr =>
          let altlen := Z.of_nat (length data) in
          let diff := snd (memcmp_s (Some data) altlen (Some addr) altlen (-1)) in
          Some ((length data =? length addr)%nat && (diff =? 0))
      end
  | GEN_OTHER _ => None
  end.

(** The loop over the alternative names: [None] while no name was looked at. *)
Fixpoint altnames_loop (hostname : bytes) (names : list GENERAL_NAME) (matched : option bool)
    : option bool :=
  match names with
  | [] => matched
  | n :: r =>
      match matched with
      | Some true => matched
      | _ => altnames_loop hostname r
               (match altname_match hostname n with Some b => Some b | None => matched end)
      end
  end.

(** The index of the last common name. *)
Fixpoint last_cn (fuel : nat) (name : X509_NAME) (i : Z) : Z :=
  match fuel with
  | O => i
  | S f => let j := X509_NAME_get_index_by_NID name NID_commonName i in
           if j >=? 0 then last_cn f name j else i
  end.

(** The common name of the certificate and its length as the source computes it;
    [None] stands for the NULL pointer. *)
Definition peer_CN (server_cert : X509) : M (option bytes * Z) :=
  let name := X509_get_subject_name server_cert in
  let i := last_cn (S (X509_NAME_entry_count name)) name (-1) in
  if i >=? 0 then
    match X509_NAME_get_entry name i with
    | None => mret (None, 0)
    | Some (ty, data) =>
        if ty =? V_ASN1_UTF8STRING then
          ok ← alloc;
          mret (if ok : bool then Some data else None, Z.of_nat (length data))
        else match ASN1_STRING_to_UTF8 ty data with
             | Some s => mret (Some s, Z.of_nat (length s))
             | None => mret (None, -1)
             end
    end
  else mret (None, 0).

(** [est_client_verifyhost] for the C string [hostname].  Without an alternative
    name of a type that is looked at the last common name decides. *)
Definition est_client_verifyhost (hostname : bytes) (server_cert : X509) : M EST_ERROR :=
  let altnames := default [] (X509_get_subject_alt_names server_cert) in
  match altnames_loop hostname altnames None with
  | Some true => mret EST_ERR_NONE
  | Some false => mret EST_ERR_FQDN_MISMATCH
  | None =>
      '(cn, j) ← peer_CN server_cert;
      match cn with
      | None => mret EST_ERR_FQDN_MISMATCH
      | Some s =>
          if negb (strnlen_s (Some s) EST_MAX_SERVERNAME_LEN =? j) then mret EST_ERR_FQDN_MISMATCH
          else if negb (est_client_cert_hostcheck (cstr s) hostname) then mret EST_ERR_FQDN_MISMATCH
          else mret EST_ERR_NONE
      end
  end.

Definition est_client_check_fqdn (ssl : SSL) : M EST_ERROR :=
  ctx ← get_ctx;
  match SSL_get_peer_certificate ssl with
  | Some cert => est_client_verifyhost (est_server (client ctx)) cert
  | None => mret (if enable_srp ctx then EST_ERR_NONE else EST_ERR_FQDN_MISMATCH)
  end.

End Host.
