(* ===== verification/ClientHttp.v ===== *)
(** * ClientHttp: reading and parsing HTTP answers (est_client_http.c)

    The client's side of HTTP: the tokenizer of authentication challenges, the
    header parsers for plain and multipart answers, the status code, the
    Retry-After and content headers, and the read of a whole answer from the TLS
    channel ([est_io_get_response], [est_io_get_multipart_response]).

    The answer stays in one receive buffer, which the tokenizers cut up in place;
    a [char *] into it is an offset.  The buffer is the list of the bytes received;
    behind them the allocation was zeroed, so that a read there gives a NUL.  (An
    answer that fills the buffer to its last byte has no NUL behind it in the
    source.) *)

From S2P Require Import Prelude.
From S2P Require Import SafeC.
From S2P Require Import EstTypes.
From S2P Require Import EstState.
From S2P Require Import EstUtil.
From S2P Require Import HttpParse.
From S2P Require Import HttpIO.
From S2P Require Import MultipartParser.

(** ** The answers an operation may have *)

(** [est_op_map[op].content_type]; the table has a second entry for the key
    generation at the place of [EST_DUMMY_KEYGEN_MAP]. *)
Definition est_op_content_type (op : EST_OPERATION) : option bytes :=
  match op with
  | EST_OP_SIMPLE_ENROLL | EST_OP_SIMPLE_REENROLL => Some EST_HTTP_CT_PKCS7_CO
  | EST_OP_CACERTS => Some EST_HTTP_CT_PKCS7
  | EST_OP_CSRATTRS => Some EST_HTTP_CT_CSRATTRS
  | EST_OP_SERVER_KEYGEN => Some EST_HTTP_CT_PKCS8
  | EST_DUMMY_KEYGEN_MAP => Some EST_HTTP_CT_PKCS7
  | EST_OP_BRSKI_REQ_VOUCHER => Some EST_BRSKI_CT_VRSP
  | EST_OP_BRSKI_VOUCHER_STATUS | EST_OP_BRSKI_ENROLL_STATUS => Some EST_BRSKI_CT_STATUS
  | EST_OP_MAX => None
  end.

(** ** HTNextField *)

Definition is_field_delim (c : Z) : bool :=
  isspace c || (c =? chr_comma) || (c =? 59) || (c =? chr_equal).

Fixpoint skip_delims (fuel : nat) (buf : bytes) (p : nat) : nat :=
  match fuel with
  | O => p
  | S f => if negb (rd buf p =? 0) && is_field_delim (rd buf p) then skip_delims f buf (S p) else p
  end.

(** The end of a quoted word or a comment: the next [close] that is not escaped. *)
Fixpoint quoted_end (fuel : nat) (buf : bytes) (p : nat) (close : Z) : nat :=
  match fuel with
  | O => p
  | S f =>
    if negb (rd buf p =? 0) && negb (rd buf p =? close) then
      if (rd buf p =? chr_backslash) && negb (rd buf (S p) =? 0)
      then quoted_end f buf (S (S p)) close else quoted_end f buf (S p) close
    else p
  end.

Fixpoint field_end (fuel : nat) (buf : bytes) (p : nat) : nat :=
  match fuel with
  | O => p
  | S f => if negb (rd buf p =? 0) && negb (is_field_delim (rd buf p))
           then field_end f buf (S p) else p
  end.

(** The buffer, the new position and the start of the field.  A comment that does
    not end moves the position past the NUL that ends the string. *)
Fixpoint next_field_loop (fuel : nat) (buf : bytes) (p0 : nat) : bytes * nat * option nat :=
  let n := length buf in
  let finish start p :=
    if rd buf p =? 0 then (buf, p, Some start) else (<[p := 0]> buf, S p, Some start) in
  match fuel with
  | O => (buf, p0, None)
  | S f =>
    let p := skip_delims n buf p0 in
    if rd buf p =? 0 then (buf, p, None)
    else if rd buf p =? chr_dquote then finish (S p) (quoted_end n buf (S p) chr_dquote)
    else if rd buf p =? 60 then finish (S p) (quoted_end n buf (S p) 62)
    else if rd buf p =? 40 then next_field_loop f buf (S (quoted_end n buf p 41))
    else finish p (field_end n buf p)
  end.

Definition HTNextField (buf : bytes) (p : nat) : bytes * nat * option nat :=
  next_field_loop (S (length buf)) buf p.

(** ** Headers *)

(** The offset of the header delimiter in the string at [p], as an offset of the
    buffer. *)
Definition header_end (buf : bytes) (p : nat) : option nat :=
  let s := cstr_at buf p in
  match snd (strstr_s s (strnlen_s (Some s) RSIZE_MAX_STR) (crlf ++ crlf) 4) with
  | Some i => Some (p + i)%nat
  | None => None
  end.

(** [*buf > hdr_end]: every pointer is greater than NULL. *)
Definition past_header_end (p : nat) (hdr_end : option nat) : bool :=
  match hdr_end with Some e => (e <? p)%nat | None => true end.

Fixpoint rsp_headers_loop (n : nat) (hdr_end : option nat) (buf : bytes) (p : nat)
    : bytes * nat * list (nat * nat) :=
  match n with
  | O => (buf, p, [])
  | S n' =>
    let '(buf1, p1, name) := skip_quoted buf p (lit ":") (lit " ") 0 in
    let '(buf2, p2, value) := skip buf1 p1 crlf in
    if rd buf2 name =? 0 then (buf2, p2, [])
    else if past_header_end p2 hdr_end then (buf2, p2, [(name, value)])
    else let '(buf3, p3, hs) := rsp_headers_loop n' hdr_end buf2 p2 in
         (buf3, p3, (name, value) :: hs)
  end.

(** The buffer, the start of the payload and the headers. *)
Definition rsp_headers (buf : bytes) : bytes * nat * list (nat * nat) :=
  let hdr_end := header_end buf 0 in
  let '(buf1, p1, _) := skip buf 0 crlf in
  rsp_headers_loop MAX_HEADERS hdr_end buf1 p1.

(** ** The multipart boundary *)

Definition MAX_MULTI_BOUNDARY_LEN : Z := 70.
Definition MULTI_BOUND_DEF_STR : bytes := lit "boundary=".
Definition EST_HTTP_CT_MULTI : bytes := lit "multipart".

Definition boundary_char (c : Z) : bool :=
  ((43 <=? c) && (c <=? 58)) || isupper c || islower c || ((39 <=? c) && (c <=? 41))
  || mem c (lit "_=? ").

(** Byte [i] of the string at [b]. *)
Definition rd_at (buf : bytes) (b : nat) (i : Z) : Z := rd buf (Z.to_nat (Z.of_nat b + i)).
Definition put_at (buf : bytes) (b : nat) (i : Z) (c : Z) : bytes :=
  <[Z.to_nat (Z.of_nat b + i) := c]> buf.

Definition validate_boundary_string (buf : bytes) (b : nat) (bound_len : Z) : bool :=
  forallb (fun i => boundary_char (rd buf (b + i))) (seq 0 (Z.to_nat bound_len)).

(** Cut the boundary at the first semicolon among its [n] bytes from [k] on. *)
Fixpoint cut_semicolon (n : nat) (buf : bytes) (b k : nat) (bound_len : Z) : bytes * Z :=
  match n with
  | O => (buf, bound_len)
  | S n' => if rd buf (b + k) =? 59 then (<[(b + k)%nat := 0]> buf, Z.of_nat k)
            else cut_semicolon n' buf b (S k) bound_len
  end.

(** Drop trailing spaces. *)
Fixpoint strip_spaces (n : nat) (buf : bytes) (b : nat) (bound_len : Z) : bytes * Z :=
  match n with
  | O => (buf, bound_len)
  | S n' => if rd_at buf b (bound_len - 1) =? chr_space
            then strip_spaces n' (put_at buf b (bound_len - 1) 0) b (bound_len - 1)
            else (buf, bound_len)
  end.

(** Move [n] bytes from [b + j] on one place to the left. *)
Fixpoint shift_left (n : nat) (buf : bytes) (b j : nat) : bytes :=
  match n with
  | O => buf
  | S n' => shift_left n' (<[(b + j - 1)%nat := rd buf (b + j)]> buf) b (S j)
  end.

Definition sanitize_boundary (buf : bytes) (b : nat) (bound_len : Z) : bytes * Z :=
  let '(buf, bl) := cut_semicolon (Z.to_nat bound_len) buf b 0 bound_len in
  if bl <? 1 then (buf, bl) else
  let '(buf, bl) := strip_spaces (length buf) buf b bl in
  if bl <? 1 then (buf, bl) else
  let '(buf, bl) :=
    if (rd buf b =? chr_dquote) && (rd_at buf b (bl - 1) =? chr_dquote) then
      (put_at (shift_left (Z.to_nat (bl - 1)) buf b 1) b (bl - 2) 0, bl - 2)
    else (buf, bl) in
  if bl <? 1 then (buf, bl) else
  if rd_at buf b (bl - 1) =? 59 then (put_at buf b (bl - 1) 0, bl - 1) else (buf, bl).

Fixpoint skip_newlines (fuel : nat) (buf : bytes) (p : nat) : nat :=
  match fuel with
  | O => p
  | S f => if rd buf p =? chr_lf then skip_newlines f buf (S p) else p
  end.

Definition parse_single_header (buf : bytes) (p : nat) : bytes * nat * nat * nat :=
  let p := skip_newlines (length buf) buf p in
  let '(buf1, p1, name) := skip_quoted buf p (lit ":") (lit " ") 0 in
  let '(buf2, p2, value) := skip buf1 p1 crlf in
  (buf2, p2, name, value).

(** The boundary of a multipart content type in the header value at [v]: [None] is
    a refused header, which ends the parse; the inner option is the boundary, when
    the header has one. *)
Definition header_boundary (buf : bytes) (v : nat) : option (bytes * option nat) :=
  let value := cstr_at buf v in
  match strstr value EST_HTTP_CT_MULTI with
  | None => Some (buf, None)
  | Some _ =>
    match strstr value EST_HTTP_CT_MULTI_MIXED with
    | None => None
    | Some _ =>
      match strstr value MULTI_BOUND_DEF_STR with
      | None => None
      | Some i =>
        let '(buf1, _, b) := skip buf (v + i + length MULTI_BOUND_DEF_STR) [chr_lf] in
        let '(buf2, bl) := sanitize_boundary buf1 b
                             (strnlen (cstr_at buf1 b) (MAX_MULTI_BOUNDARY_LEN + 2)) in
        if bl >? MAX_MULTI_BOUNDARY_LEN then None
        else if bl <=? 0 then None
        else if negb (validate_boundary_string buf2 b bl) then None
        else Some (buf2, Some b)
      end
    end
  end.

(** [None] when the headers are refused. *)
Fixpoint keygen_headers_loop (n : nat) (hdr_end : option nat) (buf : bytes) (p : nat)
    (boundary : option nat) : option (bytes * nat * list (nat * nat) * option nat) :=
  match n with
  | O => Some (buf, p, [], boundary)
  | S n' =>
    let '(buf1, p1, name, value) := parse_single_header buf p in
    match header_boundary buf1 value with
    | None => None
    | Some (buf2, b) =>
      let boundary := match b with Some _ => b | None => boundary end in
      if rd buf2 name =? 0 then Some (buf2, p1, [], boundary)
      else if past_header_end p1 hdr_end then Some (buf2, p1, [(name, value)], boundary)
      else match keygen_headers_loop n' hdr_end buf2 p1 boundary with
           | Some (buf3, p3, hs, b3) => Some (buf3, p3, (name, value) :: hs, b3)
           | None => None
           end
    end
  end.

Definition keygen_headers (buf : bytes) : option (bytes * nat * list (nat * nat) * option nat) :=
  let hdr_end := header_end buf 0 in
  let '(buf1, p1, _) := skip buf 0 crlf in
  keygen_headers_loop MAX_HEADERS hdr_end buf1 p1 None.

(** ** The status line *)

Definition http_status_codes : list Z := [200; 202; 204; 400; 401; 404; 423; 500; 502; 504].

Definition EST_HTTP_HDR (code : Z) : bytes := lit "HTTP/1.1 " ++ fmt_d code.

Definition has_prefix (buf p : bytes) : bool := strncmp buf p (Z.of_nat (length p)) =? 0.

Definition est_io_parse_response_status_code (buf : bytes) : Z :=
  match List.find (fun code => has_prefix buf (EST_HTTP_HDR code)) http_status_codes with
  | Some code => code
  | None => -1
  end.

(** ** The content headers *)

(** The error and [*cl]. *)
Fixpoint check_hdrs_loop (hs : list (bytes * bytes)) (ct : bytes) (ct_present cl_present : bool)
    (cl : Z) : EST_ERROR * Z :=
  match hs with
  | [] => (if negb ct_present then EST_ERR_HTTP_UNSUPPORTED
           else if negb cl_present then EST_ERR_HTTP_UNSUPPORTED else EST_ERR_NONE, cl)
  | (name, value) :: r =>
    let same h := snd (memcmp_s (Some name) (Z.of_nat (length h) + 1) (Some h)
                         (Z.of_nat (length h) + 1) 1) =? 0 in
    if same EST_HTTP_HDR_CT then
      if snd (memcmp_s (Some value) (Z.of_nat (length ct)) (Some ct) (Z.of_nat (length ct)) 1) =? 0
      then check_hdrs_loop r ct true cl_present cl
      else (EST_ERR_HTTP_UNSUPPORTED, cl)
    else if same EST_HTTP_HDR_CL then check_hdrs_loop r ct ct_present true (atoi value)
    else check_hdrs_loop r ct ct_present cl_present cl
  end.

Definition est_io_check_http_hdrs (hs : list (bytes * bytes)) (op : EST_OPERATION)
    : EST_ERROR * Z :=
  check_hdrs_loop hs (default [] (est_op_content_type op)) false false (-1).

(** The strings of parsed headers. *)
Definition hdr_strings (buf : bytes) (hs : list (nat * nat)) : list (bytes * bytes) :=
  map (fun h => (cstr_at buf (fst h), cstr_at buf (snd h))) hs.

Section ClientHttp.
Context {L : OpenSSL}.
Variable ENABLE_BRSKI : bool.
(** What a freshly allocated buffer holds. *)
Variable malloc_junk : nat -> bytes.

(** ** Authentication challenges *)

(** [strcpy_s] into an array of [max + 1] bytes whose last byte is NUL. *)
Definition strcpy_field (max : Z) (value : bytes) : errno_t * bytes :=
  let '(e, d) := strcpy_s (replicate (Z.to_nat (max + 1)) 0) max (Some value) in (e, cstr d).

(** The value of a token goes to [put]; the result is whether the token is invalid. *)
Definition token_value (buf : bytes) (p : nat) (put : bytes -> M bool)
    : M (bytes * nat * bool) :=
  match HTNextField buf p with
  | (buf, p, Some v) => bad ← put (cstr_at buf v); mret (buf, p, bad)
  | (buf, p, None) => mret (buf, p, true)
  end.

Definition put_client_field (max : Z) (set : bytes -> EST_CLIENT_CTX -> EST_CLIENT_CTX) (value : bytes)
    : M bool :=
  let '(e, s) := strcpy_field max value in
  _ ← upd_client (set s);
  mret (negb (e =? EOK)).

Definition auth_token (token buf : bytes) (p : nat) : M (bytes * nat * bool) :=
  let is_ word := est_strcasecmp_s token (lit word) =? 0 in
  if is_ "realm" then
    token_value buf p (fun v =>
      let '(e, s) := strcpy_field MAX_REALM v in
      _ ← upd_ctx (set_realm s);
      mret (negb (e =? EOK)))
  else if is_ "nonce" then token_value buf p (put_client_field MAX_NONCE set_s_nonce)
  else if is_ "qop" then token_value buf p (fun _ => mret false)
  else if is_ "algorithm" then
    match HTNextField buf p with
    | (buf, p, Some v) =>
        mret (buf, p, negb (est_strcasecmp_s (cstr_at buf v) (lit "md5") =? 0))
    | (buf, p, None) => mret (buf, p, false)
    end
  else if is_ "error" then token_value buf p (put_client_field MAX_TOKEN_ERROR set_token_error)
  else if is_ "error_description" then
    token_value buf p (put_client_field MAX_TOKEN_ERROR_DESC set_token_error_desc)
  else mret (buf, p, false).

(** Every round takes a field, so the length of the buffer bounds the rounds. *)
Fixpoint auth_tokens_loop (fuel : nat) (buf : bytes) (p : nat) : M EST_ERROR :=
  match fuel with
  | O => mret EST_ERR_NONE
  | S f =>
    match HTNextField buf p with
    | (_, _, None) => mret EST_ERR_NONE
    | (buf, p, Some t) =>
        '(buf, p, bad) ← auth_token (cstr_at buf t) buf p;
        if bad : bool then _ ← upd_client (set_s_nonce []); mret EST_ERR_INVALID_TOKEN
        else auth_tokens_loop f buf p
    end
  end.

(** The scheme in front is skipped. *)
Definition est_io_parse_auth_tokens (buf : bytes) (hdr : nat) : M EST_ERROR :=
  let '(buf, p, _) := HTNextField buf hdr in
  auth_tokens_loop (S (length buf)) buf p.

Definition set_mode (mode : EST_HTTP_AUTH_MODE) : M unit := upd_ctx (set_auth_mode mode).

(** The first WWW-Authenticate header decides the mode. *)
Definition est_io_parse_http_auth_request (buf : bytes) (hdrs : list (nat * nat)) : M unit :=
  match List.find (fun h => strncmp (cstr_at buf (fst h)) EST_HTTP_HDR_AUTH 16 =? 0) hdrs with
  | None => set_mode AUTH_FAIL
  | Some (_, v) =>
      let value := cstr_at buf v in
      let parse mode :=
        _ ← set_mode mode;
        rv ← est_io_parse_auth_tokens buf v;
        if bool_decide (rv = EST_ERR_NONE) then mret tt else set_mode AUTH_FAIL in
      if strncmp value (lit "Basic") 5 =? 0 then parse AUTH_BASIC
      else if strncmp value (lit "Digest") 6 =? 0 then parse AUTH_DIGEST
      else if strncmp value (lit "Bearer") 6 =? 0 then parse AUTH_TOKEN
      else set_mode AUTH_FAIL
  end.

(** ** Retry-After *)

Definition isalpha (c : Z) : bool := isupper c || islower c.

(** The loop over the headers, in a build without the date format: every
    Retry-After header with a number sets the delay. *)
Fixpoint retry_after_loop (hs : list (bytes * bytes)) (rv : EST_ERROR) : M EST_ERROR :=
  match hs with
  | [] => mret rv
  | (name, value) :: r =>
    let '(rc, diff) := strcasecmp_s (Some name) (Z.of_nat (length EST_HTTP_HDR_RETRY_AFTER) + 1)
                         (Some EST_HTTP_HDR_RETRY_AFTER) in
    if (rc =? EOK) && (diff =? 0) then
      if isalpha (rd value 0) then retry_after_loop r rv
      else if strisdigit_s (Some value) 10 then
        let n := strtoll value in
        if n <=? INT_MAX then
          _ ← upd_ctx (set_retry_after_delay n);
          retry_after_loop r EST_ERR_CA_ENROLL_RETRY
        else retry_after_loop r rv
      else retry_after_loop r rv
    else retry_after_loop r rv
  end.

Definition est_io_parse_http_retry_after_resp (hs : list (bytes * bytes)) : M EST_ERROR :=
  _ ← upd_ctx (set_retry_after_delay 0);
  _ ← upd_client (set_retry_after_date 0);
  retry_after_loop hs EST_ERR_INVALID_RETRY_VALUE.

(** ** Reading the channel *)

(** [est_ssl_read] into a buffer of [buf_max] bytes: [None] is a negative result.
    A peer that is silent runs into the poll's timeout. *)
Definition est_ssl_read (buf_max : Z) : M (option bytes) :=
  n ← get_net;
  match net_reads n with
  | [] => mret None
  | R_data d :: r =>
      if Z.of_nat (length d) <=? buf_max then _ ← put_net (set_net_reads r n); mret (Some d)
      else _ ← put_net (set_net_reads (R_data (drop (Z.to_nat buf_max) d) :: r) n);
           mret (Some (take (Z.to_nat buf_max) d))
  | R_none :: r => _ ← put_net (set_net_reads r n); mret (Some [])
  | R_error :: r | R_timeout :: r => _ ← put_net (set_net_reads r n); mret None
  end.

(** The reads of [est_io_read_raw], until one returns nothing or the buffer is
    full; every one takes an entry or a byte of the script. *)
Fixpoint read_raw_loop (fuel : nat) (buf : bytes) (buf_max : Z) : M (EST_ERROR * bytes) :=
  match fuel with
  | O => mret (EST_ERR_NONE, buf)
  | S f =>
    if Z.of_nat (length buf) <? buf_max then
      d ← est_ssl_read (buf_max - Z.of_nat (length buf));
      match d with
      | None => mret (EST_ERR_SSL_READ, buf)
      | Some [] => mret (EST_ERR_NONE, buf)
      | Some d => read_raw_loop f (buf ++ d) buf_max
      end
    else mret (EST_ERR_NONE, buf)
  end.

Definition est_io_read_raw (buf_max : Z) : M (EST_ERROR * bytes) :=
  n ← get_net;
  '(rv, buf) ← read_raw_loop (S (script_size (net_reads n))) [] buf_max;
  if bool_decide (rv = EST_ERR_NONE) && (Z.of_nat (length buf) =? buf_max) && net_peek n
  then mret (EST_ERR_READ_BUFFER_TOO_SMALL, buf) else mret (rv, buf).

(** ** The answer *)

(** What the caller gets: the error, the key and the certificate (or the payload),
    and their lengths. *)
Record io_response := {
  rsp_rv : EST_ERROR;
  rsp_key : option bytes;
  rsp_key_len : Z;
  rsp_cert : option bytes;
  rsp_cert_len : Z
}.

Definition rsp_error (rv : EST_ERROR) : io_response := Build_io_response rv None 0 None 0.

(** The error that a status means; a 202 and a 401 also change the context. *)
Definition http_status_error (status : Z) (buf : bytes) (hdrs : list (nat * nat)) : M EST_ERROR :=
  if status =? 200 then mret EST_ERR_NONE
  else if status =? 204 then mret EST_ERR_HTTP_NO_CONTENT
  else if status =? 404 then mret EST_ERR_HTTP_NOT_FOUND
  else if status =? 202 then est_io_parse_http_retry_after_resp (hdr_strings buf hdrs)
  else if status =? 400 then mret EST_ERR_HTTP_BAD_REQ
  else if status =? 401 then
    ctx ← get_ctx;
    match auth_mode ctx with
    | AUTH_DIGEST | AUTH_BASIC | AUTH_TOKEN => _ ← set_mode AUTH_FAIL; mret EST_ERR_AUTH_FAIL
    | _ => _ ← est_io_parse_http_auth_request buf hdrs; mret EST_ERR_AUTH_FAIL
    end
  else if status =? 423 then mret EST_ERR_HTTP_LOCKED
  else if (status =? 500) || (status =? 502) || (status =? 504) || (status =? -1)
       then mret EST_ERR_UNKNOWN
  else mret EST_ERR_HTTP_UNSUPPORTED.

(** The payload of an accepted answer to anything but a key generation. *)
Definition plain_payload (op : EST_OPERATION) (buf : bytes) (payload : nat)
    (hdrs : list (nat * nat)) : M io_response :=
  if ENABLE_BRSKI && (bool_decide (op = EST_OP_BRSKI_VOUCHER_STATUS)
                      || bool_decide (op = EST_OP_BRSKI_ENROLL_STATUS))
  then mret (rsp_error EST_ERR_NONE)
  else
    let '(rv, cl) := est_io_check_http_hdrs (hdr_strings buf hdrs) op in
    if negb (bool_decide (rv = EST_ERR_NONE)) then mret (rsp_error rv)
    else if cl >? EST_CA_MAX then mret (rsp_error EST_ERR_HTTP_UNSUPPORTED)
    else if cl <? 0 then mret (rsp_error EST_ERR_HTTP_UNSUPPORTED)
    else if negb (cl =? Z.of_nat (length buf) - Z.of_nat payload)
         then mret (rsp_error EST_ERR_HTTP_UNSUPPORTED)
    else if cl =? 0 then mret (rsp_error EST_ERR_NONE)
    else
      ok ← alloc;
      if negb ok then mret (Build_io_response EST_ERR_MALLOC None 0 None cl)
      else mret (Build_io_response EST_ERR_NONE None 0 (Some (drop payload buf)) cl).

(** The payloads of an accepted answer to a key generation.  A boundary that the
    payload does not contain is a pointer before NULL; and when one of the two
    buffers could not be allocated the other is freed here and again by the
    caller. *)
Definition keygen_payload (buf : bytes) (payload : nat) (boundary : option nat) : M io_response :=
  match boundary with
  | None => mret (rsp_error EST_ERR_NONE)
  | Some b =>
    let bound := cstr_at buf b in
    match strstr (cstr_at buf payload) bound with
    | None => null_deref
    | Some i =>
      '(rv, (key, key_len), (cert, cert_len)) ←
        parse_remaining_multipart_payload malloc_junk buf (payload + i - 2) bound;
      if negb (bool_decide (rv = EST_ERR_NONE)) then mret (Build_io_response rv key 0 cert 0)
      else match key, cert with
      | Some _, Some _ =>
          if (key_len <? EST_MIN_CLIENT_PKEY_LEN) || (cert_len <? EST_MIN_CLIENT_CERT_LEN)
          then mret (Build_io_response EST_ERR_ZERO_LENGTH_BUF key 0 cert 0)
          else mret (Build_io_response EST_ERR_NONE key key_len cert cert_len)
      | None, None => mret (Build_io_response EST_ERR_NONE None key_len None cert_len)
      | _, _ => null_deref
      end
    end
  end.

Definition est_io_get_response_internal (op : EST_OPERATION) : M io_response :=
  ok ← alloc;
  if negb ok then mret (rsp_error EST_ERR_MALLOC) else
  '(rv, raw) ← est_io_read_raw EST_CA_MAX;
  if negb (bool_decide (rv = EST_ERR_NONE)) then mret (rsp_error rv)
  else match raw with
  | [] => mret (rsp_error EST_ERR_HTTP_NOT_FOUND)
  | _ =>
    let http_status := est_io_parse_response_status_code (cstr raw) in
    _ ← upd_client (set_last_http_status http_status);
    hdrs_ok ← alloc;
    if bool_decide (op = EST_OP_SERVER_KEYGEN) then
      match (if hdrs_ok : bool then keygen_headers raw else None) with
      | None => mret (rsp_error EST_ERR_MULTIPART_PARSE)
      | Some (buf, payload, hdrs, boundary) =>
          rv ← http_status_error http_status buf hdrs;
          if bool_decide (rv = EST_ERR_NONE) then keygen_payload buf payload boundary
          else mret (rsp_error rv)
      end
    else
      let '(buf, payload, hdrs) := if hdrs_ok : bool then rsp_headers raw else (raw, 0%nat, []) in
      rv ← http_status_error http_status buf hdrs;
      if bool_decide (rv = EST_ERR_NONE) then plain_payload op buf payload hdrs
      else mret (rsp_error rv)
  end.

(** The two entry points differ in the buffers they pass on. *)
Definition est_io_get_response (op : EST_OPERATION) : M io_response :=
  est_io_get_response_internal op.

Definition est_io_get_multipart_response (op : EST_OPERATION) : M io_response :=
  est_io_get_response_internal op.

End ClientHttp.
