(* ===== verification/ClientRequest.v ===== *)
(** * ClientRequest: the requests of the client (est_client.c)

    The authentication header ([est_client_add_auth_hdr] with the digest and the
    credentials), the HTTP headers of the operations, and the functions that send
    a request over the TLS channel and take its answer.

    A request is built in a heap buffer of [EST_HTTP_REQ_TOTAL_LEN] bytes that the
    allocation leaves uninitialised ([malloc_junk]).  Printing or sending past the
    end of the buffer is undefined. *)

From S2P Require Import Prelude.
From S2P Require Import SafeC.
From S2P Require Import EstTypes.
From S2P Require Import EstState.
From S2P Require Import EstUtil.
From S2P Require Import HttpIO.
From S2P Require Import HttpAuth.
From S2P Require Import ClientHttp.

Section ClientRequest.
Context {L : OpenSSL}.
Variable ENABLE_BRSKI : bool.
(** [PACKAGE_STRING] of the build. *)
Variable EST_VER_STRING : bytes.
Variable malloc_junk : nat -> bytes.

(** ** The credentials *)

(** [RAND_bytes]: [None] is a failure. *)
Definition RAND_bytes : M (option bytes) :=
  n ← get_net;
  match net_rand n with
  | [] => mret None
  | r :: l => _ ← put_net (set_net_rand l n); mret r
  end.

(** Ask the application for credentials of a mode; the answer starts zeroed. *)
Definition ask_credentials (mode : EST_HTTP_AUTH_MODE) : M EST_HTTP_AUTH_HDR :=
  cl ← get_client;
  match auth_credentials_cb cl with
  | None => mret empty_ah
  | Some cb =>
      tr ← get_trace;
      _ ← emit (EvCredentialsCb mode);
      mret (snd (cb tr (set_ah_mode empty_ah mode)))
  end.

(** A credential as it is copied: nothing when it is missing or too long. *)
Definition credential (max : Z) (v : option bytes) : bytes :=
  match v with
  | None => []
  | Some s => if max <? strnlen_s (Some s) (max + 1) then [] else snd (strcpy_field max s)
  end.

Definition est_client_retrieve_credentials (mode : EST_HTTP_AUTH_MODE) : M (bytes * bytes) :=
  _ ← upd_client (fun c => set_password [] (set_userid [] c));
  ah ← ask_credentials mode;
  mret (credential MAX_UIDPWD (ah_user ah), credential MAX_UIDPWD (ah_pwd ah)).

(** The credentials of the configuration, or of the application without those. *)
Definition user_and_pwd (mode : EST_HTTP_AUTH_MODE) : M (bytes * bytes) :=
  cl ← get_client;
  match userid cl, password cl with
  | [], [] => est_client_retrieve_credentials mode
  | u, p => mret (u, p)
  end.

Definition est_client_generate_auth_digest (uri user pwd : bytes) : M (option bytes) :=
  ctx ← get_ctx;
  let colon := lit ":" in
  if negb EVP_DigestInit_md5 then mret None else
  let ha1 := md5_hex [bounded MAX_UIDPWD user; colon; bounded MAX_REALM (realm ctx); colon;
                      bounded MAX_UIDPWD pwd] in
  let ha2 := md5_hex [lit "POST"; colon; bounded MAX_REALM uri] in
  let digest := md5_hex [ha1; colon; bounded MAX_NONCE (s_nonce (client ctx)); colon;
                         lit "00000001"; colon; bounded MAX_NONCE (c_nonce (client ctx)); colon;
                         lit "auth"; colon; ha2] in
  ok ← alloc;
  mret (if ok : bool then Some digest else None).

(** ** The authentication header *)

(** [snprintf(hdr + hdr_len, EST_HTTP_REQ_TOTAL_LEN - hdr_len, ...)] on a header
    that is a string of the buffer. *)
Definition req_add (hdr text : bytes) : bytes :=
  snprintf_at hdr (EST_HTTP_REQ_TOTAL_LEN - Z.of_nat (length hdr)) text.

Definition basic_hdr (b64 : bytes) : bytes := lit "Authorization: Basic " ++ b64 ++ crlf.
Definition bearer_hdr (b64 : bytes) : bytes := lit "Authorization: Bearer " ++ b64 ++ crlf.
Definition digest_hdr (user realm nonce uri cnonce digest : bytes) : bytes :=
  lit "Authorization: Digest username=" ++ quoted user ++ lit ", realm=" ++ quoted realm
  ++ lit ", nonce=" ++ quoted nonce ++ lit ", uri=" ++ quoted uri ++ lit ", cnonce="
  ++ quoted cnonce ++ lit ", nc=00000001, qop=" ++ quoted (lit "auth") ++ lit ", response="
  ++ quoted digest ++ crlf.

(** The base64 text of a credential, empty when it cannot be encoded. *)
Definition b64_credential (s : bytes) (max : Z) : M bytes :=
  enc ← est_base64_encode s max false;
  mret (cstr (enc_dst enc)).

Definition est_client_add_auth_hdr (hdr uri : bytes) : M bytes :=
  ctx ← get_ctx;
  match auth_mode ctx with
  | AUTH_BASIC =>
      '(user, pwd) ← user_and_pwd AUTH_BASIC;
      let both := take (Z.to_nat (MAX_UIDPWD * 2 + 1)) (user ++ lit ":" ++ pwd) in
      b64 ← b64_credential both (2 * 2 * MAX_UIDPWD);
      mret (req_add hdr (basic_hdr b64))
  | AUTH_DIGEST =>
      r ← RAND_bytes;
      match r with
      | None => mret []
      | Some random =>
          _ ← upd_client (set_c_nonce (est_hex_to_str (take 8 random)));
          '(user, pwd) ← user_and_pwd AUTH_DIGEST;
          digest ← est_client_generate_auth_digest uri user pwd;
          c ← get_ctx;
          _ ← upd_client (set_c_nonce []);
          match digest with
          | None => mret []
          | Some d =>
              mret (req_add hdr (digest_hdr user (realm c) (s_nonce (client c)) uri
                                   (c_nonce (client c)) d))
          end
      end
  | AUTH_TOKEN =>
      ah ← ask_credentials AUTH_TOKEN;
      let token := match ah_auth_token ah with
                   | None => []
                   | Some t => if MAX_AUTH_TOKEN_LEN <? strnlen_s (Some t) (MAX_AUTH_TOKEN_LEN + 1)
                               then [] else cstr t
                   end in
      b64 ← b64_credential token (MAX_AUTH_TOKEN_LEN * 2);
      mret (req_add hdr (bearer_hdr b64))
  | AUTH_NONE | AUTH_FAIL => mret hdr
  end.

(** ** The headers of the operations *)

(** The path of an operation, with the path segment of the context. *)
Definition req_path (cl : EST_CLIENT_CTX) (operation : bytes) : bytes :=
  EST_PATH_PREFIX ++ (match uri_path_segment cl with Some s => lit "/" ++ s | None => [] end)
  ++ lit "/" ++ operation.

(** The lines all requests start with. *)
Definition req_start (cl : EST_CLIENT_CTX) (method operation : bytes) : bytes :=
  method ++ lit " " ++ req_path cl operation ++ lit " HTTP/1.1" ++ crlf
  ++ lit "User-Agent: " ++ EST_VER_STRING ++ crlf
  ++ lit "Connection: close" ++ crlf
  ++ lit "Host: " ++ est_server cl ++ lit ":" ++ fmt_d (est_port_num cl) ++ crlf
  ++ lit "Accept: */*" ++ crlf.

Definition pkcs10_lines (pkcs10_len : Z) : bytes :=
  lit "Content-Type: application/pkcs10" ++ crlf
  ++ lit "Content-Length: " ++ fmt_d pkcs10_len ++ crlf.

Definition req_text (text : bytes) : bytes := take (Z.to_nat (EST_HTTP_REQ_TOTAL_LEN - 1)) text.

(** A header that is too long is reported as the length 0. *)
Definition bounded_hdr (hdr : bytes) : bytes * Z :=
  let hdr_len := Z.of_nat (length hdr) in
  (hdr, if hdr_len >? EST_HTTP_HDR_MAX then 0 else hdr_len).

(** The header and its length. *)
Definition est_client_build_cacerts_header : M (bytes * Z) :=
  cl ← get_client;
  mret (bounded_hdr (req_text (req_start cl (lit "GET") EST_GET_CACERTS))).

Definition est_client_build_csr_header : M (bytes * Z) :=
  cl ← get_client;
  hdr ← est_client_add_auth_hdr (req_text (req_start cl (lit "GET") EST_GET_CSRATTRS))
          EST_CSR_ATTRS_URI;
  mret (bounded_hdr hdr).

(** The headers of the requests that carry a PKCS10; [bound] is what is made of
    the length. *)
Definition build_pkcs10_header (operation uri : bytes) (pkcs10_len : Z)
    (bound : bytes -> bytes * Z) : M (bytes * Z) :=
  cl ← get_client;
  hdr ← est_client_add_auth_hdr
          (req_text (req_start cl (lit "POST") operation ++ pkcs10_lines pkcs10_len)) uri;
  mret (bound hdr).

(** The check of [est_client_build_enroll_header] is against the whole buffer. *)
Definition est_client_build_enroll_header (pkcs10_len : Z) : M (bytes * Z) :=
  build_pkcs10_header EST_SIMPLE_ENROLL EST_SIMPLE_ENROLL_URI pkcs10_len
    (fun hdr => let n := strnlen_s (Some hdr) (EST_HTTP_REQ_TOTAL_LEN + 1) in
                (hdr, if n >? EST_HTTP_REQ_TOTAL_LEN then 0 else n)).

Definition est_client_build_reenroll_header (pkcs10_len : Z) : M (bytes * Z) :=
  build_pkcs10_header EST_SIMPLE_REENROLL EST_RE_ENROLL_URI pkcs10_len bounded_hdr.

Definition est_client_build_server_keygen_header (pkcs10_len : Z) : M (bytes * Z) :=
  build_pkcs10_header EST_SERVER_KEYGEN EST_KEYGEN_URI pkcs10_len
    (fun hdr => (hdr, strnlen_s (Some hdr) EST_HTTP_REQ_TOTAL_LEN)).

(** ** The request buffer *)

Definition fresh_buffer : bytes :=
  let n := Z.to_nat EST_HTTP_REQ_TOTAL_LEN in
  take n (malloc_junk n ++ replicate n 0).

(** Store a string and its NUL at the start of the buffer. *)
Definition put_string (buf : bytes) (s : bytes) : bytes := store buf 0 (s ++ [0]).

(** [snprintf(http_data + off, EST_HTTP_REQ_TOTAL_LEN - off, "\r\n")]. *)
Definition put_crlf (buf : bytes) (off : Z) : M bytes :=
  if off >? EST_HTTP_REQ_TOTAL_LEN then null_deref
  else if off =? EST_HTTP_REQ_TOTAL_LEN then mret buf
  else mret (store buf (Z.to_nat off)
               (take (Z.to_nat (EST_HTTP_REQ_TOTAL_LEN - off - 1)) crlf ++ [0])).

(** [memcpy_s(http_data + off, EST_HTTP_REQ_DATA_MAX, data, len)]. *)
Definition put_data (buf : bytes) (off : Z) (data : bytes) : M bytes :=
  if Z.of_nat (length data) >? EST_HTTP_REQ_DATA_MAX then mret buf
  else if off + Z.of_nat (length data) >? EST_HTTP_REQ_TOTAL_LEN then null_deref
  else mret (store buf (Z.to_nat off) data).

(** One [SSL_write] of the client: the scripted result. *)
Definition client_write (data : bytes) : M Z :=
  n ← get_net;
  let k := Z.of_nat (length data) in
  let rc := match net_write n with Some z => Z.min z k | None => k end in
  if rc <? 0 then mret rc
  else _ ← emit (EvClientWrite (take (Z.to_nat rc) data)); mret rc.

(** Finish the request in [buf] whose header is [hdr_len] long and send it; the
    result of the write. *)
Definition send_request (buf : bytes) (hdr_len : Z) (data : bytes) : M Z :=
  buf ← put_crlf buf hdr_len;
  let off := hdr_len + 2 in
  buf ← put_data buf off data;
  let off := off + Z.of_nat (length data) in
  buf ← put_crlf buf off;
  let off := off + 2 in
  _ ← upd_client (set_last_http_status 0);
  if off >? EST_HTTP_REQ_TOTAL_LEN then null_deref
  else client_write (take (Z.to_nat off) buf).

(** ** CSR attributes *)

(** The error and the attributes received. *)
Definition est_client_send_csrattrs_request : M (EST_ERROR * option bytes) :=
  ok ← alloc;
  if negb ok then mret (EST_ERR_MALLOC, None) else
  '(hdr, hdr_len) ← est_client_build_csr_header;
  if hdr_len =? 0 then mret (EST_ERR_HTTP_CANNOT_BUILD_HEADER, None) else
  n ← send_request (put_string fresh_buffer hdr) hdr_len [];
  if n <? 0 then mret (EST_ERR_SSL_WRITE, None) else
  rsp ← est_io_get_response ENABLE_BRSKI malloc_junk EST_OP_CSRATTRS;
  mret (rsp_rv rsp, if bool_decide (rsp_rv rsp = EST_ERR_NONE) then rsp_cert rsp else None).

(** ** Enrollment *)

(** What the caller's buffers hold after the exchange: the certificate and the
    key, when they were stored. *)
Record enroll_rsp := {
  er_rv : EST_ERROR;
  er_pkcs7 : option bytes;
  er_key : option bytes
}.

Definition enroll_error (rv : EST_ERROR) : enroll_rsp := Build_enroll_rsp rv None None.

(** [memcpy_s] of a received buffer of [len] bytes into one of [max]: nothing is
    stored when there is no buffer. *)
Definition received (max : Z) (buf : option bytes) (len : Z) : bytes :=
  match buf with
  | Some b => b
  | None => take (Z.to_nat len) (malloc_junk (Z.to_nat max))
  end.

(** The checks on an accepted answer. *)
Definition take_enroll_rsp (rsp : io_response) (est_op : EST_OPERATION) : enroll_rsp :=
  if rsp_cert_len rsp =? 0 then enroll_error EST_ERR_ZERO_LENGTH_BUF
  else if rsp_cert_len rsp >? EST_MAX_CLIENT_CERT_LEN then enroll_error EST_ERR_BUF_EXCEEDS_MAX_LEN
  else
    let pkcs7 := Some (received EST_MAX_CLIENT_CERT_LEN (rsp_cert rsp) (rsp_cert_len rsp)) in
    if bool_decide (est_op = EST_OP_SERVER_KEYGEN) then
      if rsp_key_len rsp =? 0 then Build_enroll_rsp EST_ERR_ZERO_LENGTH_BUF pkcs7 None
      else if rsp_key_len rsp >? EST_MAX_CLIENT_PKEY_LEN
           then Build_enroll_rsp EST_ERR_BUF_EXCEEDS_MAX_LEN pkcs7 None
      else Build_enroll_rsp EST_ERR_NONE pkcs7
             (Some (received EST_MAX_CLIENT_PKEY_LEN (rsp_key rsp) (rsp_key_len rsp)))
    else Build_enroll_rsp EST_ERR_NONE pkcs7 None.

(** The header of an operation; other operations leave the length 0. *)
Definition build_enroll_header (est_op : EST_OPERATION) (pkcs10_len : Z) : M (bytes * Z) :=
  match est_op with
  | EST_OP_SIMPLE_ENROLL => est_client_build_enroll_header pkcs10_len
  | EST_OP_SIMPLE_REENROLL => est_client_build_reenroll_header pkcs10_len
  | EST_OP_SERVER_KEYGEN => est_client_build_server_keygen_header pkcs10_len
  | _ => mret ([], 0)
  end.

(** [has_key] says whether the caller passed a buffer for the key. *)
Definition est_client_send_enroll_request_internal (bptr : bytes) (has_key : bool)
    (est_op : EST_OPERATION) : M enroll_rsp :=
  if negb has_key && bool_decide (est_op = EST_OP_SERVER_KEYGEN)
  then mret (enroll_error EST_ERR_BAD_MODE) else
  ok ← alloc;
  if negb ok then mret (enroll_error EST_ERR_MALLOC) else
  '(hdr, hdr_len) ← build_enroll_header est_op (Z.of_nat (length bptr));
  if hdr_len =? 0 then mret (enroll_error EST_ERR_HTTP_CANNOT_BUILD_HEADER) else
  n ← send_request (put_string fresh_buffer hdr) hdr_len bptr;
  if n <? 0 then mret (enroll_error EST_ERR_SSL_WRITE) else
  rsp ← (if bool_decide (est_op = EST_OP_SERVER_KEYGEN)
         then est_io_get_multipart_response ENABLE_BRSKI malloc_junk est_op
         else est_io_get_response ENABLE_BRSKI malloc_junk est_op);
  mret (if bool_decide (rsp_rv rsp = EST_ERR_NONE) then take_enroll_rsp rsp est_op
        else enroll_error (rsp_rv rsp)).

Definition est_client_send_enroll_request (bptr : bytes) (reenroll : bool) : M enroll_rsp :=
  est_client_send_enroll_request_internal bptr false
    (if reenroll then EST_OP_SIMPLE_REENROLL else EST_OP_SIMPLE_ENROLL).

Definition est_client_send_keygen_request (bptr : bytes) : M enroll_rsp :=
  est_client_send_enroll_request_internal bptr true EST_OP_SERVER_KEYGEN.

End ClientRequest.
