(* ===== verification/ClientCert.v ===== *)
(** * ClientCert: certificates on the client's side (est_client.c, est_ossl_util.c)

    The certificate requests the client makes ([est_generate_pkcs10],
    [est_client_clear_csr_pop]), the check of the CA certificates it retrieves
    ([verify_cacert_resp]), the conversion of those to PEM
    ([est_convert_p7b64_to_pem]), and the check that a generated key and its
    certificate belong together ([est_client_verify_key_and_cert]). *)

From S2P Require Import Prelude.
From S2P Require Import SafeC.
From S2P Require Import EstTypes.
From S2P Require Import EstState.
From S2P Require Import EstUtil.

Definition NID_pkcs7_signed : Z := 22.
Definition NID_pkcs7_signedAndEnveloped : Z := 24.

Section ClientCert.
Context {L : OpenSSL}.
Variable malloc_junk : nat -> bytes.

(** ** Certificate requests *)

(** The error and the request; [cp] is the challenge password. *)
Definition populate_x509_request (req : X509_REQ) (pkey : option EVP_PKEY) (cn cp : bytes)
    : M (EST_ERROR * X509_REQ) :=
  ctx ← get_ctx;
  match X509_REQ_set_version req 0 with
  | None => mret (EST_ERR_X509_VER, req)
  | Some req =>
    match X509_REQ_add_CN req cn with
    | None => mret (EST_ERR_X509_CN, req)
    | Some req =>
      let pop := csr_pop_required (client ctx) || client_force_pop (client ctx) in
      match (if pop then X509_REQ_add1_attr_by_NID req NID_pkcs9_challengePassword cp
             else Some req) with
      | None => mret (EST_ERR_X509_ATTR, req)
      | Some req =>
        match pkey with
        | None => mret (EST_ERR_NO_KEY, req)
        | Some k =>
          match X509_REQ_set_pubkey req k with
          | None => mret (EST_ERR_X509_PUBKEY, req)
          | Some req => mret (EST_ERR_NONE, req)
          end
        end
      end
    end
  end.

Definition est_generate_pkcs10 (cn cp : bytes) (pkey : option EVP_PKEY)
    : M (EST_ERROR * option X509_REQ) :=
  ctx ← get_ctx;
  match pkey with
  | None => mret (EST_ERR_INVALID_PARAMETERS, None)
  | Some key =>
    ok ← alloc;
    if negb ok then mret (EST_ERR_MALLOC, None) else
    '(rv, req) ← populate_x509_request X509_REQ_new pkey cn cp;
    if negb (bool_decide (rv = EST_ERR_NONE)) then mret (rv, None) else
    signed ← est_X509_REQ_sign req key (signing_digest ctx);
    match signed with
    | None => mret (EST_ERR_X509_SIGN, None)
    | Some req => mret (EST_ERR_NONE, Some req)
    end
  end.

Definition est_client_check_x509 (cert : X509) : EST_ERROR :=
  if X509_get0_signature cert then EST_ERR_NONE else EST_ERR_BAD_X509.

(** Every round deletes an attribute. *)
Fixpoint clear_pop_loop (fuel : nat) (csr : X509_REQ) : X509_REQ :=
  match fuel with
  | O => csr
  | S f =>
    let pos := X509_REQ_get_attr_by_NID csr NID_pkcs9_challengePassword (-1) in
    if pos >=? 0 then clear_pop_loop f (X509_REQ_delete_attr csr pos) else csr
  end.

Definition est_client_clear_csr_pop (csr : X509_REQ) : X509_REQ :=
  clear_pop_loop (S (X509_REQ_get_attr_count csr)) csr.

(** ** PKCS7 structures *)

(** The structure in a buffer of base64 text, by way of a base64 BIO.  The bytes of
    a failed read are what the buffer held, up to a NUL. *)
Definition b64_decode_cacerts (cacerts : bytes) : M (EST_ERROR * bytes) :=
  b64 ← alloc;
  if negb b64 then mret (EST_ERR_MALLOC, []) else
  inp ← alloc;
  if negb inp then mret (EST_ERR_MALLOC, []) else
  buf ← alloc;
  if negb buf then mret (EST_ERR_MALLOC, []) else
  let '(n, out) := b64_bio_read false cacerts (Z.of_nat (length cacerts)) in
  mret (EST_ERR_NONE, if n <? 0 then cstr (malloc_junk (length cacerts)) else out).

Definition create_PKCS7 (decoded : bytes) : M (EST_ERROR * option PKCS7) :=
  bio ← alloc;
  if negb bio then mret (EST_ERR_MALLOC, None) else
  match d2i_PKCS7 decoded with
  | None => mret (EST_ERR_LOAD_CACERTS, None)
  | Some p7 => mret (EST_ERR_NONE, Some p7)
  end.

(** The two types of PKCS7 structure that carry certificates. *)
Definition p7_has_certs (p7 : PKCS7) : bool :=
  (PKCS7_type p7 =? NID_pkcs7_signed) || (PKCS7_type p7 =? NID_pkcs7_signedAndEnveloped).

Definition PKCS7_to_stack (p7 : PKCS7) : option (list X509) :=
  if p7_has_certs p7 then PKCS7_certs p7 else None.

(** The error and the buffer with the certificates.  The copy of a text longer
    than the buffer is refused, and the length then exceeds the buffer. *)
Definition est_client_remove_crls (cacerts : bytes) (p7 : PKCS7) : M (EST_ERROR * bytes) :=
  if negb (p7_has_certs p7) then mret (EST_ERR_CACERT_VERIFICATION, cacerts)
  else if negb (PKCS7_has_crls p7) then mret (EST_ERR_NONE, cacerts)
  else
    b64 ← alloc;
    if negb b64 then mret (EST_ERR_MALLOC, cacerts) else
    out ← alloc;
    if negb out then mret (EST_ERR_MALLOC, cacerts) else
    let zeroed := replicate (length cacerts) 0 in
    let '(count, text) := i2d_PKCS7_b64 (PKCS7_remove_crls p7) in
    if count =? 0 then mret (EST_ERR_CACERT_VERIFICATION, zeroed)
    else match text with
    | [] => mret (EST_ERR_CACERT_VERIFICATION, zeroed)
    | _ => if (length cacerts <? length text)%nat then null_deref
           else mret (EST_ERR_NONE, text)
    end.

(** The self-signed certificates of a chain are the trusted ones. *)
Fixpoint trust_self_signed (store : X509_STORE) (stack : list X509) : X509_STORE :=
  match stack with
  | [] => store
  | c :: r => trust_self_signed (if X509_check_issued c c =? X509_V_OK
                                 then X509_STORE_add_cert store c else store) r
  end.

(** Verify every certificate of the chain: [None] when the context of the
    verification cannot be set up, else whether one failed. *)
Fixpoint verify_stack (store : X509_STORE) (stack todo : list X509) (failed : bool)
    : option bool :=
  match todo with
  | [] => Some failed
  | c :: r => if negb (X509_STORE_CTX_init store c stack) then None
              else verify_stack store stack r
                     (failed || (X509_verify_cert store c stack =? 0))
  end.

(** The error and the buffer; the chain is checked against its own roots. *)
Definition verify_cacert_resp (cacerts : bytes) : M (EST_ERROR * bytes) :=
  '(rv, decoded) ← b64_decode_cacerts cacerts;
  if negb (bool_decide (rv = EST_ERR_NONE)) then mret (rv, cacerts) else
  '(rv, p7) ← create_PKCS7 decoded;
  match p7 with
  | None => mret (rv, cacerts)
  | Some p7 =>
    match PKCS7_to_stack p7 with
    | None => mret (EST_ERR_CACERT_VERIFICATION, cacerts)
    | Some stack =>
      match X509_STORE_new with
      | None => mret (EST_ERR_MALLOC, cacerts)
      | Some store0 =>
        let store := trust_self_signed store0 stack in
        if negb X509_STORE_CTX_new then mret (EST_ERR_MALLOC, cacerts) else
        match verify_stack store stack stack false with
        | None => mret (EST_ERR_MALLOC, cacerts)
        | Some failed =>
          '(est_rc, cacerts) ← est_client_remove_crls cacerts p7;
          mret (if failed then EST_ERR_CACERT_VERIFICATION else est_rc, cacerts)
        end
      end
    end
  end.

(** ** est_convert_p7b64_to_pem (est_ossl_util.c) *)

(** The PEM text; [None] is a length of -1. *)
Definition est_convert_p7b64_to_pem (certs_p7 : bytes) : M (option bytes) :=
  '(rv, decoded) ← b64_decode_cacerts certs_p7;
  if negb (bool_decide (rv = EST_ERR_NONE)) then mret None else
  '(_, p7) ← create_PKCS7 decoded;
  match p7 with
  | None => mret None
  | Some p7 =>
    match PKCS7_to_stack p7 with
    | None => mret None
    | Some certs =>
      out ← alloc;
      if negb out then mret None else
      match PEM_write_certs certs with
      | [] => mret None
      | pem => ok ← alloc; mret (if ok : bool then Some pem else None)
      end
    end
  end.

(** ** Do a key and a certificate belong together? *)

(** The base64 text of [len] bytes is decoded into a buffer of that size; a failed
    allocation of the certificate's buffer is not noticed. *)
Definition est_client_get_pkcs7_from_buf (cert_buffer : bytes) : M (EST_ERROR * option PKCS7) :=
  ok ← alloc;
  if negb ok then null_deref else
  '(n, decoded) ← est_base64_decode cert_buffer (Z.of_nat (length cert_buffer));
  if n <=? 0 then mret (EST_ERR_BAD_BASE64, None)
  else match d2i_PKCS7 decoded with
  | None => mret (EST_ERR_BAD_X509, None)
  | Some p7 => mret (EST_ERR_NONE, Some p7)
  end.

Definition est_client_get_pkey_from_buf (key_buffer : bytes) : M (EST_ERROR * option EVP_PKEY) :=
  ok ← alloc;
  if negb ok then mret (EST_ERR_MALLOC, None) else
  '(n, decoded) ← est_base64_decode key_buffer (Z.of_nat (length key_buffer));
  if n <=? 0 then mret (EST_ERR_BAD_BASE64, None)
  else match d2i_PrivateKey decoded with
  | None => mret (EST_ERR_BAD_KEY, None)
  | Some k => mret (EST_ERR_NONE, Some k)
  end.

Definition est_client_verify_key_and_cert (new_key new_cert : bytes) : M EST_ERROR :=
  '(_, p7) ← est_client_get_pkcs7_from_buf new_cert;
  match p7 with
  | None => mret EST_ERR_VALIDATION
  | Some p7 =>
    match PKCS7_to_stack p7 with
    | None | Some [] => mret EST_ERR_VALIDATION
    | Some (x509_cert :: _) =>
      '(_, key) ← est_client_get_pkey_from_buf new_key;
      match key with
      | None => mret EST_ERR_VALIDATION
      | Some der_key =>
        ok ← alloc;
        if negb ok then mret EST_ERR_VALIDATION
        else if SSL_CTX_use_certificate x509_cert =? 0 then mret EST_ERR_VALIDATION
        else if SSL_CTX_use_PrivateKey der_key =? 0 then mret EST_ERR_VALIDATION
        else if negb (SSL_CTX_check_private_key x509_cert der_key) then mret EST_ERR_VALIDATION
        else mret EST_ERR_NONE
      end
    end
  end.

(** [est_client_set_cert_and_key]: does the identity of the client hold together? *)
Definition est_client_set_cert_and_key (cert : X509) (key : EVP_PKEY) : bool :=
  if SSL_CTX_use_certificate cert <=? 0 then false
  else if SSL_CTX_use_PrivateKey key <=? 0 then false
  else SSL_CTX_check_private_key cert key.

End ClientCert.
