(* ===== verification/Client.v ===== *)
(** * Client: the operations of the client (est_client.c)

    The connection to the server and its end ([est_client_connect],
    [est_client_disconnect]) and the operations an application calls: CA
    certificates, CSR attributes, enrollment and re-enrollment, with and without a
    key the server generates, and the whole sequence of [est_client_provision_cert].

    A pointer the application passes for a length is valid; what is written through
    it is part of the result ([None] leaves it as it was).  A NULL context, which
    every call refuses, is not a value of the model. *)

From S2P Require Import Prelude.
From S2P Require Import SafeC.
From S2P Require Import EstTypes.
From S2P Require Import EstState.
From S2P Require Import EstUtil.
From S2P Require Import ServerCsr.
From S2P Require Import ServerConfig.
From S2P Require Import ClientHost.
From S2P Require Import ClientHttp.
From S2P Require Import ClientRequest.
From S2P Require Import ClientCert.

Section Client.
Context {L : OpenSSL}.
Variable ENABLE_BRSKI : bool.
Variable EST_VER_STRING : bytes.
Variable malloc_junk : nat -> bytes.

(** ** The connection *)

(** The options for [tcw_connect]; [proxy_auth] keeps the two supported methods. *)
Definition connect_opts (cl : EST_CLIENT_CTX) : tcw_opts_t :=
  let p := client_proxy cl in
  if negb (use_proxy cl) then Build_tcw_opts_t EST_CLIENT_PROXY_NONE [] 0 None 0 else
  match proxy_username p, proxy_password p with
  | (_ :: _) as user, (_ :: _) as pwd =>
      if proxy_auth p =? EST_CLIENT_PROXY_AUTH_NONE
      then Build_tcw_opts_t (proxy_proto p) (proxy_server p) (proxy_port p) None 0
      else Build_tcw_opts_t (proxy_proto p) (proxy_server p) (proxy_port p) (Some (user, pwd))
             (Z.lor (Z.land (proxy_auth p) EST_CLIENT_PROXY_AUTH_BASIC)
                    (Z.land (proxy_auth p) EST_CLIENT_PROXY_AUTH_NTLM))
  | _, _ => Build_tcw_opts_t (proxy_proto p) (proxy_server p) (proxy_port p) None 0
  end.

(** The next connection attempt of the script; nothing answers past its end. *)
Definition next_connection : M (option connection) :=
  n ← get_net;
  match net_conns n with
  | [] => mret None
  | c :: r =>
      _ ← put_net (Build_network r (net_rand n) (cn_write c) (cn_reads c) (cn_peek c));
      mret (Some c)
  end.

(** The session is kept for a later resumption. *)
Definition est_client_disconnect (ssl : option SSL) : M unit :=
  match ssl with
  | None => mret tt
  | Some s =>
      _ ← upd_client (set_sess (Some (SSL_get1_session s)));
      cl ← get_client;
      if tcw_sock_connected cl then
        _ ← emit EvDisconnect;
        upd_client (set_tcw_sock_connected false)
      else mret tt
  end.

(** The error and the TLS session.  A failed handshake leaves a session the caller
    frees; the model keeps none. *)
Definition est_client_connect : M (EST_ERROR * option SSL) :=
  cl ← get_client;
  _ ← emit (EvConnect (connect_opts cl) (est_server cl) (est_port_num cl));
  conn ← next_connection;
  match conn with
  | None => mret (EST_ERR_IP_CONNECT, None)
  | Some c =>
    match cn_tcw c with
    | TCW_ERR_RESOLV => mret (EST_ERR_IP_GETADDR, None)
    | TCW_OK =>
      if negb (cn_keepalive c) then mret (EST_ERR_IP_CONNECT, None)
      else if negb (cn_bio c) then mret (EST_ERR_IP_CONNECT, None)
      else if negb (cn_ssl_new c) then mret (EST_ERR_SSL_NEW, None)
      else match cn_ssl c with
      | None => mret (EST_ERR_SSL_CONNECT, None)
      | Some ssl =>
          _ ← upd_client (set_tcw_sock_connected true);
          rv ← est_client_check_fqdn ssl;
          if bool_decide (rv = EST_ERR_NONE) then mret (EST_ERR_NONE, Some ssl)
          else _ ← est_client_disconnect (Some ssl); mret (EST_ERR_FQDN_MISMATCH, None)
      end
    | _ => mret (EST_ERR_IP_CONNECT, None)
    end
  end.

(** ** One enrollment over an open connection *)

(** What is written through [pkcs7_len] and [pkcs8_len]. *)
Record lens := { pkcs7_len : option Z; pkcs8_len : option Z }.

Definition no_lens : lens := Build_lens None None.

(** The receive buffers of [est_client_enroll_req]. *)
Definition alloc_receive (est_op : EST_OPERATION) : M bool :=
  ok ← alloc;
  if negb ok then mret false
  else if bool_decide (est_op = EST_OP_SERVER_KEYGEN) then alloc else mret true.

(** Copy a received text to the context. *)
Definition keep_received (set : option bytes -> EST_CLIENT_CTX -> EST_CLIENT_CTX) (buf : bytes)
    : M bool :=
  ok ← alloc;
  _ ← upd_client (set (if ok : bool then Some buf else None));
  mret ok.

(** The accepted key of a key generation.  The key and the certificate stay in the
    context when they do not belong together. *)
Definition keep_key (cert_buf key_buf : bytes) : M (EST_ERROR * lens) :=
  let cert_len := Some (Z.of_nat (length cert_buf)) in
  match key_buf with
  | [] => mret (EST_ERR_ZERO_LENGTH_BUF, Build_lens cert_len None)
  | _ =>
    ok ← keep_received set_server_gen_client_priv_key key_buf;
    if negb ok then mret (EST_ERR_MALLOC, Build_lens cert_len None) else
    rv ← est_client_verify_key_and_cert key_buf cert_buf;
    if negb (bool_decide (rv = EST_ERR_NONE))
    then mret (EST_ERR_VALIDATION, Build_lens (Some 0) (Some 0))
    else mret (EST_ERR_NONE, Build_lens cert_len (Some (Z.of_nat (length key_buf))))
  end.

Definition est_client_enroll_req (req : X509_REQ) (est_op : EST_OPERATION)
    : M (EST_ERROR * lens) :=
  b64 ← alloc;
  if negb b64 then mret (EST_ERR_MALLOC, no_lens) else
  p10out ← alloc;
  if negb p10out then mret (EST_ERR_MALLOC, no_lens) else
  let bptr := i2d_X509_REQ_b64 req in
  bufs ← alloc_receive est_op;
  if negb bufs then mret (EST_ERR_MALLOC, no_lens) else
  rsp ← (if bool_decide (est_op = EST_OP_SERVER_KEYGEN)
         then est_client_send_keygen_request ENABLE_BRSKI EST_VER_STRING malloc_junk bptr
         else est_client_send_enroll_request ENABLE_BRSKI EST_VER_STRING malloc_junk bptr
                (negb (bool_decide (est_op = EST_OP_SIMPLE_ENROLL))));
  if negb (bool_decide (er_rv rsp = EST_ERR_NONE)) then mret (er_rv rsp, no_lens) else
  let cert_buf := default [] (er_pkcs7 rsp) in
  ok ← keep_received set_enrolled_client_cert cert_buf;
  if negb ok then mret (EST_ERR_MALLOC, no_lens)
  else if bool_decide (est_op = EST_OP_SERVER_KEYGEN)
  then keep_key cert_buf (default [] (er_key rsp))
  else mret (EST_ERR_NONE, Build_lens (Some (Z.of_nat (length cert_buf))) None).

(** The error, the lengths and the request, whose old proof of possession is
    removed, and which is signed again. *)
Definition est_client_enroll_pkcs10 (ssl : SSL) (csr : X509_REQ) (est_op : EST_OPERATION)
    (priv_key : EVP_PKEY) : M (EST_ERROR * lens * X509_REQ) :=
  ctx ← get_ctx;
  let csr := est_client_clear_csr_pop csr in
  pop ← (if csr_pop_required (client ctx) || client_force_pop (client ctx) then
           tls_uid ← est_get_tls_uid ssl true;
           match tls_uid with
           | None => mret (EST_ERR_AUTH_FAIL_TLSUID, csr)
           | Some uid =>
             match X509_REQ_add1_attr_by_NID csr NID_pkcs9_challengePassword uid with
             | None => mret (EST_ERR_X509_ATTR, csr)
             | Some csr => mret (EST_ERR_NONE, csr)
             end
           end
         else mret (EST_ERR_NONE, csr));
  let '(rv, csr) := pop : EST_ERROR * X509_REQ in
  if negb (bool_decide (rv = EST_ERR_NONE)) then mret (rv, no_lens, csr) else
  signed ← est_X509_REQ_sign csr priv_key (signing_digest ctx);
  match signed with
  | None => mret (EST_ERR_X509_SIGN, no_lens, csr)
  | Some csr =>
      '(rv, ls) ← est_client_enroll_req csr est_op;
      mret (rv, ls, csr)
  end.

(** The request is made for the TLS session at hand. *)
Definition est_client_enroll_cn (ssl : SSL) (cn : bytes) (est_op : EST_OPERATION)
    (pkey : EVP_PKEY) : M (EST_ERROR * lens) :=
  tls_uid ← est_get_tls_uid ssl true;
  match tls_uid with
  | None => mret (EST_ERR_AUTH_FAIL_TLSUID, no_lens)
  | Some uid =>
      '(rv, pkcs10) ← est_generate_pkcs10 cn uid (Some pkey);
      match pkcs10 with
      | None => mret (rv, no_lens)
      | Some req => est_client_enroll_req req est_op
      end
  end.

(** ** The attempts of an enrollment *)

(** The modes the client answers a challenge of. *)
Definition http_auth_mode (m : EST_HTTP_AUTH_MODE) : bool :=
  match m with AUTH_DIGEST | AUTH_BASIC | AUTH_TOKEN => true | _ => false end.

(** A failed second attempt with a token drops what the server said about it. *)
Definition clear_token_errors : M unit :=
  upd_client (fun c => match token_error c, token_error_desc c with
                       | [], [] => c
                       | _, _ => set_token_error_desc [] (set_token_error [] c)
                       end).

(** Connect, make an attempt, disconnect; after a challenge of a known mode connect
    and make a second attempt.  [s] is what the attempts share; the last component of
    the result says that no connection failed and the mode was usable. *)
Definition with_http_auth {S} (attempt : SSL -> S -> M (EST_ERROR * lens * S)) (clear : bool)
    (s : S) : M (EST_ERROR * lens * bool) :=
  '(rv, ssl) ← est_client_connect;
  match ssl with
  | None => mret (rv, no_lens, false)
  | Some c =>
      '(rv, ls, s) ← attempt c s;
      _ ← est_client_disconnect (Some c);
      ctx ← get_ctx;
      if bool_decide (rv = EST_ERR_AUTH_FAIL) && http_auth_mode (auth_mode ctx) then
        if bool_decide (auth_mode ctx = AUTH_DIGEST) && FIPS_mode
        then mret (EST_ERR_BAD_MODE, ls, false) else
        '(rv, ssl) ← est_client_connect;
        match ssl with
        | None => mret (rv, ls, false)
        | Some c =>
            '(rv, ls, _) ← attempt c s;
            _ ← (if clear && negb (bool_decide (rv = EST_ERR_NONE)) then clear_token_errors
                 else mret tt);
            _ ← est_client_disconnect (Some c);
            mret (rv, ls, true)
        end
      else mret (rv, ls, true)
  end.

Definition est_client_enroll_internal (cn : bytes) (new_public_key : option EVP_PKEY)
    (est_op : EST_OPERATION) : M (EST_ERROR * lens) :=
  cl ← get_client;
  if negb (est_client_initialized cl) then mret (EST_ERR_CLIENT_NOT_INITIALIZED, no_lens) else
  match new_public_key with
  | None => mret (EST_ERR_NO_KEY, no_lens)
  | Some key =>
      '(rv, ls, done) ← with_http_auth
         (fun ssl (_ : unit) => '(rv, ls) ← est_client_enroll_cn ssl cn est_op key;
                                mret (rv, ls, tt)) true tt;
      _ ← (if done : bool then upd_ctx (set_auth_mode AUTH_NONE) else mret tt);
      mret (rv, ls)
  end.

Definition est_client_server_keygen_enroll (cn : bytes) (new_public_key : option EVP_PKEY)
    : M (EST_ERROR * lens) :=
  est_client_enroll_internal cn new_public_key EST_OP_SERVER_KEYGEN.

Definition est_client_enroll (cn : bytes) (new_public_key : option EVP_PKEY)
    : M (EST_ERROR * lens) :=
  est_client_enroll_internal cn new_public_key EST_OP_SIMPLE_ENROLL.

(** The request that renews a certificate. *)
Definition reenroll_csr (cert : X509) : EST_ERROR * option X509_REQ :=
  match X509_to_X509_REQ cert with
  | None => (EST_ERR_NO_CSR, None)
  | Some req =>
      if X509v3_get_ext_count cert =? 0 then (EST_ERR_NONE, Some req)
      else (EST_ERR_NONE, X509_REQ_add_extensions req cert)
  end.

(** Extensions that cannot be copied end the operation with the error of the last
    check, which is [EST_ERR_NONE]. *)
Definition est_client_reenroll (cert : option X509) (priv_key : option EVP_PKEY)
    : M (EST_ERROR * lens) :=
  match cert, priv_key with
  | None, _ => mret (EST_ERR_NO_CERT, no_lens)
  | _, None => mret (EST_ERR_NO_KEY, no_lens)
  | Some c, Some key =>
    cl ← get_client;
    if negb (est_client_initialized cl) then mret (EST_ERR_CLIENT_NOT_INITIALIZED, no_lens) else
    let rv := est_client_check_x509 c in
    if negb (bool_decide (rv = EST_ERR_NONE)) then mret (rv, no_lens)
    else if X509_check_private_key c key <=? 0 then mret (EST_ERR_CLIENT_INVALID_KEY, no_lens)
    else match reenroll_csr c with
    | (rv, None) => mret (rv, no_lens)
    | (_, Some req) =>
        '(rv, ls, _) ← with_http_auth
           (fun ssl req => est_client_enroll_pkcs10 ssl req EST_OP_SIMPLE_REENROLL key) true req;
        mret (rv, ls)
    end
  end.

Definition est_client_enroll_csr_internal (csr : option X509_REQ) (priv_key : option EVP_PKEY)
    (est_op : EST_OPERATION) : M (EST_ERROR * lens) :=
  match csr with
  | None => mret (EST_ERR_NO_CSR, no_lens)
  | Some req =>
    cl ← get_client;
    if negb (est_client_initialized cl) then mret (EST_ERR_CLIENT_NOT_INITIALIZED, no_lens) else
    '(rv, ls, _) ← with_http_auth
       (fun ssl req =>
          match priv_key with
          | Some key => est_client_enroll_pkcs10 ssl req est_op key
          | None => '(rv, ls) ← est_client_enroll_req req est_op; mret (rv, ls, req)
          end) false req;
    mret (rv, ls)
  end.

Definition est_client_enroll_csr (csr : option X509_REQ) (priv_key : option EVP_PKEY)
    : M (EST_ERROR * lens) :=
  est_client_enroll_csr_internal csr priv_key EST_OP_SIMPLE_ENROLL.

Definition est_client_server_keygen_enroll_csr (csr : option X509_REQ)
    (priv_key : option EVP_PKEY) : M (EST_ERROR * lens) :=
  match priv_key with
  | None => mret (EST_ERR_NO_KEY, no_lens)
  | Some _ => est_client_enroll_csr_internal csr priv_key EST_OP_SERVER_KEYGEN
  end.

(** ** Handing out what was received *)

Definition initialized_only {A} (f : EST_CLIENT_CTX -> M (EST_ERROR * option A))
    : M (EST_ERROR * option A) :=
  cl ← get_client;
  if negb (est_client_initialized cl) then mret (EST_ERR_CLIENT_NOT_INITIALIZED, None) else f cl.

(** [buf] says whether the application passed a buffer; the result is what is
    copied to it. *)
Definition est_client_copy_enrolled_cert (buf : bool) : M (EST_ERROR * option bytes) :=
  initialized_only (fun cl =>
    if negb buf then mret (EST_ERR_INVALID_PARAMETERS, None) else
    match enrolled_client_cert cl with
    | None => mret (EST_ERR_NO_CERTIFICATE, None)
    | Some cert => _ ← upd_client (set_enrolled_client_cert None); mret (EST_ERR_NONE, Some cert)
    end).

Definition est_client_copy_server_generated_key (buf : bool) : M (EST_ERROR * option bytes) :=
  initialized_only (fun cl =>
    if negb buf then mret (EST_ERR_INVALID_PARAMETERS, None) else
    match server_gen_client_priv_key cl with
    | None => mret (EST_ERR_NO_KEY, None)
    | Some key => _ ← upd_client (set_server_gen_client_priv_key None);
                  mret (EST_ERR_NONE, Some key)
    end).

(** The certificates stay in the context, which is no longer initialised. *)
Definition est_client_copy_cacerts (buf : bool) : M (EST_ERROR * option bytes) :=
  initialized_only (fun cl =>
    if negb buf then mret (EST_ERR_INVALID_PARAMETERS, None) else
    match retrieved_ca_certs cl with
    | None => mret (EST_ERR_NO_CERTIFICATE, None)
    | Some certs => _ ← upd_client (set_est_client_initialized false);
                    mret (EST_ERR_NONE, Some certs)
    end).

(** ** CA certificates *)

(** The error and the length, when it is written. *)
Definition keep_cacerts (buf : option bytes) (len : Z) : M (EST_ERROR * option Z) :=
  if len =? 0 then mret (EST_ERR_ZERO_LENGTH_BUF, None)
  else if len + 1 >? EST_CA_MAX then mret (EST_ERR_BUF_EXCEEDS_MAX_LEN, None)
  else
    ok ← keep_received set_retrieved_ca_certs (default [] buf);
    if negb ok then mret (EST_ERR_MALLOC, None) else
    '(rv, certs) ← verify_cacert_resp malloc_junk (default [] buf);
    if bool_decide (rv = EST_ERR_NONE) then
      _ ← upd_client (set_retrieved_ca_certs (Some certs));
      mret (EST_ERR_NONE, Some (Z.of_nat (length certs)))
    else _ ← upd_client (set_retrieved_ca_certs None); mret (rv, Some 0).

Definition est_client_send_cacerts_request : M (EST_ERROR * option Z) :=
  ok ← alloc;
  if negb ok then mret (EST_ERR_MALLOC, None) else
  '(hdr, hdr_len) ← est_client_build_cacerts_header EST_VER_STRING;
  if hdr_len =? 0 then mret (EST_ERR_HTTP_CANNOT_BUILD_HEADER, None) else
  n ← send_request (put_string (fresh_buffer malloc_junk) hdr) hdr_len [];
  if n <? 0 then mret (EST_ERR_SSL_WRITE, None) else
  rsp ← est_io_get_response ENABLE_BRSKI malloc_junk EST_OP_CACERTS;
  if bool_decide (rsp_rv rsp = EST_ERR_NONE) then keep_cacerts (rsp_cert rsp) (rsp_cert_len rsp)
  else mret (rsp_rv rsp, None).

(** [len_given]: did the application pass a pointer for the length? *)
Definition est_client_get_cacerts (len_given : bool) : M (EST_ERROR * option Z) :=
  initialized_only (fun _ =>
    if negb len_given then mret (EST_ERR_INVALID_PARAMETERS, None) else
    '(rv, ssl) ← est_client_connect;
    match ssl with
    | None => mret (rv, None)
    | Some c =>
        '(rv, len) ← est_client_send_cacerts_request;
        _ ← est_client_disconnect (Some c);
        mret (rv, len)
    end).

(** ** CSR attributes *)

(** The received attributes are kept when they can be parsed. *)
Definition keep_csrattrs (new_csr_data : bytes) : M (EST_ERROR * option bytes) :=
  ok ← keep_received set_retrieved_csrattrs new_csr_data;
  if negb ok then mret (EST_ERR_MALLOC, None) else
  '(rv, pop_required) ← est_asn1_parse_attributes (Some new_csr_data)
                          (Z.of_nat (length new_csr_data)) false;
  _ ← (if bool_decide (rv = EST_ERR_NONE) then mret tt
       else upd_client (set_retrieved_csrattrs None));
  _ ← upd_client (set_csr_pop_required pop_required);
  mret (rv, if bool_decide (rv = EST_ERR_NONE) then Some new_csr_data else None).

(** The error and the attributes; [given] says whether the application passed both
    pointers. *)
Definition est_client_get_csrattrs (given : bool) : M (EST_ERROR * option bytes) :=
  if negb given then mret (EST_ERR_INVALID_PARAMETERS, None) else
  '(rv, ssl) ← est_client_connect;
  match ssl with
  | None => mret (rv, None)
  | Some c =>
      _ ← upd_client (set_retrieved_csrattrs None);
      '(rv, new_csr_data) ← est_client_send_csrattrs_request ENABLE_BRSKI EST_VER_STRING
                              malloc_junk;
      _ ← est_client_disconnect (Some c);
      if negb (bool_decide (rv = EST_ERR_NONE)) then mret (rv, None) else
      match new_csr_data with
      | None => mret (EST_ERR_NONE, None)
      | Some d => keep_csrattrs d
      end
  end.

(** ** The whole sequence *)

(** Take the retrieved certificates as the new trust anchors. *)
Definition load_new_trust_anchors : M EST_ERROR :=
  ok ← alloc;
  if negb ok then mret EST_ERR_MALLOC else
  '(rv, p7) ← est_client_copy_cacerts true;
  if negb (bool_decide (rv = EST_ERR_NONE)) then mret rv else
  pem ← est_convert_p7b64_to_pem malloc_junk (default [] p7);
  match pem with
  | None | Some [] => mret EST_ERR_PEM_READ
  | Some pem => est_load_trusted_certs (Some pem)
  end.

(** The error, the lengths of the certificate and of the CA certificates; [given]
    says whether the application passed the two pointers. *)
Definition est_client_provision_cert (cn : bytes) (given : bool)
    (new_public_key : option EVP_PKEY) : M (EST_ERROR * option Z * option Z) :=
  cl ← get_client;
  if negb given then mret (EST_ERR_INVALID_PARAMETERS, None, None)
  else if negb (est_client_initialized cl)
  then mret (EST_ERR_CLIENT_NOT_INITIALIZED, None, None) else
  match new_public_key with
  | None => mret (EST_ERR_NO_KEY, None, None)
  | Some key =>
      '(rv, ca_cert_len) ← est_client_get_cacerts true;
      if negb (bool_decide (rv = EST_ERR_NONE)) then mret (rv, None, ca_cert_len) else
      rv ← load_new_trust_anchors;
      if negb (bool_decide (rv = EST_ERR_NONE)) then mret (rv, None, ca_cert_len) else
      _ ← upd_client (set_est_client_initialized true);
      '(rv, _) ← est_client_get_csrattrs true;
      if negb (bool_decide (rv = EST_ERR_NONE)) && negb (bool_decide (rv = EST_ERR_HTTP_NO_CONTENT))
      then mret (rv, None, ca_cert_len) else
      '(rv, ls) ← est_client_enroll cn (Some key);
      mret (rv, pkcs7_len ls, ca_cert_len)
  end.

End Client.
