(* ===== verification/Calendar.v ===== *)
(** The calendar of the C library, as far as the client uses it: [gmtime_r] and [strftime]
    write the date of a voucher request, and the dates of Retry-After count the days
    back.

    The Gregorian calendar repeats after 400 years, which have [era_days] days: a day is
    found in its year by a search from the first year of its era.

    [years_days] has the closed form of the leap year rule, and [gmtime] splits a time
    into the fields of the date that [days_from_1970] counts back to it. *)

From S2P Require Import Prelude.

Definition is_leap (y : Z) : bool :=
  (y mod 4 =? 0) && (negb (y mod 100 =? 0) || (y mod 400 =? 0)).

Definition year_days (y : Z) : Z := if is_leap y then 366 else 365.

(** The months, counted from 0. *)
Definition month_days (y m : Z) : Z :=
  if m =? 1 then (if is_leap y then 29 else 28)
  else if (m =? 3) || (m =? 5) || (m =? 8) || (m =? 10) then 30 else 31.

(** The days of [n] years from [y] on, and of the first [n] months of a year. *)
Fixpoint years_days (y : Z) (n : nat) : Z :=
  match n with
  | O => 0
  | S n' => year_days y + years_days (y + 1) n'
  end.

Fixpoint months_days (y : Z) (n : nat) : Z :=
  match n with
  | O => 0
  | S n' => months_days y n' + month_days y (Z.of_nat n')
  end.

(** The number of days from 1970-01-01 to a date of a later year. *)
Definition days_from_1970 (y m mday : Z) : Z :=
  years_days 1970 (Z.to_nat (y - 1970)) + months_days y (Z.to_nat m) + (mday - 1).

(** The fields of [struct tm] that are used; [tm_year] counts from 1900. *)
Record tm := Tm {
  tm_sec : Z;
  tm_min : Z;
  tm_hour : Z;
  tm_mday : Z;
  tm_mon : Z;
  tm_year : Z;
}.

Definition era_days : Z := 146097.

(** The year and the day in it, [d] days after the start of year [y]. *)
Fixpoint find_year (fuel : nat) (y d : Z) : Z * Z :=
  match fuel with
  | O => (y, d)
  | S f => if d <? year_days y then (y, d) else find_year f (y + 1) (d - year_days y)
  end.

Fixpoint find_month (fuel : nat) (y m d : Z) : Z * Z :=
  match fuel with
  | O => (m, d)
  | S f => if d <? month_days y m then (m, d) else find_month f y (m + 1) (d - month_days y m)
  end.

Definition gmtime (t : Z) : tm :=
  let days := t / 86400 in
  let secs := t mod 86400 in
  let '(y, yday) := find_year 400 (1970 + 400 * (days / era_days)) (days mod era_days) in
  let '(m, d) := find_month 12 y 0 yday in
  Tm (secs mod 60) (secs / 60 mod 60) (secs / 3600) (d + 1) m (y - 1900).

(** [%02d] of a number below 100. *)
Definition fmt_02d (n : Z) : bytes := [48 + n / 10; 48 + n mod 10].

(** [strftime] with the format [%Y-%m-%dT%H:%M:%SZ]. *)
Definition strftime_iso (x : tm) : bytes :=
  fmt_d (tm_year x + 1900) ++ lit "-" ++ fmt_02d (tm_mon x + 1) ++ lit "-" ++ fmt_02d (tm_mday x)
  ++ lit "T" ++ fmt_02d (tm_hour x) ++ lit ":" ++ fmt_02d (tm_min x) ++ lit ":"
  ++ fmt_02d (tm_sec x) ++ lit "Z".

Example strftime_iso_example :
  strftime_iso (gmtime 1582934400) = lit "2020-02-29T00:00:00Z".
Proof. vm_compute. reflexivity. Qed.

(** The leap years up to a year. *)
Definition leaps (y : Z) : Z := y / 4 - y / 100 + y / 400.

Lemma div_step y k : 0 < k -> y / k - (y - 1) / k = if y mod k =? 0 then 1 else 0.
Proof.
  intros Hk. pose proof (Z.div_mod y k ltac:(lia)) as E. pose proof (Z.mod_pos_bound y k Hk) as B.
  destruct (Z.eqb_spec (y mod k) 0) as [Hz|Hz].
  - assert ((y - 1) / k = y / k - 1) as ->; [|lia].
    symmetry. apply (Z.div_unique _ _ _ (k - 1)); lia.
  - assert ((y - 1) / k = y / k) as ->; [|lia].
    symmetry. apply (Z.div_unique _ _ _ (y mod k - 1)); lia.
Qed.

Lemma mod_multiple y k j : 0 < k -> 0 < j -> y mod (k * j) = 0 -> y mod k = 0.
Proof.
  intros Hk Hj H. apply Z.mod_divide; [lia|]. apply Z.mod_divide in H; [|lia].
  destruct H as [q ->]. exists (q * j). lia.
Qed.

Lemma year_days_leaps y : year_days y = 365 + (leaps y - leaps (y - 1)).
Proof.
  unfold year_days, is_leap, leaps.
  pose proof (div_step y 4 ltac:(lia)) as E4. pose proof (div_step y 100 ltac:(lia)) as E100.
  pose proof (div_step y 400 ltac:(lia)) as E400.
  pose proof (mod_multiple y 4 25 ltac:(lia) ltac:(lia)) as M1.
  pose proof (mod_multiple y 100 4 ltac:(lia) ltac:(lia)) as M2.
  change (4 * 25) with 100 in M1. change (100 * 4) with 400 in M2.
  destruct (Z.eqb_spec (y mod 4) 0), (Z.eqb_spec (y mod 100) 0), (Z.eqb_spec (y mod 400) 0);
    cbn [negb andb orb]; try lia; try (specialize (M2 ltac:(done)); lia); specialize (M1 ltac:(done)); lia.
Qed.

Lemma years_days_leaps n : forall y,
  years_days y n = 365 * Z.of_nat n + leaps (y + Z.of_nat n - 1) - leaps (y - 1).
Proof.
  induction n as [|n IH]; intros y; cbn [years_days].
  - rewrite Z.add_0_r. lia.
  - rewrite IH, year_days_leaps. rewrite !Nat2Z.inj_succ.
    replace (y + 1 + Z.of_nat n - 1) with (y + Z.succ (Z.of_nat n) - 1) by lia.
    replace (y + 1 - 1) with y by lia. lia.
Qed.

Lemma years_days_app n m y : years_days y (n + m) = years_days y n + years_days (y + Z.of_nat n) m.
Proof.
  rewrite !years_days_leaps. replace (y + Z.of_nat n + Z.of_nat m - 1) with (y + Z.of_nat (n + m) - 1) by lia.
  lia.
Qed.

Lemma leaps_era y k : leaps (y + 400 * k) = leaps y + 97 * k.
Proof.
  unfold leaps. replace (y + 400 * k) with (y + 100 * k * 4) at 1 by lia.
  replace (y + 400 * k) with (y + 4 * k * 100) at 1 by lia.
  replace (y + 400 * k) with (y + k * 400) by lia. rewrite !Z.div_add by lia. lia.
Qed.

Lemma years_days_eras q y : years_days y (400 * q) = era_days * Z.of_nat q.
Proof.
  rewrite years_days_leaps. replace (y + Z.of_nat (400 * q) - 1) with (y - 1 + 400 * Z.of_nat q) by lia.
  rewrite leaps_era. unfold era_days. lia.
Qed.

(** The days of the months before a month, in the table of a common year. *)
Definition month_table : list Z := [0; 31; 59; 90; 120; 151; 181; 212; 243; 273; 304; 334; 365].

Lemma months_days_table y m : (m <= 12)%nat ->
  months_days y m = nth m month_table 0 + (if is_leap y && (1 <? Z.of_nat m) then 1 else 0).
Proof.
  intros Hm. do 13 (destruct m as [|m]; [cbn; unfold month_days; cbn; destruct (is_leap y); reflexivity|]). lia.
Qed.

Lemma months_days_year y : months_days y 12 = year_days y.
Proof. rewrite months_days_table by lia. unfold year_days. by destruct (is_leap y). Qed.

Lemma year_days_bounds y : 365 <= year_days y <= 366.
Proof. unfold year_days. destruct (is_leap y); lia. Qed.

Lemma month_days_bounds y m : 28 <= month_days y m <= 31.
Proof. unfold month_days. repeat destr_if; lia. Qed.

(** ** The searches *)

Lemma find_year_spec f : forall y d, 0 <= d < years_days y f ->
  exists k, (k < f)%nat /\ find_year f y d = (y + Z.of_nat k, d - years_days y k) /\
    0 <= d - years_days y k < year_days (y + Z.of_nat k).
Proof.
  induction f as [|f IH]; intros y d Hd; cbn [years_days find_year] in *; [lia|].
  destruct (Z.ltb_spec d (year_days y)).
  - exists 0%nat. cbn [years_days]. rewrite Z.add_0_r, Z.sub_0_r. split; [lia|]. split; [done|lia].
  - destruct (IH (y + 1) (d - year_days y)) as (k & Hk & -> & Hr); [lia|].
    exists (S k). cbn [years_days]. rewrite Nat2Z.inj_succ.
    replace (y + Z.succ (Z.of_nat k)) with (y + 1 + Z.of_nat k) by lia.
    replace (d - (year_days y + years_days (y + 1) k)) with (d - year_days y - years_days (y + 1) k) by lia.
    split; [lia|done].
Qed.

Lemma find_month_spec y f : forall m d, 0 <= d ->
  months_days y m + d < months_days y (m + f) ->
  exists k, (m <= k < m + f)%nat /\
    find_month f y (Z.of_nat m) d = (Z.of_nat k, months_days y m + d - months_days y k) /\
    0 <= months_days y m + d - months_days y k < month_days y (Z.of_nat k).
Proof.
  induction f as [|f IH]; intros m d H0 Hd; cbn [find_month]; [rewrite Nat.add_0_r in Hd; lia|].
  destruct (Z.ltb_spec d (month_days y (Z.of_nat m))).
  - exists m. split; [lia|]. replace (months_days y m + d - months_days y m) with d by lia. split; [done|lia].
  - replace (Z.of_nat m + 1) with (Z.of_nat (S m)) by lia.
    destruct (IH (S m) (d - month_days y (Z.of_nat m))) as (k & Hk & -> & Hr).
    + lia.
    + replace (S m + f)%nat with (m + S f)%nat by lia.
      change (months_days y (S m)) with (months_days y m + month_days y (Z.of_nat m)). lia.
    + cbn [months_days] in *. exists k.
      replace (months_days y m + month_days y (Z.of_nat m) + (d - month_days y (Z.of_nat m)))
        with (months_days y m + d) in * by lia. split; [lia|done].
Qed.

(** A date of the calendar, from 1970 on. *)
Record calendar_date (x : tm) : Prop := {
  cd_year : 70 <= tm_year x;
  cd_mon : 0 <= tm_mon x < 12;
  cd_mday : 1 <= tm_mday x <= month_days (tm_year x + 1900) (tm_mon x);
  cd_hour : 0 <= tm_hour x < 24;
  cd_min : 0 <= tm_min x < 60;
  cd_sec : 0 <= tm_sec x < 60
}.

(** The time that the fields count. *)
Definition counted (x : tm) : Z :=
  ((days_from_1970 (tm_year x + 1900) (tm_mon x) (tm_mday x) * 24 + tm_hour x) * 60 + tm_min x) * 60
  + tm_sec x.

Lemma gmtime_counted t : 0 <= t -> calendar_date (gmtime t) /\ counted (gmtime t) = t.
Proof.
  intros Ht. unfold gmtime.
  assert (Hd : 0 <= t / 86400) by (apply Z.div_pos; lia).
  set (days := t / 86400) in *. set (secs := t mod 86400).
  assert (Hs : 0 <= secs < 86400) by (apply Z.mod_pos_bound; lia).
  assert (Et : t = 86400 * days + secs) by (apply Z.div_mod; lia). clearbody days secs.
  set (q := days / era_days). set (r := days mod era_days).
  assert (Hr : 0 <= r < era_days) by (apply Z.mod_pos_bound; unfold era_days; lia).
  assert (Hq : 0 <= q) by (apply Z.div_pos; [lia|unfold era_days; lia]).
  assert (Ed : days = era_days * q + r) by (apply Z.div_mod; unfold era_days; lia). clearbody q r.
  destruct (find_year_spec 400 (1970 + 400 * q) r) as (k & Hk & -> & Hyd).
  { rewrite (years_days_eras 1). lia. }
  set (y := 1970 + 400 * q + Z.of_nat k) in *. set (yd := r - years_days (1970 + 400 * q) k) in *.
  destruct (find_month_spec y 12 0 yd) as (m & Hm & Em & Hmd); [lia| |].
  { cbn [Nat.add]. rewrite months_days_year. cbn [months_days]. lia. }
  change (Z.of_nat 0) with 0 in Em. rewrite Em. cbn [months_days] in *.
  assert (Ey : days = years_days 1970 (Z.to_nat (y - 1970)) + yd).
  { replace (Z.to_nat (y - 1970)) with (400 * Z.to_nat q + k)%nat by lia.
    rewrite years_days_app, years_days_eras.
    replace (1970 + Z.of_nat (400 * Z.to_nat q)) with (1970 + 400 * q) by lia.
    rewrite Z2Nat.id by done. lia. }
  assert (Hsec : 0 <= secs mod 60 < 60) by (apply Z.mod_pos_bound; lia).
  assert (Hmin : 0 <= secs / 60 mod 60 < 60) by (apply Z.mod_pos_bound; lia).
  assert (Hsplit : secs = (secs / 3600 * 60 + secs / 60 mod 60) * 60 + secs mod 60).
  { change 3600 with (60 * 60). rewrite <- Z.div_div by lia.
    pose proof (Z.div_mod secs 60 ltac:(lia)). pose proof (Z.div_mod (secs / 60) 60 ltac:(lia)). lia. }
  assert (Hh : 0 <= secs / 3600 < 24) by (split; [apply Z.div_pos; lia|apply Z.div_lt_upper_bound; lia]).
  split.
  - split; cbn [tm_year tm_mon tm_mday tm_hour tm_min tm_sec]; try done; try lia.
    replace (y - 1900 + 1900) with y by lia. lia.
  - unfold counted, days_from_1970. cbn [tm_year tm_mon tm_mday tm_hour tm_min tm_sec].
    replace (y - 1900 + 1900) with y by lia. rewrite Nat2Z.id. lia.
Qed.
