(* ===== verification/ClientBrski.v ===== *)
(** * ClientBrski: the BRSKI operations of the client (est_client.c)

    A new device, the pledge, asks the registrar for a voucher that its manufacturer
    signed ([est_client_brski_get_voucher]): the voucher names the device and brings
    the certificate of the registrar's domain.  It then reports what became of the
    voucher and of its enrollment ([est_client_brski_send_voucher_status],
    [est_client_brski_send_enroll_status]).

    The requests and the answers use the channel and the credentials of the other
    operations (ClientRequest, ClientHttp, Client); the voucher is read with the JSON
    parser (Jsmn).  A sleep is the event [EvSleep].  Stores outside a buffer, and
    indeterminate text, are undefined. *)

From S2P Require Import Prelude.
From S2P Require Import SafeC.
From S2P Require Import Calendar.
From S2P Require Import Jsmn.
From S2P Require Import EstTypes.
From S2P Require Import EstState.
From S2P Require Import EstUtil.
From S2P Require Import HttpIO.
From S2P Require Import ServerCsr.
From S2P Require Import ServerConfig.
From S2P Require Import ClientHttp.
From S2P Require Import ClientRequest.
From S2P Require Import ClientCert.
From S2P Require Import Client.

Definition EST_BRSKI_MAX_SER_NUM_LEN : Z := 64.
Definition EST_BRSKI_MAX_VOUCHER_REQ_LEN : Z := 16384.
Definition EST_BRSKI_MAX_CACERT_LEN : Z := 8192.
Definition EST_BRSKI_VOUCHER_REQ_NONCE_SIZE : Z := 32.
Definition EST_BRSKI_MAX_SUBJ_KEY_ID_LEN : Z := 24.
Definition EST_BRSKI_MAX_REASON_LEN : Z := 255.
Definition EST_BRSKI_MAX_STATUS_LEN : Z := 128 + EST_BRSKI_MAX_REASON_LEN.
Definition EST_BRSKI_CLIENT_RETRY_MAX : Z := 60.
Definition BRSKI_VERSION : bytes := lit "1".

(** [EST_BRSKI_STATUS_VALUE]: the enumerators, of which a caller may pass any integer. *)
Definition EST_BRSKI_STATUS_SUCCESS : Z := 1.
Definition EST_BRSKI_STATUS_FAIL : Z := 2.

Definition NID_serialNumber : Z := 105.

(** ** Reading a voucher *)

(** [jsoneq() == 0]. *)
Definition jsoneq (json : bytes) (tok : jsmntok_t) (s : bytes) : bool :=
  let n := t_end tok - t_start tok in
  bool_decide (t_type tok = JSMN_STRING) && (Z.of_nat (length s) =? n)
  && bool_decide (take (Z.to_nat n) (drop (Z.to_nat (t_start tok)) json) = s).

(** The text of a token, as ["%.*s"] prints it. *)
Definition tok_text (json : bytes) (tok : jsmntok_t) : bytes :=
  let s := drop (Z.to_nat (t_start tok)) json in
  let n := t_end tok - t_start tok in
  cstr (if n <? 0 then s else take (Z.to_nat n) s).

(** The loop, [n] tokens before the end; the token after the one found may lie outside
    the array.  The result is the value, cut to the buffer, when the token is found. *)
Fixpoint retrieve_loop (n i : nat) (voucher : bytes) (size : Z) (tok : list jsmntok_t)
    (token : bytes) : option (option bytes) :=
  match n with
  | O => Some None
  | S n' =>
      match tok !! i with
      | None => None
      | Some t =>
          if jsoneq voucher t token then
            match tok !! S i with
            | None => None
            | Some v =>
                if bool_decide (t_type v = JSMN_UNDEFINED) then Some (Some [])
                else Some (Some (snprintf size (tok_text voucher v)))
            end
          else retrieve_loop n' (S i) voucher size tok token
      end
  end.

Definition retrieve_token_from_voucher (voucher : bytes) (max_token_value_size : Z)
    (parser_resp : Z) (tok : list jsmntok_t) (token : bytes) : option (option bytes) :=
  retrieve_loop (Z.to_nat (parser_resp - 1)) 1 voucher max_token_value_size tok token.

(** ** The request *)

Definition est_brski_build_voucher_req (nonce_str time_str assertion server_cert : bytes) : bytes :=
  snprintf EST_BRSKI_MAX_VOUCHER_REQ_LEN
    (lit "{" ++ crlf
     ++ quoted (lit "ietf-voucher-request:voucher") ++ lit ": {" ++ crlf
     ++ quoted (lit "nonce") ++ lit ": " ++ quoted nonce_str ++ lit "," ++ crlf
     ++ quoted (lit "created-on") ++ lit ": " ++ quoted time_str ++ lit "," ++ crlf
     ++ quoted (lit "assertion") ++ lit ": " ++ quoted assertion ++ lit "," ++ crlf
     ++ quoted (lit "proximity-registrar-cert") ++ lit ": " ++ quoted server_cert ++ crlf
     ++ lit "}}").

Definition voucher_status_text (status_str reason : bytes) : bytes :=
  lit "{" ++ crlf
  ++ quoted (lit "version") ++ lit ":" ++ quoted BRSKI_VERSION ++ lit "," ++ crlf
  ++ quoted (lit "Status") ++ lit ":" ++ status_str ++ lit "," ++ crlf
  ++ quoted (lit "Reason") ++ lit ":" ++ quoted reason ++ crlf
  ++ lit "}".

Definition enroll_status_text (status_str reason subject_key_b64 : bytes) : bytes :=
  lit "{" ++ crlf
  ++ quoted (lit "version") ++ lit ":" ++ quoted BRSKI_VERSION ++ lit "," ++ crlf
  ++ quoted (lit "Status") ++ lit ":" ++ status_str ++ lit "," ++ crlf
  ++ quoted (lit "Reason") ++ lit ":" ++ quoted reason ++ lit "," ++ crlf
  ++ quoted (lit "SubjectKeyIdentifier") ++ lit ":" ++ quoted subject_key_b64 ++ crlf
  ++ lit "}".

Definition brski_status_str (status : Z) : option bytes :=
  if status =? EST_BRSKI_STATUS_SUCCESS then Some (lit "true")
  else if status =? EST_BRSKI_STATUS_FAIL then Some (lit "false")
  else None.

Section ClientBrski.
Context {L : OpenSSL}.
Variable BASE64_ENCODE_VOUCHERS : bool.
Variable EST_VER_STRING : bytes.
Variable malloc_junk : nat -> bytes.

Definition est_find_ser_num_in_subj (cert : X509) : option bytes :=
  let subj := X509_get_subject_name cert in
  let i := X509_NAME_get_index_by_NID subj NID_serialNumber (-1) in
  if i =? -1 then None else Some (cstr (X509_NAME_get_entry_data subj i)).

(** ** Sending *)

(** The lines of a BRSKI request: the header and its length. *)
Definition brski_header (operation content_type : bytes) (req_buf_len : Z) : M (bytes * Z) :=
  cl ← get_client;
  hdr ← est_client_add_auth_hdr
          (req_text (req_start EST_VER_STRING cl (lit "POST") operation
                     ++ lit "Content-Type: " ++ content_type ++ crlf
                     ++ lit "Content-Length: " ++ fmt_d req_buf_len ++ crlf))
          EST_BRSKI_GET_VOUCHER_URI;
  mret (hdr, strnlen_s (Some hdr) EST_HTTP_REQ_TOTAL_LEN).

Definition est_client_brski_build_voucherreq_header (sign_voucher : bool) (req_buf_len : Z)
    : M (bytes * Z) :=
  brski_header EST_BRSKI_GET_VOUCHER
    (if sign_voucher then EST_BRSKI_CT_VREQ_SIGNED else EST_BRSKI_CT_VREQ) req_buf_len.

Definition est_client_brski_build_status_header (req_buf_len : Z) (uri : bytes) : M (bytes * Z) :=
  brski_header uri EST_BRSKI_CT_STATUS req_buf_len.

(** The request with its data: [None] when the data is refused, else the result of
    the write. *)
Definition brski_send (hdr : bytes) (hdr_len : Z) (data : bytes) : M (option Z) :=
  buf ← put_crlf (put_string (fresh_buffer malloc_junk) hdr) hdr_len;
  let off := hdr_len + 2 in
  if Z.of_nat (length data) >? EST_HTTP_REQ_DATA_MAX then mret None else
  buf ← put_data buf off data;
  let off := off + Z.of_nat (length data) in
  buf ← put_crlf buf off;
  let off := off + 2 in
  _ ← upd_client (set_last_http_status 0);
  if off >? EST_HTTP_REQ_TOTAL_LEN then null_deref
  else n ← client_write (take (Z.to_nat off) buf); mret (Some n).

(** A voucher is kept in the context. *)
Definition keep_voucher (rsp : io_response) : M EST_ERROR :=
  if rsp_cert_len rsp =? 0 then mret EST_ERR_ZERO_LENGTH_BUF
  else if rsp_cert_len rsp + 1 >? EST_CA_MAX then mret EST_ERR_BUF_EXCEEDS_MAX_LEN
  else
    ok ← keep_received set_brski_retrieved_voucher (default [] (rsp_cert rsp));
    mret (if ok : bool then EST_ERR_NONE else EST_ERR_MALLOC).

Definition est_client_brski_send_voucher_request (sign_voucher : bool) (req_buf : bytes)
    : M EST_ERROR :=
  ok ← alloc;
  if negb ok then mret EST_ERR_MALLOC else
  '(hdr, hdr_len) ← est_client_brski_build_voucherreq_header sign_voucher
                      (Z.of_nat (length req_buf));
  n ← brski_send hdr hdr_len req_buf;
  match n with
  | None => mret EST_ERR_SYSCALL
  | Some write_size =>
      if write_size <? 0 then mret EST_ERR_SSL_WRITE else
      rsp ← est_io_get_response true malloc_junk EST_OP_BRSKI_REQ_VOUCHER;
      if bool_decide (rsp_rv rsp = EST_ERR_NONE) then keep_voucher rsp else mret (rsp_rv rsp)
  end.

(** ** The voucher *)

(** The DER of a voucher, in a build whose vouchers are base64 text. *)
Definition voucher_der (voucher : bytes) : M (EST_ERROR * bytes) :=
  if BASE64_ENCODE_VOUCHERS then
    ok ← alloc;
    if negb ok then mret (EST_ERR_MALLOC, []) else
    '(n, der) ← est_base64_decode voucher (Z.of_nat (length voucher));
    mret (if n <=? 0 then EST_ERR_BAD_BASE64 else EST_ERR_NONE, der)
  else mret (EST_ERR_NONE, voucher).

(** The voucher in the context is replaced by the data it signs. *)
Definition verify_voucher : M EST_ERROR :=
  cl ← get_client;
  match brski_retrieved_voucher cl with
  | None => null_deref
  | Some voucher =>
      '(rv, der) ← voucher_der voucher;
      if negb (bool_decide (rv = EST_ERR_NONE)) then mret rv else
      '(rv, pkcs7) ← create_PKCS7 der;
      match pkcs7 with
      | None => mret rv
      | Some p7 =>
          match ssl_ctx cl with
          | None => null_deref
          | Some sc =>
              match sc_cert_store sc with
              | None => mret EST_ERR_LOAD_TRUST_CERTS
              | Some store =>
                  if PKCS7_verify p7 store =? 0
                  then mret EST_ERR_CLIENT_BRSKI_VOUCHER_VERIFY_FAILED
                  else match PKCS7_signed_data p7 with
                  | None => null_deref
                  | Some data =>
                      _ ← upd_client (set_brski_retrieved_voucher (Some data));
                      mret EST_ERR_NONE
                  end
              end
          end
      end
  end.

Definition tokcount : nat := 100.

(** A value of the voucher, or undefined where the array of tokens is left. *)
Definition voucher_value (voucher : bytes) (size parser_resp : Z) (tok : list jsmntok_t)
    (token : bytes) : M (option bytes) :=
  match retrieve_token_from_voucher voucher size parser_resp tok token with
  | None => null_deref
  | Some v => mret v
  end.

(** The check of the nonce: a voucher need not have one. *)
Definition check_nonce (sent_nonce : bytes) (nonce : option bytes) : EST_ERROR :=
  match nonce with
  | None => EST_ERR_NONE
  | Some returned_nonce =>
      if EST_BRSKI_VOUCHER_REQ_NONCE_SIZE <?
           strnlen_s (Some returned_nonce) (EST_BRSKI_VOUCHER_REQ_NONCE_SIZE + 1)
      then EST_ERR_CLIENT_BRSKI_NONCE_TOO_LARGE
      else
        let '(safec_rc, diff) := memcmp_s (Some sent_nonce) EST_BRSKI_VOUCHER_REQ_NONCE_SIZE
                                   (Some returned_nonce) EST_BRSKI_VOUCHER_REQ_NONCE_SIZE 0 in
        if negb (safec_rc =? EOK) then EST_ERR_SYSCALL
        else if negb (diff =? 0) then EST_ERR_CLIENT_BRSKI_NONCE_MISMATCH
        else EST_ERR_NONE
  end.

(** The check of the serial number: the comparison ends at the first difference. *)
Definition check_ser_num (client_ser_num ser_num : option bytes) : EST_ERROR :=
  match ser_num with
  | None => EST_ERR_CLIENT_BRSKI_SERIAL_NUM_MISSING
  | Some returned_ser_num =>
      let returned_ser_num_len :=
        strnlen_s (Some returned_ser_num) (EST_BRSKI_MAX_SER_NUM_LEN + 1) in
      if returned_ser_num_len >? EST_BRSKI_MAX_SER_NUM_LEN
      then EST_ERR_CLIENT_BRSKI_SERIAL_NUM_TOO_LARGE
      else
        let '(safec_rc, diff) := memcmp_s client_ser_num (returned_ser_num_len + 1)
                                   (Some returned_ser_num) (returned_ser_num_len + 1) 0 in
        if negb (safec_rc =? EOK) then EST_ERR_SYSCALL
        else if negb (diff =? 0) then EST_ERR_CLIENT_BRSKI_SERIAL_NUM_MISMATCH
        else EST_ERR_NONE
  end.

(** The CA certificate of the voucher goes to the context when it verifies.  The array
    it is copied to has EST_BRSKI_MAX_CACERT_LEN bytes, one less than the bound given
    to [snprintf]. *)
Definition keep_cacert (cacert : option bytes) : M EST_ERROR :=
  match cacert with
  | None => mret EST_ERR_NO_CERT
  | Some returned_cacert =>
      if Z.of_nat (length returned_cacert) >=? EST_BRSKI_MAX_CACERT_LEN then null_deref else
      ok ← keep_received set_brski_retrieved_cacert returned_cacert;
      if negb ok then mret EST_ERR_MALLOC else
      '(rv, certs) ← verify_cacert_resp malloc_junk returned_cacert;
      if bool_decide (rv = EST_ERR_NONE) then
        _ ← upd_client (set_brski_retrieved_cacert (Some certs)); mret EST_ERR_NONE
      else _ ← upd_client (set_brski_retrieved_cacert None); mret rv
  end.

(** [*cacert_len] is set to 0 and not changed again. *)
Definition brski_parse_voucher (sent_nonce : bytes) : M EST_ERROR :=
  rv ← verify_voucher;
  if negb (bool_decide (rv = EST_ERR_NONE)) then mret rv else
  cl ← get_client;
  let voucher := default [] (brski_retrieved_voucher cl) in
  ok ← alloc;
  if negb ok then mret EST_ERR_MALLOC else
  match jsmn_parse jsmn_init voucher (length voucher) (Some (fresh_tokens tokcount)) tokcount with
  | None | Some (_, _, None) => null_deref
  | Some (parser_resp, _, Some tok) =>
      if parser_resp <? 0 then mret EST_ERR_MALLOC else
      nonce ← voucher_value voucher (EST_BRSKI_VOUCHER_REQ_NONCE_SIZE + 2) parser_resp tok
                (lit "nonce");
      let rv := check_nonce sent_nonce nonce in
      if negb (bool_decide (rv = EST_ERR_NONE)) then mret rv else
      ser_num ← voucher_value voucher (EST_BRSKI_MAX_SER_NUM_LEN + 2) parser_resp tok
                  (lit "serial-number");
      let rv := check_ser_num (client_cert_ser_num cl) ser_num in
      if negb (bool_decide (rv = EST_ERR_NONE)) then mret rv else
      cacert ← voucher_value voucher (EST_BRSKI_MAX_CACERT_LEN + 1) parser_resp tok
                 (lit "pinned-domain-cert");
      keep_cacert cacert
  end.

(** ** The certificate of the server *)

Definition ossl_add_certs_from_BIO (pem : bytes) : option (list X509) :=
  est_add_certs_from_BIO pem.

(** The base64 text of the certs-only PKCS7 of the certificates in a PEM text. *)
Definition ossl_get_certs_pkcs7 (pem : bytes) : M (option bytes) :=
  p7 ← alloc; if negb p7 then mret None else
  p7s ← alloc; if negb p7s then mret None else
  version ← alloc; if negb version then mret None else
  stack ← alloc; if negb stack then mret None else
  match ossl_add_certs_from_BIO pem with
  | None => mret None
  | Some certs =>
      b64 ← alloc; if negb b64 then mret None else
      out ← alloc; if negb out then mret None else
      mret (i2d_PKCS7_certs_b64 certs)
  end.

(** The error and the buffer [server_cert] with the text, which is not stored when it
    is too long. *)
Definition est_brski_get_server_cert (server_cert : bytes) (ssl : SSL) : M (EST_ERROR * bytes) :=
  match SSL_get_peer_certificate ssl with
  | None => mret (EST_ERR_LOAD_CACERTS, server_cert)
  | Some server_cert_x509 =>
      bio ← alloc;
      if negb bio then mret (EST_ERR_LOAD_CACERTS, server_cert) else
      p7out ← ossl_get_certs_pkcs7 (PEM_write_certs [server_cert_x509]);
      match p7out with
      | None | Some [] => mret (EST_ERR_LOAD_CACERTS, server_cert)
      | Some b64 =>
          mret (EST_ERR_NONE,
                default [] (snd (memcpy_s (Some server_cert) EST_BRSKI_MAX_CACERT_LEN (Some b64)
                                   (Z.of_nat (length b64)))))
      end
  end.

(** ** Getting a voucher *)

(** The zeroed buffer for the server's certificate. *)
Definition zeroed_cert : bytes := replicate (Z.to_nat (EST_BRSKI_MAX_CACERT_LEN + 1)) 0.

(** The server's certificate is fetched again for every attempt, into the same
    buffer. *)
Definition voucher_attempt (ssl : SSL) (server_cert nonce_str time_str : bytes)
    (sign_voucher : bool) : M EST_ERROR :=
  est_client_brski_send_voucher_request sign_voucher
    (est_brski_build_voucher_req nonce_str time_str (lit "proximity") (cstr server_cert)).

(** The time of a request as text; what does not fit the 26 bytes is indeterminate. *)
Definition request_time (epoch_time : Z) : M bytes :=
  let time_str := strftime_iso (gmtime epoch_time) in
  if (length time_str <? 26)%nat then mret time_str else null_deref.

(** After the exchange: the voucher is read, and the next request starts without
    credentials.  The second component is what [*cacert_len] is set to. *)
Definition finish_voucher (rv : EST_ERROR) (nonce_str : bytes) : M (EST_ERROR * option Z) :=
  r ← (if bool_decide (rv = EST_ERR_NONE)
       then rv ← brski_parse_voucher nonce_str; mret (rv, Some 0)
       else mret (rv, None));
  _ ← upd_ctx (set_auth_mode AUTH_NONE);
  mret r.

(** The second connection, after a challenge. *)
Definition second_voucher_attempt (server_cert nonce_str time_str : bytes) (sign_voucher : bool)
    : M (EST_ERROR * option Z) :=
  '(rv, ssl) ← est_client_connect;
  match ssl with
  | None => mret (rv, None)
  | Some c =>
      '(rv, server_cert) ← est_brski_get_server_cert server_cert c;
      if negb (bool_decide (rv = EST_ERR_NONE)) then mret (rv, None) else
      rv ← voucher_attempt c server_cert nonce_str time_str sign_voucher;
      _ ← est_client_disconnect (Some c);
      finish_voucher rv nonce_str
  end.

(** The first connection is [c]. *)
Definition first_voucher_attempt (c : SSL) (nonce_str time_str : bytes) (sign_voucher : bool)
    : M (EST_ERROR * option Z) :=
  '(rv, server_cert) ← est_brski_get_server_cert zeroed_cert c;
  if negb (bool_decide (rv = EST_ERR_NONE)) then mret (rv, None) else
  rv ← voucher_attempt c server_cert nonce_str time_str sign_voucher;
  _ ← est_client_disconnect (Some c);
  ctx ← get_ctx;
  if bool_decide (rv = EST_ERR_AUTH_FAIL) && http_auth_mode (auth_mode ctx) then
    if bool_decide (auth_mode ctx = AUTH_DIGEST) && FIPS_mode
    then mret (EST_ERR_BAD_MODE, None)
    else second_voucher_attempt server_cert nonce_str time_str sign_voucher
  else finish_voucher rv nonce_str.

(** The nonce, in hexadecimal, of as many random bytes as fit. *)
Definition nonce_of (random : bytes) : bytes :=
  est_hex_to_str (take (Z.to_nat (EST_BRSKI_VOUCHER_REQ_NONCE_SIZE / 2)) random).

Definition est_client_brski_send_get_voucher (sign_voucher : bool) : M (EST_ERROR * option Z) :=
  '(rv, ssl) ← est_client_connect;
  match ssl with
  | None => mret (rv, None)
  | Some c =>
      r ← RAND_bytes;
      match r with
      | None => mret (EST_ERR_SYSCALL, None)
      | Some random =>
          epoch_time ← get_time;
          if epoch_time =? -1 then mret (EST_ERR_SYSCALL, None) else
          time_str ← request_time epoch_time;
          ok ← alloc;
          if negb ok then mret (EST_ERR_MALLOC, None) else
          first_voucher_attempt c (nonce_of random) time_str sign_voucher
      end
  end.

(** The delay before the second round. *)
Definition actual_retry_delay (retry_after_delay : Z) : Z :=
  if retry_after_delay >? EST_BRSKI_CLIENT_RETRY_MAX then EST_BRSKI_CLIENT_RETRY_MAX
  else retry_after_delay.

(** [len_given]: did the application pass a pointer for the length? *)
Definition est_client_brski_get_voucher (len_given sign_voucher : bool)
    : M (EST_ERROR * option Z) :=
  cl ← get_client;
  if negb (est_client_initialized cl) then mret (EST_ERR_CLIENT_NOT_INITIALIZED, None)
  else if negb (brski_mode cl) then mret (EST_ERR_INVALID_PARAMETERS, None)
  else if negb len_given then mret (EST_ERR_INVALID_PARAMETERS, None)
  else match client_cert cl with
  | None => mret (EST_ERR_NO_CERT, None)
  | Some cert =>
      match est_find_ser_num_in_subj cert with
      | None => mret (EST_ERR_CLIENT_BRSKI_SERIAL_NUM_MISSING, None)
      | Some ser_num_str =>
          if strnlen_s (Some ser_num_str) (EST_BRSKI_MAX_SER_NUM_LEN + 1) >? EST_BRSKI_MAX_SER_NUM_LEN
          then mret (EST_ERR_CLIENT_BRSKI_SERIAL_NUM_TOO_LARGE, None) else
          ok ← keep_received set_client_cert_ser_num ser_num_str;
          if negb ok then mret (EST_ERR_MALLOC, None) else
          '(rv, len) ← est_client_brski_send_get_voucher sign_voucher;
          if bool_decide (rv = EST_ERR_CA_ENROLL_RETRY) then
            ctx ← get_ctx;
            _ ← emit (EvSleep (actual_retry_delay (retry_after_delay ctx)));
            '(rv, len') ← est_client_brski_send_get_voucher sign_voucher;
            mret (rv, match len' with None => len | Some _ => len' end)
          else mret (rv, len)
      end
  end.

(** [buf]: did the application pass a buffer?  The copy in the context is zeroed, not
    removed. *)
Definition est_client_brski_copy_cacert (buf : bool) : M (EST_ERROR * option bytes) :=
  initialized_only (fun cl =>
    if negb (brski_mode cl) then mret (EST_ERR_INVALID_PARAMETERS, None)
    else if negb buf then mret (EST_ERR_INVALID_PARAMETERS, None)
    else match brski_retrieved_cacert cl with
    | None => mret (EST_ERR_NO_CERT, None)
    | Some cacert =>
        _ ← upd_client (set_brski_retrieved_cacert (Some (replicate (length cacert) 0)));
        mret (EST_ERR_NONE, Some cacert)
    end).

(** ** Status reports *)

Definition send_status (status : bytes) (opcode : EST_OPERATION) : M EST_ERROR :=
  ok ← alloc;
  if negb ok then mret EST_ERR_MALLOC else
  match (match opcode with
         | EST_OP_BRSKI_VOUCHER_STATUS => Some EST_BRSKI_VOUCHER_STATUS
         | EST_OP_BRSKI_ENROLL_STATUS => Some EST_BRSKI_ENROLL_STATUS
         | _ => None
         end) with
  | None => mret EST_ERR_INVALID_PARAMETERS
  | Some uri =>
      '(hdr, hdr_len) ← est_client_brski_build_status_header (Z.of_nat (length status)) uri;
      n ← brski_send hdr hdr_len status;
      match n with
      | None => mret EST_ERR_SYSCALL
      | Some write_size =>
          if write_size <? 0 then mret EST_ERR_SSL_WRITE else
          rsp ← est_io_get_response true malloc_junk opcode;
          mret (rsp_rv rsp)
      end
  end.

(** The connections of a report, one or, after a challenge, two. *)
Definition report_status (status : bytes) (opcode : EST_OPERATION) : M EST_ERROR :=
  '(rv, _, done) ← with_http_auth
     (fun _ (_ : unit) => rv ← send_status status opcode; mret (rv, no_lens, tt)) false tt;
  _ ← (if done : bool then upd_ctx (set_auth_mode AUTH_NONE) else mret tt);
  mret rv.

(** Is an argument missing, or (as the code means to test) empty? *)
Definition missing_text (s : option bytes) : bool :=
  match s with
  | None => true
  | Some s => rd s 0 =? chr_lf
  end.

Definition est_client_brski_send_voucher_status (status : Z) (reason : option bytes)
    : M EST_ERROR :=
  cl ← get_client;
  if negb (est_client_initialized cl) then mret EST_ERR_CLIENT_NOT_INITIALIZED
  else if negb (brski_mode cl) then mret EST_ERR_INVALID_PARAMETERS
  else match brski_status_str status with
  | None => mret EST_ERR_INVALID_PARAMETERS
  | Some status_str =>
      if missing_text reason then mret EST_ERR_INVALID_PARAMETERS
      else if strnlen_s reason (EST_BRSKI_MAX_REASON_LEN + 1) >? EST_BRSKI_MAX_REASON_LEN
      then mret EST_ERR_INVALID_PARAMETERS
      else
        let voucher_status :=
          snprintf EST_BRSKI_MAX_STATUS_LEN (voucher_status_text status_str (default [] reason)) in
        if strnlen_s (Some voucher_status) (EST_BRSKI_MAX_STATUS_LEN + 1) >? EST_BRSKI_MAX_STATUS_LEN
        then mret EST_ERR_INVALID_PARAMETERS
        else report_status voucher_status EST_OP_BRSKI_VOUCHER_STATUS
  end.

(** A reason that is NULL is printed with ["%s"]: undefined. *)
Definition est_client_brski_send_enroll_status (status : Z) (reason subject_key_id : option bytes)
    : M EST_ERROR :=
  cl ← get_client;
  if negb (est_client_initialized cl) then mret EST_ERR_CLIENT_NOT_INITIALIZED
  else if negb (brski_mode cl) then mret EST_ERR_INVALID_PARAMETERS
  else match brski_status_str status with
  | None => mret EST_ERR_INVALID_PARAMETERS
  | Some status_str =>
      if strnlen_s reason (EST_BRSKI_MAX_REASON_LEN + 1) >? EST_BRSKI_MAX_REASON_LEN
      then mret EST_ERR_INVALID_PARAMETERS
      else if (status =? EST_BRSKI_STATUS_FAIL) && negb (bool_decide (is_Some reason))
      then mret EST_ERR_INVALID_PARAMETERS
      else if missing_text subject_key_id then mret EST_ERR_INVALID_PARAMETERS
      else if strnlen_s subject_key_id (EST_BRSKI_MAX_SUBJ_KEY_ID_LEN + 1)
                >? EST_BRSKI_MAX_SUBJ_KEY_ID_LEN
      then mret EST_ERR_INVALID_PARAMETERS
      else
        enc ← est_base64_encode (default [] subject_key_id) (EST_BRSKI_MAX_SUBJ_KEY_ID_LEN * 2) false;
        if enc_ret enc =? 0 then mret EST_ERR_INVALID_PARAMETERS
        else if enc_ret enc >=? EST_BRSKI_MAX_SUBJ_KEY_ID_LEN * 2 then null_deref
        else match reason with
        | None => null_deref
        | Some r =>
            let enroll_status :=
              snprintf EST_BRSKI_MAX_STATUS_LEN (enroll_status_text status_str r (cstr (enc_dst enc))) in
            if strnlen_s (Some enroll_status) (EST_BRSKI_MAX_STATUS_LEN + 1)
                 >? EST_BRSKI_MAX_STATUS_LEN
            then mret EST_ERR_INVALID_PARAMETERS
            else report_status enroll_status EST_OP_BRSKI_ENROLL_STATUS
        end
  end.

End ClientBrski.
