(* ===== verification/EstLogic.v ===== *)
(** * EstLogic: reasoning about the server monad

    [sat R m]: every completed run of [m] relates its worlds by the preorder [R].
    [safe I m]: from a world in [I] every run completes, without undefined
    behaviour, in a world in [I].  [frame P] is the preorder of the operations
    that leave the context alone and only emit events in [P].  The tactics
    [sat_auto] and [safe_auto] follow the structure of a definition; what they
    know about an operation is in the hint databases [sat] and [safe]. *)

From S2P Require Import Prelude.
From S2P Require Import SafeC.
From S2P Require Import EstTypes.
From S2P Require Import EstState.
From S2P Require Import EstUtil.

Create HintDb sat discriminated.
Create HintDb safe discriminated.

Section Logic.
Context {L : OpenSSL}.

(** ** Runs *)

Lemma bind_some {A B} (m : M A) (f : A -> M B) w b w' :
  (m ≫= f) w = Some (b, w') <-> exists a w1, m w = Some (a, w1) /\ f a w1 = Some (b, w').
Proof.
  unfold mbind, M_bind. destruct (m w) as [[a w1]|].
  - split; [by eauto|]. intros (a' & w1' & [= <- <-] & H). done.
  - split; [done|]. by intros (a & w1 & H & _).
Qed.

Lemma ret_some {A} (a b : A) w w' : mret (M := M) a w = Some (b, w') <-> a = b /\ w = w'.
Proof. unfold mret, M_ret. split; [by intros [= -> ->]|by intros [-> ->]]. Qed.

(** A bind whose first part is known to complete. *)
Lemma bind_run {A B} (m : M A) (f : A -> M B) w a w1 :
  m w = Some (a, w1) -> (m ≫= f) w = f a w1.
Proof. unfold mbind, M_bind. by intros ->. Qed.

(** ** Postconditions of completed runs *)

Definition sat (R : world -> world -> Prop) {A} (m : M A) : Prop :=
  forall w a w', m w = Some (a, w') -> R w w'.

Section Sat.
Context (R : world -> world -> Prop) `{PO : !PreOrder R}.

Lemma sat_ret {A} (a : A) : sat R (mret a).
Proof. intros w b w' H. apply ret_some in H as [_ ->]. reflexivity. Qed.

Lemma sat_bind {A B} (m : M A) (f : A -> M B) :
  sat R m -> (forall a, sat R (f a)) -> sat R (m ≫= f).
Proof.
  intros Hm Hf w b w' H. apply bind_some in H as (a & w1 & H1 & H2).
  etrans; [by eapply Hm|by eapply Hf].
Qed.

Lemma sat_null {A} : sat R (A := A) null_deref.
Proof. by intros w a w' H. Qed.

Lemma sat_get_ctx : sat R get_ctx.
Proof. intros w a w' [= <- <-]. reflexivity. Qed.
Lemma sat_get_conn : sat R get_conn.
Proof. intros w a w' [= <- <-]. reflexivity. Qed.
Lemma sat_get_trace : sat R get_trace.
Proof. intros w a w' [= <- <-]. reflexivity. Qed.
Lemma sat_get_time : sat R get_time.
Proof. intros w a w' [= <- <-]. reflexivity. Qed.

End Sat.

(** ** The frame of an operation: the context stays, events in [P] are added *)

Record frame (P : event -> Prop) (w w' : world) : Prop := {
  frame_ctx : w_ctx w' = w_ctx w;
  frame_ssl : conn_ssl (w_conn w') = conn_ssl (w_conn w);
  frame_proxy : w_proxy w' = w_proxy w;
  frame_trace : exists l, w_trace w' = w_trace w ++ l /\ Forall P l
}.

#[global] Instance frame_preorder P : PreOrder (frame P).
Proof.
  split.
  - intros w. split; [done..|]. exists []. by rewrite app_nil_r.
  - intros w1 w2 w3 [C1 S1 P1 (l1 & T1 & F1)] [C2 S2 P2 (l2 & T2 & F2)].
    split; [congruence..|]. exists (l1 ++ l2). rewrite T2, T1, app_assoc.
    split; [done|]. by apply Forall_app.
Qed.

Lemma frame_mono (P Q : event -> Prop) w w' :
  (forall e, P e -> Q e) -> frame P w w' -> frame Q w w'.
Proof.
  intros PQ [C S X (l & T & F)]. split; [done..|]. exists l. split; [done|].
  eapply Forall_impl; [exact PQ|exact F].
Qed.

Lemma sat_frame_mono (P Q : event -> Prop) {A} (m : M A) :
  (forall e, P e -> Q e) -> sat (frame P) m -> sat (frame Q) m.
Proof. intros PQ Hm w a w' H. eapply frame_mono; [exact PQ|by eapply Hm]. Qed.

Lemma frame_emit (P : event -> Prop) e : P e -> sat (frame P) (emit e).
Proof.
  intros He w a w' [= <- <-]. split; [done..|]. exists [e]. split; [done|by constructor].
Qed.

Lemma frame_put_conn P c w a w' :
  conn_ssl c = conn_ssl (w_conn w) -> put_conn c w = Some (a, w') -> frame P w w'.
Proof.
  intros Hc [= <- <-]. split; [done..|]. exists []. by rewrite app_nil_r.
Qed.

Lemma frame_alloc P : sat (frame P) alloc.
Proof.
  intros w a w' H. unfold alloc in H. destruct (w_alloc w); injection H as <- <-;
    (split; [done..|]; exists []; by rewrite app_nil_r).
Qed.

Definition is_write (e : event) : Prop := match e with EvWrite _ => True | _ => False end.

Lemma frame_ssl_write (P : event -> Prop) d :
  (forall d', P (EvWrite d')) -> sat (frame P) (ssl_write d).
Proof.
  intros HP w a w' H. unfold ssl_write in H. destruct (w_ssl_write w) as [|n r]; simpl in H.
  - destruct (_ <? 0); injection H as <- <-; (split; [done..|]).
    + exists []. by rewrite app_nil_r.
    + eexists [_]. split; [done|]. by constructor.
  - destruct (_ <? 0); injection H as <- <-; (split; [done..|]).
    + exists []. by rewrite app_nil_r.
    + eexists [_]. split; [done|]. by constructor.
Qed.

(** ** Total runs *)

Definition safe (I : world -> Prop) {A} (m : M A) : Prop :=
  forall w, I w -> exists a w', m w = Some (a, w') /\ I w'.

Lemma safe_ret I {A} (a : A) : safe I (mret a).
Proof. intros w Hw. exists a, w. done. Qed.

Lemma safe_bind I {A B} (m : M A) (f : A -> M B) :
  safe I m -> (forall a, safe I (f a)) -> safe I (m ≫= f).
Proof.
  intros Hm Hf w Hw. destruct (Hm w Hw) as (a & w1 & H1 & Hw1).
  destruct (Hf a w1 Hw1) as (b & w2 & H2 & Hw2). exists b, w2.
  split; [|done]. apply bind_some. eauto.
Qed.

(** The value read from the world is known to satisfy what [I] says of it. *)
Lemma safe_get_ctx I {B} (f : EST_CTX -> M B) :
  (forall w, I w -> safe I (f (w_ctx w))) -> safe I (get_ctx ≫= f).
Proof.
  intros Hf w Hw. destruct (Hf w Hw w Hw) as (b & w' & H & Hw').
  exists b, w'. split; [|done]. apply bind_some. exists (w_ctx w), w. done.
Qed.

Lemma safe_bind_post I {A B} (Q : A -> Prop) (m : M A) (f : A -> M B) :
  (forall w, I w -> exists a w', m w = Some (a, w') /\ I w' /\ Q a) ->
  (forall a, Q a -> safe I (f a)) -> safe I (m ≫= f).
Proof.
  intros Hm Hf w Hw. destruct (Hm w Hw) as (a & w1 & H1 & Hw1 & HQ).
  destruct (Hf a HQ w1 Hw1) as (b & w2 & H2 & Hw2). exists b, w2.
  split; [|done]. apply bind_some. eauto.
Qed.

(** ** Two runs side by side *)

(** Both runs are undefined, or both complete in the same world with results
    that [R] relates. *)
Definition related {A B} (R : A -> B -> world -> Prop)
    (x : option (A * world)) (y : option (B * world)) : Prop :=
  match x, y with
  | Some (a, w), Some (b, w') => R a b w /\ w = w'
  | None, None => True
  | _, _ => False
  end.

Lemma related_bind {A B C D} (R : A -> B -> world -> Prop) (S : C -> D -> world -> Prop)
    (m : M A) (n : M B) (f : A -> M C) (g : B -> M D) w w' :
  related R (m w) (n w') -> (forall a b w, R a b w -> related S (f a w) (g b w)) ->
  related S ((m ≫= f) w) ((n ≫= g) w').
Proof.
  intros Hm Hf. unfold mbind, M_bind.
  destruct (m w) as [[a w1]|], (n w') as [[b w2]|]; try done.
  destruct Hm as [HR ->]. by apply Hf.
Qed.

(** The two runs start with the same operation. *)
Lemma related_same {A C D} (S : C -> D -> world -> Prop) (m : M A) (f : A -> M C) (g : A -> M D) w :
  (forall a w1, m w = Some (a, w1) -> related S (f a w1) (g a w1)) ->
  related S ((m ≫= f) w) ((m ≫= g) w).
Proof.
  intros Hf. unfold mbind, M_bind. destruct (m w) as [[a w1]|]; [|done]. by apply Hf.
Qed.

Lemma related_weaken {A B} (R S : A -> B -> world -> Prop) x y :
  related R x y -> (forall a b w, R a b w -> S a b w) -> related S x y.
Proof.
  intros H Hi. destruct x as [[a w]|], y as [[b w']|]; try done.
  destruct H as [H ->]. split; [by apply Hi|done].
Qed.

(** One run packages the result of the other. *)
Lemma related_package {A B} (R : B -> A -> world -> Prop) (m : M A) (g : A -> B) w :
  (forall a w1, R (g a) a w1) -> related R ((m ≫= fun a => mret (g a)) w) (m w).
Proof. intros HR. unfold mbind, M_bind. by destruct (m w) as [[a w1]|]. Qed.

(** Reads and allocations always complete. *)
Lemma safe_any_get_ctx : safe (fun _ => True) get_ctx.
Proof. intros w _. by exists (w_ctx w), w. Qed.

Lemma safe_any_alloc : safe (fun _ => True) alloc.
Proof. intros w _. unfold alloc. destruct (w_alloc w); eauto. Qed.

End Logic.

#[export] Hint Resolve sat_ret sat_null sat_get_ctx sat_get_conn sat_get_trace sat_get_time
  frame_alloc : sat.
#[export] Hint Resolve safe_any_get_ctx safe_any_alloc : safe.
#[export] Hint Extern 0 (PreOrder _) => apply _ : sat.

(** Take a run of a bind apart. *)
Tactic Notation "run_inv" hyp(H) "as" ident(a) ident(w) ident(E) :=
  apply bind_some in H; destruct H as (a & w & E & H).

(** A run that returns one value did not return another. *)
Ltac no_ret H := exfalso; apply ret_some in H as [? ?]; discriminate.

(** Split on the test at the head of an operation that ran. *)
Ltac head_if H :=
  match type of H with
  | (if ?c then _ else _) _ = _ => let E := fresh "E" in destruct c eqn:E
  | (match ?c with _ => _ end) _ = _ => let E := fresh "E" in destruct c eqn:E
  end.

(** Follow the structure of the operation whose [sat] is the goal. *)
Ltac sat_step :=
  match goal with
  | |- sat _ (mbind _ _) => apply sat_bind; [solve [apply _ | auto with sat]| |intros ?]
  | |- sat _ (match ?x with _ => _ end) => destruct x
  | |- sat _ (let '_ := ?x in _) => destruct x
  | |- sat _ _ => solve [auto with sat]
  end.
Ltac sat_auto := repeat (cbn beta iota zeta; first [sat_step | progress cbn beta iota zeta]).

Ltac safe_step :=
  match goal with
  | |- safe _ (mbind _ _) => apply safe_bind; [|intros ?]
  | |- safe _ (match ?x with _ => _ end) => destruct x
  | |- safe _ (mret _) => apply safe_ret
  | |- safe _ _ => solve [auto with safe]
  end.
Ltac safe_auto := repeat (cbn beta iota zeta; safe_step).
