(* ===== verification/EstUtilFacts.v ===== *)
(** * EstUtilFacts: what the utilities of est.c compute

    Functional specifications of the scanners and of the tokenizer [skip_quoted],
    exactness of the URI and operation parsers, bounds of the base64 wrappers, and the
    hex printer's round trip.

    What a caller may rely on of the URI and operation parsers, the hex printer, the
    base64 wrappers and the tokenizers. *)

From S2P Require Import Prelude.
From S2P Require Import SafeC.
From S2P Require Import EstTypes.
From S2P Require Import EstState.
From S2P Require Import EstUtil.
From S2P Require Import EstLogic.

(** A string the routines accept: shorter than RSIZE_MAX_STR. *)
Definition fits (s : bytes) : Prop := Z.of_nat (length s) <= RSIZE_MAX_STR.

Lemma RSIZE_val : RSIZE_MAX_STR = 9223372036854775807.
Proof. reflexivity. Qed.

Lemma fits_small s : Z.of_nat (length s) <= 65536 -> fits s.
Proof. unfold fits. rewrite RSIZE_val. lia. Qed.

Lemma fits_cstr s : fits s -> Z.of_nat (length (cstr s)) <= RSIZE_MAX_STR.
Proof. unfold fits. pose proof (cstr_length s). lia. Qed.

Lemma fits_drop s n : fits s -> fits (drop n s).
Proof. unfold fits. rewrite length_drop. lia. Qed.

Lemma cstr_pos s : rd s 0 <> 0 -> (0 < length (cstr s))%nat.
Proof. destruct s as [|c r]; simpl; [done|]. unfold rd; simpl. intros. destr_if; b2p; simpl; lia. Qed.

Lemma cstr_nil s : rd s 0 = 0 -> cstr s = [].
Proof. destruct s as [|c r]; simpl; [done|]. unfold rd; simpl. by intros ->. Qed.

#[export] Hint Resolve fits_cstr fits_drop : est.

Lemma RSIZE_pos : 0 < RSIZE_MAX_STR.
Proof. by vm_compute. Qed.

(** The checks of [span_check] pass for the arguments est.c gives. *)
Lemma span_check_ok d s body :
  fits d -> rd d 0 <> 0 ->
  span_check (Some d) (Some s) (strnlen_s (Some d) RSIZE_MAX_STR) RSIZE_MAX_STR body
  = (EOK, body d s).
Proof.
  intros Hf H0. pose proof (fits_cstr _ Hf). pose proof (cstr_pos _ H0). pose proof RSIZE_pos.
  unfold span_check, strnlen_s. rewrite strnlen_full by done.
  rewrite (proj2 (Z.eqb_neq _ 0)) by lia.
  rewrite Z.gtb_ltb, (proj2 (Z.ltb_ge _ _)) by lia.
  rewrite (proj2 (Z.eqb_neq _ 0)) by lia.
  by rewrite Z.gtb_ltb, (proj2 (Z.ltb_ge _ _)) by lia.
Qed.

Lemma est_strcspn_spec s d :
  fits s -> fits d -> est_strcspn (Some s) (Some d) = length (prefix_out (cstr s) (cstr d)).
Proof.
  intros Hs Hd. unfold est_strcspn, strcspn_s.
  destruct (rd s 0 =? 0) eqn:E; b2p; [by rewrite cstr_nil|].
  rewrite span_check_ok by done. rewrite Z.eqb_refl.
  unfold strnlen_s. rewrite strnlen_full by auto with est.
  rewrite strcspn_loop_spec by (auto with est; lia). lia.
Qed.

Lemma est_strspn_spec s d :
  fits s -> fits d -> est_strspn (Some s) (Some d) = length (prefix_in (cstr s) (cstr d)).
Proof.
  intros Hs Hd. unfold est_strspn, strspn_s.
  destruct (rd s 0 =? 0) eqn:E; b2p; [by rewrite cstr_nil|].
  rewrite span_check_ok by done. rewrite Z.eqb_refl.
  unfold strnlen_s. rewrite strnlen_full by auto with est.
  rewrite strspn_loop_spec by (auto with est; lia). lia.
Qed.

(** ** skip_quoted *)

Lemma drop_app_l {A} (l k : list A) : drop (length l) (l ++ k) = k.
Proof. by rewrite drop_app_length. Qed.

Lemma cstr_app_no_nul s r : no_nul s -> cstr (s ++ r) = s ++ cstr r.
Proof.
  induction 1 as [|c l Hc Hl IH]; simpl; [done|].
  apply Z.eqb_neq in Hc. by rewrite Hc, IH.
Qed.

(** Without a quote character the loop on escapes does not move. *)
Lemma quote_loop_noquote fuel buf p e d :
  rd buf p <> 0 -> quote_loop fuel buf p e d 0 = (buf, p, e).
Proof. intros H. destruct fuel; simpl; [done|]. apply Z.eqb_neq in H. by rewrite H. Qed.

(** The word part of [skip_quoted] with no quote character leaves the buffer as
    it is. *)
Lemma skip_quoted_noquote pre w r delims ws :
  fits (pre ++ w ++ r) -> fits delims ->
  no_nul w -> prefix_out (cstr (w ++ r)) (cstr delims) = w ->
  skip_quoted (pre ++ w ++ r) (length pre) delims ws 0 =
  let buf := pre ++ w ++ r in
  let e := (length pre + length w)%nat in
  if rd r 0 =? 0 then (buf, e, length pre)
  else let k := est_strspn (Some (drop 1 r)) (Some ws) in
       (zero_range buf e (1 + k), (e + 1 + k)%nat, length pre).
Proof.
  intros Hf Hd Nw Hp. unfold skip_quoted. rewrite drop_app_l.
  rewrite est_strcspn_spec.
  2: { unfold fits in *. rewrite (length_app pre) in Hf. lia. }
  2: { done. }
  rewrite Hp.
  assert (Hrd : forall i, rd (pre ++ w ++ r) (length pre + length w + i) = rd r i).
  { intros i. rewrite app_assoc, <- length_app. apply rd_app_r. }
  assert (Hbuf :
    (if (length pre <? length pre + length w)%nat
     then let '(b, p, e0) := quote_loop (S (length (pre ++ w ++ r))) (pre ++ w ++ r)
                (length pre + length w - 1) (length pre + length w) delims 0 in
          (zero_range b (p + 1) (e0 - (p + 1)), e0)
     else (pre ++ w ++ r, (length pre + length w)%nat))
    = (pre ++ w ++ r, (length pre + length w)%nat)).
  { destruct (length pre <? length pre + length w)%nat eqn:E; b2p; [|done].
    rewrite quote_loop_noquote.
    - replace (length pre + length w - (length pre + length w - 1 + 1))%nat with 0%nat by lia.
      done.
    - replace (length pre + length w - 1)%nat with (length pre + (length w - 1))%nat by lia.
      rewrite rd_app_r, rd_app_l by lia. unfold rd.
      assert (Hin : In (nth (length w - 1) w 0) w) by (apply nth_In; lia).
      unfold no_nul in Nw. rewrite Forall_forall in Nw. apply Nw, Hin. }
  rewrite Hbuf. cbn zeta.
  pose proof (Hrd 0%nat) as H0. rewrite Nat.add_0_r in H0. rewrite H0.
  destruct (rd r 0 =? 0) eqn:E; [done|].
  assert (Hdrop : drop (length pre + length w + 1) (pre ++ w ++ r) = drop 1 r).
  { rewrite app_assoc, <- length_app. rewrite <- drop_drop, drop_app_l. done. }
  rewrite Hdrop. do 2 f_equal. f_equal. lia.
Qed.

(** The bytes a word consumes: its characters, the delimiter and the blanks. *)
Lemma skip_quoted_word pre w d blanks r delims ws :
  fits (pre ++ w ++ d :: blanks ++ r) -> fits delims -> fits ws ->
  no_nul w -> d <> 0 -> no_nul blanks ->
  Forall (fun x => ~ In x (cstr delims)) w -> In d (cstr delims) ->
  Forall (fun x => In x (cstr ws)) blanks ->
  (rd r 0 = 0 \/ ~ In (rd r 0) (cstr ws)) ->
  skip_quoted (pre ++ w ++ d :: blanks ++ r) (length pre) delims ws 0
  = (pre ++ w ++ replicate (S (length blanks)) 0 ++ r,
     (length pre + length w + S (length blanks))%nat, length pre).
Proof.
  intros Hf Hd Hw Nw Nd Nb Fw Ind Fb Hr.
  rewrite skip_quoted_noquote; [|done..|].
  2: { rewrite cstr_app_no_nul by done. simpl. rewrite (proj2 (Z.eqb_neq d 0)) by done.
       by apply prefix_out_app. }
  cbn zeta. change (rd (d :: blanks ++ r) 0) with d.
  change (drop 1 (d :: blanks ++ r)) with (blanks ++ r).
  rewrite (proj2 (Z.eqb_neq d 0)) by done. rewrite est_strspn_spec.
  2: { unfold fits in *. rewrite !length_app in *. cbn [length] in Hf.
       rewrite length_app in Hf. lia. }
  2: { done. }
  rewrite cstr_app_no_nul by done.
  assert (Hpi : prefix_in (blanks ++ cstr r) (cstr ws) = blanks).
  { destruct r as [|c r']; simpl in *; [by rewrite app_nil_r; apply prefix_in_all|].
    change (rd (c :: r') 0) with c in Hr. destruct (c =? 0) eqn:E; b2p.
    - rewrite app_nil_r. by apply prefix_in_all.
    - apply prefix_in_app; [done|]. by destruct Hr. }
  rewrite Hpi.
  replace (pre ++ w ++ d :: blanks ++ r) with ((pre ++ w) ++ (d :: blanks) ++ r)
    by (rewrite <- !app_assoc; done).
  rewrite <- length_app.
  change (S (length blanks)) with (length (d :: blanks)).
  replace (length (pre ++ w) + 1 + length blanks)%nat
    with (length (pre ++ w) + length (d :: blanks))%nat by (simpl; lia).
  change (1 + length blanks)%nat with (length (d :: blanks)).
  rewrite zero_range_app. by rewrite <- app_assoc.
Qed.

(** At the end of the string the word is what is left of it. *)
Lemma skip_quoted_last pre w r delims ws :
  fits (pre ++ w ++ r) -> fits delims -> no_nul w -> rd r 0 = 0 ->
  Forall (fun x => ~ In x (cstr delims)) w ->
  skip_quoted (pre ++ w ++ r) (length pre) delims ws 0
  = (pre ++ w ++ r, (length pre + length w)%nat, length pre).
Proof.
  intros Hf Hd Nw Hr Fw. rewrite skip_quoted_noquote; [|done..|].
  - cbn zeta. by rewrite Hr.
  - rewrite cstr_app_no_nul, (cstr_nil r), app_nil_r by done. by apply prefix_out_all.
Qed.

(** ** Operations and URIs *)

Lemma est_strcasecmp_zero s1 s2 :
  no_nul s1 -> no_nul s2 -> are_bytes s1 -> are_bytes s2 -> fits s1 -> s1 <> [] ->
  est_strcasecmp_s s1 s2 = 0 <-> map toupper s1 = map toupper s2.
Proof.
  intros N1 N2 B1 B2 Hf Hne. unfold est_strcasecmp_s, strcasecmp_s, strnlen_s.
  rewrite strnlen_full by auto with est. rewrite (cstr_id s1) by done.
  assert (0 < length s1)%nat by (destruct s1; simpl; [done|lia]).
  unfold fits in Hf.
  rewrite (proj2 (Z.eqb_neq _ 0)) by lia.
  rewrite Z.gtb_ltb, (proj2 (Z.ltb_ge _ _)) by lia. simpl.
  apply strcasecmp_loop_zero; (done || lia).
Qed.

(** An empty first string compares equal to everything: [strcasecmp_s] refuses
    the zero length with [*indicator] already set to 0. *)
Lemma est_strcasecmp_empty s2 : est_strcasecmp_s [] s2 = 0.
Proof. reflexivity. Qed.

(** The last path component of each operation, and the operations there are. *)
Definition op_name (op : EST_OPERATION) : option bytes :=
  match op with
  | EST_OP_SIMPLE_ENROLL => Some EST_SIMPLE_ENROLL
  | EST_OP_SIMPLE_REENROLL => Some EST_SIMPLE_REENROLL
  | EST_OP_CACERTS => Some EST_GET_CACERTS
  | EST_OP_CSRATTRS => Some EST_GET_CSRATTRS
  | EST_OP_SERVER_KEYGEN => Some EST_SERVER_KEYGEN
  | EST_OP_BRSKI_REQ_VOUCHER => Some EST_BRSKI_GET_VOUCHER
  | EST_OP_BRSKI_VOUCHER_STATUS => Some EST_BRSKI_VOUCHER_STATUS
  | EST_OP_BRSKI_ENROLL_STATUS => Some EST_BRSKI_ENROLL_STATUS
  | EST_DUMMY_KEYGEN_MAP | EST_OP_MAX => None
  end.

Definition op_uri (op : EST_OPERATION) : option bytes :=
  match op_name op with
  | Some n => Some (EST_PATH_PREFIX ++ [chr_slash] ++ n)
  | None => None
  end.

Lemma strncmp_uri uri L :
  no_nul uri -> no_nul L -> Z.of_nat (length L) < EST_URI_MAX_LEN ->
  (strncmp uri L EST_URI_MAX_LEN =? 0) = bool_decide (uri = L).
Proof.
  intros Nu NL Hl. apply eq_true_iff_eq. rewrite Z.eqb_eq, bool_decide_eq_true.
  apply strncmp_zero; auto.
Qed.

Lemma strcasecmp_op p L :
  no_nul p -> are_bytes p -> fits p -> p <> [] -> no_nul L -> are_bytes L ->
  (est_strcasecmp_s p L =? 0) = bool_decide (map toupper p = map toupper L).
Proof.
  intros. apply eq_true_iff_eq. rewrite Z.eqb_eq, bool_decide_eq_true.
  by apply est_strcasecmp_zero.
Qed.

Ltac lit_side :=
  match goal with
  | |- no_nul ?s => refine (bool_decide_unpack (no_nul s) _); vm_compute; exact I
  | |- are_bytes ?s =>
      refine (bool_decide_unpack (Forall is_byte s) _); vm_compute; exact I
  | |- _ < EST_URI_MAX_LEN => vm_compute; reflexivity
  end.

(** Parsing succeeds exactly on the eight well-known URIs, and yields their
    operation. *)
Lemma est_parse_uri_iff uri op :
  no_nul uri ->
  est_parse_uri true uri = (EST_ERR_NONE, op, None) <-> op_uri op = Some uri.
Proof.
  intros Nu. unfold est_parse_uri. rewrite !strncmp_uri by (done || lit_side).
  cbn [andb]. split.
  - repeat case_bool_decide; intros [= <-]; subst; reflexivity.
  - destruct op; intros [= <-]; reflexivity.
Qed.

(** Otherwise the error is the invalid path segment one. *)
Lemma est_parse_uri_error uri :
  no_nul uri -> (forall op, op_uri op <> Some uri) ->
  est_parse_uri true uri = (EST_ERR_HTTP_INVALID_PATH_SEGMENT, EST_OP_MAX, None).
Proof.
  intros Nu Hno.
  assert (H : forall e op seg, est_parse_uri true uri = (e, op, seg) ->
            seg = None /\ (e = EST_ERR_NONE \/
            (e, op) = (EST_ERR_HTTP_INVALID_PATH_SEGMENT, EST_OP_MAX))).
  { unfold est_parse_uri. intros e op seg. repeat destr_if; intros [= <- <- <-]; auto. }
  destruct (est_parse_uri true uri) as [[e op] seg] eqn:E.
  destruct (H _ _ _ eq_refl) as (-> & [-> | [= -> ->]]); [|done].
  exfalso. apply (Hno op). by apply est_parse_uri_iff.
Qed.

(** A non-empty path component names an operation exactly when it is the
    operation's name up to case. *)
Lemma est_parse_operation_iff p op :
  no_nul p -> are_bytes p -> fits p -> p <> [] -> op <> EST_OP_MAX ->
  est_parse_operation true p = op
  <-> exists n, op_name op = Some n /\ map toupper p = map toupper n.
Proof.
  intros Np Bp Hf Hne Hop. unfold est_parse_operation.
  rewrite !strcasecmp_op by (done || lit_side). cbn [andb]. split.
  - repeat case_bool_decide; intros <-; eauto; done.
  - intros (n & Hn & Hp). rewrite Hp. destruct op; try done; injection Hn as <-; reflexivity.
Qed.

(** ** Hex printing *)

Definition hex_val (c : Z) : Z := if isdigit c then c - 48 else c - 87.

Fixpoint hex_decode (s : bytes) : bytes :=
  match s with
  | a :: c :: r => (hex_val a * 16 + hex_val c) :: hex_decode r
  | _ => []
  end.

Lemma hex_val_table i : 0 <= i < 16 -> hex_val (rd hex_table (Z.to_nat i)) = i.
Proof.
  intros H. assert (Hi : i = 0 \/ i = 1 \/ i = 2 \/ i = 3 \/ i = 4 \/ i = 5 \/ i = 6 \/ i = 7
    \/ i = 8 \/ i = 9 \/ i = 10 \/ i = 11 \/ i = 12 \/ i = 13 \/ i = 14 \/ i = 15) by lia.
  repeat (destruct Hi as [->|Hi]; [reflexivity|]). by subst.
Qed.

Lemma hex_roundtrip src : are_bytes src -> hex_decode (est_hex_to_str src) = src.
Proof.
  induction 1 as [|c r Hc Hr IH]; [done|]. unfold is_byte in Hc.
  change (est_hex_to_str (c :: r)) with
    (rd hex_table (Z.to_nat (Z.shiftr c 4)) :: rd hex_table (Z.to_nat (Z.land c 15))
     :: est_hex_to_str r).
  cbn [hex_decode]. rewrite IH.
  rewrite Z.shiftr_div_pow2 by lia. change 15 with (Z.ones 4).
  rewrite Z.land_ones by lia. change (2 ^ 4) with 16.
  rewrite hex_val_table by (split; [apply Z.div_pos | apply Z.div_lt_upper_bound]; lia).
  rewrite hex_val_table by (apply Z.mod_pos_bound; lia).
  f_equal. pose proof (Z.div_mod c 16 ltac:(lia)). lia.
Qed.

Lemma hex_length src : length (est_hex_to_str src) = (2 * length src)%nat.
Proof. induction src; simpl; [done|]. unfold est_hex_to_str in *. lia. Qed.

(** ** Base64 *)

Definition non_blank (s : bytes) : bytes := filter (fun c => isspace c = false) s.

Lemma b64_analyze_loop_len src i nws temp :
  exists t, b64_analyze_loop src i nws temp
  = (nws + Z.of_nat (length (non_blank (cstr src))), i + Z.of_nat (length (cstr src)), t).
Proof.
  revert i nws temp; induction src as [|c r IH]; intros i nws temp; cbn [b64_analyze_loop cstr].
  - exists temp. rewrite !pair_eq. simpl. repeat split; lia.
  - destruct (c =? 0); [exists temp; rewrite !pair_eq; simpl; repeat split; lia|].
    unfold non_blank in *. rewrite filter_cons. destruct (isspace c) eqn:E; cbn [negb].
    + rewrite decide_False by done.
      destruct ((c =? chr_lf) && (temp =? -1)); edestruct IH as [t ->]; exists t;
        rewrite !pair_eq; cbn [length]; repeat split; lia.
    + rewrite decide_True by done. edestruct IH as [t ->]; exists t.
      rewrite !pair_eq; cbn [length]; repeat split; lia.
Qed.

Lemma est_base64_str_analyze_spec src :
  exists nl, est_base64_str_analyze src
  = (Z.of_nat (length (non_blank (cstr src))), Z.of_nat (length (cstr src)), nl).
Proof.
  unfold est_base64_str_analyze. destruct (b64_analyze_loop_len src 0 0 (-1)) as [t ->].
  eauto.
Qed.

(** Decoding never consults the BIO for input that cannot fit: what it returns
    is zero or three bytes for each four non-blank characters, less the
    padding, of an input within the destination's capacity. *)
Lemma est_base64_decode_bound {O : OpenSSL} src dst_size w n out w' :
  est_base64_decode src dst_size w = Some ((n, out), w') ->
  n = 0 \/ (let nws := Z.of_nat (length (non_blank (cstr src))) in
            nws mod 4 = 0 /\ nws <= b64_max_in dst_size /\
            3 * nws / 4 - 2 <= n <= 3 * nws / 4 /\
            exists no_nl, b64_bio_read no_nl (cstr src) dst_size = (n, out)).
Proof.
  unfold est_base64_decode, est_base64_decode_at. destruct (est_base64_str_analyze_spec src) as [nl ->].
  unfold mbind, M_bind, mret, M_ret, alloc. cbn zeta.
  repeat destr_match; intros [= <- <- <-]; auto; right; b2p; subst;
    repeat match goal with H : (_ >? _) = _ |- _ => rewrite Z.gtb_ltb in H; b2p end;
    (repeat split; [done|lia|..|by eauto]); repeat destr_if; lia.
Qed.

(** ** Operations *)

(** Without uriparser a URI is routed by exact comparison: the parser
    succeeds exactly on the eight well-known URIs, each of which names one
    operation and never a path segment; every other URI is refused as an
    invalid path segment, and a build without BRSKI refuses the voucher ones. *)
Theorem est_parse_uri_spec (uri : bytes) :
  no_nul uri ->
  (forall op seg, est_parse_uri true uri = (EST_ERR_NONE, op, seg) <->
     seg = None /\ op_uri op = Some uri) /\
  (est_parse_uri true uri = (EST_ERR_HTTP_INVALID_PATH_SEGMENT, EST_OP_MAX, None) <->
     forall op, op_uri op <> Some uri) /\
  (forall op, est_parse_uri false uri = (EST_ERR_NONE, op, None) <->
     op_uri op = Some uri /\
     op <> EST_OP_BRSKI_REQ_VOUCHER /\ op <> EST_OP_BRSKI_VOUCHER_STATUS /\
     op <> EST_OP_BRSKI_ENROLL_STATUS).
Proof.
  intros Nu. split_and!.
  - intros op seg. split.
    + intros H. assert (seg = None) as ->.
      { revert H. unfold est_parse_uri. repeat destr_if; by intros [= _ <-]. }
      split; [done|]. by apply est_parse_uri_iff.
    + intros [-> H]. by apply est_parse_uri_iff.
  - split; [|by apply est_parse_uri_error].
    intros H op Hop. apply est_parse_uri_iff in Hop; [|done]. congruence.
  - intros op. unfold est_parse_uri. rewrite !strncmp_uri by (done || lit_side). cbn [andb]. split.
    + repeat case_bool_decide; intros [= <-]; subst; by split_and!.
    + intros (H & ? & ? & ?). destruct op; try done; injection H as <-; reflexivity.
Qed.

(** A path component names an operation when it equals the
    operation's name up to the case of letters, and [EST_OP_MAX] is the answer
    exactly when it names none; the empty component, whose comparison has
    nothing to compare, names the CA certificates operation. *)
Theorem est_parse_operation_spec (p : bytes) :
  no_nul p -> are_bytes p -> fits p ->
  (p <> [] -> forall op, op <> EST_OP_MAX ->
     est_parse_operation true p = op <->
     exists n, op_name op = Some n /\ map toupper p = map toupper n) /\
  (p <> [] -> est_parse_operation true p = EST_OP_MAX <->
     forall op n, op_name op = Some n -> map toupper p <> map toupper n) /\
  (p = [] -> est_parse_operation true p = EST_OP_CACERTS).
Proof.
  intros Np Bp Hf. split_and!.
  - intros Hne op Hop. by apply est_parse_operation_iff.
  - intros Hne. split.
    + intros H op n Hn Hp. assert (Hop : op <> EST_OP_MAX) by (by intros ->).
      assert (E : est_parse_operation true p = op) by (apply est_parse_operation_iff; eauto). congruence.
    + intros H. destruct (decide (est_parse_operation true p = EST_OP_MAX)) as [|Hn]; [done|].
      destruct (proj1 (est_parse_operation_iff p _ Np Bp Hf Hne Hn) eq_refl) as (n & ? & ?).
      by destruct (H _ _ H0).
  - intros ->. unfold est_parse_operation. by rewrite est_strcasecmp_empty.
Qed.

(** ** Encodings *)

Lemma hex_table_digits k : (k < 16)%nat -> In (rd hex_table k) (lit "0123456789abcdef").
Proof. intros H. do 16 (destruct k as [|k]; [simpl; tauto|]). lia. Qed.

(** The hex printer writes two lower-case digits for each byte, from
    which the bytes can be read back. *)
Theorem est_hex_to_str_roundtrip (src : bytes) :
  are_bytes src ->
  hex_decode (est_hex_to_str src) = src /\
  length (est_hex_to_str src) = (2 * length src)%nat /\
  Forall (fun c => In c (lit "0123456789abcdef")) (est_hex_to_str src).
Proof.
  intros H. split_and!; [by apply hex_roundtrip|apply hex_length|].
  induction H as [|c r Hc Hr IH]; [constructor|]. unfold is_byte in Hc. cbn [est_hex_to_str flat_map].
  assert (H1 : 0 <= Z.shiftr c 4 < 16).
  { rewrite Z.shiftr_div_pow2 by lia. split; [apply Z.div_pos|apply Z.div_lt_upper_bound]; lia. }
  assert (H2 : 0 <= Z.land c 15 < 16).
  { change 15 with (Z.ones 4). rewrite Z.land_ones by lia. by apply Z.mod_pos_bound. }
  do 2 (constructor; [apply hex_table_digits; lia|]). exact IH.
Qed.

Section Base64.
Context {L : OpenSSL}.

(** A text with a character that is no blank. *)
Definition has_text (src : bytes) : Prop := non_blank (cstr src) <> [].

(** The search for the last character ends inside a text that has one, and inside its
    buffer where something lies in front of it. *)
Lemma last_non_whitespace_defined front src :
  front <> [] \/ has_text src ->
  exists idx, last_non_whitespace front src (length (cstr src)) = Some idx.
Proof.
  intros H. assert (Hk : front <> [] \/ exists i, (i < length (cstr src))%nat /\ isspace (rd src i) = false).
  { destruct H as [H|H]; [by left|right]. unfold has_text, non_blank in H.
    destruct (filter _ (cstr src)) as [|c l] eqn:E; [done|].
    assert (Hc : c ∈ filter (fun c => isspace c = false) (cstr src)) by (rewrite E; left).
    apply list_elem_of_filter in Hc as [Hs Hc]. apply list_elem_of_lookup in Hc as [i Hi].
    exists i. apply lookup_lt_Some in Hi as Hl. split; [done|].
    rewrite (cstr_prefix src), lookup_take_lt in Hi by done. unfold rd. rewrite nth_lookup, Hi. done. }
  clear H. induction (length (cstr src)) as [|k IH]; cbn [last_non_whitespace].
  - destruct Hk as [Hf|(i & Hi & _)]; [|lia]. destruct front; [done|by eexists].
  - destruct (isspace (rd src k)) eqn:E; [|by eexists]. apply IH.
    destruct Hk as [Hf|(i & Hi & Hs)]; [by left|right]. exists i. split; [|done].
    destruct (decide (i = k)) as [->|]; [congruence|lia].
Qed.

Lemma last_non_whitespace_blank src :
  ~ has_text src -> last_non_whitespace [] src (length (cstr src)) = None.
Proof.
  intros H. assert (Hk : forall i, (i < length (cstr src))%nat -> isspace (rd src i) = true).
  { intros i Hi. destruct (isspace (rd src i)) eqn:E; [done|]. destruct H. unfold has_text, non_blank.
    destruct (lookup_lt_is_Some_2 (cstr src) i Hi) as [c Hc]. intros Hn.
    assert (Hin : c ∈ filter (fun c => isspace c = false) (cstr src)); [|rewrite Hn in Hin; by apply not_elem_of_nil in Hin].
    apply list_elem_of_filter. split; [|by eapply list_elem_of_lookup_2].
    rewrite (cstr_prefix src), lookup_take_lt in Hc by done. unfold rd in E. by rewrite nth_lookup, Hc in E. }
  clear H. induction (length (cstr src)) as [|k IH]; cbn [last_non_whitespace]; [done|].
  rewrite Hk by lia. apply IH. intros i Hi. apply Hk. lia.
Qed.

(** Decoding is defined on a text that is not blank, or that does not start its buffer. *)
Lemma safe_base64_decode_at (I : world -> Prop) front src dst_size :
  safe I alloc -> front <> [] \/ has_text src -> safe I (est_base64_decode_at front src dst_size).
Proof.
  intros Ha H. unfold est_base64_decode_at. destruct (est_base64_str_analyze_spec src) as [nl ->].
  rewrite Nat2Z.id. destruct (last_non_whitespace_defined front src H) as [idx ->]. safe_auto.
Qed.

Lemma safe_base64_decode src dst_size :
  has_text src -> safe (fun _ => True) (est_base64_decode src dst_size).
Proof. intros. apply safe_base64_decode_at; [apply safe_any_alloc|by right]. Qed.

(** The blank text at the start of a buffer is read one byte in front of it. *)
Lemma est_base64_decode_blank src dst_size w :
  ~ has_text src -> 0 <= dst_size -> w_alloc w = [] -> est_base64_decode src dst_size w = None.
Proof.
  intros H Hd Hw. unfold est_base64_decode, est_base64_decode_at.
  destruct (est_base64_str_analyze_spec src) as [nl ->]. rewrite Nat2Z.id, last_non_whitespace_blank by done.
  assert (non_blank (cstr src) = []) as -> by (unfold has_text in H; destruct (non_blank _); [done|by destruct H]).
  cbn [length]. assert (E : (Z.of_nat 0 >? b64_max_in dst_size) = false).
  { rewrite Z.gtb_ltb. apply Z.ltb_ge. unfold b64_max_in. case_match; Z.div_mod_to_equations; lia. }
  assert (Ha : alloc w = Some (true, w)) by (unfold alloc; by rewrite Hw).
  rewrite E. do 2 (rewrite (bind_run _ _ _ _ _ Ha); cbn [negb]). done.
Qed.

(** Decoding a text that is not blank always returns, and what it returns is either
    nothing or the output of the base64 filter on the whole text, whose length
    is the one the padding announces: at most three bytes for four characters,
    for a text whose number of characters is a multiple of four and within what
    the destination allows. *)
Theorem est_base64_decode_spec (src : bytes) (dst_size : Z) (w : world) :
  has_text src ->
  exists n out w', est_base64_decode src dst_size w = Some ((n, out), w') /\
    (n = 0 \/ (let nws := Z.of_nat (length (non_blank (cstr src))) in
            nws mod 4 = 0 /\ nws <= b64_max_in dst_size /\
            3 * nws / 4 - 2 <= n <= 3 * nws / 4 /\
            n <= dst_size + 3 /\
            exists no_nl, b64_bio_read no_nl (cstr src) dst_size = (n, out))).
Proof.
  intros Ht. assert (Hr : exists n out w', est_base64_decode src dst_size w = Some ((n, out), w')).
  { destruct (safe_base64_decode src dst_size Ht w I) as ([n out] & w' & H & _). eauto. }
  destruct Hr as (n & out & w' & E). exists n, out, w'. split; [done|].
  destruct (est_base64_decode_bound src dst_size w n out w' E) as [|(H1 & H2 & H3 & H4)]; [by left|].
  right. cbv zeta. split_and!; try done; try tauto. clear -H2 H3. unfold b64_max_in in H2.
  revert H2; case_match; intros; (Z.div_mod_to_equations; lia).
Qed.

(** The encoder's capacity check looks at the source alone and
    admits a source whose encoding does not fit the destination: four bytes
    into a destination of four.  Nothing is copied then, yet the terminating NUL
    is stored at index 8, past the end of the destination, and success is
    reported. *)
Theorem est_base64_encode_overrun (w : world) :
  (forall s, fst (b64_bio_write false s) = Z.of_nat (length s)) ->
  (forall s, Z.of_nat (length (snd (b64_bio_write false s)))
             = (Z.of_nat (length s) + 2) / 3 * 4) ->
  w_alloc w = [] ->
  exists src r, Z.of_nat (length src) <= 4 * 3 / 4 + 1 /\
    est_base64_encode src 4 false w = Some (r, w) /\
    0 < enc_ret r /\ enc_nul r = Some 8 /\ enc_dst r = [].
Proof.
  intros Hw Hl Ha. exists [1; 2; 3; 4].
  specialize (Hw [1; 2; 3; 4]). specialize (Hl [1; 2; 3; 4]).
  unfold est_base64_encode, mbind, M_bind, mret, M_ret, alloc.
  destruct (b64_bio_write false [1; 2; 3; 4]) as [cnt m]. cbn [fst snd] in *.
  change ((Z.of_nat (length [1; 2; 3; 4]) + 2) / 3 * 4) with 8 in Hl.
  change (Z.of_nat (length [1; 2; 3; 4])) with 4 in *. subst cnt.
  eexists. split; [done|]. change (4 >? 4 * 3 / 4 + 1) with false.
  change (4 <=? 0) with false. cbv beta iota zeta. rewrite Ha. cbn [negb]. rewrite Ha.
  cbn [negb]. rewrite Hl. change (8 >? 4) with true. by split.
Qed.

End Base64.
