(* ===== verification/BrskiJson.v ===== *)
(** Vouchers as JSON (ClientBrski): what [retrieve_token_from_voucher] finds in the text
    of a tree, and the requests and reports of the client as texts of trees. *)

From S2P Require Import Prelude.
From S2P Require Import SafeC.
From S2P Require Import Jsmn.
From S2P Require Import JsmnRoundtrip.
From S2P Require Import EstUtil.
From S2P Require Import EstUtilFacts.
From S2P Require Import HttpIO.
From S2P Require Import ClientBrski.

(** * The texts of the tokens *)

Definition key_texts (key : option (bytes * bytes * bytes)) : list (jsmntype_t * bytes) :=
  match key with None => [] | Some (k, _, _) => [(JSMN_STRING, k)] end.

(** The kinds and texts of the tokens of a tree, in the order of the token table. *)
Fixpoint json_texts (v : json) : list (jsmntype_t * bytes) :=
  match v with
  | JPrim s => [(JSMN_PRIMITIVE, s)]
  | JStr s => [(JSMN_STRING, s)]
  | JNode obj w its => (if obj then JSMN_OBJECT else JSMN_ARRAY, json_text v) :: items_texts its
  end
with items_texts (its : items) : list (jsmntype_t * bytes) :=
  match its with
  | INil => []
  | ICons w key v w' rest => key_texts key ++ json_texts v ++ items_texts rest
  end.

(** What follows the first string that is [token]: [Some None] when nothing does. *)
Fixpoint lookup_after (token : bytes) (l : list (jsmntype_t * bytes)) : option (option bytes) :=
  match l with
  | [] => None
  | (ty, s) :: r =>
      if bool_decide (ty = JSMN_STRING) && bool_decide (s = token) then Some (snd <$> head r)
      else lookup_after token r
  end.

(** The value of [token] in a tree, as the client looks it up. *)
Definition json_lookup (token : bytes) (v : json) : option bytes :=
  default [] <$> lookup_after token (tail (json_texts v)).

(** The token [t] of [js] has the kind and text [x]. *)
Record reads_as (js : bytes) (t : jsmntok_t) (x : jsmntype_t * bytes) : Prop := {
  ra_type : t_type t = fst x;
  ra_start : 0 <= t_start t;
  ra_len : t_end t - t_start t = Z.of_nat (length (snd x));
  ra_text : take (length (snd x)) (drop (Z.to_nat (t_start t)) js) = snd x;
}.

Section Texts.
Context (js : bytes).

Lemma reads_as_at o ty s n suf : drop o js = s ++ suf ->
    reads_as js (Tok ty (Z.of_nat o) (Z.of_nat (o + length s)) n) (ty, s).
Proof.
    intros H. split; cbn [t_type t_start t_end fst snd]; [done|lia|lia|].
    by rewrite Nat2Z.id, H, take_app_length.
Qed.

Lemma reads_as_string o s n suf : drop o js = in_quotes s ++ suf ->
    reads_as js (Tok JSMN_STRING (Z.of_nat o + 1) (Z.of_nat (o + 1 + length s)) n) (JSMN_STRING, s).
Proof.
    intros H. replace (Z.of_nat o + 1) with (Z.of_nat (o + 1)) by lia.
    apply (reads_as_at _ _ _ _ ([34] ++ suf)). unfold in_quotes in H. cbn [app] in H.
    apply at_cons in H as (_ & _ & H). rewrite <- app_assoc in H. by rewrite Nat.add_1_r.
Qed.

Lemma key_toks_texts key o suf : drop o js = key_text key ++ suf ->
    Forall2 (reads_as js) (key_toks o key) (key_texts key).
Proof.
    destruct key as [[[k w1] w2]|]; [|constructor]. cbn [key_text key_toks key_texts].
    rewrite <- app_assoc. intros H. repeat constructor; by eapply reads_as_string.
Qed.

Lemma toks_texts :
    (forall v o suf, drop o js = json_text v ++ suf ->
       Forall2 (reads_as js) (json_toks o v) (json_texts v)) /\
    (forall its first o suf, drop o js = items_text first its ++ suf ->
       Forall2 (reads_as js) (items_toks first o its) (items_texts its)).
Proof.
    apply json_items_ind.
    - intros s o suf H. constructor; [by eapply reads_as_at|constructor].
    - intros s o suf H. constructor; [by eapply reads_as_string|constructor].
    - intros obj w its IH o suf H. cbn [json_toks json_texts]. constructor; [by eapply reads_as_at|].
      cbn [json_text app] in H. apply at_cons in H as (_ & _ & H). rewrite <- app_assoc in H.
      apply at_app in H. rewrite <- app_assoc in H.
      replace (o + 1 + length w)%nat with (S o + length w)%nat by lia. by eapply IH.
    - constructor.
    - intros w key v IHv w' rest IHr first o suf H. cbn [items_text items_toks items_texts] in *.
      rewrite app_assoc, <- (app_assoc (_ ++ w)) in H. apply at_app in H. rewrite <- !app_assoc in H.
      apply Forall2_app; [by eapply key_toks_texts|]. apply at_app in H.
      apply Forall2_app; [by eapply IHv|]. do 2 apply at_app in H. by eapply IHr.
Qed.

Lemma jsoneq_reads t ty s token : reads_as js t (ty, s) ->
    jsoneq js t token = bool_decide (ty = JSMN_STRING) && bool_decide (s = token).
Proof.
    intros [Ht Hs Hl Hx]. cbn [fst snd] in *. unfold jsoneq. rewrite Ht, Hl, Nat2Z.id, Hx.
    destruct (bool_decide (ty = _)); [|done]. cbn [andb].
    case_bool_decide as Hst; [subst s; by rewrite Z.eqb_refl|apply andb_false_r].
Qed.

Lemma tok_text_reads t x : reads_as js t x -> tok_text js t = cstr (snd x).
Proof.
    intros [Ht Hs Hl Hx]. unfold tok_text. rewrite Hl, Nat2Z.id, Hx.
    by rewrite (proj2 (Z.ltb_ge _ _)) by lia.
Qed.

Lemma retrieve_loop_reads size token k : forall toks texts i pre,
    Forall2 (reads_as js) toks texts ->
    Forall (fun x => fst x <> JSMN_UNDEFINED /\ no_nul (snd x)) texts -> i = length pre -> (0 < k)%nat ->
    retrieve_loop (length toks) i js size (pre ++ toks ++ fresh_tokens k) token =
      Some (fmap (fun o => snprintf size (default [] o)) (lookup_after token texts)).
Proof.
    induction toks as [|t toks IH]; intros texts i pre H2 Hok -> Hk.
    { inversion H2. done. }
    inversion H2 as [|? [ty s] ? texts' Ht Hr]; subst. apply Forall_cons_1 in Hok as [[Hty Hnul] Hok].
    cbn [length retrieve_loop lookup_after fst snd] in *.
    rewrite lookup_app_r, Nat.sub_diag by lia. cbn [app lookup list_lookup].
    rewrite (jsoneq_reads _ _ _ _ Ht).
    destruct (_ && _).
    - rewrite lookup_app_r by lia. replace (S (length pre) - length pre)%nat with 1%nat by lia.
      cbn [lookup list_lookup]. destruct Hr as [|u [ty' s'] toks texts' Hu Hr].
      + destruct k; [lia|]. unfold fresh_tokens. cbn [app repeat lookup list_lookup t_type].
        rewrite bool_decide_eq_true_2 by done. cbn. unfold snprintf. by rewrite take_nil.
      + apply Forall_cons_1 in Hok as [[Hty' Hnul'] _]. cbn [fst snd] in *. cbn [app head lookup list_lookup].
        rewrite (ra_type _ _ _ Hu). cbn [fst]. rewrite bool_decide_eq_false_2 by done.
        rewrite (tok_text_reads _ _ Hu). cbn [snd fmap option_fmap option_map default].
        by rewrite cstr_id.
    - replace (pre ++ t :: toks ++ fresh_tokens k) with ((pre ++ [t]) ++ toks ++ fresh_tokens k)
        by (by rewrite <- app_assoc).
      apply IH; [done|done| |done]. rewrite length_app. cbn. lia.
Qed.
End Texts.

Lemma str_body_no_nul s : str_body s -> no_nul s.
Proof.
  induction 1 as [|c s Hc _ IH|e s He _ IH|a b c d s Hh _ IH]; [constructor|..];
    repeat (apply Forall_cons_2; [try done; intros ->|]); try done;
    first [by vm_compute in Hc|by vm_compute in He|idtac];
    repeat (apply Forall_cons_1 in Hh as [? Hh]); done.
Qed.

Lemma ws_no_nul s : ws s -> no_nul s.
Proof. apply Forall_impl. by intros c Hc ->. Qed.

Lemma prim_no_nul s : prim_ok s -> no_nul s.
Proof.
  destruct s as [|c s]; [done|]. intros [_ H]. revert H. apply Forall_impl. by intros d Hd ->.
Qed.

Lemma in_quotes_no_nul s : no_nul s -> no_nul (in_quotes s).
Proof. intros H. unfold in_quotes. apply Forall_cons_2; [done|]. apply Forall_app. by repeat constructor. Qed.

(** The texts of a tree have no NUL. *)
Lemma texts_no_nul :
  (forall v, json_ok v -> no_nul (json_text v) /\
     Forall (fun x => fst x <> JSMN_UNDEFINED /\ no_nul (snd x)) (json_texts v)) /\
  (forall its, items_ok its -> (forall first, no_nul (items_text first its)) /\
     Forall (fun x => fst x <> JSMN_UNDEFINED /\ no_nul (snd x)) (items_texts its)).
Proof.
  apply json_items_ind.
  - intros s Hs. split; [by apply prim_no_nul|]. repeat constructor; [done|by apply prim_no_nul].
  - intros s Hs. split; [by apply in_quotes_no_nul, str_body_no_nul|].
    repeat constructor; [done|by apply str_body_no_nul].
  - intros obj w its IH [Hw Hits]. destruct (IH Hits) as [Ht Hx].
    assert (no_nul (json_text (JNode obj w its))) as Hn.
    { cbn [json_text]. apply Forall_cons_2; [by destruct obj|].
      apply Forall_app; split; [by apply ws_no_nul|]. apply Forall_app; split; [apply Ht|].
      apply Forall_cons_2; [by destruct obj|constructor]. }
    split; [done|]. cbn [json_texts]. apply Forall_cons_2; [|done]. split; [by destruct obj|exact Hn].
  - intros _. split; constructor.
  - intros w key v IHv w' rest IHr (Hw & Hk & Hv & Hw' & Hr).
    destruct (IHv Hv) as [Ht Hx]. destruct (IHr Hr) as [Hrt Hrx].
    assert (no_nul (key_text key) /\
      Forall (fun x => fst x <> JSMN_UNDEFINED /\ no_nul (snd x)) (key_texts key)) as [Hkt Hkx].
    { destruct key as [[[k w1] w2]|]; [|split; constructor]. destruct Hk as (Hk & H1 & H2). split.
      - cbn [key_text]. apply Forall_app; split; [by apply in_quotes_no_nul, str_body_no_nul|].
        apply Forall_app; split; [by apply ws_no_nul|]. apply Forall_cons_2; [done|by apply ws_no_nul].
      - repeat constructor; [done|by apply str_body_no_nul]. }
    split.
    + intros first. cbn [items_text]. apply Forall_app; split; [destruct first; by repeat constructor|].
      repeat (apply Forall_app; split); try done; try (by apply ws_no_nul). apply Hrt.
    + cbn [items_texts]. repeat (apply Forall_app; split); auto.
Qed.

(** C19. What the client reads from a voucher: when the voucher is the text of a JSON tree
    of fewer tokens than the array has, the parser accepts it, and the value found for
    a name is the text of what follows the first string of the tree (a key or not) that
    is this name, cut to the buffer; nothing is found when there is no such string. *)
Theorem retrieve_token_reads v w w' size token :
  ws w -> ws w' -> json_ok v -> (length (json_texts v) < tokcount)%nat ->
  let voucher := w ++ json_text v ++ w' in
  exists n p tok,
    jsmn_parse jsmn_init voucher (length voucher) (Some (fresh_tokens tokcount)) tokcount =
      Some (n, p, Some tok) /\
    n = Z.of_nat (length (json_texts v)) /\
    retrieve_token_from_voucher voucher size n tok token =
      Some (snprintf size <$> json_lookup token v).
Proof.
  intros Hw Hw' Hv Hn voucher.
  assert (drop (length w) voucher = json_text v ++ w') as Hat.
  { unfold voucher. by rewrite drop_app_length. }
  pose proof (proj1 (toks_texts voucher) v _ _ Hat) as H2.
  pose proof (Forall2_length H2) as Hlen.
  assert (length (fresh_tokens tokcount) = tokcount) as Hf by (unfold fresh_tokens; by rewrite repeat_length).
  destruct (reads_tree w v w' (fresh_tokens tokcount) Hw Hw' Hv) as (sup & Hparse);
    [rewrite Hf, Hlen; lia|].
  rewrite Hf in Hparse. do 3 eexists. split; [exact Hparse|]. rewrite Hlen. split; [done|].
  unfold retrieve_token_from_voucher, json_lookup.
  destruct (json_toks (length w) v) as [|t toks] eqn:Et; [by destruct v|].
  destruct (json_texts v) as [|x texts] eqn:Ex; [by destruct v|].
  replace (Z.to_nat (Z.of_nat (length (x :: texts)) - 1)) with (length toks)
    by (cbn [length] in *; lia).
  replace (drop (length (x :: texts)) (fresh_tokens tokcount))
    with (fresh_tokens (tokcount - length (x :: texts))).
  2:{ unfold fresh_tokens. rewrite <- (Nat.sub_add (length (x :: texts)) tokcount) at 2 by lia.
      rewrite Nat.add_comm, repeat_app, drop_app_length'; [done|by rewrite repeat_length]. }
  inversion H2 as [|? ? ? ? _ Hr]; subst.
  destruct (proj1 texts_no_nul v Hv) as [_ Hok]. rewrite Ex in Hok. apply Forall_cons_1 in Hok as [_ Hok].
  pose proof (retrieve_loop_reads voucher size token (tokcount - length (x :: texts)) toks texts 1 [t]
    Hr Hok eq_refl ltac:(lia)) as Hloop.
  cbn [app] in Hloop |- *. setoid_rewrite Hloop.
  cbn [tail]. destruct (lookup_after token texts); done.
Qed.

(** * What the client writes *)

(** An object whose members stand on lines of their own, as the format strings of the
    client lay them out. *)
Definition member (w : bytes) (name : bytes) (sp : bytes) (v : json) (w' : bytes) (rest : items) : items :=
  ICons w (Some (name, [], sp)) v w' rest.

Definition status_tree (status_str reason : bytes) (last : bytes -> items) : json :=
  JNode true crlf
    (member [] (lit "version") [] (JStr BRSKI_VERSION) []
    (member crlf (lit "Status") [] (JPrim status_str) []
    (member crlf (lit "Reason") [] (JStr reason) [] (last crlf)))).

Definition enroll_status_tree (status_str reason ski : bytes) : json :=
  status_tree status_str reason
    (fun w => member w (lit "SubjectKeyIdentifier") [] (JStr ski) crlf INil).

Definition voucher_status_tree (status_str reason : bytes) : json :=
  JNode true crlf
    (member [] (lit "version") [] (JStr BRSKI_VERSION) []
    (member crlf (lit "Status") [] (JPrim status_str) []
    (member crlf (lit "Reason") [] (JStr reason) crlf INil))).

Definition voucher_req_tree (nonce_str time_str assertion server_cert : bytes) : json :=
  JNode true crlf
    (member [] (lit "ietf-voucher-request:voucher") (lit " ")
       (JNode true crlf
          (member [] (lit "nonce") (lit " ") (JStr nonce_str) []
          (member crlf (lit "created-on") (lit " ") (JStr time_str) []
          (member crlf (lit "assertion") (lit " ") (JStr assertion) []
          (member crlf (lit "proximity-registrar-cert") (lit " ") (JStr server_cert) crlf INil)))))
       [] INil).

Ltac same_text :=
  unfold enroll_status_text, voucher_status_text, enroll_status_tree, voucher_status_tree,
    status_tree, voucher_req_tree, member, BRSKI_VERSION, quoted, crlf;
  cbn; repeat (rewrite <- app_assoc; cbn); reflexivity.

Lemma enroll_status_tree_text st r ski :
  enroll_status_text st r ski = json_text (enroll_status_tree st r ski).
Proof. same_text. Qed.

Lemma voucher_status_tree_text st r :
  voucher_status_text st r = json_text (voucher_status_tree st r).
Proof. same_text. Qed.

Lemma voucher_req_tree_text nonce time assertion cert :
  est_brski_build_voucher_req nonce time assertion cert =
    snprintf EST_BRSKI_MAX_VOUCHER_REQ_LEN (json_text (voucher_req_tree nonce time assertion cert)).
Proof. unfold est_brski_build_voucher_req. f_equal. same_text. Qed.

Lemma literal_body s : forallb (fun c => negb (mem c [0; 34; 92])) s = true -> str_body s.
Proof.
  induction s as [|c s IH]; cbn [forallb]; intros H; [constructor|].
  apply andb_true_iff in H as [Hc Hs]. apply negb_true_iff in Hc. by constructor; [|apply IH].
Qed.

Lemma status_prim status st : brski_status_str status = Some st -> prim_ok st /\ (length st <= 5)%nat.
Proof.
  unfold brski_status_str. intros H. repeat destr_if; try done; injection H as <-;
    (split; [split; [done|]; by repeat constructor|vm_compute; lia]).
Qed.

(** The tree of a message: JSON when its strings are. *)
Ltac tree_ok :=
  cbn [json_ok items_ok key_ok status_tree enroll_status_tree voucher_status_tree voucher_req_tree member];
  repeat match goal with |- _ /\ _ => split end; try done;
  try (by repeat constructor); try (by apply literal_body).

(** The message [text] is the text of [v], and reading it back gives [values]. *)
Definition reads_back (text : bytes) (v : json) (values : list (bytes * bytes)) : Prop :=
  text = json_text v /\
  exists n p tok,
    jsmn_parse jsmn_init text (length text) (Some (fresh_tokens tokcount)) tokcount =
      Some (n, p, Some tok) /\
    n = Z.of_nat (length (json_texts v)) /\
    Forall (fun nv => json_lookup (fst nv) v = Some (snd nv)) values.

Lemma reads_back_intro text v values : text = json_text v -> json_ok v ->
  (length (json_texts v) < tokcount)%nat ->
  Forall (fun nv => json_lookup (fst nv) v = Some (snd nv)) values -> reads_back text v values.
Proof.
  intros -> Hv Hn Hvals. split; [done|].
  pose proof (proj1 (toks_texts (json_text v)) v 0%nat []) as H2.
  rewrite app_nil_r in H2. specialize (H2 eq_refl). apply Forall2_length in H2 as Hlen.
  assert (length (fresh_tokens tokcount) = tokcount) as Hf by (unfold fresh_tokens; by rewrite repeat_length).
  destruct (reads_tree [] v [] (fresh_tokens tokcount)) as (sup & Hparse);
    [constructor|constructor|done|cbn [length]; rewrite Hf, Hlen; lia|].
  cbn [app length] in Hparse. rewrite app_nil_r, Hf, Hlen in Hparse.
  do 3 eexists. split; [exact Hparse|]. done.
Qed.

(** The reports of the client are JSON and complete: with a reason of at most 255
    bytes (and a key identifier of at most 48) that needs no escape, the buffer is
    large enough for the whole text, the text is that of an object, and its members
    are the status, the reason and the identifier that were given. *)
Theorem status_reports_read status st reason ski :
  brski_status_str status = Some st ->
  str_body reason -> Z.of_nat (length reason) <= EST_BRSKI_MAX_REASON_LEN ->
  str_body ski -> Z.of_nat (length ski) <= EST_BRSKI_MAX_SUBJ_KEY_ID_LEN * 2 ->
  reason <> lit "SubjectKeyIdentifier" ->
  reads_back (snprintf EST_BRSKI_MAX_STATUS_LEN (voucher_status_text st reason))
    (voucher_status_tree st reason) [(lit "Status", st); (lit "Reason", reason)] /\
  reads_back (snprintf EST_BRSKI_MAX_STATUS_LEN (enroll_status_text st reason ski))
    (enroll_status_tree st reason ski)
    [(lit "Status", st); (lit "Reason", reason); (lit "SubjectKeyIdentifier", ski)].
Proof.
  intros Hst Hr Hrl Hs Hsl Hne. apply status_prim in Hst as [Hp Hpl].
  unfold EST_BRSKI_MAX_REASON_LEN, EST_BRSKI_MAX_SUBJ_KEY_ID_LEN in *. split.
  - rewrite snprintf_fits.
    + apply reads_back_intro; [apply voucher_status_tree_text|tree_ok|cbn; unfold tokcount; lia|].
      by repeat constructor.
    + unfold voucher_status_text, quoted, EST_BRSKI_MAX_STATUS_LEN, EST_BRSKI_MAX_REASON_LEN.
      repeat (rewrite length_app || cbn [length lit crlf BRSKI_VERSION]). lia.
  - rewrite snprintf_fits.
    + apply reads_back_intro; [apply enroll_status_tree_text|tree_ok|cbn; unfold tokcount; lia|].
      repeat constructor. unfold json_lookup, enroll_status_tree, status_tree, member.
      cbn [json_texts items_texts key_texts app tail lookup_after fst snd].
      rewrite (bool_decide_eq_false_2 (reason = _)) by done. done.
    + unfold enroll_status_text, quoted, EST_BRSKI_MAX_STATUS_LEN, EST_BRSKI_MAX_REASON_LEN.
      repeat (rewrite length_app || cbn [length lit crlf BRSKI_VERSION]). lia.
Qed.

(** The digits of [est_hex_to_str] need no escape. *)
Lemma hex_digit_plain n : 0 <= n < 16 -> mem (rd hex_table (Z.to_nat n)) [0; 34; 92] = false.
Proof.
  intros H. assert (Hall : Forall (fun i => mem (rd hex_table i) [0; 34; 92] = false) (seq 0 16))
    by (repeat (apply Forall_cons_2; [reflexivity|]); apply Forall_nil_2).
  apply (proj1 (List.Forall_forall _ _) Hall), in_seq. lia.
Qed.

Lemma hex_body src : are_bytes src -> str_body (est_hex_to_str src).
Proof.
  induction 1 as [|c src Hc _ IH]; [constructor|]. unfold est_hex_to_str. cbn [flat_map app].
  unfold is_byte in Hc. constructor; [|constructor; [|exact IH]]; apply hex_digit_plain.
  - rewrite Z.shiftr_div_pow2 by lia. change (2 ^ 4) with 16.
    split; [apply Z.div_pos; lia|apply Z.div_lt_upper_bound; lia].
  - change 15 with (Z.ones 4). rewrite Z.land_ones by lia. apply Z.mod_pos_bound. lia.
Qed.

(** A voucher request is JSON: with the nonce of 16 random bytes, a time of at most
    25 bytes and a certificate that was stored (at most EST_BRSKI_MAX_CACERT_LEN bytes
    of base64), the buffer is large enough for the whole text, and the registrar reads
    from it the nonce, the time and the certificate. *)
Theorem voucher_request_reads random time_str server_cert :
  are_bytes random -> length random = 16%nat ->
  str_body time_str -> (length time_str < 26)%nat -> time_str <> lit "proximity-registrar-cert" ->
  str_body server_cert -> Z.of_nat (length server_cert) <= EST_BRSKI_MAX_CACERT_LEN ->
  let nonce_str := est_hex_to_str random in
  reads_back (est_brski_build_voucher_req nonce_str time_str (lit "proximity") server_cert)
    (voucher_req_tree nonce_str time_str (lit "proximity") server_cert)
    [(lit "nonce", nonce_str); (lit "created-on", time_str); (lit "proximity-registrar-cert", server_cert)].
Proof.
  intros Hb Hl Ht Htl Htn Hc Hcl nonce_str.
  pose proof (hex_body random Hb) as Hn. fold nonce_str in Hn.
  assert (length nonce_str = 32)%nat as Hnl by (unfold nonce_str; rewrite hex_length; lia).
  clearbody nonce_str. unfold EST_BRSKI_MAX_CACERT_LEN in Hcl.
  rewrite voucher_req_tree_text, snprintf_fits.
  2:{ unfold voucher_req_tree, member, EST_BRSKI_MAX_VOUCHER_REQ_LEN, in_quotes.
      cbn [json_text items_text key_text app length lit crlf].
      repeat (rewrite length_app || cbn [json_text items_text key_text in_quotes app length lit crlf]). lia. }
  assert (forall s, length s <> 32%nat -> nonce_str <> s) as Hne by (intros s Hs ->; done).
  apply reads_back_intro; [done|tree_ok|cbn; unfold tokcount; lia|].
  repeat constructor; unfold json_lookup, voucher_req_tree, member;
    cbn [json_texts items_texts key_texts app tail lookup_after fst snd];
    rewrite ?(bool_decide_eq_false_2 (nonce_str = _)) by (by apply Hne);
    rewrite ?(bool_decide_eq_false_2 (time_str = _)) by done; done.
Qed.
