(* ===== verification/ClientConfig.v ===== *)
(** * ClientConfig: creating and configuring a client context (est_client.c)

    [est_client_init] with the TLS context it sets up, the setters of the
    configuration, and the callback that OpenSSL runs on the certificates of the
    server ([cert_verify_cb]).  [uriparser] is the parser of a build with that
    library, [HAVE_LIBCURL] says whether the build supports proxies.  A NULL
    context, which every call refuses, is not a value of the model. *)

From S2P Require Import Prelude.
From S2P Require Import SafeC.
From S2P Require Import EstTypes.
From S2P Require Import EstState.
From S2P Require Import EstUtil.
From S2P Require Import ServerConfig.
From S2P Require Import ClientHttp.
From S2P Require Import ClientCert.

Definition EST_CIPHER_LIST : bytes :=
  lit "ECDHE-ECDSA-AES128-GCM-SHA256:" ++ lit "ECDHE-RSA-AES128-GCM-SHA256:"
  ++ lit "AES128-GCM-SHA256:" ++ lit "ECDHE-ECDSA-CHACHA20-POLY1305:"
  ++ lit "ECDHE-RSA-CHACHA20-POLY1305:" ++ lit "ECDHE-ECDSA-AES128-SHA256:"
  ++ lit "ECDHE-ECDSA-AES128-SHA:" ++ lit "ECDHE-RSA-AES128-SHA:"
  ++ lit "ECDHE-RSA-AES128-SHA256:" ++ lit "AES128-SHA256:" ++ lit "AES128-SHA:"
  ++ lit "ECDHE-ECDSA-AES256-GCM-SHA384:" ++ lit "ECDHE-RSA-AES256-GCM-SHA384:"
  ++ lit "AES256-GCM-SHA384:" ++ lit "ECDHE-ECDSA-AES256-SHA384:"
  ++ lit "ECDHE-RSA-AES256-SHA384:" ++ lit "AES256-SHA256:"
  ++ lit "DHE-RSA-AES128-GCM-SHA256:" ++ lit "DHE-RSA-AES128-SHA:"
  ++ lit "DHE-RSA-AES128-SHA256:" ++ lit "DHE-RSA-AES256-GCM-SHA384:"
  ++ lit "DHE-DSS-AES256-GCM-SHA384:" ++ lit "DHE-RSA-AES256-SHA256:"
  ++ lit "DHE-DSS-AES128-GCM-SHA256:" ++ lit "DHE-DSS-AES128-SHA:"
  ++ lit "DHE-DSS-AES128-SHA256:" ++ lit "DHE-DSS-AES256-SHA256".

Definition EST_CIPHER_LIST_SRP_ONLY : bytes := lit "SRP:!aRSA:!aDSS".
Definition EST_CIPHER_LIST_SRP_AUTH : bytes := lit "SRP".
(** [SRP_MINIMAL_N] of OpenSSL. *)
Definition EST_SRP_STRENGTH_MIN : Z := 1024.

Definition SSL_VERIFY_PEER : Z := 1.
Definition SSL_VERIFY_FAIL_IF_NO_PEER_CERT : Z := 2.
Definition X509_V_ERR_SELF_SIGNED_CERT_IN_CHAIN : Z := 19.
Definition X509_V_ERR_CERT_UNTRUSTED : Z := 27.

Definition NID_sha1 : Z := 64.
Definition NID_sha256 : Z := 672.
Definition NID_sha384 : Z := 673.
Definition NID_sha512 : Z := 674.
Definition NID_sha224 : Z := 675.

Section ClientConfig.
Context {L : OpenSSL}.
Variable uriparser : option (bytes -> option (list UriPathSegment)).
Variable ENABLE_BRSKI : bool.
Variable HAVE_LIBCURL : bool.

(** Update the client's part of the context and succeed. *)
Definition set_cl (f : EST_CLIENT_CTX -> EST_CLIENT_CTX) : M EST_ERROR :=
  _ ← upd_client f; mret EST_ERR_NONE.

(** Change the TLS context. *)
Definition upd_ssl_ctx (f : SSL_CTX -> SSL_CTX) : M unit :=
  cl ← get_client;
  match ssl_ctx cl with
  | None => null_deref
  | Some s => upd_client (set_ssl_ctx (Some (f s)))
  end.

(** A string that is checked against [max] and copied to a field. *)
Definition bounded_field (max : Z) (v : bytes) (bad : EST_ERROR)
    (set : bytes -> EST_CLIENT_CTX -> EST_CLIENT_CTX) : M EST_ERROR :=
  if max <? strnlen_s (Some v) (max + 1) then mret bad else
  let '(e, s) := strcpy_field max v in
  _ ← upd_client (set s);
  mret (if e =? EOK then EST_ERR_NONE else bad).

(** ** The certificates of the server *)

(** The verdict of the application or of the code on a certificate that OpenSSL
    passes up with its own verdict [ok]. *)
Definition cert_verify_cb (ok : Z) (cert_error : Z) (current_cert : option X509) : M Z :=
  cl ← get_client;
  if negb (ok =? 0) then mret ok
  else if (cert_error =? X509_V_ERR_CERT_UNTRUSTED)
          || (cert_error =? X509_V_ERR_SELF_SIGNED_CERT_IN_CHAIN)
          || (cert_error =? X509_V_ERR_UNABLE_TO_GET_CRL) then
    match manual_cert_verify_cb cl with
    | Some cb =>
        tr ← get_trace;
        _ ← emit (EvManualVerifyCb current_cert cert_error);
        mret (cb tr current_cert cert_error)
    | None => mret (if cert_error =? X509_V_ERR_UNABLE_TO_GET_CRL then 1 else ok)
    end
  else mret ok.

(** ** est_client_init *)

(** The trust store moves from the context to the TLS context, even when the last
    allocation fails. *)
Definition est_client_init_ssl_ctx : M EST_ERROR :=
  s_ctx ← alloc;
  if negb s_ctx then mret EST_ERR_SSL_CTX_NEW
  else if negb (SSL_CTX_set_cipher_list EST_CIPHER_LIST) then mret EST_ERR_SSL_CIPHER_LIST else
  cl ← get_client;
  let s_ctx := Build_SSL_CTX (trusted_certs_store cl) None EST_CIPHER_LIST None 0
                 (Z.lor SSL_VERIFY_PEER SSL_VERIFY_FAIL_IF_NO_PEER_CERT) in
  _ ← upd_client (set_trusted_certs_store None);
  vpm ← alloc;
  if negb vpm then mret EST_ERR_MALLOC else set_cl (set_ssl_ctx (Some s_ctx)).

(** The zeroed context in client mode. *)
Definition zero_client_ctx : EST_CTX :=
  set_est_mode EST_CLIENT (set_brski_retry_period 0 (set_server_read_timeout 0
    (set_require_http_auth HTTP_AUTH_NOT_REQUIRED (set_retry_period 0 zero_ctx)))).

(** Was a context made?  The world that is left holds it. *)
Definition est_client_init (ca_chain : option bytes) (ca_chain_len : Z)
    (cert_format_is_pem : bool) (verify_cb : option (list event -> option X509 -> Z -> Z)) : M bool :=
  if negb cert_format_is_pem then mret false
  else if match ca_chain with
          | Some chain => negb (strnlen_s (Some chain) EST_CA_MAX =? ca_chain_len)
          | None => false
          end then mret false
  else
    ok ← alloc;
    if negb ok then mret false else
    _ ← put_ctx zero_client_ctx;
    rv ← est_load_trusted_certs (cstr <$> ca_chain);
    if negb (bool_decide (rv = EST_ERR_NONE)) then mret false else
    rv ← est_client_init_ssl_ctx;
    if negb (bool_decide (rv = EST_ERR_NONE)) then mret false else
    _ ← upd_client (fun c => set_read_timeout EST_SSL_READ_TIMEOUT_DEF
                               (set_manual_cert_verify_cb verify_cb c));
    _ ← upd_ctx (set_signing_digest (Some (EVP_by_nid NID_sha256)));
    _ ← upd_ctx (set_retry_after_delay 0);
    _ ← upd_client (fun c => set_est_client_initialized true (set_retry_after_date 0 c));
    mret true.

(** ** The server and its proxy *)

Definition est_store_path_segment (path_segment : bytes) (path_segment_len : Z) : M EST_ERROR :=
  _ ← upd_client (set_uri_path_segment None);
  ok ← alloc;
  if negb ok then mret EST_ERR_MALLOC else
  let '(e, s) := strcpy_field (path_segment_len + 1) path_segment in
  _ ← upd_client (set_uri_path_segment (Some s));
  mret (if e =? EOK then EST_ERR_NONE else EST_ERR_HTTP_INVALID_PATH_SEGMENT).

(** The path segment of [est_client_set_server]. *)
Definition set_server_path_segment (path_segment : option bytes) : M EST_ERROR :=
  match path_segment, uriparser with
  | None, _ => mret EST_ERR_NONE
  | Some _, None => mret EST_ERR_HTTP_PATH_SEGMENT_NOT_SUPPORTED
  | Some seg, Some uriParseUriA =>
      if rd seg 0 =? 0 then mret EST_ERR_HTTP_INVALID_PATH_SEGMENT else
      let len := strnlen_s (Some seg) (EST_MAX_PATH_SEGMENT_LEN + 1) in
      if len >? EST_MAX_PATH_SEGMENT_LEN then mret EST_ERR_HTTP_INVALID_PATH_SEGMENT else
      match est_parse_path_seg uriParseUriA ENABLE_BRSKI seg with
      | None => null_deref
      | Some EST_ERR_NONE => est_store_path_segment seg len
      | Some rc => mret rc
      end
  end.

Definition initialized_call (f : EST_CLIENT_CTX -> M EST_ERROR) : M EST_ERROR :=
  cl ← get_client;
  if negb (est_client_initialized cl) then mret EST_ERR_CLIENT_NOT_INITIALIZED else f cl.

Definition est_client_set_server (server : option bytes) (port : Z) (path_segment : option bytes)
    : M EST_ERROR :=
  initialized_call (fun _ =>
    match server with
    | None => mret EST_ERR_INVALID_SERVER_NAME
    | Some s =>
        if (port <=? 0) || (port >? 65535) then mret EST_ERR_INVALID_PORT_NUM else
        rv ← bounded_field EST_MAX_SERVERNAME_LEN s EST_ERR_INVALID_SERVER_NAME set_est_server;
        if negb (bool_decide (rv = EST_ERR_NONE)) then mret rv else
        _ ← upd_client (set_est_port_num port);
        set_server_path_segment path_segment
    end).

Definition upd_proxy (f : CLIENT_PROXY -> CLIENT_PROXY) : M unit :=
  upd_client (fun c => set_client_proxy (f (client_proxy c)) c).

(** A string that must be short and not empty, for a field of [max + 1] bytes: the
    length is measured up to [max + 2]. *)
Definition proxy_string (max : Z) (s : bytes) (bad : EST_ERROR)
    (set : bytes -> CLIENT_PROXY -> CLIENT_PROXY) : M EST_ERROR :=
  if max <? strnlen_s (Some s) (max + 2) then mret bad
  else if rd s 0 =? 0 then mret bad
  else
    let '(e, d) := strcpy_s (replicate (Z.to_nat (max + 1)) 0) (max + 1) (Some s) in
    _ ← upd_proxy (set (cstr d));
    mret (if e =? EOK then EST_ERR_NONE else bad).

Definition set_proxy_server (v : bytes) (p : CLIENT_PROXY) : CLIENT_PROXY :=
  Build_CLIENT_PROXY (proxy_proto p) v (proxy_port p) (proxy_auth p) (proxy_username p)
    (proxy_password p).
Definition set_proxy_port (v : Z) (p : CLIENT_PROXY) : CLIENT_PROXY :=
  Build_CLIENT_PROXY (proxy_proto p) (proxy_server p) v (proxy_auth p) (proxy_username p)
    (proxy_password p).
Definition set_proxy_proto (v : Z) (p : CLIENT_PROXY) : CLIENT_PROXY :=
  Build_CLIENT_PROXY v (proxy_server p) (proxy_port p) (proxy_auth p) (proxy_username p)
    (proxy_password p).
Definition set_proxy_auth (v : Z) (p : CLIENT_PROXY) : CLIENT_PROXY :=
  Build_CLIENT_PROXY (proxy_proto p) (proxy_server p) (proxy_port p) v (proxy_username p)
    (proxy_password p).
Definition set_proxy_username (v : bytes) (p : CLIENT_PROXY) : CLIENT_PROXY :=
  Build_CLIENT_PROXY (proxy_proto p) (proxy_server p) (proxy_port p) (proxy_auth p) v
    (proxy_password p).
Definition set_proxy_password (v : bytes) (p : CLIENT_PROXY) : CLIENT_PROXY :=
  Build_CLIENT_PROXY (proxy_proto p) (proxy_server p) (proxy_port p) (proxy_auth p)
    (proxy_username p) v.

Definition unsupported_proxy_auth (a : Z) : bool :=
  negb (Z.land a (Z.lnot (Z.lor EST_CLIENT_PROXY_AUTH_BASIC EST_CLIENT_PROXY_AUTH_NTLM)) =? 0).

(** The credentials of the proxy, when both are given and the method needs them. *)
Definition set_proxy_credentials (auth : Z) (username pwd : option bytes) : M EST_ERROR :=
  match username, pwd with
  | Some u, Some p =>
      if auth =? EST_CLIENT_PROXY_AUTH_NONE then mret EST_ERR_NONE else
      rv ← proxy_string MAX_UIDPWD u EST_ERR_INVALID_PARAMETERS set_proxy_username;
      if negb (bool_decide (rv = EST_ERR_NONE)) then mret rv
      else proxy_string MAX_UIDPWD p EST_ERR_INVALID_PARAMETERS set_proxy_password
  | _, _ => mret EST_ERR_NONE
  end.

Definition est_client_set_proxy (proto : Z) (server : option bytes) (port auth : Z)
    (username pwd : option bytes) : M EST_ERROR :=
  if negb HAVE_LIBCURL then mret EST_ERR_CLIENT_PROXY_MODE_NOT_SUPPORTED else
  initialized_call (fun _ =>
    match server with
    | None => mret EST_ERR_INVALID_SERVER_NAME
    | Some s =>
        rv ← proxy_string EST_MAX_SERVERNAME_LEN s EST_ERR_INVALID_SERVER_NAME set_proxy_server;
        if negb (bool_decide (rv = EST_ERR_NONE)) then mret rv
        else if (port <=? 0) || (port >? 65535) then mret EST_ERR_INVALID_PORT_NUM else
        _ ← upd_proxy (set_proxy_port port);
        if (proto <? EST_CLIENT_PROXY_HTTP_NOTUNNEL) || (proto >? EST_CLIENT_PROXY_SOCKS5_HOSTNAME)
        then mret EST_ERR_INVALID_CLIENT_PROXY_PROTOCOL else
        _ ← upd_proxy (set_proxy_proto proto);
        if negb (auth =? EST_CLIENT_PROXY_AUTH_NONE) && unsupported_proxy_auth auth
        then mret EST_ERR_INVALID_CLIENT_PROXY_AUTH else
        _ ← upd_proxy (set_proxy_auth auth);
        rv ← set_proxy_credentials auth username pwd;
        if negb (bool_decide (rv = EST_ERR_NONE)) then mret rv
        else set_cl (set_use_proxy true)
    end).

(** ** The client's identity *)

Definition est_client_set_uid_pw (uid pwd : option bytes) : M EST_ERROR :=
  match uid, pwd with
  | Some u, Some p =>
      rv ← bounded_field MAX_UIDPWD u EST_ERR_INVALID_PARAMETERS set_userid;
      if negb (bool_decide (rv = EST_ERR_NONE)) then mret rv
      else bounded_field MAX_UIDPWD p EST_ERR_INVALID_PARAMETERS set_password
  | None, None => mret EST_ERR_NONE
  | _, _ => mret EST_ERR_INVALID_PARAMETERS
  end.

(** The identity of the TLS context is the pair that was checked. *)
Definition est_client_set_auth (uid pwd : option bytes) (cert : option X509)
    (private_key : option EVP_PKEY) : M EST_ERROR :=
  rv ← est_client_set_uid_pw uid pwd;
  if negb (bool_decide (rv = EST_ERR_NONE)) then mret rv else
  _ ← upd_ctx (set_auth_mode AUTH_NONE);
  _ ← upd_client (fun c => set_client_cert cert (set_client_key private_key c));
  match cert, private_key with
  | Some c, Some k =>
      if est_client_set_cert_and_key c k then
        _ ← upd_ssl_ctx (set_sc_identity (Some (c, k))); mret EST_ERR_NONE
      else mret EST_ERR_CLIENT_INVALID_KEY
  | _, _ => mret EST_ERR_NONE
  end.

Definition est_client_set_auth_cred_cb (cb : option cred_cb) : M EST_ERROR :=
  set_cl (set_auth_credentials_cb cb).

Definition est_client_enable_basic_auth_hint : M EST_ERROR :=
  _ ← upd_ctx (set_auth_mode AUTH_BASIC); mret EST_ERR_NONE.

(** With certificates in the trust store the suites with a certificate are allowed
    (the test of a build with an old OpenSSL, which looks for the store first). *)
Definition srp_ciphers (s : SSL_CTX) : bytes :=
  match sc_cert_store s with
  | Some store => if (X509_STORE_object_count store =? 0)%nat then EST_CIPHER_LIST_SRP_ONLY
                  else EST_CIPHER_LIST_SRP_AUTH
  | None => EST_CIPHER_LIST_SRP_ONLY
  end.

Definition est_client_enable_srp (strength : Z) (uid pwd : option bytes) : M EST_ERROR :=
  cl ← get_client;
  match ssl_ctx cl with
  | None => mret EST_ERR_NO_SSL_CTX
  | Some s =>
      if strength <? EST_SRP_STRENGTH_MIN then mret EST_ERR_SRP_STRENGTH_LOW else
      match uid, pwd with
      | Some u, Some p =>
          _ ← upd_ctx (set_enable_srp true);
          let ciphers := srp_ciphers s in
          if negb (SSL_CTX_set_cipher_list ciphers) then mret EST_ERR_SSL_CIPHER_LIST else
          _ ← upd_ssl_ctx (set_sc_cipher_list ciphers);
          if negb (SSL_CTX_set_srp_username u) then mret EST_ERR_UNKNOWN else
          _ ← upd_ssl_ctx (set_sc_srp (Some (u, [])));
          if negb (SSL_CTX_set_srp_password p) then mret EST_ERR_UNKNOWN else
          _ ← upd_ssl_ctx (set_sc_srp (Some (u, p)));
          _ ← upd_ssl_ctx (set_sc_srp_strength strength);
          mret EST_ERR_NONE
      | _, _ => mret EST_ERR_INVALID_PARAMETERS
      end
  end.

(** ** The other settings *)

Definition est_client_set_sign_digest (nid : Z) : M EST_ERROR :=
  if (nid =? NID_sha512) || (nid =? NID_sha384) || (nid =? NID_sha256) || (nid =? NID_sha224)
     || (nid =? NID_sha1)
  then _ ← upd_ctx (set_signing_digest (Some (EVP_by_nid nid))); mret EST_ERR_NONE
  else mret EST_ERR_INVALID_DIGEST.

(** The error, the delay and the date, which are then zero in the context. *)
Definition est_client_copy_retry_after : M (EST_ERROR * option (Z * Z)) :=
  ctx ← get_ctx;
  if negb (est_client_initialized (client ctx)) then mret (EST_ERR_CLIENT_NOT_INITIALIZED, None)
  else
    _ ← upd_ctx (set_retry_after_delay 0);
    _ ← upd_client (set_retry_after_date 0);
    mret (EST_ERR_NONE, Some (retry_after_delay ctx, retry_after_date (client ctx))).

Definition est_client_force_pop : M EST_ERROR := set_cl (set_client_force_pop true).
Definition est_client_unforce_pop : M EST_ERROR := set_cl (set_client_force_pop false).

Definition est_client_set_read_timeout (timeout : Z) : M EST_ERROR :=
  if (timeout <? EST_SSL_READ_TIMEOUT_MIN) || (timeout >? EST_SSL_READ_TIMEOUT_MAX)
  then mret EST_ERR_INVALID_PARAMETERS else set_cl (set_read_timeout timeout).

Definition est_client_get_last_http_status : M Z :=
  cl ← get_client; mret (last_http_status cl).

(** Meant to stop the verification of the server; the flags are complements. *)
Definition est_client_set_brski_mode : M EST_ERROR :=
  initialized_call (fun cl =>
    if brski_mode cl then mret EST_ERR_INVALID_PARAMETERS else
    _ ← upd_client (set_brski_mode true);
    _ ← upd_ssl_ctx (set_sc_verify
                       (Z.lor (Z.lnot SSL_VERIFY_PEER) (Z.lnot SSL_VERIFY_FAIL_IF_NO_PEER_CERT)));
    mret EST_ERR_NONE).

End ClientConfig.
