(* ===== verification/Search.v ===== *)
(** * Search: bsearch and qsort, and tables kept in sorted arrays

    The array of client contexts of a proxy (est_proxy.c) and the array of CoAP
    requests (est_server_coap.c) are searched and sorted with the functions of the C
    library.  [bsearch] is the binary search of its common implementations, [qsort]
    any sort: nodes that compare equal are equal in both arrays.  [table] is what
    such an array stands for, a finite map from the keys of its nodes to the nodes. *)

From stdpp Require Import sorting gmap.
From S2P Require Import Prelude.

Section Search.
Context {A : Type} (compar : A -> A -> Z).

(** [None] is an access outside the array, [Some None] the NULL result. *)
Fixpoint bsearch_loop (fuel : nat) (key : A) (base : list A) (l u : nat) : option (option nat) :=
  match fuel with
  | O => Some None
  | S f =>
    if (l <? u)%nat then
      let idx := Nat.div2 (l + u) in
      match base !! idx with
      | None => None
      | Some p =>
          let comparison := compar key p in
          if comparison <? 0 then bsearch_loop f key base l idx
          else if comparison >? 0 then bsearch_loop f key base (S idx) u
          else Some (Some idx)
      end
    else Some None
  end.

Definition bsearch (key : A) (base : list A) (nmemb : nat) : option (option nat) :=
  bsearch_loop (S nmemb) key base 0 nmemb.

Definition cmp_le (a b : A) : Prop := compar a b <= 0.

#[global] Instance cmp_le_dec a b : Decision (cmp_le a b).
Proof. unfold cmp_le. apply _. Defined.

Definition qsort (base : list A) : list A := merge_sort cmp_le base.

(** The contract of a comparison function. *)
Class Comparator : Prop := {
  cmp_swap : forall a b, 0 < compar a b <-> compar b a < 0;
  cmp_trans :: Transitive cmp_le
}.

Context `{!Comparator}.

#[global] Instance cmp_le_total : Total cmp_le.
Proof.
  intros a b. unfold cmp_le. destruct (Z.le_gt_cases (compar a b) 0) as [|Hlt]; [by left|right].
  apply cmp_swap in Hlt. lia.
Qed.

Abbreviation sorted := (StronglySorted cmp_le).

Lemma qsort_sorted arr : sorted (qsort arr).
Proof. apply StronglySorted_merge_sort; apply _. Qed.

Lemma qsort_permutation arr : qsort arr ≡ₚ arr.
Proof. apply merge_sort_Permutation. Qed.

Lemma sorted_lookup arr i j p q :
  sorted arr -> (i < j)%nat -> arr !! i = Some p -> arr !! j = Some q -> cmp_le p q.
Proof.
  intros Hs Hij Hi Hj. rewrite <- (take_drop j arr) in Hs.
  eapply StronglySorted_app_1_elem_of; [exact Hs| |].
  - apply list_elem_of_lookup. exists i. rewrite lookup_take_lt by lia. done.
  - apply list_elem_of_lookup. exists 0%nat. by rewrite lookup_drop, Nat.add_0_r.
Qed.

(** A result of a search in the range [l, u): an index of the key, or none. *)
Definition search_result (key : A) (arr : list A) (l u : nat) (r : option nat) : Prop :=
  match r with
  | Some i => (l <= i < u)%nat /\ exists p, arr !! i = Some p /\ compar key p = 0
  | None => forall i p, (l <= i < u)%nat -> arr !! i = Some p -> compar key p <> 0
  end.

Lemma search_left key arr m p : sorted arr -> arr !! m = Some p -> compar key p < 0 ->
  forall i q, (m <= i)%nat -> arr !! i = Some q -> compar key q <> 0.
Proof.
  intros Hs Hm Hk i q Hi Hq Hz. destruct (decide (m = i)) as [->|]; [by simplify_eq; lia|].
  assert (Hpq : cmp_le p q) by (eapply sorted_lookup; [exact Hs| |exact Hm|exact Hq]; lia).
  assert (Hqk : cmp_le q key) by (assert (Hw := cmp_swap q key); unfold cmp_le; lia).
  assert (Hpk := cmp_trans _ _ _ Hpq Hqk). assert (Hw := cmp_swap p key). unfold cmp_le in Hpk. lia.
Qed.

Lemma search_right key arr m p : sorted arr -> arr !! m = Some p -> 0 < compar key p ->
  forall i q, (i <= m)%nat -> arr !! i = Some q -> compar key q <> 0.
Proof.
  intros Hs Hm Hk i q Hi Hq Hz. destruct (decide (m = i)) as [->|]; [by simplify_eq; lia|].
  assert (Hqp : cmp_le q p) by (eapply sorted_lookup; [exact Hs| |exact Hq|exact Hm]; lia).
  assert (Hkq : cmp_le key q) by (unfold cmp_le; lia).
  assert (Hkp := cmp_trans _ _ _ Hkq Hqp). unfold cmp_le in Hkp. lia.
Qed.

Lemma bsearch_loop_spec key arr : sorted arr ->
  forall fuel l u, (u <= length arr)%nat -> (u < fuel + l)%nat ->
  exists r, bsearch_loop fuel key arr l u = Some r /\ search_result key arr l u r.
Proof.
  intros Hs. induction fuel as [|f IH]; intros l u Hu Hf.
  { exists None. split; [done|]. intros i p Hi. lia. }
  cbn [bsearch_loop]. destruct (Nat.ltb_spec l u) as [Hlu|];
    [|exists None; split; [done|intros i p Hi; lia]].
  assert (Hm := Nat.div2_odd (l + u)). set (m := Nat.div2 (l + u)) in *.
  assert (l <= m < u)%nat as Hb by (destruct (Nat.odd (l + u)); simpl Nat.b2n in Hm; lia).
  destruct (arr !! m) as [p|] eqn:Ep; [|apply lookup_ge_None in Ep; lia].
  destruct (Z.ltb_spec (compar key p) 0) as [Hlt|Hge].
  - destruct (IH l m) as (r & -> & Hr); [lia..|]. exists r. split; [done|].
    destruct r as [i|]; [destruct Hr as [? ?]; split; [lia|done]|].
    intros i q Hi Hq. destruct (decide (m <= i)%nat) as [Him|]; [|apply (Hr i); [lia|done]].
    by eapply (search_left key arr m p).
  - destruct (Z.gtb_spec (compar key p) 0) as [Hgt|].
    + destruct (IH (S m) u) as (r & -> & Hr); [lia..|]. exists r. split; [done|].
      destruct r as [i|]; [destruct Hr as [? ?]; split; [lia|done]|].
      intros i q Hi Hq. destruct (decide (i <= m)%nat) as [Him|]; [|apply (Hr i); [lia|done]].
      by eapply (search_right key arr m p).
    + exists (Some m). split; [done|]. split; [lia|]. exists p. split; [done|lia].
Qed.

Lemma bsearch_spec key arr : sorted arr ->
  exists r, bsearch key arr (length arr) = Some r /\ search_result key arr 0 (length arr) r.
Proof. intros Hs. apply bsearch_loop_spec; [done|lia..]. Qed.

End Search.
