(* ===== verification/Table.v ===== *)
(** * Table: what a sorted array of keyed nodes stands for

    An array of nodes, each either free (the node [zero]) or in use under a key of its
    own, kept sorted by key with [qsort] and searched with [bsearch].  It stands for a
    finite map from keys to nodes ([table]); finding, changing, adding and removing a
    node are the operations of that map. *)

From stdpp Require Import sorting gmap.
From S2P Require Import Prelude.
From S2P Require Import Search.

(** A comparison of nodes is one of their keys, and only equal keys compare equal. *)
Class NodeOrder {A K} (key : A -> K) (compar : A -> A -> Z) : Prop := {
  node_comparator :: Comparator compar;
  node_compare_eq : forall a b, compar a b = 0 <-> key a = key b
}.

Lemma filter_all {A} (P : A -> Prop) `{!forall x, Decision (P x)} (l : list A) :
  Forall P l -> filter P l = l.
Proof. induction 1; [done|]. rewrite filter_cons_True by done. by f_equal. Qed.

Section Table.
Context {A K : Type} `{Countable K} (key : A -> K) (zero : A) (node_compare : A -> A -> Z).
Context `{!NodeOrder key node_compare}.

Definition in_use (n : A) : Prop := key n <> key zero.

#[global] Instance in_use_dec n : Decision (in_use n).
Proof. unfold in_use. apply _. Defined.

Definition entries (arr : list A) : list (K * A) := (fun n => (key n, n)) <$> filter in_use arr.

Definition table (arr : list A) : gmap K A := list_to_map (entries arr).

Abbreviation sorted := (StronglySorted (cmp_le node_compare)).

Record table_ok (arr : list A) : Prop := {
  tab_sorted : sorted arr;
  tab_keys : NoDup (entries arr).*1;
  tab_free : Forall (fun n => in_use n \/ n = zero) arr
}.

Lemma elem_of_entries arr k n : (k, n) ∈ entries arr <-> k = key n /\ in_use n /\ n ∈ arr.
Proof.
  unfold entries. rewrite list_elem_of_fmap. split.
  - intros (m & [= -> ->] & Hm). apply list_elem_of_filter in Hm as [? ?]. done.
  - intros (-> & Hu & Hn). exists n. split; [done|]. by apply list_elem_of_filter.
Qed.

Lemma entries_permutation arr arr' : arr ≡ₚ arr' -> entries arr ≡ₚ entries arr'.
Proof. intros Hp. unfold entries. by rewrite Hp. Qed.

Lemma table_permutation arr arr' : table_ok arr' -> arr ≡ₚ arr' -> table arr = table arr'.
Proof.
  intros Hok Hp. assert (He := entries_permutation _ _ Hp). apply list_to_map_proper; [|exact He].
  rewrite He. apply Hok.
Qed.

(** Sorting the array does not change what it stands for. *)
Lemma table_ok_qsort arr : NoDup (entries arr).*1 -> Forall (fun n => in_use n \/ n = zero) arr ->
  table_ok (qsort node_compare arr) /\ table (qsort node_compare arr) = table arr.
Proof.
  intros Hk Hf. assert (Hp := qsort_permutation node_compare arr).
  assert (He := entries_permutation _ _ Hp). split.
  - constructor; [apply (qsort_sorted node_compare)|by rewrite He|by rewrite Hp].
  - apply list_to_map_proper; [by rewrite He|done].
Qed.

Lemma table_lookup arr i n : table_ok arr -> arr !! i = Some n -> in_use n ->
  table arr !! key n = Some n.
Proof.
  intros Hok Hi Hu. apply elem_of_list_to_map_1; [apply Hok|]. apply elem_of_entries.
  split; [done|]. split; [done|]. by eapply list_elem_of_lookup_2.
Qed.

Lemma table_index arr k n : table arr !! k = Some n ->
  k = key n /\ in_use n /\ exists i, arr !! i = Some n.
Proof.
  intros Hk. apply elem_of_list_to_map_2, elem_of_entries in Hk as (-> & Hu & Hn).
  split; [done|]. split; [done|]. by apply list_elem_of_lookup.
Qed.

(** ** Finding a node *)

Lemma table_find arr m : table_ok arr -> in_use m ->
  exists r, bsearch node_compare m arr (length arr) = Some r /\
  match r with
  | Some i => exists n, arr !! i = Some n /\ key n = key m /\ table arr !! key m = Some n
  | None => table arr !! key m = None
  end.
Proof.
  intros Hok Hm. destruct (bsearch_spec node_compare m arr (tab_sorted _ Hok)) as (r & Hr & Hs).
  exists r. split; [done|]. destruct r as [i|].
  - destruct Hs as (_ & n & Hn & Hk). apply node_compare_eq in Hk. exists n. split; [done|].
    split; [done|]. rewrite Hk. eapply table_lookup; [done|exact Hn|]. unfold in_use in *. congruence.
  - destruct (table arr !! key m) as [n|] eqn:E; [|done]. exfalso.
    apply table_index in E as (Hk & _ & i & Hi). eapply (Hs i n); [|exact Hi|by apply node_compare_eq].
    apply lookup_lt_Some in Hi. lia.
Qed.

(** A free node is found, or every node is in use. *)
Lemma table_find_free arr m : table_ok arr -> key m = key zero ->
  exists r, bsearch node_compare m arr (length arr) = Some r /\
  match r with
  | Some i => arr !! i = Some zero
  | None => size (table arr) = length arr
  end.
Proof.
  intros Hok Hm. destruct (bsearch_spec node_compare m arr (tab_sorted _ Hok)) as (r & Hr & Hs).
  exists r. split; [done|]. destruct r as [i|].
  - destruct Hs as (_ & n & Hn & Hk). apply node_compare_eq in Hk.
    destruct (Forall_lookup_1 _ _ _ _ (tab_free _ Hok) Hn) as [Hu| ->]; [|done].
    destruct Hu. congruence.
  - unfold table. rewrite map_size_list_to_map by apply Hok. unfold entries. rewrite length_fmap.
    f_equal. apply filter_all, Forall_lookup_2. intros i n Hi.
    destruct (Forall_lookup_1 _ _ _ _ (tab_free _ Hok) Hi) as [|Hz]; [done|]. exfalso.
    eapply (Hs i n); [|exact Hi|apply node_compare_eq; by subst n].
    apply lookup_lt_Some in Hi. lia.
Qed.

(** ** Changing nodes *)

Lemma same_key_le a b : key a = key b -> cmp_le node_compare a b.
Proof. intros Hk. unfold cmp_le. by rewrite (proj2 (node_compare_eq a b) Hk). Qed.

Lemma sorted_set arr : sorted arr -> forall i n m, arr !! i = Some n -> key m = key n ->
  sorted (<[i := m]> arr).
Proof.
  induction 1 as [|x arr Hs IH Hx]; intros i n m Hi Hk; [done|]. destruct i as [|i]; cbn in *.
  - injection Hi as ->. constructor; [done|]. refine (Forall_impl _ _ Hx). intros y Hy.
    etrans; [by apply same_key_le|exact Hy].
  - constructor; [by eapply IH|]. apply Forall_insert; [done|].
    etrans; [by eapply Forall_lookup_1|]. by apply same_key_le.
Qed.

Lemma entries_one n : in_use n -> entries [n] = [(key n, n)].
Proof. intros Hu. unfold entries. by rewrite filter_cons_True. Qed.
Lemma entries_free n : key n = key zero -> entries [n] = [].
Proof. intros Hu. unfold entries. by rewrite filter_cons_False by by intros []. Qed.

Lemma table_of_entries arr l : entries arr ≡ₚ l -> NoDup l.*1 -> table arr = list_to_map l.
Proof. intros Hp Hd. apply list_to_map_proper; [by rewrite Hp|done]. Qed.

Lemma entries_middle arr i n m : arr !! i = Some n ->
  entries arr ≡ₚ entries [n] ++ entries (take i arr ++ drop (S i) arr) /\
  entries (<[i := m]> arr) ≡ₚ entries [m] ++ entries (take i arr ++ drop (S i) arr).
Proof.
  intros Hi. assert (Hl := lookup_lt_Some _ _ _ Hi).
  assert (He : forall l1 x l2, entries (l1 ++ x :: l2) ≡ₚ entries [x] ++ entries (l1 ++ l2)).
  { intros. rewrite (entries_permutation _ ([x] ++ (l1 ++ l2))) by exact (Permutation_sym (Permutation_middle l1 l2 x)).
    unfold entries at 1. by rewrite list_basics.list.filter_app, fmap_app. }
  split; [rewrite <- (take_drop_middle arr i n Hi) at 1|rewrite (insert_take_drop _ _ _ Hl)]; apply He.
Qed.

(** A node in use that keeps its key. *)
Lemma table_set arr i n m : table_ok arr -> arr !! i = Some n -> in_use n -> key m = key n ->
  table_ok (<[i := m]> arr) /\ table (<[i := m]> arr) = <[key n := m]> (table arr).
Proof.
  intros Hok Hi Hu Hk. destruct (entries_middle arr i n m Hi) as [En Em].
  assert (Hum : in_use m) by (unfold in_use in *; congruence).
  rewrite !entries_one in En, Em by done. cbn in En, Em. rewrite Hk in Em.
  assert (Hd := tab_keys _ Hok). rewrite En in Hd. cbn in Hd. apply list_relations.list.NoDup_cons in Hd as [Hn Hd].
  split; [constructor|].
  - by eapply sorted_set; [apply Hok|exact Hi|].
  - rewrite Em. cbn. by constructor.
  - apply Forall_insert; [apply Hok|by left].
  - rewrite (table_of_entries _ _ Em), (table_of_entries _ _ En) by (by constructor). cbn.
    by rewrite insert_insert_eq.
Qed.

(** A free node that comes into use under a new key. *)
Lemma table_add arr i m : table_ok arr -> arr !! i = Some zero -> in_use m -> table arr !! key m = None ->
  let arr' := qsort node_compare (<[i := m]> arr) in
  table_ok arr' /\ table arr' = <[key m := m]> (table arr) /\ length arr' = length arr.
Proof.
  intros Hok Hi Hu Hnew. cbn zeta. destruct (entries_middle arr i zero m Hi) as [En Em].
  rewrite entries_one in Em by done. rewrite entries_free in En by done. cbn in En, Em.
  assert (Hn : key m ∉ (entries arr).*1) by by apply not_elem_of_list_to_map_2.
  rewrite <- En in Em. assert (Hd : NoDup ((key m, m) :: entries arr).*1).
  { cbn. constructor; [done|apply Hok]. }
  destruct (table_ok_qsort (<[i := m]> arr)) as [Hok' Ht].
  - by rewrite Em.
  - apply Forall_insert; [apply Hok|by left].
  - split; [done|]. rewrite Ht. split; [by rewrite (table_of_entries _ _ Em)|].
    by rewrite (qsort_permutation node_compare), length_insert.
Qed.

(** A node in use that is freed. *)
Lemma table_remove arr i n : table_ok arr -> arr !! i = Some n -> in_use n ->
  let arr' := qsort node_compare (<[i := zero]> arr) in
  table_ok arr' /\ table arr' = delete (key n) (table arr) /\ length arr' = length arr.
Proof.
  intros Hok Hi Hu. cbn zeta. destruct (entries_middle arr i n zero Hi) as [En Em].
  rewrite entries_free in Em by done. rewrite entries_one in En by done. cbn in En, Em.
  assert (Hd := tab_keys _ Hok). rewrite En in Hd. cbn in Hd. apply list_relations.list.NoDup_cons in Hd as [Hn Hd].
  destruct (table_ok_qsort (<[i := zero]> arr)) as [Hok' Ht].
  - by rewrite Em.
  - apply Forall_insert; [apply Hok|by right].
  - split; [done|]. rewrite Ht, (table_of_entries _ _ Em) by done.
    rewrite (table_of_entries _ _ En) by (by constructor). cbn. split.
    + rewrite delete_insert_id; [done|]. by apply not_elem_of_list_to_map_1.
    + by rewrite (qsort_permutation node_compare), length_insert.
Qed.

(** A zeroed array. *)
Lemma table_zero n : table_ok (replicate n zero) /\ table (replicate n zero) = ∅.
Proof.
  assert (He : entries (replicate n zero) = []).
  { induction n as [|n IH]; [done|]. change (replicate (S n) zero) with ([zero] ++ replicate n zero).
    unfold entries in *. rewrite list_basics.list.filter_app, fmap_app, IH. by rewrite filter_cons_False by by intros []. }
  split; [constructor|].
  - assert (Hz := same_key_le zero zero eq_refl). clear He.
    induction n as [|n IH]; [constructor|]. constructor; [done|]. by apply Forall_replicate.
  - rewrite He. constructor.
  - apply Forall_replicate. by right.
  - unfold table. by rewrite He.
Qed.

End Table.
