(* ===== verification/ProxyCtx.v ===== *)
(** * ProxyCtx: the client contexts of the proxy (est_proxy.c)

    A proxy talks to its upstream server through client contexts, one for each of
    its threads.  They are found in an array of nodes ordered by the identity of the
    thread; a free node has the identity 0.  [get_client_ctx] looks the running
    thread up, and makes, configures and stores a context when there is none; the
    array doubles when it is full.  A pointer to a client context is its index among
    the contexts the proxy has made ([client_ctxs]), so that a context is one object
    however it was found; [with_client] runs an operation of the client on it.

    The size of the array is one static [int] for all proxies of a process in the source;
    here it is a number in the context, so that the model is of a process with one proxy
    and of arrays of less than 2^30 nodes: the doubling of a larger one overflows the
    [int], which is not modelled. *)

From S2P Require Import Prelude.
From S2P Require Import SafeC.
From S2P Require Import EstTypes.
From S2P Require Import EstState.
From S2P Require Import EstUtil.
From S2P Require Import Search.
From S2P Require Import ServerConfig.
From S2P Require Import ClientConfig.

Definition INITIAL_PROXY_CLIENT_CTXS : nat := 8.

(** ** The array *)

Definition bsearch_compare (a b : CLIENT_CTX_LU_NODE_T) : Z :=
  if threadid a >? threadid b then 1 else if threadid a <? threadid b then -1 else 0.

(** A zeroed node, and a node as the key of a search. *)
Definition zero_node : CLIENT_CTX_LU_NODE_T := Build_CLIENT_CTX_LU_NODE_T 0 None.
Definition key_node (id : Z) : CLIENT_CTX_LU_NODE_T := Build_CLIENT_CTX_LU_NODE_T id None.

(** The doubled array: the old nodes, then zeroed ones. *)
Definition grown (arr : list CLIENT_CTX_LU_NODE_T) (n : nat) : list CLIENT_CTX_LU_NODE_T :=
  take n arr ++ replicate n zero_node.

Section ProxyCtx.
Context {L : OpenSSL}.
Variable ENABLE_BRSKI : bool.
Variable uriparser : option (bytes -> option (list UriPathSegment)).

Definition find_node (id : Z) (arr : list CLIENT_CTX_LU_NODE_T) (n : nat) : M (option nat) :=
  match bsearch bsearch_compare (key_node id) arr n with
  | None => null_deref
  | Some r => mret r
  end.

(** Find a free node, in a larger array when there is none.  The new array is not
    checked: without it the sort gets a NULL pointer. *)
Definition empty_node : M (list CLIENT_CTX_LU_NODE_T * nat) :=
  px ← get_proxy;
  match client_ctx_array px with
  | None => null_deref
  | Some arr =>
    r ← find_node 0 arr (cur_max_ctx_array px);
    match r with
    | Some i => mret (arr, i)
    | None =>
        let n := cur_max_ctx_array px in
        ok ← alloc;
        if negb ok then null_deref else
        let temp_array := qsort bsearch_compare (grown arr n) in
        _ ← upd_proxy_ctx (fun px => set_client_ctx_array (Some temp_array)
                                       (set_cur_max_ctx_array (2 * n) px));
        r ← find_node 0 temp_array (2 * n);
        match r with
        | Some i => mret (temp_array, i)
        | None => null_deref
        end
    end
  end.

(** Store a context under a thread. *)
Definition add_node (id : Z) (a : nat) : M unit :=
  '(arr, i) ← empty_node;
  upd_proxy_ctx (set_client_ctx_array
                   (Some (qsort bsearch_compare (<[i := Build_CLIENT_CTX_LU_NODE_T id (Some a)]> arr)))).

(** ** Client contexts *)

(** Run an operation on another context, which it returns. *)
Definition in_ctx {A} (c : EST_CTX) (m : M A) : M (A * EST_CTX) :=
  fun w => match m (set_w_ctx c w) with
           | None => None
           | Some (a, w') => Some ((a, w_ctx w'), set_w_ctx (w_ctx w) w')
           end.

(** Run an operation of the client on the context at [a]. *)
Definition with_client {A} (a : nat) (m : M A) : M A :=
  px ← get_proxy;
  match client_ctxs px !! a with
  | None => null_deref
  | Some c =>
      '(r, c') ← in_ctx c m;
      _ ← upd_proxy_ctx (fun px => set_client_ctxs (<[a := c']> (client_ctxs px)) px);
      mret r
  end.

(** Stop at the first error. *)
Definition and_then (rv : EST_ERROR) (next : M bool) : M bool :=
  if bool_decide (rv = EST_ERR_NONE) then next else mret false.

(** A client of the upstream server with the identity of the proxy, whose context and
    settings are [p] and [px]. *)
Definition new_client_ctx (p : EST_CLIENT_CTX) (px : EST_PROXY_CTX) : M bool :=
  ok ← est_client_init (ca_chain_raw px) (ca_chain_raw_len px) true None;
  if negb ok then mret false else
  rv ← est_client_set_auth (Some (userid p)) (Some (password p)) (server_cert px)
         (server_priv_key px);
  and_then rv
    (rv ← est_client_set_auth_cred_cb (auth_credentials_cb p);
     and_then rv
       (rv ← est_client_set_server uriparser ENABLE_BRSKI (Some (est_server p)) (est_port_num p)
               None;
        and_then rv
          (rv ← est_client_set_read_timeout (read_timeout p);
           and_then rv (mret true)))).

(** The context of the running thread; [None] is NULL. *)
Definition get_client_ctx : M (option nat) :=
  p_ctx ← get_ctx;
  px ← get_proxy;
  match client_ctx_array px with
  | None => null_deref
  | Some arr =>
    found ← find_node (cur_threadid px) arr (cur_max_ctx_array px);
    match found with
    | Some i => mret (arr !! i ≫= client_ctx)
    | None =>
        '(ok, c_ctx) ← in_ctx zero_client_ctx (new_client_ctx (client p_ctx) px);
        if negb ok then mret None else
        let a := length (client_ctxs px) in
        _ ← upd_proxy_ctx (fun px => set_client_ctxs (client_ctxs px ++ [c_ctx]) px);
        _ ← add_node (cur_threadid px) a;
        mret (Some a)
    end
  end.

End ProxyCtx.
