(* ===== verification/Proxy.v ===== *)
(** * Proxy: the request handlers of the proxy (est_proxy.c)

    To its clients the proxy is a server: [est_proxy_http_request] takes the place of
    [est_http_request] in the web server, authenticates a client and checks its CSR.
    To the upstream server it is a client: a handler takes the client context of its
    thread, stores the path segment there, runs the operation of the client, and
    passes on what came back, or an error that stands for it.

    As in Client, the length of a buffer is that of its list; [None] is a buffer that
    was not filled, whose length is 0. *)

From S2P Require Import Prelude.
From S2P Require Import SafeC.
From S2P Require Import EstTypes.
From S2P Require Import EstState.
From S2P Require Import EstUtil.
From S2P Require Import HttpIO.
From S2P Require Import HttpAuth.
From S2P Require Import ServerAuth.
From S2P Require Import ServerCsr.
From S2P Require Import ServerEnroll.
From S2P Require Import ServerDispatch.
From S2P Require Import ServerConfig.
From S2P Require Import ClientHttp.
From S2P Require Import ClientRequest.
From S2P Require Import Client.
From S2P Require Import ClientConfig.
From S2P Require Import ProxyCtx.

Definition EST_HTTP_HDR_200 : bytes := lit "HTTP/1.1 200".

(** The error of a handler for an error of the client: 504, 502, the status of the
    server itself, or 500. *)
Definition upstream_error (rv : EST_ERROR) : EST_ERROR :=
  match rv with
  | EST_ERR_NONE => EST_ERR_NONE
  | EST_ERR_IP_GETADDR | EST_ERR_IP_CONNECT | EST_ERR_SSL_READ => EST_ERR_IP_CONNECT
  | EST_ERR_SSL_CONNECT | EST_ERR_FQDN_MISMATCH | EST_ERR_SSL_WRITE | EST_ERR_ZERO_LENGTH_BUF
  | EST_ERR_MULTIPART_PARSE | EST_ERR_UNKNOWN | EST_ERR_BUF_EXCEEDS_MAX_LEN
  | EST_ERR_HTTP_UNSUPPORTED => EST_ERR_HTTP_UNSUPPORTED
  | EST_ERR_HTTP_BAD_REQ | EST_ERR_HTTP_NO_CONTENT | EST_ERR_HTTP_NOT_FOUND
  | EST_ERR_HTTP_LOCKED | EST_ERR_CA_ENROLL_RETRY | EST_ERR_AUTH_FAIL => rv
  | _ => EST_ERR_UNKNOWN
  end.

(** ** The answers the proxy passes on *)

(** [snprintf(http_hdr + hdrlen, EST_HTTP_HDR_MAX, ...)]. *)
Definition hdr_line (hdr text : bytes) : bytes := snprintf_at hdr EST_HTTP_HDR_MAX text.

Definition proxy_pkcs7_hdr (pkcs7_len : Z) : bytes :=
  let h1 := hdr_line [] (EST_HTTP_HDR_200_RESP ++ crlf ++ EST_HTTP_HDR_STAT_200 ++ crlf) in
  let h2 := hdr_line h1 (EST_HTTP_HDR_CT ++ lit ": " ++ EST_HTTP_CT_PKCS7_CO ++ crlf) in
  let h3 := hdr_line h2 (EST_HTTP_HDR_CE ++ lit ": " ++ EST_HTTP_CE_BASE64 ++ crlf) in
  hdr_line h3 (EST_HTTP_HDR_CL ++ lit ": " ++ fmt_d pkcs7_len ++ crlf ++ crlf).

(** The header of a part of the multipart answer. *)
Definition proxy_part_hdr (hdr content_type : bytes) : bytes :=
  let h := hdr_line hdr (EST_HTTP_HDR_CT ++ lit ": " ++ content_type ++ crlf) in
  hdr_line h (EST_HTTP_HDR_CE ++ lit ": " ++ EST_HTTP_CE_BASE64 ++ crlf ++ crlf).

(** The header of the answer, with that of the first part. *)
Definition proxy_keygen_hdr (key_len pkcs7_len : Z) : bytes :=
  let h1 := hdr_line [] (EST_HTTP_HDR_200 ++ crlf ++ EST_HTTP_HDR_STAT_200 ++ crlf) in
  let h2 := hdr_line h1 (EST_HTTP_HDR_CT ++ lit ": " ++ EST_HTTP_CT_MULTI_MIXED
                         ++ lit "; boundary=" ++ EST_HTTP_BOUNDARY ++ crlf) in
  let h3 := hdr_line h2 (EST_HTTP_HDR_CL ++ lit ": " ++ fmt_d (key_len + pkcs7_len) ++ crlf
                         ++ crlf) in
  let h4 := hdr_line h3 ([chr_lf] ++ boundary_line ++ crlf) in
  proxy_part_hdr h4 EST_HTTP_CT_PKCS8.

Definition proxy_keygen_parts (key pkcs7 : bytes) : list bytes :=
  [proxy_keygen_hdr (Z.of_nat (length key)) (Z.of_nat (length pkcs7)); key;
   hdr_line [] (crlf ++ boundary_line ++ crlf); proxy_part_hdr [] EST_HTTP_CT_PKCS7_CO; pkcs7;
   hdr_line [] (crlf ++ boundary_line ++ lit "--" ++ crlf ++ crlf)].

Section Proxy.
Context {L : OpenSSL}.
Variable ENABLE_BRSKI : bool.
Variable uriparser : option (bytes -> option (list UriPathSegment)).
Variable EST_VER_STRING : bytes.
Variable malloc_junk : nat -> bytes.

Definition est_proxy_propagate_pkcs7 (pkcs7 : bytes) : M EST_ERROR :=
  send_200 (proxy_pkcs7_hdr (Z.of_nat (length pkcs7))) pkcs7.

Definition est_proxy_propagate_keygen_rsp (key pkcs7 : bytes) : M EST_ERROR :=
  write_parts (proxy_keygen_parts key pkcs7).

(** ** The client side *)

Definition est_proxy_set_path_segment (path_segment : bytes) : M EST_ERROR :=
  est_store_path_segment path_segment (strnlen_s (Some path_segment) EST_MAX_PATH_SEGMENT_LEN).

(** The path segment of the request, or else that of the proxy, goes to the client
    context; without either the client context keeps the one it has. *)
Definition forward_path_seg (a : nat) (path_seg : option bytes) : M EST_ERROR :=
  ctx ← get_ctx;
  match (match path_seg with Some s => Some s | None => uri_path_segment (client ctx) end) with
  | None => mret EST_ERR_NONE
  | Some s => with_client a (est_proxy_set_path_segment s)
  end.

(** [ctx->retry_after_delay = client_ctx->retry_after_delay]. *)
Definition copy_retry_after (a : nat) : M unit :=
  c ← with_client a get_ctx;
  upd_ctx (set_retry_after_delay (retry_after_delay c)).

(** Connect, make a request, disconnect. *)
Definition upstream_request (request : M enroll_rsp) : M enroll_rsp :=
  '(rv, ssl_client) ← est_client_connect;
  match ssl_client with
  | None => mret (enroll_error rv)
  | Some s => rsp ← request; _ ← est_client_disconnect (Some s); mret rsp
  end.

Definition est_proxy_send_enroll_request (pkcs10 : bytes) (reenroll : bool) : M enroll_rsp :=
  upstream_request
    (est_client_send_enroll_request ENABLE_BRSKI EST_VER_STRING malloc_junk pkcs10 reenroll).

(** [key]: is there a buffer for the key? *)
Definition est_proxy_send_keygen_request (pkcs10 : bytes) (key : bool) : M enroll_rsp :=
  upstream_request
    (est_client_send_enroll_request_internal ENABLE_BRSKI EST_VER_STRING malloc_junk pkcs10 key
       EST_OP_SERVER_KEYGEN).

(** Is another attempt due? The mode of the proxy itself must be one of HTTP, and the
    client must have understood the challenge. *)
Definition attempt_again (a : nat) (rv : EST_ERROR) : M bool :=
  ctx ← get_ctx;
  c ← with_client a get_ctx;
  mret (bool_decide (rv = EST_ERR_AUTH_FAIL) && http_auth_mode (auth_mode ctx)
        && negb (bool_decide (auth_mode c = AUTH_FAIL))).

(** What an attempt leaves in a buffer. *)
Definition filled (new old : option bytes) : option bytes :=
  match new with Some b => Some b | None => old end.

(** The loop of [goto try_again], with the two buffers; two rounds are enough. *)
Fixpoint try_again (fuel : nat) (a : nat) (request : M enroll_rsp) (pkcs7 key : option bytes)
    : M (EST_ERROR * option bytes * option bytes) :=
  match fuel with
  | O => mret (EST_ERR_AUTH_FAIL, pkcs7, key)
  | S f =>
      rsp ← with_client a request;
      _ ← copy_retry_after a;
      let pkcs7 := filled (er_pkcs7 rsp) pkcs7 in
      let key := filled (er_key rsp) key in
      again ← attempt_again a (er_rv rsp);
      if again : bool then try_again f a request pkcs7 key
      else mret (upstream_error (er_rv rsp), pkcs7, key)
  end.

Definition proxy_attempts (a : nat) (request : M enroll_rsp)
    : M (EST_ERROR * option bytes * option bytes) :=
  r ← try_again 2 a request None None;
  _ ← with_client a (upd_ctx (set_auth_mode AUTH_NONE));
  mret r.

(** ** CA certificates for the application *)

(** The error and the certificates, for valid pointers. *)
Definition est_proxy_retrieve_cacerts : M (EST_ERROR * option bytes) :=
  client_ctx ← get_client_ctx ENABLE_BRSKI uriparser;
  match client_ctx with
  | None => mret (EST_ERR_NO_CTX, None)
  | Some a =>
      '(rv, _) ← with_client a (est_client_get_cacerts ENABLE_BRSKI EST_VER_STRING malloc_junk true);
      if negb (bool_decide (rv = EST_ERR_NONE)) then mret (rv, None) else
      ok ← alloc;
      if negb ok then mret (EST_ERR_MALLOC, None) else
      '(rv, certs) ← with_client a (est_client_copy_cacerts true);
      if negb (bool_decide (rv = EST_ERR_NONE)) then mret (rv, None) else
      _ ← with_client a (upd_client (set_est_client_initialized true));
      mret (EST_ERR_NONE, certs)
  end.

(** ** Enrollment and key generation: the checks *)

(** The comparison includes the NUL. *)
Definition proxy_bad_ct (ct : option bytes) : M bool :=
  ctx ← get_ctx;
  match transport_mode ctx with
  | EST_HTTP =>
      match ct with
      | None => null_deref
      | Some c => mret (negb (snd (memcmp_s (Some c) (sizeof_lit CT_PKCS10) (Some CT_PKCS10)
                                     (sizeof_lit CT_PKCS10) 1) =? 0))
      end
  | _ => mret false
  end.

(** The CSR: its signature, and the proof of possession, from which nobody is exempt. *)
Definition proxy_csr_check (ssl : SSL) (cached : option X509_REQ) (body : option bytes)
    : M EST_ERROR :=
  csr ← get_csr cached body;
  match csr with
  | None => mret EST_ERR_BAD_PKCS10
  | Some csr =>
      if negb (est_server_check_csr csr =? 0) then mret EST_ERR_BAD_PKCS10 else
      rv ← est_tls_uid_auth ssl csr;
      mret (if bool_decide (rv = EST_ERR_NONE) then EST_ERR_NONE else EST_ERR_AUTH_FAIL_TLSUID)
  end.

(** All that happens before the upstream server is involved. *)
Definition proxy_checks (ssl : SSL) (ct body path_seg : option bytes) (req : EST_ENROLL_REQ_TYPE)
    : M EST_ERROR :=
  bad_ct ← proxy_bad_ct ct;
  if bad_ct : bool then mret EST_ERR_BAD_CONTENT_TYPE else
  '(st, cached) ← est_enroll_auth ssl path_seg req body;
  match auth_error st with
  | Some e => mret e
  | None => proxy_csr_check ssl cached body
  end.

(** The client context, with the path segment. *)
Definition proxy_client (path_seg : option bytes) : M (EST_ERROR * nat) :=
  client_ctx ← get_client_ctx ENABLE_BRSKI uriparser;
  match client_ctx with
  | None => mret (EST_ERR_NO_CTX, 0%nat)
  | Some a => rv ← forward_path_seg a path_seg; mret (rv, a)
  end.

(** ** Enrollment *)

(** The certificate for the caller, and for the client of an HTTP request. *)
Definition proxy_enroll_response (rv : EST_ERROR) (pkcs7 : option bytes) (want_cert : bool)
    : M (EST_ERROR * option bytes) :=
  ctx ← get_ctx;
  match pkcs7 with
  | Some ((_ :: _) as cert) =>
      if negb want_cert then mret (EST_ERR_INVALID_PARAMETERS, None) else
      match transport_mode ctx with
      | EST_HTTP => rv ← est_proxy_propagate_pkcs7 cert; mret (rv, Some cert)
      | _ => mret (rv, Some cert)
      end
  | _ => mret (rv, None)
  end.

(** What follows the checks. *)
Definition forward_enroll (body path_seg : option bytes) (reenroll want_cert : bool)
    : M (EST_ERROR * option bytes) :=
  '(rv, a) ← proxy_client path_seg;
  if negb (bool_decide (rv = EST_ERR_NONE)) then mret (rv, None) else
  ok ← alloc;
  if negb ok then mret (EST_ERR_MALLOC, None) else
  '(rv, pkcs7, _) ← proxy_attempts a (est_proxy_send_enroll_request (default [] body) reenroll);
  proxy_enroll_response rv pkcs7 want_cert.

Definition est_proxy_handle_simple_enroll (ssl : SSL) (ct body path_seg : option bytes)
    (reenroll want_cert : bool) : M (EST_ERROR * option bytes) :=
  rv ← proxy_checks ssl ct body path_seg (if reenroll then REENROLL_REQ else SIMPLE_ENROLL_REQ);
  if negb (bool_decide (rv = EST_ERR_NONE)) then mret (rv, None)
  else forward_enroll body path_seg reenroll want_cert.

(** ** Key generation *)

(** [stored]: is there a buffer for the certificate? *)
Definition proxy_keygen_response (rv : EST_ERROR) (pkcs7 key : option bytes) (stored : bool)
    : M (EST_ERROR * option bytes * option bytes) :=
  ctx ← get_ctx;
  match pkcs7, key with
  | Some ((_ :: _) as cert), Some ((_ :: _) as k) =>
      if negb stored then null_deref else
      match transport_mode ctx with
      | EST_HTTP => rv ← est_proxy_propagate_keygen_rsp k cert; mret (rv, Some cert, Some k)
      | _ => mret (rv, Some cert, Some k)
      end
  | _, _ => mret (rv, None, None)
  end.

(** What follows the checks.  The two allocations are not checked. *)
Definition forward_keygen (body path_seg : option bytes)
    : M (EST_ERROR * option bytes * option bytes) :=
  '(rv, a) ← proxy_client path_seg;
  if negb (bool_decide (rv = EST_ERR_NONE)) then mret (rv, None, None) else
  pkcs7_buf ← alloc;
  key_buf ← alloc;
  '(rv, pkcs7, key) ← proxy_attempts a
                        (est_proxy_send_keygen_request (default [] body) key_buf);
  proxy_keygen_response rv pkcs7 key pkcs7_buf.

(** The error, the certificate and the key; the caller passes all four pointers. *)
Definition est_proxy_handle_server_keygen (ssl : SSL) (ct body path_seg : option bytes)
    : M (EST_ERROR * option bytes * option bytes) :=
  rv ← proxy_checks ssl ct body path_seg SERVERKEYGEN_REQ;
  if negb (bool_decide (rv = EST_ERR_NONE)) then mret (rv, None, None)
  else forward_keygen body path_seg.

(** ** CA certificates *)

(** The certificates of the client context go to the application for CoAP. *)
Definition proxy_forward_cacerts (a : nat) : M EST_ERROR :=
  ctx ← get_ctx;
  c ← with_client a get_client;
  match transport_mode ctx with
  | EST_COAP =>
      _ ← upd_ctx (set_ca_certs (retrieved_ca_certs c));
      _ ← with_client a (upd_client (set_retrieved_ca_certs None));
      mret EST_ERR_NONE
  | EST_HTTP => est_handle_cacerts (retrieved_ca_certs c)
  | EST_TRANSPORT_OTHER => mret EST_ERR_BAD_MODE
  end.

Definition est_proxy_handle_cacerts (path_seg : option bytes) : M EST_ERROR :=
  ctx ← get_ctx;
  match ca_certs ctx with
  | Some _ =>
      match transport_mode ctx with
      | EST_HTTP => est_handle_cacerts (ca_certs ctx)
      | EST_COAP => mret EST_ERR_NONE
      | EST_TRANSPORT_OTHER => mret EST_ERR_BAD_MODE
      end
  | None =>
      '(rv, a) ← proxy_client path_seg;
      if negb (bool_decide (rv = EST_ERR_NONE)) then mret rv else
      '(rv, _) ← with_client a (est_client_get_cacerts ENABLE_BRSKI EST_VER_STRING malloc_junk true);
      _ ← copy_retry_after a;
      if negb (bool_decide (rv = EST_ERR_NONE)) then mret (upstream_error rv)
      else proxy_forward_cacerts a
  end.

(** ** CSR attributes *)

(** Attributes that cannot be completed are reported as missing. *)
Definition no_csrattrs : M (EST_ERROR * option (option bytes * Z)) :=
  ctx ← get_ctx;
  match transport_mode ctx with
  | EST_HTTP => _ ← est_send_http_error (est_err_num EST_ERR_HTTP_NO_CONTENT);
                mret (EST_ERR_NONE, None)
  | EST_COAP => mret (EST_ERR_HTTP_NO_CONTENT, None)
  | EST_TRANSPORT_OTHER => mret (EST_ERR_BAD_MODE, None)
  end.

(** The attributes of the upstream server, completed with the challengePassword. *)
Definition proxy_forward_csrattrs (csr_data : option bytes)
    : M (EST_ERROR * option (option bytes * Z)) :=
  let csr_len := Z.of_nat (length (default [] csr_data)) in
  _ ← upd_ctx (set_csr_pop_present false);
  ctx ← get_ctx;
  if negb (server_enable_pop ctx) then return_csrattrs csr_data csr_len else
  '(rv, pop_present) ← est_is_challengePassword_present csr_data csr_len;
  if negb (bool_decide (rv = EST_ERR_NONE)) then no_csrattrs else
  _ ← upd_ctx (set_csr_pop_present pop_present);
  if pop_present : bool then return_csrattrs csr_data csr_len
  else match csr_data with
  | None | Some [] => return_pop_csrattrs
  | Some d =>
      '(rv, csr_data_pop) ← est_add_challengePassword d csr_len;
      if negb (bool_decide (rv = EST_ERR_NONE)) then no_csrattrs
      else return_csrattrs (Some csr_data_pop) (Z.of_nat (length csr_data_pop))
  end.

(** The error and, for CoAP, the attributes handed to the caller. *)
Definition est_proxy_handle_csr_attrs (path_seg : option bytes)
    : M (EST_ERROR * option (option bytes * Z)) :=
  '(rv, a) ← proxy_client path_seg;
  if negb (bool_decide (rv = EST_ERR_NONE)) then mret (rv, None) else
  '(rv, csr_data) ← with_client a
                      (est_client_get_csrattrs ENABLE_BRSKI EST_VER_STRING malloc_junk true);
  _ ← copy_retry_after a;
  _ ← with_client a (upd_client (set_retrieved_csrattrs None));
  ctx ← get_ctx;
  if bool_decide (rv = EST_ERR_NONE)
     || (bool_decide (rv = EST_ERR_HTTP_NO_CONTENT) && server_enable_pop ctx)
  then proxy_forward_csrattrs csr_data
  else mret (upstream_error rv, None).

(** ** The dispatcher *)

Definition proxy_method (method expected : bytes) : bool :=
  snd (strcmp_s (Some method) MAX_HTTP_METHOD_LEN (Some expected) 1) =? 0.

(** Send one error and return another. *)
Definition fail_as (sent rc : EST_ERROR) : M flow :=
  _ ← est_send_http_error (est_err_num sent); mret (Return rc).

Definition proxy_cacerts (method : bytes) (path_seg : option bytes) : M flow :=
  if negb (proxy_method method (lit "GET")) then fail_with EST_ERR_WRONG_METHOD else
  rc ← est_proxy_handle_cacerts path_seg;
  if negb (bool_decide (rc = EST_ERR_NONE)) then fail_with rc else mret Continue.

Definition proxy_csrattrs (method : bytes) (path_seg : option bytes) : M flow :=
  if negb (proxy_method method (lit "GET")) then fail_with EST_ERR_WRONG_METHOD else
  '(rc, _) ← est_proxy_handle_csr_attrs path_seg;
  if negb (bool_decide (rc = EST_ERR_NONE)) then fail_with rc else mret Continue.

(** Is the outcome of an enrollment an error that the client is told? *)
Definition refused (rc : EST_ERROR) : bool :=
  negb (bool_decide (rc = EST_ERR_NONE)) && negb (bool_decide (rc = EST_ERR_AUTH_PENDING)).

(** The response event of a key generation that failed is not announced. *)
Definition proxy_keygen_handler (ssl : SSL) (peer_cert : option X509)
    (body ct path_seg : option bytes) : M flow :=
  _ ← est_invoke_enroll_req_event_cb peer_cert body path_seg SERVERKEYGEN_REQ;
  '(rc, returned_cert, _) ← est_proxy_handle_server_keygen ssl ct body path_seg;
  if refused rc then fail_with rc else
  _ ← est_invoke_enroll_rsp_event_cb peer_cert body path_seg SERVERKEYGEN_REQ returned_cert
        (est_err_num rc);
  mret Continue.

Definition proxy_enroll_handler (ssl : SSL) (peer_cert : option X509) (reenroll : bool)
    (body ct path_seg : option bytes) : M flow :=
  let enroll_req := if reenroll then REENROLL_REQ else SIMPLE_ENROLL_REQ in
  _ ← est_invoke_enroll_req_event_cb peer_cert body path_seg enroll_req;
  '(rc, returned_cert) ← est_proxy_handle_simple_enroll ssl ct body path_seg reenroll true;
  _ ← est_invoke_enroll_rsp_event_cb peer_cert body path_seg enroll_req returned_cert
        (est_err_num rc);
  if refused rc then fail_with rc else mret Continue.

Definition proxy_enroll (ssl : SSL) (peer_cert : option X509) (operation : EST_OPERATION)
    (method : bytes) (body ct path_seg : option bytes) : M flow :=
  if negb (proxy_method method (lit "POST")) then fail_with EST_ERR_WRONG_METHOD
  else if negb (bool_decide (is_Some ct)) then fail_as EST_ERR_BAD_PKCS10 EST_ERR_BAD_CONTENT_TYPE
  else if negb (bool_decide (is_Some body)) then fail_as EST_ERR_BAD_PKCS10 EST_ERR_BAD_CONTENT_LEN
  else if bool_decide (operation = EST_OP_SERVER_KEYGEN)
  then proxy_keygen_handler ssl peer_cert body ct path_seg
  else proxy_enroll_handler ssl peer_cert (bool_decide (operation = EST_OP_SIMPLE_REENROLL))
         body ct path_seg.

Definition proxy_dispatch (ssl : SSL) (peer_cert : option X509) (operation : EST_OPERATION)
    (method : bytes) (body ct path_seg : option bytes) : M flow :=
  match operation with
  | EST_OP_CACERTS => proxy_cacerts method path_seg
  | EST_OP_SIMPLE_ENROLL | EST_OP_SIMPLE_REENROLL | EST_OP_SERVER_KEYGEN =>
      proxy_enroll ssl peer_cert operation method body ct path_seg
  | EST_OP_CSRATTRS => proxy_csrattrs method path_seg
  | _ => _ ← est_send_http_error (est_err_num EST_ERR_HTTP_NOT_FOUND); mret Continue
  end.

Definition est_proxy_http_request (method uri : bytes) (body ct : option bytes) : M EST_ERROR :=
  ctx ← get_ctx;
  if negb (bool_decide (est_mode ctx = EST_PROXY)) then mret EST_ERR_BAD_MODE else
  conn ← get_conn;
  match conn_ssl conn with
  | None =>
      _ ← est_send_http_error (est_err_num EST_ERR_NO_SSL_CTX); mret EST_ERR_NO_SSL_CTX
  | Some ssl =>
      let peer_cert := SSL_get_peer_certificate ssl in
      _ ← est_invoke_endpoint_req_event_cb peer_cert uri EST_ENDPOINT_REQ_START;
      '(rv, operation, path_seg) ← request_uri ENABLE_BRSKI uriparser uri;
      if negb (bool_decide (rv = EST_ERR_NONE)) then
        _ ← est_send_http_error (est_err_num rv); mret rv
      else
        fl ← proxy_dispatch ssl peer_cert operation method body ct path_seg;
        match fl with
        | Return rc => mret rc
        | Continue =>
            _ ← est_invoke_endpoint_req_event_cb peer_cert uri EST_ENDPOINT_REQ_END;
            mret EST_ERR_NONE
        end
  end.

End Proxy.
