(* ===== verification/ProxyConfig.v ===== *)
(** * ProxyConfig: creating and configuring a proxy (est_proxy.c)

    [est_proxy_init] and the setters of the configuration, most of which are those of
    the server and of the client.  The size of the array of client contexts is a
    variable of the process, which [est_proxy_init] only reads. *)

From S2P Require Import Prelude.
From S2P Require Import SafeC.
From S2P Require Import EstTypes.
From S2P Require Import EstState.
From S2P Require Import EstUtil.
From S2P Require Import ServerConfig.
From S2P Require Import ClientHttp.
From S2P Require Import ClientConfig.
From S2P Require Import ProxyCtx.

Section ProxyConfig.
Context {L : OpenSSL}.
Variable ENABLE_BRSKI : bool.
Variable uriparser : option (bytes -> option (list UriPathSegment)).

(** ** est_proxy_init *)

(** The zeroed context with the defaults of a proxy. *)
Definition zero_proxy_ctx : EST_CTX :=
  set_est_mode EST_PROXY (set_server_enable_pop true (set_brski_retry_period 0 zero_ctx)).

(** A zeroed array of client contexts; the allocation is not checked. *)
Definition new_client_ctx_array (n : nat) : M (option (list CLIENT_CTX_LU_NODE_T)) :=
  ok ← alloc; mret (if ok : bool then Some (replicate n zero_node) else None).

(** What follows the certificates. *)
Definition init_proxy_identity (ca_chain : bytes) (ca_chain_len : Z) (http_realm : bytes)
    (tls_id_cert : X509) (tls_id_key : EVP_PKEY) : M bool :=
  ok ← alloc;
  if negb ok then mret false else
  let '(_, r) := strcpy_s (replicate (Z.to_nat (MAX_REALM + 1)) 0) MAX_REALM (Some http_realm) in
  _ ← upd_ctx (fun c => set_auth_mode AUTH_BASIC (set_realm (cstr r) c));
  _ ← upd_client (fun c => set_retry_after_date 0 (set_read_timeout EST_SSL_READ_TIMEOUT_DEF c));
  px ← get_proxy;
  arr ← new_client_ctx_array (cur_max_ctx_array px);
  _ ← upd_proxy_ctx (fun px =>
         Build_EST_PROXY_CTX (Some tls_id_cert) (Some tls_id_key)
           (Some (take (Z.to_nat ca_chain_len) ca_chain)) ca_chain_len arr
           (cur_max_ctx_array px) [] (cur_threadid px));
  mret true.

(** The pointers of the caller are options; the world that is left holds the context.
    The result says whether one was created. *)
Definition est_proxy_init (ca_chain : option bytes) (ca_chain_len : Z)
    (cacerts_resp_chain : option bytes) (cacerts_resp_chain_len : Z) (cert_format_is_pem : bool)
    (http_realm : option bytes) (tls_id_cert : option X509) (tls_id_key : option EVP_PKEY)
    (uid pwd : option bytes) : M bool :=
  match ca_chain, tls_id_cert, tls_id_key, http_realm with
  | Some chain, Some cert, Some key, Some rlm =>
    if negb cert_format_is_pem then mret false
    else if negb (strnlen_s (Some chain) EST_CA_MAX =? ca_chain_len) then mret false
    else if match cacerts_resp_chain with
            | Some resp => negb (strnlen_s (Some resp) EST_CA_MAX =? cacerts_resp_chain_len)
            | None => false
            end then mret false
    else
      ok ← alloc;
      if negb ok then mret false else
      _ ← put_ctx zero_proxy_ctx;
      rv ← est_client_set_uid_pw uid pwd;
      if negb (bool_decide (rv = EST_ERR_NONE)) then mret false else
      rv ← match cacerts_resp_chain with
           | Some resp => est_load_ca_certs (cstr resp)
           | None => mret EST_ERR_NONE
           end;
      if negb (bool_decide (rv = EST_ERR_NONE)) then mret false else
      rv ← est_load_trusted_certs (Some (cstr chain));
      if negb (bool_decide (rv = EST_ERR_NONE)) then mret false
      else init_proxy_identity chain ca_chain_len rlm cert key
  | _, _, _, _ => mret false
  end.

(** ** The settings *)

(** [g]: is the context not NULL? *)
Definition est_proxy_set_auth_mode (g : bool) (amode : EST_HTTP_AUTH_MODE) : M EST_ERROR :=
  est_server_set_auth_mode g amode.

Definition est_proxy_set_auth_cred_cb (callback : option cred_cb) : M EST_ERROR :=
  est_client_set_auth_cred_cb callback.

Definition est_proxy_set_read_timeout (timeout : Z) : M EST_ERROR :=
  est_client_set_read_timeout timeout.

Definition est_proxy_set_server (server : option bytes) (port : Z) : M EST_ERROR :=
  match server with
  | None => mret EST_ERR_INVALID_SERVER_NAME
  | Some s =>
      if EST_MAX_SERVERNAME_LEN - 1 <? strnlen_s (Some s) EST_MAX_SERVERNAME_LEN
      then mret EST_ERR_INVALID_SERVER_NAME
      else if (port <=? 0) || (port >? 65535) then mret EST_ERR_INVALID_PORT_NUM
      else set_cl (fun c => set_est_server (snd (strcpy_field EST_MAX_SERVERNAME_LEN s))
                              (set_est_port_num port c))
  end.

(** The path segment for requests without one. *)
Definition est_proxy_store_path_segment (path_seg : option bytes) : M EST_ERROR :=
  match uriparser with
  | None => mret EST_ERR_HTTP_PATH_SEGMENT_NOT_SUPPORTED
  | Some uriParseUriA =>
    ctx ← get_ctx;
    if negb (bool_decide (est_mode ctx = EST_PROXY)) then mret EST_ERR_BAD_MODE else
    match path_seg with
    | None => mret EST_ERR_NONE
    | Some seg =>
        if rd seg 0 =? 0 then mret EST_ERR_HTTP_INVALID_PATH_SEGMENT else
        let len := strnlen_s (Some seg) (EST_MAX_PATH_SEGMENT_LEN + 1) in
        if len >? EST_MAX_PATH_SEGMENT_LEN then mret EST_ERR_HTTP_INVALID_PATH_SEGMENT else
        match est_parse_path_seg uriParseUriA ENABLE_BRSKI seg with
        | None => null_deref
        | Some EST_ERR_NONE => est_store_path_segment seg len
        | Some _ => mret EST_ERR_HTTP_INVALID_PATH_SEGMENT
        end
    end
  end.

End ProxyConfig.
