(* ===== verification/CoapReq.v ===== *)
(** * CoapReq: the requests in progress of a CoAP server (est_server_coap.c)

    A CoAP message is too small for a CSR or a certificate, so that both arrive and
    leave in blocks.  The server keeps what it has of a request and of its response in
    a node of an array, found by a string made of the port and the address of the
    client.  [CoapLib] is what the code uses of libcoap; a PDU is abstract.

    A handler runs in the monad [CM]: the state is the CoAP part of the context and the
    world of the request handlers; a handler may stop early, with a response or for the
    label [error_exit].  The performance timers of the nodes are left out: they only
    feed the log. *)

From S2P Require Import Prelude.
From S2P Require Import SafeC.
From S2P Require Import EstTypes.
From S2P Require Import EstState.
From S2P Require Import Search.

(** ** libcoap *)

Record coap_block_t := { block_num : Z; block_m : bool; block_szx : Z }.

(** The calls of libcoap on a PDU, the decimal codes [COAP_RESPONSE_CODE] takes, and
    the text of an IPv6 address. *)
Class CoapLib := {
  coap_pdu : Type;
  coap_opt : Type;
  coap_opt_iterator : Type;
  coap_check_option : coap_pdu -> Z -> option (coap_opt * coap_opt_iterator);
  coap_opt_value : coap_opt -> bytes;
  coap_decode_var_bytes : bytes -> Z;
  coap_option_next : coap_opt_iterator -> bool;
  coap_get_data : coap_pdu -> option bytes;
  coap_get_block : coap_pdu -> Z -> option coap_block_t;
  coap_encode_var_safe : Z -> Z -> bytes;
  coap_add_option : coap_pdu -> Z -> bytes -> coap_pdu;
  (** the request, the code and the PDU of the response, the media type, the maximal
      age and the data *)
  coap_add_data_blocked_response :
    coap_pdu -> Z * coap_pdu -> Z -> Z -> bytes -> Z * coap_pdu;
  inet_ntop6 : bytes -> option bytes;
  (** not of libcoap, but of the compiler: the stack of [get_coap_req] from its array
      [src_ipstr] on, as far as no other object of the program lies there *)
  src_ipstr_frame : bytes
}.

Definition COAP_OPTION_CONTENT_TYPE : Z := 12.
Definition COAP_OPTION_ACCEPT : Z := 17.
Definition COAP_OPTION_BLOCK2 : Z := 23.
Definition COAP_OPTION_BLOCK1 : Z := 27.

(** The address of a peer: its port in host order and its address. *)
Inductive coap_address_t :=
| AF_INET (sin_port : Z) (sin_addr : bytes)
| AF_INET6 (sin6_port : Z) (sin6_addr : bytes)
| AF_OTHER.

(** ** The state *)

Definition INET6_ADDRSTRLEN : nat := 46.
Definition MAX_SEARCH_STRING_LEN : nat := INET6_ADDRSTRLEN + 5 * 2 + 1 + 1.
Definition COAP_REQ_NODE_BUF_LEN_MAX : Z := 1024 * 16.

Inductive EST_COAP_REQ : Set :=
| EST_COAP_REQ_RESET | EST_COAP_REQ_CRTS | EST_COAP_REQ_ATT
| EST_COAP_REQ_SEN | EST_COAP_REQ_SREN | EST_COAP_REQ_SKG.

#[global] Instance EST_COAP_REQ_eq_dec : EqDecision EST_COAP_REQ.
Proof. solve_decision. Defined.

Record coap_req_node_t := {
  req_key : bytes;
  req_buf : bytes;
  req_buf_len : Z;
  resp_buf : bytes;
  resp_buf_len : Z;
  resp_blk_num : Z;
  cur_req : EST_COAP_REQ
}.

Definition eta_coap_req_node_t (n : coap_req_node_t) : coap_req_node_t :=
  Build_coap_req_node_t (req_key n) (req_buf n) (req_buf_len n) (resp_buf n) (resp_buf_len n)
    (resp_blk_num n) (cur_req n).
Definition set_req_key (v : bytes) (n : coap_req_node_t) : coap_req_node_t :=
  ltac:(update_field eta_coap_req_node_t req_key v n).
Definition set_req_buf (v : bytes) (n : coap_req_node_t) : coap_req_node_t :=
  ltac:(update_field eta_coap_req_node_t req_buf v n).
Definition set_req_buf_len (v : Z) (n : coap_req_node_t) : coap_req_node_t :=
  ltac:(update_field eta_coap_req_node_t req_buf_len v n).
Definition set_resp_buf (v : bytes) (n : coap_req_node_t) : coap_req_node_t :=
  ltac:(update_field eta_coap_req_node_t resp_buf v n).
Definition set_resp_buf_len (v : Z) (n : coap_req_node_t) : coap_req_node_t :=
  ltac:(update_field eta_coap_req_node_t resp_buf_len v n).
Definition set_cur_req (v : EST_COAP_REQ) (n : coap_req_node_t) : coap_req_node_t :=
  ltac:(update_field eta_coap_req_node_t cur_req v n).

Definition zero_buf : bytes := replicate (Z.to_nat COAP_REQ_NODE_BUF_LEN_MAX) 0.

(** A zeroed node. *)
Definition zero_req : coap_req_node_t :=
  Build_coap_req_node_t (replicate MAX_SEARCH_STRING_LEN 0) zero_buf 0 zero_buf 0 0 EST_COAP_REQ_RESET.

(** The CoAP part of the context (est_locl.h). *)
Record EST_COAP_CTX := {
  coap_server_port_num : Z;
  coap_req_array : option (list coap_req_node_t);
  coap_req_cnt : Z;
  cur_max_coap_req_array : nat;
  dtls_handshake_timer : Z;
  dtls_handshake_mtu : Z;
  dtls_session_max : Z
}.

Definition eta_EST_COAP_CTX (c : EST_COAP_CTX) : EST_COAP_CTX :=
  Build_EST_COAP_CTX (coap_server_port_num c) (coap_req_array c) (coap_req_cnt c)
    (cur_max_coap_req_array c) (dtls_handshake_timer c) (dtls_handshake_mtu c) (dtls_session_max c).
Definition set_coap_server_port_num (v : Z) (c : EST_COAP_CTX) : EST_COAP_CTX :=
  ltac:(update_field eta_EST_COAP_CTX coap_server_port_num v c).
Definition set_coap_req_array (v : option (list coap_req_node_t)) (c : EST_COAP_CTX) : EST_COAP_CTX :=
  ltac:(update_field eta_EST_COAP_CTX coap_req_array v c).
Definition set_coap_req_cnt (v : Z) (c : EST_COAP_CTX) : EST_COAP_CTX :=
  ltac:(update_field eta_EST_COAP_CTX coap_req_cnt v c).
Definition set_cur_max_coap_req_array (v : nat) (c : EST_COAP_CTX) : EST_COAP_CTX :=
  ltac:(update_field eta_EST_COAP_CTX cur_max_coap_req_array v c).
Definition set_dtls_handshake_timer (v : Z) (c : EST_COAP_CTX) : EST_COAP_CTX :=
  ltac:(update_field eta_EST_COAP_CTX dtls_handshake_timer v c).
Definition set_dtls_handshake_mtu (v : Z) (c : EST_COAP_CTX) : EST_COAP_CTX :=
  ltac:(update_field eta_EST_COAP_CTX dtls_handshake_mtu v c).
Definition set_dtls_session_max (v : Z) (c : EST_COAP_CTX) : EST_COAP_CTX :=
  ltac:(update_field eta_EST_COAP_CTX dtls_session_max v c).

(** ** The monad of the handlers *)

Section Monad.
Context {L : OpenSSL} {C : CoapLib}.

(** Why a handler stops: with a response, before the context is known, or at
    [error_exit]. *)
Inductive exit :=
| Returned (code : Z) (pdu : coap_pdu)
| EarlyExit (code : Z)
| ErrorExit (code : Z).

Definition CM (A : Type) : Type :=
  EST_COAP_CTX -> world -> option ((exit + A) * EST_COAP_CTX * world).

#[global] Instance CM_ret : MRet CM := fun A x s w => Some (inr x, s, w).
#[global] Instance CM_bind : MBind CM :=
  fun A B f m s w =>
    match m s w with
    | None => None
    | Some (inl e, s', w') => Some (inl e, s', w')
    | Some (inr x, s', w') => f x s' w'
    end.

Definition stop {A} (e : exit) : CM A := fun s w => Some (inl e, s, w).
Definition error {A} (code : Z) : CM A := stop (ErrorExit code).
Definition undefined {A} : CM A := fun _ _ => None.
Definition get_coap : CM EST_COAP_CTX := fun s w => Some (inr s, s, w).
Definition upd_coap (f : EST_COAP_CTX -> EST_COAP_CTX) : CM unit := fun s w => Some (inr tt, f s, w).

(** A function of the server or the proxy. *)
Definition lift {A} (m : M A) : CM A :=
  fun s w => match m w with
             | None => None
             | Some (x, w') => Some (inr x, s, w')
             end.

(** The node a pointer points to. *)
Definition get_node (i : nat) : CM coap_req_node_t :=
  fun s w => match coap_req_array s ≫= fun arr => arr !! i with
             | None => None
             | Some n => Some (inr n, s, w)
             end.
Definition upd_node (i : nat) (f : coap_req_node_t -> coap_req_node_t) : CM unit :=
  n ← get_node i;
  upd_coap (fun s => set_coap_req_array (fmap (<[i := f n]>) (coap_req_array s)) s).

End Monad.

(** ** The array of requests *)

Definition coap_bsearch_compare (a b : coap_req_node_t) : Z :=
  let '(_, diff) := strcmp_s (Some (req_key a)) (Z.of_nat MAX_SEARCH_STRING_LEN) (Some (req_key b)) 0 in
  if diff >? 0 then 1 else if diff <? 0 then -1 else 0.

(** A string as the key of a search, in its zeroed buffer. *)
Definition search_buf (n : nat) (s : bytes) : bytes := s ++ replicate (n - length s) 0.
Definition key_req (key : bytes) : coap_req_node_t := set_req_key key zero_req.

Section Array.
Context {L : OpenSSL} {C : CoapLib}.

Definition inet_ntop4 (a : bytes) : option bytes :=
  match a with
  | [a; b; c; d] => Some (fmt_d a ++ [chr_dot] ++ fmt_d b ++ [chr_dot] ++ fmt_d c ++ [chr_dot] ++ fmt_d d)
  | _ => None
  end.

(** The text of the address and the port of a client, in CoAP mode. *)
Definition est_invoke_enroll_get_ip_port (addr : coap_address_t) : EST_ERROR * bytes * Z :=
  let answer (port : Z) (text : option bytes) :=
    match text with
    | Some ip => (EST_ERR_NONE, ip, port)
    | None => (EST_ERR_SYSCALL, [], port)
    end in
  match addr with
  | AF_INET port a => answer port (inet_ntop4 a)
  | AF_INET6 port a => answer port (inet_ntop6 a)
  | AF_OTHER => (EST_ERR_NONE, [], 0)
  end.

(** The key of a client; [None] when there is no text of its address. *)
Definition search_key (addr : coap_address_t) : option bytes :=
  let '(est_rc, src_ipstr, src_port) := est_invoke_enroll_get_ip_port addr in
  if negb (bool_decide (est_rc = EST_ERR_NONE)) then None
  else match strcat_s (Some (fmt_d src_port)) (Z.of_nat MAX_SEARCH_STRING_LEN) (Some src_ipstr) with
       | (EOK, Some key) => Some key
       | _ => None
       end.

(** The functions on the array: its nodes and their number are passed on. *)
Definition find_req (key : bytes) (arr : list coap_req_node_t) (n : nat) : CM (option nat) :=
  match bsearch coap_bsearch_compare (key_req key) arr n with
  | None => undefined
  | Some r => mret r
  end.

(** Everything but the key. *)
Definition reinit_node (new_req : EST_COAP_REQ) (n : coap_req_node_t) : coap_req_node_t :=
  Build_coap_req_node_t (req_key n) zero_buf 0 zero_buf 0 0 new_req.

Definition reinit_coap_req (i : nat) (new_req : EST_COAP_REQ) : CM unit :=
  upd_node i (reinit_node new_req).

(** A node for a new key: a free one gets the key and the request, and the array is
    sorted. *)
Definition new_coap_req (key : bytes) (incoming_req : EST_COAP_REQ) (arr : list coap_req_node_t) (n : nat)
    : CM (option nat) :=
  empty ← find_req [] arr n;
  match empty with
  | None => mret None
  | Some i =>
      match arr !! i with
      | None => undefined
      | Some node =>
          let '(_, k) := memcpy_s (Some (req_key node)) (Z.of_nat MAX_SEARCH_STRING_LEN)
                           (Some (search_buf (S MAX_SEARCH_STRING_LEN) key)) (Z.of_nat MAX_SEARCH_STRING_LEN) in
          let node := set_cur_req incoming_req (set_req_key (default [] k) node) in
          let arr := qsort coap_bsearch_compare (<[i := node]> arr) in
          _ ← upd_coap (set_coap_req_array (Some arr));
          found ← find_req key arr n;
          match found with
          | None => mret None
          | Some j =>
              _ ← upd_coap (fun s => set_coap_req_cnt (coap_req_cnt s + 1) s);
              mret (Some j)
          end
      end
  end.

(** [memzero_s(src_ipstr, INET6_ADDRSTRLEN+1)] on an array of INET6_ADDRSTRLEN bytes:
    the frame after it, or [None] where the last byte it clears is another object's. *)
Definition clear_src_ipstr (frame : bytes) : option bytes :=
  let n := S INET6_ADDRSTRLEN in
  if (n <=? length frame)%nat then Some (replicate n 0 ++ drop n frame) else None.

(** [None] stands for NULL. *)
Definition get_coap_req (addr : coap_address_t) (incoming_req : EST_COAP_REQ) : CM (option nat) :=
  match clear_src_ipstr src_ipstr_frame with None => undefined | Some _ =>
  match search_key addr with
  | None => mret None
  | Some key =>
      s ← get_coap;
      match coap_req_array s with
      | None => undefined
      | Some arr =>
          found ← find_req key arr (cur_max_coap_req_array s);
          match found with
          | None => new_coap_req key incoming_req arr (cur_max_coap_req_array s)
          | Some i =>
              node ← get_node i;
              if negb (bool_decide (cur_req node = incoming_req))
                 && negb (bool_decide (incoming_req = EST_COAP_REQ_RESET))
              then _ ← reinit_coap_req i incoming_req;
                   _ ← upd_node i (set_cur_req incoming_req);
                   mret (Some i)
              else mret (Some i)
          end
      end
  end
  end.

Definition remove_coap_req (coap_req : option nat) : CM bool :=
  match coap_req with
  | None => mret false
  | Some i =>
      s ← get_coap;
      if coap_req_cnt s =? 0 then mret false else
      node ← get_node i;
      match coap_req_array s with
      | None => undefined
      | Some arr =>
          found ← find_req (req_key node) arr (cur_max_coap_req_array s);
          match found with
          | None => mret false
          | Some j =>
              _ ← upd_coap (set_coap_req_array (Some (qsort coap_bsearch_compare (<[j := zero_req]> arr))));
              _ ← upd_coap (fun s => set_coap_req_cnt (coap_req_cnt s - 1) s);
              mret true
          end
      end
  end.

(** The allocation is an input of the model ([w_alloc]). *)
Definition est_coap_init_req_array (entry_count : nat) : CM EST_ERROR :=
  ok ← lift alloc;
  if negb ok then _ ← upd_coap (set_coap_req_array None); mret EST_ERR_MALLOC
  else
    _ ← upd_coap (fun s => set_cur_max_coap_req_array entry_count
                             (set_coap_req_array (Some (replicate entry_count zero_req)) s));
    mret EST_ERR_NONE.

(** A session was opened, closed, or something else happened to it. *)
Inductive coap_event_t := COAP_EVENT_DTLS_CONNECTED | COAP_EVENT_DTLS_CLOSED | COAP_EVENT_OTHER.

Definition est_coap_event_handler (event : coap_event_t) (remote_addr : coap_address_t) : CM unit :=
  match event with
  | COAP_EVENT_DTLS_CONNECTED => _ ← get_coap_req remote_addr EST_COAP_REQ_RESET; mret tt
  | COAP_EVENT_DTLS_CLOSED =>
      coap_req ← get_coap_req remote_addr EST_COAP_REQ_RESET;
      _ ← remove_coap_req coap_req;
      mret tt
  | COAP_EVENT_OTHER => mret tt
  end.

End Array.
