(* ===== verification/CoapServer.v ===== *)
(** * CoapServer: the CoAP handlers (est_server_coap.c)

    The handlers libcoap calls for enrollment and re-enrollment, key generation, the CA
    certificates and the CSR attributes. They collect the blocks of a request, run the
    request handlers of the server or of the proxy, and send the response in blocks.

    Configuring and starting a CoAP server (est_server_coap.c). *)

From S2P Require Import Prelude.
From S2P Require Import SafeC.
From S2P Require Import EstTypes.
From S2P Require Import EstState.
From S2P Require Import EstUtil.
From S2P Require Import ServerAuth.
From S2P Require Import ServerEnroll.
From S2P Require Import Proxy.
From S2P Require Import CoapReq.

Definition COAP_MEDIA_TYPE_MULTI : Z := 62.
Definition COAP_MEDIA_TYPE_PKCS7_CERTS : Z := 281.
Definition COAP_MEDIA_TYPE_CSR_ATTRS : Z := 285.
Definition COAP_MEDIA_TYPE_PKCS10 : Z := 286.
Definition COAP_CONTENT_TYPE_MAX : Z := 65535.
Definition MAX_CONTENT_TYPE_BUF_SIZE : Z := 40.

(** ** CBOR *)

Definition INITIAL_BYTE_LENGTH_MAX : Z := 23.
Definition INITIAL_BYTE_BYTESTRING_SMALL_BASE : Z := 64.
Definition INITIAL_BYTE_ARRAY_SMALL_BASE : Z := 128.
Definition INITIAL_BYTE_UINT16 : Z := 25.
Definition KEY_CONTENT_FORMAT_IDENTIFIER : Z := 284.
Definition CERT_CONTENT_FORMAT_IDENTIFIER : Z := 281.
Definition UINT16_SIZE : Z := 2.

Record cbor_bytestring := { initial_byte : Z; n_length : Z; cbor_data : bytes; cbor_len : Z }.

(** The number of length bytes and the initial byte for a length. *)
Definition makeCborBytestring (len : Z) (data : bytes) : cbor_bytestring :=
  let '(ib, n) :=
    if len <=? INITIAL_BYTE_LENGTH_MAX then (INITIAL_BYTE_BYTESTRING_SMALL_BASE + len, 0)
    else if len <=? 255 then (88, 1)
    else if len <=? 65535 then (89, 2)
    else if len <=? 4294967295 then (90, 4)
    else (91, 8) in
  Build_cbor_bytestring ib n data len.

(** The bytes of the length, the most significant one first. *)
Fixpoint cbor_length_bytes (n : nat) (len : Z) : bytes :=
  match n with
  | O => []
  | S k => Z.land (Z.shiftr len (8 * Z.of_nat k)) 255 :: cbor_length_bytes k len
  end.

(** What is written from [*buffer] on. *)
Definition writeCborBytestring (b : cbor_bytestring) : bytes :=
  initial_byte b :: cbor_length_bytes (Z.to_nat (n_length b)) (cbor_len b)
  ++ take (Z.to_nat (cbor_len b)) (cbor_data b).

(** The body of a key generation response. *)
Definition skg_cbor (keyCbor certCbor : cbor_bytestring) : bytes :=
  [INITIAL_BYTE_ARRAY_SMALL_BASE + 4; INITIAL_BYTE_UINT16;
   Z.shiftr KEY_CONTENT_FORMAT_IDENTIFIER 8; Z.land KEY_CONTENT_FORMAT_IDENTIFIER 255]
  ++ writeCborBytestring keyCbor
  ++ [INITIAL_BYTE_UINT16;
      Z.shiftr CERT_CONTENT_FORMAT_IDENTIFIER 8; Z.land CERT_CONTENT_FORMAT_IDENTIFIER 255]
  ++ writeCborBytestring certCbor.

Record coap_session_t `{OpenSSL} := { remote_addr : coap_address_t; tls : option SSL }.

Section Coap.
Context {L : OpenSSL} {C : CoapLib}.

(** ** The options of a message *)

Definition est_coap_check_option (request : coap_pdu) (option_type coap_media_type : Z) : EST_ERROR :=
  match coap_check_option request option_type with
  | Some (option, opt_iter) =>
      let option_val := coap_decode_var_bytes (coap_opt_value option) in
      let more := if coap_option_next opt_iter then EST_ERR_BAD_CONTENT_TYPE else EST_ERR_NONE in
      if negb (option_val =? coap_media_type) then
        if option_val >? COAP_CONTENT_TYPE_MAX then EST_ERR_BAD_CONTENT_TYPE
        else if option_type =? COAP_OPTION_CONTENT_TYPE then EST_ERR_HTTP_BAD_REQ
        else if option_type =? COAP_OPTION_ACCEPT then EST_ERR_HTTP_UNSUPPORTED
        else more
      else more
  | None => if negb (option_type =? COAP_OPTION_ACCEPT) then EST_ERR_BAD_CONTENT_TYPE else EST_ERR_NONE
  end.

Definition check_content_format (request : coap_pdu) : CM unit :=
  match est_coap_check_option request COAP_OPTION_CONTENT_TYPE COAP_MEDIA_TYPE_PKCS10 with
  | EST_ERR_NONE => mret tt
  | EST_ERR_BAD_CONTENT_TYPE => stop (EarlyExit 402)
  | EST_ERR_HTTP_BAD_REQ => stop (EarlyExit 400)
  | _ => stop (EarlyExit 500)
  end.

Definition check_accept (request : coap_pdu) (coap_media_type : Z) : CM unit :=
  match est_coap_check_option request COAP_OPTION_ACCEPT coap_media_type with
  | EST_ERR_NONE => mret tt
  | EST_ERR_BAD_CONTENT_TYPE => error 402
  | EST_ERR_HTTP_UNSUPPORTED => error 406
  | _ => error 500
  end.

(** ** Receiving a request *)

(** The payload, when there is one that is not empty. *)
Definition payload (request : coap_pdu) : option bytes :=
  match coap_get_data request with
  | Some (c :: r) => Some (c :: r)
  | _ => None
  end.

(** [memcpy_s] with the size of the data as the size of the destination: what does not
    fit into the buffer is written behind it. *)
Definition copy_block (i : nat) (offset : Z) (data : bytes) : CM unit :=
  if offset + Z.of_nat (length data) >? COAP_REQ_NODE_BUF_LEN_MAX then undefined
  else upd_node i (fun n => set_req_buf_len (offset + Z.of_nat (length data))
                              (set_req_buf (store (req_buf n) (Z.to_nat offset) data) n)).

Definition clear_req_buf (n : coap_req_node_t) : coap_req_node_t :=
  set_req_buf_len 0 (if negb (rd (req_buf n) 0 =? 0) then set_req_buf zero_buf n else n).

Definition block_offset (b : coap_block_t) : Z :=
  wrap_u 32 (Z.shiftl (block_num b) (block_szx b + 4)).

(** A block of the request: it is the next one, or one that is there already. *)
Definition receive_block (i : nat) (block1 : coap_block_t) (data : bytes) : CM unit :=
  node ← get_node i;
  let offset := block_offset block1 in
  if offset =? 0 then _ ← upd_node i clear_req_buf; copy_block i offset data
  else if offset >? req_buf_len node then error 408
  else if offset <? req_buf_len node then mret tt
  else copy_block i offset data.

(** The acknowledgement of a block that is not the last. *)
Definition continue_response (pdu : coap_pdu) (b : coap_block_t) : coap_pdu :=
  coap_add_option pdu COAP_OPTION_BLOCK1
    (coap_encode_var_safe MAX_CONTENT_TYPE_BUF_SIZE
       (Z.lor (Z.lor (Z.shiftl (block_num b) 4) (Z.shiftl (Z.b2z (block_m b)) 3)) (block_szx b))).

(** Goes on when the whole request is there. *)
Definition receive_request (i : nat) (request response : coap_pdu) : CM unit :=
  match coap_get_block request COAP_OPTION_BLOCK1 with
  | Some block1 =>
      _ ← match payload request with
          | Some data => receive_block i block1 data
          | None => mret tt
          end;
      if block_m block1 then stop (Returned 231 (continue_response response block1)) else mret tt
  | None =>
      match payload request with
      | Some data => copy_block i 0 data
      | None =>
          node ← get_node i;
          if negb (req_buf_len node =? 0) then error 400 else upd_node i clear_req_buf
      end
  end.

(** A new request on a node that still holds one. *)
Definition restart_request (i : nat) (req_type : EST_COAP_REQ) (request : coap_pdu) : CM unit :=
  node ← get_node i;
  let first := match coap_get_block request COAP_OPTION_BLOCK1 with
               | None => true
               | Some block1 => block_num block1 =? 0
               end in
  if negb (rd (req_buf node) 0 =? 0) && bool_decide (is_Some (payload request)) && first
  then reinit_coap_req i req_type
  else mret tt.

(** The CSR in DER and in base64. *)
Definition received_csr (i : nat) : CM (bytes * bytes) :=
  node ← get_node i;
  let csr_len := req_buf_len node in
  if csr_len <=? 0 then error 400 else
  csr_buf ← lift alloc;
  if negb csr_buf then error 500 else
  let csr := take (Z.to_nat csr_len) (req_buf node) in
  b64_based_csr ← lift alloc;
  if negb b64_based_csr then error 500 else
  enc ← lift (est_base64_encode csr (csr_len * 2) true);
  if enc_ret enc <=? 0 then error 500
  else match enc_nul enc with
       | Some k => if k <? csr_len * 2 then mret (csr, cstr (enc_dst enc)) else undefined
       | None => mret (csr, cstr (enc_dst enc))
       end.

(** ** Sending a response *)

(** Store decoded data as the response of a node. *)
Definition store_response (i : nat) (der : bytes) : CM unit :=
  if Z.of_nat (length der) >? COAP_REQ_NODE_BUF_LEN_MAX then error 500
  else upd_node i (fun n => set_resp_buf_len (Z.of_nat (length der)) (set_resp_buf (store (resp_buf n) 0 der) n)).

(** A string in base64, decoded into a buffer of its length, at most [max]. *)
Definition decode_response (b64 : bytes) (b64_len max : Z) : CM bytes :=
  '(n, der) ← lift (est_base64_decode b64 (Z.min b64_len max));
  if n <=? 0 then error 500 else mret der.

(** The CoAP code for the result of a request handler; [None]: no error. *)
Definition enroll_code (rc : EST_ERROR) : option Z :=
  match rc with
  | EST_ERR_NONE => None
  | EST_ERR_BAD_PKCS10 | EST_ERR_CSR_ATTR_MISSING | EST_ERR_HTTP_BAD_REQ | EST_ERR_NO_SSL_CTX => Some 400
  | EST_ERR_HTTP_NO_CONTENT => Some 204
  | EST_ERR_HTTP_NOT_FOUND => Some 404
  | EST_ERR_AUTH_FAIL_TLSUID | EST_ERR_AUTH_FAIL => Some 401
  | EST_ERR_HTTP_UNSUPPORTED => Some 502
  | EST_ERR_CA_ENROLL_RETRY | EST_ERR_HTTP_LOCKED => Some 503
  | EST_ERR_IP_CONNECT => Some 504
  | _ => Some 500
  end.

Definition get_code (rc : EST_ERROR) : option Z :=
  match rc with
  | EST_ERR_NONE => None
  | EST_ERR_HTTP_BAD_REQ => Some 400
  | EST_ERR_HTTP_NO_CONTENT => Some 205
  | EST_ERR_HTTP_NOT_FOUND => Some 404
  | EST_ERR_AUTH_FAIL => Some 401
  | EST_ERR_HTTP_UNSUPPORTED => Some 502
  | EST_ERR_CA_ENROLL_RETRY | EST_ERR_HTTP_LOCKED => Some 503
  | EST_ERR_IP_CONNECT => Some 504
  | _ => Some 500
  end.

Definition check_rc (code : option Z) : CM unit :=
  match code with None => mret tt | Some c => error c end.

(** The end of a handler, [goto error_exit] included: the endpoint event for the end of
    the request, unless more blocks of the response follow.  Before the context is
    known there is no event. *)
Definition coap_finish (peer_cert : option X509) (uri : bytes) (response : coap_pdu)
    (body : CM (Z * coap_pdu)) : CM (Z * coap_pdu) :=
  fun s w =>
    let fin code pdu s w :=
      match est_invoke_endpoint_req_event_cb peer_cert uri EST_ENDPOINT_REQ_END w with
      | None => None
      | Some (_, w') => Some (inr (code, pdu), s, w')
      end in
    match body s w with
    | None => None
    | Some (inl (Returned code pdu), s', w') => Some (inr (code, pdu), s', w')
    | Some (inl (EarlyExit code), s', w') => Some (inr (code, response), s', w')
    | Some (inl (ErrorExit code), s', w') => fin code response s' w'
    | Some (inr (code, pdu), s', w') =>
        if match coap_get_block pdu COAP_OPTION_BLOCK2 with Some b => block_m b | None => false end
        then Some (inr (code, pdu), s', w')
        else fin code pdu s' w'
    end.

(** The next block of the response of a node. *)
Definition send_response (i : nat) (request response : coap_pdu) (code media : Z) : CM (Z * coap_pdu) :=
  node ← get_node i;
  mret (coap_add_data_blocked_response request (code, response) media (-1)
          (take (Z.to_nat (resp_buf_len node)) (resp_buf node))).

(** The node of a session. *)
Definition need_req (addr : coap_address_t) (req : EST_COAP_REQ) : CM nat :=
  coap_req ← get_coap_req addr req;
  match coap_req with
  | None => error 500
  | Some i => mret i
  end.

Definition session_peer (session : coap_session_t) : option X509 :=
  tls session ≫= SSL_get_peer_certificate.

(** The session and the certificate of a client that must have one. *)
Definition need_cert (session : coap_session_t) : CM (SSL * X509) :=
  match tls session with
  | None => error 401
  | Some ssl =>
      match SSL_get_peer_certificate ssl with
      | None => error 401
      | Some peer_cert => mret (ssl, peer_cert)
      end
  end.

Definition uri_is (uri name : bytes) : bool :=
  let '(rc, ind) := strcmp_s (Some uri) (Z.of_nat (length uri)) (Some name) 1 in
  (rc =? EOK) && (ind =? 0).

Definition start_event (peer_cert : option X509) (uri : bytes) : CM unit :=
  lift (est_invoke_endpoint_req_event_cb peer_cert uri EST_ENDPOINT_REQ_START).

Variable ENABLE_BRSKI : bool.
Variable uriparser : option (bytes -> option (list UriPathSegment)).
Variable EST_VER_STRING : bytes.
Variable malloc_junk : nat -> bytes.

(** ** Enrollment *)

(** The request handler of the server or of the proxy. *)
Definition run_enroll (ssl : SSL) (peer_cert : X509) (csr b64 : bytes) (req : EST_ENROLL_REQ_TYPE)
    : CM (EST_ERROR * option bytes) :=
  _ ← lift (est_invoke_enroll_req_event_cb (Some peer_cert) (Some csr) None req);
  ctx ← lift get_ctx;
  '(rc, cert) ←
    match est_mode ctx with
    | EST_SERVER => lift (est_handle_simple_enroll ssl (Some peer_cert) None (Some b64) None req true)
    | EST_PROXY => lift (est_proxy_handle_simple_enroll ENABLE_BRSKI uriparser EST_VER_STRING malloc_junk
                           ssl None (Some b64) None (bool_decide (req = REENROLL_REQ)) true)
    | _ => error 500
    end;
  _ ← lift (est_invoke_enroll_rsp_event_cb (Some peer_cert) (Some csr) None req cert (est_err_num rc));
  mret (rc, cert).

(** A whole request: the certificate becomes the response. *)
Definition sen_request (i : nat) (ssl : SSL) (peer_cert : X509) (req : EST_ENROLL_REQ_TYPE) : CM unit :=
  '(csr, b64) ← received_csr i;
  '(rc, returned_cert) ← run_enroll ssl peer_cert csr b64 req;
  _ ← check_rc (enroll_code rc);
  cert_b64 ← lift alloc;
  if negb cert_b64 then error 500 else
  match returned_cert with
  | None => error 500
  | Some cert =>
      cert_der ← lift alloc;
      if negb cert_der then error 500 else
      der ← decode_response cert (Z.of_nat (length cert)) COAP_REQ_NODE_BUF_LEN_MAX;
      cert_der_str ← lift alloc;
      if negb cert_der_str then undefined else store_response i der
  end.

Definition sen_receive (i : nat) (uri : bytes) (ssl : SSL) (peer_cert : X509) (req : EST_ENROLL_REQ_TYPE)
    (request response : coap_pdu) : CM unit :=
  node ← get_node i;
  _ ← (if rd (req_buf node) 0 =? 0 then start_event (Some peer_cert) uri else mret tt);
  _ ← check_accept request COAP_MEDIA_TYPE_PKCS7_CERTS;
  _ ← receive_request i request response;
  sen_request i ssl peer_cert req.

Definition est_coap_sen_handler (uri : bytes) (session : coap_session_t) (request response : coap_pdu)
    : CM (Z * coap_pdu) :=
  coap_finish (session_peer session) uri response (
    _ ← check_content_format request;
    '(ssl, peer_cert) ← need_cert session;
    '(enroll_req, req_type) ←
      (if uri_is uri (lit "est/sen") then mret (SIMPLE_ENROLL_REQ, EST_COAP_REQ_SEN)
       else if uri_is uri (lit "est/sren") then mret (REENROLL_REQ, EST_COAP_REQ_SREN)
       else error 500);
    i ← need_req (remote_addr session) req_type;
    _ ← restart_request i req_type request;
    node ← get_node i;
    _ ← (if rd (resp_buf node) 0 =? 0
         then sen_receive i uri ssl peer_cert enroll_req request response
         else mret tt);
    send_response i request response 204 COAP_MEDIA_TYPE_PKCS7_CERTS).

(** ** Key generation *)

Definition run_keygen (ssl : SSL) (peer_cert : X509) (csr b64 : bytes)
    : CM (EST_ERROR * option bytes * option bytes) :=
  _ ← lift (est_invoke_enroll_req_event_cb (Some peer_cert) (Some csr) None SERVERKEYGEN_REQ);
  ctx ← lift get_ctx;
  '(rc, cert, key) ←
    match est_mode ctx with
    | EST_SERVER => lift (est_handle_server_keygen ssl (Some peer_cert) None (Some b64) None)
    | EST_PROXY => lift (est_proxy_handle_server_keygen ENABLE_BRSKI uriparser EST_VER_STRING malloc_junk
                           ssl None (Some b64) None)
    | _ => error 500
    end;
  _ ← lift (est_invoke_enroll_rsp_event_cb (Some peer_cert) (Some csr) None SERVERKEYGEN_REQ cert
              (est_err_num rc));
  mret (rc, cert, key).

(** A copy of a buffer as a string; there is none of a NULL buffer. *)
Definition string_copy (buf : option bytes) : CM bytes :=
  ok ← lift alloc;
  if negb ok then error 500
  else match buf with None => error 500 | Some b => mret b end.

(** The key and the certificate in CBOR. *)
Definition skg_response (i : nat) (returned_cert returned_key : option bytes) : CM unit :=
  cert_b64 ← string_copy returned_cert;
  key_b64 ← string_copy returned_key;
  let cbor_len := 1 + 1 + UINT16_SIZE + 1 in
  key_der_ok ← lift alloc;
  if negb key_der_ok then error 500 else
  key_der ← decode_response key_b64 (Z.of_nat (length key_b64)) (COAP_REQ_NODE_BUF_LEN_MAX - cbor_len);
  let keyCbor := makeCborBytestring (Z.of_nat (length key_der)) key_der in
  let cbor_len := cbor_len + (n_length keyCbor + CoapServer.cbor_len keyCbor) + (1 + UINT16_SIZE + 1) in
  cert_der_ok ← lift alloc;
  if negb cert_der_ok then error 500 else
  cert_der ← decode_response cert_b64 (Z.of_nat (length cert_b64)) (COAP_REQ_NODE_BUF_LEN_MAX - cbor_len);
  let certCbor := makeCborBytestring (Z.of_nat (length cert_der)) cert_der in
  let cbor_len := cbor_len + (n_length certCbor + CoapServer.cbor_len certCbor) in
  if cbor_len >? COAP_REQ_NODE_BUF_LEN_MAX then error 500 else
  cbor_ok ← lift alloc;
  let cbor := skg_cbor keyCbor certCbor in
  if negb cbor_ok || (Z.of_nat (length cbor) >? cbor_len) then undefined
  else store_response i cbor.

Definition skg_request (i : nat) (uri : bytes) (ssl : SSL) (peer_cert : X509) : CM unit :=
  '(csr, b64) ← received_csr i;
  if negb (uri_is uri (lit "est/skg")) then error 500 else
  '(rc, returned_cert, returned_key) ← run_keygen ssl peer_cert csr b64;
  _ ← check_rc (enroll_code rc);
  skg_response i returned_cert returned_key.

Definition skg_receive (i : nat) (uri : bytes) (ssl : SSL) (peer_cert : X509)
    (request response : coap_pdu) : CM unit :=
  node ← get_node i;
  _ ← (if rd (req_buf node) 0 =? 0 then start_event (Some peer_cert) uri else mret tt);
  _ ← check_accept request COAP_MEDIA_TYPE_MULTI;
  _ ← receive_request i request response;
  skg_request i uri ssl peer_cert.

Definition est_coap_skg_handler (uri : bytes) (session : coap_session_t) (request response : coap_pdu)
    : CM (Z * coap_pdu) :=
  coap_finish (session_peer session) uri response (
    _ ← check_content_format request;
    '(ssl, peer_cert) ← need_cert session;
    i ← need_req (remote_addr session) EST_COAP_REQ_SKG;
    _ ← restart_request i EST_COAP_REQ_SKG request;
    node ← get_node i;
    _ ← (if rd (resp_buf node) 0 =? 0
         then skg_receive i uri ssl peer_cert request response
         else mret tt);
    send_response i request response 204 COAP_MEDIA_TYPE_MULTI).

(** ** CA certificates *)

Definition crts_request (i : nat) (uri : bytes) (peer_cert : option X509) (request : coap_pdu) : CM unit :=
  _ ← check_accept request COAP_MEDIA_TYPE_PKCS7_CERTS;
  _ ← start_event peer_cert uri;
  ctx ← lift get_ctx;
  rv ← match est_mode ctx with
       | EST_SERVER => lift (est_server_handle_cacerts None)
       | EST_PROXY => lift (est_proxy_handle_cacerts ENABLE_BRSKI uriparser EST_VER_STRING malloc_junk None)
       | _ => error 500
       end;
  _ ← check_rc (get_code rv);
  ctx ← lift get_ctx;
  match ca_certs ctx with
  | None => error 404
  | Some certs =>
      cacert_der ← lift alloc;
      if negb cacert_der then error 500 else
      der ← decode_response certs (Z.of_nat (length certs)) COAP_REQ_NODE_BUF_LEN_MAX;
      store_response i der
  end.

Definition est_coap_crts_handler (uri : bytes) (session : coap_session_t) (request response : coap_pdu)
    : CM (Z * coap_pdu) :=
  coap_finish (session_peer session) uri response (
    match tls session with
    | None => error 401
    | Some _ =>
      i ← need_req (remote_addr session) EST_COAP_REQ_CRTS;
      node ← get_node i;
      _ ← (if rd (resp_buf node) 0 =? 0
           then crts_request i uri (session_peer session) request
           else mret tt);
      send_response i request response 205 COAP_MEDIA_TYPE_PKCS7_CERTS
    end).

(** ** CSR attributes *)

Definition att_request (i : nat) (uri : bytes) (peer_cert : option X509) (request : coap_pdu) : CM unit :=
  _ ← start_event peer_cert uri;
  _ ← check_accept request COAP_MEDIA_TYPE_CSR_ATTRS;
  ctx ← lift get_ctx;
  '(rv, attrs) ←
    match est_mode ctx with
    | EST_SERVER => lift (est_handle_csr_attrs peer_cert None)
    | EST_PROXY => lift (est_proxy_handle_csr_attrs ENABLE_BRSKI uriparser EST_VER_STRING malloc_junk None)
    | _ => error 500
    end;
  _ ← check_rc (get_code rv);
  match attrs with
  | Some (Some returned_attrs, returned_attrs_len) =>
      csr_attrs_der ← lift alloc;
      if negb csr_attrs_der then error 500 else
      der ← decode_response returned_attrs returned_attrs_len COAP_REQ_NODE_BUF_LEN_MAX;
      store_response i der
  | _ => error 205
  end.

(** The code of the response is set after libcoap has filled it in. *)
Definition est_coap_att_handler (uri : bytes) (session : coap_session_t) (request response : coap_pdu)
    : CM (Z * coap_pdu) :=
  coap_finish (session_peer session) uri response (
    match tls session with
    | None => error 500
    | Some _ =>
      i ← need_req (remote_addr session) EST_COAP_REQ_ATT;
      node ← get_node i;
      _ ← (if rd (resp_buf node) 0 =? 0
           then att_request i uri (session_peer session) request
           else mret tt);
      '(_, pdu) ← send_response i request response 0 COAP_MEDIA_TYPE_CSR_ATTRS;
      mret (205, pdu)
    end).

(** ** The resources *)

Inductive coap_method := COAP_REQUEST_GET | COAP_REQUEST_POST.

Definition coap_handler : Type :=
  bytes -> coap_session_t -> coap_pdu -> coap_pdu -> CM (Z * coap_pdu).

(** The handlers as they are registered with libcoap, which calls the handler of the
    path and the method of a request. *)
Definition est_server_coap_init_resources : list (bytes * coap_method * coap_handler) :=
  [(lit "est/sen", COAP_REQUEST_POST, est_coap_sen_handler);
   (lit "est/sren", COAP_REQUEST_POST, est_coap_sen_handler);
   (lit "est/skg", COAP_REQUEST_POST, est_coap_skg_handler);
   (lit "est/crts", COAP_REQUEST_GET, est_coap_crts_handler);
   (lit "est/att", COAP_REQUEST_GET, est_coap_att_handler)].

End Coap.

Definition EST_DTLS_HANDSHAKE_TIMEOUT_MIN : Z := 2.
Definition EST_DTLS_HANDSHAKE_TIMEOUT_MAX : Z := 60.
Definition EST_DTLS_HANDSHAKE_TIMEOUT_DEF : Z := 0.
Definition EST_DTLS_HANDSHAKE_MTU_MIN : Z := 256.
Definition EST_DTLS_HANDSHAKE_MTU_MAX : Z := 1152.
Definition EST_DTLS_HANDSHAKE_MTU_DEF : Z := 0.
Definition EST_DTLS_SESSION_MAX_MIN : Z := 2.
Definition EST_DTLS_SESSION_MAX_MAX : Z := 128.
Definition EST_DTLS_SESSION_MAX_DEF : Z := 32.

Section Config.
Context {L : OpenSSL} {C : CoapLib}.

(** The CoAP part of a zeroed context. *)
Definition zero_coap_ctx : EST_COAP_CTX := Build_EST_COAP_CTX 0 None 0 0 0 0 0.

(** The part of [est_server_init] and [est_proxy_init] that is about CoAP. *)
Definition coap_init : CM EST_ERROR :=
  _ ← upd_coap (fun s => set_dtls_session_max EST_DTLS_SESSION_MAX_DEF
                  (set_dtls_handshake_mtu EST_DTLS_HANDSHAKE_MTU_DEF
                    (set_dtls_handshake_timer EST_DTLS_HANDSHAKE_TIMEOUT_DEF s)));
  est_coap_init_req_array (Z.to_nat EST_DTLS_SESSION_MAX_DEF).

Definition est_server_set_dtls_handshake_timeout (timeout : Z) : CM EST_ERROR :=
  if negb (timeout =? EST_DTLS_HANDSHAKE_TIMEOUT_DEF)
     && ((timeout <? EST_DTLS_HANDSHAKE_TIMEOUT_MIN) || (timeout >? EST_DTLS_HANDSHAKE_TIMEOUT_MAX))
  then mret EST_ERR_INVALID_PARAMETERS
  else _ ← upd_coap (set_dtls_handshake_timer timeout); mret EST_ERR_NONE.

Definition est_server_set_dtls_handshake_mtu (mtu : Z) : CM EST_ERROR :=
  if negb (mtu =? EST_DTLS_HANDSHAKE_MTU_DEF)
     && ((mtu <? EST_DTLS_HANDSHAKE_MTU_MIN) || (mtu >? EST_DTLS_HANDSHAKE_MTU_MAX))
  then mret EST_ERR_INVALID_PARAMETERS
  else _ ← upd_coap (set_dtls_handshake_mtu mtu); mret EST_ERR_NONE.

Definition est_server_set_dtls_session_max (session_max : Z) : CM EST_ERROR :=
  s ← get_coap;
  if negb (coap_server_port_num s =? 0) then mret EST_ERR_SERVER_ALREADY_OPERATIONAL
  else if (session_max <? EST_DTLS_SESSION_MAX_MIN) || (session_max >? EST_DTLS_SESSION_MAX_MAX)
  then mret EST_ERR_INVALID_PARAMETERS
  else
    _ ← upd_coap (set_dtls_session_max session_max);
    est_coap_init_req_array (Z.to_nat session_max).

(** [coap_ctx]: did [est_server_coap_get_context] obtain a context from libcoap? *)
Definition est_server_coap_init_start (coap_ctx : bool) (port : Z) : CM EST_ERROR :=
  ctx ← lift get_ctx;
  if negb (bool_decide (est_mode ctx = EST_SERVER)) && negb (bool_decide (est_mode ctx = EST_PROXY))
  then mret EST_ERR_BAD_MODE
  else if (port <? 0) || (port >? 65535) then mret EST_ERR_INVALID_PORT_NUM
  else
    _ ← upd_coap (set_coap_server_port_num port);
    if negb coap_ctx then mret EST_ERR_COAP_PROCESSING_ERROR
    else
      _ ← lift (upd_ctx (fun c => set_require_http_auth HTTP_AUTH_NOT_REQUIRED
                                    (set_transport_mode EST_COAP c)));
      mret EST_ERR_NONE.

Definition est_proxy_coap_init_start (coap_ctx : bool) (port : Z) : CM EST_ERROR :=
  ctx ← lift get_ctx;
  if bool_decide (est_mode ctx = EST_PROXY) then est_server_coap_init_start coap_ctx port
  else mret EST_ERR_BAD_MODE.

(** ** DTLS *)

(** What libcoap is told of the verification of its peers. *)
Record coap_dtls_pki_t := {
  verify_peer_cert : bool;
  require_peer_cert : bool;
  allow_self_signed : bool;
  allow_expired_certs : bool;
  cert_chain_validation : bool;
  cert_chain_verify_depth : Z;
  check_cert_revocation : bool;
  allow_no_crl : bool;
  allow_expired_crl : bool;
  has_dtls_timer_call_back : bool;
  pki_dtls_handshake_mtu : Z
}.

Definition est_server_coap_set_pki_identity (ectx : EST_COAP_CTX) : coap_dtls_pki_t :=
  Build_coap_dtls_pki_t true true false false true 7 true true true
    (negb (dtls_handshake_timer ectx =? 0))
    (if negb (dtls_handshake_mtu ectx =? 0) then dtls_handshake_mtu ectx else 0).

(** The timeout of a handshake, in microseconds: doubled and bounded. *)
Definition est_coap_dtls_timer_callback (ectx : EST_COAP_CTX) (incoming_timer_val : Z) : Z :=
  let ret_timer_val :=
    if incoming_timer_val =? 0 then dtls_handshake_timer ectx * 1000 * 1000
    else wrap_s 32 (wrap_u 32 (2 * incoming_timer_val)) in
  wrap_u 32 (if ret_timer_val >? 60000000 then 60000000 else ret_timer_val).

End Config.
