(* ===== verification/ParseDate.v ===== *)
(** * ParseDate: the dates of Retry-After (est_client_http.c, parsedate)

    In a build with RETRY_AFTER_DELAY_TIME_SUPPORT the client reads the three formats of
    RFC 2616, section 3.3.1, with a parser that the source takes from cURL. A date is
    read in at most six parts (names, numbers and times); each part fills a field of
    [date_state], in which -1 stands for what was not seen yet.

    The text is memory: [l] is what lies from the pointer on, [prev] the byte before it.
    A pointer moved past the end of the memory is not read: the result is [None], which
    stands for undefined behaviour.

    [my_timegm] counts the days of the calendar, and the three formats of RFC 2616 are
    read back as the time they were written for. *)

From S2P Require Import Prelude.
From S2P Require Import SafeC.
From S2P Require Import ClientHost.
From S2P Require Import ClientHttp.
From S2P Require Import Calendar.

(** ** Names *)

Definition Curl_wkday : list bytes := map lit ["Mon"; "Tue"; "Wed"; "Thu"; "Fri"; "Sat"; "Sun"]%string.
Definition weekday : list bytes :=
  map lit ["Monday"; "Tuesday"; "Wednesday"; "Thursday"; "Friday"; "Saturday"; "Sunday"]%string.
Definition Curl_month : list bytes :=
  map lit ["Jan"; "Feb"; "Mar"; "Apr"; "May"; "Jun"; "Jul"; "Aug"; "Sep"; "Oct"; "Nov"; "Dec"]%string.

Definition tDAYZONE : Z := -60.

(** The offsets are in minutes. *)
Definition tz : list (string * Z) :=
  [("GMT", 0); ("UTC", 0); ("WET", 0); ("BST", 0 + tDAYZONE); ("WAT", 60); ("AST", 240);
   ("ADT", 240 + tDAYZONE); ("EST", 300); ("EDT", 300 + tDAYZONE); ("CST", 360);
   ("CDT", 360 + tDAYZONE); ("MST", 420); ("MDT", 420 + tDAYZONE); ("PST", 480);
   ("PDT", 480 + tDAYZONE); ("YST", 540); ("YDT", 540 + tDAYZONE); ("HST", 600);
   ("HDT", 600 + tDAYZONE); ("CAT", 600); ("AHST", 600); ("NT", 660); ("IDLW", 720);
   ("CET", -60); ("MET", -60); ("MEWT", -60); ("MEST", -60 + tDAYZONE);
   ("CEST", -60 + tDAYZONE); ("MESZ", -60 + tDAYZONE); ("FWT", -60); ("FST", -60 + tDAYZONE);
   ("EET", -120); ("WAST", -420); ("WADT", -420 + tDAYZONE); ("CCT", -480); ("JST", -540);
   ("EAST", -600); ("EADT", -600 + tDAYZONE); ("GST", -600); ("NZT", -720); ("NZST", -720);
   ("NZDT", -720 + tDAYZONE); ("IDLE", -720);
   ("A", 1 * 60); ("B", 2 * 60); ("C", 3 * 60); ("D", 4 * 60); ("E", 5 * 60); ("F", 6 * 60);
   ("G", 7 * 60); ("H", 8 * 60); ("I", 9 * 60); ("K", 10 * 60); ("L", 11 * 60); ("M", 12 * 60);
   ("N", -1 * 60); ("O", -2 * 60); ("P", -3 * 60); ("Q", -4 * 60); ("R", -5 * 60);
   ("S", -6 * 60); ("T", -7 * 60); ("U", -8 * 60); ("V", -9 * 60); ("W", -10 * 60);
   ("X", -11 * 60); ("Y", -12 * 60); ("Z", 0)]%string.

(** The loop of the three searches: the position of the first name that is equal. *)
Fixpoint find_name (check : bytes) (what : list bytes) (i : Z) : Z :=
  match what with
  | [] => -1
  | w :: r => if est_client_Curl_raw_equal check w then i else find_name check r (i + 1)
  end.

Definition checkday (check : bytes) (len : Z) : Z :=
  find_name check (if len >? 3 then weekday else Curl_wkday) 0.

Definition checkmonth (check : bytes) : Z := find_name check Curl_month 0.

(** In seconds; -1: no such zone. *)
Definition checktz (check : bytes) : Z :=
  match List.find (fun w => est_client_Curl_raw_equal check (lit (fst w))) tz with
  | Some (_, offset) => offset * 60
  | None => -1
  end.

(** ** Numbers *)

Definition CURL_MASK_SINT : Z := 0x7FFFFFFF.

(** The asserts stop the program. *)
Definition curlx_sltosi (slnum : Z) : option Z :=
  if (slnum <? 0) || (slnum >? CURL_MASK_SINT) then None
  else Some (Z.land slnum CURL_MASK_SINT).

(** The digits at the front, at most [n], their value and the rest. *)
Fixpoint digits (n : nat) (l : bytes) (v : Z) : Z * bytes :=
  match n, l with
  | S n', c :: r => if isdigit c then digits n' r (v * 10 + (c - 48)) else (v, l)
  | _, _ => (v, l)
  end.

Fixpoint skip_space (l : bytes) : bytes :=
  match l with
  | c :: r => if isspace c then skip_space r else l
  | [] => []
  end.

(** [%02d] of [sscanf]: white space, a sign and digits, at most two characters without
    the white space. *)
Definition scan_02d (l : bytes) : option (Z * bytes) :=
  let unsigned n l := match l with
    | c :: _ => if isdigit c then Some (digits n l 0) else None
    | [] => None
    end in
  match skip_space l with
  | c :: r =>
      if c =? chr_dash then
        match unsigned 1%nat r with Some (v, r') => Some (- v, r') | None => None end
      else if c =? chr_plus then unsigned 1%nat r
      else unsigned 2%nat (c :: r)
  | [] => None
  end.

(** [sscanf] with [n] such numbers and a colon between two: the numbers it assigns. *)
Fixpoint scan_time (n : nat) (l : bytes) : list Z :=
  match n with
  | O => []
  | S n' =>
    match scan_02d l with
    | None => []
    | Some (v, r) =>
        v :: match r with
             | c :: r' => if c =? chr_colon then scan_time n' r' else []
             | [] => []
             end
    end
  end.

(** ** The parts of a date *)

Inductive assume := DATE_MDAY | DATE_YEAR | DATE_TIME.

#[global] Instance assume_eq_dec : EqDecision assume.
Proof. solve_decision. Defined.

Definition PARSEDATE_OK : Z := 0.
Definition PARSEDATE_FAIL : Z := -1.
Definition PARSEDATE_LATER : Z := 1.
Definition PARSEDATE_SOONER : Z := 2.

Definition EST_CURL_MAX_NAME_STR : Z := 32.

Record date_state := DateState {
  wdaynum : Z;
  monnum : Z;
  mdaynum : Z;
  hournum : Z;
  minnum : Z;
  secnum : Z;
  yearnum : Z;
  tzoff : Z;
  dignext : assume
}.

Definition date_start : date_state := DateState (-1) (-1) (-1) (-1) (-1) (-1) (-1) (-1) DATE_MDAY.

Definition set_wdaynum v s := DateState v (monnum s) (mdaynum s) (hournum s) (minnum s) (secnum s) (yearnum s) (tzoff s) (dignext s).
Definition set_monnum v s := DateState (wdaynum s) v (mdaynum s) (hournum s) (minnum s) (secnum s) (yearnum s) (tzoff s) (dignext s).
Definition set_mdaynum v s := DateState (wdaynum s) (monnum s) v (hournum s) (minnum s) (secnum s) (yearnum s) (tzoff s) (dignext s).
Definition set_hournum v s := DateState (wdaynum s) (monnum s) (mdaynum s) v (minnum s) (secnum s) (yearnum s) (tzoff s) (dignext s).
Definition set_minnum v s := DateState (wdaynum s) (monnum s) (mdaynum s) (hournum s) v (secnum s) (yearnum s) (tzoff s) (dignext s).
Definition set_secnum v s := DateState (wdaynum s) (monnum s) (mdaynum s) (hournum s) (minnum s) v (yearnum s) (tzoff s) (dignext s).
Definition set_yearnum v s := DateState (wdaynum s) (monnum s) (mdaynum s) (hournum s) (minnum s) (secnum s) v (tzoff s) (dignext s).
Definition set_tzoff v s := DateState (wdaynum s) (monnum s) (mdaynum s) (hournum s) (minnum s) (secnum s) (yearnum s) v (dignext s).
Definition set_dignext v s := DateState (wdaynum s) (monnum s) (mdaynum s) (hournum s) (minnum s) (secnum s) (yearnum s) (tzoff s) v.

(** What a part makes of the state: the new state and how far the pointer moves, or the
    return of PARSEDATE_FAIL. *)
Inductive part_result := PartFail | PartNext (s : date_state) (n : nat).

(** Not a letter, a digit or the end. *)
Definition ISALNUM (c : Z) : bool := isalpha c || isdigit c.

(** The bytes that are skipped; [None]: there is no end. *)
Fixpoint skip_over_white (prev : option Z) (l : bytes) : option (option Z * bytes) :=
  match l with
  | [] => None
  | c :: r => if (c =? 0) || ISALNUM c then Some (prev, l) else skip_over_white (Some c) r
  end.

(** The letters at the front, at most [n]. *)
Fixpoint letters (n : nat) (l : bytes) : bytes :=
  match n, l with
  | S n', c :: r => if isalpha c then c :: letters n' r else []
  | _, _ => []
  end.

(** A name fills the first of the three fields that is free and knows it. *)
Definition date_name (s : date_state) (l : bytes) : part_result :=
  let buf := letters 31 l in
  let len := strnlen_s (Some buf) EST_CURL_MAX_NAME_STR in
  let n := Z.to_nat len in
  let s1 := if wdaynum s =? -1 then set_wdaynum (checkday buf len) s else s in
  if (wdaynum s =? -1) && negb (wdaynum s1 =? -1) then PartNext s1 n else
  let s2 := if monnum s1 =? -1 then set_monnum (checkmonth buf) s1 else s1 in
  if (monnum s1 =? -1) && negb (monnum s2 =? -1) then PartNext s2 n else
  let s3 := if tzoff s2 =? -1 then set_tzoff (checktz buf) s2 else s2 in
  if (tzoff s2 =? -1) && negb (tzoff s3 =? -1) then PartNext s3 n else PartFail.

(** Four digits after a sign: a time zone. *)
Definition number_tz (s : date_state) (prev : option Z) (val : Z) (len : nat) : option date_state :=
  match prev with
  | None => None
  | Some c =>
      if (tzoff s =? -1) && (len =? 4)%nat && (val <=? 1400) && ((c =? chr_plus) || (c =? chr_dash))
      then let off := (val / 100 * 60 + val mod 100) * 60 in
           Some (set_tzoff (if c =? chr_plus then - off else off) s)
      else None
  end.

(** Eight digits: YYYYMMDD. *)
Definition number_date (s : date_state) (val : Z) (len : nat) : option date_state :=
  if (len =? 8)%nat && (yearnum s =? -1) && (monnum s =? -1) && (mdaynum s =? -1)
  then Some (set_mdaynum (val mod 100) (set_monnum (val mod 10000 / 100 - 1)
              (set_yearnum (val / 10000) s)))
  else None.

(** The day of the month, and in any case a year is expected next. *)
Definition number_mday (s : date_state) (val : Z) : date_state * bool :=
  if bool_decide (dignext s = DATE_MDAY) && (mdaynum s =? -1) then
    if (val >? 0) && (val <? 32) then (set_dignext DATE_YEAR (set_mdaynum val s), true)
    else (set_dignext DATE_YEAR s, false)
  else (s, false).

Definition full_year (val : Z) : Z :=
  if val <? 1900 then (if val >? 70 then val + 1900 else val + 2000) else val.

Definition number_year (s : date_state) (val : Z) : option date_state :=
  if bool_decide (dignext s = DATE_YEAR) && (yearnum s =? -1) then
    let s := set_yearnum (full_year val) s in
    Some (if mdaynum s =? -1 then set_dignext DATE_MDAY s else s)
  else None.

(** What a number that is no time says; [None]: undefined. *)
Definition date_number (s : date_state) (prev : option Z) (l : bytes) : option part_result :=
  let '(lval, rest) := digits (length l) l 0 in
  let len := (length l - length rest)%nat in
  if lval >? 2 ^ 63 - 1 then Some PartFail
  else if (lval >? INT_MAX) || (lval <? - INT_MAX - 1) then Some PartFail
  else match curlx_sltosi lval with
  | None => None
  | Some val =>
      let '(s, found) := match number_tz s prev val len with
                         | Some s' => (s', true)
                         | None => (s, false)
                         end in
      let '(s, found) := match number_date s val len with
                         | Some s' => (s', true)
                         | None => (s, found)
                         end in
      if found then Some (PartNext s len) else
      let '(s, found) := number_mday s val in
      if found then Some (PartNext s len) else
      match number_year s val with
      | Some s => Some (PartNext s len)
      | None => Some PartFail
      end
  end.

(** What [sscanf] assigned. *)
Definition assign_time (s : date_state) (v : list Z) : date_state :=
  let s := match v !! 0%nat with Some h => set_hournum h s | None => s end in
  let s := match v !! 1%nat with Some m => set_minnum m s | None => s end in
  match v !! 2%nat with Some x => set_secnum x s | None => s end.

(** A part that starts with a digit.  The pointer moves by the length of a time written
    with two digits everywhere, whatever was read. *)
Definition date_digit (s : date_state) (prev : option Z) (l : bytes) : option part_result :=
  if secnum s =? -1 then
    let v := scan_time 3 l in
    let s := assign_time s v in
    if (length v =? 3)%nat then Some (PartNext s 8) else
    let v := scan_time 2 l in
    let s := assign_time s v in
    if (length v =? 2)%nat then Some (PartNext (set_secnum 0 s) 5) else
    date_number s prev l
  else date_number s prev l.

(** One turn of the loop, after the skip. *)
Definition date_part (s : date_state) (prev : option Z) (l : bytes) : option part_result :=
  match l with
  | [] => None
  | c :: _ => if isalpha c then Some (date_name s l)
              else if isdigit c then date_digit s prev l
              else Some (PartNext s 0)
  end.

(** The pointer after [n] bytes. *)
Definition prev_at (n : nat) (prev : option Z) (l : bytes) : option Z :=
  match n with
  | O => prev
  | S n' => l !! n'
  end.

(** [Some None] is PARSEDATE_FAIL. *)
Fixpoint date_loop (parts : nat) (s : date_state) (prev : option Z) (l : bytes)
    : option (option date_state) :=
  match l with
  | [] => None
  | c :: _ =>
    if c =? 0 then Some (Some s) else
    match parts with
    | O => Some (Some s)
    | S parts' =>
      match skip_over_white prev l with
      | None => None
      | Some (prev, l) =>
        match date_part s prev l with
        | None => None
        | Some PartFail => Some None
        | Some (PartNext s n) => date_loop parts' s (prev_at n prev l) (drop n l)
        end
      end
    end
  end.

(** ** The time *)

Record my_tm := MyTm {
  my_sec : Z;
  my_min : Z;
  my_hour : Z;
  my_mday : Z;
  my_mon : Z;
  my_year : Z
}.

Definition month_days_cumulative : list Z := [0; 31; 59; 90; 120; 151; 181; 212; 243; 273; 304; 334].

(** The fields are those of a date from 1970 on, as [parsedate] makes them: nothing
    overflows, and a division of C rounds down. *)
Definition my_timegm (tm : my_tm) : Z :=
  if my_year tm <? 70 then -1 else
  let year := my_year tm + 1900 in
  let month := my_mon tm in
  let '(year, month) :=
    if month <? 0 then (year + (11 - month) / 12, 11 - (11 - month) mod 12)
    else if month >=? 12 then (year - month / 12, month mod 12)
    else (year, month) in
  let leap_days := year - (if my_mon tm <=? 1 then 1 else 0) in
  let leap_days := leap_days / 4 - leap_days / 100 + leap_days / 400
                   - 1969 / 4 + 1969 / 100 - 1969 / 400 in
  ((((year - 1970) * 365 + leap_days + nth (Z.to_nat month) month_days_cumulative 0
     + my_mday tm - 1) * 24 + my_hour tm) * 60 + my_min tm) * 60 + my_sec tm.

(** After the loop: the result and what is stored, if anything is.  SIZEOF_TIME_T is
    not defined anywhere, so that the test of the preprocessor takes it for 0 and the
    limit of a 32-bit time is compiled in. *)
Definition date_time (s : date_state) : Z * option Z :=
  let s := if secnum s =? -1 then set_hournum 0 (set_minnum 0 (set_secnum 0 s)) else s in
  if (mdaynum s =? -1) || (monnum s =? -1) || (yearnum s =? -1) then (PARSEDATE_FAIL, None)
  else if yearnum s >? 2037 then (PARSEDATE_LATER, Some 0x7fffffff)
  else if yearnum s <? 1970 then (PARSEDATE_SOONER, Some 0)
  else if (mdaynum s >? 31) || (monnum s >? 11) || (hournum s >? 23) || (minnum s >? 59)
          || (secnum s >? 60) then (PARSEDATE_FAIL, None)
  else
    let t := my_timegm (MyTm (secnum s) (minnum s) (hournum s) (mdaynum s) (monnum s)
                          (yearnum s - 1900)) in
    let t := if wrap_s 32 t =? -1 then t else t + (if tzoff s =? -1 then 0 else tzoff s) in
    (PARSEDATE_OK, Some t).

(** [date] is the memory from the pointer on. *)
Definition parsedate (date : bytes) : option (Z * option Z) :=
  match date_loop 6 date_start None date with
  | None => None
  | Some None => Some (PARSEDATE_FAIL, None)
  | Some (Some s) => Some (date_time s)
  end.

Example parsedate_rfc1123 :
  parsedate (lit "Sun, 06 Nov 1994 08:49:37 GMT" ++ [0]) = Some (PARSEDATE_OK, Some 784111777).
Proof. vm_compute. reflexivity. Qed.

Example parsedate_rfc850 :
  parsedate (lit "Sunday, 06-Nov-94 08:49:37 GMT" ++ [0]) = Some (PARSEDATE_OK, Some 784111777).
Proof. vm_compute. reflexivity. Qed.

Example parsedate_asctime :
  parsedate (lit "Sun Nov  6 08:49:37 1994" ++ [0]) = Some (PARSEDATE_OK, Some 784111777).
Proof. vm_compute. reflexivity. Qed.

(** A time with a single digit at the end of the memory is read past its end. *)
Example parsedate_overread : parsedate (lit "6 Nov 1994 8:49:37" ++ [0]) = None.
Proof. vm_compute. reflexivity. Qed.

(** Negative minutes and the day 0 pass. *)
Example parsedate_negative :
  parsedate (lit "1 Jan 2000 08:-4:00" ++ [0]) = Some (PARSEDATE_OK, Some (946713600 - 240)) /\
  parsedate (lit "20000100" ++ [0]) = Some (PARSEDATE_OK, Some (946684800 - 86400)).
Proof. vm_compute. split; reflexivity. Qed.

(** ** The time of a date *)

Lemma leap_step y : leaps y - leaps (y - 1) = if is_leap y then 1 else 0.
Proof. pose proof (year_days_leaps y) as H. unfold year_days in H. destruct (is_leap y); lia. Qed.

Lemma my_timegm_days sec min hour mday mon year :
  70 <= year -> 0 <= mon < 12 ->
  my_timegm (MyTm sec min hour mday mon year) =
    ((days_from_1970 (year + 1900) mon mday * 24 + hour) * 60 + min) * 60 + sec.
Proof.
  intros Hy Hm. unfold my_timegm, days_from_1970. cbn [my_year my_mon my_mday my_hour my_min my_sec].
  rewrite (proj2 (Z.ltb_ge year 70)), (proj2 (Z.ltb_ge mon 0)) by lia.
  rewrite Z.geb_leb, (proj2 (Z.leb_gt 12 mon)) by lia.
  rewrite years_days_leaps, Z2Nat.id by lia.
  replace (1970 + (year + 1900 - 1970) - 1) with (year + 1900 - 1) by lia.
  rewrite months_days_table by lia. pose proof (leap_step (year + 1900)) as Hleap.
  change (leaps (1970 - 1)) with (1969 / 4 - 1969 / 100 + 1969 / 400).
  assert (Ht : nth (Z.to_nat mon) month_days_cumulative 0 = nth (Z.to_nat mon) month_table 0).
  { assert (Hn : (Z.to_nat mon < 12)%nat) by lia. revert Hn. generalize (Z.to_nat mon) as n. intros n Hn.
    do 12 (destruct n as [|n]; [done|]). lia. }
  rewrite Ht, Z2Nat.id by lia. set (table := nth (Z.to_nat mon) month_table 0). clearbody table. clear Ht.
  assert (Hl : leaps (year + 1900 - (if mon <=? 1 then 1 else 0)) =
               leaps (year + 1900 - 1) + (if is_leap (year + 1900) && (1 <? mon) then 1 else 0)).
  { destruct (Z.leb_spec mon 1).
    - rewrite (proj2 (Z.ltb_ge 1 mon)), andb_false_r by lia. lia.
    - rewrite (proj2 (Z.ltb_lt 1 mon)), andb_true_r, Z.sub_0_r by lia. lia. }
  unfold leaps in Hl at 1. lia.
Qed.

(** The conversion of a date to a time, which the source does with a table and a leap
    year formula, counts the days of the Gregorian calendar: for every year from 1970 on
    and every month, the result is the number of the days that come before the date,
    year by year and month by month, and the time of that day. *)
Theorem my_timegm_counts sec min hour mday mon year :
  70 <= year -> 0 <= mon < 12 ->
  my_timegm (MyTm sec min hour mday mon year) =
    ((days_from_1970 (year + 1900) mon mday * 24 + hour) * 60 + min) * 60 + sec.
Proof. apply my_timegm_days. Qed.

(** ** Texts of dates *)

Lemma letters_name w c r : forallb isalpha w = true -> isalpha c = false -> forall n, (length w < n)%nat ->
  letters n (w ++ c :: r) = w.
Proof.
  intros Hw Hc. induction w as [|d w IH]; intros [|n] Hn; cbn [length] in Hn; try lia; cbn [letters app].
  - by rewrite Hc.
  - cbn [forallb] in Hw. apply andb_true_iff in Hw as [-> Hw]. f_equal. apply IH; [done|lia].
Qed.

(** A part that is a name. *)
Lemma part_name s prev w c r : forallb isalpha w = true -> isalpha c = false -> w <> [] -> (length w < 31)%nat ->
  date_part s prev (w ++ c :: r) = Some (date_name s (w ++ c :: r)).
Proof.
  intros Hw Hc Hne _. destruct w as [|d w]; [done|]. cbn [forallb] in Hw.
  apply andb_true_iff in Hw as [Hd _]. cbn [date_part app]. by rewrite Hd.
Qed.

Lemma name_text w c r : forallb isalpha w = true -> isalpha c = false -> (length w < 31)%nat ->
  letters 31 (w ++ c :: r) = w.
Proof. intros Hw Hc Hl. by apply letters_name. Qed.

(** A name of the tables is such a text. *)
Ltac name_side := first [assumption | reflexivity | discriminate | vm_compute; lia].

(** The weekdays, short and long. *)
Lemma part_wkday w : In w (Curl_wkday ++ weekday) ->
  exists i, i <> -1 /\ forall prev c r, isalpha c = false ->
    date_part date_start prev (w ++ c :: r) = Some (PartNext (set_wdaynum i date_start) (length w)).
Proof.
  intros Hin. cbn [Curl_wkday weekday map app In] in Hin.
  repeat destruct Hin as [<-|Hin]; try done;
    (eexists; split; [|intros prev c r Hc;
      rewrite part_name by name_side; unfold date_name; rewrite name_text by name_side;
      vm_compute; reflexivity]); done.
Qed.

Lemma part_month m s prev c r : 0 <= m < 12 -> wdaynum s <> -1 -> monnum s = -1 -> isalpha c = false ->
  date_part s prev (nth (Z.to_nat m) Curl_month [] ++ c :: r) = Some (PartNext (set_monnum m s) 3).
Proof.
  intros Hm Hw Hmon Hc.
  assert (Hn : exists n, (n < 12)%nat /\ m = Z.of_nat n) by (exists (Z.to_nat m); lia).
  destruct Hn as (n & Hn & ->). rewrite Nat2Z.id. clear Hm.
  do 12 (destruct n as [|n];
    [rewrite part_name by name_side; unfold date_name; rewrite name_text by name_side;
     rewrite (proj2 (Z.eqb_neq _ _)) by done; rewrite Hmon; reflexivity|]). lia.
Qed.

Lemma part_gmt s prev c r : wdaynum s <> -1 -> monnum s <> -1 -> tzoff s = -1 -> isalpha c = false ->
  date_part s prev (lit "GMT" ++ c :: r) = Some (PartNext (set_tzoff 0 s) 3).
Proof.
  intros Hw Hmon Htz Hc. rewrite part_name by name_side. unfold date_name. rewrite name_text by name_side.
  rewrite (proj2 (Z.eqb_neq (wdaynum s) _)) by done. cbn [andb].
  rewrite (proj2 (Z.eqb_neq (monnum s) _)) by done. cbn [andb]. rewrite Htz. reflexivity.
Qed.

(** *** Numbers *)

Definition digit (d : Z) : Prop := 0 <= d < 10.
Abbreviation text := (map (Z.add 48)).
Definition value (ds : list Z) : Z := fold_left (fun v d => v * 10 + d) ds 0.

Lemma digit_isdigit d : digit d -> isdigit (48 + d) = true.
Proof. intros [? ?]. unfold isdigit. apply andb_true_iff. split; apply Z.leb_le; lia. Qed.

Lemma digit_other d : digit d -> isalpha (48 + d) = false /\ isspace (48 + d) = false /\
  (48 + d =? chr_dash) = false /\ (48 + d =? chr_plus) = false /\ (48 + d =? chr_colon) = false.
Proof.
  intros [? ?]. unfold isalpha, isupper, islower, isspace, chr_dash, chr_plus, chr_colon.
  rewrite (proj2 (Z.leb_gt 65 (48 + d))), (proj2 (Z.leb_gt 97 (48 + d))), (proj2 (Z.leb_gt (48 + d) 13)) by lia.
  rewrite andb_false_r. cbn [andb orb]. split_and!; try done; apply Z.eqb_neq; lia.
Qed.

Lemma digits_text ds c r : Forall digit ds -> isdigit c = false -> forall n v, (length ds <= n)%nat ->
  digits n (text ds ++ c :: r) v = (fold_left (fun v d => v * 10 + d) ds v, c :: r).
Proof.
  intros Hds Hc. induction Hds as [|d ds Hd Hds IH]; intros n v Hn; cbn [length map app fold_left] in *.
  - destruct n; cbn [digits]; [done|]. by rewrite Hc.
  - destruct n as [|n]; [lia|]. cbn [digits]. rewrite digit_isdigit by done.
    replace (48 + d - 48) with d by lia. apply IH. lia.
Qed.

(** Two digits are read whatever follows; fewer when no digit follows. *)
Lemma scan_digits ds r : Forall digit ds -> ds <> [] -> (length ds <= 2)%nat ->
  (length ds = 2%nat \/ exists c r', r = c :: r' /\ isdigit c = false) ->
  scan_02d (text ds ++ r) = Some (value ds, r).
Proof.
  intros Hds Hne Hl Hr. destruct ds as [|a ds]; [done|]. apply Forall_cons_1 in Hds as [Ha Hds].
  destruct (digit_other a Ha) as (_ & Hs & Hm & Hp & _). pose proof (digit_isdigit a Ha) as Hi.
  unfold scan_02d. cbn [map app skip_space]. rewrite Hs, Hm, Hp, Hi.
  destruct ds as [|b [|? ?]]; [| |cbn in Hl; lia].
  - destruct Hr as [Hr|(c & r' & -> & Hc)]; [done|]. cbn [map app digits]. rewrite Hi, Hc.
    unfold value. cbn [fold_left]. do 2 f_equal. lia.
  - apply Forall_cons_1 in Hds as [Hb _]. pose proof (digit_isdigit b Hb) as Hj.
    cbn [map app digits]. rewrite Hi, Hj. unfold value. cbn [fold_left]. do 2 f_equal. lia.
Qed.

(** A number that no colon follows is no time. *)
Lemma scan_time_number n ds c r : Forall digit ds -> ds <> [] -> isdigit c = false -> c <> chr_colon ->
  scan_time (S n) (text ds ++ c :: r) = [value (take 2 ds)].
Proof.
  intros Hds Hne Hc Hcol. cbn [scan_time].
  destruct (Nat.le_gt_cases (length ds) 2) as [Hle|Hgt].
  - rewrite take_ge by lia. rewrite scan_digits; [|done..|by right; exists c, r].
    by rewrite (proj2 (Z.eqb_neq c chr_colon)).
  - destruct ds as [|a [|b [|d ds]]]; cbn [length] in Hgt; try lia.
    apply Forall_cons_1 in Hds as [Ha Hds]. apply Forall_cons_1 in Hds as [Hb Hds].
    apply Forall_cons_1 in Hds as [Hd _].
    change (text (a :: b :: d :: ds) ++ c :: r) with (text [a; b] ++ (48 + d) :: text ds ++ c :: r).
    rewrite scan_digits; [|by eauto using Forall_cons_2|done|done|by left].
    by destruct (digit_other d Hd) as (_ & _ & _ & _ & ->).
Qed.

Lemma part_digit s prev d ds r : digit d -> date_part s prev (text (d :: ds) ++ r) = date_digit s prev (text (d :: ds) ++ r).
Proof.
  intros Hd. unfold date_part. cbn [map app]. by rewrite (proj1 (digit_other d Hd)), digit_isdigit.
Qed.

(** The state after a failed attempt to read a time. *)
Definition tried_time (s : date_state) (ds : list Z) : date_state :=
  if secnum s =? -1 then set_hournum (value (take 2 ds)) s else s.

Lemma part_number s prev ds c r : Forall digit ds -> ds <> [] -> isdigit c = false -> c <> chr_colon ->
  date_part s prev (text ds ++ c :: r) = date_number (tried_time s ds) prev (text ds ++ c :: r).
Proof.
  intros Hds Hne Hc Hcol. destruct ds as [|d ds]; [done|].
  rewrite part_digit by (by apply Forall_cons_1 in Hds as [? _]).
  unfold date_digit, tried_time. destruct (secnum s =? -1); [|done].
  rewrite !scan_time_number by done. cbn [length Nat.eqb assign_time lookup list_lookup]. by destruct s.
Qed.

Lemma date_number_text s prev ds c r : Forall digit ds -> isdigit c = false -> 0 <= value ds <= INT_MAX ->
  date_number s prev (text ds ++ c :: r) =
    let len := length ds in let val := value ds in
    let '(s, found) := match number_tz s prev val len with Some s' => (s', true) | None => (s, false) end in
    let '(s, found) := match number_date s val len with Some s' => (s', true) | None => (s, found) end in
    if found then Some (PartNext s len) else
    let '(s, found) := number_mday s val in
    if found then Some (PartNext s len) else
    match number_year s val with
    | Some s => Some (PartNext s len)
    | None => Some PartFail
    end.
Proof.
  intros Hds Hc Hv. unfold date_number.
  rewrite digits_text by (rewrite ?length_app, ?length_map; done || lia). fold (value ds).
  replace (length (text ds ++ c :: r) - length (c :: r))%nat with (length ds)
    by (rewrite length_app, length_map; cbn [length]; lia).
  unfold INT_MAX in *. rewrite !Z.gtb_ltb, !(proj2 (Z.ltb_ge _ _)) by lia. cbn [orb].
  unfold curlx_sltosi. rewrite (proj2 (Z.ltb_ge (value ds) 0)), Z.gtb_ltb by lia.
  unfold CURL_MASK_SINT. rewrite (proj2 (Z.ltb_ge 0x7FFFFFFF (value ds))) by lia. cbn [orb].
  change 0x7FFFFFFF with (Z.ones 31). rewrite Z.land_ones, Z.mod_small by lia. reflexivity.
Qed.

Lemma number_tz_none s prev v n : n <> 4%nat \/ 1400 < v -> number_tz s prev v n = None.
Proof.
  intros H. unfold number_tz. destruct prev as [p|]; [|done]. destruct H as [H|H].
  - rewrite (proj2 (Nat.eqb_neq n 4)) by done. by rewrite andb_false_r.
  - rewrite (proj2 (Z.leb_gt v 1400)) by done. by rewrite andb_false_r.
Qed.

Lemma part_mday s prev ds c r : Forall digit ds -> ds <> [] -> (length ds <= 2)%nat -> 1 <= value ds <= 31 ->
  isdigit c = false -> c <> chr_colon -> secnum s = -1 -> mdaynum s = -1 -> dignext s = DATE_MDAY ->
  date_part s prev (text ds ++ c :: r) =
    Some (PartNext (set_dignext DATE_YEAR (set_mdaynum (value ds) (set_hournum (value ds) s))) (length ds)).
Proof.
  intros Hds Hne Hl Hv Hc Hcol Hsec Hmd Hdn.
  rewrite part_number, date_number_text by (done || unfold INT_MAX; lia). cbv zeta.
  unfold tried_time. rewrite Hsec, Z.eqb_refl, take_ge by lia.
  rewrite number_tz_none by lia. unfold number_date. rewrite (proj2 (Nat.eqb_neq (length ds) 8)) by lia. cbn [andb].
  unfold number_mday, set_hournum. cbn [mdaynum dignext]. rewrite Hmd, Hdn, bool_decide_eq_true_2 by done.
  rewrite Z.eqb_refl, Z.gtb_ltb, (proj2 (Z.ltb_lt 0 (value ds))), (proj2 (Z.ltb_lt (value ds) 32)) by lia.
  cbn [andb]. done.
Qed.

Lemma part_year s prev ds c r : Forall digit ds -> (length ds = 2%nat \/ length ds = 4%nat /\ 1400 < value ds) ->
  0 <= value ds <= INT_MAX -> isdigit c = false -> c <> chr_colon ->
  mdaynum s <> -1 -> yearnum s = -1 -> dignext s = DATE_YEAR ->
  date_part s prev (text ds ++ c :: r) =
    Some (PartNext (set_yearnum (full_year (value ds)) (tried_time s ds)) (length ds)).
Proof.
  intros Hds Hl Hv Hc Hcol Hmd Hy Hdn.
  rewrite part_number, date_number_text by (done || (intros ->; cbn in Hl; lia)). cbv zeta.
  set (s' := tried_time s ds).
  assert (Hs : mdaynum s' = mdaynum s /\ yearnum s' = yearnum s /\ dignext s' = dignext s)
    by (unfold s', tried_time; by destruct (secnum s =? -1)).
  destruct Hs as (Hmd' & Hy' & Hdn'). clearbody s'.
  rewrite number_tz_none by lia.
  unfold number_date. rewrite (proj2 (Nat.eqb_neq (length ds) 8)) by lia. cbn [andb].
  unfold number_mday. rewrite Hmd', (proj2 (Z.eqb_neq (mdaynum s) _)), andb_false_r by done.
  unfold number_year. rewrite Hy', Hdn', Hdn, Hy, bool_decide_eq_true_2 by done. cbn [andb].
  rewrite Z.eqb_refl. cbn [mdaynum set_yearnum]. by rewrite Hmd', (proj2 (Z.eqb_neq (mdaynum s) _)).
Qed.

(** *** Times *)

Lemma fmt_02d_text v : fmt_02d v = text [v / 10; v mod 10].
Proof. done. Qed.

Lemma two_digits v : 0 <= v < 100 -> Forall digit [v / 10; v mod 10] /\ value [v / 10; v mod 10] = v.
Proof.
  intros Hv. pose proof (Z.mod_pos_bound v 10 ltac:(lia)). pose proof (Z.div_mod v 10 ltac:(lia)).
  assert (0 <= v / 10 < 10) by (split; [apply Z.div_pos; lia|apply Z.div_lt_upper_bound; lia]).
  split; [|unfold value; cbn [fold_left]; lia].
  by apply Forall_cons_2; [|apply Forall_cons_2].
Qed.

Lemma scan_two v r : 0 <= v < 100 -> scan_02d (fmt_02d v ++ r) = Some (v, r).
Proof.
  intros Hv. destruct (two_digits v Hv) as [Hds Hval]. rewrite fmt_02d_text.
  rewrite scan_digits; [by rewrite Hval|done|done|done|by left].
Qed.

Definition time_text (h m x : Z) : bytes := fmt_02d h ++ lit ":" ++ fmt_02d m ++ lit ":" ++ fmt_02d x.

Lemma part_time s prev h m x r : secnum s = -1 -> 0 <= h < 100 -> 0 <= m < 100 -> 0 <= x < 100 ->
  date_part s prev (time_text h m x ++ r) = Some (PartNext (set_secnum x (set_minnum m (set_hournum h s))) 8).
Proof.
  intros Hs Hh Hm Hx. unfold time_text. rewrite <- !app_assoc.
  assert (Hscan : scan_time 3 (fmt_02d h ++ lit ":" ++ fmt_02d m ++ lit ":" ++ fmt_02d x ++ r) = [h; m; x]).
  { cbn [scan_time]. rewrite scan_two by done. cbn [lit app]. rewrite Z.eqb_refl.
    rewrite scan_two by done. cbn [lit app]. rewrite Z.eqb_refl. rewrite scan_two by done.
    do 3 f_equal. destruct r as [|c r]; [done|]. by destruct (c =? chr_colon). }
  rewrite fmt_02d_text in Hscan |- *. destruct (two_digits h Hh) as [Hds _].
  rewrite part_digit by (by apply Forall_cons_1 in Hds as [? _]).
  unfold date_digit. rewrite Hs, Z.eqb_refl. rewrite Hscan. done.
Qed.

(** *** The loop *)

(** What is skipped between two parts. *)
Definition white (ws : bytes) : Prop := forallb (fun c => negb (c =? 0) && negb (ISALNUM c)) ws = true.

Lemma skip_white ws a r : white ws -> ISALNUM a = true -> forall prev,
  exists prev', skip_over_white prev (ws ++ a :: r) = Some (prev', a :: r).
Proof.
  intros Hws Ha. induction ws as [|c ws IH]; intros prev; cbn [app skip_over_white].
  - rewrite Ha, orb_true_r. by exists prev.
  - unfold white in Hws. cbn [forallb] in Hws. apply andb_true_iff in Hws as [Hc Hws].
    apply andb_true_iff in Hc as [H0 Hn]. apply negb_true_iff in H0, Hn. rewrite H0, Hn. by apply IH.
Qed.

Lemma alnum_nonzero a : ISALNUM a = true -> (a =? 0) = false.
Proof. intros H. destruct (Z.eqb_spec a 0) as [->|]; [by vm_compute in H|done]. Qed.

(** One part of the text. *)
Lemma loop_part k s ws tok rest s' : white ws -> ISALNUM (hd 0 tok) = true ->
  (forall p, date_part s p (tok ++ rest) = Some (PartNext s' (length tok))) ->
  forall prev, exists prev', date_loop (S k) s prev (ws ++ tok ++ rest) = date_loop k s' prev' rest.
Proof.
  intros Hws Ha Hp prev. destruct tok as [|a tok]; [done|]. cbn [hd] in Ha.
  destruct (skip_white ws a (tok ++ rest) Hws Ha prev) as (p & Hskip).
  exists (prev_at (length (a :: tok)) p ((a :: tok) ++ rest)).
  assert (Hloop : exists c r, ws ++ (a :: tok) ++ rest = c :: r /\ (c =? 0) = false).
  { destruct ws as [|c ws]; [by eexists a, _; split; [|apply alnum_nonzero]|]. eexists c, _. split; [done|].
    unfold white in Hws. cbn [forallb] in Hws. apply andb_true_iff in Hws as [Hc _].
    apply andb_true_iff in Hc as [H0 _]. by apply negb_true_iff. }
  destruct Hloop as (c & r & E & Hc). cbn [app] in E, Hskip, Hp |- *. rewrite E in *. cbn [date_loop]. rewrite Hc, Hskip, Hp.
  f_equal. cbn [length drop]. by rewrite drop_app_length.
Qed.

Lemma loop_end k s prev rest : date_loop k s prev (0 :: rest) = Some (Some s).
Proof. by destruct k. Qed.

(** *** The three formats *)

Definition month_name (x : tm) : bytes := nth (Z.to_nat (tm_mon x)) Curl_month [].
Definition clock (x : tm) : bytes := time_text (tm_hour x) (tm_min x) (tm_sec x).

(** A number below 100, padded with a space. *)
Definition fmt_2d (n : Z) : bytes := if n <? 10 then [chr_space; 48 + n] else fmt_02d n.

Definition rfc1123_date (wd : bytes) (x : tm) : bytes :=
  wd ++ lit ", " ++ fmt_02d (tm_mday x) ++ lit " " ++ month_name x ++ lit " " ++ fmt_d (tm_year x + 1900)
  ++ lit " " ++ clock x ++ lit " GMT".

Definition rfc850_date (wd : bytes) (x : tm) : bytes :=
  wd ++ lit ", " ++ fmt_02d (tm_mday x) ++ lit "-" ++ month_name x ++ lit "-" ++ fmt_02d (tm_year x mod 100)
  ++ lit " " ++ clock x ++ lit " GMT".

Definition asctime_date (wd : bytes) (x : tm) : bytes :=
  wd ++ lit " " ++ month_name x ++ lit " " ++ fmt_2d (tm_mday x) ++ lit " " ++ clock x ++ lit " "
  ++ fmt_d (tm_year x + 1900).

(** Four digits of a year. *)
Lemma year_text y : 1970 <= y <= 2037 ->
  exists ds, fmt_d y = text ds /\ Forall digit ds /\ length ds = 4%nat /\ value ds = y.
Proof.
  intros Hy. assert (Hn : exists n, (n < 68)%nat /\ y = 1970 + Z.of_nat n) by (exists (Z.to_nat (y - 1970)); lia).
  destruct Hn as (n & Hn & ->).
  exists (map (fun c => c - 48) (fmt_d (1970 + Z.of_nat n))).
  assert (H : forall n, (n < 68)%nat -> let l := fmt_d (1970 + Z.of_nat n) in
    bool_decide (l = text (map (fun c => c - 48) l)) && forallb isdigit l && (length l =? 4)%nat
    && (value (map (fun c => c - 48) l) =? 1970 + Z.of_nat n) = true).
  { clear. intros n Hn. do 68 (destruct n as [|n]; [vm_compute; reflexivity|]). lia. }
  specialize (H n Hn). cbv zeta in H. b2p. split; [done|]. split; [|split; [by rewrite length_map|done]].
  apply List.Forall_forall. intros d Hd. apply in_map_iff in Hd as (c & <- & Hc).
  assert (Hall : forall x, In x (fmt_d (1970 + Z.of_nat n)) -> isdigit x = true) by (by apply forallb_forall).
  specialize (Hall c Hc). unfold isdigit in Hall. unfold digit. b2p. lia.
Qed.

(** The loop after one more part. *)
Lemma loop_next k s ws tok rest s' n prev R : white ws -> ISALNUM (hd 0 tok) = true -> n = length tok ->
  (forall p, date_part s p (tok ++ rest) = Some (PartNext s' n)) ->
  (forall p, date_loop k s' p rest = R) -> date_loop (S k) s prev (ws ++ tok ++ rest) = R.
Proof. intros Hws Ha -> Hp Hk. by destruct (loop_part k s ws tok rest s' Hws Ha Hp prev) as [p ->]. Qed.

Lemma hd_digits ds : Forall digit ds -> ds <> [] -> ISALNUM (hd 0 (text ds)) = true.
Proof.
  intros Hds Hne. destruct ds as [|d ds]; [done|]. apply Forall_cons_1 in Hds as [Hd _].
  unfold ISALNUM. cbn [map hd]. by rewrite digit_isdigit, orb_true_r.
Qed.

Lemma hd_two v : 0 <= v < 100 -> ISALNUM (hd 0 (fmt_02d v)) = true.
Proof. intros Hv. destruct (two_digits v Hv) as [Hds _]. rewrite fmt_02d_text. by apply hd_digits. Qed.

Lemma hd_wkday wd : In wd (Curl_wkday ++ weekday) -> ISALNUM (hd 0 wd) = true.
Proof. cbn [Curl_wkday weekday map app In]. intros Hin. repeat destruct Hin as [<-|Hin]; done. Qed.

Lemma month_name_facts m : 0 <= m < 12 ->
  ISALNUM (hd 0 (nth (Z.to_nat m) Curl_month [])) = true /\ length (nth (Z.to_nat m) Curl_month []) = 3%nat.
Proof.
  intros Hm. assert (Hn : (Z.to_nat m < 12)%nat) by lia. revert Hn. generalize (Z.to_nat m). clear. intros n Hn.
  do 12 (destruct n as [|n]; [by split|]). lia.
Qed.

(** The text of a date is cut at its separators. *)
Ltac cut_date :=
  rewrite <- ?app_assoc;
  change (lit ", ") with [44; 32]; change (lit " GMT") with ([32] ++ lit "GMT");
  change (lit " ") with [32]; change (lit "-") with [45].

(** What the loop leaves for a date. *)
Definition date_read (i : Z) (x : tm) (tzone : Z) : date_state :=
  DateState i (tm_mon x) (tm_mday x) (tm_hour x) (tm_min x) (tm_sec x) (tm_year x + 1900) tzone DATE_YEAR.

Section Formats.
Variable wd : bytes.
Hypothesis Hwd : In wd (Curl_wkday ++ weekday).
Variable x : tm.
Hypothesis Hx : calendar_date x.
Hypothesis Hyear : tm_year x <= 137.
Variable rest : bytes.

Lemma mday_facts : 1 <= tm_mday x <= 31.
Proof. pose proof (cd_mday _ Hx). pose proof (month_days_bounds (tm_year x + 1900) (tm_mon x)). lia. Qed.

Lemma mday_two : Forall digit [tm_mday x / 10; tm_mday x mod 10] /\
  value [tm_mday x / 10; tm_mday x mod 10] = tm_mday x.
Proof. pose proof mday_facts. apply two_digits. lia. Qed.

Lemma clock_facts : tm_hour x < 100 /\ tm_min x < 100 /\ tm_sec x < 100 /\ 0 <= tm_hour x /\ 0 <= tm_min x /\ 0 <= tm_sec x.
Proof. destruct Hx as [_ _ _ ? ? ?]. lia. Qed.

Lemma hd_clock : ISALNUM (hd 0 (clock x)) = true.
Proof. pose proof clock_facts. unfold clock, time_text. apply (hd_two (tm_hour x)). lia. Qed.

(** The last parts of two formats: the time and the zone. *)
Lemma read_clock_gmt k s prev : secnum s = -1 -> wdaynum s <> -1 -> monnum s <> -1 -> tzoff s = -1 ->
  date_loop (S (S k)) s prev ([32] ++ clock x ++ [32] ++ lit "GMT" ++ 0 :: rest) =
    Some (Some (set_tzoff 0 (set_secnum (tm_sec x) (set_minnum (tm_min x) (set_hournum (tm_hour x) s))))).
Proof.
  intros Hs Hw Hm Htz. pose proof clock_facts as Hc.
  eapply loop_next; [reflexivity|apply hd_clock|reflexivity|intros p; apply part_time; lia|intros p1].
  eapply loop_next; [reflexivity|reflexivity|reflexivity|intros p; apply part_gmt; done|intros p2].
  apply loop_end.
Qed.

Lemma read_rfc1123 : exists i,
  date_loop 6 date_start None (rfc1123_date wd x ++ 0 :: rest) = Some (Some (date_read i x 0)).
Proof.
  destruct (part_wkday wd Hwd) as (i & Hi & Hp). exists i. unfold rfc1123_date. cut_date.
  destruct (year_text (tm_year x + 1900)) as (ds & -> & Hds & Hl & Hv); [pose proof (cd_year _ Hx); lia|].
  pose proof (cd_year _ Hx) as Hyr. pose proof mday_facts as Hmd. destruct mday_two as [Hd2 Hv2]. pose proof (cd_mon _ Hx) as Hmon.
  destruct (month_name_facts (tm_mon x) Hmon) as [Hh3 Hl3].
  eapply (loop_next _ _ []); [reflexivity|by apply hd_wkday|reflexivity|intros p; by apply Hp|intros p1].
  eapply (loop_next _ _ [44; 32]); [reflexivity|apply hd_two; lia|reflexivity| |intros p2].
  { intros p. apply (part_mday _ p [tm_mday x / 10; tm_mday x mod 10] 32); rewrite ?Hv2; done || (cbn; lia). }
  eapply (loop_next _ _ [32]); [reflexivity|exact Hh3|symmetry; exact Hl3|intros p; by apply part_month|intros p3].
  eapply (loop_next _ _ [32]); [reflexivity|by apply hd_digits; [|intros ->]|symmetry; apply length_map| |intros p4].
  { intros p. apply (part_year _ p ds 32); rewrite ?Hv; try done; unfold INT_MAX; try lia. cbn [mdaynum set_monnum set_dignext set_mdaynum]. lia. }
  rewrite read_clock_gmt by (done || (cbn; lia)). f_equal. f_equal.
  unfold date_read, tried_time, full_year. rewrite Hv, Hv2, (proj2 (Z.ltb_ge (tm_year x + 1900) 1900)) by lia.
  reflexivity.
Qed.

Lemma read_rfc850 : 71 <= tm_year x -> exists i,
  date_loop 6 date_start None (rfc850_date wd x ++ 0 :: rest) = Some (Some (date_read i x 0)).
Proof.
  intros Hyr. destruct (part_wkday wd Hwd) as (i & Hi & Hp). exists i. unfold rfc850_date. cut_date.
  destruct (two_digits (tm_year x mod 100)) as [Hdy Hvy]; [apply Z.mod_pos_bound; lia|].
  pose proof mday_facts as Hmd. destruct mday_two as [Hd2 Hv2]. pose proof (cd_mon _ Hx) as Hmon.
  destruct (month_name_facts (tm_mon x) Hmon) as [Hh3 Hl3].
  eapply (loop_next _ _ []); [reflexivity|by apply hd_wkday|reflexivity|intros p; by apply Hp|intros p1].
  eapply (loop_next _ _ [44; 32]); [reflexivity|apply hd_two; lia|reflexivity| |intros p2].
  { intros p. apply (part_mday _ p [tm_mday x / 10; tm_mday x mod 10] 45); rewrite ?Hv2; done || (cbn; lia). }
  eapply (loop_next _ _ [45]); [reflexivity|exact Hh3|symmetry; exact Hl3|intros p; by apply part_month|intros p3].
  assert (Hb : 0 <= tm_year x mod 100 < 100) by (apply Z.mod_pos_bound; lia).
  eapply (loop_next _ _ [45]); [reflexivity|by apply hd_two|reflexivity| |intros p4].
  { intros p. apply (part_year _ p [tm_year x mod 100 / 10; tm_year x mod 100 mod 10] 32); rewrite ?Hvy; try done;
      unfold INT_MAX; try lia; [by left|]. cbn [mdaynum set_monnum set_dignext set_mdaynum]. lia. }
  rewrite read_clock_gmt by (done || (cbn; lia)). f_equal. f_equal.
  unfold date_read, tried_time. rewrite Hvy, Hv2.
  assert (full_year (tm_year x mod 100) = tm_year x + 1900) as ->; [|reflexivity].
  unfold full_year. rewrite (proj2 (Z.ltb_lt _ 1900)), Z.gtb_ltb by lia.
  destruct (Z.lt_ge_cases (tm_year x) 100).
  - rewrite Z.mod_small, (proj2 (Z.ltb_lt 70 (tm_year x))) by lia. lia.
  - assert (tm_year x mod 100 = tm_year x - 100) as ->
      by (symmetry; apply (Z.mod_unique _ _ 1); lia).
    rewrite (proj2 (Z.ltb_ge 70 (tm_year x - 100))) by lia. lia.
Qed.

(** The day of an asctime date, with a space or a digit in front. *)
Lemma asctime_mday : exists ws ds, [32] ++ fmt_2d (tm_mday x) = ws ++ text ds /\ white ws /\
  Forall digit ds /\ ds <> [] /\ (length ds <= 2)%nat /\ value ds = tm_mday x.
Proof.
  pose proof mday_facts as Hmd. unfold fmt_2d. destruct (Z.ltb_spec (tm_mday x) 10).
  - exists [32; 32], [tm_mday x]. split_and!; try done; [|cbn; lia].
    apply Forall_cons_2; [unfold digit; lia|done].
  - destruct mday_two as [Hd2 Hv2]. exists [32], [tm_mday x / 10; tm_mday x mod 10]. by split_and!.
Qed.

Lemma read_asctime : exists i,
  date_loop 6 date_start None (asctime_date wd x ++ 0 :: rest) = Some (Some (date_read i x (-1))).
Proof.
  destruct (part_wkday wd Hwd) as (i & Hi & Hp). exists i. unfold asctime_date. cut_date.
  destruct (year_text (tm_year x + 1900)) as (dy & -> & Hdy & Hl & Hv); [pose proof (cd_year _ Hx); lia|].
  pose proof (cd_year _ Hx) as Hyr. pose proof mday_facts as Hmd. pose proof (cd_mon _ Hx) as Hmon.
  pose proof clock_facts as Hc. destruct asctime_mday as (ws & ds & E & Hws & Hd2 & Hne & Hl2 & Hv2).
  destruct (month_name_facts (tm_mon x) Hmon) as [Hh3 Hl3].
  eapply (loop_next _ _ []); [reflexivity|by apply hd_wkday|reflexivity|intros p; by apply Hp|intros p1].
  eapply (loop_next _ _ [32]); [reflexivity|exact Hh3|symmetry; exact Hl3|intros p; by apply part_month|intros p2].
  rewrite (app_assoc [32] (fmt_2d _)), E, <- app_assoc.
  eapply (loop_next _ _ ws); [done|by apply hd_digits|symmetry; apply length_map| |intros p3].
  { intros p. apply (part_mday _ p ds 32); rewrite ?Hv2; done || (cbn; lia). }
  eapply (loop_next _ _ [32]); [reflexivity|apply hd_clock|reflexivity|intros p; apply part_time; done || lia|intros p4].
  eapply (loop_next _ _ [32]); [reflexivity|by apply hd_digits; [|intros ->]|symmetry; apply length_map| |intros p5].
  { intros p. apply (part_year _ p dy 0); rewrite ?Hv; try done; unfold INT_MAX; try lia.
    cbn [mdaynum set_secnum set_minnum set_hournum set_dignext set_mdaynum]. lia. }
  rewrite loop_end. f_equal. f_equal. unfold date_read, tried_time. cbn [secnum set_secnum set_minnum set_hournum].
  rewrite (proj2 (Z.eqb_neq (tm_sec x) _)) by lia.
  rewrite Hv, Hv2. unfold full_year. rewrite (proj2 (Z.ltb_ge (tm_year x + 1900) 1900)) by lia. reflexivity.
Qed.

(** The time of what was read. *)
Lemma date_time_read i z : z = 0 \/ z = -1 -> date_time (date_read i x z) = (PARSEDATE_OK, Some (counted x)).
Proof.
  intros Hz. pose proof clock_facts as Hc. pose proof mday_facts as Hmd. destruct Hx as [Hyr Hmon _ Hh Hmi Hs].
  unfold date_time, date_read. cbn [secnum]. rewrite (proj2 (Z.eqb_neq (tm_sec x) _)) by lia.
  cbn [mdaynum monnum yearnum hournum minnum secnum tzoff].
  rewrite !(proj2 (Z.eqb_neq _ (-1))) by lia. cbn [orb].
  rewrite !Z.gtb_ltb, !(proj2 (Z.ltb_ge _ _)) by lia. cbn [orb].
  rewrite my_timegm_days by lia. replace (tm_year x + 1900 - 1900) with (tm_year x) by lia.
  fold (counted x). destruct Hz as [-> | ->]; cbn [Z.eqb]; rewrite Z.add_0_r; by destruct (_ =? -1).
Qed.
End Formats.

(** ** Years *)

Lemma years_days_nonneg n : forall y, 0 <= years_days y n.
Proof. induction n as [|n IH]; intros y; cbn [years_days]; [done|]. pose proof (year_days_bounds y). specialize (IH (y + 1)). lia. Qed.

Lemma months_days_mono y n m : months_days y n <= months_days y (n + m).
Proof.
  induction m as [|m IH]; [rewrite Nat.add_0_r; lia|]. rewrite Nat.add_succ_r. cbn [months_days].
  pose proof (month_days_bounds y (Z.of_nat (n + m))). lia.
Qed.

(** The day in the year of a date. *)
Lemma day_of_year x : calendar_date x ->
  0 <= months_days (tm_year x + 1900) (Z.to_nat (tm_mon x)) + (tm_mday x - 1) < year_days (tm_year x + 1900).
Proof.
  intros [Hy Hm Hd _ _ _]. set (y := tm_year x + 1900) in *.
  pose proof (months_days_mono y 0 (Z.to_nat (tm_mon x))) as H0. cbn [Nat.add] in H0. change (months_days y 0) with 0 in H0.
  pose proof (months_days_mono y (S (Z.to_nat (tm_mon x))) (11 - Z.to_nat (tm_mon x))) as H1.
  replace (S (Z.to_nat (tm_mon x)) + (11 - Z.to_nat (tm_mon x)))%nat with 12%nat in H1 by lia.
  rewrite months_days_year in H1. cbn [months_days] in H1. rewrite Z2Nat.id in H1 by lia. lia.
Qed.

Lemma counted_year x y : calendar_date x -> 1970 <= y ->
  (counted x < 86400 * years_days 1970 (Z.to_nat (y - 1970)) <-> tm_year x + 1900 < y).
Proof.
  intros Hx Hy. pose proof (day_of_year x Hx) as Hd. destruct Hx as [Hyr _ _ Hh Hmi Hs].
  unfold counted, days_from_1970. set (yd := months_days _ _) in *. clearbody yd.
  destruct (Z.lt_ge_cases (tm_year x + 1900) y) as [Hlt|Hge]; (split; [|lia || intros _]); [done| |].
  - replace (Z.to_nat (y - 1970)) with (Z.to_nat (tm_year x + 1900 - 1970) + S (Z.to_nat (y - (tm_year x + 1900) - 1)))%nat by lia.
    rewrite years_days_app. cbn [years_days].
    replace (1970 + Z.of_nat (Z.to_nat (tm_year x + 1900 - 1970))) with (tm_year x + 1900) by lia.
    pose proof (years_days_nonneg (Z.to_nat (y - (tm_year x + 1900) - 1)) (tm_year x + 1900 + 1)). lia.
  - replace (Z.to_nat (tm_year x + 1900 - 1970)) with (Z.to_nat (y - 1970) + Z.to_nat (tm_year x + 1900 - y))%nat by lia.
    rewrite years_days_app. pose proof (years_days_nonneg (Z.to_nat (tm_year x + 1900 - y)) (1970 + Z.of_nat (Z.to_nat (y - 1970)))). lia.
Qed.

(** The start of 1971 and of 2038. *)
Definition start_1971 : Z := 31536000.
Definition start_2038 : Z := 2145916800.

(** C22. The dates of HTTP are read back: a time from 1970 to the end of 2037 in the format
    of RFC 1123 or of asctime, or a time from 1971 to the end of 2037 in the format of
    RFC 850, written for the date of that time and with any weekday, is read as that time,
    whatever follows its NUL.  (RFC 850 dates of 1970 are left out because the code reads
    their year of two digits, 70, as 2070.) *)
Theorem parsedate_reads_http_dates t wd rest :
  0 <= t < start_2038 -> In wd (Curl_wkday ++ weekday) ->
  parsedate (rfc1123_date wd (gmtime t) ++ 0 :: rest) = Some (PARSEDATE_OK, Some t) /\
  (start_1971 <= t -> parsedate (rfc850_date wd (gmtime t) ++ 0 :: rest) = Some (PARSEDATE_OK, Some t)) /\
  parsedate (asctime_date wd (gmtime t) ++ 0 :: rest) = Some (PARSEDATE_OK, Some t).
Proof.
  intros Ht Hwd. destruct (gmtime_counted t) as [Hx Hc]; [lia|]. set (x := gmtime t) in *. clearbody x. subst t.
  assert (Hyear : tm_year x <= 137).
  { pose proof (proj1 (counted_year x 2038 Hx ltac:(lia)) (proj2 Ht)). lia. }
  unfold parsedate. split; [|split].
  - destruct (read_rfc1123 wd Hwd x Hx Hyear rest) as [i ->]. by rewrite date_time_read by auto.
  - intros H71. assert (Hlow : 71 <= tm_year x).
    { destruct (Z.lt_ge_cases (tm_year x) 71) as [Hlt|]; [|done].
      pose proof (proj2 (counted_year x 1971 Hx ltac:(lia)) ltac:(lia)) as H.
      change (86400 * years_days 1970 (Z.to_nat (1971 - 1970))) with start_1971 in H. lia. }
    destruct (read_rfc850 wd Hwd x Hx Hyear rest Hlow) as [i ->]. by rewrite date_time_read by auto.
  - destruct (read_asctime wd Hwd x Hx Hyear rest) as [i ->]. by rewrite date_time_read by auto.
Qed.
