(* ===== verification/ClientHostProps.v ===== *)
(** * ClientHostProps: the client talks to the server it was configured for

    The comparison of host names with the patterns of certificates against a
    declarative reading of it, and the meaning of a connection that
    [est_client_connect] hands out. *)

From S2P Require Import Prelude.
From S2P Require Import SafeC.
From S2P Require Import EstTypes.
From S2P Require Import EstState.
From S2P Require Import EstUtil.
From S2P Require Import ClientHost.
From S2P Require Import Client.
From S2P Require Import EstLogic.

(** ** Equality up to case *)

Definition same_name (a b : bytes) : Prop := map up a = map up b.

Lemma up_zero c : up c = 0 <-> c = 0.
Proof. unfold up, islower. destruct (_ && _) eqn:E; b2p; lia. Qed.

Lemma raw_equal_iff a b :
  no_nul a -> no_nul b -> est_client_Curl_raw_equal a b = true <-> same_name a b.
Proof.
  unfold same_name. intros Ha. revert b.
  induction Ha as [|c a Hc Ha IH]; intros b Hb; destruct Hb as [|d b Hd Hb]; cbn [est_client_Curl_raw_equal map hd].
  - by rewrite Z.eqb_refl.
  - change (up 0) with 0. rewrite Z.eqb_eq. split; [|done]. intros H. symmetry in H. by apply (proj1 (up_zero _)) in H.
  - change (up 0) with 0. rewrite Z.eqb_eq. split; [|done]. intros H. by apply (proj1 (up_zero _)) in H.
  - destruct (up c =? up d) eqn:E; b2p.
    + rewrite IH by done. split; [by intros ->; rewrite E|by intros [= _ ->]].
    + split; [done|]. by intros [= ? _].
Qed.

Lemma raw_nequal_iff a b n :
  no_nul a -> no_nul b -> est_client_Curl_raw_nequal a b n = true <-> same_name (take n a) (take n b).
Proof.
  unfold same_name. intros Ha. revert b n.
  induction Ha as [|c a Hc Ha IH]; intros b [|n] Hb; destruct Hb as [|d b Hd Hb];
    cbn [est_client_Curl_raw_nequal map hd take]; try done.
  - change (up 0) with 0. rewrite Z.eqb_eq. split; [|done]. intros H. symmetry in H. by apply (proj1 (up_zero _)) in H.
  - change (up 0) with 0. rewrite Z.eqb_eq. split; [|done]. intros H. by apply (proj1 (up_zero _)) in H.
  - destruct (up c =? up d) eqn:E; b2p.
    + rewrite IH by done. split; [by intros ->; rewrite E|by intros [= _ ->]].
    + split; [done|]. by intros [= ? _].
Qed.

Lemma same_name_length a b : same_name a b -> length a = length b.
Proof. intros H. apply (f_equal length) in H. by rewrite !length_map in H. Qed.

(** ** The first occurrence of a character *)

Lemma strchr_some s c i :
  strchr s c = Some i <-> exists a b, s = a ++ c :: b /\ ~ In c a /\ i = length a.
Proof.
  unfold strchr. split.
  - revert i. induction s as [|x s IH]; intros i; simpl; [done|].
    unfold mem; simpl. destruct (x =? c) eqn:E; simpl.
    + b2p. subst x. intros [= <-]. exists [], s. split_and!; [done|by intros []|done].
    + b2p. cbv zeta in IH. intros H.
      change (S (length (prefix_out s [c])) <? S (length s))%nat
        with (length (prefix_out s [c]) <? length s)%nat in H.
      destruct (_ <? _)%nat; [|done]. injection H as <-.
      destruct (IH _ eq_refl) as (a & b & -> & Ha & Hl).
      exists (x :: a), b. split; [done|]. split; [intros [->|?]; done|]. simpl. by rewrite Hl.
  - intros (a & b & -> & Ha & ->). rewrite prefix_out_app.
    + rewrite length_app. simpl. replace (_ <? _)%nat with true; [done|].
      symmetry. apply Nat.ltb_lt. lia.
    + apply Forall_forall. intros x Hx [<-|[]]. done.
    + by left.
Qed.

Lemma strchr_none s c : strchr s c = None <-> ~ In c s.
Proof.
  split.
  - intros H Hin. apply in_split in Hin.
    assert (Hex : exists a b, s = a ++ c :: b /\ ~ In c a).
    { clear H. induction s as [|x s IH]; [destruct Hin as ([|] & ? & ?); done|].
      destruct (decide (x = c)) as [->|Hne]; [exists [], s; split; [done|by intros []]|].
      destruct Hin as ([|y l] & l2 & E); injection E as E1 E2; [done|]. subst.
      destruct IH as (a & b & E & Ha); [by exists l, l2|].
      exists (y :: a), b. split; [by rewrite E|]. intros [?|?]; done. }
    destruct Hex as (a & b & -> & Ha).
    assert (Hs : strchr (a ++ c :: b) c = Some (length a)) by (apply strchr_some; eauto).
    by rewrite Hs in H.
  - intros Hn. destruct (strchr s c) as [i|] eqn:E; [|done].
    apply strchr_some in E as (a & b & -> & _). exfalso. apply Hn, in_app_iff. right. by left.
Qed.

Lemma strchr_is_some s c : is_Some (strchr s c) <-> In c s.
Proof.
  destruct (strchr s c) as [i|] eqn:E.
  - apply strchr_some in E as (a & b & -> & _). split; [|eauto]. intros _. apply in_app_iff. right. by left.
  - apply strchr_none in E. split; [by intros []|done].
Qed.

(** ** Patterns *)

(** The shape of a pattern whose wildcard counts: the star is in the first label,
    two labels follow, and the first label is not an internationalised one. *)
Record wildcard_pattern (pattern pre suf rest : bytes) : Prop := {
  wp_shape : pattern = pre ++ chr_star :: suf ++ chr_dot :: rest;
  wp_star : ~ In chr_star pre;
  wp_pre : ~ In chr_dot pre;
  wp_suf : ~ In chr_dot suf;
  wp_rest : In chr_dot rest;
  wp_xn : ~ same_name (take 4 pattern) (lit "xn--")
}.

(** The first label of the host begins and ends as the pattern's, with something for
    the star; the other labels are the same. *)
Definition wildcard_match (hostname pattern : bytes) : Prop :=
  exists pre suf rest hpre mid hsuf hrest,
    wildcard_pattern pattern pre suf rest /\
    hostname = hpre ++ mid ++ hsuf ++ chr_dot :: hrest /\
    ~ In chr_dot (hpre ++ mid ++ hsuf) /\ mid <> [] /\
    same_name pre hpre /\ same_name suf hsuf /\ same_name rest hrest.

Lemma first_occ_unique (c : Z) a b a' b' :
  a ++ c :: b = a' ++ c :: b' -> ~ In c a -> ~ In c a' -> a = a' /\ b = b'.
Proof.
  revert a'; induction a as [|x a IH]; intros [|y a'] E Ha Ha'; simpl in *.
  - by injection E.
  - injection E as -> _. exfalso. apply Ha'. by left.
  - injection E as <- _. exfalso. apply Ha. by left.
  - injection E as -> E. destruct (IH a' E) as [-> ->]; [tauto..|done].
Qed.

(** The condition of the code on the pattern. *)
Definition wildcard_enabled (pattern : bytes) (wildcard : nat) : bool :=
  match strchr pattern chr_dot with
  | None => false
  | Some e => bool_decide (is_Some (strchr (drop (S e) pattern) chr_dot))
              && negb (e <? wildcard)%nat
              && negb (est_client_Curl_raw_nequal pattern (lit "xn--") 4)
  end.

Lemma drop_mid {A} (a : list A) x b : drop (S (length a)) (a ++ x :: b) = b.
Proof. change (a ++ x :: b) with (a ++ [x] ++ b). rewrite app_assoc.
  replace (S (length a)) with (length (a ++ [x])) by (rewrite length_app; simpl; lia).
  apply drop_app_length. Qed.

Lemma xn_iff pattern : no_nul pattern ->
  est_client_Curl_raw_nequal pattern (lit "xn--") 4 = false
  <-> ~ same_name (take 4 pattern) (lit "xn--").
Proof.
  intros H. rewrite <- not_true_iff_false, raw_nequal_iff by (done || by repeat constructor). done.
Qed.

Lemma wildcard_enabled_iff pattern w :
  no_nul pattern -> strchr pattern chr_star = Some w ->
  wildcard_enabled pattern w = true <->
  exists pre suf rest, wildcard_pattern pattern pre suf rest /\ w = length pre.
Proof.
  intros Hn Hw. apply strchr_some in Hw as (pre & b & -> & Hpre & ->). unfold wildcard_enabled. split.
  - destruct (strchr _ chr_dot) as [e|] eqn:Ee; [|done]. intros H.
    apply andb_true_iff in H as [H H2]. apply andb_true_iff in H as [H H1].
    apply strchr_some in Ee as (a & d & E & Ha & ->). rewrite E, drop_mid in H.
    apply bool_decide_eq_true, strchr_is_some in H.
    apply negb_true_iff, Nat.ltb_ge in H1. apply negb_true_iff, xn_iff in H2; [|done].
    assert (Hsplit : exists suf, a = pre ++ chr_star :: suf).
    { exists (drop (S (length pre)) a).
      assert (length pre <> length a) as Hne.
      { intros El. assert (Hc := f_equal (fun l => nth (length pre) l 0) E). simpl in Hc.
        rewrite nth_middle, El, nth_middle in Hc. discriminate. }
      assert (Hp := f_equal (take (S (length pre))) E).
      rewrite (take_app_le a) in Hp by lia.
      rewrite <- (take_drop (S (length pre)) a) at 1. rewrite <- Hp.
      replace (S (length pre)) with (length pre + 1)%nat by lia.
      rewrite take_app_add. simpl. rewrite <- app_assoc. done. }
    destruct Hsplit as [suf ->]. exists pre, suf, d. split; [|done]. split.
    + by rewrite E, <- app_assoc.
    + done.
    + intros Hi. apply Ha, in_app_iff. by left.
    + intros Hi. apply Ha, in_app_iff. right. by right.
    + done.
    + done.
  - intros (pre' & suf & rest & [Hs H1 H2 H3 H4 H5] & Hl).
    apply first_occ_unique in Hs as [-> ->]; [|done..]. clear Hl Hpre.
    assert (Hd : strchr (pre' ++ chr_star :: suf ++ chr_dot :: rest) chr_dot
                 = Some (length (pre' ++ chr_star :: suf))).
    { apply strchr_some. exists (pre' ++ chr_star :: suf), rest. rewrite <- app_assoc. split; [done|].
      split; [|done]. intros Hi. apply in_app_iff in Hi as [Hi|[Hi|Hi]]; [done|discriminate Hi|done]. }
    rewrite Hd.
    assert (Hdrop := drop_mid (pre' ++ chr_star :: suf) chr_dot rest).
    rewrite <- app_assoc in Hdrop. cbn [app] in Hdrop. rewrite Hdrop.
    apply andb_true_iff. split; [apply andb_true_iff; split|].
    + apply bool_decide_eq_true, strchr_is_some. done.
    + apply negb_true_iff, Nat.ltb_ge. rewrite length_app. lia.
    + apply negb_true_iff, xn_iff; done.
Qed.

(** A label matches [pre*suf] in the way the code compares its two ends. *)
Lemma label_split hl pre suf :
  (length pre + S (length suf) <= length hl)%nat /\
  same_name pre (take (length pre) hl) /\ same_name suf (drop (length hl - length suf) hl) <->
  exists hpre mid hsuf, hl = hpre ++ mid ++ hsuf /\ mid <> [] /\
    same_name pre hpre /\ same_name suf hsuf.
Proof.
  split.
  - intros (Hl & Hp & Hs).
    exists (take (length pre) hl),
           (take (length hl - length pre - length suf) (drop (length pre) hl)),
           (drop (length hl - length suf) hl).
    split_and!; [|intros E|done|done].
    + rewrite <- (take_drop (length pre) hl) at 1. f_equal.
      rewrite <- (take_drop (length hl - length pre - length suf) (drop (length pre) hl)) at 1.
      f_equal. rewrite drop_drop. f_equal. lia.
    + apply (f_equal length) in E. rewrite length_take, length_drop in E. simpl in E. lia.
  - intros (hpre & mid & hsuf & -> & Hm & Hp & Hs).
    assert (Lp := same_name_length _ _ Hp). assert (Ls := same_name_length _ _ Hs).
    assert (length mid <> 0%nat) by (by destruct mid).
    split_and!.
    + rewrite !length_app. lia.
    + rewrite Lp, take_app_length. done.
    + rewrite app_assoc, drop_app_length'; [done|]. rewrite !length_app. lia.
Qed.

Section Host.
Context {L : OpenSSL}.

Definition is_address (hostname : bytes) : Prop :=
  is_Some (inet_pton4 hostname) \/ is_Some (inet_pton6 hostname).

(** What the comparison of a host name with a pattern means: without a star the names
    are the same; a star that counts stands for a part of the first label; another
    star is a character of the name. *)
Definition names_host (hostname pattern : bytes) : Prop :=
  (~ In chr_star pattern /\ same_name pattern hostname) \/
  (In chr_star pattern /\ ~ is_address hostname /\
   (wildcard_match hostname pattern \/
    ((forall pre suf rest, ~ wildcard_pattern pattern pre suf rest) /\
     same_name pattern hostname))).

(** The comparison of the labels, once the wildcard counts. *)
Definition label_match (hostname pattern : bytes) (wildcard : nat) : bool :=
  let e := default 0%nat (strchr pattern chr_dot) in
  match strchr hostname chr_dot with
  | None => false
  | Some h =>
    if negb (est_client_Curl_raw_equal (drop e pattern) (drop h hostname)) then false
    else if (h <? e)%nat then false
    else
      let suffixlen := (e - (wildcard + 1))%nat in
      est_client_Curl_raw_nequal pattern hostname wildcard
      && est_client_Curl_raw_nequal (drop (S wildcard) pattern)
           (drop (h - suffixlen) hostname) suffixlen
  end.

Lemma est_client_hostmatch_cases hostname pattern :
  est_client_hostmatch hostname pattern =
  match strchr pattern chr_star with
  | None => est_client_Curl_raw_equal pattern hostname
  | Some wildcard =>
    if bool_decide (is_Some (inet_pton4 hostname)) then false
    else if bool_decide (is_Some (inet_pton6 hostname)) then false
    else if wildcard_enabled pattern wildcard then label_match hostname pattern wildcard
    else est_client_Curl_raw_equal pattern hostname
  end.
Proof.
  unfold est_client_hostmatch, wildcard_enabled, label_match.
  destruct (strchr pattern chr_star); [|done]. repeat case_match; try done; simplify_eq; b2p; done.
Qed.

Lemma same_name_dot a b : same_name (chr_dot :: a) (chr_dot :: b) <-> same_name a b.
Proof. unfold same_name. simpl. split; [by intros [= ->]|by intros ->]. Qed.

Lemma label_match_iff hostname pattern pre suf rest :
  no_nul hostname -> no_nul pattern -> wildcard_pattern pattern pre suf rest ->
  label_match hostname pattern (length pre) = true <->
  exists hl hrest, hostname = hl ++ chr_dot :: hrest /\ ~ In chr_dot hl /\ same_name rest hrest /\
    (length pre + S (length suf) <= length hl)%nat /\
    same_name pre (take (length pre) hl) /\ same_name suf (drop (length hl - length suf) hl).
Proof.
  intros Hh Hp [Hs H1 H2 H3 _ _]. unfold label_match.
  assert (Hd : strchr pattern chr_dot = Some (length (pre ++ chr_star :: suf))).
  { apply strchr_some. exists (pre ++ chr_star :: suf), rest. rewrite <- app_assoc. split; [done|].
    split; [|done]. intros Hi. apply in_app_iff in Hi as [Hi|[Hi|Hi]]; [done|discriminate Hi|done]. }
  rewrite Hd. cbn [from_option id]. clear Hd.
  destruct (strchr hostname chr_dot) as [h|] eqn:Eh.
  2:{ split; [done|]. intros (hl & hrest & -> & _). apply strchr_none in Eh.
      exfalso. apply Eh, in_app_iff. right. by left. }
  apply strchr_some in Eh as (hl & hr & -> & Hhl & ->).
  assert (E1 : drop (length (pre ++ chr_star :: suf)) pattern = chr_dot :: rest).
  { rewrite Hs. change (pre ++ chr_star :: suf ++ chr_dot :: rest)
      with (pre ++ (chr_star :: suf) ++ chr_dot :: rest). rewrite app_assoc. apply drop_app_length. }
  assert (E2 : drop (length hl) (hl ++ chr_dot :: hr) = chr_dot :: hr) by apply drop_app_length.
  assert (E3 : drop (S (length pre)) pattern = suf ++ chr_dot :: rest) by (rewrite Hs; apply drop_mid).
  assert (El : length (pre ++ chr_star :: suf) = (length pre + S (length suf))%nat)
    by (by rewrite length_app).
  rewrite E1, E2, E3, El. replace (length pre + S (length suf) - (length pre + 1))%nat with (length suf) by lia.
  assert (Hn1 : no_nul (chr_dot :: rest)) by (rewrite <- E1; by apply Forall_drop).
  assert (Hn2 : no_nul (chr_dot :: hr)) by (rewrite <- E2; by apply Forall_drop).
  assert (Hn3 : no_nul (suf ++ chr_dot :: rest)) by (rewrite <- E3; by apply Forall_drop).
  transitivity (same_name rest hr /\ (length pre + S (length suf) <= length hl)%nat /\
                same_name pre (take (length pre) hl) /\ same_name suf (drop (length hl - length suf) hl)).
  - destruct (est_client_Curl_raw_equal _ _) eqn:Er; simpl.
    + apply raw_equal_iff in Er; [|done..]. apply (proj1 (same_name_dot _ _)) in Er.
      destruct (_ <? _)%nat eqn:El2; [apply Nat.ltb_lt in El2; split; [done|intros (_ & ? & _); lia]|].
      apply Nat.ltb_ge in El2. rewrite andb_true_iff, !raw_nequal_iff by (done || by apply Forall_drop).
      rewrite Hs, take_app_length, take_app_le, take_app_length by lia.
      rewrite drop_app_le by lia. rewrite take_app_le by (rewrite length_drop; lia).
      rewrite (take_ge (drop _ hl)) by (rewrite length_drop; lia). tauto.
    + split; [done|]. intros [Hr _]. apply not_true_iff_false in Er. exfalso. apply Er.
      apply raw_equal_iff; [done..|]. by apply same_name_dot.
  - split.
    + intros (? & ? & ? & ?). by exists hl, hr.
    + intros (hl' & hr' & E & Hd' & ?). by apply first_occ_unique in E as [-> ->].
Qed.

Lemma hostmatch_wild_iff hostname pattern w :
  no_nul hostname -> no_nul pattern -> strchr pattern chr_star = Some w ->
  (if wildcard_enabled pattern w then label_match hostname pattern w
   else est_client_Curl_raw_equal pattern hostname) = true <->
  wildcard_match hostname pattern \/
  ((forall pre suf rest, ~ wildcard_pattern pattern pre suf rest) /\ same_name pattern hostname).
Proof.
  intros Hh Hp Hw. assert (He := wildcard_enabled_iff pattern w Hp Hw).
  apply strchr_some in Hw as (pre0 & b & Eb & Hpre0 & ->).
  destruct (wildcard_enabled pattern _) eqn:En.
  - destruct (proj1 He eq_refl) as (pre & suf & rest & Hwp & Hl). rewrite Hl.
    rewrite (label_match_iff _ _ pre suf rest) by done. split.
    + intros (hl & hrest & Eh & Hd & Hr & Hsp). apply label_split in Hsp as (hp & mid & hs & -> & ?).
      left. exists pre, suf, rest, hp, mid, hs, hrest. rewrite <- !app_assoc in Eh. tauto.
    + intros [(p & s & r & hp & mid & hs & hrest & Hwp2 & Eh & Hd & Hm & H1 & H2 & H3)|[Hno _]];
        [|by destruct (Hno _ _ _ Hwp)].
      exists (hp ++ mid ++ hs), hrest. rewrite <- !app_assoc.
      assert (p = pre /\ s = suf /\ r = rest) as (-> & -> & ->).
      { destruct Hwp as [S1 A1 B1 C1 _ _], Hwp2 as [S2' A2 B2 C2 _ _]. rewrite S1 in S2'.
        apply first_occ_unique in S2' as [-> S2']; [|done..].
        by apply first_occ_unique in S2' as [-> ->]. }
      split; [done|]. split; [done|]. split; [done|]. apply label_split. by exists hp, mid, hs.
  - rewrite raw_equal_iff by done. split.
    + intros H. right. split; [|done]. intros pre suf rest Hwp.
      assert (false = true) as Hf; [|discriminate Hf]. apply He. exists pre, suf, rest. split; [done|].
      destruct Hwp as [S1 A1 _ _ _ _]. rewrite S1 in Eb. by apply first_occ_unique in Eb as [-> _].
    + intros [(p & s & r & hp & mid & hs & hrest & Hwp & _)|[_ H]]; [|done].
      exfalso. assert (false = true) as Hf; [|discriminate Hf]. apply He. exists p, s, r. split; [done|].
      destruct Hwp as [S1 A1 _ _ _ _]. rewrite S1 in Eb. by apply first_occ_unique in Eb as [-> _].
Qed.

Lemma hostmatch_iff (hostname pattern : bytes) :
  no_nul hostname -> no_nul pattern ->
  est_client_hostmatch hostname pattern = true <-> names_host hostname pattern.
Proof.
  intros Hh Hp. rewrite est_client_hostmatch_cases. unfold names_host, is_address.
  destruct (strchr pattern chr_star) as [w|] eqn:Ew.
  - assert (Hs : In chr_star pattern) by (apply strchr_is_some; eauto).
    destruct (bool_decide (is_Some (inet_pton4 hostname))) eqn:E4;
      [b2p; split; [done|tauto]|].
    destruct (bool_decide (is_Some (inet_pton6 hostname))) eqn:E6;
      [b2p; split; [done|tauto]|].
    b2p. rewrite hostmatch_wild_iff by done. tauto.
  - apply strchr_none in Ew. rewrite raw_equal_iff by done. tauto.
Qed.

(** C15. [est_client_hostmatch] decides exactly [names_host], for every host name and
    pattern: names are compared without regard to case, a wildcard stands for a
    non-empty part of the first label of a name with at least three labels, it never
    matches an address, and no other star has a meaning. *)
Theorem est_client_hostmatch_iff (hostname pattern : bytes) :
  no_nul hostname -> no_nul pattern ->
  est_client_hostmatch hostname pattern = true <-> names_host hostname pattern.
Proof. apply hostmatch_iff. Qed.

(** ** The certificate of the server *)

(** [est_client_cert_hostcheck] for C strings. *)
Definition name_matches (hostname name : bytes) : Prop :=
  name <> [] /\ hostname <> [] /\ (same_name hostname name \/ names_host hostname name).

Lemma hostcheck_iff name hostname :
  no_nul name -> no_nul hostname ->
  est_client_cert_hostcheck name hostname = true <-> name_matches hostname name.
Proof.
  intros Hn Hh. unfold est_client_cert_hostcheck, name_matches.
  destruct name as [|c name]; [by split; [|intros [[] _]]|].
  destruct hostname as [|d host]; [by split; [|intros (_ & [] & _)]|].
  rewrite orb_true_iff, raw_equal_iff, hostmatch_iff by done.
  split; [by intros|tauto].
Qed.

(** A name of a certificate without a NUL inside. *)
Definition name_ok (hostname data : bytes) : Prop :=
  no_nul data /\ Z.of_nat (length data) <= EST_MAX_SERVERNAME_LEN /\ name_matches hostname data.

Lemma strnlen_length data max :
  Z.of_nat (length data) = strnlen_s (Some data) max ->
  no_nul data /\ Z.of_nat (length data) <= max.
Proof.
  simpl. unfold strnlen. intros H. assert (Hl := cstr_length data).
  assert (length (cstr data) = length data) as E by lia.
  split; [|lia]. rewrite <- (take_ge data (length data)) at 1 by done.
  rewrite <- E, <- cstr_prefix. apply cstr_no_nul.
Qed.

(** An alternative name is the host's. *)
Definition altname_ok (hostname : bytes) (n : GENERAL_NAME) : Prop :=
  match n with
  | GEN_DNS data => name_ok hostname data
  | GEN_IPADD data => host_addr hostname = Some data
  | GEN_OTHER _ => False
  end.

Lemma altname_match_sound hostname n :
  no_nul hostname -> altname_match hostname n = Some true -> altname_ok hostname n.
Proof.
  intros Hh. destruct n as [data|data|data]; cbn [altname_match altname_ok]; [|destruct (host_addr hostname) as [addr|]; [|done]|done].
  - intros [= H]. b2p. apply strnlen_length in H as [Hn Hl].
    apply hostcheck_iff in H0; [|apply cstr_no_nul|done]. rewrite cstr_id in H0 by done. done.
  - intros [= H]. apply andb_true_iff in H as [Hl Hm]. apply Nat.eqb_eq in Hl. f_equal.
    unfold memcmp_s in Hm. destruct (Z.of_nat (length data) =? 0) eqn:E0; [done|].
    rewrite Z.gtb_ltb, Z.ltb_irrefl in Hm. b2p.
    apply memcmp_zero in Hm; [|lia..]. rewrite !take_ge in Hm by lia. done.
Qed.

(** The names that are looked at. *)
Definition is_considered (n : GENERAL_NAME) : bool :=
  match n with GEN_OTHER _ => false | _ => true end.

Lemma altnames_loop_some hostname names m :
  no_nul hostname -> altnames_loop hostname names m = Some true ->
  m = Some true \/ exists n, In n names /\ altname_ok hostname n.
Proof.
  intros Hh. revert m. induction names as [|n names IH]; intros m; cbn [altnames_loop]; [by left|].
  intros H. assert (m = Some true \/ altname_match hostname n = Some true
                    \/ exists n, In n names /\ altname_ok hostname n) as [?|[Hm|(k & Hk & ?)]].
  { destruct m as [[]|]; [by left|..]; apply IH in H as [H|H]; auto;
      destruct (altname_match hostname n) as [[]|]; auto; discriminate H. }
  - by left.
  - right. exists n. split; [by left|by apply altname_match_sound].
  - right. exists k. split; [by right|done].
Qed.

Lemma altnames_loop_none hostname names m :
  altnames_loop hostname names m = None -> m = None /\ forallb (fun n => negb (is_considered n)) names = true.
Proof.
  revert m. induction names as [|n names IH]; intros m; cbn [altnames_loop forallb]; [done|].
  intros H. assert (Hm : m = None \/ m = Some false) by (destruct m as [[]|]; [done|auto..]).
  destruct n as [d|d|d], Hm as [-> | ->]; cbn [altname_match] in H; apply IH in H as [Hn ?]; try done;
    exfalso; repeat case_match; discriminate.
Qed.

(** The last common name of the subject, in UTF-8. *)
Definition common_name (cert : X509) : option bytes :=
  let name := X509_get_subject_name cert in
  let i := last_cn (S (X509_NAME_entry_count name)) name (-1) in
  if i <? 0 then None else
  match X509_NAME_get_entry name i with
  | None => None
  | Some (ty, data) => if ty =? V_ASN1_UTF8STRING then Some data else ASN1_STRING_to_UTF8 ty data
  end.

(** A certificate for a host: an alternative name is the host's, or no name or address
    is among them and the last common name is. *)
Definition certificate_names (hostname : bytes) (cert : X509) : Prop :=
  let names := default [] (X509_get_subject_alt_names cert) in
  (exists n, In n names /\ altname_ok hostname n) \/
  (forallb (fun n => negb (is_considered n)) names = true /\
   exists cn, common_name cert = Some cn /\ name_ok hostname cn).

Lemma peer_CN_spec cert w s j w' :
  peer_CN cert w = Some ((Some s, j), w') -> common_name cert = Some s /\ j = Z.of_nat (length s).
Proof.
  unfold peer_CN, common_name. set (i := last_cn _ _ _). rewrite Z.geb_leb, Z.ltb_antisym.
  destruct (0 <=? i); simpl; [|by intros H; apply ret_some in H as [? _]].
  destruct (X509_NAME_get_entry _ i) as [[ty data]|]; [|by intros H; apply ret_some in H as [? _]].
  destruct (ty =? V_ASN1_UTF8STRING).
  - intros H. run_inv H as ok w1 E. apply ret_some in H as [H _]. destruct ok; by simplify_eq.
  - destruct (ASN1_STRING_to_UTF8 ty data) as [u|]; intros H; apply ret_some in H as [H _]; by simplify_eq.
Qed.

(** No event, and the context stays. *)
Abbreviation silent := (frame (fun _ => False)).

Lemma silent_verifyhost hostname cert : sat silent (est_client_verifyhost hostname cert).
Proof. unfold est_client_verifyhost, peer_CN. sat_auto. Qed.

Lemma silent_check_fqdn ssl : sat silent (est_client_check_fqdn ssl).
Proof.
  unfold est_client_check_fqdn. apply sat_bind; [auto with sat..|]. intros ctx.
  destruct (SSL_get_peer_certificate ssl); [apply silent_verifyhost|auto with sat].
Qed.

Lemma est_client_verifyhost_sound hostname cert w w' :
  no_nul hostname ->
  est_client_verifyhost hostname cert w = Some (EST_ERR_NONE, w') -> certificate_names hostname cert.
Proof.
  intros Hh. unfold est_client_verifyhost, certificate_names. set (names := default [] _).
  destruct (altnames_loop hostname names None) as [[]|] eqn:E.
  - intros _. left. apply altnames_loop_some in E as [?|?]; done.
  - intros H. no_ret H.
  - intros H. right. apply altnames_loop_none in E as [_ E]. split; [exact E|].
    run_inv H as cj w1 Ec. destruct cj as [cn j]. destruct cn as [s|]; [|no_ret H].
    apply peer_CN_spec in Ec as [Ec ->]. exists s. split; [done|].
    destruct (strnlen_s _ _ =? _) eqn:El; simpl in H; [|no_ret H].
    destruct (est_client_cert_hostcheck _ _) eqn:Eh; simpl in H; [|no_ret H].
    b2p. symmetry in El. apply strnlen_length in El as [Hn Hl].
    rewrite cstr_id in Eh by done. by apply hostcheck_iff in Eh.
Qed.

(** What the client knows of the peer of a session it uses. *)
Definition peer_verified (ctx : EST_CTX) (ssl : SSL) : Prop :=
  match SSL_get_peer_certificate ssl with
  | Some cert => certificate_names (est_server (client ctx)) cert
  | None => enable_srp ctx = true
  end.

Lemma est_client_check_fqdn_sound ssl w w' :
  no_nul (est_server (client (w_ctx w))) ->
  est_client_check_fqdn ssl w = Some (EST_ERR_NONE, w') -> peer_verified (w_ctx w) ssl.
Proof.
  intros Hh H. unfold est_client_check_fqdn in H. run_inv H as ctx w1 E. injection E as <- <-.
  unfold peer_verified. destruct (SSL_get_peer_certificate ssl) as [cert|].
  - by eapply est_client_verifyhost_sound.
  - apply ret_some in H as [H _]. by destruct (enable_srp (w_ctx w)).
Qed.

(** The client's state of a connection. *)
Definition connected (w : world) : bool := tcw_sock_connected (client (w_ctx w)).

(** The errors of an attempt that reached no session. *)
Definition connect_error (rv : EST_ERROR) : bool :=
  match rv with
  | EST_ERR_IP_GETADDR | EST_ERR_IP_CONNECT | EST_ERR_SSL_NEW | EST_ERR_SSL_CONNECT => true
  | _ => false
  end.

(** What an attempt to connect does: the events behind [EvConnect] and the flag. *)
Definition connect_outcome (w w' : world) (rv : EST_ERROR) (ssl : option SSL) (l : list event) : Prop :=
  match ssl with
  | Some s => rv = EST_ERR_NONE /\ l = [] /\ connected w' = true /\ peer_verified (w_ctx w) s
  | None => (rv = EST_ERR_FQDN_MISMATCH /\ l = [EvDisconnect] /\ connected w' = false) \/
            (connect_error rv = true /\ l = [] /\ w_ctx w' = w_ctx w)
  end.

Lemma next_connection_run w c w' :
  next_connection w = Some (c, w') -> w_ctx w' = w_ctx w /\ w_trace w' = w_trace w.
Proof.
  unfold next_connection. intros H. run_inv H as n w1 E. injection E as <- <-.
  destruct (net_conns (w_net w)) as [|c0 r].
  - by apply ret_some in H as [_ ->].
  - run_inv H as u w2 E. injection E as _ <-. by apply ret_some in H as [_ <-].
Qed.

Lemma disconnect_run s w u w' :
  est_client_disconnect (Some s) w = Some (u, w') -> connected w = true ->
  connected w' = false /\ w_trace w' = w_trace w ++ [EvDisconnect].
Proof.
  intros H Hc. unfold est_client_disconnect in H.
  run_inv H as u1 w1 E1. injection E1 as _ <-.
  run_inv H as cl w2 E2. injection E2 as <- <-. cbn in H. unfold connected in Hc. rewrite Hc in H.
  run_inv H as u3 w3 E3. injection E3 as _ <-. injection H as _ <-. done.
Qed.

Lemma est_client_connect_run w rv ssl w' :
  no_nul (est_server (client (w_ctx w))) ->
  est_client_connect w = Some ((rv, ssl), w') ->
  exists l, connect_outcome w w' rv ssl l /\
    w_trace w' = w_trace w ++ EvConnect (connect_opts (client (w_ctx w)))
                   (est_server (client (w_ctx w))) (est_port_num (client (w_ctx w))) :: l.
Proof.
  intros Hh H. unfold est_client_connect in H.
  run_inv H as cl w1 E1. injection E1 as <- <-.
  run_inv H as u w2 E2. injection E2 as _ <-.
  run_inv H as conn w3 E3. apply next_connection_run in E3 as [Ec Et]. cbn in Ec, Et.
  assert (Hfail : forall e, connect_error e = true ->
    mret (M := M) (e, None) w3 = Some ((rv, ssl), w') -> exists l, connect_outcome w w' rv ssl l /\
    w_trace w' = w_trace w ++ EvConnect (connect_opts (client (w_ctx w)))
                   (est_server (client (w_ctx w))) (est_port_num (client (w_ctx w))) :: l).
  { intros e He Hr. apply ret_some in Hr as [Hr <-]. injection Hr as <- <-.
    exists []. split; [right; done|done]. }
  destruct conn as [c|]; [|(refine (Hfail _ _ H); reflexivity)].
  destruct (cn_tcw c); try solve [(refine (Hfail _ _ H); reflexivity)].
  destruct (cn_keepalive c); [|(refine (Hfail _ _ H); reflexivity)].
  destruct (cn_bio c); [|(refine (Hfail _ _ H); reflexivity)].
  destruct (cn_ssl_new c); [|(refine (Hfail _ _ H); reflexivity)].
  destruct (cn_ssl c) as [s|]; [|(refine (Hfail _ _ H); reflexivity)]. cbn [negb] in H. clear Hfail.
  run_inv H as u4 w4 E4. injection E4 as _ <-.
  run_inv H as rv5 w5 E5.
  destruct (silent_check_fqdn s _ _ _ E5) as [C5 _ _ (l5 & T5 & F5)]. cbn in C5, T5.
  assert (l5 = []) as -> by (destruct F5; done). rewrite app_nil_r in T5.
  destruct (bool_decide (rv5 = EST_ERR_NONE)) eqn:Er; b2p.
  - subst rv5. apply ret_some in H as [[= <- <-] <-]. exists []. split; [|by rewrite T5].
    apply est_client_check_fqdn_sound in E5; [|by cbn; rewrite Ec].
    unfold connect_outcome, connected. split_and!; [done..|by rewrite C5|].
    unfold peer_verified in *. cbn in E5. rewrite Ec in E5. done.
  - run_inv H as u6 w6 E6. apply ret_some in H as [[= <- <-] <-].
    apply disconnect_run in E6 as [Hd Ht]; [|unfold connected; by rewrite C5].
    exists [EvDisconnect]. split; [by left|]. rewrite Ht, T5, Et. by rewrite <- app_assoc.
Qed.

(** C13. A connection that [est_client_connect] hands out is to the configured
    server: the certificate of the peer carries its name or address, compared as a
    whole (a name with a NUL inside never matches), or the session has no certificate
    and SRP is enabled.  A peer with another name is disconnected at once.  Nothing is
    written before, and every failed attempt reports its error and keeps no session. *)
Theorem est_client_connect_verified (w : world) (rv : EST_ERROR) (ssl : option SSL) (w' : world) :
  no_nul (est_server (client (w_ctx w))) ->
  est_client_connect w = Some ((rv, ssl), w') ->
  exists l, connect_outcome w w' rv ssl l /\
    w_trace w' = w_trace w ++ EvConnect (connect_opts (client (w_ctx w)))
                   (est_server (client (w_ctx w))) (est_port_num (client (w_ctx w))) :: l.
Proof. apply est_client_connect_run. Qed.

End Host.
