(* ===== verification/HttpParseProps.v ===== *)
(** * HttpParseProps: the request parser

    A well-formed request is parsed back into its parts; the URL decoder stays
    within its buffer and inverts percent-encoding; the path that is routed has
    no parent references. *)

From S2P Require Import Prelude.
From S2P Require Import SafeC.
From S2P Require Import EstTypes.
From S2P Require Import EstState.
From S2P Require Import EstUtil.
From S2P Require Import EstUtilFacts.
From S2P Require Import HttpParse.

(** ** The text of a request *)

(** Printable bytes, and the bytes beyond ASCII. *)
Definition text_char (c : Z) : Prop := 32 <= c < 127 \/ 128 <= c < 256.
Definition text (s : bytes) : Prop := Forall text_char s.
Definition word (s : bytes) : Prop := Forall (fun c => text_char c /\ c <> chr_space) s.

(** A header field that the printer below can carry. *)
Definition header_ok (h : bytes * bytes) : Prop :=
  fst h <> [] /\ text (fst h) /\ ~ In chr_colon (fst h) /\
  text (snd h) /\ rd (snd h) 0 <> chr_space.

Definition header_text (h : bytes * bytes) : bytes :=
  fst h ++ lit ": " ++ snd h ++ crlf.

Definition request_text (method uri version : bytes) (headers : list (bytes * bytes)) : bytes :=
  method ++ lit " " ++ uri ++ lit " " ++ lit "HTTP/" ++ version ++ crlf ++
  concat (map header_text headers) ++ crlf.

(** ** The length of a request *)

Definition good_char (c : Z) : Prop := bad_char c = false.

Lemma text_good c : text_char c -> good_char c /\ c <> chr_lf /\ c <> chr_cr /\ c <> 0.
Proof.
  unfold text_char, good_char, bad_char, isprint, chr_lf, chr_cr, chr_space. intros H.
  repeat split; try lia.
Qed.

(** A line's text is passed over. *)
Lemma len_loop_text pre w r f e :
  Forall (fun c => good_char c /\ c <> chr_lf) w ->
  request_len_loop (length w + f) (pre ++ w ++ r) (length pre) e
  = request_len_loop f (pre ++ w ++ r) (length pre + length w) e.
Proof.
  intros Hw. revert pre; induction Hw as [|c w [Hg Hn] Hw IH]; intros pre.
  { by rewrite Nat.add_0_r. }
  cbn [length Nat.add request_len_loop].
  assert (Hc : rd (pre ++ (c :: w) ++ r) (length pre) = c)
    by (rewrite <- (Nat.add_0_r (length pre)), rd_app_r; done).
  rewrite Hc, Hg, (proj2 (Z.eqb_neq _ _) Hn). cbn [andb].
  replace (pre ++ (c :: w) ++ r) with ((pre ++ [c]) ++ w ++ r) by (by rewrite <- app_assoc).
  replace (S (length pre)) with (length (pre ++ [c])) by (rewrite length_app; simpl; lia).
  rewrite IH. f_equal. rewrite length_app. simpl. lia.
Qed.

(** So is the end of a line that another line follows. *)
Lemma len_loop_crlf pre x r f e :
  x <> chr_lf -> x <> chr_cr ->
  request_len_loop (2 + f) (pre ++ crlf ++ x :: r) (length pre) e
  = request_len_loop f (pre ++ crlf ++ x :: r) (length pre + 2) e.
Proof.
  intros Hx1 Hx2. set (buf := pre ++ crlf ++ x :: r).
  assert (H0 : rd buf (length pre) = 13)
    by (unfold buf; rewrite <- (Nat.add_0_r (length pre)), rd_app_r; done).
  assert (H1 : rd buf (S (length pre)) = 10)
    by (unfold buf; rewrite <- (Nat.add_1_r (length pre)), rd_app_r; done).
  assert (H2 : rd buf (S (length pre) + 1) = x)
    by (unfold buf; replace (S (length pre) + 1)%nat with (length pre + 2)%nat by lia;
        by rewrite rd_app_r).
  change (2 + f)%nat with (S (S f)). cbn [request_len_loop]. rewrite H0, H1, H2.
  change (bad_char 13) with false. change (bad_char 10) with false.
  change (13 =? chr_lf) with false. change (10 =? chr_lf) with true. cbn [andb].
  rewrite (proj2 (Z.eqb_neq _ _) Hx1), (proj2 (Z.eqb_neq _ _) Hx2).
  rewrite andb_false_r. cbn [andb]. f_equal. lia.
Qed.

(** The empty line ends the request. *)
Lemma len_loop_end pre r f e :
  (length pre + 2 < e)%nat ->
  request_len_loop (2 + f) (pre ++ crlf ++ crlf ++ r) (length pre) e = Z.of_nat (length pre) + 4.
Proof.
  intros He. set (buf := pre ++ crlf ++ crlf ++ r).
  assert (Hr : forall i, rd buf (length pre + i) = rd (crlf ++ crlf ++ r) i)
    by (intros i; unfold buf; by rewrite rd_app_r).
  pose proof (Hr 0%nat) as H0. pose proof (Hr 1%nat) as H1. pose proof (Hr 2%nat) as H2.
  pose proof (Hr 3%nat) as H3. rewrite Nat.add_0_r in H0.
  change (2 + f)%nat with (S (S f)). cbn [request_len_loop]. rewrite H0.
  replace (S (length pre)) with (length pre + 1)%nat by lia.
  replace (length pre + 1 + 1)%nat with (length pre + 2)%nat by lia.
  replace (length pre + 1 + 2)%nat with (length pre + 3)%nat by lia.
  rewrite H1, H2, H3, (proj2 (Nat.ltb_lt (length pre + 2) e)) by lia.
  change (rd (crlf ++ crlf ++ r) 0) with 13. change (rd (crlf ++ crlf ++ r) 1) with 10.
  change (rd (crlf ++ crlf ++ r) 2) with 13. change (rd (crlf ++ crlf ++ r) 3) with 10.
  cbn -[Z.add]. lia.
Qed.

(** ** Lines *)

Definition line_ok (l : bytes) : Prop := l <> [] /\ text l.

Definition lines_text (ls : list bytes) : bytes := concat (map (fun l => l ++ crlf) ls).

Lemma text_skippable l : text l -> Forall (fun c => good_char c /\ c <> chr_lf) l.
Proof. apply Forall_impl. intros c Hc. apply text_good in Hc. tauto. Qed.

Lemma len_loop_lines ls pre r n e :
  ls <> [] -> Forall line_ok ls -> (n + length pre = e)%nat ->
  (length pre + length (lines_text ls) + 2 <= S e)%nat ->
  request_len_loop n (pre ++ lines_text ls ++ crlf ++ r) (length pre) e
  = Z.of_nat (length pre + length (lines_text ls) + 2).
Proof.
  revert pre n; induction ls as [|l ls IH]; intros pre n Hne Hok Hn He; [done|].
  apply Forall_cons_1 in Hok as [[Hl Ht] Hok]. apply text_skippable in Ht.
  change (lines_text (l :: ls)) with ((l ++ crlf) ++ lines_text ls) in *.
  rewrite !length_app in *. change (length crlf) with 2%nat in *.
  replace n with (length l + (n - length l))%nat by lia.
  rewrite <- !app_assoc, len_loop_text by done.
  replace (n - length l)%nat with (2 + (n - length l - 2))%nat by lia.
  destruct ls as [|l2 ls].
  - change (lines_text []) with (@nil Z). rewrite app_nil_l. simpl length in He.
    replace (pre ++ l ++ crlf ++ crlf ++ r) with ((pre ++ l) ++ crlf ++ crlf ++ r)
      by (by rewrite <- app_assoc).
    rewrite <- length_app, len_loop_end; rewrite length_app; simpl; lia.
  - destruct l2 as [|x l2]; [by apply Forall_cons_1 in Hok as [[? _] _]|].
    assert (Hx : x <> chr_lf /\ x <> chr_cr).
    { apply Forall_cons_1 in Hok as [[_ Hx] _]. apply Forall_cons_1 in Hx as [Hx _].
      apply text_good in Hx. tauto. }
    set (rest := lines_text ((x :: l2) :: ls) ++ crlf ++ r).
    assert (Hrest : exists q, rest = x :: q) by (unfold rest; eexists; reflexivity).
    destruct Hrest as [q Hq].
    replace (pre ++ l ++ crlf ++ rest) with ((pre ++ l) ++ crlf ++ rest) by (by rewrite <- app_assoc).
    rewrite <- length_app, Hq, len_loop_crlf by tauto. rewrite <- Hq. unfold rest.
    replace ((pre ++ l) ++ crlf ++ lines_text ((x :: l2) :: ls) ++ crlf ++ r)
      with ((pre ++ l ++ crlf) ++ lines_text ((x :: l2) :: ls) ++ crlf ++ r)
      by (by rewrite <- !app_assoc).
    replace (length (pre ++ l) + 2)%nat with (length (pre ++ l ++ crlf))
      by (rewrite !length_app; simpl; lia).
    rewrite IH; [|done|done|rewrite !length_app; simpl; lia|rewrite !length_app in *; simpl in *; lia].
    f_equal. rewrite !length_app. simpl. lia.
Qed.

Lemma get_request_len_lines ls r buflen :
  ls <> [] -> Forall line_ok ls -> (length (lines_text ls) + 2 <= buflen)%nat ->
  get_request_len (lines_text ls ++ crlf ++ r) buflen = Z.of_nat (length (lines_text ls) + 2).
Proof.
  intros Hne Hok Hl. unfold get_request_len.
  exact (len_loop_lines ls [] r (buflen - 1) (buflen - 1) Hne Hok ltac:(simpl; lia) ltac:(simpl; lia)).
Qed.

(** ** Tokens of the buffer *)

(** What follows a line once the last newline of the request is a NUL. *)
Fixpoint rest_of (hs : list (bytes * bytes)) (b : bytes) : bytes :=
  match hs with
  | [] => 0 :: b
  | h :: hs' => fst h ++ lit ": " ++ snd h ++ crlf ++
                match hs' with [] => 13 :: rest_of hs' b | _ => rest_of hs' b end
  end.

Definition next_of (hs : list (bytes * bytes)) (b : bytes) : bytes :=
  match hs with [] => 13 :: rest_of hs b | _ => rest_of hs b end.

Lemma rest_of_cons h hs b :
  rest_of (h :: hs) b = fst h ++ lit ": " ++ snd h ++ crlf ++ next_of hs b.
Proof. done. Qed.

Lemma next_of_text hs b : next_of hs b = concat (map header_text hs) ++ 13 :: 0 :: b.
Proof.
  induction hs as [|h hs IH]; [done|]. cbn [map concat]. unfold header_text at 1.
  rewrite <- !app_assoc, <- IH. done.
Qed.

Lemma text_no_nul s : text s -> no_nul s.
Proof. apply Forall_impl. intros c Hc. apply text_good in Hc. tauto. Qed.

Lemma text_not_in s d : text s -> (forall c, In c d -> ~ text_char c) -> Forall (fun c => ~ In c d) s.
Proof. intros Hs Hd. eapply Forall_impl; [|exact Hs]. intros c Hc Hin. by apply (Hd c). Qed.

Lemma crlf_not_text c : In c crlf -> ~ text_char c.
Proof. unfold text_char. simpl. lia. Qed.

Lemma fits_mono a b : (length a <= length b)%nat -> fits b -> fits a.
Proof. unfold fits. lia. Qed.

(** A line and its end: two or three bytes are blanked. *)
Lemma skip_line pre w hs b :
  text w -> Forall header_ok hs -> fits (pre ++ w ++ crlf ++ next_of hs b) ->
  exists zs', let zs := 0 :: zs' in
    length (zs ++ rest_of hs b) = length (crlf ++ next_of hs b) /\
    skip (pre ++ w ++ crlf ++ next_of hs b) (length pre) crlf
    = ((pre ++ w ++ zs) ++ rest_of hs b, length (pre ++ w ++ zs), length pre).
Proof.
  intros Hw Hh Hf.
  assert (H : forall blanks r, 10 :: next_of hs b = blanks ++ r -> rest_of hs b = r ->
            no_nul blanks -> Forall (fun x => In x (cstr crlf)) blanks ->
            (rd r 0 = 0 \/ ~ In (rd r 0) (cstr crlf)) ->
            skip (pre ++ w ++ crlf ++ next_of hs b) (length pre) crlf
            = ((pre ++ w ++ replicate (S (length blanks)) 0) ++ rest_of hs b,
               length (pre ++ w ++ replicate (S (length blanks)) 0), length pre)).
  { intros blanks r Eb Er Hb1 Hb2 Hr. unfold skip.
    assert (E : pre ++ w ++ crlf ++ next_of hs b = pre ++ w ++ 13 :: blanks ++ r)
      by (change (crlf ++ next_of hs b) with (13 :: 10 :: next_of hs b); by rewrite Eb).
    rewrite E in *. rewrite skip_quoted_word; try done.
    - rewrite <- !app_assoc, Er. f_equal. f_equal. rewrite !length_app, length_replicate. lia.
    - by apply text_no_nul.
    - apply text_not_in; [done|apply crlf_not_text].
    - by left. }
  destruct hs as [|h hs].
  - exists [0; 0]. split; [done|].
    apply (H [10; 13] (0 :: b)); try done.
    + by repeat constructor.
    + repeat constructor; simpl; tauto.
    + by left.
  - exists [0]. split; [done|].
    apply (H [10] (rest_of (h :: hs) b)); try done.
    + by repeat constructor.
    + repeat constructor; simpl; tauto.
    + right. apply Forall_cons_1 in Hh as [(Hn & Ht & _) _].
      destruct h as [[|c nm] v]; [done|]. simpl in Ht. apply Forall_cons_1 in Ht as [Hc _].
      change (cstr crlf) with crlf. intros Hin. by apply crlf_not_text in Hin.
Qed.

(** A string of the parsed buffer. *)
Lemma cstr_at_mid pre w z r : no_nul w -> z = 0 -> cstr_at (pre ++ w ++ z :: r) (length pre) = w.
Proof. intros Hw ->. unfold cstr_at. by rewrite drop_app_l, cstr_app. Qed.

Lemma parse_headers_text hs n pre b :
  (length hs <= n)%nat -> Forall header_ok hs -> fits (pre ++ rest_of hs b) ->
  exists z p offs, parse_headers_loop n (pre ++ rest_of hs b) (length pre) = (pre ++ z, p, offs) /\
    map (fun h => (cstr_at (pre ++ z) (fst h), cstr_at (pre ++ z) (snd h))) offs = hs.
Proof.
  revert n pre; induction hs as [|h hs IH]; intros n pre Hn Hok Hf.
  - exists (0 :: b). destruct n as [|n]; [by eexists _, []|]. cbn [parse_headers_loop rest_of] in *.
    assert (E : forall d w, fits d -> skip_quoted (pre ++ 0 :: b) (length pre) d w 0
              = (pre ++ 0 :: b, length pre, length pre)).
    { intros d w Hd. pose proof (skip_quoted_last pre [] (0 :: b) d w Hf Hd) as H.
      simpl in H. rewrite Nat.add_0_r in H. apply H; [constructor|done|constructor]. }
    rewrite E by (by apply fits_small). unfold skip. rewrite E by (by apply fits_small).
    assert (Hz : rd (pre ++ 0 :: b) (length pre) = 0)
      by (rewrite <- (Nat.add_0_r (length pre)), rd_app_r; done).
    rewrite Hz. by eexists _, [].
  - destruct n as [|n]; [simpl in Hn; lia|]. apply Forall_cons_1 in Hok as [Hh Hok].
    destruct h as [nm v]. destruct Hh as (Hne & Ht & Hcol & Hv & Hsp).
    cbn [fst snd] in *. rewrite rest_of_cons in *. cbn [fst snd] in *.
    cbn [parse_headers_loop].
    rewrite (skip_quoted_word pre nm chr_colon [32] (v ++ crlf ++ next_of hs b)); try done.
    2: by apply text_no_nul.
    2: by repeat constructor.
    2: { apply Forall_forall. intros c Hc Hin. simpl in Hin. destruct Hin as [<-|[]]. by apply Hcol. }
    2: by left.
    2: by repeat constructor.
    2: { right. intros [E|[]]. destruct v as [|c v]; [discriminate|]. by apply Hsp. }
    cbn [length]. set (pre1 := pre ++ nm ++ [0; 0]).
    replace (pre ++ nm ++ replicate 2 0 ++ v ++ crlf ++ next_of hs b)
      with (pre1 ++ v ++ crlf ++ next_of hs b) by (unfold pre1; by rewrite <- !app_assoc).
    replace (length pre + length nm + 2)%nat with (length pre1)
      by (unfold pre1; rewrite !length_app; simpl; lia).
    assert (Hf1 : fits (pre1 ++ v ++ crlf ++ next_of hs b)).
    { eapply fits_mono; [|exact Hf]. unfold pre1. rewrite !length_app. simpl. lia. }
    destruct (skip_line pre1 v hs b Hv Hok Hf1) as (zs' & Hzs & Hskip).
    rewrite Hskip. set (pre2 := pre1 ++ v ++ 0 :: zs').
    assert (Hnm : rd (pre2 ++ rest_of hs b) (length pre) <> 0).
    { unfold pre2, pre1. rewrite <- !app_assoc. rewrite <- (Nat.add_0_r (length pre)), rd_app_r.
      destruct nm as [|c nm]; [done|]. simpl. apply Forall_cons_1 in Ht as [Hc _].
      apply text_good in Hc. tauto. }
    rewrite (proj2 (Z.eqb_neq _ _) Hnm).
    assert (Hf2 : fits (pre2 ++ rest_of hs b)).
    { eapply fits_mono; [|exact Hf1]. unfold pre2.
      rewrite <- !app_assoc, !(length_app pre1), !(length_app v), <- Hzs. done. }
    destruct (IH n pre2) as (z & p & offs & Hl & Hm); [simpl in Hn; lia|done|done|].
    rewrite Hl. exists (nm ++ [0; 0] ++ v ++ 0 :: zs' ++ z), p, ((length pre, length pre1) :: offs).
    assert (Eb : pre ++ nm ++ [0; 0] ++ v ++ 0 :: zs' ++ z = pre2 ++ z)
      by (unfold pre2, pre1; by rewrite <- !app_assoc).
    rewrite Eb. split; [done|]. cbn [map fst snd]. rewrite Hm. f_equal. f_equal.
    + rewrite <- Eb. apply cstr_at_mid; [by apply text_no_nul|done].
    + unfold pre2.
      replace ((pre1 ++ v ++ 0 :: zs') ++ z) with (pre1 ++ v ++ 0 :: (zs' ++ z))
        by (by rewrite <- !app_assoc).
      apply cstr_at_mid; [by apply text_no_nul|done].
Qed.

(** A token before a space. *)
Lemma skip_token pre w c r :
  word w -> fits (pre ++ w ++ 32 :: c :: r) -> c <> 0 -> c <> 32 ->
  skip (pre ++ w ++ 32 :: c :: r) (length pre) (lit " ")
  = ((pre ++ w ++ [0]) ++ c :: r, length (pre ++ w ++ [0]), length pre).
Proof.
  intros Hw Hf H0 H32. unfold skip.
  rewrite (skip_quoted_word pre w 32 [] (c :: r)); try done.
  - rewrite <- !app_assoc. f_equal. f_equal. rewrite !length_app. simpl. lia.
  - eapply Forall_impl; [|exact Hw]. intros x [Hx _]. apply text_good in Hx. tauto.
  - constructor.
  - eapply Forall_impl; [|exact Hw]. intros x [_ Hx] [E|[]]. by apply Hx.
  - by left.
  - right. intros [E|[]]. by apply H32.
Qed.

Lemma word_text w : word w -> text w.
Proof. apply Forall_impl. tauto. Qed.

Lemma lit_text s : forallb (fun c => (32 <=? c) && (c <? 127)) s = true -> text s.
Proof.
  intros H. apply Forall_forall. intros c Hc.
  rewrite forallb_forall in H. specialize (H c Hc). b2p. left. lia.
Qed.

(** The lines of a request. *)
Definition request_lines (method uri version : bytes) (headers : list (bytes * bytes)) : list bytes :=
  (method ++ lit " " ++ uri ++ lit " " ++ lit "HTTP/" ++ version)
  :: map (fun h => fst h ++ lit ": " ++ snd h) headers.

Lemma request_text_lines m u v hs :
  request_text m u v hs = lines_text (request_lines m u v hs) ++ crlf.
Proof.
  unfold request_text, request_lines, lines_text. cbn [map concat].
  assert (E : map header_text hs = map (fun l => l ++ crlf) (map (fun h => fst h ++ lit ": " ++ snd h) hs)).
  { rewrite map_map. apply map_ext. intros [n w]. unfold header_text. by rewrite <- !app_assoc. }
  rewrite E. by rewrite <- !app_assoc.
Qed.

Definition served_method (m : bytes) : Prop := m = lit "GET" \/ m = lit "POST".

Lemma request_lines_ok m u v hs :
  served_method m -> word u -> text v -> Forall header_ok hs -> Forall line_ok (request_lines m u v hs).
Proof.
  intros Hm Hu Hv Hh. constructor.
  - split; [by destruct Hm as [-> | ->]|].
    assert (text m) by (destruct Hm as [-> | ->]; by apply lit_text).
    repeat (apply Forall_app; split); try done; try by apply lit_text. by apply word_text.
  - apply Forall_forall. intros l Hl. apply in_map_iff in Hl as ([n w] & <- & Hin).
    rewrite Forall_forall in Hh. destruct (Hh _ Hin) as (Hne & Hn & _ & Hw & _). cbn [fst snd] in *.
    split; [by destruct n|]. repeat (apply Forall_app; split); try done. by apply lit_text.
Qed.

(** The buffer that is tokenized. *)
Lemma request_buffer m u v hs body n :
  n = Z.of_nat (length (lines_text (request_lines m u v hs)) + 2) ->
  <[Z.to_nat (n - 1) := 0]> (lines_text (request_lines m u v hs) ++ crlf ++ body)
  = m ++ 32 :: u ++ 32 :: (lit "HTTP/" ++ v) ++ crlf ++ next_of hs body.
Proof.
  intros ->. set (t := lines_text (request_lines m u v hs)).
  replace (Z.to_nat (Z.of_nat (length t + 2) - 1)) with (length t + 1)%nat by lia.
  rewrite insert_app_r. change (<[1%nat:=0]> (crlf ++ body)) with (13 :: 0 :: body).
  rewrite next_of_text. unfold t.
  pose proof (request_text_lines m u v hs) as E. unfold request_text in E.
  assert (Et : lines_text (request_lines m u v hs)
               = m ++ lit " " ++ u ++ lit " " ++ lit "HTTP/" ++ v ++ crlf ++ concat (map header_text hs)).
  { apply (app_inv_tail crlf). rewrite <- E. by rewrite <- !app_assoc. }
  rewrite Et. by rewrite <- !app_assoc.
Qed.

Lemma skip_spaces_none fuel buf p : isspace (rd buf p) = false -> skip_spaces fuel buf p = p.
Proof. intros H. destruct fuel; [done|]. cbn [skip_spaces]. by rewrite H, andb_false_r. Qed.

(** Tokenizing a request line and what follows it. *)
Lemma parse_lines m u v hs b :
  m <> [] -> hd 0 m <> 32 -> isspace (hd 0 m) = false -> word m -> word u -> u <> [] -> text v ->
  Forall header_ok hs -> (length hs <= MAX_HTTP_HEADERS)%nat ->
  fits (m ++ 32 :: u ++ 32 :: (lit "HTTP/" ++ v) ++ crlf ++ next_of hs b) ->
  exists buf' ri',
    (let buf0 := m ++ 32 :: u ++ 32 :: (lit "HTTP/" ++ v) ++ crlf ++ next_of hs b in
     let '(buf1, p1, method) := skip buf0 0 (lit " ") in
     let '(buf2, p2, uri) := skip buf1 p1 (lit " ") in
     let '(buf3, p3, version) := skip buf2 p2 crlf in
     let '(buf4, p4, hs') := parse_http_headers buf3 p3 in
     (buf4, Build_mg_request_info (Some method) (Some uri) (Some version) hs')) = (buf', ri') /\
    ri_strings buf' ri' = (Some m, Some u, Some (lit "HTTP/" ++ v), hs).
Proof.
  intros Hm Hm0 Hms Hmw Huw Hu Hv Hh Hn Hf. destruct u as [|c u]; [done|].
  assert (Hc : c <> 0 /\ c <> 32).
  { apply Forall_cons_1 in Huw as [[Hc1 Hc2] _]. apply text_good in Hc1. split; [tauto|done]. }
  cbv zeta. cbn [app] in *.
  pose proof (skip_token [] m c (u ++ 32 :: (lit "HTTP/" ++ v) ++ crlf ++ next_of hs b)) as T1.
  cbn [app length] in T1. rewrite T1 by (done || tauto). clear T1.
  set (pre1 := m ++ [0]).
  assert (Hf1 : fits (pre1 ++ (c :: u) ++ 32 :: 72 :: lit "TTP/" ++ v ++ crlf ++ next_of hs b)).
  { eapply fits_mono; [|exact Hf]. unfold pre1. rewrite <- !app_assoc.
    repeat (rewrite length_app || cbn [length app]). simpl. lia. }
  change (c :: u ++ 32 :: (lit "HTTP/" ++ v) ++ crlf ++ next_of hs b)
    with ((c :: u) ++ 32 :: 72 :: lit "TTP/" ++ v ++ crlf ++ next_of hs b).
  rewrite (skip_token pre1 (c :: u)) by done.
  set (pre2 := pre1 ++ (c :: u) ++ [0]).
  replace (72 :: lit "TTP/" ++ v ++ crlf ++ next_of hs b)
    with ((lit "HTTP/" ++ v) ++ crlf ++ next_of hs b) in * by (by rewrite <- app_assoc).
  assert (Ht : text (lit "HTTP/" ++ v)) by (apply Forall_app; split; [by apply lit_text|done]).
  set (ver := lit "HTTP/" ++ v) in *.
  assert (Hf2 : fits (pre2 ++ ver ++ crlf ++ next_of hs b)).
  { eapply fits_mono; [|exact Hf1]. unfold pre2.
    repeat (rewrite length_app || cbn [length app]). lia. }
  destruct (skip_line pre2 ver hs b Ht Hh Hf2) as (zs' & Hzs & Hskip).
  rewrite Hskip. set (pre3 := pre2 ++ ver ++ 0 :: zs').
  assert (Hf3 : fits (pre3 ++ rest_of hs b)).
  { eapply fits_mono; [|exact Hf2]. unfold pre3.
    rewrite <- !app_assoc, !(length_app pre2), !(length_app ver), <- Hzs. done. }
  destruct (parse_headers_text hs MAX_HTTP_HEADERS pre3 b Hn Hh Hf3) as (z & p & offs & Hl & Ho).
  unfold parse_http_headers. rewrite Hl. eexists _, _. split; [reflexivity|].
  unfold ri_strings. cbn. rewrite Ho. unfold pre3, pre2, pre1.
  assert (E0 : cstr_at ((((m ++ [0]) ++ (c :: u) ++ [0]) ++ ver ++ 0 :: zs') ++ z) 0 = m).
  { pose proof (cstr_at_mid [] m 0) as E. cbn [app length] in E. rewrite <- !app_assoc.
    cbn [app]. apply E; [|done]. eapply text_no_nul, word_text, Hmw. }
  assert (E1 : cstr_at ((((m ++ [0]) ++ (c :: u) ++ [0]) ++ ver ++ 0 :: zs') ++ z) (length (m ++ [0]))
               = c :: u).
  { replace ((((m ++ [0]) ++ (c :: u) ++ [0]) ++ ver ++ 0 :: zs') ++ z)
      with ((m ++ [0]) ++ (c :: u) ++ 0 :: (ver ++ 0 :: zs' ++ z))
      by (simpl; rewrite <- ?app_assoc; simpl; rewrite <- ?app_assoc; done).
    apply cstr_at_mid; [eapply text_no_nul, word_text, Huw|done]. }
  assert (E2 : cstr_at ((((m ++ [0]) ++ (c :: u) ++ [0]) ++ ver ++ 0 :: zs') ++ z)
                 (length ((m ++ [0]) ++ (c :: u) ++ [0])) = ver).
  { rewrite <- (app_assoc _ (ver ++ _)), <- (app_assoc ver). cbn [app].
    apply cstr_at_mid; [by apply text_no_nul|done]. }
  by rewrite E0, E1, E2.
Qed.

(** What the accepted methods have in common. *)
Lemma served_word m : served_method m ->
  word m /\ m <> [] /\ hd 0 m <> 32 /\ isspace (hd 0 m) = false /\ is_valid_http_method m = true.
Proof.
  intros [-> | ->]; (split; [|done]); (repeat constructor; [lia|done|lia|done|lia|done]) ||
    (repeat constructor; try done; lia).
Qed.

Lemma strncmp_version v : strncmp (lit "HTTP/" ++ v) (lit "HTTP/") 5 = 0.
Proof.
  apply (proj2 (strncmp_prefix (lit "HTTP/" ++ v) (lit "HTTP/") ltac:(by repeat constructor))).
  reflexivity.
Qed.

Lemma cstr_at_add buf i a b n :
  cstr_at buf i = a ++ b -> length a = n -> cstr_at buf (i + n) = b.
Proof.
  unfold cstr_at. intros H <-. rewrite <- drop_drop. revert H. generalize (drop i buf). clear.
  intros l; revert a; induction l as [|c l IH]; intros [|x a] H; try done; try (by rewrite drop_0).
  cbn [cstr length drop] in *. case_match; [done|]. injection H as -> H. by apply IH.
Qed.

Lemma request_text_length m u v hs :
  length (request_text m u v hs) = (length (lines_text (request_lines m u v hs)) + 2)%nat.
Proof. rewrite request_text_lines, length_app. done. Qed.

(** A printed request is read back, whatever body follows. *)
Lemma parse_request_text m u v hs body buflen ri :
  served_method m -> word u -> u <> [] -> text v -> Forall header_ok hs ->
  (length hs <= MAX_HTTP_HEADERS)%nat ->
  (length (request_text m u v hs) <= buflen)%nat -> fits (request_text m u v hs ++ body) ->
  exists buf' ri',
    parse_http_request (request_text m u v hs ++ body) buflen ri
    = (Z.of_nat (length (request_text m u v hs)), buf', ri') /\
    ri_strings buf' ri' = (Some m, Some u, Some v, hs).
Proof.
  intros Hm Hu Hne Hv Hh Hn Hl Hf.
  destruct (served_word m Hm) as (Hmw & Hm0 & Hm1 & Hms & Hvm).
  rewrite request_text_length in *. rewrite request_text_lines, <- app_assoc in *.
  set (n := (length (lines_text (request_lines m u v hs)) + 2)%nat) in *.
  unfold parse_http_request, parse_http_message.
  rewrite get_request_len_lines; [|done|by apply request_lines_ok|done].
  fold n. assert (Hpos : (Z.of_nat n >? 0) = true) by (apply Z.gtb_lt; unfold n; lia). rewrite Hpos.
  rewrite (request_buffer m u v hs body (Z.of_nat n)) by (unfold n; lia).
  assert (Hf' : fits (m ++ 32 :: u ++ 32 :: (lit "HTTP/" ++ v) ++ crlf ++ next_of hs body)).
  { rewrite <- (request_buffer m u v hs body (Z.of_nat n)) by (unfold n; lia).
    unfold fits in *. by rewrite length_insert. }
  cbv zeta.
  rewrite skip_spaces_none.
  2: { destruct m; [done|]. exact Hms. }
  destruct (parse_lines m u v hs body) as (buf' & ri' & E & Hs); try done.
  cbv zeta in E.
  destruct (skip _ 0 _) as [[b1 p1] me]. destruct (skip b1 p1 _) as [[b2 p2] ur].
  destruct (skip b2 p2 _) as [[b3 p3] ve]. destruct (parse_http_headers b3 p3) as [[b4 p4] hs'].
  injection E as <- <-. unfold ri_strings in Hs. cbn in Hs. injection Hs as Em Eu Ev Eh.
  change (cstr_at b4 ve = lit "HTTP/" ++ v) in Ev.
  cbn [ri_method ri_http_version ri_uri ri_headers]. rewrite Em, Ev, Hpos, Hvm.
  rewrite (proj2 (Z.eqb_eq _ _) (strncmp_version v)). cbn. eexists _, _. split; [reflexivity|].
  unfold ri_strings. cbn. rewrite Em, Eu, Eh.
  by rewrite (cstr_at_add b4 ve (lit "HTTP/") v 5 Ev eq_refl).
Qed.

(** C38. The HTTP parser inverts the printer: a request with an
    accepted method, a URI without blanks, a version and at most 64 well-formed
    headers, followed by any body, is given the length of its head, and the
    method, URI, version and headers read back from the buffer are the ones
    that were printed, in order. *)
Theorem parse_http_request_roundtrip m u v hs body buflen ri :
  served_method m -> word u -> u <> [] -> text v -> Forall header_ok hs ->
  (length hs <= MAX_HTTP_HEADERS)%nat ->
  (length (request_text m u v hs) <= buflen)%nat -> fits (request_text m u v hs ++ body) ->
  exists buf' ri',
    parse_http_request (request_text m u v hs ++ body) buflen ri
    = (Z.of_nat (length (request_text m u v hs)), buf', ri') /\
    ri_strings buf' ri' = (Some m, Some u, Some v, hs).
Proof. apply parse_request_text. Qed.

(** ** Paths without parent references *)

(** No separator is followed by another one or by two dots. *)
Fixpoint path_clean (s : bytes) : bool :=
  match s with
  | [] => true
  | c :: r => negb (is_sep c && (is_sep (rd r 0) || (rd r 0 =? chr_dot) && (rd r 1 =? chr_dot)))
              && path_clean r
  end.

(** What may follow a separator. *)
Definition seg_start (s : bytes) : Prop :=
  is_sep (rd s 0) = false /\ (rd s 0 =? chr_dot) && (rd s 1 =? chr_dot) = false.

Lemma skip_seps_start f s : (length s <= f)%nat -> seg_start (skip_seps f s).
Proof.
  revert s; induction f as [|f IH]; intros [|c s] Hl; simpl in Hl; try (by split); [lia|].
  cbn [skip_seps]. destruct (c =? 0) eqn:E0; b2p; [subst; by split|].
  destruct (is_sep c) eqn:Es; [apply IH; lia|].
  destruct ((c =? chr_dot) && (rd s 0 =? chr_dot)) eqn:Ed.
  - apply IH. destruct s; simpl in *; lia.
  - split; [done|exact Ed].
Qed.

Lemma skip_seps_length f s : (length (skip_seps f s) <= length s)%nat.
Proof.
  revert s; induction f as [|f IH]; intros [|c s]; cbn [skip_seps]; try done.
  case_match; [done|]. case_match; [etrans; [apply IH|simpl; lia]|].
  case_match; [|done]. etrans; [apply IH|]. destruct s; simpl; lia.
Qed.

Lemma skip_seps_id f s : seg_start s -> skip_seps f s = s.
Proof.
  intros [H1 H2]. destruct f, s as [|c s]; try done. cbn [skip_seps]. case_match; [done|].
  change (is_sep c = false) in H1. rewrite H1. change ((c =? chr_dot) && (rd s 0 =? chr_dot) = false) in H2.
  by rewrite H2.
Qed.

(** The copy starts like its source. *)
Lemma remove_dd_head f s : (length s <= f)%nat -> rd (remove_dd_loop f s) 0 = rd s 0.
Proof.
  destruct f, s as [|c s]; simpl; try done; try lia. intros _. case_match eqn:E; b2p; [by subst|done].
Qed.

Lemma remove_dd_second f s :
  (length s <= f)%nat -> is_sep (rd s 0) = false ->
  rd (remove_dd_loop f s) 1 = 0 \/ rd (remove_dd_loop f s) 1 = rd s 1.
Proof.
  destruct f as [|f], s as [|c s]; simpl; try (by left); try lia. intros Hl Hs.
  change (is_sep c = false) in Hs. case_match; [by left|]. rewrite Hs. right.
  change (rd (remove_dd_loop f s) 0 = rd s 0). apply remove_dd_head. lia.
Qed.

Lemma remove_dd_clean f s : (length s <= f)%nat -> path_clean (remove_dd_loop f s) = true.
Proof.
  revert s; induction f as [|f IH]; intros [|c s] Hl; simpl in Hl; try done.
  cbn [remove_dd_loop]. case_match; [done|]. cbn [path_clean].
  destruct (is_sep c) eqn:Es; cbn [andb negb].
  2: apply IH; lia.
  set (s' := skip_seps (length s) s).
  assert (Hs : (length s' <= f)%nat) by (pose proof (skip_seps_length (length s) s); unfold s'; lia).
  destruct (skip_seps_start (length s) s) as [H1 H2]; [done|]. fold s' in H1, H2.
  rewrite IH, andb_true_r, remove_dd_head, H1 by done. cbn [orb].
  destruct (remove_dd_second f s' Hs H1) as [-> | ->]; [by rewrite andb_false_r|by rewrite H2].
Qed.

Lemma remove_dd_id f s :
  (length s <= f)%nat -> no_nul s -> path_clean s = true -> remove_dd_loop f s = s.
Proof.
  revert s; induction f as [|f IH]; intros [|c s] Hl Hn Hc; simpl in Hl; try done; [lia|].
  apply Forall_cons_1 in Hn as [H0 Hn]. cbn [remove_dd_loop path_clean] in *.
  rewrite (proj2 (Z.eqb_neq c 0)) by done. f_equal.
  apply andb_true_iff in Hc as [H1 H2]. destruct (is_sep c) eqn:Es; [|apply IH; (done || lia)].
  rewrite skip_seps_id; [apply IH; (done || lia)|].
  cbn [andb] in H1. apply negb_true_iff, orb_false_iff in H1 as [? ?]. by split.
Qed.

Lemma remove_dd_no_nul f s : no_nul (remove_dd_loop f s).
Proof.
  revert s; induction f as [|f IH]; intros [|c s]; cbn [remove_dd_loop]; try by constructor.
  case_match eqn:E; b2p; [by constructor|]. constructor; [done|apply IH].
Qed.

(** The path a request is routed by has no two separators in a row
    and no parent reference after a separator, however the dots and slashes
    were percent-encoded in the request; and the cleaning leaves such a path as
    it is, so that it is idempotent. *)
Theorem handle_request_uri_clean :
  (forall uri, path_clean (fst (handle_request_uri uri)) = true) /\
  (forall s, no_nul s -> path_clean s = true -> remove_double_dots_and_double_slashes s = s) /\
  (forall s, let p := remove_double_dots_and_double_slashes s in
     path_clean p = true /\ remove_double_dots_and_double_slashes p = p).
Proof.
  split_and!.
  - intros uri. unfold handle_request_uri. destruct (url_decode _ _ _ _) as [n d].
    by apply remove_dd_clean.
  - intros s Hn Hc. by apply remove_dd_id.
  - intros s p. assert (path_clean p = true) by (by apply remove_dd_clean). split; [done|].
    apply remove_dd_id; [done|apply remove_dd_no_nul|done].
Qed.

(** ** URL decoding *)

Definition hex_char (n : Z) : Z := if n <? 10 then 48 + n else 87 + n.
Definition pct (c : Z) : bytes := [chr_percent; hex_char (c / 16); hex_char (c mod 16)].

(** Any way of percent-encoding: [esc] says which bytes are escaped. *)
Definition url_encode (esc : Z -> bool) (s : bytes) : bytes :=
  concat (map (fun c => if esc c then pct c else [c]) s).

(** The plain bytes are those the decoder does not interpret. *)
Definition esc_covers (esc : Z -> bool) (form : bool) : Prop :=
  esc chr_percent = true /\ (form = true -> esc chr_plus = true).

(** A property of bytes, checked on each of them. *)
Lemma bytes_forall (P : Z -> bool) :
  forallb (fun k => P (Z.of_nat k)) (seq 0 256) = true -> forall c, 0 <= c < 256 -> P c = true.
Proof.
  intros H c Hc. rewrite forallb_forall in H. rewrite <- (Z2Nat.id c) by lia.
  apply H, in_seq. lia.
Qed.

(** An escape is recognized, and stands for its byte. *)
Lemma pct_ok c : 0 <= c < 256 ->
  isxdigit (hex_char (c / 16)) = true /\ isxdigit (hex_char (c mod 16)) = true /\
  wrap_u 8 (Z.lor (Z.shiftl (HEXTOI (tolower (hex_char (c / 16)))) 4)
                  (HEXTOI (tolower (hex_char (c mod 16))))) = c.
Proof.
  intros Hc.
  pose proof (bytes_forall (fun c => isxdigit (hex_char (c / 16)) && isxdigit (hex_char (c mod 16)) &&
    (wrap_u 8 (Z.lor (Z.shiftl (HEXTOI (tolower (hex_char (c / 16)))) 4)
                  (HEXTOI (tolower (hex_char (c mod 16))))) =? c)) eq_refl c Hc) as H.
  cbv beta in H. b2p. tauto.
Qed.

Lemma url_decode_loop_encode esc form dst_len s r i j fuel :
  esc_covers esc form -> are_bytes s -> j + Z.of_nat (length s) < dst_len ->
  (length (url_encode esc s) <= fuel)%nat ->
  url_decode_loop fuel (url_encode esc s ++ r) i (i + Z.of_nat (length (url_encode esc s))) j dst_len form
  = (i + Z.of_nat (length (url_encode esc s)), s).
Proof.
  intros [Hp Hplus] Hs. revert i j fuel; induction Hs as [|c s Hc Hs IH]; intros i j fuel Hj Hf.
  { simpl. destruct fuel; simpl; f_equal; [lia|]. rewrite Z.add_0_r, Z.ltb_irrefl. simpl. f_equal; lia. }
  change (url_encode esc (c :: s)) with ((if esc c then pct c else [c]) ++ url_encode esc s) in *.
  rewrite length_app in *. rewrite <- app_assoc. simpl length in Hj.
  assert (Hl : (1 <= length (if esc c then pct c else [c]))%nat) by (by destruct (esc c); simpl; lia).
  destruct fuel as [|fuel]; [lia|]. cbn [url_decode_loop].
  rewrite (proj2 (Z.ltb_lt _ _)) by lia. rewrite (proj2 (Z.ltb_lt j _)) by lia. cbn [andb].
  destruct (esc c) eqn:Ee.
  - destruct (pct_ok c Hc) as (H1 & H2 & H3).
    change (rd (pct c ++ url_encode esc s ++ r) 0) with chr_percent.
    change (rd (pct c ++ url_encode esc s ++ r) 1) with (hex_char (c / 16)).
    change (rd (pct c ++ url_encode esc s ++ r) 2) with (hex_char (c mod 16)).
    rewrite H1, H2, H3, Z.eqb_refl. cbn [andb].
    change (drop 3 (pct c ++ url_encode esc s ++ r)) with (url_encode esc s ++ r).
    simpl length in *.
    replace (i + Z.of_nat (3 + length (url_encode esc s)))
      with ((i + 3) + Z.of_nat (length (url_encode esc s))) by lia.
    by rewrite IH by lia.
  - change (rd ([c] ++ url_encode esc s ++ r) 0) with c.
    assert (E : (c =? chr_percent) = false) by (apply Z.eqb_neq; intros ->; congruence).
    rewrite E. cbn [andb].
    assert (E2 : form && (c =? chr_plus) = false).
    { destruct form; [|done]. apply Z.eqb_neq. intros ->. rewrite Hplus in Ee; done. }
    rewrite E2. change (drop 1 ([c] ++ url_encode esc s ++ r)) with (url_encode esc s ++ r).
    simpl length in *.
    replace (i + Z.of_nat (1 + length (url_encode esc s)))
      with ((i + 1) + Z.of_nat (length (url_encode esc s))) by lia.
    by rewrite IH by lia.
Qed.

Lemma url_decode_loop_bounds fuel s i src_len j dst_len form :
  let '(i', out) := url_decode_loop fuel s i src_len j dst_len form in
  i <= i' /\ Z.of_nat (length out) <= Z.max 0 (dst_len - 1 - j) /\
  Z.of_nat (length out) <= i' - i /\ (are_bytes s -> are_bytes out).
Proof.
  revert s i j; induction fuel as [|fuel IH]; intros s i j; cbn [url_decode_loop].
  { split_and!; simpl; try lia. by constructor. }
  destruct ((i <? src_len) && (j <? dst_len - 1)) eqn:E; b2p.
  2: { split_and!; simpl; try lia. by constructor. }
  destruct ((rd s 0 =? chr_percent) && isxdigit (rd s 1) && isxdigit (rd s 2)).
  - specialize (IH (drop 3 s) (i + 3) (j + 1)).
    destruct (url_decode_loop _ (drop 3 s) _ _ _ _ _) as [i' out].
    destruct IH as (H1 & H2 & H3 & H4). simpl length. split_and!; try lia.
    intros Hs. constructor; [apply Z.mod_pos_bound; lia|]. apply H4. by apply Forall_drop.
  - specialize (IH (drop 1 s) (i + 1) (j + 1)).
    destruct (url_decode_loop _ (drop 1 s) _ _ _ _ _) as [i' out].
    destruct IH as (H1 & H2 & H3 & H4). simpl length. split_and!; try lia.
    intros Hs. constructor; [|apply H4; by apply Forall_drop].
    case_match; [done|]. destruct s; [done|]. by apply Forall_cons_1 in Hs as [? _].
Qed.

(** [url_decode] inverts percent-encoding: whichever bytes an
    encoder escapes, as long as '%' is among them (and '+' for a form), the
    decoder gives back the original bytes and their number; on any input it
    stores at most [dst_len - 1] bytes, never more than it reads, all of them
    bytes. *)
Theorem url_decode_encode (esc : Z -> bool) (form : bool) :
  esc_covers esc form ->
  (forall s r dst_len, are_bytes s -> Z.of_nat (length s) < dst_len ->
     let src := url_encode esc s in
     url_decode (src ++ r) (Z.of_nat (length src)) dst_len form = (Z.of_nat (length s), s)) /\
  (forall src src_len dst_len, are_bytes src ->
     let '(n, out) := url_decode src src_len dst_len form in
     Z.of_nat (length out) <= Z.max 0 (dst_len - 1) /\
     (n = -1 \/ n = Z.of_nat (length out)) /\ are_bytes out).
Proof.
  intros He. split.
  - intros s r dst_len Hs Hd src. unfold url_decode.
    pose proof (url_decode_loop_encode esc form dst_len s r 0 0 (length src) He Hs) as E.
    fold src in E. rewrite !Z.add_0_l in E. rewrite Nat2Z.id, E by lia.
    by rewrite (proj2 (Z.geb_le _ _)) by lia.
  - intros src src_len dst_len Hs. unfold url_decode.
    pose proof (url_decode_loop_bounds (Z.to_nat src_len) src 0 src_len 0 dst_len form) as H.
    destruct (url_decode_loop _ _ _ _ _ _ _) as [i out]. destruct H as (_ & H & _ & Hb).
    split_and!; [lia| |by apply Hb]. case_match; tauto.
Qed.

(** ** Header lookup *)

Definition caseless (s : bytes) : bytes := map tolower (cstr s).

Lemma tolower_zero c : 0 <= c -> tolower c = 0 <-> c = 0.
Proof. unfold tolower. intros. case_match; b2p; unfold isupper in *; b2p; lia. Qed.

Lemma mg_strcasecmp_zero a b :
  are_bytes a -> are_bytes b -> mg_strcasecmp a b = 0 <-> caseless a = caseless b.
Proof.
  intros Ha. revert b; induction Ha as [|c a Hc Ha IH]; intros b Hb; unfold caseless; cbn [mg_strcasecmp hd tl].
  - destruct b as [|d b]; simpl; [done|]. apply Forall_cons_1 in Hb as [Hd _].
    unfold is_byte in Hd. unfold lowercase. change (tolower 0) with 0.
    destruct (d =? 0) eqn:E; b2p; [by subst|]. pose proof (tolower_zero d ltac:(lia)).
    split; [intros; exfalso; lia|done].
  - unfold lowercase, is_byte in *. destruct b as [|d b].
    + simpl. change (tolower 0) with 0. pose proof (tolower_zero c ltac:(lia)).
      destruct (c =? 0) eqn:E; b2p; [subst; done|]. simpl.
      rewrite andb_true_r. rewrite (proj2 (Z.eqb_neq _ _)) by lia. split; [intros; exfalso; lia|done].
    + apply Forall_cons_1 in Hb as [Hd Hb]. unfold is_byte in Hd.
      pose proof (tolower_zero c ltac:(lia)). pose proof (tolower_zero d ltac:(lia)).
      cbn [hd tail cstr]. destruct (c =? 0) eqn:Ec; b2p.
      * subst. rewrite andb_false_r. change (tolower 0) with 0 in *.
        destruct (d =? 0) eqn:Ed; b2p; [by subst|]. split; [intros; exfalso; lia|done].
      * rewrite andb_true_r. destruct (tolower c - tolower d =? 0) eqn:E; b2p.
        -- assert (d <> 0) by (intros ->; change (tolower 0) with 0 in *; lia).
           rewrite (proj2 (Z.eqb_neq d 0)) by done. rewrite IH by done. unfold caseless.
           cbn [map]. split; [intros ->; f_equal; lia|by injection 1].
        -- split; [intros; exfalso; lia|]. intros Hm. exfalso. apply E.
           destruct (d =? 0); [done|]. injection Hm as Hm _. lia.
Qed.

(** Header lookup gives the value of the first header whose name
    equals the requested one up to the case of ASCII letters, and nothing when
    there is no such header. *)
Theorem get_header_first (hs : list (bytes * bytes)) (name : bytes) :
  are_bytes name -> Forall (fun h => are_bytes (fst h)) hs ->
  (forall v, get_header hs name = Some v <->
     exists before n after, hs = before ++ (n, v) :: after /\ caseless n = caseless name /\
       Forall (fun h => caseless (fst h) <> caseless name) before) /\
  (get_header hs name = None <-> Forall (fun h => caseless (fst h) <> caseless name) hs).
Proof.
  intros Hn Hh. induction Hh as [|[n w] hs H Hh [IH1 IH2]].
  { split; [|split; [by constructor|done]]. intros v. split; [done|].
    by intros ([|? ?] & ? & ? & ? & _). }
  cbn [fst] in H. cbn [get_header]. pose proof (mg_strcasecmp_zero name n Hn H) as Hz.
  destruct (mg_strcasecmp name n =? 0) eqn:E; b2p.
  - apply Hz in E. split.
    + intros v. split; [intros [= <-]; by exists [], n, hs|].
      intros ([|[n' w'] bf] & m & af & Ht & Hc & Hb); injection Ht; intros; subst; [done|].
      apply Forall_cons_1 in Hb as [Hb _]. by destruct Hb.
    + split; [done|]. intros Hb. apply Forall_cons_1 in Hb as [Hb _]. by destruct Hb.
  - assert (Hne : caseless n <> caseless name) by (intros Hc; apply E, Hz; done).
    split.
    + intros v. rewrite IH1. split.
      * intros (bf & m & af & -> & Hc & Hb). exists ((n, w) :: bf), m, af.
        split_and!; [done..|by constructor].
      * intros ([|[n' w'] bf] & m & af & Ht & Hc & Hb); injection Ht; intros; subst; [done|].
        apply Forall_cons_1 in Hb as [_ Hb]. by exists bf, m, af.
    + rewrite IH2. split; [by constructor|]. by intros [_ ?]%Forall_cons_1.
Qed.
