(* ===== verification/HttpIOFacts.v ===== *)
(** * HttpIOFacts: what the writers of HttpIO do

    [push] writes its buffer in order and stops early only when an [SSL_write] fails;
    every response writer leaves the context alone and emits nothing but writes; the
    status code an error response leaves on the connection.

    Every write of the server goes through [mg_write] or [mg_printf]: the bytes on the
    channel are a prefix of what was handed over, and all of it unless a write failed. *)

From S2P Require Import Prelude.
From S2P Require Import SafeC.
From S2P Require Import EstTypes.
From S2P Require Import EstState.
From S2P Require Import EstUtil.
From S2P Require Import HttpParse.
From S2P Require Import HttpIO.
From S2P Require Import EstLogic.

Section Facts.
Context {L : OpenSSL}.

(** ** push *)

Lemma ssl_write_spec d w :
  (0 < length d)%nat ->
  exists n w', ssl_write d w = Some (n, w') /\
    w_ctx w' = w_ctx w /\ w_conn w' = w_conn w /\ w_alloc w' = w_alloc w /\
    w_time w' = w_time w /\
    n <= Z.of_nat (length d) /\
    w_ssl_write w' = tail (w_ssl_write w) /\
    (n < 0 -> w_trace w' = w_trace w /\ exists r, w_ssl_write w = n :: r) /\
    (0 <= n -> w_trace w' = w_trace w ++ [EvWrite (take (Z.to_nat n) d)]) /\
    (w_ssl_write w = [] -> n = Z.of_nat (length d)).
Proof.
  intros Hd. unfold ssl_write. destruct (w_ssl_write w) as [|n r] eqn:E.
  - destruct (_ <? 0) eqn:En; b2p; [lia|]. eexists _, _. split; [reflexivity|].
    simpl. rewrite E. repeat split; try done; lia.
  - destruct (Z.min n (Z.of_nat (length d)) <? 0) eqn:En; b2p; (eexists _, _; split; [reflexivity|]); simpl.
    + repeat split; try done; try lia. exists r. f_equal. lia.
    + repeat split; try done; try lia.
Qed.

(** The chunks a run of the loop writes. *)
Lemma push_loop_spec fuel buf sent w :
  0 <= sent <= Z.of_nat (length buf) ->
  Z.of_nat (length (w_ssl_write w)) + (Z.of_nat (length buf) - sent) < Z.of_nat fuel ->
  exists n w' chunks, push_loop fuel buf sent w = Some (n, w') /\
    w_ctx w' = w_ctx w /\ w_conn w' = w_conn w /\ w_alloc w' = w_alloc w /\
    w_time w' = w_time w /\
    w_trace w' = w_trace w ++ map EvWrite chunks /\
    take (Z.to_nat sent) buf ++ concat chunks = take (Z.to_nat n) buf /\
    sent <= n <= Z.of_nat (length buf) /\
    (n < Z.of_nat (length buf) -> Exists (fun r => r < 0) (w_ssl_write w)).
Proof.
  revert sent w; induction fuel as [|f IH]; intros sent w Hs Hf; [lia|]. cbn [push_loop].
  destruct (sent <? Z.of_nat (length buf)) eqn:E; b2p.
  2:{ exists sent, w, []. simpl. rewrite !app_nil_r. repeat split; try done; lia. }
  set (k := if _ >? INT_MAX then _ else _).
  assert (Hk : 0 < k <= Z.of_nat (length buf) - sent).
  { unfold k, INT_MAX. destruct (_ >? _) eqn:Ek.
    all: rewrite Z.gtb_ltb in Ek; b2p; unfold INT_MAX in *; lia. }
  set (d := take (Z.to_nat k) (drop (Z.to_nat sent) buf)).
  assert (Hd : length d = Z.to_nat k).
  { unfold d. rewrite length_take, length_drop. lia. }
  destruct (ssl_write_spec d w) as (n & w1 & H1 & Hc & Hco & Ha & Ht & Hn & Hscr & Hneg & Hpos & Hemp).
  { lia. }
  unfold mbind at 1, M_bind at 1. rewrite H1. destruct (n <? 0) eqn:En; b2p.
  - destruct (Hneg En) as [Htr (r & Hr)].
    exists sent, w1, []. simpl. rewrite !app_nil_r.
    repeat split; try done; try lia. intros _. rewrite Hr. by constructor.
  - specialize (Hpos En).
    assert (Hfuel : Z.of_nat (length (w_ssl_write w1)) + (Z.of_nat (length buf) - (sent + n)) < Z.of_nat f).
    { rewrite Hscr. destruct (w_ssl_write w); simpl in *; [|lia]. specialize (Hemp eq_refl). lia. }
    destruct (IH (sent + n) w1) as (n' & w2 & chunks & H2 & Hc2 & Hco2 & Ha2 & Ht2 & Htr2 & Hcat & Hn2 & Hex);
      [lia|lia|].
    exists n', w2, (take (Z.to_nat n) d :: chunks).
    split; [exact H2|]. repeat split; try congruence; try lia.
    + rewrite Htr2, Hpos, <- app_assoc. done.
    + simpl. rewrite app_assoc, <- Hcat. f_equal.
      replace (Z.to_nat (sent + n)) with (Z.to_nat sent + Z.to_nat n)%nat by lia.
      rewrite <- take_take_drop. f_equal. unfold d. rewrite take_take. f_equal. lia.
    + intros Hlt. specialize (Hex Hlt). rewrite Hscr in Hex.
      destruct (w_ssl_write w); simpl in Hex; [by inversion Hex|by apply Exists_cons_tl].
Qed.

Lemma push_spec buf w :
  exists n w' chunks, push buf w = Some (n, w') /\
    w_ctx w' = w_ctx w /\ w_conn w' = w_conn w /\ w_alloc w' = w_alloc w /\
    w_time w' = w_time w /\
    w_trace w' = w_trace w ++ map EvWrite chunks /\
    concat chunks = take (Z.to_nat n) buf /\
    0 <= n <= Z.of_nat (length buf) /\
    (n < Z.of_nat (length buf) -> Exists (fun r => r < 0) (w_ssl_write w)).
Proof.
  unfold push.
  destruct (push_loop_spec (S (length (w_ssl_write w)) + length buf) buf 0 w)
    as (n & w' & ch & H); [lia|lia|]. exists n, w', ch. exact H.
Qed.

(** Writing does not touch the proxy's part of the context. *)
Definition keeps_proxy (w w' : world) : Prop := w_proxy w' = w_proxy w.

#[global] Instance keeps_proxy_preorder : PreOrder keeps_proxy.
Proof. split; unfold keeps_proxy; [done|]. intros w1 w2 w3. congruence. Qed.

Lemma ssl_write_proxy d : sat keeps_proxy (ssl_write d).
Proof.
  intros w a w' H. unfold ssl_write in H.
  destruct (w_ssl_write w); simpl in H; destruct (_ <? 0); by injection H as _ <-.
Qed.

Lemma push_proxy buf : sat keeps_proxy (push buf).
Proof.
  intros w a w' H. unfold push in H. revert H. generalize (S (length (w_ssl_write w)) + length buf)%nat.
  intros fuel. generalize 0. revert w a w'.
  induction fuel as [|f IH]; intros w a w' sent; cbn [push_loop]; intros H; [by apply ret_some in H as [_ <-]|].
  cbv zeta in H. destruct (sent <? _); [|by apply ret_some in H as [_ <-]].
  run_inv H as n w1 E. apply ssl_write_proxy in E. etrans; [exact E|].
  destruct (n <? 0); [by apply ret_some in H as [_ <-]|]. by eapply IH.
Qed.

(** ** Frames *)

Section Frames.
Context (P : event -> Prop) (HP : forall d, P (EvWrite d)).

Lemma frame_push buf : sat (frame P) (push buf).
Proof.
  intros w a w' H. assert (Hp := push_proxy _ _ _ _ H).
  destruct (push_spec buf w) as (n & w1 & ch & H1 & Hc & Hco & _ & _ & Ht & _).
  rewrite H in H1. injection H1 as -> ->. split; [done|congruence|exact Hp|].
  exists (map EvWrite ch). split; [done|]. apply Forall_forall. intros e He.
  apply in_map_iff in He as (d & <- & _). apply HP.
Qed.

Lemma frame_mg_write buf : sat (frame P) (mg_write buf).
Proof. unfold mg_write. apply sat_bind; [apply _|apply frame_push|]. intros. auto with sat. Qed.

Lemma frame_mg_printf text : sat (frame P) (mg_printf text).
Proof.
  pose proof frame_mg_write. unfold mg_printf.
  repeat (sat_step || auto with sat).
Qed.

Lemma frame_modify_conn {B} (f : mg_connection -> mg_connection) (k : mg_connection -> unit -> M B) :
  (forall c, conn_ssl (f c) = conn_ssl c) -> (forall c u, sat (frame P) (k c u)) ->
  sat (frame P) (get_conn ≫= fun c => put_conn (f c) ≫= k c).
Proof.
  intros Hf Hk w b w' H. run_inv H as c w1 E1. run_inv H as u w2 E2.
  injection E1 as <- <-. injection E2 as <- <-. etransitivity; [|exact (Hk _ _ _ _ _ H)].
  split; [reflexivity|exact (Hf _)|reflexivity|]. exists []. by rewrite app_nil_r.
Qed.

Lemma frame_modify_conn_last (f : mg_connection -> mg_connection) :
  (forall c, conn_ssl (f c) = conn_ssl c) ->
  sat (frame P) (get_conn ≫= fun c => put_conn (f c)).
Proof.
  intros Hf w b w' H. run_inv H as c w1 E1. injection E1 as <- <-. injection H as <- <-.
  split; [reflexivity|exact (Hf _)|reflexivity|]. exists []. by rewrite app_nil_r.
Qed.

Lemma frame_mg_get_header name : sat (frame P) (mg_get_header name).
Proof. unfold mg_get_header. sat_auto. Qed.

Lemma frame_suggest : sat (frame P) suggest_connection_header.
Proof.
  pose proof frame_mg_get_header. unfold suggest_connection_header, should_keep_alive. sat_auto.
Qed.

Lemma frame_mg_send_http_error status reason text :
  sat (frame P) (mg_send_http_error status reason text).
Proof.
  pose proof frame_mg_printf. pose proof frame_suggest. unfold mg_send_http_error.
  apply (frame_modify_conn (set_c_status_code status)); [done|intros].
  sat_step; [auto|]. sat_step; [auto|]. sat_step; [auto|].
  apply (frame_modify_conn_last (fun c => set_c_num_bytes_sent (num_bytes_sent c + _) c)). done.
Qed.

Lemma frame_mg_send_authorization_request : sat (frame P) mg_send_authorization_request.
Proof.
  pose proof frame_mg_printf. unfold mg_send_authorization_request.
  apply (frame_modify_conn (set_c_status_code 401)); [done|intros].
  repeat (sat_step || auto with sat).
Qed.

Lemma frame_retry_after delay : sat (frame P) (est_server_send_http_retry_after delay).
Proof.
  pose proof frame_mg_write. unfold est_server_send_http_retry_after.
  apply (frame_modify_conn (set_c_status_code EST_HTTP_STAT_202)); [done|intros].
  repeat (sat_step || auto with sat).
Qed.

Lemma frame_est_send_http_error code : sat (frame P) (est_send_http_error code).
Proof.
  pose proof frame_mg_send_http_error. pose proof frame_retry_after.
  unfold est_send_http_error, send_400, send_401, send_500.
  destruct (est_err_of code) as [[]|]; repeat (sat_step || auto with sat).
Qed.

Lemma frame_est_send_csrattr_data d n : sat (frame P) (est_send_csrattr_data d n).
Proof.
  pose proof frame_mg_write. pose proof frame_est_send_http_error.
  unfold est_send_csrattr_data. repeat (sat_step || auto with sat).
Qed.

End Frames.

(** ** Writes touch neither the context nor the connection *)

Record io (w w' : world) : Prop := {
  io_ctx : w_ctx w' = w_ctx w;
  io_conn : w_conn w' = w_conn w
}.

#[global] Instance io_preorder : PreOrder io.
Proof. split; [done|]. intros w1 w2 w3 [] []. split; congruence. Qed.

Lemma io_alloc : sat io alloc.
Proof. intros w a w' H. unfold alloc in H. by destruct (w_alloc w); injection H as <- <-. Qed.

Lemma io_mg_write buf : sat io (mg_write buf).
Proof.
  intros w a w' H. unfold mg_write in H. run_inv H as n w1 E.
  destruct (push_spec buf w) as (n' & w2 & ch & H1 & Hc & Hco & _).
  rewrite E in H1. injection H1 as -> ->. apply ret_some in H as [_ <-]. done.
Qed.

Lemma io_mg_printf text : sat io (mg_printf text).
Proof. pose proof io_mg_write. pose proof io_alloc. unfold mg_printf. repeat (sat_step || auto with sat). Qed.

Lemma io_suggest : sat io suggest_connection_header.
Proof. unfold suggest_connection_header, should_keep_alive, mg_get_header. sat_auto. Qed.

Lemma status_mg_send_http_error status reason text w u w' :
  mg_send_http_error status reason text w = Some (u, w') -> status_code (w_conn w') = status.
Proof.
  unfold mg_send_http_error. intros H.
  run_inv H as c w1 E1. run_inv H as v w2 E2. run_inv H as h w3 E3. run_inv H as n1 w4 E4.
  run_inv H as n2 w5 E5. run_inv H as c2 w6 E6.
  injection E1 as <- <-. injection E2 as <- <-. injection E6 as <- <-. injection H as <- <-.
  apply io_suggest in E3. apply io_mg_printf in E4. apply io_mg_printf in E5. simpl.
  by rewrite (io_conn _ _ E5), (io_conn _ _ E4), (io_conn _ _ E3).
Qed.

(** The HTTP status of each error code; the retry response is accepted, unless
    it could not be written. *)
Definition http_status (code : Z) : Z :=
  match est_err_of code with
  | Some EST_ERR_HTTP_NO_CONTENT => 204
  | Some (EST_ERR_HTTP_BAD_REQ | EST_ERR_CSR_ATTR_MISSING | EST_ERR_BAD_ASN1_HEX
         | EST_ERR_BAD_PKCS10 | EST_ERR_BAD_CONTENT_TYPE | EST_ERR_WRONG_METHOD
         | EST_ERR_NO_SSL_CTX) => 400
  | Some (EST_ERR_AUTH_FAIL | EST_ERR_AUTH_FAIL_TLSUID) => 401
  | Some (EST_ERR_HTTP_NOT_FOUND | EST_ERR_HTTP_INVALID_PATH_SEGMENT) => 404
  | Some EST_ERR_HTTP_LOCKED => 423
  | Some EST_ERR_HTTP_UNSUPPORTED => 502
  | Some EST_ERR_IP_CONNECT => 504
  | _ => 500
  end.

Lemma status_est_send_http_error code w u w' :
  est_send_http_error code w = Some (u, w') ->
  status_code (w_conn w') = http_status code
  \/ (est_err_of code = Some EST_ERR_CA_ENROLL_RETRY /\ status_code (w_conn w') = 202).
Proof.
  unfold est_send_http_error, http_status, send_400, send_401, send_500. intros H.
  destruct (est_err_of code) as [[]|]; try (left; exact (status_mg_send_http_error _ _ _ _ _ _ H)).
  run_inv H as ctx w1 E1. injection E1 as <- <-.
  assert (G : forall d, (rv ← est_server_send_http_retry_after d;
            if bool_decide (rv = EST_ERR_NONE) then mret tt
            else mg_send_http_error EST_HTTP_STAT_500 EST_HTTP_STAT_500_TXT EST_BODY_UNKNOWN_ERR) w
            = Some (u, w') -> status_code (w_conn w') = 500 \/ status_code (w_conn w') = 202).
  { intros d G. run_inv G as rv w2 E2. case_bool_decide.
    - apply ret_some in G as [_ <-]. right. unfold est_server_send_http_retry_after in E2.
      run_inv E2 as c w3 E3. run_inv E2 as v w4 E4. run_inv E2 as n w5 E5.
      injection E3 as <- <-. injection E4 as <- <-. apply io_mg_write in E5.
      apply ret_some in E2 as [_ <-]. by rewrite (io_conn _ _ E5).
    - left. exact (status_mg_send_http_error _ _ _ _ _ _ G). }
  destruct (est_mode (w_ctx w)).
  - destruct (G _ H); auto.
  - left. exact (status_mg_send_http_error _ _ _ _ _ _ H).
  - destruct (G _ H); auto.
Qed.

(** ** Totality of the writers *)

Section Safety.
Context (I : world -> Prop).
(** What a safe operation may change: the connection, the scripts of the channel,
    the trace. *)
Context (Iconn : forall w c, I w -> conn_ssl c = conn_ssl (w_conn w) -> I (set_w_conn c w)).
Context (Iio : forall w w', I w -> w_ctx w' = w_ctx w -> w_conn w' = w_conn w ->
               w_alloc w' = w_alloc w -> I w').
Context (Ialloc : safe I alloc).

Lemma safe_mg_write buf : safe I (mg_write buf).
Proof.
  intros w Hw. unfold mg_write, mbind, M_bind.
  destruct (push_spec buf w) as (n & w' & ch & -> & Hc & Hco & Ha & _).
  eexists _, _. split; [reflexivity|]. by eapply Iio.
Qed.

Lemma safe_mg_printf text : safe I (mg_printf text).
Proof.
  pose proof safe_mg_write. unfold mg_printf.
  destruct (_ =? 0); [apply safe_ret|]. destruct (_ >? _).
  - apply safe_bind; [exact Ialloc|]. intros []; [auto|apply safe_ret].
  - destruct (_ =? _); auto.
Qed.

Lemma safe_modify_conn {B} (f : mg_connection -> mg_connection) (k : mg_connection -> unit -> M B) :
  (forall c, conn_ssl (f c) = conn_ssl c) -> (forall c u, safe I (k c u)) ->
  safe I (get_conn ≫= fun c => put_conn (f c) ≫= k c).
Proof.
  intros Hf Hk w Hw. exact (Hk (w_conn w) tt (set_w_conn (f (w_conn w)) w) (Iconn _ _ Hw (Hf _))).
Qed.

Lemma safe_modify_conn_last (f : mg_connection -> mg_connection) :
  (forall c, conn_ssl (f c) = conn_ssl c) -> safe I (get_conn ≫= fun c => put_conn (f c)).
Proof.
  intros Hf w Hw. exists tt, (set_w_conn (f (w_conn w)) w). split; [done|].
  apply Iconn; [done|apply Hf].
Qed.

Lemma safe_get_conn : safe I get_conn.
Proof. intros w Hw. by exists (w_conn w), w. Qed.
Lemma safe_get_ctx0 : safe I get_ctx.
Proof. intros w Hw. by exists (w_ctx w), w. Qed.
Lemma safe_get_trace : safe I get_trace.
Proof. intros w Hw. by exists (w_trace w), w. Qed.
Lemma safe_get_time : safe I get_time.
Proof. intros w Hw. by exists (w_time w), w. Qed.
Lemma safe_emit e : safe I (emit e).
Proof. intros w Hw. exists tt, (set_w_trace (w_trace w ++ [e]) w). split; [done|]. by apply (Iio w). Qed.

Hint Resolve safe_ret safe_get_conn safe_get_ctx0 safe_get_trace safe_get_time safe_emit
  safe_mg_write safe_mg_printf : safe.

Lemma safe_suggest : safe I suggest_connection_header.
Proof. unfold suggest_connection_header, should_keep_alive, mg_get_header. safe_auto. Qed.

Lemma safe_mg_send_http_error status reason text : safe I (mg_send_http_error status reason text).
Proof.
  pose proof safe_suggest. unfold mg_send_http_error.
  apply (safe_modify_conn (set_c_status_code status)); [done|intros].
  apply safe_bind; [auto|intros]. apply safe_bind; [auto with safe|intros].
  apply safe_bind; [auto with safe|intros].
  apply (safe_modify_conn_last (fun c => set_c_num_bytes_sent (num_bytes_sent c + _) c)). done.
Qed.
Hint Resolve safe_mg_send_http_error : safe.

Lemma safe_mg_send_authorization_request : safe I mg_send_authorization_request.
Proof.
  unfold mg_send_authorization_request.
  apply (safe_modify_conn (set_c_status_code 401)); [done|intros]. safe_auto.
Qed.

Lemma safe_retry_after delay : safe I (est_server_send_http_retry_after delay).
Proof.
  unfold est_server_send_http_retry_after.
  apply (safe_modify_conn (set_c_status_code EST_HTTP_STAT_202)); [done|intros]. safe_auto.
Qed.
Hint Resolve safe_retry_after : safe.

Lemma safe_est_send_http_error code : safe I (est_send_http_error code).
Proof.
  unfold est_send_http_error, send_400, send_401, send_500.
  destruct (est_err_of code) as [[]|]; safe_auto.
Qed.
Hint Resolve safe_est_send_http_error : safe.

Lemma safe_est_send_csrattr_data d n : safe I (est_send_csrattr_data d n).
Proof. unfold est_send_csrattr_data. safe_auto. Qed.

End Safety.

End Facts.

#[export] Hint Resolve frame_push frame_mg_write frame_mg_printf frame_mg_send_http_error
  frame_mg_send_authorization_request frame_retry_after frame_est_send_http_error
  frame_est_send_csrattr_data frame_mg_get_header : sat.

Section Delivery.
Context {L : OpenSSL}.

(** The channel received exactly [data] between two worlds. *)
Definition received (w w' : world) (data : bytes) : Prop :=
  exists chunks, w_trace w' = w_trace w ++ map EvWrite chunks /\ concat chunks = data.

(** No scripted write fails; a write may still be partial or write nothing. *)
Definition no_write_error (w : world) : Prop := Forall (fun r => 0 <= r) (w_ssl_write w).

Lemma mg_write_run buf w :
  Z.of_nat (length buf) <= INT_MAX ->
  exists n w', mg_write buf w = Some (n, w') /\
    w_ctx w' = w_ctx w /\ w_conn w' = w_conn w /\
    0 <= n <= Z.of_nat (length buf) /\ received w w' (take (Z.to_nat n) buf) /\
    (no_write_error w -> n = Z.of_nat (length buf)).
Proof.
  intros Hl. unfold mg_write.
  destruct (push_spec buf w) as (n & w' & ch & E & Hc & Hco & _ & _ & Ht & Hcat & Hn & Hex).
  rewrite (bind_run _ _ _ _ _ E). exists n, w'. unfold INT_MAX in Hl.
  assert (Hw : wrap_s 32 n = n).
  { unfold wrap_s. cbv zeta. change (2 ^ 32) with 4294967296. change (2 ^ (32 - 1)) with 2147483648.
    rewrite Z.mod_small by lia. case_match; b2p; lia. }
  split_and!; try done; try lia.
  - unfold mret, M_ret. by rewrite Hw.
  - by exists ch.
  - intros Hne. destruct (decide (n < Z.of_nat (length buf))) as [Hlt|]; [|lia].
    exfalso. specialize (Hex Hlt). unfold no_write_error in Hne.
    rewrite Exists_exists in Hex. destruct Hex as (r & Hin & Hr).
    rewrite Forall_forall in Hne. specialize (Hne r Hin). simpl in Hne. lia.
Qed.

(** [mg_write] of a buffer within an [int] always completes (partial
    writes are continued): it reports how many bytes the channel received,
    which are the first bytes of the buffer in order, and changes neither the
    context nor the connection; unless a write fails, that is the whole
    buffer. *)
Theorem mg_write_received (buf : bytes) (w : world) :
  Z.of_nat (length buf) <= INT_MAX ->
  exists n w', mg_write buf w = Some (n, w') /\
    w_ctx w' = w_ctx w /\ w_conn w' = w_conn w /\
    0 <= n <= Z.of_nat (length buf) /\ received w w' (take (Z.to_nat n) buf) /\
    (no_write_error w -> n = Z.of_nat (length buf)).
Proof. apply mg_write_run. Qed.

Lemma received_all buf w :
  Z.of_nat (length buf) <= INT_MAX -> no_write_error w ->
  exists w', mg_write buf w = Some (Z.of_nat (length buf), w') /\ received w w' buf.
Proof.
  intros Hl He. destruct (mg_write_run buf w Hl) as (n & w' & E & _ & _ & _ & Hr & Hn).
  rewrite (Hn He) in E, Hr. exists w'. split; [done|].
  by rewrite Nat2Z.id, take_ge in Hr.
Qed.

Lemma received_set_alloc s w w' d : received (set_w_alloc s w) w' d -> received w w' d.
Proof. done. Qed.

(** Formatted output reaches the channel as it was formatted,
    through the stack buffer or an allocated one, except when it fills the stack
    buffer exactly: then its last byte is replaced by a NUL.  Without memory
    for the larger buffer nothing is sent and the failure is reported. *)
Theorem mg_printf_received (text : bytes) (w : world) :
  Z.of_nat (length text) <= INT_MAX -> no_write_error w ->
  exists n w', mg_printf text w = Some (n, w') /\
    ( (Z.of_nat (length text) < MG_BUF_LEN /\ n = Z.of_nat (length text) /\ received w w' text) \/
      (Z.of_nat (length text) > MG_BUF_LEN /\ n = Z.of_nat (length text) /\ received w w' text /\
       fst <$> alloc w = Some true) \/
      (Z.of_nat (length text) > MG_BUF_LEN /\ n = -1 /\ received w w' [] /\
       fst <$> alloc w = Some false) \/
      (Z.of_nat (length text) = MG_BUF_LEN /\ n = MG_BUF_LEN /\
       received w w' (take (length text - 1) text ++ [0])) ).
Proof.
  intros Hl He. unfold mg_printf. cbv zeta.
  destruct (Z.of_nat (length text) =? 0) eqn:E0; b2p.
  { exists 0, w. split; [done|]. left. destruct text; [|simpl in E0; lia].
    split_and!; [done|done|]. exists []. by rewrite app_nil_r. }
  destruct (Z.of_nat (length text) >? MG_BUF_LEN) eqn:E1.
  - assert (Z.of_nat (length text) > MG_BUF_LEN) by (rewrite Z.gtb_ltb in E1; b2p; lia).
    unfold alloc at 1 2 3. unfold mbind at 1, M_bind at 1.
    destruct (w_alloc w) as [|[] s] eqn:Ea.
    + destruct (received_all text w Hl He) as (w' & E & Hr). exists (Z.of_nat (length text)), w'.
      split; [exact E|]. right. left. done.
    + destruct (received_all text (set_w_alloc s w) Hl He) as (w' & E & Hr).
      exists (Z.of_nat (length text)), w'. split; [exact E|]. right. left. done.
    + exists (-1), (set_w_alloc s w). split; [done|]. right. right. left.
      split_and!; [done|done|by exists []; rewrite app_nil_r|done].
  - assert (Z.of_nat (length text) <= MG_BUF_LEN) by (rewrite Z.gtb_ltb in E1; b2p; lia).
    destruct (Z.of_nat (length text) =? MG_BUF_LEN) eqn:E2; b2p.
    + set (t := take (length text - 1) text ++ [0]).
      assert (Ht : length t = length text)
        by (unfold t; rewrite length_app, length_take; simpl; lia).
      destruct (received_all t w) as (w' & E & Hr); [lia|done|].
      exists (Z.of_nat (length t)), w'. split; [done|]. do 3 right. split_and!; [done|lia|done].
    + destruct (received_all text w Hl He) as (w' & E & Hr).
      exists (Z.of_nat (length text)), w'. split; [done|]. left. split_and!; [lia|done|done].
Qed.

End Delivery.
