(* ===== verification/ServerAuthProps.v ===== *)
(** * ServerAuthProps: authentication

    The operations of HttpAuth, EnhCertAuth, ServerAuth and ServerCsr leave the context
    alone and make no service event; and what an accepted client has shown.

    Soundness of [est_enroll_auth] and [est_brski_auth] against a specification in terms
    of the TLS session and of the application's decision, the rejection of bad
    certificates, the proof of possession and the enhanced certificate authentication. *)

From S2P Require Import Prelude.
From S2P Require Import SafeC.
From S2P Require Import EstTypes.
From S2P Require Import EstState.
From S2P Require Import EstUtil.
From S2P Require Import HttpParse.
From S2P Require Import HttpIO.
From S2P Require Import EnhCertAuth.
From S2P Require Import HttpAuth.
From S2P Require Import ServerAuth.
From S2P Require Import ServerCsr.
From S2P Require Import EstLogic.
From S2P Require Import HttpIOFacts.
From S2P Require Import EstUtilFacts.
From S2P Require Import ServerEnroll.

Section Facts.
Context {L : OpenSSL}.

(** What serves a request: a callback of the application, or the connections and the
    requests of a proxy to its upstream server. *)
Definition service_cb (e : event) : Prop :=
  match e with
  | EvEnrollCb _ _ _ _ | EvReenrollCb _ _ _ _ | EvServerKeygenCb _ _ _ _ _
  | EvVoucherReqCb _ _ | EvVoucherStatusCb _ _ | EvEnrollStatusCb _ _
  | EvConnect _ _ _ | EvClientWrite _ | EvCredentialsCb _ => True
  | _ => False
  end.

Definition quiet (e : event) : Prop := ~ service_cb e.

#[global] Instance quiet_dec e : Decision (quiet e).
Proof. unfold quiet. destruct e; simpl; apply _. Defined.

Lemma quiet_write d : quiet (EvWrite d).
Proof. by intros []. Qed.
Hint Resolve quiet_write : sat.

Ltac quiet_emit := apply frame_emit; intros [].
Ltac q_step := first [sat_step | quiet_emit | solve [auto with sat]].
Ltac q_auto := repeat (cbn beta iota zeta; q_step).

(** ** Frames *)

Lemma frame_strndup s n : sat (frame quiet) (strndup_m s n).
Proof. unfold strndup_m. q_auto. Qed.
Hint Resolve frame_strndup : sat.

Lemma frame_est_base64_decode_at front src n : sat (frame quiet) (est_base64_decode_at front src n).
Proof. unfold est_base64_decode_at. q_auto. Qed.
Lemma frame_est_base64_decode src n : sat (frame quiet) (est_base64_decode src n).
Proof. unfold est_base64_decode, est_base64_decode_at. q_auto. Qed.
Lemma frame_est_base64_encode src n nl : sat (frame quiet) (est_base64_encode src n nl).
Proof. unfold est_base64_encode. q_auto. Qed.
Lemma frame_est_get_tls_uid ssl c : sat (frame quiet) (est_get_tls_uid ssl c).
Proof. unfold est_get_tls_uid. q_auto. Qed.
Hint Resolve frame_est_base64_decode_at frame_est_base64_decode frame_est_base64_encode frame_est_get_tls_uid : sat.

Lemma frame_est_get_subj nm s n : sat (frame quiet) (est_get_subj_fld_from_cert nm s n).
Proof. unfold est_get_subj_fld_from_cert. q_auto. Qed.
Hint Resolve frame_est_get_subj : sat.

Lemma frame_build_header ah peer nid : sat (frame quiet) (build_enhanced_cert_auth_header ah peer nid).
Proof. unfold build_enhanced_cert_auth_header. q_auto. Qed.
Hint Resolve frame_build_header : sat.

Lemma frame_basic h ah : sat (frame quiet) (mg_parse_auth_hdr_basic h ah).
Proof. unfold mg_parse_auth_hdr_basic. q_auto. Qed.
Lemma frame_digest_assign b n v ah : sat (frame quiet) (digest_assign b n v ah).
Proof. unfold digest_assign. q_auto. Qed.
Hint Resolve frame_digest_assign : sat.
Lemma frame_digest_loop f b s ah : sat (frame quiet) (digest_loop f b s ah).
Proof.
  revert b s ah; induction f as [|f IH]; intros; cbn [digest_loop]; [auto with sat|].
  destruct (digest_item b s) as [[[b' s'] n] v]. q_auto.
Qed.
Hint Resolve frame_digest_loop : sat.
Lemma frame_digest h ah : sat (frame quiet) (mg_parse_auth_hdr_digest h ah).
Proof. unfold mg_parse_auth_hdr_digest. q_auto. Qed.
Lemma frame_token h ah : sat (frame quiet) (mg_parse_auth_hdr_token h ah).
Proof. unfold mg_parse_auth_hdr_token. q_auto. Qed.
Hint Resolve frame_basic frame_digest frame_token : sat.

Lemma frame_check_auth ah : sat (frame quiet) (mg_check_auth ah).
Proof.
  unfold mg_check_auth. destruct (_ && _); [auto with sat|]. destruct (ah_user ah); [|q_auto].
  destruct (bool_decide _); [auto with sat|].
  unfold strcpy_s. change (MG_UID_MAX =? 0) with false. cbv beta iota zeta.
  apply (frame_modify_conn quiet (set_c_user_id _)); [done|]. auto with sat.
Qed.
Hint Resolve frame_check_auth : sat.

Lemma frame_parse_with p h ah :
  (forall h a, sat (frame quiet) (p h a)) -> sat (frame quiet) (mg_parse_with p h ah).
Proof. intros Hp. unfold mg_parse_with. destruct ah; q_auto. Qed.

Lemma frame_mg_parse_auth_header ah : sat (frame quiet) (mg_parse_auth_header ah).
Proof.
  pose proof frame_parse_with.
  unfold mg_parse_auth_header. q_auto.
Qed.
Hint Resolve frame_mg_parse_auth_header : sat.

Lemma frame_parse_csr b d : sat (frame quiet) (est_server_parse_csr b d).
Proof. unfold est_server_parse_csr. q_auto. Qed.
Hint Resolve frame_parse_csr : sat.

Lemma frame_handle_eca ssl peer b c ah f :
  sat (frame quiet) (handle_enhanced_cert_auth ssl peer b c ah f).
Proof. unfold handle_enhanced_cert_auth. q_auto. Qed.
Hint Resolve frame_handle_eca : sat.

Lemma frame_call_http_auth_cb ah peer seg : sat (frame quiet) (call_http_auth_cb ah peer seg).
Proof. unfold call_http_auth_cb. q_auto. Qed.
Hint Resolve frame_call_http_auth_cb : sat.

Lemma frame_auth_result p s r h v :
  sat (frame quiet) (est_invoke_enroll_auth_result_event_cb p s r h v).
Proof. unfold est_invoke_enroll_auth_result_event_cb. q_auto. Qed.
Hint Resolve frame_auth_result : sat.

Lemma frame_auth_header c s p b r ah f v : sat (frame quiet) (enroll_auth_header c s p b r ah f v).
Proof. unfold enroll_auth_header. q_auto. Qed.
Lemma frame_create_ah : sat (frame quiet) est_create_ah.
Proof. unfold est_create_ah. q_auto. Qed.
Hint Resolve frame_auth_header frame_create_ah : sat.

Lemma frame_auth_http s p g r b v : sat (frame quiet) (enroll_auth_http s p g r b v).
Proof. unfold enroll_auth_http. q_auto. Qed.
Lemma frame_auth_coap s p g b v : sat (frame quiet) (enroll_auth_coap s p g b v).
Proof. unfold enroll_auth_coap. q_auto. Qed.
Hint Resolve frame_auth_http frame_auth_coap : sat.

Lemma frame_est_enroll_auth s g r b : sat (frame quiet) (est_enroll_auth s g r b).
Proof. unfold est_enroll_auth. q_auto. Qed.

Lemma frame_brski_http s p g v : sat (frame quiet) (brski_auth_http s p g v).
Proof. unfold brski_auth_http. q_auto. Qed.
Lemma frame_brski_coap s p g v : sat (frame quiet) (brski_auth_coap s p g v).
Proof. unfold brski_auth_coap. q_auto. Qed.
Hint Resolve frame_brski_http frame_brski_coap : sat.

Lemma frame_est_brski_auth s g : sat (frame quiet) (est_brski_auth s g).
Proof. unfold est_brski_auth. q_auto. Qed.

Lemma frame_est_tls_uid_auth s r : sat (frame quiet) (est_tls_uid_auth s r).
Proof. unfold est_tls_uid_auth. q_auto. Qed.

Lemma frame_get_subjs p c : sat (frame quiet) (est_invoke_enroll_get_subjs p c).
Proof. unfold est_invoke_enroll_get_subjs. q_auto. Qed.
Hint Resolve frame_get_subjs : sat.

Lemma frame_req_event p b s r : sat (frame quiet) (est_invoke_enroll_req_event_cb p b s r).
Proof. unfold est_invoke_enroll_req_event_cb. q_auto. Qed.
Lemma frame_rsp_event p b s r c n : sat (frame quiet) (est_invoke_enroll_rsp_event_cb p b s r c n).
Proof. unfold est_invoke_enroll_rsp_event_cb. q_auto. Qed.
Lemma frame_endpoint_event p u t : sat (frame quiet) (est_invoke_endpoint_req_event_cb p u t).
Proof. unfold est_invoke_endpoint_req_event_cb. q_auto. Qed.

(** ** The walk over the CSR *)

Lemma frame_asn1_contents n p ptr ep len l :
  (forall a b c, sat (frame quiet) (p a b c)) -> sat (frame quiet) (asn1_contents n p ptr ep len l).
Proof.
  intros Hp. revert ptr l; induction n as [|n IH]; intros; cbn [asn1_contents]; [auto with sat|].
  q_auto.
Qed.

Lemma frame_asn1_elements n p d ptr op tot len l :
  (forall a b c, sat (frame quiet) (p a b c)) ->
  sat (frame quiet) (asn1_elements n p d ptr op tot len l).
Proof.
  intros Hp. pose proof frame_asn1_contents.
  revert ptr op len l; induction n as [|n IH]; intros; cbn [asn1_elements]; [auto with sat|].
  q_auto.
Qed.

Lemma frame_csr_asn1_parse f d b len l : sat (frame quiet) (est_server_csr_asn1_parse f d b len l).
Proof.
  revert b len l; induction f as [|f IH]; intros; cbn [est_server_csr_asn1_parse];
    [auto with sat|]. by apply frame_asn1_elements.
Qed.
Hint Resolve frame_csr_asn1_parse : sat.

Lemma frame_build_oid_list b n : sat (frame quiet) (est_server_build_csr_oid_list b n).
Proof. unfold est_server_build_csr_oid_list. q_auto. Qed.
Lemma frame_configured_csrattrs p : sat (frame quiet) (configured_csrattrs p).
Proof. unfold configured_csrattrs. q_auto. Qed.
Hint Resolve frame_build_oid_list frame_configured_csrattrs : sat.
Lemma frame_all_csrattrs b n p : sat (frame quiet) (est_server_all_csrattrs_present b n p).
Proof. unfold est_server_all_csrattrs_present. q_auto. Qed.

Lemma frame_parse_attributes p n b : sat (frame quiet) (est_asn1_parse_attributes p n b).
Proof. unfold est_asn1_parse_attributes. q_auto. Qed.
Hint Resolve frame_parse_attributes : sat.
Lemma frame_is_chpw p n : sat (frame quiet) (est_is_challengePassword_present p n).
Proof. unfold est_is_challengePassword_present. q_auto. Qed.
Lemma frame_add_chpw p n : sat (frame quiet) (est_add_challengePassword p n).
Proof. unfold est_add_challengePassword. q_auto. Qed.

End Facts.

#[export] Hint Resolve quiet_write frame_est_enroll_auth frame_est_brski_auth
  frame_est_tls_uid_auth frame_req_event frame_rsp_event frame_endpoint_event
  frame_all_csrattrs frame_parse_attributes frame_is_chpw frame_add_chpw frame_parse_csr
  frame_est_base64_encode : sat.

Section Props.
Context {L : OpenSSL}.

(** ** The specification *)

(** The TLS stack accepted the client's certificate, or accepted it but had no
    CRL to consult. *)
Definition cert_verified (ssl : SSL) (peer : X509) : Prop :=
  SSL_get_peer_certificate ssl = Some peer /\
  (wrap_s 32 (SSL_get_verify_result ssl) = X509_V_OK \/
   wrap_s 32 (SSL_get_verify_result ssl) = X509_V_ERR_UNABLE_TO_GET_CRL).

(** The client has no certificate. *)
Definition no_cert (ssl : SSL) : Prop := SSL_get_peer_certificate ssl = None.

Definition tls_verified (ssl : SSL) : Prop := exists peer, cert_verified ssl peer.
Definition srp_login (ssl : SSL) : Prop := no_cert ssl /\ is_Some (SSL_get_srp_username ssl).

(** Between two worlds the application accepted a client's credentials. *)
Definition http_accepted (w w' : world) : Prop :=
  exists cb pre a peer seg post,
    est_http_auth_cb (w_ctx w) = Some cb /\
    w_trace w' = w_trace w ++ pre ++ EvHttpAuthCb a peer seg :: post /\
    cb (w_trace w ++ pre) a peer seg = true.

(** HTTP authentication is in force for this session. *)
Definition http_required (ctx : EST_CTX) : Prop :=
  transport_mode ctx = EST_HTTP /\ is_Some (est_http_auth_cb ctx) /\
  require_http_auth ctx = HTTP_AUTH_REQUIRED.

Definition authorised (req : EST_ENROLL_REQ_TYPE) (ssl : SSL) (st : EST_AUTH_STATE) (w w' : world)
    : Prop :=
  (st = EST_HTTP_AUTH /\ http_accepted w w' /\ (tls_verified ssl \/ no_cert ssl)) \/
  (st = EST_CERT_AUTH /\ tls_verified ssl /\
   (http_required (w_ctx w) -> req <> SIMPLE_ENROLL_REQ) /\
   (transport_mode (w_ctx w) = EST_COAP -> enhanced_cert_auth_enabled (w_ctx w) = false)) \/
  (st = EST_SRP_AUTH /\ srp_login ssl /\ ~ http_required (w_ctx w) /\
   transport_mode (w_ctx w) <> EST_COAP).

(** ** The TLS check *)

Lemma check_tls_spec ssl :
  let '(continue, peer, st) := check_for_TLS_cert_auth ssl in
  (continue = false -> st = EST_UNAUTHORIZED /\ ~ tls_verified ssl /\ ~ no_cert ssl) /\
  (continue = true ->
     (st = EST_CERT_AUTH /\ exists p, peer = Some p /\ cert_verified ssl p) \/
     (st = EST_UNAUTHORIZED /\ peer = None /\ no_cert ssl)).
Proof.
  unfold check_for_TLS_cert_auth, tls_verified, cert_verified, no_cert.
  destruct (SSL_get_peer_certificate ssl) as [p|] eqn:Ep.
  - destruct (X509_V_OK =? _) eqn:E1; b2p.
    + split; [done|]. intros _. left. split; [done|]. exists p. auto.
    + destruct (X509_V_ERR_UNABLE_TO_GET_CRL =? _) eqn:E2; b2p.
      * split; [done|]. intros _. left. split; [done|]. exists p. auto.
      * split; [|done]. intros _. split; [done|]. split; [|by intros [=]].
        intros (p' & [= <-] & [H|H]); congruence.
  - split; [done|]. auto.
Qed.

Lemma srp_auth_spec ssl st :
  srp_auth ssl st = EST_SRP_AUTH /\ st <> EST_CERT_AUTH /\ is_Some (SSL_get_srp_username ssl)
  \/ srp_auth ssl st = st.
Proof.
  unfold srp_auth. case_bool_decide; simpl; [auto|]. case_bool_decide; auto.
Qed.

(** ** The application's decision *)

Lemma frame_split P w w' : frame P w w' -> exists l, w_trace w' = w_trace w ++ l.
Proof. intros [_ _ _ (l & H & _)]. by exists l. Qed.

Lemma call_cb_true ah peer seg w w' :
  call_http_auth_cb ah peer seg w = Some (true, w') -> http_accepted w w'.
Proof.
  unfold call_http_auth_cb. intros H. run_inv H as ctx w1 E1. injection E1 as <- <-.
  destruct (est_http_auth_cb (w_ctx w)) as [cb|] eqn:Ecb; [|done].
  destruct ah as [a|]; [|done].
  run_inv H as tr w2 E2. injection E2 as <- <-. run_inv H as u w3 E3. injection E3 as <- <-.
  apply ret_some in H as [Hc <-].
  exists cb, [], a, peer, seg, []. rewrite app_nil_r. done.
Qed.

(** A decision stays in the trace whatever surrounds it. *)
Lemma http_accepted_frame P w0 w1 w2 w3 :
  frame P w0 w1 -> http_accepted w1 w2 -> (exists l, w_trace w3 = w_trace w2 ++ l) ->
  http_accepted w0 w3.
Proof.
  intros F (cb & pre & a & peer & seg & post & Hcb & Ht & Hv) (l3 & H3).
  destruct (frame_split _ _ _ F) as [l0 H0].
  exists cb, (l0 ++ pre), a, peer, seg, (post ++ l3).
  rewrite <- (frame_ctx _ _ _ F), H3, Ht, H0, <- !app_assoc. rewrite H0, <- app_assoc in Hv. done.
Qed.

(** ** The two branches of est_enroll_auth *)

Lemma auth_http_ok ssl peer seg req body st w st' pr csr w' :
  enroll_auth_http ssl peer seg req body st w = Some ((st', pr, csr), w') ->
  auth_error st' = None ->
  (st' = EST_HTTP_AUTH /\ http_accepted w w') \/
  (st' = EST_CERT_AUTH /\ st = EST_CERT_AUTH /\ req <> SIMPLE_ENROLL_REQ).
Proof.
  unfold enroll_auth_http. intros H Hok. run_inv H as ctx w1 E1. injection E1 as <- <-.
  run_inv H as ah w2 E2. run_inv H as r w3 E3. destruct r as [[pr0 csr0] ah'].
  assert (F : frame quiet w w3).
  { etransitivity; [exact (frame_create_ah _ _ _ E2)|exact (frame_auth_header _ _ _ _ _ _ _ _ _ _ _ E3)]. }
  destruct pr0.
  - run_inv H as ok w4 E4. apply ret_some in H as [[= <- <- <-] <-]. destruct ok; [|done].
    left. split; [done|]. eapply http_accepted_frame; [exact F|by eapply call_cb_true|].
    exists []. by rewrite app_nil_r.
  - run_inv H as u w4 E4. by apply ret_some in H as [[= <- _ _] _].
  - destruct (enroll_req_true req) eqn:Er; cbn [andb] in H.
    + case_bool_decide; apply ret_some in H as [[= <- _ _] _]; [|done].
      right. subst. split; [done|]. split; [done|]. by intros ->.
    + by apply ret_some in H as [[= <- _ _] _].
  - by apply ret_some in H as [[= <- _ _] _].
  - by apply ret_some in H as [[= <- _ _] _].
  - by apply ret_some in H as [[= <- _ _] _].
Qed.

Lemma auth_coap_ok ssl peer seg body st w st' pr csr w' :
  enroll_auth_coap ssl peer seg body st w = Some ((st', pr, csr), w') ->
  auth_error st' = None ->
  st = EST_CERT_AUTH /\
  ((st' = EST_HTTP_AUTH /\ http_accepted w w') \/
   (st' = EST_CERT_AUTH /\ enhanced_cert_auth_enabled (w_ctx w) = false)).
Proof.
  unfold enroll_auth_coap. intros H Hok. run_inv H as ctx w1 E1. injection E1 as <- <-.
  case_bool_decide as Hst; cbn [negb] in H; [|by apply ret_some in H as [[= <- _ _] _]].
  split; [done|].
  destruct (enhanced_cert_auth_enabled (w_ctx w)) eqn:Ee.
  2:{ apply ret_some in H as [[= <- _ _] _]. auto. }
  case_bool_decide; [by apply ret_some in H as [[= <- _ _] _]|].
  run_inv H as ah w2 E2. run_inv H as r w3 E3. destruct r as [[pr0 csr0] ah'].
  assert (F : frame quiet w w3).
  { etransitivity; [exact (frame_create_ah _ _ _ E2)|]. destruct peer; [|done].
    exact (frame_handle_eca _ _ _ _ _ _ _ _ _ E3). }
  destruct pr0; try (by apply ret_some in H as [[= <- _ _] _]).
  run_inv H as ok w4 E4. apply ret_some in H as [[= <- <- <-] <-]. destruct ok; [|done].
  left. split; [done|]. eapply http_accepted_frame; [exact F|by eapply call_cb_true|].
  exists []. by rewrite app_nil_r.
Qed.

(** ** est_enroll_auth as a whole *)

Lemma enroll_auth_ok ssl seg req body w st csr w' :
  est_enroll_auth ssl seg req body w = Some ((st, csr), w') ->
  auth_error st = None ->
  authorised req ssl st w w'.
Proof.
  unfold est_enroll_auth. intros H Hok. run_inv H as ctx w1 E1. injection E1 as <- <-.
  pose proof (check_tls_spec ssl) as Ht.
  destruct (check_for_TLS_cert_auth ssl) as [[continue peer] rv0]. destruct Ht as [Hf Hc].
  run_inv H as r w2 E2. destruct r as [[rv pr] csr0]. run_inv H as u w3 E3.
  apply ret_some in H as [[= <- <-] <-].
  destruct (frame_split _ _ _ (frame_auth_result _ _ _ _ _ _ _ _ E3)) as [l3 H3].
  assert (Hacc : http_accepted w w2 -> http_accepted w w3).
  { intros A. eapply http_accepted_frame; [apply (frame_preorder quiet)|exact A|]. by exists l3. }
  clear E3. destruct continue; cbn [negb] in E2.
  2:{ apply ret_some in E2 as [[= <- _ _] _]. destruct (Hf eq_refl) as [-> _]. done. }
  specialize (Hc eq_refl). clear Hf.
  assert (Htls : tls_verified ssl \/ no_cert ssl).
  { destruct Hc as [(_ & p & _ & Hp)|(_ & _ & Hn)]; [left; by exists p|by right]. }
  assert (Hcert : srp_auth ssl rv0 = EST_CERT_AUTH -> tls_verified ssl).
  { intros He. destruct Hc as [(_ & p & _ & Hp)|(-> & _ & Hn)]; [by exists p|].
    destruct (srp_auth_spec ssl EST_UNAUTHORIZED) as [(Hs & _)|Hs]; congruence. }
  assert (Hsrp : srp_auth ssl rv0 = EST_SRP_AUTH -> srp_login ssl).
  { intros He. destruct (srp_auth_spec ssl rv0) as [(_ & Hn & Hs)|Hs].
    - split; [|done]. destruct Hc as [(-> & _)|(_ & _ & Hc)]; done.
    - destruct Hc as [(-> & _)|(-> & _)]; congruence. }
  unfold authorised, http_required.
  destruct (_ && _ && _) eqn:Eh.
  - apply andb_true_iff in Eh as [Eh _]. apply andb_true_iff in Eh as [Hh _]. b2p.
    eapply auth_http_ok in E2; [|done].
    destruct E2 as [[-> A]|(-> & Hrv & Hreq)]; [left; auto|].
    right; left. split; [done|]. split; [auto|]. split; [done|]. congruence.
  - assert (Hnot : ~ (transport_mode (w_ctx w) = EST_HTTP /\ is_Some (est_http_auth_cb (w_ctx w)) /\
                      require_http_auth (w_ctx w) = HTTP_AUTH_REQUIRED)).
    { intros (A & B & C). rewrite (bool_decide_true _ A), (bool_decide_true _ B),
        (bool_decide_true _ (eq_sym C)), orb_true_r in Eh. done. }
    case_bool_decide as Hco.
    + eapply auth_coap_ok in E2; [|done]. destruct E2 as [Hrv [[-> A]|[-> He]]]; [left; auto|].
      right; left.
      split; [done|]. split; [auto|]. split; [tauto|auto].
    + apply ret_some in E2 as [[= <- _ _] _].
      destruct (srp_auth ssl rv0) eqn:Es; try done.
      * exfalso. destruct (srp_auth_spec ssl rv0) as [(Hs & _)|Hs]; [congruence|].
        destruct Hc as [(-> & _)|(-> & _)]; congruence.
      * right; left. split; [done|]. split; [auto|]. split; [tauto|done].
      * right; right. split; [done|]. split; [auto|]. auto.
Qed.

(** ** Bad certificates *)

(** The session's certificate was refused by the TLS stack. *)
Definition cert_refused (ssl : SSL) : Prop := ~ tls_verified ssl /\ ~ no_cert ssl.

Lemma check_tls_refused ssl :
  cert_refused ssl -> check_for_TLS_cert_auth ssl = (false, None, EST_UNAUTHORIZED).
Proof.
  intros [Hv Hn]. unfold check_for_TLS_cert_auth.
  destruct (SSL_get_peer_certificate ssl) as [p|] eqn:Ep; [|done].
  destruct (X509_V_OK =? _) eqn:E1; b2p; [exfalso; apply Hv; exists p; split; auto|].
  destruct (X509_V_ERR_UNABLE_TO_GET_CRL =? _) eqn:E2; b2p;
    [exfalso; apply Hv; exists p; split; auto|]. done.
Qed.

(** A client whose certificate the TLS stack refused is unauthorised for
    every kind of request, whatever credentials it sends and whatever the
    application would say: neither the Authorization header nor the application
    is consulted, and nothing is written. *)
Theorem est_auth_cert_refused ssl seg req body w :
  cert_refused ssl ->
  exists w1 w2,
    est_enroll_auth ssl seg req body w = Some ((EST_UNAUTHORIZED, None), w1) /\
    est_brski_auth ssl seg w = Some (EST_UNAUTHORIZED, w2) /\
    Forall (fun w' => w_ctx w' = w_ctx w /\ w_conn w' = w_conn w /\
      exists l, w_trace w' = w_trace w ++ l /\
        Forall (fun e => exists r, e = EvAuthResult None seg r EST_ENHANCED_AUTH_TS_NOT_VALIDATED
                                         EST_UNAUTHORIZED) l) [w1; w2].
Proof.
  intros Hr. unfold est_enroll_auth, est_brski_auth. rewrite check_tls_refused by done.
  cbn [negb]. unfold mbind, M_bind, mret, M_ret, get_ctx, est_invoke_enroll_auth_result_event_cb.
  unfold mbind, M_bind, mret, M_ret, get_ctx, emit.
  destruct (enroll_auth_result_event_cb (w_ctx w)).
  - eexists _, _. split; [reflexivity|]. split; [reflexivity|].
    repeat constructor; simpl; (eexists [_]; split; [reflexivity|]; repeat constructor; by eexists).
  - eexists w, w. split; [reflexivity|]. split; [reflexivity|].
    repeat constructor; (exists []; by rewrite app_nil_r).
Qed.

(** ** Proof of possession *)

(** The channel binding value of the session: the base64 of the finished message
    without its last newline, if it is not too long. *)
Definition tls_uid_value (ssl : SSL) : option bytes :=
  let finished := if SSL_session_reused ssl then SSL_get_finished ssl MAX_FINISHED
                  else SSL_get_peer_finished ssl MAX_FINISHED in
  let b := snd (b64_bio_write true finished) in
  let max_len := if SSL_version ssl >? TLS1_2_VERSION then EVP_MAX_MD_SIZE * (4 / 3) + 1
                 else EST_TLS_UID_LEN in
  if Z.of_nat (length b) >? max_len then None
  else Some (take (if rd b (length b - 1) =? chr_lf then (length b - 1)%nat else length b) b).

Lemma est_get_tls_uid_value ssl w r w' :
  est_get_tls_uid ssl false w = Some (r, w') ->
  (forall u, r = Some u -> tls_uid_value ssl = Some u) /\
  (w_alloc w = [] -> r = tls_uid_value ssl).
Proof.
  unfold est_get_tls_uid, tls_uid_value. cbn [negb andb orb]. intros H.
  destruct (b64_bio_write true _) as [n b] eqn:Eb. cbn [snd].
  run_inv H as a1 w1 E1. destruct a1; cbn [negb] in H.
  2:{ apply ret_some in H as [<- _]. split; [done|]. intros Hw. unfold alloc in E1. by rewrite Hw in E1. }
  run_inv H as a2 w2 E2. destruct a2; cbn [negb] in H.
  2:{ apply ret_some in H as [<- _]. split; [done|]. intros Hw.
      unfold alloc in E1, E2. rewrite Hw in E1. injection E1 as <-. by rewrite Hw in E2. }
  destruct (_ >? _) in *; [apply ret_some in H as [<- _]; done|].
  run_inv H as a3 w3 E3. destruct a3; cbn [negb] in H; apply ret_some in H as [<- _].
  - split; [by intros u [= <-]|done].
  - split; [done|]. intros Hw. unfold alloc in E1, E2, E3. rewrite Hw in E1. injection E1 as <-.
    rewrite Hw in E2. injection E2 as <-. by rewrite Hw in E3.
Qed.

Lemma memcmp_fuel_prefix s1 s2 :
  no_nul s1 -> memcmp_fuel s1 s2 (length s1) = 0 <-> exists r, s2 = s1 ++ r.
Proof.
  intros Hn. revert s2; induction Hn as [|c l Hc Hl IH]; intros s2; cbn [memcmp_fuel length app].
  - split; [by exists s2|done].
  - cbn [hd tail]. destruct (c =? hd 0 s2) eqn:E; b2p.
    + destruct s2 as [|d s2]; simpl in E; [done|subst]. cbn [tail]. rewrite IH. split.
      * intros [r ->]. by exists r.
      * intros [r [= ->]]. by exists r.
    + split; [lia|]. intros [r ->]. done.
Qed.

(** What the proof of possession asks of a CSR. *)
Definition pop_ok (ctx : EST_CTX) (ssl : SSL) (req : X509_REQ) : Prop :=
  let i := X509_REQ_get_attr_by_NID req NID_pkcs9_challengePassword (-1) in
  (i < 0 /\ server_enable_pop ctx = false) \/
  (0 <= i /\ exists attr uid rest,
     X509_REQ_get_attr req i = Some attr /\ tls_uid_value ssl = Some uid /\ uid <> [] /\
     X509_ATTRIBUTE_get0_type attr 0 = Some (ASN1_TYPE_string (Some (uid ++ rest)))).

(** The challengePassword of a CSR, where it has one, has a string for its value. *)
Definition pw_string (req : X509_REQ) : Prop :=
  let i := X509_REQ_get_attr_by_NID req NID_pkcs9_challengePassword (-1) in
  forall attr, 0 <= i -> X509_REQ_get_attr req i = Some attr ->
    exists data, X509_ATTRIBUTE_get0_type attr 0 = Some (ASN1_TYPE_string data).

Lemma tls_uid_no_nul ssl uid :
  (forall s, no_nul (snd (b64_bio_write true s))) -> tls_uid_value ssl = Some uid -> no_nul uid.
Proof.
  intros Hb. unfold tls_uid_value. destruct (_ >? _); [done|]. intros [= <-]. auto with est.
Qed.

Lemma memcmp_s_uid uid bs :
  no_nul uid ->
  let '(rc, diff) := memcmp_s (Some uid) (Z.of_nat (length uid)) bs
                       (Z.of_nat (length uid)) 1 in
  (rc =? EOK) && (diff =? 0) = true <-> uid <> [] /\ exists r, bs = Some (uid ++ r).
Proof.
  intros Hn. unfold memcmp_s. destruct bs as [bs|].
  2:{ split; [done|]. by intros [_ [r [=]]]. }
  destruct uid as [|c l].
  { split; [done|]. by intros [? _]. }
  rewrite (proj2 (Z.eqb_neq _ 0)) by (simpl; lia).
  assert (Hm : memcmp (c :: l) bs (Z.of_nat (length (c :: l))) = 0 <-> exists r, bs = (c :: l) ++ r).
  { unfold memcmp. rewrite Nat2Z.id. by apply memcmp_fuel_prefix. }
  repeat (destr_if; b2p); try (simpl in *; lia).
  all: rewrite andb_true_iff, !Z.eqb_eq; rewrite Hm; split.
  all: first [by intros [_ [r ->]]; split; [|exists r] | by intros [_ [r [= ->]]]; split; [|exists r]].
Qed.

(** Sound, complete where no allocation fails, and with two results only. *)
Lemma tls_uid_auth_spec ssl req w r w' :
  (forall s, no_nul (snd (b64_bio_write true s))) ->
  est_tls_uid_auth ssl req w = Some (r, w') ->
  (r = EST_ERR_NONE -> pop_ok (w_ctx w) ssl req) /\
  (pop_ok (w_ctx w) ssl req -> w_alloc w = [] -> r = EST_ERR_NONE) /\
  (r = EST_ERR_NONE \/ r = EST_ERR_AUTH_FAIL_TLSUID).
Proof.
  intros Hb. unfold est_tls_uid_auth, pop_ok. intros H.
  run_inv H as ctx w1 E1. injection E1 as <- <-. cbv zeta in H.
  set (i := X509_REQ_get_attr_by_NID _ _ _) in *.
  destruct (i <? 0) eqn:Ei; b2p.
  { destruct (server_enable_pop (w_ctx w)) eqn:Ep; apply ret_some in H as [<- _].
    - split; [done|]. split; [|auto]. intros [[_ ?]|[? _]]; [done|lia].
    - split; [auto|]. auto. }
  destruct (X509_REQ_get_attr req i) as [attr|] eqn:Ea.
  2:{ apply ret_some in H as [<- _]. split; [done|]. split; [|auto].
      intros [[? _]|(_ & attr & uid & rest & [=] & _)]. lia. }
  destruct (X509_ATTRIBUTE_get0_type attr 0) as [bs|] eqn:Eb; [|done].
  run_inv H as u w2 E2. apply est_get_tls_uid_value in E2 as [Hv Hall].
  destruct u as [uid|].
  2:{ apply ret_some in H as [<- _]. split; [done|]. split; [|auto].
      intros [[? _]|(_ & a & uid & rest & _ & Hu & _)] Hw; [lia|].
      rewrite <- (Hall Hw) in Hu. done. }
  specialize (Hv _ eq_refl). destruct bs as [data|]; [|done].
  pose proof (memcmp_s_uid uid data (tls_uid_no_nul _ _ Hb Hv)) as Hm.
  destruct (memcmp_s _ _ _ _ _) as [rc diff]. destruct (_ && _) eqn:Ec; apply ret_some in H as [<- _].
  - split; [|auto]. intros _. right. split; [lia|].
    destruct (proj1 Hm eq_refl) as [Hne [rest ->]]. by exists attr, uid, rest.
  - split; [done|]. split; [|auto].
    intros [[? _]|(_ & a & uid' & rest & [= <-] & Hu & Hne & Hd)] Hw; [lia|].
    rewrite Hv in Hu. injection Hu as <-. exfalso.
    assert (false = true); [apply Hm; split; [done|exists rest; congruence]|done].
Qed.

(** ** Enhanced certificate authentication *)

(** A registered manufacturer: it has a trust store and a store context. *)
Definition registered (m : ENCHD_CERT_MFG_INFO) : option X509_STORE :=
  if mfg_store_ctx m then mfg_truststore m else None.

Lemma get_mfg_loop_spec l peer chain i rv r k :
  get_mfg_loop l peer chain i rv = (r, k) ->
  (k = -1 /\ (r = est_err_num EST_ERR_MALLOC \/
     (forall m ts, In m l -> registered m = Some ts -> X509_verify_cert ts peer chain = 0))) \/
  (r = 0 /\ i <= k /\ exists pre m post ts, l = pre ++ m :: post /\ k = i + Z.of_nat (length pre) /\
     registered m = Some ts /\ X509_verify_cert ts peer chain <> 0 /\
     forall m' ts', In m' pre -> registered m' = Some ts' -> X509_verify_cert ts' peer chain = 0).
Proof.
  revert i rv; induction l as [|m l IH]; intros i rv H; cbn [get_mfg_loop] in H.
  { injection H as <- <-. left. split; [done|]. right. intros m ts []. }
  assert (Hskip : forall rv', get_mfg_loop l peer chain (i + 1) rv' = (r, k) ->
    (forall ts, registered m = Some ts -> X509_verify_cert ts peer chain = 0) ->
    (k = -1 /\ (r = est_err_num EST_ERR_MALLOC \/
     (forall m' ts, In m' (m :: l) -> registered m' = Some ts -> X509_verify_cert ts peer chain = 0))) \/
    (r = 0 /\ i <= k /\ exists pre m' post ts, m :: l = pre ++ m' :: post /\
      k = i + Z.of_nat (length pre) /\ registered m' = Some ts /\
      X509_verify_cert ts peer chain <> 0 /\
      forall m2 ts', In m2 pre -> registered m2 = Some ts' -> X509_verify_cert ts' peer chain = 0)).
  { intros rv' H' Hm. apply IH in H' as [[Hk Hall]|(Hr & Hik & pre & m' & post & ts & Hl & Hkp & Hreg & Hv & Hpre)].
    - left. split; [done|]. destruct Hall as [?|Hall]; [by left|right].
      intros m2 ts [<-|Hin]; [apply Hm|by apply Hall].
    - right. split; [done|]. split; [lia|]. exists (m :: pre), m', post, ts.
      split; [by rewrite Hl|]. split; [simpl; lia|]. split; [done|]. split; [done|].
      intros m2 ts' [<-|Hin]; [apply Hm|by apply Hpre]. }
  unfold registered in Hskip.
  destruct (mfg_truststore m) as [ts|] eqn:Et; [destruct (mfg_store_ctx m) eqn:Es|].
  - destruct (X509_STORE_CTX_init ts peer chain); cbn [negb] in H.
    2:{ injection H as <- <-. left. auto. }
    destruct (X509_verify_cert ts peer chain =? 0) eqn:Ev; b2p.
    + eapply Hskip; [exact H|]. by intros ? [= <-].
    + injection H as <- <-. right. split; [done|]. split; [lia|].
      exists [], m, l, ts. split; [done|]. split; [simpl; lia|].
      unfold registered. rewrite Es. split; [done|]. split; [done|]. intros ? ? [].
  - eapply Hskip; [exact H|done].
  - eapply Hskip; [exact H|]. by destruct (mfg_store_ctx m).
Qed.

(** Enhanced certificate authentication attributes a client to the first
    registered manufacturer whose trust store verifies its certificate, and to
    none only when no registered manufacturer's store does or OpenSSL cannot be
    initialised. *)
Theorem est_enhcd_cert_auth_get_mfg_first ctx peer chain r k l :
  enchd_cert_mfgs_info_list ctx = Some l ->
  est_enhcd_cert_auth_get_mfg ctx peer chain = (r, k) ->
  (0 <= k -> exists m ts, r = 0 /\ l !! Z.to_nat k = Some m /\ registered m = Some ts /\
     X509_verify_cert ts peer chain <> 0 /\
     forall m' ts' j, (j < Z.to_nat k)%nat -> l !! j = Some m' -> registered m' = Some ts' ->
       X509_verify_cert ts' peer chain = 0) /\
  (k < 0 -> k = -1 /\ (r = est_err_num EST_ERR_MALLOC \/
     forall m ts, In m l -> registered m = Some ts -> X509_verify_cert ts peer chain = 0)).
Proof.
  intros Hl. unfold est_enhcd_cert_auth_get_mfg. rewrite Hl. intros H.
  apply get_mfg_loop_spec in H as [[-> Hall]|(-> & Hk & pre & m & post & ts & -> & -> & Hr & Hv & Hpre)].
  - split; [lia|auto].
  - split; [|lia]. intros _. rewrite Z.add_0_l, Nat2Z.id. exists m, ts.
    split; [done|]. split; [by rewrite list_lookup_middle|]. split; [done|]. split; [done|].
    intros m' ts' j Hj Hlk Hreg. eapply Hpre; [|exact Hreg].
    rewrite lookup_app_l in Hlk by lia. apply list_elem_of_lookup_2 in Hlk.
    by apply list_elem_of_In.
Qed.

(** ** The CSR check *)

(** The subject field a manufacturer registered, in a certificate and in a CSR. *)
Definition cert_field (peer : X509) (nid : Z) : option bytes :=
  find_subject_field_from_x509_name (X509_get_subject_name peer) nid.
Definition csr_field (csr : X509_REQ) (nid : Z) : option bytes :=
  find_subject_field_from_x509_name (X509_REQ_get_subject_name csr) nid.

(** A field is a C string that fits a user name. *)
Definition field_ok (f : option bytes) : Prop :=
  match f with Some s => no_nul s /\ Z.of_nat (length s) <= MAX_UIDPWD | None => True end.

(** The CSR repeats the certificate's field, which is not empty. *)
Definition field_copied (peer : X509) (csr : X509_REQ) (nid : Z) : Prop :=
  exists f, f <> [] /\ cert_field peer nid = Some f /\ csr_field csr nid = Some f.

Definition both_empty (peer : X509) (csr : X509_REQ) (nid : Z) : Prop :=
  cert_field peer nid = Some [] /\ csr_field csr nid = Some [].

Lemma compare_spec peer csr nid ind :
  field_ok (cert_field peer nid) -> field_ok (csr_field csr nid) ->
  match compare_subject_fields peer csr nid ind with
  | None => ~ field_copied peer csr nid /\ ~ both_empty peer csr nid
  | Some (rc, d) =>
      (rc = EOK /\ ~ both_empty peer csr nid /\ (d = 0 <-> field_copied peer csr nid)) \/
      (rc = ESZEROL /\ d = ind /\ both_empty peer csr nid)
  end.
Proof.
  unfold compare_subject_fields, get_cert_subject_line_field, get_csr_subject_line_field,
    field_copied, both_empty, cert_field, csr_field.
  destruct (find_subject_field_from_x509_name (X509_get_subject_name peer) nid) as [f|];
    [|intros _ _; split; [by intros (? & _ & ? & _)|by intros [? _]]].
  destruct (find_subject_field_from_x509_name (X509_REQ_get_subject_name csr) nid) as [g|];
    [|intros _ _; split; [by intros (? & _ & _ & ?)|by intros [_ ?]]].
  intros [Nf Lf] [Ng Lg]. unfold strnlen_s.
  rewrite !strnlen_full by (rewrite cstr_id by done; unfold MAX_UIDPWD in *; lia).
  rewrite !cstr_id by done.
  destruct (_ =? _) eqn:E; b2p; cbn [negb].
  - unfold strcmp_s. destruct (Z.of_nat (length f) =? 0) eqn:E0; b2p.
    + destruct f; [|simpl in *; lia]. destruct g; [|simpl in *; lia]. right. auto.
    + left. split; [done|]. destruct f as [|c f]; [done|]. split; [by intros [[=] _]|].
      rewrite E. assert (Hs : strncmp (c :: f) g (Z.of_nat (length g)) = 0 <-> c :: f = g).
      { rewrite strncmp_prefix by done. rewrite starts_with_spec. split.
        - intros [r Hr]. rewrite Hr in E. rewrite length_app in E.
          destruct r; [by rewrite app_nil_r in Hr|simpl in E; lia].
        - intros ->. exists []. by rewrite app_nil_r. }
      rewrite Hs. split; [intros <-; by exists (c :: f)|].
      by intros (h & _ & [= ->] & [= ->]).
  - split; [by intros (h & _ & [= ->] & [= ->])|by intros [[= ->] [= ->]]].
Qed.

(** For a client attributed to a manufacturer, the CSR check passes
    exactly when the CSR repeats the manufacturer's subject field of the client's
    certificate, and that field is not empty. *)
Theorem csr_check_mfg_iff ctx peer csr k l m :
  enchd_cert_mfgs_info_list ctx = Some l -> 0 <= k -> l !! Z.to_nat k = Some m ->
  field_ok (cert_field peer (mfg_nid m)) -> field_ok (csr_field csr (mfg_nid m)) ->
  perform_enhanced_cert_auth_csr_check ctx peer csr k = Some EST_AUTH_HDR_GOOD <->
  field_copied peer csr (mfg_nid m).
Proof.
  intros Hl Hk Hm Hf Hg. unfold perform_enhanced_cert_auth_csr_check.
  rewrite Hl, (proj2 (Z.leb_le 0 k)) by done. rewrite Hm. cbn [mbind option_bind].
  pose proof (compare_spec peer csr (mfg_nid m) 0 Hf Hg) as Hc.
  destruct (compare_subject_fields peer csr (mfg_nid m) 0) as [[rc d]|].
  - destruct Hc as [(-> & He & Hd)|(-> & -> & He)]; cbn.
    + rewrite <- Hd. destruct (d =? 0) eqn:E; b2p; split; congruence.
    + split; [done|]. destruct He as [Hc _]. intros (f & Hne & Hf' & _). congruence.
  - split; [done|]. tauto.
Qed.

Lemma csr_check_loop_zero l peer csr ind :
  (forall m, In m l -> field_ok (cert_field peer (mfg_nid m)) /\ field_ok (csr_field csr (mfg_nid m))) ->
  csr_check_loop l peer csr ind = 0 <->
  (ind = 0 /\ forall m, In m l -> registered m = None) \/
  (ind = 0 /\ exists pre m post, l = pre ++ m :: post /\ is_Some (registered m) /\
     both_empty peer csr (mfg_nid m) /\ forall m', In m' pre -> registered m' = None) \/
  (exists m, In m l /\ is_Some (registered m) /\ field_copied peer csr (mfg_nid m)).
Proof.
  revert ind; induction l as [|m l IH]; intros ind Hok; cbn [csr_check_loop].
  { split; [intros ->; left; split; [done|by intros m []]|].
    intros [[? _]|[[_ (pre & ? & ? & Hl & _)]|(? & Hin & _)]]; [done| |by destruct Hin].
    by destruct pre. }
  assert (IH' : forall i, csr_check_loop l peer csr i = 0 <-> _) by
    (intros i; apply IH; intros; apply Hok; by right). clear IH.
  destruct (Hok m (or_introl eq_refl)) as [Hf Hg].
  assert (Hskip : registered m = None ->
    csr_check_loop l peer csr ind = 0 <->
    (ind = 0 /\ forall m', In m' (m :: l) -> registered m' = None) \/
    (ind = 0 /\ exists pre m' post, m :: l = pre ++ m' :: post /\ is_Some (registered m') /\
       both_empty peer csr (mfg_nid m') /\ forall m'', In m'' pre -> registered m'' = None) \/
    (exists m', In m' (m :: l) /\ is_Some (registered m') /\ field_copied peer csr (mfg_nid m'))).
  { intros Hr. rewrite IH'. split.
    - intros [[-> Hall]|[[-> (pre & m' & post & -> & ?)]|(m' & Hin & ?)]].
      + left. split; [done|]. intros m' [<-|?]; auto.
      + right; left. split; [done|]. exists (m :: pre), m', post. split; [done|].
        destruct H as (? & ? & Hp). repeat split; try done; try apply H0. intros m2 [<-|?]; auto.
      + right; right. exists m'. split; [by right|done].
    - intros [[-> Hall]|[[-> (pre & m' & post & Hl & Hs & He & Hp)]|(m' & [<-|Hin] & Hs & ?)]].
      + left. split; [done|]. intros; apply Hall. by right.
      + right; left. split; [done|]. destruct pre as [|m0 pre]; injection Hl as <- ->.
        * rewrite Hr in Hs. by destruct Hs.
        * exists pre, m', post. repeat split; try done; try apply He. intros; apply Hp. by right.
      + rewrite Hr in Hs. by destruct Hs.
      + right; right. by exists m'. }
  unfold registered in Hskip at 1.
  destruct (mfg_truststore m) as [ts|] eqn:Et; [destruct (mfg_store_ctx m) eqn:Es|];
    [|by apply Hskip|apply Hskip; by destruct (mfg_store_ctx m)].
  assert (Hreg : registered m = Some ts) by (unfold registered; by rewrite Es).
  clear Hskip. pose proof (compare_spec peer csr (mfg_nid m) ind Hf Hg) as Hc.
  assert (Hnz : forall i, i <> 0 -> ~ field_copied peer csr (mfg_nid m) ->
                (ind = 0 -> ~ both_empty peer csr (mfg_nid m)) ->
    csr_check_loop l peer csr i = 0 <->
    (ind = 0 /\ forall m', In m' (m :: l) -> registered m' = None) \/
    (ind = 0 /\ exists pre m' post, m :: l = pre ++ m' :: post /\ is_Some (registered m') /\
       both_empty peer csr (mfg_nid m') /\ forall m'', In m'' pre -> registered m'' = None) \/
    (exists m', In m' (m :: l) /\ is_Some (registered m') /\ field_copied peer csr (mfg_nid m'))).
  { intros i Hi Hcp Hbe. rewrite IH'. split.
    - intros [[? _]|[[? _]|(m' & Hin & ?)]]; [done..|]. right; right. exists m'. split; [by right|done].
    - intros [[_ Hall]|[[Hi0 (pre & m' & post & Hl & Hs & He & Hp)]|(m' & [<-|Hin] & Hs & ?)]].
      + specialize (Hall m (or_introl eq_refl)). congruence.
      + destruct pre as [|m0 pre]; injection Hl as <- ->; [by destruct (Hbe Hi0)|].
        specialize (Hp m (or_introl eq_refl)). congruence.
      + done.
      + right; right. by exists m'. }
  destruct (compare_subject_fields peer csr (mfg_nid m) ind) as [[rc d]|].
  - destruct (d =? 0) eqn:E; b2p.
    + subst d. split; [|done]. intros _. destruct Hc as [(-> & He & Hd)|(-> & <- & He)].
      * right; right. exists m. split; [by left|]. split; [by exists ts|]. by apply Hd.
      * right; left. split; [done|]. exists [], m, l. split; [done|]. split; [by exists ts|].
        split; [done|]. intros ? [].
    + destruct Hc as [(-> & He & Hd)|(-> & -> & He)]; apply Hnz; try done.
      * by rewrite <- Hd.
      * intros (f & Hne & Hf' & _). destruct He as [He _]. congruence.
  - apply Hnz; [done|tauto|tauto].
Qed.

(** For a client no manufacturer verified, the CSR check passes
    when the CSR repeats some registered manufacturer's field of the certificate;
    it also passes when no manufacturer is registered at all, and when the first
    registered manufacturer's field is empty in both the certificate and the
    CSR. *)
Theorem csr_check_local_iff ctx peer csr k l :
  enchd_cert_mfgs_info_list ctx = Some l -> k < 0 ->
  (forall m, In m l -> field_ok (cert_field peer (mfg_nid m)) /\ field_ok (csr_field csr (mfg_nid m))) ->
  perform_enhanced_cert_auth_csr_check ctx peer csr k = Some EST_AUTH_HDR_GOOD <->
  (forall m, In m l -> registered m = None) \/
  (exists pre m post, l = pre ++ m :: post /\ is_Some (registered m) /\
     both_empty peer csr (mfg_nid m) /\ forall m', In m' pre -> registered m' = None) \/
  (exists m, In m l /\ is_Some (registered m) /\ field_copied peer csr (mfg_nid m)).
Proof.
  intros Hl Hk Hok. unfold perform_enhanced_cert_auth_csr_check.
  rewrite Hl, (proj2 (Z.leb_gt 0 k)) by lia.
  pose proof (csr_check_loop_zero l peer csr 0 Hok) as Hz.
  destruct (csr_check_loop l peer csr 0 =? 0) eqn:E; b2p.
  - split; [|done]. intros _. apply Hz in E. tauto.
  - split; [done|]. intros H. exfalso. apply E, Hz. tauto.
Qed.

End Props.
