(* ===== verification/HttpAuthProps.v ===== *)
(** * HttpAuthProps: what an accepted Authorization header contains *)

From S2P Require Import Prelude.
From S2P Require Import SafeC.
From S2P Require Import EstTypes.
From S2P Require Import EstState.
From S2P Require Import EstUtil.
From S2P Require Import EstUtilFacts.
From S2P Require Import HttpParse.
From S2P Require Import HttpIO.
From S2P Require Import EnhCertAuth.
From S2P Require Import HttpAuth.
From S2P Require Import EstLogic.
From S2P Require Import HttpIOFacts.
From S2P Require Import ServerAuthProps.

Section Props.
Context {L : OpenSSL}.

(** A user name as [STRNDUP] leaves it. *)
Definition user_ok (u : option bytes) : Prop :=
  match u with Some s => no_nul s /\ Z.of_nat (length s) <= MAX_UIDPWD | None => True end.

Lemma strndup_some s n w r w' :
  strndup_m s n w = Some (r, w') -> r = None \/ r = Some (STRNDUP s n).
Proof.
  unfold strndup_m. intros H. run_inv H as ok w1 E. apply ret_some in H as [<- _].
  destruct ok; auto.
Qed.

Lemma strndup_user s w r w' : strndup_m s MAX_UIDPWD w = Some (r, w') -> user_ok r.
Proof.
  intros H. apply strndup_some in H as [->| ->]; simpl; [done|].
  destruct (STRNDUP_no_nul_len s MAX_UIDPWD) as [Nn Hl]. split; [done|].
  unfold STRNDUP. unfold MAX_UIDPWD in *. lia.
Qed.

(** ** The three parsers on a fresh header *)

Lemma basic_spec h ah w a w' :
  mg_parse_auth_hdr_basic h ah w = Some (a, w') -> user_ok (ah_user ah) ->
  (a = ah \/ ah_mode a = AUTH_BASIC) /\ user_ok (ah_user a).
Proof.
  unfold mg_parse_auth_hdr_basic. intros H Hu.
  run_inv H as r w1 E. destruct r as [len both].
  destruct (_ || _); [apply ret_some in H as [<- _]; auto|].
  destruct (strstr_s both len (lit ":") 1) as [rc [pw|]];
    [|apply ret_some in H as [<- _]; auto].
  destruct (rd both 0 =? chr_colon).
  - destruct (len >? 1); [|apply ret_some in H as [<- _]; auto].
    run_inv H as pwd w2 E2. apply ret_some in H as [<- _]. simpl. auto.
  - destruct (tk_token _) as [v|]; [|apply ret_some in H as [<- _]; simpl; auto].
    run_inv H as user w2 E2. destruct (tk_ptr _); [|done].
    run_inv H as pwd w3 E3. apply ret_some in H as [<- _]. simpl.
    split; [auto|]. by eapply strndup_user.
Qed.

Lemma digest_assign_spec b n v ah w a w' :
  digest_assign b n v ah w = Some (a, w') -> user_ok (ah_user ah) ->
  ah_mode a = ah_mode ah /\ user_ok (ah_user a).
Proof.
  unfold digest_assign. intros H Hu.
  repeat (head_if H; [run_inv H as x w1 Er; apply ret_some in H as [<- _];
                      split; [reflexivity|]; first [exact Hu | exact (strndup_user _ _ _ _ Er)]|]).
  apply ret_some in H as [<- _]. auto.
Qed.

Lemma digest_loop_spec f b s ah w a w' :
  digest_loop f b s ah w = Some (a, w') -> user_ok (ah_user ah) ->
  ah_mode a = ah_mode ah /\ user_ok (ah_user a).
Proof.
  revert b s ah w; induction f as [|f IH]; intros b s ah w H Hu; cbn [digest_loop] in H.
  - apply ret_some in H as [<- _]. auto.
  - destruct (digest_item b s) as [[[b' s'] n] v]. destruct (_ =? 0).
    + apply ret_some in H as [<- _]. auto.
    + run_inv H as ah' w1 E. apply digest_assign_spec in E as [Hm Hu']; [|done].
      apply IH in H as [Hm2 Hu2]; [|done]. split; [congruence|done].
Qed.

Lemma token_spec h ah w a w' :
  mg_parse_auth_hdr_token h ah w = Some (a, w') ->
  a = ah \/ (ah_mode a = AUTH_TOKEN /\ ah_user a = ah_user ah).
Proof.
  unfold mg_parse_auth_hdr_token. intros H. run_inv H as r w1 E. destruct r as [len out].
  destruct (_ || _); [apply ret_some in H as [<- _]; auto|].
  destruct (negb _); [|apply ret_some in H as [<- _]; auto].
  run_inv H as t w2 E2. apply ret_some in H as [<- _]. right. done.
Qed.

(** ** The final checks *)

Definition digest_complete (a : EST_HTTP_AUTH_HDR) : Prop :=
  is_Some (ah_uri a) /\ is_Some (ah_nonce a) /\ is_Some (ah_nc a) /\ is_Some (ah_cnonce a).

Lemma check_auth_good a w w' :
  mg_check_auth a w = Some (EST_AUTH_HDR_GOOD, w') -> user_ok (ah_user a) ->
  (ah_mode a = AUTH_DIGEST -> digest_complete a) /\
  (ah_mode a = AUTH_TOKEN /\ w' = w \/
   exists u, ah_user a = Some u /\ ah_mode a <> AUTH_TOKEN /\ user_id (w_conn w') = u /\
             w_ctx w' = w_ctx w).
Proof.
  unfold mg_check_auth. intros H Hu.
  destruct (_ && _) eqn:D; [no_ret H|].
  split.
  - intros Hm. rewrite bool_decide_true in D by done. cbn [andb] in D. unfold digest_complete. b2p. tauto.
  - destruct (ah_user a) as [u|].
    + case_bool_decide as Hm; [left; by apply ret_some in H as [_ <-]|right].
      exists u. destruct Hu as [Nu Lu]. unfold strcpy_s in H.
      change (MG_UID_MAX =? 0) with false in H. cbv beta iota zeta in H.
      run_inv H as c w1 E1. run_inv H as x w2 E2. apply ret_some in H as [_ <-].
      injection E1 as <- <-. injection E2 as <- <-. cbn [w_conn set_w_conn user_id set_c_user_id w_ctx].
      rewrite cstr_strncpy by reflexivity.
      rewrite cstr_id by done. repeat split; [done|].
      apply take_ge. unfold MG_UID_MAX, MAX_UIDPWD in *. lia.
    + case_bool_decide; [left; by apply ret_some in H as [_ <-]|no_ret H].
Qed.

(** The name of the scheme each mode selects. *)
Definition scheme_of (m : EST_HTTP_AUTH_MODE) : option bytes :=
  match m with
  | AUTH_BASIC => Some (lit "Basic ")
  | AUTH_DIGEST => Some (lit "Digest ")
  | AUTH_TOKEN => Some EST_BEARER_TOKEN_STR
  | AUTH_NONE | AUTH_FAIL => None
  end.

(** The credentials a mode asks for. *)
Definition credentials_ok (ctx : EST_CTX) (a : EST_HTTP_AUTH_HDR) (uid : bytes) : Prop :=
  match auth_mode ctx with
  | AUTH_BASIC => ah_user a = Some uid
  | AUTH_DIGEST => ah_user a = Some uid /\ digest_complete a
  | AUTH_TOKEN => ah_mode a = AUTH_TOKEN
  | AUTH_NONE | AUTH_FAIL => False
  end.

Lemma parse_with_good parse h a0 w ah w' (Q : EST_HTTP_AUTH_HDR -> Prop) :
  mg_parse_with parse h (Some a0) w = Some ((EST_AUTH_HDR_GOOD, ah), w') ->
  (forall w1 a w2, parse h a0 w1 = Some (a, w2) -> Q a) ->
  exists a w1, ah = Some a /\ Q a /\ mg_check_auth a w1 = Some (EST_AUTH_HDR_GOOD, w').
Proof.
  unfold mg_parse_with. intros H HQ. run_inv H as a w1 E1. run_inv H as pr w2 E2.
  apply ret_some in H as [[= -> <-] <-]. exists a, w1. eauto.
Qed.

(** An Authorization header is accepted only when it uses the scheme
    of the context's authentication mode; the credentials of that mode are
    present, their mode is recorded, and for Basic and Digest the user name is
    the connection's user id, complete and uncut. *)
Theorem mg_parse_auth_header_good w ah w' :
  mg_parse_auth_header (Some empty_ah) w = Some ((EST_AUTH_HDR_GOOD, ah), w') ->
  exists a h s, ah = Some a /\
    get_header (http_headers (w_conn w)) (lit "Authorization") = Some h /\
    scheme_of (auth_mode (w_ctx w)) = Some s /\
    mg_strncasecmp h s (length s) = 0 /\
    ah_mode a = auth_mode (w_ctx w) /\
    credentials_ok (w_ctx w) a (user_id (w_conn w')).
Proof.
  unfold mg_parse_auth_header. intros H. run_inv H as ctx w1 E1. injection E1 as <- <-.
  run_inv H as hdr w2 E2. unfold mg_get_header in E2. run_inv E2 as c w3 E3.
  injection E3 as <- <-. apply ret_some in E2 as [<- <-].
  destruct (get_header (http_headers (w_conn w)) (lit "Authorization")) as [h|] eqn:Eh;
    [|no_ret H].
  unfold credentials_ok.
  destruct (mg_strncasecmp h (lit "Digest ") 7 =? 0) eqn:Ed; b2p.
  { case_bool_decide as Hm; [|no_ret H]. cbn [negb] in H.
    apply (parse_with_good _ _ _ _ _ _ (fun a => ah_mode a = AUTH_DIGEST /\ user_ok (ah_user a)))
      in H as (a & w4 & -> & [Ha Hu] & Hc).
    - apply check_auth_good in Hc as [Hdig [[Ht _]|(u & Hus & _ & Hid & _)]]; [congruence| |done].
      exists a, h, (lit "Digest "). rewrite Hm, Hus, Hid. repeat split; auto; by apply Hdig.
    - intros w4 a w5 E. unfold mg_parse_auth_hdr_digest in E.
      destruct (strcpy_s _ _ _) as [rc buf]. by apply digest_loop_spec in E. }
  destruct (mg_strncasecmp h (lit "Basic ") 6 =? 0) eqn:Eb; b2p.
  { case_bool_decide as Hm; [|no_ret H]. cbn [negb] in H.
    apply (parse_with_good _ _ _ _ _ _
             (fun a => (a = empty_ah \/ ah_mode a = AUTH_BASIC) /\ user_ok (ah_user a)))
      in H as (a & w4 & -> & [Ha Hu] & Hc).
    - apply check_auth_good in Hc as [_ Hc]; [|done].
      destruct Ha as [->|Ha]; [by destruct Hc as [[? _]|(u & ? & _)]|].
      destruct Hc as [[Ht _]|(u & Hus & _ & Hid & _)]; [congruence|].
      exists a, h, (lit "Basic "). rewrite Hm, Hus, Hid. repeat split; done.
    - intros w4 a w5 E. by apply basic_spec in E. }
  destruct (mg_strncasecmp h EST_BEARER_TOKEN_STR _ =? 0) eqn:Et; b2p; [|no_ret H].
  case_bool_decide as Hm; [|no_ret H]. cbn [negb] in H.
  apply (parse_with_good _ _ _ _ _ _
           (fun a => a = empty_ah \/ (ah_mode a = AUTH_TOKEN /\ ah_user a = None)))
    in H as (a & w4 & -> & Ha & Hc).
  - apply check_auth_good in Hc as [_ Hc]; [|by destruct Ha as [->|[_ ->]]].
    destruct Ha as [->|[Ha Hn]]; [by destruct Hc as [[? _]|(u & ? & _)]|].
    exists a, h, EST_BEARER_TOKEN_STR. rewrite Hm. repeat split; done.
  - intros w4 a w5 E. by apply token_spec in E.
Qed.

End Props.
