(* ===== verification/ServerCsrProps.v ===== *)
(** * ServerCsrProps: what the ASN.1 walks compute

    With a reader of well-formed headers the loops over ASN.1 data terminate;
    on DER they visit what the encoded tree contains, and the enforcement of the
    CSR attributes accepts exactly the CSRs that carry every required one. *)

From S2P Require Import Prelude.
From S2P Require Import SafeC.
From S2P Require Import EstTypes.
From S2P Require Import EstState.
From S2P Require Import EstUtil.
From S2P Require Import EstUtilFacts.
From S2P Require Import EstLogic.
From S2P Require Import ServerCsr.
From S2P Require Import ServerAuthProps.

Section Csr.
Context {L : OpenSSL}.

(** ** Termination *)

(** What the reader documents of a header that it does not flag: it has at
    least one byte, and its contents have a length. *)
Definition reader_ok : Prop :=
  (forall p n, let '(j, hl, len, _, _) := ASN1_get_object p n in
     asn1_error j = false -> 1 <= hl /\ 0 <= len) /\
  (forall p n a used, d2i_ASN1_OBJECT p n = Some (a, used) -> 1 <= used).

Local Abbreviation oid_list := (option (list bytes)).
Local Abbreviation walk := (Z -> Z -> oid_list -> M (Z * Z * oid_list)).

(** A run of a walk that completes with a result of the code, moves forward when
    it succeeds, and keeps the list when memory is available. *)
Definition walked (m : M (Z * Z * oid_list)) (ptr : Z) (l : oid_list) (strict : Prop) : Prop :=
  forall w, exists r ptr' l' w', m w = Some ((r, ptr', l'), w') /\ 0 <= r <= 2 /\
    (0 < r -> ptr <= ptr' /\ (strict -> ptr < ptr')) /\
    (w_alloc w = [] /\ is_Some l -> w_alloc w' = [] /\ is_Some l').

(** A walk that does so on at most [k] bytes. *)
Definition walks (parse : walk) (k : Z) : Prop :=
  forall ptr len l, len <= k -> walked (parse ptr len l) ptr l (0 < len).

Lemma walked_ret r ptr' l' ptr l (S : Prop) :
  0 <= r <= 2 -> (is_Some l -> is_Some l') -> (0 < r -> ptr <= ptr' /\ (S -> ptr < ptr')) ->
  walked (mret (r, ptr', l')) ptr l S.
Proof. intros Hr Hl Hp w. exists r, ptr', l', w. split_and!; tauto. Qed.

Lemma walked_bind (m : M (Z * Z * oid_list)) (f : Z * Z * oid_list -> M (Z * Z * oid_list))
    p l (S1 S2 : Prop) q :
  walked m p l S1 ->
  (forall r ptr' l', 0 <= r <= 2 -> (0 < r -> p <= ptr' /\ (S1 -> p < ptr')) ->
     walked (f (r, ptr', l')) q l' S2) ->
  walked (m ≫= f) q l S2.
Proof.
  intros Hm Hf w. destruct (Hm w) as (r & ptr' & l' & w1 & E & Hr & Hp & Ha).
  destruct (Hf r ptr' l' Hr Hp w1) as (r2 & p2 & l2 & w2 & E2 & H2 & H3 & H4). exists r2, p2, l2, w2.
  split; [|by eauto]. by rewrite (bind_run _ _ _ _ _ E).
Qed.

Lemma walked_mono m p l q (S1 S2 : Prop) :
  walked m p l S1 -> q <= p -> (S2 -> q < p \/ S1) -> walked m q l S2.
Proof.
  intros Hm Hq HS w. destruct (Hm w) as (r & ptr' & l' & w1 & E & Hr & Hp & Ha).
  exists r, ptr', l', w1. split_and!; [done|lia|lia| |done]. intros H. destruct (Hp H) as [H1 H2].
  split; [lia|]. intros Hs. destruct (HS Hs); [lia|]. specialize (H2 ltac:(done)). lia.
Qed.

Lemma asn1_contents_walks parse k len ep n ptr l :
  walks parse k -> len <= k -> (ptr < ep -> 0 < len) -> ep - ptr < Z.of_nat n -> (1 <= n)%nat ->
  walked (asn1_contents n parse ptr ep len l) ptr l False.
Proof.
  intros Hp Hk. revert ptr l; induction n as [|n IH]; intros ptr l Hlen Hn Hn1; [lia|].
  cbn [asn1_contents]. destruct (ptr <? ep) eqn:E; b2p; [|apply walked_ret; [lia|done|done]].
  eapply walked_bind; [by apply Hp|]. intros r ptr' l' Hr Hpp.
  destruct (r <=? 0) eqn:Er; b2p; [apply walked_ret; (done || lia)|].
  eapply walked_mono; [apply IH; lia|lia|done].
Qed.

Lemma asn1_elements_walks parse data k n ptr op tot length l :
  reader_ok -> (0 <= k -> walks parse k) ->
  op < ptr -> length <= k + 1 -> tot - ptr <= k + 1 -> tot - ptr < Z.of_nat n -> (1 <= n)%nat ->
  walked (asn1_elements n parse data ptr op tot length l) ptr l (ptr < tot).
Proof.
  intros [Hget _] Hp. revert ptr op length l; induction n as [|n IH];
    intros ptr op length l Hop Hl Ht Hn Hn1; [lia|].
  cbn [asn1_elements]. rewrite (proj2 (Z.ltb_lt op ptr)) by lia. rewrite andb_true_r.
  destruct (ptr <? tot) eqn:E; b2p; [|apply walked_ret; (done || lia)].
  specialize (Hp ltac:(lia)). set (cur := drop _ _). specialize (Hget cur length).
  destruct (ASN1_get_object cur length) as [[[[j hl] len] tag] xclass].
  destruct (asn1_error j) eqn:Ej; [apply walked_ret; (done || lia)|].
  destruct (Hget eq_refl) as [Hhl Hlen]. clear Hget.
  assert (Hnext : forall q length' l', ptr + hl <= q -> length' <= k + 1 ->
            walked (asn1_elements n parse data q ptr tot length' l') ptr l' (ptr < tot)).
  { intros q length' l' Hq Hl'. eapply walked_mono; [apply IH; lia|lia|lia]. }
  destruct (asn1_constructed j).
  - destruct (len >? length - hl) eqn:Eg; [apply walked_ret; (done || lia)|].
    assert (len <= length - hl) by (rewrite Z.gtb_ltb in Eg; b2p; lia).
    destruct ((j =? 33) && (len =? 0)).
    + eapply walked_bind; [apply Hp; lia|]. intros r ptr' l' Hr Hpp.
      destruct (r <=? 0) eqn:Er; b2p; [apply walked_ret; (done || lia)|].
      destruct ((r =? 2) || (tot <=? ptr')); [apply walked_ret; (done || lia)|apply Hnext; lia].
    + eapply walked_bind; [eapply (asn1_contents_walks parse k); [done|lia..]|].
      intros r ptr' l' Hr Hpp.
      destruct (r <=? 0) eqn:Er; b2p; [apply walked_ret; (done || lia)|apply Hnext; lia].
  - destruct (negb (xclass =? 0)); [apply Hnext; lia|].
    assert (Hn2 : forall l, walked (if tag =? V_ASN1_EOC then mret (2, ptr + hl + len, l)
              else asn1_elements n parse data (ptr + hl + len) ptr tot (length - hl - len) l)
              ptr l (ptr < tot)).
    { intros l'. destruct (tag =? V_ASN1_EOC); [apply walked_ret; (done || lia)|apply Hnext; lia]. }
    destruct (tag =? V_ASN1_OBJECT); [|apply Hn2].
    destruct (d2i_ASN1_OBJECT cur (len + hl)) as [[a u]|]; [|apply walked_ret; (done || lia)].
    intros w. destruct (safe_any_alloc w I) as (ok & w1 & Ea & _). rewrite (bind_run _ _ _ _ _ Ea).
    unfold alloc in Ea. destruct (w_alloc w) as [|b s] eqn:Ew; injection Ea as <- <-; cbn [negb].
    + destruct (Hn2 (est_server_add_oid_to_list l (oid_text a)) w)
        as (r & p' & l' & w' & E1 & H1 & H2 & H3).
      exists r, p', l', w'. split_and!; [done|lia|lia|done|].
      intros [_ Hs]. apply H3. split; [done|]. destruct l; [done|]. by destruct Hs.
    + destruct b; cbn [negb].
      * destruct (Hn2 (est_server_add_oid_to_list l (oid_text a)) (set_w_alloc s w))
          as (r & p' & l' & w' & E1 & H1 & H2 & H3).
        exists r, p', l', w'. split_and!; [done|lia|lia|done|]. by intros [? _].
      * eexists 0, _, _, _. split_and!; [done|lia|lia|done|]. by intros [? _].
Qed.

Lemma csr_asn1_parse_walks f data :
  reader_ok -> (1 <= f)%nat -> walks (est_server_csr_asn1_parse f data) (Z.of_nat f - 1).
Proof.
  intros Hok. induction f as [|f IH]; intros Hf; [lia|]. intros ptr len l Hl.
  cbn [est_server_csr_asn1_parse].
  eapply walked_mono.
  - apply (asn1_elements_walks _ _ (Z.of_nat f - 1)); [done|intros; apply IH; lia|lia..].
  - lia.
  - lia.
Qed.


(** The loops over the configured attributes move by at least a header. *)
Lemma csrattrs_loop_ends n data ptr total oids :
  reader_ok -> total - ptr < Z.of_nat n -> (1 <= n)%nat ->
  csrattrs_loop n data ptr total oids <> EST_ERR_LAST.
Proof.
  intros [Hget Hd2i]. revert ptr; induction n as [|n IH]; intros ptr Hn Hn1; [lia|].
  cbn [csrattrs_loop]. destruct (total - ptr >? 0) eqn:E; [|by destruct (negb _)].
  assert (0 < total - ptr) by (rewrite Z.gtb_ltb in E; b2p; lia).
  set (cur := drop _ _). specialize (Hget cur (total - ptr)).
  destruct (ASN1_get_object cur _) as [[[[j hl] len] tag] xclass].
  destruct (asn1_error j) eqn:Ej; [done|]. destruct (Hget eq_refl) as [Hhl Hlen].
  destruct (tag =? V_ASN1_OBJECT).
  - destruct (d2i_ASN1_OBJECT cur _) as [[a u]|] eqn:Ed; [|done]. apply Hd2i in Ed.
    destruct (_ =? _); [apply IH; lia|]. case_bool_decide; [done|].
    destruct (oid_search _ oids) as [e b] eqn:Eo.
    assert (He : e <> EST_ERR_LAST).
    { clear -Eo. revert Eo. induction oids as [|o r IHr]; cbn [oid_search]; [by intros [= <- <-]|].
      destruct (strcmp_s _ _ _ _) as [rc c]. destruct (negb _); [by intros [= <- <-]|].
      destruct (c =? 0); [by intros [= <- <-]|done]. }
    destruct e; try done; destruct b; try done. apply IH; lia.
  - destruct (_ || _); apply IH; lia.
Qed.

Lemma sanity_loop_ends n data ptr total pop mx :
  reader_ok -> total - ptr < Z.of_nat n -> (1 <= n)%nat ->
  fst (fst (sanity_loop n data ptr total pop mx)) <> EST_ERR_LAST.
Proof.
  intros [Hget Hd2i]. revert ptr pop mx; induction n as [|n IH]; intros ptr pop mx Hn Hn1; [lia|].
  cbn [sanity_loop]. destruct (total - ptr >? 0) eqn:E; [|by destruct (negb _)].
  assert (0 < total - ptr) by (rewrite Z.gtb_ltb in E; b2p; lia).
  set (cur := drop _ _). specialize (Hget cur (total - ptr)).
  destruct (ASN1_get_object cur _) as [[[[j hl] len] tag] xclass].
  destruct (asn1_error j) eqn:Ej; [done|]. destruct (Hget eq_refl) as [Hhl Hlen].
  destruct (tag =? V_ASN1_OBJECT).
  - destruct (d2i_ASN1_OBJECT cur _) as [[a u]|] eqn:Ed; [|apply IH; lia]. apply Hd2i in Ed.
    destruct (_ =? _); apply IH; lia.
  - destruct (_ || _); apply IH; lia.
Qed.

(** ** With memory available *)

Definition memory (w : world) : Prop := w_alloc w = [].

Lemma alloc_memory w : memory w -> alloc w = Some (true, w).
Proof. unfold memory, alloc. by intros ->. Qed.

Lemma safe_memory_alloc : safe memory alloc.
Proof. intros w Hw. exists true, w. by rewrite alloc_memory. Qed.

Lemma safe_memory_decode src n : has_text src -> safe memory (est_base64_decode src n).
Proof. intros. apply safe_base64_decode_at; [apply safe_memory_alloc|by right]. Qed.

(** The attributes of a server, its own and those its callback gives, are texts: a
    decoder that is given blanks reads in front of them. *)
Definition attrs_text (c : EST_CTX) : Prop :=
  (forall s, server_csrattrs c = Some s -> no_nul s /\ has_text s) /\
  (forall cb tr seg peer d, est_get_csr_cb c = Some cb -> fst (cb tr seg peer) = Some d ->
     MIN_CSRATTRS <= snd (cb tr seg peer) -> has_text d).

Lemma has_text_nul s : no_nul s -> has_text s -> has_text (s ++ [0]).
Proof. unfold has_text. intros Hn. by rewrite cstr_app, cstr_id by done. Qed.

(** The copy of the local attributes. *)
Lemma configured_csrattrs_local peer w s :
  memory w -> est_get_csr_cb (w_ctx w) = None -> server_csrattrs (w_ctx w) = Some s -> no_nul s ->
  configured_csrattrs peer w = Some ((EST_ERR_NONE, s ++ [0], Z.of_nat (length s)), w).
Proof.
  intros Hw Hcb Hs Hn. unfold configured_csrattrs.
  rewrite (bind_run get_ctx _ w (w_ctx w) w), Hcb, Hs by done.
  rewrite (bind_run _ _ _ _ _ (alloc_memory w Hw)). cbn [negb].
  change (default [] (Some s)) with s. unfold strcpy_s. rewrite (proj2 (Z.eqb_neq _ _)) by lia. change (negb (EOK =? EOK)) with false.
  unfold strncpy. rewrite (cstr_id s) by done. rewrite (take_ge s) by lia.
  replace (Z.to_nat (Z.of_nat (length s) + 1) - length s)%nat with 1%nat by lia.
  rewrite store_all by (rewrite length_app, !length_replicate; lia).
  unfold mret, M_ret. do 4 f_equal.
  rewrite <- (Nat.add_0_r (length s)), insert_app_r. done.
Qed.

(** The list of a CSR: a completed run with a result of the code. *)
Lemma build_list_memory body n w :
  reader_ok -> has_text body -> memory w ->
  exists e oids w', est_server_build_csr_oid_list body n w = Some ((e, oids), w') /\
    memory w' /\ e <> EST_ERR_LAST.
Proof.
  intros Hok Ht Hw. unfold est_server_build_csr_oid_list.
  rewrite (bind_run _ _ _ _ _ (alloc_memory w Hw)). cbn [negb].
  destruct (safe_memory_decode body (n * 2) Ht w Hw) as ([dl der] & w1 & E1 & Hw1).
  rewrite (bind_run _ _ _ _ _ E1). destruct (dl <=? 0); [by exists EST_ERR_BAD_BASE64, [], w1|].
  destruct (csr_asn1_parse_walks (S (Z.to_nat dl)) der Hok ltac:(lia) 0 dl (Some []) ltac:(lia) w1)
    as (r & b & l & w2 & E2 & Hr & _ & Hm).
  rewrite (bind_run _ _ _ _ _ E2). assert (Hs : w_alloc w1 = [] /\ is_Some (Some (@nil bytes))) by (split; [exact Hw1|by eexists]).
  destruct (Hm Hs) as [Hw2 Hl]. destruct l as [x|]; [|by destruct Hl].
  rewrite (proj2 (Z.eqb_neq r (-1))) by lia. destruct (r =? 0); by eexists _, _, w2.
Qed.

Lemma all_csrattrs_memory (body : bytes) (n : Z) (peer : option X509) (w : world) :
  reader_ok -> has_text body -> attrs_text (w_ctx w) -> memory w ->
  exists e w', est_server_all_csrattrs_present body n peer w = Some (e, w') /\
    memory w' /\ e <> EST_ERR_LAST.
Proof.
  intros Hok Ht [Hown Hcb] Hw. unfold est_server_all_csrattrs_present.
  rewrite (bind_run get_ctx _ w (w_ctx w) w) by done.
  destruct (_ && _) eqn:Eset; [by exists EST_ERR_NONE, w|].
  destruct (build_list_memory body n w Hok Ht Hw) as (e & oids & w1 & E1 & Hw1 & He).
  rewrite <- (frame_ctx _ _ _ (frame_build_oid_list _ _ _ _ _ E1)) in *.
  assert (Hset : est_get_csr_cb (w_ctx w1) = None -> server_csrattrs (w_ctx w1) <> None).
  { intros H1 H2. rewrite H1, H2 in Eset. done. }
  clear Eset.
  rewrite (bind_run _ _ _ _ _ E1). case_bool_decide; cbn [negb]; [|by exists e, w1].
  assert (Hc : exists e d m w2, configured_csrattrs peer w1 = Some ((e, d, m), w2) /\ memory w2 /\
             e <> EST_ERR_LAST /\ (e = EST_ERR_NONE -> MIN_CSRATTRS <= m -> has_text d)).
  { destruct (est_get_csr_cb (w_ctx w1)) as [cb|] eqn:Ecb.
    - unfold configured_csrattrs. rewrite (bind_run get_ctx _ w1 (w_ctx w1) w1), Ecb by done.
      rewrite (bind_run get_trace _ w1 (w_trace w1) w1) by done.
      pose proof (Hcb cb (w_trace w1) None peer) as Htext.
      destruct (cb (w_trace w1) None peer) as [d m].
      set (w2 := set_w_trace (w_trace w1 ++ [EvCsrCb None peer]) w1).
      rewrite (bind_run (emit (EvCsrCb None peer)) _ w1 tt w2) by done.
      destruct d as [d|]; eexists _, _, _, w2; split_and!; try done. intros _. by apply Htext.
    - destruct (server_csrattrs (w_ctx w1)) as [s|] eqn:Es; [|by destruct (Hset eq_refl)].
      destruct (Hown s eq_refl) as [Hn Hs].
      rewrite (configured_csrattrs_local peer w1 s) by done.
      eexists _, _, _, w1. split_and!; try done. intros _ _. by apply has_text_nul. }
  destruct Hc as (e2 & d & m & w2 & E2 & Hw2 & He2 & Htext). rewrite (bind_run _ _ _ _ _ E2).
  case_bool_decide; cbn [negb]; [|by exists e2, w2].
  destruct (Z.ltb_spec m MIN_CSRATTRS); [by eexists _, w2|].
  rewrite (bind_run _ _ _ _ _ (alloc_memory w2 Hw2)). cbn [negb].
  destruct (safe_memory_decode d (m * 2) (Htext ltac:(done) ltac:(done)) w2 Hw2) as ([dl der] & w3 & E3 & Hw3).
  rewrite (bind_run _ _ _ _ _ E3).
  repeat (case_match; [by eexists _, w3|]).
  eexists _, w3. split_and!; [reflexivity|done|]. apply csrattrs_loop_ends; [done|lia|lia].
Qed.

(** With memory available and a reader that advances, checking a
    CSR against the configured attributes, neither of them blank, completes: the recursive walk over the
    CSR and the loop over the attributes both end within the fuel of the model,
    and the answer is an error code of the library. *)
Theorem est_server_all_csrattrs_present_total (body : bytes) (n : Z) (peer : option X509) (w : world) :
  reader_ok -> has_text body -> attrs_text (w_ctx w) -> memory w ->
  exists e w', est_server_all_csrattrs_present body n peer w = Some (e, w') /\ e <> EST_ERR_LAST.
Proof.
  intros Hok Ht Ha Hw. destruct (all_csrattrs_memory body n peer w Hok Ht Ha Hw) as (e & w' & E & _ & He).
  by exists e, w'.
Qed.

(** The sanity test of the attributes a server is given ends as well. *)
Lemma est_asn1_sanity_test_ends (data : bytes) (n : Z) :
  reader_ok -> fst (est_asn1_sanity_test data n) <> EST_ERR_LAST.
Proof.
  intros Hok. unfold est_asn1_sanity_test. destruct (n <? _); [done|].
  pose proof (sanity_loop_ends (S (Z.to_nat n)) data 0 n false MAX_CSRATTRS Hok ltac:(lia) ltac:(lia)) as H.
  destruct (sanity_loop _ _ _ _ _ _) as [[rv pop] mx]. cbn [fst] in H.
  case_bool_decide; cbn [negb]; [|done]. by destruct (_ >? _).
Qed.

(** ** DER *)

Local Abbreviation zlen s := (Z.of_nat (length s)).

Definition der_len (n : Z) : bytes :=
  if n <? 128 then [n] else if n <? 256 then [129; n] else [130; n / 256; n mod 256].

Definition der_hdr (constructed : bool) (xclass tag len : Z) : bytes :=
  (xclass + (if constructed then 32 else 0) + tag) :: der_len len.

(** ASN.1 data: a primitive value, an object identifier, or a constructed value. *)
Inductive asn1 :=
| Prim (xclass tag : Z) (contents : bytes)
| Obj (contents : bytes)
| Cons (xclass tag : Z) (elements : list asn1).

Fixpoint der (t : asn1) : bytes :=
  match t with
  | Prim x tag c => der_hdr false x tag (zlen c) ++ c
  | Obj c => der_hdr false 0 V_ASN1_OBJECT (zlen c) ++ c
  | Cons x tag ts => let b := flat_map der ts in der_hdr true x tag (zlen b) ++ b
  end.

(** What the reader and the object decoder make of DER headers of one tag byte
    and a length below 65536. *)
Definition hdr_fits (xclass tag len : Z) : Prop :=
  In xclass [0; 64; 128; 192] /\ 0 <= tag < 31 /\ 0 <= len < 65536.

Definition reads_der (read_oid : bytes -> option ASN1_OBJECT) : Prop :=
  (forall c x tag len r n, hdr_fits x tag len -> zlen (der_hdr c x tag len) + len <= n ->
     ASN1_get_object (der_hdr c x tag len ++ r) n
     = (if c : bool then 32 else 0, zlen (der_hdr c x tag len), len, tag, x)) /\
  (forall c a r n, read_oid c = Some a -> hdr_fits 0 V_ASN1_OBJECT (zlen c) ->
     zlen (der_hdr false 0 V_ASN1_OBJECT (zlen c)) + zlen c <= n ->
     d2i_ASN1_OBJECT (der_hdr false 0 V_ASN1_OBJECT (zlen c) ++ c ++ r) n
     = Some (a, zlen (der_hdr false 0 V_ASN1_OBJECT (zlen c)) + zlen c)).

Section Der.
Context (read_oid : bytes -> option ASN1_OBJECT).

Definition all_of (P : asn1 -> Prop) (ts : list asn1) : Prop :=
  fold_right (fun t Q => P t /\ Q) True ts.

Fixpoint asn1_ok (t : asn1) : Prop :=
  match t with
  | Prim x tag c => hdr_fits x tag (zlen c) /\ (x = 0 -> tag <> V_ASN1_EOC /\ tag <> V_ASN1_OBJECT)
  | Obj c => hdr_fits 0 V_ASN1_OBJECT (zlen c) /\ is_Some (read_oid c)
  | Cons x tag ts => hdr_fits x tag (zlen (flat_map der ts)) /\
                     fold_right (fun t Q => asn1_ok t /\ Q) True ts
  end.

(** The object identifiers in the data, in order. *)
Fixpoint asn1_oids (t : asn1) : list ASN1_OBJECT :=
  match t with
  | Prim _ _ _ => []
  | Obj c => match read_oid c with Some a => [a] | None => [] end
  | Cons _ _ ts => flat_map asn1_oids ts
  end.

Context (Hder : reads_der read_oid).

Lemma der_pos t : 1 <= zlen (der t).
Proof. destruct t; simpl; lia. Qed.

Lemma der_hdr_pos c x tag n : 1 <= zlen (der_hdr c x tag n).
Proof. simpl; lia. Qed.

Lemma drop_at (pre r : bytes) : drop (Z.to_nat (zlen pre)) (pre ++ r) = r.
Proof. rewrite Nat2Z.id. by apply drop_app_l. Qed.

(** A walk of some elements, at their place in the data. *)
Definition walks_der (parse : bytes -> walk) (k : Z) : Prop :=
  forall ts pre post l w, all_of asn1_ok ts -> memory w -> zlen (flat_map der ts) <= k ->
    let b := flat_map der ts in
    parse (pre ++ b ++ post) (zlen pre) (zlen b) (Some l) w
    = Some ((1, zlen pre + zlen b, Some (l ++ map oid_text (flat_map asn1_oids ts))), w).

Lemma contents_der parse k ts pre post l w :
  walks_der parse k -> all_of asn1_ok ts -> memory w -> zlen (flat_map der ts) <= k ->
  let b := flat_map der ts in
  asn1_contents (S (Z.to_nat (zlen b))) (parse (pre ++ b ++ post)) (zlen pre) (zlen pre + zlen b)
    (zlen b) (Some l) w
  = Some ((1, zlen pre + zlen b, Some (l ++ map oid_text (flat_map asn1_oids ts))), w).
Proof.
  intros Hp Hok Hw Hk b. cbn [asn1_contents].
  destruct (zlen pre <? zlen pre + zlen b) eqn:E; b2p.
  - pose proof (Hp ts pre post l w Hok Hw Hk) as H. fold b in H. cbv zeta in H.
    rewrite (bind_run _ _ _ _ _ H). change (1 <=? 0) with false. cbv iota.
    destruct (Z.to_nat (zlen b)) eqn:En; [lia|]. cbn [asn1_contents].
    by rewrite Z.ltb_irrefl.
  - assert (Hts : ts = []).
    { destruct ts as [|t ts]; [done|]. exfalso. subst b. cbn [flat_map] in E.
      rewrite length_app in E. pose proof (der_pos t). lia. }
    subst ts. cbn. rewrite app_nil_r. unfold mret, M_ret. f_equal. f_equal. f_equal. f_equal. lia.
Qed.

(** The header fields and the contents of an element. *)
Definition der_view (t : asn1) : bool * Z * Z * bytes :=
  match t with
  | Prim x tag c => (false, x, tag, c)
  | Obj c => (false, 0, V_ASN1_OBJECT, c)
  | Cons x tag ts => (true, x, tag, flat_map der ts)
  end.

Lemma der_view_eq t k x tag c :
  der_view t = (k, x, tag, c) -> asn1_ok t ->
  der t = der_hdr k x tag (zlen c) ++ c /\ hdr_fits x tag (zlen c).
Proof. destruct t; intros [= <- <- <- <-] H; (split; [done|apply H]). Qed.

(** One element: its header is read, and what follows it is walked on. *)
Lemma elements_der parse k n ts pre post op l w :
  (0 <= k -> walks_der parse k) -> all_of asn1_ok ts -> memory w ->
  zlen (flat_map der ts) <= k + 1 -> zlen (flat_map der ts) < Z.of_nat n ->
  op < zlen pre ->
  let b := flat_map der ts in
  asn1_elements n (parse (pre ++ b ++ post)) (pre ++ b ++ post) (zlen pre) op (zlen pre + zlen b)
    (zlen b) (Some l) w
  = Some ((1, zlen pre + zlen b, Some (l ++ map oid_text (flat_map asn1_oids ts))), w).
Proof.
  intros Hp. revert n pre op l; induction ts as [|t ts IH]; intros n pre op l Hok Hw Hk Hn Hop b.
  { destruct n as [|n]; [cbn in Hn; lia|]. cbn [asn1_elements]. subst b. cbn [flat_map length Z.of_nat].
    rewrite Z.add_0_r, Z.ltb_irrefl. cbn. by rewrite app_nil_r. }
  destruct Hok as [Ht Hok]. fold (all_of asn1_ok ts) in Hok.
  destruct n as [|n]; [lia|]. cbn [asn1_elements].
  assert (Eb : b = der t ++ flat_map der ts) by done.
  pose proof (der_pos t) as Hpos. fold b in Hk, Hn.
  assert (Hb : zlen b = zlen (der t) + zlen (flat_map der ts)) by (rewrite Eb, length_app; lia).
  rewrite (proj2 (Z.ltb_lt (zlen pre) _)), (proj2 (Z.ltb_lt op _)) by lia. cbn [andb].
  rewrite drop_at.
  (* the rest of the walk *)
  assert (Hnext : forall x p m, p = zlen pre + zlen (der t) -> m = zlen (flat_map der ts) ->
            asn1_elements n (parse (pre ++ b ++ post)) (pre ++ b ++ post)
            p (zlen pre) (zlen pre + zlen b) m (Some (l ++ x)) w
          = Some ((1, zlen pre + zlen b, Some (l ++ x ++ map oid_text (flat_map asn1_oids ts))), w)).
  { intros x p m -> ->. specialize (IH n (pre ++ der t) (zlen pre) (l ++ x) Hok Hw ltac:(lia) ltac:(lia)).
    rewrite length_app, Nat2Z.inj_add in IH. specialize (IH ltac:(lia)). cbv zeta in IH.
    replace ((pre ++ der t) ++ flat_map der ts ++ post) with (pre ++ b ++ post) in IH
      by (rewrite Eb, <- !app_assoc; done).
    replace (zlen pre + zlen (der t) + zlen (flat_map der ts)) with (zlen pre + zlen b) in IH by lia.
    rewrite <- app_assoc in IH. exact IH. }
  destruct (der_view t) as [[[kd x] tag] c] eqn:Ev.
  destruct (der_view_eq t kd x tag c Ev Ht) as [Et Hf].
  pose proof (der_hdr_pos kd x tag (zlen c)) as Hh. set (h := der_hdr kd x tag (zlen c)) in *.
  assert (Hlt : zlen (der t) = zlen h + zlen c) by (rewrite Et, length_app; lia).
  assert (Ec : b ++ post = h ++ (c ++ flat_map der ts ++ post)) by (rewrite Eb, Et, <- !app_assoc; done).
  destruct Hder as [Hget Hd2i].
  assert (Hread : ASN1_get_object (b ++ post) (zlen b) = (if kd then 32 else 0, zlen h, zlen c, tag, x))
    by (rewrite Ec; apply Hget; [done|fold h; lia]).
  rewrite Hread. cbv iota.
  destruct t as [x' tag' c'|c'|x' tag' ts']; injection Ev as <- <- <- <-; cbv iota.
  - (* a primitive value *)
    change (asn1_error 0) with false. change (asn1_constructed 0) with false. cbv iota.
    specialize (Hnext [] (zlen pre + zlen h + zlen c') (zlen b - zlen h - zlen c') ltac:(lia) ltac:(lia)).
    rewrite app_nil_r in Hnext.
    destruct (x' =? 0) eqn:Ex; cbn [negb]; [|exact Hnext].
    b2p. destruct Ht as [_ Htag]. destruct (Htag Ex) as [H0 H6].
    rewrite (proj2 (Z.eqb_neq tag' V_ASN1_OBJECT)) by done.
    rewrite (proj2 (Z.eqb_neq tag' V_ASN1_EOC)) by done. exact Hnext.
  - (* an object identifier *)
    change (asn1_error 0) with false. change (asn1_constructed 0) with false.
    change (negb (0 =? 0)) with false. change (V_ASN1_OBJECT =? V_ASN1_OBJECT) with true.
    change (V_ASN1_OBJECT =? V_ASN1_EOC) with false. cbv iota.
    destruct Ht as [_ [a Ha]].
    assert (Hobj : d2i_ASN1_OBJECT (b ++ post) (zlen c' + zlen h) = Some (a, zlen h + zlen c'))
      by (rewrite Ec; apply Hd2i; [done..|fold h; lia]).
    rewrite Hobj.
    rewrite (bind_run _ _ _ _ _ (alloc_memory w Hw)). cbn [negb est_server_add_oid_to_list].
    cbn [flat_map asn1_oids]. rewrite Ha. cbn [app map].
    apply (Hnext [oid_text a]); lia.
  - (* a constructed value *)
    change (asn1_error 32) with false. change (asn1_constructed 32) with true.
    change (32 =? 33) with false. cbn [andb]. cbv iota.
    assert (Hgt : (zlen (flat_map der ts') >? zlen b - zlen h) = false)
      by (rewrite Z.gtb_ltb; apply Z.ltb_ge; lia).
    rewrite Hgt. destruct Ht as [_ Hts'].
    pose proof (contents_der parse k ts' (pre ++ h) (flat_map der ts ++ post) l w
                  (Hp ltac:(lia)) Hts' Hw ltac:(lia)) as Hc. cbv zeta in Hc.
    rewrite length_app, Nat2Z.inj_add in Hc.
    replace ((pre ++ h) ++ flat_map der ts' ++ flat_map der ts ++ post) with (pre ++ b ++ post) in Hc
      by (rewrite Ec, <- !app_assoc; done).
    rewrite (bind_run _ _ _ _ _ Hc). change (1 <=? 0) with false. cbv iota.
    cbn [flat_map asn1_oids]. rewrite map_app.
    apply Hnext; lia.
Qed.

Lemma csr_asn1_parse_der f data_k :
  data_k = Z.of_nat f - 1 -> (1 <= f)%nat ->
  walks_der (est_server_csr_asn1_parse f) data_k.
Proof.
  intros ->. induction f as [|f IH]; intros Hf; [lia|]. intros ts pre post l w Hok Hw Hk b.
  cbn [est_server_csr_asn1_parse].
  apply (elements_der (est_server_csr_asn1_parse f) (Z.of_nat f - 1)); try done; try (subst b; lia).
  intros. apply IH. lia.
Qed.

(** ** The attributes a server requires *)

(** The loop over them goes into sequences and sets, whatever their class, and
    skips every other value. *)
Definition is_container (tag : Z) : bool := (tag =? V_ASN1_SET) || (tag =? V_ASN1_SEQUENCE).

Fixpoint attrs_ok (t : asn1) : Prop :=
  match t with
  | Prim x tag c => hdr_fits x tag (zlen c) /\ tag <> V_ASN1_OBJECT /\ is_container tag = false
  | Obj c => hdr_fits 0 V_ASN1_OBJECT (zlen c) /\ is_Some (read_oid c)
  | Cons x tag ts => hdr_fits x tag (zlen (flat_map der ts)) /\ tag <> V_ASN1_OBJECT /\
                     fold_right (fun t Q => attrs_ok t /\ Q) True ts
  end.

Fixpoint attr_oids (t : asn1) : list ASN1_OBJECT :=
  match t with
  | Prim _ _ _ => []
  | Obj c => match read_oid c with Some a => [a] | None => [] end
  | Cons _ tag ts => if is_container tag then flat_map attr_oids ts else []
  end.

Lemma attrs_view_fits t k x tag c :
  der_view t = (k, x, tag, c) -> attrs_ok t ->
  der t = der_hdr k x tag (zlen c) ++ c /\ hdr_fits x tag (zlen c).
Proof. destruct t; intros [= <- <- <- <-] H; (split; [done|apply H]). Qed.

(** Is the attribute there?  The challenge password is never looked for. *)
Definition attr_present (oids : list bytes) (a : ASN1_OBJECT) : bool :=
  (OBJ_obj2nid a =? NID_pkcs9_challengePassword) || bool_decide (oid_text a ∈ oids).

(** The texts the library compares. *)
Definition is_text (s : bytes) : Prop := no_nul s /\ Z.of_nat (length s) < EST_MAX_ATTR_LEN.

Lemma oid_text_is_text a : is_text (oid_text a).
Proof.
  split; [apply cstr_no_nul|]. unfold oid_text.
  pose proof (cstr_length (take (Z.to_nat (EST_MAX_ATTR_LEN - 1)) (i2t_ASN1_OBJECT a))) as H.
  rewrite length_take in H. change EST_MAX_ATTR_LEN with 128 in *. lia.
Qed.

Lemma oid_search_spec tbuf oids :
  is_text tbuf -> Forall is_text oids ->
  oid_search tbuf oids = (EST_ERR_NONE, bool_decide (tbuf ∈ oids)).
Proof.
  intros [Nt Lt] Ho. induction Ho as [|o r [No Lo] Hr IH]; [done|]. cbn [oid_search].
  change (strcmp_s (Some o) EST_MAX_ATTR_LEN (Some tbuf) 1) with (EOK, strncmp o tbuf EST_MAX_ATTR_LEN).
  change (negb (EOK =? EOK)) with false. cbv iota.
  destruct (strncmp o tbuf EST_MAX_ATTR_LEN =? 0) eqn:E; b2p.
  - apply strncmp_zero in E; [|done|done|by left]. subst o. rewrite bool_decide_true; [done|]. by left.
  - rewrite IH. f_equal. apply bool_decide_ext. rewrite elem_of_cons. split; [by right|].
    intros [->|]; [|done]. exfalso. apply E. by apply strncmp_zero; [..|left|].
Qed.

Lemma all_of_app (P : asn1 -> Prop) ts ts' :
  all_of P ts -> all_of P ts' -> all_of P (ts ++ ts').
Proof. induction ts as [|t ts IH]; [done|]. intros [H1 H2] H. split; [done|by apply IH]. Qed.

Lemma csrattrs_loop_der n ts pre post oids :
  all_of attrs_ok ts -> Forall is_text oids -> zlen (flat_map der ts) < Z.of_nat n ->
  let b := flat_map der ts in
  csrattrs_loop n (pre ++ b ++ post) (zlen pre) (zlen pre + zlen b) oids
  = if forallb (attr_present oids) (flat_map attr_oids ts) then EST_ERR_NONE
    else EST_ERR_CSR_ATTR_MISSING.
Proof.
  intros Hok Ho. revert ts pre Hok; induction n as [|n IH]; intros ts pre Hok Hn b; [lia|].
  cbn [csrattrs_loop]. replace (zlen pre + zlen b - zlen pre) with (zlen b) by lia.
  destruct ts as [|t ts]; [done|].
  destruct Hok as [Ht Hok]. fold (all_of attrs_ok ts) in Hok.
  assert (Eb : b = der t ++ flat_map der ts) by done.
  pose proof (der_pos t) as Hpos. fold b in Hn.
  assert (Hb : zlen b = zlen (der t) + zlen (flat_map der ts)) by (rewrite Eb, length_app; lia).
  assert (Hgt : (zlen b >? 0) = true) by (apply Z.gtb_lt; lia). rewrite Hgt. rewrite drop_at.
  destruct (der_view t) as [[[kd x] tag] c] eqn:Ev.
  destruct (attrs_view_fits t kd x tag c Ev Ht) as [Et Hf].
  pose proof (der_hdr_pos kd x tag (zlen c)) as Hh. set (h := der_hdr kd x tag (zlen c)) in *.
  assert (Hlt : zlen (der t) = zlen h + zlen c) by (rewrite Et, length_app; lia).
  assert (Ec : b ++ post = h ++ (c ++ flat_map der ts ++ post)) by (rewrite Eb, Et, <- !app_assoc; done).
  destruct Hder as [Hget Hd2i].
  assert (Hread : ASN1_get_object (b ++ post) (zlen b) = (if kd then 32 else 0, zlen h, zlen c, tag, x))
    by (rewrite Ec; apply Hget; [done|fold h; lia]).
  rewrite Hread. cbv iota.
  (* the loop on the elements [ts'] that follow [skip] bytes *)
  assert (Hnext : forall ts' skip p, b ++ post = skip ++ flat_map der ts' ++ post ->
            zlen b = zlen skip + zlen (flat_map der ts') -> 1 <= zlen skip ->
            all_of attrs_ok ts' -> p = zlen pre + zlen skip ->
            csrattrs_loop n (pre ++ b ++ post) p (zlen pre + zlen b) oids
            = if forallb (attr_present oids) (flat_map attr_oids ts') then EST_ERR_NONE
              else EST_ERR_CSR_ATTR_MISSING).
  { intros ts' skip p E1 E2 E3 Hok' ->. specialize (IH ts' (pre ++ skip) Hok' ltac:(lia)).
    rewrite length_app, Nat2Z.inj_add in IH. cbv zeta in IH. rewrite <- app_assoc, <- E1 in IH.
    rewrite <- IH. f_equal. lia. }
  assert (Hskip : forall p, p = zlen pre + zlen h + zlen c ->
            csrattrs_loop n (pre ++ b ++ post) p (zlen pre + zlen b) oids
            = if forallb (attr_present oids) (flat_map attr_oids ts) then EST_ERR_NONE
              else EST_ERR_CSR_ATTR_MISSING).
  { intros p ->. apply (Hnext ts (der t)); [by rewrite Eb, <- app_assoc|lia..|done|lia]. }
  destruct t as [x' tag' c'|c'|x' tag' ts']; injection Ev as <- <- <- <-; cbv iota.
  - destruct Ht as (_ & H6 & Hc). change (asn1_error 0) with false. cbv iota.
    rewrite (proj2 (Z.eqb_neq tag' V_ASN1_OBJECT)) by done. unfold is_container in Hc. rewrite Hc.
    by apply Hskip.
  - change (asn1_error 0) with false. change (V_ASN1_OBJECT =? V_ASN1_OBJECT) with true. cbv iota.
    destruct Ht as [_ [a Ha]].
    assert (Hobj : d2i_ASN1_OBJECT (b ++ post) (zlen b) = Some (a, zlen h + zlen c'))
      by (rewrite Ec; apply Hd2i; [done..|fold h; lia]).
    rewrite Hobj. cbn [flat_map attr_oids]. rewrite Ha. cbn [app forallb].
    unfold attr_present at 1. destruct (OBJ_obj2nid a =? _); cbn [orb andb]; [apply Hskip; lia|].
    case_bool_decide; [subst oids; by rewrite (bool_decide_eq_false_2 (_ ∈ []) (not_elem_of_nil _))|].
    rewrite oid_search_spec by (done || apply oid_text_is_text).
    case_bool_decide; cbn [andb]; [apply Hskip; lia|done].
  - change (asn1_error 32) with false. cbv iota. destruct Ht as (_ & H6 & Hts').
    rewrite (proj2 (Z.eqb_neq tag' V_ASN1_OBJECT)) by done. cbn [flat_map attr_oids].
    unfold is_container. destruct (_ || _) eqn:Ect.
    + rewrite <- flat_map_app. apply (Hnext _ h); [| |lia| |lia].
      * by rewrite Ec, flat_map_app, <- app_assoc.
      * rewrite flat_map_app, length_app. lia.
      * by apply all_of_app.
    + apply Hskip. lia.
Qed.

(** ** The check as a whole *)

(** The text [s] of a request or a configuration stands for the data [t]. *)
Definition encodes (w : world) (s : bytes) (n : Z) (t : asn1) : Prop :=
  est_base64_decode s n w = Some ((zlen (der t), der t), w).

Lemma est_server_build_csr_oid_list_run (body : bytes) (n : Z) (w : world) (csr : asn1) :
  memory w -> asn1_ok csr -> encodes w body (n * 2) csr ->
  est_server_build_csr_oid_list body n w
  = Some ((EST_ERR_NONE, map oid_text (asn1_oids csr)), w).
Proof.
  intros Hw Hok Hd. unfold est_server_build_csr_oid_list.
  rewrite (bind_run _ _ _ _ _ (alloc_memory w Hw)). cbn [negb].
  rewrite (bind_run _ _ _ _ _ Hd). pose proof (der_pos csr) as Hpos.
  rewrite (proj2 (Z.leb_gt _ _)) by lia.
  pose proof (csr_asn1_parse_der (S (Z.to_nat (zlen (der csr)))) _ eq_refl ltac:(lia)
                [csr] [] [] [] w (conj Hok I) Hw) as H.
  cbv zeta in H. cbn [flat_map] in H. rewrite !app_nil_r in H. cbn [app length Z.of_nat] in H.
  specialize (H ltac:(lia)). rewrite (bind_run _ _ _ _ _ H). done.
Qed.
End Der.

(** The copy of the local attributes decodes like the original. *)
Lemma b64_analyze_loop_nul s i nws temp :
  b64_analyze_loop (s ++ [0]) i nws temp = b64_analyze_loop s i nws temp.
Proof.
  revert i nws temp; induction s as [|c s IH]; intros i nws temp; [done|].
  cbn [app b64_analyze_loop]. repeat case_match; auto.
Qed.

Lemma last_non_whitespace_nul f s k :
  (k <= length s)%nat -> last_non_whitespace f (s ++ [0]) k = last_non_whitespace f s k.
Proof.
  induction k as [|k IH]; [done|]. intros Hk. cbn [last_non_whitespace].
  rewrite rd_app_l by lia. by rewrite IH by lia.
Qed.

Lemma last_non_whitespace_lt f s k i : last_non_whitespace f s k = Some i -> i < Z.of_nat k.
Proof.
  induction k as [|k IH]; cbn [last_non_whitespace]; [destruct f; [done|intros [= <-]; lia]|].
  case_match; [|intros [= <-]; lia]. intros H1. specialize (IH H1). lia.
Qed.

Lemma est_base64_decode_nul s n w :
  no_nul s -> est_base64_decode (s ++ [0]) n w = est_base64_decode s n w.
Proof.
  intros Hn. unfold est_base64_decode, est_base64_decode_at, est_base64_str_analyze. rewrite b64_analyze_loop_nul.
  destruct (b64_analyze_loop_len s 0 0 (-1)) as [t ->].
  rewrite cstr_app, (cstr_id s) by done.
  rewrite last_non_whitespace_nul by lia.
  pose proof (last_non_whitespace_lt [] s (Z.to_nat (0 + zlen s))) as Hl.
  destruct (last_non_whitespace [] s _) as [idx|]; [|done]. specialize (Hl idx eq_refl).
  destruct (idx <? 2) eqn:E; [done|]. b2p. rewrite !rd_app_l by lia. done.
Qed.

(** C37. The enforcement of the configured attributes: a CSR passes exactly
    when every object identifier the server's attributes require, the challenge
    password apart, occurs in the CSR, at whatever depth; otherwise the answer
    is the error for a missing attribute.  Nothing else changes. *)
Theorem est_server_all_csrattrs_present_iff (read_oid : bytes -> option ASN1_OBJECT)
    (w : world) (body s : bytes) (n : Z) (peer : option X509) (csr attrs : asn1) :
  reads_der read_oid -> memory w ->
  est_get_csr_cb (w_ctx w) = None -> server_csrattrs (w_ctx w) = Some s -> no_nul s ->
  MIN_CSRATTRS <= zlen s -> MIN_ASN1_CSRATTRS <= zlen (der attrs) <= MAX_CSRATTRS ->
  asn1_ok read_oid csr -> encodes w body (n * 2) csr ->
  attrs_ok read_oid attrs -> encodes w s (zlen s * 2) attrs ->
  let missing := filter (fun a => attr_present (map oid_text (asn1_oids read_oid csr)) a = false)
                        (attr_oids read_oid attrs) in
  est_server_all_csrattrs_present body n peer w
  = Some (if bool_decide (missing = []) then EST_ERR_NONE else EST_ERR_CSR_ATTR_MISSING, w).
Proof.
  intros Hder Hw Hcb Hs Hn Hmin Hlen Hcsr Hbody Hattrs Henc missing.
  unfold est_server_all_csrattrs_present.
  rewrite (bind_run get_ctx _ w (w_ctx w) w) by done. rewrite Hs.
  rewrite bool_decide_false by done. cbn [andb].
  rewrite (bind_run _ _ _ _ _ (est_server_build_csr_oid_list_run read_oid Hder body n w csr Hw Hcsr Hbody)).
  rewrite bool_decide_true by done. cbn [negb].
  rewrite (bind_run _ _ _ _ _ (configured_csrattrs_local peer w s Hw Hcb Hs Hn)).
  rewrite bool_decide_true by done. cbn [negb].
  rewrite (proj2 (Z.ltb_ge _ _)) by done.
  rewrite (bind_run _ _ _ _ _ (alloc_memory w Hw)). cbn [negb].
  unfold encodes in Henc. rewrite <- est_base64_decode_nul in Henc by done. rewrite (bind_run _ _ _ _ _ Henc).
  rewrite (proj2 (Z.leb_gt _ _)) by (change MIN_ASN1_CSRATTRS with 2 in *; lia).
  rewrite Z.gtb_ltb, (proj2 (Z.ltb_ge _ _)) by lia. rewrite (proj2 (Z.ltb_ge _ _)) by lia.
  pose proof (csrattrs_loop_der read_oid Hder (S (Z.to_nat (zlen (der attrs)))) [attrs] [] []
                (map oid_text (asn1_oids read_oid csr)) (conj Hattrs I)) as H.
  cbn [flat_map] in H. rewrite !app_nil_r in H. cbn [app length Z.of_nat] in H. cbv zeta in H.
  change (Z.of_nat 0) with 0 in H. rewrite Z.add_0_l in H. rewrite H; [|apply Forall_map, Forall_true, oid_text_is_text|lia].
  unfold mret, M_ret. f_equal. f_equal.
  assert (E : forallb (attr_present (map oid_text (asn1_oids read_oid csr))) (attr_oids read_oid attrs)
              = bool_decide (missing = [])).
  { subst missing. generalize (attr_oids read_oid attrs). intros l. induction l as [|a l IH]; [done|].
    cbn [forallb]. rewrite filter_cons. destruct (attr_present _ a); cbn [andb].
    - rewrite decide_False by done. exact IH.
    - rewrite decide_True by done. by rewrite bool_decide_false. }
  by rewrite E.
Qed.

(** ** Adding the challenge password *)

Definition chpw_oid : bytes := [42; 134; 72; 134; 247; 13; 1; 9; 7].

(** A sequence of attributes, as the configuration writes it. *)
Definition attr_seq (ts : list asn1) : asn1 := Cons 0 V_ASN1_SEQUENCE ts.

Lemma add_chpw_run (ts : list asn1) :
  zlen (flat_map der ts) + 11 < 65536 ->
  add_chpw (flat_map der ts) = der (attr_seq (ts ++ [Obj chpw_oid])).
Proof.
  intros Hl. set (rest := flat_map der ts) in *.
  assert (Ed : flat_map der (ts ++ [Obj chpw_oid]) = rest ++ hex_chpw) by (by rewrite flat_map_app).
  unfold attr_seq. cbn [der]. rewrite Ed. unfold add_chpw.
  rewrite (length_app rest), Nat2Z.inj_add. change (zlen hex_chpw) with 11. set (n := zlen rest + 11).
  rewrite app_assoc, <- (app_assoc _ rest). unfold der_hdr, der_len.
  assert (Hn : 11 <= n < 65536) by lia.
  destruct (n >=? 256) eqn:E1; [apply Z.geb_le in E1|].
  { rewrite (proj2 (Z.ltb_ge n 128)), (proj2 (Z.ltb_ge n 256)) by lia.
    replace (n + 4 - 4) with n by lia. unfold wrap_u. rewrite Z.shiftr_div_pow2 by lia.
    change 255 with (Z.ones 8). rewrite Z.land_ones by lia. change (2 ^ 8) with 256.
    rewrite Z.mod_mod by lia. rewrite (Z.mod_small (n / 256)); [done|].
    split; [apply Z.div_pos; lia|apply Z.div_lt_upper_bound; lia]. }
  assert (n < 256) by (rewrite Z.geb_leb in E1; b2p; lia).
  destruct (n >=? 128) eqn:E2; [apply Z.geb_le in E2|].
  - rewrite (proj2 (Z.ltb_ge n 128)), (proj2 (Z.ltb_lt n 256)) by lia.
    replace (n + 3 - 3) with n by lia. unfold wrap_u. change (2 ^ 8) with 256.
    by rewrite Z.mod_small by lia.
  - assert (n < 128) by (rewrite Z.geb_leb in E2; b2p; lia).
    rewrite (proj2 (Z.ltb_lt n 128)) by lia.
    replace (n + 2 - 2) with n by lia. unfold wrap_u. change (2 ^ 8) with 256.
    by rewrite Z.mod_small by lia.
Qed.

(** Adding the challenge password to a configuration that decodes to a
    sequence of attributes yields the base64 text of the DER encoding of that
    sequence with the challenge-password object identifier behind it, its
    length field rewritten in one, two or three bytes as DER requires. *)
Theorem est_add_challengePassword_der (read_oid : bytes -> option ASN1_OBJECT) (w : world)
    (text : bytes) (n : Z) (ts : list asn1) :
  reads_der read_oid -> memory w ->
  zlen (flat_map der ts) + 11 < 65536 -> encodes w text (n * 2) (attr_seq ts) ->
  let new := attr_seq (ts ++ [Obj chpw_oid]) in
  est_add_challengePassword text n w
  = (enc ← est_base64_encode (der new) (zlen (der new) * 2) false;
     if enc_ret enc <=? 0 then mret (EST_ERR_BAD_BASE64, [])
     else mret (EST_ERR_NONE, cstr (enc_dst enc))) w /\
  attr_oids read_oid new = attr_oids read_oid (attr_seq ts) ++
                           match read_oid chpw_oid with Some a => [a] | None => [] end.
Proof.
  intros Hder Hw Hl Hd new. split.
  2: { unfold new, attr_seq. cbn [attr_oids]. change (is_container V_ASN1_SEQUENCE) with true. cbv iota.
       rewrite flat_map_app. cbn [flat_map attr_oids]. by rewrite app_nil_r. }
  unfold est_add_challengePassword. rewrite (bind_run _ _ _ _ _ (alloc_memory w Hw)). cbn [negb].
  unfold encodes in Hd. rewrite (bind_run _ _ _ _ _ Hd). pose proof (der_pos (attr_seq ts)) as Hpos.
  rewrite (proj2 (Z.leb_gt _ _)) by lia.
  set (c := flat_map der ts) in *.
  assert (Ed : der (attr_seq ts) = der_hdr true 0 V_ASN1_SEQUENCE (zlen c) ++ c) by done.
  destruct Hder as [Hget _].
  assert (Hread : ASN1_get_object (der (attr_seq ts)) (zlen (der (attr_seq ts)))
          = (32, zlen (der_hdr true 0 V_ASN1_SEQUENCE (zlen c)), zlen c, V_ASN1_SEQUENCE, 0)).
  { rewrite Ed. rewrite length_app. apply (Hget true); [|lia].
    split_and!; [by left|done|done|lia|lia]. }
  rewrite Hread. change (negb (V_ASN1_SEQUENCE =? V_ASN1_SEQUENCE)) with false. cbv iota zeta.
  assert (Er : take (Z.to_nat (zlen (der (attr_seq ts)) - zlen (der_hdr true 0 V_ASN1_SEQUENCE (zlen c))))
                 (drop (Z.to_nat (zlen (der_hdr true 0 V_ASN1_SEQUENCE (zlen c)))) (der (attr_seq ts))) = c).
  { rewrite Ed. rewrite drop_at. apply take_ge. rewrite length_app. lia. }
  rewrite Er. unfold c. rewrite add_chpw_run by done. fold new.
  rewrite (bind_run _ _ _ _ _ (alloc_memory w Hw)). cbn [negb].
  by rewrite (bind_run _ _ _ _ _ (alloc_memory w Hw)).
Qed.

End Csr.
