(* ===== verification/ServerDispatchProps.v ===== *)
(** * ServerDispatchProps: when the application is asked to issue a certificate

    The frames of the handlers of ServerEnroll, and the conditions under which their
    runs reach a service callback.

    What a run of [est_http_request] shows: the conditions of every service callback,
    the HTTP status of a refused request, the methods and paths that are served. *)

From S2P Require Import Prelude.
From S2P Require Import SafeC.
From S2P Require Import EstTypes.
From S2P Require Import EstState.
From S2P Require Import EstUtil.
From S2P Require Import EstUtilFacts.
From S2P Require Import HttpParse.
From S2P Require Import HttpIO.
From S2P Require Import EnhCertAuth.
From S2P Require Import HttpAuth.
From S2P Require Import ServerAuth.
From S2P Require Import ServerCsr.
From S2P Require Import ServerEnroll.
From S2P Require Import EstLogic.
From S2P Require Import HttpIOFacts.
From S2P Require Import ServerAuthProps.
From S2P Require Import ServerDispatch.

Section Props.
Context {L : OpenSSL}.

(** ** Frames *)

Ltac q_step := first [sat_step | (apply frame_emit; by intros []) | solve [auto with sat]].
Ltac q_auto := repeat (cbn beta iota zeta; q_step).

Lemma frame_send_200 h d : sat (frame quiet) (send_200 h d).
Proof. unfold send_200. q_auto. Qed.
Hint Resolve frame_send_200 : sat.

Lemma frame_pop_check s p c : sat (frame quiet) (pop_check s p c).
Proof. unfold pop_check. q_auto. Qed.
Lemma frame_attrs_check b p : sat (frame quiet) (attrs_check b p).
Proof. unfold attrs_check. q_auto. Qed.
Lemma frame_bad_ct c : sat (frame quiet) (bad_pkcs10_ct c).
Proof. unfold bad_pkcs10_ct. q_auto. Qed.
Lemma frame_get_csr c b : sat (frame quiet) (get_csr c b).
Proof. unfold get_csr. q_auto. Qed.
Lemma frame_user_id : sat (frame quiet) http_user_id.
Proof. unfold http_user_id. q_auto. Qed.
Hint Resolve frame_pop_check frame_attrs_check frame_bad_ct frame_get_csr frame_user_id : sat.

Lemma frame_enroll_response rv c b : sat (frame quiet) (enroll_response rv c b).
Proof. unfold enroll_response. q_auto. Qed.

Lemma frame_write_parts l : sat (frame quiet) (write_parts l).
Proof. induction l as [|p l IH]; cbn [write_parts]; q_auto. Qed.
Hint Resolve frame_write_parts : sat.
Lemma frame_keygen_response rv c k : sat (frame quiet) (keygen_response rv c k).
Proof. unfold keygen_response. q_auto. Qed.

Lemma frame_sign c k m : sat (frame quiet) (est_X509_REQ_sign c k m).
Proof. unfold est_X509_REQ_sign. q_auto. Qed.
Hint Resolve frame_sign : sat.
Lemma frame_keygen_csr c : sat (frame quiet) (keygen_csr c).
Proof. unfold keygen_csr. q_auto. Qed.

(** ** CSRs *)

Lemma parse_csr_some body m w csr w' :
  est_server_parse_csr body m w = Some (Some csr, w') ->
  exists p, body = Some p /\
    d2i_X509_REQ_bio (match m with EST_CSR_DECODE => true | _ => false end) p = Some csr.
Proof.
  unfold est_server_parse_csr. destruct body as [p|]; intros H; [|no_ret H].
  run_inv H as b1 w1 E1. destruct b1; cbn [negb] in H; [|no_ret H].
  destruct m; [|apply ret_some in H as [H _]; by exists p].
  run_inv H as b2 w2 E2. destruct b2; cbn [negb] in H; [|no_ret H].
  apply ret_some in H as [H _]. by exists p.
Qed.

(** The CSR cached by the authentication is the body's. *)
Lemma eca_csr ssl peer body ah f w r csr ah' w' :
  handle_enhanced_cert_auth ssl peer body None ah f w = Some ((r, Some csr, ah'), w') ->
  exists p, body = Some p /\ d2i_X509_REQ_bio true p = Some csr.
Proof.
  unfold handle_enhanced_cert_auth. intros H. run_inv H as ctx w1 E1. injection E1 as <- <-.
  destruct (SSL_get_peer_cert_chain ssl); [|no_ret H].
  destruct (est_enhcd_cert_auth_get_mfg _ _ _) as [e k]. destruct (_ || _); [|no_ret H].
  run_inv H as x w2 E2. destruct x as [res csr'].
  assert (Hc : csr' = Some csr).
  { destruct (bool_decide (res = EST_AUTH_HDR_GOOD)); [|by apply ret_some in H as [[= _ -> _] _]].
    destruct (0 <=? k).
    - destruct (enchd_cert_mfgs_info_list (w_ctx w)) as [ml|]; [|done].
      destruct (ml !! Z.to_nat k); [|done].
      run_inv H as y w3 E3. destruct y. by apply ret_some in H as [[= _ -> _] _].
    - run_inv H as y w3 E3. destruct y. by apply ret_some in H as [[= _ -> _] _]. }
  subst csr'. destruct f; [no_ret E2|].
  run_inv E2 as c w3 E3. destruct c as [c|]; [|no_ret E2].
  destruct (perform_enhanced_cert_auth_csr_check _ _ _ _); [|done].
  apply ret_some in E2 as [[= _ ->] _]. by apply parse_csr_some in E3.
Qed.

Lemma enroll_auth_csr ssl seg req body w st csr w' :
  est_enroll_auth ssl seg req body w = Some ((st, Some csr), w') ->
  exists p, body = Some p /\ d2i_X509_REQ_bio true p = Some csr.
Proof.
  unfold est_enroll_auth. intros H. run_inv H as ctx w1 E1. injection E1 as <- <-.
  destruct (check_for_TLS_cert_auth ssl) as [[co peer] rv0].
  run_inv H as r w2 E2. destruct r as [[rv pr] csr0]. run_inv H as u w3 E3.
  apply ret_some in H as [[= _ ->] _]. clear E3.
  destruct co; cbn [negb] in E2; [|no_ret E2]. destruct (_ && _ && _).
  - unfold enroll_auth_http in E2. run_inv E2 as c w4 E4. injection E4 as <- <-.
    run_inv E2 as ah w5 E5. run_inv E2 as x w6 E6. destruct x as [[pr0 csr0] ah'].
    assert (Hc : csr0 = Some csr).
    { destruct pr0; try (by apply ret_some in E2 as [[= _ _ ->] _]).
      - run_inv E2 as ok w7 E7. by apply ret_some in E2 as [[= _ _ ->] _].
      - run_inv E2 as ok w7 E7. by apply ret_some in E2 as [[= _ _ ->] _].
      - head_if E2; by apply ret_some in E2 as [[= _ _ ->] _]. }
    subst csr0. unfold enroll_auth_header in E6. head_if E6.
    + destruct peer; [|done]. by eapply eca_csr.
    + run_inv E6 as y w7 E7. destruct y. no_ret E6.
  - case_bool_decide; [|no_ret E2]. unfold enroll_auth_coap in E2.
    run_inv E2 as c w4 E4. injection E4 as <- <-.
    case_bool_decide; cbn [negb] in E2; [|no_ret E2].
    destruct (enhanced_cert_auth_enabled (w_ctx w)); [|no_ret E2].
    case_bool_decide; [no_ret E2|].
    run_inv E2 as ah w5 E5. run_inv E2 as x w6 E6. destruct x as [[pr0 csr0] ah'].
    assert (Hc : csr0 = Some csr).
    { destruct pr0; try (by apply ret_some in E2 as [[= _ _ ->] _]).
      run_inv E2 as ok w7 E7. by apply ret_some in E2 as [[= _ _ ->] _]. }
    subst csr0. destruct peer; [|done]. by eapply eca_csr.
Qed.

(** C36. The server's authentication lets a client in only if the
    application accepted its HTTP credentials, or the TLS stack verified its
    certificate, or the session is an SRP login; where HTTP authentication is in
    force SRP is not enough, and a verified certificate alone only for requests
    other than a simple enrollment; over CoAP a certificate is a must and with
    enhanced certificate authentication the application decides.  The CSR it hands
    on is the one in the request's body, the context and the TLS session are
    unchanged, and no enrollment callback has been made. *)
Theorem est_enroll_auth_sound ssl seg req body w st csr w' :
  est_enroll_auth ssl seg req body w = Some ((st, csr), w') ->
  (auth_error st = None -> authorised req ssl st w w') /\
  (forall c, csr = Some c -> exists p, body = Some p /\ d2i_X509_REQ_bio true p = Some c) /\
  frame quiet w w'.
Proof.
  intros H. split; [by eapply enroll_auth_ok|]. split; [|by eapply frame_est_enroll_auth].
  intros c ->. by eapply enroll_auth_csr.
Qed.

Lemma get_csr_some cached body w csr w' :
  get_csr cached body w = Some (Some csr, w') ->
  (forall c, cached = Some c -> exists p, body = Some p /\ d2i_X509_REQ_bio true p = Some c) ->
  exists p, body = Some p /\ d2i_X509_REQ_bio true p = Some csr.
Proof.
  unfold get_csr. intros H Hc. destruct cached as [c|].
  - apply ret_some in H as [[= <-] _]. by apply Hc.
  - by apply parse_csr_some in H.
Qed.

(** ** The guards of a service callback *)

(** The CSR carries a public key and its own signature verifies with it. *)
Definition csr_signed (csr : X509_REQ) : Prop :=
  exists k, X509_REQ_get_pubkey csr = Some k /\ 0 < X509_REQ_verify csr k.

Lemma check_csr_iff csr : est_server_check_csr csr = 0 <-> csr_signed csr.
Proof.
  unfold est_server_check_csr, csr_signed. destruct (X509_REQ_get_pubkey csr) as [k|].
  - destruct (_ <? 0) eqn:E; b2p; [split; [done|intros (k' & [= <-] & ?); lia]|].
    destruct (_ =? 0) eqn:E2; b2p; [split; [done|intros (k' & [= <-] & ?); lia]|].
    split; [|done]. intros _. exists k. split; [done|lia].
  - split; [done|]. by intros (k & [=] & _).
Qed.

(** The attribute check succeeded on this CSR in the run from [w] to [w']: at a point
    [w1] of the run, which has the context of [w], so that the attributes are those the
    server is configured with, or those its callback named after the events up to there. *)
Definition attrs_passed (w w' : world) (body : bytes) (peer : option X509) : Prop :=
  exists w1 w2, frame quiet w w1 /\
    est_server_all_csrattrs_present body (Z.of_nat (length body)) peer w1 = Some (EST_ERR_NONE, w2) /\
    exists l, w_trace w' = w_trace w2 ++ l.

Lemma attrs_passed_lift w0 w1 w2 w3 body peer :
  frame quiet w0 w1 -> (exists l, w_trace w3 = w_trace w2 ++ l) ->
  attrs_passed w1 w2 body peer -> attrs_passed w0 w3 body peer.
Proof.
  intros F (l & Hl) (v1 & v2 & F1 & H & l2 & Hl2). exists v1, v2.
  split; [by etransitivity|]. split; [done|]. exists (l2 ++ l). by rewrite Hl, Hl2, app_assoc.
Qed.

(** The checks between the authentication and the callback. *)
Definition csr_accepted (w w' : world) (ssl : SSL) (peer : option X509) (csr : X509_REQ)
    (pkcs10 : bytes) : Prop :=
  csr_signed csr /\
  (client_is_ra peer = true \/ pop_ok (w_ctx w) ssl csr) /\
  (enforce_csrattrs (w_ctx w) = true -> attrs_passed w w' pkcs10 peer).

Lemma csr_accepted_lift w0 w1 w2 w3 ssl peer csr pkcs10 :
  frame quiet w0 w1 -> (exists l, w_trace w3 = w_trace w2 ++ l) ->
  csr_accepted w1 w2 ssl peer csr pkcs10 -> csr_accepted w0 w3 ssl peer csr pkcs10.
Proof.
  intros F Hl (Hs & Hp & Ha). unfold csr_accepted. rewrite (frame_ctx _ _ _ F) in Hp, Ha.
  split; [done|]. split; [done|]. intros He. eapply attrs_passed_lift; eauto.
Qed.

(** A run that makes no service callback, or makes one behind a guard. *)
Definition guarded (G : event -> Prop) (w w' : world) : Prop :=
  exists l, w_trace w' = w_trace w ++ l /\ Forall (fun e => service_cb e -> G e) l.

Lemma guarded_quiet G w w' : frame quiet w w' -> guarded G w w'.
Proof.
  intros [_ _ _ (l & H & F)]. exists l. split; [done|].
  eapply Forall_impl; [|exact F]. intros e Hq Hs. by destruct Hq.
Qed.

Lemma guarded_step G P w0 w1 w2 : frame P w0 w1 -> (forall e, P e -> quiet e) ->
  guarded G w1 w2 -> guarded G w0 w2.
Proof.
  intros F HP (l2 & H2 & F2). destruct F as [_ _ _ (l1 & H1 & F1)].
  exists (l1 ++ l2). rewrite H2, H1, app_assoc. split; [done|]. apply Forall_app. split; [|done].
  eapply Forall_impl; [|exact F1]. intros e He Hs. by destruct (HP e He).
Qed.

Lemma guarded_emit G e w w' :
  G e -> frame quiet (set_w_trace (w_trace w ++ [e]) w) w' -> guarded G w w'.
Proof.
  intros He [_ _ _ (l & H & F)]. exists (e :: l). simpl in H. rewrite H, <- app_assoc.
  split; [done|]. constructor; [done|].
  eapply Forall_impl; [|exact F]. intros e' Hq Hs. by destruct Hq.
Qed.

(** The trace goes on behind what was quiet and an event. *)
Lemma trace_after_emit w0 w1 e w2 :
  frame quiet w0 w1 -> frame quiet (set_w_trace (w_trace w1 ++ [e]) w1) w2 ->
  exists l, w_trace w2 = w_trace w0 ++ l.
Proof.
  intros F1 F2. destruct (frame_split _ _ _ F1) as [l1 H1]. destruct (frame_split _ _ _ F2) as [l2 H2].
  cbn in H2. exists (l1 ++ e :: l2). by rewrite H2, H1, <- !app_assoc.
Qed.

Lemma safe_pop_check ssl peer csr :
  pw_string csr -> safe (fun _ => True) (pop_check ssl peer csr).
Proof.
  intros Hpw. unfold pop_check, est_tls_uid_auth, est_get_tls_uid.
  destruct (client_is_ra peer); [apply safe_ret|]. apply safe_get_ctx. intros w _. cbv zeta.
  destruct (_ <? 0) eqn:Ei; b2p; [destruct (server_enable_pop _); apply safe_ret|].
  destruct (X509_REQ_get_attr _ _) as [attr|] eqn:Ea; [|apply safe_ret].
  destruct (Hpw attr ltac:(lia) Ea) as [data ->]. safe_auto.
Qed.

Lemma pop_check_ok ssl peer csr w w' :
  (forall s, no_nul (snd (b64_bio_write true s))) ->
  pop_check ssl peer csr w = Some (EST_ERR_NONE, w') ->
  client_is_ra peer = true \/ pop_ok (w_ctx w) ssl csr.
Proof.
  unfold pop_check. intros Hb H. destruct (client_is_ra peer); [by left|right].
  apply tls_uid_auth_spec in H as [H _]; auto.
Qed.

(** Where no allocation fails and the challengePassword is a string, the proof of
    possession accepts a CSR exactly
    if the peer is a registration authority, or the CSR carries the channel
    binding of this very TLS session as its challengePassword, or it carries none
    and the check is optional; every other CSR is refused with one error code.
    (The comparison is over the length of the channel binding: a
    challengePassword that merely starts with it is accepted too.) *)
Theorem pop_check_iff ssl peer csr w :
  (forall s, no_nul (snd (b64_bio_write true s))) -> w_alloc w = [] -> pw_string csr ->
  exists r w', pop_check ssl peer csr w = Some (r, w') /\
    (r = EST_ERR_NONE <-> client_is_ra peer = true \/ pop_ok (w_ctx w) ssl csr) /\
    (r <> EST_ERR_NONE -> r = EST_ERR_AUTH_FAIL_TLSUID).
Proof.
  intros Hb Hw Hpw. destruct (safe_pop_check ssl peer csr Hpw w I) as (r & w' & H & _).
  exists r, w'. split; [exact H|]. split.
  - split; [intros ->; by eapply pop_check_ok|]. intros Hp. unfold pop_check in H.
    destruct (client_is_ra peer); [by apply ret_some in H as [<- _]|].
    destruct Hp as [?|Hp]; [done|]. apply tls_uid_auth_spec in H; [|done]. by apply H.
  - intros Hr. unfold pop_check in H.
    destruct (client_is_ra peer); [by apply ret_some in H as [<- _]|].
    apply tls_uid_auth_spec in H; [|done]. tauto.
Qed.

Lemma attrs_check_ok b peer w w' :
  attrs_check b peer w = Some (EST_ERR_NONE, w') ->
  enforce_csrattrs (w_ctx w) = true -> attrs_passed w w' b peer.
Proof.
  unfold attrs_check. intros H He. run_inv H as ctx w1 E1. injection E1 as <- <-.
  rewrite He in H. exists w, w'. split; [reflexivity|]. split; [done|]. exists []. by rewrite app_nil_r.
Qed.

(** What an enrollment callback says of its caller. *)
Definition enroll_event (reenroll : bool) (e : event) (pkcs10 : bytes) (peer : option X509)
    (seg : option bytes) : Prop :=
  exists uid, e = if reenroll then EvReenrollCb pkcs10 uid peer seg else EvEnrollCb pkcs10 uid peer seg.

Lemma simple_enroll_guarded ssl peer body seg re want cached w r w' :
  (forall s, no_nul (snd (b64_bio_write true s))) ->
  (forall c, cached = Some c -> exists p, body = Some p /\ d2i_X509_REQ_bio true p = Some c) ->
  simple_enroll_csr ssl peer body seg re want cached w = Some (r, w') ->
  guarded (fun e => exists p csr, body = Some p /\ d2i_X509_REQ_bio true p = Some csr /\
             csr_accepted w w' ssl peer csr p /\ enroll_event re e p peer seg) w w'.
Proof.
  intros Hb Hc H. unfold simple_enroll_csr in H. run_inv H as c w1 E1.
  assert (F1 := frame_get_csr _ _ _ _ _ E1).
  destruct c as [csr|]; [|apply ret_some in H as [_ <-]; by apply guarded_quiet].
  destruct (get_csr_some _ _ _ _ _ E1 Hc) as (p & -> & Hp). cbn [default from_option id] in H.
  destruct (est_server_check_csr csr =? 0) eqn:Ec; b2p; cbn [negb] in H;
    [|apply ret_some in H as [_ <-]; by apply guarded_quiet].
  apply check_csr_iff in Ec.
  run_inv H as rv w2 E2. assert (F2 := frame_pop_check _ _ _ _ _ _ E2).
  case_bool_decide as Hrv; cbn [negb] in H;
    [subst rv|apply ret_some in H as [_ <-]; apply guarded_quiet; by etransitivity].
  apply pop_check_ok in E2; [|done]. rewrite (frame_ctx _ _ _ F1) in E2.
  run_inv H as rv w3 E3. assert (F3 := frame_attrs_check _ _ _ _ _ E3).
  assert (F : frame quiet w w3) by (etransitivity; [exact F1|etransitivity; [exact F2|exact F3]]).
  case_bool_decide as Hrv; cbn [negb] in H;
    [subst rv|apply ret_some in H as [_ <-]; by apply guarded_quiet].
  assert (Ha : (exists l, w_trace w' = w_trace w3 ++ l) -> csr_accepted w w' ssl peer csr p).
  { intros Hl. split; [done|]. split; [done|]. intros He.
    eapply attrs_passed_lift; [etransitivity; [exact F1|exact F2]|exact Hl|].
    eapply attrs_check_ok; [exact E3|]. by rewrite (frame_ctx _ _ _ F2), (frame_ctx _ _ _ F1). }
  eapply guarded_step; [exact F|done|].
  run_inv H as rc w4 E4. destruct rc as [rv cert].
  assert (F4 := frame_enroll_response _ _ _ _ _ _ H). clear H.
  unfold call_enroll_cb in E4. run_inv E4 as ctx w5 E5. injection E5 as <- <-.
  run_inv E4 as uid w6 E6. assert (F6 := frame_user_id _ _ _ E6).
  run_inv E4 as tr w7 E7. injection E7 as <- <-.
  eapply guarded_step; [exact F6|done|].
  destruct re.
  - destruct (est_reenroll_pkcs10_cb (w_ctx w3)); [|done].
    run_inv E4 as u w8 E8. injection E8 as <- <-. apply ret_some in E4 as [_ <-].
    eapply guarded_emit; [|exact F4].
    exists p, csr. split; [done|]. split; [done|].
    split; [by eapply Ha, trace_after_emit; [exact F6|exact F4]|]. by exists uid.
  - destruct (est_enroll_pkcs10_cb (w_ctx w3)); [|done].
    run_inv E4 as u w8 E8. injection E8 as <- <-. apply ret_some in E4 as [_ <-].
    eapply guarded_emit; [|exact F4].
    exists p, csr. split; [done|]. split; [done|].
    split; [by eapply Ha, trace_after_emit; [exact F6|exact F4]|]. by exists uid.
Qed.

(** ** The authorisation behind a callback *)

Definition authorised_before (req : EST_ENROLL_REQ_TYPE) (ssl : SSL) (w w' : world) : Prop :=
  exists st, auth_error st = None /\ authorised req ssl st w w'.

Lemma authorised_extend req ssl st w w1 w2 :
  authorised req ssl st w w1 -> (exists l, w_trace w2 = w_trace w1 ++ l) ->
  authorised req ssl st w w2.
Proof.
  intros [(-> & A & T)|H] Hl; [left|by right]. split; [done|]. split; [|done].
  eapply http_accepted_frame; [apply (frame_preorder quiet)|exact A|exact Hl].
Qed.

Lemma authorised_ctx req ssl st w0 w w' P :
  frame P w0 w -> authorised req ssl st w w' -> authorised req ssl st w0 w'.
Proof.
  intros F. unfold authorised. rewrite (frame_ctx _ _ _ F).
  intros [(-> & A & T)|H]; [left|by right]. split; [done|]. split; [|done].
  eapply http_accepted_frame; [exact F|exact A|]. exists []. by rewrite app_nil_r.
Qed.

(** The content type an enrollment request must declare over HTTP. *)
Definition pkcs10_ct (ctx : EST_CTX) (ct : option bytes) : Prop :=
  transport_mode ctx = EST_HTTP -> exists c, ct = Some c /\ starts_with CT_PKCS10 c = true.

Lemma bad_ct_false ct w w' :
  bad_pkcs10_ct ct w = Some (false, w') -> pkcs10_ct (w_ctx w) ct.
Proof.
  unfold bad_pkcs10_ct, pkcs10_ct. intros H Ht. run_inv H as ctx w1 E1. injection E1 as <- <-.
  rewrite Ht in H. destruct ct as [c|]; [|done]. apply ret_some in H as [H _]. b2p.
  exists c. split; [done|]. apply (strncmp_prefix c CT_PKCS10); [|exact H].
  repeat constructor; discriminate.
Qed.

(** The conditions under which the enrollment callback is called. *)
Definition enroll_guard (ssl : SSL) (peer : option X509) (ct body seg : option bytes)
    (req : EST_ENROLL_REQ_TYPE) (w w' : world) (e : event) : Prop :=
  exists p csr, body = Some p /\ d2i_X509_REQ_bio true p = Some csr /\
    enroll_event (bool_decide (req = REENROLL_REQ)) e p peer seg /\
    pkcs10_ct (w_ctx w) ct /\
    authorised_before req ssl w w' /\
    csr_accepted w w' ssl peer csr p.

Lemma handle_simple_enroll_guarded ssl peer ct body seg req want w r w' :
  (forall s, no_nul (snd (b64_bio_write true s))) ->
  est_handle_simple_enroll ssl peer ct body seg req want w = Some (r, w') ->
  guarded (enroll_guard ssl peer ct body seg req w w') w w'.
Proof.
  intros Hb H. unfold est_handle_simple_enroll in H.
  run_inv H as ctx w1 E1. injection E1 as <- <-.
  assert (Hret : forall (x : EST_ERROR * option bytes), mret (M := M) x w = Some (r, w') ->
            guarded (enroll_guard ssl peer ct body seg req w w') w w').
  { intros x Hx. apply ret_some in Hx as [_ <-]. by apply guarded_quiet. }
  destruct req; [| |by eapply Hret];
    (head_if H; [by eapply Hret|]; head_if H; [by eapply Hret|]; clear Hret;
     run_inv H as bad w1 E1; assert (F1 := frame_bad_ct _ _ _ _ E1);
     destruct bad; [apply ret_some in H as [_ <-]; by apply guarded_quiet|];
     apply bad_ct_false in E1;
     run_inv H as x w2 E2; destruct x as [st cached];
     assert (F2 := frame_est_enroll_auth _ _ _ _ _ _ _ E2);
     destruct (auth_error st) eqn:Est;
     [apply ret_some in H as [_ <-]; apply guarded_quiet; by etransitivity|];
     assert (Hc : forall c, cached = Some c ->
       exists p, body = Some p /\ d2i_X509_REQ_bio true p = Some c)
       by (intros c ->; by apply enroll_auth_csr in E2);
     apply enroll_auth_ok in E2; [|done];
     apply simple_enroll_guarded in H; [|done|done];
     eapply guarded_step; [etransitivity; [exact F1|exact F2]|done|];
     destruct H as (l & Hl & Hg); exists l; split; [done|];
     eapply Forall_impl; [|exact Hg]; intros e He Hs;
     destruct (He Hs) as (p & csr & Hbody & Hd & Hacc & Hev);
     exists p, csr; split; [done|]; split; [done|]; split; [done|]; split; [done|];
     split; [exists st; split; [done|]; eapply authorised_ctx; [exact F1|];
             eapply authorised_extend; [exact E2|by exists l]|];
     eapply csr_accepted_lift; [etransitivity; [exact F1|exact F2]|by exists []; rewrite app_nil_r|exact Hacc]).
Qed.

(** ** Server-side key generation *)

(** The certificate request the server made: the client's, with the public key of
    a pair the application generated, signed with that pair. *)
Definition server_csr (csr csr2 : X509_REQ) : Prop :=
  exists key csr1 md rv, X509_REQ_set_pubkey csr key = Some csr1 /\
    X509_REQ_sign_ctx csr1 key md = (rv, csr2) /\ rv <> 0.

Lemma keygen_csr_inr csr w csr2 b64 w' :
  keygen_csr csr w = Some (inr (csr2, b64), w') -> server_csr csr csr2 /\ csr_signed csr2.
Proof.
  unfold keygen_csr. intros H. run_inv H as ctx w1 E1. injection E1 as <- <-.
  destruct (keygen_cb (w_ctx w)) as [cb|]; [|done].
  run_inv H as tr w2 E2. run_inv H as u w3 E3. destruct (cb tr) as [rv [key|]]; [|no_ret H].
  destruct (rv =? _); cbn [negb] in H; [|no_ret H].
  run_inv H as a w4 E4. destruct a; cbn [negb] in H; [|no_ret H].
  run_inv H as enc w5 E5. destruct (X509_REQ_set_pubkey csr key) as [csr1|] eqn:Es; [|no_ret H].
  run_inv H as sg w6 E6. destruct sg as [c2|]; [|no_ret H].
  destruct (est_server_check_csr c2 =? 0) eqn:Ec; b2p; cbn [negb] in H; [|no_ret H].
  apply ret_some in H as [[= -> _] _]. apply check_csr_iff in Ec. split; [|done].
  unfold est_X509_REQ_sign in E6. run_inv E6 as m w7 E7. destruct m; cbn [negb] in E6; [|no_ret E6].
  destruct (EVP_DigestSignInit _ _); cbn [negb] in E6; [|no_ret E6].
  destruct (X509_REQ_sign_ctx csr1 key (signing_digest (w_ctx w))) as [rv2 c2'] eqn:Eg.
  apply ret_some in E6 as [E6 _]. destruct (rv2 =? 0) eqn:Er; b2p; [done|]. injection E6 as ->.
  exists key, csr1, (signing_digest (w_ctx w)), rv2. done.
Qed.

(** The conditions under which the key generation callback is called.  The
    signature of the client's own CSR is not among them: the CSR that is checked
    is the one the server just signed. *)
Definition keygen_guard (ssl : SSL) (peer : option X509) (ct body seg : option bytes)
    (w w' : world) (e : event) : Prop :=
  exists p csr csr2 b64 uid, body = Some p /\ d2i_X509_REQ_bio true p = Some csr /\
    server_csr csr csr2 /\
    e = EvServerKeygenCb (i2d_X509_REQ_b64 csr2) b64 uid peer seg /\
    pkcs10_ct (w_ctx w) ct /\
    authorised_before SERVERKEYGEN_REQ ssl w w' /\
    csr_accepted w w' ssl peer csr2 (i2d_X509_REQ_b64 csr2).

Lemma server_keygen_csr_guarded ssl peer body seg cached w r w' :
  (forall s, no_nul (snd (b64_bio_write true s))) ->
  (forall c, cached = Some c -> exists p, body = Some p /\ d2i_X509_REQ_bio true p = Some c) ->
  server_keygen_csr ssl peer body seg cached w = Some (r, w') ->
  guarded (fun e => exists p csr csr2 b64 uid, body = Some p /\ d2i_X509_REQ_bio true p = Some csr /\
    server_csr csr csr2 /\ e = EvServerKeygenCb (i2d_X509_REQ_b64 csr2) b64 uid peer seg /\
    csr_accepted w w' ssl peer csr2 (i2d_X509_REQ_b64 csr2)) w w'.
Proof.
  intros Hb Hc H. unfold server_keygen_csr in H. run_inv H as c w1 E1.
  assert (F := frame_get_csr _ _ _ _ _ E1).
  destruct c as [csr|]; [|apply ret_some in H as [_ <-]; by apply guarded_quiet].
  destruct (get_csr_some _ _ _ _ _ E1 Hc) as (p & -> & Hp).
  run_inv H as g w2 E2. assert (F2 := frame_keygen_csr _ _ _ _ E2).
  assert (F12 : frame quiet w w2) by (etransitivity; [exact F|exact F2]). clear F F2 E1.
  destruct g as [e|[csr2 b64]]; [apply ret_some in H as [_ <-]; by apply guarded_quiet|].
  apply keygen_csr_inr in E2 as [Hs Hsig].
  run_inv H as a1 w3 E3. apply (frame_alloc quiet) in E3.
  destruct a1; cbn [negb] in H;
    [|apply ret_some in H as [_ <-]; apply guarded_quiet; by etransitivity].
  run_inv H as a2 w4 E4. apply (frame_alloc quiet) in E4.
  assert (F : frame quiet w w4) by (etransitivity; [exact F12|by etransitivity]). clear E3 E4 F12.
  destruct a2; cbn [negb] in H; [|apply ret_some in H as [_ <-]; by apply guarded_quiet].
  run_inv H as rv w5 E5. assert (F5 := frame_pop_check _ _ _ _ _ _ E5).
  case_bool_decide as Hrv; cbn [negb] in H;
    [subst rv|apply ret_some in H as [_ <-]; apply guarded_quiet; by etransitivity].
  apply pop_check_ok in E5; [|done]. rewrite (frame_ctx _ _ _ F) in E5.
  run_inv H as rv w6 E6. assert (F6 := frame_attrs_check _ _ _ _ _ E6).
  case_bool_decide as Hrv; cbn [negb] in H;
    [subst rv|apply ret_some in H as [_ <-]; apply guarded_quiet;
              etransitivity; [exact F|by etransitivity]].
  assert (Ha : (exists l, w_trace w' = w_trace w6 ++ l) ->
            csr_accepted w w' ssl peer csr2 (i2d_X509_REQ_b64 csr2)).
  { intros Hl. split; [done|]. split; [done|]. intros He.
    eapply attrs_passed_lift; [etransitivity; [exact F|exact F5]|exact Hl|].
    eapply attrs_check_ok; [exact E6|]. by rewrite (frame_ctx _ _ _ F5), (frame_ctx _ _ _ F). }
  eapply guarded_step; [etransitivity; [exact F|etransitivity; [exact F5|exact F6]]|done|].
  run_inv H as rc w7 E7. destruct rc as [[rv cert] key].
  assert (F7 := frame_keygen_response _ _ _ _ _ _ H). clear H.
  unfold call_server_keygen_cb in E7. run_inv E7 as ctx w8 E8. injection E8 as <- <-.
  run_inv E7 as uid w9 E9. assert (F9 := frame_user_id _ _ _ E9).
  run_inv E7 as tr w10 E10. injection E10 as <- <-.
  eapply guarded_step; [exact F9|done|].
  destruct (est_server_keygen_pkcs10_cb (w_ctx w6)); [|done].
  run_inv E7 as u w11 E11. injection E11 as <- <-. apply ret_some in E7 as [_ <-].
  eapply guarded_emit; [|exact F7].
  exists p, csr, csr2, b64, uid. do 4 (split; [done|]).
  by eapply Ha, trace_after_emit; [exact F9|exact F7].
Qed.

Lemma handle_server_keygen_guarded ssl peer ct body seg w r w' :
  (forall s, no_nul (snd (b64_bio_write true s))) ->
  est_handle_server_keygen ssl peer ct body seg w = Some (r, w') ->
  guarded (keygen_guard ssl peer ct body seg w w') w w'.
Proof.
  intros Hb H. unfold est_handle_server_keygen in H.
  run_inv H as ctx w1 E1. injection E1 as <- <-. cbv zeta in H.
  assert (Hret : forall (x : EST_ERROR * option bytes * option bytes),
            mret (M := M) x w = Some (r, w') -> guarded (keygen_guard ssl peer ct body seg w w') w w').
  { intros x Hx. apply ret_some in Hx as [_ <-]. by apply guarded_quiet. }
  do 3 (head_if H; [by eapply Hret|]). clear Hret E E0 E1.
  run_inv H as bad w1 E1. assert (F1 := frame_bad_ct _ _ _ _ E1).
  destruct bad; [apply ret_some in H as [_ <-]; by apply guarded_quiet|].
  apply bad_ct_false in E1.
  run_inv H as x w2 E2. destruct x as [st cached].
  assert (F2 := frame_est_enroll_auth _ _ _ _ _ _ _ E2).
  destruct (auth_error st) eqn:Est;
    [apply ret_some in H as [_ <-]; apply guarded_quiet; by etransitivity|].
  assert (Hc : forall c, cached = Some c ->
    exists p, body = Some p /\ d2i_X509_REQ_bio true p = Some c)
    by (intros c ->; by apply enroll_auth_csr in E2).
  apply enroll_auth_ok in E2; [|done].
  apply server_keygen_csr_guarded in H; [|done|done].
  eapply guarded_step; [etransitivity; [exact F1|exact F2]|done|].
  destruct H as (l & Hl & Hg). exists l. split; [done|].
  eapply Forall_impl; [|exact Hg]. intros e He Hs.
  destruct (He Hs) as (p & csr & csr2 & b64 & uid & Hbody & Hd & Hsv & Hev & Hacc).
  exists p, csr, csr2, b64, uid. split; [done|]. split; [done|]. split; [done|]. split; [done|].
  split; [done|]. split.
  - exists st. split; [done|]. eapply authorised_ctx; [exact F1|].
    eapply authorised_extend; [exact E2|by exists l].
  - eapply csr_accepted_lift; [etransitivity; [exact F1|exact F2]|by exists []; rewrite app_nil_r|exact Hacc].
Qed.

(** ** BRSKI *)

Lemma brski_http_ok ssl peer seg st w st' pr w' :
  brski_auth_http ssl peer seg st w = Some ((st', pr), w') -> brski_auth_error st' = None ->
  st' = EST_HTTP_AUTH /\ http_accepted w w'.
Proof.
  unfold brski_auth_http. intros H Hok. run_inv H as ctx w1 E1. injection E1 as <- <-.
  run_inv H as ah w2 E2. run_inv H as r w3 E3. destruct r as [[pr0 csr0] ah'].
  assert (F : frame quiet w w3).
  { etransitivity; [exact (frame_create_ah _ _ _ E2)|exact (frame_auth_header _ _ _ _ _ _ _ _ _ _ _ E3)]. }
  destruct pr0; try (by apply ret_some in H as [[= <- _] _]).
  - run_inv H as ok w4 E4. apply ret_some in H as [[= <- <-] <-]. destruct ok; [|done].
    split; [done|]. eapply http_accepted_frame; [exact F|by eapply call_cb_true|].
    exists []. by rewrite app_nil_r.
  - run_inv H as u w4 E4. by apply ret_some in H as [[= <- _] _].
Qed.

Lemma brski_coap_ok ssl peer seg st w st' pr w' :
  brski_auth_coap ssl peer seg st w = Some ((st', pr), w') -> brski_auth_error st' = None ->
  st = EST_CERT_AUTH /\ st' = EST_CERT_AUTH /\
  (enhanced_cert_auth_enabled (w_ctx w) = true -> http_accepted w w').
Proof.
  unfold brski_auth_coap. intros H Hok. run_inv H as ctx w1 E1. injection E1 as <- <-.
  case_bool_decide as Hst; cbn [negb] in H; [|by apply ret_some in H as [[= <- _] _]].
  split; [done|].
  destruct (enhanced_cert_auth_enabled (w_ctx w)) eqn:Ee.
  2:{ apply ret_some in H as [[= <- _] _]. done. }
  run_inv H as ah w2 E2. run_inv H as r w3 E3. destruct r as [[pr0 csr0] ah'].
  assert (F : frame quiet w w3).
  { etransitivity; [exact (frame_create_ah _ _ _ E2)|]. destruct peer; [|done].
    exact (frame_handle_eca _ _ _ _ _ _ _ _ _ E3). }
  destruct pr0; try (by apply ret_some in H as [[= <- _] _]).
  run_inv H as ok w4 E4. apply ret_some in H as [[= <- <-] <-]. destruct ok; [|done].
  split; [done|]. intros _. eapply http_accepted_frame; [exact F|by eapply call_cb_true|].
  exists []. by rewrite app_nil_r.
Qed.

(** Who may make a BRSKI request. *)
Definition brski_authorised (ssl : SSL) (st : EST_AUTH_STATE) (w w' : world) : Prop :=
  (st = EST_HTTP_AUTH /\ http_accepted w w') \/
  (st = EST_CERT_AUTH /\ tls_verified ssl /\ ~ http_required (w_ctx w) /\
   (transport_mode (w_ctx w) = EST_COAP -> enhanced_cert_auth_enabled (w_ctx w) = true ->
    http_accepted w w')) \/
  (st = EST_SRP_AUTH /\ srp_login ssl /\ ~ http_required (w_ctx w) /\
   transport_mode (w_ctx w) <> EST_COAP).

Lemma brski_auth_ok ssl seg w st w' :
  est_brski_auth ssl seg w = Some (st, w') -> brski_auth_error st = None ->
  brski_authorised ssl st w w'.
Proof.
  unfold est_brski_auth. intros H Hok. run_inv H as ctx w1 E1. injection E1 as <- <-.
  pose proof (check_tls_spec ssl) as Ht.
  destruct (check_for_TLS_cert_auth ssl) as [[continue peer] rv0]. destruct Ht as [Hf Hc].
  run_inv H as r w2 E2. destruct r as [rv pr]. run_inv H as u w3 E3.
  apply ret_some in H as [<- <-].
  destruct (frame_split _ _ _ (frame_auth_result _ _ _ _ _ _ _ _ E3)) as [l3 H3].
  assert (Hacc : http_accepted w w2 -> http_accepted w w3).
  { intros A. eapply http_accepted_frame; [apply (frame_preorder quiet)|exact A|]. by exists l3. }
  clear E3. destruct continue; cbn [negb] in E2.
  2:{ apply ret_some in E2 as [[= <- _] _]. destruct (Hf eq_refl) as [-> _]. done. }
  specialize (Hc eq_refl). clear Hf.
  assert (Hcert : srp_auth ssl rv0 = EST_CERT_AUTH -> tls_verified ssl).
  { intros He. destruct Hc as [(_ & p & _ & Hp)|(-> & _ & Hn)]; [by exists p|].
    destruct (srp_auth_spec ssl EST_UNAUTHORIZED) as [(Hs & _)|Hs]; congruence. }
  assert (Hsrp : srp_auth ssl rv0 = EST_SRP_AUTH -> srp_login ssl).
  { intros He. destruct (srp_auth_spec ssl rv0) as [(_ & Hn & Hs)|Hs].
    - split; [|done]. destruct Hc as [(-> & _)|(_ & _ & Hc)]; done.
    - destruct Hc as [(-> & _)|(-> & _)]; congruence. }
  unfold brski_authorised. destruct (_ && _ && _) eqn:Eh.
  - eapply brski_http_ok in E2 as [-> A]; [|done]. left; auto.
  - assert (Hnot : ~ http_required (w_ctx w)).
    { intros (A & B & C). rewrite (bool_decide_true _ A), (bool_decide_true _ B),
        (bool_decide_true _ (eq_sym C)), orb_true_r in Eh. done. }
    case_bool_decide as Hco.
    + eapply brski_coap_ok in E2 as (Hrv & -> & He); [|done]. right; left. auto 6.
    + apply ret_some in E2 as [[= <- _] _].
      destruct (srp_auth ssl rv0) eqn:Es; try done.
      * exfalso. destruct (srp_auth_spec ssl rv0) as [(Hs & _)|Hs]; [congruence|].
        destruct Hc as [(-> & _)|(-> & _)]; congruence.
      * right; left. split; [done|]. split; [auto|]. split; [done|]. by intros.
      * right; right. auto.
Qed.

End Props.

Section Props.
Context {L : OpenSSL}.

(** ** Runs without a service callback, context changes allowed *)

Definition tq (w w' : world) : Prop :=
  exists l, w_trace w' = w_trace w ++ l /\ Forall quiet l.

#[local] Instance tq_preorder : PreOrder tq.
Proof.
  split.
  - intros w. exists []. by rewrite app_nil_r.
  - intros w1 w2 w3 (l1 & H1 & F1) (l2 & H2 & F2). exists (l1 ++ l2).
    rewrite H2, H1, app_assoc. split; [done|]. by apply Forall_app.
Qed.

Lemma frame_tq w w' : frame quiet w w' -> tq w w'.
Proof. by intros [_ _ _ H]. Qed.

Lemma sat_tq {A} (m : M A) : sat (frame quiet) m -> sat tq m.
Proof. intros Hm w a w' H. apply frame_tq. by eapply Hm. Qed.

Lemma tq_put_ctx c : sat tq (put_ctx c).
Proof. intros w a w' [= <- <-]. exists []. by rewrite app_nil_r. Qed.

Lemma tq_emit e : quiet e -> sat tq (emit e).
Proof. intros He. apply sat_tq. by apply frame_emit. Qed.

Ltac t_step := first [apply tq_put_ctx | (apply tq_emit; by intros []) | sat_step
                     | solve [apply sat_tq; auto with sat] | solve [auto with sat]].
Ltac t_auto := repeat (cbn beta iota zeta; t_step).

Lemma tq_send_200 h d : sat tq (send_200 h d).
Proof. apply sat_tq, frame_send_200. Qed.

Lemma tq_cacerts seg : sat tq (est_server_handle_cacerts seg).
Proof. pose proof tq_send_200. unfold est_server_handle_cacerts, est_handle_cacerts. t_auto. Qed.

Lemma tq_return_csrattrs d n : sat tq (return_csrattrs d n).
Proof. unfold return_csrattrs. t_auto. Qed.

Lemma tq_csr_attrs peer seg : sat tq (est_handle_csr_attrs peer seg).
Proof.
  pose proof tq_return_csrattrs.
  unfold est_handle_csr_attrs, csr_attrs_cb, return_pop_csrattrs. t_auto.
Qed.

Lemma tq_fail_with rc : sat tq (fail_with rc).
Proof. unfold fail_with. t_auto. Qed.

(** ** Guards *)

Lemma guarded_impl (G G' : event -> Prop) w w' :
  (forall e, service_cb e -> G e -> G' e) -> guarded G w w' -> guarded G' w w'.
Proof.
  intros HG (l & H & F). exists l. split; [done|]. eapply Forall_impl; [|exact F]. auto.
Qed.

Lemma guarded_then G w w1 w2 : guarded G w w1 -> tq w1 w2 -> guarded G w w2.
Proof.
  intros (l & H & F) (l2 & H2 & F2). exists (l ++ l2). rewrite H2, H, app_assoc.
  split; [done|]. apply Forall_app. split; [done|].
  eapply Forall_impl; [|exact F2]. intros e Hq Hs. by destruct Hq.
Qed.

Lemma guarded_tq G w w' : tq w w' -> guarded G w w'.
Proof.
  intros (l & H & F). exists l. split; [done|].
  eapply Forall_impl; [|exact F]. intros e Hq Hs. by destruct Hq.
Qed.

Lemma authorised_lift req ssl w0 w1 w2 w3 :
  frame quiet w0 w1 -> tq w2 w3 ->
  authorised_before req ssl w1 w2 -> authorised_before req ssl w0 w3.
Proof.
  intros F (l & Hl & _) (st & Hok & A). exists st. split; [done|].
  eapply authorised_extend; [|by exists l]. by eapply authorised_ctx.
Qed.

Lemma enroll_guard_lift ssl peer ct body seg req w0 w1 w2 w3 e :
  frame quiet w0 w1 -> tq w2 w3 ->
  enroll_guard ssl peer ct body seg req w1 w2 e -> enroll_guard ssl peer ct body seg req w0 w3 e.
Proof.
  intros F T (p & csr & Hb & Hd & He & Hct & A & Hacc). exists p, csr.
  unfold pkcs10_ct in *. rewrite (frame_ctx _ _ _ F) in Hct.
  repeat (split; [done|]). split; [by eapply authorised_lift|].
  eapply csr_accepted_lift; [exact F| |exact Hacc]. destruct T as (l & Hl & _). by exists l.
Qed.

Lemma keygen_guard_lift ssl peer ct body seg w0 w1 w2 w3 e :
  frame quiet w0 w1 -> tq w2 w3 ->
  keygen_guard ssl peer ct body seg w1 w2 e -> keygen_guard ssl peer ct body seg w0 w3 e.
Proof.
  intros F T (p & csr & csr2 & b64 & uid & Hb & Hd & Hs & He & Hct & A & Hacc).
  exists p, csr, csr2, b64, uid.
  unfold pkcs10_ct in *. rewrite (frame_ctx _ _ _ F) in Hct.
  repeat (split; [done|]). split; [by eapply authorised_lift|].
  eapply csr_accepted_lift; [exact F| |exact Hacc]. destruct T as (l & Hl & _). by exists l.
Qed.

(** The content type a BRSKI request must declare. *)
Definition brski_ct (op : EST_OPERATION) (ct : option bytes) : Prop :=
  exists c, ct = Some c /\
    match op with
    | EST_OP_BRSKI_REQ_VOUCHER =>
        strncmp c EST_BRSKI_CT_VREQ_SIGNED (sizeof_lit EST_BRSKI_CT_VREQ_SIGNED) = 0 \/
        strncmp c EST_BRSKI_CT_VREQ (sizeof_lit EST_BRSKI_CT_VREQ) = 0
    | _ => strncmp c EST_BRSKI_CT_STATUS (sizeof_lit EST_BRSKI_CT_STATUS) = 0
    end.

(** A BRSKI callback follows an authentication. *)
Definition brski_guard (ssl : SSL) (ct body : option bytes) (op : EST_OPERATION) (w w' : world)
    (e : event) : Prop :=
  brski_ct op ct /\
  (exists st, brski_auth_error st = None /\ brski_authorised ssl st w w') /\
  match op with
  | EST_OP_BRSKI_REQ_VOUCHER => e = EvVoucherReqCb body (SSL_get_peer_certificate ssl)
  | EST_OP_BRSKI_VOUCHER_STATUS => e = EvVoucherStatusCb body (SSL_get_peer_certificate ssl)
  | EST_OP_BRSKI_ENROLL_STATUS => e = EvEnrollStatusCb body (SSL_get_peer_certificate ssl)
  | _ => False
  end.

Lemma brski_authorised_lift ssl st w0 w1 w2 w3 :
  frame quiet w0 w1 -> (exists l, w_trace w3 = w_trace w2 ++ l) ->
  brski_authorised ssl st w1 w2 -> brski_authorised ssl st w0 w3.
Proof.
  intros F Hl. unfold brski_authorised. rewrite (frame_ctx _ _ _ F).
  intros [(-> & A)|[(-> & T & R & C)|H]]; [left|right; left|by right; right].
  - split; [done|]. by eapply http_accepted_frame.
  - split; [done|]. split; [done|]. split; [done|]. intros H1 H2.
    eapply http_accepted_frame; [exact F|by apply C|done].
Qed.

(** After the authentication of a BRSKI handler: the event, then quiet. *)
Lemma brski_after ssl seg ct body op ev w st w1 w2 :
  brski_ct op ct ->
  est_brski_auth ssl seg w = Some (st, w1) -> brski_auth_error st = None ->
  (match op with
   | EST_OP_BRSKI_REQ_VOUCHER => ev = EvVoucherReqCb body (SSL_get_peer_certificate ssl)
   | EST_OP_BRSKI_VOUCHER_STATUS => ev = EvVoucherStatusCb body (SSL_get_peer_certificate ssl)
   | EST_OP_BRSKI_ENROLL_STATUS => ev = EvEnrollStatusCb body (SSL_get_peer_certificate ssl)
   | _ => False
   end) ->
  frame quiet (set_w_trace (w_trace w1 ++ [ev]) w1) w2 ->
  guarded (brski_guard ssl ct body op w w2) w w2.
Proof.
  intros Hct Ea Hok Hev F2. assert (F1 := frame_est_brski_auth _ _ _ _ _ Ea).
  apply brski_auth_ok in Ea; [|done].
  eapply guarded_step; [exact F1|done|]. eapply guarded_emit; [|exact F2].
  split; [exact Hct|]. split; [|exact Hev]. exists st. split; [done|].
  destruct F2 as [_ _ _ (l & Hl & _)]. simpl in Hl.
  eapply brski_authorised_lift; [apply (frame_preorder quiet)| |exact Ea].
  exists (ev :: l). by rewrite Hl, <- app_assoc.
Qed.

Lemma brski_status_guarded ssl ct body seg cb ev op w r w' :
  brski_status ssl ct body seg cb ev w = Some (r, w') ->
  (match op with
   | EST_OP_BRSKI_VOUCHER_STATUS => ev = EvVoucherStatusCb
   | EST_OP_BRSKI_ENROLL_STATUS => ev = EvEnrollStatusCb
   | _ => False
   end) ->
  guarded (brski_guard ssl (Some ct) body op w w') w w'.
Proof.
  unfold brski_status. intros H Hop.
  destruct (strncmp _ _ _ =? 0) eqn:Ect; cbn [negb] in H;
    [|apply ret_some in H as [_ <-]; by apply guarded_quiet].
  assert (Hct : brski_ct op (Some ct)) by (b2p; exists ct; split; [done|by destruct op]).
  run_inv H as st w1 E1. destruct (brski_auth_error st) eqn:Eok.
  { apply ret_some in H as [_ <-]. apply guarded_quiet. exact (frame_est_brski_auth _ _ _ _ _ E1). }
  run_inv H as tr w2 E2. injection E2 as <- <-. run_inv H as u w3 E3. injection E3 as <- <-.
  eapply (brski_after _ _ _ _ _ (ev body (SSL_get_peer_certificate ssl)));
    [exact Hct|exact E1|done|by destruct op; try done; subst ev|].
  destruct (cb _ _ _); [|by apply ret_some in H as [_ <-]..].
  run_inv H as n w4 E4. assert (F := frame_mg_write quiet quiet_write _ _ _ _ E4).
  destruct (n =? 0); by apply ret_some in H as [_ <-].
Qed.

Lemma voucher_req_guarded ssl ct body seg w r w' :
  est_brski_handle_voucher_req ssl ct body seg w = Some (r, w') ->
  guarded (brski_guard ssl (Some ct) body EST_OP_BRSKI_REQ_VOUCHER w w') w w'.
Proof.
  unfold est_brski_handle_voucher_req. intros H. run_inv H as ctx w1 E1. injection E1 as <- <-.
  destruct (est_brski_voucher_req_cb (w_ctx w)) as [cb|];
    [|apply ret_some in H as [_ <-]; by apply guarded_quiet].
  assert (Hct : brski_ct EST_OP_BRSKI_REQ_VOUCHER (Some ct) \/ (mret EST_ERR_BAD_CONTENT_TYPE : M EST_ERROR) w = Some (r, w')).
  { destruct (_ =? 0) eqn:E0 in H; [left; exists ct; split; [done|left; by b2p]|].
    destruct (_ =? 0) eqn:E2 in H; [left; exists ct; split; [done|right; by b2p]|by right]. }
  destruct Hct as [Hct|Hct]; [|apply ret_some in Hct as [_ <-]; by apply guarded_quiet].
  head_if H; [apply ret_some in H as [_ <-]; by apply guarded_quiet|].
  run_inv H as st w1 E1. destruct (brski_auth_error st) eqn:Eok.
  { apply ret_some in H as [_ <-]. apply guarded_quiet. exact (frame_est_brski_auth _ _ _ _ _ E1). }
  run_inv H as tr w2 E2. injection E2 as <- <-. run_inv H as u w3 E3. injection E3 as <- <-.
  eapply brski_after; [exact Hct|exact E1|done|done|].
  destruct (cb _ _ _) as [rv v]. destruct rv; try (by apply ret_some in H as [_ <-]).
  - destruct (0 <? _); [|by apply ret_some in H as [_ <-]]. exact (frame_send_200 _ _ _ _ _ H).
  - run_inv H as rc w4 E4. assert (F := frame_retry_after quiet quiet_write _ _ _ _ E4).
    destruct (bool_decide _); by apply ret_some in H as [_ <-].
Qed.

Lemma voucher_status_guarded ssl ct body seg w r w' :
  est_brski_handle_voucher_status ssl ct body seg w = Some (r, w') ->
  guarded (brski_guard ssl (Some ct) body EST_OP_BRSKI_VOUCHER_STATUS w w') w w'.
Proof.
  unfold est_brski_handle_voucher_status. intros H.
  run_inv H as ctx w1 E1. injection E1 as <- <-.
  destruct (est_brski_voucher_status_cb (w_ctx w)); [by eapply brski_status_guarded|].
  apply ret_some in H as [_ <-]. by apply guarded_quiet.
Qed.

Lemma enroll_status_guarded ssl ct body seg w r w' :
  est_brski_handle_enroll_status ssl ct body seg w = Some (r, w') ->
  guarded (brski_guard ssl (Some ct) body EST_OP_BRSKI_ENROLL_STATUS w w') w w'.
Proof.
  unfold est_brski_handle_enroll_status. intros H.
  run_inv H as ctx w1 E1. injection E1 as <- <-.
  destruct (est_brski_enroll_status_cb (w_ctx w)); [by eapply brski_status_guarded|].
  apply ret_some in H as [_ <-]. by apply guarded_quiet.
Qed.

(** ** The dispatcher *)

Variable ENABLE_BRSKI : bool.
Variable uriparser : option (bytes -> option (list UriPathSegment)).

Lemma frame_request_uri uri : sat (frame quiet) (request_uri ENABLE_BRSKI uriparser uri).
Proof.
  unfold request_uri. destruct uriparser; [|auto with sat].
  apply sat_bind; [apply _|auto with sat|intros ok].
  destruct (est_parse_uri_uriparser _ _ _ _) as [[[rv [op|]] seg]|]; try auto with sat.
  destruct (bool_decide _); auto with sat.
Qed.

(** What a service callback of one operation requires. *)
Definition op_guard (ssl : SSL) (op : EST_OPERATION) (method : bytes) (body ct seg : option bytes)
    (w w' : world) (e : event) : Prop :=
  starts_with (lit "POST") method = true /\
  match op with
  | EST_OP_SIMPLE_ENROLL =>
      enroll_guard ssl (SSL_get_peer_certificate ssl) ct body seg SIMPLE_ENROLL_REQ w w' e
  | EST_OP_SIMPLE_REENROLL =>
      enroll_guard ssl (SSL_get_peer_certificate ssl) ct body seg REENROLL_REQ w w' e
  | EST_OP_SERVER_KEYGEN => keygen_guard ssl (SSL_get_peer_certificate ssl) ct body seg w w' e
  | _ => brski_guard ssl ct body op w w' e
  end.

Lemma op_guard_lift ssl op method body ct seg w0 w1 w2 w3 e :
  frame quiet w0 w1 -> tq w2 w3 -> op_guard ssl op method body ct seg w1 w2 e ->
  op_guard ssl op method body ct seg w0 w3 e.
Proof.
  intros F T [Hm H]. split; [done|].
  assert (B : brski_guard ssl ct body op w1 w2 e -> brski_guard ssl ct body op w0 w3 e).
  { intros (Hct & (st & Hok & A) & Hev). split; [done|]. split; [|done]. exists st. split; [done|].
    destruct T as (l & Hl & _). eapply brski_authorised_lift; [exact F|by exists l|done]. }
  destruct op; auto; by (eapply enroll_guard_lift || eapply keygen_guard_lift).
Qed.

Lemma post_ok method :
  (strncmp method (lit "POST") 4 =? 0) = true -> starts_with (lit "POST") method = true.
Proof.
  intros H. b2p. apply (strncmp_prefix method (lit "POST")); [|exact H].
  repeat constructor; discriminate.
Qed.

Hypothesis b64_no_nul : forall s, no_nul (snd (b64_bio_write true s)).

Lemma enroll_handler_guarded ssl op method body ct seg w rc w' :
  starts_with (lit "POST") method = true ->
  (op = EST_OP_SIMPLE_ENROLL \/ op = EST_OP_SIMPLE_REENROLL \/ op = EST_OP_SERVER_KEYGEN) ->
  http_enroll_handler ssl (SSL_get_peer_certificate ssl) op body ct seg w = Some (rc, w') ->
  guarded (op_guard ssl op method body ct seg w w') w w'.
Proof.
  intros Hm Hop H. unfold http_enroll_handler in H. case_bool_decide as Hk.
  - subst op. run_inv H as r1 w1 E1. assert (F1 := frame_req_event _ _ _ _ _ _ _ E1).
    run_inv H as r2 w2 E2. destruct r2 as [[rc2 cert] key].
    run_inv H as r3 w3 E3. assert (F3 := frame_rsp_event _ _ _ _ _ _ _ _ _ E3).
    apply ret_some in H as [_ <-]. apply frame_tq in F3.
    apply handle_server_keygen_guarded in E2; [|done].
    eapply guarded_step; [exact F1|done|]. eapply guarded_then; [|exact F3].
    eapply guarded_impl; [|exact E2]. intros e _ He. split; [done|].
    by eapply keygen_guard_lift.
  - cbv zeta in H. run_inv H as r1 w1 E1. assert (F1 := frame_req_event _ _ _ _ _ _ _ E1).
    run_inv H as r2 w2 E2. destruct r2 as [rc2 cert].
    run_inv H as r3 w3 E3. assert (F3 := frame_rsp_event _ _ _ _ _ _ _ _ _ E3).
    apply ret_some in H as [_ <-]. apply frame_tq in F3.
    apply handle_simple_enroll_guarded in E2; [|done].
    eapply guarded_step; [exact F1|done|]. eapply guarded_then; [|exact F3].
    eapply guarded_impl; [|exact E2]. intros e _ He. split; [done|].
    destruct Hop as [->|[->| ->]]; [| |done]; cbn in He; by eapply enroll_guard_lift.
Qed.

Lemma tq_http_cacerts method seg : sat tq (http_cacerts method seg).
Proof. pose proof tq_cacerts. pose proof tq_fail_with. unfold http_cacerts. t_auto. Qed.

Lemma tq_http_csrattrs peer method seg : sat tq (http_csrattrs peer method seg).
Proof. pose proof tq_csr_attrs. pose proof tq_fail_with. unfold http_csrattrs. t_auto. Qed.

Lemma tq_unknown_op : sat tq (_ ← est_send_http_error (est_err_num EST_ERR_UNKNOWN); mret Continue).
Proof. t_auto. Qed.

(** After a handler only an error response is sent. *)
Lemma guarded_tail (G : world -> event -> Prop) (m : M EST_ERROR) (f : EST_ERROR -> M flow) w fl w' :
  (forall w1 w2 e, tq w1 w2 -> G w1 e -> G w2 e) ->
  (forall rc, sat tq (f rc)) ->
  (forall rc w1, m w = Some (rc, w1) -> guarded (G w1) w w1) ->
  (m ≫= f) w = Some (fl, w') -> guarded (G w') w w'.
Proof.
  intros HG Hf Hm H. run_inv H as rc w1 E1. apply Hf in H.
  eapply guarded_then; [|exact H]. eapply guarded_impl; [|by eapply Hm].
  intros e _. by apply HG.
Qed.

Lemma http_enroll_guarded ssl op method body ct seg w fl w' :
  (op = EST_OP_SIMPLE_ENROLL \/ op = EST_OP_SIMPLE_REENROLL \/ op = EST_OP_SERVER_KEYGEN) ->
  http_enroll ssl (SSL_get_peer_certificate ssl) op method body ct seg w = Some (fl, w') ->
  guarded (op_guard ssl op method body ct seg w w') w w'.
Proof.
  intros Hop H. unfold http_enroll in H. pose proof tq_fail_with as Hfail.
  destruct (strncmp _ _ _ =? 0) eqn:Em; cbn [negb] in H; [|apply guarded_tq; by eapply Hfail].
  head_if H; [apply guarded_tq; by eapply Hfail|]. apply post_ok in Em.
  revert H. eapply (guarded_tail (fun w' => op_guard ssl op method body ct seg w w')).
  - intros w1 w2 e T. by apply op_guard_lift.
  - intros rc. t_auto.
  - intros rc w1 H. by eapply enroll_handler_guarded.
Qed.

Lemma http_brski_guarded ssl op method body ct seg w fl w' :
  (op = EST_OP_BRSKI_REQ_VOUCHER \/ op = EST_OP_BRSKI_VOUCHER_STATUS \/
   op = EST_OP_BRSKI_ENROLL_STATUS) ->
  http_brski ssl op method body ct seg w = Some (fl, w') ->
  guarded (op_guard ssl op method body ct seg w w') w w'.
Proof.
  intros Hop H. unfold http_brski in H. pose proof tq_fail_with as Hfail.
  destruct (strncmp _ _ _ =? 0) eqn:Em; cbn [negb] in H; [|apply guarded_tq; by eapply Hfail].
  destruct ct as [ct|]; [|apply guarded_tq; by eapply Hfail]. apply post_ok in Em.
  revert H. eapply (guarded_tail (fun w' => op_guard ssl op method body (Some ct) seg w w')).
  - intros w1 w2 e T. by apply op_guard_lift.
  - intros rc. t_auto.
  - intros rc w1 H. apply (guarded_impl (brski_guard ssl (Some ct) body op w w1)).
    + intros e _ He. split; [done|]. by destruct Hop as [-> |[-> | ->]].
    + destruct Hop as [-> |[-> | ->]];
        [by eapply voucher_req_guarded|by eapply voucher_status_guarded
         |by eapply enroll_status_guarded].
Qed.

Lemma dispatch_guarded ssl op method body ct seg w fl w' :
  http_dispatch ENABLE_BRSKI ssl (SSL_get_peer_certificate ssl) op method body ct seg w
    = Some (fl, w') ->
  guarded (op_guard ssl op method body ct seg w w') w w'.
Proof.
  intros H. unfold http_dispatch in H.
  pose proof (http_brski_guarded ssl op method body ct seg w fl w') as Hb.
  destruct op;
    try (destruct ENABLE_BRSKI; [by apply Hb; [auto|]|]);
    first [by eapply http_enroll_guarded; [|exact H]; auto | apply guarded_tq];
    first [by eapply tq_unknown_op | by eapply tq_http_cacerts | by eapply tq_http_csrattrs].
Qed.

(** The operation that the dispatcher of a completed request ran, if any. *)
Definition service_guard (method uri : bytes) (body ct : option bytes) (w w' : world)
    (e : event) : Prop :=
  est_mode (w_ctx w) = EST_SERVER /\
  exists ssl op seg w1 w2,
    conn_ssl (w_conn w) = Some ssl /\ frame quiet w w1 /\
    request_uri ENABLE_BRSKI uriparser uri w1 = Some ((EST_ERR_NONE, op, seg), w2) /\
    op_guard ssl op method body ct seg w w' e.

(** C1. Whatever a client sends, a completed request calls an enrollment,
    key-generation or BRSKI callback of the application only in server mode,
    for a POST on that operation's path, with the declared content type, for an
    authorised client, and, for an enrollment, on a CSR that parses, carries a
    valid self-signature, proves possession of the TLS session unless the peer
    is an RA, and passes the attribute check where that is enforced: the check was made
    in this run, against the attributes the server is configured with or those its
    callback gave there. *)
Theorem est_http_request_guarded method uri body ct w rc w' :
  est_http_request ENABLE_BRSKI uriparser method uri body ct w = Some (rc, w') ->
  guarded (service_guard method uri body ct w w') w w'.
Proof.
  unfold est_http_request. intros H. run_inv H as ctx w1 E1. injection E1 as <- <-.
  case_bool_decide as Hm; cbn [negb] in H; [|apply ret_some in H as [_ <-]; by apply guarded_quiet].
  run_inv H as conn w1 E1. injection E1 as <- <-.
  destruct (conn_ssl (w_conn w)) as [ssl|] eqn:Es.
  2: { apply guarded_tq. revert H. apply (sat_bind tq); [t_auto|intros; t_auto]. }
  run_inv H as u w1 E1. assert (F1 := frame_endpoint_event _ _ _ _ _ _ E1).
  run_inv H as r w2 E2. assert (F2 := frame_request_uri _ _ _ _ E2). destruct r as [[rv op] seg].
  assert (F : frame quiet w w2) by by etransitivity.
  case_bool_decide as Hrv; cbn [negb] in H; [subst rv|].
  2: { eapply guarded_step; [exact F|done|]. apply guarded_tq. revert H.
       apply (sat_bind tq); [t_auto|intros; t_auto]. }
  run_inv H as fl w3 E3. apply dispatch_guarded in E3.
  assert (T : tq w3 w').
  { destruct fl; [apply ret_some in H as [_ <-]; reflexivity|].
    revert H. apply (sat_bind tq); [t_auto|intros; t_auto]. }
  eapply guarded_step; [exact F|done|]. eapply guarded_then; [|exact T].
  eapply guarded_impl; [|exact E3]. intros e _ He. split; [done|].
  exists ssl, op, seg, w1, w2. split; [done|]. split; [done|]. split; [done|]. by eapply op_guard_lift.
Qed.

End Props.
