(* ===== verification/ServerResponseProps.v ===== *)
(** * ServerResponseProps: what a client is told

    The HTTP status left by a refused request, the requests that are refused
    before any handler runs, and the bytes of the responses. *)

From S2P Require Import Prelude.
From S2P Require Import SafeC.
From S2P Require Import EstTypes.
From S2P Require Import EstState.
From S2P Require Import EstUtil.
From S2P Require Import EstUtilFacts.
From S2P Require Import HttpParse.
From S2P Require Import HttpIO.
From S2P Require Import EnhCertAuth.
From S2P Require Import HttpAuth.
From S2P Require Import ServerAuth.
From S2P Require Import ServerCsr.
From S2P Require Import ServerEnroll.
From S2P Require Import ServerDispatch.
From S2P Require Import EstLogic.
From S2P Require Import HttpIOFacts.
From S2P Require Import ServerAuthProps.
From S2P Require Import ServerDispatchProps.

Section Props.
Context {L : OpenSSL}.
Variable ENABLE_BRSKI : bool.
Variable uriparser : option (bytes -> option (list UriPathSegment)).

(** ** The status of a refused request *)

(** The status [est_send_http_error] leaves for a code. *)
Definition error_status (code : EST_ERROR) (status : Z) : Prop :=
  status = http_status (est_err_num code) \/ (code = EST_ERR_CA_ENROLL_RETRY /\ status = 202).

(** The status of a request that ends with the error [rc]; the BRSKI handlers
    report every failure but a failed authentication as a bad request. *)
Definition refused_status (op : EST_OPERATION) (rc : EST_ERROR) (status : Z) : Prop :=
  error_status rc status \/
  (In op [EST_OP_BRSKI_REQ_VOUCHER; EST_OP_BRSKI_VOUCHER_STATUS; EST_OP_BRSKI_ENROLL_STATUS] /\
   status = if bool_decide (rc = EST_ERR_AUTH_FAIL) then 401 else 400).

Lemma est_err_of_num e : est_err_of (est_err_num e) = Some e.
Proof. by destruct e. Qed.

Lemma send_error_status code w u w' :
  est_send_http_error (est_err_num code) w = Some (u, w') ->
  error_status code (status_code (w_conn w')).
Proof.
  intros H. apply status_est_send_http_error in H as [H|[H Hs]]; [by left|right].
  rewrite est_err_of_num in H. by injection H as ->.
Qed.

Lemma fail_with_status rc w fl w' :
  fail_with rc w = Some (fl, w') -> fl = Return rc /\ error_status rc (status_code (w_conn w')).
Proof.
  unfold fail_with. intros H. run_inv H as u w1 E1. apply ret_some in H as [<- <-].
  split; [done|]. by eapply send_error_status.
Qed.

Ltac fail_case H :=
  apply fail_with_status in H as [[= ->] H]; split; [done|by left].

Lemma dispatch_status ssl peer op method body ct seg w rc w' :
  http_dispatch ENABLE_BRSKI ssl peer op method body ct seg w = Some (Return rc, w') ->
  rc <> EST_ERR_NONE /\ refused_status op rc (status_code (w_conn w')).
Proof.
  unfold http_dispatch, refused_status. intros H.
  assert (Hunk : (_ ← est_send_http_error (est_err_num EST_ERR_UNKNOWN); mret Continue) w
                 = Some (Return rc, w') -> False).
  { intros Hu. run_inv Hu as u w1 E1. by apply ret_some in Hu as [? _]. }
  assert (Henr : http_enroll ssl peer op method body ct seg w = Some (Return rc, w') ->
    rc <> EST_ERR_NONE /\ (error_status rc (status_code (w_conn w')) \/ False)).
  { unfold http_enroll. intros He. head_if He; [fail_case He|]. head_if He; [fail_case He|].
    run_inv He as rc1 w1 E1. case_bool_decide as Hrc; [by apply ret_some in He as [? _]|].
    cbn [negb andb] in He. case_bool_decide; [by apply ret_some in He as [? _]|].
    apply fail_with_status in He as [[= ->] He]. split; [done|by left]. }
  assert (Hbr : http_brski ssl op method body ct seg w = Some (Return rc, w') ->
    rc <> EST_ERR_NONE /\ (error_status rc (status_code (w_conn w')) \/
      status_code (w_conn w') = if bool_decide (rc = EST_ERR_AUTH_FAIL) then 401 else 400)).
  { unfold http_brski. intros He. head_if He; [fail_case He|].
    destruct ct; [|fail_case He]. run_inv He as rc1 w1 E1.
    case_bool_decide as Hrc; [by apply ret_some in He as [? _]|].
    cbn [negb andb] in He. case_bool_decide; [by apply ret_some in He as [? _]|]. cbn [negb] in He.
    run_inv He as u w2 E2. apply ret_some in He as [[= <-] <-]. split; [done|]. right.
    apply send_error_status in E2 as [E2|[E2 _]]; [|by case_bool_decide].
    rewrite E2. by case_bool_decide. }
  destruct op;
    try (by apply Hunk in H);
    try (apply Henr in H as [? [?|[]]]; split; [done|by left]);
    try (destruct ENABLE_BRSKI; [|by apply Hunk in H];
         apply Hbr in H as [? [?|?]]; (split; [done|]); [by left|right; split; [simpl; tauto|done]]).
  all: clear Hunk Henr Hbr.
  - unfold http_cacerts in H. head_if H; [fail_case H|].
    run_inv H as rc1 w1 E1. case_bool_decide; cbn [negb] in H; [by apply ret_some in H as [? _]|].
    apply fail_with_status in H as [[= ->] H]. split; [done|by left].
  - unfold http_csrattrs in H. head_if H; [fail_case H|].
    run_inv H as r w1 E1. destruct r as [rc1 n].
    case_bool_decide; cbn [negb] in H; [by apply ret_some in H as [? _]|].
    apply fail_with_status in H as [[= ->] H]. split; [done|by left].
Qed.


(** ** Requests refused before any handler *)

(** The method of an operation. *)
Definition op_method (op : EST_OPERATION) : bytes :=
  match op with EST_OP_CACERTS | EST_OP_CSRATTRS => lit "GET" | _ => lit "POST" end.

(** A request that is not for an operation, or not in the way the operation asks. *)
Inductive early_reject (method uri : bytes) (ct : option bytes) : EST_ERROR -> Prop :=
| reject_path :
    (forall op, op_uri op <> Some uri) ->
    early_reject method uri ct EST_ERR_HTTP_INVALID_PATH_SEGMENT
| reject_method op :
    op_uri op = Some uri -> starts_with (op_method op) method = false ->
    early_reject method uri ct EST_ERR_WRONG_METHOD
| reject_content_type op :
    op_uri op = Some uri -> op_method op = lit "POST" -> starts_with (lit "POST") method = true ->
    ct = None -> early_reject method uri ct EST_ERR_BAD_CONTENT_TYPE.

(** Writes and the endpoint notification. *)
Definition io_event (e : event) : Prop :=
  match e with EvWrite _ | EvEndpoint _ _ _ _ => True | _ => False end.

Lemma safe_send_error code : safe (fun _ => True) (est_send_http_error code).
Proof. by apply safe_est_send_http_error; [..|apply safe_any_alloc]. Qed.

Lemma frame_endpoint_io p u t : sat (frame io_event) (est_invoke_endpoint_req_event_cb p u t).
Proof.
  unfold est_invoke_endpoint_req_event_cb, est_get_subj_fld_from_cert.
  repeat (cbn beta iota zeta; first [sat_step | (apply frame_emit; done) | solve [auto with sat]]).
Qed.

Lemma safe_endpoint p u t : safe (fun _ => True) (est_invoke_endpoint_req_event_cb p u t).
Proof.
  unfold est_invoke_endpoint_req_event_cb, est_get_subj_fld_from_cert. safe_auto;
    intros w _; eexists _, _; by split.
Qed.

(** The run of a refusal. *)
Lemma refusal_run rc w : exists w',
  est_send_http_error (est_err_num rc) w = Some (tt, w') /\
  error_status rc (status_code (w_conn w')) /\ frame io_event w w'.
Proof.
  destruct (safe_send_error (est_err_num rc) w I) as ([] & w' & H & _).
  exists w'. split; [done|]. split; [by eapply send_error_status|].
  by eapply (frame_est_send_http_error io_event).
Qed.

Lemma strncmp_refused p s n :
  no_nul p -> Z.of_nat (length p) <= n -> starts_with p s = false -> (strncmp s p n =? 0) = false.
Proof.
  intros Np Hn H. apply Z.eqb_neq. intros E. apply strncmp_prefix_ge in E; [congruence|done..].
Qed.

(** A request after its URI was parsed. *)
Definition request_rest (ssl : SSL) (method uri : bytes) (body ct : option bytes)
    (p : EST_ERROR * EST_OPERATION * option bytes) : M EST_ERROR :=
  let '(rv, op, seg) := p in
  if negb (bool_decide (rv = EST_ERR_NONE)) then
    _ ← est_send_http_error (est_err_num rv); mret rv
  else
    fl ← http_dispatch true ssl (SSL_get_peer_certificate ssl) op method body ct seg;
    match fl with
    | Return rc => mret rc
    | Continue =>
        _ ← est_invoke_endpoint_req_event_cb (SSL_get_peer_certificate ssl) uri EST_ENDPOINT_REQ_END;
        mret EST_ERR_NONE
    end.

(** The start of a request in server mode over TLS. *)
Lemma request_start method uri body ct w ssl :
  est_mode (w_ctx w) = EST_SERVER -> conn_ssl (w_conn w) = Some ssl ->
  exists w1, frame io_event w w1 /\
    est_http_request true None method uri body ct w =
    request_rest ssl method uri body ct (est_parse_uri true uri) w1.
Proof.
  intros Hm Hs.
  destruct (safe_endpoint (SSL_get_peer_certificate ssl) uri EST_ENDPOINT_REQ_START w I)
    as ([] & w1 & H1 & _). exists w1. split; [by eapply frame_endpoint_io|].
  unfold est_http_request. rewrite (bind_run get_ctx _ w (w_ctx w) w) by done.
  rewrite bool_decide_true by done. cbn [negb].
  rewrite (bind_run get_conn _ w (w_conn w) w), Hs by done.
  rewrite (bind_run _ _ _ _ _ H1).
  rewrite (bind_run (request_uri true None uri) _ w1 (est_parse_uri true uri) w1) by done.
  by destruct (est_parse_uri true uri) as [[rv op] seg].
Qed.

(** The dispatcher refuses the method or the content type. *)
Lemma dispatch_refused ssl peer op method uri body ct seg rc :
  op_uri op = Some uri ->
  (starts_with (op_method op) method = false /\ rc = EST_ERR_WRONG_METHOD \/
   op_method op = lit "POST" /\ starts_with (lit "POST") method = true /\ ct = None /\
   rc = EST_ERR_BAD_CONTENT_TYPE) ->
  http_dispatch true ssl peer op method body ct seg = fail_with rc.
Proof.
  intros Hu [[Hm ->]|(Ho & Hm & -> & ->)].
  - destruct op; try done; cbn [op_method] in Hm;
      unfold http_dispatch, http_cacerts, http_csrattrs, http_enroll, http_brski;
      by rewrite strncmp_refused by (done || (by repeat constructor)).
  - assert (E : (strncmp method (lit "POST") 4 =? 0) = true).
    { apply Z.eqb_eq. apply (strncmp_prefix method (lit "POST")); [by repeat constructor|done]. }
    destruct op; try done; unfold http_dispatch, http_enroll, http_brski; by rewrite E.
Qed.

(** A request for a path that is no operation's, with the wrong method, or
    for a POST operation without a content type is answered with 404 or 400
    and ends there: no application callback is called, not even the one that
    checks credentials, and the context is unchanged. *)
Theorem est_http_request_rejected method uri body ct w ssl rc :
  no_nul uri -> est_mode (w_ctx w) = EST_SERVER -> conn_ssl (w_conn w) = Some ssl ->
  early_reject method uri ct rc ->
  exists w', est_http_request true None method uri body ct w = Some (rc, w') /\
    status_code (w_conn w') = (if bool_decide (rc = EST_ERR_HTTP_INVALID_PATH_SEGMENT)
                               then 404 else 400) /\
    frame io_event w w'.
Proof.
  intros Nu Hm Hs Hr. destruct (request_start method uri body ct w ssl) as (w1 & F1 & ->); [done..|].
  destruct (refusal_run rc w1) as (w2 & H2 & S2 & F2).
  assert (S : status_code (w_conn w2) = if bool_decide (rc = EST_ERR_HTTP_INVALID_PATH_SEGMENT)
                                        then 404 else 400).
  { destruct S2 as [E|[-> _]]; [rewrite E|inversion Hr]. by destruct Hr. }
  exists w2. split; [|split; [done|by etransitivity]].
  assert (Hd : forall op, op_uri op = Some uri ->
    (starts_with (op_method op) method = false /\ rc = EST_ERR_WRONG_METHOD \/
     op_method op = lit "POST" /\ starts_with (lit "POST") method = true /\ ct = None /\
     rc = EST_ERR_BAD_CONTENT_TYPE) -> 
     request_rest ssl method uri body ct (est_parse_uri true uri) w1 = Some (rc, w2)).
  { intros op Hu Hc. unfold request_rest. rewrite (proj2 (est_parse_uri_iff uri op Nu) Hu).
    rewrite bool_decide_true by done. cbn [negb]. rewrite (dispatch_refused _ _ _ _ _ _ _ _ _ Hu Hc).
    apply bind_some. exists (Return rc), w2. split; [|done].
    apply bind_some. by exists tt, w2. }
  destruct Hr as [Hno|op Hu Hv|op Hu Ho Hv Hc].
  - unfold request_rest. rewrite est_parse_uri_error by done. apply bind_some. by exists tt, w2.
  - apply (Hd op Hu). by left.
  - apply (Hd op Hu). by right.
Qed.
(** ** The bytes of a response *)

(** On a channel that accepts everything a write delivers its buffer at once. *)
Lemma mg_write_all buf w :
  w_ssl_write w = [] -> 0 < Z.of_nat (length buf) <= INT_MAX ->
  mg_write buf w = Some (Z.of_nat (length buf), set_w_trace (w_trace w ++ [EvWrite buf]) w).
Proof.
  intros Hw Hl.
  assert (Hloop : push_loop (S (length buf)) buf 0 w
                  = Some (Z.of_nat (length buf), set_w_trace (w_trace w ++ [EvWrite buf]) w)).
  { cbn [push_loop]. rewrite (proj2 (Z.ltb_lt _ _)) by lia. rewrite Z.sub_0_r.
    replace (Z.of_nat (length buf) >? INT_MAX) with false
      by (symmetry; rewrite Z.gtb_ltb; apply Z.ltb_ge; lia).
    change (drop (Z.to_nat 0) buf) with buf. rewrite Nat2Z.id, firstn_all.
    unfold mbind, M_bind, ssl_write. rewrite Hw.
    rewrite (proj2 (Z.ltb_ge _ _)) by lia. rewrite Nat2Z.id, firstn_all.
    rewrite Z.add_0_l. destruct buf as [|c buf]; [simpl in Hl; lia|].
    cbn [push_loop length]. rewrite Z.ltb_irrefl. done. }
  unfold mg_write. rewrite (bind_run (push buf) _ _ _ _
    (eq_trans (f_equal (fun s => push_loop (S (length s) + length buf) buf 0 w) Hw) Hloop)).
  unfold mret, M_ret. do 2 f_equal.
  unfold wrap_s. rewrite Z.mod_small by (unfold INT_MAX in *; lia).
  rewrite (proj2 (Z.ltb_lt _ _)) by (unfold INT_MAX in *; lia). done.
Qed.

(** The value of a decimal numeral. *)
Definition dec_value (s : bytes) : Z := fold_left (fun n c => n * 10 + (c - 48)) s 0.

Lemma dec_digits_value f n acc :
  0 <= n < 10 ^ Z.of_nat f ->
  fold_left (fun m c => m * 10 + (c - 48)) (dec_digits f n acc) 0 =
  fold_left (fun m c => m * 10 + (c - 48)) acc n.
Proof.
  revert n acc; induction f as [|f IH]; intros n acc Hn; cbn [dec_digits].
  - simpl in Hn. assert (n = 0) as -> by lia. done.
  - destruct (n <? 10) eqn:E; b2p.
    + cbn [fold_left]. rewrite Z.mod_small by lia. f_equal. lia.
    + rewrite IH.
      * cbn [fold_left]. f_equal. pose proof (Z.div_mod n 10). lia.
      * rewrite Nat2Z.inj_succ, Z.pow_succ_r in Hn by lia.
        split; [apply Z.div_pos; lia|apply Z.div_lt_upper_bound; lia].
Qed.

Lemma fmt_d_value n : 0 <= n < 10 ^ 20 -> dec_value (fmt_d n) = n.
Proof.
  intros Hn. unfold fmt_d, dec_value. rewrite (proj2 (Z.ltb_ge n 0)) by lia.
  by rewrite dec_digits_value.
Qed.

Lemma dec_digits_length f n acc : (length (dec_digits f n acc) <= f + length acc)%nat.
Proof.
  revert n acc; induction f as [|f IH]; intros n acc; cbn [dec_digits]; [done|].
  destruct (n <? 10); simpl; [lia|]. etransitivity; [apply IH|]. simpl. lia.
Qed.

Lemma fmt_d_length n : 0 <= n -> (length (fmt_d n) <= 20)%nat.
Proof.
  intros Hn. unfold fmt_d. rewrite (proj2 (Z.ltb_ge n 0)) by lia.
  etransitivity; [apply dec_digits_length|]. simpl. lia.
Qed.

Lemma snprintf_at_fits hdr size text :
  Z.of_nat (length text) < size -> snprintf_at hdr size text = hdr ++ text.
Proof. intros H. unfold snprintf_at. rewrite firstn_all2; [done|lia]. Qed.

Lemma hdr_add_fits hdr text :
  Z.of_nat (length hdr) + Z.of_nat (length text) < EST_HTTP_HDR_MAX -> hdr_add hdr text = hdr ++ text.
Proof. intros H. unfold hdr_add. apply snprintf_at_fits. lia. Qed.

(** One header field. *)
Definition field (name value : bytes) : bytes := name ++ lit ": " ++ value ++ crlf.

(** A buffer one write can carry. *)
Definition sendable (p : bytes) : Prop := 0 < Z.of_nat (length p) <= INT_MAX.

(** Bounds on the length of a header built from literals. *)
Ltac hdr_len :=
  unfold sendable, field, EST_HTTP_HDR_MAX, INT_MAX;
  rewrite ?length_app;
  cbn [length lit EST_HTTP_HDR_200_RESP EST_HTTP_HDR_STAT_200 EST_HTTP_HDR_CT EST_HTTP_HDR_CE
    EST_HTTP_CE_BASE64 crlf EST_HTTP_HDR_CL EST_HTTP_CT_PKCS7];
  lia.

Lemma hdr_200_eq ct len :
  (length ct <= 100)%nat -> 0 <= len ->
  hdr_200 ct len =
    EST_HTTP_HDR_200_RESP ++ crlf ++ EST_HTTP_HDR_STAT_200 ++ crlf ++
    field EST_HTTP_HDR_CT ct ++ field EST_HTTP_HDR_CE EST_HTTP_CE_BASE64 ++
    field EST_HTTP_HDR_CL (fmt_d len) ++ crlf.
Proof.
  intros Hct Hlen. pose proof (fmt_d_length len Hlen) as Hd.
  unfold hdr_200, hdr_status_200, field.
  repeat match goal with
  | |- context [hdr_add ?h ?t] =>
      lazymatch h with context [hdr_add] => fail | _ => rewrite (hdr_add_fits h t) by hdr_len end
  end.
  by rewrite <- !app_assoc.
Qed.

(** Consecutive writes on such a channel. *)
Definition written (w : world) (parts : list bytes) : world :=
  set_w_trace (w_trace w ++ map EvWrite parts) w.

Lemma mg_write_written buf w :
  w_ssl_write w = [] -> 0 < Z.of_nat (length buf) <= INT_MAX ->
  mg_write buf w = Some (Z.of_nat (length buf), written w [buf]).
Proof. apply mg_write_all. Qed.

Lemma written_app w p q : written (written w p) q = written w (p ++ q).
Proof. unfold written. simpl. by rewrite map_app, app_assoc. Qed.

Lemma write_parts_written parts w :
  w_ssl_write w = [] -> Forall sendable parts ->
  write_parts parts w = Some (EST_ERR_NONE, written w parts).
Proof.
  intros Hw Hp. revert w Hw; induction Hp as [|p r Hp Hr IH]; intros w Hw; cbn [write_parts].
  - unfold written. rewrite app_nil_r. by destruct w.
  - rewrite (bind_run _ _ _ _ _ (mg_write_written p w Hw Hp)). destruct Hp.
    rewrite (proj2 (Z.eqb_neq _ _)) by lia. rewrite IH by done. by rewrite written_app.
Qed.

Lemma send_200_written hdr data w :
  w_ssl_write w = [] -> sendable hdr -> sendable data ->
  send_200 hdr data w = Some (EST_ERR_NONE, written w [hdr; data]).
Proof.
  intros Hw Hh Hd. pose proof (write_parts_written [hdr; data] w Hw) as H.
  rewrite <- H by (apply Forall_cons_2; [done|]; apply Forall_cons_2; [done|apply Forall_nil_2]).
  unfold send_200, write_parts.
  unfold mbind, M_bind. destruct (mg_write hdr w) as [[n w1]|]; [|done].
  destruct (n =? 0); [done|]. destruct (mg_write data w1) as [[m w2]|]; [|done].
  by destruct (m =? 0).
Qed.

(** The CA certificates the server has for a request. *)
Definition cacerts_of (ctx : EST_CTX) (tr : list event) (seg : option bytes) : option bytes :=
  match est_get_cacerts_cb ctx with Some cb => cb tr seg | None => ca_certs ctx end.

(** The call that fetched them. *)
Definition cacerts_call (ctx : EST_CTX) (seg : option bytes) : list event :=
  match est_get_cacerts_cb ctx with Some _ => [EvCacertsCb seg] | None => [] end.

Definition status_200 : bytes :=
  EST_HTTP_HDR_200_RESP ++ crlf ++ EST_HTTP_HDR_STAT_200 ++ crlf.

(** Over HTTP the CA certificates request answers with the chain the
    application returns for it, or the configured one where it registered no
    callback: a 200 header that declares it base64 PKCS7 and whose decimal
    Content-Length is its length, then the chain itself; without a chain
    nothing is written and the error is No Content. *)
Theorem est_server_handle_cacerts_response seg w :
  transport_mode (w_ctx w) = EST_HTTP -> w_ssl_write w = [] ->
  let w1 := set_w_trace (w_trace w ++ cacerts_call (w_ctx w) seg) w in
  match cacerts_of (w_ctx w) (w_trace w) seg with
  | None => est_server_handle_cacerts seg w = Some (EST_ERR_HTTP_NO_CONTENT, w1)
  | Some certs =>
      sendable certs ->
      exists cl, dec_value cl = Z.of_nat (length certs) /\
        est_server_handle_cacerts seg w = Some (EST_ERR_NONE, written w1
          [status_200 ++ field EST_HTTP_HDR_CT EST_HTTP_CT_PKCS7 ++
           field EST_HTTP_HDR_CE EST_HTTP_CE_BASE64 ++ field EST_HTTP_HDR_CL cl ++ crlf; certs])
  end.
Proof.
  intros Ht Hw w1.
  assert (Hsend : forall certs w2, w_ssl_write w2 = [] -> sendable certs ->
    exists cl, dec_value cl = Z.of_nat (length certs) /\
      est_handle_cacerts (Some certs) w2 = Some (EST_ERR_NONE, written w2
        [status_200 ++ field EST_HTTP_HDR_CT EST_HTTP_CT_PKCS7 ++
         field EST_HTTP_HDR_CE EST_HTTP_CE_BASE64 ++ field EST_HTTP_HDR_CL cl ++ crlf; certs])).
  { intros certs w2 Hw2 [Hl1 Hl2]. exists (fmt_d (Z.of_nat (length certs))). unfold INT_MAX in *.
    split; [apply fmt_d_value; lia|]. unfold est_handle_cacerts, status_200.
    rewrite hdr_200_eq, <- !app_assoc by (try (simpl; lia); lia).
    apply send_200_written; [done| |split; [done|unfold INT_MAX; lia]].
    pose proof (fmt_d_length (Z.of_nat (length certs)) ltac:(lia)) as Hd.
    hdr_len. }
  unfold est_server_handle_cacerts, cacerts_of, cacerts_call in *.
  rewrite (bind_run get_ctx _ w (w_ctx w) w) by done.
  destruct (est_get_cacerts_cb (w_ctx w)) as [cb|] eqn:Ecb.
  - rewrite (bind_run get_trace _ w (w_trace w) w) by done.
    rewrite (bind_run (emit _) _ w tt w1) by done.
    destruct (cb (w_trace w) seg) as [certs|]; [rewrite Ht; by apply Hsend|done].
  - assert (w1 = w) as -> by (unfold w1; rewrite app_nil_r; by destruct w).
    destruct (ca_certs (w_ctx w)) as [certs|]; [rewrite Ht; by apply Hsend|done].
Qed.

(** The parts of the key generation response after its header. *)
Definition keygen_body (cert key : bytes) : list bytes :=
  [boundary_line ++ crlf ++ field EST_HTTP_HDR_CT EST_HTTP_CT_PKCS8 ++
     field EST_HTTP_HDR_CE EST_HTTP_CE_BASE64 ++ crlf;
   key;
   crlf ++ boundary_line ++ crlf ++ field EST_HTTP_HDR_CT EST_HTTP_CT_PKCS7_CO ++
     field EST_HTTP_HDR_CE EST_HTTP_CE_BASE64 ++ crlf;
   cert;
   crlf ++ boundary_line ++ lit "--" ++ crlf ++ crlf].

Lemma keygen_body_sendable cert key :
  sendable cert -> sendable key -> Forall sendable (keygen_body cert key).
Proof. intros Hc Hk. repeat (apply Forall_cons_2; [first [done|by vm_compute]|]). apply Forall_nil_2. Qed.

Lemma keygen_body_length cert key :
  length (concat (keygen_body cert key)) = (245 + length key + length cert)%nat.
Proof.
  unfold keygen_body, field. cbn [concat]. rewrite !length_app. cbn. lia.
Qed.

Lemma keygen_parts_eq cert key :
  keygen_parts cert key = multipart_hdr (Z.of_nat (length key)) (Z.of_nat (length cert))
                          :: keygen_body cert key.
Proof. unfold keygen_parts, keygen_body. repeat f_equal; by vm_compute. Qed.

Lemma multipart_hdr_eq a b :
  0 <= a -> 0 <= b ->
  multipart_hdr a b = status_200 ++
    field EST_HTTP_HDR_CT (EST_HTTP_CT_MULTI_MIXED ++ lit "; boundary=" ++ EST_HTTP_BOUNDARY) ++
    field EST_HTTP_HDR_CL (fmt_d (245 + a + b)) ++ crlf.
Proof.
  intros Ha Hb. unfold multipart_hdr.
  replace (Z.of_nat (length pvt_key_hdr) + a + Z.of_nat (length cert_hdr) + b
           + Z.of_nat (length final_bndry_hdr)) with (245 + a + b)
    by (vm_compute (length pvt_key_hdr); vm_compute (length cert_hdr);
        vm_compute (length final_bndry_hdr); lia).
  pose proof (fmt_d_length (245 + a + b) ltac:(lia)) as Hd.
  rewrite snprintf_at_fits by (rewrite !length_app; unfold EST_HTTP_HDR_MAX; cbn; lia).
  change hdr_status_200 with status_200.
  rewrite snprintf_at_fits by (vm_compute; done).
  unfold field. by rewrite <- ?app_assoc.
Qed.

(** The key generation response is a well-formed multipart message: the
    private key and the certificate each in a part of its own, between the
    declared boundaries, and a Content-Length that is exactly the number of
    bytes after the header; both are also handed to the caller. *)
Theorem keygen_response_multipart cert key w :
  transport_mode (w_ctx w) = EST_HTTP -> w_ssl_write w = [] -> sendable cert -> sendable key ->
  exists cl, dec_value cl = Z.of_nat (length (concat (keygen_body cert key))) /\
    keygen_response (est_err_num EST_ERR_NONE) cert key w =
    Some ((EST_ERR_NONE, Some cert, Some key), written w
      ((status_200 ++
        field EST_HTTP_HDR_CT (EST_HTTP_CT_MULTI_MIXED ++ lit "; boundary=" ++ EST_HTTP_BOUNDARY) ++
        field EST_HTTP_HDR_CL cl ++ crlf) :: keygen_body cert key)).
Proof.
  intros Ht Hw Hc Hk.
  pose proof (keygen_body_length cert key) as Hlen. pose proof Hc as [Hc1 Hc2].
  pose proof Hk as [Hk1 Hk2]. unfold INT_MAX in Hc2, Hk2.
  exists (fmt_d (245 + Z.of_nat (length key) + Z.of_nat (length cert))).
  split; [rewrite fmt_d_value; lia|].
  unfold keygen_response. rewrite (bind_run get_ctx _ w (w_ctx w) w) by done.
  rewrite Ht, (proj2 (Z.ltb_lt _ _)) by done. cbn [Z.eqb andb est_err_num].
  rewrite <- multipart_hdr_eq, <- keygen_parts_eq by lia.
  rewrite (bind_run _ _ _ EST_ERR_NONE (written w (keygen_parts cert key))); [done|].
  apply write_parts_written; [done|]. rewrite keygen_parts_eq.
  apply Forall_cons_2; [|by apply keygen_body_sendable].
  rewrite multipart_hdr_eq by lia.
  pose proof (fmt_d_length (245 + Z.of_nat (length key) + Z.of_nat (length cert)) ltac:(lia)).
  split; [|unfold INT_MAX]; unfold field; rewrite !length_app; cbn; lia.
Qed.

End Props.
