(* ===== verification/ServerConfigProps.v ===== *)
(** * ServerConfigProps: what configuration calls keep true

    The invariant of a server context, established by [est_server_init] and kept
    by every configuration call in every order; the calls cannot fail in an
    undefined way. *)

From S2P Require Import Prelude.
From S2P Require Import SafeC.
From S2P Require Import EstTypes.
From S2P Require Import EstState.
From S2P Require Import EstUtil.
From S2P Require Import HttpParse.
From S2P Require Import HttpIO.
From S2P Require Import EnhCertAuth.
From S2P Require Import ServerCsr.
From S2P Require Import ServerConfig.
From S2P Require Import EstLogic.
From S2P Require Import HttpIOFacts.
From S2P Require Import ServerAuthProps.
From S2P Require Import EstUtilFacts.

(** ** Buffers *)

Lemma cstr_length_le buf n : rd buf n = 0 -> (length (cstr buf) <= n)%nat.
Proof.
  unfold rd. revert n; induction buf as [|c r IH]; intros n H; simpl; [lia|].
  destruct (c =? 0) eqn:E; simpl; [lia|]. b2p. destruct n as [|n]; simpl in H; [done|].
  specialize (IH n H). lia.
Qed.

Lemma lookup_store_ge src buf i j : (i + length src <= j)%nat -> store buf i src !! j = buf !! j.
Proof.
  revert buf i; induction src as [|c r IH]; intros buf i Hj; simpl in *; [done|].
  rewrite IH by lia. by rewrite list_lookup_insert_ne by lia.
Qed.

(** A copy into a zeroed buffer with one byte more than the limit is terminated. *)
Lemma strcpy_s_bound n src rc r :
  strcpy_s (replicate (Z.to_nat (n + 1)) 0) n (Some src) = (rc, r) -> 0 <= n ->
  Z.of_nat (length (cstr r)) <= n.
Proof.
  unfold strcpy_s. intros H Hn.
  assert (Hr : rd r (Z.to_nat n) = 0).
  { unfold rd. rewrite nth_lookup. destruct (n =? 0); injection H as _ <-.
    - rewrite lookup_replicate_2 by lia. done.
    - unfold strncpy. rewrite lookup_store_ge.
      + by rewrite lookup_replicate_2 by lia.
      + rewrite length_app, length_replicate, length_take. lia. }
  apply cstr_length_le in Hr. lia.
Qed.

Lemma strncpy_loop_bound n dest i src slen rc r :
  strncpy_loop n dest i src slen None = (rc, r) -> rc = EOK -> length dest = (i + n)%nat ->
  0 <= slen -> Z.of_nat (length (cstr (drop i r))) <= slen.
Proof.
  revert dest i src slen; induction n as [|n IH]; intros dest i src slen H Hrc Hl Hs;
    cbn [strncpy_loop] in H; [injection H as <- _; discriminate|].
  assert (Hend : length (cstr (drop i (<[i:=0]> dest))) = 0%nat).
  { rewrite drop_insert_ge, Nat.sub_diag by lia.
    destruct (drop i dest) as [|x t] eqn:Ed; [|done].
    apply (f_equal length) in Ed. rewrite length_drop in Ed. simpl in Ed. lia. }
  destruct (slen =? 0) eqn:E0; b2p; [injection H as _ <-; lia|].
  destruct (hd 0 src =? 0) eqn:Ec; b2p; [injection H as _ <-; lia|].
  apply IH in H; [|done|rewrite length_insert; lia|lia].
  assert (Hd : drop (S i) r = tail (drop i r)) by (change (S i) with (1 + i)%nat; rewrite <- skipn_skipn; by destruct (drop i r)).
  rewrite Hd in H. destruct (drop i r) as [|x t]; simpl in *; [lia|]. destr_if; simpl; lia.
Qed.

Lemma strncpy_s_bound d dmax src slen rc r :
  strncpy_s (Some d) dmax (Some src) slen None = (rc, r) -> rc = EOK ->
  length d = Z.to_nat dmax -> 0 < slen <= RSIZE_MAX_STR ->
  Z.of_nat (length (cstr (default [] r))) <= slen.
Proof.
  unfold strncpy_s. intros H Hrc Hd Hs.
  destruct (dmax =? 0); [injection H as <- _; discriminate|].
  destruct (dmax >? RSIZE_MAX_STR); [injection H as <- _; discriminate|].
  replace (slen >? RSIZE_MAX_STR) with false in H by (symmetry; rewrite Z.gtb_ltb; apply Z.ltb_ge; lia).
  destruct (strncpy_loop _ _ _ _ _ _) as [e q] eqn:E. injection H as -> <-.
  apply strncpy_loop_bound in E; [exact E|done|done|lia].
Qed.

Section Props.
Context {L : OpenSSL}.

(** ** The invariant *)

(** A manufacturer's entry: its name fits, and a store context has a store. *)
Definition mfg_ok (m : ENCHD_CERT_MFG_INFO) : Prop :=
  Z.of_nat (length (mfg_name m)) <= MFG_NAME_MAX_LEN /\
  (mfg_store_ctx m = true -> is_Some (mfg_truststore m)).

(** The list has a fixed length, and its used entries come first. *)
Record mfgs_ok (l : list ENCHD_CERT_MFG_INFO) : Prop := {
  mfgs_length : length l = NUM_SUPPORTED_MFG;
  mfgs_entries : Forall mfg_ok l;
  mfgs_prefix : exists used free, l = used ++ free /\
    Forall (fun m => is_Some (mfg_truststore m)) used /\
    Forall (fun m => mfg_truststore m = None) free
}.

Record ctx_ok (c : EST_CTX) : Prop := {
  ok_mode : est_mode c = EST_SERVER;
  ok_realm : Z.of_nat (length (realm c)) <= MAX_REALM;
  ok_auth : auth_mode c = AUTH_BASIC \/ auth_mode c = AUTH_TOKEN \/
            (auth_mode c = AUTH_DIGEST /\ FIPS_mode = false);
  ok_retry : EST_RETRY_PERIOD_MIN <= retry_period c <= EST_RETRY_PERIOD_MAX;
  ok_brski : EST_BRSKI_RETRY_PERIOD_MIN <= brski_retry_period c <= EST_BRSKI_RETRY_PERIOD_MAX;
  ok_timeout : EST_SSL_READ_TIMEOUT_MIN <= server_read_timeout c <= EST_SSL_READ_TIMEOUT_MAX;
  ok_curve : 0 <= ecdhe_nid c;
  ok_pwd : Z.of_nat (length (enhcd_cert_auth_pwd c)) <= MAX_UIDPWD;
  ok_mfgs : forall l, enchd_cert_mfgs_info_list c = Some l ->
              enhanced_cert_auth_enabled c = true /\ mfgs_ok l
}.

Definition I (w : world) : Prop := ctx_ok (w_ctx w).

(** The arguments of a call are memory the caller has: a truststore of the length given
    (or, with a negative length, with a NUL), and attributes that are a C string with
    something to decode in it where they are decoded. *)
Definition buffer_ok (buf : option bytes) (len : Z) : Prop :=
  forall b, buf = Some b -> is_Some (mem_buf b len).

Definition api_ok (a : api) : Prop :=
  match a with
  | Api_add_mfg _ _ _ buf len => buffer_ok buf len
  | Api_init_csrattrs _ attrs len => forall d, attrs = Some d -> MIN_CSRATTRS <= len -> has_text d
  | _ => True
  end.

(** ** Rules *)

Lemma safe_set_ctx f : (forall c, ctx_ok c -> ctx_ok (f c)) -> safe I (set_ctx f).
Proof. intros Hf w Hw. eexists _, _. split; [reflexivity|]. by apply Hf. Qed.

Lemma safe_put_ctx c : ctx_ok c -> safe I (put_ctx c).
Proof. intros Hc w _. eexists _, _. split; [reflexivity|]. exact Hc. Qed.

Lemma safe_alloc : safe I alloc.
Proof.
  intros w Hw. unfold alloc. destruct (w_alloc w); (eexists _, _; split; [reflexivity|]); exact Hw.
Qed.

(** A total operation that leaves the context alone. *)
Lemma safe_frame {A} P (m : M A) : safe (fun _ => True) m -> sat (frame P) m -> safe I m.
Proof.
  intros Ht Hf w Hw. destruct (Ht w Logic.I) as (a & w' & H & _). exists a, w'. split; [exact H|].
  unfold I. by rewrite (frame_ctx _ _ _ (Hf _ _ _ H)).
Qed.

Ltac ok_set := intros c []; split; simpl; auto; try lia.

Lemma safe_server_mode_only m : safe I m -> safe I (server_mode_only m).
Proof.
  intros Hm. unfold server_mode_only. apply safe_get_ctx. intros w Hw.
  rewrite bool_decide_true by apply Hw. exact Hm.
Qed.

(** ** The manufacturer list *)

Lemma next_free_spec l i :
  next_free l i = -1 \/
  exists used x free, l = used ++ x :: free /\ next_free l i = i + Z.of_nat (length used) /\
    mfg_truststore x = None /\ Forall (fun m => is_Some (mfg_truststore m)) used.
Proof.
  revert i; induction l as [|m l IH]; intros i; cbn [next_free]; [by left|].
  destruct (mfg_truststore m) as [ts|] eqn:Em.
  - destruct (IH (i + 1)) as [H|(used & x & free & -> & Hn & Hx & Hu)]; [by left|right].
    exists (m :: used), x, free. split; [done|]. split; [rewrite Hn; simpl; lia|].
    split; [done|]. constructor; [by rewrite Em|done].
  - right. exists [], m, l. split; [done|]. split; [simpl; lia|done].
Qed.

(** What follows the first free entry is free. *)
Lemma free_suffix l used x free :
  mfgs_ok l -> l = used ++ x :: free -> mfg_truststore x = None ->
  Forall (fun m => mfg_truststore m = None) free.
Proof.
  intros [_ _ (u2 & f2 & Hl & Hu2 & Hf2)] El Hx.
  assert (Hle : (length u2 <= length used)%nat).
  { destruct (decide (length u2 <= length used)%nat) as [?|Hgt]; [done|exfalso].
    assert (Hlk : u2 !! length used = Some x).
    { rewrite <- (lookup_app_l u2 f2) by lia. rewrite <- Hl, El. by rewrite list_lookup_middle. }
    apply (proj1 (Forall_lookup _ _) Hu2) in Hlk. rewrite Hx in Hlk. by destruct Hlk. }
  apply Forall_lookup. intros j m Hj.
  assert (Hlk : l !! (length used + S j)%nat = Some m)
    by (rewrite El, lookup_app_r by lia; by replace (length used + S j - length used)%nat with (S j) by lia).
  rewrite Hl, lookup_app_r in Hlk by lia. by apply (proj1 (Forall_lookup _ _) Hf2) in Hlk.
Qed.

(** The list around the entry being loaded. *)
Definition J (used free : list ENCHD_CERT_MFG_INFO) (w : world) : Prop :=
  ctx_ok (w_ctx w) /\ enhanced_cert_auth_enabled (w_ctx w) = true /\
  Forall (fun m => is_Some (mfg_truststore m)) used /\
  Forall (fun m => mfg_truststore m = None) free /\
  exists x, enchd_cert_mfgs_info_list (w_ctx w) = Some (used ++ x :: free).

Lemma insert_middle {A} (used free : list A) x m :
  <[length used := m]> (used ++ x :: free) = used ++ m :: free.
Proof. rewrite insert_app_r_alt, Nat.sub_diag by lia. done. Qed.

Lemma safe_set_mfg used free m : mfg_ok m -> safe (J used free) (set_mfg (length used) m).
Proof.
  intros Hm w (Hok & He & Hu & Hf & x & Hl). unfold set_mfg.
  rewrite (bind_run get_ctx _ w (w_ctx w) w) by done. rewrite Hl.
  eexists _, _. split; [reflexivity|]. rewrite (insert_middle used free x m).
  destruct (ok_mfgs _ Hok _ Hl) as [_ [Hlen Hent _]].
  split; [|split; [done|split; [done|split; [done|by exists m]]]].
  destruct Hok. split; simpl; auto. intros l [= <-]. split; [done|].
  apply Forall_app in Hent as [He1 He2]. apply Forall_cons_1 in He2 as [_ He2]. split.
  - by rewrite length_app in *.
  - apply Forall_app. split; [done|]. by constructor.
  - destruct (mfg_truststore m) as [ts|] eqn:Em.
    + exists (used ++ [m]), free. rewrite <- app_assoc. split; [done|]. split; [|done].
      apply Forall_app. split; [done|]. by repeat constructor.
    + exists used, (m :: free). split; [done|]. split; [done|]. by constructor.
Qed.

Definition I2 (w : world) : Prop := I w /\ enhanced_cert_auth_enabled (w_ctx w) = true.

Lemma safe_alloc_ctx (K : EST_CTX -> Prop) : safe (fun w => K (w_ctx w)) alloc.
Proof.
  intros w Hw. unfold alloc. destruct (w_alloc w); (eexists _, _; split; [reflexivity|]); exact Hw.
Qed.

Lemma safe_mfg_create : safe I2 est_enhcd_cert_auth_mfg_info_list_create.
Proof.
  unfold est_enhcd_cert_auth_mfg_info_list_create.
  apply safe_bind; [apply (safe_alloc_ctx (fun c => ctx_ok c /\ enhanced_cert_auth_enabled c = true))|]. intros ok w [Hw He].
  rewrite (bind_run get_ctx _ w (w_ctx w) w) by done.
  destruct ok; (eexists _, _; split; [reflexivity|]); (split; [|done]); destruct Hw; split; simpl; auto.
  - intros l [= <-]. split; [done|]. split.
    + done.
    + by repeat constructor.
    + exists [], (replicate NUM_SUPPORTED_MFG empty_mfg). split; [done|]. split; [constructor|].
      by repeat constructor.
  - done.
Qed.

Lemma safe_store (K : EST_CTX -> Prop) store raw :
  safe (fun w => K (w_ctx w)) (ossl_init_cert_store store raw).
Proof.
  unfold ossl_init_cert_store, ossl_init_cert_store_from_raw.
  destruct raw; [|apply safe_ret]. apply safe_bind; [|intros [? ?]; apply safe_ret].
  apply safe_bind; [apply safe_alloc_ctx|intros []]; cbn [negb]; try apply safe_ret.
  destruct (PEM_X509_INFO_read_bio _); [|apply safe_ret]. destruct (add_infos _ _ _). apply safe_ret.
Qed.

(** A stronger invariant inside a weaker one. *)
Lemma safe_inside {A} (I1 K : world -> Prop) (m : M A) w :
  (forall w', K w' -> I1 w') -> K w -> safe K m -> exists a w', m w = Some (a, w') /\ I1 w'.
Proof.
  intros HK Hw Hm. destruct (Hm w Hw) as (a & w' & H & Hw'). exists a, w'. auto.
Qed.

Lemma J_I2 used free w : J used free w -> I2 w.
Proof. intros (H1 & H2 & _). by split. Qed.

Lemma safe_load_mfg name nid certs : safe I2 (est_load_enhcd_cert_auth_manufacturer name nid certs).
Proof.
  intros w [Hw He]. unfold est_load_enhcd_cert_auth_manufacturer.
  rewrite (bind_run get_ctx _ w (w_ctx w) w) by done.
  destruct (enchd_cert_mfgs_info_list (w_ctx w)) as [l|] eqn:El; [|by eexists _, _].
  rewrite (bind_run _ _ w (EST_ERR_NONE, next_free l 0) w)
    by (unfold est_enhcd_cert_get_next_mfg_info_ind;
        rewrite (bind_run get_ctx _ w (w_ctx w) w), El by done; done).
  rewrite bool_decide_true by done. cbn [negb orb].
  destruct (next_free_spec l 0) as [->|(used & x & free & El2 & -> & Hx & Hu)]; [by eexists _, _|].
  rewrite (proj2 (Z.ltb_ge _ _)) by lia. rewrite Z.add_0_l, Nat2Z.id. cbv zeta.
  destruct (ok_mfgs _ Hw _ El) as [_ Hl]. pose proof (free_suffix l used x free Hl El2 Hx) as Hf.
  assert (Hlk : l !! length used = Some x) by (by rewrite El2, list_lookup_middle).
  rewrite Hlk. destruct (strncpy_s _ _ _ _ _) as [rc name'] eqn:Es.
  destruct (rc =? EOK) eqn:Erc; b2p; cbn [negb]; [|by eexists _, _].
  assert (Hn : Z.of_nat (length (cstr (default [] name'))) <= MFG_NAME_MAX_LEN).
  { apply strncpy_s_bound in Es; [exact Es|done|by vm_compute..]. }
  set (nm := cstr (default [] name')) in *.
  apply (safe_inside I2 (J used free)); [apply J_I2| |].
  { split; [done|]. split; [done|]. split; [done|]. split; [done|]. exists x. by rewrite <- El2. }
  assert (Hxm : mfg_ok x).
  { apply (Forall_lookup_1 _ _ _ _ (mfgs_entries _ Hl) Hlk). }
  assert (Hctx : mfg_store_ctx x = false).
  { destruct (mfg_store_ctx x) eqn:E; [|done]. destruct (proj2 Hxm E) as [? ?]. congruence. }
  rewrite Hctx.
  apply safe_bind; [apply safe_set_mfg; by split|intros _].
  destruct X509_STORE_new as [store|]; [|apply safe_ret].
  apply safe_bind.
  - exact (safe_store (fun c => ctx_ok c /\ enhanced_cert_auth_enabled c = true /\
      Forall (fun m => is_Some (mfg_truststore m)) used /\
      Forall (fun m => mfg_truststore m = None) free /\
      exists x, enchd_cert_mfgs_info_list c = Some (used ++ x :: free)) store certs).
  - intros [store' rv]. case_bool_decide; cbn [negb].
    + destruct (negb X509_STORE_CTX_new);
        (apply safe_bind; [apply safe_set_mfg; split; [done|first [by intros [=]|by intros _; exists store']]|intros _; apply safe_ret]).
    + apply safe_bind; [apply safe_set_mfg; by split|intros _; apply safe_ret].
Qed.

Lemma safe_add_mfg g name nid buf len :
  buffer_ok buf len -> safe I (est_server_enhanced_cert_auth_add_mfg_info g name nid buf len).
Proof.
  intros Hb. unfold est_server_enhanced_cert_auth_add_mfg_info.
  destruct g; [|apply safe_ret]. destruct name as [name|]; [|apply safe_ret].
  destruct buf as [buf|]; [|apply safe_ret]. destruct (len =? 0); [apply safe_ret|].
  destruct (Hb _ eq_refl) as [certs ->]. intros w Hw. rewrite (bind_run get_ctx _ w (w_ctx w) w) by done.
  destruct (enhanced_cert_auth_enabled (w_ctx w)) eqn:He; cbn [negb]; [|by eexists _, _].
  apply (safe_inside I I2); [by intros w' []|by split|].
  apply safe_bind; [destruct (enchd_cert_mfgs_info_list _); [apply safe_ret|apply safe_mfg_create]|].
  intros err. case_bool_decide; cbn [negb]; [apply safe_load_mfg|apply safe_ret].
Qed.

(** ** The password and the mode *)

Lemma safe_pwd pwd : safe I (est_server_set_enhcd_cert_auth_pwd pwd).
Proof.
  unfold est_server_set_enhcd_cert_auth_pwd.
  destruct (_ >? _) eqn:E; [apply safe_ret|].
  assert (Hlen : Z.of_nat (length (cstr pwd)) <= MAX_UIDPWD).
  { rewrite Z.gtb_ltb in E. b2p. unfold strnlen_s, strnlen in E. unfold MAX_UIDPWD in *. lia. }
  destruct (strcpy_s_cstr (replicate (Z.to_nat (MAX_UIDPWD + 1)) 0) pwd (MAX_UIDPWD + 1))
    as (d & -> & Hd); [rewrite length_replicate; unfold MAX_UIDPWD; lia|unfold MAX_UIDPWD in *; lia..|].
  cbn [Z.eqb negb]. change (EOK =? EOK) with true. cbn [negb].
  apply safe_set_ctx. intros c []; split; simpl; auto. by rewrite Hd.
Qed.

Lemma safe_enable_eca g nid pwd flag : safe I (est_server_enable_enhanced_cert_auth g nid pwd flag).
Proof.
  unfold est_server_enable_enhanced_cert_auth, with_ctx. destruct g; [|apply safe_ret].
  apply safe_get_ctx. intros w _. destruct (enhanced_cert_auth_enabled _); [apply safe_ret|].
  apply safe_bind.
  { apply safe_set_ctx. intros c []; split; simpl; auto. }
  intros _. apply safe_bind; [apply safe_pwd|]. intros rv.
  case_bool_decide; cbn [negb]; [|apply safe_ret]. destruct flag; [|apply safe_ret].
  apply safe_bind; [|intros _]; apply safe_set_ctx; intros c []; split; simpl; auto.
  intros l Hl. split; [done|]. by apply ok_mfgs0.
Qed.

Lemma safe_disable_eca g : safe I (est_server_disable_enhanced_cert_auth g).
Proof.
  unfold est_server_disable_enhanced_cert_auth, with_ctx, mfg_info_list_destroy.
  destruct g; [|apply safe_ret]. intros w Hw.
  rewrite (bind_run get_ctx _ w (w_ctx w) w) by done.
  destruct (enhanced_cert_auth_enabled (w_ctx w)); cbn [negb]; [|by eexists _, _].
  set (w1 := set_w_ctx (set_enchd_cert_mfgs_info_list None (w_ctx w)) w).
  assert (H1 : exists w2, (ctx ← get_ctx; match enchd_cert_mfgs_info_list ctx with
      | None => mret tt | Some _ => put_ctx (set_enchd_cert_mfgs_info_list None ctx) end) w
      = Some (tt, w2) /\ ctx_ok (w_ctx w2) /\ enchd_cert_mfgs_info_list (w_ctx w2) = None).
  { rewrite (bind_run get_ctx _ w (w_ctx w) w) by done.
    destruct (enchd_cert_mfgs_info_list (w_ctx w)) eqn:El.
    - exists w1. split; [done|]. split; [|done]. destruct Hw; split; simpl; auto. done.
    - exists w. by split. }
  destruct H1 as (w2 & H1 & Hok & Hn). rewrite (bind_run _ _ _ _ _ H1).
  eexists _, _. split; [reflexivity|]. destruct Hok; split; simpl; auto. congruence.
Qed.

(** ** The CSR attributes *)

Lemma total_parse_attributes p n b :
  (MIN_CSRATTRS <= n -> has_text p) -> safe (fun _ => True) (est_asn1_parse_attributes (Some p) n b).
Proof.
  intros Hp. unfold est_asn1_parse_attributes. destruct (Z.ltb_spec n MIN_CSRATTRS); [apply safe_ret|].
  apply safe_bind; [apply safe_any_alloc|intros []]; cbn [negb]; [|apply safe_ret].
  apply safe_bind; [apply safe_base64_decode; auto|]. intros [dl d]. destruct (dl <=? 0); apply safe_ret.
Qed.

Lemma total_is_chpw p n :
  (MIN_CSRATTRS <= n -> has_text p) -> safe (fun _ => True) (est_is_challengePassword_present (Some p) n).
Proof.
  intros Hp. unfold est_is_challengePassword_present. destruct (n =? 0); [apply safe_ret|].
  by apply total_parse_attributes.
Qed.

Lemma total_add_chpw p n : has_text p -> safe (fun _ => True) (est_add_challengePassword p n).
Proof.
  intros Hp. pose proof (safe_base64_decode p (n * 2) Hp).
  unfold est_add_challengePassword, est_base64_encode. safe_auto.
Qed.

Lemma safe_to_store attrs n :
  MIN_CSRATTRS <= n -> has_text attrs -> safe I (csrattrs_to_store attrs n).
Proof.
  intros Hn Ht.
  unfold csrattrs_to_store. apply safe_get_ctx. intros w Hw. destruct (server_enable_pop _).
  - apply safe_bind; [eapply safe_frame; [by apply total_is_chpw|apply frame_is_chpw]|].
    intros [rv pop]. case_bool_decide; cbn [negb]; [|apply safe_ret].
    apply safe_bind; [apply safe_put_ctx; destruct Hw; by split|intros _].
    destruct pop; [apply safe_ret|].
    apply safe_bind; [eapply safe_frame; [by apply total_add_chpw|apply frame_add_chpw]|].
    intros [rv2 d]. case_bool_decide; apply safe_ret.
  - apply safe_bind; [eapply safe_frame; [by apply total_parse_attributes|apply frame_parse_attributes]|].
    intros [rv pop]. case_bool_decide; apply safe_ret.
Qed.

Lemma safe_init_csrattrs g a n :
  api_ok (Api_init_csrattrs g a n) -> safe I (est_server_init_csrattrs g a n).
Proof.
  intros Ha. unfold est_server_init_csrattrs, with_ctx. destruct g; [|apply safe_ret].
  apply safe_server_mode_only. apply safe_bind; [apply safe_set_ctx; ok_set|intros _].
  destruct a as [attrs|]; [|apply safe_ret]. destruct (Z.ltb_spec n MIN_CSRATTRS); [apply safe_ret|].
  apply safe_bind; [apply safe_set_ctx; ok_set|intros _].
  apply safe_bind; [apply safe_to_store; auto; by eapply Ha|]. intros [[rv d] len].
  case_bool_decide; cbn [negb]; [|apply safe_ret].
  apply safe_bind; [apply safe_alloc|]. intros []; cbn [negb]; [|apply safe_ret].
  destruct (strcpy_s _ _ _). apply safe_set_ctx. ok_set.
Qed.

(** ** Every call *)

Lemma safe_api a : api_ok a -> safe I (run_api a).
Proof.
  intros Ha. destruct a; cbn [run_api];
    first [apply safe_enable_eca | by apply safe_add_mfg | apply safe_disable_eca
          | by apply safe_init_csrattrs | idtac]; clear Ha;
    unfold est_set_ca_enroll_cb, est_set_ca_reenroll_cb, est_set_csr_cb, est_set_cacerts_cb,
      est_set_http_auth_cb, est_set_server_side_keygen_enroll_cb, est_server_set_key_generation_cb,
      est_set_brski_voucher_req_cb, est_set_brski_voucher_status_cb, est_set_brski_enroll_status_cb,
      est_set_enroll_req_event_cb, est_set_enroll_rsp_event_cb, est_set_enroll_auth_result_event_cb,
      est_set_endpoint_req_event_cb, est_set_http_auth_required, est_server_enable_srp,
      est_server_enable_pop, est_server_disable_pop, est_server_enforce_csrattr,
      est_server_set_auth_mode, est_server_set_retry_period, est_server_set_brski_retry_period,
      est_server_set_read_timeout, est_server_set_ecdhe_curve, with_ctx, not_null;
    repeat match goal with
    | |- safe I (if ?c then _ else _) => let E := fresh "E" in destruct c eqn:E
    | |- safe I (match ?c with _ => _ end) => destruct c
    | |- safe I (mret _) => apply safe_ret
    | |- safe I (server_mode_only _) => apply safe_server_mode_only
    | |- safe I (set_ctx _) => apply safe_set_ctx
    end;
    rewrite ?Z.gtb_ltb in *; b2p; ok_set.
Qed.

Lemma safe_apis l : Forall api_ok l -> safe I (run_apis l).
Proof.
  induction 1 as [|a l Ha _ IH]; cbn [run_apis]; [apply safe_ret|].
  apply safe_bind; [by apply safe_api|]. intros _. exact IH.
Qed.

(** ** Initialisation *)

(** The context under construction: everything but the authentication mode. *)
Definition K (w : world) : Prop := ctx_ok (set_auth_mode AUTH_BASIC (w_ctx w)).

Lemma safe_K_alloc : safe K alloc.
Proof. exact (safe_alloc_ctx (fun c => ctx_ok (set_auth_mode AUTH_BASIC c))). Qed.

Lemma safe_K_pkcs7 raw : safe K (est_get_certs_pkcs7 raw).
Proof.
  pose proof safe_K_alloc. unfold est_get_certs_pkcs7.
  repeat first [apply safe_bind; [apply safe_K_alloc|intros []]; cbn [negb]
               |apply safe_ret | match goal with |- safe _ (match ?x with _ => _ end) => destruct x end].
Qed.

Lemma safe_K_load_ca raw : safe K (est_load_ca_certs raw).
Proof.
  unfold est_load_ca_certs. apply safe_get_ctx. intros w Hw.
  case_bool_decide as Hm; [apply safe_ret|].
  apply safe_bind; [apply safe_K_alloc|intros []]; cbn [negb]; [|apply safe_ret].
  apply safe_bind; [apply safe_K_pkcs7|]. intros [ret|]; [|apply safe_ret].
  destruct (_ <=? 0); [apply safe_ret|].
  apply safe_bind; [apply safe_K_alloc|intros []]; cbn [negb].
  - destruct (memcpy_s _ _ _ _) as [rc dst]. apply safe_bind; [|intros; apply safe_ret].
    intros w' _. eexists _, _. split; [reflexivity|]. destruct Hw; by split.
  - apply safe_bind; [|intros; apply safe_ret].
    intros w' _. eexists _, _. split; [reflexivity|]. destruct Hw; by split.
Qed.

Lemma safe_K_client f : safe K (upd_client f).
Proof. intros w Hw. eexists _, _. split; [reflexivity|]. destruct Hw; by split. Qed.

Lemma safe_K_trusted certs : safe K (est_load_trusted_certs certs).
Proof.
  unfold est_load_trusted_certs. destruct X509_STORE_new;
    [|apply safe_bind; [apply safe_K_client|intros; apply safe_ret]].
  apply safe_bind; [|intros []; apply safe_bind; [apply safe_K_client|intros; apply safe_ret]].
  exact (safe_store (fun c => ctx_ok (set_auth_mode AUTH_BASIC c)) _ _).
Qed.

Lemma zero_ctx_ok : ctx_ok (set_auth_mode AUTH_BASIC zero_ctx).
Proof. split; simpl; auto; by vm_compute. Qed.

(** What follows the allocation. *)
Lemma init_run chain resp pem rlm w :
  exists b w', (_ ← put_ctx zero_ctx;
      rv ← match resp with
           | Some resp => est_load_ca_certs (cstr resp)
           | None => mret EST_ERR_NONE
           end;
      if negb (bool_decide (rv = EST_ERR_NONE)) then mret false else
      rv ← est_load_trusted_certs (Some (cstr chain));
      if negb (bool_decide (rv = EST_ERR_NONE)) then mret false else
      ctx ← get_ctx;
      let '(_, r) := strcpy_s (replicate (Z.to_nat (MAX_REALM + 1)) 0) MAX_REALM (Some rlm) in
      _ ← put_ctx (set_server_enable_pop pem (set_auth_mode AUTH_BASIC
                     (set_realm (cstr r) ctx)));
      mret true) w = Some (b, w') /\ (b = true -> ctx_ok (w_ctx w')).
Proof.
  set (w0 := set_w_ctx zero_ctx w). rewrite (bind_run _ _ w tt w0) by done.
  assert (H0 : K w0) by exact zero_ctx_ok.
  assert (H1 : safe K (match resp with Some resp => est_load_ca_certs (cstr resp)
                       | None => mret EST_ERR_NONE end))
    by (destruct resp; [apply safe_K_load_ca|apply safe_ret]).
  destruct (H1 w0 H0) as (rv & w1 & E1 & K1). rewrite (bind_run _ _ _ _ _ E1).
  case_bool_decide; cbn [negb]; [|by eexists _, _].
  destruct (safe_K_trusted (Some (cstr chain)) w1 K1) as (rv2 & w2 & E2 & K2).
  rewrite (bind_run _ _ _ _ _ E2). case_bool_decide; cbn [negb]; [|by eexists _, _].
  rewrite (bind_run get_ctx _ w2 (w_ctx w2) w2) by done.
  destruct (strcpy_s _ _ _) as [rc r] eqn:Es.
  apply strcpy_s_bound in Es; [|by vm_compute].
  eexists _, _. split; [reflexivity|]. intros _. destruct K2; by split.
Qed.

(** C39. A server context that [est_server_init] created stays well-formed
    under every sequence of configuration calls, whatever their results and in whatever
    order: the mode, the bounds of the realm, the password, the retry periods and the
    read timeout, a served authentication mode (Digest only without FIPS), and a
    manufacturer list that exists only while enhanced certificate authentication is
    enabled, has its fixed length and is filled from the front.  Every call returns, for
    arguments the caller may pass ([api_ok]): a truststore of the length given, and
    attributes that are not blank, which [est_base64_decode] does not survive.
    Allocations may fail anywhere in the sequence. *)
Theorem config_invariant ca ca_len resp resp_len pem realm cert key w :
  exists ok w1, est_server_init ca ca_len resp resp_len pem realm cert key w = Some (ok, w1) /\
    (ok = true -> forall l, Forall api_ok l ->
      exists w2, run_apis l w1 = Some (tt, w2) /\ ctx_ok (w_ctx w2)).
Proof.
  assert (Hf : forall b : bool, b = false -> forall l, Forall api_ok l -> b = true ->
            exists w2, run_apis l w = Some (tt, w2) /\ ctx_ok (w_ctx w2)) by (by intros b ->).
  assert (Hend : forall b w1, (b = true -> ctx_ok (w_ctx w1)) -> b = true -> forall l, Forall api_ok l ->
            exists w2, run_apis l w1 = Some (tt, w2) /\ ctx_ok (w_ctx w2)).
  { intros b w1 Hb Ht l Hl. destruct (safe_apis l Hl w1 (Hb Ht)) as ([] & w2 & H & Hok). by exists w2. }
  unfold est_server_init.
  destruct ca as [chain|]; [|by eexists false, w].
  repeat match goal with
  | |- context [(if ?c then mret false else _)] => destruct c; [by eexists false, w|]
  | |- context [match realm with _ => _ end] => destruct realm as [rlm|]; [|by eexists false, w]
  end.
  destruct (safe_any_alloc w Logic.I) as (ok & w1 & E & _). rewrite (bind_run _ _ _ _ _ E).
  destruct ok; cbn [negb]; [|by eexists false, w1].
  destruct (init_run chain resp true rlm w1) as (b & w2 & H & Hb).
  exists b, w2. split; [exact H|]. exact (Hend b w2 Hb).
Qed.

(** ** Refused calls *)

(** The calls that change several fields before they can fail. *)
Definition multi_step (a : api) : Prop :=
  match a with
  | Api_enable_eca _ _ _ _ | Api_add_mfg _ _ _ _ _ | Api_init_csrattrs _ _ _ => True
  | _ => False
  end.

Lemma set_ctx_ok f w rc w' : set_ctx f w = Some (rc, w') -> rc = EST_ERR_NONE.
Proof. by intros [= <- _]. Qed.

(** A configuration call that is refused changes nothing, except for the
    three calls that work in several steps (enabling enhanced certificate
    authentication, adding a manufacturer, setting the CSR attributes). *)
Theorem refused_call_atomic a w rc w' :
  run_api a w = Some (rc, w') -> rc <> EST_ERR_NONE -> ~ multi_step a -> w' = w.
Proof.
  intros H Hrc Hm. destruct a; try (by destruct Hm); cbn [run_api] in H; clear Hm;
    unfold est_set_ca_enroll_cb, est_set_ca_reenroll_cb, est_set_csr_cb, est_set_cacerts_cb,
      est_set_http_auth_cb, est_set_server_side_keygen_enroll_cb, est_server_set_key_generation_cb,
      est_set_brski_voucher_req_cb, est_set_brski_voucher_status_cb, est_set_brski_enroll_status_cb,
      est_set_enroll_req_event_cb, est_set_enroll_rsp_event_cb, est_set_enroll_auth_result_event_cb,
      est_set_endpoint_req_event_cb, est_set_http_auth_required, est_server_enable_srp,
      est_server_enable_pop, est_server_disable_pop, est_server_enforce_csrattr,
      est_server_set_auth_mode, est_server_set_retry_period, est_server_set_brski_retry_period,
      est_server_set_read_timeout, est_server_set_ecdhe_curve, with_ctx, not_null in H;
    repeat first [ by apply set_ctx_ok in H
                 | by apply ret_some in H as [_ <-]
                 | progress (unfold server_mode_only, est_server_disable_enhanced_cert_auth, with_ctx in H)
                 | match type of H with
                   | (get_ctx ≫= _) _ = _ => apply bind_some in H as (? & ? & [= <- <-] & H)
                   | (if ?c then _ else _) _ = _ => destruct c
                   | (match ?c with _ => _ end) _ = _ => destruct c
                   end ].
  apply bind_some in H as (? & ? & _ & H). by apply set_ctx_ok in H.
Qed.

Lemma to_store_ctx attrs n w r w' :
  csrattrs_to_store attrs n w = Some (r, w') ->
  server_csrattrs (w_ctx w') = server_csrattrs (w_ctx w).
Proof.
  unfold csrattrs_to_store. intros H. run_inv H as ctx w1 E1. injection E1 as <- <-.
  destruct (server_enable_pop (w_ctx w)).
  - run_inv H as x w2 E2. destruct x as [rv pop]. apply frame_is_chpw in E2.
    case_bool_decide; cbn [negb] in H; [|by apply ret_some in H as [_ <-]; rewrite (frame_ctx _ _ _ E2)].
    run_inv H as u w3 E3. injection E3 as <- <-. destruct pop; [by apply ret_some in H as [_ <-]|].
    run_inv H as y w4 E4. destruct y as [rv2 d]. apply frame_add_chpw in E4.
    case_bool_decide; apply ret_some in H as [_ <-]; by rewrite (frame_ctx _ _ _ E4).
  - run_inv H as x w2 E2. destruct x as [rv pop]. apply frame_parse_attributes in E2.
    case_bool_decide; apply ret_some in H as [_ <-]; by rewrite (frame_ctx _ _ _ E2).
Qed.

(** Setting CSR attributes that are refused leaves the server
    without any, also those it had before; with no attribute callback, the check
    of a CSR against the required attributes then succeeds for every CSR. *)
Theorem refused_csrattrs_disable_check attrs n w rc w' :
  est_server_init_csrattrs true attrs n w = Some (rc, w') ->
  est_mode (w_ctx w) = EST_SERVER -> rc <> EST_ERR_NONE ->
  server_csrattrs (w_ctx w') = None /\
  forall body len peer w2, w_ctx w2 = w_ctx w' -> est_get_csr_cb (w_ctx w2) = None ->
    est_server_all_csrattrs_present body len peer w2 = Some (EST_ERR_NONE, w2).
Proof.
  intros H Hm Hrc.
  assert (Hn : server_csrattrs (w_ctx w') = None).
  { unfold est_server_init_csrattrs, with_ctx, server_mode_only in H.
    run_inv H as ctx w1 E1. injection E1 as <- <-. rewrite bool_decide_true in H by done.
    cbn [negb] in H. run_inv H as u w1 E1. injection E1 as _ <-.
    destruct attrs as [attrs|]; [|by apply ret_some in H as [<- _]].
    destruct (n <? MIN_CSRATTRS); [by apply ret_some in H as [_ <-]|].
    run_inv H as u2 w2 E2. injection E2 as _ <-. run_inv H as x w3 E3. destruct x as [[rv d] len].
    apply to_store_ctx in E3. simpl in E3.
    case_bool_decide; cbn [negb] in H; [|by apply ret_some in H as [_ <-]].
    run_inv H as ok w4 E4. pose proof (frame_alloc quiet _ _ _ E4) as F4.
    destruct ok; cbn [negb] in H.
    - destruct (strcpy_s _ _ _). by apply set_ctx_ok in H.
    - apply ret_some in H as [_ <-]. by rewrite (frame_ctx _ _ _ F4). }
  split; [done|]. intros body len peer w2 Hw Hcb. unfold est_server_all_csrattrs_present.
  rewrite (bind_run get_ctx _ w2 (w_ctx w2) w2) by done.
  rewrite Hcb, Hw, Hn. rewrite bool_decide_true by done.
  rewrite bool_decide_false by (by intros []). done.
Qed.

End Props.
