(* ===== verification/ServerSafety.v ===== *)
(** * ServerSafety: no request makes the server dereference NULL

    With memory available, a library reader that advances and an attribute
    callback that keeps its contract, every HTTP request runs to completion whose CSR
    carries no challengePassword, or one with a string for its value: no branch of the
    handlers reaches a NULL pointer, an entry outside a list or an unset callback.  A
    challengePassword without a string does crash the server
    ([empty_password_crashes]). *)

From S2P Require Import Prelude.
From S2P Require Import SafeC.
From S2P Require Import EstTypes.
From S2P Require Import EstState.
From S2P Require Import EstUtil.
From S2P Require Import HttpParse.
From S2P Require Import HttpIO.
From S2P Require Import EnhCertAuth.
From S2P Require Import HttpAuth.
From S2P Require Import ServerAuth.
From S2P Require Import ServerCsr.
From S2P Require Import ServerEnroll.
From S2P Require Import ServerDispatch.
From S2P Require Import EstLogic.
From S2P Require Import HttpIOFacts.
From S2P Require Import ServerAuthProps.
From S2P Require Import EstUtilFacts.
From S2P Require Import ServerCsrProps.
From S2P Require Import ServerDispatchProps.

(** ** The tokenizer on credentials *)

Lemma strstr_from_char s c i p :
  strstr_from s [c] i = Some p ->
  (i <= p)%nat /\ rd s (p - i) = c /\ (p - i < length s)%nat.
Proof.
  revert i; induction s as [|d s IH]; intros i H; [done|].
  cbn [strstr_from starts_with] in H. rewrite andb_true_r in H.
  destruct (c =? d) eqn:E; b2p.
  - injection H as <-. subst. rewrite Nat.sub_diag. simpl. repeat split; lia.
  - apply IH in H as (H1 & H2 & H3). replace (p - i)%nat with (S (p - S i)) by lia.
    simpl. repeat split; [lia|exact H2|lia].
Qed.

(** The first colon of a C string: only characters before it. *)
Lemma strstr_colon s p :
  strstr s [chr_colon] = Some p ->
  rd s p = chr_colon /\ (p < length s)%nat /\ forall j, (j <= p)%nat -> rd s j <> 0.
Proof.
  unfold strstr. change (cstr [chr_colon]) with [chr_colon]. intros H.
  apply strstr_from_char in H as (_ & H1 & H2). rewrite Nat.sub_0_r in *.
  pose proof (cstr_length s) as Hl.
  assert (Hrd : forall j, (j < length (cstr s))%nat -> rd s j = rd (cstr s) j).
  { intros j Hj. pose proof (cstr_prefix s) as E. set (n := length (cstr s)) in *. rewrite E.
    unfold rd. by rewrite !nth_lookup, lookup_take_lt by lia. }
  split_and!; [by rewrite Hrd|lia|].
  intros j Hj. rewrite Hrd by lia. unfold rd.
  pose proof (cstr_no_nul s) as Hn. unfold no_nul in Hn. rewrite Forall_forall in Hn.
  apply Hn, nth_In. lia.
Qed.

Lemma strtok_end_ptr fuel buf dest dlen dmax ptoken ptr p :
  (dest <= p)%nat -> (p - dest < fuel)%nat -> rd buf p = chr_colon ->
  (forall j, (j <= p)%nat -> rd buf j <> 0) ->
  let r := strtok_end fuel buf dest dlen dmax [chr_colon] ptoken ptr in
  is_Some (tk_token r) -> is_Some (tk_ptr r).
Proof.
  revert dest dlen; induction fuel as [|f IH]; intros dest dlen Hd Hf Hp Hz; [lia|].
  cbn [strtok_end]. rewrite (proj2 (Z.eqb_neq _ 0)) by auto.
  destruct (dlen =? 0); [cbv zeta; by intros [t Ht]|].
  change (tok_scan (rd buf dest) [chr_colon] STRTOK_DELIM_MAX_LEN)
    with (if rd buf dest =? chr_colon then Delim else NotDelim).
  destruct (rd buf dest =? chr_colon) eqn:E; [intros _; by eexists|].
  apply IH; try done; b2p.
  - destruct (decide (dest = p)); [subst; congruence|lia].
  - destruct (decide (dest = p)); [subst; congruence|lia].
Qed.

Lemma strtok_colon both n p :
  strstr both [chr_colon] = Some p -> rd both 0 <> chr_colon ->
  let r := strtok_s both (Some 0%nat) (Some n) (Some [chr_colon]) None in
  is_Some (tk_token r) -> is_Some (tk_ptr r).
Proof.
  intros Hs H0. apply strstr_colon in Hs as (Hp & Hl & Hz). unfold strtok_s.
  destruct (n =? 0); [cbv zeta; by intros [t Ht]|]. destruct (n >? RSIZE_MAX_STR); [cbv zeta; by intros [t Ht]|].
  cbn [strtok_start]. rewrite (proj2 (Z.eqb_neq _ 0)) by (apply Hz; lia).
  destruct (n =? 0); [cbv zeta; by intros [t Ht]|].
  change (tok_scan (rd both 0) [chr_colon] STRTOK_DELIM_MAX_LEN)
    with (if rd both 0 =? chr_colon then Delim else NotDelim).
  rewrite (proj2 (Z.eqb_neq _ _)) by done. change (rd [chr_colon] 0 =? 0) with false. cbv iota.
  assert (p <> 0)%nat by (intros ->; congruence).
  apply (strtok_end_ptr _ _ _ _ _ _ _ p); try done; lia.
Qed.

Section Safety.
Context {L : OpenSSL}.

(** ** Total runs with a result *)

Definition safeq (I : world -> Prop) {A} (Q : A -> Prop) (m : M A) : Prop :=
  forall w, I w -> exists a w', m w = Some (a, w') /\ I w' /\ Q a.

Lemma safeq_ret I {A} (Q : A -> Prop) a : Q a -> safeq I Q (mret a).
Proof. intros HQ w Hw. by exists a, w. Qed.

Lemma safeq_bind I {A B} (Q : A -> Prop) (R : B -> Prop) (m : M A) (f : A -> M B) :
  safeq I Q m -> (forall a, Q a -> safeq I R (f a)) -> safeq I R (m ≫= f).
Proof.
  intros Hm Hf w Hw. destruct (Hm w Hw) as (a & w1 & H1 & Hw1 & HQ).
  destruct (Hf a HQ w1 Hw1) as (b & w2 & H2 & Hw2 & HR). exists b, w2.
  split; [|done]. apply bind_some. eauto.
Qed.

Lemma safeq_bind_safe I {A B} (R : B -> Prop) (m : M A) (f : A -> M B) :
  safe I m -> (forall a, safeq I R (f a)) -> safeq I R (m ≫= f).
Proof.
  intros Hm Hf. apply (safeq_bind I (fun _ => True)); [|by auto].
  intros w Hw. destruct (Hm w Hw) as (a & w' & ? & ?). by exists a, w'.
Qed.

Lemma safe_of_safeq I {A B} (Q : A -> Prop) (m : M A) (f : A -> M B) :
  safeq I Q m -> (forall a, Q a -> safe I (f a)) -> safe I (m ≫= f).
Proof. intros Hm Hf. by apply (safe_bind_post I Q). Qed.

Lemma safeq_of_sat I {A} (Q : A -> Prop) (m : M A) :
  safe I m -> (forall w a w', m w = Some (a, w') -> Q a) -> safeq I Q m.
Proof. intros Hm HQ w Hw. destruct (Hm w Hw) as (a & w' & E & Hw'). exists a, w'. eauto. Qed.

(** ** The requests that are answered *)

(** The checks can read a CSR and the text it came in: the challengePassword has a
    string for its value, and the text is not blank. *)
Definition checkable (pkcs10 : bytes) (csr : X509_REQ) : Prop := pw_string csr /\ has_text pkcs10.

(** The body of a request holds no CSR, or one that can be checked, and so can be the
    CSR that the server makes of it to have a key generated. *)
Definition readable_body (body : option bytes) : Prop :=
  forall p csr, body = Some p -> d2i_X509_REQ_bio true p = Some csr ->
    checkable p csr /\ forall csr2, server_csr csr csr2 -> checkable (i2d_X509_REQ_b64 csr2) csr2.

(** ** The state between two steps of a request *)

(** What a request does not change of the context. *)
Record like (c x : EST_CTX) : Prop := {
  like_est : est_mode x = est_mode c;
  like_mode : transport_mode x = transport_mode c;
  like_http : est_http_auth_cb x = est_http_auth_cb c;
  like_enroll : est_enroll_pkcs10_cb x = est_enroll_pkcs10_cb c;
  like_reenroll : est_reenroll_pkcs10_cb x = est_reenroll_pkcs10_cb c;
  like_keygen : est_server_keygen_pkcs10_cb x = est_server_keygen_pkcs10_cb c;
  like_keygen_cb : keygen_cb x = keygen_cb c;
  like_csr : est_get_csr_cb x = est_get_csr_cb c;
  like_attrs : server_csrattrs x = server_csrattrs c;
  like_mfgs : enchd_cert_mfgs_info_list x = enchd_cert_mfgs_info_list c
}.

(** What the server is assumed to be configured with: HTTP, and an attribute
    callback that gives no length to a missing buffer. *)
Definition csr_cb_contract (c : EST_CTX) : Prop :=
  forall cb tr seg peer, est_get_csr_cb c = Some cb ->
    fst (cb tr seg peer) = None -> snd (cb tr seg peer) < MIN_CSRATTRS.

Context (c : EST_CTX) (Hhttp : transport_mode c = EST_HTTP) (Hcsr : csr_cb_contract c)
        (Hreader : reader_ok) (Hattrs : attrs_text c).

Definition I (w : world) : Prop := memory w /\ like c (w_ctx w).

Lemma I_conn w k : I w -> conn_ssl k = conn_ssl (w_conn w) -> I (set_w_conn k w).
Proof. done. Qed.

Lemma I_io w w' : I w -> w_ctx w' = w_ctx w -> w_conn w' = w_conn w -> w_alloc w' = w_alloc w -> I w'.
Proof. intros [Hm Hl] Hc _ Ha. split; [unfold memory in *; congruence|by rewrite Hc]. Qed.

Lemma I_alloc : safe I alloc.
Proof. intros w [Hm Hl]. exists true, w. by rewrite (alloc_memory w Hm). Qed.

Lemma I_create_ah : safeq I is_Some est_create_ah.
Proof.
  unfold est_create_ah. intros w [Hm Hl]. exists (Some empty_ah), w.
  split; [by rewrite (bind_run _ _ _ _ _ (alloc_memory w Hm))|by split; [|eexists]].
Qed.

Lemma I_ctx {B} (f : EST_CTX -> M B) :
  (forall x, like c x -> safe I (f x)) -> safe I (get_ctx ≫= f).
Proof. intros Hf. apply safe_get_ctx. intros w [_ Hl]. by apply Hf. Qed.

Lemma I_ctxq {B} (Q : B -> Prop) (f : EST_CTX -> M B) :
  (forall x, like c x -> safeq I Q (f x)) -> safeq I Q (get_ctx ≫= f).
Proof. intros Hf w Hw. exact (Hf (w_ctx w) (proj2 Hw) w Hw). Qed.

Lemma I_get_conn : safe I get_conn.
Proof. apply safe_get_conn. Qed.
Lemma I_get_trace : safe I get_trace.
Proof. apply safe_get_trace. Qed.
Lemma I_get_time : safe I get_time.
Proof. apply safe_get_time. Qed.
Hint Resolve I_alloc I_get_conn I_get_trace I_get_time : safe.

Lemma I_emit e : safe I (emit e).
Proof. apply (safe_emit I). apply I_io. Qed.
Lemma I_mg_write b : safe I (mg_write b).
Proof. apply (safe_mg_write I). apply I_io. Qed.
Lemma I_send_error n : safe I (est_send_http_error n).
Proof. apply (safe_est_send_http_error I); eauto using I_conn, I_io, I_alloc. Qed.
Lemma I_auth_request : safe I mg_send_authorization_request.
Proof. apply (safe_mg_send_authorization_request I); eauto using I_conn, I_io, I_alloc. Qed.
Lemma I_retry n : safe I (est_server_send_http_retry_after n).
Proof. apply (safe_retry_after I); eauto using I_conn, I_io, I_alloc. Qed.
Lemma I_csrattr_data d n : safe I (est_send_csrattr_data d n).
Proof. apply (safe_est_send_csrattr_data I); eauto using I_conn, I_io, I_alloc. Qed.
Hint Resolve I_emit I_mg_write I_send_error I_auth_request I_retry I_csrattr_data : safe.

(** Follow a definition, the context as [like] leaves it. *)
Ltac ctx_step :=
  match goal with
  | |- safe _ (mbind _ get_ctx) => apply I_ctx; intros ? ?
  end.
Ltac safe_ctx := repeat (cbn beta iota zeta; first [ctx_step | safe_step]).

Lemma I_strndup s n : safe I (strndup_m s n).
Proof. unfold strndup_m. safe_ctx. Qed.
Lemma I_decode_at f s n : f <> [] \/ has_text s -> safe I (est_base64_decode_at f s n).
Proof. intros. apply safe_base64_decode_at; [apply I_alloc|done]. Qed.
Lemma I_decode s n : has_text s -> safe I (est_base64_decode s n).
Proof. intros. apply I_decode_at. by right. Qed.
Lemma I_encode s n nl : safe I (est_base64_encode s n nl).
Proof. unfold est_base64_encode. safe_ctx. Qed.
Hint Resolve I_strndup I_decode I_encode : safe.

(** Operations that only need memory and keep the context. *)
Lemma I_frame {A} P (m : M A) : safe memory m -> sat (frame P) m -> safe I m.
Proof.
  intros Hs Hf w [Hm Hl]. destruct (Hs w Hm) as (a & w' & E & Hm').
  exists a, w'. split; [done|]. split; [done|]. by rewrite (frame_ctx _ _ _ (Hf w a w' E)).
Qed.

(** ** Credentials *)

(** A header is not empty, so that its credentials do not start their buffer. *)
Lemma take_header h : cstr h <> [] -> take 6 (cstr h) <> [].
Proof. by destruct (cstr h). Qed.

Lemma I_basic h ah : cstr h <> [] -> safe I (mg_parse_auth_hdr_basic h ah).
Proof.
  intros Hh. unfold mg_parse_auth_hdr_basic. cbv zeta.
  apply safe_bind; [apply I_decode_at; left; by apply take_header|]. intros [len both].
  destruct (_ || _); [apply safe_ret|].
  destruct (strstr_s both len (lit ":") 1) as [rc [pw|]] eqn:Es; [|apply safe_ret].
  destruct (rd both 0 =? chr_colon) eqn:E0; [safe_ctx|]. b2p.
  assert (Hs : strstr both [chr_colon] = Some pw).
  { unfold strstr_s in Es. change (lit ":") with [chr_colon] in Es.
    destruct (strstr both [chr_colon]); congruence. }
  pose proof (strtok_colon both len pw Hs E0) as Ht. cbv zeta in Ht.
  change (lit ":") with [chr_colon].
  set (tk := strtok_s both (Some 0%nat) (Some len) (Some [chr_colon]) None) in *.
  destruct (tk_token tk) as [v|]; [|apply safe_ret].
  apply safe_bind; [auto with safe|]. intros user.
  destruct (tk_ptr tk); [safe_ctx|]. destruct (Ht ltac:(by eexists)) as [? [=]].
Qed.

Lemma I_digest_assign b n v ah : safe I (digest_assign b n v ah).
Proof. unfold digest_assign. safe_ctx. Qed.

Lemma I_digest h ah : safe I (mg_parse_auth_hdr_digest h ah).
Proof.
  unfold mg_parse_auth_hdr_digest. destruct (strcpy_s _ _ _) as [rc buf].
  generalize (S (length buf)). intros f. generalize (set_ah_mode ah AUTH_DIGEST), 0%nat, buf. clear.
  induction f as [|f IH]; intros a s b; cbn [digest_loop]; [apply safe_ret|].
  destruct (digest_item b s) as [[[b' s'] nm] v]. destruct (_ =? 0); [apply safe_ret|].
  apply safe_bind; [apply I_digest_assign|]. intros ah'. apply IH.
Qed.

Lemma I_token h ah : cstr h <> [] -> safe I (mg_parse_auth_hdr_token h ah).
Proof.
  intros Hh. unfold mg_parse_auth_hdr_token. cbv zeta.
  apply safe_bind; [apply I_decode_at; left; by apply take_header|]. intros [len d]. safe_ctx.
Qed.

Lemma I_check_auth ah : safe I (mg_check_auth ah).
Proof.
  unfold mg_check_auth. destruct (_ && _); [apply safe_ret|].
  destruct (ah_user ah) as [user|]; [|destruct (bool_decide _); apply safe_ret].
  destruct (bool_decide _); [apply safe_ret|]. destruct (strcpy_s _ _ _) as [rc uid].
  apply (safe_modify_conn I I_conn (set_c_user_id (cstr uid))); [done|]. intros _ _. apply safe_ret.
Qed.

Definition has_header (r : EST_HTTP_AUTH_HDR_RESULT * option EST_HTTP_AUTH_HDR) : Prop :=
  is_Some (snd r).

Lemma I_parse_with p h a :
  (forall a, safe I (p h a)) -> safeq I has_header (mg_parse_with p h (Some a)).
Proof.
  intros Hp. unfold mg_parse_with. apply safeq_bind_safe; [apply Hp|]. intros a'.
  apply safeq_bind_safe; [apply I_check_auth|]. intros pr. apply safeq_ret. by eexists.
Qed.

Lemma header_not_empty h word n :
  mg_strncasecmp h word (S n) = 0 -> lowercase (hd 0 word) <> 0 -> cstr h <> [].
Proof.
  cbn [mg_strncasecmp]. intros H Hw Hn.
  assert (hd 0 h = 0) as E by (destruct h as [|k h]; [done|]; cbn in *; destruct (k =? 0) eqn:Ek; by b2p).
  rewrite E in H. change (lowercase 0) with 0 in H. rewrite andb_false_r in H. lia.
Qed.

Lemma I_parse_header a : safeq I has_header (mg_parse_auth_header (Some a)).
Proof.
  unfold mg_parse_auth_header. apply I_ctxq. intros x Hx.
  apply safeq_bind_safe; [unfold mg_get_header; safe_ctx|]. intros [h|]; [|apply safeq_ret; by eexists].
  repeat (destruct (_ =? 0) eqn:E0; [destruct (negb _); [apply safeq_ret; by eexists|]; b2p;
    apply header_not_empty in E0; [|done]; apply I_parse_with; auto using I_digest, I_basic, I_token|clear E0]).
  apply safeq_ret. by eexists.
Qed.

(** ** Enhanced certificate authentication *)

Lemma get_mfg_loop_index l peer chain i rv e k :
  get_mfg_loop l peer chain i rv = (e, k) -> k = -1 \/ i <= k < i + Z.of_nat (length l).
Proof.
  revert i rv; induction l as [|m l IH]; intros i rv; cbn [get_mfg_loop length].
  { intros [= <- <-]. by left. }
  assert (Hstep : forall rv, get_mfg_loop l peer chain (i + 1) rv = (e, k) ->
            k = -1 \/ i <= k < i + Z.of_nat (S (length l))).
  { intros rv' H. apply IH in H. lia. }
  destruct (mfg_truststore m) as [ts|]; [|apply Hstep]. destruct (mfg_store_ctx m); [|apply Hstep].
  destruct (negb _); [intros [= <- <-]; by left|]. cbv zeta.
  destruct (_ =? 0); [apply Hstep|]. intros [= <- <-]. right. lia.
Qed.

(** The manufacturer the search names is in the list. *)
Lemma get_mfg_lookup x peer chain e k :
  est_enhcd_cert_auth_get_mfg x peer chain = (e, k) -> 0 <= k ->
  exists l m, enchd_cert_mfgs_info_list x = Some l /\ l !! Z.to_nat k = Some m.
Proof.
  unfold est_enhcd_cert_auth_get_mfg. destruct (enchd_cert_mfgs_info_list x) as [l|].
  - intros H Hk. apply get_mfg_loop_index in H as [->|H]; [lia|].
    destruct (lookup_lt_is_Some_2 l (Z.to_nat k)) as [m Hm]; [lia|]. by exists l, m.
  - intros [= <- <-]. lia.
Qed.

Lemma csr_check_total x peer chain e k csr :
  est_enhcd_cert_auth_get_mfg x peer chain = (e, k) ->
  is_Some (perform_enhanced_cert_auth_csr_check x peer csr k).
Proof.
  intros H. unfold perform_enhanced_cert_auth_csr_check. cbv zeta.
  destruct (enchd_cert_mfgs_info_list x) as [l|] eqn:El; [|by eexists].
  destruct (0 <=? k) eqn:Ek; [|by eexists]. b2p.
  destruct (get_mfg_lookup x peer chain e k H Ek) as (l' & m & E1 & E2).
  assert (l' = l) as -> by congruence. rewrite E2. cbn.
  destruct (compare_subject_fields _ _ _ _) as [[? ?]|]; [|by eexists].
  destruct (negb _); by eexists.
Qed.

Lemma I_build_header a peer nid :
  safeq I has_header (build_enhanced_cert_auth_header (Some a) peer nid).
Proof.
  unfold build_enhanced_cert_auth_header. apply I_ctxq. intros x Hx. cbv zeta.
  destruct (get_cert_subject_line_field peer nid) as [[] [f|]]; try (apply safeq_ret; by eexists).
  apply safeq_bind_safe; [apply I_strndup|]. intros [u|]; [|apply safeq_ret; by eexists].
  apply safeq_bind_safe; [apply I_strndup|]. intros [q|]; apply safeq_ret; by eexists.
Qed.

Lemma I_parse_csr b d : safe I (est_server_parse_csr b d).
Proof. unfold est_server_parse_csr. safe_ctx. Qed.
Hint Resolve I_parse_csr : safe.

(** The result of the credentials' construction, with the CSR in the middle. *)
Definition has_header3
    (r : EST_HTTP_AUTH_HDR_RESULT * option X509_REQ * option EST_HTTP_AUTH_HDR) : Prop :=
  is_Some (snd r).

Lemma I_handle_eca ssl peer b csr a flag :
  safeq I has_header3 (handle_enhanced_cert_auth ssl peer b csr (Some a) flag).
Proof.
  unfold handle_enhanced_cert_auth. apply I_ctxq. intros x Hx.
  destruct (SSL_get_peer_cert_chain ssl) as [chain|]; [|apply safeq_ret; by eexists].
  destruct (est_enhcd_cert_auth_get_mfg x peer chain) as [e k] eqn:Em.
  destruct (_ || _); [|apply safeq_ret; by eexists].
  apply safeq_bind_safe.
  { destruct flag; [apply safe_ret|]. apply safe_bind; [auto with safe|]. intros [r|]; [|apply safe_ret].
    destruct (csr_check_total x peer chain e k r Em) as [v ->]. apply safe_ret. }
  intros [res csr']. destruct (bool_decide _); [|apply safeq_ret; by eexists].
  destruct (0 <=? k) eqn:Ek; b2p.
  - destruct (get_mfg_lookup x peer chain e k Em Ek) as (l & m & -> & ->).
    eapply safeq_bind; [apply I_build_header|]. intros [r ah'] Hr. by apply safeq_ret.
  - eapply safeq_bind; [apply I_build_header|]. intros [r ah'] Hr. by apply safeq_ret.
Qed.

(** ** Authentication *)

Lemma I_call_auth_cb a peer seg :
  is_Some (est_http_auth_cb c) -> safe I (call_http_auth_cb (Some a) peer seg).
Proof.
  intros Hcb. unfold call_http_auth_cb. apply I_ctx. intros x Hx. rewrite (like_http _ _ Hx).
  destruct Hcb as [cb ->]. safe_ctx.
Qed.

(** A state of certificate authentication comes with a certificate. *)
Definition peer_of (rv : EST_AUTH_STATE) (peer : option X509) : Prop :=
  rv = EST_CERT_AUTH -> is_Some peer.

Lemma I_auth_header x ssl peer b csr a flag rv :
  peer_of rv peer -> safeq I has_header3 (enroll_auth_header x ssl peer b csr (Some a) flag rv).
Proof.
  intros Hp. unfold enroll_auth_header. destruct (enhanced_cert_auth_enabled x); cbn [andb].
  - case_bool_decide.
    + destruct (Hp H) as [q ->]. apply I_handle_eca.
    + eapply safeq_bind; [apply I_parse_header|]. intros [pr ah'] Hr. by apply safeq_ret.
  - eapply safeq_bind; [apply I_parse_header|]. intros [pr ah'] Hr. by apply safeq_ret.
Qed.

Lemma I_auth_http ssl peer seg req b rv :
  is_Some (est_http_auth_cb c) -> peer_of rv peer -> safe I (enroll_auth_http ssl peer seg req b rv).
Proof.
  intros Hcb Hp. unfold enroll_auth_http. apply I_ctx. intros x Hx.
  eapply safe_of_safeq; [apply I_create_ah|]. intros ah [a ->].
  eapply safe_of_safeq; [by apply I_auth_header|]. intros [[pr csr] ah'] [a' Ha]. cbn [snd] in Ha. subst ah'.
  destruct pr; try (apply safe_bind; [by apply I_call_auth_cb|intros; apply safe_ret]); safe_ctx.
Qed.

Lemma I_brski_http ssl peer seg rv :
  is_Some (est_http_auth_cb c) -> peer_of rv peer -> safe I (brski_auth_http ssl peer seg rv).
Proof.
  intros Hcb Hp. unfold brski_auth_http. apply I_ctx. intros x Hx.
  eapply safe_of_safeq; [apply I_create_ah|]. intros ah [a ->].
  eapply safe_of_safeq; [by apply I_auth_header|]. intros [[pr csr] ah'] [a' Ha]. cbn [snd] in Ha. subst ah'.
  destruct pr; try (apply safe_bind; [by apply I_call_auth_cb|intros; apply safe_ret]); safe_ctx.
Qed.

Lemma tls_auth_peer ssl b peer rv :
  check_for_TLS_cert_auth ssl = (b, peer, rv) -> peer_of (srp_auth ssl rv) peer.
Proof.
  unfold check_for_TLS_cert_auth, srp_auth, peer_of.
  destruct (SSL_get_peer_certificate ssl) as [q|]; cbv zeta.
  - destruct (_ =? _); [intros [= <- <- <-] _; by eexists|].
    destruct (_ =? _); [intros [= <- <- <-] _; by eexists|].
    intros [= <- <- <-]. destruct (_ && _); done.
  - intros [= <- <- <-]. destruct (_ && _); done.
Qed.

(** The event callbacks. *)
Lemma I_auth_result p seg req h rv : safe I (est_invoke_enroll_auth_result_event_cb p seg req h rv).
Proof. unfold est_invoke_enroll_auth_result_event_cb. safe_ctx. Qed.

Lemma I_subj nm name n : safe I (est_get_subj_fld_from_cert nm name n).
Proof. unfold est_get_subj_fld_from_cert. safe_ctx. Qed.
Hint Resolve I_subj : safe.

Lemma I_get_subjs p r : safe I (est_invoke_enroll_get_subjs p r).
Proof. unfold est_invoke_enroll_get_subjs. safe_ctx. Qed.
Hint Resolve I_auth_result I_get_subjs : safe.

Lemma I_req_event p b seg req : safe I (est_invoke_enroll_req_event_cb p b seg req).
Proof. unfold est_invoke_enroll_req_event_cb. safe_ctx. Qed.
Lemma I_rsp_event p b seg req cert rc : safe I (est_invoke_enroll_rsp_event_cb p b seg req cert rc).
Proof. unfold est_invoke_enroll_rsp_event_cb. safe_ctx. Qed.
Lemma I_endpoint p uri ty : safe I (est_invoke_endpoint_req_event_cb p uri ty).
Proof. unfold est_invoke_endpoint_req_event_cb. safe_ctx. Qed.
Hint Resolve I_req_event I_rsp_event I_endpoint : safe.

(** HTTP: the condition for asking for credentials implies the callback is set. *)
Lemma http_cond_cb x b : like c x ->
  bool_decide (transport_mode x = EST_HTTP) && bool_decide (is_Some (est_http_auth_cb x)) && b = true ->
  is_Some (est_http_auth_cb c).
Proof.
  intros Hx H. apply andb_true_iff in H as [H _]. apply andb_true_iff in H as [_ H].
  apply bool_decide_eq_true in H. by rewrite (like_http _ _ Hx) in H.
Qed.

Lemma not_coap x : like c x -> bool_decide (transport_mode x = EST_COAP) = false.
Proof. intros Hx. rewrite (like_mode _ _ Hx), Hhttp. done. Qed.

Lemma I_enroll_auth ssl seg req b : safe I (est_enroll_auth ssl seg req b).
Proof.
  unfold est_enroll_auth. apply I_ctx. intros x Hx.
  destruct (check_for_TLS_cert_auth ssl) as [[go peer] rv] eqn:E.
  pose proof (tls_auth_peer ssl go peer rv E) as Hp.
  apply safe_bind; [|intros [[rv' pr] csr]; safe_ctx].
  destruct go; cbn [negb]; [|apply safe_ret]. cbv zeta. rewrite (not_coap x Hx).
  destruct (_ && _ && _) eqn:Ec; [|apply safe_ret].
  apply I_auth_http; [by eapply http_cond_cb|done].
Qed.

Lemma I_brski_auth ssl seg : safe I (est_brski_auth ssl seg).
Proof.
  unfold est_brski_auth. apply I_ctx. intros x Hx.
  destruct (check_for_TLS_cert_auth ssl) as [[go peer] rv] eqn:E.
  pose proof (tls_auth_peer ssl go peer rv E) as Hp.
  apply safe_bind; [|intros [rv' pr]; safe_ctx].
  destruct go; cbn [negb]; [|apply safe_ret]. cbv zeta. rewrite (not_coap x Hx).
  destruct (_ && _ && _) eqn:Ec; [|apply safe_ret].
  apply I_brski_http; [by eapply http_cond_cb|done].
Qed.
Hint Resolve I_enroll_auth I_brski_auth : safe.

(** ** Handlers *)

Lemma I_send_200 h d : safe I (send_200 h d).
Proof. unfold send_200. safe_ctx. Qed.
Hint Resolve I_send_200 : safe.

Lemma I_user_id : safe I http_user_id.
Proof. unfold http_user_id. safe_ctx. Qed.
Hint Resolve I_user_id : safe.

Lemma I_pop_check ssl p r : pw_string r -> safe I (pop_check ssl p r).
Proof.
  intros Hpw. unfold pop_check, est_tls_uid_auth, est_get_tls_uid.
  destruct (client_is_ra p); [apply safe_ret|]. apply I_ctx. intros x _. cbv zeta.
  destruct (_ <? 0) eqn:Ei; b2p; [destruct (server_enable_pop _); apply safe_ret|].
  destruct (X509_REQ_get_attr _ _) as [attr|] eqn:Ea; [|apply safe_ret].
  destruct (Hpw attr ltac:(lia) Ea) as [data ->]. safe_ctx.
Qed.
Hint Resolve I_pop_check : safe.

Lemma attrs_text_like x : like c x -> attrs_text x.
Proof. intros Hx. unfold attrs_text. by rewrite (like_attrs _ _ Hx), (like_csr _ _ Hx). Qed.

Lemma I_all_csrattrs b n p : has_text b -> safe I (est_server_all_csrattrs_present b n p).
Proof.
  intros Hb w [Hw Hl].
  destruct (all_csrattrs_memory b n p w Hreader Hb (attrs_text_like _ Hl) Hw) as (e & w' & E & Hw' & _).
  exists e, w'. split; [done|]. split; [done|]. by rewrite (frame_ctx _ _ _ (frame_all_csrattrs _ _ _ _ _ _ E)).
Qed.
Hint Resolve I_all_csrattrs : safe.

Lemma I_attrs_check b p : has_text b -> safe I (attrs_check b p).
Proof. intros Hb. unfold attrs_check. safe_ctx. Qed.
Hint Resolve I_attrs_check : safe.

(** Over HTTP the content type is there, as the dispatcher checked. *)
Lemma I_bad_ct ct : safe I (bad_pkcs10_ct (Some ct)).
Proof. unfold bad_pkcs10_ct. safe_ctx. Qed.
Hint Resolve I_bad_ct : safe.

Lemma I_get_csr cached b : safe I (get_csr cached b).
Proof. unfold get_csr. safe_ctx. Qed.
Hint Resolve I_get_csr : safe.

(** The CSR a handler checks is the one of the body. *)
Lemma get_csr_body cached b :
  (forall r, cached = Some r -> exists p, b = Some p /\ d2i_X509_REQ_bio true p = Some r) ->
  safeq I (fun r => forall csr, r = Some csr -> exists p, b = Some p /\ d2i_X509_REQ_bio true p = Some csr)
    (get_csr cached b).
Proof.
  intros Hc. apply safeq_of_sat; [apply I_get_csr|]. intros w a w' E csr ->. by eapply get_csr_some.
Qed.

Lemma auth_body ssl seg req b :
  safeq I (fun r => forall csr, snd r = Some csr -> exists p, b = Some p /\ d2i_X509_REQ_bio true p = Some csr)
    (est_enroll_auth ssl seg req b).
Proof.
  apply safeq_of_sat; [apply I_enroll_auth|]. intros w [st cached] w' E csr Hc. cbn in Hc. subst cached.
  by eapply enroll_auth_csr.
Qed.

Lemma I_enroll_response rv cert want : safe I (enroll_response rv cert want).
Proof. unfold enroll_response. safe_ctx. Qed.
Hint Resolve I_enroll_response : safe.

Lemma I_call_enroll (reenroll : bool) b p seg :
  (if reenroll then is_Some (est_reenroll_pkcs10_cb c) else is_Some (est_enroll_pkcs10_cb c)) ->
  safe I (call_enroll_cb reenroll b p seg).
Proof.
  intros Hcb. unfold call_enroll_cb. apply I_ctx. intros x Hx.
  apply safe_bind; [auto with safe|]. intros uid. apply safe_bind; [auto with safe|]. intros tr.
  destruct reenroll; [rewrite (like_reenroll _ _ Hx)|rewrite (like_enroll _ _ Hx)];
    destruct Hcb as [cb ->]; safe_ctx.
Qed.

Lemma I_simple_enroll_csr ssl p b seg (reenroll : bool) want cached :
  (if reenroll then is_Some (est_reenroll_pkcs10_cb c) else is_Some (est_enroll_pkcs10_cb c)) ->
  readable_body b ->
  (forall r, cached = Some r -> exists p, b = Some p /\ d2i_X509_REQ_bio true p = Some r) ->
  safe I (simple_enroll_csr ssl p b seg reenroll want cached).
Proof.
  intros Hcb Hb Hc. unfold simple_enroll_csr. eapply safe_of_safeq; [by apply get_csr_body|].
  intros [r|] Hr; [|apply safe_ret]. destruct (Hr r eq_refl) as (q & -> & Hq).
  destruct (Hb q r eq_refl Hq) as [[Hpw Ht] _]. cbn [default from_option id].
  destruct (negb _); [apply safe_ret|]. apply safe_bind; [auto with safe|]. intros rv.
  destruct (negb _); [apply safe_ret|]. cbv zeta. apply safe_bind; [auto with safe|]. intros rv2.
  destruct (negb _); [apply safe_ret|]. apply safe_bind; [by apply I_call_enroll|].
  intros [n cert]. auto with safe.
Qed.

Lemma I_simple_enroll ssl p ct b seg req want : readable_body b ->
  safe I (est_handle_simple_enroll ssl p (Some ct) b seg req want).
Proof.
  intros Hb. unfold est_handle_simple_enroll. apply I_ctx. intros x Hx.
  destruct req; try apply safe_ret; cbv zeta.
  all: rewrite (like_enroll _ _ Hx), (like_reenroll _ _ Hx).
  1: rewrite (bool_decide_eq_false_2 (SIMPLE_ENROLL_REQ = REENROLL_REQ)) by done.
  2: rewrite (bool_decide_eq_true_2 (REENROLL_REQ = REENROLL_REQ)) by done.
  all: cbn [negb andb].
  all: case_bool_decide as Hcb; cbn [negb]; [|apply safe_ret].
  all: apply safe_bind; [auto with safe|]; intros []; [apply safe_ret|].
  all: eapply safe_of_safeq; [apply auth_body|]; intros [st cached] Hc.
  all: destruct (auth_error st); [apply safe_ret|by apply I_simple_enroll_csr].
Qed.
Hint Resolve I_simple_enroll : safe.

Lemma I_sign r k md : safe I (est_X509_REQ_sign r k md).
Proof. unfold est_X509_REQ_sign. safe_ctx. Qed.
Hint Resolve I_sign : safe.

Lemma I_keygen_csr r : is_Some (keygen_cb c) -> safe I (keygen_csr r).
Proof.
  intros Hcb. unfold keygen_csr. apply I_ctx. intros x Hx. rewrite (like_keygen_cb _ _ Hx).
  destruct Hcb as [cb ->]. safe_ctx.
Qed.

Lemma I_write_parts l : safe I (write_parts l).
Proof. induction l as [|q l IH]; cbn [write_parts]; [apply safe_ret|]. safe_ctx. Qed.
Hint Resolve I_write_parts : safe.

Lemma I_keygen_response rv cert k : safe I (keygen_response rv cert k).
Proof. unfold keygen_response. safe_ctx. Qed.
Hint Resolve I_keygen_response : safe.

Lemma I_call_keygen b k p seg :
  is_Some (est_server_keygen_pkcs10_cb c) -> safe I (call_server_keygen_cb b k p seg).
Proof.
  intros Hcb. unfold call_server_keygen_cb. apply I_ctx. intros x Hx.
  apply safe_bind; [auto with safe|]. intros uid. apply safe_bind; [auto with safe|]. intros tr.
  rewrite (like_keygen _ _ Hx). destruct Hcb as [cb ->]. safe_ctx.
Qed.

Lemma I_server_keygen ssl p ct b seg : readable_body b ->
  safe I (est_handle_server_keygen ssl p (Some ct) b seg).
Proof.
  intros Hb. unfold est_handle_server_keygen. apply I_ctx. intros x Hx. cbv zeta.
  destruct (_ >? _); [apply safe_ret|].
  rewrite (like_keygen _ _ Hx), (like_keygen_cb _ _ Hx).
  case_bool_decide as H1; cbn [negb]; [|apply safe_ret].
  case_bool_decide as H2; cbn [negb]; [|apply safe_ret].
  apply safe_bind; [auto with safe|]. intros []; [apply safe_ret|].
  eapply safe_of_safeq; [apply auth_body|]. intros [st cached] Hc. destruct (auth_error st); [apply safe_ret|].
  unfold server_keygen_csr. cbv zeta. eapply safe_of_safeq; [by apply get_csr_body|].
  intros [r|] Hr; [|apply safe_ret]. destruct (Hr r eq_refl) as (q & -> & Hq).
  destruct (Hb q r eq_refl Hq) as [_ H2b].
  eapply (safe_of_safeq I (fun g => match g with inl _ => True | inr (r2, _) => server_csr r r2 end)).
  { apply safeq_of_sat; [by apply I_keygen_csr|]. intros w [e|[r2 k]] w' E; [done|].
    by apply keygen_csr_inr in E as [? _]. }
  intros [e|[r2 k]] Hs; [apply safe_ret|]. destruct (H2b r2 Hs) as [Hpw Ht].
  do 2 (apply safe_bind; [auto with safe|]; intros []; [|apply safe_ret]; cbn [negb]).
  apply safe_bind; [auto with safe|]. intros rv. destruct (negb _); [apply safe_ret|].
  apply safe_bind; [auto with safe|]. intros rv2. destruct (negb _); [apply safe_ret|].
  apply safe_bind; [by apply I_call_keygen|]. intros [[n cert] key]. auto with safe.
Qed.
Hint Resolve I_server_keygen : safe.

(** ** CSR attributes, CA certificates, BRSKI *)

Lemma I_put_pop x b : like c x -> safe I (put_ctx (set_csr_pop_present b x)).
Proof. intros [] w [Hm _]. exists tt, (set_w_ctx (set_csr_pop_present b x) w). by split; [|split]. Qed.

Lemma I_parse_attributes d n pop :
  (MIN_CSRATTRS <= n -> has_text d) -> safe I (est_asn1_parse_attributes (Some d) n pop).
Proof.
  intros Hd. unfold est_asn1_parse_attributes. destruct (Z.ltb_spec n MIN_CSRATTRS); [apply safe_ret|].
  specialize (Hd ltac:(done)). safe_ctx.
Qed.
Hint Resolve I_parse_attributes : safe.

Lemma I_add_chpw d n : has_text d -> safe I (est_add_challengePassword d n).
Proof. intros Hd. unfold est_add_challengePassword. safe_ctx. Qed.
Hint Resolve I_add_chpw : safe.

Lemma I_return_attrs d n : safe I (return_csrattrs d n).
Proof. unfold return_csrattrs. safe_ctx. Qed.
Hint Resolve I_return_attrs : safe.

Lemma I_return_pop : safe I return_pop_csrattrs.
Proof.
  unfold return_pop_csrattrs. apply safe_bind; [auto with safe|]. intros []; [|apply safe_ret].
  cbn [negb]. destruct (strcpy_s _ _ _). auto with safe.
Qed.
Hint Resolve I_return_pop : safe.

Lemma safe_ret_bind {A B} (a : A) (f : A -> M B) : safe I (f a) -> safe I (mret a ≫= f).
Proof. intros Hf w Hw. exact (Hf w Hw). Qed.

Lemma I_attrs_some seg p d n :
  (MIN_CSRATTRS <= n -> has_text d) -> safe I (csr_attrs_cb seg p (Some d) n).
Proof.
  intros Hd. unfold csr_attrs_cb. destruct (Z.ltb_spec n MIN_CSRATTRS) as [Hn|Hn].
  { unfold est_asn1_parse_attributes at 1. rewrite (proj2 (Z.ltb_lt _ _) Hn). apply safe_ret_bind.
    rewrite bool_decide_false by done. cbn [negb]. rewrite andb_true_r.
    destruct (n =? 0) eqn:E0; cbn [negb]; [|apply safe_ret]. apply I_ctx. intros x Hx.
    apply safe_bind; [by apply I_put_pop|]. intros _. destruct (server_enable_pop x); [|auto with safe].
    unfold est_is_challengePassword_present. rewrite E0. apply safe_ret_bind.
    destruct (negb _); [apply safe_ret|]. apply I_ctx. intros y Hy.
    apply safe_bind; [by apply I_put_pop|]. intros _. safe_ctx. }
  assert (Ht : has_text d) by auto.
  apply safe_bind; [auto with safe|]. intros [rv q].
  destruct (_ && _); [apply safe_ret|]. apply I_ctx. intros x Hx.
  apply safe_bind; [by apply I_put_pop|]. intros _. destruct (server_enable_pop x); [|auto with safe].
  apply safe_bind.
  { unfold est_is_challengePassword_present. destruct (n =? 0); [apply safe_ret|auto with safe]. }
  intros [rv2 pop]. destruct (negb _); [apply safe_ret|]. apply I_ctx. intros y Hy.
  apply safe_bind; [by apply I_put_pop|]. intros _. safe_ctx.
Qed.

Lemma I_attrs_none seg p n : n < MIN_CSRATTRS -> safe I (csr_attrs_cb seg p None n).
Proof.
  intros Hn. unfold csr_attrs_cb, est_asn1_parse_attributes. rewrite (proj2 (Z.ltb_lt _ _) Hn).
  apply safe_ret_bind. rewrite bool_decide_false by done. cbn [negb]. rewrite andb_true_r.
  unfold est_is_challengePassword_present.
  destruct (n =? 0) eqn:E0; cbn [negb]; [|apply safe_ret].
  apply I_ctx. intros x Hx. apply safe_bind; [by apply I_put_pop|]. intros _.
  destruct (server_enable_pop x); [|auto with safe]. apply safe_bind; [apply safe_ret|]. intros [rv2 pop].
  destruct (negb _); [apply safe_ret|]. apply I_ctx. intros y Hy.
  apply safe_bind; [by apply I_put_pop|]. intros _. safe_ctx.
Qed.

Lemma I_csr_attrs p seg : safe I (est_handle_csr_attrs p seg).
Proof.
  unfold est_handle_csr_attrs. apply I_ctx. intros x Hx.
  assert (Hcb : forall cb, est_get_csr_cb x = Some cb ->
            safe I (tr ← get_trace; _ ← emit (EvCsrCb seg p);
                    let '(csr_data, csr_len) := cb tr seg p in csr_attrs_cb seg p csr_data csr_len)).
  { intros cb E. rewrite (like_csr _ _ Hx) in E. apply safe_bind; [auto with safe|]. intros tr.
    apply safe_bind; [auto with safe|]. intros _. pose proof (Hcsr cb tr seg p E) as Hc.
    pose proof (fun d => proj2 Hattrs cb tr seg p d E) as Ht.
    destruct (cb tr seg p) as [[d|] n]; [apply I_attrs_some; by apply Ht|apply I_attrs_none; by apply Hc]. }
  destruct (server_csrattrs x) as [attrs|], (est_get_csr_cb x) as [cb|] eqn:E; try (by apply Hcb).
  - apply safe_bind; [auto with safe|]. intros []; cbn [negb]; [|apply safe_ret]. cbv zeta.
    destruct (strcpy_s _ _ _). auto with safe.
  - destruct (negb _); [apply safe_ret|auto with safe].
Qed.

Lemma I_cacerts seg : safe I (est_server_handle_cacerts seg).
Proof.
  unfold est_server_handle_cacerts, est_handle_cacerts. apply I_ctx. intros x Hx.
  rewrite (like_mode _ _ Hx), Hhttp. safe_ctx.
Qed.

Lemma I_brski_status ssl ct b seg cb ev : safe I (brski_status ssl ct b seg cb ev).
Proof. unfold brski_status. safe_ctx. Qed.

Lemma I_voucher_req ssl ct b seg : safe I (est_brski_handle_voucher_req ssl ct b seg).
Proof. unfold est_brski_handle_voucher_req. safe_ctx. Qed.

Lemma I_voucher_status ssl ct b seg : safe I (est_brski_handle_voucher_status ssl ct b seg).
Proof.
  pose proof I_brski_status. unfold est_brski_handle_voucher_status. safe_ctx.
Qed.

Lemma I_enroll_status ssl ct b seg : safe I (est_brski_handle_enroll_status ssl ct b seg).
Proof.
  pose proof I_brski_status. unfold est_brski_handle_enroll_status. safe_ctx.
Qed.
Hint Resolve I_csr_attrs I_cacerts I_voucher_req I_voucher_status I_enroll_status : safe.

(** ** The request *)

Lemma I_fail_with rc : safe I (fail_with rc).
Proof. unfold fail_with. safe_ctx. Qed.
Hint Resolve I_fail_with : safe.

Lemma I_enroll_handler ssl p op b ct seg : readable_body b ->
  safe I (http_enroll_handler ssl p op b (Some ct) seg).
Proof. intros Hb. unfold http_enroll_handler. safe_ctx. Qed.
Hint Resolve I_enroll_handler : safe.

Lemma I_dispatch brski ssl p op m b ct seg : readable_body b ->
  safe I (http_dispatch brski ssl p op m b ct seg).
Proof.
  intros Hb. assert (He : forall op, safe I (http_enroll ssl p op m b ct seg)).
  { intros o. unfold http_enroll. destruct (negb _); [auto with safe|].
    destruct ct; [safe_ctx|]. rewrite bool_decide_false by (by intros [? [=]]).
    cbn [negb]. auto with safe. }
  unfold http_dispatch, http_brski, http_cacerts, http_csrattrs.
  destruct op; try destruct brski; try apply He; safe_ctx.
Qed.

Lemma est_http_request_safe brski m u b ct : readable_body b ->
  safe I (est_http_request brski None m u b ct).
Proof.
  intros Hb. unfold est_http_request, request_uri. apply I_ctx. intros x Hx. destruct (negb _); [apply safe_ret|].
  assert (Hd : forall ssl p op seg, safe I (http_dispatch brski ssl p op m b ct seg))
    by (intros; by apply I_dispatch). safe_ctx.
Qed.

End Safety.

Section Total.
Context {L : OpenSSL}.

(** C2. No request makes the server dereference a NULL pointer, read past a list, read
    in front of a buffer or call an unset callback, in the build without uriparser, but
    one whose CSR carries a challengePassword with no string for its value: with memory
    available, a reader that advances, the HTTP transport, configured attributes that are
    not blank and an attribute callback that reports no length for a missing buffer and
    gives no blank text, every request of any method, URI and content type, from any
    client and with any other configuration, whose body is [readable_body], runs to
    completion; the transport, the callbacks and the manufacturers are left as they
    were. *)
Theorem est_http_request_total (brski : bool) (method uri : bytes) (body ct : option bytes) (w : world) :
  memory w -> reader_ok -> transport_mode (w_ctx w) = EST_HTTP -> csr_cb_contract (w_ctx w) ->
  attrs_text (w_ctx w) -> readable_body body ->
  exists rc w', est_http_request brski None method uri body ct w = Some (rc, w') /\
    memory w' /\ like (w_ctx w) (w_ctx w').
Proof.
  intros Hm Hr Ht Hc Ha Hb.
  destruct (est_http_request_safe (w_ctx w) Ht Hc Hr Ha brski method uri body ct Hb w) as (rc & w' & E & Hm' & Hl).
  - split; [done|by split].
  - by exists rc, w'.
Qed.

End Total.
