(* ===== verification/HttpConnProps.v ===== *)
(** * HttpConnProps: the connection loop

    Whatever a client sends, in whatever pieces, the loop ends without undefined
    behaviour; and a well-formed request reaches the dispatcher as it was sent,
    however the channel split it. *)

From S2P Require Import Prelude.
From S2P Require Import SafeC.
From S2P Require Import EstTypes.
From S2P Require Import EstState.
From S2P Require Import EstUtil.
From S2P Require Import EstUtilFacts.
From S2P Require Import HttpParse.
From S2P Require Import HttpIO.
From S2P Require Import ServerCsr.
From S2P Require Import ServerDispatch.
From S2P Require Import HttpConn.
From S2P Require Import EstLogic.
From S2P Require Import HttpIOFacts.
From S2P Require Import HttpParseProps.
From S2P Require Import ServerCsrProps.
From S2P Require Import ServerSafety.

(** ** Lengths *)

Lemma request_len_loop_bound fuel buf s e :
  (s + fuel <= e)%nat -> (e < length buf)%nat ->
  -1 <= request_len_loop fuel buf s e <= Z.of_nat (length buf).
Proof.
  revert s; induction fuel as [|f IH]; intros s Hs He; cbn [request_len_loop]; [lia|].
  destruct (bad_char _); [lia|]. destruct (_ && _) eqn:E1; [lia|].
  destruct ((rd buf s =? chr_lf) && (s + 1 <? e)%nat && (rd buf (s + 1) =? chr_cr)
            && (rd buf (s + 2) =? chr_lf)) eqn:E2.
  - b2p. lia.
  - apply IH; lia.
Qed.

Lemma get_request_len_bound buf :
  -1 <= get_request_len buf (length buf) <= Z.of_nat (length buf).
Proof.
  unfold get_request_len. destruct buf as [|x buf]; [simpl; lia|].
  apply request_len_loop_bound; simpl; lia.
Qed.

Lemma script_bytes_app_length l : (length (script_bytes l) <= script_size l)%nat.
Proof. unfold script_size. lia. Qed.

Definition max_request : nat := Z.to_nat MAX_REQUEST_SIZE.

Lemma max_request_val : Z.of_nat max_request = MAX_REQUEST_SIZE.
Proof. reflexivity. Qed.

(** ** The end of a request head *)

(** Two buffers with the same first [m] bytes. *)
Definition agree (m : nat) (a b : bytes) : Prop := forall i, (i < m)%nat -> rd a i = rd b i.

(** How much of the buffer a decision of the scan depends on. *)
Definition decided (v : Z) (e m : nat) : Prop := if v <? 0 then m = S e else Z.of_nat m = v.

Lemma request_len_loop_agree f s a e v m :
  (s + f = e)%nat -> request_len_loop f a s e = v -> v <> 0 -> decided v e m ->
  Z.of_nat m <= Z.of_nat e + 1 /\ (s + 2 <= m)%nat /\
  forall f' b e', (s + f' = e')%nat -> (m <= S e')%nat -> agree m a b ->
    request_len_loop f' b s e' = v.
Proof.
  revert s; induction f as [|f IH]; intros s Hs Hv Hne Hd; cbn [request_len_loop] in Hv; [congruence|].
  unfold decided in Hd.
  assert (Hstep : forall g (b : bytes) e', (s + g = e')%nat -> (s < e')%nat ->
            exists g', g = S g').
  { intros g b e' H1 H2. destruct g; [lia|by eexists]. }
  destruct (bad_char (rd a s)) eqn:Eb.
  { subst v. cbn in Hd. subst m. split_and!; [lia|lia|]. intros f' b e' H1 H2 H3.
    destruct (Hstep f' b e') as [g ->]; [lia..|]. cbn [request_len_loop]. by rewrite <- H3, Eb by lia. }
  destruct ((rd a s =? chr_lf) && (rd a (s + 1) =? chr_lf)) eqn:E1.
  { subst v. rewrite (proj2 (Z.ltb_ge _ _)) in Hd by lia. split_and!; [lia|lia|]. intros f' b e' H1 H2 H3.
    destruct (Hstep f' b e') as [g ->]; [lia..|]. cbn [request_len_loop].
    rewrite <- !H3 by lia. by rewrite Eb, E1. }
  destruct ((rd a s =? chr_lf) && (s + 1 <? e)%nat && (rd a (s + 1) =? chr_cr) && (rd a (s + 2) =? chr_lf)) eqn:E2.
  { subst v. rewrite (proj2 (Z.ltb_ge _ _)) in Hd by lia.
    assert (s + 1 < e)%nat by (b2p; done).
    split_and!; [lia|lia|]. intros f' b e' H1 H2 H3.
    destruct (Hstep f' b e') as [g ->]; [lia..|]. cbn [request_len_loop].
    rewrite <- !H3 by lia. rewrite Eb, E1.
    assert (Hlt : (s + 1 <? e')%nat = true) by (apply Nat.ltb_lt; lia). rewrite Hlt.
    b2p. by rewrite !(proj2 (Z.eqb_eq _ _)) by done. }
  destruct (IH (S s)) as (H1 & H2 & H3); [lia|done..|]. split_and!; [done|lia|].
  intros f' b e' E3 E4 E5. destruct (Hstep f' b e') as [g ->]; [lia..|]. cbn [request_len_loop].
  rewrite <- !E5 by lia. rewrite Eb, E1.
  assert (Hc : (rd a s =? chr_lf) && (s + 1 <? e')%nat && (rd a (s + 1) =? chr_cr) && (rd a (s + 2) =? chr_lf) = false).
  { destruct (s + 1 <? e)%nat eqn:El; [|b2p; lia].
    destruct (s + 1 <? e')%nat; [done|]. by rewrite andb_false_r. }
  rewrite Hc. apply H3; [lia|lia|done].
Qed.

Lemma agree_take n m a : (m <= n)%nat -> agree m a (take n a).
Proof. intros Hm i Hi. unfold rd. by rewrite !nth_lookup, lookup_take_lt by lia. Qed.

Lemma agree_app m a b : (m <= length a)%nat -> agree m a (a ++ b).
Proof. intros Hm i Hi. by rewrite rd_app_l by lia. Qed.

Lemma agree_trans m a b c : agree m a b -> agree m b c -> agree m a c.
Proof. intros H1 H2 i Hi. by rewrite H1, H2. Qed.

(** A decision on what was read holds for what comes after. *)
Lemma get_request_len_prefix buf x :
  get_request_len buf (length buf) <> 0 ->
  get_request_len (buf ++ x) (length (buf ++ x)) = get_request_len buf (length buf).
Proof.
  unfold get_request_len. intros H. remember (length buf - 1)%nat as e eqn:He.
  destruct buf as [|c r]; [simpl in He; subst e; done|].
  set (v := request_len_loop e (c :: r) 0 e) in *.
  set (m := if v <? 0 then S e else Z.to_nat v).
  pose proof (request_len_loop_bound e (c :: r) 0 e) as Hb. fold v in Hb. simpl in He, Hb.
  destruct (request_len_loop_agree e 0 (c :: r) e v m) as (H1 & H2 & H3); [lia|done|done| |].
  { unfold decided, m. destruct (v <? 0) eqn:E; [done|]. b2p. lia. }
  apply H3; rewrite ?length_app; simpl; [lia|lia|].
  change (c :: r ++ x) with ((c :: r) ++ x). apply agree_app. simpl. lia.
Qed.

(** The head alone is found in any buffer that starts with it. *)
Lemma get_request_len_head buf v x n :
  get_request_len buf (length buf) = v -> 0 < v -> (Z.to_nat v <= n)%nat ->
  get_request_len (take (Z.to_nat v) buf ++ x) n = v.
Proof.
  intros Hv Hp Hn. pose proof (get_request_len_bound buf) as Hb. rewrite Hv in Hb.
  unfold get_request_len in *. remember (length buf - 1)%nat as e eqn:He.
  destruct (request_len_loop_agree e 0 buf e v (Z.to_nat v)) as (H1 & H2 & H3); [lia|done|lia| |].
  { unfold decided. rewrite (proj2 (Z.ltb_ge _ _)) by lia. lia. }
  apply H3; [lia|lia|]. eapply agree_trans; [by apply (agree_take (Z.to_nat v))|].
  apply agree_app. rewrite length_take. lia.
Qed.

(** ** The parser stays within the head *)

(** A buffer whose head is [h], cut off by a NUL. *)
Definition sealed (h t : bytes) : bytes := h ++ 0 :: t.

Lemma rd_sealed h t i : (i <= length h)%nat -> rd (sealed h t) i = rd h i.
Proof.
  intros Hi. destruct (decide (i < length h)%nat); [by apply rd_app_l|].
  assert (i = length h) as -> by lia. unfold sealed, rd.
  rewrite app_nth2 by lia. rewrite Nat.sub_diag. cbn. by rewrite nth_overflow by lia.
Qed.

Lemma cstr_sealed h t : cstr (sealed h t) = cstr h.
Proof. unfold sealed. induction h as [|c h IH]; simpl; [done|]. destruct (c =? 0); by rewrite ?IH. Qed.

Lemma drop_sealed h t i : (i <= length h)%nat -> drop i (sealed h t) = sealed (drop i h) t.
Proof. intros. unfold sealed. rewrite drop_app. replace (i - length h)%nat with 0%nat by lia. done. Qed.

Lemma cstr_at_sealed h t i : (i <= length h)%nat -> cstr_at (sealed h t) i = cstr_at h i.
Proof. intros. unfold cstr_at. by rewrite drop_sealed, cstr_sealed. Qed.

Lemma zero_range_sealed n h t i :
  (i + n <= length h)%nat -> zero_range (sealed h t) i n = sealed (zero_range h i n) t.
Proof.
  revert h i; induction n as [|n IH]; intros h i Hi; [done|]. cbn [zero_range].
  rewrite <- IH by (rewrite length_insert; lia). unfold sealed. by rewrite insert_app_l by lia.
Qed.

Lemma fits_sealed h t p : fits (sealed h t) -> fits (sealed (drop p h) t).
Proof. unfold fits, sealed. rewrite !length_app, length_drop. lia. Qed.


(** Split a text at the first NUL or byte of [d]. *)
Lemma scan_split l d :
  exists w r, l = w ++ r /\ no_nul w /\ prefix_out (cstr (w ++ r)) d = w.
Proof.
  induction l as [|c l (w & r & -> & Hw & Hp)]; [exists [], []; split_and!; [done|constructor|done]|].
  destruct (c =? 0) eqn:E0; [exists [], (c :: w ++ r); simpl; rewrite E0; split_and!; [done|constructor|done]|].
  destruct (mem c d) eqn:Em; [exists [], (c :: w ++ r); simpl; rewrite E0; simpl; rewrite Em; split_and!; [done|constructor|done]|].
  exists (c :: w), r. cbn [app cstr]. rewrite E0. cbn [prefix_out]. rewrite Em, Hp.
  b2p. split_and!; [done|by constructor|done].
Qed.

(** Positions and contents of [skip_quoted] on a sealed buffer come from its head. *)
Lemma skip_quoted_sealed h p d ws :
  (p <= length h)%nat -> fits d -> fits ws ->
  exists h' p', length h' = length h /\ (p' <= length h)%nat /\
    forall t, fits (sealed h t) -> skip_quoted (sealed h t) p d ws 0 = (sealed h' t, p', p).
Proof.
  intros Hp Hd Hws. destruct (scan_split (drop p h) (cstr d)) as (w & r & Eh & Nw & Hw).
  assert (Hh : h = take p h ++ w ++ r) by by rewrite <- Eh, take_drop.
  assert (Hl : length (take p h) = p) by (rewrite length_take; lia).
  set (pre := take p h) in *. clearbody pre. subst h p. rewrite !length_app. clear Hp Eh.
  set (e := (length pre + length w)%nat).
  set (k := length (prefix_in (cstr (drop 1 r)) (cstr ws))).
  set (h := pre ++ w ++ r).
  exists (if rd r 0 =? 0 then h else zero_range h e (1 + k)), (if (rd r 0 =? 0)%Z then e else e + 1 + k)%nat.
  assert (Hk : rd r 0 <> 0 -> (1 + k <= length r)%nat).
  { intros H. destruct r as [|x r]; [done|]. unfold k. cbn [drop length].
    pose proof (prefix_in_length (cstr r) (cstr ws)). pose proof (cstr_length r). rewrite drop_0. lia. }
  split_and!.
  - destruct (_ =? 0); rewrite ?length_zero_range; unfold h; by rewrite !length_app.
  - unfold e. destruct (rd r 0 =? 0) eqn:E; b2p; [lia|]. specialize (Hk E). lia.
  - intros t Hf. assert (Es : sealed h t = pre ++ w ++ sealed r t)
      by (unfold sealed, h; by rewrite <- !app_assoc).
    rewrite Es in *. rewrite skip_quoted_noquote; [|done|done|done|].
    2: { rewrite <- Hw at 2. f_equal. rewrite !cstr_app_no_nul by done. by rewrite cstr_sealed. }
    cbv zeta. rewrite rd_sealed by lia. destruct (rd r 0 =? 0) eqn:E; [by rewrite <- Es|]. b2p.
    specialize (Hk E). rewrite drop_sealed by lia.
    rewrite est_strspn_spec, cstr_sealed; [|unfold fits, sealed in *; rewrite !length_app in *; rewrite length_drop; simpl in *; lia|done].
    fold k e. rewrite <- Es. rewrite zero_range_sealed by (unfold h, e; rewrite !length_app; lia). done.
Qed.

Lemma skip_sealed h p d :
  (p <= length h)%nat -> fits d ->
  exists h' p', length h' = length h /\ (p' <= length h)%nat /\
    forall t, fits (sealed h t) -> skip (sealed h t) p d = (sealed h' t, p', p).
Proof. intros. by apply skip_quoted_sealed. Qed.

Lemma parse_headers_sealed n h p :
  (p <= length h)%nat ->
  exists h' p' offs, length h' = length h /\ (p' <= length h)%nat /\
    Forall (fun o => (fst o <= length h)%nat /\ (snd o <= length h)%nat) offs /\
    forall t, fits (sealed h t) -> parse_headers_loop n (sealed h t) p = (sealed h' t, p', offs).
Proof.
  revert h p; induction n as [|n IH]; intros h p Hp.
  { exists h, p, []. split_and!; [done|done|constructor|done]. }
  assert (Hc : fits (lit ":") /\ fits (lit " ") /\ fits crlf) by (split_and!; by apply fits_small).
  destruct Hc as (Hc1 & Hc2 & Hc3).
  destruct (skip_quoted_sealed h p (lit ":") (lit " ") Hp Hc1 Hc2) as (h1 & p1 & L1 & P1 & E1).
  rewrite <- L1 in P1. destruct (skip_sealed h1 p1 crlf P1 Hc3) as (h2 & p2 & L2 & P2 & E2).
  assert (F1 : forall t, fits (sealed h t) -> fits (sealed h1 t))
    by (intros t; unfold fits, sealed; rewrite !length_app; by rewrite L1).
  assert (F2 : forall t, fits (sealed h t) -> fits (sealed h2 t))
    by (intros t; unfold fits, sealed; rewrite !length_app; by rewrite L2, L1).
  destruct (rd h2 p =? 0) eqn:E0.
  - exists h2, p2, []. split_and!; [congruence|lia|constructor|]. intros t Hf. cbn [parse_headers_loop].
    rewrite E1 by done. rewrite E2 by auto. rewrite rd_sealed by lia. by rewrite E0.
  - rewrite <- L2 in P2. destruct (IH h2 p2 P2) as (h3 & p3 & offs & L3 & P3 & Ho & E3).
    exists h3, p3, ((p, p1) :: offs). split_and!; [congruence|lia| |].
    + constructor; [cbn; lia|]. by rewrite <- L1, <- L2.
    + intros t Hf. cbn [parse_headers_loop]. rewrite E1 by done. rewrite E2 by auto.
      rewrite rd_sealed by lia. rewrite E0. by rewrite E3 by auto.
Qed.

Lemma skip_spaces_sealed h t f p :
  (p <= length h)%nat -> (length h - p < f)%nat ->
  skip_spaces f (sealed h t) p = skip_spaces (S (length h) - p) h p /\
  (skip_spaces f (sealed h t) p <= length h)%nat.
Proof.
  revert p; induction f as [|f IH]; intros p Hp Hf; [lia|].
  replace (S (length h) - p)%nat with (S (length h - p)) by lia. cbn [skip_spaces].
  rewrite rd_sealed by lia. destruct (negb (rd h p =? 0)) eqn:E0; cbn [andb]; [|done].
  destruct (isspace _); [|done]. b2p.
  assert (p <> length h) by (intros ->; apply E0; unfold rd; by rewrite nth_overflow by lia).
  destruct (IH (S p)) as [H1 H2]; [lia|lia|].
  replace (S (length h) - S p)%nat with (length h - p)%nat in H1 by lia. done.
Qed.

(** The strings of a request lie in the first [m] bytes of its buffer. *)
Definition opt_inside (m : nat) (o : option nat) : Prop := from_option (fun p => (p <= m)%nat) True o.
Definition ri_inside (m : nat) (ri : mg_request_info) : Prop :=
  opt_inside m (ri_method ri) /\ opt_inside m (ri_uri ri) /\ opt_inside m (ri_http_version ri) /\
  Forall (fun o => (fst o <= m)%nat /\ (snd o <= m)%nat) (ri_headers ri).

Lemma opt_inside_sealed h t o :
  opt_inside (length h) o -> cstr_at (sealed h t) <$> o = cstr_at h <$> o.
Proof. destruct o; cbn; [|done]. intros H. f_equal. by apply cstr_at_sealed. Qed.

Lemma ri_strings_sealed h t ri :
  ri_inside (length h) ri -> ri_strings (sealed h t) ri = ri_strings h ri.
Proof.
  intros (H1 & H2 & H3 & H4). unfold ri_strings. rewrite !opt_inside_sealed by done. f_equal.
  apply map_ext_in. intros o Ho. rewrite Forall_forall in H4. destruct (H4 o Ho) as [? ?]. by rewrite !cstr_at_sealed.
Qed.

(** The parse of a head is the same whatever lies behind it. *)
Lemma parse_request_sealed h z :
  exists r h' ri, length h' = length h /\ ri_inside (length h') ri /\
    forall t n, fits (sealed h t) -> get_request_len (h ++ z :: t) n = Z.of_nat (length h) + 1 ->
      parse_http_request (h ++ z :: t) n (Build_mg_request_info None None None []) = (r, sealed h' t, ri).
Proof.
  set (p0 := skip_spaces (S (length h)) h 0).
  assert (Hs : forall t f, (length h < f)%nat -> skip_spaces f (sealed h t) 0 = p0 /\ (p0 <= length h)%nat).
  { intros t f Hf. destruct (skip_spaces_sealed h t f 0) as [H1 H2]; [lia|lia|].
    rewrite Nat.sub_0_r in H1. fold p0 in H1. rewrite H1 in H2. done. }
  destruct (Hs [] (S (length h)) ltac:(lia)) as [_ Hp0]. clearbody p0.
  assert (Hc : fits (lit " ") /\ fits crlf) by (split_and!; by apply fits_small).
  destruct Hc as (Hc1 & Hc2).
  destruct (skip_sealed h p0 (lit " ") Hp0 Hc1) as (h1 & p1 & L1 & P1 & E1). rewrite <- L1 in P1.
  destruct (skip_sealed h1 p1 (lit " ") P1 Hc1) as (h2 & p2 & L2 & P2 & E2). rewrite <- L2 in P2.
  destruct (skip_sealed h2 p2 crlf P2 Hc2) as (h3 & p3 & L3 & P3 & E3). rewrite <- L3 in P3.
  destruct (parse_headers_sealed MAX_HTTP_HEADERS h3 p3 P3) as (h4 & p4 & offs & L4 & P4 & Ho & E4).
  set (ri := Build_mg_request_info (Some p0) (Some p1) (Some p2) offs).
  set (ok := is_valid_http_method (cstr_at h4 p0) && (strncmp (cstr_at h4 p2) (lit "HTTP/") 5 =? 0)).
  exists (if ok then Z.of_nat (length h) + 1 else -1), h4,
    (if ok then Build_mg_request_info (Some p0) (Some p1) (Some (p2 + 5)%nat) offs else ri).
  rewrite L4 in *. split_and!; [congruence| |].
  - assert (Hin : ri_inside (length h3) ri) by (unfold ri_inside, ri; cbn; split_and!; [lia|lia|lia|done]).
    destruct ok eqn:Eok; [|done]. destruct Hin as (? & ? & ? & ?). split_and!; [done|done| |done].
    unfold ok in Eok. apply andb_true_iff in Eok as [_ Ev]. apply Z.eqb_eq in Ev. cbn.
    apply (strncmp_prefix _ (lit "HTTP/")), starts_with_spec in Ev as [r Hr]; [|by repeat constructor].
    unfold cstr_at in Hr. apply (f_equal length) in Hr. rewrite length_app in Hr.
    pose proof (cstr_length (drop p2 h4)) as Hl. rewrite length_drop in Hl. simpl in Hr. lia.
  - intros t n Hf Hl. unfold parse_http_request, parse_http_message. rewrite Hl.
    assert (Hpos : (Z.of_nat (length h) + 1 >? 0) = true) by (apply Z.gtb_lt; lia). rewrite Hpos.
    replace (Z.to_nat (Z.of_nat (length h) + 1 - 1)) with (length h + 0)%nat by lia.
    rewrite insert_app_r. cbn [list_insert insert]. change (h ++ 0 :: t) with (sealed h t).
    assert (Hf1 : fits (sealed h1 t)) by (unfold fits, sealed in *; rewrite length_app in *; congruence).
    assert (Hf2 : fits (sealed h2 t)) by (unfold fits, sealed in *; rewrite length_app in *; congruence).
    assert (Hf3 : fits (sealed h3 t)) by (unfold fits, sealed in *; rewrite length_app in *; congruence).
    cbv zeta. rewrite (proj1 (Hs t (length (sealed h t)) ltac:(unfold sealed; rewrite length_app; simpl; lia))).
    rewrite E1, E2, E3 by done. unfold parse_http_headers. rewrite E4 by done.
    cbn [ri_method ri_http_version ri_uri ri_headers]. rewrite !cstr_at_sealed by lia. rewrite Hpos.
    cbn [andb]. fold ok. by destruct ok.
Qed.

(** A buffer with a complete head: its last byte, which the parser overwrites, and what
    lies behind it. *)
Lemma split_head buf len :
  get_request_len buf (length buf) = len -> 0 < len ->
  exists h z t, buf = h ++ z :: t /\ Z.of_nat (length h) + 1 = len /\
    take (Z.to_nat len) buf = h ++ [z] /\ drop (Z.to_nat len) buf = t.
Proof.
  intros Hl Hp. pose proof (get_request_len_bound buf) as Hb. rewrite Hl in Hb.
  destruct (lookup_lt_is_Some_2 buf (Z.to_nat len - 1)) as [z Hz]; [lia|].
  exists (take (Z.to_nat len - 1) buf), z, (drop (Z.to_nat len) buf).
  assert (E : buf = take (Z.to_nat len - 1) buf ++ z :: drop (Z.to_nat len) buf).
  { rewrite <- (take_drop_middle buf _ z Hz) at 1. do 2 f_equal. f_equal. lia. }
  split_and!; [done|rewrite length_take; lia| |done].
  replace (Z.to_nat len) with (S (Z.to_nat len - 1)) at 1 by lia. by apply take_S_r.
Qed.

(** The parser of a request leaves what lies behind its head. *)
Lemma parse_request_behind buf len :
  get_request_len buf (length buf) = len -> 0 < len -> Z.of_nat (length buf) <= MAX_REQUEST_SIZE ->
  let '(_, buf', _) := parse_http_request buf (Z.to_nat MAX_REQUEST_SIZE) (Build_mg_request_info None None None []) in
  length buf' = length buf /\ drop (Z.to_nat len) buf' = drop (Z.to_nat len) buf.
Proof.
  intros Hl Hp Hb. destruct (split_head buf len Hl Hp) as (h & z & t & -> & Hlen & Eh & Et).
  destruct (parse_request_sealed h z) as (r & h' & ri & Lh & _ & Hparse).
  rewrite length_app in Hb. cbn [length] in Hb.
  rewrite Hparse.
  - unfold sealed. rewrite !length_app, Lh. split; [done|]. rewrite Et.
    replace (Z.to_nat len) with (length h' + 1)%nat by lia. by rewrite <- drop_drop, drop_app_length.
  - apply fits_small. unfold sealed. rewrite length_app. cbn [length]. unfold MAX_REQUEST_SIZE in *. lia.
  - rewrite Hlen. change (z :: t) with ([z] ++ t). rewrite app_assoc, <- Eh.
    apply get_request_len_head; [exact Hl|done|]. unfold MAX_REQUEST_SIZE in *. lia.
Qed.

Section Conn.
Context {L : OpenSSL}.

(** ** Reading *)

(** What one read does to the script: the bytes it gives come off its front. *)
Definition pulled (len : nat) (reads : list read_result) (r : option bytes * list read_result) : Prop :=
  match fst r with
  | Some d => script_bytes reads = d ++ script_bytes (snd r) /\ (length d <= len)%nat /\
              ((0 < len)%nat -> (script_size (snd r) < script_size reads)%nat)
  | None => (script_size (snd r) <= script_size reads)%nat /\
            script_bytes (snd r) = script_bytes reads
  end.

Lemma pull_data len d r :
  pulled len (R_data d :: r)
    (Some (take len d), if (len <? length d)%nat then R_data (drop len d) :: r else r).
Proof.
  unfold pulled, script_size. cbn [fst snd script_bytes length].
  destruct (len <? length d)%nat eqn:E; b2p.
  - cbn [script_bytes length]. rewrite !length_app, length_drop, length_take. split_and!; [|lia|lia].
    by rewrite app_assoc, take_drop.
  - rewrite take_ge by lia. rewrite length_app. split_and!; [done|lia|lia].
Qed.

(** The reading operations change nothing of the world but [must_close]. *)
Definition keeps_world (w w' : world) : Prop :=
  w' = w \/ w' = set_w_conn (set_c_must_close true (w_conn w)) w.

Lemma pull_spec len reads w :
  exists r w', pull len reads w = Some (r, w') /\ pulled len reads r /\
    keeps_world w w' /\ (is_Some (fst r) -> w' = w).
Proof.
  unfold keeps_world. destruct reads as [|[d| | |] r].
  - eexists _, _. split; [reflexivity|]. split_and!; [by split|by right|by intros [? [=]]].
  - eexists _, _. split; [reflexivity|]. split_and!; [apply pull_data|by left|done].
  - eexists _, _. split; [reflexivity|]. unfold pulled, script_size. cbn.
    split_and!; [done|lia|lia|by left|done].
  - eexists _, _. split; [reflexivity|]. unfold pulled, script_size. cbn.
    split_and!; [lia|done|by left|done].
  - eexists _, _. split; [reflexivity|]. unfold pulled, script_size. cbn.
    split_and!; [lia|done|by right|by intros [? [=]]].
Qed.

(** [read_request] ends for one of its own reasons, never for want of fuel. *)
Lemma read_request_loop_spec fuel buf reads len w :
  (script_size reads < fuel)%nat -> Z.of_nat (length buf) <= MAX_REQUEST_SIZE ->
  -1 <= len <= Z.of_nat (length buf) -> get_request_len buf (length buf) = len ->
  exists len' buf' reads' w', read_request_loop fuel buf reads len w = Some ((len', buf', reads'), w') /\
    keeps_world w w' /\
    buf ++ script_bytes reads = buf' ++ script_bytes reads' /\
    Z.of_nat (length buf') <= MAX_REQUEST_SIZE /\ -1 <= len' <= Z.of_nat (length buf') /\
    (len' = 0 -> Z.of_nat (length buf') = MAX_REQUEST_SIZE) /\
    (0 < len' -> get_request_len buf' (length buf') = len').
Proof.
  revert buf reads len w; induction fuel as [|f IH]; intros buf reads len w Hf Hb Hl Hg; [lia|].
  cbn [read_request_loop]. destruct (_ && _) eqn:E.
  - b2p. set (n := (Z.to_nat MAX_REQUEST_SIZE - length buf)%nat).
    assert (Hn : (0 < n)%nat) by (unfold n; lia).
    destruct (pull_spec n reads w) as ([d reads'] & w' & Ep & Hp & Hk & Hw).
    rewrite (bind_run _ _ _ _ _ Ep). unfold pulled in Hp. cbn [fst snd] in *.
    destruct d as [d|].
    + destruct Hp as (Hs & Hd & Hsz). specialize (Hsz Hn). rewrite (Hw ltac:(by eexists)). clear Ep Hw Hk.
      destruct d as [|x d].
      * destruct (IH buf reads' len w) as (len' & buf' & r' & w'' & E1 & H1 & H2 & H3); [lia..|done|].
        exists len', buf', r', w''. split; [done|]. rewrite Hs. cbn [app]. split_and!; tauto.
      * assert (Hl' : Z.of_nat (length (buf ++ x :: d)) <= MAX_REQUEST_SIZE)
          by (rewrite length_app; unfold n in Hd; simpl in *; lia).
        destruct (IH (buf ++ x :: d) reads' (get_request_len (buf ++ x :: d) (length (buf ++ x :: d))) w)
          as (len' & buf' & r' & w'' & E1 & H1 & H2 & H3); [lia|done|apply get_request_len_bound|done|].
        exists len', buf', r', w''. split; [exact E1|]. rewrite Hs, <- H2, <- app_assoc. done.
    + eexists (-1), buf, reads', w'. split; [reflexivity|]. destruct Hp as [_ ->].
      split_and!; [done|done|lia|lia|lia|lia|lia].
  - eexists len, buf, reads, w. split; [reflexivity|]. split_and!; [by left|done|lia|lia|lia| |done].
    intros ->. apply andb_false_iff in E as [E|E]; [b2p; lia|done].
Qed.

Lemma read_request_spec buf reads w :
  Z.of_nat (length buf) <= MAX_REQUEST_SIZE ->
  exists len buf' reads' w', read_request buf reads w = Some ((len, buf', reads'), w') /\
    keeps_world w w' /\
    buf ++ script_bytes reads = buf' ++ script_bytes reads' /\
    Z.of_nat (length buf') <= MAX_REQUEST_SIZE /\ -1 <= len <= Z.of_nat (length buf') /\
    (len = 0 -> Z.of_nat (length buf') = MAX_REQUEST_SIZE) /\
    (0 < len -> get_request_len buf' (length buf') = len).
Proof.
  intros Hb. apply read_request_loop_spec; [lia|done|apply get_request_len_bound|done].
Qed.

(** The body: what was read is the front of what was to come. *)
Lemma mg_read_loop_spec fuel len got reads w :
  (script_size reads < fuel)%nat ->
  exists d ok reads' w', mg_read_loop fuel len got reads w = Some ((got ++ d, ok, reads'), w') /\
    keeps_world w w' /\ script_bytes reads = d ++ script_bytes reads' /\ (length d <= len)%nat /\
    (ok = true -> length d = len).
Proof.
  revert len got reads w; induction fuel as [|f IH]; intros len got reads w Hf; [lia|].
  cbn [mg_read_loop]. destruct (0 <? len)%nat eqn:E; b2p.
  - destruct (pull_spec len reads w) as ([d reads'] & w' & Ep & Hp & Hk & Hw).
    rewrite (bind_run _ _ _ _ _ Ep). unfold pulled in Hp. cbn [fst snd] in *. destruct d as [d|].
    + destruct Hp as (Hs & Hd & Hsz). specialize (Hsz E). rewrite (Hw ltac:(by eexists)).
      destruct (IH (len - length d)%nat (got ++ d) reads' w) as (d2 & ok & r2 & w2 & E2 & H1 & H2 & H3 & H4);
        [lia|]. exists (d ++ d2), ok, r2, w2. rewrite E2, <- app_assoc, Hs, H2, <- app_assoc, length_app.
      split_and!; [done..|lia|]. intros Hok. specialize (H4 Hok). lia.
    + exists [], false, reads', w'. destruct Hp as [_ ->]. rewrite app_nil_r.
      split_and!; [done..|simpl; lia|done].
  - exists [], true, reads, w. rewrite app_nil_r. split_and!; [done|by left|done|simpl; lia|simpl; lia].
Qed.

(** ** The buffer keeps its length *)

Lemma memmove_length buf dp n sp m : length (snd (memmove_s buf dp n sp m)) = length buf.
Proof. unfold memmove_s. repeat case_match; simpl; rewrite ?length_store; done. Qed.

Lemma quote_loop_length fuel buf p e d q :
  length (fst (fst (quote_loop fuel buf p e d q))) = length buf.
Proof.
  revert buf p e; induction fuel as [|f IH]; intros buf p e; cbn [quote_loop]; [done|].
  destruct (_ =? q); [|done]. destruct (_ =? 0); [simpl; by rewrite length_insert|].
  cbv zeta. rewrite IH. apply memmove_length.
Qed.

Lemma skip_quoted_length buf p d ws q : length (fst (fst (skip_quoted buf p d ws q))) = length buf.
Proof.
  unfold skip_quoted. cbv zeta.
  set (r := if (p <? _)%nat then _ else _).
  assert (Hr : length (fst r) = length buf).
  { unfold r. destruct (p <? _)%nat; [|done].
    pose proof (quote_loop_length (S (length buf)) buf
      (p + est_strcspn (Some (drop p buf)) (Some d) - 1) (p + est_strcspn (Some (drop p buf)) (Some d)) d q) as H.
    destruct (quote_loop _ _ _ _ _ _) as [[b x] y]. cbn [fst] in *. by rewrite length_zero_range. }
  destruct r as [b1 e1]. cbn [fst] in Hr. destruct (_ =? 0); cbn [fst]; [done|].
  by rewrite length_zero_range.
Qed.

Lemma parse_headers_length n buf p : length (fst (fst (parse_headers_loop n buf p))) = length buf.
Proof.
  revert buf p; induction n as [|n IH]; intros buf p; cbn [parse_headers_loop]; [done|].
  pose proof (skip_quoted_length buf p (lit ":") (lit " ") 0) as H1.
  destruct (skip_quoted buf p _ _ _) as [[b1 p1] nm]. cbn [fst] in H1.
  pose proof (skip_quoted_length b1 p1 crlf crlf 0) as H2. change (skip_quoted b1 p1 crlf crlf 0) with (skip b1 p1 crlf) in H2.
  destruct (skip b1 p1 crlf) as [[b2 p2] v]. cbn [fst] in H2.
  destruct (_ =? 0); [cbn [fst]; congruence|].
  specialize (IH b2 p2). destruct (parse_headers_loop n b2 p2) as [[b3 p3] hs]. cbn [fst] in *. congruence.
Qed.

Lemma parse_request_length buf n ri :
  length (snd (fst (parse_http_request buf n ri))) = length buf.
Proof.
  unfold parse_http_request.
  assert (H : length (snd (fst (parse_http_message buf n ri))) = length buf).
  { unfold parse_http_message. cbv zeta. destruct (_ >? 0); [|done].
    set (b0 := <[_ := 0]> buf). assert (H0 : length b0 = length buf) by apply length_insert.
    pose proof (skip_quoted_length b0 (skip_spaces (length b0) b0 0) (lit " ") (lit " ") 0) as H1.
    change (skip_quoted b0 ?p (lit " ") (lit " ") 0) with (skip b0 p (lit " ")) in H1.
    destruct (skip b0 _ _) as [[b1 p1] m]. cbn [fst] in H1.
    pose proof (skip_quoted_length b1 p1 (lit " ") (lit " ") 0) as H2.
    change (skip_quoted b1 p1 (lit " ") (lit " ") 0) with (skip b1 p1 (lit " ")) in H2.
    destruct (skip b1 p1 _) as [[b2 p2] u]. cbn [fst] in H2.
    pose proof (skip_quoted_length b2 p2 crlf crlf 0) as H3.
    change (skip_quoted b2 p2 crlf crlf 0) with (skip b2 p2 crlf) in H3.
    destruct (skip b2 p2 _) as [[b3 p3] v]. cbn [fst] in H3.
    pose proof (parse_headers_length MAX_HTTP_HEADERS b3 p3) as H4.
    unfold parse_http_headers. destruct (parse_headers_loop _ b3 p3) as [[b4 p4] hs]. cbn in *. congruence. }
  destruct (parse_http_message buf n ri) as [[r b] ri']. cbn in H. by destruct (_ && _).
Qed.

(** ** One request *)

(** The bytes of the buffer behind the head of the request. *)
Definition body_buf (i : mg_input) : bytes := drop (Z.to_nat (request_len i)) (in_buf i).

(** What serving a request does to the input: it takes bytes off the script, and only
    where the body, which ends behind the buffer, needs them. *)
Record consumed (i i' : mg_input) : Prop := {
  consumed_buf : in_buf i' = in_buf i;
  consumed_len : request_len i' = request_len i;
  consumed_reads : exists d, script_bytes (in_reads i) = d ++ script_bytes (in_reads i') /\
    (d <> [] -> Z.of_nat (length (in_buf i)) <= request_len i + content_len i')
}.

Lemma consumed_none i i' : in_buf i' = in_buf i -> request_len i' = request_len i ->
  in_reads i' = in_reads i -> consumed i i'.
Proof. intros E1 E2 E3. split; [done..|]. exists []. by rewrite E3. Qed.

(** No byte of the body was asked for yet. *)
Definition untouched (i : mg_input) : Prop := consumed_content i = 0 /\ 0 <= request_len i.

(** The stream [st] ends with what is behind the head of the request. *)
Definition behind (st : bytes) (i : mg_input) : Prop :=
  exists pre, st = pre ++ body_buf i ++ script_bytes (in_reads i).

Section Served.
Variable brski : bool.
Variable proxy : bytes -> bytes -> option bytes -> option bytes -> M EST_ERROR.
Variable junk : nat -> bytes.
Context (c : EST_CTX) (Hhttp : transport_mode c = EST_HTTP) (Hcsr : csr_cb_contract c)
        (Hreader : reader_ok) (Hattrs : attrs_text c) (Hserver : est_mode c = EST_SERVER).

(** A stream of bytes no piece of which, with what the allocation of the body left
    behind it where the reading failed, is a CSR that cannot be checked. *)
Definition readable_stream (st : bytes) : Prop :=
  forall pre got post n, st = pre ++ got ++ post ->
    readable_body (Some (got ++ drop (length got) (take n (junk n)))).

Context (st : bytes) (Hst : readable_stream st).

Abbreviation J := (I c).

Lemma J_keeps w w' : J w -> keeps_world w w' -> J w'.
Proof. intros H [->| ->]; [done|]. by apply I_conn. Qed.

Lemma J_modify {B} (Q : B -> Prop) (f : mg_connection -> mg_connection) (k : mg_connection -> unit -> M B) :
  (forall x, conn_ssl (f x) = conn_ssl x) -> (forall x u, safeq J Q (k x u)) ->
  safeq J Q (get_conn ≫= fun x => put_conn (f x) ≫= k x).
Proof.
  intros Hf Hk w Hw. exact (Hk (w_conn w) tt (set_w_conn (f (w_conn w)) w) (I_conn c _ _ Hw (Hf _))).
Qed.

Lemma J_header {B} (Q : B -> Prop) name (f : option bytes -> M B) :
  (forall h, safeq J Q (f h)) -> safeq J Q (mg_get_header name ≫= f).
Proof. intros Hf w Hw. exact (Hf _ w Hw). Qed.

Lemma J_get_conn {B} (Q : B -> Prop) (f : mg_connection -> M B) :
  (forall x, safeq J Q (f x)) -> safeq J Q (get_conn ≫= f).
Proof. intros Hf w Hw. exact (Hf _ w Hw). Qed.

Lemma J_error n r t : safe J (mg_send_http_error n r t).
Proof. apply (safe_mg_send_http_error J); [apply I_conn|apply I_io|apply I_alloc]. Qed.

Lemma J_after {A B} (Q : B -> Prop) (m : M A) (b : B) :
  safe J m -> Q b -> safeq J Q (_ ← m; mret b).
Proof. intros Hm HQ. apply safeq_bind_safe; [done|]. intros _. by apply safeq_ret. Qed.

(** What is read of the body is a piece of the stream. *)
Lemma mg_read_safe len i : untouched i -> behind st i ->
  safeq J (fun r => consumed i (snd r) /\ exists pre post, st = pre ++ fst r ++ post) (mg_read len i).
Proof.
  intros [Hz Hr] [pre Hpre] w Hw. unfold mg_read. rewrite Hz, Z.add_0_r, Z.sub_0_r.
  change (drop (Z.to_nat (request_len i)) (in_buf i)) with (body_buf i).
  destruct (0 <? content_len i) eqn:E0; b2p.
  2:{ eexists _, w. split; [reflexivity|]. split; [done|]. split; [by apply consumed_none|].
      exists st, []. by rewrite app_nil_r. }
  cbv zeta. set (m := if _ <? _ then _ else len).
  assert (Hm : Z.of_nat m <= content_len i) by (unfold m; destruct (_ <? _) eqn:E; b2p; lia).
  clearbody m. set (b := take m (body_buf i)).
  destruct (mg_read_loop_spec (S (script_size (in_reads i))) (m - length b) b (in_reads i) w) as
    (d & ok & r & w' & E & Hk & Hs & Hd & _); [lia|].
  rewrite (bind_run _ _ _ _ _ E). eexists _, w'. split; [reflexivity|].
  split; [by eapply J_keeps|]. cbn [fst snd].
  assert (Hb : length b = Nat.min m (length (body_buf i))) by apply length_take.
  assert (Hbody : (length (body_buf i) = length (in_buf i) - Z.to_nat (request_len i))%nat) by apply length_drop.
  split.
  - split; cbn [in_buf request_len in_reads content_len]; [done..|]. exists d. split; [done|].
    intros Hne. destruct d; [done|]. cbn [length] in Hd. lia.
  - destruct (decide (length (body_buf i) < m)%nat).
    + exists pre, (script_bytes r). unfold b. rewrite take_ge by lia. by rewrite Hpre, Hs, <- !app_assoc.
    + assert (length d = 0)%nat by lia. destruct d; [|done]. cbn [app] in Hs.
      exists pre, (drop m (body_buf i) ++ script_bytes r). rewrite app_nil_r, Hpre, Hs.
      unfold b. by rewrite (app_assoc (take m _)), take_drop.
Qed.

Lemma est_mg_handler_safe u i : untouched i -> behind st i ->
  safeq J (fun r => consumed i (snd r)) (est_mg_handler brski None proxy junk u i).
Proof.
  intros Hi Hb. unfold est_mg_handler. apply I_ctxq. intros x Hx. apply J_get_conn. intros k.
  apply J_header. intros cl.
  apply (safeq_bind J (fun r => consumed i (snd r) /\ readable_body (fst r))).
  - destruct cl as [h|]; [|apply safeq_ret; split; [by apply consumed_none|done]]. cbv zeta.
    apply (safeq_bind J (fun b => b = true)).
    { intros w [Hm Hl]. exists true, w. by rewrite (alloc_memory w Hm). }
    intros ? ->. cbn [negb]. eapply safeq_bind; [by apply mg_read_safe|].
    intros [got i'] (Hc & pre & post & Hp). apply safeq_ret. split; [done|]. by eapply Hst.
  - intros [body i'] [Hc Hbody]. apply J_header. intros ct. cbv zeta. rewrite (like_est _ _ Hx), Hserver.
    apply safeq_bind_safe; [by apply est_http_request_safe|]. intros rc. by apply safeq_ret.
Qed.

Lemma handle_request_safe i : untouched i -> behind st i ->
  safeq J (consumed i) (handle_request brski None proxy junk i).
Proof.
  intros Hi Hb w Hw. unfold handle_request. rewrite (bind_run _ _ _ _ _ (eq_refl : get_conn w = Some (w_conn w, w))).
  destruct (handle_request_uri _) as [path q].
  assert (Hw' : J (set_w_conn (set_c_uri (Some path) (w_conn w)) w)) by by apply I_conn.
  destruct (est_mg_handler_safe path i Hi Hb _ Hw') as ([rc i'] & w' & E & H). exists i', w'.
  rewrite (bind_run _ _ _ _ _ (eq_refl : put_conn _ w = Some (tt, set_w_conn _ w))).
  by rewrite (bind_run _ _ _ _ _ E).
Qed.

Lemma serve_request_safe i : untouched i -> behind st i ->
  safeq J (consumed i) (serve_request brski None proxy junk i).
Proof.
  intros Hi Hb. unfold serve_request. apply J_get_conn. intros k. cbv zeta.
  destruct (_ && _); [apply J_after; [apply J_error|by apply consumed_none]|].
  destruct (_ >? _); [apply J_after; [apply J_error|by apply consumed_none]|].
  destruct (_ <? 0); [apply J_after; [apply J_error|by apply consumed_none]|].
  set (j := Build_mg_input _ _ _ _ _).
  intros w Hw. destruct (handle_request_safe j Hi Hb w Hw) as (i' & w' & E & Hw' & [H1 H2 H3]).
  exists i', w'. split_and!; [exact E|done|]. by split.
Qed.

(** ** One round *)

(** The bytes still to be handled: in the buffer, and to come. *)
Definition pending (i : mg_input) : nat := length (in_buf i) + length (script_bytes (in_reads i)).

(** The input fits the buffer, [n] bytes pending. *)
Record bounded (n : nat) (i : mg_input) : Prop := {
  bounded_buf : Z.of_nat (length (in_buf i)) <= MAX_REQUEST_SIZE;
  bounded_pending : (pending i <= n)%nat
}.

Lemma bounded_consumed n i i' : bounded n i -> consumed i i' -> bounded n i'.
Proof.
  intros [H1 H2] [E1 E2 (d & E3 & _)]. unfold pending in *. rewrite E3, length_app in H2.
  split; unfold pending; rewrite E1; [done|lia].
Qed.

(** A served request leaves the buffer, and more than its own bytes if the
    content length is negative. *)
Lemma bounded_discard n i :
  bounded n i -> 0 < request_len i <= Z.of_nat (length (in_buf i)) ->
  bounded n (discard_request i) /\ (pending (discard_request i) < n)%nat.
Proof.
  intros [H1 H2] Hl. unfold discard_request, pending in *. cbv zeta.
  set (k := if _ && _ then _ else _).
  assert (Hk : 0 < k).
  { unfold k. destruct (_ && _) eqn:E; [|lia]. b2p. rewrite Z.geb_leb in *. b2p. lia. }
  cbn [in_buf in_reads]. split; [split; cbn [in_buf in_reads]; unfold pending; cbn [in_buf in_reads]|];
    rewrite length_drop; lia.
Qed.

(** What is pending is the end of the stream. *)
Definition at_stream (i : mg_input) : Prop :=
  exists pre, st = pre ++ in_buf i ++ script_bytes (in_reads i).

(** ... and still is when the request that was served has left the buffer. *)
Lemma at_stream_discard i i' :
  behind st i -> consumed i i' -> 0 < request_len i <= Z.of_nat (length (in_buf i)) ->
  at_stream (discard_request i').
Proof.
  intros [pre Hpre] [E1 E2 (d & E3 & Hd)] Hl. unfold discard_request, at_stream. cbv zeta.
  cbn [in_buf in_reads]. rewrite E1, E2. unfold body_buf in Hpre. rewrite E3 in Hpre.
  destruct (_ && _) eqn:E; b2p; rewrite ?Z.geb_leb in *; b2p.
  - destruct d as [|x d]; [|specialize (Hd ltac:(done)); lia]. cbn [app] in Hpre.
    replace (Z.to_nat (request_len i + content_len i')) with (Z.to_nat (request_len i) + Z.to_nat (content_len i'))%nat by lia.
    rewrite <- drop_drop. set (b := drop (Z.to_nat (request_len i)) (in_buf i)) in *.
    exists (pre ++ take (Z.to_nat (content_len i')) b).
    by rewrite <- app_assoc, (app_assoc (take _ b)), take_drop.
  - rewrite (drop_ge (in_buf i)) by lia. 
    exists (pre ++ drop (Z.to_nat (request_len i)) (in_buf i) ++ d). by rewrite Hpre, <- !app_assoc.
Qed.

(** One round of the loop completes; if the connection goes on, there is less
    to handle than before, and it is the end of the stream. *)
Definition after_round (n : nat) (r : bool * mg_input) : Prop :=
  bounded n (snd r) /\ (fst r = true -> (pending (snd r) < n)%nat /\ at_stream (snd r)).

Lemma read_request_safe i :
  Z.of_nat (length (in_buf i)) <= MAX_REQUEST_SIZE -> at_stream i ->
  safeq J (fun r => let '(len, buf, reads) := r in
             bounded (pending i) (Build_mg_input buf len (content_len i) (consumed_content i) reads) /\
             at_stream (Build_mg_input buf len (content_len i) (consumed_content i) reads) /\
             -1 <= len <= Z.of_nat (length buf) /\ (0 < len -> get_request_len buf (length buf) = len))
    (read_request (in_buf i) (in_reads i)).
Proof.
  intros Hi [pre Hpre] w Hw. destruct (read_request_spec (in_buf i) (in_reads i) w Hi) as
    (len & buf & reads & w' & E & Hk & Hs & Hb & Hl & _ & Hg).
  exists (len, buf, reads), w'. split_and!; [done|by eapply J_keeps| | |lia|lia|done].
  - split; cbn; [done|]. unfold pending. cbn. rewrite <- !length_app, Hs. done.
  - exists pre. cbn. by rewrite Hpre, Hs.
Qed.

Lemma serve_parsed_safe n i :
  bounded n i -> at_stream i -> untouched i -> 0 < request_len i <= Z.of_nat (length (in_buf i)) ->
  get_request_len (in_buf i) (length (in_buf i)) = request_len i ->
  safeq J (after_round n) (serve_parsed brski None proxy junk i).
Proof.
  intros Hb [pre Hpre] Hu Hl Hg. unfold serve_parsed.
  pose proof (parse_request_behind (in_buf i) (request_len i) Hg ltac:(lia) (bounded_buf _ _ Hb)) as Hp.
  destruct (parse_http_request _ _ _) as [[result buf'] ri]. destruct Hp as [Hp Htail]. cbv zeta.
  set (i3 := Build_mg_input buf' _ _ _ _).
  assert (Hb3 : bounded n i3).
  { destruct Hb as [Hb1 Hb2]. unfold pending in Hb2. split; unfold pending; cbn in *; rewrite Hp; done. }
  assert (H3 : behind st i3).
  { exists (pre ++ take (Z.to_nat (request_len i)) (in_buf i)). unfold body_buf. cbn [request_len in_buf in_reads i3].
    by rewrite Htail, <- app_assoc, (app_assoc (take _ _)), take_drop. }
  apply safeq_bind_safe.
  { unfold set_request_info. intros w Hw. rewrite (bind_run _ _ _ _ _ (eq_refl : get_conn w = Some (w_conn w, w))).
    destruct (ri_strings buf' ri) as [[[m u] v] hs]. eexists tt, _. split; [reflexivity|by apply I_conn]. }
  intros _. apply J_get_conn. intros k. apply (safeq_bind J (consumed i3)).
  { destruct (_ || _); [|by apply serve_request_safe].
    apply safeq_bind_safe; [apply J_error|]. intros _.
    apply (J_modify _ (set_c_must_close true)); [done|]. intros _ _. apply safeq_ret. by apply consumed_none. }
  intros i4 H4. pose proof (bounded_consumed _ _ _ Hb3 H4) as Hb4.
  assert (Hl3 : 0 < request_len i3 <= Z.of_nat (length (in_buf i3))) by (cbn; rewrite Hp; lia).
  apply safeq_bind_safe; [unfold should_keep_alive, mg_get_header; safe_auto; apply I_get_conn|].
  intros ka. apply J_get_conn. intros k'. apply safeq_ret.
  destruct (bounded_discard _ i4 Hb4) as [H5 H6].
  { destruct H4 as [E1 E2 _]. by rewrite E1, E2. }
  split; [done|]. intros _. split; [done|]. by eapply at_stream_discard.
Qed.

Lemma serve_one_safe i :
  Z.of_nat (length (in_buf i)) <= MAX_REQUEST_SIZE -> at_stream i ->
  safeq J (after_round (pending i)) (serve_one brski None proxy junk i).
Proof.
  intros Hi Hs. unfold serve_one, reset_per_request_attributes.
  apply (safeq_bind J (fun i1 => i1 = Build_mg_input (in_buf i) 0 (content_len i) 0 (in_reads i))).
  { apply (J_modify _ (fun x => set_c_must_close false (set_c_status_code (-1) (set_c_num_bytes_sent 0 x)))); [done|].
    intros _ _. by apply safeq_ret. }
  intros ? ->. set (i1 := Build_mg_input _ 0 _ _ _).
  eapply safeq_bind; [apply (read_request_safe i1 Hi Hs)|]. intros [[len buf] reads] (Hb & Ha & Hl & Hg).
  change (pending i1) with (pending i) in Hb. cbv zeta.
  assert (Hstop : after_round (pending i) (false, Build_mg_input buf len (content_len i1) (consumed_content i1) reads))
    by (split; [exact Hb|done]).
  replace ((len <? 0) || (len <=? Z.of_nat (length buf))) with true
    by (symmetry; apply orb_true_iff; right; apply Z.leb_le; lia). cbn [negb].
  destruct (_ && _); [by apply J_after; [apply J_error|]|].
  destruct (len <=? 0) eqn:El; [by apply safeq_ret|]. b2p.
  apply serve_parsed_safe; [done|done|by split; cbn; lia|cbn; lia|cbn; auto with lia].
Qed.

(** ** The connection *)

(** The rounds of a connection, the last of which closed it. *)
Inductive rounds : mg_input -> world -> mg_input -> world -> Prop :=
| Round_last i w i' w' :
    serve_one brski None proxy junk i w = Some ((false, i'), w') -> rounds i w i' w'
| Round_more i w i1 w1 i' w' :
    serve_one brski None proxy junk i w = Some ((true, i1), w1) ->
    rounds i1 w1 i' w' -> rounds i w i' w'.

Lemma connection_loop_rounds fuel i w :
  J w -> Z.of_nat (length (in_buf i)) <= MAX_REQUEST_SIZE -> at_stream i -> (pending i < fuel)%nat ->
  exists i' w', connection_loop brski None proxy junk fuel i w = Some (i', w') /\ rounds i w i' w' /\ J w'.
Proof.
  revert i w; induction fuel as [|f IH]; intros i w Hw Hi Hs Hf; [lia|]. cbn [connection_loop].
  destruct (serve_one_safe i Hi Hs w Hw) as ([go i1] & w1 & E & Hw1 & [H1 _] & H2). cbn [fst snd] in *.
  rewrite (bind_run _ _ _ _ _ E). destruct go.
  - destruct (H2 eq_refl) as [Hlt Hs1]. destruct (IH i1 w1) as (i' & w' & E' & R & Hw'); [done..|lia|].
    exists i', w'. split_and!; [done|by eapply Round_more|done].
  - exists i1, w1. split_and!; [done|by apply Round_last|done].
Qed.

End Served.

(** C7. A connection always ends, in the build without uriparser, but at a CSR with a
    challengePassword that has no string for its value.  Whatever other bytes a client
    sends, in whatever pieces, with errors and timeouts of the channel at any place,
    [process_new_connection] completes without a NULL pointer, an access past a list or a
    failed assertion, and its last round decided to close the connection: the loop does
    not stop for want of fuel, since every round that goes on takes at least one byte off
    what is pending.  (Memory is available, and what the server writes is taken: an
    [SSL_write] that returns 0 for ever keeps [push] in its loop.) *)
Theorem process_new_connection_total (brski : bool)
    (proxy : bytes -> bytes -> option bytes -> option bytes -> M EST_ERROR) (junk : nat -> bytes)
    (reads : list read_result) (w : world) :
  memory w -> reader_ok -> transport_mode (w_ctx w) = EST_HTTP -> est_mode (w_ctx w) = EST_SERVER ->
  csr_cb_contract (w_ctx w) -> attrs_text (w_ctx w) -> readable_stream junk (script_bytes reads) ->
  exists i w', process_new_connection brski None proxy junk reads w = Some (i, w') /\
    rounds brski proxy junk (Build_mg_input [] 0 0 0 reads) w i w' /\
    memory w' /\ like (w_ctx w) (w_ctx w').
Proof.
  intros Hm Hr Ht Hs Hc Ha Hst.
  destruct (connection_loop_rounds brski proxy junk (w_ctx w) Ht Hc Hr Ha Hs _ Hst
              (S (length (script_bytes reads))) (Build_mg_input [] 0 0 0 reads) w)
    as (i & w' & E & R & Hm' & Hl); [by split; [|split]|done|by exists []|unfold pending; cbn; lia|].
  by exists i, w'.
Qed.

End Conn.
