(* ===== verification/HttpStreamProps.v ===== *)
(** * HttpStreamProps: what a connection promises

    The abstract specification of the connection loop of HttpConn: a connection is a
    function of the byte stream the client sends before it falls silent. There is no
    receive buffer and no script of reads here: a request head is a prefix of the
    stream, its body the bytes after it, and what is left is the stream of the next
    request. [process_new_connection] refines it.

    However the channel cuts the bytes of a client into reads, the connection does what
    the specification says of the bytes alone. The proof has three parts: the end of a
    request head is found at the same place whatever was read behind it; the parser
    never looks behind the head; and the receive buffer with the bytes to come always
    spells out the stream. *)

From S2P Require Import Prelude.
From S2P Require Import SafeC.
From S2P Require Import EstTypes.
From S2P Require Import EstState.
From S2P Require Import EstUtil.
From S2P Require Import HttpParse.
From S2P Require Import HttpIO.
From S2P Require Import ServerDispatch.
From S2P Require Import HttpConn.
From S2P Require Import EstUtilFacts.
From S2P Require Import ServerCsr.
From S2P Require Import EstLogic.
From S2P Require Import HttpIOFacts.
From S2P Require Import HttpParseProps.
From S2P Require Import HttpConnProps.

Section HttpStream.
Context {L : OpenSSL}.
Variable ENABLE_BRSKI : bool.
Variable uriparser : option (bytes -> option (list UriPathSegment)).
Variable est_proxy_http_request : bytes -> bytes -> option bytes -> option bytes -> M EST_ERROR.
Variable malloc_junk : nat -> bytes.

(** The client said nothing more while the server waited. *)
Definition times_up : M unit :=
  conn ← get_conn; _ ← put_conn (set_c_must_close true conn); mret tt.

(** The length of the request head a stream starts with; 0 if its first
    MAX_REQUEST_SIZE bytes hold no complete head, negative if they are not text. *)
Definition head_len (s : bytes) : Z :=
  let t := take (Z.to_nat MAX_REQUEST_SIZE) s in get_request_len t (length t).

(** A body of [n] bytes at the start of a stream. *)
Definition stream_body (n : nat) (s : bytes) : M bytes :=
  if (length s <? n)%nat then
    _ ← times_up; mret (s ++ drop (length s) (take n (malloc_junk n)))
  else mret (take n s).

(** Hand a request to the EST dispatcher. *)
Definition stream_handler (uri : bytes) (s : bytes) : M EST_ERROR :=
  ctx ← get_ctx;
  conn ← get_conn;
  cl_hdr ← mg_get_header (lit "Content-Length");
  body ← match cl_hdr with
         | Some h => ok ← alloc;
                     if negb ok then null_deref else
                     b ← stream_body (Z.to_nat (atoi h)) s; mret (Some b)
         | None => mret None
         end;
  ct_hdr ← mg_get_header (lit "Content-Type");
  let method := default [] (request_method conn) in
  match est_mode ctx with
  | EST_SERVER => est_http_request ENABLE_BRSKI uriparser method uri body ct_hdr
  | EST_PROXY => est_proxy_http_request method uri body ct_hdr
  | _ => mret EST_ERR_NONE
  end.

(** Serve a parsed request whose body starts the stream [s], the content length
    being [cl0] until then: the content length and the rest of the stream. *)
Definition stream_request (s : bytes) (cl0 : Z) : M (Z * bytes) :=
  conn ← get_conn;
  let version := default [] (http_version conn) in
  let cl := request_content_len conn in
  if negb (strncmp version (lit "1.0") 3 =? 0) && negb (strncmp version (lit "1.1") 3 =? 0) then
    _ ← mg_send_http_error 505 (lit "HTTP version not supported") []; mret (cl0, [])
  else if cl >? EST_MAX_CONTENT_LEN then
    _ ← mg_send_http_error 413 (lit "Content-Length too large") []; mret (cl, [])
  else if cl <? 0 then
    _ ← mg_send_http_error 400 (lit "Bad Request") (lit "Content-Length is negative"); mret (cl, [])
  else
    let '(path, _) := handle_request_uri (default [] (EstState.uri conn)) in
    _ ← put_conn (set_c_uri (Some path) conn);
    _ ← stream_handler path s;
    mret (cl, drop (Z.to_nat cl) s).

(** A stream that starts with a complete head of [len] bytes: parse the head,
    serve the request and decide whether the connection goes on. *)
Definition stream_parsed (len : nat) (s : bytes) (cl0 : Z) : M (option (Z * bytes)) :=
  let head := take len s in
  let '(result, buf, ri) :=
    parse_http_request head (length head) (Build_mg_request_info None None None []) in
  _ ← set_request_info buf ri;
  conn ← get_conn;
  '(cl, rest) ←
    (if (result <=? 0) || negb (is_valid_uri (default [] (EstState.uri conn))) then
       _ ← mg_send_http_error 400 (lit "Bad Request") (bad_request_text buf);
       conn ← get_conn;
       _ ← put_conn (set_c_must_close true conn);
       mret (cl0, [])
     else stream_request (drop len s) cl0);
  keep_alive ← should_keep_alive;
  conn ← get_conn;
  mret (if enable_keepalives conn && (cl >=? 0) && keep_alive then Some (cl, rest) else None).

(** One request of the stream: the content length and the rest of the stream if
    the connection goes on. *)
Definition stream_round (s : bytes) (cl0 : Z) : M (option (Z * bytes)) :=
  conn ← get_conn;
  _ ← put_conn (set_c_must_close false (set_c_status_code (-1) (set_c_num_bytes_sent 0 conn)));
  let len := head_len s in
  if len <? 0 then mret None
  else if len =? 0 then
    _ ← (if MAX_REQUEST_SIZE <=? Z.of_nat (length s)
         then mg_send_http_error 413 (lit "Request Too Large") [] else times_up);
    mret None
  else stream_parsed (Z.to_nat len) s cl0.

Fixpoint stream_loop (fuel : nat) (s : bytes) (cl : Z) : M unit :=
  match fuel with
  | O => mret tt
  | S f =>
    more ← stream_round s cl;
    match more with
    | Some (cl', s') => stream_loop f s' cl'
    | None => mret tt
    end
  end.

(** A connection over which a client sends the bytes [s]. *)
Definition stream_connection (s : bytes) : M unit := stream_loop (S (length s)) s 0.

End HttpStream.

Lemma head_len_bound s : -1 <= head_len s <= Z.of_nat (length s) /\ head_len s <= MAX_REQUEST_SIZE.
Proof.
  unfold head_len. cbv zeta. pose proof (get_request_len_bound (take (Z.to_nat MAX_REQUEST_SIZE) s)) as H.
  rewrite length_take in H |- *. unfold MAX_REQUEST_SIZE in *. lia.
Qed.

Section Stream.
Context {L : OpenSSL}.

(** ** Reading a stream *)

(** A channel without errors: it delivers its bytes, and then nothing. *)
Definition clean (reads : list read_result) : Prop :=
  Forall (fun r => match r with R_data _ | R_none => True | R_error | R_timeout => False end) reads.

Definition closed (w : world) : world := set_w_conn (set_c_must_close true (w_conn w)) w.

Lemma pull_clean n reads w :
  clean reads ->
  (reads = [] /\ pull n reads w = Some ((None, []), closed w)) \/
  exists d reads', pull n reads w = Some ((Some d, reads'), w) /\ clean reads' /\
    script_bytes reads = d ++ script_bytes reads' /\ (length d <= n)%nat /\
    ((0 < n)%nat -> (script_size reads' < script_size reads)%nat).
Proof.
  intros H. destruct reads as [|x r]; [by left|]. right.
  apply Forall_cons_1 in H as [Hx Hr]. destruct x as [d| | |]; try done.
  - pose proof (pull_data n d r) as (H1 & H2 & H3). cbn [fst snd] in *.
    eexists _, _. split_and!; [reflexivity| |exact H1|exact H2|exact H3].
    destruct (_ <? _)%nat; [by constructor|done].
  - exists [], r. unfold script_size. cbn. split_and!; [done..|lia|lia].
Qed.

Lemma head_len_short buf x :
  Z.of_nat (length buf) <= MAX_REQUEST_SIZE -> get_request_len buf (length buf) <> 0 ->
  head_len (buf ++ x) = get_request_len buf (length buf).
Proof.
  intros Hl Hn. unfold head_len. cbv zeta.
  replace (take (Z.to_nat MAX_REQUEST_SIZE) (buf ++ x))
    with (buf ++ take (Z.to_nat MAX_REQUEST_SIZE - length buf) x).
  - by apply get_request_len_prefix.
  - rewrite take_app. f_equal. symmetry. apply take_ge. lia.
Qed.

Lemma head_len_long buf x :
  Z.of_nat (length buf) <= MAX_REQUEST_SIZE ->
  (x = [] \/ Z.of_nat (length buf) = MAX_REQUEST_SIZE) ->
  head_len (buf ++ x) = get_request_len buf (length buf).
Proof.
  intros Hl Hx. unfold head_len. cbv zeta.
  assert (E : take (Z.to_nat MAX_REQUEST_SIZE) (buf ++ x) = buf).
  { destruct Hx as [->|Hx]; [rewrite app_nil_r; apply take_ge; lia|].
    replace (Z.to_nat MAX_REQUEST_SIZE) with (length buf) by lia. by rewrite take_app_length. }
  by rewrite E.
Qed.

(** How reading the head of a stream [s] ends. *)
Inductive head_read (s : bytes) (w : world) : Z -> bytes -> world -> Prop :=
| Head_found buf : get_request_len buf (length buf) <> 0 ->
    head_len s = get_request_len buf (length buf) -> head_read s w (get_request_len buf (length buf)) buf w
| Head_full buf : head_len s = 0 -> Z.of_nat (length buf) = MAX_REQUEST_SIZE -> head_read s w 0 buf w
| Head_silence buf : head_len s = 0 -> Z.of_nat (length s) < MAX_REQUEST_SIZE ->
    head_read s w (-1) buf (closed w).

Lemma read_request_stream fuel buf reads w :
  (script_size reads < fuel)%nat -> clean reads -> Z.of_nat (length buf) <= MAX_REQUEST_SIZE ->
  exists len buf' reads' w',
    read_request_loop fuel buf reads (get_request_len buf (length buf)) w = Some ((len, buf', reads'), w') /\
    clean reads' /\ buf' ++ script_bytes reads' = buf ++ script_bytes reads /\
    Z.of_nat (length buf') <= MAX_REQUEST_SIZE /\
    head_read (buf ++ script_bytes reads) w len buf' w'.
Proof.
  revert buf reads; induction fuel as [|f IH]; intros buf reads Hf Hc Hb; [lia|].
  cbn [read_request_loop]. destruct (_ && _) eqn:E.
  - b2p. set (n := (Z.to_nat MAX_REQUEST_SIZE - length buf)%nat).
    destruct (pull_clean n reads w Hc) as [[-> Ep]|(d & reads' & Ep & Hc' & Hs & Hd & Hsz)];
      rewrite (bind_run _ _ _ _ _ Ep).
    + eexists _, _, _, _. split_and!; [reflexivity|done|done|done|].
      apply Head_silence; rewrite app_nil_r; [|done].
      rewrite <- (app_nil_r buf). rewrite head_len_long; [done|done|by left].
    + specialize (Hsz ltac:(unfold n; lia)). destruct d as [|x d].
      { destruct (IH buf reads') as (len & buf' & r' & w' & E' & Hr); [lia|done|done|].
        exists len, buf', r', w'. rewrite Hs. done. }
      destruct (IH (buf ++ x :: d) reads') as (len & buf' & r' & w' & E' & Hr);
        [lia|done|rewrite length_app; unfold n in Hd; simpl in *; lia|].
      exists len, buf', r', w'. rewrite Hs. rewrite <- app_assoc in Hr. done.
  - eexists _, buf, reads, w. split_and!; [reflexivity|done..|].
    destruct (Z.eq_dec (get_request_len buf (length buf)) 0) as [E0|E0].
    + assert (Z.of_nat (length buf) = MAX_REQUEST_SIZE) as Hmax.
      { rewrite E0 in E. apply andb_false_iff in E as [E|E]; [b2p; lia|done]. }
      rewrite E0. apply Head_full; [|done]. rewrite head_len_long; [done|done|by right].
    + apply Head_found; [done|]. by apply head_len_short.
Qed.

(** The body: what was to come, cut to the length asked for. *)
Lemma mg_read_loop_stream fuel len got reads w :
  (script_size reads < fuel)%nat -> clean reads ->
  exists ok reads', mg_read_loop fuel len got reads w
    = Some ((got ++ take len (script_bytes reads), ok, reads'),
            if (length (script_bytes reads) <? len)%nat then closed w else w) /\
    script_bytes reads' = drop len (script_bytes reads) /\ clean reads'.
Proof.
  revert len got reads; induction fuel as [|f IH]; intros len got reads Hf Hc; [lia|].
  cbn [mg_read_loop]. destruct (0 <? len)%nat eqn:E; b2p.
  - destruct (pull_clean len reads w Hc) as [[-> Ep]|(d & reads' & Ep & Hc' & Hs & Hd & Hsz)];
      rewrite (bind_run _ _ _ _ _ Ep).
    + eexists _, _. cbn [script_bytes length]. rewrite take_nil, drop_nil, app_nil_r.
      rewrite (proj2 (Nat.ltb_lt 0 len)) by lia. done.
    + destruct (IH (len - length d)%nat (got ++ d) reads') as (ok & r' & E' & H1 & H2);
        [specialize (Hsz E); lia|done|].
      exists ok, r'. rewrite E', H1, Hs, take_app, drop_app, length_app.
      rewrite (take_ge d), (drop_ge d) by lia. rewrite <- app_assoc. split_and!; [|done|done].
      do 2 f_equal. destruct (_ <? _)%nat eqn:E1; destruct (length d + _ <? _)%nat eqn:E2; b2p; (done || lia).
  - assert (len = 0)%nat as -> by lia. rewrite take_0, drop_0, app_nil_r.
    exists true, reads. by rewrite (proj2 (Nat.ltb_ge _ 0)) by lia.
Qed.

(** ** One request *)

(** The head was read, and the stream goes on with [rest]. *)
Record at_body (i : mg_input) (rest : bytes) : Prop := {
  at_clean : clean (in_reads i);
  at_size : Z.of_nat (length (in_buf i)) <= MAX_REQUEST_SIZE;
  at_len : 0 < request_len i <= Z.of_nat (length (in_buf i));
  at_consumed : consumed_content i = 0;
  at_rest : body_buf i ++ script_bytes (in_reads i) = rest
}.

(** A body of [n] bytes was read: the channel gave what the buffer did not hold. *)
Record taken (n : nat) (i i' : mg_input) : Prop := {
  taken_buf : in_buf i' = in_buf i;
  taken_len : request_len i' = request_len i;
  taken_content : content_len i' = content_len i;
  taken_clean : clean (in_reads i');
  taken_bytes : script_bytes (in_reads i') = drop (n - length (body_buf i)) (script_bytes (in_reads i))
}.

Lemma taken_none i rest : at_body i rest -> taken 0 i i.
Proof. intros []. by split. Qed.

(** The stream the buffer and the channel spell out. *)
Definition view (i : mg_input) : bytes := in_buf i ++ script_bytes (in_reads i).

Lemma discard_view i i' rest :
  at_body i rest -> taken (Z.to_nat (content_len i)) i i' -> 0 <= content_len i ->
  view (discard_request i') = drop (Z.to_nat (content_len i)) rest /\
  clean (in_reads (discard_request i')) /\
  Z.of_nat (length (in_buf (discard_request i'))) <= MAX_REQUEST_SIZE.
Proof.
  intros [Hc Hs Hl _ <-] [E1 E2 E3 Hc' E4] H0. unfold discard_request, view. cbv zeta. cbn [in_buf in_reads].
  rewrite E1, E2, E3, E4. rewrite Z.geb_leb, (proj2 (Z.leb_le _ _)) by done. cbn [andb].
  split_and!; [|done|rewrite length_drop; lia]. unfold body_buf. rewrite drop_app, !length_drop.
  destruct (_ <? _) eqn:E; b2p.
  - rewrite drop_drop. f_equal. f_equal. lia.
  - rewrite (drop_ge (in_buf i)) by lia.
    rewrite (drop_ge (drop _ (in_buf i))) by (rewrite length_drop; lia). done.
Qed.

Section Served.
Variable brski : bool.
Variable uriparser : option (bytes -> option (list UriPathSegment)).
Variable proxy : bytes -> bytes -> option bytes -> option bytes -> M EST_ERROR.
Variable junk : nat -> bytes.

Lemma times_up_closed w : times_up w = Some (tt, closed w).
Proof. done. Qed.

Lemma mg_read_stream i rest w :
  at_body i rest -> 0 <= content_len i ->
  let n := Z.to_nat (content_len i) in
  related (fun r b _ => b = fst r ++ drop (length (fst r)) (take n (junk n)) /\ taken n i (snd r))
    (mg_read n i w) (stream_body junk n rest w).
Proof.
  intros Hi H0 n. pose proof (taken_none _ _ Hi) as Hnone. destruct Hi as [Hc Hs Hl Hz Hr].
  unfold mg_read, stream_body. rewrite Hz, Z.sub_0_r, Z.add_0_r. destruct (0 <? content_len i) eqn:E; b2p.
  - rewrite (proj2 (Z.ltb_ge (content_len i) (Z.of_nat n))) by (unfold n; lia).
    change (drop (Z.to_nat (request_len i)) (in_buf i)) with (body_buf i). cbv zeta.
    destruct (mg_read_loop_stream (S (script_size (in_reads i))) (n - length (take n (body_buf i)))
                (take n (body_buf i)) (in_reads i) w) as (ok & r' & E1 & E2 & E3); [lia|done|].
    rewrite (bind_run _ _ _ _ _ E1).
    assert (Egot : take n (body_buf i) ++ take (n - length (take n (body_buf i))) (script_bytes (in_reads i)) = take n rest).
    { rewrite <- Hr, take_app, length_take. f_equal. f_equal. lia. }
    rewrite Egot. assert (Hlen : (length (script_bytes (in_reads i)) <? n - length (take n (body_buf i)))%nat
                            = (length rest <? n)%nat).
    { rewrite <- Hr, length_app, length_take. apply eq_true_iff_eq. rewrite !Nat.ltb_lt. lia. }
    rewrite Hlen. assert (Ht : taken n i (Build_mg_input (in_buf i) (request_len i) (content_len i)
                             (0 + Z.of_nat (length (take n rest))) r')).
    { split; [done..|]. cbn [in_reads]. rewrite E2, length_take. f_equal. lia. }
    destruct (length rest <? n)%nat eqn:E4; b2p.
    + rewrite (bind_run _ _ _ _ _ (times_up_closed w)). cbn. split; [|done]. split; [|done].
      by rewrite (take_ge rest) by lia.
    + cbn. split; [|done]. split; [|done]. cbn [fst]. rewrite (drop_ge (take n (junk n))), app_nil_r; [done|].
      rewrite !length_take. lia.
  - assert (n = 0%nat) as -> by (unfold n; lia). rewrite (proj2 (Nat.ltb_ge _ 0)) by lia.
    cbn. by rewrite !take_0.
Qed.

(** The content length the loop determined, seen from the handler. *)
Definition content_known (i : mg_input) (w : world) : Prop :=
  match get_header (http_headers (w_conn w)) (lit "Content-Length") with
  | Some h => content_len i = atoi h /\ 0 <= atoi h
  | None => content_len i = 0
  end.

Lemma est_mg_handler_stream u i rest w :
  at_body i rest -> content_known i w ->
  related (fun r rc _ => fst r = rc /\ taken (Z.to_nat (content_len i)) i (snd r))
    (est_mg_handler brski uriparser proxy junk u i w) (stream_handler brski uriparser proxy junk u rest w).
Proof.
  intros Hi Hk. unfold est_mg_handler, stream_handler.
  apply related_same. intros x w1 [= <- <-]. apply related_same. intros k w2 [= <- <-].
  apply related_same. intros cl w3 [= <- <-]. unfold content_known in Hk.
  apply (related_bind (fun a b _ => fst a = b /\ taken (Z.to_nat (content_len i)) i (snd a))).
  - destruct (get_header _ _) as [h|].
    + destruct Hk as [Hk H0]. cbv zeta. apply related_same. intros ok w4 Ha. destruct ok; [|done]. cbn [negb].
      rewrite <- Hk. eapply related_bind; [apply mg_read_stream; [done|lia]|].
      intros [got i'] b w5 [-> Ht]. cbn. done.
    + cbn. rewrite Hk. split; [|done]. split; [done|]. by eapply taken_none.
  - intros [body i'] b w4 [<- Ht]. cbn [fst snd]. apply related_same. intros ct w5 [= <- <-]. cbv zeta.
    destruct (est_mode (w_ctx w)); by apply related_package.
Qed.

(** The connection after a request: the content length is the one of the stream,
    and so is what is left, unless an error response was sent. *)
Definition served (i' : mg_input) (r : Z * bytes) (w : world) : Prop :=
  content_len i' = fst r /\
  (400 <= status_code (w_conn w) \/
   view (discard_request i') = snd r /\ clean (in_reads (discard_request i')) /\
     Z.of_nat (length (in_buf (discard_request i'))) <= MAX_REQUEST_SIZE).

Lemma served_error n r t i cl rest w :
  400 <= n -> content_len i = cl ->
  related served ((_ ← mg_send_http_error n r t; mret i) w) ((_ ← mg_send_http_error n r t; mret (cl, rest)) w).
Proof.
  intros Hn Hc. apply related_same. intros u w1 E. cbn. split; [|done]. split; [done|]. left.
  by rewrite (status_mg_send_http_error _ _ _ _ _ _ E).
Qed.

Lemma wrap_s_small z : 0 <= z < 2 ^ 31 -> wrap_s 32 z = z.
Proof.
  intros H. unfold wrap_s. rewrite Z.mod_small by lia. cbv zeta.
  rewrite (proj2 (Z.ltb_lt _ _)); [done|]. change (32 - 1) with 31. lia.
Qed.

Lemma request_content_known i w :
  content_len i = request_content_len (w_conn w) -> 0 <= content_len i <= EST_MAX_CONTENT_LEN ->
  content_known i w.
Proof.
  unfold request_content_len, content_known, EST_MAX_CONTENT_LEN. intros Hc H.
  destruct (get_header _ _) as [h|].
  - unfold atoi. rewrite wrap_s_small by lia. lia.
  - destruct (_ || _); lia.
Qed.

Lemma serve_request_stream i rest w :
  at_body i rest ->
  related served (serve_request brski uriparser proxy junk i w)
    (stream_request brski uriparser proxy junk rest (content_len i) w).
Proof.
  intros Hi. unfold serve_request, stream_request. apply related_same. intros k w1 [= <- <-].
  cbv zeta. destruct (_ && _); [by apply served_error|]. destruct (_ >? _) eqn:E1; [by apply served_error|].
  destruct (_ <? 0) eqn:E2; [by apply served_error|]. rewrite Z.gtb_ltb in E1. b2p.
  set (j := Build_mg_input _ _ _ _ _). assert (Hj : at_body j rest) by by destruct Hi.
  change (request_content_len (w_conn w)) with (content_len j).
  unfold handle_request. rewrite (bind_run _ _ _ _ _ (eq_refl : get_conn w = Some (w_conn w, w))).
  destruct (handle_request_uri _) as [path q]. apply related_same. intros u w1 [= <- <-].
  eapply related_bind.
  - apply est_mg_handler_stream; [exact Hj|]. apply request_content_known; [done|split; [exact E2|exact E1]].
  - intros [rc i'] rc' w2 [_ Ht]. cbn. split; [|done]. cbn [snd] in Ht. split; [by destruct Ht|]. right.
    apply (discard_view j); [done|done|exact E2].
Qed.

(** An error response ends the connection. *)
Lemma keep_alive_error w b w' :
  400 <= status_code (w_conn w) -> should_keep_alive w = Some (b, w') -> b = false /\ w' = w.
Proof.
  intros Hs [= <- <-]. rewrite (proj2 (Z.leb_le 400 _)) by done. by rewrite !orb_true_r.
Qed.

(** One round of the loop does what the specification says of the stream. *)
Definition same_round (r : bool * mg_input) (s : option (Z * bytes)) (_ : world) : Prop :=
  match s with
  | Some (cl, rest) => fst r = true /\ content_len (snd r) = cl /\ view (snd r) = rest /\
      clean (in_reads (snd r)) /\ Z.of_nat (length (in_buf (snd r))) <= MAX_REQUEST_SIZE
  | None => fst r = false
  end.

Lemma bad_request_text_sealed h t t' : bad_request_text (sealed h t) = bad_request_text (sealed h t').
Proof. unfold bad_request_text. by rewrite !cstr_sealed. Qed.

(** What the two do with a complete head: the parser, then the request. *)
Lemma parsed_stream i w :
  get_request_len (in_buf i) (length (in_buf i)) = request_len i -> 0 < request_len i ->
  clean (in_reads i) -> Z.of_nat (length (in_buf i)) <= MAX_REQUEST_SIZE -> consumed_content i = 0 ->
  related same_round (serve_parsed brski uriparser proxy junk i w)
    (stream_parsed brski uriparser proxy junk (Z.to_nat (request_len i)) (view i) (content_len i) w).
Proof.
  destruct i as [buf len cl0 consumed reads]. unfold serve_parsed, stream_parsed, view.
  cbn [in_buf request_len content_len consumed_content in_reads]. intros Hl Hp Hc Hs ->.
  set (s := buf ++ script_bytes reads). cbv zeta. pose proof (get_request_len_bound buf) as Hb. rewrite Hl in Hb.
  destruct (split_head buf len Hl Hp) as (h & z & t & -> & Hlen & Eh & Et).
  destruct (parse_request_sealed h z) as (r & h' & ri & Lh & Hin & Hparse).
  assert (Hhead : take (Z.to_nat len) s = h ++ [z]).
  { unfold s. rewrite take_app_le by lia. done. }
  assert (Hrest : drop (Z.to_nat len) s = t ++ script_bytes reads).
  { unfold s. rewrite drop_app_le by lia. by rewrite Et. }
  assert (Hget : forall x n, (Z.to_nat len <= n)%nat -> get_request_len (h ++ z :: x) n = Z.of_nat (length h) + 1).
  { intros x n Hn. rewrite Hlen. change (z :: x) with ([z] ++ x). rewrite app_assoc, <- Eh.
    by apply get_request_len_head. }
  rewrite Hhead, Hrest.
  rewrite (Hparse t) by first [apply Hget; lia | apply fits_small; unfold sealed; rewrite length_app in *; simpl in *; unfold MAX_REQUEST_SIZE in *; lia].
  rewrite (Hparse []) by first [apply Hget; rewrite length_app; simpl; lia | apply fits_small; unfold sealed; rewrite length_app in *; simpl in *; unfold MAX_REQUEST_SIZE in *; lia].
  unfold set_request_info. rewrite !ri_strings_sealed by done.
  set (j := Build_mg_input (sealed h' t) len cl0 0 reads).
  assert (Hj : at_body j (t ++ script_bytes reads)).
  { split; cbn; [done|unfold sealed; rewrite !length_app in *; simpl in *; lia..|done|].
    unfold body_buf. cbn. f_equal. unfold sealed. replace (Z.to_nat len) with (length h' + 1)%nat by lia.
    rewrite <- drop_drop, drop_app_length. done. }
  apply related_same. intros _ w1 _. apply related_same. intros k w2 [= <- <-].
  apply (related_bind served).
  - rewrite (bad_request_text_sealed h' t []). destruct (_ || _); [|by apply (serve_request_stream j)].
    apply related_same. intros u w3 E. apply status_mg_send_http_error in E.
    apply related_same. intros k w4 Ek. injection Ek as <- <-.
    cbn. split; [|done]. split; [done|]. left. cbn. by rewrite E.
  - intros i' [cl rest] w3 [Hcl Hok]. apply related_same. intros ka w4 Ek. apply related_same.
    intros k' w5 [= <- <-]. cbn in Hcl. rewrite Hcl. cbn. split; [|done]. destruct Hok as [Herr|Hok].
    + apply keep_alive_error in Ek as [-> ->]; [|done]. rewrite andb_false_r. done.
    + destruct (_ && _); [|done]. cbn in *. destruct Hok as (H1 & H2 & H3). split_and!; try done.
Qed.

Lemma serve_one_stream i w :
  clean (in_reads i) -> Z.of_nat (length (in_buf i)) <= MAX_REQUEST_SIZE ->
  related same_round (serve_one brski uriparser proxy junk i w)
    (stream_round brski uriparser proxy junk (view i) (content_len i) w).
Proof.
  intros Hc Hb. unfold serve_one, stream_round.
  set (w0 := set_w_conn (set_c_must_close false (set_c_status_code (-1) (set_c_num_bytes_sent 0 (w_conn w)))) w).
  set (i1 := Build_mg_input (in_buf i) 0 (content_len i) 0 (in_reads i)).
  rewrite (bind_run (reset_per_request_attributes i) _ w i1 w0 eq_refl).
  rewrite (bind_run get_conn _ w (w_conn w) w eq_refl), (bind_run (put_conn _) _ w tt w0 eq_refl).
  destruct (read_request_stream (S (script_size (in_reads i))) (in_buf i) (in_reads i) w0) as
    (len & buf & reads & w1 & E & Hc' & Hv & Hs & Hread); [lia|done|done|].
  unfold read_request. cbn [in_buf in_reads i1]. rewrite (bind_run _ _ _ _ _ E). cbv zeta.
  fold (view i) in Hv, Hread. cbn [content_len consumed_content].
  destruct Hread as [buf Hne Hh|buf Hh Hmax|buf Hh Hlt].
  - rewrite Hh. pose proof (get_request_len_bound buf) as Hlb.
    set (len := get_request_len buf (length buf)) in *.
    replace ((len <? 0) || (len <=? Z.of_nat (length buf))) with true
      by (symmetry; apply orb_true_iff; right; apply Z.leb_le; lia). cbn [negb].
    rewrite (proj2 (Z.eqb_neq len 0)) by done. cbn [andb].
    destruct (len <? 0) eqn:El; b2p; [by rewrite (proj2 (Z.leb_le len 0)) by lia|].
    rewrite (proj2 (Z.leb_gt len 0)) by lia. rewrite <- Hv.
    apply (parsed_stream (Build_mg_input buf len (content_len i) 0 reads)); cbn; [done|lia|done..].
  - rewrite Hh, Hmax. cbn [Z.ltb Z.eqb orb]. 
    rewrite (proj2 (Z.leb_le 0 _)) by done. cbn [negb andb]. rewrite Z.eqb_refl. cbn [andb].
    rewrite (proj2 (Z.leb_le _ _)).
    + apply related_same. intros u w2 _. done.
    + rewrite <- Hv, length_app. lia.
  - rewrite Hh. cbn [Z.ltb Z.eqb orb negb andb]. rewrite (proj2 (Z.leb_gt MAX_REQUEST_SIZE _)) by done.
    done.
Qed.

Lemma loop_stream fuel i w :
  clean (in_reads i) -> Z.of_nat (length (in_buf i)) <= MAX_REQUEST_SIZE ->
  related (fun _ _ _ => True) (connection_loop brski uriparser proxy junk fuel i w)
    (stream_loop brski uriparser proxy junk fuel (view i) (content_len i) w).
Proof.
  revert i w; induction fuel as [|f IH]; intros i w Hc Hb; [done|]. cbn [connection_loop stream_loop].
  eapply related_bind; [by apply serve_one_stream|]. intros [go i'] more w1 H. destruct more as [[cl s]|].
  - destruct H as (H1 & <- & <- & H4 & H5). cbn in H1. subst go. by apply IH.
  - cbn in H. by subst go.
Qed.

Lemma connection_stream reads w :
  clean reads ->
  related (fun _ _ _ => True) (process_new_connection brski uriparser proxy junk reads w)
    (stream_connection brski uriparser proxy junk (script_bytes reads) w).
Proof.
  intros Hc. apply (loop_stream _ (Build_mg_input [] 0 0 0 reads)); cbn; [done|unfold MAX_REQUEST_SIZE; lia].
Qed.

(** C8. The connection loop implements its specification: on
    a channel that delivers the bytes of the client without errors, in pieces of
    any size and with any number of empty reads between them, the responses, the
    callbacks, the events and the state that [process_new_connection] leaves are
    those that [stream_connection] computes from the bytes alone, undefined
    behaviour included. *)
Theorem connection_refines_stream (reads : list read_result) (w : world) :
  clean reads ->
  snd <$> process_new_connection brski uriparser proxy junk reads w =
  snd <$> stream_connection brski uriparser proxy junk (script_bytes reads) w.
Proof.
  intros Hc. pose proof (connection_stream reads w Hc) as H.
  destruct (process_new_connection _ _ _ _ _ _) as [[a w1]|], (stream_connection _ _ _ _ _ _) as [[b w2]|]; try done.
  by destruct H as [_ ->].
Qed.

(** How the channel cuts the stream is invisible: two connections
    that deliver the same bytes in different pieces are the same connection. A
    request cannot be read differently because it arrived in fragments, or
    together with the one that follows it. *)
Theorem connection_framing (reads reads' : list read_result) (w : world) :
  clean reads -> clean reads' -> script_bytes reads = script_bytes reads' ->
  snd <$> process_new_connection brski uriparser proxy junk reads w =
  snd <$> process_new_connection brski uriparser proxy junk reads' w.
Proof.
  intros H1 H2 E. pose proof (connection_stream reads w H1) as R1.
  pose proof (connection_stream reads' w H2) as R2. rewrite <- E in R2.
  destruct (stream_connection _ _ _ _ _ _) as [[b w2]|], (process_new_connection _ _ _ _ reads w) as [[a w1]|],
    (process_new_connection _ _ _ _ reads' w) as [[a' w1']|]; try done.
  destruct R1 as [_ ->], R2 as [_ ->]. done.
Qed.

End Served.
End Stream.
