(* ===== verification/ClientFacts.v ===== *)
(** * ClientFacts: what the operations of the client leave alone

    [acts P] is the preorder of the operations that only emit events in [P]; most of the
    client emits nothing, so the lemmas hold for every [P]. [keeps_status] says that the
    status of the last answer stays; with it a reported authentication failure is traced
    back to an answer with the status 401.

    What [send_request] puts on the wire: a request that completes starts with the
    header and an empty line, and a body that fits follows it. *)

From S2P Require Import Prelude.
From S2P Require Import SafeC.
From S2P Require Import EstTypes.
From S2P Require Import EstState.
From S2P Require Import EstUtil.
From S2P Require Import MultipartParser.
From S2P Require Import ClientHost.
From S2P Require Import ClientHttp.
From S2P Require Import ClientRequest.
From S2P Require Import ClientCert.
From S2P Require Import Client.
From S2P Require Import EstLogic.
From S2P Require Import HttpIO.

Section Facts.
Context {L : OpenSSL}.

(** ** Events *)

Definition acts (P : event -> Prop) (w w' : world) : Prop :=
  exists l, w_trace w' = w_trace w ++ l /\ Forall P l.

#[global] Instance acts_preorder P : PreOrder (acts P).
Proof.
  split.
  - intros w. exists []. by rewrite app_nil_r.
  - intros w1 w2 w3 (l1 & T1 & F1) (l2 & T2 & F2). exists (l1 ++ l2).
    rewrite T2, T1, app_assoc. split; [done|]. by apply Forall_app.
Qed.

Section Acts.
Variable P : event -> Prop.
Abbreviation act := (sat (acts P)).

Lemma acts_same w w' : w_trace w' = w_trace w -> acts P w w'.
Proof. intros Ht. exists []. by rewrite app_nil_r. Qed.

Lemma act_frame {A} (m : M A) : sat (frame P) m -> act m.
Proof. intros H w a w' E. exact (frame_trace _ _ _ (H _ _ _ E)). Qed.

Lemma act_alloc : act alloc.
Proof. apply act_frame, frame_alloc. Qed.
Lemma act_upd_client f : act (upd_client f).
Proof. intros w a w' [= _ <-]. by apply acts_same. Qed.
Lemma act_upd_ctx f : act (upd_ctx f).
Proof. intros w a w' [= _ <-]. by apply acts_same. Qed.
Lemma act_get_client : act get_client.
Proof. intros w a w' [= _ <-]. reflexivity. Qed.
Lemma act_get_net : act get_net.
Proof. intros w a w' [= _ <-]. reflexivity. Qed.
Lemma act_put_net n : act (put_net n).
Proof. intros w a w' [= _ <-]. by apply acts_same. Qed.
Lemma act_emit e : P e -> act (emit e).
Proof. intros He w a w' [= _ <-]. exists [e]. split; [done|by constructor]. Qed.
Hint Resolve act_alloc act_upd_client act_upd_ctx act_get_client act_get_net act_put_net act_emit : sat.

Lemma act_base64_decode s n : act (est_base64_decode s n).
Proof. unfold est_base64_decode, est_base64_decode_at. sat_auto. Qed.
Lemma act_base64_encode s n b : act (est_base64_encode s n b).
Proof. unfold est_base64_encode. sat_auto. Qed.
Hint Resolve act_base64_decode act_base64_encode : sat.

(** *** Reading an answer *)

Lemma act_ssl_read n : act (est_ssl_read n).
Proof. unfold est_ssl_read. sat_auto. Qed.
Hint Resolve act_ssl_read : sat.

Lemma act_read_raw_loop fuel : forall buf n, act (read_raw_loop fuel buf n).
Proof. induction fuel; intros buf n; cbn [read_raw_loop]; sat_auto. Qed.
Hint Resolve act_read_raw_loop : sat.

Lemma act_token_value buf p put : (forall v, act (put v)) -> act (token_value buf p put).
Proof. intros H. unfold token_value. sat_auto. Qed.

Lemma act_put_client_field max set v : act (put_client_field max set v).
Proof. unfold put_client_field. sat_auto. Qed.
Hint Resolve act_token_value act_put_client_field : sat.

Lemma act_auth_token t buf p : act (auth_token t buf p).
Proof. unfold auth_token. sat_auto; apply act_token_value; intros v; sat_auto. Qed.
Hint Resolve act_auth_token : sat.

Lemma act_auth_tokens_loop fuel : forall buf p, act (auth_tokens_loop fuel buf p).
Proof. induction fuel; intros buf p; cbn [auth_tokens_loop]; sat_auto. Qed.
Hint Resolve act_auth_tokens_loop : sat.

Lemma act_auth_request buf hdrs : act (est_io_parse_http_auth_request buf hdrs).
Proof. unfold est_io_parse_http_auth_request, set_mode, est_io_parse_auth_tokens. sat_auto. Qed.

Lemma act_retry_after_loop hs : forall rv, act (retry_after_loop hs rv).
Proof. induction hs as [|[n v] hs IH]; intros rv; cbn [retry_after_loop]; sat_auto. Qed.
Hint Resolve act_auth_request act_retry_after_loop : sat.

Lemma act_status_error st buf hdrs : act (http_status_error st buf hdrs).
Proof. unfold http_status_error, est_io_parse_http_retry_after_resp, set_mode. sat_auto. Qed.
Hint Resolve act_status_error : sat.

Variable ENABLE_BRSKI : bool.
Variable EST_VER_STRING : bytes.
Variable malloc_junk : nat -> bytes.

Lemma act_mp_header_name p s : act (read_header_name p s).
Proof. unfold read_header_name. sat_auto. Qed.
Lemma act_mp_header_value p s : act (read_header_value malloc_junk p s).
Proof. unfold read_header_value, multipart_parser_set_hdr_value. sat_auto. Qed.
Hint Resolve act_mp_header_name act_mp_header_value : sat.

Lemma act_mp_step raw buf len l : act (mp_step malloc_junk raw buf len l).
Proof. unfold mp_step, step_header_field, step_header_value. cbn zeta. destruct (mp_st _); sat_auto. Qed.
Hint Resolve act_mp_step : sat.

Lemma act_mp_run raw buf len fuel : forall l, act (mp_run malloc_junk raw buf len fuel l).
Proof. induction fuel; intros l; cbn [mp_run]; sat_auto. Qed.
Hint Resolve act_mp_run : sat.

Lemma act_multipart_payload raw buf b : act (parse_remaining_multipart_payload malloc_junk raw buf b).
Proof. unfold parse_remaining_multipart_payload, multipart_parser_execute. sat_auto. Qed.
Hint Resolve act_multipart_payload : sat.

Lemma act_payloads op buf p hdrs b :
  act (plain_payload ENABLE_BRSKI op buf p hdrs) /\ act (keygen_payload malloc_junk buf p b).
Proof. split; [unfold plain_payload|unfold keygen_payload]; sat_auto. Qed.

Lemma act_response op : act (est_io_get_response_internal ENABLE_BRSKI malloc_junk op).
Proof.
  unfold est_io_get_response_internal, est_io_read_raw. sat_auto; apply act_payloads.
  all: exact op || exact [] || exact None.
Qed.
Hint Resolve act_response : sat.

(** *** Keys and certificates *)

Lemma act_verify_key_and_cert k c : act (est_client_verify_key_and_cert k c).
Proof.
  unfold est_client_verify_key_and_cert, est_client_get_pkcs7_from_buf, est_client_get_pkey_from_buf.
  sat_auto.
Qed.

Lemma act_keep set buf : act (keep_received set buf).
Proof. unfold keep_received. sat_auto. Qed.
Hint Resolve act_verify_key_and_cert act_keep : sat.

Lemma act_keep_key c k : act (keep_key c k).
Proof. unfold keep_key. sat_auto. Qed.
Hint Resolve act_keep_key : sat.

End Acts.

(** ** Making a request changes nothing *)

Lemma frame_tls_uid P s c : sat (frame P) (est_get_tls_uid s c).
Proof. unfold est_get_tls_uid. sat_auto. Qed.
Lemma frame_req_sign P csr k md : sat (frame P) (est_X509_REQ_sign csr k md).
Proof. unfold est_X509_REQ_sign. sat_auto. Qed.
Hint Resolve frame_tls_uid frame_req_sign : sat.

Lemma frame_generate_pkcs10 P cn cp k : sat (frame P) (est_generate_pkcs10 cn cp k).
Proof. unfold est_generate_pkcs10, populate_x509_request. sat_auto. Qed.

(** ** The status of an authentication failure *)

Definition http_status_of (w : world) : Z := last_http_status (client (w_ctx w)).

Definition keeps_status (w w' : world) : Prop := http_status_of w' = http_status_of w.

#[global] Instance keeps_status_preorder : PreOrder keeps_status.
Proof. split; unfold keeps_status; [done|]. intros w1 w2 w3 H1 H2. congruence. Qed.

Abbreviation kept := (sat keeps_status).

Lemma kept_frame {A} P (m : M A) : sat (frame P) m -> kept m.
Proof. intros H w a w' E. unfold keeps_status, http_status_of. by rewrite (frame_ctx _ _ _ (H _ _ _ E)). Qed.

Lemma kept_alloc : kept alloc.
Proof. eapply (kept_frame (fun _ => True)), frame_alloc. Qed.

Lemma kept_upd_client f : (forall c, last_http_status (f c) = last_http_status c) -> kept (upd_client f).
Proof. intros Hf w a w' [= _ <-]. apply Hf. Qed.

Lemma kept_upd_ctx f : (forall c, client (f c) = client c) -> kept (upd_ctx f).
Proof. intros Hf w a w' [= _ <-]. unfold keeps_status, http_status_of. simpl. by rewrite Hf. Qed.

Hint Resolve kept_alloc : sat.
Hint Extern 1 (sat keeps_status (upd_client _)) => apply kept_upd_client; reflexivity : sat.
Hint Extern 1 (sat keeps_status (upd_ctx _)) => apply kept_upd_ctx; reflexivity : sat.

Lemma kept_token_value buf p put : (forall v, kept (put v)) -> kept (token_value buf p put).
Proof. intros H. unfold token_value. sat_auto. Qed.

Lemma kept_put_client_field max set v :
  (forall s c, last_http_status (set s c) = last_http_status c) -> kept (put_client_field max set v).
Proof. intros H. unfold put_client_field. sat_auto. by apply kept_upd_client. Qed.

Lemma kept_auth_token t buf p : kept (auth_token t buf p).
Proof.
  unfold auth_token. sat_auto; apply kept_token_value; intros v; sat_auto;
    by apply kept_put_client_field.
Qed.
Hint Resolve kept_auth_token : sat.

Lemma kept_auth_tokens_loop fuel : forall buf p, kept (auth_tokens_loop fuel buf p).
Proof. induction fuel; intros buf p; cbn [auth_tokens_loop]; sat_auto. Qed.
Hint Resolve kept_auth_tokens_loop : sat.

Lemma kept_auth_request buf hdrs : kept (est_io_parse_http_auth_request buf hdrs).
Proof. unfold est_io_parse_http_auth_request, set_mode, est_io_parse_auth_tokens. sat_auto. Qed.
Hint Resolve kept_auth_request : sat.

(** What every completed run returns. *)
Definition returns {A} (Q : A -> Prop) (m : M A) : Prop := forall w a w', m w = Some (a, w') -> Q a.

Lemma returns_ret {A} (Q : A -> Prop) a : Q a -> returns Q (mret a).
Proof. intros H w b w' E. by apply ret_some in E as [<- _]. Qed.
Lemma returns_bind {A B} (Q : B -> Prop) (m : M A) f : (forall a, returns Q (f a)) -> returns Q (m ≫= f).
Proof. intros H w b w' E. run_inv E as a w1 E1. by eapply H. Qed.
Lemma returns_null {A} (Q : A -> Prop) : returns Q null_deref.
Proof. by intros w a w'. Qed.

Ltac returns_step :=
  match goal with
  | |- returns _ (mbind _ _) => apply returns_bind; intros ?
  | |- returns _ (match ?x with _ => _ end) => destruct x
  | |- returns _ (let '_ := ?x in _) => destruct x
  | |- returns _ (mret _) => apply returns_ret; cbn
  | |- returns _ null_deref => apply returns_null
  end.
Ltac returns_auto := repeat (cbn beta iota zeta; returns_step).

Abbreviation no_auth_fail rv := (rv <> EST_ERR_AUTH_FAIL).

Lemma retry_after_loop_returns hs : forall rv,
  no_auth_fail rv -> returns (fun e => no_auth_fail e) (retry_after_loop hs rv).
Proof.
  induction hs as [|[n v] hs IH]; intros rv Hrv; cbn [retry_after_loop]; [by apply returns_ret|].
  repeat (returns_step || by apply IH).
Qed.

Lemma status_error_401 st buf hdrs w w' :
  http_status_error st buf hdrs w = Some (EST_ERR_AUTH_FAIL, w') -> st = 401 /\ keeps_status w w'.
Proof.
  unfold http_status_error. intros H.
  repeat (destruct (st =? _) eqn:? in H; [try no_ret H|]; simpl orb in H; cbn match in H).
  - run_inv H as u1 w1 E1. run_inv H as u2 w2 E2.
    by apply retry_after_loop_returns in H.
  - b2p. split; [done|]. run_inv H as ctx w1 E1. injection E1 as <- <-.
    destruct (auth_mode _); run_inv H as u w2 E2; apply ret_some in H as [_ <-];
      first [exact (kept_auth_request _ _ _ _ _ E2)|by injection E2 as _ <-].
  - no_ret H.
Qed.

Variable ENABLE_BRSKI : bool.
Variable malloc_junk : nat -> bytes.

Lemma check_hdrs_returns hs : forall ct a b cl,
  no_auth_fail (fst (check_hdrs_loop hs ct a b cl)).
Proof.
  induction hs as [|[n v] hs IH]; intros ct a b cl; cbn [check_hdrs_loop]; [by destruct a, b|].
  repeat case_match; try done; apply IH.
Qed.

Lemma multipart_returns raw buf b :
  returns (fun a => no_auth_fail (fst (fst a))) (parse_remaining_multipart_payload malloc_junk raw buf b).
Proof.
  unfold parse_remaining_multipart_payload. apply returns_bind. intros [|]; [|apply returns_null].
  apply returns_bind. intros [parsed q]. apply returns_bind. intros ok1.
  apply returns_bind. intros ok2. apply returns_ret. simpl. by repeat case_match.
Qed.

Lemma payloads_return op buf p hdrs b :
  returns (fun r => no_auth_fail (rsp_rv r)) (plain_payload ENABLE_BRSKI op buf p hdrs) /\
  returns (fun r => no_auth_fail (rsp_rv r)) (keygen_payload malloc_junk buf p b).
Proof.
  split.
  - unfold plain_payload, est_io_check_http_hdrs.
    assert (Hc := check_hdrs_returns (hdr_strings buf hdrs) (default [] (est_op_content_type op)) false false (-1)).
    destruct (check_hdrs_loop _ _ _ _ _) as [rv cl]. simpl in Hc. by returns_auto.
  - unfold keygen_payload.
    destruct b; [|by apply returns_ret]. destruct (strstr _ _); [|apply returns_null].
    intros w r w' H. run_inv H as a w1 E1.
    apply multipart_returns in E1.
    destruct a as [[rv [k kl]] [c cl]]. simpl in E1. revert H.
    match goal with |- ?m _ = _ -> _ => enough (Hm : returns (fun r => no_auth_fail (rsp_rv r)) m) by apply Hm end.
    by returns_auto.
Qed.

Lemma read_raw_loop_returns fuel : forall buf n,
  returns (fun r => no_auth_fail (fst r)) (read_raw_loop fuel buf n).
Proof.
  induction fuel; intros buf n; cbn [read_raw_loop]; [by apply returns_ret|].
  destruct (_ <? _); [|by apply returns_ret]. apply returns_bind. intros [[|c d]|]; try by apply returns_ret.
  apply IHfuel.
Qed.

(** Reading the channel leaves the context alone. *)
Lemma ssl_read_ctx n w d w' : est_ssl_read n w = Some (d, w') -> w_ctx w' = w_ctx w.
Proof.
  unfold est_ssl_read. intros H. run_inv H as m w1 E. injection E as <- <-.
  destruct (net_reads _) as [|[| | |] l]; [by apply ret_some in H as [_ <-]|head_if H|..];
    run_inv H as u w2 E2; injection E2 as _ <-; by apply ret_some in H as [_ <-].
Qed.

Lemma read_raw_loop_ctx fuel : forall buf n w r w',
  read_raw_loop fuel buf n w = Some (r, w') -> w_ctx w' = w_ctx w.
Proof.
  induction fuel as [|f IH]; intros buf n w r w'; cbn [read_raw_loop]; intros H;
    [by apply ret_some in H as [_ <-]|].
  destruct (_ <? n); [|by apply ret_some in H as [_ <-]].
  run_inv H as d w1 E. apply ssl_read_ctx in E. rewrite <- E.
  destruct d as [[|c d]|]; try (by apply ret_some in H as [_ <-]). by eapply IH.
Qed.

Lemma read_raw_run n w rv raw w' :
  est_io_read_raw n w = Some ((rv, raw), w') -> no_auth_fail rv /\ w_ctx w' = w_ctx w.
Proof.
  unfold est_io_read_raw. intros H. run_inv H as m w1 E. injection E as <- <-.
  run_inv H as p w2 E. assert (Hc := read_raw_loop_ctx _ _ _ _ _ _ E).
  apply read_raw_loop_returns in E. destruct p as [rv0 buf]. simpl in E.
  destruct (_ && _); apply ret_some in H as [H <-]; by simplify_eq.
Qed.

(** An authentication failure is the status of the answer, and nothing but the record
    of that status changes the context before it is handled. *)
Lemma response_auth_fail op w r w' :
  est_io_get_response_internal ENABLE_BRSKI malloc_junk op w = Some (r, w') ->
  rsp_rv r = EST_ERR_AUTH_FAIL ->
  exists st buf hdrs w1, http_status_error st buf hdrs w1 = Some (EST_ERR_AUTH_FAIL, w') /\
    w_ctx w1 = set_client (set_last_http_status st (client (w_ctx w))) (w_ctx w).
Proof.
  unfold est_io_get_response_internal. intros H Hr.
  run_inv H as ok w1 E1. apply (frame_alloc (fun _ => True)), frame_ctx in E1.
  destruct ok; simpl in H; [|apply ret_some in H as [<- _]; discriminate Hr].
  run_inv H as rb w2 E2. destruct rb as [rv raw]. apply read_raw_run in E2 as [Hrv C2].
  destruct (bool_decide (rv = EST_ERR_NONE)); simpl in H;
    [|apply ret_some in H as [<- _]; by rewrite <- Hr in Hrv].
  destruct raw as [|c raw]; [apply ret_some in H as [<- _]; discriminate Hr|].
  run_inv H as u w3 E3. injection E3 as _ <-.
  run_inv H as hok w4 E4. apply (frame_alloc (fun _ => True)), frame_ctx in E4.
  simpl in E4. rewrite C2, E1 in E4.
  assert (Hend : forall buf hdrs w5 rv5 (k : M io_response),
    http_status_error (est_io_parse_response_status_code (cstr (c :: raw))) buf hdrs w4 = Some (rv5, w5) ->
    returns (fun r => no_auth_fail (rsp_rv r)) k ->
    (if bool_decide (rv5 = EST_ERR_NONE) then k else mret (rsp_error rv5)) w5 = Some (r, w') ->
    exists st buf hdrs w1, http_status_error st buf hdrs w1 = Some (EST_ERR_AUTH_FAIL, w') /\
      w_ctx w1 = set_client (set_last_http_status st (client (w_ctx w))) (w_ctx w)).
  { intros buf hdrs w5 rv5 k E5 Hk Hrun. destruct (bool_decide (rv5 = EST_ERR_NONE)).
    - apply Hk in Hrun. by rewrite Hr in Hrun.
    - apply ret_some in Hrun as [<- <-]. simpl in Hr. subst rv5. by eexists _, buf, hdrs, w4. }
  destruct (bool_decide (op = EST_OP_SERVER_KEYGEN)).
  - destruct (if hok then _ else None) as [[[[buf payload] hdrs] b]|];
      [|apply ret_some in H as [<- _]; discriminate Hr].
    run_inv H as rv5 w5 E5. eapply Hend; [exact E5| |exact H].
    exact (proj2 (payloads_return op buf payload hdrs b)).
  - destruct (if hok then _ else _) as [[buf payload] hdrs].
    run_inv H as rv5 w5 E5. eapply Hend; [exact E5| |exact H].
    exact (proj1 (payloads_return op buf payload hdrs None)).
Qed.

Lemma response_401 op w r w' :
  est_io_get_response_internal ENABLE_BRSKI malloc_junk op w = Some (r, w') ->
  rsp_rv r = EST_ERR_AUTH_FAIL -> http_status_of w' = 401.
Proof.
  intros H Hr. destruct (response_auth_fail _ _ _ _ H Hr) as (st & buf & hdrs & w1 & E & C).
  apply status_error_401 in E as [-> Hs]. unfold keeps_status, http_status_of in *. by rewrite Hs, C.
Qed.

End Facts.

#[export] Hint Resolve act_alloc act_upd_client act_upd_ctx act_get_client act_get_net act_put_net act_emit
  act_base64_decode act_base64_encode act_response act_verify_key_and_cert act_keep act_keep_key : sat.
#[export] Hint Resolve frame_tls_uid frame_req_sign frame_generate_pkcs10 : sat.

(** Overwrite a middle part. *)
Lemma store_mid pre old post src :
  length old = length src -> store (pre ++ old ++ post) (length pre) src = pre ++ src ++ post.
Proof.
  revert pre old; induction src as [|c r IH]; intros pre [|o old] Hl; simpl in *; try lia; [done|].
  rewrite insert_app_r_alt by lia. rewrite Nat.sub_diag. simpl.
  replace (pre ++ c :: old ++ post) with ((pre ++ [c]) ++ old ++ post) by (by rewrite <- app_assoc).
  replace (S (length pre)) with (length (pre ++ [c])) by (rewrite length_app; simpl; lia).
  rewrite IH by lia. by rewrite <- app_assoc.
Qed.

Lemma store_over pre rest src :
  (length src <= length rest)%nat ->
  store (pre ++ rest) (length pre) src = pre ++ src ++ drop (length src) rest.
Proof.
  intros H. rewrite <- (take_drop (length src) rest) at 1. apply store_mid.
  rewrite length_take. lia.
Qed.

Section Request.
Context {L : OpenSSL}.
Variable malloc_junk : nat -> bytes.

Abbreviation TOTAL := (Z.to_nat EST_HTTP_REQ_TOTAL_LEN).

Lemma fresh_length : length (fresh_buffer malloc_junk) = TOTAL.
Proof. unfold fresh_buffer. rewrite length_take, length_app, length_replicate. lia. Qed.

Definition wrote (w : world) (n : Z) (text : bytes) (w' : world) : Prop :=
  w_ctx w' = w_ctx w /\
  ((n < 0 /\ w_trace w' = w_trace w) \/
   (0 <= n /\ w_trace w' = w_trace w ++ [EvClientWrite (take (Z.to_nat n) text)])).

Lemma client_write_run d w n w' : client_write d w = Some (n, w') -> wrote w n d w'.
Proof.
  unfold client_write. intros H. run_inv H as net w1 E. injection E as <- <-.
  destruct (_ <? 0) eqn:En; b2p.
  - apply ret_some in H as [<- <-]. split; [done|]. by left.
  - run_inv H as u w2 E. injection E as _ <-. apply ret_some in H as [<- <-]. split; [done|]. by right.
Qed.

(** Storing behind the bytes [pre] keeps them and the size of the buffer. *)
Definition stored (pre rest src : bytes) (fits : Prop) (buf : bytes) : Prop :=
  exists rest', buf = pre ++ rest' /\ length rest' = length rest /\
    (fits -> rest' = src ++ drop (length src) rest).

Lemma stored_over pre rest src (fits : Prop) :
  (length src <= length rest)%nat -> stored pre rest src fits (store (pre ++ rest) (length pre) src).
Proof.
  intros H. rewrite store_over by done. eexists. split; [reflexivity|]. split; [|done].
  rewrite length_app, length_drop. lia.
Qed.

Lemma put_crlf_run pre rest w buf w' :
  put_crlf (pre ++ rest) (Z.of_nat (length pre)) w = Some (buf, w') ->
  length (pre ++ rest) = TOTAL ->
  w' = w /\ stored pre rest (crlf ++ [0]) (2 < length rest)%nat buf.
Proof.
  unfold put_crlf. intros H Hl. rewrite length_app in Hl. rewrite Z.gtb_ltb in H.
  destruct (_ <? _) eqn:E1; [done|]. destruct (_ =? _) eqn:E2; b2p.
  - apply ret_some in H as [<- <-]. split; [done|]. exists rest. split_and!; [done..|lia].
  - apply ret_some in H as [<- <-]. split; [done|]. rewrite Nat2Z.id.
    destruct (decide (2 < length rest)%nat) as [Hr|Hr].
    + rewrite take_ge by (simpl; lia). by apply stored_over.
    + assert (Hs : stored pre rest (take (Z.to_nat (EST_HTTP_REQ_TOTAL_LEN - Z.of_nat (length pre) - 1)) crlf ++ [0]) True
                     (store (pre ++ rest) (length pre)
                        (take (Z.to_nat (EST_HTTP_REQ_TOTAL_LEN - Z.of_nat (length pre) - 1)) crlf ++ [0])))
        by (apply stored_over; rewrite length_app, length_take; simpl; lia).
      destruct Hs as (rest' & ? & ? & _). by exists rest'.
Qed.

Lemma put_data_run pre rest data w buf w' :
  put_data (pre ++ rest) (Z.of_nat (length pre)) data w = Some (buf, w') ->
  length (pre ++ rest) = TOTAL ->
  w' = w /\ stored pre rest data (Z.of_nat (length data) <= EST_HTTP_REQ_DATA_MAX) buf.
Proof.
  unfold put_data. intros H Hl. rewrite length_app in Hl. rewrite !Z.gtb_ltb in H.
  destruct (_ <? Z.of_nat (length data)) eqn:Ed; b2p.
  - apply ret_some in H as [<- <-]. split; [done|]. exists rest. split_and!; [done..|lia].
  - destruct (_ <? _) eqn:Eo; [done|]. b2p. apply ret_some in H as [<- <-]. split; [done|].
    rewrite Nat2Z.id. apply stored_over. lia.
Qed.

(** What reaches the wire. *)
Record wire_of (hdr data wire : bytes) : Prop := {
  wire_start : exists r, wire = hdr ++ crlf ++ r;
  wire_all : Z.of_nat (length hdr) <= EST_HTTP_HDR_MAX ->
             Z.of_nat (length data) <= EST_HTTP_REQ_DATA_MAX ->
             wire = hdr ++ crlf ++ data ++ crlf
}.

(** The buffer after the three steps of [send_request]. *)
Lemma request_buffer_run hdr rest0 data b1 b2 b3 w w1 w2 w3 :
  let off := Z.of_nat (length hdr) + 2 in
  put_crlf (hdr ++ rest0) (Z.of_nat (length hdr)) w = Some (b1, w1) ->
  put_data b1 off data w1 = Some (b2, w2) ->
  put_crlf b2 (off + Z.of_nat (length data)) w2 = Some (b3, w3) ->
  off + Z.of_nat (length data) + 2 <= EST_HTTP_REQ_TOTAL_LEN ->
  length (hdr ++ rest0) = TOTAL ->
  w3 = w /\ wire_of hdr data (take (Z.to_nat (off + Z.of_nat (length data) + 2)) b3).
Proof.
  intros off E1 E2 E3 Hlen Hl. assert (Hl' := Hl). rewrite length_app in Hl'.
  assert (Hr0 : (4 <= length rest0)%nat) by (unfold off in Hlen; lia).
  apply put_crlf_run in E1 as [-> (r1 & -> & L1 & F1)]; [|done].
  rewrite F1, <- app_assoc, app_assoc in E2 by lia. clear F1 r1 L1.
  set (r1 := [0] ++ drop _ rest0) in E2.
  assert (L1 : (length hdr + 2 + length r1)%nat = TOTAL)
    by (unfold r1; rewrite length_app, length_drop; simpl; lia). clearbody r1.
  assert (Eo : off = Z.of_nat (length (hdr ++ crlf))) by (unfold off; rewrite length_app; simpl; lia).
  rewrite Eo in *. clear off Eo.
  apply put_data_run in E2 as [-> (r2 & -> & L2 & F2)]; [|rewrite !length_app; simpl; lia].
  rewrite length_app in Hlen. simpl in Hlen.
  rewrite <- (take_drop (length data) r2), app_assoc in E3.
  replace (Z.of_nat (length (hdr ++ crlf)) + Z.of_nat (length data))
    with (Z.of_nat (length ((hdr ++ crlf) ++ take (length data) r2))) in E3
    by (rewrite !length_app, length_take; lia).
  apply put_crlf_run in E3 as [-> (r3 & -> & L3 & F3)];
    [|rewrite <- app_assoc, take_drop, !length_app; simpl; lia].
  rewrite length_drop in L3, F3. split; [done|].
  replace (Z.to_nat _) with (length ((hdr ++ crlf) ++ take (length data) r2) + 2)%nat
    by (rewrite !length_app, length_take; simpl; lia).
  rewrite take_app_add. split.
  - exists (take (length data) r2 ++ take 2 r3). by rewrite <- !app_assoc.
  - intros Hh Hd. rewrite F2, take_app_length by done.
    rewrite F3; [by rewrite <- !app_assoc|].
    unfold EST_HTTP_REQ_TOTAL_LEN, EST_HTTP_REQ_TERMINATOR_LEN, EST_HTTP_REQ_DATA_MAX, EST_HTTP_HDR_MAX in *. lia.
Qed.

Lemma send_request_run hdr data w n w' :
  send_request (put_string (fresh_buffer malloc_junk) hdr) (Z.of_nat (length hdr)) data w = Some (n, w') ->
  Z.of_nat (length hdr) < EST_HTTP_REQ_TOTAL_LEN ->
  exists wire w1, wire_of hdr data wire /\ w_trace w1 = w_trace w /\
    w_ctx w1 = set_client (set_last_http_status 0 (client (w_ctx w))) (w_ctx w) /\
    wrote w1 n wire w' /\ Z.of_nat (length hdr) + 4 <= EST_HTTP_REQ_TOTAL_LEN.
Proof.
  intros H Hh. unfold send_request in H. assert (Hf := fresh_length). unfold put_string in H.
  assert (Hs := store_over [] (fresh_buffer malloc_junk) (hdr ++ [0])).
  rewrite length_app in Hs. cbn [app length] in Hs. rewrite Hs in H by lia. clear Hs.
  rewrite <- app_assoc in H.
  set (rest0 := [0] ++ drop (length hdr + 1) (fresh_buffer malloc_junk)) in H.
  assert (Hl0 : length (hdr ++ rest0) = TOTAL)
    by (unfold rest0; rewrite !length_app, length_drop; simpl; lia).
  clearbody rest0.
  run_inv H as b1 w1 E1. run_inv H as b2 w2 E2. run_inv H as b3 w3 E3. run_inv H as u w4 E4.
  injection E4 as _ <-. rewrite Z.gtb_ltb in H. destruct (_ <? _) eqn:Elen in H; [done|]. b2p.
  destruct (request_buffer_run _ _ _ _ _ _ _ _ _ _ E1 E2 E3 Elen Hl0) as [-> Hw].
  eexists _, _. split; [exact Hw|]. split; [|split; [|split; [apply client_write_run; exact H|lia]]]; done.
Qed.

(** ** A request that fits is sent whole *)

Lemma put_crlf_ok buf off w :
  off <= EST_HTTP_REQ_TOTAL_LEN -> exists b, put_crlf buf off w = Some (b, w).
Proof.
  intros H. unfold put_crlf. rewrite Z.gtb_ltb, (proj2 (Z.ltb_ge _ _)) by lia.
  destruct (_ =? _); eexists; reflexivity.
Qed.

Lemma put_data_ok buf off data w :
  off + Z.of_nat (length data) <= EST_HTTP_REQ_TOTAL_LEN -> exists b, put_data buf off data w = Some (b, w).
Proof.
  intros H. unfold put_data. rewrite !Z.gtb_ltb. destruct (_ <? _); [eexists; reflexivity|].
  rewrite (proj2 (Z.ltb_ge _ _)) by lia. eexists; reflexivity.
Qed.

(** The world once a request has been written. *)
Definition after_request (wire : bytes) (w : world) : world :=
  set_w_trace (w_trace w ++ [EvClientWrite wire])
    (set_w_ctx (set_client (set_last_http_status 0 (client (w_ctx w))) (w_ctx w)) w).

Lemma send_request_whole hdr data w :
  Z.of_nat (length hdr) <= EST_HTTP_HDR_MAX -> Z.of_nat (length data) <= EST_HTTP_REQ_DATA_MAX ->
  net_write (w_net w) = None ->
  let wire := hdr ++ crlf ++ data ++ crlf in
  send_request (put_string (fresh_buffer malloc_junk) hdr) (Z.of_nat (length hdr)) data w
    = Some (Z.of_nat (length wire), after_request wire w).
Proof.
  intros Hh Hd Hw wire.
  assert (Hmax : EST_HTTP_HDR_MAX + EST_HTTP_REQ_DATA_MAX + 4 <= EST_HTTP_REQ_TOTAL_LEN) by done.
  unfold send_request, put_string. assert (Hf := fresh_length).
  assert (Hs := store_over [] (fresh_buffer malloc_junk) (hdr ++ [0])).
  rewrite length_app in Hs. cbn [app length] in Hs. rewrite Hs by lia. clear Hs.
  rewrite <- app_assoc. set (rest0 := [0] ++ drop (length hdr + 1) (fresh_buffer malloc_junk)).
  assert (Hl : length (hdr ++ rest0) = TOTAL)
    by (unfold rest0; rewrite !length_app, length_drop; simpl; lia). clearbody rest0.
  destruct (put_crlf_ok (hdr ++ rest0) (Z.of_nat (length hdr)) w) as [b1 E1]; [lia|].
  destruct (put_data_ok b1 (Z.of_nat (length hdr) + 2) data w) as [b2 E2]; [lia|].
  destruct (put_crlf_ok b2 (Z.of_nat (length hdr) + 2 + Z.of_nat (length data)) w) as [b3 E3]; [lia|].
  destruct (request_buffer_run _ _ _ _ _ _ _ _ _ _ E1 E2 E3 ltac:(lia) Hl) as [_ [_ Hall]].
  specialize (Hall Hh Hd). cbv zeta in Hall.
  unfold mbind, M_bind. rewrite E1, E2, E3. cbn [upd_client]. rewrite Z.gtb_ltb, (proj2 (Z.ltb_ge _ _)) by lia.
  rewrite Hall. fold wire. unfold client_write, mbind, M_bind, get_net. cbn [w_net upd_client set_w_ctx]. rewrite Hw.
  rewrite (proj2 (Z.ltb_ge _ _)) by lia. cbn. rewrite Nat2Z.id, take_ge by done.
  reflexivity.
Qed.

End Request.
