(* ===== verification/ClientProps.v ===== *)
(** * ClientProps: the attempts of an enrollment

    A client without an authentication mode first asks without credentials; only an
    answer with the status 401 makes it try a second and last time, with the
    credentials of the mode the server named. *)

From S2P Require Import Prelude.
From S2P Require Import SafeC.
From S2P Require Import EstTypes.
From S2P Require Import EstState.
From S2P Require Import EstUtil.
From S2P Require Import HttpIO.
From S2P Require Import HttpAuth.
From S2P Require Import ClientHost.
From S2P Require Import ClientHttp.
From S2P Require Import ClientRequest.
From S2P Require Import ClientCert.
From S2P Require Import Client.
From S2P Require Import EstLogic.
From S2P Require Import ClientHostProps.
From S2P Require Import ClientFacts.

Section Client.
Context {L : OpenSSL}.
Variable ENABLE_BRSKI : bool.
Variable EST_VER_STRING : bytes.
Variable malloc_junk : nat -> bytes.

(** ** Events of an attempt *)

(** The header of a request without credentials. *)
Definition plain_header (cl : EST_CLIENT_CTX) (operation : bytes) (pkcs10_len : Z) : bytes :=
  req_start EST_VER_STRING cl (lit "POST") operation ++ pkcs10_lines pkcs10_len.

(** A write that starts with such a header and the empty line behind it, or is cut off
    before their end. *)
Definition plain_event (cl : EST_CLIENT_CTX) (e : event) : Prop :=
  match e with
  | EvClientWrite d =>
      exists operation pkcs10_len r, let h := plain_header cl operation pkcs10_len ++ crlf in
        d = h ++ r \/ h = d ++ r
  | _ => False
  end.

(** A write, or a question to the application for the credentials of the mode [m]. *)
Definition authed_event (m : EST_HTTP_AUTH_MODE) (e : event) : Prop :=
  match e with
  | EvClientWrite _ => True
  | EvCredentialsCb m' => m' = m
  | _ => False
  end.

(** The strings of the configuration are C strings. *)
Record client_strings (cl : EST_CLIENT_CTX) : Prop := {
  cs_version : no_nul EST_VER_STRING;
  cs_server : no_nul (est_server cl);
  cs_path : no_nul (default [] (uri_path_segment cl))
}.

(** ** Header without credentials *)

Lemma dec_digits_no_nul fuel : forall n acc, no_nul acc -> no_nul (dec_digits fuel n acc).
Proof.
  induction fuel as [|f IH]; intros n acc Ha; cbn [dec_digits]; [done|].
  assert (no_nul ((48 + n mod 10) :: acc)) by (constructor; [pose proof (Z.mod_pos_bound n 10); lia|done]).
  destruct (n <? 10); auto.
Qed.

Lemma fmt_d_no_nul n : no_nul (fmt_d n).
Proof.
  unfold fmt_d. destruct (n <? 0); [constructor; [done|]|]; apply dec_digits_no_nul; constructor.
Qed.

Lemma lit_no_nul s : forallb (fun c => negb (c =? 0)) (lit s) = true -> no_nul (lit s).
Proof.
  intros H. apply Forall_forall. intros c Hc. rewrite forallb_forall in H. specialize (H c Hc). by b2p.
Qed.

Ltac no_nul_auto :=
  repeat first [apply no_nul_app | apply fmt_d_no_nul | done | (apply lit_no_nul; reflexivity)
               | (constructor; [done|])].

Lemma plain_header_no_nul cl operation n :
  client_strings cl -> no_nul operation -> no_nul (plain_header cl operation n).
Proof.
  intros [Hv Hs Hp] Ho. unfold plain_header, req_start, req_path, pkcs10_lines, EST_PATH_PREFIX, crlf.
  destruct (uri_path_segment cl); simpl in Hp; no_nul_auto.
Qed.

Lemma add_auth_none hdr uri w :
  auth_mode (w_ctx w) = AUTH_NONE -> est_client_add_auth_hdr hdr uri w = Some (hdr, w).
Proof. intros H. unfold est_client_add_auth_hdr, mbind, M_bind, get_ctx. by rewrite H. Qed.

Lemma req_text_length t : Z.of_nat (length (req_text t)) < EST_HTTP_REQ_TOTAL_LEN.
Proof.
  assert (0 < EST_HTTP_REQ_TOTAL_LEN) by reflexivity. unfold req_text. rewrite length_take. lia.
Qed.

(** The header a request is built from: a text of the buffer's size at most, and its
    length unless that is 0. *)
Lemma build_enroll_header_none est_op n w hdr hdr_len w' :
  auth_mode (w_ctx w) = AUTH_NONE -> client_strings (client (w_ctx w)) ->
  build_enroll_header EST_VER_STRING est_op n w = Some ((hdr, hdr_len), w') ->
  w' = w /\ (hdr_len = 0 \/
    exists operation, hdr = req_text (plain_header (client (w_ctx w)) operation n) /\
      hdr_len = Z.of_nat (length hdr)).
Proof.
  intros Hm Hc H.
  assert (Hb : forall operation uri bound, build_pkcs10_header EST_VER_STRING operation uri n bound w
    = Some (bound (req_text (plain_header (client (w_ctx w)) operation n)), w)).
  { intros. unfold build_pkcs10_header, mbind, M_bind, get_client. by rewrite add_auth_none. }
  assert (Hn : forall operation, no_nul operation -> forall k, EST_HTTP_REQ_TOTAL_LEN <= k ->
    strnlen_s (Some (req_text (plain_header (client (w_ctx w)) operation n))) k
    = Z.of_nat (length (req_text (plain_header (client (w_ctx w)) operation n)))).
  { intros o Ho k Hk. unfold strnlen_s, strnlen. rewrite cstr_id by (apply no_nul_take; by apply plain_header_no_nul).
    assert (Hl := req_text_length (plain_header (client (w_ctx w)) o n)). lia. }
  destruct est_op; cbn [build_enroll_header] in H;
    lazymatch type of H with
    | mret _ _ = _ => apply ret_some in H as [[= <- <-] <-]; split; [done|by left]
    | est_client_build_enroll_header _ _ _ = _ => unfold est_client_build_enroll_header in H
    | est_client_build_reenroll_header _ _ _ = _ => unfold est_client_build_reenroll_header in H
    | _ => unfold est_client_build_server_keygen_header in H
    end; rewrite Hb in H; clear Hb; unfold bounded_hdr in H;
    match type of H with Some ((?a, ?b), _) = _ => set (hl := b) in H; assert (Ehl : hl = b) by done end;
    clearbody hl; injection H as <- <- <-; (split; [done|]); rewrite Ehl.
  - rewrite Hn by (done || by apply lit_no_nul). destr_if; [by left|right; eauto].
  - destr_if; [by left|right; eauto].
  - rewrite Hn by (done || by apply lit_no_nul). right; eauto.
Qed.

(** A request built without credentials writes a plain header. *)
Lemma plain_write_event cl operation n data wire d :
  wire_of (req_text (plain_header cl operation n)) data wire ->
  Z.of_nat (length (req_text (plain_header cl operation n))) + 4 <= EST_HTTP_REQ_TOTAL_LEN ->
  (exists k, d = take k wire) -> plain_event cl (EvClientWrite d).
Proof.
  intros [[r ->] _] Hl [k ->].
  assert (req_text (plain_header cl operation n) = plain_header cl operation n) as E.
  { unfold req_text in *. rewrite length_take in Hl. apply take_ge. lia. }
  rewrite E in *. exists operation, n. rewrite app_assoc.
  set (h := plain_header cl operation n ++ crlf).
  destruct (decide (k <= length h)%nat).
  - exists (drop k h). right. rewrite take_app_le by done. by rewrite take_drop.
  - exists (take (k - length h) r). left. rewrite take_app_ge by lia. done.
Qed.

(** ** One attempt *)

Abbreviation enroll_req := (est_client_enroll_req ENABLE_BRSKI EST_VER_STRING malloc_junk).
Abbreviation send_enroll := (est_client_send_enroll_request_internal ENABLE_BRSKI EST_VER_STRING malloc_junk).

Lemma acts_mono (P Q : event -> Prop) w w' : (forall e, P e -> Q e) -> acts P w w' -> acts Q w w'.
Proof. intros H (l & T & F). exists l. split; [done|]. eapply Forall_impl; [exact H|exact F]. Qed.

Lemma acts_wrote (P : event -> Prop) w n text w' :
  wrote w n text w' -> (forall k, P (EvClientWrite (take k text))) -> acts P w w'.
Proof.
  intros [_ [[_ T]|[_ T]]] H.
  - by apply acts_same.
  - exists [EvClientWrite (take (Z.to_nat n) text)]. split; [done|by repeat constructor].
Qed.

(** What an attempt does in the first mode and in the others. *)
Definition attempt_first (w w' : world) (rv : EST_ERROR) : Prop :=
  acts (plain_event (client (w_ctx w))) w w' /\ (rv = EST_ERR_AUTH_FAIL -> http_status_of w' = 401).

(** An answer is read without an event. *)
Lemma enroll_response_run est_op P w r w' :
  (rsp ← (if bool_decide (est_op = EST_OP_SERVER_KEYGEN)
          then est_io_get_multipart_response ENABLE_BRSKI malloc_junk est_op
          else est_io_get_response ENABLE_BRSKI malloc_junk est_op);
   mret (if bool_decide (rsp_rv rsp = EST_ERR_NONE) then take_enroll_rsp malloc_junk rsp est_op
         else enroll_error (rsp_rv rsp))) w = Some (r, w') ->
  acts P w w' /\ (er_rv r = EST_ERR_AUTH_FAIL -> http_status_of w' = 401).
Proof.
  intros H. run_inv H as rsp w1 E. apply ret_some in H as [<- <-].
  unfold est_io_get_multipart_response, est_io_get_response in E.
  assert (E' : est_io_get_response_internal ENABLE_BRSKI malloc_junk est_op w = Some (rsp, w1))
    by (by destruct (bool_decide _)). clear E.
  split; [by eapply act_response|]. intros Hr. apply (response_401 _ _ _ _ _ _ E').
  destruct (bool_decide (rsp_rv rsp = EST_ERR_NONE)); [|done]. exfalso. revert Hr.
  unfold take_enroll_rsp. by repeat case_match.
Qed.

Lemma send_enroll_first bptr has_key est_op w r w' :
  auth_mode (w_ctx w) = AUTH_NONE -> client_strings (client (w_ctx w)) ->
  send_enroll bptr has_key est_op w = Some (r, w') -> attempt_first w w' (er_rv r).
Proof.
  intros Hm Hc H. unfold est_client_send_enroll_request_internal in H.
  assert (Hnone : forall rv w1, rv <> EST_ERR_AUTH_FAIL -> acts (plain_event (client (w_ctx w))) w w1 ->
    mret (M := M) (enroll_error rv) w1 = Some (r, w') -> attempt_first w w' (er_rv r)).
  { intros rv w1 Hrv Ha Hr. apply ret_some in Hr as [<- <-]. by split. }
  destruct (negb has_key && _); [by eapply Hnone; [|reflexivity|exact H]|].
  run_inv H as ok w1 E1. apply (frame_alloc (fun _ => False)) in E1 as [C1 _ _ (l1 & T1 & F1)].
  assert (l1 = []) as -> by (by destruct F1). rewrite app_nil_r in T1. clear F1.
  destruct ok; simpl negb in H; cbn match in H; [|by eapply Hnone; [|apply acts_same; exact T1|exact H]].
  run_inv H as hl w2 E2. destruct hl as [hdr hdr_len]. rewrite <- C1 in Hm, Hc.
  apply build_enroll_header_none in E2 as [-> Hh]; [|done..]. rewrite C1 in *.
  destruct Hh as [->|(operation & Eh & ->)]; [by eapply Hnone; [|apply acts_same; exact T1|exact H]|].
  destruct (Z.of_nat (length hdr) =? 0); [by eapply Hnone; [|apply acts_same; exact T1|exact H]|].
  run_inv H as n w3 E3. apply send_request_run in E3; [|rewrite Eh; apply req_text_length].
  destruct E3 as (wire & w4 & Hwire & T4 & _ & Hw & Hl). rewrite Eh in Hwire, Hl.
  assert (Ha : acts (plain_event (client (w_ctx w))) w w3).
  { transitivity w4; [apply acts_same; by rewrite T4|]. eapply acts_wrote; [exact Hw|].
    intros k. eapply plain_write_event; eauto. }
  destruct (n <? 0); [by eapply Hnone; [|exact Ha|exact H]|].
  apply (enroll_response_run est_op (plain_event (client (w_ctx w)))) in H as [H1 H2].
  split; [by etrans|done].
Qed.

Section Authed.
Variable m : EST_HTTP_AUTH_MODE.
Abbreviation auth := (sat (acts (authed_event m))).

Lemma authed_ask : auth (ask_credentials m).
Proof. unfold ask_credentials. sat_auto. by apply act_emit. Qed.
Hint Resolve authed_ask : sat.

Lemma authed_user_and_pwd : auth (user_and_pwd m).
Proof. unfold user_and_pwd, est_client_retrieve_credentials. sat_auto. Qed.

Lemma authed_digest uri user pwd : auth (est_client_generate_auth_digest uri user pwd).
Proof. unfold est_client_generate_auth_digest. sat_auto. Qed.

Lemma authed_b64 c n : auth (b64_credential c n).
Proof. unfold b64_credential. sat_auto. Qed.

Lemma authed_write d : auth (client_write d).
Proof.
  intros w n w' H. apply client_write_run in H. by eapply acts_wrote.
Qed.
Hint Resolve authed_user_and_pwd authed_digest authed_b64 authed_write : sat.

Lemma authed_send buf n data : auth (send_request buf n data).
Proof. unfold send_request, put_crlf, put_data. sat_auto. Qed.
End Authed.
Hint Resolve authed_ask authed_user_and_pwd authed_digest authed_b64 authed_write authed_send : sat.

Lemma authed_add_auth_hdr hdr uri w h w' :
  est_client_add_auth_hdr hdr uri w = Some (h, w') -> acts (authed_event (auth_mode (w_ctx w))) w w'.
Proof.
  unfold est_client_add_auth_hdr. intros H. run_inv H as ctx w1 E. injection E as <- <-.
  destruct (auth_mode (w_ctx w)); revert H; match goal with
    | |- ?f w = _ -> acts (authed_event ?m) _ _ =>
        enough (Hs : sat (acts (authed_event m)) f) by exact (Hs w h w')
    end; unfold RAND_bytes; sat_auto.
Qed.

(** The mode of the context, from a world an operation left alone. *)
Lemma acts_after {A} (P : event -> Prop) (m : M A) w a w1 w' :
  sat (frame (fun _ => False)) m -> m w = Some (a, w1) -> acts P w1 w' -> acts P w w'.
Proof.
  intros Hm E Ha. transitivity w1; [|done].
  eapply frame_trace, frame_mono; [|by eapply Hm]. done.
Qed.

Lemma same_ctx_after {A} (m : M A) w a w1 :
  sat (frame (fun _ => False)) m -> m w = Some (a, w1) -> w_ctx w1 = w_ctx w.
Proof. intros Hm E. apply (frame_ctx _ _ _ (Hm _ _ _ E)). Qed.

Lemma authed_build_header est_op n w h w' :
  build_enroll_header EST_VER_STRING est_op n w = Some (h, w') ->
  acts (authed_event (auth_mode (w_ctx w))) w w'.
Proof.
  assert (Hb : forall operation uri bound, build_pkcs10_header EST_VER_STRING operation uri n bound w = Some (h, w') ->
    acts (authed_event (auth_mode (w_ctx w))) w w').
  { intros operation uri bound H. unfold build_pkcs10_header in H. run_inv H as cl w1 E. injection E as <- <-.
    run_inv H as hdr w2 E. apply ret_some in H as [_ <-]. by eapply authed_add_auth_hdr. }
  destruct est_op; cbn [build_enroll_header]; intros H;
    lazymatch type of H with
    | mret _ _ = _ => by apply ret_some in H as [_ <-]
    | _ => by eapply Hb
    end.
Qed.

Lemma send_enroll_second bptr has_key est_op w r w' :
  send_enroll bptr has_key est_op w = Some (r, w') -> acts (authed_event (auth_mode (w_ctx w))) w w'.
Proof.
  intros H. unfold est_client_send_enroll_request_internal in H.
  destruct (negb has_key && _); [by apply ret_some in H as [_ <-]|].
  run_inv H as ok w1 E1. eapply acts_after; [apply frame_alloc|exact E1|].
  apply (same_ctx_after alloc) in E1; [|apply frame_alloc].
  destruct ok; simpl negb in H; cbn match in H; [|by apply ret_some in H as [_ <-]].
  run_inv H as hl w2 E2. apply authed_build_header in E2. rewrite E1 in E2. etrans; [exact E2|].
  destruct hl as [hdr hdr_len]. destruct (_ =? 0); [by apply ret_some in H as [_ <-]|].
  run_inv H as n w3 E3. apply (authed_send (auth_mode (w_ctx w))) in E3. etrans; [exact E3|].
  destruct (n <? 0); [by apply ret_some in H as [_ <-]|]. exact (proj1 (enroll_response_run est_op _ _ _ _ H)).
Qed.

(** An attempt in the mode of the context: the first one, without credentials, and the
    second one, with those of the mode. *)
Definition attempt_ok (w w' : world) (rv : EST_ERROR) : Prop :=
  (auth_mode (w_ctx w) = AUTH_NONE -> client_strings (client (w_ctx w)) -> attempt_first w w' rv) /\
  acts (authed_event (auth_mode (w_ctx w))) w w'.

Lemma attempt_error w w' rv :
  w_trace w' = w_trace w -> rv <> EST_ERR_AUTH_FAIL -> attempt_ok w w' rv.
Proof. intros T Hrv. split; [intros _ _; split|]; [by apply acts_same|done|by apply acts_same]. Qed.

(** What comes before an attempt and after it without an event. *)
Lemma attempt_before w w1 w' rv :
  w_trace w1 = w_trace w -> w_ctx w1 = w_ctx w -> attempt_ok w1 w' rv -> attempt_ok w w' rv.
Proof.
  intros T C [H1 H2]. unfold attempt_ok, attempt_first in *. rewrite C in H1, H2.
  split; [intros Hm Hc; destruct (H1 Hm Hc); split; [|done]|]; (transitivity w1; [by apply acts_same|done]).
Qed.

Lemma silent_trace {A} (m : M A) w a w1 :
  sat (frame (fun _ => False)) m -> m w = Some (a, w1) -> w_trace w1 = w_trace w.
Proof.
  intros Hm E. destruct (frame_trace _ _ _ (Hm _ _ _ E)) as (l & T & F).
  destruct F; [|done]. by rewrite app_nil_r in T.
Qed.

Lemma attempt_silent {A} (m : M A) w a w1 w' rv :
  sat (frame (fun _ => False)) m -> m w = Some (a, w1) -> attempt_ok w1 w' rv -> attempt_ok w w' rv.
Proof.
  intros Hm E. apply attempt_before; [by eapply silent_trace|by eapply same_ctx_after].
Qed.

Lemma attempt_then w w1 w' rv rv' :
  attempt_ok w w1 rv -> (forall P, acts P w1 w') -> rv' <> EST_ERR_AUTH_FAIL -> attempt_ok w w' rv'.
Proof.
  intros [H1 H2] Ha Hrv. split; [|by etrans]. intros Hm Hc. destruct (H1 Hm Hc). split; [by etrans|done].
Qed.

Lemma send_enroll_ok bptr has_key est_op w r w' :
  send_enroll bptr has_key est_op w = Some (r, w') -> attempt_ok w w' (er_rv r).
Proof.
  intros H. split; [intros Hm Hc; by eapply send_enroll_first|by eapply send_enroll_second].
Qed.

Lemma silent_alloc_receive op : sat (frame (fun _ => False)) (alloc_receive op).
Proof. unfold alloc_receive. sat_auto. Qed.

Lemma keep_key_returns c k : returns (fun r => fst r <> EST_ERR_AUTH_FAIL) (keep_key c k).
Proof.
  unfold keep_key. destruct k; [by apply returns_ret|].
  apply returns_bind. intros [|]; [|by apply returns_ret].
  apply returns_bind. intros rv. destruct (negb _); by apply returns_ret.
Qed.

Lemma generate_pkcs10_returns cn cp k :
  returns (fun r => fst r <> EST_ERR_AUTH_FAIL) (est_generate_pkcs10 cn cp k).
Proof.
  unfold est_generate_pkcs10. apply returns_bind. intros ctx. destruct k as [key|]; [|by apply returns_ret].
  apply returns_bind. intros [|]; [|by apply returns_ret]. cbn [negb].
  intros w r w' H. run_inv H as rp w1 E. destruct rp as [rv req].
  assert (rv <> EST_ERR_AUTH_FAIL) as Hrv.
  { clear H. unfold populate_x509_request in E. run_inv E as c w2 E2.
    repeat case_match; apply ret_some in E as [[= <- _] _]; done. }
  destruct (bool_decide _); simpl negb in H; cbn match in H; [|by apply ret_some in H as [<- _]].
  run_inv H as signed w2 E2. destruct signed; by apply ret_some in H as [<- _].
Qed.

Ltac attempt_ends H := apply ret_some in H as [[= <- <-] <-]; by apply attempt_error.

Lemma enroll_req_ok req est_op w rv ls w' :
  enroll_req req est_op w = Some ((rv, ls), w') -> attempt_ok w w' rv.
Proof.
  unfold est_client_enroll_req. intros H.
  run_inv H as b64 w1 E1. eapply attempt_silent; [apply frame_alloc|exact E1|].
  destruct b64; simpl negb in H; cbn match in H; [|attempt_ends H].
  run_inv H as p10 w2 E2. eapply attempt_silent; [apply frame_alloc|exact E2|].
  destruct p10; simpl negb in H; cbn match in H; [|attempt_ends H].
  run_inv H as bufs w3 E3. eapply attempt_silent; [apply silent_alloc_receive|exact E3|].
  destruct bufs; simpl negb in H; cbn match in H; [|attempt_ends H].
  run_inv H as rsp w4 E4.
  assert (Ho : attempt_ok w3 w4 (er_rv rsp)).
  { destruct (bool_decide (est_op = EST_OP_SERVER_KEYGEN)); by eapply send_enroll_ok. }
  clear E4. destruct (bool_decide (er_rv rsp = EST_ERR_NONE)); simpl negb in H; cbn match in H;
    [|by apply ret_some in H as [[= <- <-] <-]].
  run_inv H as ok w5 E5. assert (H5 := fun P => act_keep P _ _ _ _ _ E5).
  destruct ok; simpl negb in H; cbn match in H.
  - destruct (bool_decide _).
    + eapply attempt_then; [exact Ho| |exact (keep_key_returns _ _ _ _ _ H)].
      intros P. etrans; [apply H5|]. exact (act_keep_key P _ _ _ _ _ H).
    + apply ret_some in H as [[= <- <-] <-]. by eapply attempt_then.
  - apply ret_some in H as [[= <- <-] <-]. by eapply attempt_then.
Qed.

Lemma enroll_cn_ok ssl cn est_op key w rv ls w' :
  est_client_enroll_cn ENABLE_BRSKI EST_VER_STRING malloc_junk ssl cn est_op key w = Some ((rv, ls), w') ->
  attempt_ok w w' rv.
Proof.
  unfold est_client_enroll_cn. intros H.
  run_inv H as uid w1 E1. eapply attempt_silent; [apply frame_tls_uid|exact E1|].
  destruct uid as [uid|]; [|attempt_ends H].
  run_inv H as rp w2 E2. destruct rp as [rv2 [req|]].
  - eapply attempt_silent; [apply frame_generate_pkcs10|exact E2|]. by eapply enroll_req_ok.
  - apply ret_some in H as [[= <- <-] <-].
    eapply attempt_silent; [apply frame_generate_pkcs10|exact E2|]. apply attempt_error; [done|].
    exact (generate_pkcs10_returns _ _ _ _ _ _ E2).
Qed.

Lemma enroll_pkcs10_ok ssl csr est_op key w rv ls csr' w' :
  est_client_enroll_pkcs10 ENABLE_BRSKI EST_VER_STRING malloc_junk ssl csr est_op key w
    = Some ((rv, ls, csr'), w') -> attempt_ok w w' rv.
Proof.
  unfold est_client_enroll_pkcs10. intros H. run_inv H as ctx w0 E0. injection E0 as <- <-.
  run_inv H as pop w1 E1. destruct pop as [rv1 csr1].
  assert (Hs : w_trace w1 = w_trace w /\ w_ctx w1 = w_ctx w /\ rv1 <> EST_ERR_AUTH_FAIL).
  { destruct (_ || _).
    - run_inv E1 as uid w2 E2.
      assert (Ht := silent_trace _ _ _ _ (frame_tls_uid _ _ _) E2).
      assert (Hx := same_ctx_after _ _ _ _ (frame_tls_uid _ _ _) E2).
      destruct uid as [uid|]; [destruct (X509_REQ_add1_attr_by_NID _ _ _)|];
        apply ret_some in E1 as [[= <- <-] <-]; done.
    - apply ret_some in E1 as [[= <- <-] <-]. done. }
  destruct Hs as (Ht & Hx & Hrv). eapply attempt_before; [exact Ht|exact Hx|].
  destruct (bool_decide (rv1 = EST_ERR_NONE)); simpl negb in H; cbn match in H;
    [|apply ret_some in H as [[= <- <- <-] <-]; by apply attempt_error].
  run_inv H as signed w2 E2. eapply attempt_silent; [apply frame_req_sign|exact E2|].
  destruct signed as [csr2|]; [|apply ret_some in H as [[= <- <- <-] <-]; by apply attempt_error].
  run_inv H as r w3 E3. destruct r as [rv3 ls3]. apply ret_some in H as [[= <- <- <-] <-].
  by eapply enroll_req_ok.
Qed.

(** ** Connecting *)

(** The mode and the strings of the configuration stay. *)
Definition keeps_conf (w w' : world) : Prop :=
  auth_mode (w_ctx w') = auth_mode (w_ctx w) /\
  est_server (client (w_ctx w')) = est_server (client (w_ctx w)) /\
  est_port_num (client (w_ctx w')) = est_port_num (client (w_ctx w)) /\
  uri_path_segment (client (w_ctx w')) = uri_path_segment (client (w_ctx w)).

#[global] Instance keeps_conf_preorder : PreOrder keeps_conf.
Proof. split; unfold keeps_conf; [done|]. intros w1 w2 w3. intuition congruence. Qed.

Lemma conf_same w w' : w_ctx w' = w_ctx w -> keeps_conf w w'.
Proof. unfold keeps_conf. by intros ->. Qed.

Lemma conf_frame {A} P (m : M A) : sat (frame P) m -> sat keeps_conf m.
Proof. intros H w a w' E. apply conf_same, (frame_ctx _ _ _ (H _ _ _ E)). Qed.

Lemma plain_event_conf w w' e :
  keeps_conf w w' -> plain_event (client (w_ctx w')) e -> plain_event (client (w_ctx w)) e.
Proof.
  intros (_ & H1 & H2 & H3). unfold plain_event, plain_header, req_start, req_path. by rewrite H1, H2, H3.
Qed.

Lemma client_strings_conf w w' :
  keeps_conf w w' -> client_strings (client (w_ctx w)) -> client_strings (client (w_ctx w')).
Proof. intros (_ & H1 & _ & H3) []. split; [done|by rewrite H1|by rewrite H3]. Qed.

Lemma disconnect_spec c w u w' :
  est_client_disconnect (Some c) w = Some (u, w') ->
  acts (eq EvDisconnect) w w' /\ keeps_conf w w' /\ keeps_status w w'.
Proof.
  unfold est_client_disconnect. intros H.
  run_inv H as u1 w1 E1. injection E1 as _ <-.
  run_inv H as cl w2 E2. injection E2 as <- <-.
  destruct (tcw_sock_connected _).
  - run_inv H as u3 w3 E3. injection E3 as _ <-. injection H as _ <-.
    split; [|done]. exists [EvDisconnect]. split; [done|by constructor].
  - apply ret_some in H as [_ <-]. split; [by apply acts_same|done].
Qed.

Lemma next_connection_same w c w' : next_connection w = Some (c, w') -> w_ctx w' = w_ctx w /\ w_trace w' = w_trace w.
Proof. apply next_connection_run. Qed.

Lemma connect_spec w rv ssl w' :
  est_client_connect w = Some ((rv, ssl), w') ->
  keeps_conf w w' /\
  exists o s p l, w_trace w' = w_trace w ++ EvConnect o s p :: l /\ Forall (eq EvDisconnect) l.
Proof.
  unfold est_client_connect. intros H.
  run_inv H as cl w1 E1. injection E1 as <- <-. run_inv H as u w2 E2. injection E2 as _ <-.
  match type of H with (_ ≫= _) ?w2 = _ =>
    enough (Hr : keeps_conf w2 w' /\ acts (eq EvDisconnect) w2 w') end.
  - destruct Hr as [Hk (l & T & F)]. split; [exact Hk|]. simpl in T. eexists _, _, _, l.
    split; [|exact F]. rewrite T, <- app_assoc. reflexivity.
  - run_inv H as conn w3 E3. apply next_connection_same in E3 as [C3 T3].
    match goal with |- keeps_conf ?w2 _ /\ _ =>
      assert (Hs : keeps_conf w2 w3 /\ acts (eq EvDisconnect) w2 w3)
        by (split; [by apply conf_same|by apply acts_same]) end.
    enough (Hr : keeps_conf w3 w' /\ acts (eq EvDisconnect) w3 w')
      by (destruct Hs, Hr; split; by etrans). clear Hs C3 T3.
    destruct conn as [c|]; [|by apply ret_some in H as [_ <-]].
    destruct (cn_tcw c); try by apply ret_some in H as [_ <-].
    destruct (cn_keepalive c); simpl negb in H; cbn match in H; [|by apply ret_some in H as [_ <-]].
    destruct (cn_bio c); simpl negb in H; cbn match in H; [|by apply ret_some in H as [_ <-]].
    destruct (cn_ssl_new c); simpl negb in H; cbn match in H; [|by apply ret_some in H as [_ <-]].
    destruct (cn_ssl c) as [s|]; [|by apply ret_some in H as [_ <-]].
    run_inv H as u4 w4 E4. injection E4 as _ <-. run_inv H as rv5 w5 E5.
    assert (H5 : keeps_conf w3 w5 /\ acts (eq EvDisconnect) w3 w5).
    { split.
      - etrans; [|by eapply (conf_frame _ _ (silent_check_fqdn s))]. done.
      - apply acts_same. rewrite (silent_trace _ _ _ _ (silent_check_fqdn s) E5). done. }
    destruct (bool_decide _); [by apply ret_some in H as [_ <-]|].
    run_inv H as u6 w6 E6. apply ret_some in H as [_ <-].
    apply disconnect_spec in E6 as (Ha & Hk & _). destruct H5. split; by etrans.
Qed.

(** ** The attempts together *)

(** A connection and what happens over it. *)
Definition exchange (P : event -> Prop) (l : list event) : Prop :=
  exists o s p l', l = EvConnect o s p :: l' /\ Forall (fun e => P e \/ e = EvDisconnect) l'.

(** The run of an operation that started without a mode: one exchange without
    credentials, and after a 401 at most one more, in the mode the server named. *)
Definition two_attempts (w w' : world) : Prop :=
  exists l1 wm l2, w_trace wm = w_trace w ++ l1 /\ w_trace w' = w_trace wm ++ l2 /\
    exchange (plain_event (client (w_ctx w))) l1 /\
    (l2 = [] \/
     (http_status_of wm = 401 /\ http_auth_mode (auth_mode (w_ctx wm)) = true /\
      (auth_mode (w_ctx wm) = AUTH_DIGEST -> FIPS_mode = false) /\
      exchange (authed_event (auth_mode (w_ctx wm))) l2)).

Lemma exchange_intro (P : event -> Prop) w w1 w2 w3 o s p l :
  w_trace w1 = w_trace w ++ EvConnect o s p :: l -> Forall (eq EvDisconnect) l ->
  acts P w1 w2 -> acts (eq EvDisconnect) w2 w3 ->
  exists l', w_trace w3 = w_trace w ++ l' /\ exchange P l'.
Proof.
  intros T1 F1 (l2 & T2 & F2) (l3 & T3 & F3). exists (EvConnect o s p :: l ++ l2 ++ l3).
  split; [by rewrite T3, T2, T1, <- !app_assoc|].
  exists o, s, p, (l ++ l2 ++ l3). split; [done|]. rewrite !Forall_app. split_and!.
  - eapply Forall_impl; [|exact F1]. by intros e <-; right.
  - eapply Forall_impl; [|exact F2]. by left.
  - eapply Forall_impl; [|exact F3]. by intros e <-; right.
Qed.

Section Attempts.
Context {S : Type} (attempt : SSL -> S -> M (EST_ERROR * lens * S)).
Hypothesis attempts_ok : forall c s w rv ls s' w',
  attempt c s w = Some ((rv, ls, s'), w') -> attempt_ok w w' rv.

(** One round: connect, try, disconnect. *)
Lemma exchange_run P c w w1 rv1 s w2 rv ls s' u w3 :
  est_client_connect w = Some ((rv1, Some c), w1) ->
  attempt c s w1 = Some ((rv, ls, s'), w2) ->
  acts P w1 w2 ->
  est_client_disconnect (Some c) w2 = Some (u, w3) ->
  exists l, w_trace w3 = w_trace w ++ l /\ exchange P l.
Proof.
  intros E1 _ Ha E3. apply connect_spec in E1 as (_ & o & sv & p & l & T & F).
  apply disconnect_spec in E3 as (Hd & _). by eapply exchange_intro.
Qed.

Lemma connect_only P w rv w' :
  est_client_connect w = Some ((rv, None), w') -> exists l, w_trace w' = w_trace w ++ l /\ exchange P l.
Proof.
  intros E. apply connect_spec in E as (_ & o & sv & p & l & T & F). eexists. split; [exact T|].
  exists o, sv, p, l. split; [done|]. eapply Forall_impl; [|exact F]. by intros e <-; right.
Qed.

Lemma with_http_auth_run clear s w rv ls b w' :
  auth_mode (w_ctx w) = AUTH_NONE -> client_strings (client (w_ctx w)) ->
  with_http_auth attempt clear s w = Some ((rv, ls, b), w') -> two_attempts w w'.
Proof.
  intros Hm Hc H. unfold with_http_auth in H.
  run_inv H as r1 w1 E1. destruct r1 as [rv1 [c|]].
  2:{ apply ret_some in H as [_ <-]. apply (connect_only (plain_event (client (w_ctx w)))) in E1 as (l & T & F).
      exists l, w1, []. rewrite app_nil_r. eauto. }
  assert (Hk := proj1 (connect_spec _ _ _ _ E1)).
  run_inv H as a w2 E2. destruct a as [[rv2 ls2] s2].
  assert (Ho := attempts_ok _ _ _ _ _ _ _ E2). destruct Ho as [Ho _].
  destruct Ho as [Ha H401]; [by destruct Hk as [-> _]|by eapply client_strings_conf|].
  run_inv H as u w3 E3. assert (Hd := disconnect_spec _ _ _ _ E3). destruct Hd as (_ & Hk3 & Hs3).
  assert (Ha' : acts (plain_event (client (w_ctx w))) w1 w2)
    by (eapply acts_mono; [|exact Ha]; intros e; by eapply plain_event_conf).
  destruct (exchange_run _ _ _ _ _ _ _ _ _ _ _ _ E1 E2 Ha' E3) as (l1 & T1 & X1).
  run_inv H as ctx w4 E4. injection E4 as <- <-.
  assert (Hstop : w_trace w' = w_trace w3 -> two_attempts w w')
    by (intros T; exists l1, w3, []; rewrite app_nil_r; eauto).
  destruct (bool_decide (rv2 = EST_ERR_AUTH_FAIL)) eqn:Er; [|apply ret_some in H as [_ <-]; by apply Hstop].
  destruct (http_auth_mode (auth_mode (w_ctx w3))) eqn:Eh; [|apply ret_some in H as [_ <-]; by apply Hstop].
  cbn [andb] in H. b2p.
  destruct (bool_decide (auth_mode (w_ctx w3) = AUTH_DIGEST) && FIPS_mode) eqn:Ef;
    [apply ret_some in H as [_ <-]; by apply Hstop|].
  assert (Hf : auth_mode (w_ctx w3) = AUTH_DIGEST -> FIPS_mode = false).
  { intros Hx. rewrite bool_decide_eq_true_2 in Ef by done. exact Ef. }
  assert (Hst : http_status_of w3 = 401) by (rewrite <- (H401 Er); exact Hs3).
  assert (Hend : forall l2, w_trace w' = w_trace w3 ++ l2 ->
    exchange (authed_event (auth_mode (w_ctx w3))) l2 -> two_attempts w w')
    by (intros l2 T2 X2; exists l1, w3, l2; split_and!; auto).
  run_inv H as r5 w5 E5. destruct r5 as [rv5 [c5|]].
  2:{ apply ret_some in H as [_ <-].
      apply (connect_only (authed_event (auth_mode (w_ctx w3)))) in E5 as (l & T & F). by eapply Hend. }
  assert (Hk5 := proj1 (connect_spec _ _ _ _ E5)).
  run_inv H as a6 w6 E6. destruct a6 as [[rv6 ls6] s6].
  destruct (attempts_ok _ _ _ _ _ _ _ E6) as [_ Ha6]. rewrite (proj1 Hk5) in Ha6.
  run_inv H as u7 w7 E7. run_inv H as u8 w8 E8. apply ret_some in H as [_ <-].
  assert (H7 : acts (authed_event (auth_mode (w_ctx w3))) w6 w7).
  { destruct (clear && _); [injection E7 as _ <-; by apply acts_same|by apply ret_some in E7 as [_ <-]]. }
  apply connect_spec in E5 as (_ & o & sv & p & l & T & F). apply disconnect_spec in E8 as (Hd8 & _).
  destruct (exchange_intro (authed_event (auth_mode (w_ctx w3))) _ _ w7 w8 _ _ _ _ T F) as (l2 & T2 & X2);
    [by etrans|exact Hd8|]. by eapply Hend.
Qed.

End Attempts.

(** The enrollments an application can ask for. *)
Inductive enroll_call :=
| Enroll (cn : bytes) (key : option EVP_PKEY)
| Keygen (cn : bytes) (key : option EVP_PKEY)
| Reenroll (cert : option X509) (key : option EVP_PKEY)
| EnrollCsr (csr : option X509_REQ) (key : option EVP_PKEY)
| KeygenCsr (csr : option X509_REQ) (key : option EVP_PKEY).

Definition run_enroll (e : enroll_call) : M (EST_ERROR * lens) :=
  match e with
  | Enroll cn key => est_client_enroll ENABLE_BRSKI EST_VER_STRING malloc_junk cn key
  | Keygen cn key => est_client_server_keygen_enroll ENABLE_BRSKI EST_VER_STRING malloc_junk cn key
  | Reenroll cert key => est_client_reenroll ENABLE_BRSKI EST_VER_STRING malloc_junk cert key
  | EnrollCsr csr key => est_client_enroll_csr ENABLE_BRSKI EST_VER_STRING malloc_junk csr key
  | KeygenCsr csr key => est_client_server_keygen_enroll_csr ENABLE_BRSKI EST_VER_STRING malloc_junk csr key
  end.

Lemma enroll_internal_run cn key est_op w rv ls w' :
  auth_mode (w_ctx w) = AUTH_NONE -> client_strings (client (w_ctx w)) ->
  est_client_enroll_internal ENABLE_BRSKI EST_VER_STRING malloc_junk cn key est_op w = Some ((rv, ls), w') ->
  w' = w \/ two_attempts w w'.
Proof.
  unfold est_client_enroll_internal. intros Hm Hc H. run_inv H as cl w1 E1. injection E1 as <- <-.
  destruct (est_client_initialized _); simpl negb in H; cbn match in H; [|left; by apply ret_some in H as [_ <-]].
  destruct key as [k|]; [|left; by apply ret_some in H as [_ <-]]. right.
  run_inv H as r w2 E2. destruct r as [[rv2 ls2] b].
  apply with_http_auth_run in E2; [|clear; intros c s w rv ls s' w' H|done..].
  - run_inv H as u w3 E3. apply ret_some in H as [_ <-].
    assert (T : w_trace w3 = w_trace w2)
      by (destruct b; [by injection E3 as _ <-|by apply ret_some in E3 as [_ <-]]).
    destruct E2 as (l1 & wm & l2 & T1 & T2 & X). exists l1, wm, l2. split; [done|]. by rewrite T.
  - run_inv H as r w1 E. destruct r as [rv1 ls1]. apply ret_some in H as [[= <- <- <-] <-].
    by eapply enroll_cn_ok.
Qed.

Lemma enroll_csr_internal_run csr key est_op w rv ls w' :
  auth_mode (w_ctx w) = AUTH_NONE -> client_strings (client (w_ctx w)) ->
  est_client_enroll_csr_internal ENABLE_BRSKI EST_VER_STRING malloc_junk csr key est_op w = Some ((rv, ls), w') ->
  w' = w \/ two_attempts w w'.
Proof.
  unfold est_client_enroll_csr_internal. intros Hm Hc H.
  destruct csr as [req|]; [|left; by apply ret_some in H as [_ <-]].
  run_inv H as cl w1 E1. injection E1 as <- <-.
  destruct (est_client_initialized _); simpl negb in H; cbn match in H; [|left; by apply ret_some in H as [_ <-]].
  right. run_inv H as r w2 E2. destruct r as [[rv2 ls2] b]. apply ret_some in H as [_ <-].
  eapply with_http_auth_run; [|exact Hm|exact Hc|exact E2].
  clear. intros c s w rv ls s' w' H. destruct key as [k|]; [by eapply enroll_pkcs10_ok|].
  run_inv H as r w1 E. destruct r as [rv1 ls1]. apply ret_some in H as [[= <- <- <-] <-].
  by eapply enroll_req_ok.
Qed.

(** C14. Whatever the servers answer, an enrollment of a client without an
    authentication mode opens at most two connections.  Over the first one it sends a
    request whose header has no credentials, and the application is not asked for any;
    the second one comes only after an answer with the status 401 that named a usable
    mode (a digest not in FIPS mode), and then only credentials of that mode are used.
    A call that is refused does nothing at all. *)
Theorem enrollment_credentials (e : enroll_call) (w : world) (rv : EST_ERROR) (ls : lens) (w' : world) :
  auth_mode (w_ctx w) = AUTH_NONE -> client_strings (client (w_ctx w)) ->
  run_enroll e w = Some ((rv, ls), w') ->
  w' = w \/ two_attempts w w'.
Proof.
  intros Hm Hc. destruct e as [cn k|cn k|cert k|csr k|csr k]; cbn [run_enroll].
  - by apply enroll_internal_run.
  - by apply enroll_internal_run.
  - unfold est_client_reenroll. intros H.
    destruct cert as [c|]; [|left; by apply ret_some in H as [_ <-]].
    destruct k as [k|]; [|left; by apply ret_some in H as [_ <-]].
    run_inv H as cl w1 E1. injection E1 as <- <-.
    do 3 (head_if H; try (left; by apply ret_some in H as [_ <-])).
    destruct (reenroll_csr c) as [rv0 [req|]]; [|left; by apply ret_some in H as [_ <-]]. right.
    run_inv H as r w2 E2. destruct r as [[rv2 ls2] b]. apply ret_some in H as [_ <-].
    eapply with_http_auth_run; [|exact Hm|exact Hc|exact E2].
    clear. intros c0 s w rv ls s' w' H. cbn beta in H. by eapply enroll_pkcs10_ok.
  - by apply enroll_csr_internal_run.
  - unfold est_client_server_keygen_enroll_csr. intros H.
    destruct k as [k|]; [by eapply enroll_csr_internal_run|left; by apply ret_some in H as [_ <-]].
Qed.

End Client.
