(* ===== verification/ClientBrskiProps.v ===== *)
(** * ClientBrskiProps: the BRSKI operations of a pledge (ClientBrski)

    [same_pledge] is the preorder of the operations that keep the identity of the pledge
    (its certificate, its serial number and its trust store), draw random numbers from
    the script in order, and never set a negative delay. Everything up to the reading of
    a voucher is one.

    A voucher counts only when its signature verifies in the trust store, it names this
    pledge, it answers this request, and the domain's certificate in it verifies; and a
    registrar that asks for patience is asked once more, at most a minute later. *)

From S2P Require Import Prelude.
From S2P Require Import SafeC.
From S2P Require Import Calendar.
From S2P Require Import Jsmn.
From S2P Require Import EstTypes.
From S2P Require Import EstState.
From S2P Require Import EstUtil.
From S2P Require Import HttpParse.
From S2P Require Import HttpIO.
From S2P Require Import HttpAuth.
From S2P Require Import ServerCsr.
From S2P Require Import ServerConfig.
From S2P Require Import ClientHost.
From S2P Require Import ClientHttp.
From S2P Require Import MultipartParser.
From S2P Require Import ClientRequest.
From S2P Require Import ClientCert.
From S2P Require Import Client.
From S2P Require Import ClientBrski.
From S2P Require Import EstUtilFacts.
From S2P Require Import BrskiJson.
From S2P Require Import EstLogic.
From S2P Require Import ClientFacts.
From S2P Require Import JsmnProps.
From S2P Require Import ClientProps.

Section Facts.
Context {L : OpenSSL}.

Definition client_of (w : world) : EST_CLIENT_CTX := client (w_ctx w).

(** What identifies the pledge. *)
Definition pledge (cl : EST_CLIENT_CTX) : option X509 * option bytes * option SSL_CTX :=
  (client_cert cl, client_cert_ser_num cl, ssl_ctx cl).

Record same_pledge (w w' : world) : Prop := {
  sp_pledge : pledge (client_of w') = pledge (client_of w);
  sp_rand : exists k, net_rand (w_net w') = drop k (net_rand (w_net w));
  sp_delay : 0 <= retry_after_delay (w_ctx w) -> 0 <= retry_after_delay (w_ctx w')
}.

#[global] Instance same_pledge_preorder : PreOrder same_pledge.
Proof.
  split.
  - intros w. split; [done| |done]. exists 0%nat. done.
  - intros w1 w2 w3 [P1 (k1 & R1) D1] [P2 (k2 & R2) D2]. split; [congruence| |by auto].
    exists (k1 + k2)%nat. by rewrite R2, R1, drop_drop.
Qed.

Abbreviation sp := (sat same_pledge).

Lemma sp_same w w' : pledge (client_of w') = pledge (client_of w) ->
  net_rand (w_net w') = net_rand (w_net w) ->
  retry_after_delay (w_ctx w') = retry_after_delay (w_ctx w) -> same_pledge w w'.
Proof. intros Hp Hr Hd. split; [done| |by rewrite Hd]. exists 0%nat. by rewrite Hr, drop_0. Qed.

Lemma sp_alloc : sp alloc.
Proof. intros w a w' H. unfold alloc in H. destruct (w_alloc w); injection H as <- <-; by apply sp_same. Qed.
Lemma sp_upd_client f : (forall c, pledge (f c) = pledge c) -> sp (upd_client f).
Proof. intros Hf w a w' [= _ <-]. apply sp_same; [apply Hf|done..]. Qed.
Lemma sp_upd_ctx f : (forall c, client (f c) = client c) ->
  (forall c, retry_after_delay (f c) = retry_after_delay c) -> sp (upd_ctx f).
Proof. intros Hf Hd w a w' [= _ <-]. apply sp_same; [|done|apply Hd]. unfold client_of. simpl. by rewrite Hf. Qed.
Lemma sp_set_delay n : 0 <= n -> sp (upd_ctx (set_retry_after_delay n)).
Proof. intros Hn w a w' [= _ <-]. split; [done| |done]. by exists 0%nat. Qed.
Lemma sp_emit e : sp (emit e).
Proof. intros w a w' [= _ <-]. by apply sp_same. Qed.
Lemma sp_get_client : sp get_client.
Proof. intros w a w' [= _ <-]. reflexivity. Qed.
Lemma sp_get_net_bind {B} (f : network -> M B) :
  (forall w b w', f (w_net w) w = Some (b, w') -> same_pledge w w') -> sp (get_net ≫= f).
Proof. intros Hf w b w' H. run_inv H as n w1 E. injection E as <- <-. by apply Hf in H. Qed.

Hint Resolve sp_alloc sp_emit sp_get_client : sat.
Hint Extern 1 (sat same_pledge (upd_client _)) => apply sp_upd_client; reflexivity : sat.
Hint Extern 1 (sat same_pledge (upd_ctx _)) => apply sp_upd_ctx; reflexivity : sat.
Hint Extern 2 (sat same_pledge (upd_ctx (set_retry_after_delay 0))) => apply sp_set_delay; done : sat.

(** The operations on the network. *)
Ltac sp_net H :=
  repeat match type of H with
  | (match ?x with _ => _ end) _ = _ => destruct x
  | (mbind _ _) _ = _ => let u := fresh "u" in let w1 := fresh "w" in let E := fresh "E" in
      run_inv H as u w1 E; injection E as _ <-
  end; apply ret_some in H as [_ <-]; by apply sp_same.

Lemma sp_ssl_read n : sp (est_ssl_read n).
Proof. apply sp_get_net_bind. intros w b w' H. sp_net H. Qed.

Lemma sp_next_connection : sp next_connection.
Proof. apply sp_get_net_bind. intros w b w' H. sp_net H. Qed.

Lemma sp_client_write d : sp (client_write d).
Proof. apply sp_get_net_bind. intros w b w' H. cbv zeta in H. sp_net H. Qed.

Lemma sp_get_net : sp get_net.
Proof. intros w a w' [= _ <-]. reflexivity. Qed.

(** A random number comes from the script. *)
Lemma RAND_bytes_run w r w' : RAND_bytes w = Some (r, w') ->
  same_pledge w w' /\ forall v, r = Some v -> In (Some v) (net_rand (w_net w)).
Proof.
  unfold RAND_bytes. intros H. run_inv H as n w1 E. injection E as <- <-.
  destruct (net_rand (w_net w)) as [|x l] eqn:Er.
  - apply ret_some in H as [<- <-]. split; [reflexivity|done].
  - run_inv H as u w2 E2. injection E2 as _ <-. apply ret_some in H as [<- <-].
    split; [|intros v ->; by left]. split; [done| |done]. exists 1%nat. cbn. by rewrite Er.
Qed.

Lemma sp_rand_bytes : sp RAND_bytes.
Proof. intros w r w' H. by apply RAND_bytes_run in H as [? _]. Qed.

Hint Resolve sp_ssl_read sp_next_connection sp_client_write sp_get_net sp_rand_bytes : sat.

(** ** Reading an answer *)

Lemma sp_read_raw_loop fuel : forall buf n, sp (read_raw_loop fuel buf n).
Proof. induction fuel; intros buf n; cbn [read_raw_loop]; sat_auto. Qed.
Hint Resolve sp_read_raw_loop : sat.

Lemma sp_token_value buf p put : (forall v, sp (put v)) -> sp (token_value buf p put).
Proof. intros H. unfold token_value. sat_auto. Qed.

Lemma sp_put_client_field max set v :
  (forall s c, pledge (set s c) = pledge c) -> sp (put_client_field max set v).
Proof. intros H. unfold put_client_field. sat_auto. by apply sp_upd_client. Qed.

Lemma sp_auth_token t buf p : sp (auth_token t buf p).
Proof.
  unfold auth_token. sat_auto; apply sp_token_value; intros v; sat_auto; by apply sp_put_client_field.
Qed.
Hint Resolve sp_auth_token : sat.

Lemma sp_auth_tokens_loop fuel : forall buf p, sp (auth_tokens_loop fuel buf p).
Proof. induction fuel; intros buf p; cbn [auth_tokens_loop]; sat_auto. Qed.
Hint Resolve sp_auth_tokens_loop : sat.

Lemma sp_auth_request buf hdrs : sp (est_io_parse_http_auth_request buf hdrs).
Proof. unfold est_io_parse_http_auth_request, set_mode, est_io_parse_auth_tokens. sat_auto. Qed.

Lemma strtoll_digits_nonneg s : forall n, 0 <= n -> 0 <= strtoll_digits s n.
Proof.
  induction s as [|c s IH]; intros n Hn; cbn [strtoll_digits]; [done|].
  destruct (isdigit c) eqn:E; [|done]. apply IH. unfold isdigit in E. b2p. lia.
Qed.

(** A text of digits is not a negative number. *)
Lemma strtoll_nonneg s n : strisdigit_s (Some s) n = true -> 0 <= strtoll s.
Proof.
  unfold strisdigit_s, strtoll. do 2 (destr_if; [done|]). destruct s as [|c s]; [done|].
  change (rd (c :: s) 0) with c. destruct (Z.eqb_spec c 0) as [|Hc]; [done|].
  cbn [cstr]. rewrite (proj2 (Z.eqb_neq c 0)) by done. cbn [forallb]. intros H.
  apply andb_true_iff in H as [Hd _]. unfold isdigit in Hd. b2p.
  cbn [length skip_spaces]. change (rd (c :: s) 0) with c. unfold isspace.
  rewrite (proj2 (Z.eqb_neq c 32)), (proj2 (Z.leb_gt c 13)) by lia.
  rewrite andb_false_r, andb_false_r. cbn [drop].
  rewrite (proj2 (Z.eqb_neq c chr_dash)), (proj2 (Z.eqb_neq c chr_plus)) by (unfold chr_dash, chr_plus; lia).
  pose proof (strtoll_digits_nonneg (c :: s) 0). lia.
Qed.

Lemma sp_retry_after_loop hs : forall rv, sp (retry_after_loop hs rv).
Proof.
  induction hs as [|[n v] hs IH]; intros rv; cbn [retry_after_loop]; [sat_auto|].
  destruct (strcasecmp_s _ _ _) as [rc diff]. destr_if; [|done].
  destruct (isalpha _); [done|]. destruct (strisdigit_s (Some v) 10) eqn:Ed; [|done].
  destruct (_ <=? _); [|done]. apply strtoll_nonneg in Ed.
  apply (sat_bind same_pledge); [by apply sp_set_delay|done].
Qed.
Hint Resolve sp_auth_request sp_retry_after_loop : sat.

Lemma sp_status_error st buf hdrs : sp (http_status_error st buf hdrs).
Proof. unfold http_status_error, est_io_parse_http_retry_after_resp, set_mode. sat_auto. Qed.
Hint Resolve sp_status_error : sat.

Variable BASE64_ENCODE_VOUCHERS : bool.
Variable EST_VER_STRING : bytes.
Variable malloc_junk : nat -> bytes.

Lemma sp_response op : op <> EST_OP_SERVER_KEYGEN -> sp (est_io_get_response true malloc_junk op).
Proof.
  intros Hop. unfold est_io_get_response, est_io_get_response_internal, est_io_read_raw, plain_payload.
  rewrite (bool_decide_eq_false_2 (op = _)) by done. sat_auto.
Qed.

(** ** Sending *)

Lemma sp_put_crlf buf off : sp (put_crlf buf off).
Proof. unfold put_crlf. sat_auto. Qed.
Lemma sp_put_data buf off d : sp (put_data buf off d).
Proof. unfold put_data. sat_auto. Qed.
Hint Resolve sp_put_crlf sp_put_data : sat.

Lemma sp_brski_send hdr n d : sp (brski_send malloc_junk hdr n d).
Proof. unfold brski_send. sat_auto. Qed.

Lemma sp_credentials mode : sp (ask_credentials mode) /\ sp (user_and_pwd mode).
Proof.
  assert (sp (ask_credentials mode)) by (unfold ask_credentials; sat_auto).
  split; [done|]. unfold user_and_pwd, est_client_retrieve_credentials. sat_auto.
Qed.

Lemma sp_base64_encode s n b : sp (est_base64_encode s n b).
Proof. unfold est_base64_encode. sat_auto. Qed.
Lemma sp_base64_decode s n : sp (est_base64_decode s n).
Proof. unfold est_base64_decode, est_base64_decode_at. sat_auto. Qed.
Hint Resolve sp_base64_encode sp_base64_decode : sat.

Lemma sp_add_auth_hdr hdr uri : sp (est_client_add_auth_hdr hdr uri).
Proof.
  unfold est_client_add_auth_hdr, est_client_generate_auth_digest, b64_credential.
  sat_auto; apply sp_credentials.
Qed.
Hint Resolve sp_add_auth_hdr sp_brski_send : sat.

Lemma sp_keep set buf : (forall s c, pledge (set s c) = pledge c) -> sp (keep_received set buf).
Proof. intros H. unfold keep_received. sat_auto. by apply sp_upd_client. Qed.
Hint Extern 1 (sat same_pledge (keep_received _ _)) => apply sp_keep; reflexivity : sat.
Hint Extern 1 (sat same_pledge (est_io_get_response _ _ _)) => by apply sp_response : sat.

Lemma sp_voucher_request sign req :
  sp (est_client_brski_send_voucher_request EST_VER_STRING malloc_junk sign req).
Proof.
  unfold est_client_brski_send_voucher_request, est_client_brski_build_voucherreq_header, brski_header,
    keep_voucher. sat_auto.
Qed.

(** ** The connection *)

Lemma sp_disconnect ssl : sp (est_client_disconnect ssl).
Proof. unfold est_client_disconnect. sat_auto. Qed.
Hint Resolve sp_disconnect : sat.

Lemma sp_check_fqdn c : sp (est_client_check_fqdn c).
Proof. unfold est_client_check_fqdn, est_client_verifyhost, peer_CN. sat_auto. Qed.
Hint Resolve sp_check_fqdn : sat.

Lemma sp_connect : sp est_client_connect.
Proof. unfold est_client_connect. sat_auto. Qed.

Lemma sp_get_server_cert b c : sp (est_brski_get_server_cert b c).
Proof. unfold est_brski_get_server_cert, ossl_get_certs_pkcs7. sat_auto. Qed.

Lemma sp_request_time t : sp (request_time t).
Proof. unfold request_time. sat_auto. Qed.

(** ** Reading a voucher *)

Lemma sp_create_PKCS7 d : sp (create_PKCS7 d).
Proof. unfold create_PKCS7. sat_auto. Qed.
Hint Resolve sp_create_PKCS7 : sat.

Lemma sp_verify_voucher : sp (verify_voucher BASE64_ENCODE_VOUCHERS).
Proof. unfold verify_voucher, voucher_der. sat_auto. Qed.

Lemma sp_keep_cacert c : sp (keep_cacert malloc_junk c).
Proof. unfold keep_cacert, verify_cacert_resp, b64_decode_cacerts, est_client_remove_crls. sat_auto. Qed.
Hint Resolve sp_verify_voucher sp_keep_cacert : sat.

Lemma sp_parse_voucher nonce : sp (brski_parse_voucher BASE64_ENCODE_VOUCHERS malloc_junk nonce).
Proof. unfold brski_parse_voucher, voucher_value. sat_auto. Qed.
Hint Resolve sp_voucher_request sp_connect sp_get_server_cert sp_request_time sp_parse_voucher : sat.

Lemma sp_get_time : sp get_time.
Proof. intros w a w' [= _ <-]. reflexivity. Qed.
Hint Resolve sp_get_time : sat.

Lemma sp_finish_voucher rv nonce : sp (finish_voucher BASE64_ENCODE_VOUCHERS malloc_junk rv nonce).
Proof. unfold finish_voucher. sat_auto. Qed.
Hint Resolve sp_finish_voucher : sat.

#[local] Opaque request_time.

Lemma sp_send_get_voucher sign :
  sp (est_client_brski_send_get_voucher BASE64_ENCODE_VOUCHERS EST_VER_STRING malloc_junk sign).
Proof.
  assert (H2 : forall sc n t, sp (second_voucher_attempt BASE64_ENCODE_VOUCHERS EST_VER_STRING malloc_junk sc n t sign))
    by (intros; unfold second_voucher_attempt, voucher_attempt; sat_auto).
  assert (H1 : forall c n t, sp (first_voucher_attempt BASE64_ENCODE_VOUCHERS EST_VER_STRING malloc_junk c n t sign))
    by (intros; unfold first_voucher_attempt, voucher_attempt; sat_auto; apply H2).
  unfold est_client_brski_send_get_voucher. sat_auto; apply H1.
Qed.

(** The serial number goes to the context, and nothing else changes. *)
Lemma keep_ser_num_run serial w ok w' : keep_received set_client_cert_ser_num serial w = Some (ok, w') ->
  w_net w' = w_net w /\ w_trace w' = w_trace w /\ retry_after_delay (w_ctx w') = retry_after_delay (w_ctx w) /\
  (ok = true -> client_of w' = set_client_cert_ser_num (Some serial) (client_of w)).
Proof.
  unfold keep_received. intros H. run_inv H as b w1 E. run_inv H as u w2 E2. injection E2 as _ <-.
  apply ret_some in H as [<- <-]. unfold alloc in E.
  destruct (w_alloc w) as [|a r]; injection E as <- <-; (split; [done|]; split; [done|]; split; [done|]); intros Hok;
    [done|by rewrite Hok].
Qed.
End Facts.

(** ** Comparing what was returned with what was sent *)

Lemma memcmp_fuel_zero n : forall a b, no_nul a -> no_nul b -> memcmp_fuel a b n = 0 -> take n a = take n b.
Proof.
  induction n as [|n IH]; intros a b Ha Hb H; [done|]. cbn [memcmp_fuel] in H.
  destruct (Z.eqb_spec (hd 0 a) (hd 0 b)) as [E|E]; [|lia].
  destruct a as [|c a], b as [|d b]; cbn [hd tail] in *; [done|..].
  - apply Forall_cons_1 in Hb as [Hd _]. by destruct Hd.
  - apply Forall_cons_1 in Ha as [Hc _]. by destruct Hc.
  - apply Forall_cons_1 in Ha as [_ Ha]. apply Forall_cons_1 in Hb as [_ Hb]. subst d. cbn [take].
    f_equal. by apply IH.
Qed.

Lemma memcmp_zero_text a b n : no_nul a -> no_nul b -> memcmp a b n = 0 ->
  take (Z.to_nat n) a = take (Z.to_nat n) b.
Proof. apply memcmp_fuel_zero. Qed.

Lemma strnlen_no_nul s n : no_nul s -> strnlen_s (Some s) n = Z.min (Z.of_nat (length s)) n.
Proof. intros Hs. unfold strnlen_s, strnlen. by rewrite cstr_id. Qed.

(** A nonce that passes the check is the one that was sent. *)
Lemma check_nonce_sound sent v : no_nul sent -> no_nul v ->
  Z.of_nat (length sent) <= EST_BRSKI_VOUCHER_REQ_NONCE_SIZE ->
  check_nonce sent (Some v) = EST_ERR_NONE -> v = sent.
Proof.
  unfold check_nonce, EST_BRSKI_VOUCHER_REQ_NONCE_SIZE. intros Hs Hv Hl H.
  rewrite strnlen_no_nul in H by done. destruct (Z.ltb_spec 32 (Z.min (Z.of_nat (length v)) (32 + 1))); [done|].
  unfold memcmp_s in H. change (32 =? 0) with false in H. change (32 >? 32) with false in H. cbn in H.
  destruct (Z.eqb_spec (memcmp sent v 32) 0) as [E|]; [|done].
  apply memcmp_zero_text in E; [|done..]. rewrite !take_ge in E by lia. done.
Qed.

(** A serial number that passes the check is the one of the pledge. *)
Lemma check_ser_num_sound serial v : no_nul serial -> no_nul v ->
  check_ser_num (Some serial) (Some v) = EST_ERR_NONE -> v = serial.
Proof.
  unfold check_ser_num, EST_BRSKI_MAX_SER_NUM_LEN. intros Hs Hv H.
  rewrite strnlen_no_nul in H by done.
  destruct (Z.gtb_spec (Z.min (Z.of_nat (length v)) (64 + 1)) 64); [done|].
  replace (Z.min (Z.of_nat (length v)) (64 + 1)) with (Z.of_nat (length v)) in * by lia.
  unfold memcmp_s in H. rewrite (proj2 (Z.eqb_neq _ 0)) in H by lia.
  destruct (Z.gtb_spec (Z.of_nat (length v) + 1) (Z.of_nat (length v) + 1)); [lia|]. cbn in H.
  destruct (Z.eqb_spec (memcmp serial v (Z.of_nat (length v) + 1)) 0) as [E|]; [|done].
  apply memcmp_zero_text in E; [|done..]. rewrite (take_ge v) in E by lia.
  assert (length (take (Z.to_nat (Z.of_nat (length v) + 1)) serial) = length v) as Hl by (by rewrite E).
  rewrite length_take in Hl. rewrite take_ge in E by lia. done.
Qed.

Lemma retrieve_loop_no_nul n : forall i voucher size tok token v,
  retrieve_loop n i voucher size tok token = Some (Some v) -> no_nul v.
Proof.
  induction n as [|n IH]; intros i voucher size tok token v; cbn [retrieve_loop]; [done|].
  destruct (tok !! i) as [t|]; [|done]. destruct (jsoneq _ _ _); [|apply IH].
  destruct (tok !! S i) as [u|]; [|done].
  destruct (bool_decide _); intros [= <-]; [constructor|]. unfold snprintf.
  apply Forall_take, cstr_no_nul.
Qed.

Lemma hex_no_nul src : are_bytes src -> no_nul (est_hex_to_str src).
Proof. intros H. by apply str_body_no_nul, hex_body. Qed.

#[local] Opaque zeroed_cert.

(** The value of [token] that the client finds in the text [data]. *)
Definition voucher_says (data : bytes) (size : Z) (token : bytes) (v : option bytes) : Prop :=
  exists n p tok,
    jsmn_parse jsmn_init data (length data) (Some (fresh_tokens tokcount)) tokcount =
      Some (n, p, Some tok) /\
    0 <= n /\ retrieve_token_from_voucher data size n tok token = Some v.

Section Props.
Context {L : OpenSSL}.
Variable BASE64_ENCODE_VOUCHERS : bool.
Variable EST_VER_STRING : bytes.
Variable malloc_junk : nat -> bytes.

(** ** Reading a voucher *)

Lemma frame_voucher_der P v : sat (frame P) (voucher_der BASE64_ENCODE_VOUCHERS v).
Proof. unfold voucher_der, est_base64_decode, est_base64_decode_at. sat_auto. Qed.

Lemma frame_request_time P t : sat (frame P) (request_time t).
Proof. unfold request_time. sat_auto. Qed.

Lemma frame_create_PKCS7 P d : sat (frame P) (create_PKCS7 d).
Proof. unfold create_PKCS7. sat_auto. Qed.

Lemma frame_verify_cacert P c : sat (frame P) (verify_cacert_resp malloc_junk c).
Proof.
  unfold verify_cacert_resp, b64_decode_cacerts, create_PKCS7, est_client_remove_crls. sat_auto.
Qed.

(** The data of a verified voucher replaces it. *)
Lemma verify_voucher_run w w' : verify_voucher BASE64_ENCODE_VOUCHERS w = Some (EST_ERR_NONE, w') ->
  exists sc store p7 data,
    ssl_ctx (client_of w) = Some sc /\ sc_cert_store sc = Some store /\
    PKCS7_verify p7 store <> 0 /\ PKCS7_signed_data p7 = Some data /\
    client_of w' = set_brski_retrieved_voucher (Some data) (client_of w).
Proof.
  unfold verify_voucher. intros H. run_inv H as cl w1 E1. injection E1 as <- <-.
  destruct (brski_retrieved_voucher _) as [v|]; [|done].
  run_inv H as r w2 E2. destruct r as [rv der].
  apply (frame_voucher_der (fun _ => True)), frame_ctx in E2.
  destruct (bool_decide (rv = _)) eqn:Erv; cbn [negb] in H; [|apply ret_some in H as [-> _]; by b2p].
  run_inv H as r w3 E3. destruct r as [rv3 pk].
  destruct pk as [p7|].
  2:{ apply ret_some in H as [-> _]. exfalso. unfold create_PKCS7 in E3.
      run_inv E3 as ok w4 E4. destruct ok; cbn in E3; [|no_ret E3]. destruct (d2i_PKCS7 der); no_ret E3. }
  apply (frame_create_PKCS7 (fun _ => True)), frame_ctx in E3.
  destruct (ssl_ctx _) as [sc|] eqn:Esc; [|done].
  destruct (sc_cert_store sc) as [store|] eqn:Est; [|no_ret H].
  destruct (Z.eqb_spec (PKCS7_verify p7 store) 0); [no_ret H|].
  destruct (PKCS7_signed_data p7) as [data|] eqn:Ed; [|done].
  run_inv H as u w4 E4. injection E4 as _ <-. apply ret_some in H as [_ <-].
  exists sc, store, p7, data. split_and!; try done. unfold client_of. cbn. by rewrite E3, E2.
Qed.

(** The accepted certificate of the domain is kept. *)
Lemma keep_cacert_run c w w' : keep_cacert malloc_junk c w = Some (EST_ERR_NONE, w') ->
  exists cacert certs w1 w2, c = Some cacert /\
    verify_cacert_resp malloc_junk cacert w1 = Some ((EST_ERR_NONE, certs), w2) /\
    brski_retrieved_cacert (client_of w') = Some certs /\
    brski_retrieved_voucher (client_of w') = brski_retrieved_voucher (client_of w).
Proof.
  unfold keep_cacert. intros H. destruct c as [cacert|]; [|no_ret H].
  destruct (_ >=? _); [done|]. run_inv H as ok w1 E1.
  destruct ok; cbn [negb] in H; [|no_ret H].
  run_inv H as r w2 E2. destruct r as [rv certs]. destruct (bool_decide (rv = _)) eqn:Erv; b2p.
  2:{ run_inv H as u w3 E3. apply ret_some in H as [-> _]. done. }
  subst rv. run_inv H as u w3 E3. injection E3 as _ <-. apply ret_some in H as [_ <-].
  exists cacert, certs, w1, w2. split_and!; try done.
  apply (frame_verify_cacert (fun _ => True)), frame_ctx in E2. unfold client_of. cbn. rewrite E2.
  unfold keep_received in E1. run_inv E1 as b w3 E3. apply (frame_alloc (fun _ => True)), frame_ctx in E3.
  run_inv E1 as u4 w4 E4. injection E4 as _ <-. apply ret_some in E1 as [_ <-]. cbn. by rewrite E3.
Qed.

Lemma voucher_value_run data size n tok token v w w' :
  voucher_value data size n tok token w = Some (v, w') ->
  retrieve_token_from_voucher data size n tok token = Some v /\ w' = w.
Proof.
  unfold voucher_value. destruct (retrieve_token_from_voucher _ _ _ _ _) as [x|]; [|done].
  intros H. apply ret_some in H as [-> ->]. done.
Qed.

(** What is known of a voucher that was read without an error. *)
Record voucher_read (nonce serial : bytes) (w w' : world) : Prop := {
  vr_signed : exists sc store p7 data,
    ssl_ctx (client_of w) = Some sc /\ sc_cert_store sc = Some store /\
    PKCS7_verify p7 store <> 0 /\ PKCS7_signed_data p7 = Some data /\
    brski_retrieved_voucher (client_of w') = Some data /\
    voucher_says data (EST_BRSKI_MAX_SER_NUM_LEN + 2) (lit "serial-number") (Some serial) /\
    (voucher_says data (EST_BRSKI_VOUCHER_REQ_NONCE_SIZE + 2) (lit "nonce") (Some nonce) \/
     voucher_says data (EST_BRSKI_VOUCHER_REQ_NONCE_SIZE + 2) (lit "nonce") None) /\
    exists cacert certs w1 w2,
      voucher_says data (EST_BRSKI_MAX_CACERT_LEN + 1) (lit "pinned-domain-cert") (Some cacert) /\
      verify_cacert_resp malloc_junk cacert w1 = Some ((EST_ERR_NONE, certs), w2) /\
      brski_retrieved_cacert (client_of w') = Some certs
}.

Lemma parse_voucher_run nonce serial w w' :
  no_nul nonce -> Z.of_nat (length nonce) <= EST_BRSKI_VOUCHER_REQ_NONCE_SIZE ->
  client_cert_ser_num (client_of w) = Some serial -> no_nul serial ->
  brski_parse_voucher BASE64_ENCODE_VOUCHERS malloc_junk nonce w = Some (EST_ERR_NONE, w') ->
  voucher_read nonce serial w w'.
Proof.
  intros Hn Hnl Hser Hs H. unfold brski_parse_voucher in H.
  run_inv H as rv w1 E1. destruct (bool_decide (rv = _)) eqn:Erv; cbn [negb] in H; b2p;
    [subst rv|apply ret_some in H as [-> _]; done].
  apply verify_voucher_run in E1 as (sc & store & p7 & data & Hsc & Hst & Hv & Hd & Hcl).
  run_inv H as cl w2 E2. injection E2 as <- <-. fold (client_of w1) in H. rewrite Hcl in H.
  cbn [brski_retrieved_voucher set_brski_retrieved_voucher client_cert_ser_num default] in H.
  rewrite Hser in H. run_inv H as ok w3 E3. destruct ok; cbn [negb] in H; [|no_ret H].
  apply (frame_alloc (fun _ => True)), frame_ctx in E3.
  destruct (jsmn_parse _ _ _ _ _) as [[[n p] [tok|]]|] eqn:Ep; [|done..].
  destruct (Z.ltb_spec n 0); [no_ret H|].
  assert (Hsays : forall size token v,
    retrieve_token_from_voucher data size n tok token = Some v -> voucher_says data size token v).
  { intros size token v Hv'. by exists n, p, tok. }
  run_inv H as nv w4 E4. apply voucher_value_run in E4 as [Rn ->].
  destruct (bool_decide (check_nonce nonce nv = _)) eqn:Ecn; cbn [negb] in H; b2p;
    [|apply ret_some in H as [? _]; done].
  run_inv H as sv w5 E5. apply voucher_value_run in E5 as [Rs ->].
  destruct (bool_decide (check_ser_num (Some serial) sv = _)) eqn:Ecs; cbn [negb] in H; b2p;
    [|apply ret_some in H as [? _]; done].
  run_inv H as cv w6 E6. apply voucher_value_run in E6 as [Rc ->].
  apply keep_cacert_run in H as (cacert & certs & wa & wb & -> & Hver & Hkeep & Hvoucher).
  split. exists sc, store, p7, data. split_and!; try done.
  - rewrite Hvoucher. unfold client_of in Hcl |- *. rewrite E3, Hcl. done.
  - apply Hsays. destruct sv as [sv|]; [|done]. rewrite <- (check_ser_num_sound serial sv); try done.
    by eapply retrieve_loop_no_nul.
  - destruct nv as [nv|]; [left|by right; apply Hsays].
    apply Hsays. rewrite <- (check_nonce_sound nonce nv); try done. by eapply retrieve_loop_no_nul.
  - exists cacert, certs, wa, wb. split_and!; try done. by apply Hsays.
Qed.

(** ** The exchange *)

Lemma finish_voucher_run rv nonce w l w' :
  finish_voucher BASE64_ENCODE_VOUCHERS malloc_junk rv nonce w = Some ((EST_ERR_NONE, l), w') ->
  exists w1, brski_parse_voucher BASE64_ENCODE_VOUCHERS malloc_junk nonce w = Some (EST_ERR_NONE, w1) /\
    client_of w' = client_of w1 /\ l = Some 0.
Proof.
  unfold finish_voucher. intros H. run_inv H as r w1 E1. run_inv H as u w2 E2. injection E2 as _ <-.
  apply ret_some in H as [-> <-]. destruct (bool_decide (rv = _)) eqn:Erv; b2p.
  - run_inv E1 as rv1 w2 E2. apply ret_some in E1 as [[= -> <-] <-]. by exists w2.
  - apply ret_some in E1 as [[= -> _] _]. done.
Qed.

(** A connection without an error is a session. *)
Lemma connect_some w w' : est_client_connect w = Some ((EST_ERR_NONE, None), w') -> False.
Proof.
  enough (returns (fun r => fst r = EST_ERR_NONE -> snd r <> None) est_client_connect) as Hr
    by (intros H; exact (Hr _ _ _ H eq_refl eq_refl)).
  unfold est_client_connect. do 3 (apply returns_bind; intros ?).
  repeat match goal with
  | |- returns _ (mbind _ _) => apply returns_bind; intros ?
  | |- returns _ (match ?x with _ => _ end) => destruct x eqn:?
  | |- returns _ (mret _) => apply returns_ret; cbn; intros ?; b2p; try done
  end.
Qed.

Lemma in_drop {A} (x : A) k l : In x (drop k l) -> In x l.
Proof. intros H. rewrite <- (take_drop k l). apply in_or_app. by right. Qed.

(** An exchange from [w] that ended well: a voucher was read for this nonce. *)
Definition voucher_got (w : world) (nonce : bytes) (l : option Z) (w' : world) : Prop :=
  exists w1 w2, same_pledge w w1 /\
    brski_parse_voucher BASE64_ENCODE_VOUCHERS malloc_junk nonce w1 = Some (EST_ERR_NONE, w2) /\
    client_of w' = client_of w2 /\ l = Some 0.

Lemma voucher_got_finish w nonce rv w1 l w' : same_pledge w w1 ->
  finish_voucher BASE64_ENCODE_VOUCHERS malloc_junk rv nonce w1 = Some ((EST_ERR_NONE, l), w') ->
  voucher_got w nonce l w'.
Proof. intros P H. apply finish_voucher_run in H as (w2 & ? & ? & ->). by exists w1, w2. Qed.

Lemma second_attempt_run sc nonce ts sign w l w' :
  second_voucher_attempt BASE64_ENCODE_VOUCHERS EST_VER_STRING malloc_junk sc nonce ts sign w =
    Some ((EST_ERR_NONE, l), w') -> voucher_got w nonce l w'.
Proof.
  unfold second_voucher_attempt. intros H.
  run_inv H as r wa Ea. destruct r as [rva [ca|]];
    [|apply ret_some in H as [[= -> _] _]; by apply connect_some in Ea].
  apply sp_connect in Ea. run_inv H as r wb Eb. destruct r as [rvb scb]. apply sp_get_server_cert in Eb.
  destruct (bool_decide (rvb = _)) eqn:Erb; [|b2p; by apply ret_some in H as [[= ->] _]].
  run_inv H as rvc wc Ec. apply sp_voucher_request in Ec.
  run_inv H as ud wd Ed. apply sp_disconnect in Ed.
  eapply voucher_got_finish; [|exact H]. by do 3 (etrans; [eassumption|]).
Qed.

Lemma first_attempt_run c nonce ts sign w l w' :
  first_voucher_attempt BASE64_ENCODE_VOUCHERS EST_VER_STRING malloc_junk c nonce ts sign w =
    Some ((EST_ERR_NONE, l), w') -> voucher_got w nonce l w'.
Proof.
  unfold first_voucher_attempt. intros H.
  run_inv H as r w6 E6. destruct r as [rv6 sc]. apply sp_get_server_cert in E6.
  destruct (bool_decide (rv6 = _)) eqn:Erv; [|b2p; by apply ret_some in H as [[= ->] _]].
  run_inv H as rv7 w7 E7. apply sp_voucher_request in E7.
  run_inv H as u w8 E8. apply sp_disconnect in E8.
  assert (P : same_pledge w w8) by (by do 2 (etrans; [eassumption|])).
  run_inv H as ctx w9 E9. injection E9 as <- <-.
  destruct (_ && http_auth_mode _); [|by eapply voucher_got_finish].
  destruct (_ && FIPS_mode); [no_ret H|].
  apply second_attempt_run in H as (w1 & w2 & P1 & H). exists w1, w2. split; [by etrans|done].
Qed.

#[local] Opaque request_time.

Lemma send_get_voucher_run sign w l w' :
  est_client_brski_send_get_voucher BASE64_ENCODE_VOUCHERS EST_VER_STRING malloc_junk sign w =
    Some ((EST_ERR_NONE, l), w') ->
  exists random, In (Some random) (net_rand (w_net w)) /\ voucher_got w (nonce_of random) l w'.
Proof.
  unfold est_client_brski_send_get_voucher. intros H.
  run_inv H as r w1 E1. destruct r as [rv1 [c|]];
    [|apply ret_some in H as [[= -> _] _]; by apply connect_some in E1].
  apply sp_connect in E1.
  run_inv H as r w2 E2. apply RAND_bytes_run in E2 as [P2 Hin].
  destruct r as [random|]; [|no_ret H]. exists random. split.
  { destruct E1 as [_ (k & Hk) _]. specialize (Hin _ eq_refl). rewrite Hk in Hin. by eapply in_drop. }
  run_inv H as time w3 E3. injection E3 as <- <-. destruct (_ =? -1); [no_ret H|].
  run_inv H as ts w4 E4. apply sp_request_time in E4.
  run_inv H as ok w5 E5. apply sp_alloc in E5. destruct ok; [|no_ret H].
  apply first_attempt_run in H as (wa & wb & P & H). exists wa, wb. split; [|done].
  by do 4 (etrans; [eassumption|]).
Qed.
(** The scripted random numbers are bytes. *)
Definition random_bytes (w : world) : Prop :=
  Forall (fun r => match r with Some b => are_bytes b | None => True end) (net_rand (w_net w)).

Lemma ser_num_no_nul cert serial : est_find_ser_num_in_subj cert = Some serial -> no_nul serial.
Proof. unfold est_find_ser_num_in_subj. destr_if; [done|]. intros [= <-]. apply cstr_no_nul. Qed.

(** The voucher of [w'] counts for the pledge of [w]. *)
Definition accepted (w : world) (cert : X509) (serial : bytes) (w' : world) : Prop :=
  exists random sc store p7 data,
    ssl_ctx (client_of w) = Some sc /\ sc_cert_store sc = Some store /\
    PKCS7_verify p7 store <> 0 /\ PKCS7_signed_data p7 = Some data /\
    brski_retrieved_voucher (client_of w') = Some data /\
    voucher_says data (EST_BRSKI_MAX_SER_NUM_LEN + 2) (lit "serial-number") (Some serial) /\
    In (Some random) (net_rand (w_net w)) /\
    (voucher_says data (EST_BRSKI_VOUCHER_REQ_NONCE_SIZE + 2) (lit "nonce") (Some (nonce_of random)) \/
     voucher_says data (EST_BRSKI_VOUCHER_REQ_NONCE_SIZE + 2) (lit "nonce") None) /\
    exists cacert certs w1 w2,
      voucher_says data (EST_BRSKI_MAX_CACERT_LEN + 1) (lit "pinned-domain-cert") (Some cacert) /\
      verify_cacert_resp malloc_junk cacert w1 = Some ((EST_ERR_NONE, certs), w2) /\
      brski_retrieved_cacert (client_of w') = Some certs.

(** A round that starts in [wx], where the pledge is that of [w]. *)
Lemma accepted_round w cert serial wx sign lx wy w' : random_bytes w ->
  pledge (client_of wx) = (Some cert, Some serial, ssl_ctx (client_of w)) ->
  (exists k, net_rand (w_net wx) = drop k (net_rand (w_net w))) -> no_nul serial ->
  client_of w' = client_of wy ->
  est_client_brski_send_get_voucher BASE64_ENCODE_VOUCHERS EST_VER_STRING malloc_junk sign wx =
    Some ((EST_ERR_NONE, lx), wy) -> accepted w cert serial w'.
Proof.
  intros Hrnd Hp (k & Hk) Hs Hwy H. apply send_get_voucher_run in H as (random & Hin & w1 & w2 & P & Hparse & Hc & _).
  assert (Hin' : In (Some random) (net_rand (w_net w))) by (rewrite Hk in Hin; by eapply in_drop).
  assert (Hb : are_bytes (take (Z.to_nat (EST_BRSKI_VOUCHER_REQ_NONCE_SIZE / 2)) random)).
  { apply Forall_take. apply (proj1 (Forall_forall _ _) Hrnd _ Hin'). }
  pose proof (sp_pledge _ _ P) as Hp1. rewrite Hp in Hp1. injection Hp1 as _ Hser Hssl.
  apply (parse_voucher_run _ serial) in Hparse as [(sc & store & p7 & data & Hsc & Hrest)];
    [|by apply hex_no_nul| |done|done].
  2:{ unfold nonce_of. rewrite hex_length, length_take. unfold EST_BRSKI_VOUCHER_REQ_NONCE_SIZE.
      change (Z.to_nat (32 / 2)) with 16%nat. lia. }
  exists random, sc, store, p7, data. rewrite Hwy, Hc. rewrite Hssl in Hsc. by intuition.
Qed.

(** C17. A pledge accepts a voucher only when it may: a call that returns EST_ERR_NONE has
    a certificate with a serial number; the voucher in the context is what a PKCS7
    signs whose signature verified against the client's trust store; its serial number
    is that of the pledge's certificate; its nonce, when it has one, is the hexadecimal
    form of a random number that was drawn for a request of this call; and the
    certificate it pins is in the context, verified. *)
Theorem voucher_accepted len_given sign w l w' :
  random_bytes w ->
  est_client_brski_get_voucher BASE64_ENCODE_VOUCHERS EST_VER_STRING malloc_junk len_given sign w =
    Some ((EST_ERR_NONE, l), w') ->
  exists cert serial random sc store p7 data,
    client_cert (client_of w) = Some cert /\ est_find_ser_num_in_subj cert = Some serial /\
    ssl_ctx (client_of w) = Some sc /\ sc_cert_store sc = Some store /\
    PKCS7_verify p7 store <> 0 /\ PKCS7_signed_data p7 = Some data /\
    brski_retrieved_voucher (client_of w') = Some data /\
    voucher_says data (EST_BRSKI_MAX_SER_NUM_LEN + 2) (lit "serial-number") (Some serial) /\
    In (Some random) (net_rand (w_net w)) /\
    (voucher_says data (EST_BRSKI_VOUCHER_REQ_NONCE_SIZE + 2) (lit "nonce") (Some (nonce_of random)) \/
     voucher_says data (EST_BRSKI_VOUCHER_REQ_NONCE_SIZE + 2) (lit "nonce") None) /\
    exists cacert certs w1 w2,
      voucher_says data (EST_BRSKI_MAX_CACERT_LEN + 1) (lit "pinned-domain-cert") (Some cacert) /\
      verify_cacert_resp malloc_junk cacert w1 = Some ((EST_ERR_NONE, certs), w2) /\
      brski_retrieved_cacert (client_of w') = Some certs.
Proof.
  intros Hrnd H. unfold est_client_brski_get_voucher in H.
  run_inv H as cl w1 E1. injection E1 as <- <-.
  destruct (negb (est_client_initialized _)); [no_ret H|]. destruct (negb (brski_mode _)); [no_ret H|].
  destruct (negb len_given); [no_ret H|].
  destruct (client_cert (client (w_ctx w))) as [cert|] eqn:Ecert; [|no_ret H].
  destruct (est_find_ser_num_in_subj cert) as [serial|] eqn:Eser; [|no_ret H].
  destruct (_ >? _); [no_ret H|]. run_inv H as ok w2 E2.
  apply keep_ser_num_run in E2 as (Hnet & _ & _ & Hcl). destruct ok; [|no_ret H]. specialize (Hcl eq_refl).
  assert (Hp : pledge (client_of w2) = (Some cert, Some serial, ssl_ctx (client_of w)))
    by (rewrite Hcl; unfold pledge; cbn; by rewrite <- Ecert).
  assert (Hround : forall wx lx wy, same_pledge w2 wx -> client_of w' = client_of wy ->
    est_client_brski_send_get_voucher BASE64_ENCODE_VOUCHERS EST_VER_STRING malloc_junk sign wx =
      Some ((EST_ERR_NONE, lx), wy) -> accepted w cert serial w').
  { intros wx lx wy [Px (k & Rx) _] Hwy Hrun. apply (accepted_round w cert serial wx sign lx wy w'); try done.
    - congruence.
    - rewrite Rx, Hnet. by exists k.
    - by eapply ser_num_no_nul. }
  run_inv H as r w3 E3. destruct r as [rv3 l3].
  assert (Hacc : accepted w cert serial w').
  { destruct (bool_decide (rv3 = _)) eqn:Er; b2p.
    - subst rv3. run_inv H as ctx w4 E4. injection E4 as <- <-. run_inv H as u w5 E5. injection E5 as _ <-.
      run_inv H as r w6 E6. destruct r as [rv6 l6]. apply ret_some in H as [[= -> _] <-].
      eapply Hround; [|done|exact E6]. apply sp_send_get_voucher in E3. etrans; [exact E3|]. by apply sp_same.
    - apply ret_some in H as [[= -> _] <-]. by eapply Hround. }
  destruct Hacc as (random & sc & store & p7 & data & ?). exists cert, serial, random, sc, store, p7, data.
  by intuition.
Qed.

(** ** The rounds *)

Definition is_connect (e : event) : bool := match e with EvConnect _ _ _ => true | _ => false end.
Definition is_sleep (e : event) : bool := match e with EvSleep _ => true | _ => false end.

(** Events without a sleep, and with at most [n] connections. *)
Definition round_events (n : nat) (l : list event) : Prop :=
  Forall (fun e => is_sleep e = false) l /\ (length (List.filter is_connect l) <= n)%nat.

Definition round (n : nat) (w w' : world) : Prop :=
  exists l, w_trace w' = w_trace w ++ l /\ round_events n l.

Lemma round_trans n m w w1 w2 : round n w w1 -> round m w1 w2 -> round (n + m) w w2.
Proof.
  intros (l1 & T1 & F1 & N1) (l2 & T2 & F2 & N2). exists (l1 ++ l2).
  rewrite T2, T1, app_assoc. split; [done|]. split; [by apply Forall_app|].
  rewrite filter_app, length_app. lia.
Qed.

Lemma round_mono n m w w' : (n <= m)%nat -> round n w w' -> round m w w'.
Proof. intros Hle (l & T & F & N). exists l. split; [done|]. split; [done|lia]. Qed.

(** An event inside a connection. *)
Definition still (e : event) : Prop := is_connect e = false /\ is_sleep e = false.

Lemma still_round l : Forall still l -> round_events 0 l.
Proof.
  induction 1 as [|e l [Hc Hs] F [IH1 IH2]]; [by split|]. split; [by constructor|]. cbn. by rewrite Hc.
Qed.

Lemma round_still w w' : acts still w w' -> round 0 w w'.
Proof. intros (l & T & F). exists l. split; [done|by apply still_round]. Qed.

Lemma round_connect w r w' : est_client_connect w = Some (r, w') -> round 1 w w'.
Proof.
  destruct r as [rv ssl]. intros H. apply connect_spec in H as (_ & o & s & p & l & T & F).
  exists (EvConnect o s p :: l). split; [done|].
  assert (Hl : round_events 0 l) by (apply still_round; eapply Forall_impl; [|exact F]; by intros e <-).
  destruct Hl as [Hs Hn]. split; [by constructor|]. cbn. lia.
Qed.

Abbreviation quiet := (sat (acts still)).

Lemma quiet_client_write d : quiet (client_write d).
Proof. intros w n w' H. apply client_write_run in H. eapply acts_wrote; [exact H|]. intros k. by split. Qed.
Hint Resolve quiet_client_write : sat.

Lemma quiet_ask m : quiet (ask_credentials m).
Proof. unfold ask_credentials. sat_auto. apply act_emit. by split. Qed.
Hint Resolve quiet_ask : sat.

Lemma quiet_header hdr uri : quiet (est_client_add_auth_hdr hdr uri).
Proof.
  unfold est_client_add_auth_hdr, est_client_generate_auth_digest, b64_credential, user_and_pwd,
    est_client_retrieve_credentials, RAND_bytes. sat_auto.
Qed.
Hint Resolve quiet_header : sat.

Lemma quiet_send hdr n d : quiet (brski_send malloc_junk hdr n d).
Proof. unfold brski_send, put_crlf, put_data. sat_auto. Qed.

Lemma quiet_response op : quiet (est_io_get_response true malloc_junk op).
Proof. unfold est_io_get_response. apply act_response. Qed.
Hint Resolve quiet_send quiet_response : sat.

Lemma quiet_voucher_request c server_cert nonce ts sign :
  quiet (voucher_attempt EST_VER_STRING malloc_junk c server_cert nonce ts sign).
Proof.
  unfold voucher_attempt, est_client_brski_send_voucher_request,
    est_client_brski_build_voucherreq_header, brski_header, keep_voucher. sat_auto.
Qed.

Lemma quiet_disconnect c : quiet (est_client_disconnect (Some c)).
Proof. unfold est_client_disconnect. sat_auto. all: apply act_emit; by split. Qed.

Lemma quiet_server_cert b c : quiet (est_brski_get_server_cert b c).
Proof. unfold est_brski_get_server_cert, ossl_get_certs_pkcs7. sat_auto. Qed.

Lemma quiet_time t : quiet (request_time t).
Proof. apply act_frame, frame_request_time. Qed.

Lemma quiet_create_PKCS7 d : quiet (create_PKCS7 d).
Proof. unfold create_PKCS7. sat_auto. Qed.
Hint Resolve quiet_create_PKCS7 : sat.

Lemma quiet_verify_voucher : quiet (verify_voucher BASE64_ENCODE_VOUCHERS).
Proof. unfold verify_voucher, voucher_der. sat_auto. Qed.

Lemma quiet_keep_cacert c : quiet (keep_cacert malloc_junk c).
Proof. unfold keep_cacert, verify_cacert_resp, b64_decode_cacerts, est_client_remove_crls. sat_auto. Qed.
Hint Resolve quiet_verify_voucher quiet_keep_cacert : sat.

Lemma quiet_finish rv nonce : quiet (finish_voucher BASE64_ENCODE_VOUCHERS malloc_junk rv nonce).
Proof. unfold finish_voucher, brski_parse_voucher, voucher_value. sat_auto. Qed.

Lemma quiet_rand : quiet RAND_bytes.
Proof. unfold RAND_bytes. sat_auto. Qed.
Hint Resolve quiet_rand quiet_finish : sat.

(** One more step, that makes no connection. *)
Lemma round_quiet {A} n (m : M A) w a w1 w' :
  quiet m -> m w = Some (a, w1) -> round n w1 w' -> round n w w'.
Proof. intros Hm E R. eapply (round_trans 0); [|exact R]. by eapply round_still, Hm. Qed.

Lemma round_done n {A} (a b : A) w w' : mret (M := M) a w = Some (b, w') -> round n w w'.
Proof. intros H. apply ret_some in H as [_ <-]. exists []. rewrite app_nil_r. split; [done|]. split; [done|cbn; lia]. Qed.

Lemma second_attempt_round sc nonce ts sign w r w' :
  second_voucher_attempt BASE64_ENCODE_VOUCHERS EST_VER_STRING malloc_junk sc nonce ts sign w = Some (r, w') ->
  round 1 w w'.
Proof.
  unfold second_voucher_attempt. intros H. run_inv H as a wa Ea. apply round_connect in Ea.
  apply (round_trans 1 0 _ wa); [done|]. destruct a as [rv [c|]]; [|by eapply round_done].
  run_inv H as b wb Eb. eapply round_quiet; [apply quiet_server_cert|exact Eb|].
  destruct b as [rvb scb]. destruct (negb _); [by eapply round_done|].
  run_inv H as rv3 w3 E3. eapply round_quiet; [apply quiet_voucher_request|exact E3|].
  run_inv H as u w4 E4. eapply round_quiet; [apply quiet_disconnect|exact E4|].
  by eapply round_still, quiet_finish.
Qed.

Lemma first_attempt_round c nonce ts sign w r w' :
  first_voucher_attempt BASE64_ENCODE_VOUCHERS EST_VER_STRING malloc_junk c nonce ts sign w = Some (r, w') ->
  round 1 w w'.
Proof.
  unfold first_voucher_attempt. intros H.
  run_inv H as b wb Eb. eapply round_quiet; [apply quiet_server_cert|exact Eb|].
  destruct b as [rvb scb]. destruct (negb _); [by eapply round_done|].
  run_inv H as rv3 w3 E3. eapply round_quiet; [apply quiet_voucher_request|exact E3|].
  run_inv H as u w4 E4. eapply round_quiet; [apply quiet_disconnect|exact E4|].
  run_inv H as ctx w5 E5. injection E5 as <- <-.
  destruct (_ && http_auth_mode _).
  - destruct (_ && FIPS_mode); [by eapply round_done|by eapply second_attempt_round].
  - apply (round_mono 0); [lia|]. by eapply round_still, quiet_finish.
Qed.

Lemma send_get_voucher_round sign w r w' :
  est_client_brski_send_get_voucher BASE64_ENCODE_VOUCHERS EST_VER_STRING malloc_junk sign w = Some (r, w') ->
  round 2 w w'.
Proof.
  unfold est_client_brski_send_get_voucher. intros H. run_inv H as a wa Ea. apply round_connect in Ea.
  apply (round_trans 1 1 _ wa); [done|]. destruct a as [rv [c|]]; [|by eapply round_done].
  run_inv H as x w2 E2. eapply round_quiet; [apply quiet_rand|exact E2|].
  destruct x as [random|]; [|by eapply round_done].
  run_inv H as t w3 E3. injection E3 as <- <-. destruct (_ =? -1); [by eapply round_done|].
  run_inv H as ts w4 E4. eapply round_quiet; [apply quiet_time|exact E4|].
  run_inv H as ok w5 E5. eapply round_quiet; [apply act_alloc|exact E5|].
  destruct (negb ok); [by eapply round_done|by eapply first_attempt_round].
Qed.

(** The rounds of a call. *)
Definition patient (w w' : world) : Prop :=
  exists l1 l2, w_trace w' = w_trace w ++ l1 ++ l2 /\ round_events 2 l1 /\
    (l2 = [] \/
     exists d l3, l2 = EvSleep d :: l3 /\ 0 <= d <= EST_BRSKI_CLIENT_RETRY_MAX /\ round_events 2 l3).

Lemma patient_one w w1 w' : w_trace w1 = w_trace w -> round 2 w1 w' -> patient w w'.
Proof.
  intros T (l1 & T1 & R). exists l1, []. rewrite app_nil_r, T1, T. split; [done|]. split; [done|by left].
Qed.

Lemma patient_two w w1 w2 w3 w4 d : w_trace w1 = w_trace w -> round 2 w1 w2 ->
  w_trace w3 = w_trace w2 ++ [EvSleep (actual_retry_delay d)] -> 0 <= d -> round 2 w3 w4 -> patient w w4.
Proof.
  intros T (l1 & T1 & R1) T2 Hd (l3 & T3 & R3). exists l1, (EvSleep (actual_retry_delay d) :: l3).
  rewrite T3, T2, T1, T. split; [by rewrite <- !app_assoc|]. split; [done|]. right. eexists _, l3.
  split; [done|]. split; [|done]. unfold actual_retry_delay, EST_BRSKI_CLIENT_RETRY_MAX.
  destruct (Z.gtb_spec d 60); lia.
Qed.

(** C18. The patience of a pledge is bounded.  A call makes at most two connections (the
    second one after a challenge); when the registrar asked for patience, the client
    sleeps once, for at most EST_BRSKI_CLIENT_RETRY_MAX seconds, and makes at most two
    connections more.  Whatever the registrar answers then is final. *)
Theorem registrar_patience len_given sign w r w' :
  0 <= retry_after_delay (w_ctx w) ->
  est_client_brski_get_voucher BASE64_ENCODE_VOUCHERS EST_VER_STRING malloc_junk len_given sign w = Some (r, w') ->
  exists l1 l2, w_trace w' = w_trace w ++ l1 ++ l2 /\ round_events 2 l1 /\
    (l2 = [] \/
     exists d l3, l2 = EvSleep d :: l3 /\ 0 <= d <= EST_BRSKI_CLIENT_RETRY_MAX /\ round_events 2 l3).
Proof.
  intros Hd H. fold (patient w w'). unfold est_client_brski_get_voucher in H.
  run_inv H as cl w1 E1. injection E1 as <- <-.
  assert (Hnone : forall x (y : world), w_trace y = w_trace w -> mret (M := M) x y = Some (r, w') -> patient w w').
  { intros x y Hy Hr. eapply patient_one; [exact Hy|by eapply round_done]. }
  destruct (negb (est_client_initialized _)); [by eapply Hnone|].
  destruct (negb (brski_mode _)); [by eapply Hnone|]. destruct (negb len_given); [by eapply Hnone|].
  destruct (client_cert _); [|by eapply Hnone]. destruct (est_find_ser_num_in_subj _); [|by eapply Hnone].
  destruct (_ >? _); [by eapply Hnone|]. run_inv H as ok w2 E2. apply keep_ser_num_run in E2 as (_ & T2 & D2 & _).
  destruct (negb ok); [by eapply Hnone|].
  run_inv H as a w3 E3. destruct a as [rv3 len3]. pose proof (sp_delay _ _ (sp_send_get_voucher _ _ _ _ _ _ _ E3)) as D3.
  apply send_get_voucher_round in E3. destruct (bool_decide _).
  - run_inv H as ctx w4 E4. injection E4 as <- <-. run_inv H as u w5 E5. injection E5 as _ <-.
    run_inv H as b w6 E6. destruct b as [rv6 l6]. apply ret_some in H as [_ <-].
    apply send_get_voucher_round in E6. refine (patient_two _ _ _ _ _ _ T2 E3 _ (D3 _) E6); [reflexivity|lia].
  - apply ret_some in H as [_ <-]. by eapply patient_one.
Qed.

(** ** Smaller facts *)

(** Copying the domain's certificate does not remove it: what a second copy returns, with
    EST_ERR_NONE again, is as many zeros. *)
Lemma copied_cacert_remains w cacert : brski_retrieved_cacert (client_of w) = Some cacert ->
  est_client_initialized (client_of w) = true -> brski_mode (client_of w) = true ->
  exists w1 w2, est_client_brski_copy_cacert true w = Some ((EST_ERR_NONE, Some cacert), w1) /\
    est_client_brski_copy_cacert true w1 =
      Some ((EST_ERR_NONE, Some (replicate (length cacert) 0)), w2).
Proof.
  unfold client_of. intros Hc Hi Hm.
  set (gone := set_brski_retrieved_cacert (Some (replicate (length cacert) 0))).
  set (w1 := set_w_ctx (set_client (gone (client (w_ctx w))) (w_ctx w)) w).
  exists w1, (set_w_ctx (set_client (gone (client (w_ctx w1))) (w_ctx w1)) w1).
  unfold est_client_brski_copy_cacert, initialized_only. split.
  - rewrite (bind_run get_client _ w (client (w_ctx w)) w) by done. rewrite Hi, Hm. cbn [negb]. by rewrite Hc.
  - rewrite (bind_run get_client _ w1 (client (w_ctx w1)) w1) by done. cbn -[replicate].
    rewrite Hi, Hm. cbn [negb]. by rewrite length_replicate.
Qed.

(** A successful enrollment cannot be reported without a reason: the function lets NULL
    pass and prints it. *)
Lemma enroll_success_without_reason status ski w rv w' :
  est_client_brski_send_enroll_status EST_VER_STRING malloc_junk status None ski w = Some (rv, w') ->
  rv <> EST_ERR_NONE.
Proof.
  unfold est_client_brski_send_enroll_status. intros H. run_inv H as cl w1 E1.
  repeat match type of H with
  | (if ?x then _ else _) _ = _ => destruct x; [by apply ret_some in H as [<- _]|]
  end.
  destruct (brski_status_str status); [|by apply ret_some in H as [<- _]].
  repeat match type of H with
  | (if ?x then _ else _) _ = _ => destruct x; [by apply ret_some in H as [<- _]|]
  end.
  run_inv H as enc w2 E2. destr_if; [by apply ret_some in H as [<- _]|]. by destr_if.
Qed.
End Props.
