(* ===== verification/ClientProxy.v ===== *)
(** * ClientProxy: the socket of the client (est_client_proxy.c)

    [tcw_connect] opens the connection to the EST server, itself ([tcw_direct_connect])
    or, through a proxy, with libcurl ([tcw_curl_connect], a build with HAVE_LIBCURL).
    What the application sees of it is the connection of est_client_connect (Client),
    whose outcome is scripted there.

    The operating system and libcurl are the class [NetLib]. The state [os] has what the
    process holds (open descriptors, live libcurl handles), what it contacted, and the
    scripts for the calls that may fail; a call past the end of its script succeeds.
    [None] is undefined behaviour.

    The socket of the client is its only one (ClientProxy).

    A connection leaves one descriptor, or none when it fails; closing it gives
    everything back. With a proxy nothing but the proxy is contacted, with the options
    that the application configured. *)

From S2P Require Import Prelude.
From S2P Require Import SafeC.
From S2P Require Import EstTypes.
From S2P Require Import EstUtil.

(** The options that the code sets on a handle. *)
Inductive curl_option :=
  | CURLOPT_CONNECT_ONLY (on : Z)
  | CURLOPT_URL (url : bytes)
  | CURLOPT_PROXY (host : bytes)
  | CURLOPT_PROXYPORT (port : Z)
  | CURLOPT_PROXYTYPE (type : Z)
  | CURLOPT_HTTPPROXYTUNNEL (on : Z)
  | CURLOPT_PROXYAUTH (bits : Z)
  | CURLOPT_PROXYUSERNAME (user : bytes)
  | CURLOPT_PROXYPASSWORD (password : bytes)
  | CURLOPT_NOSIGNAL (on : Z).

(** [new_fd fds] is a descriptor for a process that has [fds].  The results of libcurl are
    its codes; [curl_lastsocket] says whether there is a socket. *)
Class NetLib := {
  sockaddr : Type;
  getaddrinfo : bytes -> bytes -> option (list sockaddr);
  new_fd : list Z -> Z;
  curl_easy_setopt : curl_option -> Z;
  curl_easy_perform : list curl_option -> Z;
  curl_easy_getinfo : list curl_option -> Z;
  curl_lastsocket : list curl_option -> bool
}.

Definition CURLE_OK : Z := 0.
Definition CURLE_COULDNT_RESOLVE_PROXY : Z := 5.
Definition CURLE_COULDNT_RESOLVE_HOST : Z := 6.
Definition CURLAUTH_BASIC : Z := 1.
Definition CURLAUTH_NTLM : Z := 8.
Definition CURLAUTH_ONLY : Z := 2 ^ 31.
Definition CURLPROXY_HTTP : Z := 0.
Definition CURLPROXY_SOCKS4 : Z := 4.
Definition CURLPROXY_SOCKS5 : Z := 5.
Definition CURLPROXY_SOCKS4A : Z := 6.
Definition CURLPROXY_SOCKS5_HOSTNAME : Z := 7.

Definition EST_CLIENT_PROXY_HTTP_TUNNEL : Z := 1.
Definition EST_CLIENT_PROXY_SOCKS4 : Z := 4.
Definition EST_CLIENT_PROXY_SOCKS5 : Z := 5.
Definition EST_CLIENT_PROXY_SOCKS4A : Z := 6.
Definition TCW_URL_SCHEMA_PORT_SIZE : Z := 50.
Definition SOCK_INVALID : Z := -1.

(** A handle of libcurl: its options in the order they were set, and its socket. *)
Record curl := Curl {
  curl_options : list curl_option;
  curl_fd : option Z
}.

Record tcw_sock_t := Sock {
  curl_handle : option curl;
  sock_proto : Z;
  sock_fd : Z
}.

Section Sockets.
Context {L : NetLib}.

Inductive contact :=
  | Contact (a : sockaddr)
  | ContactThrough (options : list curl_option).

(** [s_get] and [s_set] are the two calls of fcntl. *)
Record os := OS {
  os_fds : list Z;
  os_handles : nat;
  os_contacts : list contact;
  s_socket : list bool;
  s_connect : list bool;
  s_close : list bool;
  s_init : list bool;
  s_calloc : list bool;
  s_get : list bool;
  s_set : list bool
}.

Definition N (A : Type) : Type := os -> option (A * os).
#[global] Instance N_ret : MRet N := fun _ a s => Some (a, s).
#[global] Instance N_bind : MBind N := fun _ _ f m s =>
  match m s with Some (a, s') => f a s' | None => None end.

Definition undefined {A} : N A := fun _ => None.

(** The next entry of a script. *)
Definition next (l : list bool) : bool * list bool :=
  match l with [] => (true, []) | b :: r => (b, r) end.

(** ** The calls of the operating system *)

Definition socket : N (option Z) := fun s =>
  let '(ok, r) := next (s_socket s) in
  let fd := new_fd (os_fds s) in
  Some (if ok then Some fd else None,
        OS (if ok then fd :: os_fds s else os_fds s) (os_handles s) (os_contacts s) r
          (s_connect s) (s_close s) (s_init s) (s_calloc s) (s_get s) (s_set s)).

Definition connect (a : sockaddr) : N bool := fun s =>
  let '(ok, r) := next (s_connect s) in
  Some (ok, OS (os_fds s) (os_handles s) (os_contacts s ++ [Contact a]) (s_socket s) r
              (s_close s) (s_init s) (s_calloc s) (s_get s) (s_set s)).

Definition remove_fd (fd : Z) (fds : list Z) : list Z := List.filter (fun d => negb (d =? fd)) fds.

(** A descriptor that could not be closed stays open. *)
Definition CLOSE_SOCKET (fd : Z) : N bool := fun s =>
  let '(ok, r) := next (s_close s) in
  Some (ok, OS (if ok then remove_fd fd (os_fds s) else os_fds s) (os_handles s) (os_contacts s)
              (s_socket s) (s_connect s) r (s_init s) (s_calloc s) (s_get s) (s_set s)).

Definition calloc : N bool := fun s =>
  let '(ok, r) := next (s_calloc s) in
  Some (ok, OS (os_fds s) (os_handles s) (os_contacts s) (s_socket s) (s_connect s) (s_close s)
              (s_init s) r (s_get s) (s_set s)).

Definition fcntl_get : N bool := fun s =>
  let '(ok, r) := next (s_get s) in
  Some (ok, OS (os_fds s) (os_handles s) (os_contacts s) (s_socket s) (s_connect s) (s_close s)
              (s_init s) (s_calloc s) r (s_set s)).

Definition fcntl_set : N bool := fun s =>
  let '(ok, r) := next (s_set s) in
  Some (ok, OS (os_fds s) (os_handles s) (os_contacts s) (s_socket s) (s_connect s) (s_close s)
              (s_init s) (s_calloc s) (s_get s) r).

Definition get_fds : N (list Z) := fun s => Some (os_fds s, s).

(** ** The calls of libcurl *)

Definition curl_easy_init : N bool := fun s =>
  let '(ok, r) := next (s_init s) in
  Some (ok, OS (os_fds s) (if ok then S (os_handles s) else os_handles s) (os_contacts s)
              (s_socket s) (s_connect s) (s_close s) r (s_calloc s) (s_get s) (s_set s)).

(** A transfer that succeeds leaves the handle with an open socket. *)
Definition perform (options : list curl_option) : N Z := fun s =>
  let code := curl_easy_perform options in
  let fd := new_fd (os_fds s) in
  Some (code,
        OS (if code =? CURLE_OK then fd :: os_fds s else os_fds s) (os_handles s)
          (os_contacts s ++ [ContactThrough options]) (s_socket s) (s_connect s) (s_close s)
          (s_init s) (s_calloc s) (s_get s) (s_set s)).

(** The handle closes its socket. *)
Definition curl_easy_cleanup (c : curl) : N unit := fun s =>
  Some (tt, OS (match curl_fd c with Some fd => remove_fd fd (os_fds s) | None => os_fds s end)
              (pred (os_handles s)) (os_contacts s) (s_socket s) (s_connect s) (s_close s)
              (s_init s) (s_calloc s) (s_get s) (s_set s)).

(** ** est_client_proxy.c *)

(** [fd_is_valid]: is the descriptor open? *)
Definition fd_is_valid (fd : Z) : N bool := fds ← get_fds; mret (existsb (Z.eqb fd) fds).

Definition set_sock_fd (fd : Z) (sock : tcw_sock_t) : tcw_sock_t :=
  Sock (curl_handle sock) (sock_proto sock) fd.

Definition tcw_direct_close (sock : tcw_sock_t) : N (tcw_err_t * tcw_sock_t) :=
  valid ← fd_is_valid (sock_fd sock);
  if valid : bool then
    ok ← CLOSE_SOCKET (sock_fd sock);
    if ok : bool then mret (TCW_OK, set_sock_fd SOCK_INVALID sock) else mret (TCW_ERR_CLOSE, sock)
  else mret (TCW_OK, set_sock_fd SOCK_INVALID sock).

(** The loop over the addresses.  [fd] is uninitialised before the first one. *)
Fixpoint direct_loop (addrs : list sockaddr) (ret : tcw_err_t) (fd : option Z)
    : N (tcw_err_t * option Z) :=
  match addrs with
  | [] => mret (ret, fd)
  | a :: rest =>
      s ← socket;
      match s with
      | None => direct_loop rest TCW_ERR_SOCKET (Some (-1))
      | Some d =>
          ok ← connect a;
          if ok : bool then mret (TCW_OK, Some d)
          else
            _ ← CLOSE_SOCKET d;
            direct_loop rest TCW_ERR_CONNECT (Some SOCK_INVALID)
      end
  end.

(** [%hu]. *)
Definition fmt_hu (port : Z) : bytes := fmt_d (port mod 65536).

Definition tcw_direct_connect (sock : tcw_sock_t) (host : bytes) (port : Z)
    : N (tcw_err_t * tcw_sock_t) :=
  let n := Z.of_nat (length (fmt_hu port)) in
  if (n <? 0) || (n >=? 10) then mret (TCW_ERR_ALLOC, sock) else
  match getaddrinfo host (fmt_hu port) with
  | None => mret (TCW_ERR_RESOLV, sock)
  | Some addrs =>
      '(ret, fd) ← direct_loop addrs TCW_OK None;
      match fd with
      | None => undefined
      | Some fd => mret (ret, if fd >=? 0 then set_sock_fd fd sock else sock)
      end
  end.

Definition tcw_curl_close (sock : tcw_sock_t) : N (tcw_err_t * tcw_sock_t) :=
  _ ← (match curl_handle sock with Some c => curl_easy_cleanup c | None => mret tt end);
  mret (TCW_OK, Sock None (sock_proto sock) SOCK_INVALID).

Definition set_blocking_mode : N tcw_err_t :=
  ok ← fcntl_get;
  if negb ok then mret TCW_ERR_FCNTL else
  ok ← fcntl_set;
  mret (if ok : bool then TCW_OK else TCW_ERR_FCNTL).

(** The address of the EST server.  The search for the colon of an IPv6 address is made in
    the zeroed buffer of the URL. *)
Definition tcw_url (host : bytes) (port : Z) : option bytes :=
  let url_size := Z.of_nat (length host) + TCW_URL_SCHEMA_PORT_SIZE in
  let '(safec_err, found_colon) := strstr_s [] (EST_MAX_SERVERNAME_LEN + 1) (lit ":") 1 in
  let text := if (safec_err =? 0) && bool_decide (is_Some found_colon)
              then lit "http://[" ++ host ++ lit "]:" ++ fmt_hu port
              else lit "http://" ++ host ++ lit ":" ++ fmt_hu port in
  if Z.of_nat (length text) >=? url_size then None
  else Some (snprintf (url_size - 1) text).

(** -1 for what is no protocol. *)
Definition curl_proxy_type (proto : Z) : Z :=
  if proto =? EST_CLIENT_PROXY_HTTP_NOTUNNEL then CURLPROXY_HTTP
  else if proto =? EST_CLIENT_PROXY_HTTP_TUNNEL then CURLPROXY_HTTP
  else if proto =? EST_CLIENT_PROXY_SOCKS4 then CURLPROXY_SOCKS4
  else if proto =? EST_CLIENT_PROXY_SOCKS5 then CURLPROXY_SOCKS5
  else if proto =? EST_CLIENT_PROXY_SOCKS4A then CURLPROXY_SOCKS4A
  else if proto =? EST_CLIENT_PROXY_SOCKS5_HOSTNAME then CURLPROXY_SOCKS5_HOSTNAME
  else -1.

Definition curl_auth_bits (auth : Z) : Z :=
  Z.lor (if Z.land auth EST_CLIENT_PROXY_AUTH_BASIC =? 0 then 0 else CURLAUTH_BASIC)
        (if Z.land auth EST_CLIENT_PROXY_AUTH_NTLM =? 0 then 0 else CURLAUTH_NTLM).

(** What the function has at [done]: the error and the handle. *)
Definition curl_result : Type := tcw_err_t * curl.

(** [curl_easy_setopt] for the handle with the options [set]; the next step is [k]. *)
Definition setopt (o : curl_option) (set : list curl_option)
    (k : list curl_option -> N curl_result) : N curl_result :=
  if curl_easy_setopt o =? CURLE_OK then k (set ++ [o]) else mret (TCW_ERR_OTHER, Curl set None).

(** The user and the methods of authentication, if there is a user. *)
Definition curl_credentials (opts : tcw_opts_t) (set : list curl_option)
    (k : list curl_option -> N curl_result) : N curl_result :=
  match opt_proxy_user opts with
  | None => k set
  | Some (username, password) =>
      setopt (CURLOPT_PROXYUSERNAME username) set (fun set =>
      setopt (CURLOPT_PROXYPASSWORD password) set (fun set =>
      let auth_bits := curl_auth_bits (opt_proxy_auth opts) in
      if auth_bits =? 0 then k set else setopt (CURLOPT_PROXYAUTH auth_bits) set k))
  end.

(** The transfer, which only connects, and its socket. *)
Definition curl_request (set : list curl_option) : N curl_result :=
  curlcode ← perform set;
  fds ← get_fds;
  let c := Curl set (if curlcode =? CURLE_OK then head fds else None) in
  if negb (curlcode =? CURLE_OK) then
    mret (if (curlcode =? CURLE_COULDNT_RESOLVE_PROXY) || (curlcode =? CURLE_COULDNT_RESOLVE_HOST)
          then TCW_ERR_RESOLV else TCW_ERR_CONNECT, c)
  else if negb (curl_easy_getinfo set =? CURLE_OK) then mret (TCW_ERR_OTHER, c)
  else if negb (curl_lastsocket set) then mret (TCW_ERR_OTHER, c)
  else ret ← set_blocking_mode; mret (ret, c).

Definition curl_steps (opts : tcw_opts_t) (host : bytes) (port : Z) : N curl_result :=
  setopt (CURLOPT_CONNECT_ONLY 1) [] (fun set =>
  ok ← calloc;
  if negb ok then mret (TCW_ERR_ALLOC, Curl set None) else
  match tcw_url host port with
  | None => mret (TCW_ERR_ALLOC, Curl set None)
  | Some url =>
      setopt (CURLOPT_URL url) set (fun set =>
      setopt (CURLOPT_PROXY (opt_proxy_host opts)) set (fun set =>
      setopt (CURLOPT_PROXYPORT (opt_proxy_port opts)) set (fun set =>
      setopt (CURLOPT_PROXYTYPE (curl_proxy_type (opt_proxy_proto opts))) set (fun set =>
      (if opt_proxy_proto opts =? EST_CLIENT_PROXY_HTTP_TUNNEL
       then setopt (CURLOPT_HTTPPROXYTUNNEL 1) set else fun k => k set) (fun set =>
      setopt (CURLOPT_PROXYAUTH (Z.lor CURLAUTH_BASIC CURLAUTH_ONLY)) set (fun set =>
      curl_credentials opts set (fun set =>
      setopt (CURLOPT_NOSIGNAL 1) set curl_request)))))))
  end).

(** Every error gives the handle back. *)
Definition tcw_curl_connect (sock : tcw_sock_t) (opts : tcw_opts_t) (host : bytes) (port : Z)
    : N (tcw_err_t * tcw_sock_t) :=
  ok ← curl_easy_init;
  '(ret, sock) ← (if negb ok then mret (TCW_ERR_ALLOC, sock)
                  else '(ret, c) ← curl_steps opts host port;
                       mret (ret, Sock (Some c) (sock_proto sock)
                                    (match curl_fd c with Some fd => fd | None => sock_fd sock end)));
  if bool_decide (ret = TCW_OK) then mret (ret, sock)
  else '(_, sock) ← tcw_curl_close sock; mret (ret, sock).

Definition tcw_connect (opts : tcw_opts_t) (host : bytes) (port : Z) : N (tcw_err_t * tcw_sock_t) :=
  let sock := Sock None (opt_proxy_proto opts) SOCK_INVALID in
  if negb (sock_proto sock =? EST_CLIENT_PROXY_NONE) then tcw_curl_connect sock opts host port
  else tcw_direct_connect sock host port.

Definition tcw_close (sock : tcw_sock_t) : N (tcw_err_t * tcw_sock_t) :=
  if sock_proto sock =? EST_CLIENT_PROXY_NONE then tcw_direct_close sock else tcw_curl_close sock.

End Sockets.

Section Props.
Context {L : NetLib}.

(** ** Runs *)

Lemma N_bind_run {A B} (m : N A) (f : A -> N B) s a s1 : m s = Some (a, s1) -> (m ≫= f) s = f a s1.
Proof. intros H. unfold mbind, N_bind. by rewrite H. Qed.

Ltac step := rewrite (N_bind_run _ _ _ _ _ eq_refl).

(** What a call that opens nothing leaves alone. *)
Record quiet (s s' : os) : Prop := {
  q_fds : os_fds s' = os_fds s;
  q_handles : os_handles s' = os_handles s;
  q_contacts : os_contacts s' = os_contacts s;
  q_close : s_close s' = s_close s
}.

#[global] Instance quiet_preorder : PreOrder quiet.
Proof. split; [by intros s; split|]. intros s1 s2 s3 [] []. split; congruence. Qed.

(** ** Direct connections *)

(** Descriptors are new, and an address is found where the lookup succeeds. *)
Definition net_ok : Prop :=
  (forall fds, 0 <= new_fd fds /\ ~ In (new_fd fds) fds) /\ forall h p, getaddrinfo h p <> Some [].

Lemma remove_new fd fds : ~ In fd fds -> remove_fd fd (fd :: fds) = fds.
Proof.
  intros H. unfold remove_fd. cbn [List.filter]. rewrite Z.eqb_refl. cbn [negb].
  induction fds as [|d fds IH]; [done|]. cbn [List.filter]. rewrite (proj2 (Z.eqb_neq d fd)).
  - cbn [negb]. f_equal. apply IH. intros Hi. apply H. by right.
  - intros ->. apply H. by left.
Qed.

(** The contacts of a direct connection: addresses in order, the last one answers. *)
Record direct_ok (addrs : list sockaddr) (s : os) (ret : tcw_err_t) (fd : option Z) (s' : os) : Prop := {
  d_tried : exists tried, os_contacts s' = os_contacts s ++ map Contact tried /\ sublist tried addrs;
  d_handles : os_handles s' = os_handles s;
  d_close : s_close s' = s_close s;
  d_fds : (ret = TCW_OK /\ exists d, fd = Some d /\ os_fds s' = d :: os_fds s /\ 0 <= d /\ ~ In d (os_fds s)) \/
          (ret <> TCW_OK /\ fd = Some (-1) /\ os_fds s' = os_fds s)
}.

Lemma direct_loop_run (Hnet : net_ok) addrs : forall ret fd s, s_close s = [] ->
  addrs <> [] \/ (ret <> TCW_OK /\ fd = Some (-1)) ->
  exists ret' fd' s', direct_loop addrs ret fd s = Some ((ret', fd'), s') /\ direct_ok addrs s ret' fd' s'.
Proof.
  induction addrs as [|a addrs IH]; intros ret fd s Hc Hne.
  { destruct Hne as [?|[Hr ->]]; [done|]. exists ret, (Some (-1)), s. split; [done|].
    split; [exists []; by rewrite app_nil_r|done|done|by right]. }
  cbn [direct_loop]. unfold mbind at 1, N_bind at 1, socket.
  destruct (next (s_socket s)) as [[|] r1].
  - destruct (proj1 Hnet (os_fds s)) as [H0 Hnew]. set (d := new_fd (os_fds s)) in *.
    unfold mbind at 1, N_bind at 1, connect. cbn [s_connect os_fds os_handles os_contacts s_close].
    destruct (next (s_connect s)) as [[|] r2].
    + eexists _, _, _. split; [reflexivity|]. split; [|done|done|by left; split; [|exists d]].
      exists [a]. split; [done|]. by apply sublist_skip, sublist_nil_l.
    + unfold mbind at 1, N_bind at 1, CLOSE_SOCKET. cbn [s_close os_fds os_handles os_contacts]. rewrite Hc. cbn [next].
      rewrite remove_new by done.
      match goal with |- context [direct_loop addrs _ _ ?s1] => set (s2 := s1) end.
      destruct (IH TCW_ERR_CONNECT (Some SOCK_INVALID) s2) as (ret' & fd' & s' & Hrun & Hok); [done|by right|].
      exists ret', fd', s'. split; [exact Hrun|].
      destruct Hok as [(tried & Ht & Hsub) Hh Hcl Hf]. cbn in Ht, Hh, Hcl, Hf. split.
      * exists (a :: tried). rewrite Ht. split; [by rewrite <- app_assoc|]. by apply sublist_skip.
      * done.
      * by rewrite Hcl, Hc.
      * done.
  - cbv beta iota zeta. match goal with |- context [direct_loop addrs _ _ ?s1] => set (s2 := s1) end.
    destruct (IH TCW_ERR_SOCKET (Some (-1)) s2) as (ret' & fd' & s' & Hrun & Hok); [exact Hc|by right|].
    exists ret', fd', s'. split; [exact Hrun|].
    destruct Hok as [(tried & Ht & Hsub) Hh Hcl Hf]. cbn in Ht, Hh, Hcl, Hf. split; [|done..].
    exists tried. split; [done|]. by apply sublist_cons.
Qed.

(** ** Connections through a proxy *)

Definition fmt_hu_short port : (length (fmt_hu port) <= 5)%nat.
Proof. apply fmt_d_short. pose proof (Z.mod_pos_bound port 65536 ltac:(lia)). cbn. lia. Qed.

(** The URL is that of the server, as if it had no IPv6 address, and is not cut. *)
Lemma tcw_url_text host port : tcw_url host port = Some (lit "http://" ++ host ++ lit ":" ++ fmt_hu port).
Proof.
  unfold tcw_url. change (strstr_s [] _ _ _) with (ESRCH, @None nat). cbn iota beta.
  change (ESRCH =? 0) with false. cbn [andb]. pose proof (fmt_hu_short port).
  assert (Hl : length (lit "http://" ++ host ++ lit ":" ++ fmt_hu port) = (8 + length host + length (fmt_hu port))%nat).
  { rewrite !length_app. cbn [length lit]. lia. }
  rewrite Hl. unfold TCW_URL_SCHEMA_PORT_SIZE. rewrite Z.geb_leb, (proj2 (Z.leb_gt _ _)) by lia.
  rewrite snprintf_fits by (rewrite Hl; lia). done.
Qed.

(** The options of a connection, in the order they are set. *)
Definition proxy_options (opts : tcw_opts_t) (host : bytes) (port : Z) : list curl_option :=
  [CURLOPT_CONNECT_ONLY 1; CURLOPT_URL (lit "http://" ++ host ++ lit ":" ++ fmt_hu port);
   CURLOPT_PROXY (opt_proxy_host opts); CURLOPT_PROXYPORT (opt_proxy_port opts);
   CURLOPT_PROXYTYPE (curl_proxy_type (opt_proxy_proto opts))]
  ++ (if opt_proxy_proto opts =? EST_CLIENT_PROXY_HTTP_TUNNEL then [CURLOPT_HTTPPROXYTUNNEL 1] else [])
  ++ [CURLOPT_PROXYAUTH (Z.lor CURLAUTH_BASIC CURLAUTH_ONLY)]
  ++ (match opt_proxy_user opts with
      | None => []
      | Some (user, password) =>
          [CURLOPT_PROXYUSERNAME user; CURLOPT_PROXYPASSWORD password]
          ++ (if curl_auth_bits (opt_proxy_auth opts) =? 0 then []
              else [CURLOPT_PROXYAUTH (curl_auth_bits (opt_proxy_auth opts))])
      end)
  ++ [CURLOPT_NOSIGNAL 1].

(** What the steps up to [done] leave: no transfer, or one with all the options. *)
Record curl_ok (options : list curl_option) (s : os) (ret : tcw_err_t) (c : curl) (s' : os) : Prop := {
  c_handles : os_handles s' = os_handles s;
  c_fds : (curl_fd c = None /\ ret <> TCW_OK /\ os_fds s' = os_fds s) \/
          (exists d, curl_fd c = Some d /\ os_fds s' = d :: os_fds s /\ 0 <= d /\ ~ In d (os_fds s));
  c_contacts : (os_contacts s' = os_contacts s /\ ret <> TCW_OK) \/
               os_contacts s' = os_contacts s ++ [ContactThrough options]
}.

Definition curls (options : list curl_option) (m : N curl_result) : Prop :=
  forall s, exists ret c s', m s = Some ((ret, c), s') /\ curl_ok options s ret c s'.

Lemma curls_fail options set ret : ret <> TCW_OK -> curls options (mret (ret, Curl set None)).
Proof. intros Hr s. exists ret, (Curl set None), s. split; [done|]. split; [done|by left|by left]. Qed.

Lemma curls_setopt options o set k : curls options (k (set ++ [o])) -> curls options (setopt o set k).
Proof. intros H. unfold setopt. destruct (_ =? _); [done|]. by apply curls_fail. Qed.

(** A call that changes nothing but its script. *)
Lemma curls_quiet {A} options (m : N A) f :
  (forall s, exists a s1, m s = Some (a, s1) /\ quiet s s1) -> (forall a, curls options (f a)) -> curls options (m ≫= f).
Proof.
  intros Hm Hf s. destruct (Hm s) as (a & s1 & E & Q). destruct (Hf a s1) as (ret & c & s' & E' & [H1 H2 H3]).
  exists ret, c, s'. split; [by rewrite (N_bind_run _ _ _ _ _ E)|]. destruct Q as [Q1 Q2 Q3 Q4].
  rewrite Q1 in *. rewrite Q3 in *. split; [congruence|done|done].
Qed.

Lemma calloc_quiet s : exists a s1, calloc s = Some (a, s1) /\ quiet s s1.
Proof. unfold calloc. destruct (next _) as [b r]. do 2 eexists. split; [reflexivity|by split]. Qed.

Lemma blocking_quiet s : exists a s1, set_blocking_mode s = Some (a, s1) /\ quiet s s1.
Proof.
  unfold set_blocking_mode, fcntl_get, fcntl_set, mbind, N_bind.
  destruct (next (s_get s)) as [[|] r]; cbn [negb s_set].
  - destruct (next (s_set s)) as [b r']. do 2 eexists. split; [reflexivity|by split].
  - do 2 eexists. split; [reflexivity|by split].
Qed.

Lemma request_curls (Hnet : net_ok) options : curls options (curl_request options).
Proof.
  intros s. unfold curl_request. unfold mbind at 1, N_bind at 1, perform.
  unfold mbind at 1, N_bind at 1, get_fds. destruct (proj1 Hnet (os_fds s)) as [H0 Hnew].
  set (d := new_fd (os_fds s)) in *. cbn [os_fds].
  destruct (curl_easy_perform options =? CURLE_OK); cbn [negb head].
  - match goal with |- context [OS (d :: os_fds s) ?h ?c ?a ?b ?e ?f ?g ?i ?j] => set (s1 := OS (d :: os_fds s) h c a b e f g i j) end.
    assert (Hdone : forall ret s', quiet s1 s' -> curl_ok options s ret (Curl options (Some d)) s').
    { intros ret s' [Q1 Q2 Q3 _]. split; [by rewrite Q2| |right; by rewrite Q3].
      right. exists d. by rewrite Q1. }
    destruct (negb _); [eexists _, _, _; split; [reflexivity|by apply Hdone]|].
    destruct (negb _); [eexists _, _, _; split; [reflexivity|by apply Hdone]|].
    destruct (blocking_quiet s1) as (ret & s2 & E & Q). eexists _, _, _.
    rewrite (N_bind_run _ _ _ _ _ E). split; [reflexivity|by apply Hdone].
  - eexists _, _, _. split; [reflexivity|]. split; [done| |by right].
    left. split; [done|]. split; [|done]. by destruct (_ || _).
Qed.

Lemma steps_curls (Hnet : net_ok) opts host port : curls (proxy_options opts host port) (curl_steps opts host port).
Proof.
  unfold curl_steps. apply curls_setopt. apply curls_quiet; [apply calloc_quiet|]. intros ok.
  destruct (negb ok); [by apply curls_fail|]. rewrite tcw_url_text. unfold proxy_options, curl_credentials.
  do 4 apply curls_setopt. cbn [app].
  assert (Hlast : forall set, set ++ [CURLOPT_NOSIGNAL 1] = proxy_options opts host port ->
    curls (proxy_options opts host port) (setopt (CURLOPT_NOSIGNAL 1) set curl_request)).
  { intros set E. apply curls_setopt. rewrite <- E. by apply request_curls. }
  unfold proxy_options in Hlast.
  destruct (opt_proxy_proto opts =? _); [apply curls_setopt|]; apply curls_setopt;
    (destruct (opt_proxy_user opts) as [[user password]|];
     [do 2 apply curls_setopt; cbv zeta; destruct (curl_auth_bits _ =? 0); [|apply curls_setopt]|]);
    apply Hlast; reflexivity.
Qed.

(** ** The connection of the client *)

(** What a connection leaves and closing it gives back. *)
Definition owns_one (s : os) (ret : tcw_err_t) (sock : tcw_sock_t) (s' : os) : Prop :=
  (ret = TCW_OK ->
    0 <= sock_fd sock /\ ~ In (sock_fd sock) (os_fds s) /\ os_fds s' = sock_fd sock :: os_fds s /\
    exists s2, tcw_close sock s' = Some ((TCW_OK, Sock None (sock_proto sock) SOCK_INVALID), s2) /\
      os_fds s2 = os_fds s /\ os_handles s2 = os_handles s) /\
  (ret <> TCW_OK -> os_fds s' = os_fds s /\ os_handles s' = os_handles s).

Lemma direct_close_run d fds proto s : proto = EST_CLIENT_PROXY_NONE -> s_close s = [] ->
  os_fds s = d :: fds -> ~ In d fds ->
  exists s2, tcw_close (Sock None proto d) s = Some ((TCW_OK, Sock None proto SOCK_INVALID), s2) /\
    os_fds s2 = fds /\ os_handles s2 = os_handles s.
Proof.
  intros -> Hc Hf Hd. unfold tcw_close, tcw_direct_close. cbn [sock_proto sock_fd]. rewrite Z.eqb_refl.
  assert (Hv : fd_is_valid d s = Some (true, s)).
  { unfold fd_is_valid, get_fds, mbind, N_bind, mret, N_ret. rewrite Hf. cbn [existsb]. by rewrite Z.eqb_refl. }
  rewrite (N_bind_run _ _ _ _ _ Hv).
  assert (Hr : exists s2, CLOSE_SOCKET d s = Some (true, s2) /\ os_fds s2 = fds /\ os_handles s2 = os_handles s).
  { unfold CLOSE_SOCKET. rewrite Hc. cbn [next]. rewrite Hf, remove_new by done. eexists. split; [reflexivity|done]. }
  destruct Hr as (s2 & Hr & Hrest). rewrite (N_bind_run _ _ _ _ _ Hr). exists s2. by split.
Qed.

Lemma direct_connect_run (Hnet : net_ok) proto host port s : s_close s = [] -> proto = EST_CLIENT_PROXY_NONE ->
  exists ret sock s', tcw_direct_connect (Sock None proto SOCK_INVALID) host port s = Some ((ret, sock), s') /\
    owns_one s ret sock s' /\
    exists tried, os_contacts s' = os_contacts s ++ map Contact tried /\
      sublist tried (default [] (getaddrinfo host (fmt_hu port))).
Proof.
  intros Hc Hp. unfold tcw_direct_connect. pose proof (fmt_hu_short port).
  rewrite (proj2 (Z.ltb_ge _ 0)), Z.geb_leb, (proj2 (Z.leb_gt 10 _)) by lia. cbn [orb].
  destruct (getaddrinfo host (fmt_hu port)) as [addrs|] eqn:Ea.
  2:{ eexists _, _, s. split; [reflexivity|]. split; [by split|]. exists []. by rewrite app_nil_r. }
  destruct (direct_loop_run Hnet addrs TCW_OK None s Hc) as (ret & fd & s' & Hrun & [Ht Hh Hcl Hf]).
  { left. intros ->. by apply (proj2 Hnet) in Ea. }
  rewrite (N_bind_run _ _ _ _ _ Hrun). destruct Hf as [(-> & d & -> & Hfds & H0 & Hnew)|(Hr & -> & Hfds)].
  - rewrite Z.geb_leb, (proj2 (Z.leb_le 0 d)) by done. eexists _, _, s'. split; [reflexivity|]. split; [|exact Ht].
    split; [|done]. intros _. cbn [sock_fd set_sock_fd sock_proto curl_handle]. split; [done|]. split; [done|].
    split; [done|]. destruct (direct_close_run d (os_fds s) proto s') as (s2 & E & F & G); try done; [by rewrite Hcl|].
    exists s2. split; [exact E|]. split; [done|congruence].
  - eexists _, _, s'. split; [reflexivity|]. split; [|exact Ht]. by split.
Qed.

Lemma cleanup_run c proto fd s : exists s2,
  tcw_curl_close (Sock (Some c) proto fd) s = Some ((TCW_OK, Sock None proto SOCK_INVALID), s2) /\
  os_handles s2 = pred (os_handles s) /\ os_contacts s2 = os_contacts s /\
  os_fds s2 = match curl_fd c with Some d => remove_fd d (os_fds s) | None => os_fds s end.
Proof. eexists. split; [reflexivity|done]. Qed.

Lemma curl_connect_run (Hnet : net_ok) opts host port s : opt_proxy_proto opts <> EST_CLIENT_PROXY_NONE ->
  exists ret sock s',
    tcw_curl_connect (Sock None (opt_proxy_proto opts) SOCK_INVALID) opts host port s = Some ((ret, sock), s') /\
    owns_one s ret sock s' /\
    ((os_contacts s' = os_contacts s /\ ret <> TCW_OK) \/
     os_contacts s' = os_contacts s ++ [ContactThrough (proxy_options opts host port)]).
Proof.
  intros Hp. unfold tcw_curl_connect. unfold mbind at 1, N_bind at 1, curl_easy_init.
  destruct (next (s_init s)) as [[|] r]; cbn [negb].
  2:{ eexists _, _, _. split; [reflexivity|]. split; [by split|]. by left. }
  match goal with |- context [curl_steps opts host port] => idtac end.
  set (s1 := OS (os_fds s) (S (os_handles s)) _ _ _ _ _ _ _ _).
  destruct (steps_curls Hnet opts host port s1) as (ret & c & s2 & E & [Hh Hf Hc]).
  assert (Hbody : forall sock, (curl_steps opts host port ≫= (fun '(ret, c) =>
      mret (M := N) (ret, Sock (Some c) (opt_proxy_proto opts) (match curl_fd c with Some fd => fd | None => sock end)))) s1 =
    Some ((ret, Sock (Some c) (opt_proxy_proto opts) (match curl_fd c with Some fd => fd | None => sock end)), s2)).
  { intros sock. by rewrite (N_bind_run _ _ _ _ _ E). }
  cbn [sock_proto sock_fd]. rewrite (N_bind_run _ _ _ _ _ (Hbody SOCK_INVALID)).
  destruct (cleanup_run c (opt_proxy_proto opts) (match curl_fd c with Some fd => fd | None => SOCK_INVALID end) s2)
    as (s3 & Ec & H3 & C3 & F3).
  assert (Hfds : os_fds s3 = os_fds s).
  { rewrite F3. destruct Hf as [(-> & _ & ->)|(d & -> & -> & _ & Hd)]; [done|by apply remove_new]. }
  assert (Hhandles : os_handles s3 = os_handles s) by (rewrite H3, Hh; done).
  destruct (bool_decide (ret = TCW_OK)) eqn:Er; b2p.
  - subst ret. eexists _, _, s2. split; [reflexivity|]. split; [|exact Hc]. split; [|done]. intros _.
    destruct Hf as [(_ & ? & _)|(d & Hd & Hfd & H0 & Hnew)]; [done|]. rewrite Hd in *. cbn [sock_fd].
    split; [done|]. split; [done|]. split; [done|]. exists s3. split; [|done].
    unfold tcw_close. cbn [sock_proto]. rewrite (proj2 (Z.eqb_neq _ _)) by done. exact Ec.
  - rewrite (N_bind_run _ _ _ _ _ Ec). eexists _, _, s3. split; [reflexivity|]. split; [by split|].
    rewrite C3. destruct Hc as [[-> _]| ->]; [by left|by right].
Qed.

(** C16. The client's socket.  When closing a descriptor does not fail, an attempt always
    ends: with TCW_OK it leaves exactly one new open descriptor, the socket, and closing it
    gives back the descriptor and the handle; with an error it leaves nothing behind.  A
    direct connection tries addresses of the server, in their order.  With a proxy
    nothing is contacted but by one transfer of libcurl, with the configured proxy, its
    type and credentials, to the server's address; without that there is no success. *)
Theorem tcw_connect_owns_one opts host port s :
  net_ok -> s_close s = [] ->
  exists ret sock s', tcw_connect opts host port s = Some ((ret, sock), s') /\
    owns_one s ret sock s' /\
    if opt_proxy_proto opts =? EST_CLIENT_PROXY_NONE
    then exists tried, os_contacts s' = os_contacts s ++ map Contact tried /\
           sublist tried (default [] (getaddrinfo host (fmt_hu port)))
    else (os_contacts s' = os_contacts s /\ ret <> TCW_OK) \/
         os_contacts s' = os_contacts s ++ [ContactThrough (proxy_options opts host port)].
Proof.
  intros Hnet Hc. unfold tcw_connect. cbn [sock_proto].
  destruct (Z.eqb_spec (opt_proxy_proto opts) EST_CLIENT_PROXY_NONE); cbn [negb].
  - by apply direct_connect_run.
  - by apply curl_connect_run.
Qed.
End Props.
