(* ===== verification/ClientHttpProps.v ===== *)
(** * ClientHttpProps: how the client takes an answer apart

    The header parser of the client on a printed header, the end of the header, the
    decimal Content-Length, and the reads of an answer that arrives in pieces.

    An answer of the embedded server, cut into reads in any way, is given to the caller
    of the client's reader as the payload the server sent; and what the client takes
    from any answer at all. *)

From S2P Require Import Prelude.
From S2P Require Import SafeC.
From S2P Require Import EstTypes.
From S2P Require Import EstState.
From S2P Require Import EstUtil.
From S2P Require Import EstUtilFacts.
From S2P Require Import HttpParse.
From S2P Require Import HttpIO.
From S2P Require Import MultipartParser.
From S2P Require Import ClientHttp.
From S2P Require Import EstLogic.
From S2P Require Import HttpParseProps.
From S2P Require Import ServerResponseProps.

(** ** The end of the header *)

Definition header_delim : bytes := crlf ++ crlf.

Lemma strstr_step c s pat i :
  strstr_from (c :: s) pat i = if starts_with pat (c :: s) then Some i else strstr_from s pat (S i).
Proof. done. Qed.

Lemma strstr_skip_text w s i :
  text w -> strstr_from (w ++ s) header_delim i = strstr_from s header_delim (i + length w)%nat.
Proof.
  intros Hw. revert i. induction Hw as [|c w Hc Hw IH]; intros i; [by rewrite Nat.add_0_r|].
  cbn [app strstr_from length]. replace (starts_with header_delim (c :: w ++ s)) with false.
  - rewrite IH. f_equal. lia.
  - unfold header_delim. cbn [app crlf starts_with]. destruct (13 =? c) eqn:E; [|done].
    b2p. subst c. unfold text_char in Hc. lia.
Qed.

(** Every header line ends before the next one or the end of the header. *)
Definition lines_then (ls : list bytes) (b : bytes) : bytes := lines_text ls ++ crlf ++ b.

Lemma strstr_lines ls b i :
  ls <> [] -> Forall line_ok ls ->
  strstr_from (lines_then ls b) header_delim i = Some (i + length (lines_text ls) - 2)%nat.
Proof.
  intros Hne Hok. revert i. induction Hok as [|l ls [Hl Ht] Hok IH]; intros i; [done|].
  unfold lines_then, lines_text. cbn [map concat]. rewrite <- !app_assoc, strstr_skip_text by done.
  rewrite length_app, length_app. change (length crlf) with 2%nat.
  destruct ls as [|l2 ls].
  - cbn [map concat app]. cbn [crlf app strstr_from]. simpl. f_equal. lia.
  - assert (Hs : exists c s, concat (map (fun l => l ++ crlf) (l2 :: ls)) ++ crlf ++ b = c :: s /\ text_char c).
    { apply Forall_cons_1 in Hok as [[Hl2 Ht2] _]. destruct l2 as [|c l2]; [done|].
      eexists c, _. split; [reflexivity|]. by apply Forall_cons_1 in Ht2 as [? _]. }
    specialize (IH ltac:(done)). unfold lines_then, lines_text in IH.
    destruct Hs as (c & s & Es & Hc). rewrite Es in *.
    assert (c <> 13) by (unfold text_char in Hc; lia).
    change (crlf ++ c :: s) with (13 :: 10 :: c :: s). rewrite strstr_step, (strstr_step 10).
    replace (starts_with header_delim (13 :: 10 :: c :: s)) with false
      by (unfold header_delim; cbn [app crlf starts_with]; by rewrite (proj2 (Z.eqb_neq 13 c)) by done).
    change (starts_with header_delim (10 :: c :: s)) with false. cbn match.
    rewrite IH. f_equal.
    assert (2 <= length (concat (map (fun l => l ++ crlf) (l2 :: ls))))%nat
      by (cbn [map concat]; rewrite !length_app; simpl; lia).
    lia.
Qed.

Lemma lines_no_nul ls : Forall line_ok ls -> no_nul (lines_text ls).
Proof.
  unfold lines_text. induction 1 as [|l ls [_ Ht] _ IH]; [constructor|]. cbn [map concat].
  apply no_nul_app; [|done]. apply no_nul_app; [by apply text_no_nul|by repeat constructor].
Qed.

Lemma header_end_lines ls b :
  ls <> [] -> Forall line_ok ls ->
  header_end (lines_then ls b) 0 = Some (length (lines_text ls) - 2)%nat.
Proof.
  intros Hne Hok. unfold header_end, strstr_s, strstr, cstr_at. rewrite drop_0.
  rewrite (cstr_id (cstr _)) by apply cstr_no_nul.
  assert (E : cstr (lines_then ls b) = lines_then ls (cstr b)).
  { unfold lines_then. rewrite cstr_app_no_nul by (by apply lines_no_nul). f_equal. }
  change (cstr (crlf ++ crlf)) with header_delim. rewrite E.
  by rewrite strstr_lines.
Qed.

(** ** The headers *)

(** A line and its end before [r]: the delimiters are blanked. *)
Lemma skip_line_blanks pre w blanks r :
  text w -> fits (pre ++ w ++ 13 :: blanks ++ r) -> Forall (fun c => In c crlf) blanks ->
  (rd r 0 = 0 \/ ~ In (rd r 0) crlf) ->
  skip (pre ++ w ++ 13 :: blanks ++ r) (length pre) crlf
  = (pre ++ w ++ replicate (S (length blanks)) 0 ++ r,
     (length pre + length w + S (length blanks))%nat, length pre).
Proof.
  intros Hw Hf Hb Hr. unfold skip. apply skip_quoted_word; try done.
  - by apply text_no_nul.
  - eapply Forall_impl; [|exact Hb]. intros c [<-|[<-|[]]]; done.
  - apply text_not_in; [done|apply crlf_not_text].
  - by left.
Qed.

(** A printed header field before a line that is not empty or does not start with a
    line end: its name, its value and where parsing goes on. *)
Lemma parse_field pre nm v blanks r :
  header_ok (nm, v) -> fits (pre ++ nm ++ lit ": " ++ v ++ 13 :: blanks ++ r) ->
  Forall (fun c => In c crlf) blanks -> (rd r 0 = 0 \/ ~ In (rd r 0) crlf) ->
  let pre1 := pre ++ nm ++ [0; 0] in
  let buf := pre1 ++ v ++ replicate (S (length blanks)) 0 ++ r in
  skip_quoted (pre ++ nm ++ lit ": " ++ v ++ 13 :: blanks ++ r) (length pre) (lit ":") (lit " ") 0
    = (pre1 ++ v ++ 13 :: blanks ++ r, length pre1, length pre) /\
  skip (pre1 ++ v ++ 13 :: blanks ++ r) (length pre1) crlf
    = (buf, (length pre1 + length v + S (length blanks))%nat, length pre1) /\
  rd buf (length pre) <> 0.
Proof.
  intros (Hne & Ht & Hcol & Hv & Hsp) Hf Hb Hr pre1 buf. cbn [fst snd] in *. split_and!.
  - rewrite (skip_quoted_word pre nm chr_colon [32] (v ++ 13 :: blanks ++ r)); try done.
    + unfold pre1. cbn [length]. rewrite !length_app. cbn [length replicate]. rewrite <- !app_assoc.
      cbn [app]. f_equal. f_equal. lia.
    + by apply text_no_nul.
    + by repeat constructor.
    + apply Forall_forall. intros c Hc [<-|[]]. by apply Hcol.
    + by left.
    + by repeat constructor.
    + right. intros [E|[]]. destruct v as [|c v]; [discriminate E|]. by apply Hsp.
  - apply skip_line_blanks; try done. eapply fits_mono; [|exact Hf].
    unfold pre1. rewrite !length_app. simpl. lia.
  - unfold buf, pre1. rewrite <- !app_assoc, <- (Nat.add_0_r (length pre)), rd_app_r.
    destruct nm as [|c nm]; [done|]. simpl. apply Forall_cons_1 in Ht as [Hc _].
    apply text_good in Hc. tauto.
Qed.

Definition head_text (hs : list (bytes * bytes)) : bytes := concat (map header_text hs).

Lemma head_text_cons h hs : head_text (h :: hs) = fst h ++ lit ": " ++ snd h ++ crlf ++ head_text hs.
Proof. unfold head_text, header_text. cbn [map concat]. by rewrite <- !app_assoc. Qed.

(** The offsets the parser returns, read as strings. *)
Abbreviation strings buf := (map (fun h => (cstr_at buf (fst h), cstr_at buf (snd h)))).

Lemma strings_field pre nm v z r offs hs :
  header_ok (nm, v) ->
  let buf := pre ++ nm ++ [0; 0] ++ v ++ 0 :: z ++ r in
  strings buf offs = hs ->
  strings buf ((length pre, length (pre ++ nm ++ [0; 0])) :: offs) = (nm, v) :: hs.
Proof.
  intros (_ & Ht & _ & Hv & _) buf E. cbn [map fst snd] in *. rewrite E. f_equal. f_equal.
  - apply cstr_at_mid; [by apply text_no_nul|done].
  - unfold buf. replace (pre ++ nm ++ [0; 0] ++ v ++ 0 :: z ++ r)
      with ((pre ++ nm ++ [0; 0]) ++ v ++ 0 :: z ++ r) by (by rewrite <- !app_assoc).
    apply cstr_at_mid; [by apply text_no_nul|done].
Qed.

Lemma rsp_headers_loop_text hs : forall n pre b,
  (length hs <= n)%nat -> hs <> [] -> Forall header_ok hs ->
  fits (pre ++ head_text hs ++ crlf ++ b) -> (rd b 0 = 0 \/ ~ In (rd b 0) crlf) ->
  exists z offs,
    rsp_headers_loop n (Some (length pre + length (head_text hs) - 2)%nat)
      (pre ++ head_text hs ++ crlf ++ b) (length pre)
    = (pre ++ z ++ b, (length pre + length z)%nat, offs) /\
    length z = (length (head_text hs) + 2)%nat /\ strings (pre ++ z ++ b) offs = hs.
Proof.
  induction hs as [|[nm v] hs IH]; intros n pre b Hn Hne Hok Hf Hb; [done|].
  destruct n as [|n]; [simpl in Hn; lia|]. apply Forall_cons_1 in Hok as [Hh Hok].
  cbn [rsp_headers_loop]. rewrite head_text_cons in *. cbn [fst snd] in *.
  rewrite <- !app_assoc in *.
  set (pre1 := pre ++ nm ++ [0; 0]).
  assert (Lpre1 : length pre1 = (length pre + length nm + 2)%nat)
    by (unfold pre1; rewrite !length_app; simpl; lia).
  destruct hs as [|h2 hs].
  - change (crlf ++ head_text [] ++ crlf ++ b) with (13 :: [10; 13; 10] ++ b) in *.
    destruct (parse_field pre nm v [10; 13; 10] b) as (E1 & E2 & E3); [done|done| |done|].
    { repeat constructor; simpl; tauto. }
    fold pre1 in E1, E2, E3. rewrite E1, E2. rewrite (proj2 (Z.eqb_neq _ _) E3).
    unfold past_header_end.
    replace (_ <? _)%nat with true
      by (symmetry; apply Nat.ltb_lt; rewrite !length_app; simpl; lia).
    exists (nm ++ [0; 0] ++ v ++ 0 :: [0; 0; 0]), [(length pre, length pre1)].
    split; [|split].
    + unfold pre1. rewrite <- !app_assoc. f_equal. f_equal. rewrite !length_app. simpl. lia.
    + rewrite !length_app. simpl. lia.
    + rewrite <- !app_assoc. cbn [app]. exact (strings_field pre nm v [0; 0; 0] b [] [] Hh eq_refl).
  - assert (Hnext : ~ In (rd (head_text (h2 :: hs) ++ crlf ++ b) 0) crlf).
    { apply Forall_cons_1 in Hok as [(Hn2 & Ht2 & _) _]. rewrite head_text_cons.
      destruct h2 as [[|c nm2] v2]; [done|]. simpl in Ht2. apply Forall_cons_1 in Ht2 as [Hc _].
      cbn [fst app]. intros Hin. by apply crlf_not_text in Hin. }
    change (crlf ++ head_text (h2 :: hs) ++ crlf ++ b)
      with (13 :: [10] ++ head_text (h2 :: hs) ++ crlf ++ b) in *.
    destruct (parse_field pre nm v [10] (head_text (h2 :: hs) ++ crlf ++ b)) as (E1 & E2 & E3); [done|done| |by right|].
    { repeat constructor; simpl; tauto. }
    fold pre1 in E1, E2, E3. rewrite E1, E2. rewrite (proj2 (Z.eqb_neq _ _) E3).
    set (pre2 := pre1 ++ v ++ [0; 0]).
    replace (pre1 ++ v ++ replicate (S (length [10])) 0 ++ head_text (h2 :: hs) ++ crlf ++ b)
      with (pre2 ++ head_text (h2 :: hs) ++ crlf ++ b) in * by (unfold pre2; by rewrite <- !app_assoc).
    assert (Lpre2 : length pre2 = (length pre1 + length v + 2)%nat)
      by (unfold pre2; rewrite !length_app; simpl; lia).
    assert (Hlen : (4 <= length (head_text (h2 :: hs)))%nat)
      by (rewrite head_text_cons, !length_app; simpl; lia).
    cbn [length]. rewrite <- Lpre2. unfold past_header_end.
    replace (length pre + length (nm ++ lit ": " ++ v ++ crlf ++ head_text (h2 :: hs)) - 2)%nat
      with (length pre2 + length (head_text (h2 :: hs)) - 2)%nat by (rewrite !length_app; simpl; lia).
    replace (_ <? _)%nat with false by (symmetry; apply Nat.ltb_ge; lia).
    destruct (IH n pre2 b) as (z & offs & E & Lz & Es); [simpl in *; lia|done|done| |done|].
    { eapply fits_mono; [|exact Hf]. unfold pre2, pre1. rewrite !length_app. simpl. rewrite !length_app. simpl. lia. }
    rewrite E. exists (nm ++ [0; 0] ++ v ++ 0 :: 0 :: z), ((length pre, length pre1) :: offs).
    assert (Eb : pre2 ++ z ++ b = pre ++ nm ++ [0; 0] ++ v ++ 0 :: (0 :: z) ++ b)
      by (unfold pre2, pre1; rewrite <- !app_assoc; done).
    split; [|split].
    + rewrite Eb, <- !app_assoc. f_equal. f_equal. rewrite !length_app. simpl. lia.
    + rewrite !length_app. simpl. rewrite Lz. lia.
    + rewrite <- !app_assoc. rewrite Eb in Es. exact (strings_field pre nm v (0 :: z) b offs _ Hh Es).
Qed.

Definition header_line (h : bytes * bytes) : bytes := fst h ++ lit ": " ++ snd h.

Lemma head_text_lines hs : head_text hs = lines_text (map header_line hs).
Proof.
  unfold head_text, lines_text. rewrite map_map. f_equal. apply map_ext. intros [n v].
  unfold header_text, header_line. cbn [fst snd]. by rewrite <- !app_assoc.
Qed.

Lemma header_lines_ok hs : Forall header_ok hs -> Forall line_ok (map header_line hs).
Proof.
  intros H. apply Forall_map. eapply Forall_impl; [|exact H].
  intros [n v] (Hne & Ht & _ & Hv & _). unfold header_line. cbn [fst snd] in *. split.
  - by destruct n.
  - apply Forall_app. split; [done|]. apply Forall_app. split; [by apply lit_text|done].
Qed.

(** The header of an answer, whatever comes behind it. *)
Lemma rsp_headers_text status hs b :
  status <> [] -> text status -> hs <> [] -> Forall header_ok hs -> (length hs <= MAX_HEADERS)%nat ->
  fits (status ++ crlf ++ head_text hs ++ crlf ++ b) -> (rd b 0 = 0 \/ ~ In (rd b 0) crlf) ->
  exists z offs, rsp_headers (status ++ crlf ++ head_text hs ++ crlf ++ b) = (z ++ b, length z, offs) /\
    length z = length (status ++ crlf ++ head_text hs ++ crlf) /\ hdr_strings (z ++ b) offs = hs.
Proof.
  intros Hs Ht Hne Hok Hn Hf Hb. unfold rsp_headers.
  assert (E : status ++ crlf ++ head_text hs ++ crlf ++ b = lines_then (status :: map header_line hs) b).
  { unfold lines_then, lines_text. cbn [map concat]. rewrite <- !app_assoc. do 2 f_equal.
    rewrite head_text_lines. done. }
  rewrite E, header_end_lines, <- E; [|done|constructor; [done|by apply header_lines_ok]].
  assert (Hnext : ~ In (rd (head_text hs ++ crlf ++ b) 0) crlf).
  { destruct hs as [|h2 hs]; [done|]. apply Forall_cons_1 in Hok as [(Hn2 & Ht2 & _) _]. rewrite head_text_cons.
    destruct h2 as [[|c nm2] v2]; [done|]. simpl in Ht2. apply Forall_cons_1 in Ht2 as [Hc _].
    cbn [fst app]. intros Hin. by apply crlf_not_text in Hin. }
  change (crlf ++ head_text hs ++ crlf ++ b) with (13 :: [10] ++ head_text hs ++ crlf ++ b) in *.
  assert (E1 := skip_line_blanks [] status [10] (head_text hs ++ crlf ++ b) Ht Hf
                  ltac:(repeat constructor; simpl; tauto) (or_intror Hnext)).
  change ([] ++ status ++ 13 :: [10] ++ head_text hs ++ crlf ++ b)
    with (status ++ 13 :: [10] ++ head_text hs ++ crlf ++ b) in E1. cbn [length] in E1. rewrite E1. clear E1 E.
  set (pre := status ++ [0; 0]).
  assert (Lp : length pre = (length status + 2)%nat) by (unfold pre; rewrite length_app; done).
  replace ([] ++ status ++ replicate 2 0 ++ head_text hs ++ crlf ++ b)
    with (pre ++ head_text hs ++ crlf ++ b) by (unfold pre; by rewrite <- !app_assoc).
  replace (0 + length status + 2)%nat with (length pre) by lia.
  replace (length (lines_text (status :: map header_line hs)) - 2)%nat
    with (length pre + length (head_text hs) - 2)%nat
    by (rewrite head_text_lines; unfold lines_text at 2; cbn [map concat]; rewrite !length_app; simpl; unfold lines_text; lia).
  destruct (rsp_headers_loop_text hs MAX_HEADERS pre b) as (z & offs & El & Lz & Es); try done.
  { eapply fits_mono; [|exact Hf]. rewrite !length_app. simpl. rewrite !length_app. simpl. lia. }
  exists (pre ++ z), offs. rewrite El, <- !app_assoc. split; [|split].
  - by rewrite length_app.
  - rewrite !length_app, Lz. simpl. lia.
  - exact Es.
Qed.

(** ** The length of the payload *)

Lemma dec_digits_digits f n acc :
  0 <= n -> forallb isdigit acc = true -> forallb isdigit (dec_digits f n acc) = true.
Proof.
  revert n acc; induction f as [|f IH]; intros n acc Hn Ha; cbn [dec_digits]; [done|].
  assert (forallb isdigit ((48 + n mod 10) :: acc) = true).
  { cbn [forallb]. apply andb_true_iff. split; [|done]. unfold isdigit.
    pose proof (Z.mod_pos_bound n 10). apply andb_true_iff. split; apply Z.leb_le; lia. }
  destruct (n <? 10); [done|]. apply IH; [|done]. apply Z.div_pos; lia.
Qed.

Lemma strtoll_digits_value s n :
  forallb isdigit s = true -> strtoll_digits s n = fold_left (fun m c => m * 10 + (c - 48)) s n.
Proof.
  revert n; induction s as [|c s IH]; intros n H; cbn [strtoll_digits fold_left]; [done|].
  cbn [forallb] in H. apply andb_true_iff in H as [Hc Hs]. by rewrite Hc, IH.
Qed.

Lemma fmt_d_digits n : 0 <= n -> forallb isdigit (fmt_d n) = true.
Proof.
  intros Hn. unfold fmt_d. rewrite (proj2 (Z.ltb_ge n 0)) by lia. by apply dec_digits_digits.
Qed.

Lemma strtoll_fmt_d n : 0 <= n <= INT_MAX -> strtoll (fmt_d n) = n.
Proof.
  unfold INT_MAX. intros Hn. unfold strtoll.
  assert (Hv := fmt_d_value n ltac:(lia)). assert (Hd := fmt_d_digits n ltac:(lia)).
  destruct (fmt_d n) as [|c s] eqn:E; [exfalso; unfold dec_value in Hv; simpl in Hv; subst n; vm_compute in E; discriminate E|].
  rewrite skip_spaces_none.
  2:{ cbn [forallb] in Hd. apply andb_true_iff in Hd as [Hc _]. unfold isdigit in Hc. unfold isspace, rd. cbn [nth].
      b2p. apply orb_false_iff. split; [apply andb_false_iff; right; apply Z.leb_gt; lia|apply Z.eqb_neq; lia]. }
  rewrite drop_0.
  assert (Hc : isdigit c = true) by (cbn [forallb] in Hd; apply andb_true_iff in Hd; tauto).
  unfold isdigit in Hc. b2p.
  rewrite (proj2 (Z.eqb_neq c chr_dash)), (proj2 (Z.eqb_neq c chr_plus)) by (unfold chr_dash, chr_plus; lia).
  rewrite strtoll_digits_value by done. unfold dec_value in Hv. rewrite Hv.
  rewrite Z.min_r, Z.max_r by lia. lia.
Qed.

Lemma atoi_fmt_d n : 0 <= n <= INT_MAX -> atoi (fmt_d n) = n.
Proof.
  intros Hn. unfold atoi. rewrite strtoll_fmt_d by done. unfold INT_MAX in Hn.
  unfold wrap_s, wrap_u. rewrite Z.mod_small by lia. destr_if; b2p; lia.
Qed.

(** ** Header fields *)

Lemma text_digits s : forallb isdigit s = true -> text s.
Proof.
  intros H. apply Forall_forall. intros c Hc. rewrite forallb_forall in H. specialize (H c Hc).
  unfold isdigit in H. b2p. left. lia.
Qed.

Lemma header_ok_intro n v :
  n <> [] -> forallb (fun c => (32 <=? c) && (c <? 127) && negb (c =? 58)) n = true ->
  text v -> rd v 0 <> chr_space -> header_ok (n, v).
Proof.
  intros Hne Hn Hv Hs. rewrite forallb_forall in Hn. split_and!; cbn [fst snd]; try done.
  - apply Forall_forall. intros c Hc. specialize (Hn c Hc). b2p. left. lia.
  - intros Hin. by apply Hn in Hin.
Qed.

Lemma header_ok_number n k :
  n <> [] -> forallb (fun c => (32 <=? c) && (c <? 127) && negb (c =? 58)) n = true ->
  0 <= k -> header_ok (n, fmt_d k).
Proof.
  intros Hne Hn Hk. assert (Hd := fmt_d_digits k Hk).
  apply header_ok_intro; [done|done|by apply text_digits|].
  destruct (fmt_d k) as [|c s]; [done|]. cbn [forallb] in Hd. apply andb_true_iff in Hd as [Hc _].
  unfold isdigit in Hc. b2p. unfold rd, chr_space. cbn [nth]. lia.
Qed.

Section Response.
Context {L : OpenSSL}.
Variable ENABLE_BRSKI : bool.
Variable malloc_junk : nat -> bytes.

(** ** Reading the pieces of an answer *)

(** An answer that arrives in pieces, then a pause. *)
Definition delivers (w : world) (chunks : list bytes) (rest : list read_result) : Prop :=
  net_reads (w_net w) = map R_data chunks ++ R_none :: rest /\ Forall (fun c => c <> []) chunks.

Definition after_reads (w : world) (rest : list read_result) : world :=
  set_w_net (set_net_reads rest (w_net w)) w.

Lemma read_raw_loop_chunks rest chunks : forall fuel buf max w,
  delivers w chunks rest -> (length chunks < fuel)%nat ->
  Z.of_nat (length buf) + Z.of_nat (length (concat chunks)) < max ->
  read_raw_loop fuel buf max w = Some ((EST_ERR_NONE, buf ++ concat chunks), after_reads w rest).
Proof.
  induction chunks as [|c chunks IH]; intros fuel buf max w [Hr Hc] Hf Hm;
    (destruct fuel as [|fuel]; [simpl in Hf; lia|]); cbn [read_raw_loop].
  - simpl in Hm. rewrite (proj2 (Z.ltb_lt _ _)) by lia.
    unfold est_ssl_read, mbind, M_bind, get_net, put_net. rewrite Hr. cbn. by rewrite app_nil_r.
  - apply Forall_cons_1 in Hc as [Hne Hc]. cbn [concat] in Hm. rewrite length_app in Hm.
    rewrite (proj2 (Z.ltb_lt _ _)) by lia.
    unfold est_ssl_read at 1. unfold mbind, M_bind, get_net, put_net. rewrite Hr. cbn [map app].
    rewrite (proj2 (Z.leb_le _ _)) by lia. cbn. destruct c as [|x c]; [done|].
    rewrite (IH fuel (buf ++ x :: c) max).
    + f_equal. f_equal. f_equal. by rewrite <- app_assoc.
    + done.
    + simpl in Hf. lia.
    + rewrite length_app. simpl in *. lia.
Qed.

Lemma read_raw_chunks chunks rest w max :
  delivers w chunks rest -> Z.of_nat (length (concat chunks)) < max ->
  est_io_read_raw max w = Some ((EST_ERR_NONE, concat chunks), after_reads w rest).
Proof.
  intros Hd Hm. unfold est_io_read_raw, mbind, M_bind, get_net.
  assert (Hf : (length chunks < S (script_size (net_reads (w_net w))))%nat).
  { destruct Hd as [-> _]. unfold script_size. rewrite !length_app, length_map. lia. }
  rewrite (read_raw_loop_chunks rest chunks _ [] max w Hd Hf) by (simpl; lia). cbn [app].
  rewrite (proj2 (Z.eqb_neq _ _)) by lia. rewrite bool_decide_eq_true_2 by done. done.
Qed.

(** ** The server's answers *)

(** The operations with a plain answer and the content type of the server's answer. *)
Inductive plain_operation : EST_OPERATION -> bytes -> Prop :=
| plain_enroll : plain_operation EST_OP_SIMPLE_ENROLL EST_HTTP_CT_PKCS7_CO
| plain_reenroll : plain_operation EST_OP_SIMPLE_REENROLL EST_HTTP_CT_PKCS7_CO
| plain_cacerts : plain_operation EST_OP_CACERTS EST_HTTP_CT_PKCS7
| plain_csrattrs : plain_operation EST_OP_CSRATTRS EST_HTTP_CT_CSRATTRS.

Definition response_headers (ct : bytes) (len : Z) : list (bytes * bytes) :=
  [(lit "Status", lit "200 OK"); (EST_HTTP_HDR_CT, ct); (EST_HTTP_HDR_CE, EST_HTTP_CE_BASE64);
   (EST_HTTP_HDR_CL, fmt_d len)].

Lemma response_headers_ok op ct len :
  plain_operation op ct -> 0 <= len -> Forall header_ok (response_headers ct len).
Proof.
  intros Ho Hl. unfold response_headers.
  apply Forall_cons_2; [|apply Forall_cons_2; [|apply Forall_cons_2; [|apply Forall_cons_2; [|apply Forall_nil_2]]]].
  - by apply header_ok_intro; [..|apply lit_text|].
  - by apply header_ok_intro; [..|destruct Ho; by apply lit_text|destruct Ho].
  - by apply header_ok_intro; [..|apply lit_text|].
  - by apply header_ok_number.
Qed.

Lemma hdr_200_text op ct len :
  plain_operation op ct -> 0 <= len ->
  hdr_200 ct len = EST_HTTP_HDR_200_RESP ++ crlf ++ head_text (response_headers ct len) ++ crlf.
Proof.
  intros Ho Hl. rewrite hdr_200_eq by (done || (destruct Ho; simpl; lia)).
  unfold head_text, response_headers, header_text, field. cbn [map concat fst snd].
  rewrite <- !app_assoc. done.
Qed.

Lemma response_check op ct len :
  plain_operation op ct -> 0 <= len <= INT_MAX ->
  est_io_check_http_hdrs (response_headers ct len) op = (EST_ERR_NONE, len).
Proof.
  intros Ho Hl. rewrite <- (atoi_fmt_d len Hl) at 2. unfold response_headers.
  generalize (fmt_d len). intros v. by destruct Ho.
Qed.

Lemma status_200_parsed r : est_io_parse_response_status_code (EST_HTTP_HDR_200_RESP ++ r) = 200.
Proof.
  unfold est_io_parse_response_status_code, http_status_codes. cbn [List.find].
  replace (has_prefix (EST_HTTP_HDR_200_RESP ++ r) (EST_HTTP_HDR 200)) with true; [done|].
  symmetry. apply Z.eqb_eq. apply strncmp_prefix; [by apply text_no_nul, lit_text|reflexivity].
Qed.

(** The world once an accepted answer has been read. *)
Definition after_response (rest : list read_result) (w : world) : world :=
  set_w_ctx (set_client (set_last_http_status 200 (client (w_ctx w))) (w_ctx w)) (after_reads w rest).

Lemma response_received op ct body chunks rest w :
  plain_operation op ct -> body <> [] -> ~ In (rd body 0) crlf ->
  let text := hdr_200 ct (Z.of_nat (length body)) ++ body in
  Z.of_nat (length text) < EST_CA_MAX -> concat chunks = text ->
  delivers w chunks rest -> w_alloc w = [] ->
  est_io_get_response ENABLE_BRSKI malloc_junk op w
    = Some (Build_io_response EST_ERR_NONE None 0 (Some body) (Z.of_nat (length body)),
            after_response rest w).
Proof.
  intros Ho Hne Hhd text Hlen Hc Hd Ha.
  assert (Hmax : EST_CA_MAX <= INT_MAX) by done.
  assert (Hbody : Z.of_nat (length body) < EST_CA_MAX).
  { unfold text in Hlen. rewrite length_app in Hlen. lia. }
  unfold est_io_get_response, est_io_get_response_internal, mbind, M_bind, alloc.
  rewrite Ha. cbn match. cbn [negb].
  rewrite (read_raw_chunks chunks rest w _ Hd) by (by rewrite Hc). rewrite Hc.
  rewrite bool_decide_eq_true_2 by done. cbn [negb].
  assert (Et : text = EST_HTTP_HDR_200_RESP ++ crlf ++ head_text (response_headers ct (Z.of_nat (length body))) ++ crlf ++ body).
  { unfold text. rewrite (hdr_200_text op) by (done || lia). by rewrite <- !app_assoc. }
  assert (Hstatus : est_io_parse_response_status_code (cstr text) = 200).
  { rewrite Et, cstr_app_no_nul by (by apply text_no_nul, lit_text). apply status_200_parsed. }
  destruct (rsp_headers_text EST_HTTP_HDR_200_RESP (response_headers ct (Z.of_nat (length body))) body)
    as (z & offs & Ez & Lz & Es); try done.
  { by apply lit_text. }
  { eapply response_headers_ok; [done|lia]. }
  { simpl. unfold MAX_HEADERS. lia. }
  { rewrite <- Et. unfold fits. rewrite RSIZE_val. unfold EST_CA_MAX in Hlen. lia. }
  { by right. }
  rewrite <- Et in Ez.
  destruct text as [|c0 text'] eqn:E0; [done|]. rewrite Hstatus, <- E0 in *.
  cbn [upd_client w_alloc set_w_ctx after_reads set_w_net]. rewrite Ha.
  assert (Hkg : bool_decide (op = EST_OP_SERVER_KEYGEN) = false) by (by destruct Ho).
  rewrite Hkg. rewrite Ez.
  assert (Hse : forall w0, http_status_error 200 (z ++ body) offs w0 = Some (EST_ERR_NONE, w0)) by done.
  rewrite Hse. clear Hse. rewrite bool_decide_eq_true_2 by done. unfold plain_payload.
  assert (Hb : (bool_decide (op = EST_OP_BRSKI_VOUCHER_STATUS) || bool_decide (op = EST_OP_BRSKI_ENROLL_STATUS)) = false)
    by (by destruct Ho).
  rewrite Hb, andb_false_r, Es, (response_check op) by (done || lia).
  rewrite bool_decide_eq_true_2 by done. cbn [negb].
  rewrite !Z.gtb_ltb, !(proj2 (Z.ltb_ge _ _)) by lia.
  rewrite length_app, (proj2 (Z.eqb_eq _ _)) by lia. cbn [negb].
  rewrite (proj2 (Z.eqb_neq _ _)) by (destruct body; [done|simpl; lia]).
  rewrite drop_app_length. cbn match. unfold mbind, M_bind, alloc. cbn.
  by rewrite Ha.
Qed.

(** C12. The client understands the server.  When the server sends a payload for a
    certificate, for the CA certificates or for the CSR attributes, and however the
    channel cuts its answer into pieces, the client's reader succeeds with exactly that
    payload, records the status 200 and leaves what follows unread.  The payload may hold
    any byte, with three exceptions, in which the code does not give it back: it must not
    be empty, it must not start with a CR or an LF, which the client takes for a part of
    the header and drops, and the whole answer must be shorter than EST_CA_MAX. *)
Theorem server_response_received op ct body chunks rest w :
  plain_operation op ct -> body <> [] -> ~ In (rd body 0) crlf ->
  let text := hdr_200 ct (Z.of_nat (length body)) ++ body in
  Z.of_nat (length text) < EST_CA_MAX -> concat chunks = text ->
  delivers w chunks rest -> w_alloc w = [] ->
  exists w', est_io_get_response ENABLE_BRSKI malloc_junk op w
    = Some (Build_io_response EST_ERR_NONE None 0 (Some body) (Z.of_nat (length body)), w') /\
    w_ctx w' = set_client (set_last_http_status 200 (client (w_ctx w))) (w_ctx w) /\
    net_reads (w_net w') = rest /\ w_trace w' = w_trace w.
Proof.
  intros Ho Hne Hhd text Hlen Hc Hd Ha. exists (after_response rest w).
  split; [by eapply response_received|done].
Qed.

End Response.
