(* ===== verification/CredentialProps.v ===== *)
(** * CredentialProps: the server's reading of a printed Authorization header

    A Digest header is a list of parameters; [mg_parse_auth_hdr_digest] assigns each of
    them, whatever surrounds it. The base64 text of credentials, as the base64 BIO of
    the TLS library writes it, is accepted by [est_base64_decode].

    The Authorization header that the client adds to a request, in each of the three
    schemes, is parsed by the server into the credentials the client has, and the digest
    the client sends is the one [est_server_generate_auth_digest] computes for the
    password. *)

From S2P Require Import Prelude.
From S2P Require Import SafeC.
From S2P Require Import Base64.
From S2P Require Import EstTypes.
From S2P Require Import EstState.
From S2P Require Import EstUtil.
From S2P Require Import EstUtilFacts.
From S2P Require Import HttpParse.
From S2P Require Import HttpParseProps.
From S2P Require Import HttpIO.
From S2P Require Import EnhCertAuth.
From S2P Require Import HttpConnProps.
From S2P Require Import ClientHttpProps.
From S2P Require Import HttpAuth.
From S2P Require Import ClientRequest.

(** ** Words in quotes *)

(** A word that does not end in the quote character has no escaped delimiter. *)
Lemma skip_quoted_unescaped pre w r delims ws q :
  fits (pre ++ w ++ r) -> fits delims -> no_nul w -> prefix_out (cstr (w ++ r)) (cstr delims) = w ->
  List.last w 0 <> q ->
  skip_quoted (pre ++ w ++ r) (length pre) delims ws q = skip_quoted (pre ++ w ++ r) (length pre) delims ws 0.
Proof.
  intros Hf Hd Nw Hp Hq. unfold skip_quoted. rewrite drop_app_l, est_strcspn_spec, Hp.
  2: { unfold fits in *. rewrite (length_app pre) in Hf. lia. }
  2: { done. }
  destruct (_ <? _)%nat eqn:E; [|done]. b2p.
  destruct (exists_last (l := w)) as (w0 & c & ->); [by intros ->; simpl in E; lia|].
  rewrite last_last in Hq.
  assert (Hc : rd (pre ++ (w0 ++ [c]) ++ r) (length pre + length (w0 ++ [c]) - 1) = c).
  { rewrite length_app. cbn [length]. replace (length pre + (length w0 + 1) - 1)%nat with (length pre + length w0)%nat by lia.
    rewrite rd_app_r, <- app_assoc. rewrite <- (Nat.add_0_r (length w0)), rd_app_r. done. }
  assert (c <> 0) by (apply Forall_app in Nw as [_ Nw]; by inversion Nw).
  cbn [quote_loop]. rewrite Hc, (proj2 (Z.eqb_neq c q)), (proj2 (Z.eqb_neq c 0)) by done. done.
Qed.

(** A value that can stand between quotes. *)
Record quotable (v : bytes) : Prop := {
  qt_text : text v;
  qt_quote : ~ In chr_dquote v;
  qt_end : List.last v 0 <> chr_backslash
}.

Lemma quotable_check v :
  forallb (fun c => (32 <=? c) && (c <? 127) && negb (c =? chr_dquote)) v && negb (List.last v 0 =? chr_backslash) = true ->
  quotable v.
Proof.
  intros [H He]%andb_true_iff. rewrite forallb_forall in H. split.
  - apply List.Forall_forall. intros c Hc. specialize (H c Hc). b2p. left. lia.
  - intros Hin. by specialize (H _ Hin).
  - by apply negb_true_iff, Z.eqb_neq in He.
Qed.

Lemma skip_quotes pre v tail :
  quotable v -> fits (pre ++ v ++ chr_dquote :: tail) -> (rd tail 0 = 0 \/ rd tail 0 <> chr_space) ->
  skip_quoted (pre ++ v ++ chr_dquote :: tail) (length pre) [chr_dquote] (lit " ") chr_backslash
  = ((pre ++ v ++ [0]) ++ tail, length (pre ++ v ++ [0]), length pre).
Proof.
  intros [Ht Hq He] Hf Hr. assert (Nv := text_no_nul _ Ht).
  assert (Hout : Forall (fun x => ~ In x (cstr [chr_dquote])) v).
  { apply List.Forall_forall. intros c Hc Hin. destruct Hin as [<-|[]]. by apply Hq. }
  rewrite skip_quoted_unescaped; [|done|done|done| |done].
  - assert (H := skip_quoted_word pre v chr_dquote [] tail [chr_dquote] (lit " ")). cbn [app] in H.
    rewrite H; try done; [|apply Forall_nil_2|by left|destruct Hr as [Hr|Hr]; [by left|right]].
    + rewrite <- !app_assoc. cbn [app]. rewrite !length_app. simpl. do 2 f_equal. lia.
    + intros [E|[]]. by apply Hr.
  - rewrite cstr_app_no_nul by done. simpl. apply prefix_out_app; [done|]. by left.
Qed.

(** ** The parameters of a Digest header *)

(** A parameter: its name, its value, and whether the value is in quotes. *)
Record param := { p_name : bytes; p_value : bytes; p_quoted : bool }.

Definition value_text (p : param) : bytes :=
  if p_quoted p then [chr_dquote] ++ p_value p ++ [chr_dquote] else p_value p.
Definition param_text (p : param) : bytes := p_name p ++ lit "=" ++ value_text p.

(** The names of a Digest header. *)
Definition digest_names : list bytes :=
  [lit "username"; lit "realm"; lit "nonce"; lit "uri"; lit "cnonce"; lit "nc"; lit "qop"; lit "response"].

Record param_ok (p : param) : Prop := {
  po_name : In (p_name p) digest_names;
  po_value : quotable (p_value p);
  po_bare : p_quoted p = true \/ (Forall (fun c => ~ In c (lit ", ")) (p_value p) /\ p_value p <> [])
}.

(** What is left of a parameter: name and value are strings, the delimiters are gone. *)
Definition cut_text (p : param) : bytes :=
  p_name p ++ [0] ++ (if p_quoted p then [chr_dquote] else []) ++ p_value p ++ [0].

(** The offset of the value in it. *)
Definition value_at (p : param) : nat := length (p_name p) + if p_quoted p then 2 else 1.

Lemma name_facts nm : In nm digest_names ->
  no_nul nm /\ Forall (fun x => ~ In x (cstr (lit "="))) nm /\ isspace (rd nm 0) = false /\ rd nm 0 <> 0 /\ (0 < length nm)%nat.
Proof.
  intros H. assert (Hb : forallb (fun nm => forallb (fun c => negb (c =? 0) && negb (c =? 61)) nm
    && negb (isspace (rd nm 0)) && negb (rd nm 0 =? 0) && (0 <? length nm)%nat) digest_names = true) by done.
  rewrite forallb_forall in Hb. specialize (Hb _ H).
  apply andb_true_iff in Hb as [[[Hb H1]%andb_true_iff H2]%andb_true_iff H3].
  apply negb_true_iff in H1, H2. b2p.
  rewrite forallb_forall in Hb. split_and!; try done; apply Forall_forall; intros c Hc; specialize (Hb c Hc); b2p.
  - tauto.
  - intros [<-|[]]. tauto.
Qed.

Lemma skip_spaces_blank fuel pre blanks r :
  Forall (fun c => c = chr_space) blanks -> isspace (rd r 0) = false -> (length blanks < fuel)%nat ->
  skip_spaces fuel (pre ++ blanks ++ r) (length pre) = length (pre ++ blanks).
Proof.
  intros Hb Hr. revert fuel pre; induction Hb as [|c b -> Hb IH]; intros fuel pre Hf; cbn [app length] in *.
  - rewrite app_nil_r. apply skip_spaces_none. rewrite <- (Nat.add_0_r (length pre)), rd_app_r. done.
  - destruct fuel as [|fuel]; [lia|]. cbn [skip_spaces].
    replace (rd (pre ++ chr_space :: b ++ r) (length pre)) with chr_space
      by (rewrite <- (Nat.add_0_r (length pre)), rd_app_r; done).
    cbn [negb andb isspace]. change (negb (chr_space =? 0) && isspace chr_space) with true. cbn match.
    replace (S (length pre)) with (length (pre ++ [chr_space])) by (rewrite length_app; simpl; lia).
    replace (pre ++ chr_space :: b ++ r) with ((pre ++ [chr_space]) ++ b ++ r) by (by rewrite <- app_assoc).
    rewrite IH by lia. f_equal. by rewrite <- app_assoc.
Qed.

(** Behind a parameter: the next one, or the end of the header. *)
Definition behind (p : param) (tail t : bytes) : Prop :=
  (tail = lit ", " ++ t /\ rd t 0 <> chr_space) \/ (p_quoted p = true /\ t = tail /\ rd tail 0 = 0).

(** A quoted value, from its opening quote on: the text between the quotes is cut out,
    and the rest starts behind the comma. *)
Lemma digest_value_quoted pre v tail t :
  quotable v -> fits (pre ++ v ++ chr_dquote :: tail) ->
  (tail = lit ", " ++ t /\ rd t 0 <> chr_space) \/ (t = tail /\ rd tail 0 = 0) ->
  exists cut blanks, Forall (fun c => c = chr_space) blanks /\
    (let '(buf2, s2, value) := skip_quoted (pre ++ v ++ chr_dquote :: tail) (length pre) [chr_dquote] (lit " ") chr_backslash in
     (buf2, if rd buf2 s2 =? chr_comma then S s2 else s2, value))
    = ((pre ++ v ++ [0] ++ cut) ++ blanks ++ t, length (pre ++ v ++ [0] ++ cut), length pre).
Proof.
  intros Hv Hf Hb.
  assert (Hsp : rd tail 0 = 0 \/ rd tail 0 <> chr_space).
  { destruct Hb as [[-> _]|[_ Hb]]; [right; done|by left]. }
  rewrite skip_quotes by done.
  rewrite <- (Nat.add_0_r (length (pre ++ v ++ [0]))), rd_app_r, Nat.add_0_r.
  destruct Hb as [[-> Ht]|[-> Ht]].
  - exists [chr_comma], [chr_space]. split; [by apply Forall_cons_2|].
    change (rd (lit ", " ++ t) 0 =? chr_comma) with true. cbn match.
    rewrite <- !app_assoc, !length_app. cbn [app length]. do 2 f_equal. lia.
  - exists [], []. split; [by apply Forall_nil_2|]. rewrite Ht. change (0 =? chr_comma) with false. cbn match.
    by rewrite app_nil_r.
Qed.

(** A bare value ends at the comma. *)
Lemma digest_value_bare pre v t :
  text v -> Forall (fun c => ~ In c (lit ", ")) v -> fits (pre ++ v ++ lit ", " ++ t) -> rd t 0 <> chr_space ->
  skip_quoted (pre ++ v ++ lit ", " ++ t) (length pre) (lit ", ") (lit " ") 0
  = ((pre ++ v ++ [0] ++ [0]) ++ t, length (pre ++ v ++ [0] ++ [0]), length pre).
Proof.
  intros Hv Hb Hf Ht.
  change (lit ", " ++ t) with (chr_comma :: [chr_space] ++ t) in *.
  rewrite skip_quoted_word; try done.
  - rewrite <- !app_assoc. cbn [app]. rewrite !length_app. simpl. do 2 f_equal. lia.
  - by apply text_no_nul.
  - by apply Forall_cons_2.
  - by left.
  - by apply Forall_cons_2; [left|].
  - right. intros [E|[]]. by apply Ht.
Qed.

(** One round of the parser cuts one parameter out of the text. *)
Lemma digest_item_param pre blanks p tail t :
  Forall (fun c => c = chr_space) blanks -> param_ok p ->
  fits (pre ++ blanks ++ param_text p ++ tail) -> behind p tail t ->
  exists cut blanks', Forall (fun c => c = chr_space) blanks' /\
    let at_name := length (pre ++ blanks) in
    let pre' := (pre ++ blanks) ++ cut_text p ++ cut in
    digest_item (pre ++ blanks ++ param_text p ++ tail) (length pre)
    = (pre' ++ blanks' ++ t, length pre', at_name, (at_name + value_at p)%nat).
Proof.
  intros Hb [Hn Hv Hp] Hf Ht. destruct (name_facts _ Hn) as (Nn & En & Sn & Zn & Ln).
  unfold digest_item. rewrite skip_spaces_blank; [|done| |].
  2: { unfold param_text. by rewrite <- app_assoc, rd_app_l. }
  2: { rewrite !length_app. unfold param_text. rewrite !length_app. lia. }
  set (pb := pre ++ blanks) in *. rewrite (app_assoc pre blanks) in *. fold pb in Hf |- *.
  unfold param_text in *. rewrite <- !app_assoc in *. cbn [app] in *.
  assert (Hname : forall r, fits (pb ++ p_name p ++ lit "=" ++ r) -> rd r 0 = 0 \/ rd r 0 <> chr_space ->
    skip_quoted (pb ++ p_name p ++ lit "=" ++ r) (length pb) (lit "=") (lit " ") 0
    = ((pb ++ p_name p ++ [0]) ++ r, length (pb ++ p_name p ++ [0]), length pb)).
  { intros r Hr Hr0. change (lit "=" ++ r) with (61 :: [] ++ r) in *.
    rewrite skip_quoted_word; try done; [|apply Forall_nil_2|by left|].
    - rewrite <- !app_assoc. cbn [app]. rewrite !length_app. simpl. do 2 f_equal. lia.
    - destruct Hr0 as [?|Hr0]; [by left|right; intros [E|[]]; by apply Hr0]. }
  unfold value_text, cut_text, value_at, behind in *. destruct (p_quoted p).
  - rewrite <- !app_assoc in *. cbn [app] in *.
    rewrite Hname; [|exact Hf|by right].
    set (pre' := pb ++ p_name p ++ [0]) in *.
    rewrite <- (Nat.add_0_r (length pre')), rd_app_r, Nat.add_0_r.
    change (rd (chr_dquote :: _) 0 =? chr_dquote) with true. cbn match.
    destruct (digest_value_quoted (pre' ++ [chr_dquote]) (p_value p) tail t) as (cut & bl & Hbl & E); try done.
    { unfold pre'. rewrite <- !app_assoc. unfold fits in *. rewrite !length_app in *. simpl in *. rewrite !length_app in *. simpl in *. lia. }
    { destruct Ht as [Ht|(_ & -> & Ht)]; [by left|by right]. }
    rewrite <- !app_assoc in E. cbn [app] in E. rewrite length_app, Nat.add_1_r in E.
    exists cut, bl. split; [done|]. destruct (skip_quoted _ _ _ _ _) as [[b2 s2] vl]. injection E as -> Es ->.
    rewrite Es. unfold pre'. rewrite <- !app_assoc. cbn [app]. rewrite !length_app. cbn [length].
    do 3 f_equal; [by rewrite <- app_assoc|by rewrite <- app_assoc|lia].
  - destruct Hp as [?|[Hp Hne]]; [done|]. destruct Ht as [[-> Ht]|(? & _)]; [|done].
    rewrite Hname; [|exact Hf|].
    2: { right. intros E. rewrite Forall_forall in Hp. destruct (p_value p) as [|c v]; [done|]. apply (Hp c); [by left|]. cbn in E. subst c. right. by left. }
    set (pre' := pb ++ p_name p ++ [0]) in *.
    rewrite <- (Nat.add_0_r (length pre')), rd_app_r, Nat.add_0_r. 
    rewrite (proj2 (Z.eqb_neq _ _)).
    2: { destruct (p_value p); [done|]. cbn. intros ->. apply (qt_quote _ Hv). by left. }
    rewrite digest_value_bare; [|apply Hv|done| |done].
    2: { unfold pre'. rewrite <- !app_assoc. unfold fits in *. rewrite !length_app in *. simpl in *. lia. }
    exists [0], []. split; [apply Forall_nil_2|].
    unfold pre'. rewrite <- !app_assoc. cbn [app]. rewrite !length_app. cbn [length]. rewrite !length_app. cbn [length].
    do 2 f_equal; lia.
Qed.

(** ** What the parameters assign *)

Definition assigned (nm v : bytes) (ah : EST_HTTP_AUTH_HDR) : EST_HTTP_AUTH_HDR :=
  let named n := bool_decide (nm = lit n) in
  let cut n := Some (bounded n v) in
  if named "username" then set_ah_user ah (cut MAX_UIDPWD)
  else if named "cnonce" then set_ah_cnonce ah (cut MAX_NONCE)
  else if named "response" then set_ah_response ah (cut MAX_RESPONSE)
  else if named "uri" then set_ah_uri ah (cut MAX_REALM)
  else if named "qop" then set_ah_qop ah (cut MAX_QOP)
  else if named "nc" then set_ah_nc ah (cut MAX_NC)
  else if named "nonce" then set_ah_nonce ah (cut MAX_NONCE)
  else ah.

Lemma strndup_ok {L : OpenSSL} s n (w : world) : w_alloc w = [] -> strndup_m s n w = Some (Some (STRNDUP s n), w).
Proof. intros H. unfold strndup_m, mbind, M_bind, alloc. by rewrite H. Qed.

Section Assign.
Context {L : OpenSSL}.

(** Decide which name stands at the front of a buffer. *)
Ltac name_case :=
  repeat match goal with
         | |- (if ?b then _ else _) _ = _ => let r := eval vm_compute in b in change b with r; cbn match
         end.

Lemma dup_then s n v (f : option bytes -> EST_HTTP_AUTH_HDR) (w : world) :
  w_alloc w = [] -> cstr s = v ->
  (r ← strndup_m s n; mret (f r)) w = Some (f (Some (take (Z.to_nat n) v)), w).
Proof. intros H <-. unfold mbind, M_bind. by rewrite strndup_ok. Qed.

Lemma digest_assign_param pre p rest ah (w : world) :
  param_ok p -> w_alloc w = [] ->
  let buf := pre ++ cut_text p ++ rest in
  digest_assign buf (length pre) (length pre + value_at p) ah w
  = Some (assigned (p_name p) (p_value p) ah, w).
Proof.
  intros [Hn Hv _] Ha buf.
  assert (Hname : drop (length pre) buf = p_name p ++ 0 :: drop (length (p_name p) + 1) (cut_text p ++ rest)).
  { unfold buf, cut_text. rewrite drop_app_l, <- !app_assoc. rewrite <- drop_drop, drop_app_l. reflexivity. }
  assert (Hval : cstr (drop (length pre + value_at p) buf) = p_value p).
  { unfold buf, cut_text, value_at. rewrite <- drop_drop, drop_app_l, <- !app_assoc, <- drop_drop, drop_app_l.
    destruct (p_quoted p); cbn [app drop]; rewrite drop_0; (rewrite cstr_app_no_nul; [by rewrite app_nil_r|]); apply text_no_nul, Hv. }
  assert (Hv' : cstr (p_value p) = p_value p) by (apply cstr_id, text_no_nul, Hv).
  unfold digest_assign, name_is, assigned, bounded. rewrite Hname, Hv'. clear Hname.
  generalize (drop (length (p_name p) + 1) (cut_text p ++ rest)). intros r.
  cbn [digest_names In] in Hn.
  repeat destruct Hn as [<-|Hn]; [name_case; first [by apply dup_then|reflexivity]..|done].
Qed.

(** ** The parameters of a header *)

Fixpoint params_text (ps : list param) : bytes :=
  match ps with
  | [] => []
  | [p] => param_text p
  | p :: rest => param_text p ++ lit ", " ++ params_text rest
  end.

Lemma digest_item_length buf s : length (fst (fst (fst (digest_item buf s)))) = length buf.
Proof.
  unfold digest_item. pose proof (skip_quoted_length buf (skip_spaces (length buf) buf s) (lit "=") (lit " ") 0) as H1.
  destruct (skip_quoted buf _ _ _ _) as [[b1 s1] n]. cbn [fst] in H1.
  destruct (_ =? _).
  - pose proof (skip_quoted_length b1 (S s1) [chr_dquote] (lit " ") chr_backslash) as H2.
    destruct (skip_quoted b1 _ _ _ _) as [[b2 s2] v]. cbn [fst] in *. congruence.
  - pose proof (skip_quoted_length b1 s1 (lit ", ") (lit " ") 0) as H2.
    destruct (skip_quoted b1 _ _ _ _) as [[b2 s2] v]. cbn [fst] in *. congruence.
Qed.

(** At the NUL behind the last parameter the parser stops. *)
Lemma digest_loop_end fuel pre blanks zs ah (w : world) :
  Forall (fun c => c = chr_space) blanks -> rd zs 0 = 0 -> zs <> [] -> fits (pre ++ blanks ++ zs) ->
  digest_loop fuel (pre ++ blanks ++ zs) (length pre) ah w = Some (ah, w).
Proof.
  intros Hb Hz Hne Hf. destruct fuel as [|fuel]; [done|]. cbn [digest_loop]. unfold digest_item.
  rewrite skip_spaces_blank; [|done|by rewrite Hz|].
  2: { destruct zs; [done|]. rewrite !length_app. simpl. lia. }
  rewrite (app_assoc pre). rewrite (app_assoc pre) in Hf. set (pb := pre ++ blanks) in *.
  assert (Hs : forall d ws, fits d -> skip_quoted (pb ++ zs) (length pb) d ws 0 = (pb ++ zs, length pb, length pb)).
  { intros d ws Hd. assert (H := skip_quoted_last pb [] zs d ws). cbn [app length] in H.
    rewrite Nat.add_0_r in H. apply H; try done; apply Forall_nil_2. }
  assert (Hr : rd (pb ++ zs) (length pb) = 0) by (rewrite <- (Nat.add_0_r (length pb)), rd_app_r; done).
  rewrite Hs by done. rewrite Hr. change (0 =? chr_dquote) with false. cbn match. rewrite Hs by done. by rewrite Hr.
Qed.

Definition assign_all (ps : list param) (ah : EST_HTTP_AUTH_HDR) : EST_HTTP_AUTH_HDR :=
  fold_left (fun ah p => assigned (p_name p) (p_value p) ah) ps ah.

Lemma digest_loop_params ps : forall fuel pre blanks zs ah (w : world),
  Forall param_ok ps -> (exists ps0 p, ps = ps0 ++ [p] /\ p_quoted p = true) ->
  Forall (fun c => c = chr_space) blanks -> rd zs 0 = 0 -> zs <> [] ->
  fits (pre ++ blanks ++ params_text ps ++ zs) -> (length ps < fuel)%nat -> w_alloc w = [] ->
  digest_loop fuel (pre ++ blanks ++ params_text ps ++ zs) (length pre) ah w = Some (assign_all ps ah, w).
Proof.
  induction ps as [|p ps IH]; intros fuel pre blanks zs ah w Hok Hq Hb Hz Hne Hf Hn Ha.
  { destruct Hq as ([|? ?] & ? & ? & _); done. }
  destruct fuel as [|fuel]; [simpl in Hn; lia|]. inversion Hok as [|? ? Hp Hps]; subst.
  assert (Hsplit : exists tail t, params_text (p :: ps) ++ zs = param_text p ++ tail /\ behind p tail t /\
    t = params_text ps ++ zs).
  { destruct ps as [|p' ps].
    - exists zs, zs. split_and!; [done| |done]. right. split_and!; [|done|done].
      destruct Hq as (ps0 & p1 & E & Eq). destruct ps0 as [|? ps0]; [by injection E as ->|by destruct ps0].
    - exists (lit ", " ++ params_text (p' :: ps) ++ zs), (params_text (p' :: ps) ++ zs).
      split_and!; [|left; split; [done|]|done]; [by cbn [params_text]; rewrite <- !app_assoc|].
      inversion Hps as [|? ? Hp' _]; subst. destruct (name_facts _ (po_name _ Hp')) as (_ & _ & Sn & _ & Ln).
      assert (Hrd : rd (params_text (p' :: ps) ++ zs) 0 = rd (p_name p') 0).
      { destruct ps; cbn [params_text]; unfold param_text; rewrite <- ?app_assoc; by rewrite rd_app_l. }
      rewrite Hrd. intros E. rewrite E in Sn. done. }
  destruct Hsplit as (tail & t & Et & Hbeh & Ht). rewrite Et in *.
  destruct (digest_item_param pre blanks p tail t Hb Hp Hf Hbeh) as (cut & blanks' & Hb' & Ei).
  cbv zeta in Ei. pose proof (digest_item_length (pre ++ blanks ++ param_text p ++ tail) (length pre)) as Hlen.
  cbn [digest_loop]. rewrite Ei in *. cbn [fst] in Hlen.
  assert (Hname : rd (((pre ++ blanks) ++ cut_text p ++ cut) ++ blanks' ++ t) (length (pre ++ blanks)) <> 0).
  { destruct (name_facts _ (po_name _ Hp)) as (_ & _ & _ & Zn & Ln).
    rewrite <- app_assoc, <- (Nat.add_0_r (length (pre ++ blanks))), rd_app_r.
    unfold cut_text. by rewrite <- !app_assoc, rd_app_l. }
  rewrite (proj2 (Z.eqb_neq _ _) Hname). unfold mbind, M_bind.
  assert (Ha' : digest_assign (((pre ++ blanks) ++ cut_text p ++ cut) ++ blanks' ++ t) (length (pre ++ blanks))
    (length (pre ++ blanks) + value_at p) ah w = Some (assigned (p_name p) (p_value p) ah, w)).
  { replace (((pre ++ blanks) ++ cut_text p ++ cut) ++ blanks' ++ t)
      with ((pre ++ blanks) ++ cut_text p ++ (cut ++ blanks' ++ t)) by (rewrite <- !app_assoc; done).
    by apply digest_assign_param. }
  rewrite Ha'. cbn [assign_all fold_left]. fold (assign_all ps). clear Ha' Hname Ei.
  set (pre' := (pre ++ blanks) ++ cut_text p ++ cut) in *. subst t.
  assert (Hf' : fits (pre' ++ blanks' ++ params_text ps ++ zs)) by (unfold fits in *; rewrite Hlen; exact Hf).
  destruct ps as [|p' ps].
  - by apply digest_loop_end.
  - apply IH; try done; [|simpl in *; lia].
    destruct Hq as (ps0 & p1 & E & Eq). destruct ps0 as [|x ps0]; [done|]. injection E as _ E. by exists ps0, p1.
Qed.

End Assign.

(** ** Credentials in base64 *)

(** The base64 BIO without line breaks writes and reads the encoding of RFC 4648. *)
Record base64_bio (L : OpenSSL) : Prop := {
  bio_write : forall s, are_bytes s ->
    b64_bio_write false s = (Z.of_nat (length s), b64_enc s);
  bio_read : forall s max, are_bytes s -> Z.of_nat (length s) <= max ->
    b64_bio_read true (b64_enc s) max = (Z.of_nat (length s), s)
}.

Lemma analyze_printable s i nws t :
  Forall (fun c => 33 <= c < 127) s ->
  b64_analyze_loop s i nws t = (nws + Z.of_nat (length s), i + Z.of_nat (length s), t).
Proof.
  intros H. revert i nws; induction H as [|c s Hc Hs IH]; intros i nws; cbn [b64_analyze_loop length].
  - by rewrite !Z.add_0_r.
  - rewrite (proj2 (Z.eqb_neq _ _)) by lia.
    replace (isspace c) with false by (unfold isspace; symmetry; apply orb_false_iff; lia). cbn [negb]. rewrite IH.
    do 2 f_equal; lia.
Qed.

Section Base64Wrappers.
Context {L : OpenSSL}.
Hypothesis Hbio : base64_bio L.

Lemma est_base64_encode_ok s max (w : world) :
  are_bytes s -> s <> [] -> Z.of_nat (length s) <= max * 3 / 4 + 1 ->
  Z.of_nat (length (b64_enc s)) <= max -> w_alloc w = [] ->
  exists n, est_base64_encode s max false w = Some (Build_b64_encoded n (b64_enc s) (Some n), w).
Proof.
  intros Hs Hne Hl Hd Ha. unfold est_base64_encode. rewrite Z.gtb_ltb, (proj2 (Z.ltb_ge _ _)) by lia.
  unfold mbind, M_bind, alloc. rewrite Ha. cbn [negb]. rewrite Ha. rewrite (bio_write _ Hbio) by done.
  rewrite (proj2 (Z.leb_gt _ _)) by (destruct s; [done|simpl; lia]).
  rewrite Z.gtb_ltb, (proj2 (Z.ltb_ge _ _)) by lia. eauto.
Qed.

Lemma est_base64_decode_at_ok fr s max (w : world) :
  are_bytes s -> s <> [] -> Z.of_nat (length s) <= max -> w_alloc w = [] ->
  est_base64_decode_at fr (b64_enc s) max w = Some ((Z.of_nat (length s), s), w).
Proof.
  intros Hs Hne Hl Ha. assert (Hp := b64_enc_printable s). assert (Hlen := b64_enc_length s).
  unfold est_base64_decode_at, est_base64_str_analyze. rewrite analyze_printable by done. rewrite !Z.add_0_l.
  cbv zeta. change (negb (-1 =? -1) && _) with false. cbn match.
  set (n := Z.of_nat (length s)) in *.
  assert (Hmax : b64_max_in max >= (n + 2) / 3 * 4).
  { unfold b64_max_in. destruct (max mod 3 =? 0) eqn:E; b2p; cbn [negb]; dlia. }
  rewrite Z.gtb_ltb, (proj2 (Z.ltb_ge _ _)) by lia.
  unfold mbind, M_bind, alloc. rewrite Ha. cbn [negb]. rewrite Ha.
  replace (_ mod 4 =? 0) with true by (symmetry; rewrite Hlen; apply Z.eqb_eq; dlia). cbn [negb].
  destruct (b64_enc_last s Hne) as (front & a & b & c & d & E & Hpad).
  assert (Hrd : forall i x, nth_error [a; b; c; d] i = Some x -> rd (b64_enc s) (length front + i) = x).
  { intros i x Hx. rewrite E, rd_app_r. unfold rd. by apply nth_error_nth. }
  assert (Hl4 : length (b64_enc s) = (length front + 4)%nat) by (rewrite E, length_app; done).
  assert (Hd : isspace d = false).
  { rewrite E in Hp. apply Forall_app in Hp as [_ Hp]. rewrite List.Forall_forall in Hp.
    specialize (Hp d ltac:(cbn; tauto)). unfold isspace. apply orb_false_iff. lia. }
  assert (Hlast : last_non_whitespace fr (b64_enc s) (Z.to_nat (Z.of_nat (length (b64_enc s)))) = Some (Z.of_nat (length front + 3))).
  { rewrite Nat2Z.id, Hl4. replace (length front + 4)%nat with (S (length front + 3)) by lia. cbn [last_non_whitespace].
    by rewrite (Hrd 3%nat d), Hd. }
  rewrite Hlast. rewrite (proj2 (Z.ltb_ge _ _)) by lia.
  replace (Z.to_nat (Z.of_nat (length front + 3) - 1)) with (length front + 2)%nat by lia.
  rewrite Nat2Z.id, (Hrd 3%nat d), (Hrd 2%nat c) by done.
  rewrite cstr_id by apply b64_enc_no_nul. rewrite (bio_read _ Hbio) by done. fold n.
  rewrite Hlen. replace (3 * ((n + 2) / 3 * 4) / 4) with ((n + 2) / 3 * 3) by dlia.
  replace (n =? _) with true; [done|]. symmetry. apply Z.eqb_eq.
  assert (Hm : n mod 3 = Z.of_nat (length s mod 3)) by (unfold n; rewrite Nat2Z.inj_mod; done).
  destruct Hpad as [[H3 Hpad]|[(H3 & H2 & Hpad)|(H3 & H2 & Hpad)]]; rewrite Hpad in Hm;
    rewrite ?(proj2 (Z.eqb_neq _ _) H3), ?(proj2 (Z.eqb_eq _ _) H3), ?(proj2 (Z.eqb_neq _ _) H2),
      ?(proj2 (Z.eqb_eq _ _) H2); cbn in Hm; dlia.
Qed.

Lemma est_base64_decode_ok s max (w : world) :
  are_bytes s -> s <> [] -> Z.of_nat (length s) <= max -> w_alloc w = [] ->
  est_base64_decode (b64_enc s) max w = Some ((Z.of_nat (length s), s), w).
Proof. apply est_base64_decode_at_ok. Qed.

End Base64Wrappers.

Section Credentials.
Context {L : OpenSSL}.

(** ** What a client can present *)

Inductive credentials :=
| Basic (user pwd : bytes)
| Digest (user pwd random : bytes)
| Token (token : bytes).

(** The client of [w] has the credentials and its mode is theirs. *)
Definition offers (w : world) (c : credentials) : Prop :=
  let cl := client (w_ctx w) in
  match c with
  | Basic user pwd => auth_mode (w_ctx w) = AUTH_BASIC /\ userid cl = user /\ password cl = pwd
  | Digest user pwd random =>
      auth_mode (w_ctx w) = AUTH_DIGEST /\ userid cl = user /\ password cl = pwd /\
      (exists l, net_rand (w_net w) = Some random :: l) /\ EVP_DigestInit_md5 = true
  | Token token =>
      auth_mode (w_ctx w) = AUTH_TOKEN /\
      exists cb, auth_credentials_cb cl = Some cb /\
        ah_auth_token (snd (cb (w_trace w) (set_ah_mode empty_ah AUTH_TOKEN))) = Some token
  end.

(** The response to a challenge with [realm] and [nonce], with the password [pwd]. *)
Definition digest_of (user realm pwd nonce uri cnonce : bytes) : bytes :=
  md5_hex [md5_hex [user; lit ":"; realm; lit ":"; pwd]; lit ":"; nonce; lit ":";
           lit "00000001"; lit ":"; cnonce; lit ":"; lit "auth"; lit ":";
           md5_hex [lit "POST"; lit ":"; uri]].

(** The parameters of a Digest header. *)
Definition digest_params (user realm nonce uri cnonce digest : bytes) : list param :=
  [Build_param (lit "username") user true; Build_param (lit "realm") realm true;
   Build_param (lit "nonce") nonce true; Build_param (lit "uri") uri true;
   Build_param (lit "cnonce") cnonce true; Build_param (lit "nc") (lit "00000001") false;
   Build_param (lit "qop") (lit "auth") true; Build_param (lit "response") digest true].

(** The header field that carries the credentials. *)
Definition authorization (ctx : EST_CTX) (uri : bytes) (c : credentials) : bytes :=
  match c with
  | Basic user pwd => lit "Basic " ++ b64_enc (user ++ lit ":" ++ pwd)
  | Digest user pwd random =>
      let nonce := s_nonce (client ctx) in
      let cnonce := est_hex_to_str (take 8 random) in
      lit "Digest " ++ params_text (digest_params user (realm ctx) nonce uri cnonce
                                      (digest_of user (realm ctx) pwd nonce uri cnonce))
  | Token token => lit "Bearer " ++ b64_enc token
  end.

Definition short (max : Z) (s : bytes) : Prop := Z.of_nat (length s) <= max.
Definition string (max : Z) (s : bytes) : Prop := are_bytes s /\ no_nul s /\ short max s.

(** Credentials that can be written into a header: within the limits of the library,
    without a colon in a user name of Basic credentials, and without what would end a
    quoted string in Digest credentials. *)
Definition presentable (ctx : EST_CTX) (uri : bytes) (c : credentials) : Prop :=
  match c with
  | Basic user pwd =>
      user <> [] /\ ~ In chr_colon user /\ string MAX_UIDPWD user /\ string MAX_UIDPWD pwd
  | Digest user pwd random =>
      user <> [] /\ quotable user /\ quotable (realm ctx) /\ quotable (s_nonce (client ctx)) /\ quotable uri /\
      short MAX_UIDPWD user /\ string MAX_UIDPWD pwd /\ short MAX_REALM (realm ctx) /\
      short MAX_NONCE (s_nonce (client ctx)) /\ short MAX_REALM uri /\
      are_bytes random /\
      short (MAX_AUTH_HDR_LEN - 1) (drop 7 (authorization ctx uri c))
  | Token token => token <> [] /\ string MAX_AUTH_TOKEN_LEN token
  end.

(** ** The header the client adds *)

Lemma req_add_fits hdr text :
  Z.of_nat (length hdr) + Z.of_nat (length text) < EST_HTTP_REQ_TOTAL_LEN -> req_add hdr text = hdr ++ text.
Proof. intros H. unfold req_add, snprintf_at. rewrite take_ge by lia. done. Qed.

Lemma digest_hdr_text user realm nonce uri cnonce digest :
  digest_hdr user realm nonce uri cnonce digest
  = header_text (lit "Authorization", lit "Digest " ++ params_text (digest_params user realm nonce uri cnonce digest)).
Proof.
  unfold digest_hdr, header_text, digest_params, params_text, param_text, value_text, quoted. cbn [fst snd p_name p_value p_quoted].
  rewrite <- !app_assoc. reflexivity.
Qed.

(** ** The TLS library *)

Hypothesis Hbio : base64_bio L.
(** MD5 has 16 bytes. *)
Hypothesis Hmd5 : forall s, are_bytes (EVP_md5 s) /\ length (EVP_md5 s) = 16%nat.

Lemma hex_quotable s : are_bytes s -> quotable (est_hex_to_str s).
Proof.
  intros H. assert (Ha : Forall (fun c => In c (lit "0123456789abcdef")) (est_hex_to_str s)).
  { induction H as [|c r Hc Hr IH]; [apply Forall_nil_2|]. unfold is_byte in Hc. cbn [est_hex_to_str flat_map].
    assert (0 <= Z.shiftr c 4 < 16) by (rewrite Z.shiftr_div_pow2 by lia; change (2 ^ 4) with 16; dlia).
    assert (0 <= Z.land c 15 < 16).
    { change 15 with (Z.ones 4). rewrite Z.land_ones by lia. by apply Z.mod_pos_bound. }
    do 2 (apply Forall_cons_2; [apply hex_table_digits; lia|]). exact IH. }
  assert (Hd : forall c, In c (lit "0123456789abcdef") -> text_char c /\ c <> chr_dquote /\ c <> chr_backslash).
  { intros c Hc. assert (Hb : forallb (fun c => (32 <=? c) && (c <? 127) && negb (c =? 34) && negb (c =? 92))
      (lit "0123456789abcdef") = true) by done. rewrite forallb_forall in Hb. specialize (Hb c Hc).
    repeat (apply andb_true_iff in Hb as [Hb ?]). b2p. unfold text_char, chr_dquote, chr_backslash. lia. }
  rewrite List.Forall_forall in Ha. split.
  - apply List.Forall_forall. intros c Hc. by apply Hd, Ha.
  - intros Hin. by apply Ha, Hd in Hin as (_ & ? & _).
  - destruct (est_hex_to_str s) as [|x l] eqn:E; [done|].
    assert (Hl : In (List.last (x :: l) 0) (x :: l)) by (rewrite (app_removelast_last 0) at 2 by done; apply in_or_app; right; by left).
    by apply Ha, Hd in Hl as (_ & _ & ?).
Qed.

Lemma md5_hex_quotable parts : quotable (md5_hex parts) /\ length (md5_hex parts) = 32%nat.
Proof.
  unfold md5_hex. destruct (Hmd5 (concat parts)) as [Hb Hl]. split; [by apply hex_quotable|].
  by rewrite hex_length, Hl.
Qed.

Lemma bounded_short max s : no_nul s -> short max s -> bounded max s = s.
Proof. intros Hn Hs. unfold bounded. rewrite cstr_id by done. apply take_ge. unfold short in Hs. lia. Qed.

Lemma quotable_no_nul s : quotable s -> no_nul s.
Proof. intros H. apply text_no_nul, H. Qed.

(** The credentials of a configuration with a user are taken as they are. *)
Lemma user_and_pwd_configured mode w :
  userid (client (w_ctx w)) <> [] ->
  user_and_pwd mode w = Some ((userid (client (w_ctx w)), password (client (w_ctx w))), w).
Proof.
  intros H. unfold user_and_pwd, mbind, M_bind, get_client. by destruct (userid _).
Qed.

Lemma nonce_cleared x w :
  c_nonce (client (w_ctx w)) = [] ->
  set_client (set_c_nonce [] (set_c_nonce x (client (w_ctx w)))) (w_ctx w) = w_ctx w.
Proof. intros H. destruct (w_ctx w) as [], client. cbn in *. by subst. Qed.

Lemma b64_credential_ok s max (w : world) :
  are_bytes s -> s <> [] -> Z.of_nat (length s) <= max * 3 / 4 + 1 ->
  Z.of_nat (length (b64_enc s)) <= max -> w_alloc w = [] -> b64_credential s max w = Some (b64_enc s, w).
Proof.
  intros Hs Hne H1 H2 Ha. unfold b64_credential, mbind, M_bind.
  destruct (est_base64_encode_ok Hbio s max w) as [n E]; [done..|]. rewrite E. unfold mret, M_ret. cbn [enc_dst].
  by rewrite cstr_id by apply b64_enc_no_nul.
Qed.

(** The application is asked for a token. *)
Definition token_asked (c : credentials) : list event :=
  match c with Token _ => [EvCredentialsCb AUTH_TOKEN] | _ => [] end.

(** The header with a field behind it, and a world with the same context. *)
Definition adds (hdr uri : bytes) (c : credentials) (field : bytes) (w : world) : Prop :=
  exists w1, est_client_add_auth_hdr hdr uri w = Some (hdr ++ field, w1) /\
    w_alloc w1 = [] /\ w_ctx w1 = w_ctx w /\ net_write (w_net w1) = net_write (w_net w) /\
    w_trace w1 = w_trace w ++ token_asked c.

Abbreviation field_of w uri c := (header_text (lit "Authorization", authorization (w_ctx w) uri c)).

Lemma bytes_app3 u p : are_bytes u -> are_bytes p -> are_bytes (u ++ lit ":" ++ p).
Proof.
  intros Hu Hp. apply Forall_app. split; [done|]. apply Forall_cons_2; [done|exact Hp].
Qed.

Lemma add_basic user pwd hdr uri w :
  let c := Basic user pwd in
  offers w c -> presentable (w_ctx w) uri c -> w_alloc w = [] ->
  Z.of_nat (length hdr) + Z.of_nat (length (field_of w uri c)) < EST_HTTP_REQ_TOTAL_LEN ->
  adds hdr uri c (field_of w uri c) w.
Proof.
  intros c (Hm & Eu & Ep) (Hne & _ & (Hub & Hun & Hus) & (Hpb & Hpn & Hps)) Ha Hf.
  unfold adds, est_client_add_auth_hdr, mbind at 1, M_bind at 1, get_ctx. rewrite Hm.
  unfold mbind at 1, M_bind at 1. rewrite user_and_pwd_configured by congruence. rewrite Eu, Ep.
  assert (Hl : length (user ++ lit ":" ++ pwd) = (length user + length pwd + 1)%nat) by (rewrite !length_app; simpl; lia).
  unfold short, MAX_UIDPWD in *. rewrite take_ge by (rewrite Hl; lia).
  assert (He := b64_enc_length (user ++ lit ":" ++ pwd)). rewrite Hl in He.
  unfold mbind, M_bind. rewrite b64_credential_ok; [|by apply bytes_app3|by destruct user|rewrite Hl; dlia|dlia|done].
  rewrite req_add_fits; [exists w; by rewrite app_nil_r|].
  revert Hf. unfold c, header_text, basic_hdr. cbn [authorization fst snd]. rewrite !length_app. simpl. lia.
Qed.

Lemma add_digest user pwd random hdr uri w :
  let c := Digest user pwd random in
  offers w c -> presentable (w_ctx w) uri c -> w_alloc w = [] -> c_nonce (client (w_ctx w)) = [] ->
  Z.of_nat (length hdr) + Z.of_nat (length (field_of w uri c)) < EST_HTTP_REQ_TOTAL_LEN ->
  adds hdr uri c (field_of w uri c) w.
Proof.
  intros c (Hm & Eu & Ep & [l Er] & Hi) (Hne & Qu & Qr & Qn & Qi & Lu & (Pb & Pn & Lp) & Lr & Ln & Li & Rb & _) Ha Hc Hf.
  unfold adds, est_client_add_auth_hdr, mbind at 1, M_bind at 1, get_ctx. rewrite Hm.
  unfold mbind at 1, M_bind at 1, RAND_bytes. unfold mbind at 1, M_bind at 1, get_net. rewrite Er.
  unfold mbind at 1, M_bind at 1, put_net, mret at 1, M_ret at 1.
  unfold mbind at 1, M_bind at 1, upd_client at 1.
  set (cn := est_hex_to_str (take 8 random)). set (w1 := set_w_ctx _ _).
  assert (Ecl : client (w_ctx w1) = set_c_nonce cn (client (w_ctx w))) by done.
  assert (Ectx : w_ctx w1 = set_client (set_c_nonce cn (client (w_ctx w))) (w_ctx w)) by done.
  unfold mbind at 1, M_bind at 1. rewrite user_and_pwd_configured by (rewrite Ecl; cbn; congruence).
  rewrite Ecl. change (userid (set_c_nonce cn (client (w_ctx w)))) with (userid (client (w_ctx w))).
  change (password (set_c_nonce cn (client (w_ctx w)))) with (password (client (w_ctx w))). rewrite Eu, Ep.
  assert (Qc : quotable cn). { apply hex_quotable. apply Forall_take, Rb. }
  assert (Ed : est_client_generate_auth_digest uri user pwd w1
    = Some (Some (digest_of user (realm (w_ctx w)) pwd (s_nonce (client (w_ctx w))) uri cn), w1)).
  { unfold est_client_generate_auth_digest, mbind, M_bind, get_ctx. rewrite Hi. cbn [negb]. unfold alloc.
    change (w_alloc w1) with (w_alloc w). rewrite Ha. change (realm (w_ctx w1)) with (realm (w_ctx w)). rewrite Ecl.
    change (s_nonce (set_c_nonce cn (client (w_ctx w)))) with (s_nonce (client (w_ctx w))).
    change (c_nonce (set_c_nonce cn (client (w_ctx w)))) with cn.
    rewrite !bounded_short; try done; try (by apply quotable_no_nul). unfold short, MAX_NONCE, cn.
    rewrite hex_length, length_take. lia. }
  unfold mbind at 1, M_bind at 1. rewrite Ed.
  unfold mbind, M_bind, upd_client, mret, M_ret, get_ctx.
  change (realm (w_ctx w1)) with (realm (w_ctx w)). rewrite Ecl.
  change (s_nonce (set_c_nonce cn (client (w_ctx w)))) with (s_nonce (client (w_ctx w))).
  change (c_nonce (set_c_nonce cn (client (w_ctx w)))) with cn.
  rewrite digest_hdr_text. change (lit "Digest " ++ params_text _) with (authorization (w_ctx w) uri c).
  rewrite req_add_fits by done. eexists. split; [reflexivity|]. split; [done|]. split; [|by rewrite app_nil_r].
  cbn [w_ctx set_w_ctx]. rewrite Ectx. by apply nonce_cleared.
Qed.

Lemma add_token token hdr uri w :
  let c := Token token in
  offers w c -> presentable (w_ctx w) uri c -> w_alloc w = [] ->
  Z.of_nat (length hdr) + Z.of_nat (length (field_of w uri c)) < EST_HTTP_REQ_TOTAL_LEN ->
  adds hdr uri c (field_of w uri c) w.
Proof.
  intros c (Hm & cb & Ecb & Et) (Hne & (Hb & Hn & Hs)) Ha Hf.
  unfold adds, est_client_add_auth_hdr, mbind at 1, M_bind at 1, get_ctx. rewrite Hm.
  unfold ask_credentials, mbind, M_bind, get_client. rewrite Ecb. unfold get_trace, emit, mret at 1, M_ret at 1.
  rewrite Et. assert (He := b64_enc_length token). unfold short in Hs.
  assert (Hl : strnlen_s (Some token) (MAX_AUTH_TOKEN_LEN + 1) = Z.of_nat (length token)).
  { unfold strnlen_s, strnlen. rewrite cstr_id by done. lia. }
  rewrite Hl, (proj2 (Z.ltb_ge _ _)), cstr_id by done.
  unfold MAX_AUTH_TOKEN_LEN in *. rewrite b64_credential_ok; [|done|done|dlia|dlia|done].
  rewrite req_add_fits; [eexists; split; [reflexivity|done]|].
  revert Hf. unfold c, header_text, bearer_hdr. cbn [authorization fst snd]. rewrite !length_app. simpl. lia.
Qed.

(** ** What the server makes of it *)

(** The server holds the credentials: the parsed header has them, and the digest that
    [est_server_generate_auth_digest] computes for the hash of a password of the user is
    the one a client with that password sends. *)
Definition understood (ctx : EST_CTX) (uri : bytes) (c : credentials) (ah : EST_HTTP_AUTH_HDR) : Prop :=
  match c with
  | Basic user pwd => ah_mode ah = AUTH_BASIC /\ ah_user ah = Some user /\ ah_pwd ah = Some pwd
  | Digest user pwd random =>
      let response p := digest_of user (realm ctx) p (s_nonce (client ctx)) uri (est_hex_to_str (take 8 random)) in
      ah_mode ah = AUTH_DIGEST /\ ah_user ah = Some user /\ ah_response ah = Some (response pwd) /\
      forall p (w : world), w_alloc w = [] ->
        est_server_generate_auth_digest (Some ah) (Some (md5_hex [user; lit ":"; realm ctx; lit ":"; p])) w
        = Some (Some (response p), w)
  | Token token => ah_mode ah = AUTH_TOKEN /\ ah_auth_token ah = Some token
  end.

Lemma gobble_printable s : s <> [] -> Forall (fun c => 33 <= c < 127) s -> gobble s = s /\ gobble (chr_space :: s) = s.
Proof.
  intros Hne Hs. destruct s as [|c s]; [done|]. inversion Hs as [|? ? Hc _]; subst.
  assert (Hsp : isspace c = false) by (unfold isspace; apply orb_false_iff; lia).
  unfold gobble. split.
  - by rewrite skip_spaces_none.
  - cbn [length skip_spaces]. change (negb (rd (chr_space :: c :: s) 0 =? 0) && isspace (rd (chr_space :: c :: s) 0)) with true.
    cbn match. change (rd (chr_space :: c :: s) 1) with c. by rewrite Hsp, andb_false_r.
Qed.

Lemma no_nul_enc s : s <> [] -> b64_enc s <> [].
Proof. by destruct s as [|a [|b [|d s]]]. Qed.

Lemma parse_token_header token ah (w : world) :
  token <> [] -> string MAX_AUTH_TOKEN_LEN token -> w_alloc w = [] ->
  mg_parse_auth_hdr_token (lit "Bearer " ++ b64_enc token) ah w
  = Some (set_ah_mode (set_ah_token ah (Some token)) AUTH_TOKEN, w).
Proof.
  intros Hne (Hb & Hn & Hs) Ha. unfold mg_parse_auth_hdr_token. unfold short, MAX_AUTH_TOKEN_LEN in *.
  rewrite cstr_id by (apply no_nul_app; [by apply text_no_nul, lit_text|apply b64_enc_no_nul]).
  change (drop (length EST_BEARER_TOKEN_STR - 1) (lit "Bearer " ++ b64_enc token)) with (chr_space :: b64_enc token).
  destruct (gobble_printable (b64_enc token) (no_nul_enc _ Hne) (b64_enc_printable token)) as [_ ->].
  unfold mbind at 1, M_bind at 1. rewrite (est_base64_decode_at_ok Hbio _ token) by (done || lia).
  rewrite (proj2 (Z.leb_gt _ _)), (proj2 (Z.leb_gt _ _)) by (destruct token; simpl in *; [done|lia]). cbn [orb].
  rewrite (proj2 (Z.eqb_neq _ _)).
  2: { assert (Hp := b64_enc_printable token). assert (Hz := no_nul_enc _ Hne). destruct (b64_enc token); [done|].
       inversion Hp; subst. cbn. lia. }
  cbn [negb]. rewrite (dup_then token _ token (fun t => set_ah_mode (set_ah_token ah t) AUTH_TOKEN)); [|done|by apply cstr_id].
  rewrite take_ge; [done|]. unfold MAX_AUTH_TOKEN_LEN. lia.
Qed.

(** The user name ends at the first colon. *)
Lemma strstr_colon_first user r i :
  Forall (fun c => c <> chr_colon) user -> strstr_from (user ++ chr_colon :: r) [chr_colon] i = Some (i + length user)%nat.
Proof.
  intros H. revert i; induction H as [|c u Hc Hu IH]; intros i; cbn [app strstr_from starts_with length].
  - change (chr_colon =? chr_colon) with true. cbn [andb]. by rewrite Nat.add_0_r.
  - rewrite (proj2 (Z.eqb_neq _ _)) by congruence. cbn [andb]. rewrite IH. f_equal. lia.
Qed.

Lemma scan_colon c : tok_scan c [chr_colon] STRTOK_DELIM_MAX_LEN = if c =? chr_colon then Delim else NotDelim.
Proof. done. Qed.

Lemma strtok_end_colon user pre r fuel dlen dmax tok ptr :
  Forall (fun c => c <> chr_colon) user -> no_nul user -> (length user < fuel)%nat -> Z.of_nat (length user) < dlen ->
  strtok_end fuel (pre ++ user ++ chr_colon :: r) (length pre) dlen dmax [chr_colon] tok ptr
  = Build_strtok_res (Some tok) (pre ++ user ++ 0 :: r) (dlen - Z.of_nat (length user) - 1)
      (Some (length pre + length user + 1)%nat).
Proof.
  intros Hc. revert pre fuel dlen; induction Hc as [|c u Hc Hu IH]; intros pre fuel dlen Hn Hf Hd;
    (destruct fuel as [|fuel]; [simpl in Hf; lia|]); cbn [strtok_end app].
  - rewrite <- (Nat.add_0_r (length pre)) at 1. rewrite rd_app_r. change (rd (chr_colon :: r) 0) with chr_colon.
    change (chr_colon =? 0) with false. rewrite (proj2 (Z.eqb_neq _ _)) by (simpl in Hd; lia). cbn match.
    rewrite <- (Nat.add_0_r (length pre)) at 1. rewrite rd_app_r. change (rd (chr_colon :: r) 0) with chr_colon.
    rewrite scan_colon, Z.eqb_refl. rewrite insert_app_r_alt, Nat.sub_diag by lia. cbn. f_equal; [lia|]. f_equal. lia.
  - inversion Hn as [|? ? Hc0 Hn']; subst.
    assert (Hrd : rd (pre ++ c :: u ++ chr_colon :: r) (length pre) = c).
    { rewrite <- (Nat.add_0_r (length pre)), rd_app_r. done. }
    rewrite Hrd, (proj2 (Z.eqb_neq _ _)), (proj2 (Z.eqb_neq _ _)) by (simpl in Hd; lia). cbn match.
    rewrite scan_colon, (proj2 (Z.eqb_neq _ _)) by done.
    replace (pre ++ c :: u ++ chr_colon :: r) with ((pre ++ [c]) ++ u ++ chr_colon :: r) by (by rewrite <- app_assoc).
    replace (S (length pre)) with (length (pre ++ [c])) by (rewrite length_app; simpl; lia).
    simpl in Hf, Hd. rewrite IH by (done || lia). rewrite <- app_assoc, length_app. cbn [app length]. f_equal; [lia|]. f_equal. lia.
Qed.

Lemma strtok_user user pwd :
  user <> [] -> Forall (fun c => c <> chr_colon) user -> no_nul user -> fits (user ++ chr_colon :: pwd) ->
  let both := user ++ chr_colon :: pwd in
  strtok_s both (Some 0%nat) (Some (Z.of_nat (length both))) (Some (lit ":")) None
  = Build_strtok_res (Some 0%nat) (user ++ 0 :: pwd) (Z.of_nat (length pwd)) (Some (length user + 1)%nat).
Proof.
  intros Hne Hc Hn Hf both. destruct user as [|c u]; [done|].
  inversion Hc as [|? ? Hc1 Hcu]; subst. inversion Hn as [|? ? Hn1 Hnu]; subst.
  unfold strtok_s. assert (Hl : Z.of_nat (length both) = Z.of_nat (length u) + Z.of_nat (length pwd) + 2).
  { unfold both. rewrite length_app. simpl. lia. }
  unfold fits in Hf. fold both in Hf.
  rewrite (proj2 (Z.eqb_neq _ _)), Z.gtb_ltb, (proj2 (Z.ltb_ge _ _)) by lia.
  cbn [strtok_start]. change (rd both 0) with c. rewrite (proj2 (Z.eqb_neq _ _)), (proj2 (Z.eqb_neq _ _)) by lia.
  change (lit ":") with [chr_colon]. rewrite scan_colon, (proj2 (Z.eqb_neq _ _)) by done.
  change (rd [chr_colon] 0 =? 0) with false. cbn match. rewrite Hl. unfold both.
  assert (H := strtok_end_colon u [c] pwd (length (c :: u ++ chr_colon :: pwd)) (Z.of_nat (length u) + Z.of_nat (length pwd) + 2 - 1)
    (Z.of_nat (length u) + Z.of_nat (length pwd) + 2) 0%nat None Hcu Hnu).
  cbn [app length] in H |- *. rewrite H by (rewrite ?length_app; simpl; lia). f_equal; lia.
Qed.

Lemma parse_basic_header user pwd ah (w : world) :
  user <> [] -> ~ In chr_colon user -> string MAX_UIDPWD user -> string MAX_UIDPWD pwd -> w_alloc w = [] ->
  mg_parse_auth_hdr_basic (lit "Basic " ++ b64_enc (user ++ lit ":" ++ pwd)) ah w
  = Some (set_ah_mode (set_ah_pwd (set_ah_user ah (Some user)) (Some pwd)) AUTH_BASIC, w).
Proof.
  intros Hne Hcol (Hub & Hun & Hus) (Hpb & Hpn & Hps) Ha. unfold mg_parse_auth_hdr_basic.
  change (lit ":" ++ pwd) with (chr_colon :: pwd). set (both := user ++ chr_colon :: pwd).
  assert (Hc : Forall (fun c => c <> chr_colon) user) by (apply List.Forall_forall; by intros c Hin ->).
  assert (Hbb : are_bytes both) by (by apply (bytes_app3 user pwd)).
  assert (Hbn : no_nul both) by (apply no_nul_app; [done|by apply Forall_cons_2]).
  assert (Hl : Z.of_nat (length both) = Z.of_nat (length user) + Z.of_nat (length pwd) + 1).
  { unfold both. rewrite length_app. simpl. lia. }
  assert (Hb0 : both <> []) by (unfold both; by destruct user).
  unfold short, MAX_UIDPWD in *.
  rewrite cstr_id by (apply no_nul_app; [by apply text_no_nul, lit_text|apply b64_enc_no_nul]).
  change (drop 6 (lit "Basic " ++ b64_enc both)) with (b64_enc both).
  destruct (gobble_printable (b64_enc both) (no_nul_enc _ Hb0) (b64_enc_printable both)) as [-> _].
  unfold mbind at 1, M_bind at 1. rewrite (est_base64_decode_at_ok Hbio _ both) by (done || lia).
  rewrite (proj2 (Z.leb_gt _ _)), (proj2 (Z.leb_gt _ _)) by lia. cbn [orb].
  unfold strstr_s, strstr. rewrite (cstr_id both) by done. change (cstr (lit ":")) with [chr_colon].
  unfold both at 1. rewrite strstr_colon_first by done. cbn match.
  assert (H0 : rd both 0 <> chr_colon) by (unfold both; destruct user; [done|]; by inversion Hc).
  rewrite (proj2 (Z.eqb_neq _ _) H0).
  assert (Hf : fits both) by (apply fits_small; lia).
  assert (Ht := strtok_user user pwd Hne Hc Hun Hf). cbv zeta in Ht. fold both in Ht. rewrite Ht.
  cbn [tk_token tk_ptr tk_buf]. unfold mbind at 1, M_bind at 1. rewrite strndup_ok by done. unfold STRNDUP.
  rewrite drop_0, (cstr_app_no_nul user) by done.
  cbn [cstr]. change (0 =? 0) with true. cbn match. rewrite app_nil_r, take_ge by lia.
  rewrite (dup_then _ _ pwd (fun p => set_ah_mode (set_ah_pwd (set_ah_user ah (Some user)) p) AUTH_BASIC)); [|done|].
  - rewrite take_ge by lia. done.
  - rewrite <- drop_drop, drop_app_l. cbn [drop]. by apply cstr_id.
Qed.

Lemma digest_params_ok user realm nonce uri cnonce digest :
  quotable user -> quotable realm -> quotable nonce -> quotable uri -> quotable cnonce -> quotable digest ->
  Forall param_ok (digest_params user realm nonce uri cnonce digest).
Proof.
  intros. unfold digest_params.
  repeat (apply Forall_cons_2; [split; cbn [p_name p_value p_quoted]; [unfold digest_names; cbn [In]; tauto| |]|]);
    try apply Forall_nil_2; try done; try (by left); try (by apply quotable_check).
  right. split; [|done]. apply List.Forall_forall. intros c Hc.
  assert (Hb : forallb (fun c => negb (c =? 44) && negb (c =? 32)) (lit "00000001") = true) by done.
  rewrite forallb_forall in Hb. specialize (Hb c Hc). intros [<-|[<-|[]]]; done.
Qed.

(** The copy of the header: its text, then NULs. *)
Lemma header_copy s :
  no_nul s -> short (MAX_AUTH_HDR_LEN - 1) s ->
  exists zs, strcpy_s (replicate (Z.to_nat MAX_AUTH_HDR_LEN) 0) MAX_AUTH_HDR_LEN (Some s) = (EOK, s ++ zs) /\
    rd zs 0 = 0 /\ zs <> [] /\ Z.of_nat (length (s ++ zs)) = MAX_AUTH_HDR_LEN.
Proof.
  intros Hn Hs. unfold short in Hs. assert (Hmax : 0 < MAX_AUTH_HDR_LEN) by done.
  unfold strcpy_s. rewrite (proj2 (Z.eqb_neq _ _)) by lia. unfold strncpy. rewrite cstr_id by done.
  rewrite take_ge by lia. rewrite store_all by (rewrite length_app, !length_replicate; lia).
  eexists. split; [reflexivity|]. split; [|split].
  - destruct (Z.to_nat MAX_AUTH_HDR_LEN - length s)%nat; done.
  - intros E%(f_equal length). rewrite length_replicate in E. simpl in E. lia.
  - rewrite length_app, length_replicate. lia.
Qed.

Lemma parse_digest_header ps ah (w : world) :
  Forall param_ok ps -> (exists ps0 p, ps = ps0 ++ [p] /\ p_quoted p = true) -> no_nul (params_text ps) ->
  short (MAX_AUTH_HDR_LEN - 1) (params_text ps) -> w_alloc w = [] ->
  mg_parse_auth_hdr_digest (lit "Digest " ++ params_text ps) ah w
  = Some (assign_all ps (set_ah_mode ah AUTH_DIGEST), w).
Proof.
  intros Hok Hlast Hn Hs Ha. unfold mg_parse_auth_hdr_digest.
  rewrite cstr_id by (apply no_nul_app; [by apply text_no_nul, lit_text|done]).
  change (drop 7 (lit "Digest " ++ params_text ps)) with (params_text ps).
  destruct (header_copy (params_text ps) Hn Hs) as (zs & -> & Hz & Hne & Hl).
  apply (digest_loop_params ps _ [] [] zs); try done; [apply fits_small; cbn [app]; rewrite Hl; done|].
  assert (Hle : (length ps <= length (params_text ps))%nat).
  { clear - Hok. induction Hok as [|p ps [Hp _ _] _ IH]; [done|]. destruct (name_facts _ Hp) as (_ & _ & _ & _ & Ln).
    assert (Hp' : (1 <= length (param_text p))%nat) by (unfold param_text; rewrite length_app; lia).
    destruct ps as [|p' ps]; [exact Hp'|].
    change (params_text (p :: p' :: ps)) with (param_text p ++ lit ", " ++ params_text (p' :: ps)).
    rewrite !length_app. cbn [length] in *. lia. }
  rewrite length_app. lia.
Qed.

Lemma params_texts ps : Forall param_ok ps -> text (params_text ps).
Proof.
  intros Hok. assert (Hlit : forall s, forallb (fun c => (32 <=? c) && (c <? 127)) (lit s) = true -> text (lit s)) by (intros; by apply lit_text).
  assert (Hp : forall p, param_ok p -> text (param_text p)).
  { intros p [Hn Hv _]. assert (Hb : forallb (forallb (fun c => (32 <=? c) && (c <? 127))) digest_names = true) by done.
    rewrite forallb_forall in Hb. specialize (Hb _ Hn).
    unfold param_text, value_text. apply Forall_app; split; [by apply lit_text|]. apply Forall_app; split; [by apply Hlit|].
    destruct (p_quoted p); [|apply Hv]. apply Forall_cons_2; [by left|]. apply Forall_app; split; [apply Hv|].
    apply Forall_cons_2; [by left|apply Forall_nil_2]. }
  induction Hok as [|p ps Hp' Hps IH]; [apply Forall_nil_2|]. destruct ps as [|p' ps]; cbn [params_text]; [by apply Hp|].
  apply Forall_app; split; [by apply Hp|]. apply Forall_app; split; [by apply Hlit|exact IH].
Qed.

Lemma params_no_nul ps : Forall param_ok ps -> no_nul (params_text ps).
Proof. intros H. by apply text_no_nul, params_texts. Qed.

(** ** The accepted header *)

(** The name of the user that a connection keeps. *)
Definition user_of (c : credentials) : option bytes :=
  match c with Basic user _ | Digest user _ _ => Some user | Token _ => None end.

(** What [mg_parse_auth_header] does with the credentials on the connection of [ws]. *)
Definition accepted (ctx : EST_CTX) (uri : bytes) (c : credentials) (ws : world) : Prop :=
  exists ah, understood ctx uri c ah /\
    mg_parse_auth_header (Some empty_ah) ws
    = Some ((EST_AUTH_HDR_GOOD, Some ah),
            match user_of c with
            | Some user => set_w_conn (set_c_user_id user (w_conn ws)) ws
            | None => ws
            end).

Lemma check_user ah user (w : world) :
  ah_user ah = Some user -> ah_mode ah <> AUTH_TOKEN -> no_nul user -> short MAX_UIDPWD user ->
  (ah_mode ah = AUTH_DIGEST -> is_Some (ah_uri ah) /\ is_Some (ah_nonce ah) /\ is_Some (ah_nc ah) /\ is_Some (ah_cnonce ah)) ->
  mg_check_auth ah w = Some (EST_AUTH_HDR_GOOD, set_w_conn (set_c_user_id user (w_conn w)) w).
Proof.
  intros Hu Hm Hn Hs Hd. unfold mg_check_auth.
  rewrite Hu, (bool_decide_false (ah_mode ah = AUTH_TOKEN)) by done.
  replace (_ && _) with false.
  - unfold mbind at 1, M_bind at 1, get_conn. unfold strcpy_s. change (MG_UID_MAX =? 0) with false. cbn match.
    unfold mbind, M_bind, put_conn, mret, M_ret. rewrite cstr_strncpy by reflexivity.
    rewrite (cstr_id user) by done. rewrite take_ge; [done|]. unfold short, MAX_UIDPWD, MG_UID_MAX in *. lia.
  - symmetry. case_bool_decide as E; [|done]. destruct (Hd E) as (H1 & H2 & H3 & H4).
    rewrite !bool_decide_true by done. done.
Qed.

Definition has_header (c : credentials) (ctx : EST_CTX) (uri : bytes) (ws : world) : Prop :=
  get_header (http_headers (w_conn ws)) (lit "Authorization") = Some (authorization ctx uri c).

Lemma accepts_basic user pwd ctx uri ws :
  let c := Basic user pwd in
  presentable ctx uri c -> auth_mode (w_ctx ws) = AUTH_BASIC -> w_alloc ws = [] -> has_header c ctx uri ws ->
  accepted ctx uri c ws.
Proof.
  intros c (Hne & Hc & Hu & Hp) Hm Ha Hh. eexists. split; [|].
  2: { unfold mg_parse_auth_header, mbind at 1, M_bind at 1, get_ctx. unfold mbind at 1, M_bind at 1, mg_get_header.
       unfold mbind at 1, M_bind at 1, get_conn, mret at 1, M_ret at 1. rewrite Hh. cbn [authorization c].
       change (mg_strncasecmp (lit "Basic " ++ _) (lit "Digest ") 7 =? 0) with false.
       change (mg_strncasecmp (lit "Basic " ++ _) (lit "Basic ") 6 =? 0) with true. cbn match.
       rewrite Hm, bool_decide_true by done. cbn [negb]. unfold mg_parse_with.
       unfold mbind at 1, M_bind at 1. rewrite parse_basic_header by done.
       unfold mbind at 1, M_bind at 1. rewrite (check_user _ user); [reflexivity|done|done|apply Hu|apply Hu|done]. }
  done.
Qed.

Lemma accepts_token token ctx uri ws :
  let c := Token token in
  presentable ctx uri c -> auth_mode (w_ctx ws) = AUTH_TOKEN -> w_alloc ws = [] -> has_header c ctx uri ws ->
  accepted ctx uri c ws.
Proof.
  intros c (Hne & Ht) Hm Ha Hh. eexists. split; [|].
  2: { unfold mg_parse_auth_header, mbind at 1, M_bind at 1, get_ctx. unfold mbind at 1, M_bind at 1, mg_get_header.
       unfold mbind at 1, M_bind at 1, get_conn, mret at 1, M_ret at 1. rewrite Hh. cbn [authorization c].
       change (mg_strncasecmp (lit "Bearer " ++ _) (lit "Digest ") 7 =? 0) with false.
       change (mg_strncasecmp (lit "Bearer " ++ _) (lit "Basic ") 6 =? 0) with false.
       change (mg_strncasecmp (lit "Bearer " ++ _) EST_BEARER_TOKEN_STR _ =? 0) with true. cbn match.
       rewrite Hm, bool_decide_true by done. cbn [negb]. unfold mg_parse_with.
       unfold mbind at 1, M_bind at 1. rewrite parse_token_header by done. reflexivity. }
  done.
Qed.

Lemma digest_params_last user realm nonce uri cnonce digest :
  exists ps0 p, digest_params user realm nonce uri cnonce digest = ps0 ++ [p] /\ p_quoted p = true.
Proof.
  exists (removelast (digest_params user realm nonce uri cnonce digest)), (Build_param (lit "response") digest true).
  done.
Qed.

(** The header that the parameters are assigned to. *)
Definition digest_ah (user nonce uri cnonce digest : bytes) : EST_HTTP_AUTH_HDR :=
  Build_EST_HTTP_AUTH_HDR AUTH_DIGEST (Some user) None (Some uri) (Some cnonce) (Some (lit "auth"))
    (Some (lit "00000001")) (Some nonce) (Some digest) None.

Lemma assign_digest user realm nonce uri cnonce digest :
  assign_all (digest_params user realm nonce uri cnonce digest) (set_ah_mode empty_ah AUTH_DIGEST)
  = digest_ah (bounded MAX_UIDPWD user) (bounded MAX_NONCE nonce) (bounded MAX_REALM uri) (bounded MAX_NONCE cnonce)
      (bounded MAX_RESPONSE digest).
Proof. reflexivity. Qed.

Lemma server_digest user realm p nonce uri cnonce digest (w : world) :
  no_nul nonce -> short MAX_NONCE nonce -> no_nul uri -> short MAX_REALM uri -> no_nul cnonce ->
  short MAX_NONCE cnonce -> EVP_DigestInit_md5 = true -> w_alloc w = [] ->
  est_server_generate_auth_digest (Some (digest_ah user nonce uri cnonce digest))
    (Some (md5_hex [user; lit ":"; realm; lit ":"; p])) w
  = Some (Some (digest_of user realm p nonce uri cnonce), w).
Proof.
  intros N1 S1 N2 S2 N3 S3 Hi Ha. unfold est_server_generate_auth_digest, digest_ah.
  destruct (md5_hex_quotable [user; lit ":"; realm; lit ":"; p]) as [_ Hl].
  rewrite Hi, Hl. cbn [negb orb Nat.ltb Nat.leb ah_uri ah_nonce ah_nc ah_cnonce default].
  unfold mbind, M_bind, alloc. rewrite Ha. cbn [negb]. rewrite take_ge by lia.
  unfold id. change (bounded MAX_NC (lit "00000001")) with (lit "00000001"). rewrite !bounded_short; done.
Qed.

Lemma accepts_digest user pwd random ctx uri ws :
  let c := Digest user pwd random in
  presentable ctx uri c -> EVP_DigestInit_md5 = true ->
  auth_mode (w_ctx ws) = AUTH_DIGEST -> w_alloc ws = [] -> has_header c ctx uri ws ->
  accepted ctx uri c ws.
Proof.
  intros c (Hne & Qu & Qr & Qn & Qi & Lu & (Pb & Pn & Lp) & Lr & Ln & Li & Rb & Hs) Hi Hm Ha Hh.
  set (cn := est_hex_to_str (take 8 random)).
  set (nonce := s_nonce (client ctx)). set (d := digest_of user (realm ctx) pwd nonce uri cn).
  assert (Qc : quotable cn) by (apply hex_quotable, Forall_take, Rb).
  destruct (md5_hex_quotable [md5_hex [user; lit ":"; realm ctx; lit ":"; pwd]; lit ":"; nonce; lit ":";
           lit "00000001"; lit ":"; cn; lit ":"; lit "auth"; lit ":"; md5_hex [lit "POST"; lit ":"; uri]]) as [Qd Ld].
  fold (digest_of user (realm ctx) pwd nonce uri cn) in Qd, Ld. fold d in Qd, Ld.
  set (ps := digest_params user (realm ctx) nonce uri cn d).
  assert (Hok : Forall param_ok ps) by (by apply digest_params_ok).
  assert (Lc : short MAX_NONCE cn) by (unfold short, MAX_NONCE, cn; rewrite hex_length, length_take; lia).
  assert (Ea : assign_all ps (set_ah_mode empty_ah AUTH_DIGEST) = digest_ah user nonce uri cn d).
  { unfold ps. rewrite assign_digest, !bounded_short; try done; try (by apply quotable_no_nul).
    unfold short, MAX_RESPONSE. lia. }
  exists (digest_ah user nonce uri cn d). split.
  - split_and!; try done. intros p w Hw. apply server_digest; try done; by apply quotable_no_nul.
  - unfold mg_parse_auth_header, mbind at 1, M_bind at 1, get_ctx. unfold mbind at 1, M_bind at 1, mg_get_header.
    unfold mbind at 1, M_bind at 1, get_conn, mret at 1, M_ret at 1. rewrite Hh. cbn [authorization c].
    fold cn nonce d ps.
    change (mg_strncasecmp (lit "Digest " ++ _) (lit "Digest ") 7 =? 0) with true. cbn match.
    rewrite Hm, bool_decide_true by done. cbn [negb]. unfold mg_parse_with.
    unfold mbind at 1, M_bind at 1.
    rewrite parse_digest_header; [|done|apply digest_params_last|by apply params_no_nul|exact Hs|done].
    rewrite Ea. unfold mbind at 1, M_bind at 1.
    rewrite (check_user _ user); [reflexivity|done|done|by apply quotable_no_nul|done|eauto].
Qed.

(** The client adds the header field of its credentials to a request. *)
Lemma credentials_added w c hdr uri :
  offers w c -> presentable (w_ctx w) uri c -> w_alloc w = [] -> c_nonce (client (w_ctx w)) = [] ->
  Z.of_nat (length hdr) + Z.of_nat (length (field_of w uri c)) < EST_HTTP_REQ_TOTAL_LEN ->
  adds hdr uri c (field_of w uri c) w.
Proof. destruct c; intros; [by apply add_basic|by apply add_digest|by apply add_token]. Qed.

(** The server of the same mode accepts it and holds the credentials. *)
Lemma credentials_accepted w c uri ws :
  offers w c -> presentable (w_ctx w) uri c -> auth_mode (w_ctx ws) = auth_mode (w_ctx w) -> w_alloc ws = [] ->
  has_header c (w_ctx w) uri ws -> accepted (w_ctx w) uri c ws.
Proof.
  intros Ho Hp Hm Ha Hh. destruct c; cbn [offers] in Ho.
  - apply accepts_basic; try done. rewrite Hm. apply Ho.
  - destruct Ho as (Em & _ & _ & _ & Hi). apply accepts_digest; try done. congruence.
  - apply accepts_token; try done. rewrite Hm. apply Ho.
Qed.

(** The field can stand in a request. *)
Lemma authorization_text w uri c :
  presentable (w_ctx w) uri c -> header_ok (lit "Authorization", authorization (w_ctx w) uri c).
Proof.
  intros Hp. assert (He : forall s, text (b64_enc s)).
  { intros s. eapply Forall_impl; [|exact (b64_enc_printable s)]. intros x Hx. left. cbn in Hx. lia. }
  assert (Hlit : forall s, forallb (fun c => (32 <=? c) && (c <? 127)) (lit s) = true -> text (lit s)) by (intros; by apply lit_text).
  destruct c as [user pwd|user pwd random|token]; cbn [authorization presentable] in *.
  - apply header_ok_intro; [done|done|apply Forall_app; split; [by apply Hlit|apply He]|done].
  - destruct Hp as (_ & Qu & Qr & Qn & Qi & _ & _ & _ & _ & _ & Rb & _).
    apply header_ok_intro; [done|done| |done]. apply Forall_app; split; [by apply Hlit|].
    apply params_texts, digest_params_ok; try done; [apply hex_quotable, Forall_take, Rb|]. apply md5_hex_quotable.
  - apply header_ok_intro; [done|done|apply Forall_app; split; [by apply Hlit|apply He]|done].
Qed.

End Credentials.
