(* ===== verification/AttrHelpers.v ===== *)
(** * AttrHelpers: the attribute helpers for applications (est.c)

    An application of the client reads the CSR attributes of a server with
    [est_decode_attributes_helper] and [est_get_attributes_helper] and puts them into
    its CSR with [est_add_attributes_helper].

    The pointer into the decoded data is an offset; NULL is [None]. The loop of
    [est_get_attributes_helper] runs with the length of the data as fuel; the code never
    returns [EST_ERR_LAST], which marks a loop that ran out of it.

    On DER data the repeated calls of an application yield the object identifiers, in
    order; when there are none left nothing tells so. *)

From S2P Require Import Prelude.
From S2P Require Import SafeC.
From S2P Require Import EstTypes.
From S2P Require Import EstState.
From S2P Require Import EstUtil.
From S2P Require Import ServerCsr.
From S2P Require Import Base64.
From S2P Require Import EstUtilFacts.
From S2P Require Import ServerCsrProps.
From S2P Require Import CredentialProps.

Definition MBSTRING_ASC : Z := 4097.

Section AttrHelpers.
Context {L : OpenSSL}.
(** The CSR with the attribute, or a failure. *)
Variable X509_REQ_add1_attr_by_NID : X509_REQ -> Z -> Z -> bytes -> option X509_REQ.

Definition est_add_attributes_helper (req : option X509_REQ) (nid : Z) (string : option bytes) (chtype : Z)
    : EST_ERROR * option X509_REQ :=
  match req with
  | None => (EST_ERR_INVALID_PARAMETERS, None)
  | Some r =>
      if nid =? 0 then (EST_ERR_INVALID_PARAMETERS, Some r) else
      match string with
      | None => (EST_ERR_INVALID_PARAMETERS, Some r)
      | Some s =>
          let chtype := if chtype =? 0 then MBSTRING_ASC else chtype in
          match X509_REQ_add1_attr_by_NID r nid chtype (cstr s) with
          | None => (EST_ERR_X509_ATTR, Some r)
          | Some r' => (EST_ERR_NONE, Some r')
          end
      end
  end.

(** The error, and the data and its length when they are stored; [out] tells whether
    the caller's two pointers are there. *)
Definition est_decode_attributes_helper (csrattrs : option bytes) (csrattrs_len : Z) (out : bool)
    : M (EST_ERROR * option (bytes * Z)) :=
  match csrattrs with
  | None => mret (EST_ERR_INVALID_PARAMETERS, None)
  | Some text =>
      if csrattrs_len =? 0 then mret (EST_ERR_INVALID_PARAMETERS, None)
      else if negb out then mret (EST_ERR_INVALID_PARAMETERS, None)
      else if csrattrs_len <? MIN_CSRATTRS then mret (EST_ERR_INVALID_PARAMETERS, None)
      else
        ok ← alloc;
        if negb ok then mret (EST_ERR_MALLOC, None) else
        '(der_len, der) ← est_base64_decode text (csrattrs_len * 2);
        if der_len <=? 0 then mret (EST_ERR_BAD_BASE64, None)
        else mret (EST_ERR_NONE, Some (der, der_len))
  end.

(** The loop at offset [string] of data that ends at [end_]: the error, and the NID of
    the object identifier found with the offset behind it. *)
Fixpoint attributes_loop (fuel : nat) (data : bytes) (string end_ : Z) : EST_ERROR * option (Z * Z) :=
  match fuel with
  | O => (EST_ERR_LAST, None)
  | S f =>
    let out_len := end_ - string in
    if out_len >? 0 then
      let curr_string := drop (Z.to_nat string) data in
      let '(j, hl, len, tag, _) := ASN1_get_object curr_string out_len in
      if asn1_error j then (EST_ERR_BAD_ASN1_HEX, None)
      else if tag =? V_ASN1_OBJECT then
        match d2i_ASN1_OBJECT curr_string out_len with
        | Some (a_object, used) => (EST_ERR_NONE, Some (OBJ_obj2nid a_object, string + used))
        | None => attributes_loop f data (string + hl) end_
        end
      else if (tag =? V_ASN1_SET) || (tag =? V_ASN1_SEQUENCE)
      then attributes_loop f data (string + hl) end_
      else attributes_loop f data (string + hl + len) end_
    else (EST_ERR_NONE, None)
  end.

(** The three variables of the caller. *)
Record attr_cursor := {
  ac_ptr : Z;
  ac_len : Z;
  ac_nid : Z
}.

(** The error and the caller's variables; [None] when one of the pointers to them is
    NULL. *)
Definition est_get_attributes_helper (data : bytes) (c : option attr_cursor)
    : EST_ERROR * option attr_cursor :=
  match c with
  | None => (EST_ERR_INVALID_PARAMETERS, None)
  | Some c =>
      match attributes_loop (S (Z.to_nat (ac_len c))) data (ac_ptr c) (ac_ptr c + ac_len c) with
      | (rv, Some (nid, p)) => (rv, Some (Build_attr_cursor p (ac_len c - (p - ac_ptr c)) nid))
      | (rv, None) => (rv, Some c)
      end
  end.

End AttrHelpers.

(** ** cleanse_auth_credentials *)

(** The credentials are overwritten and freed; the mode stays. *)
Definition cleanse_auth_credentials (auth_cred : option EST_HTTP_AUTH_HDR) : option EST_HTTP_AUTH_HDR :=
  match auth_cred with
  | None => None
  | Some a => Some (Build_EST_HTTP_AUTH_HDR (ah_mode a) None None None None None None None None None)
  end.

Section Attributes.
Context {L : OpenSSL}.
Context (read_oid : bytes -> option ASN1_OBJECT).
Context (Hder : reads_der read_oid).

Local Abbreviation zlen s := (Z.of_nat (length s)).
Abbreviation oids ts := (flat_map (attr_oids read_oid) ts).
Abbreviation ok ts := (all_of (attrs_ok read_oid) ts).

(** What is found at the front of elements: the first object identifier, with the
    elements behind it. *)
Definition found (rv : EST_ERROR * option (Z * Z)) (start : Z) (b : bytes) (os : list ASN1_OBJECT) : Prop :=
  match os with
  | [] => rv = (EST_ERR_NONE, None)
  | a :: rest => exists mid ts', rv = (EST_ERR_NONE, Some (OBJ_obj2nid a, start + zlen mid)) /\
      b = mid ++ flat_map der ts' /\ (1 <= length mid)%nat /\ ok ts' /\ oids ts' = rest
  end.

Lemma found_behind rv start skip b os :
  found rv (start + zlen skip) b os -> found rv start (skip ++ b) os.
Proof.
  destruct os as [|a rest]; [done|]. intros (mid & ts' & -> & -> & H1 & H2 & H3).
  exists (skip ++ mid), ts'. rewrite length_app, <- app_assoc. split_and!; try done; [|lia].
  do 3 f_equal. lia.
Qed.

Lemma attributes_loop_der n ts pre post :
  ok ts -> zlen (flat_map der ts) < Z.of_nat n ->
  let b := flat_map der ts in
  found (attributes_loop n (pre ++ b ++ post) (zlen pre) (zlen pre + zlen b)) (zlen pre) b (oids ts).
Proof.
  revert ts pre; induction n as [|n IH]; intros ts pre Hok Hn b; [lia|].
  cbn [attributes_loop]. replace (zlen pre + zlen b - zlen pre) with (zlen b) by lia.
  destruct ts as [|t ts]; [done|].
  destruct Hok as [Ht Hok]. fold (ok ts) in Hok.
  assert (Eb : b = der t ++ flat_map der ts) by done. pose proof (der_pos t) as Hpos. fold b in Hn.
  assert (Hb : zlen b = zlen (der t) + zlen (flat_map der ts)) by (rewrite Eb, length_app; lia).
  rewrite Z.gtb_ltb, (proj2 (Z.ltb_lt _ _)), drop_at by lia.
  destruct (der_view t) as [[[kd x] tag] c] eqn:Ev.
  destruct (attrs_view_fits read_oid t kd x tag c Ev Ht) as [Et Hf].
  pose proof (der_hdr_pos kd x tag (zlen c)) as Hh. set (h := der_hdr kd x tag (zlen c)) in *.
  assert (Hlt : zlen (der t) = zlen h + zlen c) by (rewrite Et, length_app; lia).
  assert (Ec : b ++ post = h ++ (c ++ flat_map der ts ++ post)) by (rewrite Eb, Et, <- !app_assoc; done).
  assert (Hread : ASN1_get_object (b ++ post) (zlen b) = (if kd then 32 else 0, zlen h, zlen c, tag, x))
    by (rewrite Ec; apply Hder; [done|fold h; lia]).
  rewrite Hread. cbv iota.
  (* the loop on the elements [ts'] that follow [skip] bytes *)
  assert (Hnext : forall ts' skip p, b = skip ++ flat_map der ts' -> 1 <= zlen skip -> ok ts' ->
            p = zlen pre + zlen skip ->
            found (attributes_loop n (pre ++ b ++ post) p (zlen pre + zlen b)) (zlen pre) b (oids ts')).
  { intros ts' skip p E1 E2 Hok' ->. rewrite E1 at 3. apply found_behind.
    assert (E3 : zlen b = zlen skip + zlen (flat_map der ts')) by (rewrite E1, length_app; lia).
    specialize (IH ts' (pre ++ skip) Hok' ltac:(lia)). cbv zeta in IH.
    rewrite length_app, Nat2Z.inj_add, <- app_assoc, (app_assoc skip), <- E1, <- Z.add_assoc, <- E3 in IH. exact IH. }
  assert (Hskip : forall p, p = zlen pre + zlen h + zlen c ->
            found (attributes_loop n (pre ++ b ++ post) p (zlen pre + zlen b)) (zlen pre) b (oids ts)).
  { intros p ->. apply (Hnext ts (der t)); [done|lia|done|lia]. }
  destruct t as [x' tag' c'|c'|x' tag' ts']; injection Ev as <- <- <- <-; cbv iota.
  - destruct Ht as (_ & H6 & Hc). change (asn1_error 0) with false. cbv iota.
    rewrite (proj2 (Z.eqb_neq tag' V_ASN1_OBJECT)) by done. unfold is_container in Hc. rewrite Hc. by apply Hskip.
  - change (asn1_error 0) with false. change (V_ASN1_OBJECT =? V_ASN1_OBJECT) with true. cbv iota.
    destruct Ht as [_ [a Ha]].
    assert (Hobj : d2i_ASN1_OBJECT (b ++ post) (zlen b) = Some (a, zlen h + zlen c'))
      by (rewrite Ec; apply Hder; [done..|fold h; lia]).
    rewrite Hobj. cbn [flat_map attr_oids]. rewrite Ha. cbn [app found].
    exists (h ++ c'), ts. rewrite length_app. split_and!; [do 3 f_equal; lia| |lia|done|done].
    by rewrite Eb, Et.
  - change (asn1_error 32) with false. cbv iota. destruct Ht as (_ & H6 & Hts').
    rewrite (proj2 (Z.eqb_neq tag' V_ASN1_OBJECT)) by done. cbn [flat_map attr_oids].
    unfold is_container. destruct (_ || _) eqn:Ect; [|apply Hskip; lia].
    rewrite <- flat_map_app. apply (Hnext _ h); [|lia|by apply all_of_app|lia].
    by rewrite flat_map_app, Eb, Et, <- app_assoc.
Qed.

(** [n] calls of an application: the NIDs it was given, and its variables. *)
Fixpoint calls (n : nat) (data : bytes) (c : attr_cursor) : list Z * attr_cursor :=
  match n with
  | O => ([], c)
  | S m =>
      match est_get_attributes_helper data (Some c) with
      | (EST_ERR_NONE, Some c') => let '(l, c'') := calls m data c' in (ac_nid c' :: l, c'')
      | _ => ([], c)
      end
  end.

Lemma helper_der ts pre post nid :
  ok ts ->
  let b := flat_map der ts in
  exists rv, attributes_loop (S (Z.to_nat (zlen b))) (pre ++ b ++ post) (zlen pre) (zlen pre + zlen b) = rv /\
    found rv (zlen pre) b (oids ts) /\
    est_get_attributes_helper (pre ++ b ++ post) (Some (Build_attr_cursor (zlen pre) (zlen b) nid))
    = match rv with
      | (e, Some (k, p)) => (e, Some (Build_attr_cursor p (zlen b - (p - zlen pre)) k))
      | (e, None) => (e, Some (Build_attr_cursor (zlen pre) (zlen b) nid))
      end.
Proof.
  intros Hok b. eexists. split; [reflexivity|]. split; [|done].
  apply attributes_loop_der; [done|]. fold b. lia.
Qed.

Lemma calls_der os : forall ts pre post nid,
  ok ts -> oids ts = os ->
  let b := flat_map der ts in
  exists c, calls (length os) (pre ++ b ++ post) (Build_attr_cursor (zlen pre) (zlen b) nid) = (map OBJ_obj2nid os, c) /\
    est_get_attributes_helper (pre ++ b ++ post) (Some c) = (EST_ERR_NONE, Some c).
Proof.
  induction os as [|a os IH]; intros ts pre post nid Hok Hos b;
    destruct (helper_der ts pre post nid Hok) as (rv & _ & Hf & Eh); fold b in Hf, Eh; rewrite Hos in Hf.
  - cbn [found] in Hf. subst rv. eexists. split; [reflexivity|]. exact Eh.
  - destruct Hf as (mid & ts' & -> & Eb & Hm & Hok' & Hos').
    cbn [length calls]. rewrite Eh. cbn [ac_nid].
    destruct (IH ts' (pre ++ mid) post (OBJ_obj2nid a) Hok' Hos') as (c & Ec & El). exists c.
    assert (Hl : zlen b = zlen mid + zlen (flat_map der ts')) by (rewrite Eb, length_app; lia).
    replace (pre ++ b ++ post) with ((pre ++ mid) ++ flat_map der ts' ++ post) by (rewrite Eb, <- !app_assoc; done).
    split; [|exact El].
    replace (Build_attr_cursor (zlen pre + zlen mid) (zlen b - (zlen pre + zlen mid - zlen pre)) (OBJ_obj2nid a))
      with (Build_attr_cursor (zlen (pre ++ mid)) (zlen (flat_map der ts')) (OBJ_obj2nid a))
      by (rewrite length_app; f_equal; lia).
    by rewrite Ec.
Qed.

(** An application reads the attributes: from the base64 text of DER data the first helper
    gives the data, and as many calls of the second as there are object identifiers give
    their NIDs in order.  One call more returns EST_ERR_NONE as well and changes none of
    the caller's variables, so that nothing distinguishes the end of the attributes. *)
Theorem attributes_read (Hbio : base64_bio L) ts (w : world) :
  ok ts -> are_bytes (flat_map der ts) -> flat_map der ts <> [] ->
  MIN_CSRATTRS <= zlen (b64_enc (flat_map der ts)) -> w_alloc w = [] ->
  let b := flat_map der ts in
  let text := b64_enc b in
  est_decode_attributes_helper (Some text) (zlen text) true w = Some ((EST_ERR_NONE, Some (b, zlen b)), w) /\
  exists c, calls (length (oids ts)) b (Build_attr_cursor 0 (zlen b) 0) = (map OBJ_obj2nid (oids ts), c) /\
    est_get_attributes_helper b (Some c) = (EST_ERR_NONE, Some c).
Proof.
  intros Hok Hb Hne Hmin Ha b text. assert (Hl := b64_enc_length b). fold text in Hl.
  assert (Hp : 0 < zlen b) by (unfold b; clear -Hne; destruct (flat_map der ts); [done|simpl; lia]).
  split.
  - unfold est_decode_attributes_helper. assert (0 < MIN_CSRATTRS) by done. fold b text in Hmin.
    rewrite (proj2 (Z.eqb_neq _ _)), (proj2 (Z.ltb_ge _ _)) by lia. cbn [negb].
    unfold mbind, M_bind, alloc. rewrite Ha. cbn [negb].
    unfold text at 1. rewrite (est_base64_decode_ok Hbio); [|done|done|dlia|done].
    by rewrite (proj2 (Z.leb_gt _ _)) by lia.
  - destruct (calls_der (oids ts) ts [] [] 0 Hok eq_refl) as (c & E1 & E2). fold b in E1, E2.
    cbn [app] in E1, E2. rewrite app_nil_r in E1, E2. by exists c.
Qed.

End Attributes.
