(* ===== verification/ClientExchangeProps.v ===== *)
(** * ClientExchangeProps: the client's request at the server

    The two endpoints of the library understand each other: the request that the client
    writes for an enrollment reaches the application of the server as the operation,
    with the CSR, however the channel cuts it into pieces.

    The request that the client writes with the credentials of its authentication mode
    reaches the server's dispatcher as it is, and the server holds the credentials. *)

From S2P Require Import Prelude.
From S2P Require Import SafeC.
From S2P Require Import EstTypes.
From S2P Require Import EstState.
From S2P Require Import EstUtil.
From S2P Require Import EstUtilFacts.
From S2P Require Import HttpParse.
From S2P Require Import HttpIO.
From S2P Require Import ServerDispatch.
From S2P Require Import HttpConn.
From S2P Require Import HttpStreamProps.
From S2P Require Import ClientHttp.
From S2P Require Import ClientRequest.
From S2P Require Import EstLogic.
From S2P Require Import HttpParseProps.
From S2P Require Import HttpConnProps.
From S2P Require Import ClientFacts.
From S2P Require Import ClientProps.
From S2P Require Import ClientHttpProps.
From S2P Require Import Base64.
From S2P Require Import CredentialProps.

Section Exchange.
Context {L : OpenSSL}.
Variable EST_VER_STRING : bytes.

(** ** The request as a text *)

(** The operations whose request carries a CSR. *)
Inductive enroll_operation : EST_OPERATION -> bytes -> Prop :=
| op_enroll : enroll_operation EST_OP_SIMPLE_ENROLL EST_SIMPLE_ENROLL
| op_reenroll : enroll_operation EST_OP_SIMPLE_REENROLL EST_SIMPLE_REENROLL
| op_keygen : enroll_operation EST_OP_SERVER_KEYGEN EST_SERVER_KEYGEN.

Definition operation_path (operation : bytes) : bytes := EST_PATH_PREFIX ++ lit "/" ++ operation.

(** The fields of a request, with those of the credentials behind them. *)
Definition request_headers (cl : EST_CLIENT_CTX) (n : Z) (hs : list (bytes * bytes)) : list (bytes * bytes) :=
  [(lit "User-Agent", EST_VER_STRING); (lit "Connection", lit "close");
   (lit "Host", est_server cl ++ lit ":" ++ fmt_d (est_port_num cl)); (lit "Accept", lit "*/*");
   (lit "Content-Type", lit "application/pkcs10"); (lit "Content-Length", fmt_d n)] ++ hs.

(** At most one field is added. *)
Record added (hs : list (bytes * bytes)) : Prop := {
  ad_ok : Forall header_ok hs;
  ad_one : (length hs <= 1)%nat
}.

Lemma added_none : added [].
Proof. split; [apply Forall_nil_2|simpl; lia]. Qed.

(** A client without a path segment whose strings can stand in a header. *)
Record plain_client (cl : EST_CLIENT_CTX) : Prop := {
  pc_version : text EST_VER_STRING;
  pc_version_start : rd EST_VER_STRING 0 <> chr_space;
  pc_server : text (est_server cl);
  pc_server_start : rd (est_server cl) 0 <> chr_space;
  pc_port : 0 <= est_port_num cl;
  pc_path : uri_path_segment cl = None
}.

(** The header of the client, with the added field. *)
Definition full_header (cl : EST_CLIENT_CTX) (operation : bytes) (n : Z) (hs : list (bytes * bytes)) : bytes :=
  plain_header EST_VER_STRING cl operation n ++ concat (map header_text hs).

Lemma full_header_text cl operation n hs :
  uri_path_segment cl = None ->
  full_header cl operation n hs ++ crlf
  = request_text (lit "POST") (operation_path operation) (lit "1.1") (request_headers cl n hs).
Proof.
  intros Hp. unfold full_header, plain_header, req_start, req_path, pkcs10_lines, request_text, operation_path,
    request_headers. rewrite Hp, map_app, concat_app. cbn [map concat fst snd].
  generalize (concat (map header_text hs)). intros r. unfold header_text. cbn [fst snd].
  rewrite <- !app_assoc. reflexivity.
Qed.

Lemma request_headers_ok cl n hs :
  plain_client cl -> 0 <= n -> added hs -> Forall header_ok (request_headers cl n hs).
Proof.
  intros [Hv Hv0 Hs Hs0 Hp _] Hn [Hh _]. unfold request_headers. apply Forall_app; split; [|exact Hh].
  repeat (apply Forall_cons_2; [first [by apply header_ok_number
                                      |apply header_ok_intro; try done; try (by apply lit_text)]|]);
    [..|apply Forall_nil_2].
  - apply Forall_app; split; [done|]. apply Forall_app; split; [by apply lit_text|].
    by apply text_digits, fmt_d_digits.
  - destruct (est_server cl); [done|exact Hs0].
Qed.

Lemma operation_word op operation :
  enroll_operation op operation -> word (operation_path operation) /\ operation_path operation <> [].
Proof.
  intros H. split; [|by destruct H]. unfold word.
  assert (Hw : forall s, forallb (fun c => (33 <=? c) && (c <? 127)) s = true ->
    Forall (fun c => text_char c /\ c <> chr_space) s).
  { intros s Hs. apply Forall_forall. intros c Hc. rewrite forallb_forall in Hs. specialize (Hs c Hc). b2p.
    split; [left; lia|unfold chr_space; lia]. }
  by destruct H; apply Hw.
Qed.

(** ** The server's side *)

Variable brski : bool.
Variable uriparser : option (bytes -> option (list UriPathSegment)).
Variable proxy : bytes -> bytes -> option bytes -> option bytes -> M (L := L) EST_ERROR.
Variable junk : nat -> bytes.

Abbreviation stream_connection := (stream_connection brski uriparser proxy junk).
Abbreviation stream_round := (stream_round brski uriparser proxy junk).

(** What a run does to the context and to the outside. *)
Definition effects {A} (r : option (A * world)) : option (EST_CTX * list event) :=
  (fun p => (w_ctx (snd p), w_trace (snd p))) <$> r.

(** The server's connection when a request has been read. *)
Definition incoming (path : bytes) (hs : list (bytes * bytes)) (c : mg_connection) : mg_connection :=
  set_c_uri (Some path) (set_c_http_headers hs (set_c_http_version (Some (lit "1.1"))
    (set_c_uri (Some path) (set_c_request_method (Some (lit "POST"))
      (set_c_must_close false (set_c_status_code (-1) (set_c_num_bytes_sent 0 c))))))).

Definition asked (cl : EST_CLIENT_CTX) (operation : bytes) (n : Z) (hs : list (bytes * bytes)) (ws : world) : world :=
  set_w_conn (incoming (operation_path operation) (request_headers cl n hs) (w_conn ws)) ws.

(** What a client sends for the operation, and what the server makes of it. *)
Definition wire_text (cl : EST_CLIENT_CTX) (operation csr : bytes) (hs : list (bytes * bytes)) : bytes :=
  request_text (lit "POST") (operation_path operation) (lit "1.1")
    (request_headers cl (Z.of_nat (length csr)) hs) ++ csr ++ crlf.

Definition request_of (operation csr : bytes) : M EST_ERROR :=
  est_http_request brski uriparser (lit "POST") (operation_path operation) (Some csr)
    (Some (lit "application/pkcs10")).

(** The line end behind the CSR is not a request. *)
Lemma round_crlf cl w : effects (stream_round crlf cl w) = Some (w_ctx w, w_trace w).
Proof. reflexivity. Qed.

Lemma loop_crlf fuel cl w :
  effects (stream_loop brski uriparser proxy junk fuel crlf cl w) = Some (w_ctx w, w_trace w).
Proof. destruct fuel; reflexivity. Qed.

(** A request that fits the client's buffer. *)
Record fitting (cl : EST_CLIENT_CTX) (operation csr : bytes) (hs : list (bytes * bytes)) : Prop := {
  fit_header : Z.of_nat (length (full_header cl operation (Z.of_nat (length csr)) hs)) <= EST_HTTP_HDR_MAX;
  fit_csr : Z.of_nat (length csr) <= EST_HTTP_REQ_DATA_MAX
}.

Abbreviation head_of cl operation csr hs :=
  (request_text (lit "POST") (operation_path operation) (lit "1.1")
     (request_headers cl (Z.of_nat (length csr)) hs)).

Lemma head_of_length cl operation csr hs :
  plain_client cl -> added hs -> fitting cl operation csr hs ->
  Z.of_nat (length (head_of cl operation csr hs)) <= EST_HTTP_HDR_MAX + 2.
Proof.
  intros Hc Hx [Hf _]. rewrite <- full_header_text by apply Hc. rewrite length_app.
  change (length crlf) with 2%nat. lia.
Qed.

Lemma head_len_wire op cl operation csr hs :
  enroll_operation op operation -> plain_client cl -> added hs -> fitting cl operation csr hs ->
  head_len (wire_text cl operation csr hs) = Z.of_nat (length (head_of cl operation csr hs)).
Proof.
  intros Ho Hc Hx Hf. assert (Hl := head_of_length _ _ _ _ Hc Hx Hf). assert (Hd := fit_csr _ _ _ _ Hf).
  assert (Hmax : EST_HTTP_HDR_MAX + EST_HTTP_REQ_DATA_MAX + 4 <= MAX_REQUEST_SIZE) by done.
  unfold head_len, wire_text. cbv zeta. rewrite take_ge
    by (rewrite !length_app; change (length crlf) with 2%nat; lia).
  rewrite request_text_lines, <- app_assoc, (length_app (lines_text _) crlf).
  change (length crlf) with 2%nat. apply get_request_len_lines.
  - done.
  - destruct (operation_word _ _ Ho) as [Hw _].
    apply request_lines_ok; [by right|done|by apply lit_text|apply request_headers_ok; [done|lia|done]].
  - rewrite !length_app. change (length crlf) with 2%nat. lia.
Qed.

Lemma request_uri_clean op operation :
  enroll_operation op operation ->
  handle_request_uri (operation_path operation) = (operation_path operation, None) /\
  is_valid_uri (operation_path operation) = true.
Proof. intros []; split; reflexivity. Qed.

(** The request once its strings are those of the connection. *)
Definition parsed_conn (path : bytes) (hs : list (bytes * bytes)) (c : mg_connection) : mg_connection :=
  set_c_http_headers hs (set_c_http_version (Some (lit "1.1"))
    (set_c_uri (Some path) (set_c_request_method (Some (lit "POST")) c))).

Definition then_rest {A B} (b : B) (r : option (A * world)) : option (B * world) :=
  (fun p => (b, snd p)) <$> r.

Lemma header_length cl n hs : get_header (request_headers cl n hs) (lit "Content-Length") = Some (fmt_d n).
Proof. unfold request_headers. generalize (fmt_d n). reflexivity. Qed.

Lemma stream_request_wire op cl operation csr hdrs c cl0 ws :
  enroll_operation op operation -> Z.of_nat (length csr) <= EST_HTTP_REQ_DATA_MAX ->
  est_mode (w_ctx ws) = EST_SERVER -> w_alloc ws = [] ->
  let n := Z.of_nat (length csr) in
  let hs := request_headers cl n hdrs in
  let path := operation_path operation in
  stream_request brski uriparser proxy junk (csr ++ crlf) cl0 (set_w_conn (parsed_conn path hs c) ws)
  = then_rest (n, crlf) (request_of operation csr (set_w_conn (set_c_uri (Some path) (parsed_conn path hs c)) ws)).
Proof.
  intros Ho Hd Hm Ha n hs path. destruct (request_uri_clean _ _ Ho) as [Hu _].
  assert (Hmax : EST_HTTP_REQ_DATA_MAX <= EST_MAX_CONTENT_LEN /\ EST_MAX_CONTENT_LEN <= INT_MAX) by done.
  assert (Hcl : request_content_len (parsed_conn path hs c) = n).
  { unfold request_content_len.
    change (http_headers (parsed_conn path hs c)) with hs. unfold hs. rewrite header_length.
    apply strtoll_fmt_d. unfold n. lia. }
  unfold stream_request, mbind, M_bind, get_conn. cbn [w_conn set_w_conn]. rewrite Hcl.
  rewrite Z.gtb_ltb, !(proj2 (Z.ltb_ge _ _)) by (unfold n; lia).
  change (negb _ && negb _) with false. cbn match.
  change (default [] (uri (parsed_conn path hs c))) with (operation_path operation). rewrite Hu.
  assert (Hg : forall nm (w0 : world), mg_get_header nm w0 = Some (get_header (http_headers (w_conn w0)) nm, w0)) by done.
  unfold stream_handler, mbind, M_bind, put_conn, get_ctx, get_conn. rewrite Hg.
  change (http_headers (w_conn _)) with (request_headers cl n hdrs). rewrite header_length.
  unfold alloc. change (w_alloc (set_w_conn _ _)) with (w_alloc ws). rewrite Ha. cbn [negb].
  rewrite atoi_fmt_d by (unfold n; lia). unfold stream_body, n. rewrite Nat2Z.id.
  rewrite length_app, (proj2 (Nat.ltb_ge _ _)) by lia. rewrite take_app_length, drop_app_length.
  unfold mret at 1 2, M_ret at 1 2. cbn match. rewrite Hg.
  change (est_mode (w_ctx (set_w_conn _ _))) with (est_mode (w_ctx ws)). rewrite Hm.
  unfold request_of, then_rest.
  change (get_header (http_headers _) (lit "Content-Type")) with (Some (lit "application/pkcs10")).
  change (default [] (request_method _)) with (lit "POST").
  change (set_w_conn (set_c_uri ?u ?d) (set_w_conn ?d ws)) with (set_w_conn (set_c_uri u d) ws).
  by destruct (est_http_request _ _ _ _ _ _ _) as [[rc w']|].
Qed.

(** The parsed request, and the decision whether the connection goes on. *)
Lemma stream_parsed_wire op cl operation csr hs cl0 ws :
  enroll_operation op operation -> plain_client cl -> added hs -> fitting cl operation csr hs ->
  est_mode (w_ctx ws) = EST_SERVER -> w_alloc ws = [] ->
  let n := Z.of_nat (length csr) in
  let path := operation_path operation in
  let conn := set_c_uri (Some path) (parsed_conn path (request_headers cl n hs) (w_conn ws)) in
  exists go_on : world -> bool,
  stream_parsed brski uriparser proxy junk (length (head_of cl operation csr hs)) (wire_text cl operation csr hs) cl0 ws
  = (fun p => (if go_on (snd p) then Some (n, crlf) else None, snd p))
      <$> request_of operation csr (set_w_conn conn ws).
Proof.
  intros Ho Hc Hx Hf Hm Ha n path conn. destruct (operation_word _ _ Ho) as [Hw Hne].
  assert (Hl := head_of_length _ _ _ _ Hc Hx Hf). destruct (request_uri_clean _ _ Ho) as [_ Hv].
  destruct (parse_request_text (lit "POST") path (lit "1.1") (request_headers cl n hs) []
              (length (head_of cl operation csr hs)) (Build_mg_request_info None None None []))
    as (buf & ri & Ep & Es); try done.
  { by right. }
  { by apply lit_text. }
  { apply request_headers_ok; [done|unfold n; lia|done]. }
  { destruct Hx as [_ Hx]. unfold request_headers, MAX_HTTP_HEADERS. rewrite length_app. simpl. lia. }
  { apply fits_small. rewrite app_nil_r. unfold EST_HTTP_HDR_MAX in Hl. fold n path in Hl. lia. }
  rewrite app_nil_r in Ep. fold n path in Ep.
  exists (fun w => enable_keepalives (w_conn w) && (n >=? 0) &&
                   match should_keep_alive w with Some (b, _) => b | None => false end).
  unfold stream_parsed, wire_text. fold n path.
  rewrite take_app_length, drop_app_length, Ep. unfold set_request_info. rewrite Es.
  unfold mbind, M_bind, get_conn, put_conn. cbn [w_conn set_w_conn].
  change (set_c_http_headers _ _) with (parsed_conn path (request_headers cl n hs) (w_conn ws)).
  change (default [] (uri (parsed_conn _ _ _))) with (operation_path operation). rewrite Hv.
  rewrite (proj2 (Z.leb_gt _ _)) by (unfold request_text; rewrite length_app; simpl; lia).
  cbn [orb negb].
  assert (Hr := stream_request_wire op cl operation csr hs (w_conn ws) cl0 ws Ho (fit_csr _ _ _ _ Hf) Hm Ha).
  cbv zeta in Hr. fold n path in Hr. rewrite Hr. fold conn.
  unfold then_rest. by destruct (request_of operation csr _) as [[rc w2]|].
Qed.

(** The request of a client is the one the connection asks for, and the last. *)
Lemma stream_connection_wire op cl operation csr hs ws :
  enroll_operation op operation -> plain_client cl -> added hs -> fitting cl operation csr hs ->
  est_mode (w_ctx ws) = EST_SERVER -> w_alloc ws = [] ->
  effects (stream_connection (wire_text cl operation csr hs) ws)
  = effects (request_of operation csr (asked cl operation (Z.of_nat (length csr)) hs ws)).
Proof.
  intros Ho Hc Hx Hf Hm Ha. set (c0 := set_c_must_close false (set_c_status_code (-1) (set_c_num_bytes_sent 0 (w_conn ws)))).
  destruct (stream_parsed_wire op cl operation csr hs 0 (set_w_conn c0 ws) Ho Hc Hx Hf Hm Ha) as [go Hp].
  unfold HttpStreamProps.stream_connection. generalize (length (wire_text cl operation csr hs)). intros fuel.
  cbn [stream_loop]. unfold HttpStreamProps.stream_round at 1.
  unfold mbind, M_bind, get_conn, put_conn. rewrite (head_len_wire op) by done.
  assert (0 < Z.of_nat (length (head_of cl operation csr hs)))
    by (unfold request_text; rewrite length_app; simpl; lia).
  rewrite (proj2 (Z.ltb_ge _ _)), (proj2 (Z.eqb_neq _ _)) by lia. rewrite Nat2Z.id. fold c0. rewrite Hp.
  change (set_w_conn _ (set_w_conn c0 ws)) with (asked cl operation (Z.of_nat (length csr)) hs ws).
  destruct (request_of _ _ _) as [[rc w2]|]; [|done]. cbn [fmap option_fmap option_map].
  cbn [snd]. destruct (go w2); [|done]. exact (loop_crlf fuel _ w2).
Qed.

(** ** The client's side *)

Variable ENABLE_BRSKI : bool.
Variable malloc_junk : nat -> bytes.

Abbreviation send_enroll :=
  (est_client_send_enroll_request_internal ENABLE_BRSKI EST_VER_STRING malloc_junk).

(** What [est_client_send_enroll_request_internal] does once the request is sent. *)
Definition receive (op : EST_OPERATION) : M enroll_rsp :=
  rsp ← (if bool_decide (op = EST_OP_SERVER_KEYGEN)
         then est_io_get_multipart_response ENABLE_BRSKI malloc_junk op
         else est_io_get_response ENABLE_BRSKI malloc_junk op);
  mret (if bool_decide (rsp_rv rsp = EST_ERR_NONE) then take_enroll_rsp malloc_junk rsp op
        else enroll_error (rsp_rv rsp)).

Lemma plain_client_strings cl : plain_client cl -> client_strings EST_VER_STRING cl.
Proof.
  intros [Hv _ Hs _ _ Hp]. split; [by apply text_no_nul|by apply text_no_nul|].
  rewrite Hp. apply Forall_nil_2.
Qed.

(** The client adds the fields [hs] to the header of the operation; [w1] is the world
    behind that. *)
Definition adds_fields (operation csr : bytes) (hs : list (bytes * bytes)) (w w1 : world) : Prop :=
  let cl := client (w_ctx w) in
  let n := Z.of_nat (length csr) in
  est_client_add_auth_hdr (plain_header EST_VER_STRING cl operation n) (operation_path operation) w
    = Some (full_header cl operation n hs, w1) /\
  w_alloc w1 = [] /\ w_ctx w1 = w_ctx w /\ net_write (w_net w1) = None.

Lemma full_header_no_nul op cl operation n hs :
  enroll_operation op operation -> plain_client cl -> added hs -> no_nul (full_header cl operation n hs).
Proof.
  intros Ho Hc [Hh _]. apply no_nul_app.
  - apply plain_header_no_nul; [by apply plain_client_strings|]. destruct Ho; by apply lit_no_nul.
  - induction Hh as [|h hs [Hn [Ht [_ [Hv _]]]] Hh IH]; [apply Forall_nil_2|]. cbn [map concat]. apply no_nul_app; [|exact IH].
    unfold header_text. repeat apply no_nul_app; try (by apply text_no_nul); repeat (apply Forall_cons_2; [done|]); apply Forall_nil_2.
Qed.

Lemma build_enroll_header_full op operation csr hs w w1 :
  let cl := client (w_ctx w) in
  let h := full_header cl operation (Z.of_nat (length csr)) hs in
  enroll_operation op operation -> plain_client cl -> added hs -> fitting cl operation csr hs ->
  adds_fields operation csr hs w w1 ->
  build_enroll_header EST_VER_STRING op (Z.of_nat (length csr)) w = Some ((h, Z.of_nat (length h)), w1).
Proof.
  intros cl h Ho Hc Hx [Hf _] [Ha _]. fold h in Hf.
  assert (Hmax : EST_HTTP_HDR_MAX + 1 < EST_HTTP_REQ_TOTAL_LEN) by done.
  assert (Hr : req_text (plain_header EST_VER_STRING cl operation (Z.of_nat (length csr)))
               = plain_header EST_VER_STRING cl operation (Z.of_nat (length csr))).
  { unfold req_text. apply take_ge. unfold h, full_header in Hf. rewrite length_app in Hf. lia. }
  assert (Hb : forall uri bound, uri = operation_path operation ->
    build_pkcs10_header EST_VER_STRING operation uri (Z.of_nat (length csr)) bound w = Some (bound h, w1)).
  { intros ? ? ->. unfold build_pkcs10_header, mbind, M_bind, get_client. fold cl.
    change (req_start _ cl (lit "POST") operation ++ _) with (plain_header EST_VER_STRING cl operation (Z.of_nat (length csr))).
    rewrite Hr. unfold cl, adds_fields in *. by rewrite Ha. }
  assert (Hn : forall k, EST_HTTP_REQ_TOTAL_LEN <= k -> strnlen_s (Some h) k = Z.of_nat (length h)).
  { intros k Hk. unfold strnlen_s, strnlen. rewrite cstr_id; [lia|]. by apply (full_header_no_nul op). }
  destruct Ho; cbn [build_enroll_header];
    unfold est_client_build_enroll_header, est_client_build_reenroll_header, est_client_build_server_keygen_header;
    rewrite Hb by done; unfold bounded_hdr; rewrite ?Hn by lia; rewrite ?Z.gtb_ltb, ?(proj2 (Z.ltb_ge _ _)) by lia; done.
Qed.

(** The client writes the request and waits for the answer. *)
Lemma send_enroll_wire has_key op operation csr hs w w1 :
  let cl := client (w_ctx w) in
  negb has_key && bool_decide (op = EST_OP_SERVER_KEYGEN) = false ->
  enroll_operation op operation -> plain_client cl -> added hs -> fitting cl operation csr hs ->
  adds_fields operation csr hs w w1 -> w_alloc w = [] ->
  send_enroll csr has_key op w = receive op (after_request (wire_text cl operation csr hs) w1).
Proof.
  intros cl Hk Ho Hc Hx Hf Hadd Ha.
  set (h := full_header cl operation (Z.of_nat (length csr)) hs).
  assert (Es := send_request_whole malloc_junk h csr w1 (fit_header _ _ _ _ Hf) (fit_csr _ _ _ _ Hf) (proj2 (proj2 (proj2 Hadd)))).
  unfold est_client_send_enroll_request_internal. rewrite Hk.
  unfold mbind at 1, M_bind at 1, alloc. rewrite Ha. cbn [negb].
  unfold mbind at 1, M_bind at 1. rewrite (build_enroll_header_full op operation csr hs w w1) by done. fold cl h.
  rewrite (proj2 (Z.eqb_neq _ _)) by (unfold h, full_header, plain_header, req_start; rewrite !length_app; simpl; lia).
  unfold mbind at 1, M_bind at 1. rewrite Es. rewrite (proj2 (Z.ltb_ge _ _)) by lia.
  replace (h ++ crlf ++ csr ++ crlf) with (wire_text cl operation csr hs); [done|].
  unfold wire_text. rewrite <- full_header_text by apply Hc. by rewrite <- app_assoc.
Qed.

(** Whoever serves the bytes of a request does what the dispatcher does. *)
Lemma wire_served op operation cl csr hs reads ws :
  enroll_operation op operation -> plain_client cl -> added hs -> fitting cl operation csr hs ->
  clean reads -> script_bytes reads = wire_text cl operation csr hs ->
  est_mode (w_ctx ws) = EST_SERVER -> w_alloc ws = [] ->
  effects (process_new_connection brski uriparser proxy junk reads ws)
  = effects (request_of operation csr (asked cl operation (Z.of_nat (length csr)) hs ws)).
Proof.
  intros Ho Hc Hx Hf Hr Hb Hs Ha. rewrite <- (stream_connection_wire op) by done. rewrite <- Hb.
  pose proof (connection_stream brski uriparser proxy junk reads ws Hr) as R.
  destruct (process_new_connection _ _ _ _ _ _) as [[a w2]|], (HttpStreamProps.stream_connection _ _ _ _ _ _) as [[b w3]|]; try done.
  by destruct R as [_ ->].
Qed.

(** Without an authentication mode nothing is added. *)
Lemma adds_nothing operation csr w :
  auth_mode (w_ctx w) = AUTH_NONE -> w_alloc w = [] -> net_write (w_net w) = None ->
  adds_fields operation csr [] w w.
Proof.
  intros Hm Ha Hw. split; [|done]. rewrite add_auth_none by done. unfold full_header. cbn [map concat]. by rewrite app_nil_r.
Qed.

(** C10. The server understands the client.  For an enrollment, a re-enrollment or
    a key generation, a client without credentials writes one request and then waits for
    the answer.  Whoever serves these bytes, however they are cut into pieces, does
    exactly what the request dispatcher does for a POST on the path of the operation with
    the client's CSR as the body and its content type: the same callbacks are made, the
    same answer is written, and nothing of the request is left for another one. *)
Theorem enroll_request_served op operation csr w :
  let cl := client (w_ctx w) in
  enroll_operation op operation -> plain_client cl -> fitting cl operation csr [] ->
  auth_mode (w_ctx w) = AUTH_NONE -> w_alloc w = [] -> net_write (w_net w) = None ->
  exists wire w1, send_enroll csr true op w = receive op w1 /\
    w_ctx w1 = set_client (set_last_http_status 0 cl) (w_ctx w) /\
    w_trace w1 = w_trace w ++ [EvClientWrite wire] /\
    op_uri op = Some (operation_path operation) /\
    forall reads ws, clean reads -> script_bytes reads = wire ->
      est_mode (w_ctx ws) = EST_SERVER -> w_alloc ws = [] ->
      effects (process_new_connection brski uriparser proxy junk reads ws)
      = effects (request_of operation csr (asked cl operation (Z.of_nat (length csr)) [] ws)).
Proof.
  intros cl Ho Hc Hf Hm Ha Hw. assert (Hadd := adds_nothing operation csr w Hm Ha Hw).
  assert (Es := send_enroll_wire true op operation csr [] w w eq_refl Ho Hc added_none Hf Hadd Ha).
  exists (wire_text cl operation csr []), (after_request (wire_text cl operation csr []) w).
  split_and!; [exact Es|done|done|by destruct Ho|].
  intros reads ws Hr Hb. eauto using wire_served, added_none.
Qed.

End Exchange.

Section Login.
Context {L : OpenSSL}.
Variable EST_VER_STRING : bytes.
Variable brski : bool.
Variable uriparser : option (bytes -> option (list UriPathSegment)).
Variable proxy : bytes -> bytes -> option bytes -> option bytes -> M (L := L) EST_ERROR.
Variable junk : nat -> bytes.
Variable ENABLE_BRSKI : bool.
Variable malloc_junk : nat -> bytes.
Hypothesis Hbio : base64_bio L.
Hypothesis Hmd5 : forall s, are_bytes (EVP_md5 s) /\ length (EVP_md5 s) = 16%nat.

(** The added header field. *)
Definition auth_field (ctx : EST_CTX) (operation : bytes) (c : credentials) : list (bytes * bytes) :=
  [(lit "Authorization", authorization ctx (operation_path operation) c)].

Lemma auth_field_added w operation c :
  presentable (w_ctx w) (operation_path operation) c -> added (auth_field (w_ctx w) operation c).
Proof.
  intros Hp. split; [|simpl; lia]. by apply Forall_cons_2; [apply authorization_text|apply Forall_nil_2].
Qed.

Lemma adds_credentials w operation csr c :
  let hs := auth_field (w_ctx w) operation c in
  offers w c -> presentable (w_ctx w) (operation_path operation) c ->
  fitting EST_VER_STRING (client (w_ctx w)) operation csr hs ->
  c_nonce (client (w_ctx w)) = [] -> w_alloc w = [] -> net_write (w_net w) = None ->
  exists w1, adds_fields EST_VER_STRING operation csr hs w w1 /\ w_trace w1 = w_trace w ++ token_asked c.
Proof.
  intros hs Ho Hp [Hf _] Hc Ha Hw.
  assert (Hmax : EST_HTTP_HDR_MAX < EST_HTTP_REQ_TOTAL_LEN) by done.
  assert (Hfield : concat (map header_text hs) = header_text (lit "Authorization", authorization (w_ctx w) (operation_path operation) c))
    by apply app_nil_r.
  unfold full_header in Hf. rewrite length_app, Hfield in Hf.
  destruct (credentials_added Hbio w c
    (plain_header EST_VER_STRING (client (w_ctx w)) operation (Z.of_nat (length csr)))
    (operation_path operation) Ho Hp Ha Hc ltac:(lia)) as (w1 & E & Ha1 & Hc1 & Hw1 & Ht1).
  exists w1. split; [|done]. split; [|by rewrite Hw1]. rewrite E. unfold full_header. by rewrite Hfield.
Qed.

(** C11. A login.  For an enrollment, a re-enrollment or a key generation with Basic,
    Digest or token credentials, the client writes one request and waits for the answer.
    Whoever serves these bytes, however they are cut into pieces, does what the dispatcher
    does for the operation with the client's CSR, and a server of the client's mode parses
    the Authorization header of this request into exactly the client's credentials; for
    Digest it holds the user, and the response that
    [est_server_generate_auth_digest] computes from the hash of a password is the one a
    client with that password sends. *)
Theorem login_served op operation csr c w :
  let cl := client (w_ctx w) in
  let hs := auth_field (w_ctx w) operation c in
  enroll_operation op operation -> plain_client EST_VER_STRING cl ->
  offers w c -> presentable (w_ctx w) (operation_path operation) c ->
  fitting EST_VER_STRING cl operation csr hs ->
  c_nonce cl = [] -> w_alloc w = [] -> net_write (w_net w) = None ->
  exists wire w1,
    est_client_send_enroll_request_internal ENABLE_BRSKI EST_VER_STRING malloc_junk csr true op w
      = receive ENABLE_BRSKI malloc_junk op w1 /\
    w_ctx w1 = set_client (set_last_http_status 0 cl) (w_ctx w) /\
    w_trace w1 = w_trace w ++ token_asked c ++ [EvClientWrite wire] /\
    forall reads ws, clean reads -> script_bytes reads = wire ->
      est_mode (w_ctx ws) = EST_SERVER -> w_alloc ws = [] ->
      let served := asked EST_VER_STRING cl operation (Z.of_nat (length csr)) hs ws in
      effects (process_new_connection brski uriparser proxy junk reads ws)
        = effects (request_of brski uriparser operation csr served) /\
      (auth_mode (w_ctx ws) = auth_mode (w_ctx w) -> accepted (w_ctx w) (operation_path operation) c served).
Proof.
  intros cl hs Ho Hc Hof Hp Hf Hn Ha Hw.
  destruct (adds_credentials w operation csr c Hof Hp Hf Hn Ha Hw) as (w1 & Hadd & Ht).
  assert (Hx := auth_field_added w operation c Hp).
  exists (wire_text EST_VER_STRING cl operation csr hs), (after_request (wire_text EST_VER_STRING cl operation csr hs) w1).
  split_and!.
  - by apply send_enroll_wire.
  - destruct Hadd as (_ & _ & Hctx & _). unfold after_request. cbn [w_ctx set_w_trace set_w_ctx]. by rewrite Hctx.
  - unfold after_request. cbn [w_trace set_w_trace]. by rewrite Ht, <- app_assoc.
  - intros reads ws Hr Hb Hs Haw served. split; [by apply (wire_served EST_VER_STRING brski uriparser proxy junk op)|].
    intros Hm. by apply credentials_accepted.
Qed.

End Login.
