(* ===== verification/Listener.v ===== *)
(** * Listener: starting a server, its TLS context, and one connection

    [mg_start] with [set_ssl_option], [mg_stop] and [est_server_handle_request] of
    est_server_http.c, and the functions of est_server.c and est_proxy.c that call them.

    An [mg_context] lives on the heap: [li_mgs] holds those that were allocated, [None]
    once freed, and a pointer is an index into it. Using a freed one is undefined. What
    the socket and the handshake give is the record [incoming].

    The life of a server's listener. *)

From S2P Require Import Prelude.
From S2P Require Import SafeC.
From S2P Require Import EstTypes.
From S2P Require Import EstState.
From S2P Require Import EstUtil.
From S2P Require Import HttpIO.
From S2P Require Import HttpConn.
From S2P Require Import ClientRequest.
From S2P Require Import ClientConfig.
From S2P Require Import EstLogic.
From S2P Require Import ServerCsrProps.
From S2P Require Import ServerSafety.
From S2P Require Import HttpConnProps.

(** ** Constants of the TLS library *)

Definition SSL_OP_NO_SSLv2 : Z := 0.
Definition SSL_OP_NO_SSLv3 : Z := 33554432.
Definition SSL_OP_NO_TLSv1 : Z := 67108864.
Definition SSL_OP_SINGLE_ECDH_USE : Z := 0.
Definition SSL_OP_SINGLE_DH_USE : Z := 0.
Definition SSL_OP_NO_TICKET : Z := 16384.
Definition X509_V_FLAG_CRL_CHECK : Z := 4.
Definition X509_V_FLAG_CRL_CHECK_ALL : Z := 8.
Definition X509_PURPOSE_SSL_CLIENT : Z := 1.
Definition NID_X9_62_prime256v1 : Z := 415.
Definition EST_TLS_VERIFY_DEPTH : Z := 6.
Definition EST_CIPHER_LIST_SRP_SERVER : bytes := EST_CIPHER_LIST ++ lit ":SRP".

Definition SSL_ERROR_SSL : Z := 1.
Definition SSL_ERROR_WANT_READ : Z := 2.
Definition SSL_ERROR_WANT_WRITE : Z := 3.
Definition SSL_ERROR_WANT_X509_LOOKUP : Z := 4.
Definition SSL_ERROR_SYSCALL : Z := 5.

Section Listener.
Context {L : OpenSSL}.
(** Diffie-Hellman parameters, their copy, and whether a curve is known. *)
Context {DH : Type}.
Variable DHparams_dup : DH -> option DH.
Variable EC_KEY_new_by_curve_name : Z -> bool.

(** ** State *)

(** The [SSL_CTX] of a server: the calls of [set_ssl_option] on it. *)
Record server_ssl := {
  ss_max_version : Z;
  ss_verify : Z;
  ss_session_id : bytes;
  ss_cert_store : option X509_STORE;
  ss_options : Z;
  ss_curve : Z;
  ss_flags : Z;
  ss_depth : Z;
  ss_purpose : Z;
  ss_dh : option DH;
  ss_ciphers : bytes;
  ss_srp_cb : option nat;
  ss_certificate : X509;
  ss_key : EVP_PKEY
}.

(** What [struct est_ctx] holds for the listener; the callback is a number. *)
Record listener := {
  li_trusted_certs_store : option X509_STORE;
  li_dh_tmp : option DH;
  li_enable_crl : bool;
  li_srp_username_cb : option nat;
  li_server_cert : X509;
  li_server_priv_key : EVP_PKEY;
  li_mg_ctx : option nat;
  li_coap_ctx : bool;
  li_mgs : list (option server_ssl)
}.

Definition set_li_store (v : option X509_STORE) (l : listener) : listener :=
  Build_listener v (li_dh_tmp l) (li_enable_crl l) (li_srp_username_cb l) (li_server_cert l) (li_server_priv_key l)
    (li_mg_ctx l) (li_coap_ctx l) (li_mgs l).
Definition set_li_dh (v : option DH) (l : listener) : listener :=
  Build_listener (li_trusted_certs_store l) v (li_enable_crl l) (li_srp_username_cb l) (li_server_cert l)
    (li_server_priv_key l) (li_mg_ctx l) (li_coap_ctx l) (li_mgs l).
Definition set_li_mg (p : option nat) (mgs : list (option server_ssl)) (l : listener) : listener :=
  Build_listener (li_trusted_certs_store l) (li_dh_tmp l) (li_enable_crl l) (li_srp_username_cb l) (li_server_cert l)
    (li_server_priv_key l) p (li_coap_ctx l) mgs.
Definition set_li_coap (v : bool) (l : listener) : listener :=
  Build_listener (li_trusted_certs_store l) (li_dh_tmp l) (li_enable_crl l) (li_srp_username_cb l) (li_server_cert l)
    (li_server_priv_key l) (li_mg_ctx l) v (li_mgs l).

(** ** est_server_set_dh_parms, est_server_enable_tls10, est_enable_crl *)

Definition est_server_set_dh_parms (ctx : option listener) (parms : option DH) : EST_ERROR * option listener :=
  match ctx, parms with
  | None, _ => (EST_ERR_NO_CTX, None)
  | Some l, None => (EST_ERR_INVALID_PARAMETERS, Some l)
  | Some l, Some p => (EST_ERR_NONE, Some (set_li_dh (DHparams_dup p) l))
  end.

Definition est_server_enable_tls10 : EST_ERROR := EST_ERR_BAD_MODE.

Definition set_li_crl (v : bool) (l : listener) : listener :=
  Build_listener (li_trusted_certs_store l) (li_dh_tmp l) v (li_srp_username_cb l) (li_server_cert l)
    (li_server_priv_key l) (li_mg_ctx l) (li_coap_ctx l) (li_mgs l).

(** [flags] are those of the verification parameters of a client's TLS context. *)
Definition est_enable_crl (ctx : option listener) (flags : option Z) : M (EST_ERROR * option listener * option Z) :=
  match ctx with
  | None => mret (EST_ERR_NO_CTX, None, flags)
  | Some l =>
      ectx ← get_ctx;
      if bool_decide (est_mode ectx = EST_CLIENT) then
        match flags with
        | None => null_deref
        | Some f => mret (EST_ERR_NONE, Some (set_li_crl true l),
                          Some (Z.lor f (Z.lor X509_V_FLAG_CRL_CHECK X509_V_FLAG_CRL_CHECK_ALL)))
        end
      else mret (EST_ERR_NONE, Some (set_li_crl true l), flags)
  end.

(** ** set_ssl_option *)

(** The session identifier: [EST] and eight random bytes, if there are some. *)
Definition session_id : M bytes :=
  r ← RAND_bytes;
  mret (lit "EST" ++ match r with Some b => take 8 b | None => replicate 8 0 end).

(** The checks of client certificates. *)
Definition crl_flags (l : listener) : Z :=
  if li_enable_crl l then Z.lor X509_V_FLAG_CRL_CHECK X509_V_FLAG_CRL_CHECK_ALL else 0.

(** The options, with those of a single use of DH keys when there are parameters. *)
Definition ssl_options (l : listener) : Z :=
  let base := Z.lor SSL_OP_NO_SSLv2 (Z.lor SSL_OP_NO_SSLv3 (Z.lor SSL_OP_NO_TLSv1
                (Z.lor SSL_OP_SINGLE_ECDH_USE SSL_OP_NO_TICKET))) in
  if bool_decide (is_Some (li_dh_tmp l)) then Z.lor base SSL_OP_SINGLE_DH_USE else base.

Definition curve_of (ctx : EST_CTX) : Z :=
  if negb (ecdhe_nid ctx =? 0) then ecdhe_nid ctx else NID_X9_62_prime256v1.

(** The context that was made, or a failure, and the state: the store passes to the
    context as soon as there is one, the DH parameters once they are set. *)
Definition set_ssl_option (l : listener) : M (option server_ssl * listener) :=
  ectx ← get_ctx;
  ok ← alloc;
  if negb ok then mret (None, l) else
  sic ← session_id;
  let store := li_trusted_certs_store l in
  let l1 := set_li_store None l in
  let curve := curve_of ectx in
  if negb (EC_KEY_new_by_curve_name curve) then mret (None, l1) else
  vpm ← alloc;
  if negb vpm then null_deref else
  let dh := li_dh_tmp l1 in
  let l2 := set_li_dh None l1 in
  let ciphers := if enable_srp ectx then EST_CIPHER_LIST_SRP_SERVER else EST_CIPHER_LIST in
  if negb (SSL_CTX_set_cipher_list ciphers) then mret (None, l2) else
  let srp_cb := if enable_srp ectx then li_srp_username_cb l else None in
  if SSL_CTX_use_certificate (li_server_cert l) =? 0 then mret (None, l2)
  else if SSL_CTX_use_PrivateKey (li_server_priv_key l) =? 0 then mret (None, l2)
  else mret (Some (Build_server_ssl TLS1_2_VERSION SSL_VERIFY_PEER sic store (ssl_options l) curve
                     (crl_flags l) EST_TLS_VERIFY_DEPTH X509_PURPOSE_SSL_CLIENT dh ciphers srp_cb
                     (li_server_cert l) (li_server_priv_key l)), l2).

(** ** mg_start, mg_stop *)

(** The new context, behind the others on the heap. *)
Definition mg_start (l : listener) : M (option nat * listener) :=
  ok ← alloc;
  if negb ok then mret (None, l) else
  '(ssl, l1) ← set_ssl_option l;
  match ssl with
  | None => mret (None, l1)
  | Some s => mret (Some (length (li_mgs l1)), set_li_mg (li_mg_ctx l1) (li_mgs l1 ++ [Some s]) l1)
  end.

(** The context is written to and freed: it must be there. *)
Definition mg_stop (p : nat) (l : listener) : M listener :=
  match li_mgs l !! p with
  | Some (Some _) => mret (set_li_mg (li_mg_ctx l) (<[p := None]> (li_mgs l)) l)
  | _ => null_deref
  end.

(** ** est_server_start, est_server_stop, est_proxy_start, est_proxy_stop *)

Definition est_server_start (ctx : option listener) : M (EST_ERROR * option listener) :=
  match ctx with
  | None => mret (EST_ERR_NO_CTX, None)
  | Some l =>
      '(mgctx, l1) ← mg_start l;
      match mgctx with
      | Some p => mret (EST_ERR_NONE, Some (set_li_mg (Some p) (li_mgs l1) l1))
      | None => mret (EST_ERR_NO_SSL_CTX, Some l1)
      end
  end.

Definition est_server_stop (ctx : option listener) : M (EST_ERROR * option listener) :=
  match ctx with
  | None => mret (EST_ERR_NO_CTX, None)
  | Some l =>
      ectx ← get_ctx;
      match transport_mode ectx with
      | EST_HTTP =>
          l1 ← match li_mg_ctx l with Some p => mg_stop p l | None => mret l end;
          mret (EST_ERR_NONE, Some l1)
      | EST_COAP => mret (EST_ERR_NONE, Some (set_li_coap false l))
      | EST_TRANSPORT_OTHER => mret (EST_ERR_BAD_MODE, Some l)
      end
  end.

Definition est_proxy_start (ctx : option listener) : M (EST_ERROR * option listener) :=
  match ctx with
  | None => mret (EST_ERR_NO_CTX, None)
  | Some l =>
      '(mgctx, l1) ← mg_start l;
      match mgctx with
      | Some p => mret (EST_ERR_NONE, Some (set_li_mg (Some p) (li_mgs l1) l1))
      | None => mret (EST_ERR_NO_SSL_CTX, Some l1)
      end
  end.

Definition est_proxy_stop (ctx : option listener) : M (EST_ERROR * option listener) :=
  match ctx with
  | None => mret (EST_ERR_NO_CTX, None)
  | Some l =>
      l1 ← match li_mg_ctx l with Some p => mg_stop p l | None => mret l end;
      mret (EST_ERR_NONE, Some l1)
  end.

(** ** est_server_handle_request *)

(** What the socket gives: the peer's name, the results of [SSL_new], [SSL_accept] and
    [SSL_get_error], the session, and what the channel delivers. *)
Record incoming := {
  inc_peername : bool;
  inc_ssl_new : bool;
  inc_accept : Z;
  inc_error : Z;
  inc_session : SSL;
  inc_reads : list read_result
}.

(** The zeroed connection with its session. *)
Definition fresh_conn (s : option SSL) : mg_connection :=
  Build_mg_connection None None None [] s 0 [] false true 0.

Variable ENABLE_BRSKI HAVE_LIBCOAP : bool.
Variable uriparser : option (bytes -> option (list UriPathSegment)).
Variable est_proxy_http_request : bytes -> bytes -> option bytes -> option bytes -> M EST_ERROR.
Variable malloc_junk : nat -> bytes.
(** [est_server_coap_run_once] once the socket is in its endpoint. *)
Variable est_server_coap_run_once : M Z.

Definition est_server_coap_handle_request (l : listener) : M EST_ERROR :=
  if negb (li_coap_ctx l) then mret EST_ERR_NO_CTX else
  coap_rc ← est_server_coap_run_once;
  mret (if negb (coap_rc =? 0) then EST_ERR_UNKNOWN else EST_ERR_NONE).

(** The connection behind the handshake. *)
Definition serve_session (i : incoming) : M EST_ERROR :=
  let serve := _ ← process_new_connection ENABLE_BRSKI uriparser est_proxy_http_request malloc_junk (inc_reads i);
               mret EST_ERR_NONE in
  let code := inc_error i in
  if inc_accept i <=? 0 then
    if code =? SSL_ERROR_SYSCALL then mret EST_ERR_SYSCALL
    else if code =? SSL_ERROR_SSL then mret EST_ERR_UNKNOWN
    else if (code =? SSL_ERROR_WANT_READ) || (code =? SSL_ERROR_WANT_WRITE) then serve
    else if code =? SSL_ERROR_WANT_X509_LOOKUP then mret EST_ERR_UNKNOWN
    else mret EST_ERR_NONE
  else serve.

Definition est_server_handle_request (ctx : option listener) (i : incoming) : M EST_ERROR :=
  match ctx with
  | None => mret EST_ERR_NO_CTX
  | Some l =>
      ectx ← get_ctx;
      match transport_mode ectx with
      | EST_COAP => if HAVE_LIBCOAP then est_server_coap_handle_request l else mret EST_ERR_BAD_MODE
      | EST_HTTP =>
          match li_mg_ctx l with
          | None => mret EST_ERR_NO_CTX
          | Some p =>
              if negb (inc_peername i) then mret EST_ERR_UNKNOWN else
              ok ← alloc;
              if negb ok then mret EST_ERR_MALLOC else
              match li_mgs l !! p with
              | Some (Some _) =>
                  _ ← put_conn (fresh_conn None);
                  if negb (inc_ssl_new i) then mret EST_ERR_NONE else
                  _ ← put_conn (fresh_conn (Some (inc_session i)));
                  rv ← serve_session i;
                  _ ← put_conn (fresh_conn None);
                  mret rv
              | _ => null_deref
              end
          end
      | EST_TRANSPORT_OTHER => mret EST_ERR_NONE
      end
  end.

End Listener.

Section Listener.
Context {L : OpenSSL}.
Context {DH : Type}.
Variable EC_KEY_new_by_curve_name : Z -> bool.

Abbreviation server := (listener (L := L) (DH := DH)).
Abbreviation start := (est_server_start (DH := DH) EC_KEY_new_by_curve_name).

(** ** Starting *)

(** The settings a server's connections are made with: TLS 1.2 at most and no older
    version than TLS 1.1, the peer's certificate verified as a client's against the trust
    store of the context, with the revocation lists when they are enabled, and the cipher
    suites of the list, those of SRP when it is enabled. *)
Definition server_tls (ctx : EST_CTX) (l : server) (sic : bytes) : server_ssl :=
  Build_server_ssl TLS1_2_VERSION SSL_VERIFY_PEER sic (li_trusted_certs_store l) (ssl_options l) (curve_of ctx)
    (crl_flags l) EST_TLS_VERIFY_DEPTH X509_PURPOSE_SSL_CLIENT (li_dh_tmp l)
    (if enable_srp ctx then EST_CIPHER_LIST_SRP_SERVER else EST_CIPHER_LIST)
    (if enable_srp ctx then li_srp_username_cb l else None) (li_server_cert l) (li_server_priv_key l).

(** What can fail but for memory. *)
Definition startable (ctx : EST_CTX) (l : server) : bool :=
  EC_KEY_new_by_curve_name (curve_of ctx)
  && SSL_CTX_set_cipher_list (if enable_srp ctx then EST_CIPHER_LIST_SRP_SERVER else EST_CIPHER_LIST)
  && negb (SSL_CTX_use_certificate (li_server_cert l) =? 0)
  && negb (SSL_CTX_use_PrivateKey (li_server_priv_key l) =? 0).

(** The same but for what the random numbers change. *)
Definition same_state (w w' : world) : Prop :=
  w_ctx w' = w_ctx w /\ w_trace w' = w_trace w /\ w_alloc w' = w_alloc w /\ w_conn w' = w_conn w.

Lemma session_id_run w : exists sic w', session_id w = Some (sic, w') /\ same_state w w'.
Proof.
  unfold session_id, RAND_bytes, mbind, M_bind, get_net. destruct (net_rand (w_net w)) as [|r l]; do 2 eexists;
    (split; [reflexivity|done]).
Qed.

Lemma set_ssl_option_run (l : server) w :
  memory w ->
  exists w' l', same_state w w' /\ li_mg_ctx l' = li_mg_ctx l /\ li_mgs l' = li_mgs l /\
    li_trusted_certs_store l' = None /\ li_server_cert l' = li_server_cert l /\
    if startable (w_ctx w) l
    then exists sic, set_ssl_option EC_KEY_new_by_curve_name l w = Some ((Some (server_tls (w_ctx w) l sic), l'), w')
    else set_ssl_option EC_KEY_new_by_curve_name l w = Some ((None, l'), w').
Proof.
  intros Ha. destruct (session_id_run w) as (sic & w' & Es & Hs). exists w'.
  unfold set_ssl_option. rewrite (bind_run _ _ _ _ _ (eq_refl : get_ctx w = Some (w_ctx w, w))).
  rewrite (bind_run _ _ _ _ _ (alloc_memory w Ha)). cbn [negb]. rewrite (bind_run _ _ _ _ _ Es). cbv zeta.
  assert (Ha' : memory w') by (destruct Hs as (_ & _ & E & _); unfold memory in *; congruence).
  unfold startable. destruct (EC_KEY_new_by_curve_name _); cbn [negb andb]; [|by exists (set_li_store None l)].
  exists (set_li_dh None (set_li_store None l)).
  rewrite (bind_run _ _ _ _ _ (alloc_memory w' Ha')). cbn [negb].
  destruct (SSL_CTX_set_cipher_list _); cbn [negb andb]; [|done].
  destruct (SSL_CTX_use_certificate _ =? 0); cbn [negb andb]; [done|].
  destruct (SSL_CTX_use_PrivateKey _ =? 0); cbn [negb andb]; [done|].
  split_and!; try done. by exists sic.
Qed.

Lemma server_start_run (l : server) w :
  memory w ->
  exists w' l', same_state w w' /\ li_trusted_certs_store l' = None /\
    if startable (w_ctx w) l
    then start (Some l) w = Some ((EST_ERR_NONE, Some l'), w') /\ li_mg_ctx l' = Some (length (li_mgs l)) /\
         exists sic, li_mgs l' = li_mgs l ++ [Some (server_tls (w_ctx w) l sic)]
    else start (Some l) w = Some ((EST_ERR_NO_SSL_CTX, Some l'), w') /\ li_mg_ctx l' = li_mg_ctx l /\
         li_mgs l' = li_mgs l.
Proof.
  intros Ha. destruct (set_ssl_option_run l w Ha) as (w' & l1 & Hs & Hm & Hh & Ht & _ & H).
  exists w'. unfold est_server_start, mg_start, mbind, M_bind. rewrite (alloc_memory w Ha). cbn [negb].
  destruct (startable _ _).
  - destruct H as [sic ->]. eexists. split; [exact Hs|]. split; [|split; [|split]].
    2: unfold mret, M_ret; reflexivity. 1: exact Ht.
    + cbn [li_mg_ctx set_li_mg]. by rewrite Hh.
    + exists sic. cbn [li_mgs set_li_mg]. by rewrite Hh.
  - rewrite H. exists l1. by split_and!.
Qed.

(** ** Connections *)

Variable brski HAVE_LIBCOAP : bool.
Variable proxy : bytes -> bytes -> option bytes -> option bytes -> M (L := L) EST_ERROR.
Variable junk : nat -> bytes.
Variable coap_once : M (L := L) Z.

Abbreviation handle l i := (est_server_handle_request (DH := DH) brski HAVE_LIBCOAP None proxy junk coap_once (Some l) i).
Abbreviation serve := (process_new_connection brski None proxy junk).

(** The handshake is over, or the socket does not block: the first read completes it. *)
Definition goes_on (i : incoming (L := L)) : bool :=
  (0 <? inc_accept i) || (inc_error i =? SSL_ERROR_WANT_READ) || (inc_error i =? SSL_ERROR_WANT_WRITE).

(** What the caller is told otherwise. *)
Definition refusal (i : incoming (L := L)) : EST_ERROR :=
  if negb (inc_peername i) then EST_ERR_UNKNOWN
  else if negb (inc_ssl_new i) then EST_ERR_NONE
  else if inc_error i =? SSL_ERROR_SYSCALL then EST_ERR_SYSCALL
  else if (inc_error i =? SSL_ERROR_SSL) || (inc_error i =? SSL_ERROR_WANT_X509_LOOKUP) then EST_ERR_UNKNOWN
  else EST_ERR_NONE.

(** A call is one connection served from its beginning, on a zeroed connection with the
    session, or changes neither the context nor anything outside. *)
Definition handled (i : incoming) (w : world) (rv : EST_ERROR) (w' : world) : Prop :=
  if inc_peername i && inc_ssl_new i && goes_on i
  then rv = EST_ERR_NONE /\ exists m w1,
       serve (inc_reads i) (set_w_conn (fresh_conn (Some (inc_session i))) w) = Some (m, w1) /\
       w' = set_w_conn (fresh_conn None) w1
  else rv = refusal i /\ w_ctx w' = w_ctx w /\ w_trace w' = w_trace w.

(** A started server. *)
Definition live (l : server) : Prop := exists p s, li_mg_ctx l = Some p /\ li_mgs l !! p = Some (Some s).

(** The state of a server between connections. *)
Definition idle (c : EST_CTX) (w : world) : Prop :=
  memory w /\ like c (w_ctx w).

Context (c : EST_CTX) (Hhttp : transport_mode c = EST_HTTP) (Hmode : est_mode c = EST_SERVER)
        (Hcsr : csr_cb_contract c) (Hreader : reader_ok) (Hattrs : attrs_text c).

(** A client that sends no CSR which cannot be checked (ServerSafety). *)
Definition readable_client (i : incoming) : Prop := readable_stream junk (script_bytes (inc_reads i)).

Lemma serve_run reads w : readable_stream junk (script_bytes reads) ->
  idle c w -> exists m w', serve reads w = Some (m, w') /\ idle c w'.
Proof.
  intros Hst Hw.
  destruct (connection_loop_rounds brski proxy junk c Hhttp Hcsr Hreader Hattrs Hmode _ Hst
              (S (length (script_bytes reads))) (Build_mg_input [] 0 0 0 reads) w)
    as (m & w' & E & _ & Hw'); [done|done|by exists []|unfold pending; cbn; lia|].
  by exists m, w'.
Qed.

(** The handshake's outcome: served, or refused with nothing changed. *)
Lemma serve_session_run i w :
  readable_client i -> idle c w ->
  if goes_on i
  then exists m w', serve_session brski None proxy junk i w = Some (EST_ERR_NONE, w') /\
       serve (inc_reads i) w = Some (m, w') /\ idle c w'
  else serve_session brski None proxy junk i w =
       Some (if inc_error i =? SSL_ERROR_SYSCALL then EST_ERR_SYSCALL
             else if (inc_error i =? SSL_ERROR_SSL) || (inc_error i =? SSL_ERROR_WANT_X509_LOOKUP)
             then EST_ERR_UNKNOWN else EST_ERR_NONE, w).
Proof.
  intros Hi Hw. destruct (serve_run (inc_reads i) w Hi Hw) as (m & w' & E & Hw').
  assert (Es : (_ ← serve (inc_reads i); mret EST_ERR_NONE) w = Some (EST_ERR_NONE, w'))
    by by rewrite (bind_run _ _ _ _ _ E).
  unfold serve_session, goes_on, SSL_ERROR_SYSCALL, SSL_ERROR_SSL, SSL_ERROR_WANT_READ, SSL_ERROR_WANT_WRITE,
    SSL_ERROR_WANT_X509_LOOKUP. cbv zeta.
  destruct (Z.leb_spec (inc_accept i) 0), (Z.ltb_spec 0 (inc_accept i)); try lia; cbn [orb];
    [|exists m, w'; by split_and!].
  destruct (Z.eqb_spec (inc_error i) 2) as [->|]; [cbn; exists m, w'; by split_and!|].
  destruct (Z.eqb_spec (inc_error i) 3) as [->|]; [cbn; exists m, w'; by split_and!|].
  cbn [orb]. repeat (case_match; try done).
Qed.

Lemma handle_run l i w :
  live l -> readable_client i -> idle c w ->
  exists rv w', handle l i w = Some (rv, w') /\ handled i w rv w' /\ idle c w'.
Proof.
  intros (p & s & Hp & Hs) Hi [Ha Hl]. unfold est_server_handle_request, handled, refusal.
  rewrite (bind_run _ _ _ _ _ (eq_refl : get_ctx w = Some (w_ctx w, w))), (like_mode _ _ Hl), Hhttp, Hp.
  destruct (inc_peername i); cbn [negb andb]; [|by exists EST_ERR_UNKNOWN, w].
  rewrite (bind_run _ _ _ _ _ (alloc_memory w Ha)), Hs. cbn [negb].
  rewrite (bind_run _ _ _ _ _ (eq_refl : put_conn (fresh_conn None) w = Some (tt, set_w_conn (fresh_conn None) w))).
  destruct (inc_ssl_new i); cbn [negb andb]; [|by do 2 eexists].
  set (w0 := set_w_conn (fresh_conn (Some (inc_session i))) w).
  rewrite (bind_run _ _ _ _ _ (eq_refl : put_conn (fresh_conn (Some (inc_session i)))
    (set_w_conn (fresh_conn None) w) = Some (tt, w0))).
  pose proof (serve_session_run i w0 Hi (conj Ha Hl)) as H. destruct (goes_on i).
  - destruct H as (m & w1 & E & Es & Hw1). rewrite (bind_run _ _ _ _ _ E).
    exists EST_ERR_NONE, (set_w_conn (fresh_conn None) w1). split_and!; [done..| |exact Hw1]. by exists m, w1.
  - rewrite (bind_run _ _ _ _ _ H). by do 2 eexists.
Qed.

(** The calls for a list of connections, one after the other. *)
Fixpoint handle_all (l : server) (incs : list incoming) : M (list EST_ERROR) :=
  match incs with
  | [] => mret []
  | i :: rest => rv ← handle l i; rvs ← handle_all l rest; mret (rv :: rvs)
  end.

(** Each of them is handled from the state the one before it left. *)
Inductive all_handled : list incoming -> world -> list EST_ERROR -> world -> Prop :=
| Handled_none w : all_handled [] w [] w
| Handled_next i rest w rv w1 rvs w' :
    handled i w rv w1 -> idle c w1 -> all_handled rest w1 rvs w' -> all_handled (i :: rest) w (rv :: rvs) w'.

Lemma handle_all_run l incs w :
  live l -> Forall readable_client incs -> idle c w ->
  exists rvs w', handle_all l incs w = Some (rvs, w') /\ all_handled incs w rvs w' /\ idle c w'.
Proof.
  intros Hl Hi. revert w. induction Hi as [|i rest Hi _ IH]; intros w Hw; cbn [handle_all].
  - exists [], w. split_and!; [done|constructor|done].
  - destruct (handle_run l i w Hl Hi Hw) as (rv & w1 & E & Hh & Hw1).
    destruct (IH w1 Hw1) as (rvs & w' & E' & Ha & Hw').
    exists (rv :: rvs), w'. rewrite (bind_run _ _ _ _ _ E), (bind_run _ _ _ _ _ E').
    split_and!; [done|by econstructor|done].
Qed.

(** ** Stopping *)

(** Whether the pointer the context keeps is to a freed one. *)
Definition stale (l : server) : Prop := exists p, li_mg_ctx l = Some p /\ li_mgs l !! p = Some None.

Lemma stop_live (l : server) p s w :
  li_mg_ctx l = Some p -> li_mgs l !! p = Some (Some s) -> idle c w ->
  est_server_stop (Some l) w = Some ((EST_ERR_NONE, Some (set_li_mg (Some p) (<[p := None]> (li_mgs l)) l)), w).
Proof.
  intros Hp Hs [Ha Hl]. unfold est_server_stop.
  rewrite (bind_run _ _ _ _ _ (eq_refl : get_ctx w = Some (w_ctx w, w))), (like_mode _ _ Hl), Hhttp, Hp.
  unfold mg_stop. by rewrite Hs, <- Hp.
Qed.

Lemma stop_stale (l : server) w : stale l -> idle c w -> est_server_stop (Some l) w = None.
Proof.
  intros (p & Hp & Hs) [Ha Hl]. unfold est_server_stop.
  rewrite (bind_run _ _ _ _ _ (eq_refl : get_ctx w = Some (w_ctx w, w))), (like_mode _ _ Hl), Hhttp, Hp.
  unfold mg_stop. by rewrite Hs.
Qed.

Lemma handle_stale (l : server) i w : stale l -> idle c w -> inc_peername i = true -> handle l i w = None.
Proof.
  intros (p & Hp & Hs) [Ha Hl] Hi. unfold est_server_handle_request.
  rewrite (bind_run _ _ _ _ _ (eq_refl : get_ctx w = Some (w_ctx w, w))), (like_mode _ _ Hl), Hhttp, Hp, Hi.
  cbn [negb]. rewrite (bind_run _ _ _ _ _ (alloc_memory w Ha)). cbn [negb]. by rewrite Hs.
Qed.

(** ** The life of a server *)

Lemma same_idle w w' : same_state w w' -> idle c w -> idle c w'.
Proof. intros (Hc & _ & Ha & _) [H1 H2]. unfold idle, memory in *. by rewrite Ha, Hc. Qed.

(** C9. The life of a server.  [est_server_start] on a context whose
    certificate, key, curve and cipher list the TLS library accepts makes a TLS context
    with the settings of [server_tls] and takes the trust store out of the [EST_CTX].
    From then on every call of [est_server_handle_request], for connections of any
    clients that send no CSR with a challengePassword that is no string, returns (with
    memory available, a reader that advances, attributes that are texts, an attribute
    callback that keeps its contract, and without uriparser): a connection whose handshake goes on is served from its beginning
    on a zeroed connection by [process_new_connection] and is answered EST_ERR_NONE, the
    others are refused with their code and change nothing.  [est_server_stop] then frees
    the TLS context and nothing else.  It leaves the pointer behind: a second stop, or a
    request that comes after it, uses freed memory, and a server started again verifies
    its clients against no trust store. *)
Theorem server_lifecycle (l : server) (incs : list incoming) (w : world) :
  idle c w -> startable (w_ctx w) l = true -> Forall readable_client incs ->
  exists sic l1 w1 rvs w2 l2,
    start (Some l) w = Some ((EST_ERR_NONE, Some l1), w1) /\
    li_mgs l1 = li_mgs l ++ [Some (server_tls (w_ctx w) l sic)] /\
    handle_all l1 incs w1 = Some (rvs, w2) /\ all_handled incs w1 rvs w2 /\
    est_server_stop (Some l1) w2 = Some ((EST_ERR_NONE, Some l2), w2) /\
    li_mgs l2 = li_mgs l ++ [None] /\
    est_server_stop (Some l2) w2 = None /\
    (forall i, inc_peername i = true -> handle l2 i w2 = None) /\
    (startable (w_ctx w2) l2 = true -> exists sic' l3 w3,
       start (Some l2) w2 = Some ((EST_ERR_NONE, Some l3), w3) /\
       li_mgs l3 = li_mgs l ++ [None; Some (server_tls (w_ctx w2) l2 sic')] /\
       ss_cert_store (server_tls (w_ctx w2) l2 sic') = None).
Proof.
  intros Hw Hs Hincs. pose proof (server_start_run l w (proj1 Hw)) as H. rewrite Hs in H.
  destruct H as (w1 & l1 & Hsame & Hst & Estart & Hp & sic & Hm).
  pose proof (same_idle w w1 Hsame Hw) as Hw1.
  assert (Hat : li_mgs l1 !! length (li_mgs l) = Some (Some (server_tls (w_ctx w) l sic)))
    by (rewrite Hm; apply list_lookup_middle; done).
  destruct (handle_all_run l1 incs w1) as (rvs & w2 & Eall & Hall & Hw2); [by do 2 eexists|done|done|].
  pose proof (stop_live l1 _ _ w2 Hp Hat Hw2) as Estop.
  set (l2 := set_li_mg _ _ l1) in Estop.
  assert (Hm2 : li_mgs l2 = li_mgs l ++ [None])
    by (cbn; rewrite Hm; replace (length (li_mgs l)) with (length (li_mgs l) + 0)%nat by lia;
        by rewrite insert_app_r).
  assert (Hstale : stale l2)
    by (exists (length (li_mgs l)); split; [done|rewrite Hm2; by apply list_lookup_middle]).
  exists sic, l1, w1, rvs, w2, l2. split_and!; try done.
  - by apply stop_stale.
  - intros i Hi. by apply handle_stale.
  - intros Hs2. pose proof (server_start_run l2 w2 (proj1 Hw2)) as H. rewrite Hs2 in H.
    destruct H as (w3 & l3 & _ & _ & E3 & _ & sic' & Hm3). exists sic', l3, w3.
    split_and!; [done|by rewrite Hm3, Hm2, <- app_assoc|exact Hst].
Qed.

End Listener.
