(* ===== verification/ProxyFacts.v ===== *)
(** * ProxyFacts: what the operations of the client leave alone in a proxy

    [grows] is the preorder of the operations that only add to the trace and do not
    touch the proxy's part of the context: every operation of the server and of the
    client.  [faithful] adds that the context stays that of the same upstream server.  [keeps_mode] says that the HTTP authentication mode stays; with it the
    mode after an answer with the status 401 is known. *)

From S2P Require Import Prelude.
From S2P Require Import SafeC.
From S2P Require Import EstTypes.
From S2P Require Import EstState.
From S2P Require Import EstUtil.
From S2P Require Import HttpIO.
From S2P Require Import HttpAuth.
From S2P Require Import ServerCsr.
From S2P Require Import ServerConfig.
From S2P Require Import MultipartParser.
From S2P Require Import ClientHost.
From S2P Require Import ClientHttp.
From S2P Require Import ClientRequest.
From S2P Require Import ClientCert.
From S2P Require Import Client.
From S2P Require Import ClientConfig.
From S2P Require Import EnhCertAuth.
From S2P Require Import EstLogic.
From S2P Require Import HttpIOFacts.
From S2P Require Import ServerAuthProps.
From S2P Require Import ServerDispatchProps.
From S2P Require Import ClientFacts.
From S2P Require Import ClientProps.

Section Facts.
Context {L : OpenSSL}.

Definition grows (w w' : world) : Prop :=
  w_proxy w' = w_proxy w /\ exists l, w_trace w' = w_trace w ++ l.

#[global] Instance grows_preorder : PreOrder grows.
Proof.
  split.
  - intros w. split; [done|]. exists []. by rewrite app_nil_r.
  - intros w1 w2 w3 [P1 [l1 T1]] [P2 [l2 T2]]. split; [congruence|].
    exists (l1 ++ l2). by rewrite T2, T1, app_assoc.
Qed.

Lemma grows_same w w' : w_proxy w' = w_proxy w -> w_trace w' = w_trace w -> grows w w'.
Proof. intros Hp Ht. split; [done|]. exists []. by rewrite app_nil_r. Qed.

Lemma grow_frame {A} P (m : M A) : sat (frame P) m -> sat grows m.
Proof. intros H w a w' E. destruct (H _ _ _ E) as [_ _ Hp (l & Hl & _)]. split; [done|by exists l]. Qed.

(** What a client context says of its server, which the operations of the client on it
    keep. *)
Definition upstream_of (c : EST_CTX) : EST_MODE * bytes * Z * option cred_cb :=
  (est_mode c, est_server (client c), est_port_num (client c), auth_credentials_cb (client c)).

Definition faithful (w w' : world) : Prop :=
  grows w w' /\ upstream_of (w_ctx w') = upstream_of (w_ctx w).

#[global] Instance faithful_preorder : PreOrder faithful.
Proof.
  split.
  - intros w. split; [reflexivity|done].
  - intros w1 w2 w3 [G1 U1] [G2 U2]. split; [by etrans|congruence].
Qed.

Lemma faith_grow {A} (m : M A) : sat faithful m -> sat grows m.
Proof. intros H w a w' E. apply (H _ _ _ E). Qed.

Lemma faith_frame {A} P (m : M A) : sat (frame P) m -> sat faithful m.
Proof.
  intros H w a w' E. split; [by eapply grow_frame|]. by rewrite (frame_ctx _ _ _ (H _ _ _ E)).
Qed.

Abbreviation faith := (sat faithful).

Lemma faith_alloc : faith alloc.
Proof. eapply faith_frame, (frame_alloc (fun _ => True)). Qed.
Lemma faith_upd_ctx f : (forall c, upstream_of (f c) = upstream_of c) -> faith (upd_ctx f).
Proof. intros Hf w a w' [= _ <-]. split; [by apply grows_same|apply Hf]. Qed.
Lemma faith_upd_client f :
  (forall c, (est_server (f c), est_port_num (f c), auth_credentials_cb (f c))
             = (est_server c, est_port_num c, auth_credentials_cb c)) -> faith (upd_client f).
Proof.
  intros Hf. apply (faith_upd_ctx (fun c => set_client (f (client c)) c)). intros c.
  unfold upstream_of. cbn. specialize (Hf (client c)). congruence.
Qed.
Lemma faith_get_client : faith get_client.
Proof. intros w a w' [= _ <-]. reflexivity. Qed.
Lemma faith_get_net : faith get_net.
Proof. intros w a w' [= _ <-]. reflexivity. Qed.
Lemma faith_put_net n : faith (put_net n).
Proof. intros w a w' [= _ <-]. split; [by apply grows_same|done]. Qed.
Lemma faith_emit e : faith (emit e).
Proof. intros w a w' [= _ <-]. split; [|done]. split; [done|by exists [e]]. Qed.
Hint Resolve faith_alloc faith_get_client faith_get_net faith_put_net faith_emit : sat.
Hint Extern 2 (sat faithful (upd_ctx _)) => by apply faith_upd_ctx : sat.
Hint Extern 2 (sat faithful (upd_client _)) => by apply faith_upd_client : sat.
Hint Extern 2 (sat faithful (est_base64_decode _ _)) => eapply faith_frame, frame_est_base64_decode : sat.
Hint Extern 2 (sat faithful (est_base64_encode _ _ _)) => eapply faith_frame, frame_est_base64_encode : sat.
Hint Extern 2 (sat faithful (est_asn1_parse_attributes _ _ _)) => eapply faith_frame, frame_parse_attributes : sat.
Hint Extern 2 (sat faithful (est_client_check_fqdn _)) =>
  eapply faith_frame, (ClientHostProps.silent_check_fqdn) : sat.

(** ** Reading an answer *)

Lemma faith_ssl_read n : faith (est_ssl_read n).
Proof. unfold est_ssl_read. sat_auto. Qed.
Hint Resolve faith_ssl_read : sat.

Lemma faith_read_raw_loop fuel : forall buf n, faith (read_raw_loop fuel buf n).
Proof. induction fuel; intros buf n; cbn [read_raw_loop]; sat_auto. Qed.
Hint Resolve faith_read_raw_loop : sat.

Lemma faith_token_value buf p put : (forall v, faith (put v)) -> faith (token_value buf p put).
Proof. intros H. unfold token_value. sat_auto. Qed.
(** A field of the context that says nothing of the server. *)
Definition other_field {A} (set : A -> EST_CLIENT_CTX -> EST_CLIENT_CTX) : Prop :=
  forall v c, (est_server (set v c), est_port_num (set v c), auth_credentials_cb (set v c))
              = (est_server c, est_port_num c, auth_credentials_cb c).

Lemma faith_set_field {A} set (v : A) : other_field set -> faith (upd_client (set v)).
Proof. intros H. apply faith_upd_client. intros c. apply H. Qed.

Lemma faith_put_client_field max set v : other_field set -> faith (put_client_field max set v).
Proof. intros H. assert (Hf := fun v => faith_set_field set v H). unfold put_client_field. sat_auto. Qed.
Hint Resolve faith_token_value : sat.
Hint Extern 2 (sat faithful (put_client_field _ _ _)) => by apply faith_put_client_field : sat.

Lemma faith_auth_token t buf p : faith (auth_token t buf p).
Proof. unfold auth_token. sat_auto; apply faith_token_value; intros v; sat_auto. Qed.
Hint Resolve faith_auth_token : sat.

Lemma faith_auth_tokens_loop fuel : forall buf p, faith (auth_tokens_loop fuel buf p).
Proof. induction fuel; intros buf p; cbn [auth_tokens_loop]; sat_auto. Qed.
Hint Resolve faith_auth_tokens_loop : sat.

Lemma faith_auth_request buf hdrs : faith (est_io_parse_http_auth_request buf hdrs).
Proof. unfold est_io_parse_http_auth_request, set_mode, est_io_parse_auth_tokens. sat_auto. Qed.
Lemma faith_retry_after_loop hs : forall rv, faith (retry_after_loop hs rv).
Proof. induction hs as [|[n v] hs IH]; intros rv; cbn [retry_after_loop]; sat_auto. Qed.
Hint Resolve faith_auth_request faith_retry_after_loop : sat.

Lemma faith_status_error st buf hdrs : faith (http_status_error st buf hdrs).
Proof. unfold http_status_error, est_io_parse_http_retry_after_resp, set_mode. sat_auto. Qed.
Hint Resolve faith_status_error : sat.

Variable ENABLE_BRSKI : bool.
Variable uriparser : option (bytes -> option (list UriPathSegment)).
Variable EST_VER_STRING : bytes.
Variable malloc_junk : nat -> bytes.

Lemma faith_mp_step raw buf len l : faith (mp_step malloc_junk raw buf len l).
Proof.
  unfold mp_step, step_header_field, step_header_value, read_header_name, read_header_value,
    multipart_parser_set_hdr_value.
  cbn zeta. destruct (mp_st _); sat_auto.
Qed.
Hint Resolve faith_mp_step : sat.

Lemma faith_mp_run raw buf len fuel : forall l, faith (mp_run malloc_junk raw buf len fuel l).
Proof. induction fuel; intros l; cbn [mp_run]; sat_auto. Qed.
Hint Resolve faith_mp_run : sat.

Lemma faith_multipart raw buf b : faith (parse_remaining_multipart_payload malloc_junk raw buf b).
Proof. unfold parse_remaining_multipart_payload, multipart_parser_execute. sat_auto. Qed.
Hint Resolve faith_multipart : sat.

Lemma faith_plain_payload op buf p hdrs : faith (plain_payload ENABLE_BRSKI op buf p hdrs).
Proof. unfold plain_payload. sat_auto. Qed.
Lemma faith_keygen_payload buf p b : faith (keygen_payload malloc_junk buf p b).
Proof. unfold keygen_payload. sat_auto. Qed.
Hint Resolve faith_plain_payload faith_keygen_payload : sat.

Lemma faith_response op : faith (est_io_get_response_internal ENABLE_BRSKI malloc_junk op).
Proof. unfold est_io_get_response_internal, est_io_read_raw. sat_auto. Qed.
Hint Resolve faith_response : sat.

(** ** Sending a request *)

Lemma faith_add_auth_hdr hdr uri : faith (est_client_add_auth_hdr hdr uri).
Proof.
  unfold est_client_add_auth_hdr, RAND_bytes, user_and_pwd, est_client_retrieve_credentials,
    ask_credentials, est_client_generate_auth_digest, b64_credential.
  sat_auto.
Qed.
Hint Resolve faith_add_auth_hdr : sat.

Lemma faith_build_header op n : faith (build_enroll_header EST_VER_STRING op n).
Proof.
  unfold build_enroll_header, est_client_build_enroll_header, est_client_build_reenroll_header,
    est_client_build_server_keygen_header, build_pkcs10_header.
  sat_auto.
Qed.
Hint Resolve faith_build_header : sat.

Lemma faith_send_request buf n data : faith (send_request buf n data).
Proof. unfold send_request, put_crlf, put_data, client_write. sat_auto. Qed.
Hint Resolve faith_send_request : sat.

Lemma faith_send_enroll bptr key op :
  faith (est_client_send_enroll_request_internal ENABLE_BRSKI EST_VER_STRING malloc_junk bptr key op).
Proof.
  unfold est_client_send_enroll_request_internal, est_io_get_multipart_response, est_io_get_response.
  sat_auto.
Qed.

(** ** Connecting *)

Lemma faith_disconnect ssl : faith (est_client_disconnect ssl).
Proof. unfold est_client_disconnect. sat_auto. Qed.
Hint Resolve faith_disconnect : sat.

Lemma faith_connect : faith est_client_connect.
Proof. unfold est_client_connect, next_connection. sat_auto. Qed.
Hint Resolve faith_connect faith_send_enroll : sat.

(** ** CA certificates and CSR attributes *)

Lemma faith_verify_cacerts s : faith (verify_cacert_resp malloc_junk s).
Proof.
  unfold verify_cacert_resp, b64_decode_cacerts, create_PKCS7, est_client_remove_crls. sat_auto.
Qed.
Hint Resolve faith_verify_cacerts : sat.

Lemma faith_keep_received set buf : other_field set -> faith (keep_received set buf).
Proof. intros H. assert (Hf := fun v => faith_set_field set v H). unfold keep_received. sat_auto. Qed.
Hint Extern 2 (sat faithful (keep_received _ _)) => by apply faith_keep_received : sat.

Lemma faith_get_cacerts g : faith (est_client_get_cacerts ENABLE_BRSKI EST_VER_STRING malloc_junk g).
Proof.
  unfold est_client_get_cacerts, initialized_only, est_client_send_cacerts_request, keep_cacerts,
    est_client_build_cacerts_header, est_io_get_response.
  sat_auto.
Qed.

Lemma faith_copy_cacerts g : faith (est_client_copy_cacerts g).
Proof. unfold est_client_copy_cacerts, initialized_only. sat_auto. Qed.

Lemma faith_get_csrattrs g : faith (est_client_get_csrattrs ENABLE_BRSKI EST_VER_STRING malloc_junk g).
Proof.
  unfold est_client_get_csrattrs, est_client_send_csrattrs_request, est_client_build_csr_header,
    est_io_get_response, keep_csrattrs.
  sat_auto.
Qed.

(** ** Configuring a client *)

Abbreviation grow := (sat grows).

Lemma grow_alloc : grow alloc.
Proof. eapply grow_frame, (frame_alloc (fun _ => True)). Qed.
Lemma grow_upd_client f : grow (upd_client f).
Proof. intros w a w' [= _ <-]. by apply grows_same. Qed.
Lemma grow_upd_ctx f : grow (upd_ctx f).
Proof. intros w a w' [= _ <-]. by apply grows_same. Qed.
Lemma grow_put_ctx c : grow (put_ctx c).
Proof. intros w a w' [= _ <-]. by apply grows_same. Qed.
Lemma grow_get_client : grow get_client.
Proof. apply faith_grow. auto with sat. Qed.
Hint Resolve grow_alloc grow_upd_client grow_upd_ctx grow_put_ctx grow_get_client : sat.

Lemma grow_load_trusted_certs c : grow (est_load_trusted_certs c).
Proof. unfold est_load_trusted_certs, ossl_init_cert_store, ossl_init_cert_store_from_raw. sat_auto. Qed.
Hint Resolve grow_load_trusted_certs : sat.

Lemma grow_client_init ca n pem cb : grow (est_client_init ca n pem cb).
Proof. unfold est_client_init, est_client_init_ssl_ctx, set_cl. sat_auto. Qed.

Lemma grow_bounded_field max v bad set : grow (bounded_field max v bad set).
Proof. unfold bounded_field. sat_auto. Qed.
Hint Resolve grow_bounded_field : sat.

Lemma grow_set_auth u p c k : grow (est_client_set_auth u p c k).
Proof. unfold est_client_set_auth, est_client_set_uid_pw, upd_ssl_ctx. sat_auto. Qed.

Lemma faith_store_path_segment s n : faith (est_store_path_segment s n).
Proof. unfold est_store_path_segment. sat_auto. Qed.
Lemma grow_store_path_segment s n : grow (est_store_path_segment s n).
Proof. apply faith_grow, faith_store_path_segment. Qed.
Hint Resolve grow_store_path_segment : sat.

Lemma grow_set_server s p seg : grow (est_client_set_server uriparser ENABLE_BRSKI s p seg).
Proof. unfold est_client_set_server, initialized_call, set_server_path_segment. sat_auto. Qed.

Lemma grow_set_read_timeout t : grow (est_client_set_read_timeout t).
Proof. unfold est_client_set_read_timeout, set_cl. sat_auto. Qed.

Lemma grow_set_auth_cred_cb cb : grow (est_client_set_auth_cred_cb cb).
Proof. unfold est_client_set_auth_cred_cb, set_cl. sat_auto. Qed.

Lemma store_app_l src buf rest i :
  (i + length src <= length buf)%nat -> store (buf ++ rest) i src = store buf i src ++ rest.
Proof.
  revert buf i. induction src as [|c r IH]; intros buf i Hl; [done|]. cbn [store length] in *.
  rewrite insert_app_l by lia. apply IH. rewrite length_insert. lia.
Qed.

(** A string that fits into a field is stored whole. *)
Lemma strcpy_field_fits max v :
  0 < max -> strnlen_s (Some v) (max + 1) <= max -> strcpy_field max v = (EOK, cstr v).
Proof.
  intros Hm Hv. unfold strcpy_field, strcpy_s. rewrite (proj2 (Z.eqb_neq max 0)) by lia.
  f_equal. unfold strncpy. cbn in Hv. unfold strnlen in Hv.
  assert (Hl : (length (cstr v) <= Z.to_nat max)%nat) by lia.
  rewrite take_ge by done. replace (Z.to_nat (max + 1)) with (Z.to_nat max + 1)%nat by lia.
  rewrite replicate_add, store_app_l by (rewrite length_app, !length_replicate; lia).
  rewrite store_all by (rewrite length_app, !length_replicate; lia).
  rewrite <- app_assoc, <- replicate_add.
  replace (Z.to_nat max - length (cstr v) + 1)%nat with (S (Z.to_nat max - length (cstr v))) by lia.
  cbn. apply cstr_app. auto with est.
Qed.

Lemma bounded_field_run max v bad set w w' :
  0 < max -> bad <> EST_ERR_NONE ->
  bounded_field max v bad set w = Some (EST_ERR_NONE, w') ->
  w' = set_w_ctx (set_client (set (cstr v) (client (w_ctx w))) (w_ctx w)) w.
Proof.
  intros Hm Hbad H. unfold bounded_field in H.
  head_if H; [by apply ret_some in H as [? _]|]. apply Z.ltb_ge in E. rewrite strcpy_field_fits in H by done.
  run_inv H as u w1 E1. apply ret_some in H as [_ <-]. by injection E1 as _ <-.
Qed.

(** ** The mode after an authentication failure *)

Definition keeps_mode (w w' : world) : Prop := auth_mode (w_ctx w') = auth_mode (w_ctx w).

#[global] Instance keeps_mode_preorder : PreOrder keeps_mode.
Proof. split; unfold keeps_mode; [done|]. intros w1 w2 w3. congruence. Qed.

Lemma mode_frame {A} P (m : M A) : sat (frame P) m -> sat keeps_mode m.
Proof. intros H w a w' E. unfold keeps_mode. by rewrite (frame_ctx _ _ _ (H _ _ _ E)). Qed.

Lemma mode_same {A} (m : M A) : (forall w a w', m w = Some (a, w') -> w_ctx w' = w_ctx w) -> sat keeps_mode m.
Proof. intros H w a w' E. unfold keeps_mode. by rewrite (H _ _ _ E). Qed.

Lemma mode_alloc : sat keeps_mode alloc.
Proof. eapply mode_frame, (frame_alloc (fun _ => True)). Qed.
Lemma mode_upd_client f : sat keeps_mode (upd_client f).
Proof. by intros w a w' [= _ <-]. Qed.
Lemma mode_emit e : sat keeps_mode (emit e).
Proof. by intros w a w' [= _ <-]. Qed.
Lemma mode_get_client : sat keeps_mode get_client.
Proof. by intros w a w' [= _ <-]. Qed.
Lemma mode_get_net : sat keeps_mode get_net.
Proof. by intros w a w' [= _ <-]. Qed.
Lemma mode_put_net n : sat keeps_mode (put_net n).
Proof. by intros w a w' [= _ <-]. Qed.
Hint Resolve mode_alloc mode_upd_client mode_emit mode_get_client mode_get_net mode_put_net : sat.
Hint Extern 2 (sat keeps_mode (est_base64_encode _ _ _)) =>
  eapply mode_frame, frame_est_base64_encode : sat.

Lemma mode_add_auth_hdr hdr uri : sat keeps_mode (est_client_add_auth_hdr hdr uri).
Proof.
  unfold est_client_add_auth_hdr, RAND_bytes, user_and_pwd, est_client_retrieve_credentials,
    ask_credentials, est_client_generate_auth_digest, b64_credential.
  sat_auto.
Qed.
Hint Resolve mode_add_auth_hdr : sat.

Lemma mode_build_header op n : sat keeps_mode (build_enroll_header EST_VER_STRING op n).
Proof.
  unfold build_enroll_header, est_client_build_enroll_header, est_client_build_reenroll_header,
    est_client_build_server_keygen_header, build_pkcs10_header.
  sat_auto.
Qed.

Lemma mode_send_request buf n data : sat keeps_mode (send_request buf n data).
Proof. unfold send_request, put_crlf, put_data, client_write. sat_auto. Qed.

(** A mode after a challenge: one of HTTP, or the client gave up. *)
Definition challenged (m : EST_HTTP_AUTH_MODE) : Prop := http_auth_mode m = true \/ m = AUTH_FAIL.

Lemma mode_token_value buf p put : (forall v, sat keeps_mode (put v)) -> sat keeps_mode (token_value buf p put).
Proof. intros H. unfold token_value. sat_auto. Qed.
Hint Resolve mode_token_value : sat.

Lemma mode_put_client_field max set v : sat keeps_mode (put_client_field max set v).
Proof. unfold put_client_field. sat_auto. Qed.
Hint Resolve mode_put_client_field : sat.

Lemma mode_put_realm f : (forall c, auth_mode (f c) = auth_mode c) -> sat keeps_mode (upd_ctx f).
Proof. intros Hf w a w' [= _ <-]. apply Hf. Qed.

Lemma mode_auth_token t buf p : sat keeps_mode (auth_token t buf p).
Proof.
  unfold auth_token.
  sat_auto; apply mode_token_value; intros v; sat_auto; by apply mode_put_realm.
Qed.
Hint Resolve mode_auth_token : sat.

Lemma mode_auth_tokens_loop fuel : forall buf p, sat keeps_mode (auth_tokens_loop fuel buf p).
Proof. induction fuel; intros buf p; cbn [auth_tokens_loop]; sat_auto. Qed.
Hint Resolve mode_auth_tokens_loop : sat.

Lemma mode_auth_tokens buf h : sat keeps_mode (est_io_parse_auth_tokens buf h).
Proof. unfold est_io_parse_auth_tokens. sat_auto. Qed.

Lemma auth_request_mode buf hdrs w u w' :
  est_io_parse_http_auth_request buf hdrs w = Some (u, w') -> challenged (auth_mode (w_ctx w')).
Proof.
  unfold est_io_parse_http_auth_request. intros H.
  assert (Hf : forall w1 v, set_mode AUTH_FAIL w1 = Some (v, w') -> challenged (auth_mode (w_ctx w'))).
  { intros w1 v [= _ <-]. by right. }
  destruct (List.find _ hdrs) as [[n v]|]; [|by eapply Hf]. cbv zeta in H.
  repeat (head_if H; [|]); try (by eapply Hf);
    run_inv H as x w1 R1; injection R1 as _ <-; run_inv H as rv w2 R2;
    apply mode_auth_tokens in R2; unfold keeps_mode in R2; cbn in R2;
    (head_if H; [|by eapply Hf]); apply ret_some in H as [_ <-]; left; by rewrite R2.
Qed.

(** A client that already used a mode gives up at the next 401; another one has a mode
    of HTTP or gives up. *)
Definition refused_mode (m m' : EST_HTTP_AUTH_MODE) : Prop :=
  challenged m' /\ (http_auth_mode m = true -> m' = AUTH_FAIL).

Lemma status_error_mode st buf hdrs w w' :
  http_status_error st buf hdrs w = Some (EST_ERR_AUTH_FAIL, w') ->
  refused_mode (auth_mode (w_ctx w)) (auth_mode (w_ctx w')).
Proof.
  intros H. assert (Hst := proj1 (status_error_401 _ _ _ _ _ H)). subst st.
  unfold http_status_error in H. simpl in H. run_inv H as ctx w1 E. injection E as <- <-.
  destruct (auth_mode (w_ctx w)); run_inv H as u w2 E; apply ret_some in H as [_ <-];
    first [injection E as _ <-; split; [by right|done]
          |apply auth_request_mode in E; by split].
Qed.

Lemma response_mode op w r w' :
  est_io_get_response_internal ENABLE_BRSKI malloc_junk op w = Some (r, w') ->
  rsp_rv r = EST_ERR_AUTH_FAIL -> refused_mode (auth_mode (w_ctx w)) (auth_mode (w_ctx w')).
Proof.
  intros H Hr. destruct (response_auth_fail _ _ _ _ _ _ H Hr) as (st & buf & hdrs & w1 & E & C).
  apply status_error_mode in E. by rewrite C in E.
Qed.

Lemma send_enroll_mode bptr key op w r w' :
  est_client_send_enroll_request_internal ENABLE_BRSKI EST_VER_STRING malloc_junk bptr key op w
    = Some (r, w') ->
  er_rv r = EST_ERR_AUTH_FAIL -> refused_mode (auth_mode (w_ctx w)) (auth_mode (w_ctx w')).
Proof.
  unfold est_client_send_enroll_request_internal. intros H Hr.
  assert (Herr : forall rv w1, rv <> EST_ERR_AUTH_FAIL -> mret (M := M) (enroll_error rv) w1 = Some (r, w') -> False)
    by (intros rv w1 Hrv E; apply ret_some in E as [<- _]; by apply Hrv).
  head_if H; [exfalso; by eapply Herr, H|].
  run_inv H as ok w1 R1. apply mode_alloc in R1.
  destruct ok; simpl negb in H; cbn match in H; [|exfalso; by eapply Herr, H].
  run_inv H as hl w2 R2. apply mode_build_header in R2. destruct hl as [hdr hdr_len].
  head_if H; [exfalso; by eapply Herr, H|].
  run_inv H as n w3 R3. apply mode_send_request in R3.
  head_if H; [exfalso; by eapply Herr, H|].
  run_inv H as rsp w4 R4. apply ret_some in H as [<- <-].
  assert (Hrsp : rsp_rv rsp = EST_ERR_AUTH_FAIL).
  { destruct (bool_decide (rsp_rv rsp = EST_ERR_NONE)); [|done]. exfalso. revert Hr.
    unfold take_enroll_rsp. by repeat case_match. }
  rewrite <- R1, <- R2, <- R3. eapply (response_mode op); [|exact Hrsp]. by destruct (bool_decide _).
Qed.

(** Connecting never ends with that error. *)
Lemma connect_no_auth_fail : returns (fun r => fst r <> EST_ERR_AUTH_FAIL) est_client_connect.
Proof.
  unfold est_client_connect.
  repeat first [apply returns_bind; intros ?|case_match|by apply returns_ret].
Qed.

End Facts.

#[export] Hint Resolve faith_alloc faith_get_client faith_get_net faith_put_net faith_emit
  faith_send_enroll faith_connect faith_disconnect faith_get_cacerts faith_copy_cacerts
  faith_get_csrattrs faith_store_path_segment grow_alloc grow_upd_client grow_upd_ctx grow_put_ctx
  grow_client_init grow_set_auth grow_set_server grow_set_read_timeout grow_set_auth_cred_cb : sat.
#[export] Hint Extern 2 (sat faithful (upd_ctx _)) => by apply faith_upd_ctx : sat.
#[export] Hint Extern 2 (sat faithful (upd_client _)) => by apply faith_upd_client : sat.
