(* ===== verification/ProxyCtxProps.v ===== *)
(** * ProxyCtxProps: the array of client contexts is a map from threads to contexts

    The specification of the array is a finite map from the identity of a thread to
    its client context ([thread_ctxs]).  [ctxs_ok] is the invariant of the array:
    it is sorted, each thread and each context occurs once.  Under it the binary
    search is a lookup of the map, [add_node] an insertion however often the array
    is doubled, [get_client_ctx] the lookup of the running thread that inserts a
    configured context when there is none, and [with_client] changes one entry. *)

From stdpp Require Import sorting gmap.
From S2P Require Import Prelude.
From S2P Require Import SafeC.
From S2P Require Import EstTypes.
From S2P Require Import EstState.
From S2P Require Import EstUtil.
From S2P Require Import EnhCertAuth.
From S2P Require Import ServerConfig.
From S2P Require Import ClientHttp.
From S2P Require Import ClientCert.
From S2P Require Import ClientConfig.
From S2P Require Import Search.
From S2P Require Import ProxyCtx.
From S2P Require Import EstLogic.
From S2P Require Import ClientProps.
From S2P Require Import ProxyFacts.

(** ** The order *)

Abbreviation node_le := (cmp_le bsearch_compare).

Lemma node_le_iff a b : node_le a b <-> threadid a <= threadid b.
Proof.
  unfold cmp_le, bsearch_compare. destruct (Z.gtb_spec (threadid a) (threadid b)); [lia|].
  destruct (Z.ltb_spec (threadid a) (threadid b)); lia.
Qed.

#[global] Instance bsearch_comparator : Comparator bsearch_compare.
Proof.
  split.
  - intros a b. unfold bsearch_compare. repeat destr_if; b2p; lia.
  - intros a b c. rewrite !node_le_iff. lia.
Qed.

Lemma compare_threads id p : bsearch_compare (key_node id) p = 0 <-> threadid p = id.
Proof. unfold bsearch_compare. cbn. repeat destr_if; b2p; lia. Qed.

Abbreviation sorted := (StronglySorted node_le).

(** A result of a search for [id]: an index of it, or none. *)
Definition thread_found (id : Z) (arr : list CLIENT_CTX_LU_NODE_T) (r : option nat) : Prop :=
  match r with
  | Some i => exists p, arr !! i = Some p /\ threadid p = id
  | None => forall i p, arr !! i = Some p -> threadid p <> id
  end.

Lemma search_thread id arr : sorted arr ->
  exists r, bsearch bsearch_compare (key_node id) arr (length arr) = Some r /\ thread_found id arr r.
Proof.
  intros Hs. destruct (bsearch_spec bsearch_compare (key_node id) arr Hs) as (r & Hr & Hf).
  exists r. split; [done|]. destruct r as [i|].
  - destruct Hf as (_ & p & Hp & Hc). exists p. split; [done|by apply compare_threads].
  - intros i p Hp Hc. eapply (Hf i p); [split; [lia|by eapply lookup_lt_Some]|exact Hp|].
    by apply compare_threads.
Qed.

Section Map.
Context {L : OpenSSL}.

(** ** The invariant *)

(** The used nodes, as pairs of a thread and the index of its context. *)
Definition used_nodes (arr : list CLIENT_CTX_LU_NODE_T) : list (Z * nat) :=
  omap (fun n => (fun a => (threadid n, a)) <$> client_ctx n) arr.

(** A node is free, or it is that of a thread. *)
Definition node_ok (ctxs : nat) (n : CLIENT_CTX_LU_NODE_T) : Prop :=
  match client_ctx n with
  | None => threadid n = 0
  | Some a => 0 < threadid n /\ (a < ctxs)%nat
  end.

Record ctxs_ok (px : EST_PROXY_CTX) (arr : list CLIENT_CTX_LU_NODE_T) : Prop := {
  ok_array : client_ctx_array px = Some arr;
  ok_length : length arr = cur_max_ctx_array px;
  ok_size : (0 < cur_max_ctx_array px)%nat;
  ok_sorted : sorted arr;
  ok_nodes : Forall (node_ok (length (client_ctxs px))) arr;
  ok_threads : NoDup (used_nodes arr).*1;
  ok_ctxs : NoDup (used_nodes arr).*2
}.

(** The map from threads to indices, and to contexts. *)
Definition threads (arr : list CLIENT_CTX_LU_NODE_T) : gmap Z nat := list_to_map (used_nodes arr).

Definition thread_ctxs (px : EST_PROXY_CTX) : gmap Z EST_CTX :=
  match client_ctx_array px with
  | None => ∅
  | Some arr => omap (fun a => client_ctxs px !! a) (threads arr)
  end.

Lemma elem_of_used_nodes arr id a :
  (id, a) ∈ used_nodes arr <-> Build_CLIENT_CTX_LU_NODE_T id (Some a) ∈ arr.
Proof.
  unfold used_nodes. rewrite list_elem_of_omap. split.
  - intros ([i [b|]] & Hn & [= -> ->]). done.
  - intros H. eexists. split; [exact H|done].
Qed.

Lemma used_nodes_permutation arr arr' : arr ≡ₚ arr' -> used_nodes arr ≡ₚ used_nodes arr'.
Proof. intros H. unfold used_nodes. by rewrite H. Qed.

(** A free node that becomes that of a thread. *)
Lemma used_nodes_insert arr i p id a :
  arr !! i = Some p -> client_ctx p = None ->
  used_nodes (<[i := Build_CLIENT_CTX_LU_NODE_T id (Some a)]> arr) ≡ₚ (id, a) :: used_nodes arr.
Proof.
  intros Hi Hp. rewrite insert_take_drop by (by eapply lookup_lt_Some).
  rewrite <- (take_drop_middle arr i p Hi) at 3. unfold used_nodes.
  rewrite !omap_app. cbn [omap list_omap client_ctx fmap option_fmap option_map threadid].
  rewrite Hp. cbn. by rewrite Permutation_middle.
Qed.

Lemma ok_find px arr id : ctxs_ok px arr ->
  exists r, bsearch bsearch_compare (key_node id) arr (cur_max_ctx_array px) = Some r
            /\ thread_found id arr r.
Proof. intros Hok. rewrite <- (ok_length _ _ Hok). apply search_thread, Hok. Qed.

(** The node of a thread, and a free node. *)
Lemma ok_node px arr i p : ctxs_ok px arr -> arr !! i = Some p ->
  match client_ctx p with
  | None => threadid p = 0
  | Some a => 0 < threadid p /\ threads arr !! threadid p = Some a
              /\ (a < length (client_ctxs px))%nat
  end.
Proof.
  intros Hok Hi. assert (Hn := Forall_lookup_1 _ _ _ _ (ok_nodes _ _ Hok) Hi).
  unfold node_ok in Hn. destruct p as [id [a|]]; cbn in *; [|done].
  destruct Hn as [Hid Ha]. split; [done|]. split; [|done].
  apply elem_of_list_to_map_1; [by apply Hok|].
  apply elem_of_used_nodes, (list_elem_of_lookup_2 _ i), Hi.
Qed.

Lemma threads_lookup px arr id a : ctxs_ok px arr -> threads arr !! id = Some a ->
  0 < id /\ (a < length (client_ctxs px))%nat
  /\ exists i, arr !! i = Some (Build_CLIENT_CTX_LU_NODE_T id (Some a)).
Proof.
  intros Hok H. apply elem_of_list_to_map_2, elem_of_used_nodes, list_elem_of_lookup in H as [i Hi].
  assert (Hn := ok_node _ _ _ _ Hok Hi). cbn in Hn. destruct Hn as (? & _ & ?). eauto.
Qed.

(** A context is that of one thread. *)
Lemma threads_inj px arr id id' a : ctxs_ok px arr ->
  threads arr !! id = Some a -> threads arr !! id' = Some a -> id = id'.
Proof.
  intros Hok H H'. apply elem_of_list_to_map_2, list_elem_of_lookup in H as [i Hi].
  apply elem_of_list_to_map_2, list_elem_of_lookup in H' as [j Hj].
  assert (i = j) as <-; [|congruence].
  apply (NoDup_lookup (used_nodes arr).*2 _ _ a (ok_ctxs _ _ Hok));
    rewrite list_lookup_fmap, ?Hi, ?Hj; done.
Qed.

Lemma thread_ctxs_lookup px arr id : client_ctx_array px = Some arr ->
  thread_ctxs px !! id = threads arr !! id ≫= fun a => client_ctxs px !! a.
Proof. intros H. unfold thread_ctxs. rewrite H. apply lookup_omap. Qed.

(** ** The search of a thread *)

Lemma find_thread px arr w id : ctxs_ok px arr -> 0 < id ->
  exists r, find_node id arr (cur_max_ctx_array px) w = Some (r, w) /\
  match r with
  | Some i => exists a, arr !! i ≫= client_ctx = Some a /\ threads arr !! id = Some a
  | None => threads arr !! id = None
  end.
Proof.
  intros Hok Hid. destruct (ok_find px arr id Hok) as (r & Hr & Hs). exists r.
  unfold find_node. rewrite Hr. split; [done|]. destruct r as [i|].
  - destruct Hs as (p & Hp & Ht). exists (default 0%nat (client_ctx p)).
    rewrite Hp. assert (Hn := ok_node _ _ _ _ Hok Hp). cbn.
    destruct (client_ctx p) as [a|]; [|lia]. split; [done|]. by rewrite <- Ht; apply Hn.
  - destruct (threads arr !! id) as [a|] eqn:E; [|done].
    destruct (threads_lookup _ _ _ _ Hok E) as (_ & _ & i & Hi).
    exfalso. by eapply (Hs i).
Qed.

(** ** Growing *)

(** Only the proxy's part of the world changes, and the script of allocations. *)
Definition only_proxy (w w' : world) : Prop :=
  w' = set_w_proxy (w_proxy w') (set_w_alloc (w_alloc w') w).

#[export] Instance only_proxy_preorder : PreOrder only_proxy.
Proof.
  split; unfold only_proxy; [by intros []|].
  intros [] [] [] E1 E2. cbn in *. injection E1 as -> -> -> -> -> ->. injection E2 as -> -> -> -> -> ->.
  done.
Qed.

(** A sorted copy of the nodes, with free ones added. *)
Lemma ok_rearranged px arr arr' n k : ctxs_ok px arr ->
  arr' ≡ₚ arr ++ replicate k zero_node -> sorted arr' -> n = length arr' ->
  ctxs_ok (set_client_ctx_array (Some arr') (set_cur_max_ctx_array n px)) arr'
  /\ threads arr' = threads arr.
Proof.
  intros Hok Hp Hs ->.
  assert (Hz : used_nodes (replicate k zero_node) = []) by (clear; induction k as [|k IHk]; [done|exact IHk]).
  assert (Hu : used_nodes arr' ≡ₚ used_nodes arr).
  { rewrite (used_nodes_permutation _ _ Hp). unfold used_nodes in *.
    by rewrite omap_app, Hz, app_nil_r. }
  split.
  - constructor; cbn; [done|done| |done| |rewrite Hu; apply Hok|rewrite Hu; apply Hok].
    + rewrite Hp, length_app. assert (Hl := ok_length _ _ Hok). assert (Hn := ok_size _ _ Hok). lia.
    + rewrite Hp. apply Forall_app. split; [apply Hok|]. by apply Forall_replicate.
  - apply list_to_map_proper; [rewrite Hu; apply Hok|exact Hu].
Qed.

Lemma free_node px arr i p : ctxs_ok px arr -> arr !! i = Some p -> threadid p = 0 ->
  client_ctx p = None.
Proof.
  intros Hok Hi Hp. assert (Hn := ok_node _ _ _ _ Hok Hi).
  destruct (client_ctx p); [lia|done].
Qed.

Lemma alloc_run w : (exists al, alloc w = Some (true, set_w_alloc al w))
  \/ head (w_alloc w) = Some false /\ exists al, alloc w = Some (false, set_w_alloc al w).
Proof.
  unfold alloc. destruct (w_alloc w) as [|[] al] eqn:E; [|by left; exists al|by right; eauto].
  left. exists []. destruct w; cbn in *. by subst.
Qed.

(** The array that [empty_node] leaves has the same threads and a free node. *)
Definition has_free (w : world) (arr : list CLIENT_CTX_LU_NODE_T)
    (arr' : list CLIENT_CTX_LU_NODE_T) (i : nat) (w' : world) : Prop :=
  only_proxy w w' /\ ctxs_ok (w_proxy w') arr' /\ threads arr' = threads arr
  /\ client_ctxs (w_proxy w') = client_ctxs (w_proxy w)
  /\ exists p, arr' !! i = Some p /\ client_ctx p = None.

Lemma empty_node_spec w arr : ctxs_ok (w_proxy w) arr ->
  (exists arr' i w', empty_node w = Some ((arr', i), w') /\ has_free w arr arr' i w')
  \/ empty_node w = None /\ head (w_alloc w) = Some false.
Proof.
  intros Hok. unfold empty_node. rewrite (bind_run get_proxy _ w (w_proxy w) w) by done.
  rewrite (ok_array _ _ Hok). destruct (ok_find _ _ 0 Hok) as (r & Hr & Hs).
  erewrite bind_run by (unfold find_node; rewrite Hr; done). destruct r as [i|].
  { destruct Hs as (p & Hp & H0). left. exists arr, i, w. split; [done|].
    split; [reflexivity|]. do 3 (split; [done|]). exists p. split; [done|]. by eapply free_node. }
  set (n := cur_max_ctx_array (w_proxy w)). destruct (alloc_run w) as [[al Hal]|[Ha [al Hal]]];
    rewrite (bind_run _ _ _ _ _ Hal); cbn [negb]; [|by right].
  assert (Hg : grown arr n = arr ++ replicate n zero_node).
  { unfold grown. rewrite take_ge; [done|]. by rewrite (ok_length _ _ Hok). }
  assert (Hp : qsort bsearch_compare (grown arr n) ≡ₚ arr ++ replicate n zero_node).
  { by rewrite qsort_permutation, Hg. }
  assert (Hlen : length (qsort bsearch_compare (grown arr n)) = (2 * n)%nat).
  { rewrite Hp, length_app, length_replicate, (ok_length _ _ Hok). subst n. lia. }
  destruct (ok_rearranged _ _ _ (2 * n) n Hok Hp (qsort_sorted _ _) (eq_sym Hlen)) as [Hok' Ht].
  set (arr' := qsort bsearch_compare (grown arr n)) in *.
  set (px' := set_client_ctx_array (Some arr') (set_cur_max_ctx_array (2 * n) (w_proxy w))) in *.
  rewrite (bind_run (upd_proxy_ctx _) _ _ tt (set_w_proxy px' (set_w_alloc al w))) by done.
  destruct (ok_find _ _ 0 Hok') as (r & Hr' & Hs').
  change (cur_max_ctx_array px') with (2 * n)%nat in Hr'.
  erewrite bind_run by (unfold find_node; rewrite Hr'; done). destruct r as [i|].
  - destruct Hs' as (p & Hi & H0). left. exists arr', i, (set_w_proxy px' (set_w_alloc al w)).
    split; [done|]. split; [done|]. do 3 (split; [done|]). exists p. split; [done|].
    by eapply free_node.
  - exfalso. assert (Hz : zero_node ∈ arr').
    { rewrite Hp. apply elem_of_app. right. apply elem_of_replicate.
      assert (Hn := ok_size _ _ Hok). subst n. split; [done|lia]. }
    apply list_elem_of_lookup in Hz as [i Hi]. by eapply (Hs' i).
Qed.

(** ** Adding the context of a thread *)

Lemma add_node_spec w arr id a : ctxs_ok (w_proxy w) arr ->
  0 < id -> threads arr !! id = None ->
  (a < length (client_ctxs (w_proxy w)))%nat -> (forall j, threads arr !! j <> Some a) ->
  (exists arr' w', add_node id a w = Some (tt, w') /\ only_proxy w w'
     /\ ctxs_ok (w_proxy w') arr' /\ threads arr' = <[id := a]> (threads arr)
     /\ client_ctxs (w_proxy w') = client_ctxs (w_proxy w))
  \/ add_node id a w = None /\ head (w_alloc w) = Some false.
Proof.
  intros Hok Hid Hnew Ha Hfresh. unfold add_node.
  destruct (empty_node_spec _ _ Hok) as [(arr1 & i & w1 & E & Ho & Hok1 & Ht & Hc & p & Hp & Hf)|[E Hal]].
  2:{ right. split; [|done]. unfold mbind, M_bind. by rewrite E. }
  left. rewrite (bind_run _ _ _ _ _ E).
  set (node := Build_CLIENT_CTX_LU_NODE_T id (Some a)). set (arr2 := qsort bsearch_compare (<[i := node]> arr1)).
  assert (Hperm : arr2 ≡ₚ <[i := node]> arr1) by apply qsort_permutation.
  assert (Hu : used_nodes arr2 ≡ₚ (id, a) :: used_nodes arr1).
  { rewrite (used_nodes_permutation _ _ Hperm). by eapply used_nodes_insert. }
  assert (Hid1 : id ∉ (used_nodes arr1).*1).
  { apply not_elem_of_list_to_map_2. fold (threads arr1). by rewrite Ht. }
  assert (Hth : NoDup (used_nodes arr2).*1).
  { rewrite Hu. cbn. constructor; [done|apply Hok1]. }
  exists arr2, (set_w_proxy (set_client_ctx_array (Some arr2) (w_proxy w1)) w1). split; [done|].
  split; [etrans; [exact Ho|]; unfold only_proxy; by destruct w1|].
  split; [|split; [|done]].
  - constructor; cbn; [done| |apply Hok1|apply (qsort_sorted bsearch_compare)| |done|].
    + rewrite Hperm, length_insert. apply Hok1.
    + rewrite Hperm. apply Forall_insert; [apply Hok1|]. by rewrite Hc.
    + rewrite Hu. cbn. constructor; [|apply Hok1]. rewrite list_elem_of_fmap.
      intros ([j b] & -> & Hj). apply (Hfresh j). rewrite <- Ht.
      apply elem_of_list_to_map_1; [apply Hok1|done].
  - unfold threads in Ht |- *. rewrite (list_to_map_proper _ _ Hth Hu). cbn. by rewrite Ht.
Qed.

End Map.

Section GetCtx.
Context {L : OpenSSL}.
Variable ENABLE_BRSKI : bool.
Variable uriparser : option (bytes -> option (list UriPathSegment)).

(** ** A new client context *)

(** A client context with the settings of the proxy. *)
Record upstream_client (p : EST_CLIENT_CTX) (px : EST_PROXY_CTX) (c : EST_CTX) : Prop := {
  up_mode : est_mode c = EST_CLIENT;
  up_auth : auth_mode c = AUTH_NONE;
  up_ready : est_client_initialized (client c) = true;
  up_server : est_server (client c) = cstr (est_server p);
  up_port : est_port_num (client c) = est_port_num p;
  up_timeout : read_timeout (client c) = read_timeout p;
  up_credentials : auth_credentials_cb (client c) = auth_credentials_cb p;
  up_userid : userid (client c) = cstr (userid p);
  up_password : password (client c) = cstr (password p);
  up_identity : client_cert (client c) = server_cert px /\ client_key (client c) = server_priv_key px;
  up_segment : uri_path_segment (client c) = None
}.

(** A step of the configuration that did not fail. *)
Lemma and_then_run rv next w w' :
  and_then rv next w = Some (true, w') -> rv = EST_ERR_NONE /\ next w = Some (true, w').
Proof. unfold and_then. case_bool_decide; [done|]. intros H'. no_ret H'. Qed.

(** The mode and the path segment stay. *)
Definition keeps_segment (w w' : world) : Prop :=
  est_mode (w_ctx w') = est_mode (w_ctx w)
  /\ uri_path_segment (client (w_ctx w')) = uri_path_segment (client (w_ctx w)).

#[local] Instance keeps_segment_preorder : PreOrder keeps_segment.
Proof.
  split; unfold keeps_segment; [done|]. intros w1 w2 w3 [? ?] [? ?]. split; congruence.
Qed.

Lemma segment_frame {A} P (m : M A) : sat (frame P) m -> sat keeps_segment m.
Proof. intros H w a w' E. unfold keeps_segment. by rewrite (frame_ctx _ _ _ (H _ _ _ E)). Qed.

Lemma segment_upd_client f :
  (forall c, uri_path_segment (f c) = uri_path_segment c) -> sat keeps_segment (upd_client f).
Proof. intros Hf w a w' [= _ <-]. split; [done|apply Hf]. Qed.

Lemma segment_client_init_ssl_ctx : sat keeps_segment est_client_init_ssl_ctx.
Proof.
  assert (H := segment_frame _ _ (frame_alloc (fun _ => True))).
  assert (Hg : sat keeps_segment get_client) by (intros w a w' [= _ <-]; reflexivity).
  unfold est_client_init_ssl_ctx, set_cl. sat_auto; by apply segment_upd_client.
Qed.

Lemma segment_load_trusted_certs c : sat keeps_segment (est_load_trusted_certs c).
Proof.
  assert (H := segment_frame _ _ (frame_alloc (fun _ => True))).
  unfold est_load_trusted_certs, ossl_init_cert_store, ossl_init_cert_store_from_raw.
  sat_auto; by apply segment_upd_client.
Qed.

Lemma client_init_ssl_ctx_some w w' : est_client_init_ssl_ctx w = Some (EST_ERR_NONE, w') ->
  is_Some (ssl_ctx (client (w_ctx w'))).
Proof.
  unfold est_client_init_ssl_ctx. intros H. run_inv H as ok w1 R1. head_if H; [no_ret H|].
  head_if H; [no_ret H|]. run_inv H as cl w2 R2. run_inv H as u w3 R3. run_inv H as v w4 R4.
  head_if H; [no_ret H|]. injection H as <-. by eexists.
Qed.

Lemma client_init_run ca n cb w w' : est_client_init ca n true cb w = Some (true, w') ->
  est_mode (w_ctx w') = EST_CLIENT /\ est_client_initialized (client (w_ctx w')) = true
  /\ uri_path_segment (client (w_ctx w')) = None /\ is_Some (ssl_ctx (client (w_ctx w'))).
Proof.
  intros H. unfold est_client_init in H. cbn [negb] in H.
  head_if H; [no_ret H|]. run_inv H as ok w1 R1. destruct ok; cbn [negb] in H; [|no_ret H].
  run_inv H as u w2 R2. injection R2 as _ <-. run_inv H as rv w3 R3.
  apply segment_load_trusted_certs in R3 as [M3 S3]. head_if H; [no_ret H|].
  run_inv H as rv' w4 R4. assert (Hs := R4). apply segment_client_init_ssl_ctx in R4 as [M4 S4].
  head_if H; [no_ret H|]. apply negb_false_iff, bool_decide_eq_true in E1. subst rv'.
  apply client_init_ssl_ctx_some in Hs.
  do 4 (let w5 := fresh "w5" in run_inv H as v w5 R; injection R as _ <-; clear v).
  apply ret_some in H as [_ <-]. cbn. split; [by rewrite M4, M3|]. split; [done|].
  split; [by rewrite S4, S3|done].
Qed.

Lemma set_uid_pw_run u p w w' :
  est_client_set_uid_pw (Some u) (Some p) w = Some (EST_ERR_NONE, w') ->
  w' = set_w_ctx (set_client (set_password (cstr p) (set_userid (cstr u) (client (w_ctx w))))
                    (w_ctx w)) w.
Proof.
  unfold est_client_set_uid_pw. intros H. run_inv H as rv w1 R1.
  head_if H; [apply ret_some in H as [-> _]; done|]. apply negb_false_iff, bool_decide_eq_true in E.
  subst rv. apply bounded_field_run in R1; [|done..]. apply bounded_field_run in H; [|done..].
  by subst.
Qed.

Lemma set_auth_run u p cert key w w' :
  est_client_set_auth (Some u) (Some p) cert key w = Some (EST_ERR_NONE, w') ->
  exists s, w' = set_w_ctx (set_auth_mode AUTH_NONE
    (set_client (set_ssl_ctx s (set_client_cert cert (set_client_key key
       (set_password (cstr p) (set_userid (cstr u) (client (w_ctx w))))))) (w_ctx w))) w.
Proof.
  unfold est_client_set_auth. intros H. run_inv H as rv w1 R1.
  head_if H; [apply ret_some in H as [-> _]; done|]. apply negb_false_iff, bool_decide_eq_true in E.
  subst rv. apply set_uid_pw_run in R1. subst w1.
  run_inv H as v w2 R2. injection R2 as _ <-. run_inv H as v' w3 R3. injection R3 as _ <-.
  destruct cert as [c|], key as [k|]; try (apply ret_some in H as [_ <-]; eexists; done).
  head_if H; [|no_ret H]. run_inv H as v'' w4 R4. apply ret_some in H as [_ <-].
  unfold upd_ssl_ctx in R4. run_inv R4 as cl w5 R5. injection R5 as <- <-.
  head_if R4; [|done]. injection R4 as _ <-. by eexists.
Qed.

Lemma set_server_run s port w w' :
  est_client_set_server uriparser ENABLE_BRSKI (Some s) port None w = Some (EST_ERR_NONE, w') ->
  w' = set_w_ctx (set_client (set_est_port_num port (set_est_server (cstr s) (client (w_ctx w))))
                    (w_ctx w)) w.
Proof.
  unfold est_client_set_server, initialized_call. intros H. run_inv H as cl w1 R1.
  injection R1 as <- <-. head_if H; [no_ret H|]. head_if H; [no_ret H|].
  run_inv H as rv w2 R2.
  head_if H; [apply ret_some in H as [-> _]; done|]. apply negb_false_iff, bool_decide_eq_true in E1.
  subst rv. apply bounded_field_run in R2; [|done..]. subst w2.
  run_inv H as v w3 R3. injection R3 as _ <-. apply ret_some in H as [_ <-]. done.
Qed.

Lemma set_cl_run f w w' : set_cl f w = Some (EST_ERR_NONE, w') ->
  w' = set_w_ctx (set_client (f (client (w_ctx w))) (w_ctx w)) w.
Proof. by intros [= <-]. Qed.

Lemma new_client_ctx_run p px w w' :
  new_client_ctx ENABLE_BRSKI uriparser p px w = Some (true, w') -> upstream_client p px (w_ctx w').
Proof.
  unfold new_client_ctx. intros H. run_inv H as ok w1 R1. destruct ok; cbn [negb] in H; [|no_ret H].
  apply client_init_run in R1 as (M1 & I1 & S1 & _).
  run_inv H as rv w2 R2. apply and_then_run in H as [-> H]. apply set_auth_run in R2 as [s ->].
  run_inv H as rv w3 R3. apply and_then_run in H as [-> H]. apply set_cl_run in R3. subst w3.
  run_inv H as rv w4 R4. apply and_then_run in H as [-> H]. apply set_server_run in R4. subst w4.
  run_inv H as rv w5 R5. apply and_then_run in H as [-> H]. unfold est_client_set_read_timeout in R5.
  head_if R5; [no_ret R5|]. apply set_cl_run in R5. subst w5. apply ret_some in H as [_ <-].
  by constructor.
Qed.

Lemma grow_new_client_ctx p px : sat grows (new_client_ctx ENABLE_BRSKI uriparser p px).
Proof. unfold new_client_ctx, and_then. sat_auto. Qed.

(** ** The operations on the map *)

(** The context at [a] is that of the thread [id]. *)
Definition at_thread (px : EST_PROXY_CTX) (id : Z) (a : nat) : Prop :=
  exists arr, ctxs_ok px arr /\ threads arr !! id = Some a.

Definition well_formed (px : EST_PROXY_CTX) : Prop := exists arr, ctxs_ok px arr.

Lemma at_thread_well_formed px id a : at_thread px id a -> well_formed px.
Proof. intros (arr & Hok & _). by exists arr. Qed.

Lemma thread_ctxs_none px arr id : ctxs_ok px arr ->
  thread_ctxs px !! id = None <-> threads arr !! id = None.
Proof.
  intros Hok. rewrite (thread_ctxs_lookup _ arr) by apply Hok.
  destruct (threads arr !! id) as [a|] eqn:E; [|done]. cbn.
  destruct (threads_lookup _ _ _ _ Hok E) as (_ & Ha & _).
  apply lookup_lt_is_Some_2 in Ha as [c ->]. done.
Qed.

Lemma at_thread_lookup px id a : at_thread px id a ->
  exists c, client_ctxs px !! a = Some c /\ thread_ctxs px !! id = Some c.
Proof.
  intros (arr & Hok & Ht). destruct (threads_lookup _ _ _ _ Hok Ht) as (_ & Ha & _).
  apply lookup_lt_is_Some_2 in Ha as [c Hc]. exists c. split; [done|].
  by rewrite (thread_ctxs_lookup _ arr), Ht by apply Hok.
Qed.

Lemma in_ctx_run {A} c (m : M A) w r c' w' : in_ctx c m w = Some ((r, c'), w') ->
  exists w1, m (set_w_ctx c w) = Some (r, w1) /\ c' = w_ctx w1 /\ w' = set_w_ctx (w_ctx w) w1.
Proof.
  unfold in_ctx. destruct (m (set_w_ctx c w)) as [[a w1]|]; [|done].
  intros [= -> <- <-]. by exists w1.
Qed.

(** A context is added to the heap, not yet to the array. *)
Lemma ok_push px arr c : ctxs_ok px arr ->
  ctxs_ok (set_client_ctxs (client_ctxs px ++ [c]) px) arr.
Proof.
  intros [H1 H2 H3 H4 H5 H6 H7]. constructor; try done. cbn.
  eapply Forall_impl; [|exact H5]. intros [id [a|]]; cbn; [|done].
  rewrite length_app. cbn. lia.
Qed.

Lemma thread_ctxs_push px px' arr arr' id c : ctxs_ok px arr ->
  client_ctx_array px' = Some arr' -> threads arr' = <[id := length (client_ctxs px)]> (threads arr) ->
  client_ctxs px' = client_ctxs px ++ [c] -> thread_ctxs px' = <[id := c]> (thread_ctxs px).
Proof.
  intros Hok Ha Ht Hc. apply map_eq. intros j.
  rewrite (thread_ctxs_lookup px' arr'), Ht, Hc by done. destruct (decide (id = j)) as [<-|Hj].
  - rewrite !lookup_insert_eq. cbn.
    by rewrite lookup_app_r, Nat.sub_diag by lia.
  - rewrite !lookup_insert_ne by done. rewrite (thread_ctxs_lookup _ arr) by apply Hok.
    destruct (threads arr !! j) as [b|] eqn:Eb; [|done]. cbn.
    destruct (threads_lookup _ _ _ _ Hok Eb) as (_ & Hb & _). by rewrite lookup_app_l.
Qed.

(** What a request for the context of the running thread does to the map. *)
Definition got_ctx (w : world) (r : option nat) (w' : world) : Prop :=
  let id := cur_threadid (w_proxy w) in
  let ctxs := thread_ctxs (w_proxy w) in
  match ctxs !! id with
  | Some _ => w' = w /\ exists a, r = Some a /\ at_thread (w_proxy w') id a
  | None =>
      (r = None /\ thread_ctxs (w_proxy w') = ctxs)
      \/ exists a c, r = Some a /\ at_thread (w_proxy w') id a
                     /\ thread_ctxs (w_proxy w') = <[id := c]> ctxs
                     /\ upstream_client (client (w_ctx w)) (w_proxy w) c
  end.

Lemma get_client_ctx_spec w r w' :
  well_formed (w_proxy w) -> 0 < cur_threadid (w_proxy w) ->
  get_client_ctx ENABLE_BRSKI uriparser w = Some (r, w') ->
  well_formed (w_proxy w') /\ got_ctx w r w'.
Proof.
  intros [arr Hok] Hid H. unfold get_client_ctx in H. do 2 (run_inv H as x wx R; injection R as <- <-).
  rewrite (ok_array _ _ Hok) in H.
  destruct (find_thread _ _ w _ Hok Hid) as (f & Hf & Hs).
  rewrite (bind_run _ _ _ _ _ Hf) in H. unfold got_ctx. destruct f as [i|].
  - destruct Hs as (a & Ha & Ht). rewrite Ha in H. apply ret_some in H as [<- <-].
    assert (Hat : at_thread (w_proxy w) (cur_threadid (w_proxy w)) a) by by exists arr.
    destruct (at_thread_lookup _ _ _ Hat) as (c & _ & ->). split; [by exists arr|]. eauto.
  - rewrite (proj2 (thread_ctxs_none _ _ _ Hok)) by done.
    run_inv H as oc w1 R1. destruct oc as [ok c]. apply in_ctx_run in R1 as (w2 & R1 & -> & ->).
    assert (Hp : w_proxy w2 = w_proxy w) by apply (grow_new_client_ctx _ _ _ _ _ R1).
    destruct ok; cbn [negb] in H.
    2:{ apply ret_some in H as [<- <-]. cbn. rewrite Hp. split; [by exists arr|by left]. }
    apply new_client_ctx_run in R1. run_inv H as u w3 R3. injection R3 as _ <-.
    run_inv H as v w4 R4. apply ret_some in H as [<- <-].
    destruct v. set (w3 := set_w_proxy _ _) in R4.
    assert (Hok3 : ctxs_ok (w_proxy w3) arr) by (subst w3; cbn; rewrite Hp; by apply ok_push).
    assert (Hl : length (client_ctxs (w_proxy w3)) = S (length (client_ctxs (w_proxy w)))).
    { subst w3. cbn. rewrite Hp, length_app. cbn. lia. }
    destruct (add_node_spec w3 arr (cur_threadid (w_proxy w)) (length (client_ctxs (w_proxy w))))
      as [(arr' & w5 & E & _ & Hok5 & Ht5 & Hc5)|[E _]];
      [exact Hok3|done|done|lia| |rewrite R4 in E; injection E as <-|congruence].
    { intros j Hj. destruct (threads_lookup _ _ _ _ Hok Hj) as (_ & Hb & _). lia. }
    split; [by exists arr'|]. right. do 2 eexists. split; [done|]. split.
    { exists arr'. split; [done|]. rewrite Ht5. apply lookup_insert_eq. }
    split; [|exact R1]. eapply thread_ctxs_push; [exact Hok|apply Hok5|exact Ht5|].
    rewrite Hc5. subst w3. cbn. by rewrite Hp.
Qed.

(** ** Running an operation of the client *)

Lemma with_client_run {A} a (m : M A) w r w' : with_client a m w = Some (r, w') ->
  exists c w1, client_ctxs (w_proxy w) !! a = Some c /\ m (set_w_ctx c w) = Some (r, w1)
    /\ w' = set_w_proxy (set_client_ctxs (<[a := w_ctx w1]> (client_ctxs (w_proxy w1))) (w_proxy w1))
              (set_w_ctx (w_ctx w) w1).
Proof.
  unfold with_client. intros H. run_inv H as px wx R. injection R as <- <-.
  destruct (client_ctxs (w_proxy w) !! a) as [c|] eqn:E; [|done].
  run_inv H as rc w1 R1. destruct rc as [x c']. apply in_ctx_run in R1 as (w2 & R1 & -> & ->).
  run_inv H as u w3 R3. injection R3 as _ <-. apply ret_some in H as [<- <-]. by exists c, w2.
Qed.

(** The contexts in use are those of a set of indices that an update does not change. *)
Lemma ok_update px arr a c : ctxs_ok px arr ->
  ctxs_ok (set_client_ctxs (<[a := c]> (client_ctxs px)) px) arr.
Proof.
  intros [H1 H2 H3 H4 H5 H6 H7]. constructor; try done. cbn. by rewrite length_insert.
Qed.

Lemma thread_ctxs_update px id a c : at_thread px id a ->
  thread_ctxs (set_client_ctxs (<[a := c]> (client_ctxs px)) px) = <[id := c]> (thread_ctxs px).
Proof.
  intros (arr & Hok & Ht). apply map_eq. intros j.
  rewrite (thread_ctxs_lookup _ arr) by apply Hok. cbn. destruct (decide (id = j)) as [<-|Hj].
  - rewrite Ht, lookup_insert_eq. cbn. apply list_lookup_insert_eq. eapply threads_lookup; eauto.
  - rewrite lookup_insert_ne by done. rewrite (thread_ctxs_lookup _ arr) by apply Hok.
    destruct (threads arr !! j) as [b|] eqn:Eb; [|done]. cbn. apply list_lookup_insert_ne.
    intros <-. apply Hj. by eapply threads_inj.
Qed.

(** The operation runs on the context of the thread, and only that entry changes. *)
Lemma with_client_spec {A} id a (m : M A) w r w' : sat grows m ->
  at_thread (w_proxy w) id a -> with_client a m w = Some (r, w') ->
  exists c w1, thread_ctxs (w_proxy w) !! id = Some c /\ m (set_w_ctx c w) = Some (r, w1)
    /\ at_thread (w_proxy w') id a
    /\ thread_ctxs (w_proxy w') = <[id := w_ctx w1]> (thread_ctxs (w_proxy w))
    /\ w' = set_w_proxy (w_proxy w') (set_w_ctx (w_ctx w) w1)
    /\ cur_threadid (w_proxy w') = cur_threadid (w_proxy w).
Proof.
  intros Hm Hat H. apply with_client_run in H as (c & w1 & Hc & R & ->). cbn.
  assert (Hp : w_proxy w1 = w_proxy w) by apply (Hm _ _ _ R). rewrite Hp.
  destruct (at_thread_lookup _ _ _ Hat) as (c' & Hc' & Ht).
  assert (c' = c) as -> by congruence. exists c, w1. split; [done|]. split; [done|]. split; [|by split; [apply thread_ctxs_update|]].
  destruct Hat as (arr & Hok & Hid). exists arr. split; [by apply ok_update|done].
Qed.

(** ** The search leaves the server's context and the running thread *)

Definition steady (w w' : world) : Prop :=
  w_ctx w' = w_ctx w /\ cur_threadid (w_proxy w') = cur_threadid (w_proxy w)
  /\ exists l, w_trace w' = w_trace w ++ l.

#[local] Instance steady_preorder : PreOrder steady.
Proof.
  split.
  - intros w. split; [done|]. split; [done|]. exists []. by rewrite app_nil_r.
  - intros w1 w2 w3 (C1 & T1 & [l1 L1]) (C2 & T2 & [l2 L2]).
    split; [congruence|]. split; [congruence|]. exists (l1 ++ l2). by rewrite L2, L1, app_assoc.
Qed.

Lemma steady_get_client_ctx : sat steady (get_client_ctx ENABLE_BRSKI uriparser).
Proof.
  assert (Ha : sat steady alloc).
  { intros w r w' E. apply (frame_alloc (fun _ => True)) in E as [C _ P (l & Hl & _)].
    unfold steady. rewrite P. split; [done|]. split; [done|]. by exists l. }
  assert (Hg : sat steady get_proxy) by (intros w r w' [= _ <-]; reflexivity).
  assert (Hu : forall f, (forall px, cur_threadid (f px) = cur_threadid px) ->
                 sat steady (upd_proxy_ctx f)).
  { intros f Hf w r w' [= _ <-]. split; [done|]. split; [apply Hf|]. exists []. by rewrite app_nil_r. }
  assert (Hi : forall p px, sat steady (in_ctx zero_client_ctx (new_client_ctx ENABLE_BRSKI uriparser p px))).
  { intros p px w [r c] w' E. apply in_ctx_run in E as (w1 & E & _ & ->).
    apply grow_new_client_ctx in E as [P Hl]. unfold steady. cbn. by rewrite P. }
  unfold get_client_ctx, add_node, empty_node, find_node. sat_auto; by apply Hu.
Qed.

(** ** Isolation of the threads *)

(** The upstream server of a thread that has a client context. *)
Definition thread_server (px : EST_PROXY_CTX) (id : Z) :=
  upstream_of <$> (thread_ctxs px !! id).

(** What [a] relates to stays the running thread's, whose upstream server stays, and no
    other thread's context changes. *)
Definition iso (a : nat) (w w' : world) : Prop :=
  let id := cur_threadid (w_proxy w) in
  cur_threadid (w_proxy w') = id /\ (exists l, w_trace w' = w_trace w ++ l) /\
  (at_thread (w_proxy w) id a ->
   at_thread (w_proxy w') id a
   /\ delete id (thread_ctxs (w_proxy w')) = delete id (thread_ctxs (w_proxy w))
   /\ thread_server (w_proxy w') id = thread_server (w_proxy w) id).

#[export] Instance iso_preorder a : PreOrder (iso a).
Proof.
  split.
  - intros w. split; [done|]. split; [exists []; by rewrite app_nil_r|done].
  - intros w1 w2 w3 (T1 & [l1 L1] & H1) (T2 & [l2 L2] & H2).
    split; [congruence|]. split; [exists (l1 ++ l2); by rewrite L2, L1, app_assoc|].
    rewrite T1 in H2. intros Hat. destruct (H1 Hat) as (Hat1 & D1 & U1).
    destruct (H2 Hat1) as (Hat2 & D2 & U2). split; [done|]. split; congruence.
Qed.

Lemma grows_iso a w w' : grows w w' -> iso a w w'.
Proof. intros [Hp Hl]. unfold iso. by rewrite Hp. Qed.

Lemma iso_grow a {A} (m : M A) : sat grows m -> sat (iso a) m.
Proof. intros H w r w' E. by eapply grows_iso, H. Qed.

Lemma iso_with_client a {A} (m : M A) : sat faithful m -> sat (iso a) (with_client a m).
Proof.
  intros Hf w r w' E. assert (Hm := faith_grow _ Hf). assert (R := with_client_run _ _ _ _ _ E).
  destruct R as (c & w1 & _ & R & Hw). split; [|split].
  - rewrite Hw. cbn. by rewrite (proj1 (Hm _ _ _ R)).
  - rewrite Hw. apply (proj2 (Hm _ _ _ R)).
  - intros Hat. destruct (with_client_spec _ _ _ _ _ _ Hm Hat E) as (c1 & w2 & Hc & R2 & Hat' & Ht & _).
    split; [done|]. rewrite Ht. split; [by rewrite delete_insert_eq|].
    unfold thread_server. rewrite Ht, Hc, lookup_insert_eq. cbn. f_equal. apply (Hf _ _ _ R2).
Qed.

(** ** With memory a context is always found or made *)

Definition memory (w : world) : Prop := w_alloc w = [].

Lemma mem_alloc : safe memory alloc.
Proof. intros w H. unfold alloc. rewrite H. eauto. Qed.
Lemma mem_upd_client f : safe memory (upd_client f).
Proof. intros w H. by do 2 eexists. Qed.
Lemma mem_upd_ctx f : safe memory (upd_ctx f).
Proof. intros w H. by do 2 eexists. Qed.
Lemma mem_put_ctx c : safe memory (put_ctx c).
Proof. intros w H. by do 2 eexists. Qed.
Lemma mem_get_client : safe memory get_client.
Proof. intros w H. by do 2 eexists. Qed.
#[local] Hint Resolve mem_alloc mem_upd_client mem_upd_ctx mem_put_ctx mem_get_client : safe.

Lemma mem_load_trusted_certs c : safe memory (est_load_trusted_certs c).
Proof. unfold est_load_trusted_certs, ossl_init_cert_store, ossl_init_cert_store_from_raw. safe_auto. Qed.
Lemma mem_client_init_ssl_ctx : safe memory est_client_init_ssl_ctx.
Proof. unfold est_client_init_ssl_ctx, set_cl. safe_auto. Qed.
#[local] Hint Resolve mem_load_trusted_certs mem_client_init_ssl_ctx : safe.

Lemma mem_client_init ca n cb : safe memory (est_client_init ca n true cb).
Proof. unfold est_client_init. safe_auto. Qed.
Lemma mem_bounded_field max v bad set : safe memory (bounded_field max v bad set).
Proof. unfold bounded_field. safe_auto. Qed.
#[local] Hint Resolve mem_bounded_field : safe.
Lemma mem_set_uid_pw u p : safe memory (est_client_set_uid_pw u p).
Proof. unfold est_client_set_uid_pw. safe_auto. Qed.
Lemma mem_set_server s p : safe memory (est_client_set_server uriparser ENABLE_BRSKI s p None).
Proof. unfold est_client_set_server, initialized_call, set_server_path_segment. safe_auto. Qed.

Lemma set_auth_total u p cert key w : memory w -> is_Some (ssl_ctx (client (w_ctx w))) ->
  exists rv w', est_client_set_auth (Some u) (Some p) cert key w = Some (rv, w') /\ memory w'.
Proof.
  intros Hm Hs. unfold est_client_set_auth.
  destruct (mem_set_uid_pw (Some u) (Some p) _ Hm) as (rv & w1 & E & Hm1).
  rewrite (bind_run _ _ _ _ _ E). case_bool_decide as Hrv; cbn [negb]; [subst rv|by do 2 eexists].
  apply set_uid_pw_run in E. subst w1. destruct cert as [c|], key as [k|]; try (by do 2 eexists).
  do 2 (erewrite bind_run by done). destruct (est_client_set_cert_and_key c k); [|by do 2 eexists].
  destruct Hs as [s Hs]. unfold upd_ssl_ctx, mbind, M_bind. cbn. rewrite Hs. by do 2 eexists.
Qed.

Lemma new_client_ctx_total p px w : memory w ->
  exists ok w', new_client_ctx ENABLE_BRSKI uriparser p px w = Some (ok, w') /\ memory w'.
Proof.
  intros Hm. unfold new_client_ctx.
  destruct (mem_client_init (ca_chain_raw px) (ca_chain_raw_len px) None _ Hm) as (ok & w1 & E & Hm1).
  rewrite (bind_run _ _ _ _ _ E). destruct ok; cbn [negb]; [|by do 2 eexists].
  apply client_init_run in E as (_ & _ & _ & Hs).
  destruct (set_auth_total (userid p) (password p) (server_cert px) (server_priv_key px) _ Hm1 Hs)
    as (rv & w2 & E & Hm2).
  rewrite (bind_run _ _ _ _ _ E). revert w2 Hm2 E. intros w2 Hm2 _.
  refine ((_ : safe memory _) _ Hm2). assert (H := mem_set_server).
  unfold and_then, est_client_set_auth_cred_cb, est_client_set_read_timeout, set_cl. safe_auto.
Qed.

(** C26. The array of nodes implements a map from threads to client contexts.  While
    there is memory a request for a client context completes.  The invariant of the
    array stays.  A thread that has a context gets this one and nothing changes; the
    context of another thread is made with the settings of the proxy and added under
    the identity of the thread, however often the array has to be doubled, or there
    is none and the map stays. *)
Theorem get_client_ctx_refines w :
  well_formed (w_proxy w) -> 0 < cur_threadid (w_proxy w) ->
  (w_alloc w = [] -> is_Some (get_client_ctx ENABLE_BRSKI uriparser w)) /\
  forall r w', get_client_ctx ENABLE_BRSKI uriparser w = Some (r, w') ->
    well_formed (w_proxy w') /\ got_ctx w r w'.
Proof.
  intros Hwf Hid. split; [|intros r w'; by apply get_client_ctx_spec].
  intros Hm. destruct Hwf as [arr Hok]. unfold get_client_ctx.
  do 2 (erewrite bind_run by done). rewrite (ok_array _ _ Hok).
  destruct (find_thread _ _ w _ Hok Hid) as (f & Hf & _). rewrite (bind_run _ _ _ _ _ Hf).
  destruct f as [i|]; [by eexists|].
  destruct (new_client_ctx_total (client (w_ctx w)) (w_proxy w) (set_w_ctx zero_client_ctx w) Hm)
    as (ok & w1 & E & Hm1).
  assert (Hp : w_proxy w1 = w_proxy w) by apply (grow_new_client_ctx _ _ _ _ _ E).
  erewrite bind_run by (unfold in_ctx; rewrite E; done). destruct ok; cbn [negb]; [|by eexists].
  erewrite bind_run by done.
  match goal with |- is_Some (mbind _ _ ?w3) => set (wx := w3) end.
  assert (Hr : exists w4, add_node (cur_threadid (w_proxy w)) (length (client_ctxs (w_proxy w))) wx
                 = Some (tt, w4)); [|destruct Hr as [w4 Hr]; erewrite bind_run by exact Hr; by eexists].
  destruct (find_thread _ _ w _ Hok Hid) as (f & Hf' & Hn). rewrite Hf in Hf'. simplify_eq.
  destruct (add_node_spec wx arr (cur_threadid (w_proxy w)) (length (client_ctxs (w_proxy w))))
    as [(arr' & w5 & E5 & _)|[_ E5]]; [|done|done| | |by eexists|].
  - subst wx. cbn. rewrite Hp. by apply ok_push.
  - subst wx. cbn. rewrite Hp, length_app. cbn. lia.
  - intros j Hj. destruct (threads_lookup _ _ _ _ Hok Hj) as (_ & Hb & _). lia.
  - subst wx. cbn in E5. by rewrite Hm1 in E5.
Qed.

End GetCtx.
