(* ===== verification/ProxyProps.v ===== *)
(** * ProxyProps: what a request to the proxy does

    Isolation of the threads: a request changes the client context of its own thread
    only.  The two rounds of the retry are enough.  The upstream server is involved
    only for a client that is authorised. *)

From stdpp Require Import gmap.
From S2P Require Import Prelude.
From S2P Require Import SafeC.
From S2P Require Import EstTypes.
From S2P Require Import EstState.
From S2P Require Import EstUtil.
From S2P Require Import HttpIO.
From S2P Require Import HttpAuth.
From S2P Require Import ServerAuth.
From S2P Require Import ServerCsr.
From S2P Require Import ServerEnroll.
From S2P Require Import ServerDispatch.
From S2P Require Import ServerConfig.
From S2P Require Import ClientHttp.
From S2P Require Import ClientRequest.
From S2P Require Import Client.
From S2P Require Import ClientConfig.
From S2P Require Import ProxyCtx.
From S2P Require Import Proxy.
From S2P Require Import ProxyConfig.
From S2P Require Import EstLogic.
From S2P Require Import HttpIOFacts.
From S2P Require Import ServerAuthProps.
From S2P Require Import ServerDispatchProps.
From S2P Require Import ClientProps.
From S2P Require Import ProxyFacts.
From S2P Require Import ProxyCtxProps.

(** ** Comparisons that include the NUL *)

Lemma strncmp_whole s d n : no_nul s -> (length s < n \/ length d < n)%nat ->
  strncmp_fuel d s n = 0 -> cstr d = s.
Proof.
  revert d n. induction s as [|c s IH]; intros d n Hs Hn H.
  - destruct n as [|n]; [cbn in Hn; lia|]. cbn in H. destruct d as [|x d]; [done|]. cbn in *.
    destruct (Z.eqb_spec x 0); [done|]. cbn in H. lia.
  - apply Forall_cons_1 in Hs as [Hc Hs]. destruct n as [|n]; [cbn in Hn; lia|].
    cbn [strncmp_fuel hd tail] in H. cbn [length] in Hn.
    destruct d as [|x d]; cbn [hd tail] in H.
    { destruct (Z.eqb_spec 0 c); [by subst|]. cbn in H. lia. }
    destruct (Z.eqb_spec x c); [subst x|cbn in H; lia]. cbn in *. destruct (Z.eqb_spec c 0); [done|].
    f_equal. apply (IH d n); [done|lia|done].
Qed.

Lemma memcmp_whole s d : no_nul s -> memcmp_fuel d s (S (length s)) = 0 -> cstr d = s.
Proof.
  revert d. induction s as [|c s IH]; intros d Hs H.
  - cbn in H. destruct d as [|x d]; [done|]. cbn in *. destruct (Z.eqb_spec x 0); [done|lia].
  - apply Forall_cons_1 in Hs as [Hc Hs]. cbn [length memcmp_fuel hd tail] in H.
    destruct d as [|x d]; cbn [hd tail] in H.
    { destruct (Z.eqb_spec 0 c); [by subst|lia]. }
    destruct (Z.eqb_spec x c); [subst x|lia]. cbn. destruct (Z.eqb_spec c 0); [done|].
    f_equal. by apply IH.
Qed.

(** The method is compared as a whole. *)
Lemma proxy_method_is m s : no_nul s -> Z.of_nat (length s) < MAX_HTTP_METHOD_LEN ->
  proxy_method m s = true -> cstr m = s.
Proof.
  unfold proxy_method, strcmp_s. intros Hs Hl H. cbn [snd Z.eqb MAX_HTTP_METHOD_LEN] in H. b2p.
  unfold strncmp in H. eapply strncmp_whole; [done| |exact H]. unfold MAX_HTTP_METHOD_LEN in *. lia.
Qed.

Section Props.
Context {L : OpenSSL}.
Variable ENABLE_BRSKI : bool.
Variable uriparser : option (bytes -> option (list UriPathSegment)).
Variable EST_VER_STRING : bytes.
Variable malloc_junk : nat -> bytes.

(** ** Operations of the server only add to the trace *)

Lemma grow_quiet {A} (m : M A) : sat (frame quiet) m -> sat grows m.
Proof. apply grow_frame. Qed.

Hint Resolve frame_send_200 frame_write_parts : sat.
Hint Extern 3 (sat grows (est_send_http_error _)) => apply grow_quiet; auto with sat : sat.
Hint Extern 3 (sat grows (send_200 _ _)) => apply grow_quiet; auto with sat : sat.
Hint Extern 3 (sat grows (write_parts _)) => apply grow_quiet; auto with sat : sat.
Hint Extern 3 (sat grows (est_send_csrattr_data _ _)) => apply grow_quiet; auto with sat : sat.
Hint Extern 3 (sat grows (est_enroll_auth _ _ _ _)) => apply grow_quiet; auto with sat : sat.
Hint Extern 3 (sat grows (est_tls_uid_auth _ _)) => apply grow_quiet; auto with sat : sat.
Hint Extern 3 (sat grows (est_server_parse_csr _ _)) => apply grow_quiet; auto with sat : sat.
Hint Extern 3 (sat grows (est_is_challengePassword_present _ _)) => apply grow_quiet; auto with sat : sat.
Hint Extern 3 (sat grows (est_add_challengePassword _ _)) => apply grow_quiet; auto with sat : sat.
Hint Extern 3 (sat grows (est_invoke_enroll_req_event_cb _ _ _ _)) => apply grow_quiet; auto with sat : sat.
Hint Extern 3 (sat grows (est_invoke_enroll_rsp_event_cb _ _ _ _ _ _)) => apply grow_quiet; auto with sat : sat.
Hint Extern 3 (sat grows (est_invoke_endpoint_req_event_cb _ _ _)) => apply grow_quiet; auto with sat : sat.
Hint Extern 3 (sat grows (request_uri _ _ _)) => apply grow_quiet, frame_request_uri : sat.

Lemma faith_upstream request : sat faithful request -> sat faithful (upstream_request request).
Proof. intros H. unfold upstream_request. sat_auto. Qed.

Lemma faith_send_enroll_request b re :
  sat faithful (est_proxy_send_enroll_request ENABLE_BRSKI EST_VER_STRING malloc_junk b re).
Proof. apply faith_upstream, faith_send_enroll. Qed.
Lemma faith_send_keygen_request b k :
  sat faithful (est_proxy_send_keygen_request ENABLE_BRSKI EST_VER_STRING malloc_junk b k).
Proof. apply faith_upstream, faith_send_enroll. Qed.

Lemma faith_set_path_segment s : sat faithful (est_proxy_set_path_segment s).
Proof. unfold est_proxy_set_path_segment. sat_auto. Qed.
Hint Resolve faith_send_enroll_request faith_send_keygen_request faith_set_path_segment : sat.

Lemma grow_proxy_checks ssl ct body seg req : sat grows (proxy_checks ssl ct body seg req).
Proof. unfold proxy_checks, proxy_bad_ct, proxy_csr_check, get_csr. sat_auto. Qed.

Lemma grow_proxy_enroll_response rv p want : sat grows (proxy_enroll_response rv p want).
Proof. unfold proxy_enroll_response, est_proxy_propagate_pkcs7. sat_auto. Qed.
Lemma grow_proxy_keygen_response rv p k st : sat grows (proxy_keygen_response rv p k st).
Proof. unfold proxy_keygen_response, est_proxy_propagate_keygen_rsp. sat_auto. Qed.

Lemma grow_handle_cacerts c : sat grows (est_handle_cacerts c).
Proof. unfold est_handle_cacerts. sat_auto. Qed.

Lemma grow_forward_csrattrs d : sat grows (proxy_forward_csrattrs d).
Proof.
  unfold proxy_forward_csrattrs, no_csrattrs, return_pop_csrattrs, return_csrattrs. sat_auto.
Qed.

Lemma grow_fail_with rc : sat grows (fail_with rc).
Proof. unfold fail_with. sat_auto. Qed.
Lemma grow_fail_as a b : sat grows (fail_as a b).
Proof. unfold fail_as. sat_auto. Qed.

(** ** Isolation *)

Hint Extern 4 (sat (iso _) (with_client _ _)) => apply iso_with_client : sat.

Lemma iso_copy_retry_after a : sat (iso a) (copy_retry_after a).
Proof.
  unfold copy_retry_after. apply sat_bind; [apply _| |intros c; apply iso_grow; auto with sat].
  apply iso_with_client. auto with sat.
Qed.

Lemma iso_attempt_again a rv : sat (iso a) (attempt_again a rv).
Proof.
  unfold attempt_again. apply sat_bind; [apply _|apply iso_grow; auto with sat|intros ctx].
  apply sat_bind; [apply _|apply iso_with_client; auto with sat|intros c; apply iso_grow; auto with sat].
Qed.

Lemma iso_try_again a request : sat faithful request ->
  forall fuel p k, sat (iso a) (try_again fuel a request p k).
Proof.
  intros Hr. pose proof iso_copy_retry_after. pose proof iso_attempt_again.
  induction fuel as [|f IH]; intros p k; cbn [try_again]; sat_auto.
Qed.

Lemma iso_proxy_attempts a request : sat faithful request -> sat (iso a) (proxy_attempts a request).
Proof.
  intros Hr. unfold proxy_attempts. apply sat_bind; [apply _|by apply iso_try_again|intros r].
  apply sat_bind; [apply _|apply iso_with_client; auto with sat|intros u; apply iso_grow; auto with sat].
Qed.

(** The context of a thread, if any, is that of a client. *)
Definition client_mode (px : EST_PROXY_CTX) (id : Z) : Prop :=
  forall c, thread_ctxs px !! id = Some c -> est_mode c = EST_CLIENT.

(** The state of the threads' contexts is kept well-formed, the other threads' are not
    touched, and no thread's context changes its upstream server. *)
Definition isolated (w w' : world) : Prop :=
  let id := cur_threadid (w_proxy w) in
  cur_threadid (w_proxy w') = id /\ (exists l, w_trace w' = w_trace w ++ l) /\
  (0 < id -> well_formed (w_proxy w) ->
   well_formed (w_proxy w')
   /\ delete id (thread_ctxs (w_proxy w')) = delete id (thread_ctxs (w_proxy w))
   /\ (is_Some (thread_ctxs (w_proxy w) !! id) ->
       thread_server (w_proxy w') id = thread_server (w_proxy w) id)
   /\ (client_mode (w_proxy w) id -> client_mode (w_proxy w') id)).

Lemma client_mode_server px px' id :
  thread_server px' id = thread_server px id -> client_mode px id -> client_mode px' id.
Proof.
  unfold thread_server, client_mode. intros H Hm c Hc. rewrite Hc in H.
  destruct (thread_ctxs px !! id) as [c0|]; [|done]. injection H as H _ _ _. rewrite H. by apply Hm.
Qed.

Lemma thread_server_some px px' id : thread_server px' id = thread_server px id ->
  is_Some (thread_ctxs px !! id) -> is_Some (thread_ctxs px' !! id).
Proof.
  unfold thread_server. intros H [c Hc]. rewrite Hc in H. destruct (thread_ctxs px' !! id); [done|].
  discriminate.
Qed.

Lemma same_elsewhere (m m' : gmap Z EST_CTX) k : delete k m' = delete k m ->
  forall i, i <> k -> m' !! i = m !! i.
Proof. intros D i Hi. by rewrite <- (lookup_delete_ne _ k), D, lookup_delete_ne. Qed.

#[local] Instance isolated_preorder : PreOrder isolated.
Proof.
  split.
  - intros w. split; [done|]. split; [exists []; by rewrite app_nil_r|done].
  - intros w1 w2 w3 (T1 & [l1 L1] & H1) (T2 & [l2 L2] & H2).
    split; [congruence|]. split; [exists (l1 ++ l2); by rewrite L2, L1, app_assoc|].
    rewrite T1 in H2. intros Hid Hat. destruct (H1 Hid Hat) as (Hat1 & D1 & U1 & M1).
    destruct (H2 Hid Hat1) as (Hat2 & D2 & U2 & M2). split; [done|]. split; [congruence|].
    split; [|by auto].
    intros Hc. rewrite U2; [by apply U1|]. eapply thread_server_some; [by apply U1|done].
Qed.

Lemma isolated_grow {A} (m : M A) : sat grows m -> sat isolated m.
Proof. intros H w r w' E. destruct (H _ _ _ E) as [Hp Hl]. unfold isolated. by rewrite Hp. Qed.

Lemma got_ctx_isolated w r w' : got_ctx w r w' ->
  let id := cur_threadid (w_proxy w) in
  delete id (thread_ctxs (w_proxy w')) = delete id (thread_ctxs (w_proxy w))
  /\ (is_Some (thread_ctxs (w_proxy w) !! id) ->
      thread_server (w_proxy w') id = thread_server (w_proxy w) id)
  /\ (client_mode (w_proxy w) id -> client_mode (w_proxy w') id).
Proof.
  unfold got_ctx. destruct (thread_ctxs (w_proxy w) !! _) eqn:Ec; [by intros [-> _]|]. cbn zeta.
  intros H. split; [|split; [by intros [c Hc]|]].
  - destruct H as [[_ ->]|(a & c & _ & _ & -> & _)]; [done|]. by rewrite delete_insert_eq.
  - unfold client_mode. destruct H as [[_ ->]|(a & c & _ & _ & -> & U)]; [done|].
    intros _ c'. rewrite lookup_insert_eq. intros [= <-]. apply U.
Qed.

Lemma get_client_ctx_isolated : sat isolated (get_client_ctx ENABLE_BRSKI uriparser).
Proof.
  intros w r w' E. destruct (steady_get_client_ctx _ _ _ _ _ E) as (_ & T & Hl).
  split; [done|]. split; [done|]. intros Hid Hwf.
  destruct (get_client_ctx_spec _ _ _ _ _ Hwf Hid E) as [Hwf' Hg]. split; [done|].
  by eapply got_ctx_isolated.
Qed.

(** The client context a handler works with is that of its thread. *)
Lemma get_client_ctx_own w a w' : 0 < cur_threadid (w_proxy w) -> well_formed (w_proxy w) ->
  get_client_ctx ENABLE_BRSKI uriparser w = Some (Some a, w') ->
  at_thread (w_proxy w') (cur_threadid (w_proxy w')) a.
Proof.
  intros Hid Hwf E. destruct (steady_get_client_ctx _ _ _ _ _ E) as (_ & -> & _).
  destruct (get_client_ctx_spec _ _ _ _ _ Hwf Hid E) as [_ Hg]. unfold got_ctx in Hg.
  destruct (_ !! _); [by destruct Hg as (_ & b & [= ->] & H)|].
  by destruct Hg as [[? _]|(b & c & [= ->] & H & _)].
Qed.

(** What follows works on the context of the thread. *)
Lemma isolated_own a w w1 w' : isolated w w1 ->
  (0 < cur_threadid (w_proxy w) -> well_formed (w_proxy w) ->
   at_thread (w_proxy w1) (cur_threadid (w_proxy w1)) a) ->
  iso a w1 w' -> isolated w w'.
Proof.
  intros (T & [l1 L1] & I) Hat (T2 & [l2 L2] & I2). split; [congruence|].
  split; [exists (l1 ++ l2); by rewrite L2, L1, app_assoc|]. intros Hid Hwf.
  destruct (I Hid Hwf) as (_ & D & U & Hm). destruct (I2 (Hat Hid Hwf)) as (Hat' & D2 & U2).
  rewrite T in D2, U2. split; [by eapply at_thread_well_formed|]. split; [congruence|].
  split; [intros Hc; rewrite U2; by apply U|]. intros Hc. apply (client_mode_server _ _ _ U2). by apply Hm.
Qed.

Lemma isolated_client {A} seg (k : EST_ERROR -> nat -> M A) :
  (forall rv a, sat (iso a) (k rv a)) -> (forall a, sat isolated (k EST_ERR_NO_CTX a)) ->
  sat isolated ('(rv, a) ← proxy_client ENABLE_BRSKI uriparser seg; k rv a).
Proof.
  intros Hk Hn w r w' H. run_inv H as ra w1 E. destruct ra as [rv a]. unfold proxy_client in E.
  run_inv E as c w2 E2. assert (I := get_client_ctx_isolated _ _ _ E2). destruct c as [b|].
  2:{ apply ret_some in E as [[= <- <-] <-]. etrans; [exact I|]. by eapply Hn. }
  run_inv E as rv' w3 E3. apply ret_some in E as [[= <- <-] <-].
  eapply (isolated_own b); [exact I|by intros; eapply get_client_ctx_own|].
  etrans; [|by eapply Hk]. revert E3. unfold forward_path_seg.
  assert (S : sat (iso b) (ctx ← get_ctx;
    match (match seg with Some s => Some s | None => uri_path_segment (client ctx) end) with
    | None => mret EST_ERR_NONE
    | Some s => with_client b (est_proxy_set_path_segment s)
    end)).
  { sat_auto. }
  apply S.
Qed.

Hint Extern 3 (sat (iso _) (proxy_enroll_response _ _ _)) => apply iso_grow, grow_proxy_enroll_response : sat.
Hint Extern 3 (sat (iso _) (proxy_keygen_response _ _ _ _)) => apply iso_grow, grow_proxy_keygen_response : sat.
Hint Extern 3 (sat (iso _) (proxy_forward_csrattrs _)) => apply iso_grow, grow_forward_csrattrs : sat.
Hint Extern 3 (sat (iso _) (est_handle_cacerts _)) => apply iso_grow, grow_handle_cacerts : sat.
Hint Extern 3 (sat (iso _) (upd_ctx _)) => apply iso_grow; auto with sat : sat.
Hint Extern 3 (sat (iso _) alloc) => apply iso_grow; auto with sat : sat.
Hint Extern 3 (sat (iso _) (proxy_attempts _ _)) => apply iso_proxy_attempts; auto with sat : sat.
Hint Resolve iso_copy_retry_after : sat.
Hint Extern 3 (sat isolated (proxy_checks _ _ _ _ _)) => apply isolated_grow, grow_proxy_checks : sat.
Hint Extern 3 (sat isolated (est_handle_cacerts _)) => apply isolated_grow, grow_handle_cacerts : sat.

Ltac no_client := intros ?; rewrite bool_decide_false by done; cbn [negb]; auto with sat.

Lemma isolated_forward_enroll body seg re want :
  sat isolated (forward_enroll ENABLE_BRSKI uriparser EST_VER_STRING malloc_junk body seg re want).
Proof.
  apply isolated_client; [|no_client]. intros rv' a. sat_auto.
Qed.

Lemma isolated_forward_keygen body seg :
  sat isolated (forward_keygen ENABLE_BRSKI uriparser EST_VER_STRING malloc_junk body seg).
Proof.
  apply isolated_client; [|no_client]. intros rv' a. sat_auto.
Qed.

Hint Resolve isolated_forward_enroll isolated_forward_keygen : sat.

Lemma isolated_simple_enroll ssl ct body seg re want :
  sat isolated (est_proxy_handle_simple_enroll ENABLE_BRSKI uriparser EST_VER_STRING malloc_junk
                  ssl ct body seg re want).
Proof. unfold est_proxy_handle_simple_enroll. sat_auto. Qed.

Lemma isolated_server_keygen ssl ct body seg :
  sat isolated (est_proxy_handle_server_keygen ENABLE_BRSKI uriparser EST_VER_STRING malloc_junk
                  ssl ct body seg).
Proof. unfold est_proxy_handle_server_keygen. sat_auto. Qed.

Lemma isolated_cacerts seg :
  sat isolated (est_proxy_handle_cacerts ENABLE_BRSKI uriparser EST_VER_STRING malloc_junk seg).
Proof.
  unfold est_proxy_handle_cacerts. apply sat_bind; [apply _|auto with sat|intros ctx].
  destruct (ca_certs ctx); [sat_auto|].
  apply isolated_client; [|no_client]. intros rv' a.
  unfold proxy_forward_cacerts. sat_auto.
Qed.

Lemma isolated_csr_attrs seg :
  sat isolated (est_proxy_handle_csr_attrs ENABLE_BRSKI uriparser EST_VER_STRING malloc_junk seg).
Proof.
  unfold est_proxy_handle_csr_attrs.
  apply isolated_client; [|no_client]. intros rv' a. sat_auto.
Qed.

Hint Resolve isolated_simple_enroll isolated_server_keygen isolated_cacerts isolated_csr_attrs : sat.
Hint Extern 3 (sat isolated (fail_with _)) => apply isolated_grow, grow_fail_with : sat.
Hint Extern 3 (sat isolated (fail_as _ _)) => apply isolated_grow, grow_fail_as : sat.
Hint Extern 5 (sat isolated (est_send_http_error _)) => apply isolated_grow; auto with sat : sat.
Hint Extern 5 (sat isolated (est_invoke_enroll_req_event_cb _ _ _ _)) =>
  apply isolated_grow; auto with sat : sat.
Hint Extern 5 (sat isolated (est_invoke_enroll_rsp_event_cb _ _ _ _ _ _)) =>
  apply isolated_grow; auto with sat : sat.
Hint Extern 5 (sat isolated (est_invoke_endpoint_req_event_cb _ _ _)) =>
  apply isolated_grow; auto with sat : sat.
Hint Extern 5 (sat isolated (request_uri _ _ _)) => apply isolated_grow; auto with sat : sat.

Lemma isolated_dispatch ssl peer op method body ct seg :
  sat isolated (proxy_dispatch ENABLE_BRSKI uriparser EST_VER_STRING malloc_junk
                  ssl peer op method body ct seg).
Proof.
  unfold proxy_dispatch, proxy_cacerts, proxy_csrattrs, proxy_enroll, proxy_keygen_handler,
    proxy_enroll_handler.
  sat_auto.
Qed.
Hint Resolve isolated_dispatch : sat.

Lemma isolated_http_request method uri body ct :
  sat isolated (est_proxy_http_request ENABLE_BRSKI uriparser EST_VER_STRING malloc_junk
                  method uri body ct).
Proof. unfold est_proxy_http_request. sat_auto. Qed.

(** C25. A request to the proxy keeps the array of client contexts well-formed, leaves
    the running thread as it is and does not change the client context of any other
    thread: path segments, challenges and credentials of one thread's requests never
    reach a request of another thread.  A thread's context keeps its upstream server and
    its mode. *)
Theorem est_proxy_http_request_isolated method uri body ct w rc w' :
  est_proxy_http_request ENABLE_BRSKI uriparser EST_VER_STRING malloc_junk method uri body ct w
    = Some (rc, w') ->
  0 < cur_threadid (w_proxy w) -> well_formed (w_proxy w) ->
  well_formed (w_proxy w') /\ cur_threadid (w_proxy w') = cur_threadid (w_proxy w) /\
  (forall id, id <> cur_threadid (w_proxy w) ->
    thread_ctxs (w_proxy w') !! id = thread_ctxs (w_proxy w) !! id) /\
  (forall id, is_Some (thread_ctxs (w_proxy w) !! id) ->
    thread_server (w_proxy w') id = thread_server (w_proxy w) id).
Proof.
  intros H Hid Hwf. destruct (isolated_http_request _ _ _ _ _ _ _ H) as (T & _ & I).
  destruct (I Hid Hwf) as (Hwf' & D & U & _).
  assert (Ho := same_elsewhere _ _ _ D).
  split; [done|]. split; [done|]. split; [exact Ho|]. intros id Hc.
  destruct (decide (id = cur_threadid (w_proxy w))) as [->|Hne]; [by apply U|].
  unfold thread_server. by rewrite Ho.
Qed.

(** ** Two rounds are enough *)

Lemma upstream_request_mode request w r w' :
  (forall w r w', request w = Some (r, w') -> er_rv r = EST_ERR_AUTH_FAIL ->
     refused_mode (auth_mode (w_ctx w)) (auth_mode (w_ctx w'))) ->
  upstream_request request w = Some (r, w') -> er_rv r = EST_ERR_AUTH_FAIL ->
  refused_mode (auth_mode (w_ctx w)) (auth_mode (w_ctx w')).
Proof.
  intros Hreq H Hr. unfold upstream_request in H. run_inv H as c w1 E1. destruct c as [rv ssl].
  assert (Hc := connect_no_auth_fail _ _ _ E1). apply connect_spec in E1 as [[M1 _] _].
  destruct ssl as [s|]; [|apply ret_some in H as [<- _]; done].
  run_inv H as rsp w2 E2. run_inv H as u w3 E3. apply ret_some in H as [<- <-].
  apply disconnect_spec in E3 as (_ & [M3 _] & _). rewrite M3, <- M1. by eapply Hreq.
Qed.

(** A request that ends with a challenge leaves a mode, and does not ask twice. *)
Definition refusable (request : M enroll_rsp) : Prop :=
  sat faithful request /\ forall w r w', request w = Some (r, w') -> er_rv r = EST_ERR_AUTH_FAIL ->
    refused_mode (auth_mode (w_ctx w)) (auth_mode (w_ctx w')).

Lemma refusable_enroll b re :
  refusable (est_proxy_send_enroll_request ENABLE_BRSKI EST_VER_STRING malloc_junk b re).
Proof.
  split; [auto with sat|]. intros w r w'. apply upstream_request_mode. clear w r w'.
  intros w r w'. apply send_enroll_mode.
Qed.

Lemma refusable_keygen b k :
  refusable (est_proxy_send_keygen_request ENABLE_BRSKI EST_VER_STRING malloc_junk b k).
Proof.
  split; [auto with sat|]. intros w r w'. apply upstream_request_mode. clear w r w'.
  intros w r w'. apply send_enroll_mode.
Qed.

Definition ctx_at (a : nat) (w : world) : option EST_CTX := client_ctxs (w_proxy w) !! a.

Lemma with_client_at {A} a (m : M A) w r w' : sat grows m -> with_client a m w = Some (r, w') ->
  exists c w1, ctx_at a w = Some c /\ m (set_w_ctx c w) = Some (r, w1) /\ ctx_at a w' = Some (w_ctx w1).
Proof.
  intros Hm H. apply with_client_run in H as (c & w1 & Hc & R & ->). exists c, w1.
  split; [done|]. split; [done|]. unfold ctx_at. cbn. rewrite (proj1 (Hm _ _ _ R)).
  apply list_lookup_insert_eq. by eapply lookup_lt_Some.
Qed.

Lemma grow_get_ctx : sat grows get_ctx.
Proof. auto with sat. Qed.

Lemma copy_retry_after_at a w u w' : copy_retry_after a w = Some (u, w') -> ctx_at a w' = ctx_at a w.
Proof.
  intros H. unfold copy_retry_after in H. run_inv H as c w1 E. injection H as _ <-.
  apply with_client_at in E as (c' & w2 & Hc & [= _ <-] & Hc'); [|apply grow_get_ctx]. by rewrite Hc.
Qed.

Lemma attempt_again_at a rv w b w' : attempt_again a rv w = Some (b, w') ->
  ctx_at a w' = ctx_at a w /\
  exists c, ctx_at a w = Some c /\
    b = bool_decide (rv = EST_ERR_AUTH_FAIL) && http_auth_mode (auth_mode (w_ctx w))
        && negb (bool_decide (auth_mode c = AUTH_FAIL)).
Proof.
  intros H. unfold attempt_again in H. run_inv H as ctx w1 E. injection E as <- <-.
  run_inv H as c w2 E. apply ret_some in H as [<- <-].
  apply with_client_at in E as (c' & w3 & Hc & [= <- <-] & Hc'); [|apply grow_get_ctx].
  split; [by rewrite Hc|]. by exists c'.
Qed.

(** What a round leads to. *)
Lemma round_again a request w rsp w1 u w2 w3 : refusable request ->
  with_client a request w = Some (rsp, w1) -> copy_retry_after a w1 = Some (u, w2) ->
  attempt_again a (er_rv rsp) w2 = Some (true, w3) ->
  exists c c', ctx_at a w = Some c /\ ctx_at a w3 = Some c' /\
    http_auth_mode (auth_mode c) = false /\ http_auth_mode (auth_mode c') = true.
Proof.
  intros [Hg%faith_grow Hr] E1 E2 E3. apply with_client_at in E1 as (c & wx & Hc & R & Hc1); [|done].
  apply copy_retry_after_at in E2. apply attempt_again_at in E3 as [Hc3 (c' & Hc2 & Hb)].
  rewrite E2 in Hc2. assert (c' = w_ctx wx) as -> by congruence.
  symmetry in Hb. apply andb_true_iff in Hb as [Hb Hf]. apply andb_true_iff in Hb as [Hrv _].
  b2p. apply (Hr _ _ _ R) in Hrv as [Hm Hm']. exists c, (w_ctx wx). split; [done|].
  split; [congruence|]. destruct Hm as [Hm|Hm]; [|done]. split; [|done].
  destruct (http_auth_mode (auth_mode c)) eqn:E; [|done]. by rewrite Hm' in Hm.
Qed.

(** A round that is followed by the next one only where [next] is taken. *)
Lemma try_again_step a request n m p k w :
  (forall rsp w1 u w2 w3, with_client a request w = Some (rsp, w1) ->
     copy_retry_after a w1 = Some (u, w2) -> attempt_again a (er_rv rsp) w2 = Some (true, w3) ->
     forall p k, try_again n a request p k w3 = try_again m a request p k w3) ->
  try_again (S n) a request p k w = try_again (S m) a request p k w.
Proof.
  intros Hnext. cbn [try_again]. unfold mbind, M_bind.
  destruct (with_client a request w) as [[rsp w1]|] eqn:E1; [|done].
  destruct (copy_retry_after a w1) as [[u w2]|] eqn:E2; [|done].
  destruct (attempt_again a (er_rv rsp) w2) as [[[] w3]|] eqn:E3; [|done..]. by eapply Hnext.
Qed.

Lemma try_again_last a request n p k w : refusable request ->
  (exists c, ctx_at a w = Some c /\ http_auth_mode (auth_mode c) = true) ->
  try_again (S n) a request p k w = try_again 1 a request p k w.
Proof.
  intros Hr (c & Hc & Hm). apply try_again_step. intros rsp w1 u w2 w3 E1 E2 E3.
  destruct (round_again _ _ _ _ _ _ _ _ Hr E1 E2 E3) as (c1 & _ & Hc1 & _ & Hm1 & _). congruence.
Qed.

(** C28. The retry of an upstream request ends: for every request the proxy sends two
    rounds are enough, a third one is never due.  The first refusal tells the client
    context the authentication mode or makes it give up, and with a mode the second
    refusal makes it give up. *)
Theorem try_again_two_rounds a pkcs10 n w :
  (forall re, let request := est_proxy_send_enroll_request ENABLE_BRSKI EST_VER_STRING malloc_junk
                               pkcs10 re in
     try_again (2 + n) a request None None w = try_again 2 a request None None w) /\
  (forall key, let request := est_proxy_send_keygen_request ENABLE_BRSKI EST_VER_STRING malloc_junk
                                pkcs10 key in
     try_again (2 + n) a request None None w = try_again 2 a request None None w).
Proof.
  assert (H : forall request, refusable request ->
            try_again (2 + n) a request None None w = try_again 2 a request None None w).
  { intros request Hr. apply try_again_step. intros rsp w1 u w2 w3 E1 E2 E3 p k.
    apply try_again_last; [done|].
    destruct (round_again _ _ _ _ _ _ _ _ Hr E1 E2 E3) as (_ & c & _ & Hc & _ & Hm). by exists c. }
  split; [intros re; apply H, refusable_enroll|intros key; apply H, refusable_keygen].
Qed.

#[local] Existing Instance tq_preorder.

(** ** What must hold before the upstream server is involved *)

(** The checks of an enrollment that passed. *)
Definition admitted (ssl : SSL) (ct body : option bytes) (req : EST_ENROLL_REQ_TYPE)
    (w w1 : world) : Prop :=
  exists p csr, body = Some p /\ d2i_X509_REQ_bio true p = Some csr /\
    (transport_mode (w_ctx w) = EST_HTTP -> exists c, ct = Some c /\ cstr c = CT_PKCS10) /\
    authorised_before req ssl w w1 /\ csr_signed csr /\ pop_ok (w_ctx w) ssl csr.

(** Nothing is asked of the upstream server, or only after a point where [G] held. *)
Definition behind (G : world -> Prop) (w w' : world) : Prop :=
  tq w w' \/ exists w1, G w1 /\ frame quiet w w1 /\ exists l, w_trace w' = w_trace w1 ++ l.

Lemma behind_frame (G : world -> Prop) w w1 w' :
  frame quiet w w1 -> behind G w1 w' -> behind G w w'.
Proof.
  intros F [H|(w2 & HG & F2 & H)]; [left|right].
  - etrans; [by apply frame_tq|exact H].
  - exists w2. split; [done|]. split; [by etrans|done].
Qed.

Lemma behind_then (G : world -> Prop) w w1 w' : behind G w w1 -> tq w1 w' -> behind G w w'.
Proof.
  intros [H|(w2 & HG & F & l & Hl)] T; [left; by etrans|right].
  exists w2. split; [done|]. split; [done|]. destruct T as (l2 & T & _). exists (l ++ l2).
  by rewrite T, Hl, app_assoc.
Qed.

Lemma behind_impl (G G' : world -> Prop) w w' :
  (forall w1, G w1 -> G' w1) -> behind G w w' -> behind G' w w'.
Proof. intros HG [H|(w1 & H1 & H)]; [by left|right]. exists w1. auto. Qed.

(** From here on the trace only grows. *)
Lemma behind_now (G : world -> Prop) w w' : G w -> isolated w w' -> behind G w w'.
Proof. intros HG (_ & H & _). right. exists w. split; [done|]. split; [reflexivity|done]. Qed.

Lemma frame_proxy_bad_ct ct : sat (frame quiet) (proxy_bad_ct ct).
Proof. unfold proxy_bad_ct. sat_auto. Qed.

Lemma bad_ct_exact ct w w' :
  proxy_bad_ct ct w = Some (false, w') ->
  transport_mode (w_ctx w) = EST_HTTP -> exists c, ct = Some c /\ cstr c = CT_PKCS10.
Proof.
  unfold proxy_bad_ct. intros H Ht. run_inv H as ctx w1 E. injection E as <- <-. rewrite Ht in H.
  destruct ct as [c|]; [|done]. exists c. split; [done|]. apply ret_some in H as [H _].
  apply negb_false_iff in H. apply Z.eqb_eq in H. apply memcmp_whole; [|exact H].
  repeat constructor; discriminate.
Qed.

Hypothesis b64_no_nul : forall s, no_nul (snd (b64_bio_write true s)).

Lemma csr_check_ok ssl cached body w rv w' :
  (forall c, cached = Some c -> exists p, body = Some p /\ d2i_X509_REQ_bio true p = Some c) ->
  proxy_csr_check ssl cached body w = Some (rv, w') ->
  frame quiet w w' /\ (rv = EST_ERR_NONE -> exists p csr, body = Some p /\
    d2i_X509_REQ_bio true p = Some csr /\ csr_signed csr /\ pop_ok (w_ctx w) ssl csr).
Proof.
  intros Hc H. unfold proxy_csr_check in H. run_inv H as c w1 E1.
  assert (F1 := frame_get_csr _ _ _ _ _ E1).
  destruct c as [csr|]; [|apply ret_some in H as [<- <-]; by split].
  destruct (get_csr_some _ _ _ _ _ E1 Hc) as (p & -> & Hp).
  destruct (est_server_check_csr csr =? 0) eqn:Ec; b2p; cbn [negb] in H;
    [|apply ret_some in H as [<- <-]; by split].
  apply check_csr_iff in Ec. run_inv H as rv2 w2 E2.
  assert (F2 := frame_est_tls_uid_auth _ _ _ _ _ E2). apply ret_some in H as [<- <-].
  split; [by etrans|]. case_bool_decide as Hrv; [subst rv2|done]. intros _.
  apply tls_uid_auth_spec in E2 as [E2 _]; [|done]. rewrite (frame_ctx _ _ _ F1) in E2.
  exists p, csr. split; [done|]. split; [done|]. split; [done|]. by apply E2.
Qed.

Lemma checks_ok ssl ct body seg req w rv w1 :
  proxy_checks ssl ct body seg req w = Some (rv, w1) ->
  frame quiet w w1 /\ (rv = EST_ERR_NONE -> admitted ssl ct body req w w1).
Proof.
  intros H. unfold proxy_checks in H. run_inv H as bad w2 E2.
  assert (F2 := frame_proxy_bad_ct _ _ _ _ E2).
  destruct bad; [apply ret_some in H as [<- <-]; by split|]. assert (Hct := bad_ct_exact _ _ _ E2).
  run_inv H as a w3 E3. destruct a as [st cached].
  assert (F3 := frame_est_enroll_auth _ _ _ _ _ _ _ E3).
  assert (F : frame quiet w w3) by by etrans.
  destruct (auth_error st) as [e|] eqn:Ea.
  { apply ret_some in H as [<- <-]. split; [done|].
    intros ->. by destruct st. }
  assert (A := enroll_auth_ok _ _ _ _ _ _ _ _ E3 Ea).
  apply csr_check_ok in H as [F4 H]; [|intros c ->; by eapply enroll_auth_csr].
  split; [by etrans|]. intros Hrv. destruct (H Hrv) as (p & csr & Hb & Hd & Hs & Hp).
  exists p, csr. rewrite (frame_ctx _ _ _ F) in Hp. do 3 (split; [done|]). split; [|done].
  exists st. split; [done|]. eapply authorised_extend; [eapply authorised_ctx; [exact F2|exact A]|].
  by destruct F4 as [_ _ _ (l & Hl & _)]; exists l.
Qed.

Lemma simple_enroll_behind ssl ct body seg re want w r w' :
  est_proxy_handle_simple_enroll ENABLE_BRSKI uriparser EST_VER_STRING malloc_junk
    ssl ct body seg re want w = Some (r, w') ->
  behind (admitted ssl ct body (if re then REENROLL_REQ else SIMPLE_ENROLL_REQ) w) w w'.
Proof.
  unfold est_proxy_handle_simple_enroll. intros H. run_inv H as rv w1 E.
  apply checks_ok in E as [F A]. apply (behind_frame _ _ _ _ F).
  case_bool_decide as Hrv; cbn [negb] in H; [|apply ret_some in H as [_ <-]; by left].
  apply behind_now; [by apply A|]. by eapply isolated_forward_enroll.
Qed.

Lemma server_keygen_behind ssl ct body seg w r w' :
  est_proxy_handle_server_keygen ENABLE_BRSKI uriparser EST_VER_STRING malloc_junk
    ssl ct body seg w = Some (r, w') ->
  behind (admitted ssl ct body SERVERKEYGEN_REQ w) w w'.
Proof.
  unfold est_proxy_handle_server_keygen. intros H. run_inv H as rv w1 E.
  apply checks_ok in E as [F A]. apply (behind_frame _ _ _ _ F).
  case_bool_decide as Hrv; cbn [negb] in H; [|apply ret_some in H as [_ <-]; by left].
  apply behind_now; [by apply A|]. by eapply isolated_forward_keygen.
Qed.

(** What an operation requires before the upstream server is involved. *)
Definition proxy_admits (ssl : SSL) (op : EST_OPERATION) (method : bytes) (body ct : option bytes)
    (w w1 : world) : Prop :=
  match op with
  | EST_OP_CACERTS => cstr method = lit "GET" /\ ca_certs (w_ctx w) = None
  | EST_OP_CSRATTRS => cstr method = lit "GET"
  | EST_OP_SIMPLE_ENROLL =>
      cstr method = lit "POST" /\ admitted ssl ct body SIMPLE_ENROLL_REQ w w1
  | EST_OP_SIMPLE_REENROLL => cstr method = lit "POST" /\ admitted ssl ct body REENROLL_REQ w w1
  | EST_OP_SERVER_KEYGEN => cstr method = lit "POST" /\ admitted ssl ct body SERVERKEYGEN_REQ w w1
  | _ => False
  end.

Lemma admitted_lift ssl ct body req w0 w w1 :
  frame quiet w0 w -> admitted ssl ct body req w w1 -> admitted ssl ct body req w0 w1.
Proof.
  intros F (p & csr & Hb & Hd & Hct & (st & Hst & A) & Hs & Hp). exists p, csr.
  rewrite (frame_ctx _ _ _ F) in Hct, Hp. do 3 (split; [done|]). split; [|done].
  exists st. split; [done|]. by eapply authorised_ctx.
Qed.

Lemma proxy_admits_lift ssl op method body ct w0 w w1 :
  frame quiet w0 w -> proxy_admits ssl op method body ct w w1 ->
  proxy_admits ssl op method body ct w0 w1.
Proof.
  intros F. unfold proxy_admits. rewrite (frame_ctx _ _ _ F).
  destruct op; try done; intros [? ?]; (split; [done|by eapply admitted_lift]).
Qed.

Lemma tq_fail_as a b : sat tq (fail_as a b).
Proof. apply sat_tq. unfold fail_as. sat_auto. Qed.

Lemma method_get m : proxy_method m (lit "GET") = true -> cstr m = lit "GET".
Proof. apply proxy_method_is; [repeat constructor; discriminate|done]. Qed.
Lemma method_post m : proxy_method m (lit "POST") = true -> cstr m = lit "POST".
Proof. apply proxy_method_is; [repeat constructor; discriminate|done]. Qed.

(** After the handler there is only an error response. *)
Lemma behind_tail {A} (G : world -> Prop) (m : M A) (f : A -> M flow) w fl w' :
  (forall a, sat tq (f a)) -> (forall a w1, m w = Some (a, w1) -> behind G w w1) ->
  (m ≫= f) w = Some (fl, w') -> behind G w w'.
Proof.
  intros Hf Hm H. run_inv H as a w1 E. eapply behind_then; [by eapply Hm|by eapply Hf].
Qed.

Lemma proxy_cacerts_behind ssl method body ct seg w fl w' :
  proxy_cacerts ENABLE_BRSKI uriparser EST_VER_STRING malloc_junk method seg w = Some (fl, w') ->
  behind (proxy_admits ssl EST_OP_CACERTS method body ct w) w w'.
Proof.
  unfold proxy_cacerts. intros H. destruct (proxy_method method (lit "GET")) eqn:Em; cbn [negb] in H;
    [|left; by eapply tq_fail_with]. apply method_get in Em.
  revert H. apply behind_tail; [intros rc; destruct (negb _); [apply tq_fail_with|auto with sat]|].
  intros rc w1 H. destruct (ca_certs (w_ctx w)) eqn:Ec.
  - left. unfold est_proxy_handle_cacerts in H. run_inv H as ctx w2 E. injection E as <- <-.
    rewrite Ec in H. destruct (transport_mode (w_ctx w)); try (apply ret_some in H as [_ <-]; reflexivity).
    revert H. apply sat_tq. unfold est_handle_cacerts. sat_auto.
  - apply behind_now; [done|]. by eapply isolated_cacerts.
Qed.

Lemma proxy_csrattrs_behind ssl method body ct seg w fl w' :
  proxy_csrattrs ENABLE_BRSKI uriparser EST_VER_STRING malloc_junk method seg w = Some (fl, w') ->
  behind (proxy_admits ssl EST_OP_CSRATTRS method body ct w) w w'.
Proof.
  unfold proxy_csrattrs. intros H. destruct (proxy_method method (lit "GET")) eqn:Em; cbn [negb] in H;
    [|left; by eapply tq_fail_with]. apply method_get in Em.
  revert H. apply behind_tail.
  - intros [rc attrs]. destruct (negb _); [apply tq_fail_with|auto with sat].
  - intros rc w1 H. apply behind_now; [done|]. by eapply isolated_csr_attrs.
Qed.

Lemma tq_rsp_event p b s r c n : sat tq (est_invoke_enroll_rsp_event_cb p b s r c n).
Proof. apply sat_tq. auto with sat. Qed.
Hint Resolve tq_rsp_event tq_fail_with tq_fail_as : sat.

Lemma keygen_handler_behind ssl peer body ct seg w fl w' :
  proxy_keygen_handler ENABLE_BRSKI uriparser EST_VER_STRING malloc_junk ssl peer body ct seg w
    = Some (fl, w') ->
  behind (admitted ssl ct body SERVERKEYGEN_REQ w) w w'.
Proof.
  unfold proxy_keygen_handler. intros H. run_inv H as e w1 E.
  assert (F := frame_req_event _ _ _ _ _ _ _ E). apply (behind_frame _ _ _ _ F).
  eapply behind_impl; [intros w2; by apply (admitted_lift _ _ _ _ _ _ _ F)|].
  revert H. apply behind_tail; [intros [[rc cert] key]; sat_auto|].
  intros r w2. apply server_keygen_behind.
Qed.

Lemma enroll_handler_behind ssl peer re body ct seg w fl w' :
  proxy_enroll_handler ENABLE_BRSKI uriparser EST_VER_STRING malloc_junk ssl peer re body ct seg w
    = Some (fl, w') ->
  behind (admitted ssl ct body (if re then REENROLL_REQ else SIMPLE_ENROLL_REQ) w) w w'.
Proof.
  unfold proxy_enroll_handler. intros H. run_inv H as e w1 E.
  assert (F := frame_req_event _ _ _ _ _ _ _ E). apply (behind_frame _ _ _ _ F).
  eapply behind_impl; [intros w2; by apply (admitted_lift _ _ _ _ _ _ _ F)|].
  revert H. apply behind_tail; [intros [rc cert]; sat_auto|].
  intros r w2. apply simple_enroll_behind.
Qed.

Lemma proxy_enroll_behind ssl peer op method body ct seg w fl w' :
  (op = EST_OP_SIMPLE_ENROLL \/ op = EST_OP_SIMPLE_REENROLL \/ op = EST_OP_SERVER_KEYGEN) ->
  proxy_enroll ENABLE_BRSKI uriparser EST_VER_STRING malloc_junk ssl peer op method body ct seg w
    = Some (fl, w') ->
  behind (proxy_admits ssl op method body ct w) w w'.
Proof.
  unfold proxy_enroll. intros Hop H.
  destruct (proxy_method method (lit "POST")) eqn:Em; cbn [negb] in H; [|left; by eapply tq_fail_with].
  apply method_post in Em.
  head_if H; [left; by eapply tq_fail_as|]. head_if H; [left; by eapply tq_fail_as|].
  destruct Hop as [-> |[-> | ->]]; cbn [proxy_admits] in *;
    (eapply behind_impl; [intros w1 A; split; [exact Em|exact A]|]).
  - exact (enroll_handler_behind _ _ _ _ _ _ _ _ _ H).
  - exact (enroll_handler_behind _ _ _ _ _ _ _ _ _ H).
  - exact (keygen_handler_behind _ _ _ _ _ _ _ _ H).
Qed.

Lemma tq_send_error {A} n (x : A) : sat tq (_ ← est_send_http_error n; mret x).
Proof. apply sat_tq. sat_auto. Qed.

Lemma dispatch_behind ssl peer op method body ct seg w fl w' :
  proxy_dispatch ENABLE_BRSKI uriparser EST_VER_STRING malloc_junk ssl peer op method body ct seg w
    = Some (fl, w') ->
  behind (proxy_admits ssl op method body ct w) w w'.
Proof.
  intros H. unfold proxy_dispatch in H.
  destruct op; first [by eapply proxy_enroll_behind; [|exact H]; auto|by eapply proxy_cacerts_behind
                     |by eapply proxy_csrattrs_behind|idtac];
    left; by eapply tq_send_error.
Qed.

(** The operation a request runs that involves the upstream server. *)
Definition proxy_guard (method uri : bytes) (body ct : option bytes) (w w1 : world) : Prop :=
  est_mode (w_ctx w) = EST_PROXY /\
  exists ssl op seg wa wb,
    conn_ssl (w_conn w) = Some ssl /\
    request_uri ENABLE_BRSKI uriparser uri wa = Some ((EST_ERR_NONE, op, seg), wb) /\
    proxy_admits ssl op method body ct w w1.

(** C23. A request makes the proxy contact its upstream server, or ask the application
    for credentials, only behind a point of the run at which: the context is a
    proxy's, the path is that of an EST operation and the method is the operation's;
    for the CA certificates there are none of the proxy itself; and for an enrollment
    the content type is exactly that of a PKCS10 request, the client has been
    authorised, and the body is a CSR with a valid self-signature that proves
    possession of the TLS session, without an exception for registration authorities.
    A request that fails one of these touches neither the upstream server nor the
    credentials. *)
Theorem est_proxy_http_request_guarded method uri body ct w rc w' :
  est_proxy_http_request ENABLE_BRSKI uriparser EST_VER_STRING malloc_junk method uri body ct w
    = Some (rc, w') ->
  behind (proxy_guard method uri body ct w) w w'.
Proof.
  unfold est_proxy_http_request. intros H. run_inv H as ctx w1 E1. injection E1 as <- <-.
  case_bool_decide as Hm; cbn [negb] in H; [|apply ret_some in H as [_ <-]; by left].
  run_inv H as conn w1 E1. injection E1 as <- <-.
  destruct (conn_ssl (w_conn w)) as [ssl|] eqn:Es.
  2: { left. by eapply tq_send_error. }
  run_inv H as u w1 E1. assert (F1 := frame_endpoint_event _ _ _ _ _ _ E1).
  run_inv H as r w2 E2. assert (F2 := frame_request_uri _ _ _ _ _ _ E2). destruct r as [[rv op] seg].
  assert (F : frame quiet w w2) by by etransitivity. apply (behind_frame _ _ _ _ F).
  case_bool_decide as Hrv; cbn [negb] in H; [subst rv|].
  2: { left. by eapply tq_send_error. }
  run_inv H as fl w3 E3. apply dispatch_behind in E3.
  assert (T : tq w3 w').
  { destruct fl; [apply ret_some in H as [_ <-]; reflexivity|].
    run_inv H as v w4 E4. apply ret_some in H as [_ <-]. by eapply frame_tq, frame_endpoint_event. }
  eapply behind_then; [|exact T]. eapply behind_impl; [|exact E3].
  intros w4 A. split; [done|]. exists ssl, op, seg, w1, w2. do 2 (split; [done|]).
  by eapply proxy_admits_lift.
Qed.

End Props.
