(* ===== verification/ProxyExchangeProps.v ===== *)
(** * ProxyExchangeProps: the proxy between a client and a server

    The answers of the proxy to its own client: for a certificate that the upstream
    server sent, the bytes the server itself would have sent; for an error the HTTP
    status of the error; and what a key generation answer looks like.

    A proxy as a state machine: it is created by [est_proxy_init]; its steps are the
    calls of the application and the requests of its clients, on any of its threads. The
    array of client contexts is well-formed in every state it reaches. *)

From stdpp Require Import gmap.
From S2P Require Import Prelude.
From S2P Require Import SafeC.
From S2P Require Import EstTypes.
From S2P Require Import EstState.
From S2P Require Import EstUtil.
From S2P Require Import EstUtilFacts.
From S2P Require Import HttpParse.
From S2P Require Import HttpIO.
From S2P Require Import ServerAuth.
From S2P Require Import ServerCsr.
From S2P Require Import ServerEnroll.
From S2P Require Import ServerDispatch.
From S2P Require Import ServerConfig.
From S2P Require Import ClientHost.
From S2P Require Import ClientHttp.
From S2P Require Import ClientRequest.
From S2P Require Import Client.
From S2P Require Import ClientConfig.
From S2P Require Import ProxyCtx.
From S2P Require Import Proxy.
From S2P Require Import EstLogic.
From S2P Require Import HttpIOFacts.
From S2P Require Import HttpParseProps.
From S2P Require Import ServerResponseProps.
From S2P Require Import ClientFacts.
From S2P Require Import ClientProps.
From S2P Require Import ClientHttpProps.
From S2P Require Import ClientExchangeProps.
From S2P Require Import ProxyFacts.
From S2P Require Import ProxyCtxProps.
From S2P Require Import ProxyProps.
From S2P Require Import EnhCertAuth.
From S2P Require Import ProxyConfig.

(** ** The header of the answer *)

Lemma hdr_line_fits hdr t : Z.of_nat (length t) < EST_HTTP_HDR_MAX -> hdr_line hdr t = hdr ++ t.
Proof. apply snprintf_at_fits. Qed.

(** The header under which the proxy passes a certificate on is that of the server. *)
Lemma proxy_pkcs7_hdr_server n : 0 <= n -> proxy_pkcs7_hdr n = hdr_200 EST_HTTP_CT_PKCS7_CO n.
Proof.
  intros Hn. assert (Hd := fmt_d_length n Hn). rewrite hdr_200_eq by (done || (simpl; lia)).
  unfold proxy_pkcs7_hdr. rewrite (hdr_line_fits []) by done. cbn [app].
  rewrite (hdr_line_fits _ (EST_HTTP_HDR_CT ++ _)), (hdr_line_fits _ (EST_HTTP_HDR_CE ++ _)) by done.
  rewrite hdr_line_fits
    by (rewrite !length_app; unfold EST_HTTP_HDR_MAX; change (length EST_HTTP_HDR_CL) with 14%nat;
        change (length (lit ": ")) with 2%nat; change (length crlf) with 2%nat; lia).
  unfold field. by rewrite <- !app_assoc.
Qed.

Section Exchange.
Context {L : OpenSSL}.
Variable ENABLE_BRSKI : bool.
Variable uriparser : option (bytes -> option (list UriPathSegment)).
Variable EST_VER_STRING : bytes.
Variable malloc_junk : nat -> bytes.

(** ** One exchange with the upstream server *)

(** A connection attempt that succeeds, over which [chunks] are answered. *)
Record answering (s : SSL) (chunks : list bytes) (rest : list read_result) (k : connection) : Prop := {
  an_tcw : cn_tcw k = TCW_OK;
  an_keepalive : cn_keepalive k = true;
  an_bio : cn_bio k = true;
  an_ssl_new : cn_ssl_new k = true;
  an_ssl : cn_ssl k = Some s;
  an_write : cn_write k = None;
  an_reads : cn_reads k = map R_data chunks ++ R_none :: rest;
  an_chunks : Forall (fun c => c <> []) chunks
}.

(** The server's certificate is accepted for the configured name. *)
Definition accepted_server (s : SSL) (c : EST_CTX) : Prop :=
  forall w, w_ctx w = set_client (set_tcw_sock_connected true (client c)) c -> w_alloc w = [] ->
    est_client_check_fqdn s w = Some (EST_ERR_NONE, w).

(** The world of an open connection. *)
Definition connected (k : connection) (more : list connection) (w : world) : world :=
  let cl := client (w_ctx w) in
  set_w_ctx (set_client (set_tcw_sock_connected true cl) (w_ctx w))
    (set_w_net (Build_network more (net_rand (w_net w)) (cn_write k) (cn_reads k) (cn_peek k))
       (set_w_trace (w_trace w ++ [EvConnect (connect_opts cl) (est_server cl) (est_port_num cl)]) w)).

Lemma connect_run s chunks rest k more w :
  net_conns (w_net w) = k :: more -> answering s chunks rest k -> accepted_server s (w_ctx w) ->
  w_alloc w = [] ->
  est_client_connect w = Some ((EST_ERR_NONE, Some s), connected k more w).
Proof.
  intros Hk [Ht Hka Hb Hn Hs Hw Hr Hc] Hok Ha. unfold est_client_connect, next_connection.
  unfold mbind, M_bind, get_client, get_net, emit. cbn [w_net set_w_trace]. rewrite Hk. cbn.
  rewrite Ht, Hka, Hb, Hn, Hs. cbn.
  match goal with |- context [est_client_check_fqdn s ?w1] => change w1 with (connected k more w) end.
  rewrite Hok by done. done.
Qed.

Lemma upstream_disconnect_run s w : tcw_sock_connected (client (w_ctx w)) = true ->
  est_client_disconnect (Some s) w
  = Some (tt, set_w_ctx (set_client (set_tcw_sock_connected false
                          (set_sess (Some (SSL_get1_session s)) (client (w_ctx w)))) (w_ctx w))
                (set_w_trace (w_trace w ++ [EvDisconnect]) w)).
Proof. intros H. unfold est_client_disconnect, mbind, M_bind. cbn. rewrite H. done. Qed.

(** What an exchange leaves of the world around the client context. *)
Definition exchanged (k : connection) (cl : EST_CLIENT_CTX) (wire : bytes) (w w' : world) : Prop :=
  w_trace w' = w_trace w ++ [EvConnect (connect_opts cl) (est_server cl) (est_port_num cl);
                             EvClientWrite wire; EvDisconnect] /\
  w_conn w' = w_conn w /\ w_ssl_write w' = w_ssl_write w /\ w_alloc w' = [] /\
  w_proxy w' = w_proxy w.

Lemma enroll_exchange (re : bool) csr s chunks rest k more cert w :
  let cl := client (w_ctx w) in
  let op := if re then EST_OP_SIMPLE_REENROLL else EST_OP_SIMPLE_ENROLL in
  let operation := if re then EST_SIMPLE_REENROLL else EST_SIMPLE_ENROLL in
  let answer := hdr_200 EST_HTTP_CT_PKCS7_CO (Z.of_nat (length cert)) ++ cert in
  plain_client EST_VER_STRING cl -> fitting EST_VER_STRING cl operation csr [] ->
  auth_mode (w_ctx w) = AUTH_NONE -> w_alloc w = [] ->
  net_conns (w_net w) = k :: more -> answering s chunks rest k -> accepted_server s (w_ctx w) ->
  concat chunks = answer ->
  cert <> [] -> ~ In (rd cert 0) crlf -> Z.of_nat (length cert) <= EST_MAX_CLIENT_CERT_LEN ->
  Z.of_nat (length answer) < EST_CA_MAX ->
  exists w', est_proxy_send_enroll_request ENABLE_BRSKI EST_VER_STRING malloc_junk csr re w
    = Some (Build_enroll_rsp EST_ERR_NONE (Some cert) None, w')
    /\ exchanged k cl (wire_text EST_VER_STRING cl operation csr []) w w'.
Proof.
  intros cl op operation answer Hc Hf Hm Ha Hk Hans Hok Hcat Hne Hhd Hmax Hlen.
  unfold est_proxy_send_enroll_request, upstream_request.
  rewrite (bind_run _ _ _ _ _ (connect_run s chunks rest k more w Hk Hans Hok Ha)). cbn match.
  unfold est_client_send_enroll_request. fold op.
  set (w1 := connected k more w).
  assert (Hop : enroll_operation op operation) by (destruct re; constructor).
  assert (Hsend := send_enroll_wire EST_VER_STRING ENABLE_BRSKI malloc_junk false op operation csr [] w1 w1).
  cbv zeta in Hsend. unfold mbind at 1, M_bind at 1.
  rewrite Hsend; [|by destruct re|done|by destruct Hc|exact added_none|by destruct Hf
                  |apply adds_nothing; [done|done|apply Hans]|done].
  clear Hsend. set (w2 := after_request _ w1). unfold receive.
  rewrite (proj2 (bool_decide_eq_false (op = EST_OP_SERVER_KEYGEN)) ltac:(by destruct re)).
  assert (Hdel : delivers w2 chunks rest) by (split; apply Hans).
  assert (Hplain : plain_operation op EST_HTTP_CT_PKCS7_CO) by (destruct re; constructor).
  assert (Hrsp := response_received ENABLE_BRSKI malloc_junk op EST_HTTP_CT_PKCS7_CO cert chunks rest w2
                    Hplain Hne Hhd Hlen Hcat Hdel Ha).
  rewrite (bind_run _ _ _ _ _ Hrsp). cbn [rsp_rv]. rewrite bool_decide_eq_true_2 by done.
  assert (Htake : take_enroll_rsp malloc_junk
            (Build_io_response EST_ERR_NONE None 0 (Some cert) (Z.of_nat (length cert))) op
          = Build_enroll_rsp EST_ERR_NONE (Some cert) None).
  { unfold take_enroll_rsp. cbn [rsp_cert_len rsp_cert].
    rewrite (proj2 (Z.eqb_neq _ _)) by (destruct cert; [done|simpl; lia]).
    rewrite Z.gtb_ltb, (proj2 (Z.ltb_ge _ _)) by lia.
    by rewrite (proj2 (bool_decide_eq_false (op = EST_OP_SERVER_KEYGEN)) ltac:(by destruct re)). }
  rewrite Htake. unfold mret at 1, M_ret at 1. set (w3 := after_response rest w2).
  rewrite (bind_run _ _ _ _ _ (upstream_disconnect_run s w3 eq_refl)).
  eexists. split; [reflexivity|]. split_and!; try done. cbn. by rewrite <- !app_assoc.
Qed.

(** ** An enrollment passed on *)

Lemma with_client_exec {A} a (m : M A) c w r w1 :
  ctx_at a w = Some c -> m (set_w_ctx c w) = Some (r, w1) ->
  with_client a m w = Some (r, set_w_proxy (set_client_ctxs (<[a := w_ctx w1]> (client_ctxs (w_proxy w1)))
                                              (w_proxy w1)) (set_w_ctx (w_ctx w) w1)).
Proof.
  intros Hc Hm. unfold with_client, in_ctx. unfold mbind, M_bind, get_proxy. unfold ctx_at in Hc.
  rewrite Hc, Hm. done.
Qed.

(** Steps on the client context that nobody outside sees. *)
Definition aside (a : nat) (w w' : world) : Prop :=
  w_trace w' = w_trace w /\ w_ssl_write w' = w_ssl_write w
  /\ transport_mode (w_ctx w') = transport_mode (w_ctx w) /\ is_Some (ctx_at a w').

Lemma client_aside {A} a (m : M A) (r : EST_CTX -> A) (f : EST_CTX -> EST_CTX) w :
  (forall w, m w = Some (r (w_ctx w), set_w_ctx (f (w_ctx w)) w)) -> is_Some (ctx_at a w) ->
  exists v w', with_client a m w = Some (v, w') /\ aside a w w'.
Proof.
  intros Hm [c Hc]. do 2 eexists. split; [by eapply with_client_exec; [exact Hc|apply Hm]|].
  do 3 (split; [done|]). exists (f c). unfold ctx_at in *. cbn.
  by apply list_lookup_insert_eq, (lookup_lt_Some _ _ c).
Qed.

Lemma copy_retry_after_aside a w : is_Some (ctx_at a w) ->
  exists w', copy_retry_after a w = Some (tt, w') /\ aside a w w'.
Proof.
  intros Hc. destruct (client_aside a get_ctx (fun c => c) (fun c => c) w) as (c & w1 & E & Hs); [|done|].
  { by intros []. }
  unfold copy_retry_after. rewrite (bind_run _ _ _ _ _ E). eexists. by split.
Qed.

Lemma attempt_again_aside a rv w : rv <> EST_ERR_AUTH_FAIL -> is_Some (ctx_at a w) ->
  exists w', attempt_again a rv w = Some (false, w') /\ aside a w w'.
Proof.
  intros Hrv Hc. destruct (client_aside a get_ctx (fun c => c) (fun c => c) w) as (c & w1 & E & Hs); [|done|].
  { by intros []. }
  unfold attempt_again. rewrite (bind_run get_ctx _ w (w_ctx w) w) by done.
  rewrite (bind_run _ _ _ _ _ E). rewrite bool_decide_eq_false_2 by done. eexists. by split.
Qed.

Lemma filled_none b : filled b None = b.
Proof. by destruct b. Qed.

(** An attempt that does not end with a challenge is the only one. *)
Lemma proxy_attempts_once a request c w rsp w1 : ctx_at a w = Some c ->
  request (set_w_ctx c w) = Some (rsp, w1) -> w_proxy w1 = w_proxy w ->
  er_rv rsp <> EST_ERR_AUTH_FAIL ->
  exists w', proxy_attempts a request w = Some ((upstream_error (er_rv rsp), er_pkcs7 rsp, er_key rsp), w')
    /\ w_trace w' = w_trace w1 /\ w_ssl_write w' = w_ssl_write w1
    /\ transport_mode (w_ctx w') = transport_mode (w_ctx w).
Proof.
  intros Hc Hr Hp Hrv. unfold proxy_attempts.
  assert (E1 := with_client_exec _ _ _ _ _ _ Hc Hr). set (w2 := set_w_proxy _ _) in E1.
  assert (Hc2 : is_Some (ctx_at a w2)).
  { exists (w_ctx w1). unfold ctx_at, w2 in *. cbn. rewrite Hp.
    by apply list_lookup_insert_eq, (lookup_lt_Some _ _ c). }
  destruct (copy_retry_after_aside a w2 Hc2) as (w3 & E3 & T3 & S3 & M3 & Hc3).
  destruct (attempt_again_aside a (er_rv rsp) w3 Hrv Hc3) as (w4 & E4 & T4 & S4 & M4 & Hc4).
  destruct (client_aside a (upd_ctx (set_auth_mode AUTH_NONE)) (fun _ => tt) (set_auth_mode AUTH_NONE) w4)
    as (u & w5 & E5 & T5 & S5 & M5 & _); [done..|].
  cbn [try_again]. erewrite bind_run.
  2:{ rewrite (bind_run _ _ _ _ _ E1), (bind_run _ _ _ _ _ E3), (bind_run _ _ _ _ _ E4). done. }
  rewrite (bind_run _ _ _ _ _ E5). eexists. split.
  - by rewrite !filled_none.
  - split_and!; [by rewrite T5, T4, T3|by rewrite S5, S4, S3|by rewrite M5, M4, M3].
Qed.

(** The context of a thread that has one. *)
Lemma get_client_ctx_found w c : well_formed (w_proxy w) -> 0 < cur_threadid (w_proxy w) ->
  thread_ctxs (w_proxy w) !! cur_threadid (w_proxy w) = Some c ->
  exists a, get_client_ctx ENABLE_BRSKI uriparser w = Some (Some a, w) /\ ctx_at a w = Some c.
Proof.
  intros [arr Hok] Hid Hc. destruct (find_thread _ _ w _ Hok Hid) as (f & Hf & Hs).
  unfold get_client_ctx. do 2 (erewrite bind_run by done). rewrite (ok_array _ _ Hok).
  rewrite (bind_run _ _ _ _ _ Hf). rewrite (thread_ctxs_lookup _ arr) in Hc by apply Hok.
  destruct f as [i|]; [|by rewrite Hs in Hc].
  destruct Hs as (a & Ha & Ht). exists a. rewrite Ht in Hc. split; [by rewrite Ha|exact Hc].
Qed.

Lemma hdr_200_sendable ct n : (length ct <= 100)%nat -> 0 <= n ->
  0 < Z.of_nat (length (hdr_200 ct n)) <= 300.
Proof.
  intros Hct Hn. rewrite hdr_200_eq by done. assert (Hd := fmt_d_length _ Hn). unfold field.
  rewrite !length_app.
  change (length EST_HTTP_HDR_200_RESP) with 15%nat. change (length EST_HTTP_HDR_STAT_200) with 14%nat.
  change (length EST_HTTP_HDR_CT) with 12%nat. change (length EST_HTTP_HDR_CE) with 25%nat.
  change (length EST_HTTP_HDR_CL) with 14%nat. change (length EST_HTTP_CE_BASE64) with 6%nat.
  change (length (lit ": ")) with 2%nat. change (length crlf) with 2%nat. lia.
Qed.

Lemma enroll_response_written rv cert w :
  cert <> [] -> Z.of_nat (length cert) <= 2 ^ 20 -> transport_mode (w_ctx w) = EST_HTTP ->
  w_ssl_write w = [] ->
  proxy_enroll_response rv (Some cert) true w
  = Some ((EST_ERR_NONE, Some cert),
          written w [hdr_200 EST_HTTP_CT_PKCS7_CO (Z.of_nat (length cert)); cert]).
Proof.
  intros Hne Hmax Ht Hs. unfold proxy_enroll_response. rewrite (bind_run get_ctx _ w (w_ctx w) w) by done.
  destruct cert as [|x cert]; [done|]. cbn [negb]. rewrite Ht. unfold est_proxy_propagate_pkcs7.
  rewrite proxy_pkcs7_hdr_server by lia. erewrite bind_run; [reflexivity|].
  apply send_200_written; [done| |split; [simpl length|]; unfold INT_MAX; lia].
  assert (Hh := hdr_200_sendable EST_HTTP_CT_PKCS7_CO (Z.of_nat (length (x :: cert))) ltac:(simpl; lia) ltac:(lia)).
  split; [lia|]. etrans; [apply Hh|done].
Qed.

(** C24. The proxy is transparent for certificates of a libest server.  When a thread that
    has a client context already passes an enrollment or re-enrollment that names no path
    segment on ([forward_enroll], what follows the checks of the request), over HTTP and
    with memory available, and the upstream server, whose certificate is accepted, answers
    without asking for credentials, with the very 200 header libest writes and a
    certificate that is not empty, not longer than EST_MAX_CLIENT_CERT_LEN and does not
    start with a line end, in whatever pieces, then the proxy writes exactly that answer
    to its client, byte for byte, after one exchange in which it sent the CSR unchanged in
    a request that the server understands (the text of [enroll_request_served]) without
    credentials.  (The header of another server is not passed on: the proxy writes its
    own.) *)
Theorem proxy_enroll_transparent (re : bool) csr c s chunks rest k more cert w :
  let cl := client c in
  let operation := if re then EST_SIMPLE_REENROLL else EST_SIMPLE_ENROLL in
  let header := hdr_200 EST_HTTP_CT_PKCS7_CO (Z.of_nat (length cert)) in
  well_formed (w_proxy w) -> 0 < cur_threadid (w_proxy w) ->
  thread_ctxs (w_proxy w) !! cur_threadid (w_proxy w) = Some c ->
  plain_client EST_VER_STRING cl -> fitting EST_VER_STRING cl operation csr [] -> auth_mode c = AUTH_NONE ->
  transport_mode (w_ctx w) = EST_HTTP -> uri_path_segment (client (w_ctx w)) = None ->
  w_alloc w = [] -> w_ssl_write w = [] ->
  net_conns (w_net w) = k :: more -> answering s chunks rest k -> accepted_server s c ->
  concat chunks = header ++ cert -> cert <> [] -> ~ In (rd cert 0) crlf ->
  Z.of_nat (length cert) <= EST_MAX_CLIENT_CERT_LEN ->
  exists w', forward_enroll ENABLE_BRSKI uriparser EST_VER_STRING malloc_junk (Some csr) None re true w
      = Some ((EST_ERR_NONE, Some cert), w') /\
    w_trace w' = w_trace w ++
      [EvConnect (connect_opts cl) (est_server cl) (est_port_num cl);
       EvClientWrite (wire_text EST_VER_STRING cl operation csr []); EvDisconnect;
       EvWrite header; EvWrite cert].
Proof.
  intros cl operation header Hwf Hid Ht Hp Hf Hm Htr Hseg Ha Hs Hk Hans Hok Hcat Hne Hhd Hmax.
  assert (Hhl := hdr_200_sendable EST_HTTP_CT_PKCS7_CO (Z.of_nat (length cert)) ltac:(simpl; lia) ltac:(lia)).
  fold header in Hhl.
  assert (Hlen : Z.of_nat (length (header ++ cert)) < EST_CA_MAX).
  { rewrite length_app. unfold EST_CA_MAX, EST_MAX_CLIENT_CERT_LEN in *. lia. }
  destruct (get_client_ctx_found _ _ Hwf Hid Ht) as (a & Eg & Hc).
  unfold forward_enroll, proxy_client, forward_path_seg.
  erewrite bind_run.
  2:{ rewrite (bind_run _ _ _ _ _ Eg). rewrite (bind_run _ _ w EST_ERR_NONE w); [done|].
      unfold mbind, M_bind, get_ctx. by rewrite Hseg. }
  cbn beta match. rewrite bool_decide_eq_true_2 by done. cbn [negb].
  rewrite (bind_run alloc _ w true w) by (unfold alloc; by rewrite Ha). cbn [negb default from_option id].
  destruct (enroll_exchange re csr s chunks rest k more cert (set_w_ctx c w)) as (w1 & E1 & T1 & _ & S1 & _ & P1);
    try done.
  destruct (proxy_attempts_once a _ c w _ _ Hc E1 P1) as (w2 & E2 & T2 & S2 & M2); [done|].
  rewrite (bind_run _ _ _ _ _ E2). cbn [er_rv er_pkcs7 er_key upstream_error].
  rewrite enroll_response_written; [|done|unfold EST_MAX_CLIENT_CERT_LEN in *; lia|congruence|by rewrite S2, S1].
  eexists. split; [done|]. unfold written. cbn. rewrite T2, T1. by rewrite <- app_assoc.
Qed.

(** ** The status of a refused request *)

(** What the client of the proxy is told for an error of the upstream exchange. *)
Definition gateway_status (rv : EST_ERROR) : Z :=
  match rv with
  | EST_ERR_IP_GETADDR | EST_ERR_IP_CONNECT | EST_ERR_SSL_READ => 504
  | EST_ERR_SSL_CONNECT | EST_ERR_FQDN_MISMATCH | EST_ERR_SSL_WRITE | EST_ERR_ZERO_LENGTH_BUF
  | EST_ERR_MULTIPART_PARSE | EST_ERR_UNKNOWN | EST_ERR_BUF_EXCEEDS_MAX_LEN
  | EST_ERR_HTTP_UNSUPPORTED => 502
  | EST_ERR_HTTP_BAD_REQ => 400
  | EST_ERR_HTTP_NO_CONTENT => 204
  | EST_ERR_HTTP_NOT_FOUND => 404
  | EST_ERR_HTTP_LOCKED => 423
  | EST_ERR_AUTH_FAIL => 401
  | EST_ERR_CA_ENROLL_RETRY => 202
  | _ => 500
  end.

Lemma gateway_error_status rv s : rv <> EST_ERR_NONE -> error_status (upstream_error rv) s ->
  s = gateway_status rv \/ rv = EST_ERR_CA_ENROLL_RETRY /\ s = 500.
Proof.
  intros Hrv [H|[H Hs]].
  - subst s. destruct rv; try (by left); by right.
  - left. subst s. by destruct rv.
Qed.

(** The status left by a handler that refused; three checks of the dispatcher send one
    error and return another. *)
Definition proxy_refused (rc : EST_ERROR) (s : Z) : Prop :=
  error_status rc s \/ In rc [EST_ERR_BAD_CONTENT_TYPE; EST_ERR_BAD_CONTENT_LEN] /\ s = 400.

Lemma fail_as_status sent rc w fl w' : sent = EST_ERR_BAD_PKCS10 ->
  fail_as sent rc w = Some (fl, w') -> fl = Return rc /\ status_code (w_conn w') = 400.
Proof.
  intros -> H. unfold fail_as in H. run_inv H as u w1 E. apply ret_some in H as [<- <-]. split; [done|].
  by apply send_error_status in E as [->|[? _]].
Qed.

Lemma refused_not_none rc : refused rc = true -> rc <> EST_ERR_NONE.
Proof. by intros H ->. Qed.

Lemma proxy_dispatch_status ssl peer op method body ct seg w rc w' :
  proxy_dispatch ENABLE_BRSKI uriparser EST_VER_STRING malloc_junk ssl peer op method body ct seg w
    = Some (Return rc, w') ->
  rc <> EST_ERR_NONE -> proxy_refused rc (status_code (w_conn w')).
Proof.
  assert (Hfail : forall e w1, fail_with e w1 = Some (Return rc, w') -> proxy_refused rc (status_code (w_conn w'))).
  { intros e w1 H. apply fail_with_status in H as [[= ->] H]. by left. }
  assert (Hret : forall {A} (m : M A) w1, (m ≫= fun _ => mret Continue) w1 = Some (Return rc, w') -> False).
  { intros A m w1 H. run_inv H as u w2 E. by apply ret_some in H as [? _]. }
  unfold proxy_dispatch. intros H _.
  assert (Henroll : proxy_enroll ENABLE_BRSKI uriparser EST_VER_STRING malloc_junk ssl peer op method
                      body ct seg w = Some (Return rc, w') -> proxy_refused rc (status_code (w_conn w'))).
  { clear H. unfold proxy_enroll. intros H. head_if H; [by eapply Hfail|].
    head_if H; [apply fail_as_status in H as [[= ->] ->]; [|done]; right; split; [simpl; tauto|done]|].
    head_if H; [apply fail_as_status in H as [[= ->] ->]; [|done]; right; split; [simpl; tauto|done]|].
    head_if H.
    - unfold proxy_keygen_handler in H. run_inv H as e w1 E1x. run_inv H as r w2 E2x.
      destruct r as [[rc1 cert] key]. head_if H; [by eapply Hfail|]. by apply Hret in H.
    - unfold proxy_enroll_handler in H. cbv zeta in H. run_inv H as e w1 E1x. run_inv H as r w2 E2x.
      destruct r as [rc1 cert]. run_inv H as e' w3 E3x. head_if H; [by eapply Hfail|no_ret H]. }
  destruct op; try (by apply Henroll); try (by apply Hret in H).
  - unfold proxy_cacerts in H. head_if H; [by eapply Hfail|]. run_inv H as rc1 w1 E1x.
    head_if H; [by eapply Hfail|no_ret H].
  - unfold proxy_csrattrs in H. head_if H; [by eapply Hfail|]. run_inv H as r w1 E1x.
    destruct r as [rc1 d]. head_if H; [by eapply Hfail|no_ret H].
Qed.

(** ** The answer of the upstream server *)

(** What the client of the proxy asks for, for the authentication. *)
Definition enroll_req_type (op : EST_OPERATION) : EST_ENROLL_REQ_TYPE :=
  match op with
  | EST_OP_SIMPLE_REENROLL => REENROLL_REQ
  | EST_OP_SERVER_KEYGEN => SERVERKEYGEN_REQ
  | _ => SIMPLE_ENROLL_REQ
  end.

(** The part of a request before the upstream server is asked: the client context that
    will ask it and whether there is a buffer for a key, unless the request ends here. *)
Definition enroll_ready (op : EST_OPERATION) (ssl : SSL) (body ct seg : option bytes)
    : M (option (EST_OPERATION * nat * bool)) :=
  _ ← est_invoke_enroll_req_event_cb (SSL_get_peer_certificate ssl) body seg (enroll_req_type op);
  rv ← proxy_checks ssl ct body seg (enroll_req_type op);
  if negb (bool_decide (rv = EST_ERR_NONE)) then mret None else
  '(rv, a) ← proxy_client ENABLE_BRSKI uriparser seg;
  if negb (bool_decide (rv = EST_ERR_NONE)) then mret None else
  ok ← alloc;
  if bool_decide (op = EST_OP_SERVER_KEYGEN) then key ← alloc; mret (Some (op, a, key))
  else mret (if (ok : bool) then Some (op, a, false) else None).

Definition client_ready (op : EST_OPERATION) (seg : option bytes)
    : M (option (EST_OPERATION * nat * bool)) :=
  '(rv, a) ← proxy_client ENABLE_BRSKI uriparser seg;
  mret (if bool_decide (rv = EST_ERR_NONE) then Some (op, a, false) else None).

Definition dispatch_ready (ssl : SSL) (op : EST_OPERATION) (method : bytes) (body ct seg : option bytes)
    : M (option (EST_OPERATION * nat * bool)) :=
  match op with
  | EST_OP_CACERTS =>
      if negb (proxy_method method (lit "GET")) then mret None else
      ctx ← get_ctx;
      match ca_certs ctx with Some _ => mret None | None => client_ready op seg end
  | EST_OP_CSRATTRS =>
      if negb (proxy_method method (lit "GET")) then mret None else client_ready op seg
  | EST_OP_SIMPLE_ENROLL | EST_OP_SIMPLE_REENROLL | EST_OP_SERVER_KEYGEN =>
      if negb (proxy_method method (lit "POST")) then mret None
      else if negb (bool_decide (is_Some ct)) then mret None
      else if negb (bool_decide (is_Some body)) then mret None
      else enroll_ready op ssl body ct seg
  | _ => mret None
  end.

Definition upstream_ready (method uri : bytes) (body ct : option bytes)
    : M (option (EST_OPERATION * nat * bool)) :=
  conn ← get_conn;
  match conn_ssl conn with
  | None => mret None
  | Some ssl =>
      _ ← est_invoke_endpoint_req_event_cb (SSL_get_peer_certificate ssl) uri EST_ENDPOINT_REQ_START;
      '(rv, op, seg) ← request_uri ENABLE_BRSKI uriparser uri;
      if negb (bool_decide (rv = EST_ERR_NONE)) then mret None
      else dispatch_ready ssl op method body ct seg
  end.

(** What the client operation returned; an enrollment may be tried again after a
    challenge, and then it is the result of the second attempt. *)
Definition last_attempt (a : nat) (request : M enroll_rsp) : M EST_ERROR :=
  rsp ← with_client a request;
  _ ← copy_retry_after a;
  again ← attempt_again a (er_rv rsp);
  if again : bool then rsp2 ← with_client a request; mret (er_rv rsp2) else mret (er_rv rsp).

Definition upstream_answer (op : EST_OPERATION) (a : nat) (key : bool) (body : option bytes)
    : M EST_ERROR :=
  match op with
  | EST_OP_CACERTS =>
      '(rv, _) ← with_client a (est_client_get_cacerts ENABLE_BRSKI EST_VER_STRING malloc_junk true);
      mret rv
  | EST_OP_CSRATTRS =>
      '(rv, _) ← with_client a (est_client_get_csrattrs ENABLE_BRSKI EST_VER_STRING malloc_junk true);
      mret rv
  | EST_OP_SERVER_KEYGEN =>
      last_attempt a (est_proxy_send_keygen_request ENABLE_BRSKI EST_VER_STRING malloc_junk
                        (default [] body) key)
  | _ =>
      last_attempt a (est_proxy_send_enroll_request ENABLE_BRSKI EST_VER_STRING malloc_junk
                        (default [] body) (bool_decide (op = EST_OP_SIMPLE_REENROLL)))
  end.

(** The exchange failed.  That the server has no attributes is no failure for a proxy
    that adds the challengePassword. *)
Definition upstream_failed (op : EST_OPERATION) (rv : EST_ERROR) : Prop :=
  rv <> EST_ERR_NONE /\ ~ (op = EST_OP_CSRATTRS /\ rv = EST_ERR_HTTP_NO_CONTENT).

(** A buffer is filled by an exchange that succeeded. *)
Definition empty_unless_ok (buf : enroll_rsp -> option bytes) (request : M enroll_rsp) : Prop :=
  forall w rsp w', request w = Some (rsp, w') -> er_rv rsp <> EST_ERR_NONE -> buf rsp = None.

Lemma take_rsp_empty (buf : enroll_rsp -> option bytes) rsp op :
  (forall rv, buf (enroll_error rv) = None) -> buf = er_key \/ op <> EST_OP_SERVER_KEYGEN ->
  er_rv (take_enroll_rsp malloc_junk rsp op) <> EST_ERR_NONE -> buf (take_enroll_rsp malloc_junk rsp op) = None.
Proof.
  intros He Hb. unfold take_enroll_rsp. do 2 (destr_if; [by rewrite He|]). case_bool_decide; [|done].
  destruct Hb as [->|?]; [|done]. by do 2 (destr_if; [done|]).
Qed.

Lemma send_empty op (buf : enroll_rsp -> option bytes) csr key :
  (forall rv, buf (enroll_error rv) = None) -> buf = er_key \/ op <> EST_OP_SERVER_KEYGEN ->
  empty_unless_ok buf (upstream_request
    (est_client_send_enroll_request_internal ENABLE_BRSKI EST_VER_STRING malloc_junk csr key op)).
Proof.
  intros He Hb w rsp w' H Hrv. unfold upstream_request in H. run_inv H as c w1 E1.
  destruct c as [rv [s|]]; [|by apply ret_some in H as [<- _]].
  run_inv H as r w2 E2. run_inv H as u w3 E3. apply ret_some in H as [<- _].
  unfold est_client_send_enroll_request_internal in E2.
  head_if E2; [by apply ret_some in E2 as [<- _]|]. run_inv E2 as ok w4 F4.
  head_if E2; [by apply ret_some in E2 as [<- _]|]. run_inv E2 as h w5 F5. destruct h as [hdr n].
  head_if E2; [by apply ret_some in E2 as [<- _]|]. run_inv E2 as m w6 F6.
  head_if E2; [by apply ret_some in E2 as [<- _]|]. run_inv E2 as i w7 F7.
  apply ret_some in E2 as [<- _]. case_bool_decide; [|done]. by apply take_rsp_empty.
Qed.

(** The loop returns the translation of the last answer. *)
Lemma attempts_answer (buf : EST_ERROR * option bytes * option bytes -> option bytes)
    (rbuf : enroll_rsp -> option bytes) a request w r w' :
  (forall rv p k, buf (rv, p, k) = k) /\ rbuf = er_key \/ (forall rv p k, buf (rv, p, k) = p) /\ rbuf = er_pkcs7 ->
  empty_unless_ok rbuf request -> proxy_attempts a request w = Some (r, w') ->
  exists rv w2, last_attempt a request w = Some (rv, w2) /\ r.1.1 = upstream_error rv /\
    (rv <> EST_ERR_NONE -> buf r = None).
Proof.
  intros Hbuf Hr H. unfold proxy_attempts in H. run_inv H as r1 w1 E1. run_inv H as u w2 E2.
  apply ret_some in H as [<- <-]. clear E2 w2 u.
  assert (Hat : forall v rsp v', with_client a request v = Some (rsp, v') ->
            er_rv rsp <> EST_ERR_NONE -> rbuf rsp = None).
  { intros v rsp v' E. apply with_client_run in E as (c & v1 & _ & E & _). by eapply Hr. }
  assert (Hfill : forall rv rsp p k, rbuf rsp = None -> buf (rv, p, k) = None ->
            buf (rv, filled (er_pkcs7 rsp) p, filled (er_key rsp) k) = None).
  { intros rv rsp p k Hn Hpk. destruct Hbuf as [[Hb ->]|[Hb ->]]; rewrite Hb in *; by rewrite Hn. }
  assert (Hnone : forall rv, buf (rv, None, None) = None)
    by (intros rv; by destruct Hbuf as [[-> _]|[-> _]]).
  assert (Hrv : forall rv rv' p k, buf (rv, p, k) = buf (rv', p, k))
    by (intros; by destruct Hbuf as [[Hb _]|[Hb _]]; rewrite !Hb).
  cbn [try_again] in E1. unfold last_attempt.
  run_inv E1 as rsp w2 E2. run_inv E1 as u w3 E3. run_inv E1 as again w4 E4.
  rewrite (bind_run _ _ _ _ _ E2), (bind_run _ _ _ _ _ E3), (bind_run _ _ _ _ _ E4).
  assert (Hag : forall v rv b v', attempt_again a rv v = Some (b, v') -> b = true -> rv = EST_ERR_AUTH_FAIL).
  { intros v rv b v' E Hb. unfold attempt_again in E. run_inv E as x v1 F1. run_inv E as y v2 F2.
    apply ret_some in E as [<- _]. by b2p. }
  destruct again; [|apply ret_some in E1 as [<- <-]].
  - pose proof (Hag _ _ _ _ E4 eq_refl) as H1.
    assert (Hf : rbuf rsp = None) by (eapply Hat; [exact E2|by rewrite H1]).
    run_inv E1 as rsp2 w5 E5. run_inv E1 as u2 w6 E6. run_inv E1 as again w7 E7.
    rewrite (bind_run _ _ _ _ _ E5). exists (er_rv rsp2), w5. split; [done|].
    assert (Hfst : r1.1.1 = upstream_error (er_rv rsp2) /\
              buf r1 = buf (EST_ERR_NONE, filled (er_pkcs7 rsp2) (filled (er_pkcs7 rsp) None),
                              filled (er_key rsp2) (filled (er_key rsp) None))).
    { destruct again; apply ret_some in E1 as [<- <-]; (split; [|apply Hrv]); [|done].
      by rewrite (Hag _ _ _ _ E7 eq_refl). }
    destruct Hfst as [-> ->]. split; [done|]. intros Hne. apply Hfill; [by eapply Hat|by apply Hfill].
  - exists (er_rv rsp), w4. split; [done|]. split; [done|]. intros Hne. apply Hfill; [by eapply Hat|done].
Qed.

Lemma upstream_error_refused rv : rv <> EST_ERR_NONE -> refused (upstream_error rv) = true.
Proof. by destruct rv. Qed.

(** A request that reaches the upstream server, and the end of one whose exchange
    failed. *)
Definition answered (body : option bytes) (r : option (EST_OPERATION * nat * bool)) (w1 : world)
    (failed : EST_ERROR -> Prop) : Prop :=
  forall op a key, r = Some (op, a, key) ->
    exists rv w2, upstream_answer op a key body w1 = Some (rv, w2) /\ (upstream_failed op rv -> failed rv).

Lemma answered_none body w1 failed : answered body None w1 failed.
Proof. intros op a key H. discriminate H. Qed.

Lemma fail_with_return rc w fl w' : fail_with rc w = Some (fl, w') -> fl = Return rc.
Proof. unfold fail_with. intros H. run_inv H as u w1 E. by apply ret_some in H as [<- _]. Qed.

Lemma enroll_answered op ssl body ct seg w fl w' :
  op = EST_OP_SIMPLE_ENROLL \/ op = EST_OP_SIMPLE_REENROLL ->
  proxy_enroll_handler ENABLE_BRSKI uriparser EST_VER_STRING malloc_junk ssl (SSL_get_peer_certificate ssl)
    (bool_decide (op = EST_OP_SIMPLE_REENROLL)) body ct seg w = Some (fl, w') ->
  exists r w1, enroll_ready op ssl body ct seg w = Some (r, w1) /\
    answered body r w1 (fun rv => fl = Return (upstream_error rv)).
Proof.
  intros Hop H. unfold proxy_enroll_handler in H. cbv zeta in H.
  assert (Ht : (if bool_decide (op = EST_OP_SIMPLE_REENROLL) then REENROLL_REQ else SIMPLE_ENROLL_REQ)
               = enroll_req_type op) by (by destruct Hop as [->| ->]).
  assert (Hk : bool_decide (op = EST_OP_SERVER_KEYGEN) = false) by (by destruct Hop as [->| ->]).
  run_inv H as u w1 F1. run_inv H as r w2 F2. destruct r as [rc cert]. run_inv H as u2 w3 F3.
  unfold est_proxy_handle_simple_enroll in F2. rewrite Ht in F1, F2. run_inv F2 as rv w4 F4.
  unfold enroll_ready. rewrite (bind_run _ _ _ _ _ F1), (bind_run _ _ _ _ _ F4).
  destruct (negb (bool_decide (rv = EST_ERR_NONE))) eqn:Hrv; [do 2 eexists; split; [done|apply answered_none]|].
  unfold forward_enroll in F2. run_inv F2 as ra w5 F5. destruct ra as [rv5 a]. rewrite (bind_run _ _ _ _ _ F5).
  destruct (negb (bool_decide (rv5 = EST_ERR_NONE))) eqn:Hrv5; [do 2 eexists; split; [done|apply answered_none]|].
  run_inv F2 as ok w6 F6. rewrite (bind_run _ _ _ _ _ F6), Hk. exists (if ok then Some (op, a, false) else None), w6.
  split; [done|]. destruct ok; [|apply answered_none]. intros op' a' key [= <- <- <-].
  run_inv F2 as x w7 F7. destruct x as [[rv7 p] k].
  eapply (attempts_answer (fun r => r.1.2) er_pkcs7) in F7 as (rv0 & w8 & E & Hu & Hn); [|by right| ].
  2:{ apply send_empty; [done|right]. by destruct Hop as [->| ->]. }
  cbn [fst snd] in Hu, Hn. subst rv7. exists rv0, w8. split; [by destruct Hop as [->| ->]|].
  intros [Hne _]. rewrite Hn in F2 by done. unfold proxy_enroll_response in F2. run_inv F2 as ctx w9 F9.
  apply ret_some in F2 as [[= <- <-] <-]. rewrite upstream_error_refused in H by done. by apply fail_with_return in H.
Qed.

Lemma keygen_answered ssl body ct seg w fl w' :
  proxy_keygen_handler ENABLE_BRSKI uriparser EST_VER_STRING malloc_junk ssl (SSL_get_peer_certificate ssl)
    body ct seg w = Some (fl, w') ->
  exists r w1, enroll_ready EST_OP_SERVER_KEYGEN ssl body ct seg w = Some (r, w1) /\
    answered body r w1 (fun rv => fl = Return (upstream_error rv)).
Proof.
  intros H. unfold proxy_keygen_handler in H. run_inv H as u w1 F1. run_inv H as r w2 F2.
  destruct r as [[rc cert] key0]. unfold est_proxy_handle_server_keygen in F2. run_inv F2 as rv w4 F4.
  unfold enroll_ready. cbn [enroll_req_type]. rewrite (bind_run _ _ _ _ _ F1), (bind_run _ _ _ _ _ F4).
  destruct (negb (bool_decide (rv = EST_ERR_NONE))) eqn:Hrv; [do 2 eexists; split; [done|apply answered_none]|].
  unfold forward_keygen in F2. run_inv F2 as ra w5 F5. destruct ra as [rv5 a]. rewrite (bind_run _ _ _ _ _ F5).
  destruct (negb (bool_decide (rv5 = EST_ERR_NONE))) eqn:Hrv5; [do 2 eexists; split; [done|apply answered_none]|].
  run_inv F2 as ok w6 F6. run_inv F2 as kb w6' F6'. rewrite (bind_run _ _ _ _ _ F6).
  rewrite bool_decide_true by done. rewrite (bind_run _ _ _ _ _ F6'). do 2 eexists. split; [done|].
  intros op' a' key [= <- <- <-]. run_inv F2 as x w7 F7. destruct x as [[rv7 p] k].
  eapply (attempts_answer (fun r => r.2) er_key) in F7 as (rv0 & w8 & E & Hu & Hn); [|by left| ].
  2:{ apply send_empty; [done|by left]. }
  cbn [fst snd] in Hu, Hn. subst rv7. exists rv0, w8. split; [done|].
  intros [Hne _]. rewrite Hn in F2 by done. unfold proxy_keygen_response in F2. run_inv F2 as ctx w9 F9.
  assert (rc = upstream_error rv0) as ->.
  { destruct p as [[|? ?]|]; by apply ret_some in F2 as [[= <- _ _] _]. }
  rewrite upstream_error_refused in H by done. by apply fail_with_return in H.
Qed.

Lemma dispatch_answered ssl op method body ct seg w fl w' :
  proxy_dispatch ENABLE_BRSKI uriparser EST_VER_STRING malloc_junk ssl (SSL_get_peer_certificate ssl)
    op method body ct seg w = Some (fl, w') ->
  exists r w1, dispatch_ready ssl op method body ct seg w = Some (r, w1) /\
    answered body r w1 (fun rv => fl = Return (upstream_error rv)).
Proof.
  assert (Hnone : exists (r : option (EST_OPERATION * nat * bool)) w1, @mret M _ _ None w = Some (r, w1) /\
            answered body r w1 (fun rv => fl = Return (upstream_error rv)))
    by (exists None, w; split; [done|apply answered_none]).
  unfold proxy_dispatch, dispatch_ready. intros H. destruct op; try exact Hnone.
  all: unfold proxy_cacerts, proxy_csrattrs, proxy_enroll in H.
  all: destruct (negb (proxy_method method _)); try exact Hnone.
  - do 2 (destruct (negb (bool_decide _)); [exact Hnone|]). cbn in H. by apply (enroll_answered EST_OP_SIMPLE_ENROLL) in H; [|left].
  - do 2 (destruct (negb (bool_decide _)); [exact Hnone|]). cbn in H. by apply (enroll_answered EST_OP_SIMPLE_REENROLL) in H; [|right].
  - run_inv H as rc w1 F1. unfold est_proxy_handle_cacerts in F1. run_inv F1 as ctx w2 F2.
    injection F2 as <- <-. rewrite (bind_run get_ctx _ w (w_ctx w) w) by done.
    destruct (ca_certs (w_ctx w)); [exact Hnone|]. unfold client_ready.
    run_inv F1 as ra w3 F3. destruct ra as [rv3 a]. rewrite (bind_run _ _ _ _ _ F3). do 2 eexists. split; [done|].
    destruct (bool_decide (rv3 = EST_ERR_NONE)); cbn [negb] in F1; [|apply answered_none]. intros op' a' key [= <- <- <-].
    run_inv F1 as x w4 F4. destruct x as [rv d]. run_inv F1 as u w5 F5. exists rv, w4.
    split; [cbn [upstream_answer]; by rewrite (bind_run _ _ _ _ _ F4)|]. intros [Hne _].
    rewrite bool_decide_false in F1 by done. apply ret_some in F1 as [<- <-].
    rewrite bool_decide_false in H by (by destruct rv). by apply fail_with_return in H.
  - run_inv H as x w1 F1. destruct x as [rc d0]. unfold est_proxy_handle_csr_attrs in F1. unfold client_ready.
    run_inv F1 as ra w3 F3. destruct ra as [rv3 a]. rewrite (bind_run _ _ _ _ _ F3). do 2 eexists. split; [done|].
    destruct (bool_decide (rv3 = EST_ERR_NONE)); cbn [negb] in F1; [|apply answered_none]. intros op' a' key [= <- <- <-].
    run_inv F1 as x w4 F4. destruct x as [rv d]. run_inv F1 as u w5 F5. run_inv F1 as u6 w6 F6.
    run_inv F1 as ctx w7 F7. exists rv, w4.
    split; [cbn [upstream_answer]; by rewrite (bind_run _ _ _ _ _ F4)|]. intros [Hne Hno].
    rewrite bool_decide_false in F1 by done. rewrite (bool_decide_false (rv = EST_ERR_HTTP_NO_CONTENT)) in F1 by auto.
    apply ret_some in F1 as [[= <- <-] <-].
    rewrite bool_decide_false in H by (by destruct rv). by apply fail_with_return in H.
  - do 2 (destruct (negb (bool_decide _)); [exact Hnone|]). cbn in H. by apply keygen_answered in H.
Qed.

Lemma request_answered method uri body ct w rc w' :
  est_proxy_http_request ENABLE_BRSKI uriparser EST_VER_STRING malloc_junk method uri body ct w
    = Some (rc, w') -> est_mode (w_ctx w) = EST_PROXY ->
  exists r w1, upstream_ready method uri body ct w = Some (r, w1) /\
    answered body r w1 (fun rv => rc = upstream_error rv).
Proof.
  intros H Hm. unfold est_proxy_http_request in H. run_inv H as ctx w1 E1. injection E1 as <- <-.
  rewrite bool_decide_true in H by done. cbn [negb] in H.
  run_inv H as conn w1 E1. injection E1 as <- <-.
  unfold upstream_ready. rewrite (bind_run get_conn _ w (w_conn w) w) by done.
  destruct (conn_ssl (w_conn w)) as [ssl|]; [|do 2 eexists; split; [done|apply answered_none]].
  run_inv H as u w1 E1. run_inv H as r w2 E2. destruct r as [[rv op] seg].
  rewrite (bind_run _ _ _ _ _ E1), (bind_run _ _ _ _ _ E2).
  destruct (negb (bool_decide (rv = EST_ERR_NONE))); [do 2 eexists; split; [done|apply answered_none]|].
  run_inv H as fl w3 E3. apply dispatch_answered in E3 as (r & w4 & Er & Ha). exists r, w4.
  split; [exact Er|]. intros op' a key ->. destruct (Ha _ _ _ eq_refl) as (rv' & w5 & Eu & Hf).
  exists rv', w5. split; [exact Eu|]. intros Hr. rewrite (Hf Hr) in H. by apply ret_some in H as [<- _].
Qed.

Lemma request_refused method uri body ct w rc w' :
  est_proxy_http_request ENABLE_BRSKI uriparser EST_VER_STRING malloc_junk method uri body ct w
    = Some (rc, w') -> est_mode (w_ctx w) = EST_PROXY -> rc <> EST_ERR_NONE ->
  proxy_refused rc (status_code (w_conn w')).
Proof.
  intros H Hm Hrc.
  unfold est_proxy_http_request in H. run_inv H as ctx w1 E1. injection E1 as <- <-.
  rewrite bool_decide_true in H by done. cbn [negb] in H.
  run_inv H as conn w1 E1. injection E1 as <- <-. destruct (conn_ssl (w_conn w)) as [ssl|].
  - run_inv H as u w1 E1. run_inv H as r w2 E2. destruct r as [[rv op] seg].
    case_bool_decide as Hrv; cbn [negb] in H.
    + run_inv H as fl w3 E3. subst rv. destruct fl as [rc'|].
      * apply ret_some in H as [<- <-]. by eapply proxy_dispatch_status.
      * run_inv H as v w4 E4. by apply ret_some in H as [<- _].
    + run_inv H as v w4 E4. apply ret_some in H as [<- <-]. left. by eapply send_error_status.
  - run_inv H as v w4 E4. apply ret_some in H as [<- <-]. left. by eapply send_error_status.
Qed.

(** C29. A request the proxy refuses has been answered with the HTTP status of its error
    (400 for a request without a content type or a body).  A request that gets as far as
    the upstream server ([upstream_ready]), and whose exchange with it fails, ends with
    the status that the client's result stands for: 504 when the server could not be
    reached, 502 when the exchange failed, the server's own 400, 204, 404, 423, 401 or
    202, and 500 for anything else.  The result is the one of this very run, for all four
    operations and after the second attempt where there is one. *)
Theorem est_proxy_http_request_status method uri body ct w rc w' :
  est_proxy_http_request ENABLE_BRSKI uriparser EST_VER_STRING malloc_junk method uri body ct w
    = Some (rc, w') ->
  est_mode (w_ctx w) = EST_PROXY ->
  (rc <> EST_ERR_NONE -> proxy_refused rc (status_code (w_conn w'))) /\
  exists r w1, upstream_ready method uri body ct w = Some (r, w1) /\
    forall op a key, r = Some (op, a, key) ->
      exists rv w2, upstream_answer op a key body w1 = Some (rv, w2) /\
        (upstream_failed op rv ->
         status_code (w_conn w') = gateway_status rv \/
         rv = EST_ERR_CA_ENROLL_RETRY /\ status_code (w_conn w') = 500).
Proof.
  intros H Hm. split; [intros Hrc; by eapply request_refused|].
  destruct (request_answered _ _ _ _ _ _ _ H Hm) as (r & w1 & Er & Ha). exists r, w1. split; [exact Er|].
  intros op a key ->. destruct (Ha _ _ _ eq_refl) as (rv & w2 & Eu & Hf). exists rv, w2. split; [exact Eu|].
  intros Hfail. pose proof (Hf Hfail) as ->. destruct Hfail as [Hne _].
  assert (Hrc : upstream_error rv <> EST_ERR_NONE) by (by destruct rv).
  destruct (request_refused _ _ _ _ _ _ _ H Hm Hrc) as [Hs|[Hin _]]; [by apply gateway_error_status|].
  by destruct rv; simpl in Hin; intuition discriminate.
Qed.

(** ** The answer of a key generation *)

(** The header of the answer up to the empty line. *)
Definition proxy_keygen_head (n : Z) : bytes :=
  EST_HTTP_HDR_200 ++ crlf ++ EST_HTTP_HDR_STAT_200 ++ crlf
  ++ field EST_HTTP_HDR_CT (EST_HTTP_CT_MULTI_MIXED ++ lit "; boundary=" ++ EST_HTTP_BOUNDARY)
  ++ field EST_HTTP_HDR_CL (fmt_d n) ++ crlf.

(** What stands around the key and the certificate in the body. *)
Definition proxy_part (ct : bytes) : bytes :=
  field EST_HTTP_HDR_CT ct ++ field EST_HTTP_HDR_CE EST_HTTP_CE_BASE64 ++ crlf.

Definition proxy_keygen_body (key pkcs7 : bytes) : bytes :=
  [chr_lf] ++ boundary_line ++ crlf ++ proxy_part EST_HTTP_CT_PKCS8 ++ key
  ++ crlf ++ boundary_line ++ crlf ++ proxy_part EST_HTTP_CT_PKCS7_CO ++ pkcs7
  ++ crlf ++ boundary_line ++ lit "--" ++ crlf ++ crlf.

Lemma proxy_keygen_hdr_text a b : 0 <= a + b ->
  proxy_keygen_hdr a b
  = proxy_keygen_head (a + b) ++ [chr_lf] ++ boundary_line ++ crlf ++ proxy_part EST_HTTP_CT_PKCS8.
Proof.
  intros Hn. assert (Hd := fmt_d_length _ Hn). unfold proxy_keygen_hdr, proxy_part_hdr.
  assert (Hcl : forall h, hdr_line h (EST_HTTP_HDR_CL ++ lit ": " ++ fmt_d (a + b) ++ crlf ++ crlf)
                = h ++ EST_HTTP_HDR_CL ++ lit ": " ++ fmt_d (a + b) ++ crlf ++ crlf).
  { intros h. apply hdr_line_fits. rewrite !length_app. unfold EST_HTTP_HDR_MAX.
    change (length EST_HTTP_HDR_CL) with 14%nat. change (length (lit ": ")) with 2%nat.
    change (length crlf) with 2%nat. lia. }
  rewrite Hcl. rewrite !hdr_line_fits by done.
  unfold proxy_keygen_head, proxy_part, field. cbn [app]. by rewrite <- !app_assoc.
Qed.

Lemma proxy_keygen_parts_text key pkcs7 :
  concat (proxy_keygen_parts key pkcs7)
  = proxy_keygen_head (Z.of_nat (length key) + Z.of_nat (length pkcs7)) ++ proxy_keygen_body key pkcs7.
Proof.
  unfold proxy_keygen_parts. cbn [concat]. rewrite proxy_keygen_hdr_text by lia.
  unfold proxy_keygen_body, proxy_part_hdr. rewrite !hdr_line_fits by done. unfold proxy_part, field.
  rewrite ?app_nil_r, ?app_nil_l. by rewrite <- !app_assoc.
Qed.

Lemma proxy_keygen_parts_sendable key pkcs7 : sendable key -> sendable pkcs7 ->
  Forall sendable (proxy_keygen_parts key pkcs7).
Proof.
  intros Hk Hp. unfold proxy_keygen_parts.
  apply Forall_cons_2; [|apply Forall_cons_2; [done|apply Forall_cons_2; [done|apply Forall_cons_2;
    [done|apply Forall_cons_2; [done|apply Forall_cons_2; [done|apply Forall_nil_2]]]]]].
  rewrite proxy_keygen_hdr_text by lia. unfold proxy_keygen_head, field.
  assert (Hd := fmt_d_length (Z.of_nat (length key) + Z.of_nat (length pkcs7)) ltac:(lia)).
  split; [rewrite length_app; cbn; lia|]. rewrite !length_app. unfold INT_MAX. cbn. lia.
Qed.

(** The proxy announces a key generation answer that is shorter than the one it
    sends.  On a channel that accepts everything it writes a header whose
    Content-Length is the decimal number of the bytes of the key and of the
    certificate together; but the body that follows also holds the boundaries and the
    headers of the two parts, 246 bytes more for every key and certificate.  (The
    server of this library announces the length of the whole body.) *)
Theorem proxy_keygen_length key pkcs7 w :
  key <> [] -> pkcs7 <> [] -> Z.of_nat (length key) + Z.of_nat (length pkcs7) <= INT_MAX ->
  w_ssl_write w = [] ->
  exists cl head body w',
    est_proxy_propagate_keygen_rsp key pkcs7 w = Some (EST_ERR_NONE, w') /\
    w_trace w' = w_trace w ++ map EvWrite (proxy_keygen_parts key pkcs7) /\
    concat (proxy_keygen_parts key pkcs7) = head ++ field EST_HTTP_HDR_CL cl ++ crlf ++ body /\
    dec_value cl = Z.of_nat (length key) + Z.of_nat (length pkcs7) /\
    Z.of_nat (length body) = dec_value cl + 246.
Proof.
  intros Hk Hp Hmax Hw. set (n := Z.of_nat (length key) + Z.of_nat (length pkcs7)) in *.
  assert (Hv : dec_value (fmt_d n) = n) by (apply fmt_d_value; unfold INT_MAX in Hmax; lia).
  assert (Hb : Z.of_nat (length (proxy_keygen_body key pkcs7)) = n + 246).
  { unfold proxy_keygen_body. rewrite !length_app. subst n.
    repeat match goal with |- context [length (proxy_part ?c)] =>
      let v := eval vm_compute in (length (proxy_part c)) in
      change (length (proxy_part c)) with v end.
    change (length boundary_line) with 21%nat. change (length crlf) with 2%nat.
    change (length (lit "--")) with 2%nat. cbn [length]. lia. }
  assert (Hs : forall p, p <> [] -> Z.of_nat (length p) <= INT_MAX -> sendable p).
  { intros [|c p] Hne Hl; [done|]. split; [simpl length; lia|done]. }
  exists (fmt_d n), (EST_HTTP_HDR_200 ++ crlf ++ EST_HTTP_HDR_STAT_200 ++ crlf
    ++ field EST_HTTP_HDR_CT (EST_HTTP_CT_MULTI_MIXED ++ lit "; boundary=" ++ EST_HTTP_BOUNDARY)),
    (proxy_keygen_body key pkcs7), (written w (proxy_keygen_parts key pkcs7)).
  split_and!; [|done| |done|by rewrite Hv].
  - apply write_parts_written; [done|]. apply proxy_keygen_parts_sendable; apply Hs; (done || lia).
  - rewrite proxy_keygen_parts_text. unfold proxy_keygen_head. by rewrite <- !app_assoc.
Qed.

End Exchange.

Section States.
Context {L : OpenSSL}.
Variable ENABLE_BRSKI : bool.
Variable uriparser : option (bytes -> option (list UriPathSegment)).
Variable EST_VER_STRING : bytes.
Variable malloc_junk : nat -> bytes.

(** The calls of the application, and the request handler the web server calls. *)
Inductive proxy_call :=
| Call_request (method uri : bytes) (body ct : option bytes)
| Call_retrieve_cacerts
| Call_set_auth_mode (g : bool) (m : EST_HTTP_AUTH_MODE)
| Call_set_auth_cred_cb (cb : option cred_cb)
| Call_set_read_timeout (t : Z)
| Call_set_server (server : option bytes) (port : Z)
| Call_store_path_segment (seg : option bytes).

Definition ignore {A} (m : M A) : M unit := _ ← m; mret tt.

Definition run_call (c : proxy_call) : M unit :=
  match c with
  | Call_request method uri body ct =>
      ignore (est_proxy_http_request ENABLE_BRSKI uriparser EST_VER_STRING malloc_junk
                method uri body ct)
  | Call_retrieve_cacerts =>
      ignore (est_proxy_retrieve_cacerts ENABLE_BRSKI uriparser EST_VER_STRING malloc_junk)
  | Call_set_auth_mode g m => ignore (est_proxy_set_auth_mode g m)
  | Call_set_auth_cred_cb cb => ignore (est_proxy_set_auth_cred_cb cb)
  | Call_set_read_timeout t => ignore (est_proxy_set_read_timeout t)
  | Call_set_server s p => ignore (est_proxy_set_server s p)
  | Call_store_path_segment seg => ignore (est_proxy_store_path_segment ENABLE_BRSKI uriparser seg)
  end.

(** The states.  The allocation of the array is not checked by [est_proxy_init]; a
    proxy without it has no defined behaviour.  Between two calls the scheduler may run
    another thread, whose identity is not 0; and the connections, the memory and, by the
    calls that a proxy shares with the server, the settings of its own context may be
    others. *)
Inductive proxy_reachable : world -> Prop :=
| reach_init ca n resp rn pem realm cert key uid pwd w w' :
    est_proxy_init ca n resp rn pem realm cert key uid pwd w = Some (true, w') ->
    (0 < cur_max_ctx_array (w_proxy w))%nat -> 0 < cur_threadid (w_proxy w) ->
    client_ctx_array (w_proxy w') <> None -> proxy_reachable w'
| reach_call c w w' : proxy_reachable w -> run_call c w = Some (tt, w') -> proxy_reachable w'
| reach_thread id w : proxy_reachable w -> 0 < id ->
    proxy_reachable (set_w_proxy (set_cur_threadid id (w_proxy w)) w)
| reach_env w w' : proxy_reachable w -> w_proxy w' = w_proxy w -> proxy_reachable w'.

(** ** A new proxy *)

Lemma zero_nodes_used n : used_nodes (replicate n zero_node) = [].
Proof. induction n as [|n IH]; [done|exact IH]. Qed.

Lemma ok_zero px n : client_ctx_array px = Some (replicate n zero_node) -> cur_max_ctx_array px = n ->
  (0 < n)%nat -> ctxs_ok px (replicate n zero_node).
Proof.
  intros Ha Hm Hn. constructor; rewrite ?zero_nodes_used, ?Hm; try done.
  - apply length_replicate.
  - clear. induction n as [|n IH]; [constructor|]. constructor; [done|].
    apply Forall_replicate. by apply node_le_iff.
  - by apply Forall_replicate.
  - constructor.
  - constructor.
Qed.

Lemma grow_load_ca_certs raw : sat grows (est_load_ca_certs raw).
Proof. unfold est_load_ca_certs, est_get_certs_pkcs7. sat_auto. Qed.
Lemma grow_proxy_uid_pw u p : sat grows (est_client_set_uid_pw u p).
Proof.
  assert (H := grow_bounded_field). unfold est_client_set_uid_pw. sat_auto.
Qed.

Lemma proxy_init_run ca n resp rn pem realm cert key uid pwd w w' :
  est_proxy_init ca n resp rn pem realm cert key uid pwd w = Some (true, w') ->
  exists w1, grows w w1 /\ exists chain rlm c k, init_proxy_identity chain n rlm c k w1 = Some (true, w').
Proof.
  assert (Hr := grow_load_ca_certs). assert (Hu := grow_proxy_uid_pw). assert (Ht := grow_load_trusted_certs).
  unfold est_proxy_init. intros H.
  destruct ca as [chain|], cert as [c|], key as [k|], realm as [rlm|]; try no_ret H.
  do 3 (head_if H; [no_ret H|]).
  run_inv H as ok w1 R1. apply grow_alloc in R1. destruct ok; cbn [negb] in H; [|no_ret H].
  run_inv H as u w2 R2. apply grow_put_ctx in R2.
  run_inv H as rv w3 R3. apply Hu in R3. head_if H; [no_ret H|].
  run_inv H as rv4 w4 R4.
  assert (G4 : grows w3 w4) by (destruct resp; [by eapply Hr|apply ret_some in R4 as [_ <-]; reflexivity]).
  head_if H; [no_ret H|]. run_inv H as rv5 w5 R5. apply Ht in R5. head_if H; [no_ret H|].
  exists w5. split; [do 4 (etrans; [eassumption|]); eassumption|]. eauto.
Qed.

Lemma init_well_formed ca n resp rn pem realm cert key uid pwd w w' :
  est_proxy_init ca n resp rn pem realm cert key uid pwd w = Some (true, w') ->
  (0 < cur_max_ctx_array (w_proxy w))%nat -> client_ctx_array (w_proxy w') <> None ->
  well_formed (w_proxy w') /\ cur_threadid (w_proxy w') = cur_threadid (w_proxy w)
  /\ thread_ctxs (w_proxy w') = ∅.
Proof.
  intros H Hm Ha. apply proxy_init_run in H as (w1 & [Hp _] & chain & rlm & c & k & H).
  unfold init_proxy_identity in H. run_inv H as ok w2 R2.
  assert (P2 := proj1 (grow_alloc _ _ _ R2)). destruct ok; cbn [negb] in H; [|no_ret H].
  destruct (strcpy_s _ _ _) as [e r]. run_inv H as u1 w3 R3. injection R3 as _ <-. run_inv H as u2 w4 R4. injection R4 as _ <-.
  run_inv H as px w5 R5. injection R5 as <- <-.
  run_inv H as arr w6 R6. run_inv H as u3 w7 R7. apply ret_some in H as [_ <-]. injection R7 as _ <-.
  unfold new_client_ctx_array in R6. run_inv R6 as ok w7 R8.
  assert (P7 := proj1 (grow_alloc _ _ _ R8)). apply ret_some in R6 as [<- <-]. destruct ok; [|done].
  clear R8 Ha. cbn in *. rewrite P2, Hp in *. rewrite P7. split; [|split; [done|]].
  - exists (replicate (cur_max_ctx_array (w_proxy w)) zero_node). by apply ok_zero.
  - unfold thread_ctxs, threads. cbn. by rewrite zero_nodes_used.
Qed.

(** ** The other calls *)

Lemma isolated_retrieve_cacerts :
  sat isolated (est_proxy_retrieve_cacerts ENABLE_BRSKI uriparser EST_VER_STRING malloc_junk).
Proof.
  intros w r w' H. unfold est_proxy_retrieve_cacerts in H. run_inv H as c w1 E.
  assert (I := get_client_ctx_isolated _ _ _ _ _ E). destruct c as [a|].
  2:{ by apply ret_some in H as [_ <-]. }
  eapply (isolated_own a); [exact I|by intros; eapply get_client_ctx_own|]. clear E I.
  assert (S : forall A (m : M A), sat faithful m -> sat (iso a) (with_client a m)) by apply iso_with_client.
  assert (Ha : sat (iso a) alloc) by apply iso_grow, grow_alloc.
  assert (Hc := faith_copy_cacerts). assert (Hg := faith_get_cacerts ENABLE_BRSKI EST_VER_STRING malloc_junk).
  revert H. match goal with |- ?m w1 = _ -> _ => assert (Hs : sat (iso a) m) end.
  { sat_auto; apply S; auto. }
  apply Hs.
Qed.

#[local] Existing Instance isolated_preorder.

Lemma isolated_ignore {A} (m : M A) : sat isolated m -> sat isolated (ignore m).
Proof. intros H. unfold ignore. sat_auto. Qed.

Lemma isolated_call c : sat isolated (run_call c).
Proof.
  assert (Hs := grow_store_path_segment).
  destruct c as [method uri body ct| |g m|cb|t|s p|seg]; apply isolated_ignore.
  - apply isolated_http_request.
  - apply isolated_retrieve_cacerts.
  - apply isolated_grow. unfold est_proxy_set_auth_mode, est_server_set_auth_mode, with_ctx, set_ctx. sat_auto.
  - apply isolated_grow, grow_set_auth_cred_cb.
  - apply isolated_grow, grow_set_read_timeout.
  - apply isolated_grow. unfold est_proxy_set_server, set_cl. sat_auto.
  - apply isolated_grow. unfold est_proxy_store_path_segment. sat_auto.
Qed.

(** ** The invariant *)

Definition sound (px : EST_PROXY_CTX) : Prop :=
  well_formed px /\ 0 < cur_threadid px /\ forall id, client_mode px id.

Lemma sound_step w w' : isolated w w' -> sound (w_proxy w) -> sound (w_proxy w').
Proof.
  intros (T & _ & I) (Hwf & Hid & Hm). destruct (I Hid Hwf) as (Hwf' & D & _ & M).
  split; [done|]. rewrite T. split; [done|]. intros id.
  destruct (decide (id = cur_threadid (w_proxy w))) as [->|Hne]; [by apply M|].
  intros c Hc. apply (Hm id). by rewrite <- (same_elsewhere _ _ _ D id Hne).
Qed.

(** C27. Whatever calls the application makes and whatever requests arrive on whatever
    threads, in any order, the array of client contexts of a proxy stays sorted by
    thread, without duplicates, its free nodes first and each node in use with a
    context of its own; and every client context it holds is a client's. *)
Theorem reachable_well_formed w : proxy_reachable w ->
  well_formed (w_proxy w) /\ 0 < cur_threadid (w_proxy w) /\
  forall id c, thread_ctxs (w_proxy w) !! id = Some c -> est_mode c = EST_CLIENT.
Proof.
  intros H. induction H as [ca n resp rn pem realm cert key uid pwd w w' E Hm Hid Ha|c w w' _ IH E
                           |id w _ (Hwf & _ & Hm) Hid|w w' _ IH Hp].
  - destruct (init_well_formed _ _ _ _ _ _ _ _ _ _ _ _ E Hm Ha) as (Hwf & T & C).
    split; [done|]. rewrite T. split; [done|]. rewrite C. intros i c. by rewrite lookup_empty.
  - eapply sound_step; [|exact IH]. by eapply isolated_call.
  - split; [|split; [done|exact Hm]]. destruct Hwf as [arr Hok]. exists arr. by destruct Hok; constructor.
  - by rewrite Hp.
Qed.
End States.
