(* ===== verification/CoapReqProps.v ===== *)
(** * CoapReqProps: the array of CoAP requests, and reasoning about the handlers

    The comparison of nodes is an order of their keys, so that the array is a [table]
    from the keys of the clients to their nodes ([reqs]). [csat R m]: every completed
    run of a handler's part relates its states by the preorder [R].

    [coap_ok] is the invariant of the array. Under it [get_coap_req] is a lookup that
    adds a node when there is none, and [remove_coap_req] a removal; none of them leaves
    the array or runs into undefined behaviour. *)

From stdpp Require Import gmap.
From S2P Require Import Prelude.
From S2P Require Import SafeC.
From S2P Require Import EstTypes.
From S2P Require Import EstState.
From S2P Require Import Search.
From S2P Require Import Table.
From S2P Require Import CoapReq.
From S2P Require Import CoapServer.
From S2P Require Import EstLogic.
From S2P Require Import ServerResponseProps.
From S2P Require Import ClientProps.

(** ** The order of the keys *)

Lemma strncmp_fuel_cut s1 s2 : forall n m, (length s1 < n)%nat -> (length s1 < m)%nat ->
  strncmp_fuel s1 s2 n = strncmp_fuel s1 s2 m.
Proof.
  revert s2. induction s1 as [|c s1 IH]; intros s2 [|n] [|m] Hn Hm; cbn in *; try lia.
  destruct (negb _); [done|]. destruct (c =? 0); [done|]. apply IH; lia.
Qed.

Lemma strncmp_is_fuel s1 s2 n : strncmp s1 s2 (Z.of_nat n) = strncmp_fuel s1 s2 n.
Proof.
  unfold strncmp. destruct (decide (n <= length s1)%nat).
  - f_equal. lia.
  - apply strncmp_fuel_cut; lia.
Qed.

Lemma strncmp_fuel_swap s1 s2 n : strncmp_fuel s2 s1 n = - strncmp_fuel s1 s2 n.
Proof.
  revert s1 s2. induction n as [|n IH]; intros s1 s2; cbn; [done|].
  rewrite (Z.eqb_sym (hd 0 s2)). destruct (Z.eqb_spec (hd 0 s1) (hd 0 s2)) as [->|]; cbn; [|lia].
  destruct (_ =? 0); [done|apply IH].
Qed.

(** The string two keys share or not. *)
Definition str_n (n : nat) (s : bytes) : bytes := take n (cstr s).

Lemma str_n_step n s :
  str_n (S n) s = if hd 0 s =? 0 then [] else hd 0 s :: str_n n (tail s).
Proof. unfold str_n. destruct s as [|c s]; [done|]. cbn. by destruct (c =? 0). Qed.

Lemma strncmp_fuel_eq n s1 s2 : strncmp_fuel s1 s2 n = 0 <-> str_n n s1 = str_n n s2.
Proof.
  revert s1 s2. induction n as [|n IH]; intros s1 s2; [done|]. rewrite !str_n_step. cbn.
  destruct (Z.eqb_spec (hd 0 s1) (hd 0 s2)) as [->|Hne]; cbn.
  - destruct (_ =? 0); [done|]. rewrite IH. split; [by intros ->|by intros [= ->]].
  - split; [lia|]. destruct (Z.eqb_spec (hd 0 s1) 0), (Z.eqb_spec (hd 0 s2) 0); congruence.
Qed.

Lemma strncmp_fuel_trans n a b c :
  strncmp_fuel a b n <= 0 -> strncmp_fuel b c n <= 0 -> strncmp_fuel a c n <= 0.
Proof.
  revert a b c. induction n as [|n IH]; intros a b c; cbn; [done|].
  destruct (Z.eqb_spec (hd 0 a) (hd 0 b)) as [->|]; cbn.
  - destruct (Z.eqb_spec (hd 0 b) (hd 0 c)) as [->|]; cbn; [|done].
    destruct (_ =? 0); [done|apply IH].
  - destruct (Z.eqb_spec (hd 0 b) (hd 0 c)) as [<-|]; cbn.
    + intros H _. destruct (Z.eqb_spec (hd 0 a) (hd 0 b)); cbn; lia.
    + intros H1 H2. destruct (Z.eqb_spec (hd 0 a) (hd 0 c)); cbn; lia.
Qed.

Definition node_key (n : coap_req_node_t) : bytes := str_n MAX_SEARCH_STRING_LEN (req_key n).

Lemma coap_compare_fuel a b :
  let d := strncmp_fuel (req_key a) (req_key b) MAX_SEARCH_STRING_LEN in
  coap_bsearch_compare a b = if d >? 0 then 1 else if d <? 0 then -1 else 0.
Proof. cbn zeta. unfold coap_bsearch_compare, strcmp_s. cbn [Z.eqb]. by rewrite <- strncmp_is_fuel. Qed.

#[export] Instance coap_order : NodeOrder node_key coap_bsearch_compare.
Proof.
  split; [split|].
  - intros a b. rewrite !coap_compare_fuel, (strncmp_fuel_swap (req_key a)).
    destruct (Z.gtb_spec (strncmp_fuel (req_key a) (req_key b) MAX_SEARCH_STRING_LEN) 0),
      (Z.ltb_spec (strncmp_fuel (req_key a) (req_key b) MAX_SEARCH_STRING_LEN) 0),
      (Z.gtb_spec (- strncmp_fuel (req_key a) (req_key b) MAX_SEARCH_STRING_LEN) 0),
      (Z.ltb_spec (- strncmp_fuel (req_key a) (req_key b) MAX_SEARCH_STRING_LEN) 0); lia.
  - intros a b c. unfold cmp_le. rewrite !coap_compare_fuel.
    assert (H := strncmp_fuel_trans MAX_SEARCH_STRING_LEN (req_key a) (req_key b) (req_key c)).
    repeat destr_if; b2p; lia.
  - intros a b. rewrite coap_compare_fuel. unfold node_key. rewrite <- strncmp_fuel_eq.
    repeat destr_if; b2p; lia.
Qed.

Abbreviation req_table := (table node_key zero_req).
Abbreviation reqs_sorted := (table_ok node_key zero_req coap_bsearch_compare).

(** ** Runs of a handler *)

Section Logic.
Context {L : OpenSSL} {C : CoapLib}.

Lemma cbind_run {A B} (m : CM A) (f : A -> CM B) s w a s1 w1 :
  m s w = Some (inr a, s1, w1) -> (m ≫= f) s w = f a s1 w1.
Proof. unfold mbind, CM_bind. by intros ->. Qed.

Lemma cbind_stop {A B} (m : CM A) (f : A -> CM B) s w e s1 w1 :
  m s w = Some (inl e, s1, w1) -> (m ≫= f) s w = Some (inl e, s1, w1).
Proof. unfold mbind, CM_bind. by intros ->. Qed.

Lemma cbind_inv {A B} (m : CM A) (f : A -> CM B) s w r s' w' : (m ≫= f) s w = Some (r, s', w') ->
  (exists a s1 w1, m s w = Some (inr a, s1, w1) /\ f a s1 w1 = Some (r, s', w'))
  \/ exists e, r = inl e /\ m s w = Some (inl e, s', w').
Proof.
  unfold mbind, CM_bind. destruct (m s w) as [[[[e|a] s1] w1]|]; [| |done].
  - intros [= <- <- <-]. right. eauto.
  - intros H. left. eauto.
Qed.

Lemma lift_run {A} (m : M A) s w a w' : m w = Some (a, w') -> lift m s w = Some (inr a, s, w').
Proof. unfold lift. by intros ->. Qed.

Lemma lift_inv {A} (m : M A) s w r s' w' : lift m s w = Some (r, s', w') ->
  exists a, r = inr a /\ s' = s /\ m w = Some (a, w').
Proof. unfold lift. destruct (m w) as [[a w1]|]; [|done]. intros [= <- <- <-]. eauto. Qed.

(** ** Postconditions *)

Definition csat (R : EST_COAP_CTX * world -> EST_COAP_CTX * world -> Prop) {A} (m : CM A) : Prop :=
  forall s w r s' w', m s w = Some (r, s', w') -> R (s, w) (s', w').

Section Csat.
Context (R : EST_COAP_CTX * world -> EST_COAP_CTX * world -> Prop) `{PO : !PreOrder R}.

Lemma csat_ret {A} (a : A) : csat R (mret a).
Proof. intros s w r s' w' [= _ <- <-]. reflexivity. Qed.
Lemma csat_stop {A} e : csat R (A := A) (stop e).
Proof. intros s w r s' w' [= _ <- <-]. reflexivity. Qed.
Lemma csat_undefined {A} : csat R (A := A) undefined.
Proof. by intros s w r s' w' H. Qed.
Lemma csat_get_coap : csat R get_coap.
Proof. intros s w r s' w' [= _ <- <-]. reflexivity. Qed.
Lemma csat_get_node i : csat R (get_node i).
Proof.
  intros s w r s' w' H. unfold get_node in H. destruct (_ ≫= _); [|done]. injection H as _ <- <-. reflexivity.
Qed.

Lemma csat_bind {A B} (m : CM A) (f : A -> CM B) :
  csat R m -> (forall a, csat R (f a)) -> csat R (m ≫= f).
Proof.
  intros Hm Hf s w r s' w' H. apply cbind_inv in H as [(a & s1 & w1 & E & H)|(e & -> & E)].
  - etrans; [by eapply Hm|by eapply Hf].
  - by eapply Hm.
Qed.

Lemma csat_find_req key arr n : csat R (find_req key arr n).
Proof. unfold find_req. destruct (bsearch _ _ _ _); [apply csat_ret|apply csat_undefined]. Qed.

Lemma csat_lift {A} (m : M A) (Q : world -> world -> Prop) :
  (forall s w w', Q w w' -> R (s, w) (s, w')) -> sat Q m -> csat R (lift m).
Proof. intros HQ Hm s w r s' w' H. apply lift_inv in H as (a & -> & -> & E). by eapply HQ, Hm. Qed.

End Csat.
End Logic.

Create HintDb csat discriminated.

Ltac csat_step :=
  lazymatch goal with
  | |- csat _ (mbind _ _) => apply csat_bind; [apply _| |intros ?]
  | |- csat _ (mret _) => apply csat_ret; apply _
  | |- csat _ (stop _) => apply csat_stop; apply _
  | |- csat _ (error _) => apply csat_stop; apply _
  | |- csat _ undefined => apply csat_undefined
  | |- csat _ get_coap => apply csat_get_coap; apply _
  | |- csat _ (get_node _) => apply csat_get_node; apply _
  | |- csat _ (find_req _ _ _) => apply csat_find_req; apply _
  | |- csat _ (let '_ := ?x in _) => destruct x
  | |- csat _ (if ?b then _ else _) => destruct b
  | |- csat _ (match ?x with _ => _ end) => destruct x
  | _ => solve [auto with csat]
  end.
Ltac csat_auto := repeat csat_step.

(** ** Keys *)

Definition good_key (k : bytes) : Prop :=
  no_nul k /\ k <> [] /\ (length k < MAX_SEARCH_STRING_LEN)%nat.

Lemma node_key_buf k r n : no_nul k -> (length k < MAX_SEARCH_STRING_LEN)%nat ->
  req_key n = k ++ replicate r 0 -> node_key n = k.
Proof.
  intros Hk Hl Hn. unfold node_key, str_n. rewrite Hn.
  assert (Hc : cstr (k ++ replicate r 0) = k).
  { destruct r; [rewrite app_nil_r; by apply cstr_id|]. by apply cstr_app. }
  rewrite Hc. apply take_ge. lia.
Qed.

Lemma node_key_zero : node_key zero_req = [].
Proof. reflexivity. Qed.

Lemma node_key_req k : no_nul k -> (length k < MAX_SEARCH_STRING_LEN)%nat -> node_key (key_req k) = k.
Proof. intros Hk Hl. apply (node_key_buf k 0); [done..|]. cbn. by rewrite app_nil_r. Qed.

(** The node of a new request. *)
Definition key_buf (k : bytes) : bytes := search_buf MAX_SEARCH_STRING_LEN k.
Definition fresh_req (k : bytes) (req : EST_COAP_REQ) : coap_req_node_t :=
  Build_coap_req_node_t (key_buf k) zero_buf 0 zero_buf 0 0 req.

Lemma node_key_fresh k req : good_key k -> node_key (fresh_req k req) = k.
Proof. intros (Hk & _ & Hl). by eapply node_key_buf. Qed.

Lemma fresh_req_stored k req : good_key k ->
  set_cur_req req (set_req_key
    (default [] (snd (memcpy_s (Some (req_key zero_req)) (Z.of_nat MAX_SEARCH_STRING_LEN)
       (Some (search_buf (S MAX_SEARCH_STRING_LEN) k)) (Z.of_nat MAX_SEARCH_STRING_LEN)))) zero_req)
  = fresh_req k req.
Proof.
  intros (Hk & _ & Hl). unfold memcpy_s. rewrite Z.gtb_ltb, Z.ltb_irrefl. cbn [snd default from_option id].
  unfold fresh_req, set_cur_req, set_req_key. cbn [req_key zero_req]. f_equal. rewrite Nat2Z.id.
  assert (Hs : take MAX_SEARCH_STRING_LEN (search_buf (S MAX_SEARCH_STRING_LEN) k) = key_buf k).
  { unfold key_buf, search_buf.
    replace (S MAX_SEARCH_STRING_LEN - length k)%nat with ((MAX_SEARCH_STRING_LEN - length k) + 1)%nat by lia.
    rewrite replicate_add, app_assoc. apply take_app_length'. rewrite length_app, length_replicate. lia. }
  rewrite Hs. apply store_all. unfold key_buf, search_buf. rewrite length_app, !length_replicate. lia.
Qed.

(** *** The keys of clients *)

Lemma dec_digits_more f n acc : (length acc + min f 1 <= length (dec_digits f n acc))%nat.
Proof.
  revert n acc. induction f as [|f IH]; intros n acc; cbn [dec_digits]; [lia|].
  destruct (n <? 10); cbn [length]; [lia|]. etrans; [|apply IH]. cbn. lia.
Qed.

Lemma fmt_d_not_nil n : fmt_d n <> [].
Proof.
  unfold fmt_d. destruct (n <? 0); [done|]. intros E. assert (H := dec_digits_more 20 n []). by rewrite E in H; inversion H.
Qed.

Lemma inet_ntop4_text a s : are_bytes a -> inet_ntop4 a = Some s ->
  no_nul s /\ (length s < INET6_ADDRSTRLEN)%nat.
Proof.
  intros Ha H. unfold inet_ntop4 in H. destruct a as [|a [|b [|c [|d [|]]]]]; try done. injection H as <-.
  assert (Hl : forall x, x ∈ [a; b; c; d] -> (length (fmt_d x) <= 3)%nat).
  { intros x Hx. apply fmt_d_short. eapply (proj1 (list_relations.list.Forall_forall _ _)) in Ha; [|exact Hx].
    unfold is_byte in Ha. cbn. lia. }
  split.
  - repeat first [apply no_nul_app | apply fmt_d_no_nul | (constructor; [done|])].
  - repeat (rewrite length_app; cbn [length]).
    pose proof (Hl a ltac:(set_solver)). pose proof (Hl b ltac:(set_solver)).
    pose proof (Hl c ltac:(set_solver)). pose proof (Hl d ltac:(set_solver)). unfold INET6_ADDRSTRLEN. lia.
Qed.

(** The address of a client; the text of an IPv6 address is shorter than
    INET6_ADDRSTRLEN. *)
Definition good_addr `{CoapLib} (addr : coap_address_t) : Prop :=
  match addr with
  | AF_INET port a => 0 <= port < 65536 /\ are_bytes a
  | AF_INET6 port a =>
      0 <= port < 65536 /\ forall s, inet_ntop6 a = Some s -> no_nul s /\ (length s < INET6_ADDRSTRLEN)%nat
  | AF_OTHER => True
  end.

Lemma search_key_text port ip : 0 <= port < 65536 -> no_nul ip -> (length ip < INET6_ADDRSTRLEN)%nat ->
  exists k, strcat_s (Some (fmt_d port)) (Z.of_nat MAX_SEARCH_STRING_LEN) (Some ip) = (EOK, Some k) /\ good_key k.
Proof.
  intros Hp Hi Hl. exists (fmt_d port ++ ip).
  assert (Hd := fmt_d_short 4 port ltac:(cbn; lia)). unfold strcat_s, good_key, INET6_ADDRSTRLEN in *.
  rewrite (cstr_id (fmt_d port)), (cstr_id ip) by (done || apply fmt_d_no_nul).
  rewrite take_ge by (unfold MAX_SEARCH_STRING_LEN, INET6_ADDRSTRLEN; lia).
  split; [done|]. split; [apply no_nul_app; [apply fmt_d_no_nul|done]|]. split.
  - intros E. apply app_eq_nil in E as [E _]. by eapply fmt_d_not_nil.
  - rewrite length_app. unfold MAX_SEARCH_STRING_LEN, INET6_ADDRSTRLEN. lia.
Qed.

Lemma search_key_good `{CoapLib} addr k : good_addr addr -> search_key addr = Some k -> good_key k.
Proof.
  intros Ha Hk. unfold search_key in Hk.
  destruct addr as [port a|port a|]; cbn [est_invoke_enroll_get_ip_port] in Hk.
  - destruct Ha as [Hp Ha]. destruct (inet_ntop4 a) as [s|] eqn:E; [|done].
    destruct (inet_ntop4_text a s Ha E) as [Hn Hl].
    destruct (search_key_text port s Hp Hn Hl) as (k' & E' & Hg). cbn -[strcat_s MAX_SEARCH_STRING_LEN fmt_d] in Hk.
    rewrite E' in Hk. by injection Hk as <-.
  - destruct Ha as [Hp Ha]. destruct (inet_ntop6 a) as [s|] eqn:E; [|done].
    destruct (Ha s eq_refl) as [Hn Hl].
    destruct (search_key_text port s Hp Hn Hl) as (k' & E' & Hg). cbn -[strcat_s MAX_SEARCH_STRING_LEN fmt_d] in Hk.
    rewrite E' in Hk. by injection Hk as <-.
  - destruct (search_key_text 0 [] ltac:(lia) ltac:(constructor) ltac:(unfold INET6_ADDRSTRLEN; cbn; lia)) as (k' & E' & Hg).
    cbn -[strcat_s MAX_SEARCH_STRING_LEN fmt_d] in Hk. rewrite E' in Hk. by injection Hk as <-.
Qed.

(** ** The invariant *)

Record node_ok (n : coap_req_node_t) : Prop := {
  nd_key : length (req_key n) = MAX_SEARCH_STRING_LEN;
  nd_req : Z.of_nat (length (req_buf n)) = COAP_REQ_NODE_BUF_LEN_MAX;
  nd_req_len : 0 <= req_buf_len n <= COAP_REQ_NODE_BUF_LEN_MAX;
  nd_resp : Z.of_nat (length (resp_buf n)) = COAP_REQ_NODE_BUF_LEN_MAX;
  nd_resp_len : 0 <= resp_buf_len n <= COAP_REQ_NODE_BUF_LEN_MAX
}.

Record coap_ok (s : EST_COAP_CTX) (arr : list coap_req_node_t) : Prop := {
  co_array : coap_req_array s = Some arr;
  co_length : length arr = cur_max_coap_req_array s;
  co_table : reqs_sorted arr;
  co_nodes : Forall node_ok arr;
  co_count : coap_req_cnt s = Z.of_nat (size (req_table arr))
}.

Definition valid (s : EST_COAP_CTX) : Prop := exists arr, coap_ok s arr.

(** The map the array stands for. *)
Definition reqs (s : EST_COAP_CTX) : gmap bytes coap_req_node_t :=
  match coap_req_array s with None => ∅ | Some arr => req_table arr end.

(** The node of a client is at an index. *)
Definition node_at (s : EST_COAP_CTX) (k : bytes) (i : nat) (n : coap_req_node_t) : Prop :=
  exists arr, coap_req_array s = Some arr /\ arr !! i = Some n /\ node_key n = k /\ k <> [].

Lemma zero_buf_length : Z.of_nat (length zero_buf) = COAP_REQ_NODE_BUF_LEN_MAX.
Proof. unfold zero_buf. rewrite length_replicate. unfold COAP_REQ_NODE_BUF_LEN_MAX. lia. Qed.

Lemma zero_buf_ok key b bl : length key = MAX_SEARCH_STRING_LEN ->
  node_ok (Build_coap_req_node_t key zero_buf 0 zero_buf 0 b bl).
Proof. intros Hk. split; cbn [req_key req_buf req_buf_len resp_buf resp_buf_len]; try done; apply zero_buf_length. Qed.

Lemma fresh_ok k req : good_key k -> node_ok (fresh_req k req).
Proof.
  intros (_ & _ & Hl). apply zero_buf_ok. unfold key_buf, search_buf.
  rewrite length_app, length_replicate. lia.
Qed.

Lemma reinit_ok req n : node_ok n -> node_ok (reinit_node req n).
Proof. intros Hn. apply zero_buf_ok, Hn. Qed.

Lemma reqs_array s arr : coap_req_array s = Some arr -> reqs s = req_table arr.
Proof. unfold reqs. by intros ->. Qed.

Lemma node_at_lookup s k i n : valid s -> node_at s k i n -> reqs s !! k = Some n.
Proof.
  intros [arr Hok] (arr' & Ha & Hi & <- & Hk). assert (arr' = arr) as -> by (rewrite (co_array _ _ Hok) in Ha; congruence).
  rewrite (reqs_array _ arr) by apply Hok. eapply table_lookup; [apply Hok|exact Hi|].
  unfold in_use. by rewrite node_key_zero.
Qed.

Lemma node_at_key s k i n : node_at s k i n -> node_key n = k.
Proof. by intros (arr & _ & _ & Hk & _). Qed.

Lemma node_at_ok s k i n : valid s -> node_at s k i n -> node_ok n.
Proof.
  intros [arr Hok] (arr' & Ha & Hi & _). assert (arr' = arr) as -> by (rewrite (co_array _ _ Hok) in Ha; congruence).
  by eapply Forall_lookup_1; [apply Hok|].
Qed.

(** ** Changing a node *)

Definition keeps_key (f : coap_req_node_t -> coap_req_node_t) : Prop :=
  forall n, req_key (f n) = req_key n.

Definition with_node (i : nat) (n : coap_req_node_t) (s : EST_COAP_CTX) : EST_COAP_CTX :=
  set_coap_req_array (fmap (<[i := n]>) (coap_req_array s)) s.

Lemma with_node_spec s k i n m : valid s -> node_at s k i n -> node_key m = k -> node_ok m ->
  valid (with_node i m s) /\ node_at (with_node i m s) k i m /\
  reqs (with_node i m s) = <[k := m]> (reqs s).
Proof.
  intros [arr Hok] (arr' & Ha & Hi & Hn & Hk) Hm Hmo.
  assert (arr' = arr) as -> by (rewrite (co_array _ _ Hok) in Ha; congruence).
  assert (Hu : in_use node_key zero_req n) by (unfold in_use; rewrite node_key_zero; congruence).
  destruct (table_set node_key zero_req coap_bsearch_compare arr i n m) as [Ht Hr];
    [apply Hok|done|done|congruence|]. rewrite Hn in Hr.
  assert (Hlk : req_table arr !! k = Some n) by (rewrite <- Hn; eapply table_lookup; [apply Hok|done|done]).
  assert (Ha' : coap_req_array (with_node i m s) = Some (<[i := m]> arr)) by (unfold with_node; cbn; by rewrite Ha).
  split; [|split].
  - exists (<[i := m]> arr). constructor; [done| |done| |].
    + rewrite length_insert. apply Hok.
    + apply Forall_insert; [apply Hok|done].
    + unfold with_node. cbn. rewrite (co_count _ _ Hok), Hr. f_equal. symmetry. apply map_size_insert_Some. by exists n.
  - exists (<[i := m]> arr). split; [done|]. split; [|done].
    apply list_lookup_insert_eq. by eapply lookup_lt_Some.
  - by rewrite (reqs_array _ _ Ha'), (reqs_array _ _ Ha), Hr.
Qed.

(** ** Searches *)

Section Array.
Context {L : OpenSSL} {C : CoapLib}.

Lemma get_node_run i s w k n : node_at s k i n -> get_node i s w = Some (inr n, s, w).
Proof. intros (arr & Ha & Hi & _). unfold get_node. rewrite Ha. cbn. by rewrite Hi. Qed.

Lemma upd_node_run i f s w k n : node_at s k i n ->
  upd_node i f s w = Some (inr tt, with_node i (f n) s, w).
Proof. intros Hat. unfold upd_node. by rewrite (cbind_run _ _ _ _ _ _ _ (get_node_run i s w k n Hat)). Qed.

Lemma find_req_state k arr n s w s' w' r : find_req k arr n s w = Some (inr r, s, w) ->
  find_req k arr n s' w' = Some (inr r, s', w').
Proof. unfold find_req. destruct (bsearch _ _ _ _); [|done]. by intros [= ->]. Qed.

Lemma find_req_key s arr k w n : coap_ok s arr -> good_key k -> n = length arr ->
  exists r, find_req k arr n s w = Some (inr r, s, w) /\
  match r with
  | Some i => exists m, arr !! i = Some m /\ node_key m = k /\ req_table arr !! k = Some m
  | None => req_table arr !! k = None
  end.
Proof.
  intros Hok (Hk & Hne & Hl) ->. assert (Hkey := node_key_req k Hk Hl).
  destruct (table_find node_key zero_req coap_bsearch_compare arr (key_req k)) as (r & Hr & Hs);
    [apply Hok|unfold in_use; by rewrite node_key_zero, Hkey|].
  exists r. unfold find_req. rewrite Hr. split; [done|]. by rewrite Hkey in Hs.
Qed.

Lemma find_req_free s arr w n : reqs_sorted arr -> n = length arr ->
  exists r, find_req [] arr n s w = Some (inr r, s, w) /\
  match r with
  | Some i => arr !! i = Some zero_req
  | None => size (req_table arr) = length arr
  end.
Proof.
  intros Hok ->. destruct (table_find_free node_key zero_req coap_bsearch_compare arr (key_req []) Hok)
    as (r & Hr & Hs); [reflexivity|].
  exists r. unfold find_req. by rewrite Hr.
Qed.

(** A new node. *)
Definition added (k : bytes) (req : EST_COAP_REQ) (s : EST_COAP_CTX) (i : nat) (s' : EST_COAP_CTX) : Prop :=
  valid s' /\ node_at s' k i (fresh_req k req) /\ reqs s' = <[k := fresh_req k req]> (reqs s)
  /\ coap_req_cnt s' = coap_req_cnt s + 1.

(** Only the array and the counter change. *)
Definition same_config (s s' : EST_COAP_CTX) : Prop :=
  set_coap_req_array None (set_coap_req_cnt 0 s') = set_coap_req_array None (set_coap_req_cnt 0 s).

Lemma new_coap_req_spec s arr k req w : coap_ok s arr -> good_key k -> reqs s !! k = None ->
  exists r s', new_coap_req k req arr (cur_max_coap_req_array s) s w = Some (inr r, s', w) /\ same_config s s' /\
  match r with
  | None => s' = s /\ size (reqs s) = cur_max_coap_req_array s
  | Some i => added k req s i s'
  end.
Proof.
  intros Hok Hk Hnew. unfold new_coap_req.
  destruct (find_req_free s arr w _ (co_table _ _ Hok) (eq_sym (co_length _ _ Hok))) as (f & Ef & Hf).
  rewrite (cbind_run _ _ _ _ _ _ _ Ef). destruct f as [i|].
  2:{ exists None, s. split; [done|]. split; [done|]. split; [done|].
      by rewrite (reqs_array _ _ (co_array _ _ Hok)), Hf, (co_length _ _ Hok). }
  rewrite Hf. destruct (memcpy_s _ _ _ _) as [e kb] eqn:Em. assert (Hst := fresh_req_stored k req Hk).
  rewrite Em in Hst. cbn [snd] in Hst. rewrite Hst. clear Em Hst.
  rewrite (reqs_array _ _ (co_array _ _ Hok)) in Hnew. assert (Hkey := node_key_fresh k req Hk).
  set (arr' := qsort coap_bsearch_compare (<[i := fresh_req k req]> arr)).
  destruct (table_add node_key zero_req coap_bsearch_compare arr i (fresh_req k req)) as (Ht & Hr & Hl);
    [apply Hok|done| |by rewrite Hkey|].
  { unfold in_use. rewrite Hkey, node_key_zero. apply Hk. }
  fold arr' in Ht, Hr, Hl. rewrite Hkey in Hr.
  set (s1 := set_coap_req_array (Some arr') s).
  rewrite (cbind_run (upd_coap _) _ _ _ tt s1 w) by done.
  assert (Hp : arr' ≡ₚ <[i := fresh_req k req]> arr) by apply (qsort_permutation coap_bsearch_compare).
  set (s2 := set_coap_req_cnt (coap_req_cnt s1 + 1) s1).
  assert (Hok2 : coap_ok s2 arr').
  { constructor; [done| |done| |].
    - rewrite Hl. apply Hok.
    - rewrite Hp. apply Forall_insert; [apply Hok|by apply fresh_ok].
    - cbn. rewrite (co_count _ _ Hok), Hr, map_size_insert_None by done. lia. }
  assert (Ef' : exists j, find_req k arr' (cur_max_coap_req_array s) s1 w = Some (inr (Some j), s1, w)
            /\ arr' !! j = Some (fresh_req k req)).
  { destruct (find_req_key s2 arr' k w (cur_max_coap_req_array s) Hok2 Hk) as (r & Er & Hs).
    - rewrite Hl. symmetry. apply Hok.
    - rewrite Hr, lookup_insert_eq in Hs. destruct r as [j|]; [|done].
      destruct Hs as (m & Hm & _ & [= ->]). exists j. split; [|done]. by eapply find_req_state. }
  destruct Ef' as (j & Ej & Hj). rewrite (cbind_run _ _ _ _ _ _ _ Ej).
  rewrite (cbind_run (upd_coap _) _ _ _ tt s2 w) by done.
  exists (Some j), s2. split; [done|]. split; [done|]. split; [by exists arr'|]. split; [|split; [|done]].
  - exists arr'. split; [done|]. split; [done|]. split; [done|apply Hk].
  - rewrite (reqs_array s2 arr') by done. by rewrite Hr, (reqs_array _ _ (co_array _ _ Hok)).
Qed.

(** What a request for the node of a client with the key [k] gets, in state [s']. *)
Definition got_req (k : bytes) (req : EST_COAP_REQ) (s : EST_COAP_CTX) (r : option nat) (s' : EST_COAP_CTX) : Prop :=
  match reqs s !! k with
  | Some n =>
      let n' := if decide (cur_req n = req \/ req = EST_COAP_REQ_RESET) then n else reinit_node req n in
      exists i, r = Some i /\ node_at s' k i n' /\ reqs s' = <[k := n']> (reqs s)
                /\ coap_req_cnt s' = coap_req_cnt s
  | None =>
      match r with
      | None => s' = s /\ size (reqs s) = cur_max_coap_req_array s
      | Some i => added k req s i s'
      end
  end.

(** The compiler left room for the byte that is cleared behind [src_ipstr]. *)
Definition ipstr_room : Prop := (INET6_ADDRSTRLEN < length src_ipstr_frame)%nat.

(** The array alone is too small. *)
Lemma clear_src_ipstr_overrun frame : length frame = INET6_ADDRSTRLEN -> clear_src_ipstr frame = None.
Proof. intros H. unfold clear_src_ipstr. rewrite (proj2 (Nat.leb_gt _ _)); [done|lia]. Qed.

Lemma clear_src_ipstr_room : ipstr_room -> exists f, clear_src_ipstr src_ipstr_frame = Some f.
Proof. intros H. unfold clear_src_ipstr, ipstr_room in *. rewrite (proj2 (Nat.leb_le _ _)) by lia. by eexists. Qed.

(** The search returned something, so that it had that room. *)
Lemma get_coap_req_room addr req s w : get_coap_req addr req s w <> None -> ipstr_room.
Proof.
  unfold get_coap_req, clear_src_ipstr, ipstr_room. destruct (Nat.leb_spec (S INET6_ADDRSTRLEN) (length src_ipstr_frame)); [lia|done].
Qed.

Lemma get_coap_req_spec s addr k req w : ipstr_room -> valid s -> search_key addr = Some k -> good_key k ->
  exists r s', get_coap_req addr req s w = Some (inr r, s', w) /\
    valid s' /\ same_config s s' /\ got_req k req s r s'.
Proof.
  intros Hroom [arr Hok] Hkey Hk. unfold get_coap_req, got_req.
  destruct (clear_src_ipstr_room Hroom) as [f0 ->]. rewrite Hkey.
  rewrite (cbind_run get_coap _ _ _ s s w) by done. rewrite (co_array _ _ Hok).
  destruct (find_req_key s arr k w _ Hok Hk (eq_sym (co_length _ _ Hok))) as (f & Ef & Hf).
  rewrite (cbind_run _ _ _ _ _ _ _ Ef). rewrite (reqs_array _ _ (co_array _ _ Hok)). destruct f as [i|].
  2:{ rewrite Hf. destruct (new_coap_req_spec s arr k req w Hok Hk) as (r & s' & E & Hc & Hr).
      { by rewrite (reqs_array _ _ (co_array _ _ Hok)). }
      exists r, s'. rewrite (reqs_array _ _ (co_array _ _ Hok)) in Hr. split; [done|].
      split; [|split; [done|]].
      - destruct r; [apply Hr|]. destruct Hr as [-> _]. by exists arr.
      - destruct r; [|done]. unfold added in *. by rewrite (reqs_array _ _ (co_array _ _ Hok)) in Hr |- *. }
  destruct Hf as (n & Hi & Hn & Hlk). rewrite Hlk.
  assert (Hat : node_at s k i n) by (exists arr; split; [apply Hok|]; split; [done|split; [done|apply Hk]]).
  assert (Hv : valid s) by by exists arr.
  rewrite (cbind_run _ _ _ _ _ _ _ (get_node_run i s w k n Hat)).
  destruct (decide (cur_req n = req \/ req = EST_COAP_REQ_RESET)) as [Hsame|Hdiff].
  - assert (Hb : negb (bool_decide (cur_req n = req)) && negb (bool_decide (req = EST_COAP_REQ_RESET)) = false).
    { destruct Hsame as [Hs|Hs]; rewrite (bool_decide_eq_true_2 _ Hs); [done|apply andb_false_r]. }
    rewrite Hb. exists (Some i), s. split; [done|]. split; [done|]. split; [done|].
    exists i. split; [done|]. split; [done|]. split; [|done].
    by rewrite (reqs_array _ _ (co_array _ _ Hok)), insert_id.
  - rewrite !bool_decide_eq_false_2 by tauto. cbn [negb andb].
    set (m := reinit_node req n).
    destruct (with_node_spec s k i n m Hv Hat) as (Hv1 & Hat1 & Hr1); [done|apply reinit_ok; by eapply node_at_ok|].
    unfold reinit_coap_req. rewrite (cbind_run _ _ _ _ _ _ _ (upd_node_run _ _ _ w k n Hat)). fold m.
    rewrite (cbind_run _ _ _ _ _ _ _ (upd_node_run _ _ _ w k m Hat1)).
    assert (Hidem : with_node i (set_cur_req req m) (with_node i m s) = with_node i m s).
    { unfold with_node. cbn. rewrite (co_array _ _ Hok). cbn. by rewrite list_insert_insert_eq. }
    rewrite Hidem. exists (Some i), (with_node i m s). split; [done|]. split; [done|]. split; [done|].
    exists i. split; [done|]. split; [done|]. by rewrite Hr1, (reqs_array _ _ (co_array _ _ Hok)).
Qed.

(** A node is found by its own key. *)
Lemma find_req_node s arr i n w : coap_ok s arr -> arr !! i = Some n -> in_use node_key zero_req n ->
  exists j, find_req (req_key n) arr (cur_max_coap_req_array s) s w = Some (inr (Some j), s, w) /\ arr !! j = Some n.
Proof.
  intros Hok Hi Hu. assert (Hk : node_key (key_req (req_key n)) = node_key n) by done.
  destruct (table_find node_key zero_req coap_bsearch_compare arr (key_req (req_key n))) as (r & Hr & Hs);
    [apply Hok|unfold in_use in *; by rewrite Hk|].
  assert (Hlk : req_table arr !! node_key n = Some n) by (eapply table_lookup; [apply Hok|done|done]).
  unfold find_req. rewrite <- (co_length _ _ Hok), Hr. destruct r as [j|].
  - exists j. split; [done|]. destruct Hs as (m & Hm & _ & E). rewrite Hk, Hlk in E. by injection E as ->.
  - by rewrite Hk, Hlk in Hs.
Qed.

Lemma remove_coap_req_spec s k i n w : valid s -> node_at s k i n ->
  exists s', remove_coap_req (Some i) s w = Some (inr true, s', w) /\
    valid s' /\ same_config s s' /\ reqs s' = delete k (reqs s) /\ coap_req_cnt s' = coap_req_cnt s - 1.
Proof.
  intros [arr Hok] Hat. assert (Hat' := Hat). destruct Hat' as (arr' & Ha & Hi & Hn & Hk).
  assert (arr' = arr) as -> by (rewrite (co_array _ _ Hok) in Ha; congruence).
  assert (Hu : in_use node_key zero_req n) by (unfold in_use; rewrite node_key_zero; congruence).
  assert (Hlk : req_table arr !! k = Some n) by (rewrite <- Hn; eapply table_lookup; [apply Hok|done|done]).
  assert (Hcnt : coap_req_cnt s = 1 + Z.of_nat (size (delete k (req_table arr)))).
  { rewrite (co_count _ _ Hok), <- (insert_delete_id _ _ _ Hlk) at 1.
    rewrite map_size_insert_None by apply lookup_delete_eq. lia. }
  unfold remove_coap_req. rewrite (cbind_run get_coap _ s w s s w) by done.
  rewrite (proj2 (Z.eqb_neq _ 0)) by lia. rewrite (cbind_run _ _ _ _ _ _ _ (get_node_run i s w k n Hat)), Ha.
  destruct (find_req_node s arr i n w Hok Hi Hu) as (j & Ej & Hj). rewrite (cbind_run _ _ _ _ _ _ _ Ej).
  destruct (table_remove node_key zero_req coap_bsearch_compare arr j n) as (Ht & Hr & Hl); [apply Hok|done|done|].
  set (arr' := qsort coap_bsearch_compare (<[j := zero_req]> arr)) in *. rewrite Hn in Hr.
  set (s' := set_coap_req_cnt (coap_req_cnt s - 1) (set_coap_req_array (Some arr') s)). exists s'.
  assert (Hp : arr' ≡ₚ <[j := zero_req]> arr) by apply (qsort_permutation coap_bsearch_compare).
  split; [done|]. split; [|split; [done|split; [|done]]].
  - exists arr'. constructor; [done| |done| |].
    + rewrite Hl. apply Hok.
    + rewrite Hp. apply Forall_insert; [apply Hok|]. by apply zero_buf_ok.
    + cbn. rewrite Hr. lia.
  - by rewrite (reqs_array s' arr'), (reqs_array s arr), Hr.
Qed.

(** ** The array as a map *)

(** Looking a client up, and removing it, in a map of at most [max] clients. *)
Definition map_get (max : nat) (k : bytes) (req : EST_COAP_REQ) (m : gmap bytes coap_req_node_t)
    : option coap_req_node_t * gmap bytes coap_req_node_t :=
  match m !! k with
  | Some n =>
      let n' := if decide (cur_req n = req \/ req = EST_COAP_REQ_RESET) then n else reinit_node req n in
      (Some n', <[k := n']> m)
  | None =>
      if decide (size m < max)%nat then (Some (fresh_req k req), <[k := fresh_req k req]> m) else (None, m)
  end.

Definition map_event (max : nat) (event : coap_event_t) (k : bytes) (m : gmap bytes coap_req_node_t)
    : gmap bytes coap_req_node_t :=
  match event with
  | COAP_EVENT_DTLS_CONNECTED => snd (map_get max k EST_COAP_REQ_RESET m)
  | COAP_EVENT_DTLS_CLOSED => delete k m
  | COAP_EVENT_OTHER => m
  end.

Lemma valid_size s : valid s -> (size (reqs s) <= cur_max_coap_req_array s)%nat.
Proof.
  intros [arr Hok]. rewrite (reqs_array _ _ (co_array _ _ Hok)), <- (co_length _ _ Hok). unfold table.
  rewrite map_size_list_to_map by apply (co_table _ _ Hok). unfold entries. rewrite length_fmap. apply length_filter.
Qed.

Lemma same_config_max s s' : same_config s s' -> cur_max_coap_req_array s' = cur_max_coap_req_array s.
Proof. intros H. exact (f_equal cur_max_coap_req_array H). Qed.

Lemma got_req_map k req s r s' : valid s' -> same_config s s' -> got_req k req s r s' ->
  map_get (cur_max_coap_req_array s) k req (reqs s) = (r ≫= (fun i => coap_req_array s' ≫= (.!! i)), reqs s') /\
  (forall i, r = Some i -> exists n, node_at s' k i n).
Proof.
  intros Hv Hc. unfold got_req, map_get. destruct (reqs s !! k) as [n|] eqn:E.
  - intros (i & -> & Hat & Hr & _). split; [|intros ? [= <-]; eauto].
    destruct Hat as (arr & Ha & Hi & _). cbn. rewrite Ha. cbn. by rewrite Hi, Hr.
  - destruct r as [i|].
    + intros (_ & Hat & Hr & _). split; [|intros ? [= <-]; eauto].
      assert (Hs := valid_size s' Hv). rewrite Hr, map_size_insert_None, (same_config_max _ _ Hc) in Hs by done.
      rewrite decide_True by lia. destruct Hat as (arr & Ha & Hi & _). cbn. rewrite Ha. cbn. by rewrite Hi, Hr.
    + intros [-> Hs]. split; [|done]. by rewrite decide_False by lia.
Qed.

(** [get_coap_req] is the lookup of the map. *)
Lemma get_coap_req_map s addr k req w : ipstr_room -> valid s -> good_addr addr -> search_key addr = Some k ->
  exists r s', get_coap_req addr req s w = Some (inr r, s', w) /\ valid s' /\ same_config s s' /\
    map_get (cur_max_coap_req_array s) k req (reqs s) = (r ≫= (fun i => coap_req_array s' ≫= (.!! i)), reqs s') /\
    (forall i, r = Some i -> exists n, node_at s' k i n).
Proof.
  intros Hroom Hv Ha Hk. destruct (get_coap_req_spec s addr k req w Hroom Hv Hk (search_key_good _ _ Ha Hk))
    as (r & s' & E & Hv' & Hc & Hg).
  exists r, s'. split; [done|]. split; [done|]. split; [done|]. by apply got_req_map.
Qed.

Lemma map_get_delete max k req m : delete k (snd (map_get max k req m)) = delete k m.
Proof.
  unfold map_get. destruct (m !! k) as [n|] eqn:E; cbn; [by rewrite delete_insert_eq|].
  destruct (decide _); cbn; [by rewrite delete_insert_eq|done].
Qed.

End Array.
