(* ===== verification/CoapProps.v ===== *)
(** * CoapProps: what the events and the handlers of a CoAP server do to its requests

    The array refines a map from keys to requests, a key being the text of a client's
    port and address; a handler changes no request but that under the key of its own
    client; and every state a server reaches is well-formed. *)

From stdpp Require Import gmap.
From S2P Require Import Prelude.
From S2P Require Import SafeC.
From S2P Require Import EstTypes.
From S2P Require Import EstState.
From S2P Require Import Search.
From S2P Require Import Table.
From S2P Require Import EstUtil.
From S2P Require Import ClientProps.
From S2P Require Import ServerResponseProps.
From S2P Require Import CoapReq.
From S2P Require Import CoapServer.
From S2P Require Import EstLogic.
From S2P Require Import CoapReqProps.

(** Splits on what a hypothesis matches on. *)
Ltac destr_in H :=
  match type of H with
  | context [if ?x then _ else _] => destruct x
  | context [match ?x with Some _ => _ | None => _ end] => destruct x as [[]|]
  end.

Section Isolation.
Context {L : OpenSSL} {C : CoapLib}.

(** ** Parts of a handler that have the node of their client *)

(** Everything but the nodes. *)
Definition same_but_nodes (s s' : EST_COAP_CTX) : Prop :=
  set_coap_req_array None s' = set_coap_req_array None s.

Record kept (k : bytes) (i : nat) (s s' : EST_COAP_CTX) : Prop := {
  kp_valid : valid s';
  kp_node : exists n, node_at s' k i n;
  kp_others : forall k', k' <> k -> reqs s' !! k' = reqs s !! k';
  kp_config : same_but_nodes s s'
}.

Definition keeps (k : bytes) (i : nat) (a b : EST_COAP_CTX * world) : Prop :=
  valid (fst a) -> (exists n, node_at (fst a) k i n) -> kept k i (fst a) (fst b).

#[export] Instance keeps_preorder k i : PreOrder (keeps k i).
Proof.
  split.
  - intros [s w] Hv Hn. by split.
  - intros [s1 w1] [s2 w2] [s3 w3] H1 H2 Hv Hn. destruct (H1 Hv Hn) as [Hv2 Hn2 Ho2 Hc2].
    destruct (H2 Hv2 Hn2) as [Hv3 Hn3 Ho3 Hc3]. split; [done|done| |].
    + intros k' Hk. by rewrite Ho3, Ho2.
    + unfold same_but_nodes in *. cbn in *. by rewrite Hc3.
Qed.

Lemma keeps_lift k i {A} (m : M A) : csat (keeps k i) (lift m).
Proof. apply (csat_lift _ m (fun _ _ => True)); [intros s w w' _ Hv Hn; by split|done]. Qed.

(** A node changes and stays well-formed. *)
Lemma keeps_upd_node k i f : (forall n, req_key (f n) = req_key n) -> (forall n, node_ok n -> node_ok (f n)) ->
  csat (keeps k i) (upd_node i f).
Proof.
  intros Hk Hok s w r s' w' H Hv [n Hn]. rewrite (upd_node_run i f s w k n Hn) in H. injection H as _ <- _.
  destruct (with_node_spec s k i n (f n) Hv Hn) as (Hv' & Hn' & Hr).
  - destruct Hn as (arr & _ & _ & <- & _). unfold node_key. by rewrite Hk.
  - by eapply Hok, node_at_ok.
  - split; [done|by eexists| |done]. intros k' Hne. cbn. rewrite Hr. by apply lookup_insert_ne.
Qed.

Lemma keeps_reinit k i req : csat (keeps k i) (reinit_coap_req i req).
Proof. apply keeps_upd_node; [done|]. intros n. apply reinit_ok. Qed.

Lemma keeps_clear k i : csat (keeps k i) (upd_node i clear_req_buf).
Proof.
  apply keeps_upd_node; intros n; unfold clear_req_buf; destruct (negb _); try done.
  all: intros []; split; cbn; first [done | apply zero_buf_length | unfold COAP_REQ_NODE_BUF_LEN_MAX; lia].
Qed.

Lemma keeps_copy_block k i offset data : 0 <= offset -> csat (keeps k i) (copy_block i offset data).
Proof.
  intros Ho. unfold copy_block. destruct (_ >? _) eqn:E; [apply csat_undefined|]. b2p.
  apply keeps_upd_node; [done|]. intros n []. split; cbn; try done.
  - by rewrite length_store.
  - lia.
Qed.

Lemma keeps_store_response k i der : csat (keeps k i) (store_response i der).
Proof.
  unfold store_response. destruct (_ >? _) eqn:E; [apply csat_stop, _|]. b2p.
  apply keeps_upd_node; [done|]. intros n []. split; cbn; try done.
  - by rewrite length_store.
  - lia.
Qed.

#[local] Hint Resolve keeps_lift keeps_reinit keeps_clear keeps_store_response : csat.

Lemma keeps_receive_block k i b data : csat (keeps k i) (receive_block i b data).
Proof.
  assert (Ho : 0 <= block_offset b).
  { unfold block_offset, wrap_u. by apply Z.mod_pos_bound. }
  unfold receive_block. csat_auto; by apply keeps_copy_block.
Qed.

Lemma keeps_receive_request k i request response : csat (keeps k i) (receive_request i request response).
Proof.
  assert (Hb := keeps_receive_block k i). assert (Hc := fun d => keeps_copy_block k i 0 d ltac:(lia)).
  unfold receive_request. csat_auto.
Qed.

Lemma keeps_restart_request k i req request : csat (keeps k i) (restart_request i req request).
Proof. unfold restart_request. csat_auto. Qed.

Lemma keeps_received_csr k i : csat (keeps k i) (received_csr i).
Proof. unfold received_csr. csat_auto. Qed.

Lemma keeps_decode_response k i b64 n max : csat (keeps k i) (decode_response b64 n max).
Proof. unfold decode_response. csat_auto. Qed.

Lemma keeps_check_rc k i code : csat (keeps k i) (check_rc code).
Proof. unfold check_rc. csat_auto. Qed.

Lemma keeps_check_accept k i request media : csat (keeps k i) (check_accept request media).
Proof. unfold check_accept. csat_auto. Qed.

Lemma keeps_start_event k i peer uri : csat (keeps k i) (start_event peer uri).
Proof. unfold start_event. csat_auto. Qed.

Lemma keeps_string_copy k i buf : csat (keeps k i) (string_copy buf).
Proof. unfold string_copy. csat_auto. Qed.

Lemma keeps_send_response k i request response code media :
  csat (keeps k i) (send_response i request response code media).
Proof. unfold send_response. csat_auto. Qed.

#[local] Hint Resolve keeps_receive_request keeps_restart_request keeps_received_csr keeps_decode_response
  keeps_check_rc keeps_check_accept keeps_start_event keeps_string_copy keeps_send_response : csat.

Section Handlers.
Variables (ENABLE_BRSKI : bool) (uriparser : option (bytes -> option (list UriPathSegment))).
Variables (EST_VER_STRING : bytes) (malloc_junk : nat -> bytes).

Lemma keeps_run_enroll k i ssl peer csr b64 req :
  csat (keeps k i) (run_enroll ENABLE_BRSKI uriparser EST_VER_STRING malloc_junk ssl peer csr b64 req).
Proof. unfold run_enroll. csat_auto. Qed.

Lemma keeps_run_keygen k i ssl peer csr b64 :
  csat (keeps k i) (run_keygen ENABLE_BRSKI uriparser EST_VER_STRING malloc_junk ssl peer csr b64).
Proof. unfold run_keygen. csat_auto. Qed.

Lemma keeps_skg_response k i cert key : csat (keeps k i) (skg_response i cert key).
Proof. unfold skg_response. csat_auto. Qed.

#[local] Hint Resolve keeps_run_enroll keeps_run_keygen keeps_skg_response : csat.

Lemma keeps_sen_receive k i uri ssl peer req request response :
  csat (keeps k i) (sen_receive ENABLE_BRSKI uriparser EST_VER_STRING malloc_junk i uri ssl peer req request response).
Proof. unfold sen_receive, sen_request. csat_auto. Qed.

Lemma keeps_skg_receive k i uri ssl peer request response :
  csat (keeps k i) (skg_receive ENABLE_BRSKI uriparser EST_VER_STRING malloc_junk i uri ssl peer request response).
Proof. unfold skg_receive, skg_request. csat_auto. Qed.

Lemma keeps_crts_request k i uri peer request :
  csat (keeps k i) (crts_request ENABLE_BRSKI uriparser EST_VER_STRING malloc_junk i uri peer request).
Proof. unfold crts_request. csat_auto. Qed.

Lemma keeps_att_request k i uri peer request :
  csat (keeps k i) (att_request ENABLE_BRSKI uriparser EST_VER_STRING malloc_junk i uri peer request).
Proof. unfold att_request. csat_auto. Qed.

#[local] Hint Resolve keeps_sen_receive keeps_skg_receive keeps_crts_request keeps_att_request : csat.

(** ** Whole handlers *)

(** Only the request of the client at an address changes. *)
Record own_only (addr : coap_address_t) (s s' : EST_COAP_CTX) : Prop := {
  ow_valid : valid s';
  ow_others : forall k', search_key addr <> Some k' -> reqs s' !! k' = reqs s !! k';
  ow_config : same_config s s'
}.

Definition own (addr : coap_address_t) (a b : EST_COAP_CTX * world) : Prop :=
  valid (fst a) -> own_only addr (fst a) (fst b).

#[export] Instance own_preorder addr : PreOrder (own addr).
Proof.
  split.
  - intros [s w] Hv. by split.
  - intros [s1 w1] [s2 w2] [s3 w3] H1 H2 Hv. destruct (H1 Hv) as [Hv2 Ho2 Hc2].
    destruct (H2 Hv2) as [Hv3 Ho3 Hc3]. split; [done| |].
    + intros k' Hk. by rewrite Ho3, Ho2.
    + unfold same_config in *. cbn in *. by rewrite Hc3.
Qed.

Lemma kept_own addr k i s s' : search_key addr = Some k -> kept k i s s' -> own_only addr s s'.
Proof.
  intros Hk [Hv _ Ho Hc]. split; [done| |].
  - intros k' Hk'. apply Ho. congruence.
  - exact (f_equal (set_coap_req_cnt 0) Hc).
Qed.

Lemma own_lift addr {A} (m : M A) : csat (own addr) (lift m).
Proof. apply (csat_lift _ m (fun _ _ => True)); [intros s w w' _ Hv; by split|done]. Qed.

(** After the node of the client was found. *)
Lemma own_need_req addr req {A} (f : nat -> CM A) : good_addr addr ->
  (forall k i, csat (keeps k i) (f i)) -> csat (own addr) (need_req addr req ≫= f).
Proof.
  intros Ha Hf s w r s' w' H Hv. cbn in Hv.
  assert (Hroom : ipstr_room).
  { apply (get_coap_req_room addr req s w). intros E. unfold need_req, mbind, CM_bind in H. by rewrite E in H. }
  destruct (search_key addr) as [k|] eqn:Hk.
  2:{ unfold need_req, get_coap_req in H. destruct (clear_src_ipstr_room Hroom) as [f0 E0].
      rewrite E0, Hk in H. injection H as _ <- _. by split. }
  destruct (get_coap_req_map s addr k req w Hroom Hv Ha Hk) as (p & s1 & E & Hv1 & Hc1 & Hm & Hat).
  assert (Ho1 : own_only addr s s1).
  { split; [done| |done]. intros k' Hne. assert (Hr : reqs s1 = snd (map_get (cur_max_coap_req_array s) k req (reqs s)))
      by by rewrite Hm. rewrite Hr. unfold map_get. destruct (reqs s !! k); [|destruct (decide _)]; cbn; try done;
      by rewrite lookup_insert_ne by congruence. }
  assert (En : need_req addr req s w = match p with None => Some (inl (ErrorExit 500), s1, w) | Some i => Some (inr i, s1, w) end).
  { unfold need_req. rewrite (cbind_run _ _ _ _ _ _ _ E). by destruct p. }
  destruct p as [i|].
  - rewrite (cbind_run _ _ _ _ _ _ _ En) in H. apply Hf with (k := k) in H.
    assert (Hk1 := H Hv1 (Hat i eq_refl)). apply (kept_own addr) in Hk1; [|done].
    exact (@PreOrder_Transitive _ (own addr) _ (s, w) (s1, w) (s', w') (fun _ => Ho1) (fun _ => Hk1) Hv).
  - rewrite (cbind_stop _ _ _ _ _ _ _ En) in H. by injection H as _ <- _.
Qed.

Lemma own_finish addr peer uri response body :
  csat (own addr) body -> csat (own addr) (coap_finish peer uri response body).
Proof.
  intros Hb s w r s' w' H. unfold coap_finish in H.
  destruct (body s w) as [[[[[code pdu|code|code]|[code pdu]] s1] w1]|] eqn:E; [..|done].
  all: apply Hb in E; repeat destr_in H; try done; by injection H as _ <- _.
Qed.

Lemma own_check_content addr request : csat (own addr) (check_content_format request).
Proof. unfold check_content_format. csat_auto. Qed.

Lemma own_need_cert addr session : csat (own addr) (need_cert session).
Proof. unfold need_cert. csat_auto. Qed.

#[local] Hint Resolve own_check_content own_need_cert own_finish own_need_req : csat.

Lemma own_handler path method h uri session request response :
  good_addr (remote_addr session) ->
  (path, method, h) ∈ est_server_coap_init_resources ENABLE_BRSKI uriparser EST_VER_STRING malloc_junk ->
  csat (own (remote_addr session)) (h uri session request response).
Proof.
  intros Ha Hh. unfold est_server_coap_init_resources in Hh. rewrite !elem_of_cons, elem_of_nil in Hh.
  destruct Hh as [[= _ _ ->]|[[= _ _ ->]|[[= _ _ ->]|[[= _ _ ->]|[[= _ _ ->]|[]]]]]].
  all: unfold est_coap_sen_handler, est_coap_skg_handler, est_coap_crts_handler, est_coap_att_handler.
  all: apply own_finish; repeat first [apply own_need_req; [done|intros ??; csat_auto]|csat_step].
Qed.


(** Two clients whose ports are written with the same number of digits, and that differ
    in their port or in the text of their address. *)
Definition told_apart (a b : coap_address_t) : Prop :=
  let '(_, ip, port) := est_invoke_enroll_get_ip_port a in
  let '(_, ip', port') := est_invoke_enroll_get_ip_port b in
  length (fmt_d port) = length (fmt_d port') /\ (port <> port' \/ ip <> ip').

Lemma fmt_d_inj m n : 0 <= m < 65536 -> 0 <= n < 65536 -> fmt_d m = fmt_d n -> m = n.
Proof.
  intros Hm Hn E. rewrite <- (fmt_d_value m), <- (fmt_d_value n), E; [done|..]; split; try lia.
  all: etrans; [apply Hm || apply Hn|]; done.
Qed.

(** The key is the digits of the port and the text of the address. *)
Lemma search_key_parts addr k : good_addr addr -> search_key addr = Some k ->
  let '(_, ip, port) := est_invoke_enroll_get_ip_port addr in
  k = fmt_d port ++ ip /\ 0 <= port < 65536.
Proof.
  assert (Hcat : forall port ip, no_nul ip -> (length ip < INET6_ADDRSTRLEN)%nat ->
            match strcat_s (Some (fmt_d port)) (Z.of_nat MAX_SEARCH_STRING_LEN) (Some ip) with
            | (EOK, Some key) => Some key
            | _ => None
            end = Some k -> k = fmt_d port ++ ip).
  { intros port ip Hn Hl. unfold strcat_s. rewrite (cstr_id (fmt_d port)), (cstr_id ip) by (done || apply fmt_d_no_nul).
    rewrite take_ge by (unfold MAX_SEARCH_STRING_LEN, INET6_ADDRSTRLEN in *; lia). by intros [= <-]. }
  intros Ha Hk. unfold search_key in Hk. destruct addr as [port a|port a|]; cbn [est_invoke_enroll_get_ip_port] in *.
  - destruct Ha as [Hp Ha]. destruct (inet_ntop4 a) as [t|] eqn:E; [|done].
    destruct (inet_ntop4_text a t Ha E) as [Hn Hl]. split; [|done]. by apply Hcat.
  - destruct Ha as [Hp Ha]. destruct (inet_ntop6 a) as [t|] eqn:E; [|done].
    destruct (Ha t eq_refl) as [Hn Hl]. split; [|done]. by apply Hcat.
  - split; [|done]. apply Hcat; [constructor|by unfold INET6_ADDRSTRLEN; cbn; lia|done].
Qed.

Lemma search_key_apart a b k : good_addr a -> good_addr b -> told_apart a b ->
  search_key a = Some k -> search_key b <> Some k.
Proof.
  intros Ha Hb Ht Ka Kb. apply search_key_parts in Ka, Kb; [|done..]. unfold told_apart in Ht.
  destruct (est_invoke_enroll_get_ip_port a) as [[rc ip] port], (est_invoke_enroll_get_ip_port b) as [[rc' ip'] port'].
  destruct Ka as [-> Hp], Kb as [E Hp'], Ht as [Hl Hd]. apply app_inj_1 in E as [E ->]; [|done].
  apply fmt_d_inj in E; [|done..]. by destruct Hd.
Qed.

(** C32. Isolation. A handler of any CoAP resource, whatever the message and whatever the
    application and the upstream server do, leaves the array of requests well-formed,
    does not touch its configuration, and changes no request but the one stored under
    the key of the client it serves. So what another client has sent, and the response
    stored for it, stay as they were when its port has as many digits: the key is the
    port and the address with nothing between them, and a client whose port is shorter
    or longer can have the same key ([search_key_collision]). *)
Theorem coap_handler_isolated path method h uri session request response s w r s' w' :
  (path, method, h) ∈ est_server_coap_init_resources ENABLE_BRSKI uriparser EST_VER_STRING malloc_junk ->
  good_addr (remote_addr session) -> valid s ->
  h uri session request response s w = Some (r, s', w') ->
  valid s' /\ same_config s s' /\
  (forall k, search_key (remote_addr session) <> Some k -> reqs s' !! k = reqs s !! k) /\
  (forall client k, good_addr client -> told_apart client (remote_addr session) ->
     search_key client = Some k -> reqs s' !! k = reqs s !! k).
Proof.
  intros Hh Ha Hv H. destruct (own_handler _ _ _ uri _ request response Ha Hh _ _ _ _ _ H Hv) as [Hv' Ho Hc].
  split_and!; [done..|]. intros client k Hcl Ht Hk. apply Ho. by eapply search_key_apart.
Qed.

(** ** The states of a server *)

Definition get_req_spec (addr : coap_address_t) (req : EST_COAP_REQ) (s s' : EST_COAP_CTX) (r : option nat) : Prop :=
  match search_key addr with
  | Some k =>
      map_get (cur_max_coap_req_array s) k req (reqs s) = (r ≫= (fun i => coap_req_array s' ≫= (.!! i)), reqs s')
  | None => r = None /\ s' = s
  end.

Definition event_spec (event : coap_event_t) (addr : coap_address_t) (s : EST_COAP_CTX) : gmap bytes coap_req_node_t :=
  match search_key addr with
  | Some k => map_event (cur_max_coap_req_array s) event k (reqs s)
  | None => reqs s
  end.

Lemma get_coap_req_spec_all s addr req w : ipstr_room -> valid s -> good_addr addr ->
  exists r s', get_coap_req addr req s w = Some (inr r, s', w) /\ valid s' /\ same_config s s' /\
    get_req_spec addr req s s' r.
Proof.
  intros Hroom Hv Ha. unfold get_req_spec. destruct (search_key addr) as [k|] eqn:Hk.
  - destruct (get_coap_req_map s addr k req w Hroom Hv Ha Hk) as (r & s' & E & Hv' & Hc & Hm & _). by exists r, s'.
  - exists None, s. unfold get_coap_req. destruct (clear_src_ipstr_room Hroom) as [f0 ->]. by rewrite Hk.
Qed.

Lemma event_handler_spec s event addr w : ipstr_room -> valid s -> good_addr addr ->
  exists s', est_coap_event_handler event addr s w = Some (inr tt, s', w) /\ valid s' /\ same_config s s' /\
    reqs s' = event_spec event addr s.
Proof.
  intros Hroom Hv Ha. unfold event_spec, est_coap_event_handler. destruct (search_key addr) as [k|] eqn:Hk.
  2:{ exists s. unfold get_coap_req. destruct (clear_src_ipstr_room Hroom) as [f0 ->]. rewrite Hk. by destruct event. }
  destruct (get_coap_req_map s addr k EST_COAP_REQ_RESET w Hroom Hv Ha Hk) as (r & s1 & E & Hv1 & Hc1 & Hm & Hat).
  destruct event; cbn [map_event].
  - exists s1. rewrite (cbind_run _ _ _ _ _ _ _ E). split; [done|]. split; [done|]. split; [done|]. by rewrite Hm.
  - rewrite (cbind_run _ _ _ _ _ _ _ E). destruct r as [i|].
    + destruct (Hat i eq_refl) as [n Hn]. destruct (remove_coap_req_spec s1 k i n w Hv1 Hn) as (s2 & E2 & Hv2 & Hc2 & Hr2 & _).
      exists s2. rewrite (cbind_run _ _ _ _ _ _ _ E2). split; [done|]. split; [done|]. split.
      * unfold same_config in *. by rewrite Hc2.
      * rewrite Hr2. replace (reqs s1) with (snd (map_get (cur_max_coap_req_array s) k EST_COAP_REQ_RESET (reqs s)))
          by by rewrite Hm. apply map_get_delete.
    + exists s1. split; [done|]. split; [done|]. split; [done|].
      unfold map_get in Hm. destruct (reqs s !! k) eqn:El; [done|]. destruct (decide _); [done|].
      injection Hm as <-. by rewrite delete_id.
  - by exists s.
Qed.

(** C33. The array of requests refines a map from keys to requests, where the key of a
    client is its port followed by its address. In a well-formed state the search for
    the request of a client is a lookup of the map: it returns the node of its key,
    reinitialised when another resource is asked for, or a new node unless the map is
    full. The event handler adds the key of a new session and removes that of a closed
    one. Both return and leave a well-formed state, provided the compiler left room
    behind [src_ipstr] for the byte that the search clears there ([ipstr_room]). Clients
    with the same key share a request ([search_key_collision]). *)
Theorem coap_requests_refine s addr req event w :
  ipstr_room -> valid s -> good_addr addr ->
  (exists r s', get_coap_req addr req s w = Some (inr r, s', w) /\ valid s' /\ get_req_spec addr req s s' r) /\
  exists s', est_coap_event_handler event addr s w = Some (inr tt, s', w) /\ valid s' /\
    reqs s' = event_spec event addr s.
Proof.
  intros Hroom Hv Ha. destruct (get_coap_req_spec_all s addr req w Hroom Hv Ha) as (r & s1 & E1 & Hv1 & _ & H1).
  destruct (event_handler_spec s event addr w Hroom Hv Ha) as (s2 & E2 & Hv2 & _ & H2).
  split; [by exists r, s1|by exists s2].
Qed.

(** An event handler that returned. *)
Lemma event_handler_ran s event addr w r s' w' : valid s -> good_addr addr ->
  est_coap_event_handler event addr s w = Some (r, s', w') -> valid s' /\ same_config s s'.
Proof.
  intros Hv Ha H.
  assert (Hroom : event = COAP_EVENT_OTHER \/ ipstr_room).
  { destruct event; [right|right|by left]; apply (get_coap_req_room addr EST_COAP_REQ_RESET s w); intros E;
      unfold est_coap_event_handler, mbind, CM_bind in H; by rewrite E in H. }
  destruct Hroom as [->|Hroom]; [by injection H as _ <- _|].
  destruct (event_handler_spec s event addr w Hroom Hv Ha) as (s1 & E & Hv1 & Hc & _).
  rewrite E in H. by injection H as _ <- _.
Qed.

(** The states of the CoAP part: the server is initialised and configured, it is
    started on a port other than 0, and sessions are opened and closed and messages
    handled while it runs; other threads change the rest of the world. Two behaviours of
    the code are left out: it accepts port 0 and then takes the running server for a
    stopped one, and [est_server_set_dtls_session_max] that cannot allocate leaves the
    server without an array. *)
Inductive coap_reachable : EST_COAP_CTX -> world -> Prop :=
| coap_initialised w s w' :
    coap_init zero_coap_ctx w = Some (inr EST_ERR_NONE, s, w') -> coap_reachable s w'
| coap_world s w w' : coap_reachable s w -> coap_reachable s w'
| coap_timeout n s w r s' w' : coap_reachable s w ->
    est_server_set_dtls_handshake_timeout n s w = Some (r, s', w') -> coap_reachable s' w'
| coap_mtu n s w r s' w' : coap_reachable s w ->
    est_server_set_dtls_handshake_mtu n s w = Some (r, s', w') -> coap_reachable s' w'
| coap_session_max n s w rv s' w' : coap_reachable s w ->
    est_server_set_dtls_session_max n s w = Some (inr rv, s', w') -> rv <> EST_ERR_MALLOC -> coap_reachable s' w'
| coap_started port coap_ctx s w r s' w' : coap_reachable s w -> port <> 0 ->
    est_server_coap_init_start coap_ctx port s w = Some (r, s', w') -> coap_reachable s' w'
| coap_proxy_started port coap_ctx s w r s' w' : coap_reachable s w -> port <> 0 ->
    est_proxy_coap_init_start coap_ctx port s w = Some (r, s', w') -> coap_reachable s' w'
| coap_event event addr s w r s' w' : coap_reachable s w -> coap_server_port_num s <> 0 -> good_addr addr ->
    est_coap_event_handler event addr s w = Some (r, s', w') -> coap_reachable s' w'
| coap_message path method h uri session request response s w r s' w' :
    coap_reachable s w -> coap_server_port_num s <> 0 -> good_addr (remote_addr session) ->
    (path, method, h) ∈ est_server_coap_init_resources ENABLE_BRSKI uriparser EST_VER_STRING malloc_junk ->
    h uri session request response s w = Some (r, s', w') -> coap_reachable s' w'.

(** A well-formed CoAP part. *)
Record coap_wf (s : EST_COAP_CTX) : Prop := {
  wf_valid : valid s;
  wf_idle : coap_server_port_num s = 0 -> reqs s = ∅;
  wf_port : 0 <= coap_server_port_num s <= 65535;
  wf_timer : dtls_handshake_timer s = 0 \/ 2 <= dtls_handshake_timer s <= 60;
  wf_mtu : dtls_handshake_mtu s = 0 \/ 256 <= dtls_handshake_mtu s <= 1152;
  wf_max : Z.of_nat (cur_max_coap_req_array s) = dtls_session_max s /\ 2 <= dtls_session_max s <= 128
}.

Lemma zero_array_valid s n : coap_req_array s = Some (replicate n zero_req) ->
  cur_max_coap_req_array s = n -> coap_req_cnt s = 0 -> valid s /\ reqs s = ∅.
Proof.
  intros Ha Hn Hc. destruct (table_zero node_key zero_req coap_bsearch_compare n) as [Ht He].
  split; [|by rewrite (reqs_array _ _ Ha)]. exists (replicate n zero_req). constructor; [done| |done| |].
  - by rewrite length_replicate.
  - apply Forall_replicate, zero_buf_ok. apply length_replicate.
  - by rewrite Hc, He.
Qed.

Lemma idle_count s : valid s -> reqs s = ∅ -> coap_req_cnt s = 0.
Proof.
  intros [arr Hok] He. rewrite (co_count _ _ Hok). rewrite (reqs_array _ _ (co_array _ _ Hok)) in He. by rewrite He.
Qed.

Lemma same_config_wf s s' : same_config s s' -> valid s' -> coap_server_port_num s <> 0 -> coap_wf s -> coap_wf s'.
Proof.
  intros Hc Hv Hp [_ _ W1 W2 W3 W4].
  assert (E1 : coap_server_port_num s' = coap_server_port_num s) by exact (f_equal coap_server_port_num Hc).
  assert (E2 : dtls_handshake_timer s' = dtls_handshake_timer s) by exact (f_equal dtls_handshake_timer Hc).
  assert (E3 : dtls_handshake_mtu s' = dtls_handshake_mtu s) by exact (f_equal dtls_handshake_mtu Hc).
  assert (E4 : dtls_session_max s' = dtls_session_max s) by exact (f_equal dtls_session_max Hc).
  assert (E5 := same_config_max s s' Hc). split; [done|congruence|..]; congruence.
Qed.

Lemma init_req_array_run n s w rv s' w' :
  est_coap_init_req_array n s w = Some (inr rv, s', w') -> rv <> EST_ERR_MALLOC ->
  s' = set_cur_max_coap_req_array n (set_coap_req_array (Some (replicate n zero_req)) s).
Proof.
  intros H Hne. unfold est_coap_init_req_array in H.
  apply cbind_inv in H as [(ok & s1 & w1 & E & H)|(e & [=] & _)].
  apply lift_inv in E as (a & [= <-] & -> & E). destruct ok; cbn [negb] in H; injection H as <- <- <-; done.
Qed.

Lemma fresh_array_valid s n : coap_req_cnt s = 0 ->
  let s' := set_cur_max_coap_req_array n (set_coap_req_array (Some (replicate n zero_req)) s) in
  valid s' /\ reqs s' = ∅.
Proof. intros Hc. by apply (zero_array_valid _ n). Qed.

Lemma session_max_wf n s w rv s' w' : coap_wf s ->
  est_server_set_dtls_session_max n s w = Some (inr rv, s', w') -> rv <> EST_ERR_MALLOC -> coap_wf s'.
Proof.
  intros Hwf H Hne. unfold est_server_set_dtls_session_max in H. rewrite (cbind_run get_coap _ s w s s w) in H by done.
  destruct (Z.eqb_spec (coap_server_port_num s) 0) as [Hp|]; cbn [negb] in H; [|by injection H as _ <- _].
  unfold EST_DTLS_SESSION_MAX_MIN, EST_DTLS_SESSION_MAX_MAX in H.
  destruct (_ || _) eqn:Hr; [by injection H as _ <- _|]. b2p.
  rewrite (cbind_run (upd_coap _) _ s w tt (set_dtls_session_max n s) w) in H by done.
  apply init_req_array_run in H as ->; [|done]. destruct Hwf as [Hv Hi W1 W2 W3 W4].
  assert (H1' : n <= 128) by (destruct (Z.gtb_spec n 128); [done|lia]).
  destruct (fresh_array_valid (set_dtls_session_max n s) (Z.to_nat n)) as [Hv' He'].
  { cbn. by apply idle_count; [|apply Hi]. }
  split; [exact Hv'|by intros _|try done..]. cbn. rewrite Z2Nat.id; lia.
Qed.

Lemma start_wf coap_ctx port s w r s' w' : coap_wf s -> port <> 0 ->
  est_server_coap_init_start coap_ctx port s w = Some (r, s', w') -> coap_wf s'.
Proof.
  intros Hwf Hne H. unfold est_server_coap_init_start in H.
  apply cbind_inv in H as [(ctx & s1 & w1 & E & H)|(e & -> & E)].
  2:{ apply lift_inv in E as (a & _ & -> & _). done. }
  apply lift_inv in E as (a & [= <-] & -> & E). clear E.
  destruct (_ && _); [by injection H as _ <- _|].
  destruct (_ || _) eqn:Hr; [by injection H as _ <- _|]. b2p.
  rewrite (cbind_run (upd_coap _) _ s w1 tt (set_coap_server_port_num port s) w1) in H by done.
  assert (Hs : s' = set_coap_server_port_num port s).
  { destruct coap_ctx; cbn [negb] in H; [|by injection H as _ <- _].
    apply cbind_inv in H as [(x & s2 & w2 & E & H)|(e & -> & E)]; apply lift_inv in E as (y & _ & -> & _); [|done].
    by injection H as _ <- _. }
  subst s'. destruct Hwf as [[arr Hok] Hi W1 W2 W3 W4]. split; cbn; try done; try lia.
  exists arr. destruct Hok. by split.
Qed.

Lemma coap_init_wf w s w' : coap_init zero_coap_ctx w = Some (inr EST_ERR_NONE, s, w') -> coap_wf s.
Proof.
  intros H. unfold coap_init in H. erewrite (cbind_run (upd_coap _)) in H by reflexivity.
  apply init_req_array_run in H as ->; [|done].
  destruct (fresh_array_valid (set_dtls_session_max EST_DTLS_SESSION_MAX_DEF
    (set_dtls_handshake_mtu EST_DTLS_HANDSHAKE_MTU_DEF
      (set_dtls_handshake_timer EST_DTLS_HANDSHAKE_TIMEOUT_DEF zero_coap_ctx)))
    (Z.to_nat EST_DTLS_SESSION_MAX_DEF)) as [Hv' He']; [done|].
  split; [exact Hv'|by intros _|..].
  all: unfold EST_DTLS_SESSION_MAX_DEF, EST_DTLS_HANDSHAKE_MTU_DEF, EST_DTLS_HANDSHAKE_TIMEOUT_DEF; cbn; try lia.
Qed.

Lemma timeout_wf n s w r s' w' : coap_wf s ->
  est_server_set_dtls_handshake_timeout n s w = Some (r, s', w') -> coap_wf s'.
Proof.
  intros [[arr Hok] Hi W1 W2 W3 W4] H. unfold est_server_set_dtls_handshake_timeout in H.
  unfold EST_DTLS_HANDSHAKE_TIMEOUT_MIN, EST_DTLS_HANDSHAKE_TIMEOUT_MAX, EST_DTLS_HANDSHAKE_TIMEOUT_DEF in H.
  destruct (_ && _) eqn:Hr; injection H as _ <- _; [by split; [exists arr|..]|]. b2p.
  split; cbn; try done; [|lia]. exists arr. destruct Hok. by split.
Qed.

Lemma mtu_wf n s w r s' w' : coap_wf s ->
  est_server_set_dtls_handshake_mtu n s w = Some (r, s', w') -> coap_wf s'.
Proof.
  intros [[arr Hok] Hi W1 W2 W3 W4] H. unfold est_server_set_dtls_handshake_mtu in H.
  unfold EST_DTLS_HANDSHAKE_MTU_MIN, EST_DTLS_HANDSHAKE_MTU_MAX, EST_DTLS_HANDSHAKE_MTU_DEF in H.
  destruct (_ && _) eqn:Hr; injection H as _ <- _; [by split; [exists arr|..]|]. b2p.
  split; cbn; try done; [|lia]. exists arr. destruct Hok. by split.
Qed.

Lemma proxy_start_wf coap_ctx port s w r s' w' : coap_wf s -> port <> 0 ->
  est_proxy_coap_init_start coap_ctx port s w = Some (r, s', w') -> coap_wf s'.
Proof.
  intros Hwf Hne H. unfold est_proxy_coap_init_start in H.
  apply cbind_inv in H as [(ctx & s1 & w1 & E & H)|(e & -> & E)]; apply lift_inv in E as (a & _ & -> & _); [|done].
  destruct (bool_decide _); [by eapply start_wf|by injection H as _ <- _].
Qed.

(** C34. Every state a CoAP server reaches is well-formed, as long as it was not started
    on port 0 and no allocation of its array failed in [est_server_set_dtls_session_max]
    (a server started on port 0 counts as stopped, and may have its array replaced while
    it runs; both are left out of [coap_reachable]). It has between 2 and 128
    nodes, as many as sessions may be configured; the array is sorted by key, no two
    nodes in use have the same key, the free ones are zeroed, the buffers of all have
    their size, their lengths stay within it, and the counter is the number of nodes
    in use; the port, the timeout and the MTU are in their ranges, and there is no
    request before the server is started. *)
Theorem coap_reachable_wf s w : coap_reachable s w -> coap_wf s.
Proof.
  induction 1 as [w s w' H|s w w' _ IH|n s w r s' w' _ IH H|n s w r s' w' _ IH H|n s w rv s' w' _ IH H Hne
    |port cc s w r s' w' _ IH Hp H|port cc s w r s' w' _ IH Hp H|ev addr s w r s' w' _ IH Hp Ha H
    |path method h uri session req resp s w r s' w' _ IH Hp Ha Hh H].
  - by eapply coap_init_wf.
  - done.
  - by eapply timeout_wf.
  - by eapply mtu_wf.
  - by eapply session_max_wf.
  - by eapply start_wf.
  - by eapply proxy_start_wf.
  - destruct (event_handler_ran s ev addr w _ _ _ (wf_valid _ IH) Ha H) as [Hv Hc]. by eapply same_config_wf.
  - destruct (own_handler _ _ _ uri _ req resp Ha Hh _ _ _ _ _ H (wf_valid _ IH)) as [Hv' _ Hc].
    by eapply same_config_wf.
Qed.

End Handlers.

End Isolation.
