(* ===== verification/CoapUploadProps.v ===== *)
(** * CoapUploadProps: requests that arrive in blocks

    A request sent in blocks, some of them more than once, is handled as the same
    request in one message; a request longer than the buffer of its node is not
    handled at all: the handler writes past the end of the buffer. *)

From stdpp Require Import gmap.
From S2P Require Import Prelude.
From S2P Require Import SafeC.
From S2P Require Import EstTypes.
From S2P Require Import EstState.
From S2P Require Import EstUtil.
From S2P Require Import CoapReq.
From S2P Require Import CoapServer.
From S2P Require Import EstLogic.
From S2P Require Import ServerResponseProps.
From S2P Require Import CoapReqProps.

#[local] Opaque zero_buf.

(** ** Buffers *)

Lemma store_app a b buf i : store buf i (a ++ b) = store (store buf i a) (i + length a) b.
Proof.
  revert buf i. induction a as [|c a IH]; intros buf i; cbn.
  - by rewrite Nat.add_0_r.
  - rewrite IH. f_equal. lia.
Qed.

Lemma rd_store_before src buf i j : (j < i)%nat -> rd (store buf i src) j = rd buf j.
Proof.
  revert buf i. induction src as [|c r IH]; intros buf i Hj; cbn [store]; [done|]. rewrite IH by lia. unfold rd.
  rewrite !nth_lookup. by rewrite list_lookup_insert_ne by lia.
Qed.

Lemma rd_store_first c r buf : (0 < length buf)%nat -> rd (store buf 0 (c :: r)) 0 = c.
Proof. intros Hb. cbn [store]. rewrite rd_store_before by lia. destruct buf; cbn in *; [lia|done]. Qed.

(** What is in the request buffer of a node. *)
Definition received (d : bytes) (n : coap_req_node_t) : coap_req_node_t :=
  set_req_buf_len (Z.of_nat (length d)) (set_req_buf (store zero_buf 0 d) n).

Definition nothing_received (n : coap_req_node_t) : Prop := req_buf n = zero_buf /\ req_buf_len n = 0.

Lemma received_first d n : d <> [] -> rd (req_buf (received d n)) 0 = hd 0 d.
Proof.
  destruct d as [|c d]; [done|]. intros _. apply rd_store_first. assert (H := zero_buf_length).
  unfold COAP_REQ_NODE_BUF_LEN_MAX in H. lia.
Qed.

Lemma nothing_received_first n : nothing_received n -> rd (req_buf n) 0 = 0.
Proof. intros [-> _]. reflexivity. Qed.

Lemma received_more d c n : 
  set_req_buf_len (Z.of_nat (length d) + Z.of_nat (length c))
    (set_req_buf (store (req_buf (received d n)) (length d) c) (received d n)) = received (d ++ c) n.
Proof.
  unfold received. rewrite store_app, length_app. cbn. by rewrite Nat2Z.inj_add.
Qed.

Lemma received_ok d n : Z.of_nat (length d) <= COAP_REQ_NODE_BUF_LEN_MAX -> node_ok n -> node_ok (received d n).
Proof.
  intros Hd []. split; cbn; try done; [|lia]. rewrite length_store. apply zero_buf_length.
Qed.

Section Upload.
Context {L : OpenSSL} {C : CoapLib}.

Lemma with_node_twice i m n s : with_node i m (with_node i n s) = with_node i m s.
Proof.
  unfold with_node. destruct s as [p [arr|] c mx t u v]; cbn; [|done]. by rewrite list_insert_insert_eq.
Qed.

Lemma copy_block_run i off data s w k n : node_at s k i n -> off + Z.of_nat (length data) <= COAP_REQ_NODE_BUF_LEN_MAX ->
  copy_block i off data s w
  = Some (inr tt, with_node i (set_req_buf_len (off + Z.of_nat (length data))
                                (set_req_buf (store (req_buf n) (Z.to_nat off) data) n)) s, w).
Proof.
  intros Hn Ho. unfold copy_block.
  destruct (Z.gtb_spec (off + Z.of_nat (length data)) COAP_REQ_NODE_BUF_LEN_MAX); [lia|].
  by rewrite (upd_node_run _ _ _ _ _ _ Hn).
Qed.

(** ** The blocks of a request *)

(** The data in blocks of 2^(szx+4) bytes, the last one, of number [m], perhaps
    shorter. *)
Record in_blocks (szx : Z) (m : nat) (chunk : nat -> bytes) (data : bytes) : Prop := {
  ib_szx : 0 <= szx;
  ib_data : data = concat (chunk <$> seq 0 (S m));
  ib_full : forall j, (j < m)%nat -> Z.of_nat (length (chunk j)) = 2 ^ (szx + 4);
  ib_last : chunk m <> [];
  ib_size : Z.of_nat (length data) <= COAP_REQ_NODE_BUF_LEN_MAX;
  ib_first : hd 0 data <> 0
}.

Definition prefix (chunk : nat -> bytes) (j : nat) : bytes := concat (chunk <$> seq 0 j).

Lemma prefix_S chunk j : prefix chunk (S j) = prefix chunk j ++ chunk j.
Proof. unfold prefix. rewrite seq_S, fmap_app, concat_app. cbn. by rewrite app_nil_r. Qed.

Section Blocks.
Context (szx : Z) (m : nat) (chunk : nat -> bytes) (data : bytes).
Hypothesis Hb : in_blocks szx m chunk data.

Lemma prefix_full j : (j <= m)%nat -> Z.of_nat (length (prefix chunk j)) = Z.of_nat j * 2 ^ (szx + 4).
Proof.
  induction j as [|j IH]; intros Hj; [done|]. rewrite prefix_S, length_app, Nat2Z.inj_add, IH by lia.
  rewrite (ib_full _ _ _ _ Hb j) by lia. lia.
Qed.

Lemma prefix_all : prefix chunk (S m) = data.
Proof. symmetry. apply Hb. Qed.

Lemma prefix_size j : (j <= S m)%nat -> Z.of_nat (length (prefix chunk j)) <= COAP_REQ_NODE_BUF_LEN_MAX.
Proof.
  intros Hj. etrans; [|apply (ib_size _ _ _ _ Hb)]. rewrite <- prefix_all. unfold prefix.
  replace (S m) with (j + (S m - j))%nat by lia. rewrite seq_app, fmap_app, concat_app, length_app. lia.
Qed.

Lemma chunk_not_nil j : (j <= m)%nat -> chunk j <> [].
Proof.
  intros Hj. destruct (decide (j = m)) as [->|]; [apply Hb|].
  assert (H := ib_full _ _ _ _ Hb j ltac:(lia)). intros E0. rewrite E0 in H. cbn in H.
  pose proof (Z.pow_pos_nonneg 2 (szx + 4) ltac:(lia) ltac:(pose proof (ib_szx _ _ _ _ Hb); lia)). lia.
Qed.

Lemma prefix_more j : (0 < j <= S m)%nat -> prefix chunk j <> [] /\ hd 0 (prefix chunk j) = hd 0 data.
Proof.
  assert (H1 : prefix chunk 1 <> []).
  { unfold prefix. cbn. rewrite app_nil_r. apply chunk_not_nil. lia. }
  intros Hj. assert (Hp : exists r, prefix chunk j = prefix chunk 1 ++ r).
  { unfold prefix. replace j with (1 + (j - 1))%nat by lia. rewrite seq_app, fmap_app, concat_app. by eexists. }
  assert (Hd : exists r, data = prefix chunk 1 ++ r).
  { rewrite <- prefix_all. unfold prefix. replace (S m) with (1 + m)%nat by lia. rewrite seq_app, fmap_app, concat_app. by eexists. }
  destruct Hp as [r ->], Hd as [r' ->]. by destruct (prefix chunk 1).
Qed.

Definition block (j : nat) : coap_block_t := Build_coap_block_t (Z.of_nat j) (bool_decide (j < m)%nat) szx.

Lemma block_offset_prefix j : (j <= m)%nat -> block_offset (block j) = Z.of_nat (length (prefix chunk j)).
Proof.
  intros Hj. unfold block_offset, block, wrap_u. cbn [block_num block_szx].
  rewrite Z.shiftl_mul_pow2 by (pose proof (ib_szx _ _ _ _ Hb); lia). rewrite <- prefix_full by done.
  assert (H := prefix_size j ltac:(lia)). unfold COAP_REQ_NODE_BUF_LEN_MAX in H. apply Z.mod_small. lia.
Qed.

(** The next block. *)
Lemma receive_next i j s w k n : (j <= m)%nat -> valid s -> nothing_received n ->
  node_at s k i (received (prefix chunk j) n) ->
  receive_block i (block j) (chunk j) s w = Some (inr tt, with_node i (received (prefix chunk (S j)) n) s, w).
Proof.
  intros Hj Hv Hn Hat. unfold receive_block. rewrite (cbind_run _ _ _ _ _ _ _ (get_node_run _ _ w _ _ Hat)).
  cbn zeta. rewrite block_offset_prefix by done. assert (Hs := prefix_size (S j) ltac:(lia)).
  rewrite prefix_S, length_app in Hs. destruct j as [|j].
  - cbn [prefix]. change (prefix chunk 0) with (@nil Z) in *. cbn [length].
    assert (Hc : received [] n = n).
    { destruct n, Hn as [Hn1 Hn2]. cbn in *. unfold received. cbn. by rewrite Hn1, Hn2. }
    rewrite Hc in *. rewrite Z.eqb_refl.
    assert (Hcl : clear_req_buf n = n).
    { unfold clear_req_buf. rewrite nothing_received_first by done. cbn. destruct n, Hn as [_ Hn2]. cbn in *. by rewrite Hn2. }
    rewrite (cbind_run _ _ _ _ _ _ _ (upd_node_run _ _ _ w _ _ Hat)), Hcl.
    destruct (with_node_spec s k i n n Hv Hat) as (Hv1 & Hat1 & _); [by eapply node_at_key|by eapply node_at_ok|].
    rewrite (copy_block_run _ _ _ _ _ _ _ Hat1) by (cbn in *; lia). rewrite with_node_twice. rewrite prefix_S.
    cbn [Z.to_nat Z.of_nat]. by rewrite (proj1 Hn).
  - assert (Hp : 0 < Z.of_nat (length (prefix chunk (S j)))).
    { destruct (prefix_more (S j) ltac:(lia)) as [Hne _]. destruct (prefix chunk (S j)); [done|cbn; lia]. }
    rewrite (proj2 (Z.eqb_neq _ 0)) by lia. cbn [received req_buf_len set_req_buf_len].
    rewrite Z.gtb_ltb, Z.ltb_irrefl. rewrite (copy_block_run _ _ _ _ _ _ _ Hat) by lia.
    by rewrite Nat2Z.id, received_more, (prefix_S chunk (S j)).
Qed.

(** A block that is there already, not the first one. *)
Lemma receive_again i d j c s w k n : (0 < d < j)%nat -> (j <= m)%nat ->
  node_at s k i (received (prefix chunk j) n) ->
  receive_block i (block d) c s w = Some (inr tt, s, w).
Proof.
  intros Hd Hj Hat. unfold receive_block. rewrite (cbind_run _ _ _ _ _ _ _ (get_node_run _ _ w _ _ Hat)).
  cbn zeta. rewrite block_offset_prefix, !prefix_full by lia. cbn [received req_buf_len set_req_buf_len].
  rewrite prefix_full by lia.
  assert (Hp := Z.pow_pos_nonneg 2 (szx + 4) ltac:(lia) ltac:(pose proof (ib_szx _ _ _ _ Hb); lia)).
  rewrite (proj2 (Z.eqb_neq _ 0)) by nia.
  destruct (Z.gtb_spec (Z.of_nat d * 2 ^ (szx + 4)) (Z.of_nat j * 2 ^ (szx + 4))); [nia|].
  by rewrite (proj2 (Z.ltb_lt _ _)) by nia.
Qed.

End Blocks.

(** ** Messages *)

(** Messages to one resource, each answered before the next one comes: all but the
    last with 2.31 (Continue), which asks for the next block. *)
Fixpoint deliver {A} (h : coap_pdu -> CM A) (pdus : list coap_pdu) : CM A := fun s w =>
  match pdus with
  | [] => None
  | [p] => h p s w
  | p :: ps =>
      match h p s w with
      | Some (inl (Returned code _), s', w') => if code =? 231 then deliver h ps s' w' else None
      | _ => None
      end
  end.

(** The order in which the blocks up to the block [m] arrive when the block [j] is
    the next one: a block but the first may arrive again. *)
Inductive arrives (m : nat) : nat -> list nat -> Prop :=
| arrives_last : arrives m m [m]
| arrives_next j js : (j < m)%nat -> arrives m (S j) js -> arrives m j (j :: js)
| arrives_again j d js : (0 < d < j)%nat -> arrives m j js -> arrives m j (d :: js).

(** The messages with the blocks, and one message with the whole request. *)
Record upload (media szx : Z) (m : nat) (pdu : nat -> coap_pdu) (whole : coap_pdu)
    (chunk : nat -> bytes) (data : bytes) : Prop := {
  ul_blocks : in_blocks szx m chunk data;
  ul_pdu : forall j, (j <= m)%nat ->
    coap_get_block (pdu j) COAP_OPTION_BLOCK1 = Some (block szx m j) /\
    coap_get_data (pdu j) = Some (chunk j) /\
    est_coap_check_option (pdu j) COAP_OPTION_ACCEPT media = EST_ERR_NONE;
  ul_whole : coap_get_block whole COAP_OPTION_BLOCK1 = None /\
    coap_get_data whole = Some data /\
    est_coap_check_option whole COAP_OPTION_ACCEPT media = EST_ERR_NONE
}.

Section Staged.
Context (i : nat) (uri : bytes) (peer : option X509) (media : Z) (response : coap_pdu) (body : CM unit).

(** A handler up to the moment the whole request is there. *)
Definition staged (request : coap_pdu) : CM unit :=
  node ← get_node i;
  _ ← (if rd (req_buf node) 0 =? 0 then start_event peer uri else mret tt);
  _ ← check_accept request media;
  receive_request i request response.

Definition staged_body (request : coap_pdu) : CM unit := _ ← staged request; body.

Lemma staged_run request s w n w1 r s' w' k : node_at s k i n ->
  (if rd (req_buf n) 0 =? 0 then start_event peer uri else mret tt) s w = Some (inr tt, s, w1) ->
  est_coap_check_option request COAP_OPTION_ACCEPT media = EST_ERR_NONE ->
  receive_request i request response s w1 = Some (r, s', w') ->
  staged request s w = Some (r, s', w').
Proof.
  intros Hat He Ha Hr. unfold staged. rewrite (cbind_run _ _ _ _ _ _ _ (get_node_run _ _ w _ _ Hat)).
  rewrite (cbind_run _ _ _ _ _ _ _ He). unfold check_accept. rewrite Ha.
  by rewrite (cbind_run (mret tt) _ s w1 tt s w1) by done.
Qed.

Lemma receive_block_request request b c s w s' : coap_get_block request COAP_OPTION_BLOCK1 = Some b ->
  coap_get_data request = Some c -> c <> [] -> receive_block i b c s w = Some (inr tt, s', w) ->
  receive_request i request response s w
  = Some (if block_m b then inl (Returned 231 (continue_response response b)) else inr tt, s', w).
Proof.
  intros Hb Hd Hc Hr. unfold receive_request, payload. rewrite Hb, Hd. destruct c as [|x c]; [done|].
  rewrite (cbind_run _ _ _ _ _ _ _ Hr). by destruct (block_m b).
Qed.

Lemma start_event_run s w : exists w1, start_event peer uri s w = Some (inr tt, s, w1).
Proof.
  destruct (safe_endpoint peer uri EST_ENDPOINT_REQ_START w I) as ([] & w1 & E & _). exists w1.
  unfold start_event. by apply lift_run.
Qed.

Context (szx : Z) (m : nat) (pdu : nat -> coap_pdu) (whole : coap_pdu) (chunk : nat -> bytes) (data : bytes).
Hypothesis Hu : upload media szx m pdu whole chunk data.
Context (k : bytes) (s : EST_COAP_CTX) (n : coap_req_node_t).
Hypothesis Hv : valid s.
Hypothesis Hat : node_at s k i n.
Hypothesis Hn : nothing_received n.

(** The state when the first [j] blocks have been received. *)
Definition after (j : nat) : EST_COAP_CTX := with_node i (received (prefix chunk j) n) s.

Lemma after_ok j : (j <= S m)%nat -> valid (after j) /\ node_at (after j) k i (received (prefix chunk j) n).
Proof.
  intros Hj. destruct (with_node_spec s k i n (received (prefix chunk j) n) Hv Hat) as (Hv1 & Hat1 & _); [| |done].
  - exact (node_at_key s k i n Hat).
  - apply received_ok; [|by eapply node_at_ok]. eapply prefix_size; [apply Hu|done].
Qed.

(** A block after the first one. *)
Lemma staged_block d j w : (0 < d <= j)%nat -> (j <= m)%nat ->
  staged (pdu d) (after j) w
  = Some (if decide (d < m)%nat then inl (Returned 231 (continue_response response (block szx m d))) else inr tt,
          if decide (d = j) then after (S j) else after j, w).
Proof.
  intros Hd Hj. destruct (after_ok j ltac:(lia)) as [Hv1 Hat1]. destruct (ul_pdu _ _ _ _ _ _ _ Hu d ltac:(lia)) as (Hg & Hc & Ha).
  assert (Hr : receive_block i (block szx m d) (chunk d) (after j) w
               = Some (inr tt, if decide (d = j) then after (S j) else after j, w)).
  { destruct (decide (d = j)) as [->|Hne].
    - erewrite receive_next; [|apply Hu|done..]. unfold after. by rewrite with_node_twice.
    - eapply receive_again; [apply Hu| |done|done]. lia. }
  eapply staged_run; [exact Hat1| |done|].
  - rewrite received_first by (eapply prefix_more; [apply Hu|lia]).
    rewrite (proj2 (prefix_more szx m chunk data (ul_blocks _ _ _ _ _ _ _ Hu) j ltac:(lia))).
    rewrite (proj2 (Z.eqb_neq _ _) (ib_first _ _ _ _ (ul_blocks _ _ _ _ _ _ _ Hu))). done.
  - erewrite receive_block_request; [|exact Hg|exact Hc|eapply chunk_not_nil; [apply Hu|lia]|exact Hr].
    unfold block. cbn [block_m]. by destruct (decide (d < m)%nat) as [Hl|Hl]; [rewrite bool_decide_eq_true_2|rewrite bool_decide_eq_false_2].
Qed.

(** The first message, or the only one. *)
Lemma staged_first w w1 : start_event peer uri s w = Some (inr tt, s, w1) ->
  staged (pdu 0) s w
  = Some (if decide (0 < m)%nat then inl (Returned 231 (continue_response response (block szx m 0))) else inr tt,
          after 1, w1).
Proof.
  intros He. destruct (ul_pdu _ _ _ _ _ _ _ Hu 0%nat ltac:(lia)) as (Hg & Hc & Ha).
  assert (Hz : received (prefix chunk 0) n = n).
  { destruct n, Hn as [Hn1 Hn2]. cbn in *. unfold received. cbn. by rewrite Hn1, Hn2. }
  eapply staged_run; [exact Hat| |done|].
  - rewrite nothing_received_first by done. exact He.
  - erewrite receive_block_request; [|exact Hg|exact Hc|eapply chunk_not_nil; [apply Hu|lia]|].
    2:{ eapply receive_next; [apply Hu|lia|done|done|]. by rewrite Hz. }
    unfold block. cbn [block_m]. by destruct (decide (0 < m)%nat) as [Hl|Hl]; [rewrite bool_decide_eq_true_2|rewrite bool_decide_eq_false_2].
Qed.

Lemma staged_whole w w1 : start_event peer uri s w = Some (inr tt, s, w1) ->
  staged whole s w = Some (inr tt, after (S m), w1).
Proof.
  intros He. destruct (ul_whole _ _ _ _ _ _ _ Hu) as (Hg & Hc & Ha). assert (Hb := ul_blocks _ _ _ _ _ _ _ Hu).
  eapply staged_run; [exact Hat| |done|].
  - rewrite nothing_received_first by done. exact He.
  - unfold receive_request, payload. rewrite Hg, Hc. destruct data as [|c d] eqn:E.
    { exfalso. by apply (ib_first _ _ _ _ Hb). }
    rewrite <- E in *. rewrite (copy_block_run _ _ _ _ _ _ _ Hat) by (cbn [Z.add]; apply Hb).
    unfold after. rewrite (prefix_all szx m chunk data Hb). cbn [Z.to_nat Z.add]. unfold received.
    by rewrite (proj1 Hn).
Qed.

Lemma deliver_rest j js w : arrives m j js -> (0 < j)%nat ->
  deliver staged_body (pdu <$> js) (after j) w = body (after (S m)) w.
Proof.
  induction 1 as [|j js Hj Ha IH|j d js Hd Ha IH]; intros Hp.
  - cbn [fmap list_fmap deliver]. unfold staged_body. erewrite cbind_run; [reflexivity|].
    rewrite staged_block by lia. by rewrite decide_False, decide_True by lia.
  - assert (Hne : js <> []) by by destruct Ha. destruct js as [|j' js]; [done|]. cbn [fmap list_fmap deliver].
    unfold staged_body at 1. erewrite cbind_stop; [cbn [Z.eqb]|].
    2:{ rewrite staged_block by lia. rewrite decide_True by lia. rewrite decide_True by done. reflexivity. }
    apply IH. lia.
  - assert (Hne : js <> []) by by destruct Ha. assert (Hm : (j <= m)%nat).
    { clear -Ha. induction Ha; lia. }
    destruct js as [|j' js]; [done|]. cbn [fmap list_fmap deliver].
    unfold staged_body at 1. erewrite cbind_stop; [cbn [Z.eqb]|].
    2:{ rewrite staged_block by lia. rewrite decide_True by lia. rewrite decide_False by lia. reflexivity. }
    by apply IH.
Qed.

Lemma deliver_all js w : arrives m 0 js ->
  deliver staged_body (pdu <$> js) s w = staged_body whole s w.
Proof.
  intros Ha. destruct (start_event_run s w) as (w1 & He).
  assert (Hw : staged_body whole s w = body (after (S m)) w1).
  { unfold staged_body. by rewrite (cbind_run _ _ _ _ _ _ _ (staged_whole w w1 He)). }
  rewrite Hw. assert (Hf := staged_first w w1 He). inversion Ha as [Hm Hjs|j js' Hj Hr Hm Hjs|j d js' Hd Hr Hj Hjs]; [| |lia].
  - cbn [fmap list_fmap deliver]. unfold staged_body. rewrite decide_False in Hf by lia.
    by rewrite (cbind_run _ _ _ _ _ _ _ Hf).
  - rewrite decide_True in Hf by done. assert (Hne : js' <> []) by by destruct Hr.
    destruct js' as [|j' js']; [done|]. cbn [fmap list_fmap deliver].
    unfold staged_body at 1. rewrite (cbind_stop _ _ _ _ _ _ _ Hf). cbn [Z.eqb].
    exact (deliver_rest 1 (j' :: js') w1 Hr ltac:(lia)).
Qed.

End Staged.

Section Handlers.
Variables (ENABLE_BRSKI : bool) (uriparser : option (bytes -> option (list UriPathSegment))).
Variables (EST_VER_STRING : bytes) (malloc_junk : nat -> bytes).

Lemma deliver_ext {A} (h h' : coap_pdu -> CM A) pdus : (forall p s w, h p s w = h' p s w) ->
  forall s w, deliver h pdus s w = deliver h' pdus s w.
Proof.
  intros He. induction pdus as [|p ps IH]; intros s w; [done|]. cbn [deliver]. rewrite He.
  destruct ps as [|p' ps]; [done|]. destruct (h' p s w) as [[[[[code pdu|code|code]|x] s1] w1]|]; try done.
  by destruct (code =? 231).
Qed.

Lemma bind_assoc_run {A B D} (m : CM A) (f : A -> CM B) (g : B -> CM D) s w :
  (m ≫= (fun a => f a ≫= g)) s w = ((m ≫= f) ≫= g) s w.
Proof. unfold mbind, CM_bind. by destruct (m s w) as [[[[e|a] s1] w1]|]. Qed.

Lemma bind_ext_run {A B} (m : CM A) (f g : A -> CM B) s w : (forall a s1 w1, f a s1 w1 = g a s1 w1) ->
  (m ≫= f) s w = (m ≫= g) s w.
Proof. intros He. unfold mbind, CM_bind. destruct (m s w) as [[[[e|a] s1] w1]|]; [done|apply He|done]. Qed.

Lemma staged_body_handler i uri peer media response body request s w :
  staged_body i uri peer media response body request s w =
  (node ← get_node i;
   _ ← (if rd (req_buf node) 0 =? 0 then start_event peer uri else mret tt);
   _ ← check_accept request media;
   _ ← receive_request i request response;
   body) s w.
Proof.
  unfold staged_body, staged. symmetry. rewrite <- bind_assoc_run. apply bind_ext_run. intros node s1 w1.
  rewrite <- bind_assoc_run. apply bind_ext_run. intros [] s2 w2.
  rewrite <- bind_assoc_run. by apply bind_ext_run.
Qed.

(** C31. Block-wise requests. A CSR for enrollment, re-enrollment or key generation that
    a client sends in blocks, in order, and every block but the first perhaps more
    than once, is handled as the same CSR in one message: the blocks before the last
    are answered with 2.31, and what the last one does to the array and to the
    world - the events, the callbacks, the stored response or the error - is what the
    one message does. The blocks have 2^(szx+4) bytes, the request fits into the
    buffer of its node and its first byte is not NUL. *)
Theorem coap_upload_blockwise i uri ssl peer_cert req response szx m pdu whole chunk data js k s n w :
  valid s -> node_at s k i n -> nothing_received n -> arrives m 0 js ->
  let sen p := sen_receive ENABLE_BRSKI uriparser EST_VER_STRING malloc_junk i uri ssl peer_cert req p response in
  let skg p := skg_receive ENABLE_BRSKI uriparser EST_VER_STRING malloc_junk i uri ssl peer_cert p response in
  (upload COAP_MEDIA_TYPE_PKCS7_CERTS szx m pdu whole chunk data -> deliver sen (pdu <$> js) s w = sen whole s w) /\
  (upload COAP_MEDIA_TYPE_MULTI szx m pdu whole chunk data -> deliver skg (pdu <$> js) s w = skg whole s w).
Proof.
  intros Hv Hat Hn Ha. cbn zeta. split; intros Hu.
  all: erewrite deliver_ext by (intros p s1 w1; symmetry; apply staged_body_handler).
  all: erewrite deliver_all by done; apply staged_body_handler.
Qed.

Lemma copy_block_undefined i off d s k n w : node_at s k i n ->
  copy_block i off d s w = None <-> COAP_REQ_NODE_BUF_LEN_MAX < off + Z.of_nat (length d).
Proof.
  intros Hat. unfold copy_block. destruct (Z.gtb_spec (off + Z.of_nat (length d)) COAP_REQ_NODE_BUF_LEN_MAX); [done|].
  rewrite (upd_node_run _ _ _ _ _ _ Hat). split; [done|lia].
Qed.

Lemma bind_none {A B} (m : CM A) (f : A -> CM B) s w : (forall a s1 w1, f a s1 w1 <> None) ->
  (m ≫= f) s w = None <-> m s w = None.
Proof.
  intros Hf. unfold mbind, CM_bind. destruct (m s w) as [[[[e|a] s1] w1]|] eqn:E; [done| |done].
  split; [intros H; by apply Hf in H|done].
Qed.

(** A request longer than the buffer. A message that starts a request, or carries
    its next block, has no defined outcome exactly when what it carries and what has
    been received before are more than 16384 bytes together: the copy is bounded by
    the size of the message, not by what is left of the buffer. *)
Theorem coap_block_overflow i s k n request data response w :
  valid s -> node_at s k i n -> payload request = Some data ->
  let offset := match coap_get_block request COAP_OPTION_BLOCK1 with
                | Some b => block_offset b
                | None => 0
                end in
  (offset = 0 \/ offset = req_buf_len n) ->
  receive_request i request response s w = None <->
  COAP_REQ_NODE_BUF_LEN_MAX < offset + Z.of_nat (length data).
Proof.
  intros Hv Hat Hp. cbn zeta. unfold receive_request. rewrite Hp.
  destruct (coap_get_block request COAP_OPTION_BLOCK1) as [b|] eqn:Hb; [|intros _; by eapply copy_block_undefined].
  intros Ho. rewrite bind_none by (intros; by destruct (block_m b)).
  unfold receive_block. rewrite (cbind_run _ _ _ _ _ _ _ (get_node_run _ _ w _ _ Hat)). cbn zeta.
  destruct (Z.eqb_spec (block_offset b) 0) as [Hz|Hz].
  - rewrite (cbind_run _ _ _ _ _ _ _ (upd_node_run _ _ _ w _ _ Hat)).
    assert (Hok := node_at_ok _ _ _ _ Hv Hat).
    destruct (with_node_spec s k i n (clear_req_buf n) Hv Hat) as (_ & Hat1 & _).
    + apply node_at_key in Hat. unfold clear_req_buf. by destruct (negb _).
    + destruct Hok. unfold clear_req_buf.
      destruct (negb _); split; cbn; first [done | apply zero_buf_length | unfold COAP_REQ_NODE_BUF_LEN_MAX; lia].
    + by eapply copy_block_undefined.
  - destruct Ho as [Ho|Ho]; [done|]. rewrite Ho, Z.gtb_ltb, Z.ltb_irrefl. by eapply copy_block_undefined.
Qed.

End Handlers.

End Upload.
