(* ===== verification/CoapReplyProps.v ===== *)
(** * CoapReplyProps: what a CoAP server answers

    The CBOR of a key generation response is read back with a decoder that follows
    RFC 8949; the later blocks of a response come from the node of the client; the
    timeouts of a DTLS handshake double up to a minute. *)

From stdpp Require Import gmap.
From S2P Require Import Prelude.
From S2P Require Import SafeC.
From S2P Require Import EstTypes.
From S2P Require Import EstState.
From S2P Require Import EstUtil.
From S2P Require Import CoapReq.
From S2P Require Import CoapServer.
From S2P Require Import EstLogic.
From S2P Require Import ServerResponseProps.
From S2P Require Import CoapReqProps.

#[local] Opaque zero_buf.

(** ** Buffers *)

Lemma store_prefix src pre buf : (length src <= length buf)%nat ->
  store (pre ++ buf) (length pre) src = pre ++ src ++ drop (length src) buf.
Proof.
  revert pre buf. induction src as [|c r IH]; intros pre buf Hl; [done|]. destruct buf as [|b buf]; [cbn in Hl; lia|].
  cbn [store]. rewrite insert_app_r_alt by lia. rewrite Nat.sub_diag. cbn [list_insert insert].
  replace (pre ++ c :: buf) with ((pre ++ [c]) ++ buf) by (by rewrite <- app_assoc).
  replace (S (length pre)) with (length (pre ++ [c])) by (rewrite length_app; simpl; lia).
  rewrite IH by (cbn in Hl; lia). by rewrite <- app_assoc.
Qed.

Lemma take_store src buf : (length src <= length buf)%nat -> take (length src) (store buf 0 src) = src.
Proof.
  intros Hl. assert (E := store_prefix src [] buf Hl). cbn [app length] in E. rewrite E. by apply take_app_length.
Qed.

(** ** A reference decoder (RFC 8949, section 3) *)

Definition big_endian (l : bytes) : Z := fold_left (fun n c => n * 256 + c) l 0.

(** The number of bytes of an argument, from the additional information. *)
Definition argument_bytes (ai : Z) : option nat :=
  if ai <? 24 then Some 0%nat
  else if ai =? 24 then Some 1%nat else if ai =? 25 then Some 2%nat
  else if ai =? 26 then Some 4%nat else if ai =? 27 then Some 8%nat else None.

(** The major type and the argument of a data item, and what follows. *)
Definition cbor_head (s : bytes) : option (Z * Z * bytes) :=
  match s with
  | [] => None
  | b :: r =>
      k ← argument_bytes (b mod 32);
      if (length r <? k)%nat then None
      else Some (b / 32, if b mod 32 <? 24 then b mod 32 else big_endian (take k r), drop k r)
  end.

Definition cbor_uint (s : bytes) : option (Z * bytes) :=
  '(mt, n, r) ← cbor_head s; if mt =? 0 then Some (n, r) else None.

Definition cbor_byte_string (s : bytes) : option (bytes * bytes) :=
  '(mt, n, r) ← cbor_head s;
  if (mt =? 2) && (n <=? Z.of_nat (length r)) then Some (take (Z.to_nat n) r, drop (Z.to_nat n) r) else None.

(** An array of two content formats, each with its content. *)
Definition decode_skg (s : bytes) : option ((Z * bytes) * (Z * bytes)) :=
  '(mt, n, r) ← cbor_head s;
  if negb ((mt =? 4) && (n =? 4)) then None else
  '(f1, r) ← cbor_uint r; '(c1, r) ← cbor_byte_string r;
  '(f2, r) ← cbor_uint r; '(c2, r) ← cbor_byte_string r;
  match r with [] => Some ((f1, c1), (f2, c2)) | _ => None end.

(** ** The encoder *)

Lemma big_endian_length n len acc : 0 <= len ->
  fold_left (fun m c => m * 256 + c) (cbor_length_bytes n len) acc
  = acc * 256 ^ Z.of_nat n + len mod 256 ^ Z.of_nat n.
Proof.
  intros Hl. revert acc. induction n as [|n IH]; intros acc; cbn [cbor_length_bytes fold_left].
  - cbn. rewrite Z.mod_1_r. lia.
  - rewrite IH. rewrite Nat2Z.inj_succ, Z.pow_succ_r by lia. change 255 with (Z.ones 8).
    rewrite Z.land_ones, Z.shiftr_div_pow2 by lia. rewrite Z.pow_mul_r by lia. change (2 ^ 8) with 256.
    set (p := 256 ^ Z.of_nat n). assert (Hp : 0 < p) by (apply Z.pow_pos_nonneg; lia).
    rewrite (Z.mul_comm 256 p), Z.rem_mul_r by lia. lia.
Qed.

Lemma cbor_length_bytes_length n len : length (cbor_length_bytes n len) = n.
Proof. induction n as [|n IH]; cbn; [done|]. by rewrite IH. Qed.

Lemma cbor_head_wide ib k len r : 0 <= len < 256 ^ Z.of_nat k -> 24 <= ib mod 32 ->
  argument_bytes (ib mod 32) = Some k ->
  cbor_head (ib :: cbor_length_bytes k len ++ r) = Some (ib / 32, len, r).
Proof.
  intros Hl Hi Hk. unfold cbor_head. rewrite Hk. cbn [mbind option_bind]. assert (Hn := cbor_length_bytes_length k len).
  rewrite (proj2 (Nat.ltb_ge _ _)) by (rewrite length_app; lia).
  rewrite (proj2 (Z.ltb_ge _ _)) by lia. rewrite take_app_length', drop_app_length' by done.
  unfold big_endian. rewrite big_endian_length by lia. by rewrite Z.mod_small by lia.
Qed.

Lemma make_cbor_head len data r : 0 <= len < 2 ^ 64 ->
  let b := makeCborBytestring len data in
  cbor_head (initial_byte b :: cbor_length_bytes (Z.to_nat (n_length b)) (cbor_len b) ++ r) = Some (2, len, r) /\
  0 <= n_length b <= 8.
Proof.
  intros Hl. cbn zeta. unfold makeCborBytestring, INITIAL_BYTE_LENGTH_MAX, INITIAL_BYTE_BYTESTRING_SMALL_BASE.
  destruct (Z.leb_spec len 23); [|destruct (Z.leb_spec len 255); [|destruct (Z.leb_spec len 65535);
    [|destruct (Z.leb_spec len 4294967295)]]]; cbn [initial_byte n_length cbor_len].
  - split; [|lia]. change (Z.to_nat 0) with 0%nat. unfold cbor_head.
    assert (Hm : (64 + len) mod 32 = len) by (symmetry; apply (Z.mod_unique_pos _ _ 2); lia).
    assert (Hd : (64 + len) / 32 = 2) by (symmetry; apply (Z.div_unique_pos _ _ _ len); lia).
    rewrite Hm, Hd. unfold argument_bytes. rewrite (proj2 (Z.ltb_lt len 24)) by lia. done.
  - split; [|lia]. apply (cbor_head_wide 88 1); [change (256 ^ Z.of_nat 1) with (2 ^ 8); lia|done|done].
  - split; [|lia]. apply (cbor_head_wide 89 2); [change (256 ^ Z.of_nat 2) with (2 ^ 16); lia|done|done].
  - split; [|lia]. apply (cbor_head_wide 90 4); [change (256 ^ Z.of_nat 4) with (2 ^ 32); lia|done|done].
  - split; [|lia]. apply (cbor_head_wide 91 8); [change (256 ^ Z.of_nat 8) with (2 ^ 64); lia|done|done].
Qed.

Definition cbor_of (data : bytes) : cbor_bytestring := makeCborBytestring (Z.of_nat (length data)) data.

Lemma cbor_of_parts data : CoapServer.cbor_len (cbor_of data) = Z.of_nat (length data) /\ cbor_data (cbor_of data) = data.
Proof.
  unfold cbor_of, makeCborBytestring. by repeat (destruct (_ <=? _)).
Qed.

Lemma write_cbor_read data r : Z.of_nat (length data) < 2 ^ 64 ->
  cbor_byte_string (writeCborBytestring (cbor_of data) ++ r) = Some (data, r) /\
  Z.of_nat (length (writeCborBytestring (cbor_of data))) = 1 + (n_length (cbor_of data) + CoapServer.cbor_len (cbor_of data)).
Proof.
  intros Hl. destruct (cbor_of_parts data) as [Hc Hd].
  destruct (make_cbor_head (Z.of_nat (length data)) data (data ++ r)) as [Hh Hn]; [lia|].
  fold (cbor_of data) in Hh, Hn. unfold writeCborBytestring. rewrite Hd, Hc, Nat2Z.id, firstn_all. rewrite Hc in Hh. split.
  - unfold cbor_byte_string. cbn [app]. rewrite <- app_assoc, Hh. cbn [mbind option_bind].
    rewrite (proj2 (Z.leb_le _ _)) by (rewrite length_app; lia). cbn.
    by rewrite Nat2Z.id, take_app_length, drop_app_length.
  - cbn [length]. rewrite length_app, cbor_length_bytes_length. lia.
Qed.

Lemma cbor_uint16 a b r : cbor_uint (INITIAL_BYTE_UINT16 :: a :: b :: r) = Some (a * 256 + b, r).
Proof. reflexivity. Qed.

(** The body of a key generation response is read back. *)
Lemma skg_cbor_read key cert : Z.of_nat (length key) < 2 ^ 64 -> Z.of_nat (length cert) < 2 ^ 64 ->
  decode_skg (skg_cbor (cbor_of key) (cbor_of cert)) = Some ((284, key), (281, cert)).
Proof.
  intros Hk Hc. unfold decode_skg, skg_cbor. cbn [app].
  match goal with |- context [cbor_head ?l] => change (cbor_head l) with (Some (4, 4, tail l)) end.
  cbn [mbind option_bind tail]. change (negb ((4 =? 4) && (4 =? 4))) with false. cbn iota beta.
  rewrite cbor_uint16. cbn [mbind option_bind]. rewrite (proj1 (write_cbor_read key _ Hk)). cbn [mbind option_bind].
  rewrite cbor_uint16. cbn [mbind option_bind].
  assert (H := proj1 (write_cbor_read cert [] Hc)). rewrite app_nil_r in H. by rewrite H.
Qed.

Lemma skg_cbor_length key cert : Z.of_nat (length key) < 2 ^ 64 -> Z.of_nat (length cert) < 2 ^ 64 ->
  Z.of_nat (length (skg_cbor (cbor_of key) (cbor_of cert))) =
  1 + 1 + UINT16_SIZE + 1 + (n_length (cbor_of key) + CoapServer.cbor_len (cbor_of key)) + (1 + UINT16_SIZE + 1)
  + (n_length (cbor_of cert) + CoapServer.cbor_len (cbor_of cert)).
Proof.
  intros Hk Hc. destruct (write_cbor_read key [] Hk) as [_ H1], (write_cbor_read cert [] Hc) as [_ H2].
  unfold skg_cbor. rewrite !length_app. cbn [length]. unfold UINT16_SIZE. lia.
Qed.

Section Reply.
Context {L : OpenSSL} {C : CoapLib}.

Lemma store_response_run i der s w r s' w' k n : node_at s k i n ->
  store_response i der s w = Some (inr r, s', w') ->
  Z.of_nat (length der) <= COAP_REQ_NODE_BUF_LEN_MAX /\
  s' = with_node i (set_resp_buf_len (Z.of_nat (length der)) (set_resp_buf (store (resp_buf n) 0 der) n)) s.
Proof.
  intros Hat H. unfold store_response in H.
  destruct (Z.gtb_spec (Z.of_nat (length der)) COAP_REQ_NODE_BUF_LEN_MAX); [done|].
  rewrite (upd_node_run _ _ _ _ _ _ Hat) in H. by injection H as _ <- _.
Qed.

(** The data a node would send. *)
Definition response_data (n : coap_req_node_t) : bytes := take (Z.to_nat (resp_buf_len n)) (resp_buf n).

Lemma store_response_data i der s w r s' w' k n : valid s -> node_at s k i n ->
  store_response i der s w = Some (inr r, s', w') ->
  exists n', node_at s' k i n' /\ response_data n' = der.
Proof.
  intros Hv Hat H. destruct (store_response_run _ _ _ _ _ _ _ _ _ Hat H) as [Hl ->].
  assert (Hok := node_at_ok _ _ _ _ Hv Hat).
  set (m := set_resp_buf_len (Z.of_nat (length der)) (set_resp_buf (store (resp_buf n) 0 der) n)). exists m.
  destruct (with_node_spec s k i n m Hv Hat) as (_ & Hat' & _).
  - exact (node_at_key s k i n Hat).
  - destruct Hok. split; cbn; try done; [|lia]. by rewrite length_store.
  - split; [done|]. unfold response_data, m. cbn. rewrite Nat2Z.id. apply take_store.
    assert (H1 := nd_resp _ Hok). lia.
Qed.

(** [der] is what a string in base64 decodes to, cut at [max] characters. *)
Definition decoded (b64 : bytes) (max : Z) (der : bytes) : Prop :=
  exists n w w', 0 < n /\ est_base64_decode b64 (Z.min (Z.of_nat (length b64)) max) w = Some ((n, der), w').

Ltac cbind_case H a s1 w1 E := apply cbind_inv in H as [(a & s1 & w1 & E & H)|(? & [=] & _)].
Ltac lift_case H E := apply lift_inv in E as (? & [= <-] & -> & E).

Lemma alloc_case {A} (m : CM A) code s w (r : A) s' w' :
  (ok ← lift alloc; if negb ok then error code else m) s w = Some (inr r, s', w') ->
  exists w1, m s w1 = Some (inr r, s', w').
Proof.
  intros H. cbind_case H ok s1 w1 E. lift_case H E. destruct ok; [|done]. by exists w1.
Qed.

Lemma string_copy_case buf s w b s' w' : string_copy buf s w = Some (inr b, s', w') -> s' = s /\ buf = Some b.
Proof.
  intros H. apply alloc_case in H as [w1 H]. destruct buf as [c|]; [|done]. injection H as -> -> _. done.
Qed.

Lemma decode_response_case b64 max s w der s' w' :
  decode_response b64 (Z.of_nat (length b64)) max s w = Some (inr der, s', w') -> s' = s /\ decoded b64 max der.
Proof.
  intros H. unfold decode_response in H. cbind_case H p s1 w1 E. lift_case H E. destruct p as [n d].
  destruct (Z.leb_spec n 0); [done|]. injection H as <- <- _. split; [done|]. by exists n, w, w1.
Qed.

(** C35. The key generation response. When the handler has stored a response, what it
    will send is read by a decoder of CBOR as an array of the content format 284 with
    the decoded key and the content format 281 with the decoded certificate, and
    nothing else. *)
Theorem skg_response_decodes i cert key s w s' w' k n :
  valid s -> node_at s k i n ->
  skg_response i cert key s w = Some (inr tt, s', w') ->
  exists cert_b64 key_b64 max cert_der key_der n',
    cert = Some cert_b64 /\ key = Some key_b64 /\
    decoded key_b64 (COAP_REQ_NODE_BUF_LEN_MAX - 5) key_der /\ decoded cert_b64 max cert_der /\
    node_at s' k i n' /\ decode_skg (response_data n') = Some ((284, key_der), (281, cert_der)).
Proof.
  intros Hv Hat H. unfold skg_response in H. cbind_case H cb s1 w1 E1. apply string_copy_case in E1 as [-> ->].
  cbind_case H kb s2 w2 E2. apply string_copy_case in E2 as [-> ->].
  apply alloc_case in H as [w3 H]. cbind_case H kd s4 w4 E4. apply decode_response_case in E4 as [-> Hkd].
  apply alloc_case in H as [w5 H]. cbind_case H cd s6 w6 E6. apply decode_response_case in E6 as [-> Hcd].
  fold (cbor_of kd) (cbor_of cd) in H. destruct (_ >? COAP_REQ_NODE_BUF_LEN_MAX) eqn:Hm in H; [done|].
  cbind_case H ok s7 w7 E7. lift_case H E7. destruct (_ || _) in H; [done|].
  destruct (cbor_of_parts kd) as [Lk _], (cbor_of_parts cd) as [Lc _].
  assert (Hs : Z.of_nat (length kd) < 2 ^ 64 /\ Z.of_nat (length cd) < 2 ^ 64).
  { rewrite Lk, Lc, Z.gtb_ltb in Hm. b2p.
    assert (Hk0 : 0 <= n_length (cbor_of kd)) by (unfold cbor_of, makeCborBytestring; repeat (destruct (_ <=? _)); cbn; lia).
    assert (Hc0 : 0 <= n_length (cbor_of cd)) by (unfold cbor_of, makeCborBytestring; repeat (destruct (_ <=? _)); cbn; lia).
    unfold COAP_REQ_NODE_BUF_LEN_MAX, UINT16_SIZE in Hm. lia. }
  destruct (store_response_data _ _ _ _ _ _ _ _ _ Hv Hat H) as (n' & Hat' & Hd).
  eexists cb, kb, _, cd, kd, n'. split; [done|]. split; [done|]. split; [exact Hkd|]. split; [exact Hcd|].
  split; [done|]. rewrite Hd. apply skg_cbor_read; apply Hs.
Qed.

(** ** Resumed responses *)

(** A message that does not start a new request. *)
Definition resumes (request : coap_pdu) : Prop :=
  payload request = None \/
  exists b, coap_get_block request COAP_OPTION_BLOCK1 = Some b /\ block_num b <> 0.

Lemma resumes_spec request : resumes request ->
  bool_decide (is_Some (payload request)) &&
  match coap_get_block request COAP_OPTION_BLOCK1 with None => true | Some b => block_num b =? 0 end = false.
Proof.
  intros [->|(b & -> & Hb)]; [done|]. rewrite (proj2 (Z.eqb_neq _ _) Hb). apply andb_false_r.
Qed.

(** Two clients can share a node: nothing separates the port from the address in a
    key. *)
Lemma search_key_collision :
  search_key (AF_INET 5683 [1; 2; 3; 4]) = search_key (AF_INET 568 [31; 2; 3; 4]).
Proof. reflexivity. Qed.

Lemma restart_request_none i req request s w k n : node_at s k i n -> resumes request ->
  restart_request i req request s w = Some (inr tt, s, w).
Proof.
  intros Hat Hr. unfold restart_request. rewrite (cbind_run _ _ _ _ _ _ _ (get_node_run _ _ w _ _ Hat)). cbn zeta.
  rewrite <- andb_assoc, resumes_spec by done. by rewrite andb_false_r.
Qed.

Section Handlers.
Variables (ENABLE_BRSKI : bool) (uriparser : option (bytes -> option (list UriPathSegment))).
Variables (EST_VER_STRING : bytes) (malloc_junk : nat -> bytes).

(** Resumed responses. When the node of an address and port holds a generated key
    and its certificate, a message from there that does not start a new request is
    answered with them, for every session and every client certificate: the handler
    compares neither with those of the session that asked for the key. The array is
    left as it is. *)
Theorem skg_response_resumed uri session ssl peer_cert request response s w k i n :
  ipstr_room -> valid s -> good_addr (remote_addr session) -> search_key (remote_addr session) = Some k ->
  node_at s k i n -> cur_req n = EST_COAP_REQ_SKG -> rd (resp_buf n) 0 <> 0 ->
  tls session = Some ssl -> SSL_get_peer_certificate ssl = Some peer_cert ->
  est_coap_check_option request COAP_OPTION_CONTENT_TYPE COAP_MEDIA_TYPE_PKCS10 = EST_ERR_NONE ->
  resumes request ->
  exists s' w', est_coap_skg_handler ENABLE_BRSKI uriparser EST_VER_STRING malloc_junk uri session request response s w
    = Some (inr (coap_add_data_blocked_response request (204, response) COAP_MEDIA_TYPE_MULTI (-1) (response_data n)),
            s', w') /\ reqs s' = reqs s.
Proof.
  intros Hroom Hv Ha Hk Hat Hc Hr Ht Hp Hct Hres. destruct (search_key_good _ _ Ha Hk) as (_ & Hg & _).
  assert (Hlk := node_at_lookup s k i n Hv Hat).
  destruct (get_coap_req_spec s (remote_addr session) k EST_COAP_REQ_SKG w Hroom Hv Hk (search_key_good _ _ Ha Hk))
    as (r & s1 & E & Hv1 & _ & Hgot). unfold got_req in Hgot. rewrite Hlk, decide_True in Hgot by by left.
  destruct Hgot as (j & -> & Hat1 & Hr1 & _). exists s1.
  unfold est_coap_skg_handler, coap_finish. set (pdu := coap_add_data_blocked_response _ _ _ _ _).
  destruct (safe_endpoint (session_peer session) uri EST_ENDPOINT_REQ_END w I) as ([] & w2 & E2 & _).
  match goal with |- context [match ?b with None => None | Some _ => _ end] => assert (Hb : b = Some (inr pdu, s1, w)) end.
  { unfold check_content_format, need_cert. rewrite Hct, Ht, Hp.
    assert (En : need_req (remote_addr session) EST_COAP_REQ_SKG s w = Some (inr j, s1, w)).
    { unfold need_req. by rewrite (cbind_run _ _ _ _ _ _ _ E). }
    change ((i ← need_req (remote_addr session) EST_COAP_REQ_SKG;
             _ ← restart_request i EST_COAP_REQ_SKG request;
             node ← get_node i;
             _ ← (if rd (resp_buf node) 0 =? 0
                  then skg_receive ENABLE_BRSKI uriparser EST_VER_STRING malloc_junk i uri ssl peer_cert request response
                  else mret tt);
             send_response i request response 204 COAP_MEDIA_TYPE_MULTI) s w = Some (inr pdu, s1, w)).
    rewrite (cbind_run _ _ _ _ _ _ _ En).
    rewrite (cbind_run _ _ _ _ _ _ _ (restart_request_none j EST_COAP_REQ_SKG request s1 w k n Hat1 Hres)).
    rewrite (cbind_run _ _ _ _ _ _ _ (get_node_run _ _ w _ _ Hat1)), (proj2 (Z.eqb_neq _ _) Hr).
    unfold send_response. rewrite (cbind_run (mret tt) _ s1 w tt s1 w) by done.
    by rewrite (cbind_run _ _ _ _ _ _ _ (get_node_run _ _ w _ _ Hat1)). }
  rewrite Hb. destruct pdu as [code p] eqn:Ep. rewrite Hr1, insert_id by done.
  destruct (match coap_get_block p COAP_OPTION_BLOCK2 with Some b => block_m b | None => false end).
  - by exists w.
  - rewrite E2. by exists w2.
Qed.

End Handlers.

(** ** The timer of a handshake *)

(** The timeout after [n] retransmissions. *)
Definition timeout (ectx : EST_COAP_CTX) (n : nat) : Z := Nat.iter (S n) (est_coap_dtls_timer_callback ectx) 0.

(** The timeouts of a DTLS handshake. With a timeout of 2 to 60 seconds configured,
    the timeout before the n-th retransmission is the configured one doubled n times,
    at most a minute; the doubling never overflows. *)
Theorem dtls_timeout_doubles ectx n : 2 <= dtls_handshake_timer ectx <= 60 ->
  timeout ectx n = Z.min (dtls_handshake_timer ectx * 1000000 * 2 ^ Z.of_nat n) 60000000.
Proof.
  intros Ht. unfold timeout. induction n as [|n IH].
  - change (Nat.iter 1 (est_coap_dtls_timer_callback ectx) 0) with (est_coap_dtls_timer_callback ectx 0).
    unfold est_coap_dtls_timer_callback. rewrite Z.eqb_refl. cbn [Z.of_nat].
    unfold wrap_u. destruct (Z.gtb_spec (dtls_handshake_timer ectx * 1000 * 1000) 60000000); rewrite Z.mod_small; lia.
  - change (Nat.iter (S (S n)) (est_coap_dtls_timer_callback ectx) 0)
      with (est_coap_dtls_timer_callback ectx (Nat.iter (S n) (est_coap_dtls_timer_callback ectx) 0)).
    rewrite IH, Nat2Z.inj_succ, Z.pow_succ_r by lia. set (p := 2 ^ Z.of_nat n). assert (Hp : 0 < p) by (apply Z.pow_pos_nonneg; lia).
    set (x := Z.min (dtls_handshake_timer ectx * 1000000 * p) 60000000).
    assert (Hx : 0 < x <= 60000000) by (unfold x; split; [apply Z.min_glb_lt; nia|lia]).
    unfold est_coap_dtls_timer_callback. rewrite (proj2 (Z.eqb_neq x 0)) by lia.
    unfold wrap_s, wrap_u. rewrite (Z.mod_small (2 * x)) by lia. rewrite (Z.mod_small (2 * x)) by lia.
    rewrite (proj2 (Z.ltb_lt (2 * x) _)) by lia.
    destruct (Z.gtb_spec (2 * x) 60000000); rewrite Z.mod_small by lia; unfold x in *; lia.
Qed.

End Reply.
