(* ===== verification/Timers.v ===== *)
(** * Timers: the performance timers (est.c, est_server_coap.c)

    A timer remembers its start and, once stopped, its end; its context tells whether
    timers are enabled. A CoAP client's session has three of them: over the whole
    session, over the handling of a request, and over the gap between requests.

    The clock is a parameter: the n-th call of [gettimeofday] reads [clock n]. What is
    logged is the tag, the identifier and the elapsed time. Builds for Windows, where
    every function does nothing, are not modelled.

    What the timers of a CoAP session measure. *)

From S2P Require Import Prelude.
From S2P Require Import SafeC.
From S2P Require Import EstTypes.
From S2P Require Import CoapReq.

(** Seconds and microseconds. *)
Abbreviation timeval := (Z * Z)%type.

Definition timerisset (t : timeval) : bool := negb (fst t =? 0) || negb (snd t =? 0).

(** [timersub]: the difference, its microseconds made positive once. *)
Definition timersub (a b : timeval) : timeval :=
  let sec := fst a - fst b in
  let usec := snd a - snd b in
  if usec <? 0 then (sec - 1, usec + 1000000) else (sec, usec).

Record EST_TIMER := {
  t_start : timeval;
  t_end : timeval;
  t_ctx : bool;
  t_tag : option bytes
}.

Definition null_timer : EST_TIMER := Build_EST_TIMER (0, 0) (0, 0) false None.

Definition is_same_time (time1 time2 : timeval) : bool := (fst time1 =? fst time2) && (snd time1 =? snd time2).

Definition is_started (timer : EST_TIMER) : bool := bool_decide (is_Some (t_tag timer)) && timerisset (t_start timer).
Definition is_stopped (timer : EST_TIMER) : bool := negb (bool_decide (is_Some (t_tag timer))) || timerisset (t_end timer).
Definition is_running (timer : EST_TIMER) : bool := is_started timer && negb (is_stopped timer).

(** The switch of the context, the number of readings, and what was logged. *)
Record timing := {
  perf_enabled : bool;
  readings : nat;
  timer_log : list (bytes * option bytes * timeval)
}.

Definition est_enable_performance_timers (ctx : option timing) : EST_ERROR * option timing :=
  match ctx with
  | None => (EST_ERR_NO_CTX, None)
  | Some c => (EST_ERR_NONE, Some (Build_timing true (readings c) (timer_log c)))
  end.

Definition est_disable_performance_timers (ctx : option timing) : EST_ERROR * option timing :=
  match ctx with
  | None => (EST_ERR_NO_CTX, None)
  | Some c => (EST_ERR_NONE, Some (Build_timing false (readings c) (timer_log c)))
  end.

(** ** Runs *)

Definition TM (A : Type) : Type := timing -> A * timing.
#[global] Instance TM_ret : MRet TM := fun A x s => (x, s).
#[global] Instance TM_bind : MBind TM := fun A B f m s => let '(x, s') := m s in f x s'.

Section Timers.
Variable clock : nat -> timeval.

Definition enabled : TM bool := fun s => (perf_enabled s, s).
Definition gettimeofday : TM timeval :=
  fun s => (clock (readings s), Build_timing (perf_enabled s) (S (readings s)) (timer_log s)).
Definition log_timer (tag : bytes) (id : option bytes) (diff : timeval) : TM unit :=
  fun s => (tt, Build_timing (perf_enabled s) (readings s) (timer_log s ++ [(tag, id, diff)])).

(** The return value and the timer; [ctx] tells whether there is a context. *)
Definition start_timer (timer : option EST_TIMER) (ctx : bool) (tag : option bytes)
    : TM (Z * option EST_TIMER) :=
  match timer, tag with
  | None, _ => mret (-1, None)
  | Some _, None => mret (-1, Some null_timer)
  | Some _, Some t =>
      if negb ctx then mret (-1, Some null_timer) else
      en ← enabled;
      if negb en then mret (1, Some (Build_EST_TIMER (0, 0) (0, 0) true None)) else
      now ← gettimeofday;
      mret (1, Some (Build_EST_TIMER now (0, 0) true (Some t)))
  end.

(** The end of both functions that stop a timer. *)
Definition stop_and_log (timer : EST_TIMER) (id : option bytes) : TM (Z * option EST_TIMER) :=
  en ← enabled;
  if negb en then mret (1, Some timer) else
  match t_tag timer with
  | None => mret (-1, Some timer)
  | Some tag =>
      now ← gettimeofday;
      _ ← log_timer tag id (timersub now (t_start timer));
      mret (1, Some (Build_EST_TIMER (t_start timer) now (t_ctx timer) (Some tag)))
  end.

Definition stop_timer (timer : option EST_TIMER) : TM (Z * option EST_TIMER) :=
  match timer with
  | None => mret (-1, None)
  | Some t => if negb (t_ctx t) then mret (-1, Some t) else stop_and_log t None
  end.

Definition stop_timer_with_id (timer : option EST_TIMER) (id : option bytes) : TM (Z * option EST_TIMER) :=
  match timer with
  | None => mret (-1, None)
  | Some t => if negb (t_ctx t) then mret (-1, Some t)
              else match id with
                   | None => mret (-1, Some t)
                   | Some _ => stop_and_log t id
                   end
  end.

(** The calls on a timer that is there. *)
Definition start (timer : EST_TIMER) (tag : bytes) : TM EST_TIMER :=
  '(_, t) ← start_timer (Some timer) true (Some tag); mret (default null_timer t).
Definition stop_id (timer : EST_TIMER) (id : bytes) : TM EST_TIMER :=
  '(_, t) ← stop_timer_with_id (Some timer) (Some id); mret (default null_timer t).

(** ** A request of the HTTP server *)

Definition http_timer_tag (op : EST_OPERATION) : option bytes :=
  match op with
  | EST_OP_CACERTS => Some (lit "HTTP cacerts req")
  | EST_OP_CSRATTRS => Some (lit "HTTP csrattrs req")
  | EST_OP_SIMPLE_ENROLL => Some (lit "HTTP simpleenroll req")
  | EST_OP_SIMPLE_REENROLL => Some (lit "HTTP simplereenroll req")
  | EST_OP_SERVER_KEYGEN => Some (lit "HTTP serverkeygen req")
  | _ => None
  end.

Definition start_http_req_timer (timer : EST_TIMER) (op : EST_OPERATION) : TM EST_TIMER :=
  en ← enabled;
  if negb en then mret (Build_EST_TIMER (t_start timer) (t_end timer) true (t_tag timer))
  else match http_timer_tag op with
       | None => mret timer
       | Some tag => start timer tag
       end.

(** ** The timers of a CoAP request (est.c) *)

Record coap_timers := {
  session_timer : EST_TIMER;
  handle_req_timer : EST_TIMER;
  req_gap_timer : EST_TIMER
}.

Definition coap_tag (prefix : bytes) (req : EST_COAP_REQ) : option bytes :=
  match req with
  | EST_COAP_REQ_CRTS => Some (prefix ++ lit "crts")
  | EST_COAP_REQ_ATT => Some (prefix ++ lit "att")
  | EST_COAP_REQ_SEN => Some (prefix ++ lit "sen")
  | EST_COAP_REQ_SREN => Some (prefix ++ lit "sren")
  | EST_COAP_REQ_SKG => Some (prefix ++ lit "skg")
  | _ => None
  end.

(** The second assignment is to the session timer again. *)
Definition start_coap_req_timers (cur_req : EST_COAP_REQ) (t : coap_timers) : TM coap_timers :=
  let with_ctx timer := Build_EST_TIMER (t_start timer) (t_end timer) true (t_tag timer) in
  en ← enabled;
  if negb en then
    mret (Build_coap_timers (with_ctx (session_timer t)) (with_ctx (handle_req_timer t)) (req_gap_timer t))
  else match cur_req with
       | EST_COAP_REQ_RESET =>
           if negb (is_started (session_timer t)) then
             s ← start (session_timer t) (lit "CoAP session_timer");
             g ← start (req_gap_timer t) (lit "CoAP req_gap_timer");
             mret (Build_coap_timers s (handle_req_timer t) g)
           else mret t
       | _ =>
           match coap_tag (lit "CoAP handle_req_timer ") cur_req with
           | None => mret t
           | Some tag =>
               if negb (is_started (handle_req_timer t)) then
                 h ← start (handle_req_timer t) tag;
                 mret (Build_coap_timers (session_timer t) h (req_gap_timer t))
               else mret t
           end
       end.

Definition enter_wait_coap_req_timers (cur_req : EST_COAP_REQ) (key : bytes) (t : coap_timers) : TM coap_timers :=
  en ← enabled;
  if negb en then mret t
  else match coap_tag (lit "CoAP req_gap_timer ") cur_req with
       | None => mret t
       | Some tag =>
           h ← (if is_started (handle_req_timer t) then stop_id (handle_req_timer t) key
                else mret (handle_req_timer t));
           g ← (if negb (is_started (req_gap_timer t)) then start (req_gap_timer t) tag
                else mret (req_gap_timer t));
           mret (Build_coap_timers (session_timer t) h g)
       end.

(** ** Their use by the array of requests (est_server_coap.c) *)

(** A handling that is still timed, and the gap, are stopped. *)
Definition stop_request_timers (key : bytes) (t : coap_timers) : TM coap_timers :=
  h ← (if is_running (handle_req_timer t) then stop_id (handle_req_timer t) key else mret (handle_req_timer t));
  g ← (if is_started (req_gap_timer t) then stop_id (req_gap_timer t) key else mret (req_gap_timer t));
  mret (Build_coap_timers (session_timer t) h g).

(** [reinit_coap_req] for the request [new_req]. *)
Definition reinit_timers (new_req : EST_COAP_REQ) (key : bytes) (t : coap_timers) : TM coap_timers :=
  t ← stop_request_timers key t;
  start_coap_req_timers new_req (Build_coap_timers (session_timer t) null_timer null_timer).

(** [remove_coap_req], which zeroes the node. *)
Definition remove_timers (key : bytes) (t : coap_timers) : TM coap_timers :=
  s ← stop_id (session_timer t) key;
  _ ← stop_request_timers key (Build_coap_timers s (handle_req_timer t) (req_gap_timer t));
  mret (Build_coap_timers null_timer null_timer null_timer).

(** ** The down time of a CoAP server *)

(** The timer and whether it was initialised. *)
Definition start_down_time_timer (timer : EST_TIMER) (initialized : bool) : TM (EST_TIMER * bool) :=
  en ← enabled;
  t ← start timer (lit "CoAP Down Time Timer");
  mret (t, initialized || en).

Definition stop_down_time_timer (timer : EST_TIMER) (initialized : bool) : TM EST_TIMER :=
  if initialized then '(_, t) ← stop_timer (Some timer); mret (default null_timer t) else mret timer.

End Timers.

(** ** Differences of times *)

Definition micros (t : timeval) : Z := fst t * 1000000 + snd t.
Definition valid_time (t : timeval) : Prop := 0 <= snd t < 1000000.

(** The difference is exact and normalised. *)
Lemma timersub_exact a b : valid_time a -> valid_time b ->
  micros (timersub a b) = micros a - micros b /\ valid_time (timersub a b).
Proof.
  unfold micros, valid_time, timersub. intros Ha Hb. destruct (_ <? _) eqn:E; b2p; cbn [fst snd]; lia.
Qed.

Section Session.
Variable clock : nat -> timeval.
(** The clock does not show the epoch. *)
Hypothesis clock_set : forall i, timerisset (clock i) = true.

Abbreviation running n tag := (Build_EST_TIMER (clock n) (0, 0) true (Some tag)).

(** The session of the client with the key [key], from its first request to its end:
    each request restarts the timers and ends in a wait. *)
Fixpoint requests (key : bytes) (reqs : list EST_COAP_REQ) (t : coap_timers) : TM coap_timers :=
  match reqs with
  | [] => mret t
  | r :: rest =>
      t ← reinit_timers clock r key t;
      t ← enter_wait_coap_req_timers clock r key t;
      requests key rest t
  end.

Definition no_timers : coap_timers := Build_coap_timers null_timer null_timer null_timer.

Definition session (key : bytes) (reqs : list EST_COAP_REQ) : TM coap_timers :=
  t ← start_coap_req_timers clock EST_COAP_REQ_RESET no_timers;
  t ← requests key reqs t;
  remove_timers clock key t.

Definition name_of (prefix : bytes) (r : EST_COAP_REQ) : bytes := default [] (coap_tag prefix r).

(** The entries of the requests when the gap that precedes them was started by the
    reading [n] under the name [gap]: the gap, then the handling. *)
Fixpoint request_log (key : bytes) (reqs : list EST_COAP_REQ) (n : nat) (gap : bytes)
    : list (bytes * option bytes * timeval) :=
  match reqs with
  | [] => []
  | r :: rest =>
      (gap, Some key, timersub (clock (n + 1)) (clock n)) ::
      (name_of (lit "CoAP handle_req_timer ") r, Some key, timersub (clock (n + 3)) (clock (n + 2))) ::
      request_log key rest (n + 4) (name_of (lit "CoAP req_gap_timer ") r)
  end.

Definition last_gap (reqs : list EST_COAP_REQ) (gap : bytes) : bytes :=
  fold_left (fun _ r => name_of (lit "CoAP req_gap_timer ") r) reqs gap.

(** Between two requests. *)
Definition waiting (first n : nat) (gap : bytes) (t : coap_timers) : Prop :=
  session_timer t = running first (lit "CoAP session_timer") /\
  is_running (handle_req_timer t) = false /\ req_gap_timer t = running n gap.

Lemma started n tag : is_started (running n tag) = true.
Proof. unfold is_started. cbn [t_tag t_start]. by rewrite clock_set. Qed.

Lemma still_running n tag : is_running (running n tag) = true.
Proof. unfold is_running. rewrite started. done. Qed.

(** The state when [n] readings are left behind and [l] was logged. *)
Abbreviation at_reading n l := (Build_timing true n l).

Lemma start_run timer tag n l : start clock timer tag (at_reading n l) = (running n tag, at_reading (S n) l).
Proof. done. Qed.

Lemma stop_run start_at tag key n l :
  stop_id clock (running start_at tag) key (at_reading n l)
  = (Build_EST_TIMER (clock start_at) (clock n) true (Some tag),
     at_reading (S n) (l ++ [(tag, Some key, timersub (clock n) (clock start_at))])).
Proof. done. Qed.

Lemma request_run first n gap r key t k l :
  waiting first n gap t -> r <> EST_COAP_REQ_RESET ->
  exists t' l', (t ← reinit_timers clock r key t; enter_wait_coap_req_timers clock r key t) (at_reading k l)
    = (t', at_reading (k + 4) l') /\
    waiting first (k + 3) (name_of (lit "CoAP req_gap_timer ") r) t' /\
    l' = l ++ [(gap, Some key, timersub (clock k) (clock n));
               (name_of (lit "CoAP handle_req_timer ") r, Some key, timersub (clock (k + 2)) (clock (k + 1)))].
Proof.
  intros (Hs & Hh & Hg) Hr. unfold reinit_timers, stop_request_timers, mbind, TM_bind, mret, TM_ret.
  rewrite Hh. cbn match. rewrite Hg, started, stop_run. cbn [session_timer].
  assert (Ht : forall p, exists tag, coap_tag p r = Some tag) by (intros p; destruct r; [done|eexists; reflexivity..]).
  destruct (Ht (lit "CoAP handle_req_timer ")) as [th Eh], (Ht (lit "CoAP req_gap_timer ")) as [tg Eg].
  assert (E1 : start_coap_req_timers clock r (Build_coap_timers (session_timer t) null_timer null_timer)
      (at_reading (S k) (l ++ [(gap, Some key, timersub (clock k) (clock n))]))
    = (Build_coap_timers (session_timer t) (running (S k) th) null_timer,
       at_reading (S (S k)) (l ++ [(gap, Some key, timersub (clock k) (clock n))]))).
  { unfold start_coap_req_timers, mbind, TM_bind, enabled. cbn [perf_enabled negb]. rewrite Eh.
    destruct r; [done|reflexivity..]. }
  rewrite E1. unfold enter_wait_coap_req_timers, mbind, TM_bind, enabled. cbn [perf_enabled negb]. rewrite Eg.
  cbn [handle_req_timer req_gap_timer session_timer]. rewrite started, stop_run.
  change (is_started null_timer) with false. cbn [negb]. rewrite start_run.
  unfold name_of. rewrite Eh, Eg. cbn [default id].
  replace (k + 4)%nat with (S (S (S (S k)))) by lia. replace (k + 3)%nat with (S (S (S k))) by lia.
  replace (k + 2)%nat with (S (S k)) by lia. replace (k + 1)%nat with (S k) by lia.
  eexists _, _. split; [reflexivity|]. split; [|by rewrite <- app_assoc].
  split; [exact Hs|]. split; [|done]. unfold is_running, is_stopped. cbn [handle_req_timer t_end t_tag].
  rewrite clock_set. by rewrite orb_true_r, andb_false_r.
Qed.

Lemma requests_run first key reqs : forall n gap t l,
  waiting first n gap t -> Forall (fun r => r <> EST_COAP_REQ_RESET) reqs ->
  exists t', requests key reqs t (at_reading (S n) l)
    = (t', at_reading (S n + 4 * length reqs) (l ++ request_log key reqs n gap)) /\
    waiting first (n + 4 * length reqs) (last_gap reqs gap) t'.
Proof.
  induction reqs as [|r rest IH]; intros n gap t l Hw Hr.
  - exists t. cbn [requests request_log length]. rewrite app_nil_r, !Nat.mul_0_r, !Nat.add_0_r. by split.
  - inversion Hr as [|? ? Hr1 Hr2]; subst.
    destruct (request_run first n gap r key t (S n) l Hw Hr1) as (t1 & l1 & E & Hw1 & El).
    destruct (IH (S n + 3)%nat _ t1 l1 Hw1 Hr2) as (t' & E' & Hw').
    exists t'. cbn [requests]. unfold mbind, TM_bind in E |- *.
    destruct (reinit_timers clock r key t _) as [t0 s0]. rewrite E.
    replace (S n + 4)%nat with (S (S n + 3)) by lia. rewrite E'. cbn [length]. split.
    + f_equal. f_equal; [lia|]. rewrite El, <- app_assoc. cbn [app request_log].
      replace (n + 1)%nat with (S n) by lia. replace (n + 3)%nat with (S n + 2)%nat by lia.
      replace (n + 2)%nat with (S n + 1)%nat by lia. replace (n + 4)%nat with (S n + 3)%nat by lia. done.
    + replace (n + 4 * S (length rest))%nat with (S n + 3 + 4 * length rest)%nat by lia.
      exact Hw'.
Qed.

(** The log of a session.  With timers enabled, the requests of a client are logged in
    order, for each the gap before it and its handling, between consecutive readings of
    the clock; at the end the session is logged, and the gap behind the last request.  No
    timer is left. *)
Theorem session_log key reqs n l :
  Forall (fun r => r <> EST_COAP_REQ_RESET) reqs ->
  let m := (4 * length reqs)%nat in
  let gap := lit "CoAP req_gap_timer" in
  session key reqs (at_reading n l)
  = (no_timers, at_reading (n + m + 4)
      (l ++ request_log key reqs (S n) gap ++
       [(lit "CoAP session_timer", Some key, timersub (clock (n + m + 2)) (clock n));
        (last_gap reqs gap, Some key, timersub (clock (n + m + 3)) (clock (S n + m)))])).
Proof.
  intros Hr m gap. unfold session, mbind, TM_bind.
  set (t0 := Build_coap_timers (running n (lit "CoAP session_timer")) null_timer (running (S n) gap)).
  assert (E0 : start_coap_req_timers clock EST_COAP_REQ_RESET no_timers (at_reading n l) = (t0, at_reading (S (S n)) l)) by done.
  rewrite E0. destruct (requests_run n key reqs (S n) gap t0 l) as (t & E & Hs & Hh & Hg); [done|done|].
  rewrite E. fold m. unfold remove_timers, stop_request_timers, mbind, TM_bind. rewrite Hs, stop_run.
  cbn [handle_req_timer req_gap_timer session_timer]. rewrite Hh. unfold mret, TM_ret.
  fold m in Hg. rewrite Hg, started, stop_run. unfold no_timers. f_equal. f_equal; [lia|].
  rewrite <- !app_assoc. cbn [app]. replace (S (S n) + m)%nat with (n + m + 2)%nat by lia.
  replace (S (n + m + 2)) with (n + m + 3)%nat by lia. done.
Qed.

(** ** The time of a session *)

Hypothesis clock_valid : forall i, valid_time (clock i).
Hypothesis clock_monotone : forall i j, (i <= j)%nat -> micros (clock i) <= micros (clock j).

Definition total (entries : list (bytes * option bytes * timeval)) : Z :=
  fold_right (fun e n => micros (snd e) + n) 0 entries.

Lemma elapsed i j : (i <= j)%nat -> micros (timersub (clock j) (clock i)) = micros (clock j) - micros (clock i).
Proof. intros _. by apply timersub_exact. Qed.

(** Gaps and handlings do not overlap: together they take no longer than the session. *)
Theorem session_time_bound key reqs n gap :
  0 <= total (request_log key reqs n gap)
  <= micros (clock (n + 4 * length reqs)) - micros (clock n).
Proof.
  revert n gap; induction reqs as [|r rest IH]; intros n gap; cbn [request_log total fold_right length snd].
  - rewrite Nat.mul_0_r, Nat.add_0_r. lia.
  - specialize (IH (n + 4)%nat (name_of (lit "CoAP req_gap_timer ") r)). unfold total in IH.
    rewrite !elapsed by lia. replace (n + 4 + 4 * length rest)%nat with (n + 4 * S (length rest))%nat in IH by lia.
    pose proof (clock_monotone n (n + 1)). pose proof (clock_monotone (n + 1) (n + 2)).
    pose proof (clock_monotone (n + 2) (n + 3)). pose proof (clock_monotone (n + 3) (n + 4)). lia.
Qed.

End Session.
