(* ===== verification/CoapSafety.v ===== *)
(** * CoapSafety: which clients of a CoAP server reach the application

    A server calls the application's enrollment callbacks for a CoAP client under the
    conditions of an HTTP client, and only for a client with a certificate. *)

From stdpp Require Import gmap.
From S2P Require Import Prelude.
From S2P Require Import SafeC.
From S2P Require Import EstTypes.
From S2P Require Import EstState.
From S2P Require Import EstUtil.
From S2P Require Import ServerAuth.
From S2P Require Import ServerEnroll.
From S2P Require Import CoapReq.
From S2P Require Import CoapServer.
From S2P Require Import EstLogic.
From S2P Require Import ServerAuthProps.
From S2P Require Import ServerDispatchProps.
From S2P Require Import CoapReqProps.

#[local] Existing Instance tq_preorder.

Section Safety.
Context {L : OpenSSL} {C : CoapLib}.

(** ** Parts without a service callback *)

(** The context stays, and no service callback is made. *)
Definition calm (a b : EST_COAP_CTX * world) : Prop := frame quiet (snd a) (snd b).
Definition still (a b : EST_COAP_CTX * world) : Prop := tq (snd a) (snd b).

#[export] Instance calm_preorder : PreOrder calm.
Proof.
  unfold calm. split; [intros a; reflexivity|intros a b c H1 H2; by etrans].
Qed.

#[export] Instance still_preorder : PreOrder still.
Proof.
  unfold still. split; [intros a; reflexivity|intros a b c H1 H2; by etrans].
Qed.

Lemma calm_lift {A} (m : M A) : sat (frame quiet) m -> csat calm (lift m).
Proof. apply csat_lift. by intros. Qed.

Lemma still_lift {A} (m : M A) : sat tq m -> csat still (lift m).
Proof. apply csat_lift. by intros. Qed.

Lemma calm_upd_coap f : csat calm (upd_coap f).
Proof. intros s w r s' w' [= _ _ <-]. exact (reflexivity w). Qed.

Lemma calm_still {A} (m : CM A) : csat calm m -> csat still m.
Proof. intros Hm s w r s' w' H. by eapply frame_tq, Hm. Qed.

#[local] Hint Resolve frame_est_base64_decode frame_est_base64_encode frame_endpoint_event frame_req_event
  frame_rsp_event : sat.
#[local] Hint Resolve calm_upd_coap : csat.
#[local] Hint Extern 3 (csat calm (lift _)) => apply calm_lift; auto with sat : csat.

Lemma calm_upd_node i f : csat calm (upd_node i f).
Proof. unfold upd_node. csat_auto. Qed.
#[local] Hint Resolve calm_upd_node : csat.

Lemma calm_reinit i req : csat calm (reinit_coap_req i req).
Proof. unfold reinit_coap_req. csat_auto. Qed.
#[local] Hint Resolve calm_reinit : csat.

Lemma calm_get_coap_req addr req : csat calm (get_coap_req addr req).
Proof. unfold get_coap_req, new_coap_req. csat_auto. Qed.
#[local] Hint Resolve calm_get_coap_req : csat.

Lemma calm_need_req addr req : csat calm (need_req addr req).
Proof. unfold need_req. csat_auto. Qed.

Lemma calm_copy_block i off d : csat calm (copy_block i off d).
Proof. unfold copy_block. csat_auto. Qed.
#[local] Hint Resolve calm_copy_block : csat.

Lemma calm_receive_request i request response : csat calm (receive_request i request response).
Proof. unfold receive_request, receive_block. csat_auto. Qed.

Lemma calm_restart_request i req request : csat calm (restart_request i req request).
Proof. unfold restart_request. csat_auto. Qed.

Lemma calm_received_csr i : csat calm (received_csr i).
Proof. unfold received_csr. csat_auto. Qed.

Lemma calm_check_accept request media : csat calm (check_accept request media).
Proof. unfold check_accept. csat_auto. Qed.

Lemma calm_check_content request : csat calm (check_content_format request).
Proof. unfold check_content_format. csat_auto. Qed.

Lemma calm_need_cert session : csat calm (need_cert session).
Proof. unfold need_cert. csat_auto. Qed.

Lemma calm_check_rc code : csat calm (check_rc code).
Proof. unfold check_rc. csat_auto. Qed.

Lemma calm_decode_response b64 n max : csat calm (decode_response b64 n max).
Proof. unfold decode_response. csat_auto. Qed.

Lemma calm_store_response i der : csat calm (store_response i der).
Proof. unfold store_response. csat_auto. Qed.

Lemma calm_string_copy buf : csat calm (string_copy buf).
Proof. unfold string_copy. csat_auto. Qed.

Lemma calm_send_response i request response code media : csat calm (send_response i request response code media).
Proof. unfold send_response. csat_auto. Qed.

Lemma calm_start_event peer uri : csat calm (start_event peer uri).
Proof. unfold start_event. csat_auto. Qed.

#[local] Hint Resolve calm_need_req calm_receive_request calm_restart_request calm_received_csr calm_check_accept
  calm_check_content calm_need_cert calm_check_rc calm_decode_response calm_store_response calm_string_copy
  calm_send_response calm_start_event : csat.

Lemma calm_skg_response i cert key : csat calm (skg_response i cert key).
Proof. unfold skg_response. csat_auto. Qed.

(** ** Parts with service callbacks behind a guard *)

(** A guard of the events of a run that holds of any longer run. *)
Class Guard (P : world -> world -> event -> Prop) : Prop :=
  guard_lift w0 w1 w2 w3 e : frame quiet w0 w1 -> tq w2 w3 -> P w1 w2 e -> P w0 w3 e.

(** In a server every service callback of a run is behind the guard. *)
Definition cguard (P : world -> world -> event -> Prop) {A} (m : CM A) : Prop :=
  forall s w r s' w', est_mode (w_ctx w) = EST_SERVER ->
    m s w = Some (r, s', w') -> guarded (P w w') w w'.

Section Guard.
Context (P : world -> world -> event -> Prop) `{GP : !Guard P}.

Lemma cguard_still {A} (m : CM A) : csat still m -> cguard P m.
Proof. intros Hm s w r s' w' _ H. eapply guarded_tq. exact (Hm _ _ _ _ _ H). Qed.

Lemma cguard_calm {A} (m : CM A) : csat calm m -> cguard P m.
Proof. intros Hm. by apply cguard_still, calm_still. Qed.

Lemma guarded_lift w0 w1 w2 w3 : frame quiet w0 w1 -> tq w2 w3 -> guarded (P w1 w2) w1 w2 -> guarded (P w0 w3) w0 w3.
Proof.
  intros F T H. eapply guarded_step; [exact F|done|]. eapply guarded_then; [|exact T].
  eapply guarded_impl; [|exact H]. intros e _. by apply guard_lift.
Qed.

Lemma cguard_after {A B} (m : CM A) (f : A -> CM B) :
  csat calm m -> (forall a, cguard P (f a)) -> cguard P (m ≫= f).
Proof.
  intros Hm Hf s w r s' w' Hs H. apply cbind_inv in H as [(a & s1 & w1 & E & H)|(e & -> & E)].
  - assert (F : frame quiet w w1) by exact (Hm _ _ _ _ _ E). apply Hf in H; [|by rewrite (frame_ctx _ _ _ F)].
    by eapply guarded_lift; [exact F|reflexivity|].
  - apply guarded_quiet. exact (Hm _ _ _ _ _ E).
Qed.

Lemma cguard_before {A B} (m : CM A) (f : A -> CM B) :
  cguard P m -> (forall a, csat still (f a)) -> cguard P (m ≫= f).
Proof.
  intros Hm Hf s w r s' w' Hs H. apply cbind_inv in H as [(a & s1 & w1 & E & H)|(e & -> & E)].
  - apply Hm in E; [|done]. by eapply guarded_lift; [reflexivity|exact (Hf _ _ _ _ _ _ H)|].
  - by eapply Hm.
Qed.

Lemma cguard_lift {A} (m : M A) :
  (forall w r w', m w = Some (r, w') -> guarded (P w w') w w') -> cguard P (lift m).
Proof. intros Hm s w r s' w' _ H. apply lift_inv in H as (a & -> & -> & E). by eapply Hm. Qed.

(** In a server the context a handler reads is a server's. *)
Lemma cguard_get_ctx {B} (f : EST_CTX -> CM B) :
  (forall ctx, est_mode ctx = EST_SERVER -> cguard P (f ctx)) -> cguard P (lift get_ctx ≫= f).
Proof. intros Hf s w r s' w' Hs H. rewrite (cbind_run (lift get_ctx) f s w (w_ctx w) s w) in H by done. by eapply Hf. Qed.

Lemma cguard_finish peer uri response body : cguard P body -> cguard P (coap_finish peer uri response body).
Proof.
  intros Hb s w r s' w' Hs H. unfold coap_finish in H.
  destruct (body s w) as [[[x s1] w1]|] eqn:E; [|by destruct (body s w)].
  apply Hb in E; [|done].
  assert (Hw : tq w1 w').
  { assert (He := fun w a w' => frame_endpoint_event peer uri EST_ENDPOINT_REQ_END w a w').
    destruct x as [[code pdu|code|code]|[code pdu]].
    - injection H as _ _ <-. reflexivity.
    - injection H as _ _ <-. reflexivity.
    - destruct (est_invoke_endpoint_req_event_cb _ _ _ _) as [[u w2]|] eqn:E2; [|done]. injection H as _ _ <-.
      by eapply frame_tq, He.
    - destruct (match coap_get_block _ _ with Some b => _ | None => _ end); [injection H as _ _ <-; reflexivity|].
      destruct (est_invoke_endpoint_req_event_cb _ _ _ _) as [[u w2]|] eqn:E2; [|done]. injection H as _ _ <-.
      by eapply frame_tq, He. }
  by eapply guarded_lift; [reflexivity|exact Hw|].
Qed.

Lemma cguard_ret_bind {A B} (a : A) (f : A -> CM B) : cguard P (f a) -> cguard P (mret a ≫= f).
Proof. done. Qed.

Lemma cguard_stop_bind {A B} e (f : A -> CM B) : cguard P (stop e ≫= f).
Proof. intros s w r s' w' _ [= _ _ <-]. by apply guarded_quiet. Qed.

Lemma cguard_need_cert session {B} (f : SSL * X509 -> CM B) :
  (forall ssl peer_cert, tls session = Some ssl -> SSL_get_peer_certificate ssl = Some peer_cert ->
     cguard P (f (ssl, peer_cert))) ->
  cguard P (need_cert session ≫= f).
Proof.
  intros Hf. unfold need_cert. destruct (tls session) as [ssl|] eqn:E1; [|apply cguard_stop_bind].
  destruct (SSL_get_peer_certificate ssl) as [peer_cert|] eqn:E2; [|apply cguard_stop_bind]. by apply Hf.
Qed.

End Guard.

(** ** The handlers *)

(** The conditions under which a callback is called for the message of a session. *)
Definition coap_guard (uri : bytes) (session : coap_session_t) (w w' : world) (e : event) : Prop :=
  exists ssl peer_cert b64,
    tls session = Some ssl /\ SSL_get_peer_certificate ssl = Some peer_cert /\
    ((uri_is uri (lit "est/sen") = true /\
      enroll_guard ssl (Some peer_cert) None (Some b64) None SIMPLE_ENROLL_REQ w w' e) \/
     (uri_is uri (lit "est/sren") = true /\
      enroll_guard ssl (Some peer_cert) None (Some b64) None REENROLL_REQ w w' e) \/
     (uri_is uri (lit "est/skg") = true /\
      keygen_guard ssl (Some peer_cert) None (Some b64) None w w' e)).

#[export] Instance coap_guard_guard uri session : Guard (coap_guard uri session).
Proof.
  intros w0 w1 w2 w3 e F T (ssl & peer & b64 & H1 & H2 & H). exists ssl, peer, b64. split; [done|]. split; [done|].
  destruct H as [[Hu H]|[[Hu H]|[Hu H]]]; [left|right; left|right; right]; (split; [done|]).
  - by eapply enroll_guard_lift.
  - by eapply enroll_guard_lift.
  - by eapply keygen_guard_lift.
Qed.

Section Handlers.
Variables (ENABLE_BRSKI : bool) (uriparser : option (bytes -> option (list UriPathSegment))).
Variables (EST_VER_STRING : bytes) (malloc_junk : nat -> bytes).
Hypothesis b64_text : forall s, no_nul (snd (b64_bio_write true s)).

Ltac still_auto := apply calm_still; csat_auto; try (apply calm_lift; auto with sat).

Lemma cguard_run_enroll P `{GP : !Guard P} ssl peer csr b64 req :
  (forall w w' e, enroll_guard ssl (Some peer) None (Some b64) None req w w' e -> P w w' e) ->
  cguard P (run_enroll ENABLE_BRSKI uriparser EST_VER_STRING malloc_junk ssl peer csr b64 req).
Proof.
  intros HP. unfold run_enroll. apply cguard_after; [done|csat_auto|intros _].
  apply cguard_get_ctx; intros ctx ->. apply cguard_before; [done| |intros [rc cert]; still_auto].
  apply cguard_lift. intros w r w' H. eapply guarded_impl; [intros e _; apply HP|].
  by eapply handle_simple_enroll_guarded.
Qed.

Lemma cguard_run_keygen P `{GP : !Guard P} ssl peer csr b64 :
  (forall w w' e, keygen_guard ssl (Some peer) None (Some b64) None w w' e -> P w w' e) ->
  cguard P (run_keygen ENABLE_BRSKI uriparser EST_VER_STRING malloc_junk ssl peer csr b64).
Proof.
  intros HP. unfold run_keygen. apply cguard_after; [done|csat_auto|intros _].
  apply cguard_get_ctx; intros ctx ->. apply cguard_before; [done| |intros [[rc cert] key]; still_auto].
  apply cguard_lift. intros w r w' H. eapply guarded_impl; [intros e _; apply HP|].
  by eapply handle_server_keygen_guarded.
Qed.

Lemma cguard_sen_receive P `{GP : !Guard P} i uri ssl peer req request response :
  (forall b64 w w' e, enroll_guard ssl (Some peer) None (Some b64) None req w w' e -> P w w' e) ->
  cguard P (sen_receive ENABLE_BRSKI uriparser EST_VER_STRING malloc_junk i uri ssl peer req request response).
Proof.
  intros HP. unfold sen_receive, sen_request.
  do 4 (apply cguard_after; [done|csat_auto|intros ?]). apply cguard_after; [done|csat_auto|intros [csr b64]].
  apply cguard_before; [done|apply cguard_run_enroll; [done|intros w w' e; apply HP]|intros [rc cert]; still_auto].
Qed.

Lemma cguard_skg_receive P `{GP : !Guard P} i uri ssl peer request response :
  (uri_is uri (lit "est/skg") = true -> forall b64 w w' e,
     keygen_guard ssl (Some peer) None (Some b64) None w w' e -> P w w' e) ->
  cguard P (skg_receive ENABLE_BRSKI uriparser EST_VER_STRING malloc_junk i uri ssl peer request response).
Proof.
  intros HP. unfold skg_receive, skg_request.
  do 4 (apply cguard_after; [done|csat_auto|intros ?]). apply cguard_after; [done|csat_auto|intros [csr b64]].
  destruct (uri_is uri (lit "est/skg")); cbn [negb]; [|apply cguard_calm; csat_auto].
  apply cguard_before; [done|apply cguard_run_keygen; [done|intros w w' e; by apply HP]|intros [[rc cert] key]; still_auto].
  apply calm_skg_response.
Qed.

(** C30. Authorisation over CoAP. In server mode a completed message to any CoAP resource
    calls an enrollment, re-enrollment or key generation callback of the application
    only for a session with a client certificate, on the resource of that operation,
    after the authentication of that certificate succeeded, and only with a CSR that
    is signed by its own key, proves possession of it or comes from an RA, and has the
    attributes the server enforces. No callback is called by the other resources. *)
Theorem coap_callbacks_guarded path method h uri session request response s w r s' w' :
  (path, method, h) ∈ est_server_coap_init_resources ENABLE_BRSKI uriparser EST_VER_STRING malloc_junk ->
  est_mode (w_ctx w) = EST_SERVER ->
  h uri session request response s w = Some (r, s', w') ->
  guarded (coap_guard uri session w w') w w'.
Proof.
  intros Hh Hs. revert s w r s' w' Hs. change (cguard (coap_guard uri session) (h uri session request response)).
  unfold est_server_coap_init_resources in Hh. rewrite !elem_of_cons, elem_of_nil in Hh.
  assert (Hi : forall uri session, Guard (coap_guard uri session)) by apply _.
  destruct Hh as [[= _ _ ->]|[[= _ _ ->]|[[= _ _ ->]|[[= _ _ ->]|[[= _ _ ->]|[]]]]]].
  1,2: unfold est_coap_sen_handler; apply cguard_finish; [done|]; apply cguard_after; [done|csat_auto|intros _];
    apply cguard_need_cert; intros ssl peer E1 E2;
    destruct (uri_is uri (lit "est/sen")) eqn:U1;
      [|destruct (uri_is uri (lit "est/sren")) eqn:U2; [|by apply cguard_stop_bind]];
    apply cguard_ret_bind; do 3 (apply cguard_after; [done|csat_auto|intros ?]);
    (apply cguard_before; [done| |intros _; still_auto]);
    destruct (_ =? 0); try (apply cguard_calm; by csat_auto);
    apply cguard_sen_receive; try done; intros b64 w w' e He; exists ssl, peer, b64; auto 10.
  - unfold est_coap_skg_handler; apply cguard_finish; [done|]; apply cguard_after; [done|csat_auto|intros _].
    apply cguard_need_cert; intros ssl peer E1 E2. do 3 (apply cguard_after; [done|csat_auto|intros ?]).
    apply cguard_before; [done| |intros _; still_auto]. destruct (_ =? 0); [|apply cguard_calm; by csat_auto].
    apply cguard_skg_receive; [done|]. intros U b64 w w' e He. exists ssl, peer, b64. auto 10.
  - unfold est_coap_crts_handler; apply cguard_finish; [done|]. destruct (tls session); [|apply cguard_calm; by csat_auto].
    unfold crts_request. do 2 (apply cguard_after; [done|csat_auto|intros ?]).
    apply cguard_before; [done| |intros _; still_auto]. destruct (_ =? 0); [|apply cguard_calm; by csat_auto].
    do 2 (apply cguard_after; [done|csat_auto|intros ?]). apply cguard_get_ctx; intros ctx ->.
    apply cguard_still. apply csat_bind; [apply _|apply still_lift, tq_cacerts|intros rv; still_auto].
  - unfold est_coap_att_handler; apply cguard_finish; [done|]. destruct (tls session); [|apply cguard_calm; by csat_auto].
    unfold att_request. do 2 (apply cguard_after; [done|csat_auto|intros ?]).
    apply cguard_before; [done| |intros _; still_auto]. destruct (_ =? 0); [|apply cguard_calm; by csat_auto].
    do 2 (apply cguard_after; [done|csat_auto|intros ?]). apply cguard_get_ctx; intros ctx ->.
    apply cguard_still. apply csat_bind; [apply _|apply still_lift, tq_csr_attrs|intros [rv attrs]; still_auto].
Qed.

End Handlers.

End Safety.
