(* ===== verification/Tenants.v ===== *)
(** * Tenants: the shell, and the tenants of the server application

    A reader for the command lines that the server application gives to [system]: words,
    single quotes and the redirections. Every other character with a meaning of its own
    (a dollar sign, a backquote, a semicolon, a newline, a glob, an assignment, ...)
    makes the line something other than one simple command: [None].

    multi_tenant_enrollment.c: a certificate of one of three tenants is made by commands
    of OpenSSL that the application gives to [system], over temporary files in the
    tenant's directory. The CA certificates of a tenant are made in the same way.

    The host is a map from paths to contents and an oracle for the calls that can fail;
    the shell is a parameter, a function from the command line and the files to the exit
    status and the files. [unlink] succeeds. Closing a file or freeing a block twice is
    undefined. *)

From S2P Require Import Prelude.
From S2P Require Import SafeC.
From stdpp Require Import gmap.
Local Open Scope Z_scope.

Inductive sh_token :=
| T_word (w : bytes)
| T_in
| T_out
| T_err
| T_err_to_out.

(** The characters that stand for themselves in a word. *)
Definition sh_plain (c : Z) : bool :=
  isdigit c || isupper c || islower c || mem c (lit "/._-,:@+").

Definition chr_quote : Z := 39.
Definition chr_less : Z := 60.
Definition chr_greater : Z := 62.

(** The word that was being read, behind the tokens before it. *)
Definition sh_flush (cur : option bytes) (acc : list sh_token) : list sh_token :=
  match cur with Some w => acc ++ [T_word w] | None => acc end.

(** [quoted] inside single quotes; [cur] is the word so far. *)
Fixpoint sh_lex (s : bytes) (quoted : bool) (cur : option bytes) (acc : list sh_token)
    : option (list sh_token) :=
  match s with
  | [] => if quoted then None else Some (sh_flush cur acc)
  | c :: r =>
      if quoted then
        if c =? chr_quote then sh_lex r false cur acc
        else sh_lex r true (Some (default [] cur ++ [c])) acc
      else if c =? chr_quote then sh_lex r true (Some (default [] cur)) acc
      else if (c =? chr_space) || (c =? chr_tab) then sh_lex r false None (sh_flush cur acc)
      else if c =? chr_less then
        if bool_decide (cur = None) then sh_lex r false None (acc ++ [T_in]) else None
      else if c =? chr_greater then
        if bool_decide (cur = None) then sh_lex r false None (acc ++ [T_out])
        else if bool_decide (cur = Some (lit "2")) then
          match r with
          | 38 :: 49 :: r' => sh_lex r' false None (acc ++ [T_err_to_out])
          | _ => sh_lex r false None (acc ++ [T_err])
          end
        else None
      else if sh_plain c then sh_lex r false (Some (default [] cur ++ [c])) acc
      else None
  end.

(** A command: its words, and the files its input, output and errors are redirected to. *)
Record sh_command := {
  sh_argv : list bytes;
  sh_stdin : option bytes;
  sh_outputs : list bytes
}.

Fixpoint sh_command_of (ts : list sh_token) : option sh_command :=
  match ts with
  | [] => Some (Build_sh_command [] None [])
  | T_word w :: r =>
      (fun c => Build_sh_command (w :: sh_argv c) (sh_stdin c) (sh_outputs c)) <$> sh_command_of r
  | T_in :: T_word w :: r =>
      (fun c => Build_sh_command (sh_argv c) (Some w) (sh_outputs c)) <$> sh_command_of r
  | T_out :: T_word w :: r | T_err :: T_word w :: r =>
      (fun c => Build_sh_command (sh_argv c) (sh_stdin c) (w :: sh_outputs c)) <$> sh_command_of r
  | T_err_to_out :: r => sh_command_of r
  | _ => None
  end.

Definition sh_parse (s : bytes) : option sh_command :=
  ts ← sh_lex s false None []; sh_command_of ts.

(** The argument behind an option, for every occurrence. *)
Fixpoint sh_option (name : bytes) (argv : list bytes) : list bytes :=
  match argv with
  | a :: (v :: _) as r => if bool_decide (a = name) then v :: sh_option name r else sh_option name r
  | _ => []
  end.

(** The files a command of OpenSSL writes that it names itself. *)
Definition sh_written (c : sh_command) : list bytes := sh_outputs c ++ sh_option (lit "-out") (sh_argv c).

(** Text without a quote is one piece of a word between quotes. *)
Lemma sh_lex_quoted s r cur acc :
  ~ In chr_quote s -> sh_lex (s ++ chr_quote :: r) true (Some cur) acc = sh_lex r false (Some (cur ++ s)) acc.
Proof.
  revert cur. induction s as [|c s IH]; intros cur Hs; cbn [app sh_lex].
  - rewrite Z.eqb_refl. by rewrite app_nil_r.
  - destruct (Z.eqb_spec c chr_quote) as [->|]; [destruct Hs; by left|]. cbn [default].
    rewrite IH; [by rewrite <- app_assoc|]. intros H. apply Hs. by right.
Qed.

Definition MAX_PATH_LEN : Z := 512.
Definition MAX_CMD_LEN : Z := 2048.
Definition REPO_ROOT : bytes := lit "/mnt/c/Users/Solum/aims-libest".
Definition MAX_TENANT_ID : Z := 64.
Definition MAX_CACERTS_FILE : Z := 1048576.

(** ** The host *)

Inductive act :=
| Ran (cmd : bytes) (rc : Z)
| Locked
| Unlocked.

Abbreviation files_t := (gmap bytes bytes).

Record host := {
  files : files_t;
  results : list bool;
  acts : list act;
  lookup_root : list bytes
}.

Definition set_files (v : files_t) (h : host) : host := Build_host v (results h) (acts h) (lookup_root h).
Definition set_acts (v : list act) (h : host) : host := Build_host (files h) (results h) v (lookup_root h).
Definition set_lookup_root (v : list bytes) (h : host) : host := Build_host (files h) (results h) (acts h) v.

Definition A (T : Type) : Type := host -> option (T * host).
#[global] Instance A_ret : MRet A := fun T x h => Some (x, h).
#[global] Instance A_bind : MBind A :=
  fun T U f m h => match m h with Some (x, h') => f x h' | None => None end.

Definition undefined {T} : A T := fun _ => None.

(** Does the next call that can fail succeed? *)
Definition succeeds : A bool :=
  fun h => match results h with
           | [] => Some (true, h)
           | b :: r => Some (b, Build_host (files h) r (acts h) (lookup_root h))
           end.

Definition did (a : act) : A unit := fun h => Some (tt, set_acts (acts h ++ [a]) h).
Definition get_files : A files_t := fun h => Some (files h, h).
Definition put_files (v : files_t) : A unit := fun h => Some (tt, set_files v h).

Definition unlink (p : bytes) : A unit := fs ← get_files; put_files (delete p fs).

Definition fopen_wb (p : bytes) : A bool :=
  ok ← succeeds;
  if ok : bool then fs ← get_files; _ ← put_files (<[p := []]> fs); mret true else mret false.

Section Tenants.
(** The shell, and what a failing [fwrite] has written. *)
Variable shell : bytes -> files_t -> Z * files_t.
Variable partly : bytes -> bytes.

Definition fwrite (p data : bytes) : A bool :=
  ok ← succeeds;
  fs ← get_files;
  _ ← put_files (<[p := if ok : bool then data else partly data]> fs);
  mret ok.

Definition system (cmd : bytes) : A Z :=
  fs ← get_files;
  let '(rc, fs') := shell cmd fs in
  _ ← put_files fs';
  _ ← did (Ran cmd rc);
  mret rc.

(** ** Paths and commands *)

Definition is_tenant (t : bytes) : bool :=
  bool_decide (t = lit "gateway") || bool_decide (t = lit "iot") || bool_decide (t = lit "freeradius").

Definition in_path (s : bytes) : bytes := snprintf MAX_PATH_LEN s.
Definition in_cmd (s : bytes) : bytes := snprintf MAX_CMD_LEN s.

Definition tenant_dir (t : bytes) : bytes := in_path (REPO_ROOT ++ lit "/tenants/" ++ t).
Definition der_file (t : bytes) : bytes := in_path (tenant_dir t ++ lit "/tmp_client.der").
Definition pem_file (t : bytes) : bytes := in_path (tenant_dir t ++ lit "/tmp_client.pem").
Definition cert_file (t : bytes) : bytes := in_path (tenant_dir t ++ lit "/tmp_client_cert.pem").
Definition pkcs7_file (t : bytes) : bytes := in_path (tenant_dir t ++ lit "/tmp_client.p7").
Definition config_file (t : bytes) : bytes := in_path (tenant_dir t ++ lit "/" ++ t ++ lit ".cnf").
Definition b64_file (t : bytes) : bytes := in_path (tenant_dir t ++ lit "/tmp_client.b64").
Definition pkcs7_der (t : bytes) : bytes := in_cmd (pkcs7_file t ++ lit ".der").

Definition decode_cmd (t : bytes) : bytes :=
  in_cmd (lit "base64 -d < " ++ b64_file t ++ lit " > " ++ der_file t ++ lit " 2>&1").
Definition req_cmd (t : bytes) : bytes :=
  in_cmd (lit "openssl req -inform DER -in " ++ der_file t ++ lit " -outform PEM -out " ++ pem_file t ++ lit " 2>&1").
Definition ca_cmd (t : bytes) : bytes :=
  in_cmd (lit "openssl ca -batch -config " ++ config_file t ++ lit " -in " ++ pem_file t ++ lit " -out "
          ++ cert_file t ++ lit " 2>&1").
Definition bundle_cmd (t : bytes) : bytes :=
  in_cmd (lit "openssl crl2pkcs7 -nocrl -certfile " ++ tenant_dir t ++ lit "/cacert.crt -certfile " ++ cert_file t
          ++ lit " -out " ++ pkcs7_file t ++ lit " 2>&1").
Definition der_cmd (t : bytes) : bytes :=
  in_cmd (lit "openssl pkcs7 -in " ++ pkcs7_file t ++ lit " -outform DER -out " ++ pkcs7_file t ++ lit ".der 2>&1").

(** ** multi_tenant_enroll *)

Definition purge (t : bytes) : A unit :=
  _ ← unlink (der_file t);
  _ ← unlink (pem_file t);
  _ ← unlink (cert_file t);
  _ ← unlink (pkcs7_file t);
  unlink (pkcs7_der t).

(** The end after an error, with no file open and no block held. *)
Definition cleanup (t : bytes) : A (option bytes) := _ ← purge t; mret None.

(** A file into a BIO: the end of the pipeline.  The error paths after [fopen] close the
    file, or free the block, that the cleanup closes and frees again. *)
Definition load_pkcs7 (t : bytes) : A (option bytes) :=
  opened ← succeeds;
  fs ← get_files;
  match (if opened : bool then fs !! pkcs7_der t else None) with
  | None => cleanup t
  | Some pkcs7_data =>
      got_block ← succeeds;
      if negb got_block then undefined else
      complete ← succeeds;
      if negb complete then undefined else
      got_bio ← succeeds;
      if negb got_bio then undefined else
      _ ← purge t;
      mret (Some pkcs7_data)
  end.

Definition enroll_tenant (t p10buf : bytes) : A (option bytes) :=
  opened ← fopen_wb (b64_file t);
  if negb opened then cleanup t else
  written ← fwrite (b64_file t) p10buf;
  if negb written then undefined else
  rc ← system (decode_cmd t);
  _ ← unlink (b64_file t);
  if negb (rc =? 0) then cleanup t else
  rc ← system (req_cmd t);
  if negb (rc =? 0) then cleanup t else
  rc ← system (ca_cmd t);
  if negb (rc =? 0) then cleanup t else
  rc ← system (bundle_cmd t);
  if negb (rc =? 0) then cleanup t else
  rc ← system (der_cmd t);
  if negb (rc =? 0) then cleanup t else load_pkcs7 t.

Definition multi_tenant_enroll (p10buf : bytes) (tenant_id : option bytes) : A (option bytes) :=
  match tenant_id with
  | None | Some [] => mret None
  | Some t => if negb (is_tenant t) then mret None else enroll_tenant t p10buf
  end.

(** ** multi_tenant_cacerts *)

(** The tenant a path segment names: the gateway without one, and for one that is too
    long. *)
Definition cacerts_tenant (path_seg : option bytes) : bytes :=
  match path_seg with
  | Some s => if (0 <? Z.of_nat (length s)) && (Z.of_nat (length s) <? MAX_TENANT_ID) then s else lit "gateway"
  | None => lit "gateway"
  end.

Definition ca_cert_path (t : bytes) : bytes := in_path (REPO_ROOT ++ lit "/tenants/" ++ t ++ lit "/cacert.crt").
Definition cacerts_path (t : bytes) : bytes :=
  in_path (REPO_ROOT ++ lit "/tenants/" ++ t ++ lit "/cacerts_response.pkcs7").
Definition cacerts_cmd (t : bytes) : bytes :=
  in_cmd (lit "openssl crl2pkcs7 -nocrl -certfile '" ++ ca_cert_path t ++ lit "' -outform DER -out '"
          ++ cacerts_path t ++ lit "' 2>/dev/null").

(** The file that was made. *)
Definition load_cacerts (t : bytes) : A (option bytes) :=
  let abandon := _ ← unlink (cacerts_path t); mret None in
  opened ← succeeds;
  fs ← get_files;
  match (if opened : bool then fs !! cacerts_path t else None) with
  | None => abandon
  | Some contents =>
      let file_size := Z.of_nat (length contents) in
      if (file_size <=? 0) || (file_size >? MAX_CACERTS_FILE) then abandon else
      got_block ← succeeds;
      if negb got_block then abandon else
      complete ← succeeds;
      if negb complete then abandon else
      _ ← unlink (cacerts_path t);
      mret (Some contents)
  end.

Definition multi_tenant_cacerts (path_seg : option bytes) : A (option bytes) :=
  let t := cacerts_tenant path_seg in
  readable ← succeeds;
  fs ← get_files;
  if negb (readable && bool_decide (is_Some (fs !! ca_cert_path t))) then mret None else
  rc ← system (cacerts_cmd t);
  if negb (rc =? 0) then mret None else load_cacerts t.

End Tenants.
