(* ===== verification/TenantsProps.v ===== *)
(** * TenantsProps: the enrollment pipeline keeps tenants apart

    Every command line is one simple command of the shell, with the words the source
    means; a tenant's enrollment changes nothing outside the tenant's directory, leaves no
    temporary file behind and gives back what the pipeline made. *)

From stdpp Require Import gmap.
From S2P Require Import Prelude.
From S2P Require Import SafeC.
From S2P Require Import Tenants.
Local Open Scope Z_scope.

(** ** The command lines *)

Definition out_to (argv : list bytes) : sh_command := Build_sh_command argv None [].

Lemma tenant_cases t : is_tenant t = true -> t = lit "gateway" \/ t = lit "iot" \/ t = lit "freeradius".
Proof. unfold is_tenant. rewrite !orb_true_iff, !bool_decide_eq_true. tauto. Qed.

Ltac per_tenant H := destruct (tenant_cases _ H) as [-> | [-> | ->]].

Lemma decode_cmd_words t : is_tenant t = true ->
  sh_parse (decode_cmd t) = Some (Build_sh_command [lit "base64"; lit "-d"] (Some (b64_file t)) [der_file t]).
Proof. intros H. per_tenant H; vm_compute; reflexivity. Qed.

Lemma req_cmd_words t : is_tenant t = true ->
  sh_parse (req_cmd t) = Some (out_to [lit "openssl"; lit "req"; lit "-inform"; lit "DER"; lit "-in"; der_file t;
                                       lit "-outform"; lit "PEM"; lit "-out"; pem_file t]).
Proof. intros H. per_tenant H; vm_compute; reflexivity. Qed.

Lemma ca_cmd_words t : is_tenant t = true ->
  sh_parse (ca_cmd t) = Some (out_to [lit "openssl"; lit "ca"; lit "-batch"; lit "-config"; config_file t; lit "-in";
                                      pem_file t; lit "-out"; cert_file t]).
Proof. intros H. per_tenant H; vm_compute; reflexivity. Qed.

Lemma bundle_cmd_words t : is_tenant t = true ->
  sh_parse (bundle_cmd t) = Some (out_to [lit "openssl"; lit "crl2pkcs7"; lit "-nocrl"; lit "-certfile"; ca_cert_path t;
                                          lit "-certfile"; cert_file t; lit "-out"; pkcs7_file t]).
Proof. intros H. per_tenant H; vm_compute; reflexivity. Qed.

Lemma der_cmd_words t : is_tenant t = true ->
  sh_parse (der_cmd t) = Some (out_to [lit "openssl"; lit "pkcs7"; lit "-in"; pkcs7_file t; lit "-outform"; lit "DER";
                                       lit "-out"; pkcs7_der t]).
Proof. intros H. per_tenant H; vm_compute; reflexivity. Qed.

(** ** The directory of a tenant *)

Definition in_dir (t p : bytes) : bool := starts_with (tenant_dir t ++ lit "/") p.

Definition temp_files (t : bytes) : list bytes :=
  [b64_file t; der_file t; pem_file t; cert_file t; pkcs7_file t; pkcs7_der t].

Lemma temp_in_dir t : is_tenant t = true -> Forall (fun p => in_dir t p = true) (temp_files t).
Proof. intros H. per_tenant H; repeat (apply Forall_cons_2; [vm_compute; reflexivity|]); apply Forall_nil_2. Qed.

(** The directories are apart: none of the three names starts another. *)
Lemma dirs_apart t t' p :
  is_tenant t = true -> is_tenant t' = true -> in_dir t p = true -> in_dir t' p = true -> t = t'.
Proof.
  intros H H' E E'. unfold in_dir in E, E'. apply starts_with_spec in E as [r ->].
  per_tenant H; per_tenant H'; try reflexivity; vm_compute in E'; discriminate.
Qed.

Section Tenants.
Variable shell : bytes -> files_t -> Z * files_t.
Variable partly : bytes -> bytes.

(** What a command line may change besides the files it names: the state of the CA whose
    configuration it names. *)
Variable ca_state : bytes -> bytes -> Prop.

(** The documented behaviour of the shell and of OpenSSL: a simple command writes the
    files that its redirections and -out options name, and [openssl ca] the database of
    its configuration. *)
Definition shell_frame : Prop :=
  forall cmd c fs p, sh_parse cmd = Some c -> p ∉ sh_written c ->
    (forall cfg, cfg ∈ sh_option (lit "-config") (sh_argv c) -> ~ ca_state cfg p) ->
    snd (shell cmd fs) !! p = fs !! p.

(** Every tenant's configuration keeps the CA's files in the tenant's directory, beside
    the temporary files. *)
Definition ca_confined : Prop :=
  forall t p, is_tenant t = true -> ca_state (config_file t) p -> in_dir t p = true /\ p ∉ temp_files t.

Context (Hshell : shell_frame) (Hca : ca_confined).

(** ** Runs that change only some files *)

Definition frames (P : bytes -> Prop) {T} (m : A T) : Prop :=
  forall h r h', m h = Some (r, h') -> forall p, ~ P p -> files h' !! p = files h !! p.

Lemma frames_ret P {T} (x : T) : frames P (mret x).
Proof. intros h r h' E. by injection E as <- <-. Qed.

Lemma frames_bind P {T U} (m : A T) (f : T -> A U) :
  frames P m -> (forall x, frames P (f x)) -> frames P (m ≫= f).
Proof.
  intros Hm Hf h r h' E p Hp. unfold mbind, A_bind in E.
  destruct (m h) as [[x h1]|] eqn:E1; [|done]. rewrite (Hf x h1 r h' E p Hp). by apply (Hm h x h1 E1).
Qed.

Lemma frames_undefined P {T} : frames P (undefined : A T).
Proof. unfold undefined. intros h r h' E. discriminate E. Qed.

Lemma frames_succeeds P : frames P succeeds.
Proof. intros h r h' E. unfold succeeds in E. destruct (results h); by injection E as <- <-. Qed.

Lemma frames_get P : frames P get_files.
Proof. intros h r h' E. by injection E as <- <-. Qed.

Lemma frames_unlink (P : bytes -> Prop) q : P q -> frames P (unlink q).
Proof. intros Hq h r h' [= <- <-] p Hp. cbn. apply lookup_delete_ne. by intros ->. Qed.

Lemma frames_fopen (P : bytes -> Prop) q : P q -> frames P (fopen_wb q).
Proof.
  intros Hq. apply frames_bind; [apply frames_succeeds|]. intros []; [|apply frames_ret].
  intros h r h' [= <- <-] p Hp. cbn. apply lookup_insert_ne. by intros ->.
Qed.

Lemma frames_fwrite (P : bytes -> Prop) q d : P q -> frames P (fwrite partly q d).
Proof.
  intros Hq. apply frames_bind; [apply frames_succeeds|]. intros ok.
  intros h r h' [= <- <-] p Hp. cbn. apply lookup_insert_ne. by intros ->.
Qed.

Lemma frames_system (P : bytes -> Prop) cmd :
  (forall fs p, ~ P p -> snd (shell cmd fs) !! p = fs !! p) -> frames P (system shell cmd).
Proof.
  intros Hc h r h' E p Hp. unfold system, mbind, A_bind, get_files in E.
  specialize (Hc (files h) p Hp). destruct (shell cmd (files h)) as [rc fs']. by injection E as <- <-.
Qed.

(** A command that names only files of the directory changes no other. *)
Lemma frames_named t cmd c :
  is_tenant t = true -> sh_parse cmd = Some c -> (forall p, p ∈ sh_written c -> in_dir t p = true) ->
  (forall cfg, cfg ∈ sh_option (lit "-config") (sh_argv c) -> cfg = config_file t) ->
  frames (fun p => in_dir t p = true) (system shell cmd).
Proof.
  intros Ht Hc Hw Hcfg. apply frames_system. intros fs p Hp. apply (Hshell cmd c); [done|by intros ?%Hw|].
  intros cfg ->%Hcfg Hs. by apply Hp, (proj1 (Hca t _ Ht Hs)).
Qed.

Section Commands.
Context (t : bytes) (Ht : is_tenant t = true).

Abbreviation inside := (frames (fun p => in_dir t p = true)).

Lemma in_temp p : p ∈ temp_files t -> in_dir t p = true.
Proof. intros Hp. apply (proj1 (Forall_forall _ _) (temp_in_dir t Ht) p), list_elem_of_In, Hp. Qed.

(** The five commands write one temporary file each. *)
Lemma frames_command cmd c q :
  sh_parse cmd = Some c -> sh_written c = [q] -> q ∈ temp_files t ->
  (sh_option (lit "-config") (sh_argv c) = [] \/ sh_option (lit "-config") (sh_argv c) = [config_file t]) ->
  inside (system shell cmd).
Proof.
  intros Hc Hw Hq Hcfg. eapply frames_named; [exact Ht|exact Hc| |].
  - intros p. rewrite Hw. intros ->%list_elem_of_singleton. by apply in_temp.
  - intros cfg. destruct Hcfg as [->| ->]; [by intros ?%elem_of_nil|by intros ->%list_elem_of_singleton].
Qed.

Lemma frames_decode : inside (system shell (decode_cmd t)).
Proof. eapply frames_command; [by apply decode_cmd_words|reflexivity|set_solver|by left]. Qed.
Lemma frames_req : inside (system shell (req_cmd t)).
Proof. eapply frames_command; [by apply req_cmd_words|reflexivity|set_solver|by left]. Qed.
Lemma frames_ca : inside (system shell (ca_cmd t)).
Proof. eapply frames_command; [by apply ca_cmd_words|reflexivity|set_solver|by right]. Qed.
Lemma frames_bundle : inside (system shell (bundle_cmd t)).
Proof. eapply frames_command; [by apply bundle_cmd_words|reflexivity|set_solver|by left]. Qed.
Lemma frames_der : inside (system shell (der_cmd t)).
Proof. eapply frames_command; [by apply der_cmd_words|reflexivity|set_solver|by left]. Qed.

Lemma frames_temp_unlink q : q ∈ temp_files t -> inside (unlink q).
Proof. intros Hq. by apply frames_unlink, in_temp. Qed.

Lemma frames_purge : inside (purge t).
Proof. unfold purge. repeat (apply frames_bind; [apply frames_temp_unlink; set_solver|intros _]).
  apply frames_temp_unlink. set_solver. Qed.

Lemma frames_cleanup : inside (cleanup t).
Proof. apply frames_bind; [apply frames_purge|intros _; apply frames_ret]. Qed.

Lemma frames_load : inside (load_pkcs7 t).
Proof.
  apply frames_bind; [apply frames_succeeds|]. intros opened. apply frames_bind; [apply frames_get|]. intros fs.
  destruct (if opened then _ else _); [|apply frames_cleanup].
  do 3 (apply frames_bind; [apply frames_succeeds|]; intros []; cbn [negb]; [|apply frames_undefined]).
  apply frames_bind; [apply frames_purge|intros _; apply frames_ret].
Qed.

Lemma frames_enroll p10 : inside (enroll_tenant shell partly t p10).
Proof.
  unfold enroll_tenant. apply frames_bind; [apply frames_fopen, in_temp; set_solver|].
  intros []; [|apply frames_cleanup]. apply frames_bind; [apply frames_fwrite, in_temp; set_solver|].
  intros []; [|apply frames_undefined]. apply frames_bind; [apply frames_decode|]. intros rc.
  apply frames_bind; [apply frames_temp_unlink; set_solver|]. intros _.
  assert (Hstep : forall (rc : Z) (m : A (option bytes)), inside m -> inside (if negb (rc =? 0) then cleanup t else m))
    by (intros x m Hm; destruct (negb _); [apply frames_cleanup|done]).
  apply Hstep, frames_bind; [apply frames_req|]. intros rc1.
  apply Hstep, frames_bind; [apply frames_ca|]. intros rc2.
  apply Hstep, frames_bind; [apply frames_bundle|]. intros rc3.
  apply Hstep, frames_bind; [apply frames_der|]. intros rc4. apply Hstep, frames_load.
Qed.

(** ** The outcome of the pipeline *)

Definition ran (r : Z * files_t) : option files_t := if fst r =? 0 then Some (snd r) else None.

(** The commands after the CSR was decoded. *)
Definition rest_of (fs : files_t) : option bytes :=
  fs2 ← ran (shell (req_cmd t) fs);
  fs3 ← ran (shell (ca_cmd t) fs2);
  fs4 ← ran (shell (bundle_cmd t) fs3);
  fs5 ← ran (shell (der_cmd t) fs4);
  fs5 !! pkcs7_der t.

(** What the commands make of the CSR, one after the other, as long as they succeed. *)
Definition made (p10 : bytes) (fs : files_t) : option bytes :=
  fs1 ← ran (shell (decode_cmd t) (<[b64_file t := p10]> fs));
  rest_of (delete (b64_file t) fs1).

(** No temporary file is left. *)
Definition settled (h : host) : Prop := forall p, p ∈ temp_files t -> files h !! p = None.

(** Nothing fails from here on, and the CSR in base64 is gone. *)
Definition smooth (h : host) : Prop := results h = [] /\ files h !! b64_file t = None.

Lemma system_run cmd h :
  exists h1, system shell cmd h = Some (fst (shell cmd (files h)), h1) /\ files h1 = snd (shell cmd (files h)) /\
             results h1 = results h.
Proof.
  unfold system, mbind, A_bind, get_files. destruct (shell cmd (files h)) as [rc fs'].
  eexists. by split_and!.
Qed.

Lemma purge_run h : files h !! b64_file t = None -> exists h', purge t h = Some (tt, h') /\ settled h'.
Proof.
  intros Hb. eexists. split; [reflexivity|]. intros p Hp. cbn. rewrite !lookup_delete_None.
  unfold temp_files in Hp. rewrite !elem_of_cons in Hp. destruct Hp as [->|[->|[->|[->|[->|[->|[]%elem_of_nil]]]]]]; tauto.
Qed.

Lemma purged_run h : smooth h -> exists h', cleanup t h = Some (None, h') /\ settled h'.
Proof.
  intros [_ Hb]. destruct (purge_run h Hb) as (h' & E & Hs). exists h'. unfold cleanup, mbind, A_bind. by rewrite E.
Qed.

(** A computation that gives what the function finds in the files, and leaves nothing. *)
Definition gives (m : A (option bytes)) (f : files_t -> option bytes) : Prop :=
  forall h, smooth h -> exists h', m h = Some (f (files h), h') /\ settled h'.

Lemma load_gives : gives (load_pkcs7 t) (fun fs => fs !! pkcs7_der t).
Proof.
  intros h [Hr Hb]. unfold load_pkcs7, mbind, A_bind, succeeds, get_files. rewrite Hr.
  destruct (files h !! pkcs7_der t) as [d|] eqn:Ed; [|by apply purged_run].
  rewrite Hr. cbn [negb]. rewrite Hr. cbn [negb]. rewrite Hr. cbn [negb].
  destruct (purge_run h Hb) as (h' & E & Hs). exists h'. by rewrite E.
Qed.

(** A command keeps the temporary files that it does not name. *)
Definition keeps_b64 (cmd : bytes) : Prop := forall fs, snd (shell cmd fs) !! b64_file t = fs !! b64_file t.

Lemma step_gives cmd m f :
  keeps_b64 cmd -> gives m f ->
  gives (rc ← system shell cmd; if negb (rc =? 0) then cleanup t else m) (fun fs => fs' ← ran (shell cmd fs); f fs').
Proof.
  intros Hk Hm h [Hr Hb]. destruct (system_run cmd h) as (h1 & E & Hf & Hr1).
  assert (Hs1 : smooth h1) by (split; [congruence|by rewrite Hf, Hk]).
  unfold mbind at 1, A_bind at 1. rewrite E. unfold ran. destruct (_ =? 0); cbn [negb].
  - destruct (Hm h1 Hs1) as (h' & E' & Hs). exists h'. cbn. by rewrite <- Hf.
  - by apply purged_run.
Qed.

Lemma named_keeps_b64 cmd c q :
  sh_parse cmd = Some c -> sh_written c = [q] -> q <> b64_file t ->
  (sh_option (lit "-config") (sh_argv c) = [] \/ sh_option (lit "-config") (sh_argv c) = [config_file t]) ->
  keeps_b64 cmd.
Proof.
  intros Hc Hw Hq Hcfg fs. apply (Hshell cmd c); [done|rewrite Hw; by intros <-%list_elem_of_singleton|].
  intros cfg. destruct Hcfg as [->| ->]; [by intros ?%elem_of_nil|intros ->%list_elem_of_singleton Hs].
  apply (Hca t) in Hs as [_ Hs]; [|done]. apply Hs. set_solver.
Qed.

Lemma temp_distinct : Forall (fun p => p <> b64_file t) [der_file t; pem_file t; cert_file t; pkcs7_file t; pkcs7_der t].
Proof. per_tenant Ht; repeat (apply Forall_cons_2; [vm_compute; discriminate|]); apply Forall_nil_2. Qed.

Ltac other_temp := apply (proj1 (Forall_forall _ _) temp_distinct); cbn; tauto.

Lemma rest_gives :
  gives (rc ← system shell (req_cmd t); if negb (rc =? 0) then cleanup t else
         rc ← system shell (ca_cmd t); if negb (rc =? 0) then cleanup t else
         rc ← system shell (bundle_cmd t); if negb (rc =? 0) then cleanup t else
         rc ← system shell (der_cmd t); if negb (rc =? 0) then cleanup t else load_pkcs7 t) rest_of.
Proof.
  apply step_gives; [eapply named_keeps_b64; [by apply req_cmd_words|reflexivity|other_temp|by left]|].
  apply step_gives; [eapply named_keeps_b64; [by apply ca_cmd_words|reflexivity|other_temp|by right]|].
  apply step_gives; [eapply named_keeps_b64; [by apply bundle_cmd_words|reflexivity|other_temp|by left]|].
  apply step_gives; [eapply named_keeps_b64; [by apply der_cmd_words|reflexivity|other_temp|by left]|].
  apply load_gives.
Qed.

Lemma enroll_outcome p10 h :
  results h = [] -> exists h', enroll_tenant shell partly t p10 h = Some (made p10 (files h), h') /\ settled h'.
Proof.
  intros Hr. set (h0 := set_files (<[b64_file t := p10]> (files h)) h).
  assert (Eo : fopen_wb (b64_file t) h = Some (true, set_files (<[b64_file t := []]> (files h)) h))
    by (unfold fopen_wb, mbind, A_bind, succeeds, get_files; by rewrite Hr).
  assert (Ew : fwrite partly (b64_file t) p10 (set_files (<[b64_file t := []]> (files h)) h) = Some (true, h0)).
  { unfold fwrite, mbind, A_bind, succeeds, get_files. cbn. rewrite Hr. cbn. by rewrite insert_insert_eq. }
  destruct (system_run (decode_cmd t) h0) as (h1 & Ed & Hf & Hr1).
  set (h2 := set_files (delete (b64_file t) (files h1)) h1).
  assert (Hs2 : smooth h2) by (split; [by cbn; rewrite Hr1|apply lookup_delete_eq]).
  unfold enroll_tenant. unfold mbind at 1, A_bind at 1. rewrite Eo. cbn [negb].
  unfold mbind at 1, A_bind at 1. rewrite Ew. cbn [negb].
  unfold mbind at 1, A_bind at 1. rewrite Ed.
  unfold mbind at 1, A_bind at 1. change (unlink (b64_file t) h1) with (Some (tt, h2)). cbv beta iota.
  assert (Em : made p10 (files h) = if fst (shell (decode_cmd t) (files h0)) =? 0
               then rest_of (delete (b64_file t) (snd (shell (decode_cmd t) (files h0)))) else None)
    by (unfold made, ran; change (files h0) with (<[b64_file t := p10]> (files h)); by destruct (_ =? 0)).
  rewrite Em. destruct (_ =? 0); cbn [negb].
  - destruct (rest_gives h2 Hs2) as (h' & E & Hs). exists h'. rewrite E. split; [|done].
    change (files h2) with (delete (b64_file t) (files h1)). by rewrite Hf.
  - by apply purged_run.
Qed.

End Commands.

(** C3. Enrollment of a tenant.  Whatever the tenant identifier, the CSR and the files on
    the host, with a shell and a CA that keep to the files they are told: an identifier
    that is none of the three tenants' is refused and nothing is done.  For a tenant, the
    call ends, when no call of the C library fails; it returns the certificate that the
    commands made of the CSR if all of them succeeded, and nothing otherwise; no temporary
    file is left; and nothing outside the tenant's own directory is changed, so that no
    tenant's files depend on another one's enrollments. *)
Theorem tenant_enroll_isolated (t p10 : bytes) (h : host) :
  (is_tenant t = false -> multi_tenant_enroll shell partly p10 (Some t) h = Some (None, h)) /\
  (is_tenant t = true ->
    (results h = [] -> exists h', multi_tenant_enroll shell partly p10 (Some t) h = Some (made t p10 (files h), h') /\
                                  settled t h') /\
    (forall r h', multi_tenant_enroll shell partly p10 (Some t) h = Some (r, h') ->
       (forall p, in_dir t p = false -> files h' !! p = files h !! p) /\
       (forall t' p, is_tenant t' = true -> t' <> t -> in_dir t' p = true -> files h' !! p = files h !! p))).
Proof.
  assert (Hcase : multi_tenant_enroll shell partly p10 (Some t)
                  = if is_tenant t then enroll_tenant shell partly t p10 else mret None)
    by (by destruct t as [|c s]; [|cbn [multi_tenant_enroll]; destruct (is_tenant (c :: s))]).
  rewrite Hcase. split; [by intros ->|]. intros Ht. rewrite Ht. split; [intros Hr; by apply enroll_outcome|].
  intros r h' E. assert (Hf : forall p, in_dir t p = false -> files h' !! p = files h !! p).
  { intros p Hp. apply (frames_enroll t Ht p10 h r h' E). by rewrite Hp. }
  split; [exact Hf|]. intros t' p Ht' Hne Hp. apply Hf. destruct (in_dir t p) eqn:Ep; [|done].
  destruct Hne. exact (dirs_apart t' t p Ht' Ht Hp Ep).
Qed.

(** A CSR that cannot be written down completely ends in a file that is closed twice, a
    result that cannot be read in a block that is freed twice. *)
Lemma failing_write_closes_twice t p10 h l :
  is_tenant t = true -> results h = true :: false :: l ->
  multi_tenant_enroll shell partly p10 (Some t) h = None.
Proof.
  intros Ht Hr. destruct t as [|c s]; [done|]. cbn [multi_tenant_enroll]. rewrite Ht. cbn [negb].
  unfold enroll_tenant, fopen_wb, fwrite, mbind, A_bind, succeeds, get_files. by rewrite Hr.
Qed.

(** ** The CA certificates of a tenant *)

Definition cacerts_command (t : bytes) : sh_command :=
  Build_sh_command [lit "openssl"; lit "crl2pkcs7"; lit "-nocrl"; lit "-certfile"; ca_cert_path t; lit "-outform";
                    lit "DER"; lit "-out"; cacerts_path t] None [lit "/dev/null"].

Lemma snprintf_length n s : 0 < n -> Z.of_nat (length (snprintf n s)) < n.
Proof. intros H. unfold snprintf. rewrite length_take. lia. Qed.

Lemma cacerts_tenant_short seg : Z.of_nat (length (cacerts_tenant seg)) < MAX_TENANT_ID.
Proof.
  unfold cacerts_tenant. destruct seg as [s|]; [|done].
  destruct (_ && _) eqn:E; [|done]. apply andb_true_iff in E as [_ E]. by apply Z.ltb_lt.
Qed.

Lemma no_quote_app a b c : ~ In chr_quote a -> ~ In chr_quote b -> ~ In chr_quote c -> ~ In chr_quote (a ++ b ++ c).
Proof. rewrite !in_app_iff. tauto. Qed.

Ltac no_quote := let H := fresh in intros H; vm_compute in H; intuition discriminate.

(** The path is the prefix, the tenant and the file's name, none of it cut off. *)
Lemma in_path_whole t name :
  Z.of_nat (length t) < MAX_TENANT_ID -> Z.of_nat (length name) < 100 ->
  in_path (REPO_ROOT ++ lit "/tenants/" ++ t ++ name) = (REPO_ROOT ++ lit "/tenants/") ++ t ++ name.
Proof.
  intros Ht Hn. unfold in_path. rewrite app_assoc. apply snprintf_fits. rewrite !length_app.
  assert (length REPO_ROOT < 50)%nat by (vm_compute; lia). assert (length (lit "/tenants/") < 50)%nat by (vm_compute; lia).
  unfold MAX_TENANT_ID, MAX_PATH_LEN in *. lia.
Qed.

Lemma path_no_quote t name :
  Z.of_nat (length t) < MAX_TENANT_ID -> Z.of_nat (length name) < 100 -> ~ In chr_quote t -> ~ In chr_quote name ->
  ~ In chr_quote (in_path (REPO_ROOT ++ lit "/tenants/" ++ t ++ name)).
Proof. intros Ht Hn Hq Hm. rewrite in_path_whole by done. apply no_quote_app; [no_quote|done|done]. Qed.

Lemma cacerts_prefix s :
  sh_lex (lit "openssl crl2pkcs7 -nocrl -certfile '" ++ s) false None []
  = sh_lex s true (Some []) [T_word (lit "openssl"); T_word (lit "crl2pkcs7"); T_word (lit "-nocrl"); T_word (lit "-certfile")].
Proof. reflexivity. Qed.

Lemma cacerts_middle s w acc :
  sh_lex (lit " -outform DER -out '" ++ s) false (Some w) acc
  = sh_lex s true (Some []) ((((acc ++ [T_word w]) ++ [T_word (lit "-outform")]) ++ [T_word (lit "DER")])
                             ++ [T_word (lit "-out")]).
Proof. reflexivity. Qed.

Lemma cacerts_cmd_words t :
  Z.of_nat (length t) < MAX_TENANT_ID -> ~ In chr_quote t -> sh_parse (cacerts_cmd t) = Some (cacerts_command t).
Proof.
  intros Ht Hq.
  assert (Hcp : ~ In chr_quote (ca_cert_path t)) by (apply path_no_quote; [done|done|done|no_quote]).
  assert (Hp : ~ In chr_quote (cacerts_path t)) by (apply path_no_quote; [done|done|done|no_quote]).
  assert (Lca : Z.of_nat (length (ca_cert_path t)) < MAX_PATH_LEN) by by apply snprintf_length.
  assert (Lp : Z.of_nat (length (cacerts_path t)) < MAX_PATH_LEN) by by apply snprintf_length.
  unfold cacerts_cmd, cacerts_command, in_cmd. generalize dependent (ca_cert_path t). generalize dependent (cacerts_path t).
  intros p Hp Lp c Hc Lc.
  rewrite snprintf_fits.
  2: { rewrite !length_app. 
       assert (length (lit "openssl crl2pkcs7 -nocrl -certfile '") < 50)%nat by (vm_compute; lia).
       assert (length (lit "' -outform DER -out '") < 50)%nat by (vm_compute; lia).
       assert (length (lit "' 2>/dev/null") < 50)%nat by (vm_compute; lia).
       unfold MAX_CMD_LEN, MAX_PATH_LEN in *. lia. }
  unfold sh_parse. rewrite cacerts_prefix.
  change (lit "' -outform DER -out '") with (chr_quote :: lit " -outform DER -out '"). cbn [app].
  rewrite sh_lex_quoted by done. rewrite cacerts_middle.
  change (lit "' 2>/dev/null") with (chr_quote :: lit " 2>/dev/null"). rewrite sh_lex_quoted by done. reflexivity.
Qed.

(** A quote in the tenant's name ends the quoted word: the rest are words of their own. *)
Lemma cacerts_quote_injects :
  exists c, sh_parse (cacerts_cmd (lit "x' -config 'y")) = Some c /\
            sh_option (lit "-config") (sh_argv c) = [lit "y/cacert.crt"; lit "y/cacerts_response.pkcs7"].
Proof. eexists. split; vm_compute; reflexivity. Qed.

(** No file on the host has a quote in its path. *)
Definition unquoted (fs : files_t) : Prop := forall p, is_Some (fs !! p) -> ~ In chr_quote p.

(** The file that was made, when it has a size. *)
Definition sized (o : option bytes) : option bytes :=
  match o with
  | Some d => if (Z.of_nat (length d) <=? 0) || (Z.of_nat (length d) >? MAX_CACERTS_FILE) then None else Some d
  | None => None
  end.

(** What the pipeline for the CA certificates makes. *)
Definition cacerts_made (t : bytes) (fs : files_t) : option bytes :=
  _ ← fs !! ca_cert_path t;
  fs' ← ran (shell (cacerts_cmd t) fs);
  sized (fs' !! cacerts_path t).

(** One call that can fail, and what it leaves. *)
Lemma succeeds_run h : exists b h', succeeds h = Some (b, h') /\ files h' = files h /\ acts h' = acts h /\
  (results h = [] -> b = true /\ results h' = []).
Proof. unfold succeeds. destruct (results h) as [|b l] eqn:E; do 2 eexists; by split_and!. Qed.

(** A run that ends, does nothing but to remove the file, and gives [x] or nothing: [x]
    when no call fails, which is what [Q] stands for. *)
Definition ends_with (Q : Prop) (t : bytes) (x : option bytes) (h : host) (m : A (option bytes)) : Prop :=
  exists r h', m h = Some (r, h') /\ acts h' = acts h /\
    (forall p, p <> cacerts_path t -> files h' !! p = files h !! p) /\
    (r = None \/ r = x) /\ (Q -> r = x) /\ (r <> None -> files h' !! cacerts_path t = None).

Lemma removes (Q : Prop) t x r h :
  r = None \/ r = x -> (Q -> r = x) -> ends_with Q t x h (_ ← unlink (cacerts_path t); mret r).
Proof.
  intros Hr Hx. do 2 eexists. split_and!; try done.
  - intros p Hp. by apply lookup_delete_ne.
  - intros _. apply lookup_delete_eq.
Qed.

Lemma abandons (Q : Prop) t x h : (Q -> false = true) -> ends_with Q t x h (_ ← unlink (cacerts_path t); mret None).
Proof. intros HQ. apply removes; [by left|]. intros H%HQ. discriminate H. Qed.

Lemma ends_after (Q : Prop) t x h (f : bool -> A (option bytes)) :
  (Q -> results h = []) ->
  (forall b h', files h' = files h -> (Q -> b = true) -> (Q -> results h' = []) -> ends_with Q t x h' (f b)) ->
  ends_with Q t x h (succeeds ≫= f).
Proof.
  intros HQ Hf. destruct (succeeds_run h) as (b & h1 & E & Ef & Ea & Hr).
  destruct (Hf b h1 Ef (fun q => proj1 (Hr (HQ q))) (fun q => proj2 (Hr (HQ q)))) as (r & h' & E' & Ha & Hfr & Hx).
  exists r, h'. unfold mbind, A_bind. rewrite E. split_and!; [done|congruence| |apply Hx..].
  intros p Hp. by rewrite Hfr, Ef.
Qed.

Lemma ends_get (Q : Prop) (t : bytes) (x : option bytes) (h : host) (f : files_t -> A (option bytes)) :
  ends_with Q t x h (f (files h)) -> ends_with Q t x h (get_files ≫= f).
Proof. done. Qed.

Lemma load_cacerts_ends (Q : Prop) t h :
  (Q -> results h = []) -> ends_with Q t (sized (files h !! cacerts_path t)) h (load_cacerts t).
Proof.
  intros HQ. apply ends_after; [done|]. intros opened h1 <- Hb H1. apply ends_get.
  destruct opened; [|by apply abandons].
  destruct (files h1 !! cacerts_path t) as [d|]; [|apply removes; [by left|done]]. cbn [sized].
  destruct (_ || _); [apply removes; [by left|done]|].
  apply ends_after; [done|]. intros [] h2 _ Hb2 H2; cbn [negb]; [|by apply abandons].
  apply ends_after; [done|]. intros [] h3 _ Hb3 H3; cbn [negb]; [|by apply abandons].
  apply removes; [by right|done].
Qed.

Lemma cacerts_no_quote t h :
  Z.of_nat (length t) < MAX_TENANT_ID -> unquoted (files h) -> is_Some (files h !! ca_cert_path t) -> ~ In chr_quote t.
Proof.
  intros Ht Hu Hs Hq. apply (Hu _ Hs). unfold ca_cert_path. rewrite in_path_whole by done.
  rewrite !in_app_iff. tauto.
Qed.

(** C4. The CA certificates of a tenant.  For every path segment of a request the call ends;
    it runs at most one command.  On a host where no path has a quote in it this command
    is the one the source means, on the CA certificate of the tenant that the path segment
    names, although the path segment stands between quotes in the command line unchecked:
    a name with a quote, which would add words to the command, has no CA certificate.
    The call changes no file but the response and returns what the command made of the
    certificate, or nothing; without errors of the C library exactly the former; and a
    response that is returned is removed. *)
Theorem tenant_cacerts_confined (seg : option bytes) (h : host) :
  unquoted (files h) ->
  let t := cacerts_tenant seg in
  exists r h', multi_tenant_cacerts shell seg h = Some (r, h') /\
    (acts h' = acts h \/
     exists rc, acts h' = acts h ++ [Ran (cacerts_cmd t) rc] /\ sh_parse (cacerts_cmd t) = Some (cacerts_command t)) /\
    (forall p, p <> cacerts_path t -> p <> lit "/dev/null" -> files h' !! p = files h !! p) /\
    (r = None \/ r = cacerts_made t (files h)) /\ (results h = [] -> r = cacerts_made t (files h)) /\
    (r <> None -> files h' !! cacerts_path t = None).
Proof.
  intros Hu t. assert (Lt := cacerts_tenant_short seg). fold t in Lt.
  destruct (succeeds_run h) as (readable & h1 & E1 & F1 & A1 & R1).
  unfold multi_tenant_cacerts. fold t. unfold mbind at 1, A_bind at 1. rewrite E1.
  unfold mbind at 1, A_bind at 1, get_files. cbv beta iota. rewrite F1. unfold cacerts_made.
  destruct (files h !! ca_cert_path t) as [ca|] eqn:Eca.
  2: { rewrite andb_false_r. cbn [negb]. exists None, h1. split_and!; [done|by left|by rewrite F1|by left|done|done]. }
  destruct readable; cbn [negb andb bool_decide is_Some_dec].
  2: { exists None, h1. split_and!; [done|by left|by rewrite F1|by left|intros [? _]%R1; discriminate|done]. }
  assert (Hw := cacerts_cmd_words t Lt (cacerts_no_quote t h Lt Hu (mk_is_Some _ _ Eca))).
  destruct (system_run (cacerts_cmd t) h1) as (h2 & E2 & F2 & R2). rewrite F1 in E2, F2.
  assert (A2 : acts h2 = acts h ++ [Ran (cacerts_cmd t) (fst (shell (cacerts_cmd t) (files h)))]).
  { unfold system, mbind, A_bind, get_files in E2. rewrite F1 in E2.
    destruct (shell (cacerts_cmd t) (files h)) as [rc fs']. injection E2 as <-. cbn. by rewrite A1. }
  assert (Hf : forall p, p <> cacerts_path t -> p <> lit "/dev/null" -> files h2 !! p = files h !! p).
  { intros p Hp Hn. rewrite F2. apply (Hshell _ _ _ _ Hw); [|by intros cfg ?%elem_of_nil].
    change (sh_written (cacerts_command t)) with [lit "/dev/null"; cacerts_path t].
    rewrite !elem_of_cons. by intros [->|[->|[]%elem_of_nil]]. }
  unfold mbind at 1, A_bind at 1. rewrite E2. unfold ran. cbn [mbind option_bind].
  destruct (_ =? 0); cbn [negb].
  - destruct (load_cacerts_ends (results h = []) t h2) as (r & h' & E & Ha & Hfr & Hr & Hr' & Hdel);
      [intros E0; by rewrite R2, (proj2 (R1 E0))|].
    exists r, h'. rewrite <- F2. split_and!; [done|right; eexists; split; [by rewrite Ha, A2|done]| |done|done|done].
    intros p Hp Hn. by rewrite Hfr, Hf.
  - exists None, h2. split_and!; [done|right; by eexists|done|by left|done|done].
Qed.

End Tenants.
