(* ===== verification/ServerApp.v ===== *)
(** * ServerApp: the callbacks of the server application

    estserver.c: the check of a user's credentials, the simulated manual approval of
    enrollments with its lookup table (of the C library or, with DISABLE_TSEARCH, a linked
    list), and the enrollment, key generation and CSR attributes callbacks, which end in
    the tenants' pipeline of [Tenants].  [ossl_simple_enroll], which is the CA command of
    OpenSSL made into a function, is a parameter. *)

From stdpp Require Import gmap.
From S2P Require Import Prelude.
From S2P Require Import SafeC.
From S2P Require Import EstTypes.
From S2P Require Import EstState.
From S2P Require Import EstUtil.
From S2P Require Import HttpAuth.
From S2P Require Import Tenants.
Local Open Scope Z_scope.

Definition MAX_CERT_LEN : Z := 8192.
Definition MAX_FILENAME_LEN : Z := 255.
Definition DEFAULT_ENHCD_CERT_PWD : bytes := lit "cisco".
Definition TEST_CSR : bytes := lit "MCYGBysGAQEBARYGCSqGSIb3DQEJAQYFK4EEACIGCWCGSAFlAwQCAg==".
Definition SSL3_AL_FATAL : Z := 2.

(** The options of the command line that the callbacks look at. *)
Record app_options := {
  verbose : bool;
  manual_enroll : bool;
  write_csr : bool;
  enable_enhcd_cert_auth : bool;
  cert_auth_ah_pwd : option bytes;
  valid_token_value : bytes;
  digest_ha1 : bytes
}.

(** ** The lookup table *)

Definition compare (a b : bytes) : Z :=
  if Z.of_nat (length a) >? Z.of_nat (length b) then 1
  else if Z.of_nat (length a) <? Z.of_nat (length b) then -1
  else memcmp a b (Z.of_nat (length a)).

(** The linked list of a build with DISABLE_TSEARCH; the empty list is NULL. *)
Fixpoint search_list (head : list bytes) (target : bytes) : option bytes :=
  match head with
  | [] => None
  | e :: next => if compare e target =? 0 then Some e else search_list next target
  end.

(** The new head: NULL when there is no such node. *)
Fixpoint unlink_node (tmp : list bytes) (target : bytes) : option (list bytes) :=
  match tmp with
  | [] => None
  | e :: next => if compare e target =? 0 then Some next else cons e <$> unlink_node next target
  end.
Definition delete_lookup_entry (head : list bytes) (target : bytes) : list bytes :=
  default [] (unlink_node head target).

Definition add_entry (head : list bytes) (new_node : bytes) : option (list bytes) :=
  match head with
  | [] => None
  | _ => Some (head ++ [new_node])
  end.

(** The tree of the C library as the set of its nodes. *)
Definition tfind (key : bytes) (root : list bytes) : bool := existsb (fun n => compare key n =? 0) root.
Definition tdelete (key : bytes) (root : list bytes) : list bytes :=
  List.filter (fun n => negb (compare key n =? 0)) root.
Definition tsearch (key : bytes) (root : list bytes) : list bytes := key :: root.

Definition get_table : A (list bytes) := fun h => Some (lookup_root h, h).
Definition put_table (v : list bytes) : A unit := fun h => Some (tt, set_lookup_root v h).

Section ServerApp.
Context {L : OpenSSL}.
Variable shell : bytes -> files_t -> Z * files_t.
Variable partly : bytes -> bytes.
Variable DISABLE_TSEARCH : bool.
Variable PEM_write_bio_PUBKEY : EVP_PKEY -> bytes.
Variable ossl_simple_enroll : bytes -> A (option bytes).
Variable opts : app_options.

(** The table once the key is looked up: 1 and without it, or 0 and with it. *)
Definition toggle (key : bytes) : A Z :=
  root ← get_table;
  if DISABLE_TSEARCH then
    match search_list root key with
    | Some _ => _ ← put_table (delete_lookup_entry root key); mret 1
    | None =>
        match root with
        | [] => _ ← put_table [key]; mret 0
        | _ => match add_entry root key with
               | Some root' => _ ← put_table root'; mret 0
               | None => undefined
               end
        end
    end
  else if tfind key root then _ ← put_table (tdelete key root); mret 1
  else
    ok ← succeeds;
    _ ← put_table (if ok : bool then tsearch key root else root);
    mret 0.

(** The key of the CSR is the index; neither allocation of the node is checked. *)
Definition lookup_pkcs10_request (pkcs10 : bytes) : A Z :=
  match d2i_X509_REQ_bio true pkcs10 with
  | None => mret 1
  | Some req =>
      match X509_REQ_get_pubkey req with
      | None => mret 1
      | Some pkey =>
          node ← succeeds;
          if negb node then undefined else
          data ← succeeds;
          if negb data then undefined else toggle (PEM_write_bio_PUBKEY pkey)
      end
  end.

(** ** Enrollment *)

(** The name of the peer in a buffer of [size] bytes, of which [len] may be used: a name
    of [len] bytes and more is ended at [name[len]]. *)
Definition extract_sub_name (size : Z) (cert : X509) (len : Z) : A unit :=
  let data := default [] (X509_NAME_print (X509_get_subject_name cert)) in
  let at_ := if Z.of_nat (length data) <? len then Z.of_nat (length data) else len in
  if at_ <? size then mret tt else undefined.

Definition show_request (peer_cert : option X509) : A unit :=
  match peer_cert with
  | Some cert => if verbose opts then extract_sub_name 64 cert 64 else mret tt
  | None => mret tt
  end.

Definition write_binary_file (p data : bytes) : A unit :=
  opened ← fopen_wb p;
  if negb opened then mret tt else _ ← fwrite partly p data; mret tt.

Definition dump_csr (file_name pkcs10 : bytes) : A unit :=
  if write_csr opts then write_binary_file (snprintf MAX_FILENAME_LEN file_name) pkcs10 else mret tt.

(** The certificate in the caller's variables: the pointer, if it is set, and the length,
    if it is. *)
Record cert_out := { co_rc : EST_ERROR; co_cert : option bytes; co_len : option Z }.

Definition no_cert (rc : EST_ERROR) : cert_out := Build_cert_out rc None None.

(** A request that waits for its approval. *)
Definition awaits_approval (pkcs10 : bytes) : A bool :=
  if manual_enroll opts then rv ← lookup_pkcs10_request pkcs10; mret (rv =? 0) else mret false.

Definition process_pkcs10_enrollment (pkcs10 : bytes) (peer_cert : option X509) (path_seg : option bytes)
    : A cert_out :=
  _ ← show_request peer_cert;
  wait ← awaits_approval pkcs10;
  if wait : bool then mret (no_cert EST_ERR_CA_ENROLL_RETRY) else
  _ ← did Locked;
  _ ← dump_csr (lit "/tmp/csr.p10") pkcs10;
  result ← match path_seg with
           | Some (_ :: _) => multi_tenant_enroll shell partly pkcs10 path_seg
           | _ => ossl_simple_enroll pkcs10
           end;
  _ ← did Unlocked;
  match result with
  | None => mret (no_cert EST_ERR_CA_ENROLL_FAIL)
  | Some buf =>
      let pkcs7_len := Z.of_nat (length buf) in
      if (0 <? pkcs7_len) && (pkcs7_len <? MAX_CERT_LEN) then
        block ← succeeds;
        if negb block then undefined else mret (Build_cert_out EST_ERR_NONE (Some buf) (Some pkcs7_len))
      else mret (Build_cert_out EST_ERR_NONE None (Some pkcs7_len))
  end.

Definition process_srvr_side_keygen_pkcs10_enrollment (pkcs10 : bytes) (peer_cert : option X509)
    (path_seg : option bytes) : A cert_out :=
  _ ← show_request peer_cert;
  match path_seg with
  | None | Some [] => mret (no_cert EST_ERR_AUTH_FAIL)
  | Some tenant_id =>
      if negb (is_tenant tenant_id) then mret (no_cert EST_ERR_AUTH_FAIL) else
      wait ← awaits_approval pkcs10;
      if wait : bool then mret (no_cert EST_ERR_CA_ENROLL_RETRY) else
      _ ← did Locked;
      _ ← dump_csr (lit "/tmp/csr_keygen_" ++ tenant_id ++ lit ".p10") pkcs10;
      result ← multi_tenant_enroll shell partly pkcs10 (Some tenant_id);
      _ ← did Unlocked;
      match result with
      | None => mret (no_cert EST_ERR_CA_ENROLL_FAIL)
      | Some buf =>
          let pkcs7_len := Z.of_nat (length buf) in
          if (0 <? pkcs7_len) && (pkcs7_len <? MAX_CERT_LEN) then
            block ← succeeds;
            if negb block then mret (Build_cert_out EST_ERR_CA_ENROLL_FAIL None (Some pkcs7_len))
            else mret (Build_cert_out EST_ERR_NONE (Some buf) (Some pkcs7_len))
          else mret (Build_cert_out EST_ERR_CA_ENROLL_FAIL None (Some pkcs7_len))
      end
  end.

(** ** CSR attributes and keys *)

(** The attributes of the environment, or the built-in ones with their NUL. *)
Definition process_csrattrs_request (EST_CSR_ATTR : option bytes) : A (bytes * Z) :=
  block ← succeeds;
  if negb block then undefined else
  match EST_CSR_ATTR with
  | Some t => mret (t, Z.of_nat (length t))
  | None => mret (TEST_CSR ++ [0], Z.of_nat (length TEST_CSR) + 1)
  end.

(** [rsa_pem] is the key that is read back from the PEM of the new RSA key. *)
Definition generate_private_key (p_priv_key : bool) (rsa_pem : option EVP_PKEY) : A (EST_ERROR * option EVP_PKEY) :=
  if negb p_priv_key then mret (EST_ERR_INVALID_PARAMETERS, None) else
  rsa ← succeeds;
  if negb rsa then mret (EST_ERR_MALLOC, None) else
  bn ← succeeds;
  if negb bn then mret (EST_ERR_MALLOC, None) else
  match rsa_pem with
  | None => mret (EST_ERR_PEM_READ, None)
  | Some k => mret (EST_ERR_NONE, Some k)
  end.

(** ** Credentials *)

Definition streq (a b : bytes) : bool := bool_decide (cstr a = cstr b).

(** [strcmp] with NULL is undefined. *)
Definition same_string (s : option bytes) (t : bytes) : M bool :=
  match s with Some s => mret (streq s t) | None => null_deref end.

(** The hash that [main] makes of the built-in user, with the NUL of its buffer. *)
Definition hex2 (c : Z) : bytes := [rd (lit "0123456789abcdef") (Z.to_nat (c / 16)); rd (lit "0123456789abcdef") (Z.to_nat (c mod 16))].
Definition ha1_value (realm : bytes) : bytes :=
  flat_map hex2 (EVP_md5 (lit "estuser:" ++ realm ++ lit ":estpwd")) ++ [0; 0].

Definition process_http_auth (ah : EST_HTTP_AUTH_HDR) : M bool :=
  match ah_mode ah with
  | AUTH_BASIC =>
      let user := if enable_enhcd_cert_auth opts then lit "/CN=127.0.0.1" else lit "estuser" in
      let pass := if enable_enhcd_cert_auth opts
                  then match cert_auth_ah_pwd opts with Some p => p | None => DEFAULT_ENHCD_CERT_PWD end
                  else lit "estpwd" in
      known ← same_string (ah_user ah) user;
      if negb known then mret false else same_string (ah_pwd ah) pass
  | AUTH_DIGEST =>
      known ← same_string (ah_user ah) (lit "estuser");
      if negb known then mret false else
      digest ← est_server_generate_auth_digest (Some ah) (Some (digest_ha1 opts));
      match digest, ah_response ah with
      | Some d, Some response => mret (strncmp d response 32 =? 0)
      | _, _ => null_deref
      end
  | AUTH_TOKEN => same_string (ah_auth_token ah) (valid_token_value opts)
  | _ => mret false
  end.

(** The verifier of an SRP user: [srp_db] is the database, [set_param] whether the TLS
    library takes the verifier. *)
Definition process_ssl_srp_auth {U : Type} (srp_db : bytes -> option U) (set_param : U -> bool) (s : SSL) : Z :=
  match SSL_get_srp_username s with
  | None => -1
  | Some login =>
      match srp_db login with
      | None => SSL3_AL_FATAL
      | Some user => if negb (set_param user) then SSL3_AL_FATAL else 0
      end
  end.

End ServerApp.
