(* ===== verification/ServerAppProps.v ===== *)
(** * ServerAppProps: the server application's callbacks

    The lookup table of the simulated approval is a set in both builds, so that exactly
    every second request for a key goes on to the CA; and the application lets in exactly
    the clients with the built-in credentials. *)

From stdpp Require Import gmap.
From S2P Require Import Prelude.
From S2P Require Import SafeC.
From S2P Require Import EstTypes.
From S2P Require Import EstState.
From S2P Require Import Base64.
From S2P Require Import EstUtil.
From S2P Require Import HttpAuth.
From S2P Require Import CoapReqProps.
From S2P Require Import CredentialProps.
From S2P Require Import Tenants.
From S2P Require Import ServerApp.
Local Open Scope Z_scope.

Lemma A_run {T U} (m : A T) (f : T -> A U) h x h' : m h = Some (x, h') -> (m ≫= f) h = f x h'.
Proof. intros E. unfold mbind, A_bind. by rewrite E. Qed.

(** ** The lookup table is a set *)

Lemma compare_zero a b : compare a b = 0 <-> a = b.
Proof.
  unfold compare. destruct (Z.gtb_spec (Z.of_nat (length a)) (Z.of_nat (length b))).
  { split; [done|]. intros ->. lia. }
  destruct (Z.ltb_spec (Z.of_nat (length a)) (Z.of_nat (length b))).
  { split; [done|]. intros ->. lia. }
  rewrite memcmp_zero by lia. rewrite !take_ge by lia. done.
Qed.

Lemma compare_eqb a b : (compare a b =? 0) = bool_decide (a = b).
Proof. apply eq_bool_prop_intro. rewrite Is_true_true, Z.eqb_eq, compare_zero. by rewrite bool_decide_spec. Qed.

Lemma search_list_spec root k : search_list root k = if bool_decide (k ∈ root) then Some k else None.
Proof.
  induction root as [|e root IH]; [done|]. cbn [search_list]. rewrite compare_eqb, IH.
  rewrite (bool_decide_ext (k ∈ e :: root) (k = e \/ k ∈ root)) by apply elem_of_cons.
  destruct (decide (e = k)) as [->|He]; [by rewrite !bool_decide_true by auto|]. rewrite (bool_decide_false (e = k)) by done.
  rewrite (bool_decide_ext (k = e \/ k ∈ root) (k ∈ root)) by (split; [by intros [->|?]|by right]). done.
Qed.

Lemma tfind_spec root k : tfind k root = bool_decide (k ∈ root).
Proof.
  unfold tfind. induction root as [|e root IH]; [done|]. cbn [existsb]. rewrite compare_eqb, IH.
  rewrite (bool_decide_ext (k ∈ e :: root) (k = e \/ k ∈ root)) by apply elem_of_cons. by rewrite bool_decide_or.
Qed.

Lemma unlink_node_spec root k root' :
  NoDup root -> unlink_node root k = Some root' -> NoDup root' /\ forall x, x ∈ root' <-> x ∈ root /\ x <> k.
Proof.
  revert root'. induction root as [|e root IH]; intros root' Hn E; [done|]. apply list.NoDup_cons in Hn as [He Hn].
  cbn [unlink_node] in E. rewrite compare_eqb in E. case_bool_decide as Hk.
  - injection E as <-. subst e. split; [done|]. intros x. rewrite elem_of_cons.
    split; [intros Hx; split; [by right|by intros ->]|by intros [[->|?] ?]].
  - destruct (unlink_node root k) as [r|]; [|done]. injection E as <-. destruct (IH r Hn eq_refl) as [Hr Hi].
    split; [apply list.NoDup_cons; split; [by rewrite Hi; intros [? _]|done]|].
    intros x. rewrite !elem_of_cons, Hi. split; [intros [->|[? ?]]; tauto|tauto].
Qed.

Lemma unlink_node_found root k : k ∈ root -> is_Some (unlink_node root k).
Proof.
  induction root as [|e root IH]; [by intros ?%elem_of_nil|]. cbn [unlink_node]. rewrite compare_eqb, elem_of_cons.
  case_bool_decide as Hk; [by eexists|]. intros [->|Hi]; [done|]. destruct (IH Hi) as [r ->]. by eexists.
Qed.

Lemma tdelete_spec root k :
  NoDup root -> NoDup (tdelete k root) /\ forall x, x ∈ tdelete k root <-> x ∈ root /\ x <> k.
Proof.
  intros Hn. assert (Hi : forall x, x ∈ tdelete k root <-> x ∈ root /\ x <> k).
  { intros x. unfold tdelete. rewrite !list_elem_of_In, filter_In, compare_eqb.
    destruct (bool_decide_reflect (k = x)) as [->|Hk]; cbn; intuition congruence. }
  split; [|exact Hi]. clear Hi. induction root as [|e root IH]; [done|]. apply list.NoDup_cons in Hn as [He Hn].
  unfold tdelete. cbn [List.filter]. destruct (negb _); [|by apply IH]. apply list.NoDup_cons. split; [|by apply IH].
  rewrite list_elem_of_In, filter_In, <- list_elem_of_In. tauto.
Qed.

Section ServerApp.
Context {L : OpenSSL}.
Variable DISABLE_TSEARCH : bool.
Variable PEM_write_bio_PUBKEY : EVP_PKEY -> bytes.

(** The table of a host, as a set. *)
Definition table (h : host) : gset bytes := list_to_set (lookup_root h).

(** What a lookup is meant to do: a key that waits is let through and forgotten, another
    one waits from now on. *)
Definition approve (key : bytes) (waiting : gset bytes) : Z * gset bytes :=
  if decide (key ∈ waiting) then (1, waiting ∖ {[key]}) else (0, {[key]} ∪ waiting).

Definition calm (h : host) : Prop := results h = [] /\ NoDup (lookup_root h).

Lemma in_table h k : k ∈ table h <-> k ∈ lookup_root h.
Proof. apply elem_of_list_to_set. Qed.

(** Both builds of the table implement the set. *)
Lemma toggle_refines key h :
  calm h -> exists h', toggle DISABLE_TSEARCH key h = Some (fst (approve key (table h)), h') /\
                       table h' = snd (approve key (table h)) /\ calm h'.
Proof.
  intros [Hr Hn]. set (root := lookup_root h). unfold toggle, mbind, A_bind, get_table. fold root in Hn |- *.
  assert (Hput : forall root', NoDup root' -> calm (set_lookup_root root' h)) by done.
  unfold approve. destruct (decide (key ∈ table h)) as [Hin|Hout]; rewrite in_table in *; fold root in Hin || fold root in Hout.
  - assert (Hs : forall root', (forall x, x ∈ root' <-> x ∈ root /\ x <> key) ->
               table (set_lookup_root root' h) = table h ∖ {[key]}).
    { intros root' Hi. apply set_eq. intros x. unfold table at 1. cbn [lookup_root set_lookup_root].
      rewrite elem_of_list_to_set, Hi, elem_of_difference, in_table, elem_of_singleton. done. }
    destruct DISABLE_TSEARCH.
    + rewrite search_list_spec, bool_decide_true by done. destruct (unlink_node_found root key Hin) as [r Er].
      destruct (unlink_node_spec root key r Hn Er) as [Hr' Hi]. unfold delete_lookup_entry. rewrite Er. cbn [default].
      exists (set_lookup_root r h). split_and!; [done|by apply Hs|by apply Hput].
    + rewrite tfind_spec, bool_decide_true by done. destruct (tdelete_spec root key Hn) as [Hr' Hi].
      exists (set_lookup_root (tdelete key root) h). split_and!; [done|by apply Hs|by apply Hput].
  - assert (Hs : forall root', (forall x, x ∈ root' <-> x = key \/ x ∈ root) ->
               table (set_lookup_root root' h) = {[key]} ∪ table h).
    { intros root' Hi. apply set_eq. intros x. unfold table at 1. cbn [lookup_root set_lookup_root].
      rewrite elem_of_list_to_set, Hi, elem_of_union, in_table, elem_of_singleton. done. }
    destruct DISABLE_TSEARCH.
    + rewrite search_list_spec, bool_decide_false by done.
      exists (set_lookup_root (root ++ [key]) h). split_and!.
      * by destruct root.
      * apply Hs. intros x. rewrite elem_of_app, list_elem_of_singleton. tauto.
      * apply Hput, list.NoDup_app. split_and!; [done| |apply NoDup_singleton].
        intros x Hx ->%list_elem_of_singleton. done.
    + rewrite tfind_spec, bool_decide_false by done. unfold succeeds. rewrite Hr.
      exists (set_lookup_root (key :: root) h). split_and!; [done| |].
      * apply Hs. intros x. by rewrite elem_of_cons.
      * apply Hput, list.NoDup_cons. done.
Qed.

(** ** Approval by asking twice *)

Variable shell : bytes -> files_t -> Z * files_t.
Variable partly : bytes -> bytes.
Variable ossl_simple_enroll : bytes -> A (option bytes).
Variable opts : app_options.

(** The CA of the application does not touch the table. *)
Definition ca_apart : Prop :=
  forall csr h, calm h -> exists r h', ossl_simple_enroll csr h = Some (r, h') /\
                                        lookup_root h' = lookup_root h /\ results h' = results h.

(** The index of a CSR in the table. *)
Definition key_of (csr : bytes) : option bytes :=
  req ← d2i_X509_REQ_bio true csr; pkey ← X509_REQ_get_pubkey req; Some (PEM_write_bio_PUBKEY pkey).

(** A request as the callbacks get it: for a certificate or for a key as well, with the
    certificate of its client and its path segment. *)
Record app_request := {
  rq_keygen : bool;
  rq_csr : bytes;
  rq_peer : option X509;
  rq_seg : option bytes
}.

Definition answer (rq : app_request) : A cert_out :=
  if rq_keygen rq
  then process_srvr_side_keygen_pkcs10_enrollment shell partly DISABLE_TSEARCH PEM_write_bio_PUBKEY opts
         (rq_csr rq) (rq_peer rq) (rq_seg rq)
  else process_pkcs10_enrollment shell partly DISABLE_TSEARCH PEM_write_bio_PUBKEY ossl_simple_enroll opts
         (rq_csr rq) (rq_peer rq) (rq_seg rq).

(** The key a request asks for. A request for key generation that names no tenant is
    refused before the table is looked at, and a CSR that cannot be read has no key. *)
Definition asked_key (rq : app_request) : option bytes :=
  if rq_keygen rq && negb (match rq_seg rq with Some t => is_tenant t | None => false end) then None
  else key_of (rq_csr rq).

(** The name of the client fits the buffer it is printed from. *)
Definition shown (rq : app_request) : Prop :=
  verbose opts = true -> forall cert, rq_peer rq = Some cert ->
    Z.of_nat (length (default [] (X509_NAME_print (X509_get_subject_name cert)))) < 64.

(** Requests of any clients, one after the other, and which of them were told to retry. *)
Fixpoint enrollments (rqs : list app_request) : A (list bool) :=
  match rqs with
  | [] => mret []
  | rq :: rest =>
      o ← answer rq; os ← enrollments rest; mret (bool_decide (co_rc o = EST_ERR_CA_ENROLL_RETRY) :: os)
  end.

Definition times (key : bytes) (seen : list bytes) : nat := count_occ (fun a b => decide (a = b)) seen key.

Definition see (k : option bytes) (seen : list bytes) : list bytes :=
  match k with Some k => k :: seen | None => seen end.

(** Does a request wait? Its key was seen an even number of times before. *)
Definition wait (seen : list bytes) (k : option bytes) : bool :=
  match k with Some k => Nat.even (times k seen) | None => false end.

Fixpoint waits (seen : list bytes) (keys : list (option bytes)) : list bool :=
  match keys with [] => [] | k :: rest => wait seen k :: waits (see k seen) rest end.

(** The keys seen an odd number of times are those in the table. *)
Definition accounts (seen : list bytes) (h : host) : Prop := forall k, k ∈ table h <-> Nat.even (times k seen) = false.

Lemma times_cons k x seen : times k (x :: seen) = if decide (x = k) then S (times k seen) else times k seen.
Proof. reflexivity. Qed.

Lemma approve_accounts k seen h h' :
  accounts seen h -> table h' = snd (approve k (table h)) ->
  fst (approve k (table h)) = (if Nat.even (times k seen) then 0 else 1) /\ accounts (k :: seen) h'.
Proof.
  intros Hs Ht. unfold approve in *. destruct (decide (k ∈ table h)) as [Hi|Hi]; cbn [fst snd] in *.
  - rewrite (proj1 (Hs k) Hi). split; [done|]. intros x. rewrite Ht, times_cons.
    destruct (decide (k = x)) as [->|Hx].
    + rewrite Nat.even_succ, <- Nat.negb_even, (proj1 (Hs x) Hi). set_solver.
    + rewrite <- (Hs x). set_solver.
  - destruct (Nat.even (times k seen)) eqn:Ek; [|by destruct Hi; apply Hs]. split; [done|]. intros x. rewrite Ht, times_cons.
    destruct (decide (k = x)) as [->|Hx].
    + rewrite Nat.even_succ, <- Nat.negb_even, Ek. set_solver.
    + rewrite <- (Hs x). set_solver.
Qed.

Lemma lookup_refines csr k h :
  key_of csr = Some k -> calm h ->
  exists h', lookup_pkcs10_request DISABLE_TSEARCH PEM_write_bio_PUBKEY csr h = Some (fst (approve k (table h)), h') /\
             table h' = snd (approve k (table h)) /\ calm h'.
Proof.
  intros Hk Hc. destruct (toggle_refines k h Hc) as (h' & E & Ht & Hc'). exists h'. split; [|done].
  unfold key_of in Hk. unfold lookup_pkcs10_request. destruct (d2i_X509_REQ_bio true csr) as [req|]; [|done].
  cbn in Hk. destruct (X509_REQ_get_pubkey req) as [pkey|]; [|done]. injection Hk as ->.
  unfold mbind, A_bind, succeeds. rewrite (proj1 Hc). cbn [negb]. by rewrite (proj1 Hc).
Qed.

(** The decision on a CSR, and the table after it. *)
Lemma awaits_run csr seen h :
  manual_enroll opts = true -> calm h -> accounts seen h ->
  exists h', awaits_approval DISABLE_TSEARCH PEM_write_bio_PUBKEY opts csr h = Some (wait seen (key_of csr), h') /\
             calm h' /\ accounts (see (key_of csr) seen) h'.
Proof.
  intros Hm Hc Hs. unfold awaits_approval. rewrite Hm. destruct (key_of csr) as [k|] eqn:Hk.
  - destruct (lookup_refines csr k h Hk Hc) as (h1 & E & Ht & Hc1). rewrite (A_run _ _ _ _ _ E).
    destruct (approve_accounts k seen h h1 Hs Ht) as [-> Hs1]. exists h1. cbn [wait see].
    split_and!; [by destruct (Nat.even _)|done|done].
  - exists h. split_and!; [|done|done].
    unfold key_of in Hk. unfold lookup_pkcs10_request. destruct (d2i_X509_REQ_bio true csr) as [req|]; [|done].
    cbn in Hk. by destruct (X509_REQ_get_pubkey req).
Qed.

(** ** What a request does besides *)

(** With no call failing an operation returns, and leaves the table alone. *)
Definition easy {T} (m : A T) : Prop :=
  forall h, calm h -> exists r h', m h = Some (r, h') /\ lookup_root h' = lookup_root h /\ results h' = results h.

Lemma easy_ret {T} (x : T) : easy (mret x).
Proof. intros h _. by exists x, h. Qed.

Lemma easy_bind {T U} (m : A T) (f : T -> A U) : easy m -> (forall x, easy (f x)) -> easy (m ≫= f).
Proof.
  intros Hm Hf h Hc. destruct (Hm h Hc) as (x & h1 & E1 & Hl1 & Hr1). destruct Hc as [Hr Hn].
  destruct (Hf x h1) as (y & h2 & E2 & Hl2 & Hr2); [split; [by rewrite Hr1|by rewrite Hl1]|].
  exists y, h2. rewrite (A_run _ _ _ _ _ E1). split_and!; [done|congruence|congruence].
Qed.

(** The calls that can fail succeed. *)
Lemma easy_succeeds {U} (f : bool -> A U) : easy (f true) -> easy (succeeds ≫= f).
Proof.
  intros Hf h Hc. destruct (Hf h Hc) as (y & h2 & E2 & H). exists y, h2.
  unfold mbind, A_bind, succeeds. destruct Hc as [Hr _]. rewrite Hr in H |- *. by split.
Qed.

Lemma easy_files fs : easy (put_files fs).
Proof. intros h _. by exists tt, (set_files fs h). Qed.

Lemma easy_get : easy get_files.
Proof. intros h _. by exists (files h), h. Qed.

Lemma easy_did x : easy (did x).
Proof. intros h _. by exists tt, (set_acts (acts h ++ [x]) h). Qed.

Lemma easy_fopen {U} p (f : bool -> A U) : easy (f true) -> easy (fopen_wb p ≫= f).
Proof.
  intros Hf h Hc. destruct (Hf (set_files (<[p := []]> (files h)) h) Hc) as (y & h2 & E2 & H). exists y, h2.
  unfold fopen_wb, mbind, A_bind, succeeds, get_files. cbn in H. destruct Hc as [Hr _]. rewrite Hr in H |- *. cbn. rewrite ?Hr. by split.
Qed.

Lemma easy_fwrite {U} p d (f : bool -> A U) : easy (f true) -> easy (fwrite partly p d ≫= f).
Proof.
  intros Hf h Hc. destruct (Hf (set_files (<[p := d]> (files h)) h) Hc) as (y & h2 & E2 & H). exists y, h2.
  unfold fwrite, mbind, A_bind, succeeds, get_files. cbn in H. destruct Hc as [Hr _]. rewrite Hr in H |- *. cbn. rewrite ?Hr. by split.
Qed.

Lemma easy_unlink p : easy (unlink p).
Proof. unfold unlink. apply easy_bind; [apply easy_get|intros fs; apply easy_files]. Qed.

Lemma easy_system cmd : easy (system shell cmd).
Proof.
  unfold system. apply easy_bind; [apply easy_get|intros fs]. destruct (shell cmd fs) as [rc fs'].
  apply easy_bind; [apply easy_files|intros _]. apply easy_bind; [apply easy_did|intros _; apply easy_ret].
Qed.

Ltac easy_auto :=
  repeat (cbn [negb]; first
    [ assumption | apply easy_ret | apply easy_get | apply easy_did | apply easy_unlink | apply easy_system
    | apply easy_succeeds | apply easy_fopen | apply easy_fwrite
    | apply easy_bind; [|intros ?]
    | match goal with |- easy (match ?x with _ => _ end) => destruct x end ]).

Lemma easy_enroll csr seg : easy (multi_tenant_enroll shell partly csr seg).
Proof. unfold multi_tenant_enroll, enroll_tenant, load_pkcs7, cleanup, purge. easy_auto. Qed.

Lemma easy_dump name csr : easy (dump_csr partly opts name csr).
Proof. unfold dump_csr, write_binary_file. easy_auto. Qed.

Lemma show_run rq h : shown rq -> show_request opts (rq_peer rq) h = Some (tt, h).
Proof.
  intros Hs. unfold show_request. destruct (rq_peer rq) as [cert|] eqn:Ep; [|done].
  destruct (verbose opts) eqn:Ev; [|done]. unfold extract_sub_name. cbv zeta.
  pose proof (Hs Ev cert Ep) as H. apply Z.ltb_lt in H. rewrite !H. reflexivity.
Qed.

(** A request that went to the CA is not told to retry. *)
Definition not_told (o : cert_out) : Prop := co_rc o <> EST_ERR_CA_ENROLL_RETRY.

Lemma easy_outcome (m : A cert_out) seen h :
  (forall h o h', m h = Some (o, h') -> not_told o) -> easy m -> calm h -> accounts seen h ->
  exists o h', m h = Some (o, h') /\ calm h' /\ accounts seen h' /\
    bool_decide (co_rc o = EST_ERR_CA_ENROLL_RETRY) = false.
Proof.
  intros Ht Hm Hc Hs. destruct (Hm h Hc) as (o & h' & E & Hl & Hr). exists o, h'. split_and!; [done| | |].
  - destruct Hc as [H1 H2]. split; [by rewrite Hr|by rewrite Hl].
  - unfold accounts, table in *. by rewrite Hl.
  - apply bool_decide_eq_false_2. by eapply Ht.
Qed.

(** The end of a request: what is told after the CA's answer. *)
Ltac told_auto :=
  repeat match goal with
  | |- forall _, _ => intros
  | H : (_ ≫= _) _ = Some _ |- _ => unfold mbind, A_bind in H
  | H : match ?m with Some _ => _ | None => None end = Some _ |- _ => destruct m as [[? ?]|]; [|done]
  | H : (match ?x with _ => _ end) _ = Some _ |- _ => destruct x
  | H : mret _ _ = Some _ |- _ => injection H as <- _
  | H : undefined _ = Some _ |- _ => done
  end; unfold not_told; cbn; try discriminate.

Lemma answer_run rq seen h :
  manual_enroll opts = true -> ca_apart -> shown rq -> calm h -> accounts seen h ->
  exists o h', answer rq h = Some (o, h') /\ calm h' /\ accounts (see (asked_key rq) seen) h' /\
    bool_decide (co_rc o = EST_ERR_CA_ENROLL_RETRY) = wait seen (asked_key rq).
Proof.
  intros Hm Hca Hsh Hc Hs. unfold answer, asked_key.
  destruct (awaits_run (rq_csr rq) seen h Hm Hc Hs) as (h1 & Ew & Hc1 & Hs1).
  pose proof (show_run rq h Hsh) as Hshow. destruct (rq_keygen rq); cbn [andb].
  - unfold process_srvr_side_keygen_pkcs10_enrollment. rewrite (A_run _ _ _ _ _ Hshow).
    destruct (rq_seg rq) as [[|c t]|] eqn:Eseg; cbn [negb];
      [exists (no_cert EST_ERR_AUTH_FAIL), h; by split_and!| |exists (no_cert EST_ERR_AUTH_FAIL), h; by split_and!].
    destruct (is_tenant (c :: t)) eqn:Et; cbn [negb]; [|exists (no_cert EST_ERR_AUTH_FAIL), h; by split_and!].
    rewrite (A_run _ _ _ _ _ Ew). destruct (wait seen (key_of (rq_csr rq)));
      [exists (no_cert EST_ERR_CA_ENROLL_RETRY), h1; by split_and!|].
    apply easy_outcome; [told_auto| |done|done].
    pose proof (easy_dump (lit "/tmp/csr_keygen_" ++ (c :: t) ++ lit ".p10") (rq_csr rq)).
    pose proof (easy_enroll (rq_csr rq) (Some (c :: t))). easy_auto.
  - unfold process_pkcs10_enrollment. rewrite (A_run _ _ _ _ _ Hshow), (A_run _ _ _ _ _ Ew).
    destruct (wait seen (key_of (rq_csr rq))); [exists (no_cert EST_ERR_CA_ENROLL_RETRY), h1; by split_and!|].
    apply easy_outcome; [told_auto| |done|done].
    pose proof (easy_dump (lit "/tmp/csr.p10") (rq_csr rq)).
    assert (Hself : easy (ossl_simple_enroll (rq_csr rq))) by (intros h2 Hc2; by apply Hca).
    assert (Hres : easy (match rq_seg rq with
                         | Some (_ :: _) => multi_tenant_enroll shell partly (rq_csr rq) (rq_seg rq)
                         | _ => ossl_simple_enroll (rq_csr rq)
                         end)).
    { destruct (rq_seg rq) as [[|c t]|]; [done|apply easy_enroll|done]. }
    easy_auto.
Qed.

(** C6. Approval by asking twice.  When the application simulates an operator, enrollment
    and key generation requests of any number of clients, in any order, with any CSRs and
    path segments, all end, when no call of the C library fails and no printed name of a
    client overruns the 64 bytes it has; and a request is told to retry exactly when its
    key was asked for an even number of times before: the first is, the second goes to
    the CA, the third is again, whatever other clients ask for in between and whether a
    key is asked for through a tenant or not.  A request for key generation that names no
    tenant and a CSR that cannot be read leave the table alone and are not told to retry.
    The tree of the C library and the linked list of the other build behave alike. *)
Theorem manual_enroll_alternates (rqs : list app_request) (h : host) :
  manual_enroll opts = true -> ca_apart -> Forall shown rqs -> results h = [] -> lookup_root h = [] ->
  exists h', enrollments rqs h = Some (waits [] (map asked_key rqs), h') /\
             forall k, k ∈ table h' <-> Nat.even (times k (omap asked_key rqs)) = false.
Proof.
  intros Hm Hca Hsh Hr Hl.
  assert (Hgen : forall seen h0, calm h0 -> accounts seen h0 ->
            exists h', enrollments rqs h0 = Some (waits seen (map asked_key rqs), h') /\
                       accounts (rev (omap asked_key rqs) ++ seen) h').
  { clear h Hr Hl. induction Hsh as [|rq rqs Hrq _ IH]; intros seen h Hc Hs; [by exists h|].
    destruct (answer_run rq seen h Hm Hca Hrq Hc Hs) as (o & h1 & E & Hc1 & Hs1 & Ho).
    destruct (IH (see (asked_key rq) seen) h1 Hc1 Hs1) as (h' & E' & Ha). exists h'. split.
    - cbn [enrollments waits map]. unfold mbind, A_bind. by rewrite E, E', Ho.
    - cbn [omap list_omap]. destruct (asked_key rq) as [k|]; [|exact Ha].
      cbn [rev see] in *. by rewrite <- app_assoc. }
  destruct (Hgen [] h) as (h' & E & Ha).
  - split; [done|]. rewrite Hl. constructor.
  - intros k. rewrite in_table, Hl. split; [by intros ?%elem_of_nil|done].
  - exists h'. split; [exact E|]. intros k. rewrite (Ha k), app_nil_r. unfold times.
    by rewrite (proj1 (Permutation_count_occ _ (rev (omap asked_key rqs)) (omap asked_key rqs))
                 (Permutation_sym (Permutation_rev _))).
Qed.

End ServerApp.

(** ** The check of credentials *)

Section Credentials.
Context {L : OpenSSL}.
Variable opts : app_options.
Hypothesis Hbio : base64_bio L.
Hypothesis Hmd5 : forall s, are_bytes (EVP_md5 s) /\ length (EVP_md5 s) = 16%nat.

Lemma hex2_hex s : flat_map hex2 s = est_hex_to_str s.
Proof.
  unfold est_hex_to_str. induction s as [|c s IH]; [done|]. cbn [flat_map]. rewrite IH. f_equal.
  unfold hex2, hex_table. rewrite Z.shiftr_div_pow2 by lia. change 15 with (Z.ones 4).
  rewrite Z.land_ones by lia. reflexivity.
Qed.

(** The buffer of [main] holds the hash of the user's name, realm and password. *)
Lemma ha1_value_hash realm :
  ha1_value realm = md5_hex [lit "estuser"; lit ":"; realm; lit ":"; lit "estpwd"] ++ [0; 0].
Proof. unfold ha1_value, md5_hex. rewrite hex2_hex. reflexivity. Qed.

(** Only the first 32 bytes of the hash count. *)
Lemma server_digest_prefix ah ha1 more (w : world) :
  length ha1 = 32%nat ->
  est_server_generate_auth_digest (Some ah) (Some (ha1 ++ more)) w = est_server_generate_auth_digest (Some ah) (Some ha1) w.
Proof.
  intros Hl. unfold est_server_generate_auth_digest. rewrite take_app_le, length_app by lia.
  replace (length ha1 + length more <? 32)%nat with (length ha1 <? 32)%nat
    by (rewrite (proj2 (Nat.ltb_ge _ _)) by lia; symmetry; apply Nat.ltb_ge; lia).
  done.
Qed.

Lemma streq_eq a b : no_nul a -> no_nul b -> streq a b = bool_decide (a = b).
Proof. intros Ha Hb. unfold streq. by rewrite !cstr_id. Qed.

Lemma strncmp_exact a b n :
  no_nul a -> no_nul b -> length a = n -> length b = n -> (strncmp a b (Z.of_nat n) =? 0) = bool_decide (a = b).
Proof.
  intros Na Nb La Lb. rewrite strncmp_is_fuel. apply eq_bool_prop_intro.
  rewrite Is_true_true, Z.eqb_eq, strncmp_fuel_eq, bool_decide_spec. unfold str_n.
  rewrite !cstr_id, !take_ge by (done || lia). done.
Qed.

(** The user and the password of HTTP Basic: the built-in ones or, with enhanced
    certificate authentication, the name of the server with the configured password. *)
Definition basic_user : bytes := if enable_enhcd_cert_auth opts then lit "/CN=127.0.0.1" else lit "estuser".
Definition basic_pwd : bytes :=
  if enable_enhcd_cert_auth opts then default DEFAULT_ENHCD_CERT_PWD (cert_auth_ah_pwd opts) else lit "estpwd".

(** What the application knows: these, and the token of its command line.  A digest is
    compared with that of the built-in user and password, in either case. *)
Definition knows (ctx : EST_CTX) (uri : bytes) (c : credentials) : bool :=
  match c with
  | Basic user pwd => bool_decide (user = basic_user) && bool_decide (pwd = basic_pwd)
  | Digest user pwd random =>
      let response p := digest_of user (realm ctx) p (s_nonce (client ctx)) uri (est_hex_to_str (take 8 random)) in
      bool_decide (user = lit "estuser") && bool_decide (response (lit "estpwd") = response pwd)
  | Token token => bool_decide (token = valid_token_value opts)
  end.

Lemma digest_of_text user realm pwd nonce uri cnonce :
  no_nul (digest_of user realm pwd nonce uri cnonce) /\ length (digest_of user realm pwd nonce uri cnonce) = 32%nat.
Proof.
  destruct (md5_hex_quotable Hmd5 [md5_hex [user; lit ":"; realm; lit ":"; pwd]; lit ":"; nonce; lit ":";
    lit "00000001"; lit ":"; cnonce; lit ":"; lit "auth"; lit ":"; md5_hex [lit "POST"; lit ":"; uri]]) as [Hq Hl].
  split; [by apply quotable_no_nul|exact Hl].
Qed.

Ltac plain_text := repeat (apply Forall_cons_2; [discriminate|]); apply Forall_nil_2.

Lemma app_checks ctx uri c ah (w : world) :
  understood ctx uri c ah -> presentable ctx uri c -> w_alloc w = [] ->
  (forall p, cert_auth_ah_pwd opts = Some p -> no_nul p) -> no_nul (valid_token_value opts) ->
  digest_ha1 opts = ha1_value (realm ctx) ->
  process_http_auth opts ah w = Some (knows ctx uri c, w).
Proof.
  intros Hu Hp Ha He Ht Hd. unfold process_http_auth, knows.
  change (match cert_auth_ah_pwd opts with Some p => p | None => DEFAULT_ENHCD_CERT_PWD end)
    with (default DEFAULT_ENHCD_CERT_PWD (cert_auth_ah_pwd opts)).
  fold basic_user basic_pwd.
  assert (Nu : no_nul (lit "estuser")) by plain_text.
  assert (Nb : no_nul basic_user) by (unfold basic_user; destruct (enable_enhcd_cert_auth opts); plain_text).
  assert (Np : no_nul basic_pwd).
  { unfold basic_pwd. destruct (enable_enhcd_cert_auth opts); [|plain_text].
    destruct (cert_auth_ah_pwd opts) as [p|]; [by apply He|plain_text]. }
  destruct c as [user pwd|user pwd random|token]; cbn [understood presentable] in *.
  - destruct Hu as (-> & -> & ->). destruct Hp as (_ & _ & (_ & Hn & _) & (_ & Hn' & _)).
    unfold mbind, M_bind. cbn [same_string]. rewrite !streq_eq by done. unfold mret, M_ret.
    by destruct (bool_decide (user = _)).
  - destruct Hu as (-> & -> & Hr & Hdig). destruct Hp as (_ & Qu & _).
    unfold mbind at 1, M_bind at 1. cbn [same_string]. rewrite streq_eq by (done || by apply quotable_no_nul).
    unfold mret at 1, M_ret at 1. destruct (bool_decide_reflect (user = lit "estuser")) as [->|]; [|done]. cbn [negb andb].
    destruct (md5_hex_quotable Hmd5 [lit "estuser"; lit ":"; realm ctx; lit ":"; lit "estpwd"]) as [_ Hl].
    unfold mbind at 1, M_bind at 1. rewrite Hd, ha1_value_hash, server_digest_prefix by exact Hl.
    rewrite (Hdig (lit "estpwd") w Ha), Hr. unfold mret, M_ret.
    change 32 with (Z.of_nat 32). rewrite strncmp_exact by apply digest_of_text. done.
  - destruct Hu as (-> & ->). destruct Hp as (_ & _ & Hn & _). cbn [same_string]. by rewrite streq_eq.
Qed.

(** C5. Who the application lets in.  When a client presents credentials of the server's
    mode, the server parses the header and asks the application.  To HTTP Basic it answers
    yes to exactly one user with one password: the built-in ones or, when enhanced
    certificate authentication is enabled, /CN=127.0.0.1 with the configured password or
    its default.  To a token it answers yes exactly when it is the configured one; to a
    digest exactly when it is that of the built-in user and password. *)
Theorem app_checks_credentials (c : credentials) (uri : bytes) (w ws : world) :
  offers w c -> presentable (w_ctx w) uri c -> auth_mode (w_ctx ws) = auth_mode (w_ctx w) -> w_alloc ws = [] ->
  has_header c (w_ctx w) uri ws ->
  (forall p, cert_auth_ah_pwd opts = Some p -> no_nul p) -> no_nul (valid_token_value opts) ->
  digest_ha1 opts = ha1_value (realm (w_ctx w)) ->
  exists ah w1, mg_parse_auth_header (Some empty_ah) ws = Some ((EST_AUTH_HDR_GOOD, Some ah), w1) /\
                process_http_auth opts ah w1 = Some (knows (w_ctx w) uri c, w1).
Proof.
  intros Ho Hp Hm Ha Hh He Ht Hd.
  destruct (credentials_accepted Hbio Hmd5 w c uri ws Ho Hp Hm Ha Hh) as (ah & Hu & E).
  exists ah. eexists. split; [exact E|]. eapply app_checks; try done. by destruct (user_of c).
Qed.

End Credentials.
