(* ===== verification/Toy.v ===== *)
(** * Toy: a concrete library and concrete worlds

    An instance of [OpenSSL] small enough to compute with, so that the theorems
    can be applied to concrete runs.  A certificate and a CSR are their subject
    field; a CSR also has a challenge password; a key signs everything.  A trust
    store is the list of the certificates it trusts; the base64 BIO is base64. *)

From S2P Require Import Prelude.
From S2P Require Import SafeC.
From S2P Require Import Base64.
From S2P Require Import EstTypes.
From S2P Require Import EstState.
From S2P Require Import EstUtil.
From S2P Require Import HttpParse.
From S2P Require Import HttpIO.
From S2P Require Import ServerConfig.

Module Toy.

(** A hash of 16 bytes. *)
Definition toy_md5 (b : bytes) : bytes :=
  let h := fold_left (fun h c => (h * 257 + c) mod 2 ^ 128) b 1 in
  map (fun i => Z.shiftr h (8 * Z.of_nat i) mod 256) (seq 0 16).

Record cert := { c_subject : bytes; c_ra : bool }.
Record csr := { r_subject : bytes; r_challenge : option bytes; r_signed : bool }.
Record session := {
  s_peer : option cert;
  s_verify : Z;
  s_srp : option bytes;
  s_chain : option (list cert);
  s_finished : bytes
}.

(** The CSR in a buffer that starts with a printing character: behind a [P] comes the
    challenge password it carries, and a tilde is a CSR whose challengePassword has no
    value. *)
Definition read_csr (b : bytes) : option csr :=
  match b with
  | [] => None
  | c :: r =>
      if c <? 33 then None
      else if bool_decide (b = [80]) then None
      else Some {| r_subject := [65];
                   r_challenge := if c =? 80 then Some r else if c =? 126 then Some [] else None;
                   r_signed := negb (c =? 88) |}
  end.

(** A DER header: one tag byte, and a length in one, two or three bytes. *)
Definition asn1_object (p : bytes) : Z * Z * Z * Z * Z :=
  let b := rd p 0 in
  let l := rd p 1 in
  let '(hl, len) :=
    if l <? 128 then (2, l mod 128)
    else if l =? 129 then (3, rd p 2 mod 256)
    else (4, rd p 2 mod 256 * 256 + rd p 3 mod 256) in
  (if (b / 32) mod 2 =? 1 then 32 else 0, hl, len, b mod 32, b / 64 * 64).

(** An object is its contents. *)
Definition read_object (p : bytes) : option (bytes * Z) :=
  let '(_, hl, len, _, _) := asn1_object p in
  Some (take (Z.to_nat len) (drop (Z.to_nat hl) p), hl + len).

Definition chpw : bytes := [42; 134; 72; 134; 247; 13; 1; 9; 7].

Definition write_certs (l : list cert) : option bytes :=
  match l with [] => None | _ => Some (flat_map c_subject l) end.

#[export] Instance library : OpenSSL := {
  X509 := cert;
  X509_REQ := csr;
  X509_NAME := bytes;
  X509_CRL := unit;
  X509_STORE := list cert;
  X509_ATTRIBUTE := bytes;
  EVP_PKEY := bytes;
  EVP_MD := unit;
  ASN1_OBJECT := bytes;
  SSL := session;
  SSL_SESSION := unit;
  PKCS7 := list cert;
  SSL_get_peer_certificate := s_peer;
  SSL_get_verify_result := s_verify;
  SSL_get_srp_username := s_srp;
  SSL_get_peer_cert_chain := s_chain;
  SSL_session_reused _ := false;
  SSL_get_finished s _ := s_finished s;
  SSL_get_peer_finished s _ := s_finished s;
  SSL_version _ := 771;
  d2i_X509_REQ_bio _ := read_csr;
  i2d_X509_REQ_b64 r := match r_challenge r with Some v => 80 :: v | None => [65] end;
  X509_REQ_get_pubkey _ := Some [75];
  X509_REQ_verify r _ := if r_signed r then 1 else 0;
  X509_REQ_set_pubkey r _ := Some r;
  EVP_DigestSignInit _ _ := true;
  X509_REQ_sign_ctx r _ _ := (1, {| r_subject := r_subject r; r_challenge := r_challenge r;
                                    r_signed := true |});
  X509_REQ_get_attr_by_NID r _ _ := match r_challenge r with Some _ => 0 | None => -1 end;
  X509_REQ_get_attr r _ := r_challenge r;
  X509_ATTRIBUTE_get0_type a _ := if bool_decide (a = []) then None else Some (ASN1_TYPE_string (Some a));
  i2d_PrivateKey k := k;
  i2d_PKCS7_certs_b64 := write_certs;
  FIPS_mode := false;
  X509_get_subject_name := c_subject;
  X509_REQ_get_subject_name := r_subject;
  X509_NAME_get_index_by_NID n _ _ := if bool_decide (n = []) then -1 else 0;
  X509_NAME_get_entry_data n _ := n;
  X509_NAME_print n := Some n;
  X509_get_ext_key_usage c := if c_ra c then Some [[82]] else None;
  PEM_X509_INFO_read_bio b := Some [(Some {| c_subject := b; c_ra := false |}, None)];
  X509_STORE_new := Some [];
  X509_STORE_add_cert s c := c :: s;
  X509_STORE_add_crl s _ := s;
  X509_STORE_CTX_new := true;
  X509_STORE_CTX_init _ _ _ := true;
  X509_verify_cert s c _ := if existsb (fun d => bool_decide (c_subject d = c_subject c)) s then 1 else 0;
  ASN1_get_object p _ := asn1_object p;
  d2i_ASN1_OBJECT b _ := read_object b;
  OBJ_obj2nid o := if bool_decide (o = chpw) then NID_pkcs9_challengePassword else 0;
  i2t_ASN1_OBJECT o := o;
  OBJ_cmp a b := if bool_decide (a = b) then 0 else 1;
  o_cmcRA := [82];
  EVP_md5 b := toy_md5 b;
  b64_bio_read _ b n := (Z.min n (Z.of_nat (length (b64_bytes b))),
                         take (Z.to_nat n) (b64_bytes b));
  b64_bio_write nl s := (Z.of_nat (length s), if nl then b64_text s else b64_enc s);
  SSL_get1_session _ := tt;
  inet_pton4 _ := None;
  inet_pton6 _ := None;
  X509_get_subject_alt_names _ := None;
  X509_NAME_entry_count n := 1%nat;
  X509_NAME_get_entry n _ := Some (19, n);
  ASN1_STRING_to_UTF8 _ s := Some s;
  SSL_CTX_use_certificate _ := 1;
  SSL_CTX_use_PrivateKey _ := 1;
  SSL_CTX_check_private_key _ _ := true;
  SSL_CTX_set_cipher_list _ := true;
  SSL_CTX_set_srp_username _ := true;
  SSL_CTX_set_srp_password _ := true;
  X509_STORE_object_count s := length s;
  EVP_DigestInit_md5 := true;
  EVP_by_nid _ := tt;
  X509_REQ_new := {| r_subject := []; r_challenge := None; r_signed := false |};
  X509_REQ_set_version r _ := Some r;
  X509_REQ_add_CN r cn := Some {| r_subject := cn; r_challenge := r_challenge r; r_signed := r_signed r |};
  X509_REQ_add1_attr_by_NID r _ v :=
    Some {| r_subject := r_subject r; r_challenge := Some v; r_signed := r_signed r |};
  X509_REQ_get_attr_count r := match r_challenge r with Some _ => 1%nat | None => 0%nat end;
  X509_REQ_delete_attr r _ :=
    {| r_subject := r_subject r; r_challenge := None; r_signed := r_signed r |};
  X509_to_X509_REQ c := Some {| r_subject := c_subject c; r_challenge := None; r_signed := false |};
  X509v3_get_ext_count _ := 0;
  X509_REQ_add_extensions r _ := Some r;
  X509_get0_signature _ := true;
  X509_check_private_key _ _ := 1;
  d2i_PrivateKey b := match b with [] => None | _ => Some b end;
  X509_check_issued _ _ := 0;
  d2i_PKCS7 b := match b with [] => None | _ => Some [{| c_subject := b; c_ra := false |}] end;
  PKCS7_type _ := 22;
  PKCS7_certs p := Some p;
  PKCS7_has_crls _ := false;
  PKCS7_remove_crls p := p;
  i2d_PKCS7_b64 p := (1, b64_text (flat_map c_subject p));
  PKCS7_verify _ st := match st with [] => 0 | _ => 1 end;
  PKCS7_signed_data p := Some (flat_map c_subject p);
  PEM_write_certs := flat_map c_subject
}.

(** The base64 text has no NUL. *)
Lemma b64_no_nul (s : bytes) : no_nul (snd (b64_bio_write true s)).
Proof.
  apply no_nul_app; [apply b64_enc_no_nul|]. by apply Forall_cons_2; [|apply Forall_nil_2].
Qed.

(** ** A server and its clients *)

Definition alice : cert := {| c_subject := lit "alice"; c_ra := false |}.

(** The application: it issues one certificate to everyone, and knows one user. *)
Definition issue : enroll_cb := fun _ _ _ _ _ => (0, lit "CERT").
Definition knows_bob (_ : list event) (ah : EST_HTTP_AUTH_HDR) (_ : option cert)
    (_ : option bytes) : bool := bool_decide (ah_user ah = Some (lit "bob")).

Definition server : EST_CTX :=
  set_est_enroll_pkcs10_cb (Some issue) (set_est_reenroll_pkcs10_cb (Some issue)
    (set_est_http_auth_cb (Some knows_bob) (set_auth_mode AUTH_BASIC (set_realm (lit "est")
      (set_ca_certs (Some (lit "CHAIN")) (set_server_enable_pop true zero_ctx)))))).

(** A session with a verified certificate, one with a refused one, one without. *)
Definition tls (peer : option cert) (verify : Z) : session :=
  {| s_peer := peer; s_verify := verify; s_srp := None; s_chain := None;
     s_finished := lit "fin" |}.
Definition good_tls : session := tls (Some alice) 0.
Definition bad_tls : session := tls (Some alice) 18.
Definition anon_tls : session := tls None 0.

Definition connection (headers : list (bytes * bytes)) (s : session) : mg_connection :=
  {| request_method := None; uri := None; http_version := Some (lit "1.1");
     http_headers := headers; conn_ssl := Some s; status_code := 200; user_id := [];
     must_close := false; enable_keepalives := false; num_bytes_sent := 0 |}.

Definition start (ctx : EST_CTX) (headers : list (bytes * bytes)) (s : session) : world :=
  {| w_ctx := ctx; w_conn := connection headers s; w_ssl_write := []; w_alloc := [];
     w_time := 0; w_trace := [];
     w_net := Build_network [] [] None [] false;
     w_proxy := Build_EST_PROXY_CTX None None None 0 None 8 [] 1 |}.

(** The channel binding of these sessions, as the CSR must carry it. *)
Definition uid : bytes := removelast (b64_text (lit "fin")).

(** A CSR with the channel binding. *)
Definition pop_csr : bytes := 80 :: uid.

(** Bob's credentials. *)
Definition bob : list (bytes * bytes) :=
  [(lit "Authorization", lit "Basic " ++ removelast (b64_text (lit "bob:pass1")))].

Definition ct_pkcs10 : option bytes := Some (lit "application/pkcs10").

End Toy.
