(* ===== verification/Witnesses.v ===== *)
(** * Witnesses: the theorems on the components at concrete inputs

    The parsers, the encoders, the ASN.1 walks, the configuration calls and the totality
    of a request, over the library of Toy.

    A client asks for the CA certificates, in one piece and in fragments.

    Each theorem with hypotheses is applied to a run over the library of Toy, where the
    hypotheses hold and the run is evaluated. *)

From S2P Require Import Prelude.
From S2P Require Import SafeC.
From S2P Require Import Base64.
From S2P Require Import EstTypes.
From S2P Require Import EstState.
From S2P Require Import EstUtil.
From S2P Require Import EstUtilFacts.
From S2P Require Import HttpParse.
From S2P Require Import HttpIO.
From S2P Require Import ServerCsr.
From S2P Require Import ServerDispatch.
From S2P Require Import ServerConfig.
From S2P Require Import EstLogic.
From S2P Require Import HttpParseProps.
From S2P Require Import HttpIOFacts.
From S2P Require Import ServerCsrProps.
From S2P Require Import ServerConfigProps.
From S2P Require Import ServerSafety.
From S2P Require Import Toy.
From S2P Require Import HttpConn.
From S2P Require Import HttpStreamProps.
From S2P Require Import HttpConnProps.
From S2P Require Import ClientRequest.
From S2P Require Import ClientConfig.
From S2P Require Import Listener.
From S2P Require Import EnhCertAuth.
From S2P Require Import HttpAuth.
From S2P Require Import ServerAuth.
From S2P Require Import ServerEnroll.
From S2P Require Import ServerAuthProps.
From S2P Require Import HttpAuthProps.
From S2P Require Import ServerDispatchProps.
From S2P Require Import ServerResponseProps.
Import Toy.

(** A decision procedure for the side conditions on byte strings. *)
Ltac bytes_side :=
  match goal with
  | |- no_nul ?s => exact (bool_decide_unpack (no_nul s) ltac:(vm_compute; exact Logic.I))
  | |- are_bytes ?s => exact (bool_decide_unpack (Forall is_byte s) ltac:(vm_compute; exact Logic.I))
  | |- fits ?s => apply fits_small; vm_compute; discriminate
  end.

(** ** Parsers *)

Definition request_headers : list (bytes * bytes) :=
  [(lit "Host", lit "est.example:8085"); (lit "Accept", lit "*/*")].

Lemma parse_http_request_roundtrip_witness (ri := Build_mg_request_info None None None []) :
  let req := request_text (lit "GET") (lit "/.well-known/est/cacerts") (lit "1.1") request_headers in
  exists buf' ri',
    parse_http_request (req ++ lit "body") (length req) ri = (Z.of_nat (length req), buf', ri') /\
    ri_strings buf' ri' = (Some (lit "GET"), Some (lit "/.well-known/est/cacerts"), Some (lit "1.1"),
                           request_headers).
Proof.
  intros req. apply parse_http_request_roundtrip.
  - by left.
  - repeat constructor; unfold text_char; vm_compute; intuition (try discriminate).
  - done.
  - by apply lit_text.
  - repeat apply Forall_cons_2; [..|constructor].
    + split_and!; [done|by apply lit_text| |by apply lit_text|done].
      vm_compute; intuition discriminate.
    + split_and!; [done|by apply lit_text| |by apply lit_text|done].
      vm_compute; intuition discriminate.
  - vm_compute; lia.
  - done.
  - bytes_side.
Defined.

Lemma url_decode_encode_witness :
  let esc := fun c => (c =? chr_percent) || (c =? chr_plus) || (c =? chr_space) in
  let s := lit "50% off + more" in
  url_decode (url_encode esc s ++ lit "tail") (Z.of_nat (length (url_encode esc s))) 64 true
  = (Z.of_nat (length s), s).
Proof.
  intros esc s. destruct (url_decode_encode esc true) as [H _]; [by split|].
  apply (H s (lit "tail") 64); [bytes_side|vm_compute; reflexivity].
Defined.

Lemma get_header_first_witness :
  get_header [(lit "Host", lit "a"); (lit "AUTHORIZATION", lit "b"); (lit "authorization", lit "c")]
    (lit "Authorization") = Some (lit "b").
Proof.
  apply (get_header_first
    [(lit "Host", lit "a"); (lit "AUTHORIZATION", lit "b"); (lit "authorization", lit "c")]
    (lit "Authorization")); [bytes_side| |].
  - do 3 (apply Forall_cons_2; [bytes_side|]). constructor.
  - exists [(lit "Host", lit "a")], (lit "AUTHORIZATION"), [(lit "authorization", lit "c")].
    split_and!; [done|reflexivity|]. repeat constructor. vm_compute. discriminate.
Defined.

Lemma est_parse_uri_spec_witness :
  est_parse_uri true (lit "/.well-known/est/simpleenroll") = (EST_ERR_NONE, EST_OP_SIMPLE_ENROLL, None).
Proof.
  apply (proj1 (est_parse_uri_spec (lit "/.well-known/est/simpleenroll") ltac:(bytes_side))).
  by split.
Defined.

Lemma est_parse_operation_spec_witness :
  est_parse_operation true (lit "CaCerts") = EST_OP_CACERTS.
Proof.
  apply (proj1 (est_parse_operation_spec (lit "CaCerts") ltac:(bytes_side) ltac:(bytes_side) ltac:(bytes_side)));
    [done|done|].
  exists (lit "cacerts"). by split.
Defined.

Lemma est_hex_to_str_roundtrip_witness :
  est_hex_to_str [0; 171; 255] = lit "00abff" /\ hex_decode (lit "00abff") = [0; 171; 255].
Proof.
  split; [reflexivity|]. change (lit "00abff") with (est_hex_to_str [0; 171; 255]).
  apply (est_hex_to_str_roundtrip [0; 171; 255]). bytes_side.
Defined.

(** ** The TLS library's readers *)

Lemma toy_reader_ok : reader_ok (L := library).
Proof.
  split.
  - intros p n. cbn. unfold asn1_object. destruct (rd p 1 <? 128); [|destruct (rd p 1 =? 129)].
    + intros _. split; [lia|]. apply Z.mod_pos_bound. lia.
    + intros _. split; [lia|]. apply Z.mod_pos_bound. lia.
    + intros _. split; [lia|]. pose proof (Z.mod_pos_bound (rd p 2) 256).
      pose proof (Z.mod_pos_bound (rd p 3) 256). lia.
  - intros p n a used. cbn. unfold read_object, asn1_object.
    pose proof (Z.mod_pos_bound (rd p 1) 128). pose proof (Z.mod_pos_bound (rd p 2) 256).
    pose proof (Z.mod_pos_bound (rd p 3) 256).
    destruct (rd p 1 <? 128); [|destruct (rd p 1 =? 129)]; intros [= _ <-]; lia.
Qed.

(** The first byte of a header, taken apart. *)
Lemma tag_byte (k : bool) x tag :
  In x [0; 64; 128; 192] -> 0 <= tag < 31 ->
  let b := x + (if k then 32 else 0) + tag in
  ((b / 32) mod 2 =? 1) = k /\ b mod 32 = tag /\ b / 64 * 64 = x.
Proof.
  intros Hx Ht. simpl in Hx. cbv zeta. destruct k.
  - split_and!; [apply Z.eqb_eq| |]; destruct Hx as [<-|[<-|[<-|[<-|[]]]]]; Z.div_mod_to_equations; lia.
  - split_and!; [apply Z.eqb_neq| |]; destruct Hx as [<-|[<-|[<-|[<-|[]]]]]; Z.div_mod_to_equations; lia.
Qed.

Lemma asn1_object_hdr k x tag len r :
  hdr_fits x tag len ->
  asn1_object (der_hdr k x tag len ++ r)
  = (if k then 32 else 0, Z.of_nat (length (der_hdr k x tag len)), len, tag, x).
Proof.
  intros (Hx & Ht & Hl). destruct (tag_byte k x tag Hx Ht) as (E1 & E2 & E3).
  unfold asn1_object, der_hdr, der_len.
  destruct (len <? 128) eqn:L1; b2p; [|destruct (len <? 256) eqn:L2; b2p].
  - change (rd ((x + (if k then 32 else 0) + tag :: [len]) ++ r) 0) with (x + (if k then 32 else 0) + tag).
    change (rd ((x + (if k then 32 else 0) + tag :: [len]) ++ r) 1) with len.
    rewrite (proj2 (Z.ltb_lt len 128)), E1, E2, E3 by lia. by rewrite Z.mod_small by lia.
  - change (rd ((x + (if k then 32 else 0) + tag :: [129; len]) ++ r) 0)
      with (x + (if k then 32 else 0) + tag).
    change (rd ((x + (if k then 32 else 0) + tag :: [129; len]) ++ r) 2) with len.
    change (rd ((x + (if k then 32 else 0) + tag :: [129; len]) ++ r) 1) with 129.
    change (129 <? 128) with false. change (129 =? 129) with true. cbv iota.
    rewrite E1, E2, E3. by rewrite Z.mod_small by lia.
  - set (b := x + (if k then 32 else 0) + tag) in *.
    change (rd ((b :: [130; len / 256; len mod 256]) ++ r) 0) with b.
    change (rd ((b :: [130; len / 256; len mod 256]) ++ r) 1) with 130.
    change (rd ((b :: [130; len / 256; len mod 256]) ++ r) 2) with (len / 256).
    change (rd ((b :: [130; len / 256; len mod 256]) ++ r) 3) with (len mod 256).
    change (130 <? 128) with false. change (130 =? 129) with false. cbv iota.
    rewrite E1, E2, E3. repeat f_equal.
    rewrite Z.mod_mod by lia. rewrite (Z.mod_small (len / 256)).
    + pose proof (Z.div_mod len 256). lia.
    + split; [apply Z.div_pos; lia|apply Z.div_lt_upper_bound; lia].
Qed.

(** An object identifier is its contents. *)
Lemma toy_reads_der : reads_der (L := library) Some.
Proof.
  split.
  - intros k x tag len r n Hf _. cbn. by apply asn1_object_hdr.
  - intros o a r n [= <-] Hf _. cbn [d2i_ASN1_OBJECT library]. unfold read_object.
    rewrite asn1_object_hdr by done. f_equal. f_equal.
    rewrite !Nat2Z.id, drop_app_l. by rewrite take_app_length.
Qed.

(** What decoding returns, apart from the world it leaves alone. *)
Lemma decode_fst src n (w : world) r :
  memory w -> option_map fst (est_base64_decode src n w) = Some r ->
  est_base64_decode src n w = Some (r, w).
Proof.
  intros Hw. unfold est_base64_decode, est_base64_decode_at.
  destruct (est_base64_str_analyze src) as [[a b] d]. cbv zeta.
  destruct (_ >? _); [by intros [= ->]|].
  do 2 (rewrite (bind_run _ _ _ _ _ (alloc_memory w Hw)); cbn [negb]).
  repeat case_match; by intros [= <-].
Qed.

(** ** Bodies that can be checked *)

Lemma isspace_print c : 33 <= c -> isspace c = false.
Proof.
  intros H. unfold isspace. rewrite (proj2 (Z.leb_gt c 13)), (proj2 (Z.eqb_neq c 32)) by lia.
  by rewrite andb_false_r.
Qed.

(** A text that starts with a printing character. *)
Lemma has_text_print c r : 33 <= c -> has_text (c :: r).
Proof.
  intros H. unfold has_text, non_blank. cbn [cstr]. rewrite (proj2 (Z.eqb_neq c 0)) by lia.
  cbn [negb]. rewrite filter_cons_True by (by apply isspace_print). done.
Qed.

(** The library's CSRs have a challengePassword with a value, but for a tilde. *)
Lemma toy_readable b : 126 ∉ b -> readable_body (L := library) (Some b).
Proof.
  intros Hb p r [= <-]. cbn. destruct b as [|c d]; [done|]. cbn [read_csr].
  destruct (c <? 33) eqn:Ec; [done|]. b2p. case_bool_decide as Hp; [done|].
  assert (Hc : (c =? 126) = false) by (apply Z.eqb_neq; intros ->; apply Hb; left). rewrite Hc.
  intros [= <-].
  assert (Hv : forall s, pw_string (L := library)
            {| r_subject := [65]; r_challenge := if c =? 80 then Some d else None; r_signed := s |}).
  { intros s. unfold pw_string. cbv zeta. intros attr _. cbn.
    destruct (c =? 80) eqn:E; [|done]. b2p. intros [= <-].
    exists (Some d). rewrite bool_decide_false; [done|]. intros ->. apply Hp. by subst. }
  split; [split; [apply Hv|by apply has_text_print]|].
  intros csr2 (key & csr1 & md & rv & [= <-] & [= _ <-] & _). split; [apply Hv|].
  cbn. destruct (c =? 80); by apply has_text_print.
Qed.

(** The attributes of these servers are texts. *)
Lemma toy_attrs (c : EST_CTX) : est_get_csr_cb c = None ->
  (forall s, server_csrattrs c = Some s -> no_nul s /\ has_text s) -> attrs_text (L := library) c.
Proof. intros Hcb Hs. split; [exact Hs|]. intros cb tr seg peer d H. congruence. Qed.

(** A stream with no tilde, on an allocator that clears what it hands out. *)
Lemma toy_stream st : 126 ∉ st -> readable_stream (L := library) (fun n => replicate n 0) st.
Proof.
  intros H pre got post n ->. apply toy_readable. rewrite take_replicate. intros Hi.
  apply elem_of_app in Hi as [Hi|Hi]; [apply H; rewrite !elem_of_app; auto|].
  rewrite drop_replicate in Hi. by apply elem_of_replicate in Hi as [? _].
Qed.

(** ** The ASN.1 components *)

Definition serial : asn1 := Obj [85; 4; 5; 3].
Definition mac : asn1 := Obj [42; 3].

(** A CSR with two attributes, a serial number deeper in it, and padding. *)
Definition csr_tree : asn1 := Cons 0 V_ASN1_SEQUENCE [mac; Cons 128 0 [serial]; Prim 0 4 [1; 2]].
Definition attrs_tree : asn1 := attr_seq [mac; serial].
Definition csr_body : bytes := b64_enc (der csr_tree).
Definition attrs_b64 : bytes := b64_enc (der attrs_tree).

Definition attr_server : EST_CTX := set_server_csrattrs (Some attrs_b64) server.
Definition attr_world : world := start attr_server bob good_tls.

Lemma attr_server_text : attrs_text (L := library) attr_server.
Proof.
  apply toy_attrs; [reflexivity|]. intros s [= <-]. split; [apply b64_enc_no_nul|].
  by apply has_text_print.
Qed.

(** The sizes, the tags and the object identifiers of a tree. *)
Ltac tree_side :=
  unfold csr_tree, attrs_tree, attr_seq, mac, serial;
  repeat match goal with
  | |- _ /\ _ => split
  | |- hdr_fits _ _ _ => split
  | |- asn1_ok _ (Cons _ _ _) => split
  | |- asn1_ok _ _ => split
  | |- attrs_ok _ (Cons _ _ _) => split
  | |- attrs_ok _ _ => split
  | |- fold_right _ _ _ => cbn [fold_right]
  | |- In _ _ => vm_compute; tauto
  | |- is_Some _ => eexists; reflexivity
  | |- True => exact Logic.I
  | |- _ <= _ => vm_compute; discriminate
  | |- _ < _ => vm_compute; reflexivity
  | |- _ = false => reflexivity
  | |- _ <> _ => vm_compute; discriminate
  | |- _ -> _ => intros ?
  end.

Lemma est_server_all_csrattrs_present_iff_witness :
  est_server_all_csrattrs_present csr_body (Z.of_nat (length csr_body)) (Some alice) attr_world
  = Some (EST_ERR_NONE, attr_world).
Proof.
  pose proof (est_server_all_csrattrs_present_iff (L := library) Some attr_world csr_body attrs_b64
    (Z.of_nat (length csr_body)) (Some alice) csr_tree attrs_tree toy_reads_der) as H.
  cbv zeta in H. rewrite bool_decide_true in H by (vm_compute; reflexivity).
  apply H.
  - reflexivity.
  - reflexivity.
  - reflexivity.
  - bytes_side.
  - vm_compute. discriminate.
  - vm_compute. split; discriminate.
  - tree_side.
  - apply decode_fst; [reflexivity|vm_compute; reflexivity].
  - tree_side.
  - apply decode_fst; [reflexivity|vm_compute; reflexivity].
Defined.

Lemma est_server_all_csrattrs_present_total_witness :
  exists e w', est_server_all_csrattrs_present (lit "MAsGCSqGSIb3DQEJBw==") 20 None attr_world
               = Some (e, w') /\ e <> EST_ERR_LAST.
Proof.
  apply (est_server_all_csrattrs_present_total (L := library)).
  - apply toy_reader_ok.
  - by apply has_text_print.
  - apply attr_server_text.
  - reflexivity.
Defined.

Lemma est_add_challengePassword_der_witness :
  attr_oids (L := library) Some (attr_seq ([mac; serial] ++ [Obj chpw_oid])) =
  [[42; 3]; [85; 4; 5; 3]; chpw_oid].
Proof.
  destruct (est_add_challengePassword_der (L := library) Some attr_world attrs_b64
    (Z.of_nat (length attrs_b64)) [mac; serial] toy_reads_der) as [_ H].
  - reflexivity.
  - vm_compute. reflexivity.
  - apply decode_fst; [reflexivity|vm_compute; reflexivity].
  - exact H.
Defined.

(** ** Base64 and the channel *)

Lemma est_base64_encode_overrun_witness :
  exists src r, Z.of_nat (length src) <= 4 * 3 / 4 + 1 /\
    est_base64_encode src 4 false attr_world = Some (r, attr_world) /\
    0 < enc_ret r /\ enc_nul r = Some 8 /\ enc_dst r = [].
Proof.
  apply (est_base64_encode_overrun (L := library)).
  - reflexivity.
  - intros s. cbn. by apply b64_enc_length.
  - reflexivity.
Defined.

(** A channel that takes five bytes, then none, then the rest. *)
Definition slow_world : world := set_w_ssl_write [5; 0; 3] attr_world.

Lemma mg_write_received_witness :
  exists w', mg_write (lit "hello, world") slow_world = Some (12, w') /\
             HttpIOFacts.received slow_world w' (lit "hello, world").
Proof.
  destruct (mg_write_received (L := library) (lit "hello, world") slow_world)
    as (n & w' & E & _ & _ & _ & Hr & Hn).
  - vm_compute. discriminate.
  - rewrite Hn in E, Hr by (repeat constructor; vm_compute; discriminate). by exists w'.
Defined.

Lemma mg_printf_received_witness :
  exists w', mg_printf (lit "HTTP/1.1 200 OK") slow_world = Some (15, w') /\
             HttpIOFacts.received slow_world w' (lit "HTTP/1.1 200 OK").
Proof.
  destruct (mg_printf_received (L := library) (lit "HTTP/1.1 200 OK") slow_world) as (n & w' & E & H).
  - vm_compute. discriminate.
  - repeat constructor; vm_compute; discriminate.
  - destruct H as [(_ & -> & Hr)|[(Hl & _)|[(Hl & _)|(Hl & _)]]]; [by exists w'|..];
      exfalso; vm_compute in Hl; discriminate.
Defined.

(** ** Configuration and requests *)

Lemma refused_call_atomic_witness :
  run_api (Api_set_retry_period true 0) attr_world = Some (EST_ERR_INVALID_PARAMETERS, attr_world).
Proof.
  assert (H : exists w', run_api (Api_set_retry_period true 0) attr_world
                         = Some (EST_ERR_INVALID_PARAMETERS, w')) by (eexists; reflexivity).
  destruct H as [w' H]. rewrite H. f_equal. f_equal.
  apply (refused_call_atomic (L := library) (Api_set_retry_period true 0) _ EST_ERR_INVALID_PARAMETERS _ H);
    [done|intros []].
Defined.

Lemma refused_csrattrs_disable_check_witness :
  exists w', est_server_init_csrattrs true (Some (lit "MA")) 2 attr_world
             = Some (EST_ERR_INVALID_PARAMETERS, w') /\
    server_csrattrs (w_ctx attr_world) = Some attrs_b64 /\ server_csrattrs (w_ctx w') = None.
Proof.
  assert (H : exists w', est_server_init_csrattrs true (Some (lit "MA")) 2 attr_world
                         = Some (EST_ERR_INVALID_PARAMETERS, w')) by (eexists; reflexivity).
  destruct H as [w' H]. exists w'. split; [exact H|]. split; [reflexivity|].
  apply (refused_csrattrs_disable_check (L := library) _ _ _ _ _ H); [reflexivity|done].
Defined.

(** A server is created, is given a manufacturer and attributes, the latter twice, and
    keeps its invariant. *)
Definition history : list (api (L := library)) :=
  [Api_enable_eca true 13 None (Some ECA_CSR_CHECK_ON);
   Api_add_mfg true (Some (lit "acme")) 13 (Some (lit "TRUST")) 5;
   Api_init_csrattrs true (Some attrs_b64) (Z.of_nat (length attrs_b64));
   Api_init_csrattrs true (Some []) 0;
   Api_set_retry_period true 0].

Lemma history_ok : Forall (api_ok (L := library)) history.
Proof.
  repeat apply Forall_cons_2; try exact Logic.I; [..|apply Forall_nil_2].
  - intros b [= <-]. by eexists.
  - intros d [= <-] _. by apply has_text_print.
  - intros d _ H. vm_compute in H. by destruct H.
Qed.

Lemma config_invariant_witness :
  exists w1, est_server_init (Some (lit "CHAIN")) 5 None 0 true (Some (lit "est")) true true attr_world
             = Some (true, w1) /\
    exists w2, run_apis history w1 = Some (tt, w2) /\ ctx_ok (w_ctx w2).
Proof.
  destruct (config_invariant (L := library) (Some (lit "CHAIN")) 5 None 0 true (Some (lit "est")) true true
              attr_world) as (ok & w1 & E & H).
  assert (Hok : ok = true).
  { change ok with (default true (Some ok)). change (Some ok) with (fst <$> Some (ok, w1)). rewrite <- E.
    vm_compute. reflexivity. }
  subst ok. exists w1. split; [exact E|]. exact (H eq_refl history history_ok).
Defined.

Lemma est_http_request_total_witness :
  exists rc w', est_http_request true None (lit "POST") (lit "/.well-known/est/simpleenroll")
                  (Some pop_csr) ct_pkcs10 attr_world = Some (rc, w') /\ memory w' /\
                like (w_ctx attr_world) (w_ctx w').
Proof.
  apply (est_http_request_total (L := library)).
  - reflexivity.
  - apply toy_reader_ok.
  - reflexivity.
  - intros cb tr seg peer H. discriminate H.
  - apply attr_server_text.
  - apply toy_readable, (bool_decide_unpack _). vm_compute. exact Logic.I.
Defined.

Lemma none_run {A} (o : option A) : match o with None => true | Some _ => false end = true -> o = None.
Proof. by destruct o. Qed.

(** The request that crashes the server: its body is a CSR, signed by itself, whose
    challengePassword is a set with nothing in it. *)
Lemma empty_password_crashes :
  est_http_request true None (lit "POST") (lit "/.well-known/est/simpleenroll")
    (Some [126]) ct_pkcs10 (start server bob good_tls) = None.
Proof. apply none_run. vm_compute. reflexivity. Qed.

Definition cacerts_text : bytes :=
  lit "GET /.well-known/est/cacerts HTTP/1.1" ++ crlf ++ lit "Host: est" ++ crlf ++ crlf.

(** The request in one piece, and cut in the middle of its last line end. *)
Definition one_piece : list read_result := [R_data cacerts_text].
Definition fragments : list read_result :=
  [R_none; R_data (take 5 cacerts_text); R_none; R_data (drop 5 (removelast cacerts_text)); R_data [10]].

(** This server is not a proxy, and its allocator clears what it hands out. *)
Definition no_proxy : bytes -> bytes -> option bytes -> option bytes -> M (L := library) EST_ERROR :=
  fun _ _ _ _ => mret EST_ERR_NONE.
Definition cleared (n : nat) : bytes := replicate n 0.

Lemma fragments_readable : readable_stream (L := library) cleared (script_bytes fragments).
Proof. apply toy_stream, (bool_decide_unpack _). vm_compute. exact Logic.I. Qed.

Lemma process_new_connection_total_witness :
  exists i w', process_new_connection (L := library) true None no_proxy cleared fragments attr_world = Some (i, w') /\
    rounds true no_proxy cleared (Build_mg_input [] 0 0 0 fragments) attr_world i w' /\
    memory w' /\ like (w_ctx attr_world) (w_ctx w').
Proof.
  apply (process_new_connection_total (L := library)).
  - reflexivity.
  - apply toy_reader_ok.
  - reflexivity.
  - reflexivity.
  - intros cb tr seg peer H. discriminate H.
  - apply attr_server_text.
  - exact fragments_readable.
Defined.

Lemma clean_pieces : clean one_piece /\ clean fragments.
Proof. split; repeat (apply Forall_cons_2; [exact Logic.I|]); apply Forall_nil_2. Qed.

(** What the server wrote. *)
Definition response (r : option world) : bytes :=
  match r with
  | Some w => flat_map (fun e => match e with EvWrite d => d | _ => [] end) (w_trace w)
  | None => []
  end.

Lemma connection_refines_stream_witness :
  response (snd <$> process_new_connection (L := library) true None no_proxy cleared fragments (start server [] good_tls))
  = hdr_200 EST_HTTP_CT_PKCS7 5 ++ lit "CHAIN" /\
  snd <$> process_new_connection (L := library) true None no_proxy cleared fragments (start server [] good_tls)
  = snd <$> stream_connection (L := library) true None no_proxy cleared cacerts_text (start server [] good_tls).
Proof.
  split; [vm_compute; reflexivity|].
  exact (connection_refines_stream (L := library) true None no_proxy cleared fragments
           (start server [] good_tls) (proj2 clean_pieces)).
Defined.

Lemma connection_framing_witness :
  script_bytes one_piece = script_bytes fragments /\
  snd <$> process_new_connection (L := library) true None no_proxy cleared one_piece (start server [] good_tls)
  = snd <$> process_new_connection (L := library) true None no_proxy cleared fragments (start server [] good_tls).
Proof.
  split; [vm_compute; reflexivity|].
  apply (connection_framing (L := library)).
  - exact (proj1 clean_pieces).
  - exact (proj2 clean_pieces).
  - vm_compute; reflexivity.
Defined.

(** A server that is started, serves a client, refuses one whose handshake failed and is
    stopped. *)
Definition new_listener : Listener.listener (L := library) (DH := unit) :=
  Build_listener (Some [{| c_subject := lit "CA"; c_ra := false |}]) None true None
    {| c_subject := lit "est"; c_ra := false |} [75] None false [].

Definition two_clients : list (incoming (L := library)) :=
  [Build_incoming true true 1 0 good_tls fragments; Build_incoming true true 0 SSL_ERROR_SSL good_tls []].

Lemma two_readable : Forall (readable_client (L := library) cleared) two_clients.
Proof.
  apply Forall_cons_2; [exact fragments_readable|]. apply Forall_cons_2; [|apply Forall_nil_2].
  apply toy_stream, (bool_decide_unpack _). vm_compute. exact Logic.I.
Qed.

Lemma server_lifecycle_witness :
  exists sic l1 w1 rvs w2 l2,
    est_server_start (fun _ => true) (Some new_listener) attr_world = Some ((EST_ERR_NONE, Some l1), w1) /\
    li_mgs l1 = [Some (server_tls (w_ctx attr_world) new_listener sic)] /\
    handle_all true false no_proxy cleared (mret 0) l1 two_clients w1 = Some (rvs, w2) /\
    est_server_stop (Some l1) w2 = Some ((EST_ERR_NONE, Some l2), w2) /\
    li_mgs l2 = [None] /\ est_server_stop (Some l2) w2 = None.
Proof.
  destruct (server_lifecycle (L := library) (DH := unit) (fun _ => true) true false no_proxy cleared (mret 0)
              (w_ctx attr_world) eq_refl eq_refl (fun cb tr seg peer H => ltac:(discriminate H)) toy_reader_ok attr_server_text
              new_listener two_clients attr_world (conj eq_refl (Build_like _ _ eq_refl eq_refl eq_refl eq_refl
                eq_refl eq_refl eq_refl eq_refl eq_refl eq_refl)) eq_refl two_readable)
    as (sic & l1 & w1 & rvs & w2 & l2 & H1 & H2 & H3 & _ & H5 & H6 & H7 & _).
  exists sic, l1, w1, rvs, w2, l2. split; [exact H1|]. split; [exact H2|]. split; [exact H3|].
  split; [exact H5|]. split; [exact H6|exact H7].
Defined.

Definition simple_uri : bytes := lit "/.well-known/est/simpleenroll".

(** The run of a request, its result and its final world. *)
Abbreviation enroll_run headers s body :=
  (est_http_request true None (lit "POST") simple_uri (Some body) ct_pkcs10 (start server headers s)).

Definition enrolled (e : event) : bool :=
  match e with EvEnrollCb _ _ _ _ => true | _ => false end.

(** A run ends with a value, in a world that passes a test. *)
Definition ends {A} `{EqDecision A} (r : option (A * world)) (a : A) (f : world -> bool) : bool :=
  match r with Some (b, w) => bool_decide (b = a) && f w | None => false end.

Lemma ends_run {A} `{EqDecision A} (r : option (A * world)) a f :
  ends r a f = true -> exists w', r = Some (a, w') /\ f w' = true.
Proof.
  unfold ends. destruct r as [[b w']|]; [|done]. intros H. b2p. subst. by exists w'.
Qed.

(** Bob enrolls over Alice's session: the callback is made, behind its guard. *)
Lemma est_http_request_guarded_witness :
  exists w', enroll_run bob good_tls pop_csr = Some (EST_ERR_NONE, w') /\
    existsb enrolled (w_trace w') = true /\
    guarded (service_guard true None (lit "POST") simple_uri (Some pop_csr) ct_pkcs10
               (start server bob good_tls) w') (start server bob good_tls) w'.
Proof.
  destruct (ends_run (enroll_run bob good_tls pop_csr) EST_ERR_NONE
              (fun w => existsb enrolled (w_trace w))) as (w' & H & He); [vm_compute; reflexivity|].
  exists w'. split; [exact H|]. split; [exact He|].
  exact (est_http_request_guarded true None b64_no_nul _ _ _ _ _ _ _ H).
Defined.

#[export] Instance csr_eq_dec : EqDecision csr.
Proof. solve_decision. Defined.

Lemma est_enroll_auth_sound_witness :
  exists w', est_enroll_auth good_tls None SIMPLE_ENROLL_REQ (Some pop_csr) (start server bob good_tls)
             = Some ((EST_HTTP_AUTH, None), w') /\
    authorised SIMPLE_ENROLL_REQ good_tls EST_HTTP_AUTH (start server bob good_tls) w'.
Proof.
  destruct (ends_run (est_enroll_auth (L := library) good_tls None SIMPLE_ENROLL_REQ (Some pop_csr)
                        (start server bob good_tls)) (EST_HTTP_AUTH, @None csr) (fun _ => true))
    as (w' & H & _); [vm_compute; reflexivity|].
  exists w'. split; [exact H|].
  exact (proj1 (est_enroll_auth_sound _ _ _ _ _ _ _ _ H) eq_refl).
Defined.

Lemma bad_tls_refused : cert_refused bad_tls.
Proof.
  split; [|discriminate]. intros (p & _ & [H|H]); vm_compute in H; discriminate.
Qed.

Lemma est_auth_cert_refused_witness :
  exists w1 w2,
    est_enroll_auth bad_tls None SIMPLE_ENROLL_REQ (Some pop_csr) (start server bob bad_tls)
      = Some ((EST_UNAUTHORIZED, None), w1) /\
    est_brski_auth bad_tls None (start server bob bad_tls) = Some (EST_UNAUTHORIZED, w2).
Proof.
  destruct (est_auth_cert_refused (L := library) bad_tls None SIMPLE_ENROLL_REQ (Some pop_csr)
              (start server bob bad_tls) bad_tls_refused) as (w1 & w2 & H1 & H2 & _).
  exists w1, w2. split; [exact H1|exact H2].
Defined.

Lemma uid_string :
  pw_string (L := library) {| r_subject := [65]; r_challenge := Some uid; r_signed := true |}.
Proof. unfold pw_string. cbv zeta. intros attr _ [= <-]. by eexists. Qed.

Lemma pop_check_iff_witness :
  exists r w', pop_check anon_tls None {| r_subject := [65]; r_challenge := Some uid; r_signed := true |}
                 (start server [] anon_tls) = Some (r, w') /\
    (r = EST_ERR_NONE <-> client_is_ra None = true \/
       pop_ok server anon_tls {| r_subject := [65]; r_challenge := Some uid; r_signed := true |}).
Proof.
  destruct (pop_check_iff (L := library) anon_tls None {| r_subject := [65]; r_challenge := Some uid; r_signed := true |}
              (start server [] anon_tls) b64_no_nul eq_refl uid_string) as (r & w' & H & Hi & _).
  exists r, w'. split; [exact H|exact Hi].
Defined.

Definition bob_header : EST_HTTP_AUTH_HDR :=
  set_ah_mode (set_ah_pwd (set_ah_user empty_ah (Some (lit "bob"))) (Some (lit "pass1"))) AUTH_BASIC.

#[export] Instance ah_eq_dec : EqDecision EST_HTTP_AUTH_HDR.
Proof. solve_decision. Defined.

Lemma mg_parse_auth_header_good_witness :
  exists w', mg_parse_auth_header (Some empty_ah) (start server bob good_tls)
                = Some ((EST_AUTH_HDR_GOOD, Some bob_header), w') /\
    get_header (http_headers (connection bob good_tls)) (lit "Authorization") = Some (snd (hd ([], []) bob)) /\
    Some (lit "bob") = Some (user_id (w_conn w')).
Proof.
  destruct (ends_run (mg_parse_auth_header (L := library) (Some empty_ah) (start server bob good_tls))
              (EST_AUTH_HDR_GOOD, Some bob_header) (fun _ => true)) as (w' & H & _);
    [vm_compute; reflexivity|].
  exists w'. split; [exact H|].
  destruct (mg_parse_auth_header_good _ _ _ H) as (a & h & s & Ha & Hh & _ & _ & _ & Hc).
  injection Ha as <-. split; [reflexivity|]. exact Hc.
Defined.

(** Two registered manufacturers; the second one's store verifies Alice. *)
Definition acme : ENCHD_CERT_MFG_INFO :=
  {| mfg_name := lit "acme"; mfg_nid := 13; mfg_truststore := Some []; mfg_store_ctx := true |}.
Definition wonder : ENCHD_CERT_MFG_INFO :=
  {| mfg_name := lit "wonder"; mfg_nid := 13; mfg_truststore := Some [alice]; mfg_store_ctx := true |}.
Definition eca_server : EST_CTX :=
  set_enhcd_cert_auth_pwd (lit "pw") (set_enhanced_cert_auth_csr_check ECA_CSR_CHECK_ON
    (set_enchd_cert_mfgs_info_list (Some [acme; wonder; empty_mfg; empty_mfg])
      (set_enhanced_cert_auth_enabled true server))).

Lemma est_enhcd_cert_auth_get_mfg_first_witness :
  est_enhcd_cert_auth_get_mfg eca_server alice [] = (0, 1) /\
  exists m ts, 0 = 0 /\ [acme; wonder; empty_mfg; empty_mfg] !! 1%nat = Some m /\
    registered m = Some ts /\ X509_verify_cert ts alice [] <> 0.
Proof.
  split; [vm_compute; reflexivity|].
  destruct (est_enhcd_cert_auth_get_mfg_first (L := library) eca_server alice [] 0 1
              [acme; wonder; empty_mfg; empty_mfg] eq_refl eq_refl) as [H _].
  destruct (H ltac:(lia)) as (m & ts & H0 & Hl & Hr & Hv & _). exists m, ts.
  split; [exact H0|]. split; [exact Hl|]. split; [exact Hr|exact Hv].
Defined.

Definition alice_csr : csr := {| r_subject := lit "alice"; r_challenge := None; r_signed := true |}.

Lemma alice_field_ok : field_ok (Some (lit "alice")).
Proof. split; [repeat constructor; discriminate|vm_compute; discriminate]. Qed.

Lemma csr_check_mfg_iff_witness :
  perform_enhanced_cert_auth_csr_check eca_server alice alice_csr 1 = Some EST_AUTH_HDR_GOOD /\
  field_copied alice alice_csr 13.
Proof.
  assert (H : perform_enhanced_cert_auth_csr_check eca_server alice alice_csr 1 = Some EST_AUTH_HDR_GOOD)
    by (vm_compute; reflexivity).
  split; [exact H|].
  apply (csr_check_mfg_iff (L := library) eca_server alice alice_csr 1 [acme; wonder; empty_mfg; empty_mfg] wonder);
    [reflexivity|lia|reflexivity|exact alice_field_ok..|exact H].
Defined.

Lemma csr_check_local_iff_witness :
  perform_enhanced_cert_auth_csr_check eca_server alice alice_csr (-1) = Some EST_AUTH_HDR_GOOD.
Proof.
  apply (csr_check_local_iff (L := library) eca_server alice alice_csr (-1) [acme; wonder; empty_mfg; empty_mfg]).
  - reflexivity.
  - lia.
  - intros m Hm. destruct Hm as [<-|[<-|[<-|[<-|[]]]]];
      (split; exact alice_field_ok).
  - right. right. exists acme. split; [left; reflexivity|]. split; [by eexists|].
    exists (lit "alice"). repeat split; discriminate.
Defined.

Abbreviation send_reject method uri :=
  (est_http_request true None method uri None None (start server [] good_tls)).


Lemma est_http_request_rejected_witness :
  exists w', send_reject (lit "GET") simple_uri = Some (EST_ERR_WRONG_METHOD, w') /\
    status_code (w_conn w') = 400.
Proof.
  destruct (est_http_request_rejected (L := library) (lit "GET") simple_uri None None (start server [] good_tls)
    good_tls EST_ERR_WRONG_METHOD) as (w' & H & Hs & _).
  - by vm_compute; repeat constructor.
  - reflexivity.
  - reflexivity.
  - apply (reject_method _ _ _ EST_OP_SIMPLE_ENROLL); reflexivity.
  - exists w'. split; [exact H|exact Hs].
Defined.

Lemma est_server_handle_cacerts_response_witness :
  let w := start server [] anon_tls in
  exists cl, dec_value cl = Z.of_nat (length (lit "CHAIN")) /\
    est_server_handle_cacerts None w = Some (EST_ERR_NONE,
      written (set_w_trace (w_trace w ++ cacerts_call (w_ctx w) None) w)
        [status_200 ++ field EST_HTTP_HDR_CT EST_HTTP_CT_PKCS7 ++
         field EST_HTTP_HDR_CE EST_HTTP_CE_BASE64 ++ field EST_HTTP_HDR_CL cl ++ crlf; lit "CHAIN"]).
Proof.
  intros w. pose proof (est_server_handle_cacerts_response (L := library) None w eq_refl eq_refl) as H.
  cbv zeta in H.
  assert (E : cacerts_of (w_ctx w) (w_trace w) None = Some (lit "CHAIN")) by reflexivity.
  rewrite E in H. apply H. split; vm_compute; [reflexivity|discriminate].
Defined.

Lemma keygen_response_multipart_witness :
  exists cl, dec_value cl = Z.of_nat (length (concat (keygen_body (lit "CERT") (lit "KEY")))) /\
    option_map fst (keygen_response (est_err_num EST_ERR_NONE) (lit "CERT") (lit "KEY")
                      (start server [] good_tls)) = Some (EST_ERR_NONE, Some (lit "CERT"), Some (lit "KEY")).
Proof.
  destruct (keygen_response_multipart (L := library) (lit "CERT") (lit "KEY") (start server [] good_tls) eq_refl eq_refl)
    as (cl & Hcl & H).
  - split; vm_compute; [reflexivity|discriminate].
  - split; vm_compute; [reflexivity|discriminate].
  - exists cl. split; [exact Hcl|]. rewrite H. reflexivity.
Defined.
