(* ===== verification/ClientWitnesses.v ===== *)
(** * ClientWitnesses: the theorems on the client at concrete runs

    A client is made and configured by the calls of ClientConfig, and talks to servers
    that demand credentials, answer, or carry another name.

    A pledge and its registrar, JSON texts, dates and sockets at concrete inputs.

    The pledge is "alice". Its registrar asks for patience, and then sends a voucher. *)

From S2P Require Import Prelude.
From S2P Require Import SafeC.
From S2P Require Import Base64.
From S2P Require Import EstTypes.
From S2P Require Import EstState.
From S2P Require Import EstUtil.
From S2P Require Import EstUtilFacts.
From S2P Require Import HttpAuth.
From S2P Require Import HttpIO.
From S2P Require Import ServerConfig.
From S2P Require Import ClientHost.
From S2P Require Import ClientHttp.
From S2P Require Import Client.
From S2P Require Import ClientConfig.
From S2P Require Import EstLogic.
From S2P Require Import ClientHostProps.
From S2P Require Import ClientFacts.
From S2P Require Import ClientProps.
From S2P Require Import ClientHttpProps.
From S2P Require Import ClientRequest.
From S2P Require Import HttpConn.
From S2P Require Import HttpStreamProps.
From S2P Require Import CredentialProps.
From S2P Require Import ClientExchangeProps.
From S2P Require Import Toy.
From S2P Require Import Witnesses.
From S2P Require Import Calendar.
From S2P Require Import Jsmn.
From S2P Require Import JsmnProps.
From S2P Require Import JsmnRoundtrip.
From S2P Require Import ParseDate.
From S2P Require Import ClientBrski.
From S2P Require Import BrskiJson.
From S2P Require Import ClientBrskiProps.
From S2P Require Import ClientProxy.
Import Toy.

Lemma est_client_hostmatch_iff_witness :
  (no_nul (lit "WWW.example.com") /\ no_nul (lit "w*.Example.com")) /\
  est_client_hostmatch (lit "WWW.example.com") (lit "w*.Example.com") = true /\
  (est_client_hostmatch (lit "WWW.example.com") (lit "w*.Example.com") = true <->
   names_host (lit "WWW.example.com") (lit "w*.Example.com")).
Proof.
  split; [split; repeat constructor; discriminate|]. split; [vm_compute; reflexivity|].
  apply est_client_hostmatch_iff; repeat constructor; discriminate.
Defined.

(** ** A client *)

Definition named (name : bytes) : session := tls (Some {| c_subject := name; c_ra := false |}) 0.

(** A connection that is accepted, and what the peer sends over it. *)
Definition reachable (peer : session) (reads : list read_result) : EstState.connection :=
  Build_connection TCW_OK true true true (Some peer) None reads false.

Definition with_conns (conns : list EstState.connection) (w : world) : world :=
  set_w_net (Build_network conns [] None [] false) w.

(** A client of the server "est.example.com" that knows bob's password. *)
Definition client_setup : M (L := library) EST_ERROR :=
  _ ← est_client_init (Some (lit "CHAIN")) 5 true None;
  _ ← est_client_set_auth (Some (lit "bob")) (Some (lit "pass1")) None None;
  est_client_set_server None false (Some (lit "est.example.com")) 8443 None.

Definition client_world (conns : list EstState.connection) : world :=
  match client_setup (start zero_ctx [] anon_tls) with
  | Some (_, w) => with_conns conns w
  | None => start zero_ctx [] anon_tls
  end.

Definition est_peer : session := named (lit "*.example.com").

(** What a run leaves. *)
Definition ends {A} (d : world) (r : option (A * world)) : world :=
  match r with Some (_, w) => w | None => d end.
Definition gives {A} (d : A) (r : option (A * world)) : A :=
  match r with Some (a, _) => a | None => d end.

Lemma run_split {A B} (a : A * B) (w : world) (r : option ((A * B) * world)) :
  match r with Some _ => true | None => false end = true ->
  r = Some ((fst (gives a r), snd (gives a r)), ends w r).
Proof. by destruct r as [[[]]|]. Qed.

(** The server answers 401 and names a mode, and sends the certificate to the
    second request. *)
Definition quoted (s : bytes) : bytes := 34 :: s ++ [34].
Definition answer_401 : bytes :=
  lit "HTTP/1.1 401 Unauthorized" ++ crlf ++
  lit "WWW-Authenticate: Basic realm=" ++ quoted (lit "est") ++ crlf ++ crlf.
Definition answer_cert : bytes := hdr_200 EST_HTTP_CT_PKCS7_CO 8 ++ lit "Q0VSVA==".

Definition demanding : list EstState.connection :=
  [reachable est_peer [R_data answer_401; R_none]; reachable est_peer [R_data answer_cert; R_none]].

Definition junk (n : nat) : bytes := replicate n 170.
Definition bob_call : enroll_call (L := library) := Enroll (lit "bob") (Some [75]).
Abbreviation enroll_bob := (run_enroll (L := library) false (lit "3.2.0") junk bob_call).

(** One request without credentials, one with them, and the certificate. *)
Lemma enrollment_credentials_witness :
  let w := client_world demanding in let r := enroll_bob w in
  gives (EST_ERR_MALLOC, no_lens) r = (EST_ERR_NONE, Build_lens (Some 8) None) /\
  length (w_trace (ends w r)) = 6%nat /\
  (ends w r = w \/ two_attempts (lit "3.2.0") w (ends w r)).
Proof.
  cbv zeta. split; [vm_compute; reflexivity|]. split; [vm_compute; reflexivity|].
  apply (enrollment_credentials (L := library) false (lit "3.2.0") junk
           bob_call (client_world demanding)
           (fst (gives (EST_ERR_MALLOC, no_lens) (enroll_bob (client_world demanding))))
           (snd (gives (EST_ERR_MALLOC, no_lens) (enroll_bob (client_world demanding))))).
  - vm_compute. reflexivity.
  - split; vm_compute; repeat constructor; discriminate.
  - refine (run_split (EST_ERR_MALLOC, no_lens) (client_world demanding)
              (enroll_bob (client_world demanding)) _).
    vm_compute. reflexivity.
Defined.

(** The right peer is accepted, a peer with another name is not. *)
Abbreviation other_world := (client_world [reachable (named (lit "other.example.com")) []]).
Abbreviation connected_to_other := (est_client_connect (L := library) other_world).

Lemma est_client_connect_verified_witness :
  gives (EST_ERR_NONE, None) connected_to_other = (EST_ERR_FQDN_MISMATCH, None) /\
  gives (EST_ERR_MALLOC, None) (est_client_connect (client_world [reachable est_peer []]))
  = (EST_ERR_NONE, Some est_peer) /\
  exists l, connect_outcome other_world (ends other_world connected_to_other)
              (fst (gives (EST_ERR_NONE, None) connected_to_other))
              (snd (gives (EST_ERR_NONE, None) connected_to_other)) l /\
    w_trace (ends other_world connected_to_other) = w_trace other_world ++
      EvConnect (connect_opts (client (w_ctx other_world)))
        (est_server (client (w_ctx other_world))) (est_port_num (client (w_ctx other_world))) :: l.
Proof.
  split; [vm_compute; reflexivity|]. split; [vm_compute; reflexivity|].
  apply (est_client_connect_verified (L := library) other_world).
  - vm_compute. repeat constructor; discriminate.
  - apply run_split. vm_compute. reflexivity.
Defined.

(** The CA certificates "CHAIN", in three pieces. *)
Definition answer_chain : bytes := hdr_200 EST_HTTP_CT_PKCS7 5 ++ lit "CHAIN".
Definition pieces : list bytes :=
  [take 7 answer_chain; take 90 (drop 7 answer_chain); drop 97 answer_chain].

Definition answering_world : world (L := library) :=
  let w := client_world [] in
  set_w_net (set_net_reads (map R_data pieces ++ [R_none]) (w_net w)) w.

Lemma server_response_received_witness :
  concat pieces = hdr_200 EST_HTTP_CT_PKCS7 5 ++ lit "CHAIN" /\
  exists w', est_io_get_response false junk EST_OP_CACERTS answering_world
    = Some (Build_io_response EST_ERR_NONE None 0 (Some (lit "CHAIN")) 5, w') /\
    w_ctx w' = set_client (set_last_http_status 200 (client (w_ctx answering_world))) (w_ctx answering_world) /\
    net_reads (w_net w') = [] /\ w_trace w' = w_trace answering_world.
Proof.
  split; [vm_compute; reflexivity|].
  apply (server_response_received (L := library) false junk EST_OP_CACERTS EST_HTTP_CT_PKCS7
           (lit "CHAIN") pieces []).
  - constructor.
  - discriminate.
  - intros [H|[H|[]]]; discriminate H.
  - vm_compute. reflexivity.
  - vm_compute. reflexivity.
  - split; [vm_compute; reflexivity|]. vm_compute. repeat constructor; discriminate.
  - vm_compute. reflexivity.
Defined.

(** The request for a certificate, with a CSR that carries the channel binding, at the
    server of Toy: it is one call of the application. *)
Definition enroll_wire : bytes :=
  wire_text (lit "3.2.0") (client (w_ctx (client_world []))) EST_SIMPLE_ENROLL pop_csr [].

Definition callbacks (r : option (EST_CTX * list event)) : nat :=
  match r with
  | Some (_, tr) => length (filter (fun e => match e with EvEnrollCb _ _ _ _ => true | _ => false end = true) tr)
  | None => 0
  end.

Definition serving_world : world :=
  start (set_require_http_auth HTTP_AUTH_NOT_REQUIRED server) [] good_tls.

Lemma enroll_request_served_witness :
  callbacks (effects (process_new_connection true None no_proxy cleared
                        [R_data (take 40 enroll_wire); R_none; R_data (drop 40 enroll_wire)] serving_world)) = 1%nat /\
  exists wire w1,
    est_client_send_enroll_request_internal false (lit "3.2.0") junk pop_csr true EST_OP_SIMPLE_ENROLL (client_world [])
    = receive false junk EST_OP_SIMPLE_ENROLL w1 /\
    w_ctx w1 = set_client (set_last_http_status 0 (client (w_ctx (client_world [])))) (w_ctx (client_world [])) /\
    w_trace w1 = w_trace (client_world []) ++ [EvClientWrite wire] /\
    op_uri EST_OP_SIMPLE_ENROLL = Some (operation_path EST_SIMPLE_ENROLL) /\
    forall reads ws, clean reads -> script_bytes reads = wire ->
      est_mode (w_ctx ws) = EST_SERVER -> w_alloc ws = [] ->
      effects (process_new_connection true None no_proxy cleared reads ws)
      = effects (request_of true None EST_SIMPLE_ENROLL pop_csr
          (asked (lit "3.2.0") (client (w_ctx (client_world []))) EST_SIMPLE_ENROLL
             (Z.of_nat (length pop_csr)) [] ws)).
Proof.
  split; [vm_compute; reflexivity|].
  apply (enroll_request_served (L := library) (lit "3.2.0") true None no_proxy cleared false junk).
  - constructor.
  - assert (E : est_server (client (w_ctx (client_world []))) = lit "est.example.com")
      by (vm_compute; reflexivity).
    split; [by apply HttpParseProps.lit_text|discriminate| | | |].
    + rewrite E. by apply HttpParseProps.lit_text.
    + rewrite E. discriminate.
    + vm_compute. discriminate.
    + vm_compute. reflexivity.
  - split; vm_compute; discriminate.
  - vm_compute. reflexivity.
  - vm_compute. reflexivity.
  - vm_compute. reflexivity.
Defined.

(** A client that was asked for Digest credentials, and a server of that mode. *)
Definition digest_client : world :=
  let w := client_world [] in
  set_w_net (set_net_rand [Some (lit "8 random bytes")] (w_net w))
    (set_w_ctx (set_auth_mode AUTH_DIGEST (set_realm (lit "estrealm")
       (set_client (set_s_nonce (lit "1714") (set_password (lit "estpwd") (set_userid (lit "estuser")
          (client (w_ctx w))))) (w_ctx w)))) w).

Definition digest_login : credentials := Digest (lit "estuser") (lit "estpwd") (lit "8 random bytes").

Definition login_wire : bytes :=
  wire_text (lit "3.2.0") (client (w_ctx digest_client)) EST_SIMPLE_ENROLL pop_csr
    (auth_field (w_ctx digest_client) EST_SIMPLE_ENROLL digest_login).

Lemma toy_base64 : base64_bio library.
Proof.
  split; [done|]. intros s max Hs Hl. cbn [b64_bio_read library]. rewrite b64_decode_encode by done.
  rewrite Z.min_r, take_ge by lia. done.
Qed.

Lemma toy_md5_16 : forall s, are_bytes (EVP_md5 (OpenSSL := library) s) /\ length (EVP_md5 (OpenSSL := library) s) = 16%nat.
Proof.
  intros s. cbn [EVP_md5 library]. unfold toy_md5. split.
  - apply Forall_map, Forall_forall. intros c _. unfold is_byte. apply Z.mod_pos_bound. lia.
  - by rewrite length_map, length_seq.
Qed.

(** Its application knows the password of one user. *)
Definition checks_digest (pwd : bytes) (_ : list event) (ah : EST_HTTP_AUTH_HDR)
    (_ : option cert) (_ : option bytes) : bool :=
  match est_server_generate_auth_digest (L := library) (Some ah)
          (Some (md5_hex [lit "estuser"; lit ":"; lit "estrealm"; lit ":"; pwd])) (start zero_ctx [] anon_tls) with
  | Some (Some d, _) => bool_decide (ah_user ah = Some (lit "estuser")) && bool_decide (ah_response ah = Some d)
  | _ => false
  end.

Definition digest_server (pwd : bytes) : world :=
  start (set_est_http_auth_cb (Some (checks_digest pwd)) (set_auth_mode AUTH_DIGEST
           (set_realm (lit "estrealm") server))) [] anon_tls.

Lemma login_served_witness :
  callbacks (effects (process_new_connection true None no_proxy cleared [R_data login_wire] (digest_server (lit "estpwd")))) = 1%nat /\
  callbacks (effects (process_new_connection true None no_proxy cleared [R_data login_wire] (digest_server (lit "other")))) = 0%nat /\
  exists wire w1,
    est_client_send_enroll_request_internal false (lit "3.2.0") junk pop_csr true EST_OP_SIMPLE_ENROLL digest_client
      = receive false junk EST_OP_SIMPLE_ENROLL w1 /\
    w_ctx w1 = set_client (set_last_http_status 0 (client (w_ctx digest_client))) (w_ctx digest_client) /\
    w_trace w1 = w_trace digest_client ++ token_asked digest_login ++ [EvClientWrite wire] /\
    forall reads ws, clean reads -> script_bytes reads = wire ->
      est_mode (w_ctx ws) = EST_SERVER -> w_alloc ws = [] ->
      let served := asked (lit "3.2.0") (client (w_ctx digest_client)) EST_SIMPLE_ENROLL (Z.of_nat (length pop_csr))
                      (auth_field (w_ctx digest_client) EST_SIMPLE_ENROLL digest_login) ws in
      effects (process_new_connection true None no_proxy cleared reads ws)
        = effects (request_of true None EST_SIMPLE_ENROLL pop_csr served) /\
      (auth_mode (w_ctx ws) = auth_mode (w_ctx digest_client) ->
       CredentialProps.accepted (w_ctx digest_client) (operation_path EST_SIMPLE_ENROLL) digest_login served).
Proof.
  split; [vm_compute; reflexivity|]. split; [vm_compute; reflexivity|].
  apply (login_served (L := library) (lit "3.2.0") true None no_proxy cleared false junk toy_base64 toy_md5_16).
  - constructor.
  - split; [by apply HttpParseProps.lit_text|discriminate|by apply HttpParseProps.lit_text|discriminate|done|done].
  - split_and!; try (vm_compute; reflexivity). by eexists.
  - split_and!; first [discriminate|apply quotable_check; vm_compute; reflexivity|vm_compute; discriminate|split_and!|idtac].
    all: first [vm_compute; discriminate|apply Forall_forall; intros c Hc; vm_compute in Hc;
                repeat destruct Hc as [<-|Hc]; done].
  - split; vm_compute; discriminate.
  - vm_compute. reflexivity.
  - vm_compute. reflexivity.
  - vm_compute. reflexivity.
Defined.

(** ** JSON *)

(** A voucher: an object of strings, with white space and an array. *)
Definition small_voucher : json :=
  JNode true (lit " ")
    (member [] (lit "serial-number") (lit " ") (JStr (lit "alice")) []
    (member crlf (lit "flags") [] (JNode false [] (ICons [] None (JPrim (lit "true")) [] INil)) (lit " ") INil)).

Ltac text_ok := repeat first [split | constructor | reflexivity].

(** A text that is cut behind a backslash. *)
Definition cut_text : bytes := [123; 34; 97; 34; 58; 34; 98; 92].

Lemma jsmn_parse_total_witness :
  exists o, jsmn_parse jsmn_init cut_text (length cut_text) (Some (fresh_tokens 6)) 6 = Some o /\
    parse_ok (length cut_text) 6 o /\
    Z.of_nat (pos o.1.2) < 2 ^ 31 /\ Z.of_nat (toknext o.1.2) < 2 ^ 31 /\ o.1.1 < 2 ^ 31.
Proof.
  apply (jsmn_parse_total cut_text (length cut_text) (fresh_tokens 6)); [lia|by vm_compute|by vm_compute].
Defined.

Lemma jsmn_parse_reads_witness :
  let text := lit " " ++ json_text small_voucher ++ crlf in
  (ws (lit " ") /\ ws crlf /\ json_ok small_voucher) /\
  exists sup,
    jsmn_parse jsmn_init text (length text) (Some (fresh_tokens 6)) 6 =
      Some (6, Parser (length text) 6 sup, Some (json_toks 1 small_voucher ++ [])).
Proof.
  assert (H1 : ws (lit " ")) by text_ok. assert (H2 : ws crlf) by text_ok.
  assert (H3 : json_ok small_voucher) by text_ok.
  cbv zeta. split; [done|]. exact (jsmn_parse_reads (lit " ") small_voucher crlf (fresh_tokens 6) H1 H2 H3 ltac:(vm_compute; lia)).
Defined.

Lemma retrieve_token_reads_witness :
  let text := json_text small_voucher ++ crlf in
  json_ok small_voucher /\
  exists n p tok,
    jsmn_parse jsmn_init text (length text) (Some (fresh_tokens tokcount)) tokcount = Some (n, p, Some tok) /\
    n = 6 /\ retrieve_token_from_voucher text 66 n tok (lit "serial-number") = Some (Some (lit "alice")).
Proof.
  assert (H1 : ws []) by constructor. assert (H2 : ws crlf) by text_ok. assert (H3 : json_ok small_voucher) by text_ok.
  cbv zeta. split; [done|].
  exact (retrieve_token_reads small_voucher [] crlf 66 (lit "serial-number") H1 H2 H3 ltac:(vm_compute; lia)).
Defined.

Lemma status_reports_read_witness :
  brski_status_str EST_BRSKI_STATUS_SUCCESS = Some (lit "true") /\
  reads_back (snprintf EST_BRSKI_MAX_STATUS_LEN (voucher_status_text (lit "true") (lit "fine")))
    (voucher_status_tree (lit "true") (lit "fine")) [(lit "Status", lit "true"); (lit "Reason", lit "fine")] /\
  reads_back (snprintf EST_BRSKI_MAX_STATUS_LEN (enroll_status_text (lit "true") (lit "fine") (lit "a2V5")))
    (enroll_status_tree (lit "true") (lit "fine") (lit "a2V5"))
    [(lit "Status", lit "true"); (lit "Reason", lit "fine"); (lit "SubjectKeyIdentifier", lit "a2V5")].
Proof.
  split; [reflexivity|].
  apply (status_reports_read EST_BRSKI_STATUS_SUCCESS (lit "true") (lit "fine") (lit "a2V5"));
    [reflexivity|text_ok|vm_compute; discriminate|text_ok|vm_compute; discriminate|discriminate].
Defined.

Definition sixteen : bytes := replicate 16 171.

Lemma sixteen_bytes : are_bytes sixteen.
Proof. apply Forall_replicate. unfold is_byte. lia. Qed.

Lemma voucher_request_reads_witness :
  length sixteen = 16%nat /\
  reads_back (est_brski_build_voucher_req (est_hex_to_str sixteen) (lit "2020-02-29T00:00:00Z") (lit "proximity") (lit "Q0VSVA=="))
    (voucher_req_tree (est_hex_to_str sixteen) (lit "2020-02-29T00:00:00Z") (lit "proximity") (lit "Q0VSVA=="))
    [(lit "nonce", est_hex_to_str sixteen); (lit "created-on", lit "2020-02-29T00:00:00Z");
     (lit "proximity-registrar-cert", lit "Q0VSVA==")].
Proof.
  split; [reflexivity|].
  apply (voucher_request_reads sixteen (lit "2020-02-29T00:00:00Z") (lit "Q0VSVA=="));
    [exact sixteen_bytes|reflexivity|text_ok|vm_compute; lia|discriminate|text_ok|vm_compute; discriminate].
Defined.

(** ** Dates *)

Lemma my_timegm_counts_witness :
  my_timegm (MyTm 37 49 8 6 10 94) = 784111777 /\
  my_timegm (MyTm 37 49 8 6 10 94) = ((days_from_1970 (94 + 1900) 10 6 * 24 + 8) * 60 + 49) * 60 + 37.
Proof. split; [reflexivity|]. apply my_timegm_counts; lia. Defined.

Lemma parsedate_reads_http_dates_witness :
  rfc1123_date (lit "Sun") (gmtime 784111777) = lit "Sun, 06 Nov 1994 08:49:37 GMT" /\
  rfc850_date (lit "Sunday") (gmtime 784111777) = lit "Sunday, 06-Nov-94 08:49:37 GMT" /\
  asctime_date (lit "Sun") (gmtime 784111777) = lit "Sun Nov  6 08:49:37 1994" /\
  parsedate (rfc1123_date (lit "Sun") (gmtime 784111777) ++ 0 :: crlf) = Some (PARSEDATE_OK, Some 784111777).
Proof.
  do 3 (split; [vm_compute; reflexivity|]).
  apply (parsedate_reads_http_dates 784111777 (lit "Sun") crlf); [vm_compute; split; [discriminate|reflexivity]|].
  vm_compute. tauto.
Defined.

(** ** A pledge *)

Definition pledge_cert : cert := {| c_subject := lit "alice"; c_ra := false |}.
Definition registrar : session := named (lit "est.example.com").

Definition pledge_setup : M (L := library) EST_ERROR :=
  _ ← est_client_init (Some (lit "CHAIN")) 5 true None;
  _ ← est_client_set_auth (Some (lit "bob")) (Some (lit "pass1")) (Some pledge_cert) (Some [75]);
  _ ← est_client_set_brski_mode;
  est_client_set_server None false (Some (lit "est.example.com")) 8443 None.

Definition pledge_world (answers : list bytes) : world (L := library) :=
  match pledge_setup (start zero_ctx [] anon_tls) with
  | Some (_, w) =>
      set_w_net (Build_network (map (fun a => reachable registrar [R_data a; R_none]) answers)
                   [Some sixteen; Some sixteen] None [] false) w
  | None => start zero_ctx [] anon_tls
  end.

Definition json_member (name value : bytes) : bytes := quoted name ++ lit ":" ++ quoted value.
Definition voucher : bytes :=
  lit "{" ++ json_member (lit "serial-number") (lit "alice") ++ lit "," ++
  json_member (lit "nonce") (nonce_of sixteen) ++ lit "," ++
  json_member (lit "pinned-domain-cert") (lit "Q0VSVA==") ++ lit "}".
Definition answer_voucher : bytes := hdr_200 EST_BRSKI_CT_VRSP (Z.of_nat (length voucher)) ++ voucher.
Definition answer_later : bytes :=
  lit "HTTP/1.1 202 Accepted" ++ crlf ++ lit "Retry-After: 500" ++ crlf ++ crlf.

Abbreviation get_voucher := (est_client_brski_get_voucher (L := library) false (lit "3.2.0") junk true false).
Abbreviation promised_world := (pledge_world [answer_later; answer_voucher]).

(** The result of a run, known by its first part. *)
Lemma run_gave (d : EST_ERROR * option Z) (w : world (L := library)) e (r : option ((EST_ERROR * option Z) * world)) :
  match r with Some (e', _, _) => bool_decide (e' = e) | None => false end = true ->
  r = Some ((e, snd (gives d r)), ends w r).
Proof. destruct r as [[[e' l] w']|]; [|done]. cbn. intros H. by apply bool_decide_eq_true_1 in H as ->. Qed.

Lemma promised_run : get_voucher promised_world =
  Some ((EST_ERR_NONE, snd (gives (EST_ERR_NONE, None) (get_voucher promised_world))),
        ends promised_world (get_voucher promised_world)).
Proof. apply run_gave. vm_compute. reflexivity. Qed.

Definition sleeps (n : Z) (e : event (L := library)) : bool :=
  match e with EvSleep d => d =? n | _ => false end.

(** The registrar asked for 500 seconds; the client sleeps for a minute. *)
Lemma registrar_patience_witness :
  0 <= retry_after_delay (w_ctx promised_world) /\
  existsb (sleeps 60) (w_trace (ends promised_world (get_voucher promised_world))) = true /\
  exists l1 l2, w_trace (ends promised_world (get_voucher promised_world)) = w_trace promised_world ++ l1 ++ l2 /\
    round_events 2 l1 /\
    (l2 = [] \/
     exists d l3, l2 = EvSleep d :: l3 /\ 0 <= d <= EST_BRSKI_CLIENT_RETRY_MAX /\ round_events 2 l3).
Proof.
  assert (H : 0 <= retry_after_delay (w_ctx promised_world)) by (vm_compute; discriminate).
  split; [exact H|]. split; [vm_compute; reflexivity|].
  exact (registrar_patience (L := library) false (lit "3.2.0") junk true false promised_world _ _ H promised_run).
Defined.

(** The voucher of the second answer is accepted, with the domain's certificate. *)
Lemma voucher_accepted_witness :
  random_bytes promised_world /\
  exists cert serial data, client_cert (client_of promised_world) = Some cert /\
    est_find_ser_num_in_subj (L := library) cert = Some serial /\
    brski_retrieved_voucher (client_of (ends promised_world (get_voucher promised_world))) = Some data /\
    voucher_says data (EST_BRSKI_MAX_SER_NUM_LEN + 2) (lit "serial-number") (Some serial).
Proof.
  assert (H : random_bytes promised_world).
  { unfold random_bytes. assert (net_rand (w_net promised_world) = [Some sixteen; Some sixteen]) as -> by (vm_compute; reflexivity).
    apply Forall_cons_2; [exact sixteen_bytes|]. apply Forall_cons_2; [exact sixteen_bytes|constructor]. }
  split; [exact H|].
  destruct (voucher_accepted (L := library) false (lit "3.2.0") junk true false promised_world _ _ H promised_run)
    as (cert & serial & random & sc & store & p7 & data & Hc & Hs & _ & _ & _ & _ & Hd & Hsays & _).
  exact (ex_intro _ cert (ex_intro _ serial (ex_intro _ data (conj Hc (conj Hs (conj Hd Hsays)))))).
Defined.

(** ** Sockets *)

Definition above (fds : list Z) : Z := 1 + fold_right Z.max 2 fds.

(** Every host has two addresses. *)
#[local] Instance two_addresses : NetLib := {
  sockaddr := Z;
  getaddrinfo _ _ := Some [1; 2];
  new_fd := above;
  curl_easy_setopt _ := CURLE_OK;
  curl_easy_perform _ := CURLE_OK;
  curl_easy_getinfo _ := CURLE_OK;
  curl_lastsocket _ := true
}.

Lemma above_fresh fds : 2 <= fold_right Z.max 2 fds /\ forall d, In d fds -> d <= fold_right Z.max 2 fds.
Proof.
  induction fds as [|a fds [IH1 IH2]]; cbn [fold_right]; [by split|]. split; [lia|].
  intros d [->|Hd]; [lia|]. specialize (IH2 d Hd). lia.
Qed.

Lemma two_addresses_ok : net_ok (L := two_addresses).
Proof.
  split; [|done]. intros fds. change (0 <= above fds /\ ~ In (above fds) fds). unfold above.
  destruct (above_fresh fds) as [H1 H2]. split; [lia|]. intros H. apply H2 in H. lia.
Qed.

(** The first address refuses; standard input, output and error are open. *)
Definition refused_once : os (L := two_addresses) := OS [0; 1; 2] 0 [] [] [false] [] [] [] [] [].
Definition no_proxy : tcw_opts_t := Build_tcw_opts_t EST_CLIENT_PROXY_NONE [] 0 None 0.

Lemma tcw_connect_owns_one_witness :
  (net_ok (L := two_addresses) /\ s_close refused_once = []) /\
  exists ret sock s', tcw_connect no_proxy (lit "est.example.com") 443 refused_once = Some ((ret, sock), s') /\
    owns_one refused_once ret sock s' /\ os_contacts s' = [Contact 1; Contact 2] /\ ret = TCW_OK.
Proof.
  split; [split; [exact two_addresses_ok|reflexivity]|].
  destruct (tcw_connect_owns_one no_proxy (lit "est.example.com") 443 refused_once two_addresses_ok eq_refl)
    as (ret & sock & s' & E & Howns & _).
  assert (Hrun : tcw_connect no_proxy (lit "est.example.com") 443 refused_once =
    Some ((TCW_OK, Sock None EST_CLIENT_PROXY_NONE 3), OS [3; 0; 1; 2] 0 [Contact 1; Contact 2] [] [] [] [] [] [] []))
    by (vm_compute; reflexivity).
  assert (Hs : os_contacts s' = [Contact 1; Contact 2] /\ ret = TCW_OK).
  { rewrite Hrun in E. injection E as <- _ <-. by split. }
  exists ret, sock, s'. destruct Hs. by split.
Defined.
