(* ===== verification/ProxyWitnesses.v ===== *)
(** * ProxyWitnesses: the theorems on the proxy at concrete runs

    A proxy is made by [est_proxy_init] and configured; its clients are those of the
    server in Toy, its upstream servers those of ClientWitnesses. *)

From stdpp Require Import gmap.
From S2P Require Import Prelude.
From S2P Require Import SafeC.
From S2P Require Import EstTypes.
From S2P Require Import EstState.
From S2P Require Import EstUtil.
From S2P Require Import HttpIO.
From S2P Require Import ServerAuth.
From S2P Require Import ServerConfig.
From S2P Require Import ServerDispatch.
From S2P Require Import ClientHost.
From S2P Require Import ClientHttp.
From S2P Require Import Client.
From S2P Require Import ClientConfig.
From S2P Require Import ProxyCtx.
From S2P Require Import Proxy.
From S2P Require Import ProxyConfig.
From S2P Require Import EstLogic.
From S2P Require Import HttpIOFacts.
From S2P Require Import ServerResponseProps.
From S2P Require Import ClientExchangeProps.
From S2P Require Import ProxyFacts.
From S2P Require Import ProxyCtxProps.
From S2P Require Import ProxyProps.
From S2P Require Import ProxyExchangeProps.
From S2P Require Import Toy.
From S2P Require Import Witnesses.
From S2P Require Import ClientWitnesses.
Import Toy.

(** ** A proxy *)

Definition proxy_start : world := start zero_ctx bob good_tls.

Abbreviation proxy_init :=
  (est_proxy_init (L := library) (Some (lit "CHAIN")) 5 None 0 true (Some (lit "est")) (Some alice)
     (Some [75]) (Some (lit "bob")) (Some (lit "pass1")) proxy_start).

Definition proxy_set_server : M (L := library) EST_ERROR :=
  est_proxy_set_server (Some (lit "est.example.com")) 8443.

(** Before the first request; [demanding] is a server that asks for credentials. *)
Definition proxy_made : world := ends proxy_start proxy_init.
Definition proxy_with_cb : world :=
  set_w_ctx (set_est_http_auth_cb (Some knows_bob) (w_ctx proxy_made)) proxy_made.
Definition proxy_ready : world := ends proxy_start (proxy_set_server proxy_with_cb).
Definition proxy_world (conns : list EstState.connection) : world := with_conns conns proxy_ready.

Lemma proxy_world_well_formed conns :
  well_formed (L := library) (w_proxy (proxy_world conns)) /\ 0 < cur_threadid (w_proxy (proxy_world conns)).
Proof.
  split; [|vm_compute; reflexivity]. exists (replicate 8 zero_node).
  apply (ok_zero (L := library) _ 8); [vm_compute; reflexivity..|lia].
Qed.

Abbreviation proxied_enroll :=
  (est_proxy_http_request (L := library) false None (lit "3.2.0") junk (lit "POST")
     (lit "/.well-known/est/simpleenroll") (Some pop_csr) ct_pkcs10).

Lemma outcome_split {A} (a : A) (w : world (L := library)) (r : option (A * world)) :
  match r with Some _ => true | None => false end = true -> r = Some (gives a r, ends w r).
Proof. by destruct r as [[]|]. Qed.

(** After a request of thread 1, which has a context since, one of thread 2. *)
Definition first_request : M (L := library) unit :=
  run_call (L := library) false None (lit "3.2.0") junk
    (Call_request (lit "POST") (lit "/.well-known/est/simpleenroll") (Some pop_csr) ct_pkcs10).
Definition after_first : world := ends proxy_start (first_request (proxy_world demanding)).
Definition second_thread : world :=
  set_w_proxy (set_cur_threadid 2 (w_proxy after_first)) after_first.

Lemma with_conns_proxy conns w : w_proxy (with_conns conns w) = w_proxy w.
Proof. done. Qed.
Lemma with_conns_net conns w : net_conns (w_net (with_conns conns w)) = conns.
Proof. done. Qed.
Lemma with_ctx_proxy c (w : world (L := library)) : w_proxy (set_w_ctx c w) = w_proxy w.
Proof. done. Qed.

Abbreviation toy_reachable := (proxy_reachable (L := library) false None (lit "3.2.0") junk).

Lemma proxy_world_reachable conns : toy_reachable (proxy_world conns).
Proof.
  apply (reach_env _ _ _ _ proxy_ready); [|apply with_conns_proxy].
  apply (reach_call _ _ _ _ (Call_set_server (Some (lit "est.example.com")) 8443) proxy_with_cb).
  - apply (reach_env _ _ _ _ proxy_made); [|apply with_ctx_proxy]. eapply reach_init.
    + apply (outcome_split true proxy_start proxy_init). vm_compute. reflexivity.
    + vm_compute. lia.
    + vm_compute. reflexivity.
    + assert (E : client_ctx_array (w_proxy proxy_made) = Some (replicate 8 zero_node))
        by (vm_compute; reflexivity). by rewrite E.
  - unfold run_call, ignore. erewrite bind_run; [reflexivity|].
    apply (outcome_split EST_ERR_NONE proxy_start). vm_compute. reflexivity.
Qed.

Lemma reach_returns c w d : toy_reachable w ->
  match run_call (L := library) false None (lit "3.2.0") junk c w with
  | Some _ => true | None => false end = true ->
  toy_reachable (ends d (run_call (L := library) false None (lit "3.2.0") junk c w)).
Proof.
  intros H E. destruct (run_call _ _ _ _ c w) as [[[] w']|] eqn:R; [|done]. by eapply reach_call.
Qed.

Lemma second_thread_reachable : toy_reachable second_thread.
Proof.
  unfold second_thread. apply reach_thread; [|done].
  apply reach_returns; [apply (proxy_world_reachable demanding)|]. vm_compute. reflexivity.
Qed.

Lemma reachable_well_formed_witness :
  size (thread_ctxs (L := library) (w_proxy second_thread)) = 1%nat /\
  well_formed (L := library) (w_proxy second_thread) /\ 0 < cur_threadid (w_proxy second_thread) /\
  forall id c, thread_ctxs (L := library) (w_proxy second_thread) !! id = Some c -> est_mode c = EST_CLIENT.
Proof.
  split; [vm_compute; reflexivity|].
  apply (reachable_well_formed (L := library) false None (lit "3.2.0") junk).
  apply second_thread_reachable.
Defined.

(** The first thread has no context yet: one is made for it. *)
Lemma get_client_ctx_refines_witness :
  gives None (get_client_ctx (L := library) false None (proxy_world [])) = Some 0%nat /\
  (well_formed (L := library) (w_proxy (proxy_world [])) /\ 0 < cur_threadid (w_proxy (proxy_world []))) /\
  (w_alloc (proxy_world []) = [] -> is_Some (get_client_ctx (L := library) false None (proxy_world []))) /\
  forall r w', get_client_ctx (L := library) false None (proxy_world []) = Some (r, w') ->
    well_formed (L := library) (w_proxy w') /\ got_ctx (L := library) (proxy_world []) r w'.
Proof.
  split; [vm_compute; reflexivity|]. assert (H := proxy_world_well_formed []). split; [exact H|].
  apply (get_client_ctx_refines (L := library) false None (proxy_world [])); apply H.
Defined.

(** An enrollment that is passed on: the upstream server asks for credentials first. *)
Lemma est_proxy_http_request_isolated_witness :
  let w := proxy_world demanding in let r := proxied_enroll w in
  gives EST_ERR_MALLOC r = EST_ERR_NONE /\ length (w_trace (ends w r)) = 9%nat /\
  well_formed (L := library) (w_proxy (ends w r)) /\
  cur_threadid (w_proxy (ends w r)) = cur_threadid (w_proxy w) /\
  (forall id, id <> cur_threadid (w_proxy w) ->
    thread_ctxs (w_proxy (ends w r)) !! id = thread_ctxs (w_proxy w) !! id) /\
  (forall id, is_Some (thread_ctxs (w_proxy w) !! id) ->
    thread_server (w_proxy (ends w r)) id = thread_server (w_proxy w) id).
Proof.
  cbv zeta. split; [vm_compute; reflexivity|]. split; [vm_compute; reflexivity|].
  assert (H := proxy_world_well_formed demanding).
  apply (est_proxy_http_request_isolated (L := library) false None (lit "3.2.0") junk (lit "POST")
           (lit "/.well-known/est/simpleenroll") (Some pop_csr) ct_pkcs10 (proxy_world demanding)
           (gives EST_ERR_MALLOC (proxied_enroll (proxy_world demanding)))).
  - apply outcome_split. vm_compute. reflexivity.
  - apply H.
  - apply H.
Defined.

(** The proof of possession of another session stops the request at the proxy. *)
Abbreviation stolen_enroll :=
  (est_proxy_http_request (L := library) false None (lit "3.2.0") junk (lit "POST")
     (lit "/.well-known/est/simpleenroll") (Some (lit "Pother")) ct_pkcs10).

Lemma est_proxy_http_request_guarded_witness :
  let w := proxy_world demanding in
  gives EST_ERR_NONE (stolen_enroll w) = EST_ERR_AUTH_FAIL_TLSUID /\
  gives EST_ERR_MALLOC (proxied_enroll w) = EST_ERR_NONE /\
  behind (L := library)
    (proxy_guard (L := library) false None (lit "POST") (lit "/.well-known/est/simpleenroll")
       (Some pop_csr) ct_pkcs10 w) w (ends w (proxied_enroll w)).
Proof.
  cbv zeta. split; [vm_compute; reflexivity|]. split; [vm_compute; reflexivity|].
  apply (est_proxy_http_request_guarded (L := library) false None (lit "3.2.0") junk b64_no_nul
           (lit "POST") (lit "/.well-known/est/simpleenroll") (Some pop_csr) ct_pkcs10
           (proxy_world demanding) (gives EST_ERR_MALLOC (proxied_enroll (proxy_world demanding)))).
  apply outcome_split. vm_compute. reflexivity.
Defined.

(** The upstream server cannot be reached. *)
Lemma est_proxy_http_request_status_witness :
  let w := proxy_world [] in let r := proxied_enroll w in
  gives EST_ERR_MALLOC r = EST_ERR_IP_CONNECT /\
  proxy_refused (gives EST_ERR_MALLOC r) (status_code (w_conn (ends w r))) /\
  exists w1 rv w2,
    upstream_ready (L := library) false None (lit "POST") (lit "/.well-known/est/simpleenroll")
      (Some pop_csr) ct_pkcs10 w = Some (Some (EST_OP_SIMPLE_ENROLL, 0%nat, false), w1) /\
    upstream_answer false (lit "3.2.0") junk EST_OP_SIMPLE_ENROLL 0 false (Some pop_csr) w1 = Some (rv, w2) /\
    rv = EST_ERR_IP_CONNECT /\ status_code (w_conn (ends w r)) = 504.
Proof.
  cbv zeta. split; [vm_compute; reflexivity|].
  destruct (est_proxy_http_request_status (L := library) false None (lit "3.2.0") junk (lit "POST")
           (lit "/.well-known/est/simpleenroll") (Some pop_csr) ct_pkcs10 (proxy_world [])
           (gives EST_ERR_MALLOC (proxied_enroll (proxy_world [])))
           (ends (proxy_world []) (proxied_enroll (proxy_world [])))) as [Href (r & w1 & Er & Ha)].
  - apply outcome_split. vm_compute. reflexivity.
  - vm_compute. reflexivity.
  - split; [apply Href; vm_compute; discriminate|].
    assert (Hr : r = Some (EST_OP_SIMPLE_ENROLL, 0%nat, false)).
    { change r with (default None (fst <$> Some (r, w1))). rewrite <- Er. vm_compute. reflexivity. }
    destruct (Ha _ _ _ Hr) as (rv & w2 & Eu & Hf). subst r.
    assert (Hrv : rv = EST_ERR_IP_CONNECT).
    { change rv with (default EST_ERR_NONE (fst <$> Some (rv, w2))). rewrite <- Eu.
      assert (Hw : w1 = default (proxy_world []) (snd <$> upstream_ready (L := library) false None (lit "POST")
               (lit "/.well-known/est/simpleenroll") (Some pop_csr) ct_pkcs10 (proxy_world []))) by (by rewrite Er).
      rewrite Hw. vm_compute. reflexivity. }
    exists w1, rv, w2. split; [exact Er|]. split; [exact Eu|]. split; [exact Hrv|].
    rewrite Hrv in Hf. destruct Hf as [Hs|[? _]]; [split; [done|by intros [? _]]|exact Hs|done].
Defined.

(** A key of three bytes and a certificate of four. *)
Lemma proxy_keygen_length_witness :
  exists cl head body w',
    est_proxy_propagate_keygen_rsp (L := library) (lit "KEY") (lit "CERT") proxy_start
      = Some (EST_ERR_NONE, w') /\
    w_trace w' = w_trace proxy_start ++ map EvWrite (proxy_keygen_parts (lit "KEY") (lit "CERT")) /\
    concat (proxy_keygen_parts (lit "KEY") (lit "CERT"))
      = head ++ ServerResponseProps.field EST_HTTP_HDR_CL cl ++ crlf ++ body /\
    ServerResponseProps.dec_value cl = 7 /\ Z.of_nat (length body) = ServerResponseProps.dec_value cl + 246.
Proof.
  apply (proxy_keygen_length (L := library) (lit "KEY") (lit "CERT") proxy_start).
  - discriminate.
  - discriminate.
  - vm_compute. discriminate.
  - reflexivity.
Defined.

(** The thread has a context, its upstream server now sends the certificate at once, in
    two pieces. *)
Definition served_cert : list bytes := [take 50 answer_cert; drop 50 answer_cert].
Definition serving_peer : EstState.connection := ClientWitnesses.reachable est_peer (map R_data served_cert ++ [R_none]).
Definition refused_first : world := ends proxy_start (proxied_enroll (proxy_world [])).
Definition transparent_world : world := with_conns [serving_peer] refused_first.
Definition thread_ctx : EST_CTX :=
  default zero_ctx (thread_ctxs (L := library) (w_proxy transparent_world) !! 1).

Lemma default_some {A} (d : A) (o : option A) :
  match o with Some _ => true | None => false end = true -> o = Some (default d o).
Proof. by destruct o. Qed.

Lemma transparent_world_thread : cur_threadid (w_proxy transparent_world) = 1.
Proof. vm_compute. reflexivity. Qed.

Lemma transparent_world_well_formed : well_formed (L := library) (w_proxy transparent_world).
Proof.
  unfold transparent_world. rewrite with_conns_proxy.
  destruct (proxy_world_well_formed []) as [Hwf Hid].
  eapply (isolated_http_request (L := library)); [|exact Hid|exact Hwf].
  apply (outcome_split EST_ERR_MALLOC proxy_start). vm_compute. reflexivity.
Qed.

Lemma est_peer_accepted c : est_server (client c) = lit "est.example.com" ->
  accepted_server (L := library) est_peer c.
Proof.
  intros Hs w Hc _. unfold est_client_check_fqdn.
  rewrite (bind_run get_ctx _ w (w_ctx w) w) by done. rewrite Hc. cbn -[est_client_verifyhost].
  rewrite Hs. reflexivity.
Qed.

Lemma proxy_enroll_transparent_witness :
  let w := transparent_world in let c := thread_ctx in
  let header := hdr_200 EST_HTTP_CT_PKCS7_CO 8 in
  exists w', forward_enroll (L := library) false None (lit "3.2.0") junk (Some pop_csr) None false true w
      = Some ((EST_ERR_NONE, Some (lit "Q0VSVA==")), w') /\
    w_trace w' = w_trace w ++
      [EvConnect (connect_opts (client c)) (est_server (client c)) (est_port_num (client c));
       EvClientWrite (wire_text (lit "3.2.0") (client c) EST_SIMPLE_ENROLL pop_csr []); EvDisconnect;
       EvWrite header; EvWrite (lit "Q0VSVA==")].
Proof.
  cbv zeta.
  assert (Es : est_server (client thread_ctx) = lit "est.example.com") by (vm_compute; reflexivity).
  apply (proxy_enroll_transparent (L := library) false None (lit "3.2.0") junk false pop_csr thread_ctx
           est_peer served_cert [] serving_peer []).
  - apply transparent_world_well_formed.
  - rewrite transparent_world_thread. reflexivity.
  - rewrite transparent_world_thread. apply default_some. vm_compute. reflexivity.
  - split; [by apply HttpParseProps.lit_text|discriminate| | | |].
    + rewrite Es. by apply HttpParseProps.lit_text.
    + rewrite Es. discriminate.
    + vm_compute. discriminate.
    + vm_compute. reflexivity.
  - split; vm_compute; discriminate.
  - vm_compute. reflexivity.
  - vm_compute. reflexivity.
  - vm_compute. reflexivity.
  - vm_compute. reflexivity.
  - vm_compute. reflexivity.
  - apply with_conns_net.
  - split; try (vm_compute; reflexivity); try reflexivity. vm_compute. repeat constructor; discriminate.
  - by apply est_peer_accepted.
  - vm_compute. reflexivity.
  - discriminate.
  - intros [H|[H|[]]]; discriminate H.
  - vm_compute. discriminate.
Defined.
