(* ===== verification/CoapWitnesses.v ===== *)
(** * CoapWitnesses: the theorems on the CoAP server at concrete runs

    A message is its options, its blocks and its data.  A server is initialised, made
    to serve two sessions, started, and a device opens a session. *)

From stdpp Require Import gmap.
From S2P Require Import Prelude.
From S2P Require Import SafeC.
From S2P Require Import EstTypes.
From S2P Require Import EstState.
From S2P Require Import EstUtil.
From S2P Require Import ServerAuth.
From S2P Require Import ServerEnroll.
From S2P Require Import CoapReq.
From S2P Require Import CoapServer.
From S2P Require Import EstLogic.
From S2P Require Import ServerDispatchProps.
From S2P Require Import CoapReqProps.
From S2P Require Import CoapProps.
From S2P Require Import CoapUploadProps.
From S2P Require Import CoapReplyProps.
From S2P Require Import CoapSafety.
From S2P Require Import Toy.
Import Toy.

(** ** A library *)

Record message := {
  m_options : list (Z * bytes);
  m_block1 : option coap_block_t;
  m_data : option bytes
}.

#[export] Instance coap_library : CoapLib := {
  coap_pdu := message;
  coap_opt := bytes;
  coap_opt_iterator := list (Z * bytes);
  coap_check_option p n :=
    match filter (fun o => fst o = n) (m_options p) with [] => None | o :: r => Some (snd o, r) end;
  coap_opt_value o := o;
  coap_decode_var_bytes v := fold_left (fun n c => n * 256 + c) v 0;
  coap_option_next r := negb (bool_decide (r = []));
  coap_get_data := m_data;
  coap_get_block p n := if n =? COAP_OPTION_BLOCK1 then m_block1 p else None;
  coap_encode_var_safe _ n := [n];
  coap_add_option p n v := Build_message (m_options p ++ [(n, v)]) (m_block1 p) (m_data p);
  coap_add_data_blocked_response _ _ media _ data :=
    (205, Build_message [(COAP_OPTION_CONTENT_TYPE, [media])] None (Some data));
  inet_ntop6 _ := None;
  src_ipstr_frame := replicate 48 0
}.

Definition no_reply : coap_pdu (CoapLib := coap_library) := Build_message [] None None.
Definition pkcs10 : list (Z * bytes) := [(COAP_OPTION_CONTENT_TYPE, [1; 30])].
Definition der_csr : bytes := 4 :: repeat 65 35.
Definition csr_message : coap_pdu (CoapLib := coap_library) := Build_message pkcs10 None (Some der_csr).

(** The certificate of the device, and its address. *)
Definition device_addr : coap_address_t := AF_INET 5683 [1; 2; 3; 4].
Definition device : coap_session_t := Build_coap_session_t _ device_addr (Some good_tls).
Definition device_key : bytes := lit "56831.2.3.4".

Lemma device_addr_good : good_addr device_addr.
Proof. split; [lia|]. repeat constructor; unfold is_byte; lia. Qed.

Definition junk (n : nat) : bytes := repeat 88 n.

Definition coap_server : EST_CTX :=
  set_transport_mode EST_COAP
    (set_require_http_auth HTTP_AUTH_NOT_REQUIRED (set_server_enable_pop false server)).
Definition coap_world : world := start coap_server [] good_tls.

(** ** Runs *)

Definition state : Type := EST_COAP_CTX * world (L := library).

Definition after_run {A} (m : CM A) (st : state) : state :=
  match m (fst st) (snd st) with Some (_, s, w) => (s, w) | None => st end.
Definition returns {A} (m : CM A) (st : state) (f : A -> bool) : bool :=
  match m (fst st) (snd st) with Some (inr a, _, _) => f a | _ => false end.

Lemma returns_run {A} (m : CM A) st f : returns m st f = true ->
  exists a, f a = true /\ m (fst st) (snd st) = Some (inr a, fst (after_run m st), snd (after_run m st)).
Proof.
  unfold returns, after_run. destruct (m (fst st) (snd st)) as [[[[e|a] s] w]|]; [done| |done].
  intros H. by exists a.
Qed.

Definition is_none (rv : EST_ERROR) : bool := bool_decide (rv = EST_ERR_NONE).

(** The state after the initialisation, the configuration, the start and the opening
    of a session. *)
Definition made : state := after_run coap_init (zero_coap_ctx, coap_world).
Definition small : state := after_run (est_server_set_dtls_session_max 2) made.
Definition started : state := after_run (est_server_coap_init_start true 5684) small.
Definition opened : state := after_run (est_coap_event_handler COAP_EVENT_DTLS_CONNECTED device_addr) started.

Lemma made_run : coap_init zero_coap_ctx coap_world = Some (inr EST_ERR_NONE, fst made, snd made).
Proof.
  destruct (returns_run coap_init (zero_coap_ctx, coap_world) is_none) as (rv & Hr & E); [vm_compute; reflexivity|].
  unfold is_none in Hr. apply bool_decide_eq_true_1 in Hr as ->. exact E.
Qed.

Lemma small_run :
  est_server_set_dtls_session_max 2 (fst made) (snd made) = Some (inr EST_ERR_NONE, fst small, snd small).
Proof.
  destruct (returns_run (est_server_set_dtls_session_max 2) made is_none) as (rv & Hr & E); [vm_compute; reflexivity|].
  unfold is_none in Hr. apply bool_decide_eq_true_1 in Hr as ->. exact E.
Qed.

Lemma started_run :
  est_server_coap_init_start true 5684 (fst small) (snd small) = Some (inr EST_ERR_NONE, fst started, snd started).
Proof.
  destruct (returns_run (est_server_coap_init_start true 5684) small is_none) as (rv & Hr & E); [vm_compute; reflexivity|].
  unfold is_none in Hr. apply bool_decide_eq_true_1 in Hr as ->. exact E.
Qed.

Lemma opened_run :
  est_coap_event_handler COAP_EVENT_DTLS_CONNECTED device_addr (fst started) (snd started)
  = Some (inr tt, fst opened, snd opened).
Proof.
  destruct (returns_run (est_coap_event_handler COAP_EVENT_DTLS_CONNECTED device_addr) started (fun _ => true))
    as ([] & _ & E); [vm_compute; reflexivity|]. exact E.
Qed.

Lemma started_wf : coap_wf (fst started).
Proof.
  eapply start_wf; [| |exact started_run]; [|done].
  eapply session_max_wf; [|exact small_run|done]; []. eapply coap_init_wf. exact made_run.
Qed.

Lemma event_valid s event addr w r s' w' : valid s -> good_addr addr ->
  est_coap_event_handler event addr s w = Some (r, s', w') -> valid s'.
Proof. intros Hv Ha H. by destruct (event_handler_ran _ _ _ _ _ _ _ Hv Ha H). Qed.

Lemma toy_room : ipstr_room.
Proof. unfold ipstr_room, INET6_ADDRSTRLEN. cbn. lia. Qed.

Lemma opened_valid : valid (fst opened).
Proof. exact (event_valid _ _ _ _ _ _ _ (wf_valid _ started_wf) device_addr_good opened_run). Qed.

Abbreviation toy_resources := (est_server_coap_init_resources true None (lit "v") junk).
Abbreviation toy_coap_reachable := (coap_reachable true None (lit "v") junk).

Lemma coap_reachable_wf_witness :
  toy_coap_reachable (fst opened) (snd opened) /\ coap_req_cnt (fst opened) = 1 /\ coap_wf (fst opened).
Proof.
  assert (H : toy_coap_reachable (fst opened) (snd opened)).
  { eapply coap_event; [| |apply device_addr_good|exact opened_run].
    - eapply coap_started; [| |exact started_run]; [|done].
      eapply coap_session_max; [|exact small_run|done]. eapply coap_initialised. exact made_run.
    - vm_compute. discriminate. }
  split; [exact H|]. split; [vm_compute; reflexivity|]. exact (coap_reachable_wf _ _ _ _ _ _ H).
Defined.

(** ** Clients *)

(** The node at an index. *)
Definition node_in (s : EST_COAP_CTX) (i : nat) : coap_req_node_t :=
  default zero_req (coap_req_array s ≫= (.!! i)).
Definition node_here (s : EST_COAP_CTX) (k : bytes) (i : nat) : bool :=
  match coap_req_array s ≫= (.!! i) with
  | Some n => bool_decide (node_key n = k) && negb (bool_decide (k = []))
  | None => false
  end.

Lemma node_here_at s k i : node_here s k i = true -> node_at s k i (node_in s i).
Proof.
  unfold node_here, node_in, node_at. destruct (coap_req_array s) as [arr|]; cbn; [|done].
  destruct (arr !! i) as [n|] eqn:E; cbn; [|done]. intros H. b2p. by exists arr.
Qed.

Definition enrolled (e : event) : bool := match e with EvEnrollCb _ _ _ _ => true | _ => false end.

Abbreviation enroll_message session := 
  (est_coap_sen_handler true None (lit "v") junk (lit "est/sen") session csr_message no_reply).

Lemma enroll_resource : (lit "est/sen", COAP_REQUEST_POST, est_coap_sen_handler true None (lit "v") junk) ∈ toy_resources.
Proof. left. Qed.

(** The device enrolls. *)
Definition served : state := after_run (enroll_message device) opened.

Lemma coap_callbacks_guarded_witness :
  existsb enrolled (w_trace (snd served)) = true /\
  guarded (coap_guard (lit "est/sen") device (snd opened) (snd served)) (snd opened) (snd served).
Proof.
  split; [vm_compute; reflexivity|].
  destruct (returns_run (enroll_message device) opened (fun _ => true)) as (a & _ & E); [vm_compute; reflexivity|].
  refine (coap_callbacks_guarded true None (lit "v") junk b64_no_nul _ _ _ _ _ _ _ _ _ _ _ _ enroll_resource _ E).
  vm_compute. reflexivity.
Defined.

(** Another device enrolls: what the server has of the first one stays. *)
Definition other : coap_session_t := Build_coap_session_t _ (AF_INET 5683 [5; 6; 7; 8]) (Some good_tls).
Definition served_other : state := after_run (enroll_message other) opened.

Lemma coap_handler_isolated_witness :
  size (reqs (fst opened)) = 1%nat /\ size (reqs (fst served_other)) = 2%nat /\ valid (fst served_other) /\
  reqs (fst served_other) !! device_key = reqs (fst opened) !! device_key.
Proof.
  split; [vm_compute; reflexivity|]. split; [vm_compute; reflexivity|].
  destruct (returns_run (enroll_message other) opened (fun _ => true)) as (a & _ & E); [vm_compute; reflexivity|].
  assert (Ha : good_addr (remote_addr other)).
  { split; [lia|]. repeat constructor; unfold is_byte; lia. }
  destruct (coap_handler_isolated true None (lit "v") junk _ _ _ _ _ _ _ _ _ _ _ _ enroll_resource Ha opened_valid E)
    as (Hv & _ & _ & Ho).
  split; [exact Hv|]. apply (Ho device_addr device_key device_addr_good); [|reflexivity].
  vm_compute. split; [reflexivity|right; discriminate].
Defined.

(** A third device finds no node; the session of the first is closed. *)
Definition third_addr : coap_address_t := AF_INET 5683 [9; 9; 9; 9].

Lemma coap_requests_refine_witness :
  search_key device_addr = Some device_key /\ size (reqs (fst opened)) = 1%nat /\
  (exists r s', get_coap_req device_addr EST_COAP_REQ_CRTS (fst opened) (snd opened) = Some (inr r, s', snd opened) /\
     valid s' /\ get_req_spec device_addr EST_COAP_REQ_CRTS (fst opened) s' r) /\
  exists s', est_coap_event_handler COAP_EVENT_DTLS_CLOSED device_addr (fst opened) (snd opened)
             = Some (inr tt, s', snd opened) /\ valid s' /\
    reqs s' = event_spec COAP_EVENT_DTLS_CLOSED device_addr (fst opened).
Proof.
  split; [reflexivity|]. split; [vm_compute; reflexivity|].
  exact (coap_requests_refine (fst opened) device_addr EST_COAP_REQ_CRTS COAP_EVENT_DTLS_CLOSED (snd opened)
           toy_room opened_valid device_addr_good).
Defined.

(** ** Blocks *)

(** The node of the device, for an enrollment. *)
Definition asked : state := after_run (need_req device_addr EST_COAP_REQ_SEN) opened.

Lemma asked_valid : valid (fst asked).
Proof.
  destruct (get_coap_req_spec_all (fst opened) device_addr EST_COAP_REQ_SEN (snd opened) toy_room opened_valid device_addr_good)
    as (r & s & E & Hv & _).
  unfold asked, after_run, need_req. rewrite (cbind_run _ _ _ _ _ _ _ E). by destruct r.
Qed.

(** The device sends its CSR of 36 bytes in three blocks, the second one twice. *)
Definition csr_chunk (j : nat) : bytes := take 16 (drop (16 * j) der_csr).
Definition csr_block (j : nat) : coap_pdu (CoapLib := coap_library) :=
  Build_message pkcs10 (Some (Build_coap_block_t (Z.of_nat j) (bool_decide (j < 2)%nat) 0)) (Some (csr_chunk j)).

Lemma csr_in_blocks : in_blocks 0 2 csr_chunk der_csr.
Proof.
  split; [done|reflexivity| |done|done|done]. intros [|[|j]] Hj; [reflexivity..|lia].
Qed.

Lemma csr_upload media : upload media 0 2 csr_block csr_message csr_chunk der_csr.
Proof. split; [apply csr_in_blocks|by intros|by intros]. Qed.

Lemma csr_arrives : arrives 2 0 [0; 1; 1; 2]%nat.
Proof.
  apply arrives_next; [lia|]. apply arrives_next; [lia|]. apply arrives_again; [lia|]. apply arrives_last.
Qed.

Abbreviation sen_message p :=
  (sen_receive true None (lit "v") junk 1 (lit "est/sen") good_tls alice SIMPLE_ENROLL_REQ p no_reply).

Lemma coap_upload_blockwise_witness :
  returns (sen_message csr_message) asked (fun _ => true) = true /\
  deliver (fun p => sen_message p) (csr_block <$> [0; 1; 1; 2]%nat) (fst asked) (snd asked)
  = sen_message csr_message (fst asked) (snd asked).
Proof.
  split; [vm_compute; reflexivity|].
  assert (Hat : node_at (fst asked) device_key 1 (node_in (fst asked) 1)) by (apply node_here_at; vm_compute; reflexivity).
  assert (Hn : nothing_received (node_in (fst asked) 1)) by (split; vm_compute; reflexivity).
  exact (proj1 (coap_upload_blockwise true None (lit "v") junk 1 (lit "est/sen") good_tls alice SIMPLE_ENROLL_REQ no_reply
    0 2 csr_block csr_message csr_chunk der_csr [0; 1; 1; 2]%nat device_key (fst asked) _ (snd asked)
    asked_valid Hat Hn csr_arrives) (csr_upload _)).
Defined.

(** A message of 16385 bytes. *)
Definition long_message : coap_pdu (CoapLib := coap_library) := Build_message pkcs10 None (Some (repeat 65 (Z.to_nat 16385))).

Lemma coap_block_overflow_witness : receive_request 1 long_message no_reply (fst asked) (snd asked) = None.
Proof.
  assert (Hat : node_at (fst asked) device_key 1 (node_in (fst asked) 1)) by (apply node_here_at; vm_compute; reflexivity).
  apply (proj2 (coap_block_overflow 1 (fst asked) device_key (node_in (fst asked) 1) long_message (repeat 65 (Z.to_nat 16385)) no_reply
    (snd asked) asked_valid Hat eq_refl (or_introl eq_refl))).
  vm_compute. reflexivity.
Defined.

(** ** Answers *)

Definition asked_key : state := after_run (need_req device_addr EST_COAP_REQ_SKG) opened.

Lemma asked_key_valid : valid (fst asked_key).
Proof.
  destruct (get_coap_req_spec_all (fst opened) device_addr EST_COAP_REQ_SKG (snd opened) toy_room opened_valid device_addr_good)
    as (r & s & E & Hv & _).
  unfold asked_key, after_run, need_req. rewrite (cbind_run _ _ _ _ _ _ _ E). by destruct r.
Qed.

Abbreviation make_response := (skg_response 1 (Some (lit "QUJD")) (Some (lit "REVG"))).
Definition with_key : state := after_run make_response asked_key.

Lemma skg_response_decodes_witness :
  response_data (node_in (fst with_key) 1)
  = [132; 25; 1; 28; 67; 68; 69; 70; 25; 1; 25; 67; 65; 66; 67] /\
  exists cert_b64 key_b64 max cert_der key_der n',
    Some (lit "QUJD") = Some cert_b64 /\ Some (lit "REVG") = Some key_b64 /\
    decoded key_b64 (COAP_REQ_NODE_BUF_LEN_MAX - 5) key_der /\ decoded cert_b64 max cert_der /\
    node_at (fst with_key) device_key 1 n' /\
    decode_skg (response_data n') = Some ((284, key_der), (281, cert_der)).
Proof.
  split; [vm_compute; reflexivity|].
  destruct (returns_run make_response asked_key (fun _ => true)) as ([] & _ & E); [vm_compute; reflexivity|].
  assert (Hat : node_at (fst asked_key) device_key 1 (node_in (fst asked_key) 1)) by (apply node_here_at; vm_compute; reflexivity).
  exact (skg_response_decodes _ _ _ _ _ _ _ _ _ asked_key_valid Hat E).
Defined.

Lemma skg_response_valid i cert key s w s' w' k n : valid s -> node_at s k i n ->
  skg_response i cert key s w = Some (inr tt, s', w') -> valid s'.
Proof.
  intros Hv Hat H. exact (kp_valid _ _ _ _ (keeps_skg_response k i _ _ _ _ _ _ _ H Hv (ex_intro _ n Hat))).
Qed.

Lemma with_key_valid : valid (fst with_key).
Proof.
  destruct (returns_run make_response asked_key (fun _ => true)) as ([] & _ & E); [vm_compute; reflexivity|].
  assert (Hat : node_at (fst asked_key) device_key 1 (node_in (fst asked_key) 1)) by (apply node_here_at; vm_compute; reflexivity).
  exact (skg_response_valid _ _ _ _ _ _ _ _ _ asked_key_valid Hat E).
Qed.

(** A client with another certificate, from the same address. *)
Definition mallory : cert := {| c_subject := lit "mallory"; c_ra := false |}.
Definition intruder : coap_session_t := Build_coap_session_t _ device_addr (Some (tls (Some mallory) 18)).
Definition next_block : coap_pdu (CoapLib := coap_library) := Build_message pkcs10 None None.

Lemma skg_response_resumed_witness :
  exists s' w', est_coap_skg_handler true None (lit "v") junk (lit "est/skg") intruder next_block no_reply
                  (fst with_key) (snd with_key)
    = Some (inr (coap_add_data_blocked_response next_block (204, no_reply) COAP_MEDIA_TYPE_MULTI (-1)
                   (response_data (node_in (fst with_key) 1))), s', w') /\ reqs s' = reqs (fst with_key).
Proof.
  assert (Hat : node_at (fst with_key) device_key 1 (node_in (fst with_key) 1)) by (apply node_here_at; vm_compute; reflexivity).
  apply (skg_response_resumed true None (lit "v") junk (lit "est/skg") intruder (tls (Some mallory) 18) mallory next_block
           no_reply (fst with_key) (snd with_key) device_key 1 (node_in (fst with_key) 1) toy_room with_key_valid device_addr_good);
    [reflexivity|exact Hat|vm_compute; reflexivity|vm_compute; discriminate|reflexivity|reflexivity|reflexivity|by left].
Defined.

Lemma dtls_timeout_doubles_witness :
  timeout (set_dtls_handshake_timer 5 zero_coap_ctx) 3 = 40000000.
Proof. apply (dtls_timeout_doubles (set_dtls_handshake_timer 5 zero_coap_ctx) 3). cbn. lia. Defined.
