(* ===== verification/AppWitnesses.v ===== *)
(** * AppWitnesses: the theorems on the server application at concrete runs

    A tenant is enrolled and asks for its CA certificates, three requests with one key
    pass the simulated operator, and a client logs in with the built-in password. *)

From stdpp Require Import gmap.
From S2P Require Import Prelude.
From S2P Require Import SafeC.
From S2P Require Import EstTypes.
From S2P Require Import EstState.
From S2P Require Import EstUtil.
From S2P Require Import HttpAuth.
From S2P Require Import CredentialProps.
From S2P Require Import Tenants.
From S2P Require Import TenantsProps.
From S2P Require Import ServerApp.
From S2P Require Import ServerAppProps.
From S2P Require Import Toy.
From S2P Require Import ClientWitnesses.
Local Open Scope Z_scope.

(** A shell that writes a byte to every file a command line names, and fails for a line
    that is no simple command. *)
Definition toy_shell (cmd : bytes) (fs : files_t) : Z * files_t :=
  match sh_parse cmd with
  | Some c => (0, foldr (fun p fs => <[p := [1]]> fs) fs (sh_written c))
  | None => (1, fs)
  end.

Lemma toy_shell_frame : shell_frame toy_shell (fun _ _ => False).
Proof.
  intros cmd c fs p Hc Hp _. unfold toy_shell. rewrite Hc. cbn [snd]. induction (sh_written c) as [|q l IH]; [done|].
  apply not_elem_of_cons in Hp as [Hq Hp]. cbn [foldr]. rewrite lookup_insert_ne by congruence. by apply IH.
Qed.

Definition tenant_host : host :=
  Build_host (<[ca_cert_path (lit "iot") := lit "CA"]> (<[config_file (lit "gateway") := lit "cnf"]> ∅)) [] [] [].

Lemma tenant_enroll_isolated_witness :
  exists h', multi_tenant_enroll toy_shell id (lit "MIIB") (Some (lit "iot")) tenant_host = Some (Some [1], h') /\
    settled (lit "iot") h' /\ files h' !! config_file (lit "gateway") = Some (lit "cnf").
Proof.
  destruct (tenant_enroll_isolated toy_shell id (fun _ _ => False) toy_shell_frame (fun t p _ F => False_ind _ F)
              (lit "iot") (lit "MIIB") tenant_host) as [_ H].
  destruct (H eq_refl) as [H1 H2]. destruct (H1 eq_refl) as (h' & E & Hs). exists h'.
  destruct (H2 _ _ E) as [Hf _]. split; [|split; [exact Hs|]].
  - assert (Em : made toy_shell (lit "iot") (lit "MIIB") (files tenant_host) = Some [1]) by (vm_compute; reflexivity).
    rewrite <- Em. exact E.
  - rewrite Hf; vm_compute; reflexivity.
Defined.

Lemma tenant_host_unquoted : unquoted (files tenant_host).
Proof.
  intros p [x Hx]. cbn [files tenant_host] in Hx.
  apply lookup_insert_Some in Hx as [[<- _]|[_ Hx]]; [intros Hq; vm_compute in Hq; intuition discriminate|].
  apply lookup_insert_Some in Hx as [[<- _]|[_ Hx]]; [intros Hq; vm_compute in Hq; intuition discriminate|].
  by rewrite lookup_empty in Hx.
Qed.

Lemma tenant_cacerts_confined_witness :
  exists r h', multi_tenant_cacerts toy_shell (Some (lit "iot")) tenant_host = Some (r, h') /\
    r = cacerts_made toy_shell (lit "iot") (files tenant_host) /\
    cacerts_made toy_shell (lit "iot") (files tenant_host) = Some [1].
Proof.
  destruct (tenant_cacerts_confined toy_shell id (fun _ _ => False) toy_shell_frame (Some (lit "iot")) tenant_host
              tenant_host_unquoted) as (r & h' & E & _ & _ & _ & Hr & _).
  exists r, h'. split; [exact E|]. split; [exact (Hr eq_refl)|vm_compute; reflexivity].
Defined.

(** Requests with the one key of every CSR: from a client without a certificate, for a
    tenant, one that is no CSR, one for key generation that names no tenant, and one that
    names a tenant. *)
Definition approving : app_options := Build_app_options false true true false None [] [].

Definition alice_cert : option (X509 (OpenSSL := Toy.library)) := Some Toy.alice.

Definition five_requests : list (app_request (L := Toy.library)) :=
  [Build_app_request false (lit "PA") None None;
   Build_app_request false (lit "PB") alice_cert (Some (lit "iot"));
   Build_app_request false [] None None;
   Build_app_request true (lit "PC") None (Some (lit "elsewhere"));
   Build_app_request true (lit "PC") alice_cert (Some (lit "iot"))].

Lemma manual_enroll_alternates_witness :
  exists h', enrollments (L := Toy.library) true id toy_shell id (fun csr => mret (Some csr)) approving
               five_requests (Build_host ∅ [] [] []) = Some ([true; false; false; false; true], h').
Proof.
  destruct (manual_enroll_alternates (L := Toy.library) true id toy_shell id (fun csr => mret (Some csr)) approving
              five_requests (Build_host ∅ [] [] []) eq_refl) as (h' & E & _).
  - intros csr h _. by exists (Some csr), h.
  - repeat apply Forall_cons_2; try apply Forall_nil_2; intros [=].
  - reflexivity.
  - reflexivity.
  - exists h'. exact E.
Defined.

(** The realm of the client's Digest login is the server's. *)
Definition app_of_estrealm : app_options :=
  Build_app_options false false false false None [] (ha1_value (L := Toy.library) (lit "estrealm")).

Definition uri_of_login : bytes := lit "/.well-known/est/simpleenroll".

Definition login_world : world (L := Toy.library) :=
  Toy.start (set_auth_mode AUTH_DIGEST Toy.server)
    [(lit "Authorization", authorization (w_ctx digest_client) uri_of_login digest_login)] Toy.anon_tls.

Lemma app_checks_credentials_witness :
  exists ah w1, mg_parse_auth_header (Some empty_ah) login_world = Some ((EST_AUTH_HDR_GOOD, Some ah), w1) /\
    process_http_auth app_of_estrealm ah w1 = Some (knows app_of_estrealm (w_ctx digest_client) uri_of_login digest_login, w1) /\
    knows app_of_estrealm (w_ctx digest_client) uri_of_login digest_login = true.
Proof.
  destruct (app_checks_credentials (L := Toy.library) app_of_estrealm toy_base64 toy_md5_16
              digest_login uri_of_login digest_client login_world) as (ah & w1 & E & H).
  - split_and!; try (vm_compute; reflexivity). by eexists.
  - split_and!; first [discriminate|apply quotable_check; vm_compute; reflexivity|vm_compute; discriminate|split_and!|idtac].
    all: first [vm_compute; discriminate|apply Forall_forall; intros c Hc; vm_compute in Hc;
                repeat destruct Hc as [<-|Hc]; done].
  - reflexivity.
  - reflexivity.
  - vm_compute. reflexivity.
  - intros p [=].
  - constructor.
  - reflexivity.
  - exists ah, w1. split; [exact E|]. split; [exact H|vm_compute; reflexivity].
Defined.
